(* ===== verification/_CoqProject ===== *)
-Q . S2P
Prelude.v
JsString.v
Json.v
Errors.v
Phone.v
Crypto.v
JsNumber.v
Double.v
Date.v
JsonParse.v
Ssrf.v
SsrfSpec.v
Aead.v
Config.v
Schema.v
Webhooks.v
SmsBody.v
PhoneBindings.v
Verifications.v
Matching.v
System.v
RateLimit.v
Hmac.v
Server.v
Auth.v
Inbound.v
WebAuthn.v
Routes.v
Isolation.v
WebhookWorker.v
Client.v
Controller.v
ReactHook.v
Receivers.v
Wire.v
Probe.v
Metrics.v
Counted.v
Abuse.v
AdminWeb.v
Hosted.v
Sdk.v
Cli.v
Commands.v
Loadtest.v
LoadRun.v
LoadSuite.v
DoubleText.v
LoadReport.v
LoadPrep.v
Lifecycle.v
App.v
Element.v
Doctor.v
Assembled.v
Guards.v
Journey.v
Smoke.v
SmokeRun.v
SmokePass.v
SmokeSound.v
Migrate.v
Scripts.v
CliText.v
OwnRows.v
