(* ===== verification/Prelude.v ===== *)
(** * SYROTP: reverse-OTP verification server, a verification development

    SYROTP verifies a phone number the other way round: the server shows the user
    a short message, the user sends it from their phone to a receiver (a phone
    in the country with a SIM card), and the receiver's gateway reports the SMS to
    the server.  The implementation is the server under src/apps/server/src (file
    names without a package below are relative to it), the client packages under
    src/packages, the load-test tool under src/tools/loadtest and the end-to-end
    smoke test src/scripts/smoke.mjs.

    ** The parts and how they interact

    An application calls the HTTP routes with an API key, by itself or through the
    SDK (packages/sdk-js).  It first proves the control of a number once
    ([services/phoneBindings.ts]: a BIND message carries a nonce), then starts
    verifications for it ([services/verifications.ts]: a VERIFY message carries a
    short code).  A gateway signs each reported SMS ([services/hmac.ts]);
    [services/matching.ts] stores it and claims the pending binding or verification
    it answers.  Every transition of a verification writes an event and one delivery
    per subscribed endpoint in the same transaction ([services/webhooks.ts]); a
    worker posts the deliveries ([services/webhookWorker.ts]) to addresses the SSRF
    guard lets through ([lib/ssrfGuard.ts]).  Postgres holds the rows, Redis the
    rate-limit buckets and the gateways' nonces.  WebAuthn ([services/webauthn.ts])
    is the fallback for users who cannot send an SMS.  The user's page polls: through
    the hosted page ([hosted/web]), the custom element (packages/web-component) or
    the React hook (packages/react).  Operators use the dashboard ([admin/web]), the
    metrics ([services/metrics.ts], [services/abuseSignals.ts]) and the command line
    (packages/cli), which calls the administration functions ([admin/]).

    ** The files

    Foundations.
    - [Prelude]: notation scope, tactics, hint databases, list and option lemmas.
    - [JsString], [JsNumber], [Date], [Json]: the string, 32-bit, date and JSON
      functions of the language that the code uses.  [JsonParse]: [JSON.parse] with
      fuel, and that it reads back what [JSON.stringify] printed.  [Double]: binary64
      arithmetic over the Standard Library's [SpecFloat]; [DoubleText]: its
      printing, shortest ([String(x)]) and with a number of decimals ([toFixed]).
    - [Schema] ([db/schema.ts]): one record per table, [DB] as a record of tables, the
      statements ([select], [insert], [update_checked], [delete_where]) with
      the primary keys and unique indexes (partial ones included), transactions as
      a state and exception monad [SM] over a [World] (database, counters, tasks
      started and not awaited).  [Limit1] is the row a [LIMIT 1] without an order
      returns.
    - [Errors] ([lib/errors.ts], [plugins/errorHandler.ts]).

    Libraries of the server.
    - [Phone] ([lib/phone.ts]), [Crypto] ([lib/crypto.ts], [lib/ids.ts]), [Aead]
      ([lib/aead.ts]), [Ssrf] ([lib/ssrfGuard.ts]), [Config] ([config.ts] and the
      start-up refusals of [app.ts]).  [SsrfSpec]: what the guard of [Ssrf] accepts, in
      terms of addresses rather than of its tables.

    Services.
    - [Webhooks] ([services/webhooks.ts]): endpoints, event payloads, fan-out.
    - [SmsBody]: the grammar shared by [extractCode] and [extractBindNonce].
    - [PhoneBindings], [Verifications], [Matching] ([services/] of the same names).
    - [RateLimit] ([services/rateLimit.ts]) over the class [Redis]; [Hmac]
      ([services/hmac.ts]).
    - [WebAuthn] ([services/webauthn.ts]) over the class [WebAuthnLib].
    - [WebhookWorker] ([services/webhookWorker.ts]): what a tick does.
    - [Metrics] ([services/metrics.ts]): the registry; [Counted]: which requests move
      which series; [Abuse] ([services/abuseSignals.ts], [services/receiverGauges.ts]):
      what a refresh computes.

    Handlers.
    - [Server]: the state of one process (database, Redis, audit and [last_used_at]
      writes), request and reply, [services/audit.ts], the shared guards, the order
      in which a handler's effects happen.  [Wire]: requests as they are sent and
      [plugins/rawBody.ts].
    - [Auth] ([services/apiKeys.ts], [plugins/auth.ts], [admin/bootstrap.ts]).
    - [Inbound] ([routes/inbound.ts]); [Routes] ([routes/verifications.ts],
      [routes/webhooks.ts], [routes/phoneBindings.ts], [routes/webauthn.ts]).
    - [App]: the route table and the hooks of [app.ts], [routes/health.ts].

    Administration and pages.
    - [Migrate] ([db/migrate.ts]): the migration runner, one run and many at once;
      [Scripts] ([scripts/bootstrap.ts], [scripts/admin-password-hash.ts]).
    - [Receivers] ([admin/receivers.ts]), [Probe] ([admin/probe.ts]), [AdminWeb]
      ([admin/web]: masks, passwords, queries, hooks), [Hosted] ([hosted/web]).

    Clients.
    - [Client]: what the two browser clients share (the visible state, the view);
      [Controller] and [Element] (packages/web-component), [ReactHook]
      (packages/react), [Sdk] (packages/sdk-js).
    - [Cli] (packages/cli: arguments, .env files, redaction, exit codes), [Commands]
      (its commands over the administration functions), [Doctor] (its checks),
      [CliText] (the text of all it prints, the programs it starts).
    - [Loadtest] (histogram, pool, policies), [LoadRun] (client, fixtures, scenarios),
      [LoadSuite] (suites and exit codes), [LoadPrep] (its fixtures against the
      server), [LoadReport] (the files and summaries it writes): src/tools/loadtest.
    - [Smoke] (src/scripts/smoke.mjs, as a client of any server), [SmokeSound] (what
      it has seen when it passes, and the command that starts it).

    Systems.
    - [System]: the handlers cut into the statements and transactions that other
      processes can interleave with, as an inductive step relation; invariants by
      induction on reachability.
    - [Isolation]: what the fourteen application routes change of other apps;
      [OwnRows]: what the reading ones can tell of them.
    - [Lifecycle]: the event loop of the processes: the worker's timer and guard, the
      refreshers, [workers/webhook.ts] and the shutdown of [index.ts].
    - [Assembled]: the JSON routes behind the route table, the body parser, the guards
      and the error handler.  [Guards] and [Journey]: what the guards and the
      handlers do in a run of several requests.  [SmokeRun] and [SmokePass]: the
      smoke test against the assembled server, request by request and as a whole.

    ** What the theorems show

    Core protocol.  [Matching.processInbound_spec] gives the outcome of an inbound
    SMS on every branch: what is stored, which row is claimed, how the tables change,
    which exceptions are possible and what they leave; [processInbound_idempotent]: a
    redelivered SMS changes nothing; [start_then_sms_verifies] and
    [PhoneBindings.bind_ceremony_completes]: sending what the server showed, in any case and
    spacing, completes the ceremony; [grammars_disjoint]: no SMS is read as both commands.
    [Verifications.startVerification_spec], [pickReceiver_spec],
    [collision_retry_spec], [getVerification_spec], [cancelVerification_spec],
    [hosted_discloses_only_while_pending] and [PhoneBindings.consumeBindNonce_spec]
    specify the single operations, errors included, in the order the code decides.

    Interleavings.  In every reachable state of [System]: each settled verification
    has exactly one event and a pending one has none
    ([one_event_per_verification]); a verified one was answered by an SMS of the
    bound phone through its receiver while it was pending
    ([verified_by_sms_of_bound_phone]); pending rows of a phone are bounded and
    their codes distinct per receiver ([pending_bounded_and_distinct]); states only
    move forward ([verifications_only_move_forward]).  [handlers_refine_steps] ties
    the relation to the service operations (verifications, bindings, inbound SMS, webhook
    endpoints, the background expiry): each, run alone, is a sequence of steps, whether it
    returns or throws.

    Authentication.  [Hmac.verifyGatewayHmac_spec] (accepted exactly when
    every check passes), [accepted_nonce_not_reused], and its limit
    [replay_after_nonce_expiry]; [Auth.requireKey_spec] (who is let through, what a
    refusal counts, and the update of [last_used_at] a known key starts) and
    [bootstrap_keys_authenticate]; [WebAuthn.verifyLogin_spec];
    [RateLimit.rateCheck_window] bounds what a bucket lets through;
    [Inbound.inbound_sms_spec]: the handler reaches the matcher only behind the
    signature and the buckets; [heartbeat_keeps_healthy];
    [Isolation.tenant_isolation]: no application request changes another app's
    rows; [OwnRows.reads_see_own_rows]: nor does a reading one depend on them;
    [App.routes_unambiguous]: no request has two routes, and the routes of a part that is
    switched off are not there; [AdminWeb.admin_guarded].

    Webhooks.  [Webhooks.emit_fans_out], [event_payload_confidential],
    [createWebhookEndpoint_spec], [uniqueValidatedEventTypes_spec];
    [WebhookWorker.delivery_settles] (along the ticks of one worker every delivery
    ends, after at most six claims, delivered, failed or abandoned; what several workers
    can do to each other is [expired_lease_redelivers]), [deliver_gated] (no request without
    the guard and a signature over the sent body), [claims_exclusive].

    Processes.  [Lifecycle.worker_loop_spec] (one tick at a time, one timer, none
    after [stop]) and [worker_process_safe] (no tick begins after a signal, the database is
    closed only when none is in flight, and the exit code is that of the closing);
    [no_tick_while_closing] for the server; [stopped_loop_stays] for the refreshers.

    Observability.  [Counted.refusals_counted]: what the series behind the alerts count;
    [Abuse.computeSignals_spec] equates the merged aggregates with counts over the tables,
    [health_scores_bounded] bounds the score computed in binary64.

    Installation.  [Migrate.each_migration_once]: interleaved and dying migration runs
    apply no file twice or by half; [interrupted_runs_resume]: the next run finishes
    what they left; [migrate_refines_steps] ties the transition system to one run;
    [simpleHash_fnv1a]: its signed 32-bit checksum is FNV-1a;
    [Scripts.bootstrap_script_ready]: what the bootstrap script printed works;
    [password_hash_script_admits]: the printed hash admits the password that was read.

    Administration.  [Receivers.addReceiver_spec], [listReceivers_spec],
    [disabled_receiver_is_out]; [Probe.added_receiver_passes_probe] runs the pairing
    probe over the wire; [Commands.receiver_command_atomic] (the
    probe changes the world as the server it reaches does), [bootstrap_command_spec];
    [Cli.parse_printed_flags], [parseDotenv_print], [redactValue_hides];
    [Doctor.doctor_ok_means_ready]; [CliText.receiver_table_aligned], [exit_line_true],
    [readVersion_reads].

    The server as a whole.  [SmokePass.smoke_passes]: the smoke test, run over the wire
    against the assembled server on a sound installation, exits with 0 and leaves its
    verification verified in the database.  [SmokeSound.smoke_sound]: conversely,
    whatever answers, a run that passes has seen every check hold;
    [smoke_command_codes] gives the exit codes of [syrotp smoke].

    Clients.  [Controller.controller_calls_spec] and its companions specify the
    polling machine, [ReactHook.same_contract] relates the hook to it,
    [Element.element_shows] says what the custom element shows;
    [Hosted.widget_follows_server]; [Sdk.sdk_reads_server],
    [waitForVerification_ends].

    The load-test tool.  [Loadtest.percentile_nearest_rank], [evaluate_pass],
    [pool_exactly_once]; [LoadRun.accepted_run_spec]: what an accepted run has shown;
    [LoadSuite.suite_gate]: when a suite exits with 0;
    [LoadPrep.prepared_fixtures_accepted]: its fixtures authenticate;
    [LoadReport.reports_hide_secrets]: which secrets its files cannot tell apart;
    [standalone_command_reruns]: the command a report records runs the step again;
    [aggregate_lists_steps].  [DoubleText.shortest_reads_back]: a printed decimal
    rounds to the number.

    Libraries.  [Ssrf.isBlockedIp_v4_spec] and [isBlockedV6_groups_spec] equate the
    bit-level block lists with address ranges, [SsrfSpec.assertWebhookUrlSafe_spec] and
    [safe_lookup_never_blocked] state what the guard promises; [Aead.unwrap_wrap] is
    the round trip of encryption at rest; [JsonParse.parse_stringify] that of JSON.

    Findings proved as theorems: [Hmac.replay_after_nonce_expiry],
    [PhoneBindings.second_ceremony_throws], [PhoneBindings.revoke_restamps],
    [WebhookWorker.expired_lease_redelivers], [Ssrf.link_local_quad_accepted],
    [Abuse.failed_rate_never_moves], [AdminWeb.maskInboundBody_leaks],
    [AdminWeb.odd_hash_locks_out], [Controller.late_answer_strands],
    [Controller.stop_inside_start_leaks], [ReactHook.not_a_date_differs],
    [ReactHook.answer_before_effects], [Element.attribute_change_refires],
    [Sdk.null_body_loses_status], [Cli.redactValue_leaks],
    [Cli.inherited_flag_accepted], [Commands.bootstrap_strands_app],
    [Commands.include_disabled_is_dead], [LoadRun.double_verifications_never_counted],
    [Migrate.edited_migration_skipped], [Migrate.late_file_runs_last],
    [Scripts.bootstrap_script_strands_app], [CliText.env_file_not_loaded],
    [CliText.child_cwd], [LoadSuite.suite_fails_on_5xx], [LoadPrep.first_replay_accepted],
    [LoadReport.report_leaks_passwords], [LoadReport.rate_limited_counted_twice],
    [SmokeSound.local_phone_other_region], [SmokeSound.second_receiver_fails_smoke],
    [Lifecycle.second_start_survives_stop], [Lifecycle.older_refresh_wins],
    [Lifecycle.failing_tick_goes_on], [WorkerProcess.uncaught_exception_exits_zero],
    [WorkerProcess.unhandled_rejection_goes_on],
    [ServerProcess.refresh_while_closing].

    ** Bounds and fuel

    Where the code loops, the bound is the code's own: three retries after a code
    collision, six delivery attempts with the code's backoff table, batches of 25
    deliveries, eight IPv6 groups, the deadline of the SDK's wait, the polls of the
    smoke test.  [JSON.parse] has fuel, the length of the text, which
    [json_parse_total] shows is enough; the shortest decimal of a double is searched
    among those of at most 17 digits; the [toString(16)] of a checksum has eight steps.
    The random draws of one request are functions of their index, so a retry reads new
    draws; time is the pair of clocks the code reads (the process's
    and the database's), in milliseconds, and each handler takes the readings it makes.

    ** Parameters and their laws

    What is not in the repository enters as a class or an argument with the
    documented behaviour its clients need, and the witnesses instantiate it with
    concrete functions: libphonenumber ([PhoneLib]), SHA-256 and HMAC ([Digest]), scrypt
    and basic authentication (of [AdminWeb]), AES-GCM ([Gcm]), Redis ([Redis]), the order
    and choice of [LIMIT] ([Limit1], [OrderLimit]), [localeCompare] ([Collation]), the
    WHATWG URL parser and DNS (arguments of [Ssrf]), zod ([Zod], for the shapes it
    checks), @simplewebauthn/server ([WebAuthnLib]), the date strings the language
    leaves to its implementations, the HTTP answers of endpoints and servers, the
    programs and sockets the doctor probes, and the listeners of a page.

    ** What is not modelled

    - Strings hold one character per UTF-16 unit, of at most 255, and the case and
      white-space functions are those of ASCII; [Aead] codes such texts as UTF-8.  Numbers are
      integers, binary64 where the code divides ([Abuse], [Loadtest]); [JSON.parse] has no
      result for a number that is not an integer or not exact and for escapes beyond ASCII.
    - Foreign keys, apart from the cascade from endpoints to deliveries; advisory
      locks, whose effect (the serialisation of the starts of one phone) is an atomic
      step of [System].
    - Histograms, default metrics and the text of the metrics; log lines.
    - The plugins of the web framework that [app.ts] registers; the HTML and CSS of
      the pages beyond what is escaped into them; the copy buttons.
    - Of the load-test tool: the creation of the directories and the clean-up.  Of the
      smoke test: the lines it prints besides the failure and the pauses between its
      polls.  Of the scripts: the line editor of the terminal, which enters as what it
      writes.
    - What the database makes of the text of a migration is an argument of [Migrate].
    - [lib/redis.ts], [db/index.ts], [admin/index.ts]: connections and re-exports; the
      examples, and the SDKs and gateways in other languages.

    ** Plan

    Left: the pages' markup, and what the writing routes of an app can tell of the rows
    of others beyond clashes of identifiers. *)

From Stdlib Require Export ZArith Lia List Bool.
From stdpp Require Export base tactics list option.
From stdpp Require Export strings.
Export List.ListNotations.

#[export] Set Default Goal Selector "!".

Declare Scope js_scope.
Delimit Scope js_scope with js.

(** ** Outcomes: a JavaScript call returns or throws *)

Inductive outcome (E A : Type) : Type :=
  | Return (a : A)
  | Throw (e : E).
Arguments Return {E A} a.
Arguments Throw {E A} e.

Definition returned {E A} (o : outcome E A) : bool :=
  match o with Return _ => true | Throw _ => false end.

(** An effectful function: the state it leaves is kept whether it returns or
    throws, as in JavaScript, where an exception undoes nothing. *)
Definition M (E W A : Type) : Type := W -> outcome E A * W.

Definition ret {E W A} (a : A) : M E W A := fun w => (Return a, w).

Definition bind {E W A B} (m : M E W A) (k : A -> M E W B) : M E W B :=
  fun w => match m w with
           | (Return a, w') => k a w'
           | (Throw e, w') => (Throw e, w')
           end.

Definition throw {E W A} (e : E) : M E W A := fun w => (Throw e, w).

Definition gets {E W A} (f : W -> A) : M E W A := fun w => (Return (f w), w).

Definition modify {E W} (f : W -> W) : M E W unit := fun w => (Return tt, f w).

(** [if (b) throw e;] *)
Definition throw_if {E W} (b : bool) (e : E) : M E W unit :=
  if b then throw e else ret tt.

(** [try { m } catch (e) { h e }]: the state changes of [m] stay. *)
Definition try_catch {E W A} (m : M E W A) (h : E -> M E W A) : M E W A :=
  fun w => match m w with
           | (Return a, w') => (Return a, w')
           | (Throw e, w') => h e w'
           end.

Notation "'let!' x := m 'in' k" := (bind m (fun x => k))
  (at level 10, x binder, m at level 100, k at level 200,
   format "'[v' 'let!'  x  :=  m  'in' '/' k ']'") : js_scope.
Notation "'do!' m 'in' k" := (bind m (fun _ => k))
  (at level 10, m at level 100, k at level 200,
   format "'[v' 'do!'  m  'in' '/' k ']'") : js_scope.

(** ** Equations of the monad *)

Section MonadLaws.
Context {E W A B C : Type}.

Lemma bind_ret (a : A) (k : A -> M E W B) w : bind (ret a) k w = k a w.
Proof. reflexivity. Qed.

Lemma bind_throw (e : E) (k : A -> M E W B) w : bind (throw e) k w = (Throw e, w).
Proof. reflexivity. Qed.

Lemma bind_gets (f : W -> A) (k : A -> M E W B) w : bind (gets f) k w = k (f w) w.
Proof. reflexivity. Qed.

Lemma bind_modify (f : W -> W) (k : unit -> M E W B) w :
  bind (modify f) k w = k tt (f w).
Proof. reflexivity. Qed.

Lemma bind_throw_if b (e : E) (k : unit -> M E W B) w :
  bind (throw_if b e) k w = if b then (Throw e, w) else k tt w.
Proof. destruct b; reflexivity. Qed.

Lemma bind_bind (m : M E W A) (f : A -> M E W B) (g : B -> M E W C) w :
  bind (bind m f) g w = bind m (fun x => bind (f x) g) w.
Proof. unfold bind. destruct (m w) as [[a|e] w']; reflexivity. Qed.

(** A [bind] that returns: its first half returned. *)
Lemma bind_Return_inv (m : M E W A) (k : A -> M E W B) w b w' :
  bind m k w = (Return b, w') ->
  exists a w1, m w = (Return a, w1) /\ k a w1 = (Return b, w').
Proof.
  unfold bind. destruct (m w) as [[a|e] w1]; [eauto | discriminate].
Qed.

(** A [bind] whose first half throws. *)
Lemma bind_Throw (m : M E W A) (k : A -> M E W B) w e w' :
  m w = (Throw e, w') -> bind m k w = (Throw e, w').
Proof. intros Hm. unfold bind. by rewrite Hm. Qed.

(** A [bind] that throws: one of its halves threw. *)
Lemma bind_Throw_inv (m : M E W A) (k : A -> M E W B) w e w' :
  bind m k w = (Throw e, w') ->
  m w = (Throw e, w') \/ exists a w1, m w = (Return a, w1) /\ k a w1 = (Throw e, w').
Proof.
  unfold bind. destruct (m w) as [[a|e1] w1]; [right; eauto |].
  intros H. left. congruence.
Qed.
End MonadLaws.

Create HintDb js discriminated.
Create Rewrite HintDb js.
#[export] Hint Rewrite @bind_ret @bind_throw @bind_gets @bind_modify @bind_throw_if : js.

(** ** Tables: a relation is a list of rows *)

Section Tables.
Context {A : Type}.
Implicit Types (p : A -> bool) (f : A -> A) (t : list A).

(** [SELECT * FROM t WHERE p] *)
Definition select p t : list A := List.filter p t.

(** [UPDATE t SET f WHERE p] *)
Definition update_where p f t : list A := map (fun r => if p r then f r else r) t.

(** [UPDATE t SET f WHERE p RETURNING *] *)
Definition updated p f t : list A := map f (select p t).

(** [DELETE FROM t WHERE p] *)
Definition delete_where p t : list A := List.filter (fun r => negb (p r)) t.

(** A unique index holds when no two rows conflict. *)
Fixpoint no_conflict (conflict : A -> A -> bool) t : bool :=
  match t with
  | [] => true
  | x :: t' => forallb (fun y => negb (conflict x y)) t' && no_conflict conflict t'
  end.

(** A new row clashes with a stored one. *)
Definition clashes (conflict : A -> A -> bool) (r : A) t : bool :=
  existsb (fun x => conflict x r) t.

Lemma select_In p t r : In r (select p t) <-> In r t /\ p r = true.
Proof. apply filter_In. Qed.

Lemma update_where_In p f t r :
  In r (update_where p f t) <->
  (exists r0, In r0 t /\ p r0 = true /\ r = f r0) \/ (In r t /\ p r = false).
Proof.
  unfold update_where. rewrite in_map_iff. split.
  - intros (r0 & <- & Hin). destruct (p r0) eqn:E; eauto.
  - intros [(r0 & Hin & E & ->) | [Hin E]]; eexists; (split; [|exact Hin]); rewrite E; done.
Qed.

Lemma update_where_none p f t : select p t = [] -> update_where p f t = t.
Proof.
  unfold select, update_where. induction t as [|x t IH]; cbn; [done|].
  destruct (p x) eqn:E; [discriminate|]. intros H. by rewrite IH.
Qed.

Lemma length_update_where p f t : length (update_where p f t) = length t.
Proof. apply length_map. Qed.

Lemma select_nil_iff p t : select p t = [] <-> forall r, In r t -> p r = false.
Proof.
  unfold select. induction t as [|x t IH]; cbn; [split; [done|auto]|].
  destruct (p x) eqn:E.
  - split; [discriminate|]. intros H. specialize (H x (or_introl eq_refl)). congruence.
  - rewrite IH. split; [intros H r [<-|Hr]; auto | auto].
Qed.

(** Updating the rows of [p] keeps the rows another predicate selects, when
    the update neither moves rows into it nor changes the ones it keeps. *)
Lemma select_update_where p q f t :
  (forall r, In r t -> p r = true -> q (f r) = false) ->
  select q (update_where p f t) = select (fun r => negb (p r) && q r) t.
Proof.
  unfold select, update_where. induction t as [|x t IH]; cbn; intros H; [done|].
  destruct (p x) eqn:E; cbn.
  - rewrite (H x) by auto. apply IH. auto.
  - destruct (q x); rewrite IH by auto; done.
Qed.

(** An update that does not move rows in or out of a selection commutes with it. *)
Lemma select_update_stable p q f t :
  (forall r, p r = true -> q (f r) = q r) ->
  select q (update_where p f t) = update_where p f (select q t).
Proof.
  intros Hq. unfold select, update_where. induction t as [|x t IH]; cbn; [done|].
  destruct (p x) eqn:E.
  - rewrite (Hq x E). destruct (q x); cbn; rewrite IH; [by rewrite E|done].
  - destruct (q x); cbn; rewrite IH; [by rewrite E|done].
Qed.

Lemma select_and p q t : select (fun r => q r && p r) t = select p (select q t).
Proof.
  unfold select. induction t as [|x t IH]; cbn; [done|].
  destruct (q x); cbn; [|done]. destruct (p x); by rewrite IH.
Qed.

Lemma select_comm p q t : select p (select q t) = select q (select p t).
Proof. unfold select. induction t as [|x t IH]; cbn; [done|]. destruct (q x) eqn:Eq, (p x) eqn:Ep; cbn; rewrite ?Eq, ?Ep, IH; done. Qed.

Lemma select_cons p x t : select p (x :: t) = if p x then x :: select p t else select p t.
Proof. reflexivity. Qed.

Lemma select_single p t x : select p t = [x] -> In x t /\ p x = true.
Proof. intros E. apply select_In. rewrite E. by left. Qed.

Lemma select_existsb p t : existsb p t = match select p t with [] => false | _ => true end.
Proof. unfold select. induction t as [|x t IH]; cbn; [done|]. by destruct (p x). Qed.

Lemma select_perm p t t' : Permutation t t' -> Permutation (select p t) (select p t').
Proof.
  unfold select. induction 1 as [|x t t' _ IH|x y t|t t' t'' _ IH1 _ IH2]; cbn; [done| | |by etrans].
  - destruct (p x); [by constructor|done].
  - destruct (p x), (p y); [apply perm_swap|done..].
Qed.

(** The first [n] rows of a reordered table. *)
Lemma select_firstn_perm p n t t' :
  Permutation t t' ->
  (length (select p (firstn n t')) <= length (select p t))%nat /\
  (forall r, In r (select p (firstn n t')) -> In r (select p t)) /\
  ((length t <= n)%nat -> Permutation (select p t) (select p (firstn n t'))).
Proof.
  intros Hp. assert (Hs := select_perm p t t' Hp). split; [|split].
  - rewrite (Permutation_length Hs). rewrite <- (firstn_skipn n t') at 2. unfold select. rewrite List.filter_app, length_app. lia.
  - intros r Hr. apply (Permutation_in r (Permutation_sym Hs)). apply select_In in Hr. destruct Hr as [Hr Hpr].
    apply select_In. split; [|exact Hpr]. rewrite <- (firstn_skipn n t'). apply in_app_iff. by left.
  - intros Hl. rewrite firstn_all2; [exact Hs|]. by rewrite <- (Permutation_length Hp).
Qed.

Lemma no_conflict_app_one conflict t r :
  no_conflict conflict (t ++ [r]) = no_conflict conflict t && negb (clashes conflict r t).
Proof.
  unfold clashes. induction t as [|x t IH]; cbn; [done|].
  rewrite IH, forallb_app. cbn. rewrite andb_true_r, negb_orb.
  destruct (forallb _ t), (conflict x r), (no_conflict conflict t), (existsb _ t); done.
Qed.

Lemma no_conflict_update conflict p f t :
  (forall x y, conflict (f x) y = true -> conflict x y = true) ->
  (forall x y, conflict x (f y) = true -> conflict x y = true) ->
  no_conflict conflict t = true -> no_conflict conflict (update_where p f t) = true.
Proof.
  intros Hl Hr. unfold update_where. induction t as [|x t IH]; cbn; [done|].
  rewrite !andb_true_iff. intros [Hx Ht]. split; [|auto].
  rewrite forallb_forall in Hx |- *. intros y. rewrite in_map_iff.
  intros (y0 & <- & Hin). specialize (Hx _ Hin). rewrite negb_true_iff in Hx |- *.
  apply not_true_is_false. intros C. assert (conflict x y0 = true); [|congruence].
  destruct (p x), (p y0); auto.
Qed.

Lemma no_conflict_spec conflict t x y :
  no_conflict conflict t = true -> conflict x y = true -> conflict y x = true ->
  In x t -> In y t -> x = y.
Proof.
  induction t as [|z t IH]; cbn; [done|].
  rewrite andb_true_iff, forallb_forall. intros [Hz Ht] Hxy Hyx [<-|Hx] [<-|Hy]; auto.
  - specialize (Hz _ Hy). rewrite Hxy in Hz. discriminate.
  - specialize (Hz _ Hx). rewrite Hyx in Hz. discriminate.
Qed.

Lemma no_conflict_false conflict t :
  no_conflict conflict t = false ->
  exists l x m y r, t = l ++ x :: m ++ y :: r /\ conflict x y = true.
Proof.
  induction t as [|x t IH]; cbn; [done|]. intros H. apply andb_false_iff in H. destruct H as [H|H].
  - rewrite <- not_true_iff_false, forallb_forall in H.
    destruct (existsb (conflict x) t) eqn:E.
    + apply existsb_exists in E. destruct E as (y & Hy & Hc). apply in_split in Hy.
      destruct Hy as (m & r & ->). by exists [], x, m, y, r.
    + destruct H. intros y Hy. apply negb_true_iff, not_true_is_false. intros Hc.
      rewrite <- not_true_iff_false in E. apply E, existsb_exists. eauto.
  - destruct (IH H) as (l & x' & m & y & r & -> & Hc). by exists (x :: l), x', m, y, r.
Qed.
End Tables.

Lemma select_flat_map {A B} (q : A -> bool) (p : B -> bool) (f : A -> list B) l :
  (forall x y, In y (f x) -> p y = q x) -> select p (flat_map f l) = flat_map f (select q l).
Proof.
  intros Hq. unfold select. induction l as [|x l IH]; cbn; [done|]. rewrite List.filter_app, IH. clear IH. specialize (Hq x).
  replace (List.filter p (f x)) with (if q x then f x else []); [by destruct (q x)|].
  induction (f x) as [|y ys IH]; [by destruct (q x)|]. cbn. rewrite (Hq y (or_introl eq_refl)), <- IH.
  - by destruct (q x).
  - intros z Hz. apply Hq. by right.
Qed.

Lemma existsb_ext {A} (p q : A -> bool) l : (forall x, p x = q x) -> existsb p l = existsb q l.
Proof. intros E. induction l as [|x l IH]; cbn; [done|by rewrite E, IH]. Qed.

Lemma existsb_map {A B} (p : B -> bool) (f : A -> B) l : existsb p (map f l) = existsb (fun x => p (f x)) l.
Proof. induction l as [|x l IH]; cbn; [done|by rewrite IH]. Qed.

(** ** Counts *)

(** [SELECT count( * ) FROM t WHERE p] *)
Definition count_where {A} (p : A -> bool) (t : list A) : Z := Z.of_nat (List.length (select p t)).

Lemma count_where_split {A} (p q r : A -> bool) t :
  (forall x, In x t -> p x = xorb (q x) (r x)) -> (forall x, In x t -> q x && r x = false) ->
  count_where p t = (count_where q t + count_where r t)%Z.
Proof.
  unfold count_where, select. induction t as [|x t IH]; intros Hp Hd; [done|].
  assert (Hx := Hp x (or_introl eq_refl)). assert (Hy := Hd x (or_introl eq_refl)).
  specialize (IH ltac:(intros; apply Hp; by right) ltac:(intros; apply Hd; by right)). cbn [List.filter].
  rewrite Hx. destruct (q x), (r x); cbn [xorb andb] in *; try discriminate; cbn [List.length]; lia.
Qed.

Lemma count_where_le {A} (p : A -> bool) t : (0 <= count_where p t <= Z.of_nat (List.length t))%Z.
Proof. unfold count_where, select. induction t as [|x t IH]; cbn; [done|]. destruct (p x); cbn [List.length]; lia. Qed.

Lemma count_where_ext {A} (p q : A -> bool) t :
  (forall x, In x t -> p x = q x) -> count_where p t = count_where q t.
Proof. intros H. unfold count_where, select. by rewrite (filter_ext_in _ _ t H). Qed.

(** Selecting keeps the keys of the rows apart. *)
Lemma nodup_select {A} (id : A -> string) p t : NoDup (map id t) -> NoDup (map id (select p t)).
Proof.
  unfold select. induction t as [|x t IH]; cbn; [done|]. intros H. apply NoDup_cons in H. destruct H as [Hx Ht].
  destruct (p x); [|by apply IH]. cbn. apply NoDup_cons. split; [|by apply IH]. intros Hin. apply Hx.
  apply list_elem_of_In in Hin. apply in_map_iff in Hin. destruct Hin as (y & <- & Hy). apply List.filter_In in Hy.
  apply list_elem_of_In. apply in_map, Hy.
Qed.

Lemma count_where_mono {A} (p q : A -> bool) t :
  (forall x, In x t -> p x = true -> q x = true) -> (count_where p t <= count_where q t)%Z.
Proof.
  unfold count_where, select. induction t as [|x t IH]; intros H; cbn; [lia|].
  assert (Hx := H x (or_introl eq_refl)). specialize (IH ltac:(intros; apply H; [by right|done])).
  destruct (p x); [rewrite Hx by done|destruct (q x)]; cbn [List.length]; lia.
Qed.

(** The sum of the counts of groups that cover a table is the count over the table. *)
Lemma sum_of_counts {A B} (key : A -> B) (same : B -> B -> bool) (p : A -> bool) (ids : list B) t :
  (forall a b, same a b = true <-> a = b) -> List.NoDup ids -> (forall x, In x t -> p x = true -> In (key x) ids) ->
  fold_right Z.add 0%Z (map (fun a => count_where (fun x => same (key x) a && p x) t) ids) = count_where p t.
Proof.
  intros Hs Hn. revert p. induction ids as [|a ids IH]; intros p Hin; cbn [map fold_right].
  - unfold count_where. rewrite (proj2 (select_nil_iff _ _)); [done|]. intros x Hx.
    destruct (p x) eqn:E; [destruct (Hin x Hx E)|done].
  - apply List.NoDup_cons_iff in Hn. destruct Hn as [Ha Hn].
    rewrite (count_where_split p (fun x => same (key x) a && p x) (fun x => negb (same (key x) a) && p x)).
    + f_equal. rewrite <- (IH Hn (fun x => negb (same (key x) a) && p x)).
      * f_equal. apply map_ext_in. intros b Hb. apply count_where_ext. intros x _.
        destruct (same (key x) b) eqn:Eb; [|done]. destruct (same (key x) a) eqn:Ea; [|done].
        apply Hs in Ea, Eb. subst. destruct (Ha Hb).
      * intros x Hx E. apply andb_true_iff in E. destruct E as [E1 E2]. destruct (Hin x Hx E2) as [->|]; [|done].
        rewrite (proj2 (Hs _ _) eq_refl) in E1. discriminate.
    + intros x _. by destruct (same (key x) a), (p x).
    + intros x _. by destruct (same (key x) a), (p x).
Qed.

(** ** [SELECT ... LIMIT 1] without ORDER BY *)

(** SQL leaves open which of the qualifying rows is returned; it promises one of
    them, and none only when there are none. *)
Class Limit1 : Type := {
  limit1 : forall {A : Type}, list A -> option A;
  limit1_In : forall A (l : list A) r, limit1 l = Some r -> In r l;
  limit1_None : forall A (l : list A), limit1 l = None -> l = [];
}.

Lemma limit1_nil `{Limit1} A : limit1 (@nil A) = None.
Proof. destruct (limit1 []) eqn:E; [apply limit1_In in E; destruct E | done]. Qed.

Lemma limit1_one `{Limit1} A (r : A) : limit1 [r] = Some r.
Proof.
  destruct (limit1 [r]) eqn:E.
  - apply limit1_In in E. destruct E as [->|[]]. done.
  - apply limit1_None in E. discriminate.
Qed.

(** The concrete choice the witnesses run with. *)
#[export] Program Instance Limit1_first : Limit1 | 100 := {| limit1 := fun A l => hd_error l |}.
Next Obligation. intros A [|x l] r; cbn; [done|]. intros [= ->]. by left. Qed.
Next Obligation. intros A [|x l]; cbn; [done | discriminate]. Qed.

(** ** Conditionals as connectives *)

Lemma if_true_orb (b c : bool) : (if b then true else c) = b || c.
Proof. by destruct b. Qed.

Lemma if_false_andb (b c : bool) : (if b then c else false) = b && c.
Proof. by destruct b. Qed.

(** ** Tactics *)

(** Split conjunctions and existentials of the hypotheses, turn boolean tests
    into propositions. *)
Ltac destruct_and_ex :=
  repeat match goal with
         | H : _ /\ _ |- _ => destruct H
         | H : exists _, _ |- _ => destruct H
         | H : andb _ _ = true |- _ => apply andb_true_iff in H
         | H : orb _ _ = false |- _ => apply orb_false_iff in H
         | H : negb _ = true |- _ => apply negb_true_iff in H
         | H : negb _ = false |- _ => apply negb_false_iff in H
         end.

Ltac reflect_eqb :=
  repeat match goal with
         | H : String.eqb _ _ = true |- _ => apply String.eqb_eq in H
         | H : String.eqb _ _ = false |- _ => apply String.eqb_neq in H
         | H : Z.eqb _ _ = true |- _ => apply Z.eqb_eq in H
         | H : Z.eqb _ _ = false |- _ => apply Z.eqb_neq in H
         | H : Z.ltb _ _ = true |- _ => apply Z.ltb_lt in H
         | H : Z.ltb _ _ = false |- _ => apply Z.ltb_ge in H
         | H : Z.leb _ _ = true |- _ => apply Z.leb_le in H
         | H : Z.leb _ _ = false |- _ => apply Z.leb_gt in H
         end.

(** Case on the first [if] or [match] that blocks the goal or a hypothesis. *)
Ltac case_match_goal :=
  match goal with
  | |- context [match ?x with _ => _ end] => destruct x eqn:?
  end.
Ltac case_match_in H :=
  match type of H with
  | context [match ?x with _ => _ end] => destruct x eqn:?
  end.

(** Walk through a monadic definition that a hypothesis says returned. *)
Ltac run_returned H :=
  repeat match type of H with
         | bind _ _ _ = (Return _, _) =>
             apply bind_Return_inv in H as (? & ? & ?H0 & H)
         end.
