(* ===== verification/JsString.v ===== *)
(** * JavaScript strings

    The string functions of the language that the modelled code uses, on Rocq
    [string]s.  A character stands for one UTF-16 code unit; the development
    models ASCII text (units below 128), where [toUpperCase] and [toLowerCase]
    act on letters only and the white space [trim] and [\s] see is the one of
    [is_ws].  Regular expressions of the source are boolean functions built from
    character classes. *)

From S2P Require Import Prelude.
From Stdlib Require Import Ascii String.

Open Scope nat_scope.
Abbreviation slen := String.length.
#[global] Arguments String.append !_ _ /.

(** ** Character classes *)

Definition code (c : ascii) : nat := nat_of_ascii c.
Definition in_range (lo hi : nat) (c : ascii) : bool := (lo <=? code c) && (code c <=? hi).

(** [[0-9]], [[a-z]], [[A-Z]] *)
Definition is_digit (c : ascii) : bool := in_range 48 57 c.
Definition is_lower (c : ascii) : bool := in_range 97 122 c.
Definition is_upper (c : ascii) : bool := in_range 65 90 c.
Definition is_AZ09 (c : ascii) : bool := is_upper c || is_digit c.
Definition is_alnum (c : ascii) : bool := is_lower c || is_upper c || is_digit c.
Definition is_hex (c : ascii) : bool := is_digit c || in_range 97 102 c || in_range 65 70 c.

(** [\s]: tab, line feed, vertical tab, form feed, carriage return, space. *)
Definition is_ws (c : ascii) : bool := in_range 9 13 c || (code c =? 32).

(** ** Functions of [String.prototype] *)

Fixpoint smap (f : ascii -> ascii) (s : string) : string :=
  match s with
  | EmptyString => EmptyString
  | String c s' => String (f c) (smap f s')
  end.

Fixpoint all_chars (p : ascii -> bool) (s : string) : bool :=
  match s with
  | EmptyString => true
  | String c s' => p c && all_chars p s'
  end.

Fixpoint filter_chars (p : ascii -> bool) (s : string) : string :=
  match s with
  | EmptyString => EmptyString
  | String c s' => if p c then String c (filter_chars p s') else filter_chars p s'
  end.

Definition upper_char (c : ascii) : ascii :=
  if is_lower c then ascii_of_nat (code c - 32) else c.
Definition lower_char (c : ascii) : ascii :=
  if is_upper c then ascii_of_nat (code c + 32) else c.

Definition toUpperCase (s : string) : string := smap upper_char s.
Definition toLowerCase (s : string) : string := smap lower_char s.

Fixpoint trimStart (s : string) : string :=
  match s with
  | String c s' => if is_ws c then trimStart s' else s
  | EmptyString => EmptyString
  end.

Fixpoint trimEnd (s : string) : string :=
  match s with
  | EmptyString => EmptyString
  | String c s' =>
      match trimEnd s' with
      | EmptyString => if is_ws c then EmptyString else String c EmptyString
      | t => String c t
      end
  end.

Definition trim (s : string) : string := trimEnd (trimStart s).

Fixpoint startsWith (s pre : string) : bool :=
  match pre, s with
  | EmptyString, _ => true
  | String p pre', String c s' => Ascii.eqb p c && startsWith s' pre'
  | String _ _, EmptyString => false
  end.

(** [s.slice(n)] for [n >= 0] *)
Fixpoint slice_from (s : string) (n : nat) : string :=
  match n, s with
  | O, _ => s
  | S _, EmptyString => EmptyString
  | S n', String _ s' => slice_from s' n'
  end.

(** [s.slice(0, n)] for [n >= 0] *)
Fixpoint slice_to (s : string) (n : nat) : string :=
  match n, s with
  | O, _ => EmptyString
  | S _, EmptyString => EmptyString
  | S n', String c s' => String c (slice_to s' n')
  end.

(** [s.slice(-n)] for [n > 0] *)
Definition slice_last (s : string) (n : nat) : string := slice_from s (slen s - n).

Definition endsWith (s suf : string) : bool :=
  (slen suf <=? slen s) && String.eqb (slice_last s (slen suf)) suf.

(** [c.repeat(n)] *)
Fixpoint repeat_char (c : ascii) (n : nat) : string :=
  match n with O => EmptyString | S n' => String c (repeat_char c n') end.

(** [s.length] of a literal of the source: one beyond ASCII is several characters here. *)
Fixpoint units (s : string) : nat :=
  match s with
  | String c s' => ((if (128 <=? code c)%nat && (code c <? 192)%nat then 0 else 1) + units s')%nat
  | EmptyString => 0%nat
  end.

Definition pad_end (w : nat) (s : string) : string := s ++ repeat_char " "%char (w - units s).

(** [s.split(c)] for a one-character separator *)
Fixpoint split_on (sep : ascii) (s : string) : list string :=
  match s with
  | EmptyString => [EmptyString]
  | String c s' =>
      if Ascii.eqb c sep then EmptyString :: split_on sep s'
      else match split_on sep s' with
           | [] => [String c EmptyString]
           | x :: xs => String c x :: xs
           end
  end.

(** [s.indexOf(c)], [s.lastIndexOf(c)]; [None] is -1. *)
Fixpoint indexOf (sep : ascii) (s : string) : option nat :=
  match s with
  | EmptyString => None
  | String c s' => if Ascii.eqb c sep then Some 0 else S <$> indexOf sep s'
  end.

Fixpoint lastIndexOf (sep : ascii) (s : string) : option nat :=
  match s with
  | EmptyString => None
  | String c s' =>
      match lastIndexOf sep s' with
      | Some i => Some (S i)
      | None => if Ascii.eqb c sep then Some 0 else None
      end
  end.

(** [s.replace(/\s+/g, "")] *)
Definition remove_ws (s : string) : string := filter_chars (fun c => negb (is_ws c)) s.

Definition nonempty (s : string) : bool := negb (String.eqb s "").

(** [/^[class]{lo,hi}$/] *)
Definition matches_class (p : ascii -> bool) (lo hi : nat) (s : string) : bool :=
  (lo <=? slen s) && (slen s <=? hi) && all_chars p s.

(** [/^<prefix>[class]+$/] *)
Definition matches_prefixed (pre : string) (p : ascii -> bool) (s : string) : bool :=
  startsWith s pre && nonempty (slice_from s (slen pre)) && all_chars p (slice_from s (slen pre)).

(** ** Lemmas *)

Lemma slen_app s t : slen (s ++ t) = slen s + slen t.
Proof. induction s; cbn; congruence. Qed.

Lemma string_app_assoc (s t u : string) : (s ++ t ++ u = (s ++ t) ++ u)%string.
Proof. induction s as [|c s IH]; cbn; [done|]. by rewrite IH. Qed.

Lemma string_app_nil (s : string) : (s ++ "" = s)%string.
Proof. induction s as [|c s IH]; cbn; [done|]. by rewrite IH. Qed.

Lemma slen_smap f s : slen (smap f s) = slen s.
Proof. induction s; cbn; congruence. Qed.

Lemma slice_from_app s t : slice_from (s ++ t) (slen s) = t.
Proof. induction s; cbn; [by destruct t | done]. Qed.

Lemma slice_to_from s n : (slice_to s n ++ slice_from s n)%string = s.
Proof. revert s. induction n; intros [|c s]; cbn; try done. by rewrite IHn. Qed.

Lemma slen_slice_to s n : slen (slice_to s n) = Nat.min n (slen s).
Proof. revert s. induction n; intros [|c s]; cbn; auto. Qed.

Lemma slen_slice_from s n : slen (slice_from s n) = slen s - n.
Proof. revert s. induction n; intros [|c s]; cbn; auto. Qed.

Lemma slen_repeat c n : slen (repeat_char c n) = n.
Proof. induction n; cbn; congruence. Qed.

Lemma startsWith_app s t : startsWith (s ++ t) s = true.
Proof. induction s as [|c s IH]; cbn; [by destruct t|]. by rewrite Ascii.eqb_refl. Qed.

Lemma startsWith_spec s pre :
  startsWith s pre = true -> s = (pre ++ slice_from s (slen pre))%string.
Proof.
  revert s. induction pre as [|p pre IH]; intros s; cbn; [by destruct s|].
  destruct s as [|c s]; cbn; [done|]. rewrite andb_true_iff, Ascii.eqb_eq.
  intros [-> H]. cbn. by rewrite <- (IH _ H).
Qed.

Lemma all_chars_app p s t : all_chars p (s ++ t) = all_chars p s && all_chars p t.
Proof. induction s; cbn; [done|]. by rewrite IHs, andb_assoc. Qed.

Lemma all_chars_impl (p q : ascii -> bool) s :
  (forall c, p c = true -> q c = true) -> all_chars p s = true -> all_chars q s = true.
Proof.
  intros H. induction s; cbn; [done|]. rewrite !andb_true_iff. intuition auto.
Qed.

Lemma filter_chars_all p s : all_chars p s = true -> filter_chars p s = s.
Proof. induction s; cbn; [done|]. rewrite andb_true_iff. intros [-> H]. by rewrite IHs. Qed.

Lemma filter_chars_app p s t :
  filter_chars p (s ++ t) = (filter_chars p s ++ filter_chars p t)%string.
Proof. induction s; cbn; [done|]. destruct (p a); cbn; by rewrite IHs. Qed.

Lemma all_chars_filter p q s : all_chars q s = true -> all_chars q (filter_chars p s) = true.
Proof.
  induction s; cbn; [done|]. rewrite andb_true_iff. intros [H1 H2].
  destruct (p a); cbn; [rewrite H1|]; auto.
Qed.

Lemma filter_chars_none p s :
  all_chars (fun c => negb (p c)) s = true -> filter_chars p s = ""%string.
Proof.
  induction s; cbn; [done|]. rewrite andb_true_iff, negb_true_iff. intros [-> H]. auto.
Qed.

Lemma smap_app f s t : smap f (s ++ t) = (smap f s ++ smap f t)%string.
Proof. induction s; cbn; congruence. Qed.

(** The classes are unions of intervals of code units, so a fact about all 256
    characters is decided by trying each. *)
Definition forall_ascii (p : ascii -> bool) : bool :=
  forallb (fun n => p (ascii_of_nat n)) (seq 0 256).

Lemma forall_ascii_spec p : forall_ascii p = true -> forall c, p c = true.
Proof.
  unfold forall_ascii. rewrite forallb_forall. intros H c.
  rewrite <- (ascii_nat_embedding c). apply H. apply in_seq.
  pose proof (nat_ascii_bounded c). lia.
Qed.

Lemma forall_ascii_impl (p q : ascii -> bool) c :
  forall_ascii (fun c => implb (p c) (q c)) = true -> p c = true -> q c = true.
Proof. intros H Hp. pose proof (forall_ascii_spec _ H c) as F. cbn in F. by rewrite Hp in F. Qed.

(** Proves [p c = true -> q c = true] by running through the 256 characters. *)
Ltac by_ascii p q := apply (forall_ascii_impl p q); vm_compute; reflexivity.

Lemma upper_char_fixed c : is_AZ09 c = true -> upper_char c = c.
Proof.
  intros H. apply Ascii.eqb_eq. revert H.
  by_ascii is_AZ09 (fun c => Ascii.eqb (upper_char c) c).
Qed.

Lemma upper_char_ws c : is_ws (upper_char c) = is_ws c.
Proof.
  apply Bool.eqb_prop.
  apply (forall_ascii_spec (fun c => Bool.eqb (is_ws (upper_char c)) (is_ws c))).
  vm_compute. reflexivity.
Qed.

Lemma AZ09_not_ws c : is_AZ09 c = true -> is_ws c = false.
Proof.
  intros H. apply negb_true_iff. revert H. by_ascii is_AZ09 (fun c => negb (is_ws c)).
Qed.

Lemma lower_char_of_upper_char c : is_AZ09 c = true -> upper_char (lower_char c) = c.
Proof.
  intros H. apply Ascii.eqb_eq. revert H.
  by_ascii is_AZ09 (fun c => Ascii.eqb (upper_char (lower_char c)) c).
Qed.

Lemma toUpperCase_fixed s : all_chars is_AZ09 s = true -> toUpperCase s = s.
Proof.
  unfold toUpperCase. induction s; cbn; [done|]. rewrite andb_true_iff.
  intros [H1 H2]. by rewrite upper_char_fixed, IHs.
Qed.

Lemma toUpperCase_lower s : all_chars is_AZ09 s = true -> toUpperCase (toLowerCase s) = s.
Proof.
  unfold toUpperCase, toLowerCase. induction s; cbn; [done|]. rewrite andb_true_iff.
  intros [H1 H2]. by rewrite lower_char_of_upper_char, IHs.
Qed.

Lemma remove_ws_upper s : remove_ws (toUpperCase s) = toUpperCase (remove_ws s).
Proof.
  unfold remove_ws, toUpperCase. induction s; cbn; [done|]. rewrite upper_char_ws.
  destruct (is_ws a); cbn; by rewrite IHs.
Qed.

Lemma remove_ws_app s t : remove_ws (s ++ t) = (remove_ws s ++ remove_ws t)%string.
Proof. apply filter_chars_app. Qed.

Lemma remove_ws_fixed s : all_chars is_AZ09 s = true -> remove_ws s = s.
Proof.
  intros H. apply filter_chars_all. eapply all_chars_impl; [|exact H].
  intros c Hc. by rewrite AZ09_not_ws.
Qed.

Lemma trimStart_app_ws w s :
  all_chars is_ws w = true -> trimStart (w ++ s) = trimStart s.
Proof. induction w; cbn; [done|]. rewrite andb_true_iff. intros [-> H]. auto. Qed.

Lemma trimEnd_ws w : all_chars is_ws w = true -> trimEnd w = ""%string.
Proof. induction w; cbn; [done|]. rewrite andb_true_iff. intros [Hc H]. by rewrite IHw, Hc. Qed.

Lemma trimEnd_app_ws s w : all_chars is_ws w = true -> trimEnd (s ++ w) = trimEnd s.
Proof. intros H. induction s; cbn; [by apply trimEnd_ws | by rewrite IHs]. Qed.

Lemma remove_ws_trimEnd s : remove_ws (trimEnd s) = remove_ws s.
Proof.
  unfold remove_ws. induction s as [|c s IH]; cbn; [done|].
  destruct (trimEnd s) eqn:E; cbn in *.
  - destruct (is_ws c) eqn:W; cbn; rewrite <- IH; [done|]. by rewrite W.
  - destruct (is_ws c) eqn:W; cbn; by rewrite <- IH.
Qed.

(** The characters of [s] that [trimEnd] leaves at the front are those of [s]. *)
Lemma trimEnd_app_nonws s t c :
  is_ws c = false -> trimEnd (s ++ String c t) = (s ++ String c (trimEnd t))%string.
Proof.
  intros H. induction s; cbn.
  - destruct (trimEnd t); [by rewrite H | done].
  - rewrite IHs. by destruct s.
Qed.

Lemma split_on_nonempty sep s : split_on sep s <> [].
Proof. destruct s; cbn; [done|]. destruct (Ascii.eqb a sep); [done|]. by destruct (split_on sep s). Qed.

(** A part without the separator is one part. *)
Lemma split_on_app sep s t :
  all_chars (fun c => negb (Ascii.eqb c sep)) s = true ->
  split_on sep (s ++ String sep t) = s :: split_on sep t.
Proof.
  induction s; cbn; [by rewrite Ascii.eqb_refl|].
  rewrite andb_true_iff, negb_true_iff. intros [-> H]. by rewrite IHs.
Qed.

Lemma split_on_none sep s :
  all_chars (fun c => negb (Ascii.eqb c sep)) s = true -> split_on sep s = [s].
Proof.
  induction s; cbn; [done|].
  rewrite andb_true_iff, negb_true_iff. intros [-> H]. by rewrite IHs.
Qed.

Lemma trim_fixed s : all_chars (fun c => negb (is_ws c)) s = true -> trim s = s.
Proof.
  intros H. unfold trim. replace (trimStart s) with s.
  - induction s as [|c s IH]; cbn in *; [done|]. apply andb_true_iff in H. destruct H as [Hc H].
    apply negb_true_iff in Hc. rewrite IH, Hc by done. by destruct s.
  - destruct s; cbn in *; [done|]. apply andb_true_iff in H. destruct H as [Hc _].
    apply negb_true_iff in Hc. by rewrite Hc.
Qed.

Lemma lastIndexOf_none sep s : all_chars (fun c => negb (Ascii.eqb c sep)) s = true -> lastIndexOf sep s = None.
Proof.
  induction s as [|c s IH]; cbn; [done|]. rewrite andb_true_iff, negb_true_iff.
  intros [-> H]. by rewrite IH.
Qed.

Lemma lastIndexOf_last sep s t :
  all_chars (fun c => negb (Ascii.eqb c sep)) t = true -> lastIndexOf sep (s ++ String sep t) = Some (slen s).
Proof.
  intros H. induction s as [|c s IH]; cbn; [|by rewrite IH].
  by rewrite lastIndexOf_none, Ascii.eqb_refl.
Qed.

Lemma slice_to_app s t : slice_to (s ++ t) (slen s) = s.
Proof. induction s; cbn; [by destruct t|by rewrite IHs]. Qed.

Lemma indexOf_none sep s : all_chars (fun c => negb (Ascii.eqb c sep)) s = true -> indexOf sep s = None.
Proof.
  induction s as [|c s IH]; cbn; [done|]. rewrite andb_true_iff, negb_true_iff. intros [Hc Hs]. by rewrite Hc, IH.
Qed.
