(* ===== verification/Json.v ===== *)
(** * JSON values, numbers and dates as text

    The JSON trees the server builds, [JSON.stringify] on them (ASCII text,
    integer numbers, insertion-ordered keys), decimal numbers and
    [Date.prototype.toISOString] for the years 0 to 9999.  A [Date] is the
    number of milliseconds since the epoch. *)

From S2P Require Import Prelude JsString.
From Stdlib Require Import Ascii String.
From stdpp Require Import pretty.

Open Scope string_scope.

#[warnings="-register-all"]
Inductive json : Type :=
  | JNull
  | JBool (b : bool)
  | JNum (n : Z)
  | JStr (s : string)
  | JArr (l : list json)
  | JObj (fields : list (string * json)).

(** [String(n)] for an integer *)
Definition num_to_string (n : Z) : string := pretty n.

(** Decimal digits of [n], padded with zeros on the left to [w] characters. *)
Definition pad_num (w : nat) (n : Z) : string :=
  let s := pretty n in (repeat_char "0"%char (w - slen s) ++ s)%string.

(** Gregorian calendar date of a day number counted from 1970-01-01. *)
Definition civil_from_days (days : Z) : Z * Z * Z :=
  (let z := days + 719468 in
   let era := z / 146097 in
   let doe := z - era * 146097 in
   let yoe := (doe - doe / 1460 + doe / 36524 - doe / 146096) / 365 in
   let doy := doe - (365 * yoe + yoe / 4 - yoe / 100) in
   let mp := (5 * doy + 2) / 153 in
   let d := doy - (153 * mp + 2) / 5 + 1 in
   let m := if mp <? 10 then mp + 3 else mp - 9 in
   (yoe + era * 400 + (if m <=? 2 then 1 else 0), m, d))%Z.

Definition toISOString (t : Z) : string :=
  let '(y, m, d) := civil_from_days (t / 86400000)%Z in
  let ms := (t mod 86400000)%Z in
  (pad_num 4 y ++ "-" ++ pad_num 2 m ++ "-" ++ pad_num 2 d ++ "T" ++
   pad_num 2 (ms / 3600000) ++ ":" ++ pad_num 2 (ms / 60000 mod 60) ++ ":" ++
   pad_num 2 (ms / 1000 mod 60) ++ "." ++ pad_num 3 (ms mod 1000) ++ "Z")%string.

Definition dquote : ascii := ascii_of_nat 34.
Definition backslash : ascii := ascii_of_nat 92.

Definition hex_digit (n : nat) : ascii :=
  if (n <? 10)%nat then ascii_of_nat (48 + n) else ascii_of_nat (87 + n).

(** The escapes of JSON's QuoteJSONString for a code unit below 128. *)
Definition json_escape (c : ascii) : string :=
  let esc x := String backslash (String x "") in
  if Ascii.eqb c dquote then esc dquote
  else if Ascii.eqb c backslash then esc backslash
  else match code c with
       | 8 => esc "b"%char | 9 => esc "t"%char | 10 => esc "n"%char
       | 12 => esc "f"%char | 13 => esc "r"%char
       | n => if (n <? 32)%nat
              then String backslash ("u00" ++ String (hex_digit (n / 16)) (String (hex_digit (n mod 16)) ""))
              else String c ""
       end.

Fixpoint json_escape_all (s : string) : string :=
  match s with EmptyString => "" | String c s' => json_escape c ++ json_escape_all s' end.

Definition json_quote (s : string) : string :=
  String dquote (json_escape_all s ++ String dquote "").

Fixpoint join (sep : string) (l : list string) : string :=
  match l with
  | [] => ""
  | [x] => x
  | x :: xs => x ++ sep ++ join sep xs
  end.

Fixpoint stringify (j : json) : string :=
  match j with
  | JNull => "null"
  | JBool b => if b then "true" else "false"
  | JNum n => num_to_string n
  | JStr s => json_quote s
  | JArr l => "[" ++ join "," (map stringify l) ++ "]"
  | JObj fs => "{" ++ join "," (map (fun '(k, v) => json_quote k ++ ":" ++ stringify v) fs) ++ "}"
  end.

(** [String(x)] *)
Fixpoint js_String (j : json) : string :=
  match j with
  | JNull => "null"
  | JBool b => if b then "true" else "false"
  | JNum n => num_to_string n
  | JStr s => s
  | JArr l => join "," (map (fun x => match x with JNull => "" | _ => js_String x end) l)
  | JObj _ => "[object Object]"
  end.

(** [JSON.stringify(j, null, 2)]: the items of an array or object on lines of their own. *)
Definition newline_text : string := String (ascii_of_nat 10) "".

Definition boxed (left right ind : string) (items : list string) : string :=
  match items with
  | [] => left ++ right
  | _ => left ++ newline_text ++ join ("," ++ newline_text) (map (fun item => ind ++ "  " ++ item) items) ++ newline_text ++ ind ++ right
  end.

Fixpoint stringify_indented (ind : string) (j : json) : string :=
  match j with
  | JArr l => boxed "[" "]" ind (map (stringify_indented (ind ++ "  ")) l)
  | JObj fs => boxed "{" "}" ind (map (fun '(k, v) => json_quote k ++ ": " ++ stringify_indented (ind ++ "  ") v) fs)
  | _ => stringify j
  end.

(** [x ?? null] and optional object fields *)
Definition jopt {A} (f : A -> json) (o : option A) : json :=
  match o with Some a => f a | None => JNull end.
Definition jfield_opt {A} (k : string) (f : A -> json) (o : option A) : list (string * json) :=
  match o with Some a => [(k, f a)] | None => [] end.

(** [o.k]; [undefined] when the key is missing. *)
Fixpoint jget (k : string) (fs : list (string * json)) : option json :=
  match fs with
  | [] => None
  | (k', v) :: fs' => if String.eqb k k' then Some v else jget k fs'
  end.

Definition jfield (k : string) (j : json) : option json :=
  match j with JObj fs => jget k fs | _ => None end.

(** The keys of an object. *)
Definition jkeys (j : json) : list string :=
  match j with JObj fs => map fst fs | _ => [] end.

Example iso_epoch : toISOString 0 = "1970-01-01T00:00:00.000Z".
Proof. vm_compute. reflexivity. Qed.

Example iso_leap_day : toISOString 1709210096789 = "2024-02-29T12:34:56.789Z".
Proof. vm_compute. reflexivity. Qed.

Example stringify_obj :
  stringify (JObj [("a", JNum (-1)); ("b", JArr [JNull; JBool true; JStr "x"])])
  = "{" ++ json_quote "a" ++ ":-1," ++ json_quote "b" ++ ":[null,true," ++ json_quote "x" ++ "]}".
Proof. vm_compute. reflexivity. Qed.
