(* ===== verification/Errors.v ===== *)
(** * Errors and the HTTP error handler

    [lib/errors.ts], the typed errors of the other modules, and
    [plugins/errorHandler.ts], which turns any value a handler throws into the
    reply the client sees. *)

From S2P Require Import Prelude JsString Json.
From Stdlib Require Import String.

Open Scope string_scope.

(** What the modelled code can throw. [ApiError] is the class of [lib/errors.ts],
    [PhoneError] the one of [lib/phone.ts], [WebhookValidationError] the one of
    [lib/ssrfGuard.ts], [AdminError] the one of [admin/receivers.ts];
    [UniqueViolation] is the SQLSTATE 23505 error of the database driver with the
    name of the violated index; [FastifyError] is an error of the framework, and
    [JsError] any other [Error]. *)
Inductive exn : Type :=
  | ApiError (statusCode : Z) (code message : string) (details : option (list (string * json)))
  | PhoneError (code : string)
  | WebhookValidationError (code message : string)
  | AdminError (code message : string)
  | UniqueViolation (constraint_name : string)
  | FastifyError (statusCode : option Z) (code : option string) (message : string)
      (validation : option json)
  | JsError (message : string).

(** ** [lib/errors.ts] *)

(** [ApiError.prototype.toJSON] *)
Definition toJSON (code message : string) (details : option (list (string * json)))
    (requestId : option string) : json :=
  JObj [("error", JObj ([("code", JStr code); ("message", JStr message)]
                        ++ jfield_opt "request_id" JStr requestId
                        ++ jfield_opt "details" JObj details))].

Definition badRequest (code message : string) : exn := ApiError 400 code message None.
Definition badRequestWith (code message : string) (details : list (string * json)) : exn :=
  ApiError 400 code message (Some details).
Definition unauthorized (message : string) : exn := ApiError 401 "unauthorized" message None.
Definition unauthorized_default : exn := unauthorized "missing or invalid credentials".
Definition forbidden (message : string) : exn := ApiError 403 "forbidden" message None.
Definition phoneNotBound : exn :=
  ApiError 403 "phone_not_bound"
    "phone is not bound to this app; complete the phone-binding ceremony first" None.
Definition notFound (resource : string) : exn :=
  ApiError 404 "not_found" (resource ++ " not found") None.
Definition conflict (code message : string) : exn := ApiError 409 code message None.
Definition rateLimited (retryAfterSeconds : Z) : exn :=
  ApiError 429 "rate_limited" "too many requests" (Some [("retry_after", JNum retryAfterSeconds)]).
Definition serviceUnavailable (code message : string) : exn := ApiError 503 code message None.
Definition internal (message : string) : exn := ApiError 500 "internal_error" message None.

(** ** [plugins/errorHandler.ts] *)

Record Reply : Type := mkReply {
  reply_status : Z;
  reply_headers : list (string * string);
  reply_body : json;
}.

(** Whether a JavaScript value is truthy, for the JSON values of [details]. *)
Definition truthy (j : json) : bool :=
  match j with
  | JNull => false
  | JBool b => b
  | JNum n => negb (n =? 0)%Z
  | JStr s => nonempty s
  | JArr _ | JObj _ => true
  end.

(** The callback given to [app.setErrorHandler]. *)
Definition handleError (requestId : string) (err : exn) : Reply :=
  match err with
  | ApiError status code message details =>
      let headers :=
        match (if (status =? 429)%Z then details ≫= jget "retry_after" else None) with
        | Some v => if truthy v then [("Retry-After", js_String v)] else []
        | None => []
        end in
      mkReply status headers (toJSON code message details (Some requestId))
  | FastifyError _ _ message (Some validation) =>
      mkReply 400 []
        (JObj [("error", JObj [("code", JStr "validation_error"); ("message", JStr message);
                               ("request_id", JStr requestId); ("details", validation)])])
  | FastifyError statusCode code message None =>
      let status := default 0%Z statusCode in
      if ((400 <=? status) && (status <? 500))%Z then
        mkReply status []
          (JObj [("error",
            JObj [("code", JStr (default ("http_" ++ num_to_string status) code));
                  ("message", JStr (if nonempty message then message else "request failed"));
                  ("request_id", JStr requestId)])])
      else
        mkReply 500 []
          (JObj [("error", JObj [("code", JStr "internal_error"); ("message", JStr "internal error");
                                 ("request_id", JStr requestId)])])
  | PhoneError _ | WebhookValidationError _ _ | AdminError _ _ | UniqueViolation _ | JsError _ =>
      mkReply 500 []
        (JObj [("error", JObj [("code", JStr "internal_error"); ("message", JStr "internal error");
                               ("request_id", JStr requestId)])])
  end.

(** The callback given to [app.setNotFoundHandler]. *)
Definition handleNotFound (requestId : string) : Reply :=
  mkReply 404 []
    (JObj [("error", JObj [("code", JStr "not_found"); ("message", JStr "route not found");
                           ("request_id", JStr requestId)])]).

(** The reply every internal failure gets: it depends on the request id only. *)
Definition internalErrorReply (requestId : string) : Reply :=
  mkReply 500 []
    (JObj [("error", JObj [("code", JStr "internal_error"); ("message", JStr "internal error");
                           ("request_id", JStr requestId)])]).

(** An error the code did not make for the client: not an [ApiError], not a
    framework error with a 4xx status or a validation report. *)
Definition is_internal (err : exn) : bool :=
  match err with
  | ApiError _ _ _ _ => false
  | FastifyError _ _ _ (Some _) => false
  | FastifyError statusCode _ _ None =>
      let s := default 0%Z statusCode in negb ((400 <=? s) && (s <? 500))%Z
  | _ => true
  end.

Lemma handleError_internal requestId err :
  is_internal err = true -> handleError requestId err = internalErrorReply requestId.
Proof.
  destruct err as [| | | | |s c m [v|]|]; cbn; try done.
  intros H. apply negb_true_iff in H. by rewrite H.
Qed.
