(* ===== verification/Phone.v ===== *)
(** * Phone numbers: [lib/phone.ts]

    [normalizePhone] on top of the phone-number library, which is not part of the
    repository and enters as the class [PhoneLib]; [maskPhone] and what it hides. *)

From S2P Require Import Prelude JsString Json Errors.
From Stdlib Require Import String Ascii.

Open Scope string_scope.

(** What [parsePhoneNumberFromString] returns. *)
Record ParsedPhone : Type := {
  pp_valid : bool;             (* isValid() *)
  pp_type : option string;     (* getType() *)
  pp_number : string;
  pp_nationalNumber : string;
  pp_country : option string;
}.

Class PhoneLib : Type := {
  parsePhoneNumberFromString : string -> string -> option ParsedPhone;
}.

Record NormalizedPhone : Type := { e164 : string; national : string; country : string }.

Definition normalizePhone `{PhoneLib} (raw defaultRegion : string) : outcome exn NormalizedPhone :=
  let trimmed := trim raw in
  if (slen trimmed <? 5)%nat || (20 <? slen trimmed)%nat then Throw (PhoneError "invalid_phone")
  else match parsePhoneNumberFromString trimmed defaultRegion with
       | None => Throw (PhoneError "invalid_phone")
       | Some parsed =>
           if negb (pp_valid parsed) then Throw (PhoneError "invalid_phone")
           else if (match pp_type parsed with
                    | Some t => String.eqb t "PREMIUM_RATE" || String.eqb t "SHARED_COST"
                    | None => false
                    end)
           then Throw (PhoneError "phone_type_not_allowed")
           else Return {| e164 := pp_number parsed;
                          national := pp_nationalNumber parsed;
                          country := default defaultRegion (pp_country parsed) |}
       end.

Definition star : ascii := "*"%char.

Definition maskPhone (e164 : string) : string :=
  if negb (startsWith e164 "+") || (slen e164 <? 7)%nat then "***"
  else
    let keepFront := Nat.min 6 (slen e164 - 4) in
    let keepBack := 3 in
    let front := slice_to e164 keepFront in
    let back := slice_last e164 keepBack in
    let stars := repeat_char star (slen e164 - keepFront - keepBack) in
    front ++ stars ++ back.

(** ** Lemmas *)

(** The only exceptions of [normalizePhone] are its two [PhoneError]s. *)
Lemma normalizePhone_throws `{PhoneLib} raw region e :
  normalizePhone raw region = Throw e ->
  e = PhoneError "invalid_phone" \/ e = PhoneError "phone_type_not_allowed".
Proof.
  unfold normalizePhone. intros H0.
  repeat case_match_in H0; try discriminate; injection H0 as <-; auto.
Qed.

(** A well-formed number: what [maskPhone] does not collapse to [***]. *)
Definition maskable (p : string) : bool := startsWith p "+" && (7 <=? slen p)%nat.

Definition keepFront (p : string) : nat := Nat.min 6 (slen p - 4).

Lemma maskPhone_maskable p :
  maskable p = true ->
  maskPhone p = slice_to p (keepFront p)
                ++ repeat_char star (slen p - keepFront p - 3) ++ slice_last p 3.
Proof.
  unfold maskable, maskPhone, keepFront. rewrite andb_true_iff, Nat.leb_le.
  intros [-> Hl]. cbn [negb orb]. by replace (slen p <? 7)%nat with false
    by (symmetry; apply Nat.ltb_ge; lia).
Qed.

(** The mask of a number is determined by its length, its first six (or fewer)
    characters and its last three: the digits between them do not influence it. *)
Lemma maskPhone_hides p q :
  maskable p = true -> maskable q = true -> slen p = slen q ->
  slice_to p (keepFront p) = slice_to q (keepFront q) ->
  slice_last p 3 = slice_last q 3 ->
  maskPhone p = maskPhone q.
Proof.
  intros Hp Hq Hl Hf Hb. rewrite !maskPhone_maskable by done.
  unfold keepFront in *. by rewrite Hf, Hb, Hl.
Qed.

Lemma maskPhone_length p : maskable p = true -> slen (maskPhone p) = slen p.
Proof.
  intros Hp. rewrite maskPhone_maskable by done. unfold maskable in Hp.
  rewrite andb_true_iff, Nat.leb_le in Hp. destruct Hp as [_ Hl].
  unfold slice_last, keepFront.
  rewrite !slen_app, slen_slice_to, slen_repeat, slen_slice_from. lia.
Qed.

(** At least one character of a maskable number is hidden, and at most nine show. *)
Lemma maskPhone_stars p :
  maskable p = true ->
  (1 <= slen p - keepFront p - 3)%nat /\ (keepFront p + 3 <= 9)%nat.
Proof.
  unfold maskable, keepFront. rewrite andb_true_iff, Nat.leb_le. intros [_ Hl]. lia.
Qed.

Example maskPhone_doc : maskPhone "+963991234567" = "+96399****567".
Proof. reflexivity. Qed.

(** A phone library that accepts E.164 digits as they are, for the witnesses. *)
Definition plain_phones : PhoneLib :=
  {| parsePhoneNumberFromString s region :=
       if matches_prefixed "+" is_digit s
       then Some {| pp_valid := true; pp_type := Some "MOBILE"; pp_number := s;
                    pp_nationalNumber := slice_from s 4; pp_country := None |}
       else None |}.
