(* ===== verification/Crypto.v ===== *)
(** * Keys, codes and digests: [lib/crypto.ts] and [lib/ids.ts]

    The digest functions of the platform enter as the class [Digest]; random
    draws and ULIDs are arguments.  Byte buffers are strings of characters
    0 to 255. *)

From S2P Require Import Prelude JsString Json Errors.
From Stdlib Require Import String Ascii.

Open Scope string_scope.

(** SHA-256 and HMAC-SHA-256, with lowercase hexadecimal results. *)
Class Digest : Type := {
  sha256Hex : string -> string;
  hmacSha256Hex : string -> string -> string;   (* key, message *)
}.

(** [Buffer.from(s, "hex")]: whole pairs of hex digits, up to the first bad one. *)
Definition hex_value (c : ascii) : option nat :=
  if is_digit c then Some (code c - 48)
  else if in_range 97 102 c then Some (code c - 87)
  else if in_range 65 70 c then Some (code c - 55)
  else None.

Fixpoint hexToBuffer (s : string) : string :=
  match s with
  | String a (String b s') =>
      match hex_value a, hex_value b with
      | Some x, Some y => String (ascii_of_nat (16 * x + y)) (hexToBuffer s')
      | _, _ => ""
      end
  | _ => ""
  end.

(** [buf.toString("hex")] *)
Fixpoint bufferToHex (s : string) : string :=
  match s with
  | EmptyString => ""
  | String c s' => String (hex_digit (code c / 16)) (String (hex_digit (code c mod 16)) (bufferToHex s'))
  end.

(** [timingSafeEqual]: throws on different lengths. *)
Definition timingSafeEqual (a b : string) : outcome exn bool :=
  if (slen a =? slen b)%nat then Return (String.eqb a b)
  else Throw (JsError "Input buffers must have the same byte length").

Definition safeEqual (a b : string) : outcome exn bool :=
  if negb (slen a =? slen b)%nat then
    let filler := repeat_char "000"%char (slen a) in
    match timingSafeEqual a filler with
    | Throw e => Throw e
    | Return _ => Return false
    end
  else timingSafeEqual a b.

Definition CODE_ALPHABET : string := "ABCDEFGHJKMNPQRSTUVWXYZ23456789".

(** [alphabet[i]] for an index in range *)
Definition char_at (s : string) (i : nat) : ascii := default "A"%char (String.get i s).

(** [draw i] is the value of the [i]-th call of [randomInt(0, 31)]. *)
Fixpoint draw_chars (alphabet : string) (draw : nat -> nat) (i n : nat) : string :=
  match n with
  | O => ""
  | S n' => String (char_at alphabet (draw i)) (draw_chars alphabet draw (S i) n')
  end.

Definition generateCode (draw : nat -> nat) (length : nat) : outcome exn string :=
  if (length <? 4)%nat || (32 <? length)%nat then Throw (JsError "invalid code length")
  else Return (draw_chars CODE_ALPHABET draw 0 length).

Definition API_KEY_ALPHABET : string := "abcdefghijklmnopqrstuvwxyz0123456789".

(** [bytes i] is the [i]-th of the 32 random bytes. *)
Definition generateApiKey (bytes : nat -> nat) (prefix : string) : string :=
  prefix ++ "_" ++ draw_chars API_KEY_ALPHABET (fun i => bytes i mod 36) 0 32.

(** [randomBytes(n).toString("hex")] *)
Definition generateNonce (randomBytes : string) : string := bufferToHex randomBytes.

Definition hashSecret `{Digest} (domain masterKeyHex value : string) : string :=
  let key := hexToBuffer masterKeyHex in
  hmacSha256Hex key (domain ++ ":" ++ value).

Definition verifyHmacHex `{Digest} (key payload signatureHex : string) : outcome exn bool :=
  let expected := hmacSha256Hex key payload in
  safeEqual expected signatureHex.

(** [lib/ids.ts]: a prefixed ULID; the ULID is the argument. *)
Definition newId (prefix ulid : string) : string := prefix ++ "_" ++ ulid.

Definition VERIFICATION_PREFIX : string := "vrf".
Definition RECEIVER_PREFIX : string := "rcv".
Definition INBOUND_PREFIX : string := "in".
Definition WEBHOOK_ENDPOINT_PREFIX : string := "whk".
Definition WEBHOOK_EVENT_PREFIX : string := "evt".
Definition WEBHOOK_DELIVERY_PREFIX : string := "wd".
Definition WEBAUTHN_CREDENTIAL_PREFIX : string := "wac".
Definition WEBAUTHN_CHALLENGE_PREFIX : string := "wch".
Definition PHONE_BINDING_PREFIX : string := "pbn".

(** ** Lemmas *)

(** [safeEqual] never throws: the length test guards both comparisons. *)
Lemma safeEqual_eq a b : safeEqual a b = Return (String.eqb a b).
Proof.
  unfold safeEqual, timingSafeEqual. rewrite slen_repeat, Nat.eqb_refl.
  destruct (slen a =? slen b)%nat eqn:E; [done|]. cbn.
  f_equal. symmetry. apply String.eqb_neq. intros ->. by rewrite Nat.eqb_refl in E.
Qed.

Lemma verifyHmacHex_eq `{Digest} key payload sig :
  verifyHmacHex key payload sig = Return (String.eqb (hmacSha256Hex key payload) sig).
Proof. apply safeEqual_eq. Qed.

Lemma draw_chars_length alphabet draw i n : slen (draw_chars alphabet draw i n) = n.
Proof. revert i. induction n; intros; cbn; auto. Qed.

Lemma draw_chars_class (p : ascii -> bool) alphabet draw i n :
  (forall k, p (char_at alphabet k) = true) -> all_chars p (draw_chars alphabet draw i n) = true.
Proof. intros H. revert i. induction n; intros; cbn; [done|]. rewrite H. apply IHn. Qed.

Lemma char_at_class (p : ascii -> bool) alphabet :
  p "A"%char = true -> all_chars p alphabet = true -> forall k, p (char_at alphabet k) = true.
Proof.
  intros HA. unfold char_at. induction alphabet; cbn; intros H k; [by destruct k|].
  rewrite andb_true_iff in H. destruct H as [H1 H2]. destruct k; cbn; auto.
Qed.

(** Every generated code is [length] characters of [[A-Z0-9]]. *)
Lemma generateCode_shape draw length c :
  generateCode draw length = Return c ->
  (4 <= length <= 32)%nat /\ slen c = length /\ all_chars is_AZ09 c = true.
Proof.
  unfold generateCode. destruct (_ || _) eqn:E; [discriminate|]. intros [= <-].
  apply orb_false_iff in E. destruct E as [E1 E2].
  apply Nat.ltb_ge in E1, E2. split; [lia|]. split; [apply draw_chars_length|].
  apply draw_chars_class. by apply char_at_class.
Qed.

Lemma generateCode_returns draw length :
  (4 <= length <= 32)%nat -> exists c, generateCode draw length = Return c.
Proof.
  intros [H1 H2]. unfold generateCode.
  replace (length <? 4)%nat with false by (symmetry; apply Nat.ltb_ge; lia).
  replace (32 <? length)%nat with false by (symmetry; apply Nat.ltb_ge; lia).
  cbn. eauto.
Qed.

(** *** Hexadecimal *)

Lemma hex_value_digit n : (n < 16)%nat -> hex_value (hex_digit n) = Some n.
Proof. intros Hn. do 16 (destruct n as [|n]; [done|]). lia. Qed.

Lemma hexToBuffer_bufferToHex s : hexToBuffer (bufferToHex s) = s.
Proof.
  induction s as [|c s IH]; [done|]. cbn [bufferToHex hexToBuffer].
  assert (Hc := nat_ascii_bounded c). fold (code c) in Hc.
  rewrite !hex_value_digit by (first [apply Nat.mod_upper_bound; lia|apply Nat.Div0.div_lt_upper_bound; lia]).
  rewrite IH. f_equal. rewrite <- Nat.div_mod_eq. apply ascii_nat_embedding.
Qed.

Lemma bufferToHex_hex s : all_chars is_hex (bufferToHex s) = true /\ slen (bufferToHex s) = (2 * slen s)%nat.
Proof.
  induction s as [|c s [IH1 IH2]]; [done|]. cbn [bufferToHex all_chars String.length]. rewrite IH1, IH2. split; [|cbn; lia].
  assert (Hd : forall n, (n < 16)%nat -> is_hex (hex_digit n) = true).
  { intros n Hn. do 16 (destruct n as [|n]; [done|]). lia. }
  assert (Hc := nat_ascii_bounded c). fold (code c) in Hc.
  rewrite !Hd; [done| |]; [apply Nat.mod_upper_bound; lia|apply Nat.Div0.div_lt_upper_bound; lia].
Qed.
