(* ===== verification/JsNumber.v ===== *)
(** * Numbers of the language

    The 32-bit operators of JavaScript on integers, [Number(s)] for decimal and
    prefixed literals, [parseInt(s, 10)] and [parseInt(s, 16)].  A number is an
    integer; what is not an integer (a fraction, [NaN]) is [None]. *)

From S2P Require Import Prelude JsString Json.
From Stdlib Require Import String Ascii.

Open Scope Z_scope.

(** ** 32-bit operators *)

Definition to_uint32 (z : Z) : Z := z mod 2 ^ 32.
Definition to_int32 (z : Z) : Z :=
  let m := z mod 2 ^ 32 in if m <? 2 ^ 31 then m else m - 2 ^ 32.

Definition js_and (a b : Z) : Z := to_int32 (Z.land (to_uint32 a) (to_uint32 b)).
Definition js_or (a b : Z) : Z := to_int32 (Z.lor (to_uint32 a) (to_uint32 b)).
Definition js_shl (a k : Z) : Z := to_int32 (Z.shiftl (to_uint32 a) (k mod 32)).
Definition js_ushr (a k : Z) : Z := Z.shiftr (to_uint32 a) (k mod 32).

(** ** Reading digits *)

Definition digit_value (c : ascii) : Z := Z.of_nat (code c) - 48.

(** The longest prefix of characters of a class, and the rest. *)
Fixpoint span (p : ascii -> bool) (s : string) : string * string :=
  match s with
  | EmptyString => (""%string, ""%string)
  | String c s' =>
      if p c then let '(a, b) := span p s' in (String c a, b) else (""%string, s)
  end.

Fixpoint digits_value (acc : Z) (s : string) : Z :=
  match s with
  | EmptyString => acc
  | String c s' => digits_value (acc * 10 + digit_value c) s'
  end.

Fixpoint hex_digits_value (acc : Z) (s : string) : Z :=
  match s with
  | EmptyString => acc
  | String c s' =>
      let d := if is_digit c then digit_value c
               else if in_range 97 102 c then Z.of_nat (code c) - 87
               else Z.of_nat (code c) - 55 in
      hex_digits_value (acc * 16 + d) s'
  end.

(** [parseInt(s, 10)] where it is finite: white space, a sign, then digits; the rest
    is ignored.  Digits that round to an infinite double give none, as no digit
    does; the rounding of finite values above 2^53 is not modelled. *)
Definition parse_sign (s : string) : Z * string :=
  match s with
  | String c s' =>
      if Ascii.eqb c "-"%char then (-1, s')
      else if Ascii.eqb c "+"%char then (1, s') else (1, s)
  | EmptyString => (1, s)
  end.

Definition DOUBLE_OVERFLOW : Z := 2 ^ 1024 - 2 ^ 970.

Definition parseInt10 (s : string) : option Z :=
  let '(sg, t) := parse_sign (trimStart s) in
  let '(ds, _) := span is_digit t in
  if nonempty ds && (digits_value 0 ds <? DOUBLE_OVERFLOW) then Some (sg * digits_value 0 ds) else None.

(** The integer value of [Number(s)].  A decimal literal is
    [int.frac] with an optional exponent; [0x], [0o], [0b] prefix integers. *)
Definition decimal_integer (int frac : string) (exp : Z) : option Z :=
  let m := digits_value 0 (int ++ frac) in
  let scale := exp - Z.of_nat (slen frac) in
  if 0 <=? scale then Some (m * 10 ^ scale)
  else if m mod 10 ^ (- scale) =? 0 then Some (m / 10 ^ (- scale)) else None.

Definition parse_unsigned_decimal (s : string) : option Z :=
  let '(int, r) := span is_digit s in
  let '(frac, r) :=
    match r with
    | String c r' => if Ascii.eqb c "."%char then span is_digit r' else (""%string, r)
    | EmptyString => (""%string, r)
    end in
  if negb (nonempty int) && negb (nonempty frac) then None
  else match r with
       | EmptyString => decimal_integer int frac 0
       | String c r' =>
           if Ascii.eqb c "e"%char || Ascii.eqb c "E"%char then
             let '(sg, t) := parse_sign r' in
             if nonempty t && all_chars is_digit t
             then decimal_integer int frac (sg * digits_value 0 t) else None
           else None
       end.

Definition in_base (b : nat) (c : ascii) : bool :=
  match b with
  | 2%nat => in_range 48 49 c
  | 8%nat => in_range 48 55 c
  | _ => is_hex c
  end.

Fixpoint base_value (b acc : Z) (s : string) : Z :=
  match s with
  | EmptyString => acc
  | String c s' => base_value b (acc * b + hex_digits_value 0 (String c "")) s'
  end.

Definition prefixed_integer (b : nat) (ds : string) : option Z :=
  if nonempty ds && all_chars (in_base b) ds then Some (base_value (Z.of_nat b) 0 ds) else None.

Definition js_Number (s : string) : option Z :=
  match trim s with
  | EmptyString => Some 0
  | String c0 (String c1 ds) as t =>
      if Ascii.eqb c0 "0"%char && (Ascii.eqb c1 "x"%char || Ascii.eqb c1 "X"%char)
      then prefixed_integer 16 ds
      else if Ascii.eqb c0 "0"%char && (Ascii.eqb c1 "o"%char || Ascii.eqb c1 "O"%char)
      then prefixed_integer 8 ds
      else if Ascii.eqb c0 "0"%char && (Ascii.eqb c1 "b"%char || Ascii.eqb c1 "B"%char)
      then prefixed_integer 2 ds
      else let '(sg, u) := parse_sign t in Z.mul sg <$> parse_unsigned_decimal u
  | t => let '(sg, u) := parse_sign t in Z.mul sg <$> parse_unsigned_decimal u
  end.

(** ** Lemmas *)

Lemma to_uint32_small z : 0 <= z < 2 ^ 32 -> to_uint32 z = z.
Proof. apply Z.mod_small. Qed.

Lemma to_int32_inj a b :
  0 <= a < 2 ^ 32 -> 0 <= b < 2 ^ 32 -> to_int32 a = to_int32 b -> a = b.
Proof.
  intros Ha Hb. unfold to_int32. rewrite !Z.mod_small by lia.
  destruct (a <? 2 ^ 31) eqn:E1, (b <? 2 ^ 31) eqn:E2; reflect_eqb; lia.
Qed.

Lemma land_bound w a b :
  0 <= w -> 0 <= a -> 0 <= b < 2 ^ w -> 0 <= Z.land a b < 2 ^ w.
Proof.
  intros Hw Ha Hb. split; [apply Z.land_nonneg; lia|].
  assert (E : b = Z.land b (Z.ones w)) by (rewrite Z.land_ones, Z.mod_small; lia).
  rewrite E, Z.land_assoc, Z.land_ones by lia. apply Z.mod_pos_bound. lia.
Qed.

(** Keeping the high bits of a [w]-bit word is rounding down to a multiple of [2^k]. *)
Lemma land_high_mask w a k :
  0 <= a < 2 ^ w -> 0 <= k <= w -> Z.land a (2 ^ w - 2 ^ k) = a / 2 ^ k * 2 ^ k.
Proof.
  intros Ha Hk.
  replace (2 ^ w - 2 ^ k) with (Z.shiftl (Z.ones (w - k)) k).
  - rewrite <- Z.shiftr_div_pow2, <- Z.shiftl_mul_pow2 by lia.
    apply Z.bits_inj'. intros n Hn. rewrite Z.land_spec.
    destruct (Z.ltb_spec n k).
    + rewrite !Z.shiftl_spec_low by lia. by rewrite andb_false_r.
    + rewrite !Z.shiftl_spec by lia. rewrite Z.shiftr_spec by lia.
      replace (n - k + k) with n by lia.
      destruct (Z.ltb_spec n w).
      * rewrite Z.ones_spec_low by lia. by rewrite andb_true_r.
      * rewrite Z.ones_spec_high by lia. rewrite andb_false_r.
        destruct (Z.eq_dec a 0) as [->|]; [by rewrite Z.bits_0|].
        symmetry. apply Z.bits_above_log2; [lia|].
        apply Z.lt_le_trans with w; [|lia]. apply Z.log2_lt_pow2; lia.
  - rewrite Z.shiftl_mul_pow2, Z.ones_equiv by lia.
    rewrite Z.mul_pred_l, <- Z.pow_add_r by lia. f_equal. f_equal. lia.
Qed.

Lemma js_and_small a b :
  0 <= a < 2 ^ 31 -> 0 <= b < 2 ^ 31 -> js_and a b = Z.land a b.
Proof.
  intros Ha Hb. unfold js_and. rewrite !to_uint32_small by lia.
  pose proof (land_bound 31 a b ltac:(lia) ltac:(lia) Hb).
  unfold to_int32. rewrite Z.mod_small by lia. destruct (_ <? _) eqn:E; [done|].
  reflect_eqb. lia.
Qed.

(** [x & (2^k - 1)] is the remainder. *)
Lemma js_and_ones a k : 0 <= a < 2 ^ 32 -> 0 <= k <= 30 -> js_and a (2 ^ k - 1) = a mod 2 ^ k.
Proof.
  intros Ha Hk. assert (Hp : 2 ^ k <= 2 ^ 30) by (apply Z.pow_le_mono_r; lia).
  assert (H0 : 0 < 2 ^ k) by (apply Z.pow_pos_nonneg; lia).
  unfold js_and. rewrite !to_uint32_small by lia.
  replace (2 ^ k - 1) with (Z.ones k) by (rewrite Z.ones_equiv; lia).
  rewrite Z.land_ones by lia. pose proof (Z.mod_pos_bound a (2 ^ k) H0).
  unfold to_int32. rewrite Z.mod_small by lia. destruct (_ <? _) eqn:E; [done|].
  reflect_eqb. lia.
Qed.

Lemma js_ushr_div a k : 0 <= a < 2 ^ 32 -> 0 <= k < 32 -> js_ushr a k = a / 2 ^ k.
Proof.
  intros Ha Hk. unfold js_ushr. rewrite to_uint32_small, Z.mod_small by lia.
  apply Z.shiftr_div_pow2. lia.
Qed.
