(* ===== verification/Double.v ===== *)
(** * Binary64 numbers

    The numbers of the language where a fraction matters: the binary64 arithmetic
    of the Standard Library's [SpecFloat], [Math.round], [Math.min] and
    [Math.max].  The lemmas bound magnitudes, so that a client can show that a sum
    of a few products never leaves the finite numbers, and that integers below
    2^53 are represented and compared exactly. *)

From S2P Require Import Prelude.
From Stdlib Require Import Floats.SpecFloat.

Open Scope Z_scope.

Abbreviation double := spec_float.

Definition of_Z (z : Z) : double := binary_normalize 53 1024 z 0 false.

Definition dmul : double -> double -> double := SFmul 53 1024.
Definition ddiv : double -> double -> double := SFdiv 53 1024.
Definition dsub : double -> double -> double := SFsub 53 1024.
Definition dadd : double -> double -> double := SFadd 53 1024.

(** [x < y], [x <= y] *)
Definition dlt : double -> double -> bool := SFltb.
Definition dle : double -> double -> bool := SFleb.

(** [Number.isFinite] *)
Definition is_finite (x : double) : bool := match x with S754_zero _ | S754_finite _ _ _ => true | _ => false end.

Definition negative (x : double) : bool :=
  match x with S754_zero s | S754_infinity s | S754_finite s _ _ => s | S754_nan => false end.

(** The nearest integer, ties towards plus infinity, of [(-1)^s m 2^e]. *)
Definition round_half_up (s : bool) (m : positive) (e : Z) : Z :=
  let z := cond_Zopp s (Zpos m) in
  if 0 <=? e then z * 2 ^ e else (2 * z + 2 ^ (- e)) / 2 ^ (1 - e).

(** [Math.round] *)
Definition Math_round (x : double) : double :=
  match x with
  | S754_finite s m e =>
      let z := round_half_up s m e in if z =? 0 then S754_zero s else of_Z z
  | _ => x
  end.

(** [Math.ceil] of a finite number, as an integer. *)
Definition ceil_Z (x : double) : Z :=
  match x with
  | S754_finite s m e =>
      let z := cond_Zopp s (Zpos m) in if 0 <=? e then z * 2 ^ e else - (- z / 2 ^ (- e))
  | _ => 0
  end.

(** [Math.max] and [Math.min] of two numbers: [NaN] is absorbing and -0 is below +0. *)
Definition Math_max (x y : double) : double :=
  match SFcompare x y with
  | None => S754_nan
  | Some Lt => y
  | Some Gt => x
  | Some Eq => if negative x then y else x
  end.

Definition Math_min (x y : double) : double :=
  match SFcompare x y with
  | None => S754_nan
  | Some Lt => x
  | Some Gt => y
  | Some Eq => if negative x then x else y
  end.

(** ** Magnitudes *)

Lemma digits2_log2 p : Zpos (digits2_pos p) = Z.log2 (Zpos p) + 1.
Proof.
  induction p as [p IH|p IH|]; [| |done]; cbn [digits2_pos]; rewrite Pos2Z.inj_succ, IH.
  - rewrite Pos2Z.inj_xI. rewrite Z.log2_succ_double by lia. lia.
  - rewrite Pos2Z.inj_xO. rewrite Z.log2_double by lia. lia.
Qed.

(** [m 2^e < 2^K], for a mantissa that may be zero *)
Definition within (K m e : Z) : Prop := 0 <= m /\ e + 1 <= K /\ (0 < m -> Z.log2 m + 1 + e <= K).

(** A finite number below [2^K] in magnitude. *)
Definition small (K : Z) (x : double) : Prop :=
  match x with
  | S754_zero _ => True
  | S754_finite _ m e => Z.log2 (Zpos m) + 1 + e <= K
  | _ => False
  end.

Lemma small_le K L x : small K x -> K <= L -> small L x.
Proof. destruct x; unfold small; try done. intros. lia. Qed.

Lemma shr_1_div2 r : 0 <= shr_m r -> shr_m (shr_1 r) = shr_m r / 2.
Proof.
  destruct r as [[|[p|p|]|p] a b]; cbn [shr_m shr_1]; intros H; try done.
  - rewrite Pos2Z.inj_xI. symmetry. replace (2 * Zpos p + 1) with (1 + Zpos p * 2) by lia.
    rewrite Z.div_add by lia. change (1 / 2) with 0. lia.
  - rewrite Pos2Z.inj_xO. symmetry. rewrite Z.mul_comm. by apply Z.div_mul.
Qed.

Lemma iter_shr n r : 0 <= shr_m r -> shr_m (iter_pos shr_1 n r) = shr_m r / 2 ^ Zpos n.
Proof.
  assert (Hs : forall r, 0 <= shr_m r -> 0 <= shr_m (shr_1 r)).
  { intros r' H. rewrite (shr_1_div2 r' H). by apply Z.div_pos. }
  assert (Hi : forall k r, 0 <= shr_m r -> 0 <= shr_m (iter_pos shr_1 k r)).
  { intros k. induction k as [k IH|k IH|]; intros r' H; cbn [iter_pos]; auto. }
  revert r. induction n as [n IH|n IH|]; intros r H; cbn [iter_pos].
  - rewrite IH by auto. rewrite IH by auto. rewrite (shr_1_div2 r H).
    assert (0 < 2 ^ Zpos n) by (apply Z.pow_pos_nonneg; lia).
    rewrite Z.div_div by nia. rewrite Z.div_div by nia. f_equal.
    replace (Zpos n~1) with (1 + Zpos n + Zpos n) by lia. rewrite !Z.pow_add_r by lia. lia.
  - rewrite IH by auto. rewrite IH by auto. assert (0 < 2 ^ Zpos n) by (apply Z.pow_pos_nonneg; lia).
    rewrite Z.div_div by nia. f_equal.
    replace (Zpos n~0) with (Zpos n + Zpos n) by lia. by rewrite !Z.pow_add_r by lia.
  - by apply shr_1_div2.
Qed.

Lemma shr_record_m m l : shr_m (shr_record_of_loc m l) = m.
Proof. by destruct l as [|[]]. Qed.

Lemma fexp_le d K : d <= K -> -1000 <= K -> fexp 53 1024 d + 1 <= K.
Proof. unfold fexp, emin. lia. Qed.

Lemma Zdigits2_le K m e : within K m e -> Zdigits2 m + e <= K.
Proof.
  intros (H & He & Hl). destruct m as [|p|p]; cbn [Zdigits2]; [lia| |lia].
  rewrite digits2_log2. specialize (Hl ltac:(lia)). lia.
Qed.

(** Shifting a mantissa right keeps its magnitude. *)
Lemma shr_fexp_within K m e l :
  within K m e -> -1000 <= K ->
  within K (shr_m (fst (shr_fexp 53 1024 m e l))) (snd (shr_fexp 53 1024 m e l)).
Proof.
  intros Hw HK. assert (Hd := fexp_le _ K (Zdigits2_le K m e Hw) HK). revert Hd. unfold shr_fexp.
  set (f := fexp _ _ _). intros Hd. destruct Hw as (Hm & He & Hl).
  destruct (f - e) as [|p|p] eqn:En; cbn [shr fst snd]; rewrite ?shr_record_m; [done| |done].
  rewrite iter_shr by (by rewrite shr_record_m). rewrite shr_record_m.
  split; [apply Z.div_pos; [done|by apply Z.pow_pos_nonneg]|]. split; [lia|]. intros Hq.
  assert (Hle : 2 ^ Zpos p <= m).
  { destruct (Z_lt_ge_dec m (2 ^ Zpos p)) as [Hlt|]; [|lia]. rewrite Z.div_small in Hq by lia. lia. }
  assert (Hm0 : 0 < m) by (pose proof (Z.pow_pos_nonneg 2 (Zpos p)); lia).
  rewrite <- Z.shiftr_div_pow2 by lia. rewrite Z.log2_shiftr by done. specialize (Hl Hm0).
  assert (Zpos p <= Z.log2 m) by (apply Z.log2_le_pow2; done). lia.
Qed.

Lemma within_succ K m e : within K m e -> within (K + 1) (m + 1) e.
Proof.
  intros (H & He & Hl). split; [lia|]. split; [lia|]. intros _.
  destruct (Z.eq_dec m 0) as [->|]; [change (Z.log2 (0 + 1)) with 0; lia|]. pose proof (Z.log2_succ_le m). unfold Z.succ in *. specialize (Hl ltac:(lia)). lia.
Qed.

Lemma within_le K L m e : within K m e -> K <= L -> within L m e.
Proof. intros (H & He & Hl) HL. split; [done|]. split; [lia|]. intros Hm. specialize (Hl Hm). lia. Qed.

(** Rounding a number below [2^K] gives a finite number below [2^(K+1)]. *)
Lemma round_aux_small K s m e l :
  within K m e -> -1000 <= K <= 900 -> small (K + 1) (binary_round_aux 53 1024 s m e l).
Proof.
  intros Hw HK. unfold binary_round_aux.
  assert (H1 := shr_fexp_within K m e l Hw ltac:(lia)). destruct (shr_fexp 53 1024 m e l) as [r1 e1]. cbn [fst snd] in H1.
  assert (Hr : within (K + 1) (round_nearest_even (shr_m r1) (loc_of_shr_record r1)) e1).
  { unfold round_nearest_even. destruct (loc_of_shr_record r1) as [|[]]; try (apply (within_le K); [done|lia]); try by apply within_succ.
    destruct (Z.even _); [apply (within_le K); [done|lia]|by apply within_succ]. }
  assert (H2 := shr_fexp_within (K + 1) _ _ loc_Exact Hr ltac:(lia)).
  destruct (shr_fexp 53 1024 (round_nearest_even _ _) e1 loc_Exact) as [r2 e2]. cbn [fst snd] in H2.
  destruct H2 as (Hm & He & Hl). destruct (shr_m r2) as [|p|p]; [done| |lia].
  destruct (Z.leb_spec e2 (1024 - 53)); [|lia]. unfold small. apply Hl. lia.
Qed.

(** ** Integers *)

Lemma shl_align_neg m e d :
  shl_align m e (e - Zpos d) = (Pos.iter xO m d, e - Zpos d).
Proof. unfold shl_align. by replace (e - Zpos d - e) with (Zneg d) by lia. Qed.

Lemma iter_xO m d : Zpos (Pos.iter xO m d) = Zpos m * 2 ^ Zpos d.
Proof.
  induction d as [|d IH] using Pos.peano_ind; [by rewrite Z.mul_comm|].
  rewrite Pos.iter_succ, Pos2Z.inj_xO, IH, Pos2Z.inj_succ, Z.pow_succ_r by lia. lia.
Qed.

(** A mantissa that is canonical for its exponent is not rounded. *)
Lemma round_aux_canonical s p e :
  Z.log2 (Zpos p) + 1 = 53 -> -1074 <= e <= 900 -> binary_round_aux 53 1024 s (Zpos p) e loc_Exact = S754_finite s p e.
Proof.
  intros Hp He. unfold binary_round_aux.
  assert (Hx : shr_fexp 53 1024 (Zpos p) e loc_Exact = ({| shr_m := Zpos p; shr_r := false; shr_s := false |}, e)).
  { unfold shr_fexp. cbn [Zdigits2 shr_record_of_loc]. rewrite digits2_log2, Hp.
    replace (fexp 53 1024 (53 + e) - e) with 0; [done|]. unfold fexp, emin. lia. }
  rewrite Hx. cbn [shr_m loc_of_shr_record round_nearest_even]. rewrite Hx. cbn [shr_m].
  destruct (Z.leb_spec e (1024 - 53)); [done|lia].
Qed.

(** Integers below 2^53 are exact. *)
Lemma binary_round_int s p :
  Zpos p < 2 ^ 53 ->
  exists q, binary_round 53 1024 s p 0 = S754_finite s q (Z.log2 (Zpos p) - 52) /\
            Zpos q = Zpos p * 2 ^ (52 - Z.log2 (Zpos p)) /\ Z.log2 (Zpos q) = 52.
Proof.
  intros Hp. assert (Hl : 0 <= Z.log2 (Zpos p) <= 52).
  { split; [apply Z.log2_nonneg|]. assert (Z.log2 (Zpos p) < 53) by (apply Z.log2_lt_pow2; lia). lia. }
  unfold binary_round. rewrite digits2_log2.
  replace (fexp 53 1024 (Z.log2 (Zpos p) + 1 + 0)) with (Z.log2 (Zpos p) - 52) by (unfold fexp, emin; lia).
  destruct (52 - Z.log2 (Zpos p)) as [|d|d] eqn:Ed; [| |lia].
  - exists p. replace (Z.log2 (Zpos p) - 52) with 0 by lia. cbn [shl_align Z.sub Z.add Z.opp].
    split; [apply round_aux_canonical; lia|]. change (2 ^ 0) with 1. lia.
  - replace (Z.log2 (Zpos p) - 52) with (0 - Zpos d) by lia. rewrite shl_align_neg.
    assert (Hq : Z.log2 (Zpos (Pos.iter xO p d)) = 52).
    { rewrite iter_xO, Z.log2_mul_pow2 by lia. lia. }
    exists (Pos.iter xO p d). split; [apply round_aux_canonical; lia|]. split; [apply iter_xO|exact Hq].
Qed.

Lemma of_Z_small z : Z.abs z < 2 ^ 53 -> small (Z.log2 (Z.abs z) + 1) (of_Z z).
Proof.
  intros Hz. unfold of_Z, binary_normalize. destruct z as [|p|p]; [done| |].
  - destruct (binary_round_int false p) as (q & E & _ & Hq); [cbn in Hz; lia|]. rewrite E. unfold small. change (Z.abs _) with (Zpos p). lia.
  - destruct (binary_round_int true p) as (q & E & _ & Hq); [cbn in Hz; lia|]. rewrite E. unfold small. change (Z.abs _) with (Zpos p). lia.
Qed.

(** A comparison of non-negative integers below 2^53, or of one with a negative. *)
Lemma of_Z_compare a b :
  0 < a -> Z.abs b < 2 ^ 53 -> a < 2 ^ 53 -> SFcompare (of_Z a) (of_Z b) = Some (a ?= b).
Proof.
  intros Ha Hb Ha'. destruct a as [|p|p]; [lia| |lia]. unfold of_Z, binary_normalize.
  destruct (binary_round_int false p) as (q & -> & Hq & Lq); [lia|].
  destruct b as [|r|r]; [done| |].
  2:{ destruct (binary_round_int true r) as (t & -> & _ & _); [cbn in Hb; lia|]. done. }
  destruct (binary_round_int false r) as (t & -> & Et & Lt'); [cbn in Hb; lia|].
  cbn [SFcompare]. f_equal. change (Pos.compare_cont Eq q t) with (Pos.compare q t).
  destruct (Z.compare_spec (Z.log2 (Zpos p) - 52) (Z.log2 (Zpos r) - 52)) as [E|E|E].
  - rewrite Pos2Z.inj_compare, Hq, Et. replace (Z.log2 (Zpos r)) with (Z.log2 (Zpos p)) by lia.
    symmetry. apply Zmult_compare_compat_r. apply Z.lt_gt, Z.pow_pos_nonneg; [lia|].
    assert (Z.log2 (Zpos p) < 53) by (apply Z.log2_lt_pow2; lia). lia.
  - symmetry. apply Z.compare_lt_iff. apply Z.log2_lt_cancel. lia.
  - symmetry. apply Z.compare_gt_iff. apply Z.log2_lt_cancel. lia.
Qed.

Lemma dlt_of_Z a b : 0 <= a < 2 ^ 53 -> 0 <= b < 2 ^ 53 -> dlt (of_Z a) (of_Z b) = (a <? b).
Proof.
  intros Ha Hb. unfold dlt, SFltb. destruct (Z.eq_dec a 0) as [->|].
  - destruct b as [|p|p]; [done| |lia]. unfold of_Z at 2. cbn [binary_normalize].
    destruct (binary_round_int false p) as (q & -> & _); [lia|]. done.
  - rewrite of_Z_compare by lia. unfold Z.ltb. by destruct (a ?= b).
Qed.

(** ** Operations *)

Lemma finite_within K s m e : small K (S754_finite s m e) -> within K (Zpos m) e.
Proof. unfold small. pose proof (Z.log2_nonneg (Zpos m)) as Hn. intros H. split; [lia|]. split; [lia|]. intros _. exact H. Qed.

Lemma dmul_small K L x y :
  small K x -> small L y -> -1000 <= K + L <= 900 -> small (K + L + 1) (dmul x y).
Proof.
  intros Hx Hy HKL. destruct x as [sx|sx| |sx mx ex], y as [sy|sy| |sy my ey]; try done. unfold dmul. cbn [SFmul].
  apply round_aux_small; [|lia]. unfold small in Hx, Hy. rewrite Pos2Z.inj_mul.
  pose proof (Z.log2_mul_above (Zpos mx) (Zpos my) ltac:(lia) ltac:(lia)).
  pose proof (Z.log2_nonneg (Zpos mx)). pose proof (Z.log2_nonneg (Zpos my)).
  split; [lia|]. split; lia.
Qed.

(** A mantissa aligned to a smaller exponent keeps its value. *)
Lemma shl_align_bound K m e e' :
  Z.log2 (Zpos m) + 1 + e <= K -> e' <= e -> Zpos (fst (shl_align m e e')) < 2 ^ (K - e').
Proof.
  intros Hm He. pose proof (Z.log2_nonneg (Zpos m)). unfold shl_align. apply Z.log2_lt_pow2; [lia|].
  destruct (e' - e) as [|d|d] eqn:E; cbn [fst]; try lia. rewrite iter_xO, Z.log2_mul_pow2 by lia. lia.
Qed.

Lemma binary_round_small K s p e :
  Z.log2 (Zpos p) + 1 + e <= K -> -1000 <= K <= 900 -> small (K + 1) (binary_round 53 1024 s p e).
Proof.
  intros Hp HK. unfold binary_round. set (f := fexp _ _ _).
  assert (Hf : f + 1 <= K) by (apply fexp_le; [rewrite digits2_log2; lia|lia]).
  pose proof (Z.log2_nonneg (Zpos p)). unfold shl_align.
  destruct (f - e) as [|d|d] eqn:E; apply round_aux_small; try lia; (split; [lia|]); split; try lia.
  intros _. rewrite iter_xO, Z.log2_mul_pow2 by lia. lia.
Qed.

Lemma binary_normalize_small K m e z :
  Z.abs m < 2 ^ (K - e) -> -1000 <= K <= 900 -> small (K + 1) (binary_normalize 53 1024 m e z).
Proof.
  intros Hm HK. destruct m as [|p|p]; cbn [binary_normalize]; [done| |];
    (apply binary_round_small; [|done]); change (Z.abs _) with (Zpos p) in Hm; apply Z.log2_lt_pow2 in Hm; lia.
Qed.

Lemma dsub_small K x y :
  small K x -> small K y -> -1000 <= K <= 800 -> small (K + 2) (dsub x y).
Proof.
  intros Hx Hy HK. destruct x as [sx|sx| |sx mx ex], y as [sy|sy| |sy my ey]; try done; unfold dsub; cbn [SFsub].
  - by destruct sx, sy.
  - unfold small in *. lia.
  - unfold small in *. lia.
  - replace (K + 2) with ((K + 1) + 1) by lia. apply binary_normalize_small; [|lia].
    unfold small in Hx, Hy. assert (Ha := shl_align_bound K mx ex (Z.min ex ey) Hx ltac:(lia)).
    assert (Hb := shl_align_bound K my ey (Z.min ex ey) Hy ltac:(lia)).
    replace (K + 1 - Z.min ex ey) with (Z.succ (K - Z.min ex ey)) by lia.
    rewrite Z.pow_succ_r by (pose proof (Z.log2_nonneg (Zpos mx)); lia). revert Ha Hb.
    generalize (fst (shl_align mx ex (Z.min ex ey))) (fst (shl_align my ey (Z.min ex ey))) (2 ^ (K - Z.min ex ey)).
    intros a b P Ha Hb. destruct sx, sy; unfold cond_Zopp; lia.
Qed.

(** The quotient of a non-negative integer by a positive one, both below 2^53. *)
Lemma ddiv_small a b :
  0 <= a < 2 ^ 53 -> 0 < b < 2 ^ 53 -> small (Z.log2 a + 3) (ddiv (of_Z a) (of_Z b)).
Proof.
  intros Ha Hb. destruct b as [|r|r]; [lia| |lia]. unfold of_Z, ddiv, binary_normalize.
  destruct (binary_round_int false r) as (t & -> & Et & Lt'); [lia|].
  destruct a as [|p|p]; [done| |lia]. destruct (binary_round_int false p) as (q & -> & Eq & Lq); [lia|].
  cbn [SFdiv xorb]. unfold SFdiv_core_binary. cbn [Zdigits2]. rewrite !digits2_log2, Lq, Lt'.
  set (la := Z.log2 (Zpos p)) in *. set (lb := Z.log2 (Zpos r)) in *.
  assert (Hla : 0 <= la < 53) by (split; [apply Z.log2_nonneg|apply Z.log2_lt_pow2; lia]).
  assert (Hlb : 0 <= lb < 53) by (split; [apply Z.log2_nonneg|apply Z.log2_lt_pow2; lia]).
  replace (fexp 53 1024 _) with (la - lb - 53) by (unfold fexp, emin; lia).
  replace (Z.min _ _) with (la - lb - 53) by lia. replace (la - 52 - (lb - 52) - (la - lb - 53)) with 53 by lia.
  destruct (Z.div_eucl (Z.shiftl (Zpos q) 53) (Zpos t)) as [d r0] eqn:Ed.
  replace (la + 3) with ((la + 2) + 1) by lia. apply round_aux_small; [|lia].
  assert (Hd : d = Z.shiftl (Zpos q) 53 / Zpos t) by (unfold Z.div; by rewrite Ed).
  assert (Hn : 0 <= d) by (rewrite Hd; apply Z.div_pos; [apply Z.shiftl_nonneg; lia|lia]).
  split; [done|]. split; [lia|]. intros Hp.
  assert (Hu : d < 2 ^ 54).
  { rewrite Hd, Z.shiftl_mul_pow2 by lia. apply Z.div_lt_upper_bound; [lia|].
    pose proof (Z.log2_spec (Zpos q) ltac:(lia)) as [_ Hq]. pose proof (Z.log2_spec (Zpos t) ltac:(lia)) as [Ht _].
    rewrite Lq in Hq. rewrite Lt' in Ht. change (2 ^ Z.succ 52) with (2 * 2 ^ 52) in Hq. change (2 ^ 54) with (2 * 2 ^ 53). nia. }
  apply Z.log2_lt_pow2 in Hu; lia.
Qed.

Lemma round_half_up_bound K s m e :
  small K (S754_finite s m e) -> 0 <= K -> Z.abs (round_half_up s m e) <= 2 ^ K.
Proof.
  unfold small, round_half_up. intros Hm HK. pose proof (Z.log2_nonneg (Zpos m)) as Hl.
  destruct (Z.leb_spec 0 e) as [He|He].
  - rewrite Z.abs_mul. replace (Z.abs (cond_Zopp s (Zpos m))) with (Zpos m) by (destruct s; done).
    rewrite (Z.abs_eq (2 ^ e)) by (apply Z.pow_nonneg; lia). apply Z.lt_le_incl.
    replace K with ((K - e) + e) by lia. rewrite Z.pow_add_r by lia.
    apply Z.mul_lt_mono_pos_r; [by apply Z.pow_pos_nonneg|]. apply Z.log2_lt_pow2; lia.
  - assert (Hp : 0 < 2 ^ (- e)) by (apply Z.pow_pos_nonneg; lia).
    assert (Hlt : Zpos m < 2 ^ K * 2 ^ (- e)).
    { rewrite <- Z.pow_add_r by lia. apply Z.log2_lt_pow2; lia. }
    replace (1 - e) with (Z.succ (- e)) by lia. rewrite Z.pow_succ_r by lia.
    assert (Hc : Z.abs (cond_Zopp s (Zpos m)) = Zpos m) by (destruct s; done).
    revert Hc Hlt Hp. generalize (cond_Zopp s (Zpos m)) (2 ^ (- e)) (2 ^ K). intros c P Q Hc Hlt Hp.
    apply Z.abs_le. split; [apply Z.div_le_lower_bound; nia|].
    assert ((2 * c + P) / (2 * P) < Q + 1); [|lia]. apply Z.div_lt_upper_bound; nia.
Qed.

Lemma Math_min_of_Z n z :
  0 < n < 2 ^ 53 -> Z.abs z < 2 ^ 53 -> Math_min (of_Z n) (of_Z z) = of_Z (Z.min n z).
Proof.
  intros Hn Hz. unfold Math_min. rewrite of_Z_compare by lia. destruct (Z.compare_spec n z) as [->|Hlt|Hlt].
  - rewrite Z.min_id. by destruct (negative _).
  - by rewrite Z.min_l by lia.
  - by rewrite Z.min_r by lia.
Qed.

Lemma Math_max_of_Z z : Z.abs z < 2 ^ 53 -> Math_max (of_Z 0) (of_Z z) = of_Z (Z.max 0 z).
Proof.
  intros Hz. destruct z as [|p|p]; [done| |]; unfold of_Z at 2; cbn [binary_normalize].
  - destruct (binary_round_int false p) as (q & E & _); [lia|]. change (of_Z (Z.max 0 (Zpos p))) with (binary_round 53 1024 false p 0).
    by rewrite E.
  - destruct (binary_round_int true p) as (q & -> & _); [cbn in Hz; lia|]. done.
Qed.

(** Clamping a rounded finite number gives an integer of the interval. *)
Lemma clamp_round K n x :
  small K x -> 0 <= K <= 52 -> 0 < n < 2 ^ 53 ->
  exists k, 0 <= k <= n /\ Math_max (of_Z 0) (Math_min (of_Z n) (Math_round x)) = of_Z k.
Proof.
  intros Hx HK Hn.
  assert (Hzero : forall s, Math_max (of_Z 0) (Math_min (of_Z n) (S754_zero s)) = of_Z 0).
  { intros s. destruct n as [|p|p]; [lia| |lia]. unfold of_Z at 2. cbn [binary_normalize].
    destruct (binary_round_int false p) as (q & -> & _); [lia|]. by destruct s. }
  destruct x as [s|s| |s m e]; try done; [exists 0; split; [lia|apply Hzero]|]. unfold Math_round.
  assert (Hb := round_half_up_bound K s m e Hx ltac:(lia)).
  assert (2 ^ K <= 2 ^ 52) by (apply Z.pow_le_mono_r; lia).
  destruct (Z.eqb_spec (round_half_up s m e) 0) as [_|Hz]; [exists 0; split; [lia|apply Hzero]|].
  rewrite Math_min_of_Z by lia. rewrite Math_max_of_Z by lia. eexists. split; [|reflexivity]. lia.
Qed.

(** ** The order of the finite non-negative numbers *)

Definition non_negative (x : double) : Prop := is_finite x = true /\ dlt x (of_Z 0) = false.

Lemma dlt_asym x y : dlt x y = true -> dlt y x = false.
Proof.
  unfold dlt, SFltb. destruct x as [[]|[]| |[] m e], y as [[]|[]| |[] n f]; cbn; try done;
    change (Pos.compare_cont Eq ?a ?b) with (Pos.compare a b);
    destruct (Z.compare_spec e f), (Z.compare_spec f e); try lia; try done;
    destruct (Pos.compare_spec m n), (Pos.compare_spec n m); cbn; try lia; done.
Qed.

Lemma not_dlt_trans x y z :
  non_negative x -> non_negative y -> non_negative z -> dlt y x = false -> dlt z y = false -> dlt z x = false.
Proof.
  unfold non_negative, dlt, SFltb.
  destruct x as [[]|[]| |[] m e]; cbn; try (intros [? ?]; done); intros _;
    destruct y as [[]|[]| |[] n f]; cbn; try (intros [? ?]; done); intros _;
    destruct z as [[]|[]| |[] o g]; cbn; try (intros [? ?]; done); intros _; try done;
    change (Pos.compare_cont Eq ?a ?b) with (Pos.compare a b);
    destruct (Z.compare_spec e f), (Z.compare_spec f e), (Z.compare_spec f g), (Z.compare_spec g f), (Z.compare_spec g e),
      (Z.compare_spec e g); try lia; try done;
    destruct (Pos.compare_spec n m), (Pos.compare_spec o n), (Pos.compare_spec o m); try lia; done.
Qed.

(** ** Rounding up after a multiplication *)

Lemma shr_1_even a : shr_1 {| shr_m := 2 * a; shr_r := false; shr_s := false |} = {| shr_m := a; shr_r := false; shr_s := false |}.
Proof. by destruct a. Qed.

Lemma iter_shr_exact n a :
  iter_pos shr_1 n {| shr_m := a * 2 ^ Zpos n; shr_r := false; shr_s := false |} = {| shr_m := a; shr_r := false; shr_s := false |}.
Proof.
  revert a. induction n as [n IH|n IH|]; intros a; cbn [iter_pos].
  - replace (a * 2 ^ Zpos n~1) with (2 * (a * 2 ^ Zpos n * 2 ^ Zpos n)).
    2: { replace (Zpos n~1) with (1 + Zpos n + Zpos n) by lia. rewrite !Z.pow_add_r by lia. lia. }
    by rewrite shr_1_even, !IH.
  - replace (a * 2 ^ Zpos n~0) with (a * 2 ^ Zpos n * 2 ^ Zpos n) by (replace (Zpos n~0) with (Zpos n + Zpos n) by lia; rewrite Z.pow_add_r by lia; lia).
    by rewrite !IH.
  - rewrite Z.mul_comm. apply shr_1_even.
Qed.

(** A rounding keeps the mantissa cut to 53 digits or adds one to it, and keeps it when
    nothing was cut off. *)
Lemma round_aux_cut p e :
  let s := Z.log2 (Zpos p) - 52 in
  0 < s -> -1000 <= e -> e + s <= 900 ->
  exists m, (m = Zpos p / 2 ^ s \/ (m = Zpos p / 2 ^ s + 1 /\ Zpos p mod 2 ^ s <> 0)) /\
    exists q f, binary_round_aux 53 1024 false (Zpos p) e loc_Exact = S754_finite false q f /\
      ((f = e + s /\ Zpos q = m) \/ (f = e + s + 1 /\ 2 * Zpos q = m)).
Proof.
  intros s Hs He Hs'. unfold binary_round_aux. set (r1 := shr_fexp 53 1024 (Zpos p) e loc_Exact).
  assert (Ef : fexp 53 1024 (Zdigits2 (Zpos p) + e) - e = s).
  { cbn [Zdigits2]. rewrite digits2_log2. unfold fexp, emin. unfold s in *. lia. }
  destruct s as [|d|d] eqn:Es; try lia.
  assert (E1 : r1 = (iter_pos shr_1 d {| shr_m := Zpos p; shr_r := false; shr_s := false |}, e + Zpos d)).
  { unfold r1, shr_fexp. rewrite Ef. done. }
  rewrite E1. set (rec := iter_pos shr_1 d _).
  assert (Eq : shr_m rec = Zpos p / 2 ^ Zpos d) by (apply iter_shr; cbn; lia).
  set (m := round_nearest_even (shr_m rec) (loc_of_shr_record rec)).
  assert (Hm : m = Zpos p / 2 ^ Zpos d \/ (m = Zpos p / 2 ^ Zpos d + 1 /\ Zpos p mod 2 ^ Zpos d <> 0)).
  { destruct (Z.eq_dec (Zpos p mod 2 ^ Zpos d) 0) as [Ez|Ez].
    - left. unfold m. rewrite Eq. replace (loc_of_shr_record rec) with loc_Exact; [done|]. symmetry.
      unfold rec. rewrite (Z.div_mod (Zpos p) (2 ^ Zpos d)) at 1 by (apply Z.pow_nonzero; lia). rewrite Ez, Z.add_0_r, Z.mul_comm.
      by rewrite iter_shr_exact.
    - unfold m, round_nearest_even. rewrite Eq. destruct (loc_of_shr_record rec) as [|[]]; auto. destruct (Z.even _); auto. }
  exists m. split; [exact Hm|].
  assert (Hq : 2 ^ 52 <= Zpos p / 2 ^ Zpos d < 2 ^ 53).
  { pose proof (Z.log2_spec (Zpos p) ltac:(lia)) as [H1 H2]. replace (Z.log2 (Zpos p)) with (52 + Zpos d) in * by lia.
    rewrite <- Z.add_succ_l in H2. change (Z.succ 52) with 53 in H2. rewrite Z.pow_add_r in H1, H2 by lia.
    split; [apply Z.div_le_lower_bound; [by apply Z.pow_pos_nonneg|lia]|apply Z.div_lt_upper_bound; [by apply Z.pow_pos_nonneg|lia]]. }
  assert (Hmb : 2 ^ 52 <= m <= 2 ^ 53) by lia. clearbody m. clear Hm Hq Eq rec E1 r1 Ef. destruct m as [|m|m]; [lia| |lia].
  unfold shr_fexp. cbn [Zdigits2 shr_record_of_loc]. rewrite digits2_log2.
  destruct (Z.eq_dec (Zpos m) (2 ^ 53)) as [E|E].
  - rewrite E. change (Z.log2 (2 ^ 53)) with 53. replace (fexp 53 1024 (53 + 1 + (e + Zpos d)) - (e + Zpos d)) with 1 by (unfold fexp, emin; lia).
    cbn [shr iter_pos]. change (2 ^ 53) with (2 * 2 ^ 52). rewrite shr_1_even. cbn [shr_m].
    rewrite (proj2 (Z.leb_le _ _)) by lia. exists (Z.to_pos (2 ^ 52)), (e + Zpos d + 1). split; [reflexivity|]. right. split; [lia|done].
  - assert (Hl : Z.log2 (Zpos m) = 52) by (apply Z.log2_unique; lia). rewrite Hl.
    replace (fexp 53 1024 (52 + 1 + (e + Zpos d)) - (e + Zpos d)) with 0 by (unfold fexp, emin; lia). cbn [shr shr_m].
    rewrite (proj2 (Z.leb_le _ _)) by lia. exists m, (e + Zpos d). split; [reflexivity|]. by left.
Qed.

Lemma ceil_div a b k : 0 < b -> (k - 1) * b < a <= k * b -> - (- a / b) = k.
Proof. intros Hb Ha. Z.to_euclidean_division_equations. nia. Qed.

(** [Math.ceil] of a rounded number that is at most [k] and an ulp more than [k - 1]. *)
Lemma ceil_round p e k :
  let s := Z.log2 (Zpos p) - 52 in
  0 < s -> -1000 <= e -> e + s < -1 -> (k - 1) * 2 ^ (- e) + 2 ^ s <= Zpos p <= k * 2 ^ (- e) ->
  ceil_Z (binary_round_aux 53 1024 false (Zpos p) e loc_Exact) = k.
Proof.
  intros s Hs He Hes [Hlo Hhi]. destruct (round_aux_cut p e Hs He ltac:(lia)) as (m & Hm & q & f & -> & Hf).
  fold s in Hm, Hf. unfold ceil_Z. cbn [cond_Zopp].
  assert (Hp : 2 ^ (- e) = 2 ^ (- (e + s)) * 2 ^ s) by (rewrite <- Z.pow_add_r by lia; f_equal; lia).
  assert (Hs2 : 0 < 2 ^ s) by (apply Z.pow_pos_nonneg; lia). rewrite Hp in Hlo, Hhi.
  assert (Hb : 0 < 2 ^ (- (e + s))) by (apply Z.pow_pos_nonneg; lia).
  assert (Hmb : (k - 1) * 2 ^ (- (e + s)) < m <= k * 2 ^ (- (e + s))).
  { assert (Hd := Z.div_mod (Zpos p) (2 ^ s) ltac:(lia)). assert (Hr := Z.mod_pos_bound (Zpos p) (2 ^ s) Hs2).
    revert Hlo Hhi Hm Hd Hr. generalize (Zpos p / 2 ^ s) (Zpos p mod 2 ^ s) (2 ^ (- (e + s))). intros a r b Hlo Hhi Hm Hd Hr.
    assert ((k - 1) * b + 1 <= a) by nia. assert (a <= k * b) by nia. destruct Hm as [->|[-> Hne]]; [lia|]. split; [lia|]. nia. }
  destruct Hf as [[-> Hq]|[-> Hq]].
  - destruct (Z.leb_spec 0 (e + s)); [lia|]. apply ceil_div; [done|]. by rewrite Hq.
  - destruct (Z.leb_spec 0 (e + s + 1)); [lia|]. apply ceil_div; [apply Z.pow_pos_nonneg; lia|].
    replace (- (e + s)) with (Z.succ (- (e + s + 1))) in Hmb by lia. rewrite Z.pow_succ_r in Hmb by lia. nia.
Qed.
