(* ===== verification/Date.v ===== *)
(** * Dates as text

    [new Date(s).getTime()] on the text [toISOString] writes, decimal numbers read
    back, and the proof that both are inverses.  A string that is not such a text
    is read by [date_other]: its reading is partly up to the implementation. *)

From S2P Require Import Prelude JsString Json JsNumber.
From Stdlib Require Import Ascii String.
From stdpp Require Import pretty.

Open Scope string_scope.

Class DateParse : Type := { date_other : string -> option Z }.

(** The day number of a Gregorian date, counted from 1970-01-01. *)
Definition days_from_civil (y m d : Z) : Z :=
  (let y := if m <=? 2 then y - 1 else y in
   let era := y / 400 in
   let yoe := y - era * 400 in
   let doy := (153 * (if 2 <? m then m - 3 else m + 9) + 2) / 5 + d - 1 in
   let doe := yoe * 365 + yoe / 4 - yoe / 100 + doy in
   era * 146097 + doe - 719468)%Z.

(** The number written in the [w] characters from position [i] on. *)
Definition field (i w : nat) (s : string) : Z := digits_value 0 (slice_to (slice_from s i) w).

Definition iso_ms (s : string) : Z :=
  (days_from_civil (field 0 4 s) (field 5 2 s) (field 8 2 s) * 86400000
   + field 11 2 s * 3600000 + field 14 2 s * 60000 + field 17 2 s * 1000 + field 20 3 s)%Z.

(** [new Date(s).getTime()]; [None] is NaN. *)
Definition date_ms `{DateParse} (s : string) : option Z :=
  if String.eqb (toISOString (iso_ms s)) s then Some (iso_ms s) else date_other s.

(** ** Decimal text of a number *)

Lemma pretty_N_char_digit x : (x < 10)%N ->
  is_digit (pretty_N_char x) = true /\ digit_value (pretty_N_char x) = Z.of_N x.
Proof.
  intros Hx.
  assert (x = 0 \/ x = 1 \/ x = 2 \/ x = 3 \/ x = 4 \/ x = 5 \/ x = 6 \/ x = 7 \/ x = 8 \/ x = 9)%N as Hc by lia.
  by repeat destruct Hc as [-> | Hc]; subst.
Qed.

Lemma digits_value_app acc s t : digits_value acc (s ++ t) = digits_value (digits_value acc s) t.
Proof. revert acc. induction s as [|c s IH]; cbn; auto. Qed.

Lemma digits_value_acc acc s :
  digits_value acc s = (acc * 10 ^ Z.of_nat (slen s) + digits_value 0 s)%Z.
Proof.
  revert acc. induction s as [|c s IH]; intros acc; cbn [digits_value String.length]; [cbn; lia|].
  rewrite IH, (IH (0 * 10 + digit_value c)%Z), Nat2Z.inj_succ, Z.pow_succ_r by lia. ring.
Qed.

Lemma digits_value_nonneg s : all_chars is_digit s = true -> (0 <= digits_value 0 s)%Z.
Proof.
  induction s as [|c s IH]; cbn [digits_value all_chars]; [lia|]. rewrite andb_true_iff. intros [Hc Hs].
  rewrite digits_value_acc. specialize (IH Hs).
  unfold is_digit, in_range in Hc. rewrite andb_true_iff, !Nat.leb_le in Hc. unfold digit_value. nia.
Qed.

(** The digits [pretty] prepends: their value, and no more of them than needed. *)
Lemma pretty_N_go_digits x s :
  exists d, pretty_N_go x s = d ++ s /\ all_chars is_digit d = true /\ digits_value 0 d = Z.of_N x /\
    ((0 < x)%N -> d <> "" /\ (10 ^ Z.of_nat (slen d) <= 10 * Z.of_N x)%Z).
Proof.
  revert s. induction (N.lt_wf_0 x) as [x _ IH]. intros s.
  assert (x = 0 \/ 0 < x)%N as [-> |Hx] by lia; [by exists ""|].
  rewrite pretty_N_go_step by done.
  destruct (pretty_N_char_digit (x mod 10)%N) as [Hd Hv]; [by apply N.mod_lt|].
  assert (Hdm := N.div_mod x 10 ltac:(done)).
  destruct (IH (x / 10)%N ltac:(by apply N.div_lt) (String (pretty_N_char (x mod 10)) s)) as (d & E & Ha & Hdv & Hb).
  exists (d ++ String (pretty_N_char (x mod 10)) ""). rewrite E. split; [by rewrite <- string_app_assoc|].
  split; [by rewrite all_chars_app, Ha; cbn; rewrite Hd|].
  split; [rewrite digits_value_app; cbn [digits_value]; rewrite Hdv, Hv; lia|]. intros _.
  split; [by destruct d|]. rewrite slen_app. cbn [String.length].
  rewrite Nat2Z.inj_add, Z.pow_add_r by lia. change (10 ^ Z.of_nat 1)%Z with 10%Z.
  destruct (N.eq_0_gt_0_cases (x / 10)) as [H0|H0]; [|destruct (Hb H0); zify; Z.to_euclidean_division_equations; lia].
  assert (d = "") as ->; [|cbn; lia]. rewrite H0 in E. rewrite pretty_N_go_0 in E.
  destruct d as [|c d]; [done|]. apply (f_equal slen) in E. rewrite slen_app in E. cbn in E. lia.
Qed.

Lemma num_to_string_digits n :
  (0 <= n)%Z ->
  all_chars is_digit (num_to_string n) = true /\ num_to_string n <> "" /\ digits_value 0 (num_to_string n) = n.
Proof.
  destruct n as [|p|p]; intros; [by cbn| |lia]. unfold num_to_string, pretty, pretty_Z, pretty, pretty_positive, pretty, pretty_N.
  rewrite decide_False by done. destruct (pretty_N_go_digits (N.pos p) "") as (d & E & Ha & Hv & Hb).
  rewrite E. destruct (Hb ltac:(lia)) as [Hne _]. by rewrite string_app_nil.
Qed.

Lemma num_to_string_width n w :
  (0 <= n < 10 ^ Z.of_nat w)%Z -> (0 < w)%nat -> (slen (num_to_string n) <= w)%nat.
Proof.
  intros [Hn Hw] H0. destruct n as [|p|p]; [cbn; lia| |lia].
  unfold num_to_string, pretty, pretty_Z, pretty, pretty_positive, pretty, pretty_N.
  rewrite decide_False by done. destruct (pretty_N_go_digits (N.pos p) "") as (d & E & Ha & Hv & Hb).
  rewrite E, slen_app. cbn [String.length]. destruct (Hb ltac:(lia)) as [_ Hle].
  destruct (decide (slen d <= w)%nat); [lia|]. exfalso.
  assert (10 ^ (1 + Z.of_nat w) <= 10 ^ Z.of_nat (slen d))%Z as Hp by (apply Z.pow_le_mono_r; lia).
  rewrite Z.pow_add_r in Hp by lia. lia.
Qed.

Lemma num_to_string_neg n : (n < 0)%Z -> num_to_string n = "-" ++ num_to_string (- n).
Proof. by destruct n. Qed.

Lemma digits_value_zeros k s : digits_value 0 (repeat_char "0" k ++ s) = digits_value 0 s.
Proof. induction k as [|k IH]; cbn; [done|exact IH]. Qed.

Lemma pad_num_spec w n :
  (0 <= n < 10 ^ Z.of_nat w)%Z -> (0 < w)%nat -> slen (pad_num w n) = w /\ digits_value 0 (pad_num w n) = n.
Proof.
  intros Hn Hw. assert (Hl := num_to_string_width n w Hn Hw).
  unfold pad_num. fold (num_to_string n). rewrite slen_app, slen_repeat, digits_value_zeros.
  split; [lia|]. apply num_to_string_digits. lia.
Qed.

(** ** The calendar *)

(** The date of a day of the 400-year cycle, with the years counted in the cycle. *)
Definition year_of_doe (doe : Z) : Z := ((doe - doe / 1460 + doe / 36524 - doe / 146096) / 365)%Z.
Definition first_day (y : Z) : Z := (365 * y + y / 4 - y / 100)%Z.
Definition month_of_doy (doy : Z) : Z :=
  (let mp := (5 * doy + 2) / 153 in if mp <? 10 then mp + 3 else mp - 9)%Z.
Definition day_of_doy (doy : Z) : Z := (doy - (153 * ((5 * doy + 2) / 153) + 2) / 5 + 1)%Z.

Lemma year_of_doe_spec doe :
  (0 <= doe < 146097)%Z ->
  (0 <= year_of_doe doe < 400 /\ 0 <= doe - first_day (year_of_doe doe) <= 365)%Z.
Proof.
  intros H. unfold year_of_doe, first_day.
  set (a := (doe / 1460)%Z). set (b := (doe / 36524)%Z). set (c := (doe / 146096)%Z).
  set (y := ((doe - a + b - c) / 365)%Z).
  assert (c = 0 \/ doe = 146096)%Z as [Hc|E] by (subst c; Z.to_euclidean_division_equations; lia);
    [|subst doe; vm_compute; repeat split; discriminate].
  assert (Ha : (1460 * a <= doe < 1460 * a + 1460)%Z) by (subst a; Z.to_euclidean_division_equations; lia).
  assert (Hb : (36524 * b <= doe < 36524 * b + 36524)%Z) by (subst b; Z.to_euclidean_division_equations; lia).
  assert (Hy : (365 * y <= doe - a + b - c < 365 * y + 365)%Z) by (subst y; Z.to_euclidean_division_equations; lia).
  assert (H4 : (4 * (y / 4) <= y < 4 * (y / 4) + 4)%Z) by (Z.to_euclidean_division_equations; lia).
  assert (H1 : (100 * (y / 100) <= y < 100 * (y / 100) + 100)%Z) by (Z.to_euclidean_division_equations; lia).
  assert (doe <= 146095)%Z by (subst c; Z.to_euclidean_division_equations; lia). rewrite Hc in *.
  assert (0 <= y < 400)%Z by lia. split; [lia|].
  assert (b = 0 \/ b = 1 \/ b = 2 \/ b = 3)%Z as D by lia.
  generalize dependent (y / 4)%Z. intros q4. generalize dependent (y / 100)%Z. intros q1. intros.
  clearbody a b c y.
  repeat destruct D as [-> | D]; subst; assert (q1 = 0 \/ q1 = 1 \/ q1 = 2 \/ q1 = 3)%Z as D1 by lia;
    repeat destruct D1 as [-> | D1]; subst; lia.
Qed.

Fixpoint all_from (p : Z -> bool) (n : nat) (z : Z) : bool :=
  match n with O => true | S n' => if p z then all_from p n' (Z.succ z) else false end.

Lemma all_from_spec p n a z : all_from p n a = true -> (a <= z < a + Z.of_nat n)%Z -> p z = true.
Proof.
  revert a. induction n as [|n IH]; intros a; cbn [all_from]; [lia|]. destruct (p a) eqn:Ha; [|done].
  intros Hn Hz. destruct (decide (z = a)) as [->|]; [done|]. apply (IH (Z.succ a)); [done|lia].
Qed.

(** Every day of a year that starts in March, checked by computation. *)
Definition doy_ok (doy : Z) : bool :=
  (let m := month_of_doy doy in let d := day_of_doy doy in
   (1 <=? m) && (m <=? 12) && (1 <=? d) && (d <=? 31) && Bool.eqb (m <=? 2) (306 <=? doy)
   && ((153 * (if 2 <? m then m - 3 else m + 9) + 2) / 5 + d - 1 =? doy))%Z.

Lemma every_doy_ok : all_from doy_ok 366 0 = true.
Proof. vm_compute. reflexivity. Qed.

Lemma civil_from_days_eq days :
  let z := (days + 719468)%Z in
  let y := year_of_doe (z mod 146097) in
  let doy := (z mod 146097 - first_day y)%Z in
  civil_from_days days
  = ((y + z / 146097 * 400 + (if month_of_doy doy <=? 2 then 1 else 0))%Z, month_of_doy doy, day_of_doy doy).
Proof. cbv zeta. unfold civil_from_days, year_of_doe, first_day, month_of_doy, day_of_doy. by rewrite Zmod_eq_full. Qed.

Lemma civil_from_days_spec days y m d :
  civil_from_days days = (y, m, d) ->
  days_from_civil y m d = days /\ (1 <= m <= 12)%Z /\ (1 <= d <= 31)%Z /\
  ((0 <= days <= 2932896)%Z -> (0 <= y < 10000)%Z).
Proof.
  rewrite civil_from_days_eq. set (z := (days + 719468)%Z). cbv zeta.
  assert (Hm := Z.mod_pos_bound z 146097 ltac:(done)). assert (Hd := Z.div_mod z 146097 ltac:(done)).
  set (doe := (z mod 146097)%Z) in *. set (era := (z / 146097)%Z) in *.
  destruct (year_of_doe_spec doe Hm) as [Hy Hdoy]. set (yoe := year_of_doe doe) in *.
  set (doy := (doe - first_day yoe)%Z) in *.
  assert (Hok := all_from_spec doy_ok _ _ doy every_doy_ok ltac:(lia)). unfold doy_ok in Hok.
  set (mm := month_of_doy doy) in *. set (dd := day_of_doy doy) in *. intros [= <- <- <-].
  rewrite !andb_true_iff, !Z.leb_le, Bool.eqb_true_iff, Z.eqb_eq in Hok.
  destruct Hok as (((((? & ?) & ?) & ?) & Hfeb) & Hback).
  split; [|split; [lia|split; [lia|]]].
  - unfold days_from_civil.
    assert ((if (mm <=? 2)%Z then yoe + era * 400 + (if (mm <=? 2)%Z then 1 else 0) - 1
             else yoe + era * 400 + (if (mm <=? 2)%Z then 1 else 0)) = yoe + era * 400)%Z as ->.
    { destruct (mm <=? 2)%Z; lia. }
    rewrite Z.div_add, (Z.div_small yoe 400) by lia.
    replace (yoe + era * 400 - (0 + era) * 400)%Z with yoe by lia.
    unfold first_day in doy. lia.
  - intros Hr. assert (4 <= era <= 24)%Z by lia. rewrite Hfeb.
    destruct (306 <=? doy)%Z eqn:E; [|lia]. apply Z.leb_le in E.
    assert (yoe = 399 -> doe >= 146037)%Z; [|lia]. intros E9. subst doy. rewrite E9 in E.
    change (first_day 399) with 145731%Z in E. lia.
Qed.

(** ** The round trip *)

Lemma field_app a s w : (w <= slen s)%nat -> field (slen a) w (a ++ s) = digits_value 0 (slice_to s w).
Proof. intros _. unfold field. by rewrite slice_from_app. Qed.

(** [toISOString] is read back exactly, for the years 1970 to 9999. *)
Lemma date_ms_iso `{DateParse} t : (0 <= t < 253402300800000)%Z -> date_ms (toISOString t) = Some t.
Proof.
  intros Ht. unfold date_ms. assert (iso_ms (toISOString t) = t) as ->; [|by rewrite String.eqb_refl].
  unfold toISOString. destruct (civil_from_days (t / 86400000)) as [[y m] d] eqn:E.
  apply civil_from_days_spec in E. destruct E as (Ed & Hm & Hd & Hy).
  assert (0 <= t / 86400000 <= 2932896)%Z as Hr by (Z.to_euclidean_division_equations; lia). specialize (Hy Hr).
  assert (Hms := Z.mod_pos_bound t 86400000 ltac:(done)). set (ms := (t mod 86400000)%Z) in *.
  assert (0 <= ms / 3600000 < 100)%Z by (Z.to_euclidean_division_equations; lia).
  assert (0 <= ms / 60000 mod 60 < 60)%Z by (Z.to_euclidean_division_equations; lia).
  assert (0 <= ms / 1000 mod 60 < 60)%Z by (Z.to_euclidean_division_equations; lia).
  assert (0 <= ms mod 1000 < 1000)%Z by (Z.to_euclidean_division_equations; lia).
  destruct (pad_num_spec 4 y ltac:(cbn; lia) ltac:(lia)) as [Ly Vy].
  destruct (pad_num_spec 2 m ltac:(cbn; lia) ltac:(lia)) as [Lm Vm].
  destruct (pad_num_spec 2 d ltac:(cbn; lia) ltac:(lia)) as [Ld Vd].
  destruct (pad_num_spec 2 (ms / 3600000) ltac:(cbn; lia) ltac:(lia)) as [Lh Vh].
  destruct (pad_num_spec 2 (ms / 60000 mod 60) ltac:(cbn; lia) ltac:(lia)) as [Li Vi].
  destruct (pad_num_spec 2 (ms / 1000 mod 60) ltac:(cbn; lia) ltac:(lia)) as [Ls Vs].
  destruct (pad_num_spec 3 (ms mod 1000) ltac:(cbn; lia) ltac:(lia)) as [Lu Vu].
  revert Ly Vy Lm Vm Ld Vd Lh Vh Li Vi Ls Vs Lu Vu.
  generalize (pad_num 4 y) (pad_num 2 m) (pad_num 2 d) (pad_num 2 (ms / 3600000))
    (pad_num 2 (ms / 60000 mod 60)) (pad_num 2 (ms / 1000 mod 60)) (pad_num 3 (ms mod 1000)).
  intros sy sm sd sh si ss su Ly Vy Lm Vm Ld Vd Lh Vh Li Vi Ls Vs Lu Vu.
  destruct sy as [|? [|? [|? [|? []]]]]; try discriminate Ly.
  destruct sm as [|? [|? []]]; try discriminate Lm. destruct sd as [|? [|? []]]; try discriminate Ld.
  destruct sh as [|? [|? []]]; try discriminate Lh. destruct si as [|? [|? []]]; try discriminate Li.
  destruct ss as [|? [|? []]]; try discriminate Ls. destruct su as [|? [|? [|? []]]]; try discriminate Lu.
  unfold iso_ms, field. cbn [append slice_from slice_to].
  rewrite Vy, Vm, Vd, Vh, Vi, Vs, Vu, Ed. subst ms. Z.to_euclidean_division_equations; lia.
Qed.

(** A reader of dates that knows the ISO form only. *)
Definition iso_only : DateParse := {| date_other := fun _ => None |}.
