(* ===== verification/JsonParse.v ===== *)
(** * [JSON.parse]

    The language's JSON parser on the texts of the model: code units below 256 and
    integer numbers.  The parser stops with [Outside], which says nothing about the
    rest of the text, at a fraction, an exponent, a negative zero, an integer beyond
    2^53 and an escape above 255; it ends in [SyntaxError] where [JSON.parse] throws.
    Keys that look like array indices keep their place.  [parse_stringify] is the round trip with
    [stringify], which the clients' theorems compose with. *)

From S2P Require Import Prelude JsString Json JsNumber Date.
From Stdlib Require Import String Ascii.

Open Scope string_scope.

(** A value and the rest of the text. *)
Inductive parsed (A : Type) : Type :=
  | Done (a : A) (rest : string)
  | SyntaxError
  | Outside
  | NoFuel.
Arguments Done {A}.
Arguments SyntaxError {A}.
Arguments Outside {A}.
Arguments NoFuel {A}.

Definition pbind {A B} (p : parsed A) (k : A -> string -> parsed B) : parsed B :=
  match p with
  | Done a r => k a r
  | SyntaxError => SyntaxError
  | Outside => Outside
  | NoFuel => NoFuel
  end.

Definition is_json_ws (c : ascii) : bool :=
  match code c with 9%nat | 10%nat | 13%nat | 32%nat => true | _ => false end.

Fixpoint skip_ws (s : string) : string :=
  match s with String c s' => if is_json_ws c then skip_ws s' else s | EmptyString => "" end.

Definition pcons (c : ascii) (p : parsed string) : parsed string :=
  pbind p (fun t r => Done (String c t) r).

(** The character of a one-letter escape. *)
Definition unescape_char (c : ascii) : option ascii :=
  if Ascii.eqb c dquote || Ascii.eqb c backslash || Ascii.eqb c "/"%char then Some c
  else if Ascii.eqb c "b"%char then Some (ascii_of_nat 8)
  else if Ascii.eqb c "f"%char then Some (ascii_of_nat 12)
  else if Ascii.eqb c "n"%char then Some (ascii_of_nat 10)
  else if Ascii.eqb c "r"%char then Some (ascii_of_nat 13)
  else if Ascii.eqb c "t"%char then Some (ascii_of_nat 9)
  else None.

Definition hex_nat (c : ascii) : nat := default 0%nat (
  if is_digit c then Some (code c - 48)%nat
  else if in_range 97 102 c then Some (code c - 87)%nat
  else if in_range 65 70 c then Some (code c - 55)%nat else None).

(** The rest of a string literal, after its opening quote. *)
Fixpoint parse_chars (s : string) : parsed string :=
  match s with
  | EmptyString => SyntaxError
  | String c s' =>
      if Ascii.eqb c dquote then Done "" s'
      else if Ascii.eqb c backslash then
        match s' with
        | EmptyString => SyntaxError
        | String e s'' =>
            match unescape_char e with
            | Some x => pcons x (parse_chars s'')
            | None =>
                if negb (Ascii.eqb e "u"%char) then SyntaxError
                else match s'' with
                | String a (String b (String x (String y s3))) =>
                    if negb (is_hex a && is_hex b && is_hex x && is_hex y) then SyntaxError
                    else if Ascii.eqb a "0"%char && Ascii.eqb b "0"%char
                    then pcons (ascii_of_nat (16 * hex_nat x + hex_nat y)) (parse_chars s3)
                    else Outside
                | _ => SyntaxError
                end
            end
        end
      else if (code c <? 32)%nat then SyntaxError
      else pcons c (parse_chars s')
  end.

Definition MAX_EXACT : Z := 2 ^ 53.

Definition is_point_or_e (s : string) : bool :=
  match s with
  | String c _ => Ascii.eqb c "."%char || Ascii.eqb c "e"%char || Ascii.eqb c "E"%char
  | EmptyString => false
  end.

(** A number, after its optional minus sign. *)
Definition parse_digits (neg : bool) (s : string) : parsed json :=
  let '(int, r) := span is_digit s in
  match int with
  | EmptyString => SyntaxError
  | String d int' =>
      if Ascii.eqb d "0"%char && nonempty int' then SyntaxError
      else if is_point_or_e r then Outside
      else let v := digits_value 0 int in
           if (MAX_EXACT <? v)%Z || (neg && (v =? 0)%Z) then Outside
           else Done (JNum (if neg then - v else v)) r
  end.

Definition parse_number (s : string) : parsed json :=
  match s with
  | String c s' => if Ascii.eqb c "-"%char then parse_digits true s' else parse_digits false s
  | EmptyString => SyntaxError
  end.

(** [true], [false], [null] *)
Definition parse_word (word : string) (v : json) (s : string) : parsed json :=
  if startsWith s word then Done v (slice_from s (slen word)) else SyntaxError.

(** The text after white space and a given character. *)
Definition after (c : ascii) (s : string) : option string :=
  match skip_ws s with
  | String x r => if Ascii.eqb x c then Some r else None
  | EmptyString => None
  end.

(** A repeated key keeps its place and takes the last value. *)
Fixpoint set_field (k : string) (v : json) (fs : list (string * json)) : list (string * json) :=
  match fs with
  | [] => [(k, v)]
  | (k', v') :: fs' => if String.eqb k k' then (k', v) :: fs' else (k', v') :: set_field k v fs'
  end.

Fixpoint parse_value (n : nat) (s : string) : parsed json :=
  match n with
  | O => NoFuel
  | S n =>
      match s with
      | EmptyString => SyntaxError
      | String c s' =>
          if Ascii.eqb c dquote then pbind (parse_chars s') (fun t r => Done (JStr t) r)
          else if Ascii.eqb c "["%char then
            match after "]"%char s' with
            | Some r => Done (JArr []) r
            | None => parse_elements n [] (skip_ws s')
            end
          else if Ascii.eqb c "{"%char then
            match after "}"%char s' with
            | Some r => Done (JObj []) r
            | None => parse_members n [] (skip_ws s')
            end
          else if Ascii.eqb c "t"%char then parse_word "true" (JBool true) s
          else if Ascii.eqb c "f"%char then parse_word "false" (JBool false) s
          else if Ascii.eqb c "n"%char then parse_word "null" JNull s
          else parse_number s
      end
  end
with parse_elements (n : nat) (acc : list json) (s : string) : parsed json :=
  match n with
  | O => NoFuel
  | S n =>
      pbind (parse_value n s) (fun v r =>
        match after ","%char r, after "]"%char r with
        | Some r, _ => parse_elements n (acc ++ [v]) (skip_ws r)
        | None, Some r => Done (JArr (acc ++ [v])) r
        | None, None => SyntaxError
        end)
  end
with parse_members (n : nat) (acc : list (string * json)) (s : string) : parsed json :=
  match n with
  | O => NoFuel
  | S n =>
      match s with
      | EmptyString => SyntaxError
      | String q s' =>
          if negb (Ascii.eqb q dquote) then SyntaxError
          else
            pbind (parse_chars s') (fun k r =>
              match after ":"%char r with
              | Some r =>
                  pbind (parse_value n (skip_ws r)) (fun v r =>
                    match after ","%char r, after "}"%char r with
                    | Some r, _ => parse_members n (set_field k v acc) (skip_ws r)
                    | None, Some r => Done (JObj (set_field k v acc)) r
                    | None, None => SyntaxError
                    end)
              | None => SyntaxError
              end)
      end
  end.

(** [JSON.parse(s)] *)
Definition json_parse (s : string) : parsed json :=
  match parse_value (S (2 * slen s)) (skip_ws s) with
  | Done v r => match skip_ws r with EmptyString => Done v "" | _ => SyntaxError end
  | p => p
  end.

Example json_parse_object :
  json_parse (stringify (JObj [("a", JArr [JNum (-12); JStr (String dquote "x")]); ("b", JNull); ("c", JBool true)]))
  = Done (JObj [("a", JArr [JNum (-12); JStr (String dquote "x")]); ("b", JNull); ("c", JBool true)]) "".
Proof. vm_compute. reflexivity. Qed.

Example json_parse_last_wins :
  json_parse ("{ " ++ json_quote "a" ++ ": 1 , " ++ json_quote "a" ++ ":2}") = Done (JObj [("a", JNum 2)]) "".
Proof. vm_compute. reflexivity. Qed.

(** ** Fuel *)

Lemma after_shorter c s r : after c s = Some r -> (slen r < slen s)%nat.
Proof.
  unfold after. intros E. assert (slen (skip_ws s) <= slen s)%nat.
  { clear. induction s as [|x s IH]; cbn; [done|]. destruct (is_json_ws x); cbn; lia. }
  destruct (skip_ws s) as [|x t]; [done|]. destruct (Ascii.eqb x c); [|done]. injection E as <-. cbn in *. lia.
Qed.

(** A result that has not run out of fuel and has consumed a character. *)
Definition fine {A} (s : string) (p : parsed A) : Prop :=
  match p with Done _ r => (slen r < slen s)%nat | NoFuel => False | _ => True end.

Lemma fine_bind {A B} s (p : parsed A) (k : A -> string -> parsed B) :
  fine s p -> (forall a r, (slen r < slen s)%nat -> fine s (k a r)) -> fine s (pbind p k).
Proof. destruct p; cbn; auto. Qed.

Lemma fine_mono {A} s t (p : parsed A) : (slen t <= slen s)%nat -> fine t p -> fine s p.
Proof. destruct p; cbn; auto. lia. Qed.

Lemma parse_chars_fine s : fine s (parse_chars s).
Proof.
  assert (Hp : forall c s' s'', (slen s'' < slen s')%nat -> fine s'' (parse_chars s'') ->
                 fine s' (pcons c (parse_chars s''))).
  { intros c s' s'' Hl Hf. apply fine_bind; [eapply fine_mono; [|exact Hf]; lia|]. done. }
  induction s as [s IH] using (induction_ltof1 _ slen). unfold ltof in IH. destruct s as [|c s]; cbn [parse_chars]; [done|].
  destruct (Ascii.eqb c dquote); [cbn; lia|]. destruct (Ascii.eqb c backslash).
  - destruct s as [|e s]; [done|]. destruct (unescape_char e).
    { apply Hp; [cbn; lia|]. apply IH. cbn. lia. }
    destruct (negb _); [done|]. destruct s as [|a [|b [|x [|y s]]]]; try done. destruct (negb _); [done|].
    destruct (_ && _); [|done]. apply Hp; [cbn; lia|]. apply IH. cbn. lia.
  - destruct (_ <? _)%nat; [done|]. apply Hp; [cbn; lia|]. apply IH. cbn. lia.
Qed.

Lemma span_shorter p s : slen s = (slen (fst (span p s)) + slen (snd (span p s)))%nat.
Proof. induction s as [|c s IH]; cbn; [done|]. destruct (p c); cbn; [|done]. destruct (span p s); cbn in *. lia. Qed.

Lemma parse_digits_fine neg s : fine s (parse_digits neg s).
Proof.
  unfold parse_digits. assert (Hs := span_shorter is_digit s). destruct (span is_digit s) as [int r]. cbn in Hs.
  destruct int; [done|]. repeat case_match_goal; cbn in *; lia || done.
Qed.

Lemma parse_number_fine s : fine s (parse_number s).
Proof.
  destruct s as [|c s]; [done|]. cbn [parse_number]. destruct (Ascii.eqb c _); [|apply parse_digits_fine].
  eapply fine_mono; [|apply parse_digits_fine]. cbn. lia.
Qed.

Lemma parse_word_fine c word v s : fine s (parse_word (String c word) v s).
Proof.
  unfold parse_word. destruct (startsWith s _) eqn:E; [|done]. apply startsWith_spec in E. cbn [fine].
  rewrite E at 2. rewrite slen_app. cbn [String.length]. lia.
Qed.

Lemma skip_ws_shorter s : (slen (skip_ws s) <= slen s)%nat.
Proof. induction s as [|c s IH]; cbn; [done|]. destruct (is_json_ws c); cbn; lia. Qed.

(** With twice the length of the text as fuel the parser never runs out. *)
Lemma enough_fuel n :
  (forall s, (2 * slen s < n)%nat -> fine s (parse_value n s)) /\
  (forall acc s, (2 * slen s + 1 < n)%nat -> fine s (parse_elements n acc s)) /\
  (forall acc s, (2 * slen s + 1 < n)%nat -> fine s (parse_members n acc s)).
Proof.
  induction n as [|n (IHv & IHe & IHm)]; [split; [|split]; intros; lia|]. split; [|split].
  - intros [|c s] Hn; cbn [parse_value]; [done|]. cbn [String.length] in Hn.
    assert (Hw := skip_ws_shorter s).
    destruct (Ascii.eqb c dquote); [apply fine_bind; [eapply fine_mono; [|apply parse_chars_fine]; cbn; lia|done]|].
    destruct (Ascii.eqb c "["); [|destruct (Ascii.eqb c "{")].
    + destruct (after _ s) as [r|] eqn:E; [apply after_shorter in E; cbn; lia|].
      eapply fine_mono; [|apply IHe; lia]. cbn. lia.
    + destruct (after _ s) as [r|] eqn:E; [apply after_shorter in E; cbn; lia|].
      eapply fine_mono; [|apply IHm; lia]. cbn. lia.
    + repeat match goal with |- fine _ (if ?b then _ else _) => destruct b end;
        first [apply parse_word_fine|apply parse_number_fine].
  - intros acc s Hn. cbn [parse_elements]. apply fine_bind; [apply IHv; lia|]. intros v r Hr.
    destruct (after ","%char r) as [t|] eqn:E; [|destruct (after "]"%char r) as [t|] eqn:E2; [|done]].
    + apply after_shorter in E. assert (Hw := skip_ws_shorter t). eapply fine_mono; [|apply IHe; lia]. lia.
    + apply after_shorter in E2. cbn. lia.
  - intros acc [|q s] Hn; cbn [parse_members]; [done|]. cbn [String.length] in Hn. destruct (negb _); [done|].
    apply fine_bind; [eapply fine_mono; [|apply parse_chars_fine]; cbn; lia|]. intros k r Hr. cbn [String.length] in Hr.
    destruct (after ":"%char r) as [t|] eqn:E; [|done]. apply after_shorter in E. assert (Hw := skip_ws_shorter t).
    apply fine_bind; [eapply fine_mono; [|apply IHv; lia]; cbn; lia|]. intros v r2 Hr2. cbn [String.length] in Hr2.
    destruct (after ","%char r2) as [u|] eqn:E3; [|destruct (after "}"%char r2) as [u|] eqn:E4; [|done]].
    + apply after_shorter in E3. assert (Hu := skip_ws_shorter u). eapply fine_mono; [|apply IHm; lia]. cbn. lia.
    + apply after_shorter in E4. cbn. lia.
Qed.

Lemma json_parse_total s : json_parse s <> NoFuel.
Proof.
  unfold json_parse. assert (Hw := skip_ws_shorter s).
  destruct (enough_fuel (S (2 * slen s))) as (Hv & _). specialize (Hv (skip_ws s) ltac:(lia)).
  destruct (parse_value _ _) as [v r| | |]; try done. by destruct (skip_ws r).
Qed.

(** ** The round trip *)

Lemma json_ind' (P : json -> Prop) :
  P JNull -> (forall b, P (JBool b)) -> (forall n, P (JNum n)) -> (forall s, P (JStr s)) ->
  (forall l, Forall P l -> P (JArr l)) ->
  (forall fs, Forall (fun kv => P (snd kv)) fs -> P (JObj fs)) ->
  forall j, P j.
Proof.
  intros H1 H2 H3 H4 H5 H6. fix IH 1. intros [|b|n|s|l|fs];
    [exact H1|apply H2|apply H3|apply H4|apply H5|apply H6].
  - induction l as [|x l IHl]; constructor; [apply IH|exact IHl].
  - induction fs as [|[k v] fs IHfs]; constructor; [apply IH|exact IHfs].
Qed.

(** The values the model's parser gives back as they are. *)
Fixpoint exact (j : json) : bool :=
  match j with
  | JNum n => (Z.abs n <=? MAX_EXACT)%Z
  | JArr l => forallb exact l
  | JObj fs => bool_decide (NoDup (map fst fs)) && forallb (fun kv => exact (snd kv)) fs
  | _ => true
  end.

(** What may follow a number. *)
Definition delimited (rest : string) : bool :=
  match rest with
  | EmptyString => true
  | String c _ => Ascii.eqb c ","%char || Ascii.eqb c "]"%char || Ascii.eqb c "}"%char || is_json_ws c
  end.

Lemma parse_chars_escape c s : parse_chars (json_escape c ++ s) = pcons c (parse_chars s).
Proof. destruct c as [[] [] [] [] [] [] [] []]; reflexivity. Qed.

Lemma parse_chars_quote s rest :
  parse_chars (json_escape_all s ++ String dquote rest) = Done s rest.
Proof.
  induction s as [|c s IH]; cbn [json_escape_all]; [reflexivity|].
  by rewrite <- string_app_assoc, parse_chars_escape, IH.
Qed.

Lemma digits_value_bound s : all_chars is_digit s = true -> (0 <= digits_value 0 s < 10 ^ Z.of_nat (slen s))%Z.
Proof.
  intros Ha. split; [by apply digits_value_nonneg|]. induction s as [|c s IH]; cbn [digits_value String.length]; [done|].
  cbn in Ha. apply andb_true_iff in Ha. destruct Ha as [Hc Ha]. specialize (IH Ha). rewrite digits_value_acc.
  rewrite Nat2Z.inj_succ, Z.pow_succ_r by lia. unfold is_digit, in_range in Hc. unfold digit_value.
  apply andb_true_iff in Hc. rewrite !Nat.leb_le in Hc. nia.
Qed.

Lemma span_app p a b :
  all_chars p a = true -> match b with String c _ => p c = false | EmptyString => True end -> span p (a ++ b) = (a, b).
Proof.
  intros Ha Hb. induction a as [|c a IH]; cbn in *.
  - destruct b as [|c b]; cbn; [done|]. by rewrite Hb.
  - apply andb_true_iff in Ha. destruct Ha as [-> Ha]. by rewrite IH.
Qed.

Lemma delimited_span rest :
  delimited rest = true -> match rest with String c _ => is_digit c = false | EmptyString => True end
  /\ is_point_or_e rest = false.
Proof.
  destruct rest as [|c r]; cbn; [done|]. intros Hc. split.
  - apply negb_true_iff. revert Hc.
    by_ascii (fun c => Ascii.eqb c ","%char || Ascii.eqb c "]"%char || Ascii.eqb c "}"%char || is_json_ws c)
             (fun c => negb (is_digit c)).
  - apply negb_true_iff. revert Hc.
    by_ascii (fun c => Ascii.eqb c ","%char || Ascii.eqb c "]"%char || Ascii.eqb c "}"%char || is_json_ws c)
             (fun c => negb (Ascii.eqb c "."%char || Ascii.eqb c "e"%char || Ascii.eqb c "E"%char)).
Qed.

(** Decimal texts have no leading zero. *)
Lemma num_to_string_head n d s :
  (0 <= n)%Z -> num_to_string n = String d s -> Ascii.eqb d "0"%char && nonempty s = false.
Proof.
  intros Hn E. destruct (num_to_string_digits n Hn) as (Ha & _ & Hv). rewrite E in Ha, Hv.
  destruct (Ascii.eqb_spec d "0"%char) as [->|]; cbn [andb]; [|done].
  destruct (nonempty s) eqn:Es; [|done]. exfalso. cbn [digits_value] in Hv.
  change (0 * 10 + digit_value "0") with 0%Z in Hv. cbn in Ha.
  destruct (digits_value_bound s Ha) as [H0 H1]. rewrite Hv in H1.
  assert (Hw := num_to_string_width n (slen s) ltac:(lia)). rewrite E in Hw. cbn in Hw.
  destruct s; [done|]. cbn in Hw. lia.
Qed.

Lemma parse_digits_num neg n rest :
  (0 <= n <= MAX_EXACT)%Z -> (neg = true -> n <> 0)%Z -> delimited rest = true ->
  parse_digits neg (num_to_string n ++ rest) = Done (JNum (if neg then - n else n)) rest.
Proof.
  intros [Hn Hm] Hz Hd. destruct (num_to_string_digits n Hn) as (Ha & Hne & Hv).
  destruct (delimited_span rest Hd) as [Hs Hp]. unfold parse_digits. rewrite span_app by done.
  destruct (num_to_string n) as [|d s] eqn:E; [done|].
  rewrite (num_to_string_head n d s Hn E), Hp, Hv. replace (MAX_EXACT <? n)%Z with false by (symmetry; by apply Z.ltb_ge).
  destruct neg; cbn [andb orb]; [|done]. by rewrite (proj2 (Z.eqb_neq n 0) (Hz eq_refl)).
Qed.

Lemma exact_num n : exact (JNum n) = true -> (- MAX_EXACT <= n <= MAX_EXACT)%Z.
Proof. cbn [exact]. rewrite Z.leb_le. lia. Qed.

Lemma parse_number_num n rest :
  exact (JNum n) = true -> delimited rest = true ->
  parse_number (num_to_string n ++ rest) = Done (JNum n) rest.
Proof.
  intros Hn%exact_num Hd. destruct (Z.ltb_spec n 0) as [Hlt|Hge].
  - rewrite num_to_string_neg by done. change (("-" ++ num_to_string (- n)) ++ rest) with (String "-" (num_to_string (- n) ++ rest)).
    cbn [parse_number]. rewrite Ascii.eqb_refl, parse_digits_num by (done || lia). by rewrite Z.opp_involutive.
  - destruct (num_to_string_digits n Hge) as (Ha & Hne & _).
    assert (Hp := parse_digits_num false n rest ltac:(lia) ltac:(done) Hd).
    destruct (num_to_string n) as [|d s]; [done|]. cbn [append parse_number]. cbn in Ha.
    apply andb_true_iff in Ha. destruct Ha as [Hd' _].
    replace (Ascii.eqb d "-"%char) with false; [exact Hp|]. symmetry. apply negb_true_iff. revert Hd'.
    by_ascii is_digit (fun c => negb (Ascii.eqb c "-"%char)).
Qed.

(** A digit or a minus sign starts nothing but a number. *)
Lemma number_start n : exists d s, num_to_string n = String d s /\ is_digit d || Ascii.eqb d "-"%char = true.
Proof.
  destruct (Z.ltb_spec n 0) as [Hlt|Hge].
  - rewrite num_to_string_neg by done. eexists _, _. split; [reflexivity|done].
  - destruct (num_to_string_digits n Hge) as (Ha & Hne & _). destruct (num_to_string n) as [|d s]; [done|].
    exists d, s. split; [done|]. cbn in Ha. apply andb_true_iff in Ha. by destruct Ha as [-> _].
Qed.

Definition starts_value (c : ascii) : bool :=
  is_digit c || existsb (Ascii.eqb c) (dquote :: list_ascii_of_string "-[{tfn").

Lemma stringify_start j : exists c s, stringify j = String c s /\ starts_value c = true.
Proof.
  destruct j as [|[]|n|s|l|fs]; try (cbn; eexists _, _; split; [reflexivity|done]).
  destruct (number_start n) as (d & s & E & Hd). exists d, s. split; [exact E|]. revert Hd.
  by_ascii (fun c => is_digit c || Ascii.eqb c "-"%char) starts_value.
Qed.

Lemma skip_ws_start c s : is_json_ws c = false -> skip_ws (String c s) = String c s.
Proof. cbn. by intros ->. Qed.

Lemma after_here c r : is_json_ws c = false -> after c (String c r) = Some r.
Proof. unfold after. intros Hc. by rewrite skip_ws_start, Ascii.eqb_refl. Qed.

Lemma after_other c x r : is_json_ws x = false -> Ascii.eqb x c = false -> after c (String x r) = None.
Proof. unfold after. intros Hx Hn. by rewrite skip_ws_start, Hn. Qed.

Lemma starts_value_not_ws c : starts_value c = true -> is_json_ws c = false.
Proof. intros H. apply negb_true_iff. revert H. by_ascii starts_value (fun c => negb (is_json_ws c)). Qed.

Lemma starts_value_not_close c : starts_value c = true -> Ascii.eqb c "]"%char = false.
Proof. intros H. apply negb_true_iff. revert H. by_ascii starts_value (fun c => negb (Ascii.eqb c "]"%char)). Qed.

Lemma value_not_close j rest : after "]"%char (stringify j ++ rest) = None /\ skip_ws (stringify j ++ rest) = stringify j ++ rest.
Proof.
  destruct (stringify_start j) as (c & s & -> & Hc). cbn [append].
  split; [apply after_other|apply skip_ws_start]; auto using starts_value_not_ws, starts_value_not_close.
Qed.

(** Reading back one value, given enough fuel. *)
Definition reads (j : json) : Prop :=
  forall n rest, (2 * slen (stringify j) < n)%nat -> delimited rest = true ->
    parse_value n (stringify j ++ rest) = Done j rest.

Lemma reads_num m : exact (JNum m) = true -> reads (JNum m).
Proof.
  intros He n rest Hn Hd. destruct n; [cbn in Hn; lia|]. destruct (number_start m) as (d & s & E & Hds).
  assert (Hp := parse_number_num m rest He Hd). cbn [stringify] in *. rewrite E in *. cbn [append parse_value].
  assert (Hx : forall x, existsb (Ascii.eqb x) (dquote :: list_ascii_of_string "[{tfn") = true -> Ascii.eqb d x = false).
  { intros x Hx. apply Ascii.eqb_neq. intros ->. revert Hds. apply not_true_iff_false, negb_true_iff. revert Hx.
    by_ascii (fun x => existsb (Ascii.eqb x) (dquote :: list_ascii_of_string "[{tfn"))
             (fun x => negb (is_digit x || Ascii.eqb x "-"%char)). }
  by rewrite !Hx.
Qed.

Lemma reads_str s : reads (JStr s).
Proof.
  intros n rest Hn Hd. destruct n; [cbn in Hn; lia|]. cbn [stringify json_quote append parse_value].
  rewrite Ascii.eqb_refl, <- string_app_assoc. cbn [append]. by rewrite parse_chars_quote.
Qed.

Lemma delimited_comma r : delimited (String ","%char r) = true.
Proof. done. Qed.
Lemma delimited_close r : delimited (String "]"%char r) = true.
Proof. done. Qed.
Lemma delimited_close_obj r : delimited (String "}"%char r) = true.
Proof. done. Qed.

Lemma reads_elements l : Forall reads l -> l <> [] -> forall n acc rest,
  (2 * slen (join "," (map stringify l)) + 1 < n)%nat ->
  parse_elements n acc (join "," (map stringify l) ++ String "]"%char rest) = Done (JArr (acc ++ l)) rest.
Proof.
  induction l as [|x l IH]; [done|]. intros Hl _ n acc rest Hn. apply Forall_cons in Hl. destruct Hl as [Hx Hl].
  destruct n as [|n]; [lia|]. destruct l as [|y l].
  - cbn [map join] in *. cbn [parse_elements]. rewrite Hx by (done || lia). cbn [pbind].
    by rewrite after_other, after_here by done.
  - change (join "," (map stringify (x :: y :: l))) with (stringify x ++ String "," (join "," (map stringify (y :: l)))) in *.
    rewrite slen_app in Hn. cbn [String.length] in Hn. cbn [parse_elements]. rewrite <- string_app_assoc. cbn [append].
    rewrite Hx by (done || lia). cbn [pbind]. rewrite after_here by done.
    replace (skip_ws _) with (join "," (map stringify (y :: l)) ++ String "]" rest).
    + rewrite IH by (done || lia). by rewrite <- app_assoc.
    + symmetry. cbn [map join]. destruct (map stringify l); [|rewrite <- string_app_assoc]; apply value_not_close.
Qed.

Definition member (kv : string * json) : string := json_quote (fst kv) ++ ":" ++ stringify (snd kv).

Lemma set_field_new k v fs : ~ In k (map fst fs) -> set_field k v fs = (fs ++ [(k, v)])%list.
Proof.
  induction fs as [|[k' v'] fs IH]; cbn; [done|]. intros Hn. destruct (String.eqb_spec k k') as [->|]; [naive_solver|].
  rewrite IH by naive_solver. done.
Qed.

Lemma json_quote_app k rest : json_quote k ++ rest = String dquote (json_escape_all k ++ String dquote rest).
Proof. unfold json_quote. cbn [append]. by rewrite <- string_app_assoc. Qed.

(** One member and what follows its value. *)
Lemma parse_members_one k v n acc rest :
  reads v -> (2 * slen (stringify v) < n)%nat -> delimited rest = true ->
  parse_members (S n) acc (member (k, v) ++ rest)
  = match after ","%char rest, after "}"%char rest with
    | Some r, _ => parse_members n (set_field k v acc) (skip_ws r)
    | None, Some r => Done (JObj (set_field k v acc)) r
    | None, None => SyntaxError
    end.
Proof.
  intros Hv Hn Hd. unfold member. cbn [fst snd]. rewrite <- string_app_assoc, json_quote_app. cbn [parse_members].
  rewrite Ascii.eqb_refl. cbn [negb]. rewrite parse_chars_quote. cbn [pbind append]. rewrite after_here by done.
  rewrite (proj2 (value_not_close v rest)), Hv by done. done.
Qed.

Lemma skip_ws_member kv rest : skip_ws (member kv ++ rest) = member kv ++ rest.
Proof. unfold member. rewrite <- string_app_assoc, json_quote_app. by rewrite skip_ws_start. Qed.

Lemma reads_members fs : Forall (fun kv => reads (snd kv)) fs -> fs <> [] -> forall n acc rest,
  NoDup (map fst acc ++ map fst fs) ->
  (2 * slen (join "," (map member fs)) + 1 < n)%nat ->
  parse_members n acc (join "," (map member fs) ++ String "}"%char rest) = Done (JObj (acc ++ fs)) rest.
Proof.
  induction fs as [|[k v] fs IH]; [done|]. intros Hl _ n acc rest Hk Hn. apply Forall_cons in Hl. destruct Hl as [Hv Hl].
  assert (Hnew : ~ In k (map fst acc)).
  { cbn [map fst] in Hk. apply NoDup_app in Hk. destruct Hk as (_ & Hk & _). intros Hin. apply list_elem_of_In in Hin. eapply Hk; [exact Hin|by left]. }
  assert (Hm : (slen (stringify v) < slen (member (k, v)))%nat).
  { unfold member. cbn [fst snd]. rewrite !slen_app. cbn. lia. }
  destruct n as [|n]; [lia|]. destruct fs as [|y fs].
  - cbn [map join] in *. rewrite parse_members_one by (done || lia).
    by rewrite after_other, after_here, set_field_new by done.
  - change (join "," (map member ((k, v) :: y :: fs)))
      with (member (k, v) ++ String "," (join "," (map member (y :: fs)))) in *.
    rewrite slen_app in Hn. cbn [String.length] in Hn. rewrite <- string_app_assoc. cbn [append].
    rewrite parse_members_one by (done || lia). rewrite after_here, set_field_new by done.
    replace (skip_ws _) with (join "," (map member (y :: fs)) ++ String "}" rest).
    + rewrite IH; [by rewrite <- app_assoc|done|done| |lia]. rewrite map_app, <- app_assoc. exact Hk.
    + symmetry. cbn [map join]. destruct (map member fs); [|rewrite <- string_app_assoc]; apply skip_ws_member.
Qed.

Lemma stringify_obj_eq fs : stringify (JObj fs) = "{" ++ join "," (map member fs) ++ "}".
Proof. cbn [stringify]. do 3 f_equal. apply map_ext. by intros [k v]. Qed.

Lemma parse_word_app word v rest : parse_word word v (word ++ rest) = Done v rest.
Proof. unfold parse_word. by rewrite startsWith_app, slice_from_app. Qed.

Lemma exact_reads j : exact j = true -> reads j.
Proof.
  induction j as [|b|n|s|l IH|fs IH] using json_ind'; intros He.
  - intros n rest Hn _. destruct n; [cbn in Hn; lia|]. exact (parse_word_app "null" _ rest).
  - intros n rest Hn _. destruct n; [cbn in Hn; lia|].
    destruct b; [exact (parse_word_app "true" _ rest)|exact (parse_word_app "false" _ rest)].
  - by apply reads_num.
  - apply reads_str.
  - assert (Hl : Forall reads l).
    { cbn [exact] in He. rewrite forallb_forall in He. apply List.Forall_forall. rewrite List.Forall_forall in IH. auto. }
    intros n rest Hn _. destruct n; [cbn in Hn; lia|]. cbn [stringify append parse_value].
    rewrite <- string_app_assoc. change ("]" ++ rest) with (String "]" rest).
    change (Ascii.eqb "[" dquote) with false. change (Ascii.eqb "[" "[") with true. cbv iota.
    destruct l as [|x l]; [reflexivity|]. cbn [stringify] in Hn. rewrite !slen_app in Hn. cbn [String.length] in Hn.
    assert (Hs : after "]" (join "," (map stringify (x :: l)) ++ String "]" rest) = None /\
                 skip_ws (join "," (map stringify (x :: l)) ++ String "]" rest) = join "," (map stringify (x :: l)) ++ String "]" rest).
    { cbn [map join]. destruct (map stringify l); [|rewrite <- string_app_assoc]; apply value_not_close. }
    destruct Hs as [-> ->]. apply reads_elements; (done || lia).
  - assert (Hl : Forall (fun kv => reads (snd kv)) fs /\ NoDup (map fst fs)).
    { cbn [exact] in He. apply andb_true_iff in He. destruct He as [Hk He]. split; [|by apply bool_decide_eq_true in Hk].
      rewrite forallb_forall in He. apply List.Forall_forall. rewrite List.Forall_forall in IH. auto. }
    destruct Hl as [Hl Hk]. intros n rest Hn _. rewrite stringify_obj_eq in *. destruct n; [cbn in Hn; lia|].
    cbn [append parse_value]. rewrite <- string_app_assoc. change ("}" ++ rest) with (String "}" rest).
    change (Ascii.eqb "{" dquote) with false. change (Ascii.eqb "{" "[") with false. change (Ascii.eqb "{" "{") with true. cbv iota.
    destruct fs as [|x fs]; [reflexivity|]. rewrite !slen_app in Hn. cbn [String.length] in Hn.
    assert (Hs : after "}" (join "," (map member (x :: fs)) ++ String "}" rest) = None /\
                 skip_ws (join "," (map member (x :: fs)) ++ String "}" rest) = join "," (map member (x :: fs)) ++ String "}" rest).
    { assert (E : exists t, join "," (map member (x :: fs)) ++ String "}" rest = String dquote t).
      { cbn [map join]. unfold member, json_quote. destruct (map _ fs); cbn [append]; eauto. }
      destruct E as [t ->]. by rewrite after_other, skip_ws_start by done. }
    destruct Hs as [-> ->]. apply reads_members; (done || lia).
Qed.

(** [JSON.parse] undoes [JSON.stringify]. *)
Theorem parse_stringify j : exact j = true -> json_parse (stringify j) = Done j "".
Proof.
  intros He. unfold json_parse. destruct (value_not_close j "") as [_ Hs]. rewrite string_app_nil in Hs. rewrite Hs.
  assert (Hr := exact_reads j He (S (2 * slen (stringify j))) "" ltac:(lia) eq_refl). rewrite string_app_nil in Hr.
  by rewrite Hr.
Qed.

(** [Number.parseInt] reads a numeral back. *)
Lemma parseInt10_num n : (0 <= n < DOUBLE_OVERFLOW)%Z -> parseInt10 (num_to_string n) = Some n.
Proof.
  intros Hn. destruct (num_to_string_digits n ltac:(lia)) as (Ha & Hne & Hv). unfold parseInt10.
  assert (Hsp := span_app is_digit (num_to_string n) "" Ha I). rewrite string_app_nil in Hsp.
  destruct (num_to_string n) as [|d s] eqn:E; [done|]. cbn in Ha. apply andb_true_iff in Ha. destruct Ha as [Hd _].
  replace (trimStart (String d s)) with (String d s).
  2: { cbn. replace (is_ws d) with false; [done|]. symmetry. apply negb_true_iff. revert Hd. by_ascii is_digit (fun c => negb (is_ws c)). }
  cbn [parse_sign]. replace (Ascii.eqb d "-") with false.
  2: { symmetry. apply negb_true_iff. revert Hd. by_ascii is_digit (fun c => negb (Ascii.eqb c "-"%char)). }
  replace (Ascii.eqb d "+") with false.
  2: { symmetry. apply negb_true_iff. revert Hd. by_ascii is_digit (fun c => negb (Ascii.eqb c "+"%char)). }
  rewrite Hsp, Hv. replace (n <? DOUBLE_OVERFLOW)%Z with true by (symmetry; apply Z.ltb_lt; lia).
  cbn [nonempty andb]. f_equal. lia.
Qed.
