(* ===== verification/Ssrf.v ===== *)
(** * The SSRF guard: [lib/ssrfGuard.ts]

    The address parsers and block lists, the validation-time check
    [assertWebhookUrlSafe] and the connect-time [lookup] of [buildSafeAgent].
    [isIP] of [node:net] is modelled; the resolver and the URL parser are
    arguments. *)

From S2P Require Import Prelude JsString Json Errors JsNumber.
From Stdlib Require Import String Ascii.

Open Scope string_scope.

(** ** [isIP] of [node:net] *)

(** [25[0-5]|2[0-4]\d|1\d\d|[1-9]\d|\d] *)
Definition is_v4_seg (s : string) : bool :=
  (1 <=? slen s)%nat && (slen s <=? 3)%nat && all_chars is_digit s
  && ((slen s =? 1)%nat || negb (startsWith s "0")) && (digits_value 0 s <=? 255)%Z.

Definition isIPv4 (s : string) : bool :=
  match split_on "."%char s with
  | [a; b; c; d] => is_v4_seg a && is_v4_seg b && is_v4_seg c && is_v4_seg d
  | _ => false
  end.

Definition is_hex_group (s : string) : bool :=
  (1 <=? slen s)%nat && (slen s <=? 4)%nat && all_chars is_hex s.

(** The position of the first ["::"]. *)
Fixpoint indexOf_dcolon (s : string) : option nat :=
  match s with
  | EmptyString => None
  | String c s' =>
      if Ascii.eqb c ":"%char && startsWith s' ":" then Some 0%nat else S <$> indexOf_dcolon s'
  end.

Definition colon_groups (s : string) : list string :=
  if String.eqb s "" then [] else split_on ":"%char s.

(** The 16-bit groups a run of groups stands for; a dotted quad may come last. *)
Fixpoint count_groups (v4_tail : bool) (l : list string) : option nat :=
  match l with
  | [] => Some 0%nat
  | [x] => if is_hex_group x then Some 1%nat
           else if v4_tail && isIPv4 x then Some 2%nat else None
  | x :: l' => if is_hex_group x then S <$> count_groups v4_tail l' else None
  end.

Definition is_zone_char (c : ascii) : bool :=
  is_alnum c || Ascii.eqb c "-"%char || Ascii.eqb c "."%char || Ascii.eqb c ":"%char.

Definition isIPv6_body (s : string) : bool :=
  match indexOf_dcolon s with
  | None => match count_groups true (colon_groups s) with
            | Some n => (n =? 8)%nat | None => false end
  | Some i =>
      match count_groups false (colon_groups (slice_to s i)),
            count_groups true (colon_groups (slice_from s (i + 2))) with
      | Some m, Some n => (m + n <=? 7)%nat
      | _, _ => false
      end
  end.

Definition isIPv6 (s : string) : bool :=
  match indexOf "%"%char s with
  | None => isIPv6_body s
  | Some i => isIPv6_body (slice_to s i)
              && nonempty (slice_from s (S i)) && all_chars is_zone_char (slice_from s (S i))
  end.

Definition isIP (s : string) : Z :=
  if isIPv4 s then 4%Z else if isIPv6 s then 6%Z else 0%Z.

(** ** Hostname conventions *)

Definition BLOCKED_HOSTNAME_SUFFIXES : list string := [".local"; ".internal"].
Definition BLOCKED_EXACT_HOSTNAMES : list string := ["localhost"].

Definition isBlockedHostname (host : string) : bool :=
  let h := toLowerCase host in
  existsb (String.eqb h) BLOCKED_EXACT_HOSTNAMES || existsb (endsWith h) BLOCKED_HOSTNAME_SUFFIXES.

(** ** IPv4 ranges *)

Fixpoint octets_to_num (out : Z) (parts : list string) : option Z :=
  match parts with
  | [] => Some out
  | p :: ps =>
      if (slen p =? 0)%nat || (3 <? slen p)%nat then None
      else match js_Number p with
           | Some n => if ((n <? 0) || (255 <? n))%Z then None
                       else octets_to_num (out * 256 + n)%Z ps
           | None => None
           end
  end.

Definition ipv4ToUint32 (ip : string) : option Z :=
  let parts := split_on "."%char ip in
  if negb (List.length parts =? 4)%nat then None
  else (fun out => js_ushr out 0) <$> octets_to_num 0 parts.

Record V4Range : Type := { network : Z; prefix : Z }.

(** The module's [v4("a.b.c.d/p")] literals; a bad literal throws at load time. *)
Definition v4 (cidr : string) : option V4Range :=
  match split_on "/"%char cidr with
  | addr :: prefixStr :: _ =>
      match ipv4ToUint32 addr, js_Number prefixStr with
      | Some n, Some p => if ((p <? 0) || (32 <? p))%Z then None
                          else Some {| network := n; prefix := p |}
      | _, _ => None
      end
  | _ => None
  end.

Definition BLOCKED_V4_CIDRS : list string :=
  ["0.0.0.0/8"; "10.0.0.0/8"; "100.64.0.0/10"; "127.0.0.0/8"; "169.254.0.0/16";
   "172.16.0.0/12"; "192.168.0.0/16"].

Definition BLOCKED_V4_RANGES : list V4Range := omap v4 BLOCKED_V4_CIDRS.

Definition v4InRange (addr : Z) (r : V4Range) : bool :=
  if (prefix r =? 0)%Z then true
  else
    let mask := if (prefix r =? 32)%Z then 4294967295%Z
                else js_ushr (js_shl 4294967295 (32 - prefix r)) 0 in
    (js_and addr mask =? js_and (network r) mask)%Z.

Definition isBlockedV4 (ip : string) : bool :=
  match ipv4ToUint32 ip with
  | None => false
  | Some n => existsb (v4InRange n) BLOCKED_V4_RANGES
  end.

(** ** IPv6 ranges *)

(** [\d{1,3}\.\d{1,3}\.\d{1,3}\.\d{1,3}] *)
Definition is_dotted_quad (s : string) : bool :=
  match split_on "."%char s with
  | [a; b; c; d] => forallb (matches_class is_digit 1 3) [a; b; c; d]
  | _ => false
  end.

(** [ip.match(/(.*:)(\d{1,3}\.\d{1,3}\.\d{1,3}\.\d{1,3})$/)] on a text of one line:
    the part up to the last colon, and the quad after it. *)
Definition match_v4Tail (ip : string) : option (string * string) :=
  match lastIndexOf ":"%char ip with
  | None => None
  | Some i => let tail := slice_from ip (S i) in
              if is_dotted_quad tail then Some (slice_to ip (S i), tail) else None
  end.

(** [s.replace(/:$/, "")] *)
Definition strip_one_colon (s : string) : string :=
  if endsWith s ":" then slice_to s (slen s - 1) else s.

(** [parseInt(g, 16)] of each group, [None] at the first malformed one. *)
Fixpoint parse_groups (l : list string) : option (list Z) :=
  match l with
  | [] => Some []
  | g :: l' => if is_hex_group g then cons (hex_digits_value 0 g) <$> parse_groups l' else None
  end.

Definition ipv6Groups (ip : string) : option (list Z) :=
  let tail_head :=
    match match_v4Tail ip with
    | None => Some ([], ip)
    | Some (h, quad) =>
        let head := strip_one_colon h in
        let head := if String.eqb head "" then "::" else head in
        match ipv4ToUint32 quad with
        | None => None
        | Some v4n => Some ([js_and (js_ushr v4n 16) 65535; js_and v4n 65535], head)
        end
    end in
  match tail_head with
  | None => None
  | Some (trailingGroups, head) =>
      let doubleIdx := indexOf_dcolon head in
      let '(leftRaw, rightRaw) :=
        match doubleIdx with
        | None => (colon_groups head, [])
        | Some i => (colon_groups (slice_to head i), colon_groups (slice_from head (i + 2)))
        end in
      let explicit := (List.length leftRaw + List.length rightRaw + List.length trailingGroups)%nat in
      if (8 <? explicit)%nat then None
      else
        let zeros := match doubleIdx with None => 0%nat | Some _ => (8 - explicit)%nat end in
        match parse_groups leftRaw, parse_groups rightRaw with
        | Some l, Some r =>
            let out := (l ++ repeat 0%Z zeros ++ r ++ trailingGroups)%list in
            if (List.length out =? 8)%nat then Some out else None
        | _, _ => None
        end
  end.

(** [stripped.match(/^::ffff:(\d{1,3}\.\d{1,3}\.\d{1,3}\.\d{1,3})$/i)] *)
Definition match_mapped (s : string) : option string :=
  if startsWith (toLowerCase s) "::ffff:" && is_dotted_quad (slice_from s 7)
  then Some (slice_from s 7) else None.

Definition nthz (l : list Z) (i : nat) : Z := nth i l 0%Z.

(** [`${a}.${b}.${c}.${d}`] of the embedded address *)
Definition dotted (v4Num : Z) : string :=
  num_to_string (js_and (js_ushr v4Num 24) 255) ++ "." ++
  num_to_string (js_and (js_ushr v4Num 16) 255) ++ "." ++
  num_to_string (js_and (js_ushr v4Num 8) 255) ++ "." ++ num_to_string (js_and v4Num 255).

Definition isBlockedV6_groups (groups : list Z) : bool :=
  if forallb (Z.eqb 0) groups then true
  else if forallb (Z.eqb 0) (firstn 7 groups) && (nthz groups 7 =? 1)%Z then true
  else if (js_and (nthz groups 0) 65472 =? 65152)%Z then true      (* 0xffc0, 0xfe80 *)
  else if (js_and (nthz groups 0) 65024 =? 64512)%Z then true      (* 0xfe00, 0xfc00 *)
  else if forallb (Z.eqb 0) (firstn 5 groups) && (nthz groups 5 =? 65535)%Z then
    let v4Num := js_ushr (js_or (js_shl (nthz groups 6) 16) (nthz groups 7)) 0 in
    isBlockedV4 (dotted v4Num)
  else false.

Definition isBlockedV6 (ip : string) : bool :=
  let stripped := hd "" (split_on "%"%char ip) in
  match match_mapped stripped with
  | Some v => isBlockedV4 v
  | None => match ipv6Groups stripped with
            | None => false
            | Some groups => isBlockedV6_groups groups
            end
  end.

Definition isBlockedIp (ip : string) : bool :=
  let fam := isIP ip in
  if (fam =? 4)%Z then isBlockedV4 ip
  else if (fam =? 6)%Z then isBlockedV6 ip
  else false.

(** ** The two checks *)

(** [process.env.NODE_ENV] and [process.env.WEBHOOK_ALLOW_PRIVATE_FOR_TESTS] *)
Record ProcessEnv : Type := { NODE_ENV : string; ALLOW_PRIVATE : string }.

Definition escapeHatchActive (env : ProcessEnv) : bool :=
  String.eqb (NODE_ENV env) "test" && String.eqb (ALLOW_PRIVATE env) "true".

(** The parts of a WHATWG [URL] the code reads. *)
Record URL : Type := { protocol : string; hostname : string; username : string; password : string }.

Record LookupAddress : Type := { address : string; family : Z }.

(** [dns.lookup(host, { all: true })]; [None] is a rejection. *)
Class Resolver : Type := { dnsLookup : string -> option (list LookupAddress) }.

(** [URL] keeps the brackets of an IPv6 host. *)
Definition bare_host (rawHost : string) : string :=
  if startsWith rawHost "[" && endsWith rawHost "]"
  then slice_to (slice_from rawHost 1) (slen rawHost - 2) else rawHost.

Definition blocked (message : string) : exn := WebhookValidationError "webhook_url_blocked" message.

Definition assertWebhookUrlSafe `{Resolver} (env : ProcessEnv) (parsed : URL) : outcome exn unit :=
  if escapeHatchActive env then Return tt
  else
    let rawHost := hostname parsed in
    if negb (nonempty rawHost) then Throw (WebhookValidationError "webhook_url_invalid" "url has no host")
    else
      let host := bare_host rawHost in
      let fam := isIP host in
      if negb (fam =? 0)%Z then
        if isBlockedIp host then Throw (blocked "url targets a disallowed address range")
        else Return tt
      else if isBlockedHostname host then Throw (blocked "url targets a disallowed hostname")
      else
        match dnsLookup host with
        | None => Throw (blocked "url host could not be resolved")
        | Some [] => Throw (blocked "url host could not be resolved")
        | Some addrs =>
            if existsb (fun a => isBlockedIp (address a)) addrs
            then Throw (blocked "url host resolves to a disallowed address")
            else Return tt
        end.

(** What the [lookup] callback of [buildSafeAgent] is called with. *)
Inductive LookupResult : Type :=
  | LookupOk (address : string) (family : Z)
  | LookupErr (code : string).

(** [lookup(hostname, _opts, cb)]; [first_address] is [dns.lookup] without [all]. *)
Definition safe_lookup `{Resolver} (first_address : string -> option LookupAddress)
    (env : ProcessEnv) (hostname : string) : LookupResult :=
  if escapeHatchActive env then
    match first_address hostname with
    | Some a => LookupOk (address a) (family a)
    | None => LookupErr "ENOTFOUND"
    end
  else
    let fam := isIP hostname in
    if negb (fam =? 0)%Z then
      if isBlockedIp hostname then LookupErr "EWEBHOOK_SSRF_BLOCKED"
      else LookupOk hostname fam
    else if isBlockedHostname hostname then LookupErr "EWEBHOOK_SSRF_BLOCKED"
    else match dnsLookup hostname with
         | None => LookupErr "ENOTFOUND"
         | Some addrs =>
             match List.find (fun a => negb (isBlockedIp (address a))) addrs with
             | Some a => LookupOk (address a) (family a)
             | None => LookupErr "EWEBHOOK_SSRF_BLOCKED"
             end
         end.

(** ** Dotted quads *)

Definition octet (n : Z) : Prop := (0 <= n < 256)%Z.

(** The text [a.b.c.d]. *)
Definition quad (a b c d : Z) : string :=
  num_to_string a ++ "." ++ num_to_string b ++ "." ++ num_to_string c ++ "." ++ num_to_string d.

Definition quad_value (a b c d : Z) : Z := (((a * 256 + b) * 256 + c) * 256 + d)%Z.

(** What the parsers need of the decimal text of an octet, by trying all 256. *)
Lemma octet_text n :
  octet n ->
  is_v4_seg (num_to_string n) = true /\ js_Number (num_to_string n) = Some n /\
  all_chars (fun c => negb (Ascii.eqb c "."%char)) (num_to_string n) = true /\
  all_chars (fun c => negb (Ascii.eqb c "%"%char)) (num_to_string n) = true /\
  matches_class is_digit 1 3 (num_to_string n) = true.
Proof.
  intros Hn.
  assert (F : forallb (fun i => let n := Z.of_nat i in let s := num_to_string n in
     is_v4_seg s && (match js_Number s with Some m => (m =? n)%Z | None => false end)
     && all_chars (fun c => negb (Ascii.eqb c "."%char)) s
     && all_chars (fun c => negb (Ascii.eqb c "%"%char)) s
     && matches_class is_digit 1 3 s) (List.seq 0 256) = true) by (vm_compute; reflexivity).
  rewrite forallb_forall in F. specialize (F (Z.to_nat n)). cbn zeta in F.
  unfold octet in Hn. rewrite Z2Nat.id in F by lia.
  assert (Hin : In (Z.to_nat n) (seq 0 256)) by (apply in_seq; lia).
  specialize (F Hin). destruct_and_ex. destruct (js_Number _); [|discriminate].
  reflect_eqb. by subst.
Qed.

Lemma split_quad a b c d :
  octet a -> octet b -> octet c -> octet d ->
  split_on "."%char (quad a b c d)
  = [num_to_string a; num_to_string b; num_to_string c; num_to_string d].
Proof.
  intros Ha Hb Hc Hd. unfold quad. cbn [String.append].
  rewrite !(split_on_app "."%char) by (apply octet_text; done).
  by rewrite split_on_none by (apply octet_text; done).
Qed.

Lemma isIPv4_quad a b c d :
  octet a -> octet b -> octet c -> octet d -> isIPv4 (quad a b c d) = true.
Proof.
  intros. unfold isIPv4. rewrite split_quad by done.
  by rewrite !(fun n H => proj1 (octet_text n H)) by done.
Qed.

Lemma octets_to_num_step out n ps :
  octet n -> octets_to_num out (num_to_string n :: ps) = octets_to_num (out * 256 + n) ps.
Proof.
  intros Hn. destruct (octet_text n Hn) as (S & N & _). cbn [octets_to_num].
  unfold is_v4_seg in S. destruct_and_ex.
  replace (slen _ =? 0)%nat with false by (symmetry; apply Nat.eqb_neq; apply Nat.leb_le in H; lia).
  replace (3 <? slen _)%nat with false by (symmetry; apply Nat.ltb_ge; by apply Nat.leb_le).
  cbn [orb]. rewrite N. unfold octet in Hn.
  replace (n <? 0)%Z with false by (symmetry; apply Z.ltb_ge; lia).
  by replace (255 <? n)%Z with false by (symmetry; apply Z.ltb_ge; lia).
Qed.

Lemma quad_value_bound a b c d :
  octet a -> octet b -> octet c -> octet d -> (0 <= quad_value a b c d < 2 ^ 32)%Z.
Proof. unfold octet, quad_value. lia. Qed.

Lemma ipv4ToUint32_quad a b c d :
  octet a -> octet b -> octet c -> octet d ->
  ipv4ToUint32 (quad a b c d) = Some (quad_value a b c d).
Proof.
  intros. unfold ipv4ToUint32. rewrite split_quad by done. cbn [List.length Nat.eqb negb].
  rewrite !octets_to_num_step by done. cbn [octets_to_num fmap option_fmap option_map].
  f_equal. rewrite js_ushr_div; [|by apply quad_value_bound|lia].
  unfold quad_value. rewrite Z.pow_0_r, Z.div_1_r. lia.
Qed.

(** The text of a 32-bit address, as [isBlockedV6] renders the embedded one. *)
Lemma dotted_quad a b c d :
  octet a -> octet b -> octet c -> octet d -> dotted (quad_value a b c d) = quad a b c d.
Proof.
  intros Ha Hb Hc Hd. pose proof (quad_value_bound _ _ _ _ Ha Hb Hc Hd) as B.
  unfold octet in *.
  assert (forall x, (0 <= x < 2 ^ 32 -> js_and x 255 = x mod 256)%Z) as R.
  { intros x Hx. apply (js_and_ones x 8); lia. }
  unfold dotted, quad. rewrite !js_ushr_div by lia.
  assert ((quad_value a b c d / 2 ^ 24 = a /\ quad_value a b c d / 2 ^ 16 mod 256 = b /\
           quad_value a b c d / 2 ^ 8 mod 256 = c /\ quad_value a b c d mod 256 = d)%Z)
    as (E1 & E2 & E3 & E4).
  { unfold quad_value. clear B R. Z.to_euclidean_division_equations. lia. }
  rewrite !R; try lia; [|(split; [apply Z.div_pos; lia|]; apply Z.div_lt_upper_bound; lia) ..].
  rewrite E1, E2, E3, E4. by rewrite Z.mod_small.
Qed.

(** ** Range tests are intervals *)

Lemma mask_of_prefix p :
  (1 <= p <= 32)%Z ->
  (if (p =? 32)%Z then 4294967295%Z else js_ushr (js_shl 4294967295 (32 - p)) 0)
  = (2 ^ 32 - 2 ^ (32 - p))%Z.
Proof.
  intros Hp.
  assert (F : forallb (fun i => let p := Z.of_nat i in
     ((if p =? 32 then 4294967295 else js_ushr (js_shl 4294967295 (32 - p)) 0)
      =? 2 ^ 32 - 2 ^ (32 - p))%Z) (seq 1 32) = true) by (vm_compute; reflexivity).
  rewrite forallb_forall in F. specialize (F (Z.to_nat p)). cbn zeta in F.
  rewrite Z2Nat.id in F by lia. apply Z.eqb_eq, F, in_seq. lia.
Qed.

(** A range contains the addresses that agree with the network on the prefix. *)
Lemma v4InRange_interval addr net p :
  (1 <= p <= 32)%Z -> (0 <= addr < 2 ^ 32)%Z -> (0 <= net < 2 ^ 32)%Z ->
  v4InRange addr {| network := net; prefix := p |}
  = (addr / 2 ^ (32 - p) =? net / 2 ^ (32 - p))%Z.
Proof.
  intros Hp Ha Hn. unfold v4InRange. cbn [prefix network].
  replace (p =? 0)%Z with false by (symmetry; apply Z.eqb_neq; lia).
  rewrite mask_of_prefix by done.
  set (m := (2 ^ 32 - 2 ^ (32 - p))%Z).
  assert (H0 : (0 < 2 ^ (32 - p))%Z) by (apply Z.pow_pos_nonneg; lia).
  assert (Hm : (0 <= m < 2 ^ 32)%Z).
  { subst m. pose proof (Z.pow_le_mono_r 2 (32 - p) 32). lia. }
  unfold js_and. rewrite !to_uint32_small by lia.
  pose proof (land_high_mask 32 addr (32 - p) Ha ltac:(lia)) as L1.
  pose proof (land_high_mask 32 net (32 - p) Hn ltac:(lia)) as L2.
  fold m in L1, L2. apply eq_true_iff_eq. rewrite !Z.eqb_eq. split.
  - intros E. apply to_int32_inj in E; [|by apply (land_bound 32); lia ..]. nia.
  - intros E. by rewrite L1, L2, E.
Qed.

Lemma BLOCKED_V4_RANGES_eq :
  BLOCKED_V4_RANGES =
  [{| network := quad_value 0 0 0 0; prefix := 8 |};
   {| network := quad_value 10 0 0 0; prefix := 8 |};
   {| network := quad_value 100 64 0 0; prefix := 10 |};
   {| network := quad_value 127 0 0 0; prefix := 8 |};
   {| network := quad_value 169 254 0 0; prefix := 16 |};
   {| network := quad_value 172 16 0 0; prefix := 12 |};
   {| network := quad_value 192 168 0 0; prefix := 16 |}].
Proof. vm_compute. reflexivity. Qed.

(** The documented IPv4 block list, on octets. *)
Definition blocked_v4_octets (a b : Z) : Prop :=
  (a = 0 \/ a = 10 \/ (a = 100 /\ 64 <= b <= 127) \/ a = 127 \/ (a = 169 /\ b = 254) \/
   (a = 172 /\ 16 <= b <= 31) \/ (a = 192 /\ b = 168))%Z.

(** Dropping the low bits of an address drops its low octets. *)
Lemma quad_value_shifts a b c d :
  octet a -> octet b -> octet c -> octet d ->
  (quad_value a b c d / 2 ^ 24 = a /\ quad_value a b c d / 2 ^ 16 = a * 256 + b /\
   quad_value a b c d / 2 ^ 22 = a * 4 + b / 64 /\
   quad_value a b c d / 2 ^ 20 = a * 16 + b / 16)%Z.
Proof.
  unfold octet, quad_value. intros.
  repeat split; Z.to_euclidean_division_equations; lia.
Qed.

Lemma isBlockedV4_quad a b c d :
  octet a -> octet b -> octet c -> octet d ->
  isBlockedV4 (quad a b c d) = true <-> blocked_v4_octets a b.
Proof.
  intros Ha Hb Hc Hd. unfold isBlockedV4. rewrite ipv4ToUint32_quad by done.
  pose proof (quad_value_bound _ _ _ _ Ha Hb Hc Hd) as B.
  destruct (quad_value_shifts _ _ _ _ Ha Hb Hc Hd) as (E1 & E2 & E3 & E4).
  rewrite BLOCKED_V4_RANGES_eq. cbn [existsb].
  rewrite !v4InRange_interval by (try exact B; unfold quad_value; lia).
  change (32 - 8)%Z with 24%Z. change (32 - 10)%Z with 22%Z.
  change (32 - 16)%Z with 16%Z. change (32 - 12)%Z with 20%Z.
  rewrite E1, E2, E3, E4, !orb_true_iff, !Z.eqb_eq. unfold blocked_v4_octets, octet in *.
  clear B E1 E2 E3 E4.
  repeat match goal with
         | |- context [(quad_value ?x ?y ?z ?t / 2 ^ ?k)%Z] =>
             let v := eval vm_compute in (quad_value x y z t / 2 ^ k)%Z in
             change (quad_value x y z t / 2 ^ k)%Z with v
         end.
  Z.to_euclidean_division_equations. lia.
Qed.

(** ** IPv6 groups *)

Definition group16 (g : Z) : Prop := (0 <= g < 65536)%Z.

Lemma js_and_high16 g k :
  group16 g -> (0 <= k <= 16)%Z -> js_and g (2 ^ 16 - 2 ^ k) = (g / 2 ^ k * 2 ^ k)%Z.
Proof.
  unfold group16. intros Hg Hk.
  assert (H : (0 < 2 ^ k <= 2 ^ 16)%Z)
    by (split; [apply Z.pow_pos_nonneg; lia | apply Z.pow_le_mono_r; lia]).
  rewrite js_and_small by lia. apply land_high_mask; [|lia]. change (2 ^ 16)%Z with 65536%Z. lia.
Qed.

(** The embedded IPv4 address of two groups. *)
Lemma embedded_v4 g6 g7 :
  group16 g6 -> group16 g7 ->
  js_ushr (js_or (js_shl g6 16) g7) 0 = quad_value (g6 / 256) (g6 mod 256) (g7 / 256) (g7 mod 256).
Proof.
  unfold group16. intros H6 H7.
  assert (E : js_or (js_shl g6 16) g7 = to_int32 (g6 * 65536 + g7)).
  { unfold js_or, js_shl. rewrite (to_uint32_small g6), (to_uint32_small g7) by lia.
    change (16 mod 32)%Z with 16%Z. rewrite Z.shiftl_mul_pow2 by lia.
    assert (U : to_uint32 (to_int32 (g6 * 2 ^ 16)) = (g6 * 2 ^ 16)%Z).
    { unfold to_uint32, to_int32. rewrite (Z.mod_small (g6 * 2 ^ 16)) by lia.
      destruct (_ <? _)%Z; [apply Z.mod_small; lia|].
      rewrite <- (Z_mod_plus_full _ 1), Z.mod_small by lia. lia. }
    rewrite U. f_equal. pose proof (Z.add_lor_land (g6 * 2 ^ 16) g7) as A.
    assert (L : Z.land (g6 * 2 ^ 16) g7 = 0%Z).
    { apply Z.bits_inj'. intros n Hn. rewrite Z.land_spec, Z.bits_0.
      destruct (Z.ltb_spec n 16); [by rewrite Z.mul_pow2_bits_low by lia|].
      rewrite andb_false_intro2; [done|].
      destruct (Z.eq_dec g7 0) as [->|]; [apply Z.bits_0|].
      apply Z.bits_above_log2; [lia|]. apply Z.lt_le_trans with 16%Z; [|lia].
      apply Z.log2_lt_pow2; lia. }
    rewrite L in A. lia. }
  rewrite E. unfold js_ushr. change (0 mod 32)%Z with 0%Z. rewrite Z.shiftr_0_r.
  assert (U : to_uint32 (to_int32 (g6 * 65536 + g7)) = (g6 * 65536 + g7)%Z).
  { unfold to_uint32, to_int32. rewrite (Z.mod_small (g6 * 65536 + g7)) by lia.
    destruct (_ <? _)%Z; [apply Z.mod_small; lia|].
    rewrite <- (Z_mod_plus_full _ 1), Z.mod_small by lia. lia. }
  rewrite U. unfold quad_value. Z.to_euclidean_division_equations. lia.
Qed.

(** The documented IPv6 block list, on the eight groups. *)
Definition blocked_v6_groups (g : list Z) : Prop :=
  match g with
  | [g0; g1; g2; g3; g4; g5; g6; g7] =>
      ((g0 = 0 /\ g1 = 0 /\ g2 = 0 /\ g3 = 0 /\ g4 = 0 /\ g5 = 0 /\ g6 = 0 /\ (g7 = 0 \/ g7 = 1))
       \/ 65152 <= g0 <= 65215          (* fe80::/10 *)
       \/ 64512 <= g0 <= 65023          (* fc00::/7 *)
       \/ (g0 = 0 /\ g1 = 0 /\ g2 = 0 /\ g3 = 0 /\ g4 = 0 /\ g5 = 65535 /\
           blocked_v4_octets (g6 / 256) (g6 mod 256)))%Z
  | _ => False
  end.

Lemma isBlockedV6_groups_mapped g6 g7 :
  group16 g6 -> group16 g7 ->
  isBlockedV4 (dotted (js_ushr (js_or (js_shl g6 16) g7) 0)) = true
  <-> blocked_v4_octets (g6 / 256) (g6 mod 256).
Proof.
  intros H6 H7. rewrite embedded_v4 by done.
  assert (octet (g6 / 256) /\ octet (g6 mod 256) /\ octet (g7 / 256) /\ octet (g7 mod 256))
    as (O1 & O2 & O3 & O4).
  { unfold group16, octet in *. Z.to_euclidean_division_equations. lia. }
  rewrite dotted_quad by done. by apply isBlockedV4_quad.
Qed.

(** The two prefix tests on the first group. *)
Lemma v6_prefix_tests g :
  group16 g ->
  ((js_and g 65472 =? 65152)%Z = true <-> (65152 <= g <= 65215)%Z) /\
  ((js_and g 65024 =? 64512)%Z = true <-> (64512 <= g <= 65023)%Z).
Proof.
  intros Hg. pose proof (js_and_high16 g 6 Hg ltac:(lia)) as E6.
  pose proof (js_and_high16 g 9 Hg ltac:(lia)) as E9.
  change (2 ^ 16 - 2 ^ 6)%Z with 65472%Z in E6. change (2 ^ 16 - 2 ^ 9)%Z with 65024%Z in E9.
  rewrite E6, E9.
  rewrite !Z.eqb_eq. unfold group16 in Hg.
  split; Z.to_euclidean_division_equations; lia.
Qed.

(** ** Theorems *)

(** For every list of eight 16-bit groups, the IPv6 test accepts exactly the
    documented list: the unspecified and loopback addresses, [fe80::/10],
    [fc00::/7], and the IPv4-mapped addresses whose embedded IPv4 address is in
    the IPv4 block list. *)
Theorem isBlockedV6_groups_spec g :
  List.length g = 8%nat -> Forall group16 g ->
  isBlockedV6_groups g = true <-> blocked_v6_groups g.
Proof.
  intros Hl Hg.
  destruct g as [|g0 [|g1 [|g2 [|g3 [|g4 [|g5 [|g6 [|g7 [|]]]]]]]]]; try discriminate.
  rewrite !Forall_cons in Hg. destruct_and_ex.
  destruct (v6_prefix_tests g0) as [T1 T2]; [done|].
  pose proof (isBlockedV6_groups_mapped g6 g7 ltac:(done) ltac:(done)) as T3.
  unfold isBlockedV6_groups, nthz. cbn [forallb firstn nth blocked_v6_groups].
  rewrite !if_true_orb, if_false_andb, !orb_true_iff, !andb_true_iff, T1, T2, T3, !Z.eqb_eq.
  generalize (blocked_v4_octets (g6 / 256) (g6 mod 256)). intros P. clear. intuition lia.
Qed.

Lemma isBlockedV6_groups_spec_witness :
  isBlockedV6_groups [0; 0; 0; 0; 0; 65535; 2560; 1]%Z = true
  <-> blocked_v6_groups [0; 0; 0; 0; 0; 65535; 2560; 1]%Z.
Proof.
  apply isBlockedV6_groups_spec; [reflexivity|]. repeat constructor; lia.
Defined.

(** Every dotted quad with octets in range is an IPv4 literal for [isIP], and
    [isBlockedIp] refuses it exactly when it lies in one of the documented CIDR
    blocks 0/8, 10/8, 100.64/10, 127/8, 169.254/16, 172.16/12, 192.168/16. *)
Theorem isBlockedIp_v4_spec a b c d :
  octet a -> octet b -> octet c -> octet d ->
  isIP (quad a b c d) = 4%Z /\
  (isBlockedIp (quad a b c d) = true <-> blocked_v4_octets a b).
Proof.
  intros. unfold isBlockedIp, isIP. rewrite isIPv4_quad by done. cbn [Z.eqb Pos.eqb].
  split; [done|]. by apply isBlockedV4_quad.
Qed.

Lemma isBlockedIp_v4_spec_witness :
  isIP (quad 169 254 169 254) = 4%Z /\
  (isBlockedIp (quad 169 254 169 254) = true <-> blocked_v4_octets 169 254).
Proof. apply isBlockedIp_v4_spec; unfold octet; lia. Defined.

Definition production : ProcessEnv := {| NODE_ENV := "production"; ALLOW_PRIVATE := "true" |}.

(** A resolver whose answer mixes a public and a private address. *)
Definition rebinding_resolver : Resolver :=
  {| dnsLookup h := Some [{| address := "93.184.216.34"; family := 4 |};
                          {| address := "169.254.169.254"; family := 4 |}] |}.

Definition url_of (h : string) : URL :=
  {| protocol := "https:"; hostname := h; username := ""; password := "" |}.

(** Whatever the resolver answers at connect time, with the escape hatch off
    the agent's [lookup] only ever hands out an address that is not blocked: a
    name re-bound to a private address after validation is not connected to. *)
Theorem safe_lookup_never_blocked `{Resolver} first env host a fam :
  escapeHatchActive env = false ->
  safe_lookup first env host = LookupOk a fam -> isBlockedIp a = false.
Proof.
  intros He. unfold safe_lookup. rewrite He.
  destruct (negb (isIP host =? 0)%Z).
  { destruct (isBlockedIp host) eqn:E; [discriminate|]. by intros [= <- _]. }
  destruct (isBlockedHostname host); [discriminate|].
  destruct (dnsLookup host) as [addrs|]; [|discriminate].
  destruct (List.find _ addrs) as [x|] eqn:Ef; [|discriminate]. intros [= <- _].
  apply find_some in Ef. by destruct_and_ex.
Qed.

Lemma safe_lookup_never_blocked_witness :
  let R := rebinding_resolver in
  safe_lookup (fun _ => None) production "example.com" = LookupOk "93.184.216.34" 4 /\
  isBlockedIp "93.184.216.34" = false.
Proof.
  cbv zeta. split; [vm_compute; reflexivity|].
  apply (safe_lookup_never_blocked (H := rebinding_resolver) (fun _ => None) production
           "example.com" "93.184.216.34" 4); vm_compute; reflexivity.
Defined.

(** ** A literal the guard cannot read *)

Definition is_quad_char (c : ascii) : bool := is_digit c || Ascii.eqb c "."%char.

Lemma quad_chars a b c d :
  octet a -> octet b -> octet c -> octet d -> all_chars is_quad_char (quad a b c d) = true.
Proof.
  assert (D : forall n, octet n -> all_chars is_quad_char (num_to_string n) = true).
  { intros n Hn. destruct (octet_text n Hn) as (_ & _ & _ & _ & M).
    unfold matches_class in M. destruct_and_ex.
    eapply all_chars_impl; [|eassumption]. intros x Hx. unfold is_quad_char. by rewrite Hx. }
  intros. unfold quad. rewrite !all_chars_app, !D by done. reflexivity.
Qed.

(** A quad has a dot, so it is no group of hexadecimal digits. *)
Lemma quad_not_hex_group a b c d :
  is_hex_group (quad a b c d) = false /\ String.eqb (quad a b c d) "" = false.
Proof.
  split.
  - unfold is_hex_group, quad. rewrite !all_chars_app. cbn. by rewrite !andb_false_r.
  - unfold quad. destruct (num_to_string a); done.
Qed.

(** [ipv6Groups] cannot read a literal whose dotted quad directly follows the
    [::] (it strips one of the two colons), so [isBlockedIp] accepts the
    link-local literals [fe80::a.b.c.d] although [fe80::/10] is on its list. *)
Theorem link_local_quad_accepted a b c d :
  octet a -> octet b -> octet c -> octet d ->
  isIP ("fe80::" ++ quad a b c d) = 6%Z /\ isBlockedIp ("fe80::" ++ quad a b c d) = false.
Proof.
  intros Ha Hb Hc Hd.
  pose proof (isIPv4_quad a b c d Ha Hb Hc Hd) as V4.
  pose proof (split_quad a b c d Ha Hb Hc Hd) as Sq.
  pose proof (quad_chars a b c d Ha Hb Hc Hd) as Qc.
  destruct (quad_not_hex_group a b c d) as [Nh Ne].
  assert (Dq : is_dotted_quad (quad a b c d) = true).
  { unfold is_dotted_quad. rewrite Sq. cbn [forallb].
    by rewrite !(fun n H => proj2 (proj2 (proj2 (proj2 (octet_text n H))))) by done. }
  set (q := quad a b c d) in *.
  assert (No : forall x, is_quad_char x = false ->
                 all_chars (fun c => negb (Ascii.eqb c x)) q = true).
  { intros x Hx. eapply all_chars_impl; [|exact Qc]. intros y Hy. apply negb_true_iff.
    destruct (Ascii.eqb_spec y x); [congruence|done]. }
  assert (I1 := indexOf_none ":"%char q (No ":"%char eq_refl)). assert (I2 := lastIndexOf_none ":"%char q (No ":"%char eq_refl)).
  assert (P1 := indexOf_none "%"%char q (No "%"%char eq_refl)).
  assert (Eip : isIP ("fe80::" ++ q) = 6%Z).
  { unfold isIP, isIPv4, isIPv6. cbn [String.append split_on Ascii.eqb Bool.eqb indexOf].
    rewrite Sq, P1. cbn. unfold isIPv6_body.
    replace (indexOf_dcolon _) with (Some 4%nat) by (cbn; by destruct q).
    cbn [Nat.add slice_from slice_to].
    unfold colon_groups. replace (slice_from q 0) with q by (by destruct q).
    rewrite Ne, (split_on_none _ q) by (by apply No). cbn [count_groups].
    by rewrite Nh, V4. }
  split; [exact Eip|]. unfold isBlockedIp. rewrite Eip. cbn [Z.eqb Pos.eqb].
  unfold isBlockedV6. rewrite (split_on_none _ ("fe80::" ++ q)) by (cbn; by apply No).
  cbn [hd]. change (match_mapped ("fe80::" ++ q)) with (@None string).
  unfold ipv6Groups, match_v4Tail. cbn [String.append lastIndexOf]. rewrite I2.
  cbn. replace (slice_from q 0) with q by (by destruct q).
  replace (slice_to q 0) with "" by (by destruct q).
  rewrite Dq. by destruct (ipv4ToUint32 q).
Qed.

Lemma link_local_quad_accepted_witness :
  isIP ("fe80::" ++ quad 1 2 3 4) = 6%Z /\ isBlockedIp ("fe80::" ++ quad 1 2 3 4) = false.
Proof. apply (link_local_quad_accepted 1 2 3 4); unfold octet; lia. Defined.
