(* ===== verification/SsrfSpec.v ===== *)
(** * What the SSRF guard accepts

    The hosts [Ssrf.assertWebhookUrlSafe] accepts, stated on addresses: a grammar of
    address literals with the numbers they denote, the internal ranges as intervals of
    those numbers, and the reserved names, none of which uses the parsers, masks and
    tables of the guard. *)

From S2P Require Import Prelude JsString Json Errors JsNumber Ssrf.
From Stdlib Require Import String Ascii.

Open Scope string_scope.

(** ** Addresses *)

(** Four octets, or eight groups of sixteen bits. *)
Inductive Address : Type :=
  | V4 (a b c d : Z)
  | V6 (groups : list Z).

(** One to four hexadecimal digits and their value. *)
Definition hex_text (t : string) (g : Z) : Prop :=
  (1 <= slen t <= 4)%nat /\ all_chars is_hex t = true /\ g = hex_digits_value 0 t.

(** The texts of an address: a dotted quad; eight groups; groups around one [::],
    which stands for the groups left out; and the IPv4-mapped form with a quad. *)
Inductive literal : string -> Address -> Prop :=
  | lit_v4 a b c d : octet a -> octet b -> octet c -> octet d -> literal (quad a b c d) (V4 a b c d)
  | lit_full ts gs : Forall2 hex_text ts gs -> List.length gs = 8%nat ->
      literal (concat ":" ts) (V6 gs)
  | lit_short ls gl rs gr : Forall2 hex_text ls gl -> Forall2 hex_text rs gr ->
      (List.length gl + List.length gr <= 7)%nat ->
      literal (concat ":" ls ++ "::" ++ concat ":" rs)
        (V6 (gl ++ repeat 0%Z (8 - List.length gl - List.length gr) ++ gr))
  | lit_mapped a b c d : octet a -> octet b -> octet c -> octet d ->
      literal ("::ffff:" ++ quad a b c d) (V6 [0; 0; 0; 0; 0; 65535; a * 256 + b; c * 256 + d])%Z.

(** The ranges the guard is to refuse: 0/8, 10/8, 100.64/10, 127/8, 169.254/16,
    172.16/12, 192.168/16; [::], [::1], [fe80::/10], [fc00::/7], and the mapped
    addresses of the first list. *)
Definition internal (A : Address) : Prop :=
  match A with V4 a b _ _ => blocked_v4_octets a b | V6 g => blocked_v6_groups g end.

(** How a URL writes an address as its host. *)
Definition url_host (s : string) (A : Address) : string :=
  match A with V4 _ _ _ _ => s | V6 _ => "[" ++ s ++ "]" end.

(** [localhost], and the names under [.local] and [.internal]. *)
Definition reserved_name (h : string) : Prop :=
  toLowerCase h = "localhost" \/ exists p, toLowerCase h = p ++ ".local" \/ toLowerCase h = p ++ ".internal".

(** ** Reading groups *)

Definition group_char (c : ascii) : bool := is_hex c || Ascii.eqb c ":"%char.

Lemma hex_not (x : ascii) (c : ascii) : is_hex x = false -> is_hex c = true -> negb (Ascii.eqb c x) = true.
Proof. intros Hx Hc. apply negb_true_iff. destruct (Ascii.eqb_spec c x); congruence. Qed.

Lemma hex_text_no_colon t g : hex_text t g -> all_chars (fun c => negb (Ascii.eqb c ":"%char)) t = true.
Proof. intros (_ & Hx & _). eapply all_chars_impl; [|exact Hx]. intros c. by apply hex_not. Qed.

Lemma hex_text_group t g : hex_text t g -> is_hex_group t = true.
Proof.
  intros ([H1 H2] & Hx & _). unfold is_hex_group. rewrite Hx. apply Nat.leb_le in H1, H2. by rewrite H1, H2.
Qed.

Lemma hex_text_nonempty t g : hex_text t g -> exists c t', t = String c t' /\ is_hex c = true.
Proof.
  intros ([H1 _] & Hx & _). destruct t as [|c t]; cbn in *; [lia|]. apply andb_true_iff in Hx. destruct Hx as [Hx _]. by exists c, t.
Qed.

Lemma concat_cons t t' ts : concat ":" (t :: t' :: ts) = t ++ String ":" (concat ":" (t' :: ts)).
Proof. reflexivity. Qed.

Lemma concat_chars ts gs : Forall2 hex_text ts gs -> all_chars group_char (concat ":" ts) = true.
Proof.
  induction 1 as [|t g ts gs Ht Hts IH]; [done|].
  assert (Hx : all_chars group_char t = true).
  { destruct Ht as (_ & Hx & _). eapply all_chars_impl; [|exact Hx]. intros c Hc. unfold group_char. by rewrite Hc. }
  destruct ts as [|t' ts]; [done|]. rewrite concat_cons, all_chars_app, Hx. exact IH.
Qed.

Lemma concat_nonempty t ts g : hex_text t g -> String.eqb (concat ":" (t :: ts)) "" = false.
Proof. intros (c & t' & -> & _)%hex_text_nonempty. by destruct ts. Qed.

Lemma colon_groups_concat ts gs : Forall2 hex_text ts gs -> colon_groups (concat ":" ts) = ts.
Proof.
  intros H. unfold colon_groups. destruct ts as [|t ts]; [done|].
  pose proof H as H0. apply Forall2_cons_inv_l in H0. destruct H0 as (g & gs' & Ht & _ & _).
  rewrite (concat_nonempty _ _ _ Ht). clear Ht gs' g. revert t gs H.
  induction ts as [|t' ts IH]; intros t gs H; apply Forall2_cons_inv_l in H; destruct H as (g & gs' & Ht & Hts & ->).
  - apply split_on_none. by eapply hex_text_no_colon.
  - rewrite concat_cons, split_on_app by by eapply hex_text_no_colon. by erewrite IH.
Qed.

Lemma dcolon_skip t rest :
  all_chars (fun c => negb (Ascii.eqb c ":"%char)) t = true ->
  indexOf_dcolon (t ++ rest) = Nat.add (slen t) <$> indexOf_dcolon rest.
Proof.
  induction t as [|c t IH]; cbn; [by destruct (indexOf_dcolon rest)|].
  rewrite andb_true_iff, negb_true_iff. intros [-> Ht]. rewrite IH by done. cbn. by destruct (indexOf_dcolon rest).
Qed.

Lemma dcolon_concat ts gs rest :
  Forall2 hex_text ts gs ->
  indexOf_dcolon (concat ":" ts ++ rest) = Nat.add (slen (concat ":" ts)) <$> indexOf_dcolon rest.
Proof.
  revert gs. induction ts as [|t ts IH]; intros gs H; [cbn; by destruct (indexOf_dcolon rest)|].
  apply Forall2_cons_inv_l in H. destruct H as (g & gs' & Ht & Hts & ->).
  destruct ts as [|t' ts]; [by apply dcolon_skip; eapply hex_text_no_colon|].
  rewrite concat_cons. rewrite slen_app. cbn [slen]. specialize (IH gs' Hts).
  replace ((t ++ String ":" (concat ":" (t' :: ts))) ++ rest) with (t ++ String ":" (concat ":" (t' :: ts) ++ rest))
    by (rewrite <- string_app_assoc; reflexivity).
  rewrite dcolon_skip by by eapply hex_text_no_colon. cbn [indexOf_dcolon]. rewrite IH.
  replace (startsWith (concat ":" (t' :: ts) ++ rest) ":") with false.
  - cbn. destruct (indexOf_dcolon rest); cbn; [f_equal; lia|done].
  - apply Forall2_cons_inv_l in Hts. destruct Hts as (g' & _ & Ht' & _ & _).
    apply hex_text_nonempty in Ht'. destruct Ht' as (c & t2 & -> & Hc).
    apply (hex_not ":"%char) in Hc; [|done]. apply negb_true_iff in Hc.
    rewrite Ascii.eqb_sym in Hc. destruct ts; cbn -[Ascii.eqb]; by rewrite Hc.
Qed.

Lemma count_groups_hex b ts gs : Forall2 hex_text ts gs -> count_groups b ts = Some (List.length gs).
Proof.
  induction 1 as [|t g ts gs Ht Hts IH]; [done|]. cbn [count_groups]. rewrite (hex_text_group _ _ Ht), IH.
  destruct Hts; done.
Qed.

Lemma parse_groups_hex ts gs : Forall2 hex_text ts gs -> parse_groups ts = Some gs.
Proof.
  induction 1 as [|t g ts gs Ht Hts IH]; [done|]. cbn [parse_groups]. rewrite (hex_text_group _ _ Ht), IH.
  by destruct Ht as (_ & _ & ->).
Qed.

Definition hex_digit (c : ascii) : Z :=
  if is_digit c then digit_value c else if in_range 97 102 c then Z.of_nat (code c) - 87 else Z.of_nat (code c) - 55.

Lemma hex_digit_bound c : is_hex c = true -> (0 <= hex_digit c < 16)%Z.
Proof.
  intros Hc. assert (H : ((0 <=? hex_digit c) && (hex_digit c <? 16))%Z = true).
  { revert Hc. by_ascii is_hex (fun c => (0 <=? hex_digit c) && (hex_digit c <? 16))%Z. }
  apply andb_true_iff in H. lia.
Qed.

Lemma hex_digits_bound t : forall acc b,
  all_chars is_hex t = true -> (0 <= acc < b)%Z -> (0 <= hex_digits_value acc t < b * 16 ^ Z.of_nat (slen t))%Z.
Proof.
  induction t as [|c t IH]; intros acc b Hx Hb.
  - cbn. lia.
  - cbn [all_chars] in Hx. apply andb_true_iff in Hx. destruct Hx as [Hc Hx]. apply hex_digit_bound in Hc.
    cbn [hex_digits_value slen]. fold (hex_digit c). cbv zeta.
    specialize (IH (acc * 16 + hex_digit c)%Z (b * 16)%Z Hx ltac:(lia)).
    rewrite Nat2Z.inj_succ, Z.pow_succ_r by lia. rewrite Z.mul_assoc. exact IH.
Qed.

Lemma hex_text_group16 t g : hex_text t g -> group16 g.
Proof.
  intros ([_ Hl] & Hx & ->). destruct (hex_digits_bound t 0 1 Hx ltac:(lia)) as [H1 H2]. split; [done|].
  eapply Z.lt_le_trans; [exact H2|]. rewrite Z.mul_1_l. change 65536%Z with (16 ^ 4)%Z.
  apply Z.pow_le_mono_r; lia.
Qed.

Lemma hex_groups16 ts gs : Forall2 hex_text ts gs -> Forall group16 gs.
Proof. induction 1; constructor; [by eapply hex_text_group16|done]. Qed.

(** ** Literals of the guard *)

(** What a text of groups is to the guard: a text without dots and zones. *)
Record plain (s : string) : Prop := {
  plain_dot : all_chars (fun c => negb (Ascii.eqb c "."%char)) s = true;
  plain_zone : all_chars (fun c => negb (Ascii.eqb c "%"%char)) s = true;
}.

Lemma group_char_plain s : all_chars group_char s = true -> plain s.
Proof.
  intros H. split; (eapply all_chars_impl; [|exact H]).
  - intros c. by_ascii group_char (fun c => negb (Ascii.eqb c "."%char)).
  - intros c. by_ascii group_char (fun c => negb (Ascii.eqb c "%"%char)).
Qed.

Lemma plain_not_quad s : plain s -> is_dotted_quad s = false /\ isIPv4 s = false.
Proof. intros [Hd _]. unfold is_dotted_quad, isIPv4. by rewrite (split_on_none _ s Hd). Qed.

Lemma plain_slice s n : plain s -> plain (slice_from s n).
Proof.
  intros [Hd Hz]. rewrite <- (slice_to_from s n), all_chars_app in Hd, Hz.
  split; [apply andb_true_iff in Hd|apply andb_true_iff in Hz]; tauto.
Qed.

(** The guard on a plain text it can split into groups. *)
Lemma plain_blocked s gs :
  plain s -> isIPv6_body s = true -> ipv6Groups s = Some gs -> List.length gs = 8%nat -> Forall group16 gs ->
  isIP s = 6%Z /\ (isBlockedIp s = true <-> blocked_v6_groups gs).
Proof.
  intros Hp Hb Hg Hl H16. destruct (plain_not_quad s Hp) as [_ H4].
  assert (Hip : isIP s = 6%Z).
  { unfold isIP, isIPv6. rewrite H4, (indexOf_none _ s (plain_zone s Hp)), Hb. done. }
  split; [exact Hip|]. unfold isBlockedIp. rewrite Hip. cbn [Z.eqb Pos.eqb].
  unfold isBlockedV6. rewrite (split_on_none _ s (plain_zone s Hp)). cbn [hd].
  unfold match_mapped. rewrite (proj1 (plain_not_quad _ (plain_slice s 7 Hp))), andb_false_r, Hg.
  by apply isBlockedV6_groups_spec.
Qed.

Lemma plain_no_tail s : plain s -> match_v4Tail s = None.
Proof.
  intros Hp. unfold match_v4Tail. destruct (lastIndexOf _ s) as [i|]; [|done].
  by rewrite (proj1 (plain_not_quad _ (plain_slice s (S i) Hp))).
Qed.

Lemma string_app_nil_r (s : string) : s ++ "" = s.
Proof. induction s as [|c s IH]; cbn; [done|by rewrite IH]. Qed.

Lemma full_blocked ts gs :
  Forall2 hex_text ts gs -> List.length gs = 8%nat ->
  isIP (concat ":" ts) = 6%Z /\ (isBlockedIp (concat ":" ts) = true <-> blocked_v6_groups gs).
Proof.
  intros H Hl. assert (Hp := group_char_plain _ (concat_chars _ _ H)).
  assert (Hd : indexOf_dcolon (concat ":" ts) = None).
  { pose proof (dcolon_concat ts gs "" H) as E. by rewrite string_app_nil_r in E. }
  apply plain_blocked; [done| | |done|by eapply hex_groups16].
  - unfold isIPv6_body. by rewrite Hd, (colon_groups_concat _ _ H), (count_groups_hex _ _ _ H), Hl.
  - unfold ipv6Groups. rewrite (plain_no_tail _ Hp), Hd, (colon_groups_concat _ _ H).
    cbn [List.length]. rewrite (Forall2_length _ _ _ H), Hl. cbn [Nat.add Nat.ltb Nat.leb].
    rewrite (parse_groups_hex _ _ H). cbn [parse_groups repeat List.app]. by rewrite !app_nil_r, Hl.
Qed.

Lemma short_blocked ls gl rs gr :
  Forall2 hex_text ls gl -> Forall2 hex_text rs gr -> (List.length gl + List.length gr <= 7)%nat ->
  let s := concat ":" ls ++ "::" ++ concat ":" rs in
  isIP s = 6%Z /\
  (isBlockedIp s = true <->
   blocked_v6_groups (gl ++ repeat 0%Z (8 - List.length gl - List.length gr) ++ gr)).
Proof.
  intros Hl Hr Hn s.
  assert (Hp : plain s).
  { apply group_char_plain. unfold s. by rewrite !all_chars_app, (concat_chars _ _ Hl), (concat_chars _ _ Hr). }
  assert (Hd : indexOf_dcolon s = Some (slen (concat ":" ls))).
  { unfold s. rewrite (dcolon_concat _ _ _ Hl).
    replace (indexOf_dcolon ("::" ++ concat ":" rs)) with (Some 0%nat) by (cbn; by destruct (concat ":" rs)). cbn [fmap option_fmap option_map].
    by rewrite Nat.add_0_r. }
  assert (El : slice_to s (slen (concat ":" ls)) = concat ":" ls) by apply slice_to_app.
  assert (Er : slice_from s (slen (concat ":" ls) + 2) = concat ":" rs).
  { unfold s. rewrite string_app_assoc.
    replace (slen (concat ":" ls) + 2)%nat with (slen (concat ":" ls ++ "::")) by by rewrite slen_app.
    apply slice_from_app. }
  assert (Hlen : List.length (gl ++ repeat 0%Z (8 - List.length gl - List.length gr) ++ gr)%list = 8%nat).
  { rewrite !length_app, repeat_length. lia. }
  apply plain_blocked; [done| | |done|].
  - unfold isIPv6_body. rewrite Hd, El, Er, (colon_groups_concat _ _ Hl), (colon_groups_concat _ _ Hr),
      (count_groups_hex _ _ _ Hl), (count_groups_hex _ _ _ Hr). by apply Nat.leb_le.
  - unfold ipv6Groups. rewrite (plain_no_tail _ Hp), Hd, El, Er, (colon_groups_concat _ _ Hl),
      (colon_groups_concat _ _ Hr). cbn [List.length].
    rewrite (Forall2_length _ _ _ Hl), (Forall2_length _ _ _ Hr), Nat.add_0_r.
    replace (8 <? List.length gl + List.length gr)%nat with false by (symmetry; apply Nat.ltb_ge; lia).
    rewrite (parse_groups_hex _ _ Hl), (parse_groups_hex _ _ Hr), app_nil_r.
    replace (8 - (List.length gl + List.length gr))%nat with (8 - List.length gl - List.length gr)%nat by lia.
    by rewrite Hlen.
  - rewrite !List.Forall_app. split; [by eapply hex_groups16|]. split; [|by eapply hex_groups16].
    apply List.Forall_forall. intros x Hx. apply repeat_spec in Hx. subst x. unfold group16. lia.
Qed.

Lemma mapped_octets a b c d :
  octet a -> octet b -> octet c -> octet d ->
  blocked_v6_groups [0; 0; 0; 0; 0; 65535; a * 256 + b; c * 256 + d]%Z <-> blocked_v4_octets a b.
Proof.
  unfold octet. intros Ha Hb _ _. cbn [blocked_v6_groups].
  replace ((a * 256 + b) / 256)%Z with a by (Z.to_euclidean_division_equations; lia).
  replace ((a * 256 + b) mod 256)%Z with b by (Z.to_euclidean_division_equations; lia).
  generalize (blocked_v4_octets a b). intros P. intuition lia.
Qed.

(** What the guard needs of a quad's text besides its octets. *)
Lemma quad_text a b c d :
  octet a -> octet b -> octet c -> octet d ->
  is_dotted_quad (quad a b c d) = true /\
  forall x, is_quad_char x = false -> all_chars (fun c => negb (Ascii.eqb c x)) (quad a b c d) = true.
Proof.
  intros Ha Hb Hc Hd. split.
  - unfold is_dotted_quad. rewrite split_quad by done. cbn [forallb].
    by rewrite !(fun n H => proj2 (proj2 (proj2 (proj2 (octet_text n H))))) by done.
  - intros x Hx. eapply all_chars_impl; [|exact (quad_chars a b c d Ha Hb Hc Hd)]. intros y Hy. apply negb_true_iff.
    destruct (Ascii.eqb_spec y x); [congruence|done].
Qed.

Lemma mapped_blocked a b c d :
  octet a -> octet b -> octet c -> octet d ->
  isIP ("::ffff:" ++ quad a b c d) = 6%Z /\
  (isBlockedIp ("::ffff:" ++ quad a b c d) = true <-> blocked_v4_octets a b).
Proof.
  intros Ha Hb Hc Hd. destruct (quad_text a b c d Ha Hb Hc Hd) as [Dq No].
  pose proof (isIPv4_quad a b c d Ha Hb Hc Hd) as V4q. pose proof (split_quad a b c d Ha Hb Hc Hd) as Sq.
  pose proof (isBlockedV4_quad a b c d Ha Hb Hc Hd) as B4.
  destruct (quad_not_hex_group a b c d) as [Nh Ne].
  set (q := quad a b c d) in *.
  assert (P1 := indexOf_none "%"%char q (No "%"%char eq_refl)).
  assert (Eb : isIPv6_body ("::ffff:" ++ q) = true).
  { unfold isIPv6_body. change (indexOf_dcolon ("::ffff:" ++ q)) with (Some 0%nat). cbv beta iota.
    change (slice_from ("::ffff:" ++ q) (0 + 2)) with ("ffff:" ++ q).
    change (slice_to ("::ffff:" ++ q) 0) with "". change (colon_groups ("ffff:" ++ q)) with ("ffff" :: split_on ":" q).
    rewrite (split_on_none _ q) by (by apply No). cbn [count_groups colon_groups String.eqb].
    by rewrite Nh, V4q. }
  assert (Eip : isIP ("::ffff:" ++ q) = 6%Z).
  { unfold isIP, isIPv6. rewrite Eb. unfold isIPv4. cbn [String.append split_on Ascii.eqb Bool.eqb indexOf].
    by rewrite Sq, P1. }
  split; [exact Eip|]. unfold isBlockedIp. rewrite Eip. cbn [Z.eqb Pos.eqb].
  unfold isBlockedV6. rewrite (split_on_none _ ("::ffff:" ++ q)) by (cbn; by apply No).
  cbn [hd]. unfold match_mapped.
  replace (startsWith (toLowerCase ("::ffff:" ++ q)) "::ffff:") with true by (cbn; by destruct q).
  cbn [String.append slice_from]. replace (slice_from q 0) with q by (by destruct q). by rewrite Dq.
Qed.

(** The guard reads every literal, and refuses exactly the internal ones. *)
Lemma literal_blocked s A : literal s A -> isIP s <> 0%Z /\ (isBlockedIp s = true <-> internal A).
Proof.
  intros L. destruct L as [a b c d Ha Hb Hc Hd|ts gs H Hl|ls gl rs gr Hl Hr Hn|a b c d Ha Hb Hc Hd].
  - destruct (isBlockedIp_v4_spec a b c d Ha Hb Hc Hd) as [-> H]. by split.
  - destruct (full_blocked ts gs H Hl) as [-> Hb]. by split.
  - destruct (short_blocked ls gl rs gr Hl Hr Hn) as [E H]. cbv zeta in E. rewrite E. by split.
  - destruct (mapped_blocked a b c d Ha Hb Hc Hd) as [-> H]. split; [done|]. cbn [internal].
    by rewrite mapped_octets.
Qed.

(** ** Hosts *)

Lemma bracketed_host s : bare_host ("[" ++ s ++ "]") = s.
Proof.
  unfold bare_host, endsWith, slice_last.
  change (startsWith ("[" ++ s ++ "]") "[") with (startsWith (s ++ "]") "").
  replace (startsWith (s ++ "]") "") with true by (by destruct (s ++ "]")).
  rewrite !slen_app. cbn [slen]. replace (1 + (slen s + 1) - 1)%nat with (slen ("[" ++ s)) by (rewrite slen_app; cbn; lia).
  rewrite (string_app_assoc "[" s "]"), slice_from_app. cbn [String.eqb Ascii.eqb Bool.eqb].
  replace (1 <=? 1 + (slen s + 1))%nat with true by (symmetry; apply Nat.leb_le; lia). cbn [andb].
  cbn [String.append slice_from]. replace (slice_from (s ++ "]") 0) with (s ++ "]") by (by destruct (s ++ "]")).
  replace (1 + (slen s + 1) - 2)%nat with (slen s) by lia. apply slice_to_app.
Qed.

Lemma plain_host s : startsWith s "[" = false -> bare_host s = s.
Proof. intros H. unfold bare_host. by rewrite H. Qed.

Lemma quad_host a b c d : octet a -> startsWith (quad a b c d) "[" = false /\ quad a b c d <> "".
Proof.
  intros Ha. destruct (octet_text a Ha) as (_ & _ & _ & _ & M). unfold quad.
  destruct (num_to_string a) as [|x t]; [by cbn in M|]. split; [|done].
  unfold matches_class in M. apply andb_true_iff in M. destruct M as [_ M].
  cbn [all_chars] in M. apply andb_true_iff in M. destruct M as [M _].
  apply not_true_is_false. intros Hx. cbn [startsWith String.append] in Hx. apply andb_true_iff in Hx.
  destruct Hx as [Hx _]. apply Ascii.eqb_eq in Hx. by subst x.
Qed.

Lemma url_host_bare s A : literal s A -> bare_host (url_host s A) = s /\ url_host s A <> "".
Proof.
  intros L. destruct A as [a b c d|g]; cbn [url_host]; [|by rewrite bracketed_host].
  inversion L as [a' b' c' d' Ha| | |]; subst. destruct (quad_host a b c d Ha) as [Hs Hn].
  by rewrite (plain_host _ Hs).
Qed.

Lemma endsWith_spec s suf : endsWith s suf = true <-> exists p, s = p ++ suf.
Proof.
  unfold endsWith, slice_last. rewrite andb_true_iff, String.eqb_eq, Nat.leb_le. split.
  - intros [_ E]. exists (slice_to s (slen s - slen suf)). rewrite <- E at 2. by rewrite slice_to_from.
  - intros [p ->]. rewrite slen_app. split; [lia|].
    replace (slen p + slen suf - slen suf)%nat with (slen p) by lia. apply slice_from_app.
Qed.

Lemma reserved_iff h : isBlockedHostname h = true <-> reserved_name h.
Proof.
  unfold isBlockedHostname, reserved_name. cbn [existsb BLOCKED_EXACT_HOSTNAMES BLOCKED_HOSTNAME_SUFFIXES].
  rewrite !orb_true_iff, String.eqb_eq, !endsWith_spec. split.
  - intros [[?|?]|[[p ?]|[[p ?]|?]]]; try done; [by left|right; exists p; by left|right; exists p; by right].
  - intros [?|[p [?|?]]]; [by left; left|right; left; by exists p|right; right; left; by exists p].
Qed.

Lemma all_external addrs As :
  Forall2 (fun a A => literal (address a) A) addrs As ->
  existsb (fun a => isBlockedIp (address a)) addrs = false <-> Forall (fun A => ~ internal A) As.
Proof.
  induction 1 as [|a A addrs As L _ IH]; cbn [existsb]; [by split|].
  rewrite orb_false_iff, List.Forall_cons_iff, <- IH.
  destruct (literal_blocked _ _ L) as [_ <-]. by rewrite not_true_iff_false.
Qed.

(** ** The theorem *)

Definition accepts `{Resolver} (env : ProcessEnv) (u : URL) : Prop := assertWebhookUrlSafe env u = Return tt.

(** C39: with the test escape hatch off, validation accepts a URL whose host is an
    address literal exactly when the address lies in none of the internal ranges, and
    one whose host is a name exactly when the name is not reserved, resolves, and every
    address it resolves to, each written as a literal, lies in none of them; whatever it
    does not accept it refuses with a [WebhookValidationError]. *)
Theorem assertWebhookUrlSafe_spec `{Resolver} env u :
  escapeHatchActive env = false ->
  (forall s A, literal s A -> hostname u = url_host s A -> accepts env u <-> ~ internal A) /\
  (hostname u <> "" -> startsWith (hostname u) "[" = false -> isIP (hostname u) = 0%Z ->
   match dnsLookup (hostname u) with
   | None => ~ accepts env u
   | Some addrs => forall As, Forall2 (fun a A => literal (address a) A) addrs As ->
       accepts env u <-> ~ reserved_name (hostname u) /\ As <> [] /\ Forall (fun A => ~ internal A) As
   end) /\
  (hostname u = "" -> ~ accepts env u) /\
  (accepts env u \/ exists code msg, assertWebhookUrlSafe env u = Throw (WebhookValidationError code msg)).
Proof.
  intros He. unfold accepts, assertWebhookUrlSafe, blocked, nonempty. rewrite He.
  destruct (String.eqb_spec (hostname u) "") as [E|E]; cbn [negb].
  { split; [|split; [by intros ?|split; [done|by right; eexists _, _]]].
    intros s A L Eh. by destruct (url_host_bare s A L) as [_ []]; rewrite <- Eh. }
  split; [|split; [|split; [done|]]].
  - intros s A L ->. destruct (url_host_bare s A L) as [-> _], (literal_blocked s A L) as [Hip <-].
    apply Z.eqb_neq in Hip. rewrite Hip. cbn [negb]. by destruct (isBlockedIp s).
  - intros _ Hb Hip. rewrite (plain_host _ Hb), Hip. cbn [Z.eqb negb].
    destruct (dnsLookup (hostname u)) as [addrs|]; [|by destruct (isBlockedHostname _)].
    intros As HA. rewrite <- reserved_iff, <- (all_external _ _ HA).
    destruct (isBlockedHostname (hostname u)); [by split; [|intros [[] _]]|].
    destruct HA as [|a A addrs As L HA]; [by split; [|intros (_ & [] & _)]|].
    destruct (existsb _ _); by split; [|intros (_ & _ & ?)].
  - destruct (negb _); [destruct (isBlockedIp _); eauto|]. destruct (isBlockedHostname _); [eauto|].
    destruct (dnsLookup _) as [[|a l]|]; [eauto| |eauto]. destruct (existsb _ _); eauto.
Qed.

(** The cloud metadata address behind a name, behind a mapped literal, and a public one. *)
Lemma assertWebhookUrlSafe_spec_witness :
  let R := rebinding_resolver in
  ~ accepts (H := R) production (url_of "example.com") /\
  ~ accepts (H := R) production (url_of "[::ffff:169.254.169.254]") /\
  accepts (H := R) production (url_of "93.184.216.34").
Proof.
  intros R.
  assert (S := fun h => assertWebhookUrlSafe_spec (H := R) production (url_of h) eq_refl).
  split; [|split].
  - destruct (S "example.com") as (_ & N & _).
    specialize (N ltac:(discriminate) eq_refl eq_refl). cbn in N.
    intros Ha. destruct (N [V4 93 184 216 34; V4 169 254 169 254]) as [F _].
    + apply Forall2_cons_2; [apply (lit_v4 93 184 216 34); unfold octet; lia|].
      apply Forall2_cons_2; [apply (lit_v4 169 254 169 254); unfold octet; lia|apply Forall2_nil_2].
    + destruct (F Ha) as (_ & _ & G). apply List.Forall_inv_tail, List.Forall_inv in G.
      apply G. cbn. unfold blocked_v4_octets. lia.
  - destruct (S "[::ffff:169.254.169.254]") as (L & _).
    intros Ha. apply (L "::ffff:169.254.169.254" (V6 [0; 0; 0; 0; 0; 65535; 169 * 256 + 254; 169 * 256 + 254]%Z)) in Ha.
    + apply Ha. apply (mapped_octets 169 254 169 254); unfold octet, blocked_v4_octets; lia.
    + apply (lit_mapped 169 254 169 254); unfold octet; lia.
    + reflexivity.
  - destruct (S "93.184.216.34") as (L & _). apply (L "93.184.216.34" (V4 93 184 216 34)).
    + apply (lit_v4 93 184 216 34); unfold octet; lia.
    + reflexivity.
    + cbn. unfold blocked_v4_octets. lia.
Defined.
