(* ===== verification/Aead.v ===== *)
(** * Authenticated encryption at rest: [lib/aead.ts]

    The AES-256-GCM cipher enters as the class [Gcm]; base64, its URL variant and
    the wrap format are modelled.  A buffer is a string of characters 0 to 255, and the
    UTF-8 coding of texts is that of units up to 255. *)

From S2P Require Import Prelude JsString Json Errors Crypto.
From Stdlib Require Import String Ascii.

Open Scope string_scope.

(** AES-256-GCM: [gcm_decrypt] returns [None] when the tag does not verify. *)
Class Gcm : Type := {
  gcm_encrypt : string -> string -> string -> string -> string * string;
    (* key, iv, aad, plaintext: (ciphertext, tag) *)
  gcm_decrypt : string -> string -> string -> string -> string -> option string;
    (* key, iv, aad, ciphertext, tag *)
  gcm_decrypt_encrypt : forall key iv aad pt,
    gcm_decrypt key iv aad (fst (gcm_encrypt key iv aad pt)) (snd (gcm_encrypt key iv aad pt))
    = Some pt;
}.

(** ** Base64 *)

Definition B64_ALPHABET : string :=
  "ABCDEFGHIJKLMNOPQRSTUVWXYZabcdefghijklmnopqrstuvwxyz0123456789+/".

Definition b64_char (n : Z) : ascii := default "A"%char (String.get (Z.to_nat n) B64_ALPHABET).

Fixpoint index_of_char (c : ascii) (s : string) (i : Z) : option Z :=
  match s with
  | EmptyString => None
  | String x s' => if Ascii.eqb x c then Some i else index_of_char c s' (i + 1)
  end.

(** The sextet of a character; [-] and [_] are read as [+] and [/]. *)
Definition b64_value (c : ascii) : option Z :=
  if Ascii.eqb c "-"%char then Some 62%Z
  else if Ascii.eqb c "_"%char then Some 63%Z
  else index_of_char c B64_ALPHABET 0.

Definition byte (c : ascii) : Z := Z.of_nat (code c).
Definition chr (z : Z) : ascii := ascii_of_nat (Z.to_nat z).

(** [buf.toString("base64")] *)
Fixpoint base64_encode (s : string) : string :=
  match s with
  | String a (String b (String c s')) =>
      let n := (byte a * 65536 + byte b * 256 + byte c)%Z in
      String (b64_char (n / 262144)) (String (b64_char (n / 4096 mod 64))
        (String (b64_char (n / 64 mod 64)) (String (b64_char (n mod 64)) (base64_encode s'))))
  | String a (String b EmptyString) =>
      let n := (byte a * 65536 + byte b * 256)%Z in
      String (b64_char (n / 262144)) (String (b64_char (n / 4096 mod 64))
        (String (b64_char (n / 64 mod 64)) "="))
  | String a EmptyString =>
      let n := (byte a * 65536)%Z in
      String (b64_char (n / 262144)) (String (b64_char (n / 4096 mod 64)) "==")
  | EmptyString => ""
  end.

(** The sextets of the characters of the alphabet; other characters are skipped. *)
Fixpoint sextets (s : string) : list Z :=
  match s with
  | EmptyString => []
  | String c s' => match b64_value c with
                   | Some v => v :: sextets s'
                   | None => sextets s'
                   end
  end.

Fixpoint bytes_of_sextets (l : list Z) : string :=
  match l with
  | w :: x :: y :: z :: l' =>
      let n := (w * 262144 + x * 4096 + y * 64 + z)%Z in
      String (chr (n / 65536)) (String (chr (n / 256 mod 256)) (String (chr (n mod 256))
        (bytes_of_sextets l')))
  | [w; x; y] =>
      let n := (w * 262144 + x * 4096 + y * 64)%Z in
      String (chr (n / 65536)) (String (chr (n / 256 mod 256)) "")
  | [w; x] => String (chr ((w * 262144 + x * 4096) / 65536)) ""
  | _ => ""
  end.

(** [Buffer.from(s, "base64")] *)
Definition base64_decode (s : string) : string := bytes_of_sextets (sextets s).

(** ** [lib/aead.ts] *)

Definition replace_char (from to : ascii) (s : string) : string :=
  smap (fun c => if Ascii.eqb c from then to else c) s.

(** [s.replace(/=+$/, "")] *)
Fixpoint strip_trailing (x : ascii) (s : string) : string :=
  match s with
  | EmptyString => ""
  | String c s' =>
      match strip_trailing x s' with
      | EmptyString => if Ascii.eqb c x then "" else String c ""
      | t => String c t
      end
  end.

Definition b64u (buf : string) : string :=
  strip_trailing "="%char
    (replace_char "/"%char "_"%char (replace_char "+"%char "-"%char (base64_encode buf))).

Definition b64uDecode (s : string) : string :=
  let pad := if (slen s mod 4 =? 0)%nat then "" else repeat_char "="%char (4 - slen s mod 4) in
  base64_decode (replace_char "_"%char "/"%char (replace_char "-"%char "+"%char s) ++ pad).

(** [Buffer.from(s, "utf8")]: a unit of a text is at most 255 here, so it takes one byte
    or two. *)
Fixpoint utf8_encode (s : string) : string :=
  match s with
  | EmptyString => ""
  | String c s' =>
      if (byte c <? 128)%Z then String c (utf8_encode s')
      else String (chr (192 + byte c / 64)) (String (chr (128 + byte c mod 64)) (utf8_encode s'))
  end.

(** [buf.toString("utf8")] on the bytes of such texts.  Any other byte begins a character
    that no unit of the model holds, or none; it is read as a question mark. *)
Fixpoint utf8_decode (s : string) : string :=
  match s with
  | EmptyString => ""
  | String a s1 =>
      if (byte a <? 128)%Z then String a (utf8_decode s1)
      else match s1 with
           | String b s2 =>
               if ((194 <=? byte a) && (byte a <=? 195) && (128 <=? byte b) && (byte b <? 192))%Z
               then String (chr ((byte a - 192) * 64 + (byte b - 128))) (utf8_decode s2)
               else String "?" (utf8_decode s1)
           | EmptyString => "?"
           end
  end.

Definition VERSION : string := "v1".

(** [iv] is the value of [randomBytes(12)]; no AAD is the empty AAD. *)
Definition wrap `{Gcm} (iv masterKeyHex plaintext : string) (aad : option string)
    : outcome exn string :=
  let key := hexToBuffer masterKeyHex in
  if negb (slen key =? 32)%nat then Throw (JsError "master key must be 32 bytes")
  else
    let '(ct, tag) := gcm_encrypt key iv (utf8_encode (default "" aad)) (utf8_encode plaintext) in
    Return (VERSION ++ "." ++ b64u iv ++ "." ++ b64u tag ++ "." ++ b64u ct).

Definition unwrap `{Gcm} (masterKeyHex wrapped : string) (aad : option string)
    : outcome exn string :=
  match split_on "."%char wrapped with
  | [p0; p1; p2; p3] =>
      if negb (String.eqb p0 VERSION) then Throw (JsError "bad wrap format")
      else
        let key := hexToBuffer masterKeyHex in
        if negb (slen key =? 32)%nat then Throw (JsError "master key must be 32 bytes")
        else
          let iv := b64uDecode p1 in
          let tag := b64uDecode p2 in
          let ct := b64uDecode p3 in
          match gcm_decrypt key iv (utf8_encode (default "" aad)) ct tag with
          | Some pt => Return (utf8_decode pt)
          | None => Throw (JsError "Unsupported state or unable to authenticate data")
          end
  | _ => Throw (JsError "bad wrap format")
  end.

(** ** Lemmas *)

(** The characters a base64url text is made of. *)
Definition is_b64u (c : ascii) : bool := is_alnum c || Ascii.eqb c "-"%char || Ascii.eqb c "_"%char.

Definition url_char (c : ascii) : ascii :=
  if Ascii.eqb (if Ascii.eqb c "+"%char then "-"%char else c) "/"%char then "_"%char
  else (if Ascii.eqb c "+"%char then "-"%char else c).

Lemma b64_char_facts n :
  (0 <= n < 64)%Z ->
  is_b64u (url_char (b64_char n)) = true /\ b64_value (url_char (b64_char n)) = Some n.
Proof.
  intros Hn.
  assert (F : forallb (fun i => let c := url_char (b64_char (Z.of_nat i)) in
    is_b64u c && match b64_value c with Some v => (v =? Z.of_nat i)%Z | None => false end)
    (seq 0 64) = true) by (vm_compute; reflexivity).
  rewrite forallb_forall in F. specialize (F (Z.to_nat n)).
  cbn zeta in F. rewrite Z2Nat.id in F by lia.
  assert (Hin : In (Z.to_nat n) (seq 0 64)) by (apply in_seq; lia).
  specialize (F Hin). apply andb_true_iff in F. destruct F as [-> F].
  destruct (b64_value _); [|discriminate]. apply Z.eqb_eq in F. by subst.
Qed.

Lemma url_char_eq s :
  replace_char "/"%char "_"%char (replace_char "+"%char "-"%char s) = smap url_char s.
Proof. unfold replace_char, url_char. induction s; cbn; [done|]. by rewrite IHs. Qed.

Lemma strip_trailing_keep x s t :
  all_chars (fun c => negb (Ascii.eqb c x)) s = true ->
  all_chars (fun c => Ascii.eqb c x) t = true -> strip_trailing x (s ++ t) = s.
Proof.
  intros Hs Ht.
  assert (Hnil : strip_trailing x t = "").
  { clear Hs. induction t as [|c t IH]; cbn in *; [done|].
    apply andb_true_iff in Ht. destruct Ht as [Hc Ht]. by rewrite (IH Ht), Hc. }
  induction s as [|c s IH]; cbn in *; [done|].
  apply andb_true_iff in Hs. destruct Hs as [Hc Hs]. rewrite (IH Hs).
  apply negb_true_iff in Hc. destruct s; [by rewrite Hc | done].
Qed.

Lemma b64u_not_eq c : is_b64u c = true -> negb (Ascii.eqb c "="%char) = true.
Proof. by_ascii is_b64u (fun c => negb (Ascii.eqb c "="%char)). Qed.

Lemma byte_bound c : (0 <= byte c < 256)%Z.
Proof. unfold byte, code. pose proof (nat_ascii_bounded c). lia. Qed.

Lemma chr_byte c : chr (byte c) = c.
Proof. unfold chr, byte. rewrite Nat2Z.id. apply ascii_nat_embedding. Qed.

Lemma byte_chr z : (0 <= z < 256)%Z -> byte (chr z) = z.
Proof. intros Hz. unfold chr, byte, code. rewrite nat_ascii_embedding; lia. Qed.

(** Reading the sextets back through the URL alphabet. *)
Lemma sextets_url n s :
  (0 <= n < 64)%Z -> sextets (String (url_char (b64_char n)) s) = n :: sextets s.
Proof. intros H. cbn [sextets]. by rewrite (proj2 (b64_char_facts n H)). Qed.

Lemma all_chars_url n s :
  (0 <= n < 64)%Z ->
  all_chars is_b64u (String (url_char (b64_char n)) s) = all_chars is_b64u s.
Proof. intros H. cbn [all_chars]. by rewrite (proj1 (b64_char_facts n H)). Qed.

(** Splitting and rejoining 24 bits. *)
Lemma split24 n :
  (0 <= n < 16777216)%Z ->
  (n / 262144 * 262144 + n / 4096 mod 64 * 4096 + n / 64 mod 64 * 64 + n mod 64 = n /\
   0 <= n / 262144 < 64 /\ 0 <= n / 4096 mod 64 < 64 /\
   0 <= n / 64 mod 64 < 64 /\ 0 <= n mod 64 < 64)%Z.
Proof. intros H. Z.to_euclidean_division_equations. lia. Qed.

Lemma rejoin24 a b c :
  (0 <= a < 256 -> 0 <= b < 256 -> 0 <= c < 256 ->
   let n := a * 65536 + b * 256 + c in
   0 <= n < 16777216 /\ n / 65536 = a /\ n / 256 mod 256 = b /\ n mod 256 = c)%Z.
Proof. cbn. intros. Z.to_euclidean_division_equations. lia. Qed.

(** Induction in steps of three characters, as the encoder walks its buffer. *)
Lemma string_ind3 (P : string -> Prop) :
  P "" -> (forall a, P (String a "")) -> (forall a b, P (String a (String b ""))) ->
  (forall a b c s, P s -> P (String a (String b (String c s)))) -> forall s, P s.
Proof.
  intros H0 H1 H2 H3 s. remember (slen s) as n eqn:E.
  revert s E. induction n as [n IH] using lt_wf_ind. intros s E.
  destruct s as [|a [|b [|c s]]]; auto. apply H3. apply (IH (slen s)); [|done].
  subst. cbn. lia.
Qed.

(** What the encoder writes, read through the URL alphabet: some characters of
    it, then only [=] signs. *)
Lemma base64_url_form s :
  exists body pad,
    smap url_char (base64_encode s) = body ++ pad /\
    all_chars is_b64u body = true /\
    all_chars (fun c => Ascii.eqb c "="%char) pad = true /\
    bytes_of_sextets (sextets body) = s.
Proof.
  induction s as [|a|a b|a b c s (body & pad & E & Hb & Hp & D)] using string_ind3.
  - by exists "", "".
  - pose proof (byte_bound a) as Ba.
    destruct (rejoin24 (byte a) 0 0) as (R0 & R1 & R2 & R3); try lia.
    destruct (split24 _ R0) as (S0 & S1 & S2 & S3 & S4).
    replace (byte a * 65536 + 0 * 256 + 0)%Z with (byte a * 65536)%Z in * by lia.
    set (n := (byte a * 65536)%Z) in *.
    exists (String (url_char (b64_char (n / 262144))) (String (url_char (b64_char (n / 4096 mod 64))) "")), "==".
    split; [done|]. rewrite !all_chars_url by done.
    split; [done|]. split; [done|].
    rewrite !sextets_url by done. cbn [sextets bytes_of_sextets].
    assert (E0 : (n / 262144 * 262144 + n / 4096 mod 64 * 4096 = n)%Z).
    { subst n. clear -Ba. Z.to_euclidean_division_equations. lia. }
    by rewrite E0, R1, chr_byte.
  - pose proof (byte_bound a) as Ba. pose proof (byte_bound b) as Bb.
    destruct (rejoin24 (byte a) (byte b) 0) as (R0 & R1 & R2 & R3); try lia.
    destruct (split24 _ R0) as (S0 & S1 & S2 & S3 & S4).
    replace (byte a * 65536 + byte b * 256 + 0)%Z with (byte a * 65536 + byte b * 256)%Z in * by lia.
    set (n := (byte a * 65536 + byte b * 256)%Z) in *.
    exists (String (url_char (b64_char (n / 262144))) (String (url_char (b64_char (n / 4096 mod 64)))
             (String (url_char (b64_char (n / 64 mod 64))) ""))), "=".
    split; [done|]. rewrite !all_chars_url by done.
    split; [done|]. split; [done|].
    rewrite !sextets_url by done. cbn [sextets bytes_of_sextets].
    assert (E0 : (n / 262144 * 262144 + n / 4096 mod 64 * 4096 + n / 64 mod 64 * 64 = n)%Z).
    { subst n. clear -Ba Bb. Z.to_euclidean_division_equations. lia. }
    by rewrite E0, R1, R2, !chr_byte.
  - pose proof (byte_bound a) as Ba. pose proof (byte_bound b) as Bb. pose proof (byte_bound c) as Bc.
    destruct (rejoin24 (byte a) (byte b) (byte c)) as (R0 & R1 & R2 & R3); try lia.
    destruct (split24 _ R0) as (S0 & S1 & S2 & S3 & S4).
    cbn [base64_encode]. set (n := (byte a * 65536 + byte b * 256 + byte c)%Z) in *.
    exists (String (url_char (b64_char (n / 262144))) (String (url_char (b64_char (n / 4096 mod 64)))
             (String (url_char (b64_char (n / 64 mod 64))) (String (url_char (b64_char (n mod 64))) body)))), pad.
    split; [cbn; by rewrite E|]. rewrite !all_chars_url by done.
    split; [done|]. split; [done|].
    rewrite !sextets_url by done. cbn [bytes_of_sextets].
    by rewrite S0, R1, R2, R3, !chr_byte, D.
Qed.

Definition std_char (c : ascii) : ascii :=
  let c' := if Ascii.eqb c "-"%char then "+"%char else c in
  if Ascii.eqb c' "_"%char then "/"%char else c'.

Lemma b64_value_std c : b64_value (std_char c) = b64_value c.
Proof.
  pose proof (forall_ascii_spec
    (fun c => match b64_value (std_char c), b64_value c with
              | Some x, Some y => (x =? y)%Z | None, None => true | _, _ => false end)
    ltac:(vm_compute; reflexivity) c) as F.
  cbn beta in F. destruct (b64_value (std_char c)), (b64_value c); try discriminate; [|done].
  apply Z.eqb_eq in F. by subst.
Qed.

(** Putting the standard characters back and adding padding changes no sextet. *)
Lemma sextets_std s pad :
  all_chars (fun c => Ascii.eqb c "="%char) pad = true ->
  sextets (replace_char "_"%char "/"%char (replace_char "-"%char "+"%char s) ++ pad) = sextets s.
Proof.
  intros Hp. assert (Hpad : sextets pad = []).
  { induction pad as [|c pad IH]; cbn in *; [done|].
    apply andb_true_iff in Hp. destruct Hp as [Hc Hp].
    apply Ascii.eqb_eq in Hc. subst. cbn. auto. }
  induction s as [|c s IH]; [done|]. unfold replace_char in *. cbn [smap String.append sextets].
  rewrite IH. change (if Ascii.eqb _ "_"%char then _ else _) with (std_char c).
  by rewrite b64_value_std.
Qed.

Lemma b64u_chars buf : all_chars is_b64u (b64u buf) = true.
Proof.
  unfold b64u. rewrite url_char_eq.
  destruct (base64_url_form buf) as (body & pad & -> & Hb & Hp & _).
  rewrite strip_trailing_keep; [done| |done].
  eapply all_chars_impl; [|exact Hb]. apply b64u_not_eq.
Qed.

(** The decoder undoes the encoder, for every buffer. *)
Lemma b64uDecode_b64u buf : b64uDecode (b64u buf) = buf.
Proof.
  unfold b64uDecode, base64_decode, b64u. rewrite url_char_eq.
  destruct (base64_url_form buf) as (body & pad & -> & Hb & Hp & D).
  rewrite strip_trailing_keep; [| |done].
  - rewrite sextets_std; [exact D|].
    destruct (slen body mod 4 =? 0)%nat; [done|].
    generalize (4 - slen body mod 4)%nat. intros k. by induction k.
  - eapply all_chars_impl; [|exact Hb]. apply b64u_not_eq.
Qed.

Lemma b64u_no_dot s :
  all_chars is_b64u s = true -> all_chars (fun c => negb (Ascii.eqb c "."%char)) s = true.
Proof.
  apply all_chars_impl. intros c. by_ascii is_b64u (fun c => negb (Ascii.eqb c "."%char)).
Qed.

(** The four dot-separated parts of a wrapped value. *)
Lemma split_wrapped iv tag ct :
  split_on "."%char (VERSION ++ "." ++ b64u iv ++ "." ++ b64u tag ++ "." ++ b64u ct)
  = [VERSION; b64u iv; b64u tag; b64u ct].
Proof.
  cbn [String.append]. pose proof b64u_chars as C.
  rewrite (split_on_app "."%char "v1") by done.
  rewrite (split_on_app _ (b64u iv)) by (apply b64u_no_dot, C).
  rewrite (split_on_app _ (b64u tag)) by (apply b64u_no_dot, C).
  by rewrite (split_on_none _ (b64u ct)) by (apply b64u_no_dot, C).
Qed.

(** What [wrap] returned, [unwrap] opens. *)
(** A character of two bytes: the lead keeps the two high bits, the tail the six low ones. *)
Lemma two_bytes c :
  (byte c <? 128)%Z = false ->
  byte (chr (192 + byte c / 64)) = (192 + byte c / 64)%Z /\ byte (chr (128 + byte c mod 64)) = (128 + byte c mod 64)%Z /\
  (2 <= byte c / 64 <= 3)%Z.
Proof.
  intros Hc%Z.ltb_ge. pose proof (byte_bound c). assert (2 <= byte c / 64 <= 3)%Z by (split; Z.to_euclidean_division_equations; lia).
  pose proof (Z.mod_pos_bound (byte c) 64 eq_refl). split; [|split; [|done]]; apply byte_chr; lia.
Qed.

Lemma utf8_decode_encode s : utf8_decode (utf8_encode s) = s.
Proof.
  induction s as [|c s IH]; cbn [utf8_encode utf8_decode]; [done|].
  destruct (byte c <? 128)%Z eqn:E; cbn [utf8_decode]; [by rewrite E, IH|].
  destruct (two_bytes c E) as (-> & -> & Hq). pose proof (Z.mod_pos_bound (byte c) 64 eq_refl) as Hm.
  replace (192 + byte c / 64 <? 128)%Z with false by (symmetry; apply Z.ltb_ge; lia).
  replace ((194 <=? 192 + byte c / 64) && (192 + byte c / 64 <=? 195) && (128 <=? 128 + byte c mod 64)
           && (128 + byte c mod 64 <? 192))%Z with true
    by (symmetry; rewrite !andb_true_iff, !Z.leb_le, Z.ltb_lt; lia).
  rewrite IH. f_equal. rewrite <- (chr_byte c) at 3. f_equal. pose proof (Z.div_mod (byte c) 64). lia.
Qed.

Lemma wrap_Return `{Gcm} iv masterKeyHex plaintext aad w :
  wrap iv masterKeyHex plaintext aad = Return w -> unwrap masterKeyHex w aad = Return plaintext.
Proof.
  unfold wrap, unwrap.
  destruct (slen (hexToBuffer masterKeyHex) =? 32)%nat eqn:E; cbn [negb]; [|done].
  destruct (gcm_encrypt (hexToBuffer masterKeyHex) iv (utf8_encode (default "" aad)) (utf8_encode plaintext)) as [ct tag] eqn:Ec.
  intros Ew. assert (w = VERSION ++ "." ++ b64u iv ++ "." ++ b64u tag ++ "." ++ b64u ct) as -> by congruence.
  rewrite split_wrapped. cbn [String.eqb VERSION Ascii.eqb Bool.eqb negb].
  rewrite !b64uDecode_b64u.
  pose proof (gcm_decrypt_encrypt (hexToBuffer masterKeyHex) iv (utf8_encode (default "" aad)) (utf8_encode plaintext)) as D.
  rewrite Ec in D. cbn [fst snd] in D. by rewrite D, utf8_decode_encode.
Qed.

(** ** Theorems *)

(** C40: for a 32-byte master key, every plaintext (of units up to 255, coded as UTF-8),
    nonce and associated data, [wrap] returns a text and [unwrap] recovers the plaintext
    from it; for any other key length both refuse before the cipher runs. *)
Theorem unwrap_wrap `{Gcm} masterKeyHex plaintext iv aad :
  if (slen (hexToBuffer masterKeyHex) =? 32)%nat
  then exists w, wrap iv masterKeyHex plaintext aad = Return w /\
                 unwrap masterKeyHex w aad = Return plaintext
  else wrap iv masterKeyHex plaintext aad = Throw (JsError "master key must be 32 bytes") /\
       forall w, returned (unwrap masterKeyHex w aad) = false.
Proof.
  destruct (slen (hexToBuffer masterKeyHex) =? 32)%nat eqn:E.
  - destruct (wrap iv masterKeyHex plaintext aad) as [w|e] eqn:Ew.
    + exists w. split; [done|]. by eapply wrap_Return.
    + unfold wrap in Ew. rewrite E in Ew. cbn [negb] in Ew. by destruct (gcm_encrypt _ _ _ _).
  - unfold wrap, unwrap. rewrite E. split; [done|]. intros w.
    destruct (split_on _ w) as [|p0 [|p1 [|p2 [|p3 [|]]]]]; try done.
    by destruct (negb (String.eqb p0 VERSION)).
Qed.

(** A cipher that hides nothing but satisfies the interface. *)
Definition plain_gcm : Gcm.
Proof.
  refine {| gcm_encrypt key iv aad pt := (pt, aad);
            gcm_decrypt key iv aad ct tag := if String.eqb tag aad then Some ct else None |}.
  intros. cbn. by rewrite String.eqb_refl.
Defined.

Lemma unwrap_wrap_witness :
  exists w, wrap (H := plain_gcm) "abcdefghijkl" (repeat_char "0"%char 64) "secret" (Some "rcv") = Return w /\
            unwrap (H := plain_gcm) (repeat_char "0"%char 64) w (Some "rcv") = Return "secret".
Proof.
  apply (@unwrap_wrap plain_gcm (repeat_char "0"%char 64) "secret" "abcdefghijkl" (Some "rcv")).
Defined.
