(* ===== verification/Config.v ===== *)
(** * Configuration: [config.ts]

    The configuration values the modelled code reads, the bounds its schema puts
    on them, the proxy allow-list syntax and the start-up refusals. *)

From S2P Require Import Prelude JsString Json JsNumber.
From Stdlib Require Import String Ascii.

Open Scope string_scope.

Record Config : Type := mkConfig {
  NODE_ENV : string;
  MASTER_ENCRYPTION_KEY : string;
  COOKIE_SECRET : string;
  VERIFICATION_TTL_SECONDS : Z;
  VERIFICATION_CODE_LENGTH : Z;
  MAX_PENDING_PER_PHONE : Z;
  RATE_LIMIT_START_PER_IP_PER_MIN : Z;
  RATE_LIMIT_STATUS_PER_IP_PER_MIN : Z;
  RATE_LIMIT_INBOUND_PER_RECEIVER_PER_MIN : Z;
  RATE_LIMIT_INBOUND_PER_IP_PER_MIN : Z;
  RATE_LIMIT_HEARTBEAT_PER_RECEIVER_PER_MIN : Z;
  RATE_LIMIT_VERIFICATIONS_PER_APP_PER_MIN : Z;
  RATE_LIMIT_INBOUND_PER_APP_PER_MIN : Z;
  RATE_LIMIT_BINDINGS_PER_APP_PER_MIN : Z;
  RATE_LIMIT_CANCEL_PER_APP_PER_MIN : Z;
  RATE_LIMIT_WEBHOOK_CRUD_PER_APP_PER_MIN : Z;
  RATE_LIMIT_BINDING_READ_PER_APP_PER_MIN : Z;
  RATE_LIMIT_BINDING_REVOKE_PER_APP_PER_MIN : Z;
  RATE_LIMIT_WEBAUTHN_PER_APP_PER_MIN : Z;
  RECEIVER_HEARTBEAT_TIMEOUT_SECONDS : Z;
  INBOUND_TIMESTAMP_SKEW_SECONDS : Z;
  TRUST_PROXY : bool;
  TRUSTED_PROXIES : string;
  DEFAULT_PHONE_REGION : string;
  WEBHOOK_ALLOW_PRIVATE_FOR_TESTS : bool;
  WEBAUTHN_ENABLED : bool;
  WEBAUTHN_RP_ID : option string;
  WEBAUTHN_RP_NAME : option string;
  WEBAUTHN_ORIGINS : string;
  WEBAUTHN_CHALLENGE_TTL_SECONDS : Z;
  PHONE_BINDING_TTL_SECONDS : Z;
  RATE_LIMIT_ADMIN_PER_IP_PER_5MIN : Z;
  HOSTED_PAGE_ENABLED : bool;
}.

Definition within (lo hi n : Z) : bool := ((lo <=? n) && (n <=? hi))%Z.

(** [HEX64] *)
Definition HEX64 (s : string) : bool := matches_class is_hex 64 64 s.

(** ** The proxy allow-list *)

(** [25[0-5]|2[0-4][0-9]|[01]?[0-9][0-9]?] *)
Definition is_proxy_octet (s : string) : bool :=
  matches_class is_digit 1 3 s && (digits_value 0 s <=? 255)%Z.

Definition IPV4_RE (s : string) : bool :=
  match split_on "."%char s with
  | [a; b; c; d] => forallb is_proxy_octet [a; b; c; d]
  | _ => false
  end.

(** [^[0-9a-fA-F:]+(?:\.[0-9]{1,3}){0,3}$]: only the first part may hold colons. *)
Definition IPV6_RE (s : string) : bool :=
  match split_on "."%char s with
  | h :: tail =>
      nonempty h && all_chars (fun c => is_hex c || Ascii.eqb c ":"%char) h
      && (List.length tail <=? 3)%nat && forallb (matches_class is_digit 1 3) tail
  | [] => false
  end.

(** The mask of a CIDR entry: [Number(maskStr)] must be an integer in range. *)
Definition valid_mask (max : Z) (maskStr : option string) : bool :=
  match maskStr with
  | None => true
  | Some m => match js_Number m with Some n => within 0 max n | None => false end
  end.

Definition isValidProxyEntry (raw : string) : bool :=
  let parts := split_on "/"%char raw in
  let host := hd "" parts in
  let maskStr := parts !! 1%nat in
  if (2 <? List.length parts)%nat then false
  else if negb (nonempty host) then false
  else if IPV4_RE host then valid_mask 32 maskStr
  else if IPV6_RE host && match indexOf ":"%char host with Some _ => true | None => false end
  then valid_mask 128 maskStr
  else false.

Definition parseTrustedProxies (raw : string) : list string :=
  List.filter nonempty (map trim (split_on ","%char raw)).

(** ** The schema's bounds and the refusals after parsing *)

Definition config_valid (c : Config) : bool :=
  existsb (String.eqb (NODE_ENV c)) ["development"; "test"; "production"]
  && HEX64 (MASTER_ENCRYPTION_KEY c) && HEX64 (COOKIE_SECRET c)
  && within 60 3600 (VERIFICATION_TTL_SECONDS c)
  && within 4 12 (VERIFICATION_CODE_LENGTH c)
  && within 1 20 (MAX_PENDING_PER_PHONE c)
  && forallb (fun n => 1 <=? n)%Z
       [RATE_LIMIT_START_PER_IP_PER_MIN c; RATE_LIMIT_STATUS_PER_IP_PER_MIN c;
        RATE_LIMIT_INBOUND_PER_RECEIVER_PER_MIN c; RATE_LIMIT_INBOUND_PER_IP_PER_MIN c;
        RATE_LIMIT_HEARTBEAT_PER_RECEIVER_PER_MIN c; RATE_LIMIT_VERIFICATIONS_PER_APP_PER_MIN c;
        RATE_LIMIT_INBOUND_PER_APP_PER_MIN c; RATE_LIMIT_BINDINGS_PER_APP_PER_MIN c;
        RATE_LIMIT_CANCEL_PER_APP_PER_MIN c; RATE_LIMIT_WEBHOOK_CRUD_PER_APP_PER_MIN c;
        RATE_LIMIT_BINDING_READ_PER_APP_PER_MIN c; RATE_LIMIT_BINDING_REVOKE_PER_APP_PER_MIN c;
        RATE_LIMIT_WEBAUTHN_PER_APP_PER_MIN c; RATE_LIMIT_ADMIN_PER_IP_PER_5MIN c]
  && (30 <=? RECEIVER_HEARTBEAT_TIMEOUT_SECONDS c)%Z
  && within 30 900 (INBOUND_TIMESTAMP_SKEW_SECONDS c)
  && forallb isValidProxyEntry (parseTrustedProxies (TRUSTED_PROXIES c))
  && within 30 900 (WEBAUTHN_CHALLENGE_TTL_SECONDS c)
  && within 60 900 (PHONE_BINDING_TTL_SECONDS c).

Definition trustedProxies (c : Config) : list string := parseTrustedProxies (TRUSTED_PROXIES c).

Definition placeholders : list string :=
  ["replace_me_with_64_hex_chars_dev_only_do_not_use_in_production00"].

(** Whether [config.ts] lets the process start. *)
Definition boots (c : Config) : bool :=
  config_valid c &&
  (if String.eqb (NODE_ENV c) "production" then
     if existsb (String.eqb (MASTER_ENCRYPTION_KEY c)) placeholders
        || existsb (String.eqb (COOKIE_SECRET c)) placeholders then false
     else if WEBHOOK_ALLOW_PRIVATE_FOR_TESTS c then false
     else negb (TRUST_PROXY c && (List.length (trustedProxies c) =? 0)%nat)
   else true).

(** [resolvedTrustProxy] of [app.ts]: [None] is [false], trust nobody. *)
Definition resolvedTrustProxy (c : Config) : option (list string) :=
  if (0 <? List.length (trustedProxies c))%nat then Some (trustedProxies c) else None.

Lemma config_valid_bounds c :
  config_valid c = true ->
  (60 <= VERIFICATION_TTL_SECONDS c <= 3600 /\ 4 <= VERIFICATION_CODE_LENGTH c <= 12 /\
   1 <= MAX_PENDING_PER_PHONE c <= 20 /\ 30 <= INBOUND_TIMESTAMP_SKEW_SECONDS c <= 900 /\
   60 <= PHONE_BINDING_TTL_SECONDS c <= 900 /\ 30 <= WEBAUTHN_CHALLENGE_TTL_SECONDS c <= 900 /\
   30 <= RECEIVER_HEARTBEAT_TIMEOUT_SECONDS c)%Z.
Proof.
  unfold config_valid, within. intros H. destruct_and_ex. reflect_eqb. lia.
Qed.

(** Every rate limit lets at least one call through. *)
Lemma config_valid_limits c :
  config_valid c = true ->
  (1 <= RATE_LIMIT_INBOUND_PER_IP_PER_MIN c /\ 1 <= RATE_LIMIT_INBOUND_PER_RECEIVER_PER_MIN c /\
   1 <= RATE_LIMIT_INBOUND_PER_APP_PER_MIN c /\ 1 <= RATE_LIMIT_START_PER_IP_PER_MIN c /\
   1 <= RATE_LIMIT_STATUS_PER_IP_PER_MIN c /\ 1 <= RATE_LIMIT_VERIFICATIONS_PER_APP_PER_MIN c /\
   1 <= RATE_LIMIT_ADMIN_PER_IP_PER_5MIN c)%Z.
Proof.
  unfold config_valid. generalize within, HEX64. intros wi hx H. destruct_and_ex. cbn [forallb] in *.
  destruct_and_ex. reflect_eqb. auto 10.
Qed.

(** A configuration with the documented defaults, for the witnesses. *)
Definition default_config : Config := {|
  NODE_ENV := "production";
  MASTER_ENCRYPTION_KEY := repeat_char "0"%char 64;
  COOKIE_SECRET := repeat_char "1"%char 64;
  VERIFICATION_TTL_SECONDS := 600; VERIFICATION_CODE_LENGTH := 6; MAX_PENDING_PER_PHONE := 3;
  RATE_LIMIT_START_PER_IP_PER_MIN := 10; RATE_LIMIT_STATUS_PER_IP_PER_MIN := 60;
  RATE_LIMIT_INBOUND_PER_RECEIVER_PER_MIN := 120; RATE_LIMIT_INBOUND_PER_IP_PER_MIN := 600;
  RATE_LIMIT_HEARTBEAT_PER_RECEIVER_PER_MIN := 6;
  RATE_LIMIT_VERIFICATIONS_PER_APP_PER_MIN := 500; RATE_LIMIT_INBOUND_PER_APP_PER_MIN := 1000;
  RATE_LIMIT_BINDINGS_PER_APP_PER_MIN := 60; RATE_LIMIT_CANCEL_PER_APP_PER_MIN := 60;
  RATE_LIMIT_WEBHOOK_CRUD_PER_APP_PER_MIN := 30; RATE_LIMIT_BINDING_READ_PER_APP_PER_MIN := 60;
  RATE_LIMIT_BINDING_REVOKE_PER_APP_PER_MIN := 30; RATE_LIMIT_WEBAUTHN_PER_APP_PER_MIN := 30;
  RECEIVER_HEARTBEAT_TIMEOUT_SECONDS := 120; INBOUND_TIMESTAMP_SKEW_SECONDS := 300;
  TRUST_PROXY := false; TRUSTED_PROXIES := "10.0.0.0/8, fd00::/8"; DEFAULT_PHONE_REGION := "SY";
  WEBHOOK_ALLOW_PRIVATE_FOR_TESTS := false; WEBAUTHN_ENABLED := false; WEBAUTHN_RP_ID := None;
  WEBAUTHN_RP_NAME := None; WEBAUTHN_ORIGINS := ""; WEBAUTHN_CHALLENGE_TTL_SECONDS := 300;
  RATE_LIMIT_ADMIN_PER_IP_PER_5MIN := 10; HOSTED_PAGE_ENABLED := true;
  PHONE_BINDING_TTL_SECONDS := 300;
|}.

Example default_config_boots : boots default_config = true.
Proof. vm_compute. reflexivity. Qed.
