(* ===== verification/Schema.v ===== *)
(** * The database: [db/schema.ts]

    One record per table with the columns of the schema, the database as a record
    of tables, and the statements the services run on it.  A table is the list of
    its rows in insertion order; a timestamp is a number of milliseconds.  An
    [INSERT] and a checked [UPDATE] raise [UniqueViolation] with the index name
    when a primary key or a (partial) unique index of the migrations would be
    broken.  The world also carries the metrics the process has counted and the
    background tasks it has started. *)

From S2P Require Import Prelude JsString Json Errors.
From Stdlib Require Import String.

Open Scope string_scope.

(** ** Enums *)

Inductive verificationStatus : Type := pending | verified | expired | cancelled | failed.

Inductive apiKeyKind : Type := public | secret | gateway.

Inductive webhookDeliveryStatus : Type := wd_pending | wd_delivered | wd_failed | wd_abandoned.

#[export] Instance verificationStatus_eq_dec : EqDecision verificationStatus.
Proof. solve_decision. Defined.
#[export] Instance apiKeyKind_eq_dec : EqDecision apiKeyKind.
Proof. solve_decision. Defined.
#[export] Instance webhookDeliveryStatus_eq_dec : EqDecision webhookDeliveryStatus.
Proof. solve_decision. Defined.

Definition status_eqb (a b : verificationStatus) : bool := bool_decide (a = b).
Definition kind_eqb (a b : apiKeyKind) : bool := bool_decide (a = b).
Definition wd_eqb (a b : webhookDeliveryStatus) : bool := bool_decide (a = b).

Definition status_text (s : verificationStatus) : string :=
  match s with
  | pending => "pending" | verified => "verified" | expired => "expired"
  | cancelled => "cancelled" | failed => "failed"
  end.

(** ** Tables *)

Record App : Type := mkApp {
  app_id : string; app_name : string; app_createdAt : Z; app_disabled : bool;
}.

Record ApiKey : Type := mkApiKey {
  k_id : string; k_appId : string; k_kind : apiKeyKind; k_keyHash : string;
  k_keyPrefix : string; k_label : option string; k_createdAt : Z;
  k_lastUsedAt : option Z; k_revokedAt : option Z;
}.

Record Receiver : Type := mkReceiver {
  r_id : string; r_appId : string; r_name : string; r_operator : option string;
  r_msisdn : string; r_secretHash : string; r_enabled : bool;
  r_lastHeartbeatAt : option Z; r_createdAt : Z;
}.

Record Verification : Type := mkVerification {
  v_id : string; v_appId : string; v_phoneE164 : string; v_purpose : string;
  v_clientRef : option string; v_locale : option string; v_receiverId : string;
  v_receiverMsisdnSnapshot : option string; v_receiverOperatorSnapshot : option string;
  v_code : string; v_messagePrefix : string; v_status : verificationStatus;
  v_attempts : Z; v_expiresAt : Z; v_verifiedAt : option Z; v_cancelledAt : option Z;
  v_matchedInboundId : option string; v_createdIp : option string; v_createdAt : Z;
}.

Record InboundSms : Type := mkInboundSms {
  i_id : string; i_receiverId : string; i_fromE164 : string; i_toMsisdn : string;
  i_body : string; i_receivedAt : Z; i_idempotencyKey : string;
  i_matchedVerificationId : option string; i_createdAt : Z;
}.

Record AuditLog : Type := mkAuditLog {
  a_id : string; a_at : Z; a_appId : option string; a_actor : option string;
  a_action : string; a_resourceType : option string; a_resourceId : option string;
  a_ip : option string; a_userAgent : option string; a_requestId : option string;
  a_metaJson : option string;
}.

Record WebhookEndpoint : Type := mkWebhookEndpoint {
  we_id : string; we_appId : string; we_url : string; we_secretCiphertext : string;
  we_enabled : bool; we_eventTypes : list string; we_createdAt : Z; we_updatedAt : Z;
}.

Record WebhookEvent : Type := mkWebhookEvent {
  ev_id : string; ev_appId : string; ev_eventType : string;
  ev_verificationId : option string; ev_payloadJson : string; ev_createdAt : Z;
}.

Record WebhookDelivery : Type := mkWebhookDelivery {
  d_id : string; d_endpointId : string; d_eventId : string; d_eventType : string;
  d_status : webhookDeliveryStatus; d_attemptCount : Z; d_nextAttemptAt : Z;
  d_lastStatusCode : option Z; d_lastError : option string;
  d_createdAt : Z; d_updatedAt : Z;
}.

Record WebauthnCredential : Type := mkWebauthnCredential {
  wc_id : string; wc_appId : string; wc_clientRef : string; wc_credentialIdHash : string;
  wc_publicKey : string; wc_signCount : Z; wc_transports : list string;
  wc_backupState : option bool; wc_backupEligible : option bool;
  wc_createdAt : Z; wc_lastUsedAt : option Z;
}.

Record WebauthnChallenge : Type := mkWebauthnChallenge {
  ch_id : string; ch_appId : string; ch_clientRef : string; ch_challenge : string;
  ch_purpose : string; ch_expiresAt : Z; ch_usedAt : option Z; ch_createdAt : Z;
}.

(** [status] of a binding is a text column: pending, verified or revoked. *)
Record PhoneBindingRow : Type := mkPhoneBinding {
  b_id : string; b_appId : string; b_receiverId : string; b_phoneE164 : string;
  b_status : string; b_nonce : string; b_expiresAt : Z; b_boundAt : option Z;
  b_revokedAt : option Z; b_createdAt : Z;
}.

Record DB : Type := mkDB {
  apps : list App; apiKeys : list ApiKey; receivers : list Receiver;
  verifications : list Verification; inboundSms : list InboundSms;
  auditLog : list AuditLog; webhookEndpoints : list WebhookEndpoint;
  webhookEvents : list WebhookEvent; webhookDeliveries : list WebhookDelivery;
  webauthnCredentials : list WebauthnCredential;
  webauthnChallenges : list WebauthnChallenge; phoneBindings : list PhoneBindingRow;
}.

Definition empty_db : DB := mkDB [] [] [] [] [] [] [] [] [] [] [] [].

(** ** Metrics and background tasks *)

(** The counters of [services/metrics.ts], by method, with their labels. *)
Inductive Metric : Type :=
  | verificationStarted (appId : string)
  | verificationTerminal (appId status : string)
  | inboundReceived (receiverId : string) (matched : bool) (reason : string)
  | hmacRejected (reason : string)
  | apiKeyRejected (reason : string)
  | rateLimitedBucket (bucket : string)
  | heartbeatDbUpdate (outcome : string)
  | receiverSelected (match_ : string)
  | matchingInvariantViolated
  | verificationCodeCollision (outcome : string)
  | webhookEventEmitted (eventType : string)
  | webhookDeliveryTerminal (status : string)
  | webhookDeliveryFailure (reason : string)
  | webhookDeliveryObserved (status : string).

Record World : Type := mkWorld {
  db : DB;
  counted : list Metric;        (** in the order of the calls *)
  background : list string;     (** [void lazyExpireAndEmit(id)] tasks not yet run *)
}.

#[warnings="-notation-for-abbreviation"]
Notation SM := (M exn World).

Definition set_db (f : DB -> DB) (w : World) : World :=
  mkWorld (f (db w)) (counted w) (background w).

(** [metrics.m(...)] *)
Definition count (m : Metric) : SM unit :=
  modify (fun w => mkWorld (db w) (counted w ++ [m]) (background w)).

Definition spawn (id : string) : SM unit :=
  modify (fun w => mkWorld (db w) (counted w) (background w ++ [id])).

(** ** Statements *)

(** A table of the database: how to read it and how to replace it. *)
Record Table (A : Type) : Type := mkTable {
  rows : DB -> list A;
  set_rows : list A -> DB -> DB;
  rows_set_rows : forall t d, rows (set_rows t d) = t;
  set_rows_rows : forall d, set_rows (rows d) d = d;
  set_rows_set_rows : forall t u d, set_rows t (set_rows u d) = set_rows t d;
}.
Arguments mkTable {A}.
Arguments rows {A}.
Arguments set_rows {A}.
Arguments rows_set_rows {A}.
Arguments set_rows_rows {A}.
Arguments set_rows_set_rows {A}.

Section Tables.
Implicit Types d : DB.

Definition t_apps : Table App := mkTable apps
  (fun t d => mkDB t (apiKeys d) (receivers d) (verifications d) (inboundSms d) (auditLog d)
    (webhookEndpoints d) (webhookEvents d) (webhookDeliveries d) (webauthnCredentials d)
    (webauthnChallenges d) (phoneBindings d))
  ltac:(done) ltac:(by intros []) ltac:(done).
Definition t_apiKeys : Table ApiKey := mkTable apiKeys
  (fun t d => mkDB (apps d) t (receivers d) (verifications d) (inboundSms d) (auditLog d)
    (webhookEndpoints d) (webhookEvents d) (webhookDeliveries d) (webauthnCredentials d)
    (webauthnChallenges d) (phoneBindings d))
  ltac:(done) ltac:(by intros []) ltac:(done).
Definition t_receivers : Table Receiver := mkTable receivers
  (fun t d => mkDB (apps d) (apiKeys d) t (verifications d) (inboundSms d) (auditLog d)
    (webhookEndpoints d) (webhookEvents d) (webhookDeliveries d) (webauthnCredentials d)
    (webauthnChallenges d) (phoneBindings d))
  ltac:(done) ltac:(by intros []) ltac:(done).
Definition t_verifications : Table Verification := mkTable verifications
  (fun t d => mkDB (apps d) (apiKeys d) (receivers d) t (inboundSms d) (auditLog d)
    (webhookEndpoints d) (webhookEvents d) (webhookDeliveries d) (webauthnCredentials d)
    (webauthnChallenges d) (phoneBindings d))
  ltac:(done) ltac:(by intros []) ltac:(done).
Definition t_inboundSms : Table InboundSms := mkTable inboundSms
  (fun t d => mkDB (apps d) (apiKeys d) (receivers d) (verifications d) t (auditLog d)
    (webhookEndpoints d) (webhookEvents d) (webhookDeliveries d) (webauthnCredentials d)
    (webauthnChallenges d) (phoneBindings d))
  ltac:(done) ltac:(by intros []) ltac:(done).
Definition t_auditLog : Table AuditLog := mkTable auditLog
  (fun t d => mkDB (apps d) (apiKeys d) (receivers d) (verifications d) (inboundSms d) t
    (webhookEndpoints d) (webhookEvents d) (webhookDeliveries d) (webauthnCredentials d)
    (webauthnChallenges d) (phoneBindings d))
  ltac:(done) ltac:(by intros []) ltac:(done).
Definition t_webhookEndpoints : Table WebhookEndpoint := mkTable webhookEndpoints
  (fun t d => mkDB (apps d) (apiKeys d) (receivers d) (verifications d) (inboundSms d) (auditLog d)
    t (webhookEvents d) (webhookDeliveries d) (webauthnCredentials d)
    (webauthnChallenges d) (phoneBindings d))
  ltac:(done) ltac:(by intros []) ltac:(done).
Definition t_webhookEvents : Table WebhookEvent := mkTable webhookEvents
  (fun t d => mkDB (apps d) (apiKeys d) (receivers d) (verifications d) (inboundSms d) (auditLog d)
    (webhookEndpoints d) t (webhookDeliveries d) (webauthnCredentials d)
    (webauthnChallenges d) (phoneBindings d))
  ltac:(done) ltac:(by intros []) ltac:(done).
Definition t_webhookDeliveries : Table WebhookDelivery := mkTable webhookDeliveries
  (fun t d => mkDB (apps d) (apiKeys d) (receivers d) (verifications d) (inboundSms d) (auditLog d)
    (webhookEndpoints d) (webhookEvents d) t (webauthnCredentials d)
    (webauthnChallenges d) (phoneBindings d))
  ltac:(done) ltac:(by intros []) ltac:(done).
Definition t_webauthnCredentials : Table WebauthnCredential := mkTable webauthnCredentials
  (fun t d => mkDB (apps d) (apiKeys d) (receivers d) (verifications d) (inboundSms d) (auditLog d)
    (webhookEndpoints d) (webhookEvents d) (webhookDeliveries d) t
    (webauthnChallenges d) (phoneBindings d))
  ltac:(done) ltac:(by intros []) ltac:(done).
Definition t_webauthnChallenges : Table WebauthnChallenge := mkTable webauthnChallenges
  (fun t d => mkDB (apps d) (apiKeys d) (receivers d) (verifications d) (inboundSms d) (auditLog d)
    (webhookEndpoints d) (webhookEvents d) (webhookDeliveries d) (webauthnCredentials d)
    t (phoneBindings d))
  ltac:(done) ltac:(by intros []) ltac:(done).
Definition t_phoneBindings : Table PhoneBindingRow := mkTable phoneBindings
  (fun t d => mkDB (apps d) (apiKeys d) (receivers d) (verifications d) (inboundSms d) (auditLog d)
    (webhookEndpoints d) (webhookEvents d) (webhookDeliveries d) (webauthnCredentials d)
    (webauthnChallenges d) t)
  ltac:(done) ltac:(by intros []) ltac:(done).
End Tables.

(** A unique index: its name and when two rows have the same (indexed) key. *)
Definition Index (A : Type) : Type := (string * (A -> A -> bool))%type.

Definition pkey {A} (name : string) (id : A -> string) : Index A :=
  (name, fun x y => String.eqb (id x) (id y)).

Definition verifications_pending_uniq : Index Verification :=
  ("verifications_pending_uniq",
   fun x y => status_eqb (v_status x) pending && status_eqb (v_status y) pending &&
              String.eqb (v_receiverId x) (v_receiverId y) &&
              String.eqb (v_phoneE164 x) (v_phoneE164 y) && String.eqb (v_code x) (v_code y)).

Definition inbound_sms_idem_uq : Index InboundSms :=
  ("inbound_sms_idem_uq",
   fun x y => String.eqb (i_receiverId x) (i_receiverId y) &&
              String.eqb (i_idempotencyKey x) (i_idempotencyKey y)).

Definition phone_bindings_active_uq : Index PhoneBindingRow :=
  ("phone_bindings_active_uq",
   fun x y => String.eqb (b_status x) "verified" && String.eqb (b_status y) "verified" &&
              String.eqb (b_appId x) (b_appId y) && String.eqb (b_phoneE164 x) (b_phoneE164 y)).

Definition webauthn_credentials_lookup_uq : Index WebauthnCredential :=
  ("webauthn_credentials_lookup_uq",
   fun x y => String.eqb (wc_appId x) (wc_appId y) &&
              String.eqb (wc_credentialIdHash x) (wc_credentialIdHash y)).

Definition api_keys_key_hash_uq : Index ApiKey :=
  ("api_keys_key_hash_uq", fun x y => String.eqb (k_keyHash x) (k_keyHash y)).

Definition verifications_idx : list (Index Verification) :=
  [pkey "verifications_pkey" v_id; verifications_pending_uniq].
Definition inboundSms_idx : list (Index InboundSms) :=
  [pkey "inbound_sms_pkey" i_id; inbound_sms_idem_uq].
Definition phoneBindings_idx : list (Index PhoneBindingRow) :=
  [pkey "phone_bindings_pkey" b_id; phone_bindings_active_uq].
Definition webhookEndpoints_idx : list (Index WebhookEndpoint) := [pkey "webhook_endpoints_pkey" we_id].
Definition webhookEvents_idx : list (Index WebhookEvent) := [pkey "webhook_events_pkey" ev_id].
Definition webhookDeliveries_idx : list (Index WebhookDelivery) := [pkey "webhook_deliveries_pkey" d_id].
Definition webauthnCredentials_idx : list (Index WebauthnCredential) :=
  [pkey "webauthn_credentials_pkey" wc_id; webauthn_credentials_lookup_uq].
Definition webauthnChallenges_idx : list (Index WebauthnChallenge) := [pkey "webauthn_challenges_pkey" ch_id].
Definition auditLog_idx : list (Index AuditLog) := [pkey "audit_log_pkey" a_id].
Definition apiKeys_idx : list (Index ApiKey) := [pkey "api_keys_pkey" k_id; api_keys_key_hash_uq].
Definition apps_idx : list (Index App) := [pkey "apps_pkey" app_id].
Definition receivers_idx : list (Index Receiver) := [pkey "receivers_pkey" r_id].

Section Statements.
Context {A : Type}.
Implicit Types (T : Table A) (idx : list (Index A)) (p : A -> bool) (f : A -> A).

(** The first index that a new row would break. *)
Definition broken_by idx (r : A) (t : list A) : option string :=
  fst <$> List.find (fun ix => clashes (snd ix) r t) idx.

(** [db.insert(T).values(r)] *)
Definition insert T idx (r : A) : SM unit :=
  fun w => match broken_by idx r (rows T (db w)) with
           | Some name => (Throw (UniqueViolation name), w)
           | None => (Return tt, set_db (set_rows T (rows T (db w) ++ [r])) w)
           end.

(** [db.insert(T).values(rs)]: one statement for several rows. *)
Fixpoint insert_all_rows idx (rs t : list A) : string + list A :=
  match rs with
  | [] => inr t
  | r :: rs' => match broken_by idx r t with
                | Some name => inl name
                | None => insert_all_rows idx rs' (t ++ [r])
                end
  end.

Definition insert_all T idx (rs : list A) : SM unit :=
  fun w => match insert_all_rows idx rs (rows T (db w)) with
           | inl name => (Throw (UniqueViolation name), w)
           | inr t => (Return tt, set_db (set_rows T t) w)
           end.

(** [SELECT * FROM T WHERE p] *)
Definition select_from T p : SM (list A) := gets (fun w => select p (rows T (db w))).

(** [SELECT * FROM T WHERE p LIMIT 1], then [rows[0]] *)
Definition select_one `{Limit1} T p : SM (option A) :=
  gets (fun w => limit1 (select p (rows T (db w)))).

(** [UPDATE T SET f WHERE p RETURNING *], for an update that moves no row into a
    unique index. *)
Definition update T p f : SM (list A) :=
  fun w => (Return (updated p f (rows T (db w))),
            set_db (set_rows T (update_where p f (rows T (db w)))) w).

(** The same for an update that can break a unique index. *)
Definition update_checked T idx p f : SM (list A) :=
  fun w => let t := update_where p f (rows T (db w)) in
           match List.find (fun ix => negb (no_conflict (snd ix) t)) idx with
           | Some ix => (Throw (UniqueViolation (fst ix)), w)
           | None => (Return (updated p f (rows T (db w))), set_db (set_rows T t) w)
           end.

(** [DELETE FROM T WHERE p RETURNING *] *)
Definition delete T p : SM (list A) :=
  fun w => (Return (select p (rows T (db w))),
            set_db (set_rows T (delete_where p (rows T (db w)))) w).
End Statements.

(** [db.transaction(m)]: an exception restores the database; the counters and the
    started tasks are the process's and stay. *)
Definition transaction {A} (m : SM A) : SM A :=
  fun w => match m w with
           | (Return a, w') => (Return a, w')
           | (Throw e, w') => (Throw e, mkWorld (db w) (counted w') (background w'))
           end.

(** ** Lemmas *)

Section StatementLemmas.
Context {A B : Type}.
Implicit Types (T : Table A) (idx : list (Index A)) (p : A -> bool) (f : A -> A).

Lemma insert_eq T idx (r : A) w :
  insert T idx r w
  = match broken_by idx r (rows T (db w)) with
    | Some name => (Throw (UniqueViolation name), w)
    | None => (Return tt, set_db (set_rows T (rows T (db w) ++ [r])) w)
    end.
Proof. reflexivity. Qed.

Lemma set_rows_same T w : set_db (set_rows T (rows T (db w))) w = w.
Proof. destruct w as [D c b]. unfold set_db. cbn. by rewrite set_rows_rows. Qed.

(** An update that matches no row changes nothing. *)
Lemma update_none T p f w :
  select p (rows T (db w)) = [] -> update T p f w = (Return [], w).
Proof.
  intros E. unfold update, updated. rewrite E, update_where_none by done. cbn [map].
  by rewrite set_rows_same.
Qed.

Lemma bind_select_from T p (k : list A -> SM B) w :
  bind (select_from T p) k w = k (select p (rows T (db w))) w.
Proof. reflexivity. Qed.

Lemma bind_select_one `{Limit1} T p (k : option A -> SM B) w :
  bind (select_one T p) k w = k (limit1 (select p (rows T (db w)))) w.
Proof. reflexivity. Qed.

Lemma bind_update T p f (k : list A -> SM B) w :
  bind (update T p f) k w
  = k (updated p f (rows T (db w))) (set_db (set_rows T (update_where p f (rows T (db w)))) w).
Proof. reflexivity. Qed.

Lemma bind_delete T p (k : list A -> SM B) w :
  bind (delete T p) k w
  = k (select p (rows T (db w))) (set_db (set_rows T (delete_where p (rows T (db w)))) w).
Proof. reflexivity. Qed.

Lemma bind_count m (k : unit -> SM B) w :
  bind (count m) k w = k tt (mkWorld (db w) (counted w ++ [m]) (background w)).
Proof. reflexivity. Qed.

Lemma bind_spawn id (k : unit -> SM B) w :
  bind (spawn id) k w = k tt (mkWorld (db w) (counted w) (background w ++ [id])).
Proof. reflexivity. Qed.

Lemma broken_by_None idx r t :
  broken_by idx r t = None <-> Forall (fun ix => clashes (snd ix) r t = false) idx.
Proof.
  unfold broken_by. rewrite fmap_None. split.
  - intros H. apply List.Forall_forall. intros ix Hin. exact (find_none _ _ H _ Hin).
  - rewrite List.Forall_forall. intros H. destruct (List.find (fun ix => clashes (snd ix) r t) idx) as [ix|] eqn:E; [|done].
    apply find_some in E. destruct E as [Hin E]. by rewrite (H _ Hin) in E.
Qed.

Lemma broken_by_name idx r t name : broken_by idx r t = Some name -> In name (map fst idx).
Proof.
  unfold broken_by. destruct (List.find (fun ix => clashes (snd ix) r t) idx) as [ix|] eqn:E; [|done]. cbn. intros [= <-].
  apply find_some in E. apply (in_map fst), E.
Qed.

Lemma clashes_false (conf : A -> A -> bool) r t :
  clashes conf r t = false <-> forall x, In x t -> conf x r = false.
Proof.
  unfold clashes. split.
  - intros H x Hin. apply not_true_is_false. intros C.
    assert (existsb (fun x => conf x r) t = true); [|congruence].
    apply existsb_exists. eauto.
  - intros H. apply not_true_is_false. rewrite existsb_exists. intros (x & Hin & C).
    by rewrite (H x Hin) in C.
Qed.

(** A new row with a fresh key is accepted by the primary key. *)
Lemma clashes_pkey name (id : A -> string) r t :
  clashes (snd (pkey name id)) r t = false <-> ~ In (id r) (map id t).
Proof.
  rewrite clashes_false. cbn. split.
  - intros H Hin. apply in_map_iff in Hin. destruct Hin as (x & E & Hin).
    specialize (H x Hin). rewrite E, String.eqb_refl in H. done.
  - intros H x Hin. apply String.eqb_neq. intros E. apply H. rewrite <- E. by apply in_map.
Qed.

(** The rows every index of a table accepts together. *)
Definition respects idx (t : list A) : Prop := Forall (fun ix => no_conflict (snd ix) t = true) idx.

Lemma respects_insert idx r t :
  respects idx t -> broken_by idx r t = None -> respects idx (t ++ [r]).
Proof.
  unfold respects. rewrite broken_by_None, !List.Forall_forall. intros Ht Hr ix Hin.
  by rewrite no_conflict_app_one, (Ht _ Hin), (Hr _ Hin).
Qed.

Lemma respects_insert_all idx rs t t' :
  respects idx t -> insert_all_rows idx rs t = inr t' -> respects idx t' /\ t' = (t ++ rs)%list.
Proof.
  revert t. induction rs as [|r rs IH]; cbn; intros t Ht.
  - intros [= ->]. by rewrite app_nil_r.
  - destruct (broken_by idx r t) eqn:E; [discriminate|]. intros H.
    apply IH in H; [|by apply respects_insert]. destruct H as [H ->].
    split; [done|]. by rewrite <- app_assoc.
Qed.

Lemma respects_update idx p f t :
  (forall ix x y, In ix idx -> snd ix (f x) y = true -> snd ix x y = true) ->
  (forall ix x y, In ix idx -> snd ix x (f y) = true -> snd ix x y = true) ->
  respects idx t -> respects idx (update_where p f t).
Proof.
  unfold respects. rewrite !List.Forall_forall. intros Hl Hr Ht ix Hin.
  apply no_conflict_update; eauto.
Qed.

(** A checked update either leaves a table every index accepts, or throws the name
    of an index that the new table breaks and changes nothing. *)
Lemma update_checked_cases T idx p f w :
  let t := update_where p f (rows T (db w)) in
  (respects idx t /\
   update_checked T idx p f w = (Return (updated p f (rows T (db w))), set_db (set_rows T t) w)) \/
  (exists ix, In ix idx /\ no_conflict (snd ix) t = false /\
   update_checked T idx p f w = (Throw (UniqueViolation (fst ix)), w)).
Proof.
  cbv zeta. unfold update_checked, respects. rewrite List.Forall_forall.
  destruct (List.find (fun ix => negb (no_conflict (snd ix) (update_where p f (rows T (db w))))) idx)
    as [ix|] eqn:E.
  - right. apply find_some in E. destruct E as [Hin E]. apply negb_true_iff in E. eauto.
  - left. split; [|done]. intros ix Hin. apply (find_none _ _ E) in Hin. by apply negb_false_iff.
Qed.

Lemma update_checked_ok T idx p f w :
  respects idx (update_where p f (rows T (db w))) ->
  update_checked T idx p f w
  = (Return (updated p f (rows T (db w))), set_db (set_rows T (update_where p f (rows T (db w)))) w).
Proof.
  intros H. destruct (update_checked_cases T idx p f w) as [[_ E]|(ix & Hin & E & _)]; [done|].
  unfold respects in H. rewrite List.Forall_forall in H. by rewrite (H ix Hin) in E.
Qed.

Lemma respects_delete idx p t : respects idx t -> respects idx (delete_where p t).
Proof.
  unfold respects, delete_where. rewrite !List.Forall_forall. intros Ht ix Hin.
  specialize (Ht ix Hin). revert Ht. induction t as [|x t IH]; cbn; [done|].
  rewrite andb_true_iff. intros [Hx Ht]. destruct (negb (p x)); cbn; [|auto].
  apply andb_true_iff. split; [|by apply IH]. rewrite forallb_forall in *.
  intros y Hy. apply filter_In in Hy. by apply Hx, Hy.
Qed.

Lemma pkey_nodup name (id : A -> string) idx t :
  respects (pkey name id :: idx) t -> List.NoDup (map id t).
Proof.
  intros Ht. apply Forall_inv in Ht. induction t as [|x t IH]; cbn in *; [constructor|].
  apply andb_true_iff in Ht. destruct Ht as [Hx Ht]. constructor; [|by apply IH].
  intros Hin. apply in_map_iff in Hin. destruct Hin as (y & E & Hy).
  rewrite forallb_forall in Hx. specialize (Hx y Hy). by rewrite E, String.eqb_refl in Hx.
Qed.

(** Two rows with the same primary key are the same row. *)
Lemma pkey_inj name (id : A -> string) idx t x y :
  respects (pkey name id :: idx) t -> In x t -> In y t -> id x = id y -> x = y.
Proof.
  intros H Hx Hy E. apply Forall_inv in H.
  eapply no_conflict_spec; eauto; cbn; rewrite E; apply String.eqb_refl.
Qed.

(** At most one row satisfies a test that makes two rows conflict. *)
Lemma select_unique (conf : A -> A -> bool) q t :
  no_conflict conf t = true ->
  (forall x y, q x = true -> q y = true -> conf x y = true) ->
  select q t = [] \/ exists r, select q t = [r].
Proof.
  intros Ht Hq. unfold select. induction t as [|x t IH]; cbn; [by left|].
  cbn in Ht. apply andb_true_iff in Ht. destruct Ht as [Hx Ht].
  destruct (q x) eqn:E; [|auto]. right. exists x. f_equal.
  apply select_nil_iff. intros y Hy. apply not_true_is_false. intros Ey.
  rewrite forallb_forall in Hx. specialize (Hx y Hy). by rewrite (Hq x y E Ey) in Hx.
Qed.

Lemma select_pkey name (id : A -> string) idx t i :
  respects (pkey name id :: idx) t ->
  select (fun r => String.eqb (id r) i) t = []
  \/ exists r, select (fun r => String.eqb (id r) i) t = [r].
Proof.
  intros H. apply Forall_inv in H. eapply select_unique; [exact H|].
  cbn. intros x y Hx Hy. reflect_eqb. subst. by rewrite Hy, String.eqb_refl.
Qed.

Lemma select_pkey_eq name (id : A -> string) idx t x :
  respects (pkey name id :: idx) t -> In x t -> select (fun r => String.eqb (id r) (id x)) t = [x].
Proof.
  intros H Hx. destruct (select_pkey name id idx t (id x) H) as [E|[r E]].
  - rewrite select_nil_iff in E. specialize (E x Hx). by rewrite String.eqb_refl in E.
  - destruct (select_single _ _ _ E) as [Hr Hid%String.eqb_eq]. rewrite E. f_equal. by eapply pkey_inj.
Qed.
End StatementLemmas.

#[export] Hint Rewrite @bind_select_from @bind_select_one @bind_update @bind_delete @bind_count
  @bind_spawn : js.

Lemma status_eqb_eq a b : status_eqb a b = true <-> a = b.
Proof. unfold status_eqb. apply bool_decide_eq_true. Qed.

Lemma status_eqb_neq a b : status_eqb a b = false <-> a <> b.
Proof. unfold status_eqb. apply bool_decide_eq_false. Qed.
