(* ===== verification/Webhooks.v ===== *)
(** * Webhook endpoints and events: [services/webhooks.ts]

    Endpoint registration and removal, the data block of a [verification.*] event,
    its emission to the subscribed endpoints inside the caller's transaction, the
    delivery signature and the retry schedule.  Fresh identifiers, secrets and
    clock readings are arguments; the WHATWG URL parser enters as a class. *)

From S2P Require Import Prelude JsString Json Errors Phone Crypto Aead Ssrf Schema.
From Stdlib Require Import String Ascii.

Open Scope string_scope.
Open Scope js_scope.

Definition MAX_ENDPOINTS_PER_APP : nat := 10.

(** ** Event types *)

Inductive VerificationEventType : Type := ev_verified | ev_expired | ev_cancelled.

#[export] Instance VerificationEventType_eq_dec : EqDecision VerificationEventType.
Proof. solve_decision. Defined.

Definition event_text (t : VerificationEventType) : string :=
  match t with
  | ev_verified => "verification.verified"
  | ev_expired => "verification.expired"
  | ev_cancelled => "verification.cancelled"
  end.

Definition VERIFICATION_EVENT_TYPES : list string :=
  map event_text [ev_verified; ev_expired; ev_cancelled].

Definition isValidEventType (value : string) : bool :=
  existsb (String.eqb value) VERIFICATION_EVENT_TYPES.

(** The loop of [uniqueValidatedEventTypes] over the array. *)
Fixpoint validate_loop (seen out : list string) (input : list json) : outcome exn (list string) :=
  match input with
  | [] => Return out
  | v :: rest =>
      let bad := badRequest "validation_error" ("unknown event_type: " ++ slice_to (js_String v) 64) in
      match v with
      | JStr s =>
          if negb (isValidEventType s) then Throw bad
          else if existsb (String.eqb s) seen then validate_loop seen out rest
          else validate_loop (s :: seen) (out ++ [s])%list rest
      | _ => Throw bad
      end
  end.

Definition uniqueValidatedEventTypes (input : json) : outcome exn (list string) :=
  match input with
  | JArr (v :: l) => validate_loop [] [] (v :: l)
  | _ => Throw (badRequest "validation_error" "event_types must be a non-empty array")
  end.

(** ** URL validation *)

(** [new URL(value)]; [None] is the TypeError. *)
Class UrlParser : Type := { parseUrl : string -> option URL }.

Definition URL_MAX : nat := 2048.

Definition validateUrl `{UrlParser} `{Resolver} (env : ProcessEnv) (value : string) : outcome exn unit :=
  if (slen value =? 0)%nat then Throw (badRequest "validation_error" "url is required")
  else if (URL_MAX <? slen value)%nat then
    Throw (badRequest "validation_error" ("url exceeds " ++ num_to_string (Z.of_nat URL_MAX) ++ " chars"))
  else match parseUrl value with
       | None => Throw (badRequest "validation_error" "url is not a valid URL")
       | Some parsed =>
           if negb (String.eqb (protocol parsed) "http:") && negb (String.eqb (protocol parsed) "https:")
           then Throw (badRequest "validation_error" "url must be http(s)")
           else if nonempty (username parsed) || nonempty (password parsed)
           then Throw (badRequest "validation_error" "url must not include credentials")
           else assertWebhookUrlSafe env parsed
       end.

(** ** Endpoints *)

Record WebhookEndpointPublic : Type := {
  wep_id : string; wep_app_id : string; wep_url : string; wep_enabled : bool;
  wep_event_types : list string; wep_created_at : string; wep_updated_at : string;
}.

Record WebhookEndpointWithSecret : Type := {
  wes_public : WebhookEndpointPublic; wes_secret : string;
}.

Definition toPublic (row : WebhookEndpoint) : WebhookEndpointPublic := {|
  wep_id := we_id row; wep_app_id := we_appId row; wep_url := we_url row;
  wep_enabled := we_enabled row; wep_event_types := we_eventTypes row;
  wep_created_at := toISOString (we_createdAt row);
  wep_updated_at := toISOString (we_updatedAt row);
|}.

Definition generateWebhookSecret (randomBytes : string) : string := "whsec_" ++ bufferToHex randomBytes.

Definition aadFor (endpointId : string) : string := "webhook:" ++ endpointId.


(** A pure check inside an effectful function. *)
Definition lift {W A} (o : outcome exn A) : M exn W A := fun w => (o, w).

Record CreateWebhookInput : Type := { cw_appId : string; cw_url : string; cw_eventTypes : list string }.

Definition createWebhookEndpoint `{UrlParser} `{Resolver} `{Gcm} (env : ProcessEnv)
    (masterKey : string) (ulid randomBytes iv : string) (now : Z) (input : CreateWebhookInput)
    : SM WebhookEndpointWithSecret :=
  do! lift (validateUrl env (cw_url input)) in
  let! events := lift (uniqueValidatedEventTypes (JArr (map JStr (cw_eventTypes input)))) in
  let! existing := select_from t_webhookEndpoints (fun e => String.eqb (we_appId e) (cw_appId input)) in
  do! throw_if (MAX_ENDPOINTS_PER_APP <=? List.length existing)%nat
        (conflict "too_many_endpoints"
           ("app has reached the limit of " ++ num_to_string (Z.of_nat MAX_ENDPOINTS_PER_APP)
            ++ " webhook endpoints")) in
  let id := newId WEBHOOK_ENDPOINT_PREFIX ulid in
  let secret := generateWebhookSecret randomBytes in
  let! wrapped := lift (wrap iv masterKey secret (Some (aadFor id))) in
  let row := mkWebhookEndpoint id (cw_appId input) (cw_url input) wrapped true events now now in
  do! insert t_webhookEndpoints webhookEndpoints_idx row in
  ret {| wes_public := toPublic row; wes_secret := secret |}.

(** [ORDER BY created_at DESC]: a stable insertion sort. *)
Fixpoint insert_by {A} (before : A -> A -> bool) (x : A) (l : list A) : list A :=
  match l with
  | [] => [x]
  | y :: l' => if before y x then y :: insert_by before x l' else x :: y :: l'
  end.
Definition order_by {A} (before : A -> A -> bool) (l : list A) : list A :=
  fold_right (insert_by before) [] l.

Definition listWebhookEndpoints (appId : string) : SM (list WebhookEndpointPublic) :=
  let! rows := select_from t_webhookEndpoints (fun e => String.eqb (we_appId e) appId) in
  ret (map toPublic (order_by (fun x y => (we_createdAt y <? we_createdAt x)%Z) rows)).

Definition endpoint_is (appId id : string) (e : WebhookEndpoint) : bool :=
  String.eqb (we_appId e) appId && String.eqb (we_id e) id.

Definition getWebhookEndpoint `{Limit1} (appId id : string) : SM WebhookEndpointPublic :=
  let! row := select_one t_webhookEndpoints (endpoint_is appId id) in
  match row with
  | None => throw (notFound "webhook_endpoint")
  | Some row => ret (toPublic row)
  end.

(** The foreign key of [webhook_deliveries] is declared ON DELETE CASCADE. *)
Definition deleteWebhookEndpoint (appId id : string) : SM unit :=
  let! result := delete t_webhookEndpoints (endpoint_is appId id) in
  do! delete t_webhookDeliveries
        (fun d => existsb (fun e => String.eqb (d_endpointId d) (we_id e)) result) in
  throw_if (List.length result =? 0)%nat (notFound "webhook_endpoint").

(** ** Event payload *)

Record VerificationEventData : Type := {
  verification_id : string;
  data_status : string;
  phone_masked : string;
  data_purpose : string;
  client_ref : option string;
  verified_at : option string;
  expired_at : option string;
  cancelled_at : option string;
}.

Definition buildVerificationEventData (row : Verification) (eventType : VerificationEventType)
    : VerificationEventData := {|
  verification_id := v_id row;
  data_status := match eventType with
                 | ev_verified => "verified" | ev_expired => "expired" | ev_cancelled => "cancelled" end;
  phone_masked := maskPhone (v_phoneE164 row);
  data_purpose := v_purpose row;
  client_ref := v_clientRef row;
  verified_at := match eventType with
                 | ev_verified => toISOString <$> v_verifiedAt row | _ => None end;
  expired_at := match eventType with
                | ev_expired => Some (toISOString (v_expiresAt row)) | _ => None end;
  cancelled_at := match eventType with
                  | ev_cancelled => toISOString <$> v_cancelledAt row | _ => None end;
|}.

(** The object [JSON.stringify] sees: keys in order of assignment. *)
Definition data_json (d : VerificationEventData) : json :=
  JObj ([("verification_id", JStr (verification_id d)); ("status", JStr (data_status d));
         ("phone_masked", JStr (phone_masked d)); ("purpose", JStr (data_purpose d));
         ("client_ref", jopt JStr (client_ref d))]
        ++ jfield_opt "verified_at" JStr (verified_at d)
        ++ jfield_opt "expired_at" JStr (expired_at d)
        ++ jfield_opt "cancelled_at" JStr (cancelled_at d)).

Definition envelope_json (eventId : string) (eventType : VerificationEventType) (createdAt : Z)
    (d : VerificationEventData) : json :=
  JObj [("id", JStr eventId); ("type", JStr (event_text eventType));
        ("created_at", JStr (toISOString createdAt)); ("data", data_json d)].

(** ** Emission *)

(** The fresh values an emission draws. *)
Record Fresh : Type := {
  event_ulid : string;
  delivery_ulid : nat -> string;
  emitted_at : Z;
}.

Definition event_row (fr : Fresh) (eventType : VerificationEventType) (appId : string)
    (d : VerificationEventData) : WebhookEvent :=
  let eventId := newId WEBHOOK_EVENT_PREFIX (event_ulid fr) in
  mkWebhookEvent eventId appId (event_text eventType) (Some (verification_id d))
    (stringify (envelope_json eventId eventType (emitted_at fr) d)) (emitted_at fr).

(** [event_types @> ARRAY[type]] of an enabled endpoint of the app *)
Definition subscribed (eventType : VerificationEventType) (appId : string) (e : WebhookEndpoint) : bool :=
  String.eqb (we_appId e) appId && we_enabled e
  && existsb (String.eqb (event_text eventType)) (we_eventTypes e).

Definition delivery_row (fr : Fresh) (eventType : VerificationEventType) (i : nat)
    (e : WebhookEndpoint) : WebhookDelivery :=
  mkWebhookDelivery (newId WEBHOOK_DELIVERY_PREFIX (delivery_ulid fr i)) (we_id e)
    (newId WEBHOOK_EVENT_PREFIX (event_ulid fr)) (event_text eventType) wd_pending 0
    (emitted_at fr) None None (emitted_at fr) (emitted_at fr).

Definition emitVerificationEventInTx (fr : Fresh) (eventType : VerificationEventType)
    (appId : string) (d : VerificationEventData) : SM unit :=
  do! insert t_webhookEvents webhookEvents_idx (event_row fr eventType appId d) in
  let! endpoints := select_from t_webhookEndpoints (subscribed eventType appId) in
  do! count (webhookEventEmitted (event_text eventType)) in
  if (List.length endpoints =? 0)%nat then ret tt
  else insert_all t_webhookDeliveries webhookDeliveries_idx
         (imap (delivery_row fr eventType) endpoints).

(** ** Signature and retries *)

Definition signDeliveryBody `{Digest} (secret : string) (timestampSeconds : Z) (bodyBytes : string) : string :=
  hmacSha256Hex secret (num_to_string timestampSeconds ++ "." ++ bodyBytes).

Definition RETRY_DELAY_SECONDS : list Z := [30; 120; 600; 1800; 7200]%Z.
Definition MAX_DELIVERY_ATTEMPTS : Z := 6.

Definition nextRetryDelaySeconds (failedAttempts : Z) : option Z :=
  if (MAX_DELIVERY_ATTEMPTS <=? failedAttempts)%Z then None
  else if (failedAttempts - 1 <? 0)%Z then None
  else RETRY_DELAY_SECONDS !! Z.to_nat (failedAttempts - 1).

(** ** Lemmas on emission *)

(** The database after an emission. *)
Definition emitted (fr : Fresh) (t : VerificationEventType) (appId : string)
    (d : VerificationEventData) (D : DB) : DB :=
  set_rows t_webhookDeliveries
    (webhookDeliveries D ++ imap (delivery_row fr t) (select (subscribed t appId) (webhookEndpoints D)))%list
    (set_rows t_webhookEvents (webhookEvents D ++ [event_row fr t appId d])%list D).

Lemma insert_all_rows_app {A} (idx : list (Index A)) rs t t' :
  insert_all_rows idx rs t = inr t' -> t' = (t ++ rs)%list.
Proof.
  revert t. induction rs as [|r rs IH]; cbn; intros t.
  - intros [= ->]. by rewrite app_nil_r.
  - destruct (broken_by idx r t); [discriminate|]. intros H. apply IH in H. subst.
    by rewrite <- app_assoc.
Qed.

Lemma emit_eq fr t appId d w :
  emitVerificationEventInTx fr t appId d w
  = match broken_by webhookEvents_idx (event_row fr t appId d) (webhookEvents (db w)) with
    | Some name => (Throw (UniqueViolation name), w)
    | None =>
        let D1 := set_rows t_webhookEvents (webhookEvents (db w) ++ [event_row fr t appId d])%list (db w) in
        let c := (counted w ++ [webhookEventEmitted (event_text t)])%list in
        match insert_all_rows webhookDeliveries_idx
                (imap (delivery_row fr t) (select (subscribed t appId) (webhookEndpoints (db w))))
                (webhookDeliveries (db w)) with
        | inl name => (Throw (UniqueViolation name), mkWorld D1 c (background w))
        | inr t' => (Return tt, mkWorld (set_rows t_webhookDeliveries t' D1) c (background w))
        end
    end.
Proof.
  unfold emitVerificationEventInTx. unfold bind at 1. rewrite insert_eq.
  cbn [rows t_webhookEvents]. destruct (broken_by _ _ _); [done|].
  autorewrite with js.
  cbn [db set_db counted background rows t_webhookEvents webhookEndpoints set_rows t_webhookEndpoints].
  destruct (select (subscribed t appId) (webhookEndpoints (db w))) as [|e es]; [done|].
  cbn [List.length Nat.eqb]. unfold insert_all. cbn [db rows t_webhookDeliveries webhookDeliveries].
  by destruct (insert_all_rows _ _ _).
Qed.

Lemma broken_by_pkey {A} n (id : A -> string) r t name :
  broken_by [pkey n id] r t = Some name -> name = n.
Proof. unfold broken_by. cbn. destruct (clashes _ r t); by inversion 1. Qed.

Lemma insert_all_rows_pkey {A} n (id : A -> string) rs t name :
  insert_all_rows [pkey n id] rs t = inl name -> name = n.
Proof.
  revert t. induction rs as [|r rs IH]; intros t; cbn [insert_all_rows]; [done|].
  destruct (broken_by _ r t) eqn:E; [|apply IH]. intros [= ->]. by eapply broken_by_pkey.
Qed.

(** Inserting rows whose keys are new and pairwise different succeeds. *)
Lemma insert_all_fresh {A} name (id : A -> string) rs t :
  NoDup (map id rs) -> (forall r, In r rs -> ~ In (id r) (map id t)) ->
  insert_all_rows [pkey name id] rs t = inr (t ++ rs)%list.
Proof.
  revert t. induction rs as [|r rs IH]; intros t Hnd Hf; cbn [insert_all_rows].
  - by rewrite app_nil_r.
  - cbn in Hnd. apply NoDup_cons in Hnd. destruct Hnd as [Hr Hnd].
    assert (broken_by [pkey name id] r t = None) as ->.
    { apply broken_by_None. constructor; [|constructor]. apply clashes_pkey, Hf. by left. }
    rewrite IH; [by rewrite <- app_assoc | done |].
    intros x Hx. rewrite map_app, in_app_iff. intros [H|[H|[]]].
    + exact (Hf x (or_intror Hx) H).
    + apply Hr. rewrite H. rewrite list_elem_of_In. by apply in_map.
Qed.

Lemma newId_inj p u v : newId p u = newId p v -> u = v.
Proof.
  unfold newId. intros H. induction p as [|c p IH]; cbn in H; injection H; auto.
Qed.

Lemma map_imap {A B C} (f : nat -> A -> B) (g : B -> C) l :
  map g (imap f l) = imap (fun i x => g (f i x)) l.
Proof. revert f. induction l as [|x l IH]; intros f; cbn; [done|]. f_equal. apply IH. Qed.

Lemma imap_const_NoDup {A} (f : nat -> string) (l : list A) :
  (forall i j, f i = f j -> i = j) -> NoDup (imap (fun i _ => f i) l).
Proof.
  revert f. induction l as [|x l IH]; intros f Hf; cbn; constructor.
  - rewrite list_elem_of_In. intros H.
    assert (G : forall (g : nat -> string) (m : list A), In (f 0%nat) (imap (fun i _ => g i) m) ->
                exists i, g i = f 0%nat).
    { intros g m. revert g. induction m as [|y m IHm]; intros g; cbn; [done|].
      intros [<-|H']; [eauto|]. destruct (IHm (g ∘ S) H') as (i & E). eauto. }
    destruct (G _ _ H) as (i & E). apply Hf in E. discriminate.
  - apply (IH (f ∘ S)). intros i j E. apply Hf in E. lia.
Qed.

(** The identifiers an emission draws are new and pairwise different. *)
Definition fresh_for (fr : Fresh) (D : DB) : Prop :=
  ~ In (newId WEBHOOK_EVENT_PREFIX (event_ulid fr)) (map ev_id (webhookEvents D)) /\
  (forall i j, delivery_ulid fr i = delivery_ulid fr j -> i = j) /\
  (forall i, ~ In (newId WEBHOOK_DELIVERY_PREFIX (delivery_ulid fr i)) (map d_id (webhookDeliveries D))).

Lemma emit_fresh fr t appId d w :
  fresh_for fr (db w) ->
  emitVerificationEventInTx fr t appId d w
  = (Return tt, mkWorld (emitted fr t appId d (db w))
                        (counted w ++ [webhookEventEmitted (event_text t)]) (background w)).
Proof.
  intros (He & Hi & Hd). rewrite emit_eq.
  assert (broken_by webhookEvents_idx (event_row fr t appId d) (webhookEvents (db w)) = None) as ->.
  { apply broken_by_None. constructor; [|constructor]. by apply clashes_pkey. }
  cbv zeta.
  rewrite (insert_all_fresh "webhook_deliveries_pkey" d_id); [done| |].
  - rewrite map_imap.
    apply (imap_const_NoDup (fun i => newId WEBHOOK_DELIVERY_PREFIX (delivery_ulid fr i))).
    intros i j E. by apply Hi, (newId_inj WEBHOOK_DELIVERY_PREFIX).
  - intros r Hr.
    assert (exists i, d_id r = newId WEBHOOK_DELIVERY_PREFIX (delivery_ulid fr i)) as [i ->]; [|apply Hd].
    rewrite <- list_elem_of_In in Hr. apply list_elem_of_lookup in Hr. destruct Hr as [i Hr].
    rewrite list_lookup_imap in Hr. destruct (_ !! i); inversion Hr. by exists i.
Qed.

(** The two ways an emission can end. *)
Lemma emit_cases fr t appId d w :
  emitVerificationEventInTx fr t appId d w
  = (Return tt, mkWorld (emitted fr t appId d (db w))
                        (counted w ++ [webhookEventEmitted (event_text t)]) (background w))
  \/ exists name w', emitVerificationEventInTx fr t appId d w = (Throw (UniqueViolation name), w') /\
       In name ["webhook_events_pkey"; "webhook_deliveries_pkey"] /\ background w' = background w /\
       ~ fresh_for fr (db w).
Proof.
  assert (Hf := emit_fresh fr t appId d w). rewrite emit_eq in *.
  destruct (broken_by _ _ _) as [name|] eqn:E.
  - right. exists name, w. apply broken_by_pkey in E. subst. split; [done|]. split; [by left|].
    split; [done|]. intros F. by specialize (Hf F).
  - cbv zeta in *. destruct (insert_all_rows _ _ _) as [name|t'] eqn:Ei.
    + right. eexists name, _. split; [reflexivity|]. apply insert_all_rows_pkey in Ei. subst.
      split; [right; by left|]. split; [done|]. intros F. by specialize (Hf F).
    + left. apply insert_all_rows_app in Ei. by subst t'.
Qed.

(** *** Ordering is a permutation *)

Lemma insert_by_perm {A} (before : A -> A -> bool) x l : Permutation (insert_by before x l) (x :: l).
Proof.
  induction l as [|y l IH]; cbn; [done|]. destruct (before y x); [|done].
  rewrite IH. apply perm_swap.
Qed.

Lemma order_by_perm {A} (before : A -> A -> bool) l : Permutation (order_by before l) l.
Proof. induction l as [|x l IH]; cbn; [done|]. rewrite insert_by_perm. by rewrite IH. Qed.

(** ** Theorems *)

Lemma subscribed_iff t appId e :
  subscribed t appId e = true <->
  we_appId e = appId /\ we_enabled e = true /\ In (event_text t) (we_eventTypes e).
Proof.
  unfold subscribed. rewrite !andb_true_iff, String.eqb_eq, existsb_exists.
  split; [intros [[? ?] (x & ? & <-%String.eqb_eq)]; tauto|].
  intros (? & ? & ?). split; [tauto|]. exists (event_text t). by rewrite String.eqb_refl.
Qed.

(** The deliveries of an emission, endpoint by endpoint. *)
Lemma emitted_deliveries fr t appId D :
  Forall2 (fun e dl => d_endpointId dl = we_id e /\ d_status dl = wd_pending /\ d_attemptCount dl = 0%Z /\
                       d_eventId dl = newId WEBHOOK_EVENT_PREFIX (event_ulid fr) /\
                       d_eventType dl = event_text t /\ d_nextAttemptAt dl = emitted_at fr)
    (select (subscribed t appId) (webhookEndpoints D))
    (imap (delivery_row fr t) (select (subscribed t appId) (webhookEndpoints D))).
Proof.
  apply Forall2_same_length_lookup_2; [by rewrite length_imap|].
  intros i e dl E1 E2. rewrite list_lookup_imap, E1 in E2. by injection E2 as <-.
Qed.

(** What an emission that throws has already written: at most its event. *)
Lemma emit_partial fr t appId d w e w' :
  emitVerificationEventInTx fr t appId d w = (Throw e, w') ->
  db w' = db w \/ db w' = set_rows t_webhookEvents (webhookEvents (db w) ++ [event_row fr t appId d])%list (db w).
Proof.
  rewrite emit_eq. destruct (broken_by _ _ _); [intros [= _ <-]; by left|]. cbv zeta.
  destruct (insert_all_rows _ _ _); [|discriminate]. intros [= _ <-]. by right.
Qed.

(** C12: an emission that returns has stored exactly one event, of that type, app and
    verification, and one pending delivery with no attempt, due at once, for each
    enabled endpoint of the app subscribed to the type, in order and for no other
    endpoint; nothing else in the database has changed and the emission is counted
    once.  With new identifiers it returns.  It throws only when an event or
    delivery identifier is taken or drawn twice; it may then have inserted the
    event already, and the transaction it runs in leaves the database as it was. *)
Theorem emit_fans_out fr t appId d w :
  (forall e, subscribed t appId e = true <->
     we_appId e = appId /\ we_enabled e = true /\ In (event_text t) (we_eventTypes e)) /\
  (fresh_for fr (db w) -> exists w', emitVerificationEventInTx fr t appId d w = (Return tt, w')) /\
  match emitVerificationEventInTx fr t appId d w with
  | (Return _, w') => exists ev dls,
      w' = mkWorld (set_rows t_webhookDeliveries (webhookDeliveries (db w) ++ dls)%list
                      (set_rows t_webhookEvents (webhookEvents (db w) ++ [ev])%list (db w)))
             (counted w ++ [webhookEventEmitted (event_text t)]) (background w) /\
      ev_id ev = newId WEBHOOK_EVENT_PREFIX (event_ulid fr) /\ ev_appId ev = appId /\
      ev_eventType ev = event_text t /\ ev_verificationId ev = Some (verification_id d) /\
      Forall2 (fun e dl => d_endpointId dl = we_id e /\ d_status dl = wd_pending /\ d_attemptCount dl = 0%Z /\
                           d_eventId dl = ev_id ev /\ d_eventType dl = event_text t /\
                           d_nextAttemptAt dl = emitted_at fr)
        (select (subscribed t appId) (webhookEndpoints (db w))) dls
  | (Throw e, w') => ~ fresh_for fr (db w) /\
      (exists name, e = UniqueViolation name /\ In name ["webhook_events_pkey"; "webhook_deliveries_pkey"]) /\
      (db w' = db w \/
       db w' = set_rows t_webhookEvents (webhookEvents (db w) ++ [event_row fr t appId d])%list (db w)) /\
      transaction (emitVerificationEventInTx fr t appId d) w
      = (Throw e, mkWorld (db w) (counted w') (background w))
  end.
Proof.
  split; [intros e; apply subscribed_iff|]. split.
  { intros Hf. eexists. by apply emit_fresh. }
  destruct (emit_cases fr t appId d w) as [E|(name & w' & E & Hn & Hb & Hf)]; rewrite E.
  - eexists _, _. split; [reflexivity|]. do 4 (split; [done|]). apply emitted_deliveries.
  - split; [done|]. split; [by exists name|]. split; [by eapply emit_partial|].
    unfold transaction. by rewrite E, Hb.
Qed.

Definition sample_fresh : Fresh :=
  {| event_ulid := "E"; delivery_ulid := fun i => num_to_string (Z.of_nat i); emitted_at := 5 |}.

Lemma num_to_string_nat_inj i j :
  num_to_string (Z.of_nat i) = num_to_string (Z.of_nat j) -> i = j.
Proof. unfold num_to_string. intros H. apply (inj _) in H. lia. Qed.

Definition sample_endpoints : DB :=
  set_rows t_webhookEndpoints
    [mkWebhookEndpoint "whk_1" "app" "https://a" "c" true ["verification.verified"] 0 0;
     mkWebhookEndpoint "whk_2" "app" "https://b" "c" false ["verification.verified"] 0 0;
     mkWebhookEndpoint "whk_3" "app" "https://c" "c" true ["verification.expired"] 0 0] empty_db.

Lemma emit_fans_out_witness :
  let d := {| verification_id := "v"; data_status := "verified"; phone_masked := "***";
              data_purpose := "login"; client_ref := None; verified_at := None;
              expired_at := None; cancelled_at := None |} in
  List.length (webhookDeliveries (emitted sample_fresh ev_verified "app" d sample_endpoints)) = 1%nat /\
  exists w', emitVerificationEventInTx sample_fresh ev_verified "app" d (mkWorld sample_endpoints [] [])
  = (Return tt, w').
Proof.
  intros d. split; [reflexivity|].
  apply (emit_fans_out sample_fresh ev_verified "app" d (mkWorld sample_endpoints [] [])).
  split; [intros []|]. split; [apply num_to_string_nat_inj|]. intros i [].
Defined.

(** C38: the stored payload of a verification event is a function of the event, the
    verification's id, purpose and client reference, its relevant timestamp, and
    the masked phone: two rows that differ in code, receiver, snapshots, app, IP
    or the hidden digits of the phone give the same payload. *)
Theorem event_payload_confidential fr t appId v1 v2 :
  v_id v1 = v_id v2 -> v_purpose v1 = v_purpose v2 -> v_clientRef v1 = v_clientRef v2 ->
  v_verifiedAt v1 = v_verifiedAt v2 -> v_expiresAt v1 = v_expiresAt v2 ->
  v_cancelledAt v1 = v_cancelledAt v2 ->
  maskable (v_phoneE164 v1) = true -> maskable (v_phoneE164 v2) = true ->
  slen (v_phoneE164 v1) = slen (v_phoneE164 v2) ->
  slice_to (v_phoneE164 v1) (keepFront (v_phoneE164 v1))
  = slice_to (v_phoneE164 v2) (keepFront (v_phoneE164 v2)) ->
  slice_last (v_phoneE164 v1) 3 = slice_last (v_phoneE164 v2) 3 ->
  event_row fr t appId (buildVerificationEventData v1 t)
  = event_row fr t appId (buildVerificationEventData v2 t) /\
  (1 <= slen (v_phoneE164 v1) - keepFront (v_phoneE164 v1) - 3)%nat.
Proof.
  intros Ei Ep Ec Ev Ex Ea M1 M2 Hl Hf Hb. split; [|by apply maskPhone_stars].
  assert (buildVerificationEventData v1 t = buildVerificationEventData v2 t) as ->; [|done].
  unfold buildVerificationEventData.
  rewrite Ei, Ep, Ec, Ev, Ex, Ea, (maskPhone_hides _ _ M1 M2 Hl Hf Hb). done.
Qed.

Definition sample_row (phone code receiver : string) : Verification :=
  mkVerification "vrf_1" "app" phone "login" None None receiver None None code "VERIFY"
    verified 1 600 (Some 5%Z) None (Some "in_1") None 0.

Lemma event_payload_confidential_witness :
  let v1 := sample_row "+963991234567" "A7K9P2" "rcv_1" in
  let v2 := sample_row "+963990000567" "ZZZZZZ" "rcv_2" in
  event_row sample_fresh ev_verified "app" (buildVerificationEventData v1 ev_verified)
  = event_row sample_fresh ev_verified "app" (buildVerificationEventData v2 ev_verified).
Proof. intros v1 v2. apply (event_payload_confidential sample_fresh ev_verified "app" v1 v2); reflexivity. Defined.

(** What the loop keeps: the elements not seen before, each once, in order. *)
Lemma isValidEventType_spec s : isValidEventType s = true <-> In s VERIFICATION_EVENT_TYPES.
Proof.
  unfold isValidEventType. rewrite existsb_exists. split.
  - intros (x & Hx & E). apply String.eqb_eq in E. by subst.
  - intros H. exists s. by rewrite String.eqb_refl.
Qed.

Lemma existsb_eqb_In s l : existsb (String.eqb s) l = true <-> In s l.
Proof.
  rewrite existsb_exists. split.
  - intros (x & Hx & E). apply String.eqb_eq in E. by subst.
  - intros H. exists s. by rewrite String.eqb_refl.
Qed.

Definition valid_entry (j : json) : Prop := exists s, j = JStr s /\ In s VERIFICATION_EVENT_TYPES.

Lemma validate_loop_spec input seen out :
  (forall s, In s seen <-> In s out) -> NoDup out ->
  match validate_loop seen out input with
  | Return res => NoDup res /\ (forall s, In s res <-> In s out \/ In (JStr s) input) /\
                  Forall valid_entry input /\ exists l, res = (out ++ l)%list
  | Throw e => (exists m, e = badRequest "validation_error" m) /\ ~ Forall valid_entry input
  end.
Proof.
  revert seen out. induction input as [|v input IH]; intros seen out Hs Hn; cbn [validate_loop].
  { split; [done|]. split; [intros s; cbn; tauto|]. split; [constructor|]. exists []. by rewrite app_nil_r. }
  assert (Bad : forall e, (forall s, v = JStr s -> isValidEventType s = false) ->
    e = badRequest "validation_error" ("unknown event_type: " ++ slice_to (js_String v) 64) ->
    (exists m, e = badRequest "validation_error" m) /\ ~ Forall valid_entry (v :: input)).
  { intros e Hv ->. split; [eauto|]. intros F. apply Forall_inv in F. destruct F as (s & E & Hin).
    apply isValidEventType_spec in Hin. specialize (Hv s E). congruence. }
  destruct v as [| | |s| |]; try (apply Bad; [discriminate|done]).
  destruct (isValidEventType s) eqn:Ev; cbn [negb]; [|apply Bad; [congruence|done]].
  assert (Hv : valid_entry (JStr s)) by (exists s; by rewrite <- isValidEventType_spec).
  destruct (existsb (String.eqb s) seen) eqn:Es.
  - apply existsb_eqb_In in Es. specialize (IH seen out Hs Hn).
    destruct (validate_loop seen out input) as [res|e].
    + destruct IH as (Hd & Hi & Hf & He). split; [done|]. split; [|split; [by constructor|done]].
      intros x. rewrite Hi. cbn. split; [tauto|]. intros [H|[[= <-]|H]]; auto.
      left. by apply Hs.
    + destruct IH as [He Hf]. split; [done|]. intros F. by inversion F.
  - assert (Hns : ~ In s out).
    { intros H. apply Hs, existsb_eqb_In in H. congruence. }
    assert (Hs' : forall x, In x (s :: seen) <-> In x (out ++ [s])%list).
    { intros x. rewrite in_app_iff. cbn. rewrite Hs. tauto. }
    assert (Hn' : NoDup (out ++ [s])%list).
    { apply NoDup_app. split; [done|]. split; [|apply NoDup_singleton].
      intros x Hx. rewrite list_elem_of_singleton. intros ->. apply Hns. by apply list_elem_of_In. }
    specialize (IH _ _ Hs' Hn').
    destruct (validate_loop _ _ input) as [res|e].
    + destruct IH as (Hd & Hi & Hf & l & ->). split; [done|].
      split; [|split; [by constructor|]]; [|exists (s :: l); by rewrite <- app_assoc].
      intros x. rewrite Hi, in_app_iff. cbn. split.
      * intros [[H|[->|[]]]|H]; auto.
      * intros [H|[[= ->]|H]]; auto.
    + destruct IH as [He Hf]. split; [done|]. intros F. by inversion F.
Qed.

(** [uniqueValidatedEventTypes] returns exactly when its argument is a
    non-empty array of known event types, and then its result has no duplicates
    and the same elements as the argument; otherwise it throws a
    [validation_error]. *)
Theorem uniqueValidatedEventTypes_spec input :
  match uniqueValidatedEventTypes input with
  | Return out => exists l, input = JArr l /\ l <> [] /\ NoDup out /\
                  (forall s, In s out <-> In (JStr s) l) /\
                  (forall s, In s out -> In s VERIFICATION_EVENT_TYPES) /\ out <> []
  | Throw e => (exists m, e = badRequest "validation_error" m) /\
               ~ exists l, input = JArr l /\ l <> [] /\ Forall valid_entry l
  end.
Proof.
  destruct input as [| | | |[|v l]|]; cbn [uniqueValidatedEventTypes];
    try (split; [eauto|intros (l & E & H & _); congruence]).
  assert (H := validate_loop_spec (v :: l) [] [] ltac:(done) ltac:(constructor)).
  destruct (validate_loop [] [] (v :: l)) as [out|e].
  - destruct H as (Hd & Hi & Hf & _). exists (v :: l).
    assert (Hi' : forall s, In s out <-> In (JStr s) (v :: l)).
    { intros s. rewrite Hi. cbn. tauto. }
    split; [done|]. split; [done|]. split; [done|]. split; [done|].
    rewrite List.Forall_forall in Hf. split.
    + intros s Hs. apply Hi' in Hs. destruct (Hf _ Hs) as (s' & [= ->] & Hin). done.
    + destruct (Hf v ltac:(by left)) as (s & -> & _). intros ->. apply (Hi' s). by left.
  - destruct H as [He Hf]. split; [done|]. intros (l' & [= <-] & _ & F). done.
Qed.

(** Registering an endpoint either throws and changes nothing, or it had a safe
    URL and fewer than [MAX_ENDPOINTS_PER_APP] endpoints in the app, adds exactly
    one enabled endpoint and returns its public view; the stored ciphertext,
    bound to the endpoint's id, opens to the secret returned to the caller. *)
Theorem createWebhookEndpoint_spec `{UrlParser} `{Resolver} `{Gcm} env masterKey ulid bytes iv now input w :
  match createWebhookEndpoint env masterKey ulid bytes iv now input w with
  | (Throw _, w') => w' = w
  | (Return r, w') =>
      validateUrl env (cw_url input) = Return tt /\
      exists row, db w' = set_rows t_webhookEndpoints (webhookEndpoints (db w) ++ [row])%list (db w) /\
        counted w' = counted w /\ background w' = background w /\
        wes_public r = toPublic row /\ we_appId row = cw_appId input /\ we_url row = cw_url input /\
        we_enabled row = true /\
        (forall s, In s (we_eventTypes row) <-> In s (cw_eventTypes input)) /\
        unwrap masterKey (we_secretCiphertext row) (Some (aadFor (we_id row))) = Return (wes_secret r) /\
        (List.length (select (fun e => String.eqb (we_appId e) (cw_appId input))
                        (webhookEndpoints (db w'))) <= MAX_ENDPOINTS_PER_APP)%nat
  end.
Proof.
  unfold createWebhookEndpoint. unfold bind at 1, lift at 1.
  destruct (validateUrl env (cw_url input)) as [[]|e]; [|done].
  unfold bind at 1, lift at 1.
  destruct (uniqueValidatedEventTypes (JArr (map JStr (cw_eventTypes input)))) as [events|e] eqn:Ee; [|done].
  autorewrite with js. cbn [rows t_webhookEndpoints].
  destruct (MAX_ENDPOINTS_PER_APP <=? _)%nat eqn:El; [done|].
  unfold bind at 1, lift at 1. 
  destruct (wrap iv masterKey (generateWebhookSecret bytes) (Some (aadFor (newId WEBHOOK_ENDPOINT_PREFIX ulid))))
    as [c|e] eqn:Ew; [|done].
  unfold bind at 1. rewrite insert_eq. cbn [rows t_webhookEndpoints].
  destruct (broken_by _ _ _) eqn:Eb; [done|]. unfold ret, set_db. cbn [db counted background].
  split; [done|]. eexists. split; [reflexivity|]. do 6 (split; [reflexivity|]).
  split; [|split]; cbn [we_eventTypes we_secretCiphertext we_id wes_secret].
  - assert (V := validate_loop_spec (map JStr (cw_eventTypes input)) [] [] ltac:(done) ltac:(constructor)).
    destruct (map JStr (cw_eventTypes input)) as [|x l] eqn:Em; [done|].
    cbn [uniqueValidatedEventTypes] in Ee. rewrite Ee in V. destruct V as (_ & Hi & _).
    intros s. rewrite Hi, <- Em, in_map_iff. cbn. split.
    + intros [[]|(y & [= ->] & Hy)]; done.
    + intros Hs. right. eauto.
  - by eapply wrap_Return.
  - unfold select. cbn [webhookEndpoints set_rows t_webhookEndpoints].
    rewrite List.filter_app, length_app. cbn [List.filter we_appId].
    rewrite String.eqb_refl. cbn [List.length].
    apply Nat.leb_gt in El. unfold select in El. lia.
Qed.

(** A parser that knows one host, for the witnesses. *)
Definition example_parser : UrlParser := {| parseUrl _ := Some (url_of "93.184.216.34") |}.

Lemma createWebhookEndpoint_spec_witness :
  let P := example_parser in let R := rebinding_resolver in let G := plain_gcm in
  let input := {| cw_appId := "app"; cw_url := "https://93.184.216.34/";
                  cw_eventTypes := ["verification.verified"; "verification.verified"] |} in
  let run := createWebhookEndpoint production (repeat_char "0"%char 64) "1" "r" "iv" 7 input
               (mkWorld empty_db [] []) in
  returned (fst run) = true /\
  match run with
  | (Throw _, w') => w' = mkWorld empty_db [] []
  | (Return r, w') => exists row, webhookEndpoints (db w') = [row] /\
      unwrap (repeat_char "0"%char 64) (we_secretCiphertext row) (Some (aadFor (we_id row)))
      = Return (wes_secret r)
  end.
Proof.
  intros P R G input run. split; [vm_compute; reflexivity|].
  pose proof (createWebhookEndpoint_spec production (repeat_char "0"%char 64) "1" "r" "iv" 7 input
                (mkWorld empty_db [] [])) as S.
  fold run in S. destruct run as [[r|e] w']; [|exact S].
  destruct S as (_ & row & E & _ & _ & _ & _ & _ & _ & _ & U & _).
  exists row. split; [|exact U]. rewrite E. reflexivity.
Defined.
