(* ===== verification/SmsBody.v ===== *)
(** * SMS commands

    [extractCode] and [extractBindNonce] read a keyword followed by a token, and
    tolerate case and white space.  This file has the grammar they share and its
    laws; the two functions are shown to follow it where they are modelled. *)

From S2P Require Import Prelude JsString.
From Stdlib Require Import String Ascii.

Open Scope string_scope.

Section Grammar.
Variables (keyword : string) (lo hi : nat).

(** What a body says, if it is a command: the canonical token. *)
Definition parse_command (body : string) : option string :=
  let upper := toUpperCase (trim body) in
  if negb (startsWith upper keyword) then None
  else
    let tail := remove_ws (slice_from upper (slen keyword)) in
    if (slen tail <? lo)%nat || (hi <? slen tail)%nat then None
    else if negb (all_chars is_AZ09 tail) then None
    else Some tail.

Definition token (s : string) : Prop :=
  (lo <= slen s <= hi)%nat /\ all_chars is_AZ09 s = true.

Hypothesis keyword_upper : all_chars is_AZ09 keyword = true.
Hypothesis keyword_nonempty : keyword <> "".

Lemma append_nil_r s : s ++ "" = s.
Proof. induction s as [|c s IH]; cbn; [done|]. by rewrite IH. Qed.

Lemma trimEnd_upper s : toUpperCase (trimEnd s) = trimEnd (toUpperCase s).
Proof.
  unfold toUpperCase. induction s as [|c s IH]; cbn; [done|]. rewrite <- IH.
  destruct (trimEnd s); cbn; [|done]. rewrite upper_char_ws. by destruct (is_ws c).
Qed.

Lemma trimEnd_prefix k s :
  all_chars (fun c => negb (is_ws c)) k = true -> k <> "" -> trimEnd (k ++ s) = k ++ trimEnd s.
Proof.
  induction k as [|c k IH]; cbn; [done|]. rewrite andb_true_iff, negb_true_iff.
  intros [Hc Hk] _. destruct (decide (k = "")) as [->|Hne].
  - cbn. destruct (trimEnd s); [by rewrite Hc|done].
  - rewrite IH by done. by destruct k.
Qed.

Lemma AZ09_no_ws s : all_chars is_AZ09 s = true -> all_chars (fun c => negb (is_ws c)) s = true.
Proof. apply all_chars_impl. intros c Hc. by rewrite AZ09_not_ws. Qed.

(** White space around the body, any letter case, and any white space after the
    keyword or inside the token are tolerated. *)
Lemma parse_command_tolerant w1 w2 text rest tok :
  all_chars is_ws w1 = true -> all_chars is_ws w2 = true ->
  toUpperCase text = keyword ++ rest -> remove_ws rest = tok -> token tok ->
  parse_command (w1 ++ text ++ w2) = Some tok.
Proof.
  intros H1 H2 Ht Hr [Hl Ha]. unfold parse_command, trim.
  rewrite trimStart_app_ws by done.
  assert (Hs : trimStart (text ++ w2) = text ++ w2).
  { destruct text as [|c text]; [destruct keyword; done|].
    destruct keyword as [|k kw] eqn:Ek; [done|]. cbn in Ht. injection Ht as Hc _.
    cbn [String.append trimStart]. rewrite <- upper_char_ws, Hc.
    cbn in keyword_upper. apply andb_true_iff in keyword_upper.
    by rewrite AZ09_not_ws by apply keyword_upper. }
  rewrite Hs, trimEnd_app_ws by done. rewrite trimEnd_upper, Ht, trimEnd_prefix
    by (done || by apply AZ09_no_ws).
  rewrite startsWith_app, slice_from_app, remove_ws_trimEnd, Hr. cbn [negb].
  replace (slen tok <? lo)%nat with false by (symmetry; apply Nat.ltb_ge; lia).
  replace (hi <? slen tok)%nat with false by (symmetry; apply Nat.ltb_ge; lia).
  by rewrite Ha.
Qed.

(** What is parsed is a canonical token after the keyword. *)
Lemma parse_command_Some body tok :
  parse_command body = Some tok -> token tok /\ startsWith (toUpperCase (trim body)) keyword = true.
Proof.
  unfold parse_command. cbv zeta. destruct (startsWith _ keyword); cbn [negb]; [|done].
  destruct (_ || _) eqn:E; [done|].
  destruct (all_chars is_AZ09 (remove_ws _)) eqn:Ea; cbn [negb]; [|done]. intros Et.
  injection Et as <-. apply orb_false_iff in E. rewrite !Nat.ltb_ge in E. split; [|done]. split; [lia|done].
Qed.

Lemma parse_command_canonical tok : token tok -> parse_command (keyword ++ " " ++ tok) = Some tok.
Proof.
  intros H.
  pose proof (parse_command_tolerant "" "" (keyword ++ " " ++ tok) (" " ++ tok) tok
                eq_refl eq_refl) as P.
  cbn [String.append] in P. rewrite append_nil_r in P. apply P; [| |done].
  - unfold toUpperCase. rewrite smap_app. f_equal; [by apply toUpperCase_fixed|].
    cbn. f_equal. by apply toUpperCase_fixed, H.
  - change (" " ++ tok) with (String " "%char tok). unfold remove_ws. cbn.
    by apply remove_ws_fixed, H.
Qed.
End Grammar.

Lemma remove_ws_space s : remove_ws (" " ++ s) = remove_ws s.
Proof. reflexivity. Qed.

(** Two commands whose keywords start with different letters exclude each other. *)
Lemma parse_command_disjoint c k lo hi d l lo' hi' body :
  c <> d -> parse_command (String c k) lo hi body <> None ->
  parse_command (String d l) lo' hi' body = None.
Proof.
  intros Hcd H. unfold parse_command in *.
  destruct (toUpperCase (trim body)) as [|x s]; cbn [startsWith] in *; [done|].
  destruct (Ascii.eqb_spec c x) as [->|]; cbn [andb negb] in *; [|done].
  destruct (Ascii.eqb_spec d x); [congruence|]. done.
Qed.
