(* ===== verification/PhoneBindings.v ===== *)
(** * Phone-binding ceremony: [services/phoneBindings.ts]

    A binding row goes from [pending] to [verified] when an inbound SMS carries
    its nonce from the claimed phone through its receiver before it expires, and
    to [revoked] on request.  Fresh identifiers, nonces and clock readings are
    arguments. *)

From S2P Require Import Prelude JsString Json Errors Phone Crypto Config Schema SmsBody.
From Stdlib Require Import String Ascii.

Open Scope string_scope.
Open Scope js_scope.

(** [binding] of the API: the nonce is not part of it. *)
Record PhoneBinding : Type := {
  pb_id : string; pb_app_id : string; pb_receiver_id : string; pb_phone_e164 : string;
  pb_status : string; pb_expires_at : string; pb_bound_at : option string;
  pb_revoked_at : option string; pb_created_at : string;
}.

Record StartBindingInput : Type := { sb_appId : string; sb_receiverId : string; sb_phone : string }.

Record StartBindingResult : Type := {
  binding : PhoneBinding; sb_send_to : string; bind_message : string;
}.


Definition NONCE_ALPHABET : string := "ABCDEFGHJKLMNPQRSTUVWXYZ23456789".

(** [bytes i] is the [i]-th of the 24 random bytes. *)
Definition generateNonce (bytes : nat -> nat) : string :=
  draw_chars NONCE_ALPHABET (fun i => bytes i mod slen NONCE_ALPHABET)%nat 0 24.

Definition rowToPublic (row : PhoneBindingRow) : PhoneBinding := {|
  pb_id := b_id row; pb_app_id := b_appId row; pb_receiver_id := b_receiverId row;
  pb_phone_e164 := b_phoneE164 row; pb_status := b_status row;
  pb_expires_at := toISOString (b_expiresAt row);
  pb_bound_at := toISOString <$> b_boundAt row;
  pb_revoked_at := toISOString <$> b_revokedAt row;
  pb_created_at := toISOString (b_createdAt row);
|}.

(** [app_id = .. AND phone_e164 = .. AND status = 'verified'] *)
Definition verified_binding (appId phone : string) (b : PhoneBindingRow) : bool :=
  String.eqb (b_appId b) appId && String.eqb (b_phoneE164 b) phone && String.eqb (b_status b) "verified".

Definition receiver_of_app (appId id : string) (r : Receiver) : bool :=
  String.eqb (r_id r) id && String.eqb (r_appId r) appId.

(** [dbNow] is the clock of the database, for [created_at]. *)
Definition startBinding `{PhoneLib} `{Limit1} (cfg : Config) (ulid : string) (bytes : nat -> nat)
    (now dbNow : Z) (input : StartBindingInput) : SM StartBindingResult :=
  let! n := (fun w => (normalizePhone (sb_phone input) (DEFAULT_PHONE_REGION cfg), w)) in
  let phoneE164 := e164 n in
  let! r := select_one t_receivers (receiver_of_app (sb_appId input) (sb_receiverId input)) in
  match r with
  | None => throw (notFound "receiver")
  | Some r =>
      do! throw_if (negb (r_enabled r)) (conflict "receiver_disabled" "receiver is disabled") in
      let! existing := select_one t_phoneBindings (verified_binding (sb_appId input) phoneE164) in
      do! throw_if (bool_decide (is_Some existing))
            (conflict "already_bound"
               "phone is already verified-bound; revoke the existing binding first") in
      let id := newId PHONE_BINDING_PREFIX ulid in
      let nonce := generateNonce bytes in
      let expiresAt := (now + PHONE_BINDING_TTL_SECONDS cfg * 1000)%Z in
      do! insert t_phoneBindings phoneBindings_idx
            (mkPhoneBinding id (sb_appId input) (sb_receiverId input) phoneE164 "pending" nonce
               expiresAt None None dbNow) in
      ret {| binding := {| pb_id := id; pb_app_id := sb_appId input;
                           pb_receiver_id := sb_receiverId input; pb_phone_e164 := phoneE164;
                           pb_status := "pending"; pb_expires_at := toISOString expiresAt;
                           pb_bound_at := None; pb_revoked_at := None;
                           pb_created_at := toISOString now |};
             sb_send_to := r_msisdn r;
             bind_message := "BIND " ++ nonce |}
  end.

Definition binding_is (appId id : string) (b : PhoneBindingRow) : bool :=
  String.eqb (b_id b) id && String.eqb (b_appId b) appId.

Definition getBinding `{Limit1} (appId id : string) : SM PhoneBinding :=
  let! row := select_one t_phoneBindings (binding_is appId id) in
  match row with
  | None => throw (notFound "phone_binding")
  | Some row => ret (rowToPublic row)
  end.

(** [SET status = .., revoked_at = ..], [SET status = .., bound_at = ..] *)
Definition set_revoked (at_ : Z) (b : PhoneBindingRow) : PhoneBindingRow :=
  mkPhoneBinding (b_id b) (b_appId b) (b_receiverId b) (b_phoneE164 b) "revoked" (b_nonce b)
    (b_expiresAt b) (b_boundAt b) (Some at_) (b_createdAt b).
Definition set_bound (at_ : Z) (b : PhoneBindingRow) : PhoneBindingRow :=
  mkPhoneBinding (b_id b) (b_appId b) (b_receiverId b) (b_phoneE164 b) "verified" (b_nonce b)
    (b_expiresAt b) (Some at_) (b_revokedAt b) (b_createdAt b).

Definition revokeBinding (now : Z) (appId id : string) : SM PhoneBinding :=
  let! result := update t_phoneBindings (binding_is appId id) (set_revoked now) in
  match result with
  | [] => throw (notFound "phone_binding")
  | row :: _ => ret (rowToPublic row)
  end.

Record ConsumeBindNonceInput : Type := {
  cb_receiverId : string; cb_fromE164 : string; cb_nonce : string;
}.

Inductive ConsumeBindNonceOutcome : Type :=
  | BindMatched (bindingId appId : string)
  | BindRefused (reason : string).

(** The WHERE clause of the claim. *)
Definition claimable (input : ConsumeBindNonceInput) (serverNow : Z) (b : PhoneBindingRow) : bool :=
  String.eqb (b_nonce b) (cb_nonce input) && String.eqb (b_status b) "pending" &&
  String.eqb (b_receiverId b) (cb_receiverId input) && String.eqb (b_phoneE164 b) (cb_fromE164 input) &&
  (serverNow <? b_expiresAt b)%Z.

Definition consumeBindNonce `{Limit1} (serverNow : Z) (input : ConsumeBindNonceInput)
    : SM ConsumeBindNonceOutcome :=
  let! claimed := update_checked t_phoneBindings phoneBindings_idx (claimable input serverNow)
                    (set_bound serverNow) in
  match claimed with
  | row :: _ => ret (BindMatched (b_id row) (b_appId row))
  | [] =>
      let! probe := select_one t_phoneBindings (fun b => String.eqb (b_nonce b) (cb_nonce input)) in
      ret (match probe with
           | None => BindRefused "no_match"
           | Some p =>
               if negb (String.eqb (b_status p) "pending") then BindRefused "already_consumed"
               else if (b_expiresAt p <=? serverNow)%Z then BindRefused "expired"
               else if negb (String.eqb (b_receiverId p) (cb_receiverId input))
                       || negb (String.eqb (b_phoneE164 p) (cb_fromE164 input))
               then BindRefused "phone_mismatch"
               else BindRefused "no_match"
           end)
  end.

Definition extractBindNonce (body : string) : option string :=
  let upper := toUpperCase (trim body) in
  if negb (startsWith upper "BIND") then None
  else
    let tail := remove_ws (slice_from upper 4) in
    if (slen tail <? 8)%nat || (64 <? slen tail)%nat then None
    else if negb (all_chars is_AZ09 tail) then None
    else Some tail.

(** ** Lemmas *)

Lemma extractBindNonce_eq body : extractBindNonce body = parse_command "BIND" 8 64 body.
Proof. reflexivity. Qed.

(** Every generated nonce is a token of the BIND grammar. *)
Lemma generateNonce_token bytes : token 8 64 (generateNonce bytes).
Proof.
  unfold generateNonce, token. rewrite draw_chars_length. split; [lia|].
  apply draw_chars_class. by apply char_at_class.
Qed.

Lemma update_where_app {A} p (f : A -> A) t u :
  update_where p f (t ++ u) = (update_where p f t ++ update_where p f u)%list.
Proof. unfold update_where. apply map_app. Qed.

Lemma select_app {A} (p : A -> bool) t u : select p (t ++ u) = (select p t ++ select p u)%list.
Proof. apply List.filter_app. Qed.

(** A claim that matches exactly the last row of the table. *)
Lemma consume_last `{Limit1} now input w t r :
  phoneBindings (db w) = (t ++ [r])%list ->
  respects phoneBindings_idx t ->
  (forall x, In x t -> claimable input now x = false) ->
  claimable input now r = true ->
  ~ In (b_id r) (map b_id t) ->
  (forall x, In x t -> verified_binding (b_appId r) (b_phoneE164 r) x = false) ->
  consumeBindNonce now input w
  = (Return (BindMatched (b_id r) (b_appId r)),
     set_db (set_rows t_phoneBindings (t ++ [set_bound now r])%list) w).
Proof.
  intros Et Ht Hno Hr Hid Hver.
  assert (Hs : select (claimable input now) t = []) by by apply select_nil_iff.
  assert (Hu : update_where (claimable input now) (set_bound now) (rows t_phoneBindings (db w))
               = (t ++ [set_bound now r])%list).
  { cbn [rows t_phoneBindings]. rewrite Et, update_where_app, update_where_none by done.
    cbn. by rewrite Hr. }
  unfold consumeBindNonce. unfold bind at 1. rewrite update_checked_ok.
  - rewrite Hu. unfold updated. cbn [rows t_phoneBindings]. rewrite Et, select_app, Hs. cbn.
    by rewrite Hr.
  - rewrite Hu. apply respects_insert; [done|]. apply broken_by_None.
    constructor; [by apply clashes_pkey|]. constructor; [|constructor].
    apply clashes_false. intros x Hx. specialize (Hver x Hx). unfold verified_binding in Hver.
    cbn. destruct (String.eqb (b_status x) "verified"); cbn; [|done].
    by rewrite andb_true_r in Hver.
Qed.

#[local] Opaque generateNonce.

(** What a successful [startBinding] did. *)
Definition started_row (cfg : Config) (ulid : string) (bytes : nat -> nat) (now dbNow : Z)
    (input : StartBindingInput) (phone : string) : PhoneBindingRow :=
  mkPhoneBinding (newId PHONE_BINDING_PREFIX ulid) (sb_appId input) (sb_receiverId input) phone
    "pending" (generateNonce bytes) (now + PHONE_BINDING_TTL_SECONDS cfg * 1000)%Z None None dbNow.

Lemma startBinding_cases `{PhoneLib} `{Limit1} cfg ulid bytes now dbNow input w :
  let run := startBinding cfg ulid bytes now dbNow input w in
  (exists e, run = (Throw e, w)) \/
  (exists n r res,
     let row := started_row cfg ulid bytes now dbNow input (e164 n) in
     normalizePhone (sb_phone input) (DEFAULT_PHONE_REGION cfg) = Return n /\
     In r (receivers (db w)) /\ receiver_of_app (sb_appId input) (sb_receiverId input) r = true /\
     r_enabled r = true /\
     (forall b, In b (phoneBindings (db w)) -> verified_binding (sb_appId input) (e164 n) b = false) /\
     broken_by phoneBindings_idx row (phoneBindings (db w)) = None /\
     bind_message res = "BIND " ++ generateNonce bytes /\ sb_send_to res = r_msisdn r /\
     pb_id (binding res) = b_id row /\
     run = (Return res, set_db (set_rows t_phoneBindings (phoneBindings (db w) ++ [row])%list) w)).
Proof.
  cbv zeta. destruct (startBinding cfg ulid bytes now dbNow input w) as [o w'] eqn:E. revert E.
  unfold startBinding. unfold bind at 1.
  destruct (normalizePhone _ _) as [n|e] eqn:En; [|intros [= <- <-]; left; eauto].
  autorewrite with js. cbn [rows t_receivers].
  destruct (limit1 _) as [r|] eqn:Er; [|intros [= <- <-]; left; eauto].
  apply limit1_In, select_In in Er. destruct Er as [Hr Hq].
  autorewrite with js. destruct (r_enabled r) eqn:Hen; cbn [negb]; [|intros [= <- <-]; left; eauto].
  autorewrite with js. cbn [rows t_phoneBindings].
  destruct (limit1 _) as [b|] eqn:Eb.
  { rewrite bool_decide_true by eauto. intros [= <- <-]. left; eauto. }
  rewrite bool_decide_false by (by intros [? ?]).
  apply limit1_None in Eb. rewrite select_nil_iff in Eb.
  unfold bind at 1. rewrite insert_eq. cbn [rows t_phoneBindings].
  destruct (broken_by _ _ _) as [name|] eqn:Ei; intros [= <- <-]; [left; eauto|].
  right. exists n, r. eexists. cbv zeta. unfold started_row.
  do 6 (split; [done|]). split; [|split; [|split; [|reflexivity]]]; reflexivity.
Qed.

(** ** Theorems *)

(** C11: the ceremony completes: the message [startBinding] hands out, sent in any
    letter case and with any surrounding white space from the normalized phone
    through the same receiver before the deadline, promotes that binding and no
    other row, and the binding is then the verified one of its (app, phone). *)
Theorem bind_ceremony_completes `{PhoneLib} `{Limit1} cfg ulid bytes now dbNow input w res w1
    w_left w_right text serverNow n :
  respects phoneBindings_idx (phoneBindings (db w)) ->
  (forall b, In b (phoneBindings (db w)) -> b_nonce b <> generateNonce bytes) ->
  startBinding cfg ulid bytes now dbNow input w = (Return res, w1) ->
  normalizePhone (sb_phone input) (DEFAULT_PHONE_REGION cfg) = Return n ->
  all_chars is_ws w_left = true -> all_chars is_ws w_right = true ->
  toUpperCase text = bind_message res ->
  (serverNow < now + PHONE_BINDING_TTL_SECONDS cfg * 1000)%Z ->
  exists nonce w2,
    extractBindNonce (w_left ++ text ++ w_right) = Some nonce /\
    consumeBindNonce serverNow {| cb_receiverId := sb_receiverId input; cb_fromE164 := e164 n; cb_nonce := nonce |} w1
    = (Return (BindMatched (pb_id (binding res)) (sb_appId input)), w2) /\
    select (verified_binding (sb_appId input) (e164 n)) (phoneBindings (db w2))
    = [set_bound serverNow (started_row cfg ulid bytes now dbNow input (e164 n))] /\
    phoneBindings (db w2)
    = (phoneBindings (db w) ++ [set_bound serverNow (started_row cfg ulid bytes now dbNow input (e164 n))])%list.
Proof.
  intros Hidx Hnonce Hrun Hn Hw1 Hw2 Htext Htime.
  destruct (startBinding_cases cfg ulid bytes now dbNow input w) as
    [[e E]|(n' & r & res' & En & _ & _ & _ & Hver & Hb & Hm & _ & Hid & E)]; [congruence|].
  assert (n' = n) as -> by congruence. rewrite E in Hrun. injection Hrun as <- <-.
  set (row := started_row cfg ulid bytes now dbNow input (e164 n)) in *.
  exists (generateNonce bytes), (set_db (set_rows t_phoneBindings
    (phoneBindings (db w) ++ [set_bound serverNow row])%list) w).
  split; [|split; [|split]].
  - rewrite extractBindNonce_eq.
    apply (parse_command_tolerant "BIND" 8 64 eq_refl ltac:(done) w_left w_right text (" " ++ generateNonce bytes));
      [done|done|by rewrite Htext, Hm| |apply generateNonce_token].
    rewrite remove_ws_space. apply remove_ws_fixed, generateNonce_token.
  - rewrite Hid.
    etransitivity; [apply (consume_last serverNow _ _ (phoneBindings (db w)) row)|reflexivity];
      [reflexivity|exact Hidx| | | |exact Hver].
    + intros x Hx. unfold claimable. cbn [cb_nonce].
      destruct (String.eqb_spec (b_nonce x) (generateNonce bytes)); [|done]. by destruct (Hnonce x Hx).
    + unfold claimable, row, started_row. cbn. rewrite !String.eqb_refl. cbn. by apply Z.ltb_lt.
    + apply broken_by_None, Forall_inv in Hb. by apply clashes_pkey in Hb.
  - cbn [phoneBindings db set_db set_rows t_phoneBindings]. rewrite select_app.
    rewrite (proj2 (select_nil_iff (verified_binding _ _) _) Hver). cbn.
    unfold verified_binding, row, started_row. cbn. by rewrite !String.eqb_refl.
  - done.
Qed.

(** The [WHERE] clauses, spelled out. *)
Lemma claimable_iff input serverNow b :
  claimable input serverNow b = true <->
  b_nonce b = cb_nonce input /\ b_status b = "pending" /\ b_receiverId b = cb_receiverId input /\
  b_phoneE164 b = cb_fromE164 input /\ (serverNow < b_expiresAt b)%Z.
Proof. unfold claimable. rewrite !andb_true_iff, !String.eqb_eq, Z.ltb_lt. tauto. Qed.

Lemma verified_binding_iff appId phone b :
  verified_binding appId phone b = true <->
  b_appId b = appId /\ b_phoneE164 b = phone /\ b_status b = "verified".
Proof. unfold verified_binding. rewrite !andb_true_iff, !String.eqb_eq. tauto. Qed.

(** Two bindings of one app and phone, one of them to be verified and the other
    verified or to be verified too: what the partial unique index refuses. *)
Lemma second_binding input serverNow t :
  respects phoneBindings_idx t ->
  no_conflict (snd phone_bindings_active_uq)
    (update_where (claimable input serverNow) (set_bound serverNow) t) = false ->
  exists b b', In b t /\ In b' t /\ b_id b' <> b_id b /\ claimable input serverNow b = true /\
    b_appId b' = b_appId b /\ b_phoneE164 b' = b_phoneE164 b /\
    (b_status b' = "verified" \/ claimable input serverNow b' = true).
Proof.
  intros Ht Hc. apply no_conflict_false in Hc. destruct Hc as (l & x & m & y & r & Et & Hc).
  unfold update_where in Et. apply map_eq_app in Et. destruct Et as (l0 & t1 & -> & _ & Et).
  apply map_eq_cons in Et. destruct Et as (x0 & t2 & -> & <- & Et).
  apply map_eq_app in Et. destruct Et as (m0 & t3 & -> & _ & Et).
  apply map_eq_cons in Et. destruct Et as (y0 & r0 & -> & <- & _).
  assert (Hx : In x0 (l0 ++ x0 :: m0 ++ y0 :: r0)) by (apply in_or_app; right; by left).
  assert (Hy : In y0 (l0 ++ x0 :: m0 ++ y0 :: r0))
    by (apply in_or_app; right; right; apply in_or_app; right; by left).
  assert (Hid : b_id x0 <> b_id y0).
  { apply pkey_nodup in Ht. rewrite !map_app in Ht. cbn in Ht. rewrite map_app in Ht. cbn in Ht.
    apply NoDup_remove_2 in Ht. intros E. apply Ht. rewrite E.
    apply in_or_app. right. apply in_or_app. right. by left. }
  assert (Hold : forall u v, In u (l0 ++ x0 :: m0 ++ y0 :: r0) -> In v (l0 ++ x0 :: m0 ++ y0 :: r0) ->
    b_id u <> b_id v -> b_status u = "verified" -> b_status v = "verified" ->
    b_appId u = b_appId v -> b_phoneE164 u = b_phoneE164 v -> False).
  { intros u v Hu Hv Hn Eu Ev Ea Ep. apply Hn. f_equal. apply Forall_inv_tail, Forall_inv in Ht.
    apply (no_conflict_spec _ _ u v Ht); try done; cbn; rewrite Eu, Ev, Ea, Ep, !String.eqb_refl; done. }
  cbn in Hc. destruct (claimable input serverNow x0) eqn:Cx.
  - exists x0, y0. destruct (claimable input serverNow y0) eqn:Cy; cbn in Hc; destruct_and_ex; reflect_eqb;
      (split; [done|split; [done|split; [congruence|split; [done|split; [done|split; [done|auto]]]]]]).
  - destruct (claimable input serverNow y0) eqn:Cy; cbn in Hc; destruct_and_ex; reflect_eqb.
    + exists y0, x0. auto 10.
    + exfalso. by apply (Hold x0 y0).
Qed.

(** The outcomes of a claim, with the reason of each. *)
Lemma consume_outcome `{Limit1} serverNow input w :
  let t := phoneBindings (db w) in
  respects phoneBindings_idx t ->
  (exists b, In b t /\ claimable input serverNow b = true /\
     consumeBindNonce serverNow input w
     = (Return (BindMatched (b_id b) (b_appId b)),
        set_db (set_rows t_phoneBindings (update_where (claimable input serverNow) (set_bound serverNow) t)) w)) \/
  ((forall b, In b t -> claimable input serverNow b = false) /\
   exists reason, consumeBindNonce serverNow input w = (Return (BindRefused reason), w)) \/
  ((exists b b', In b t /\ In b' t /\ b_id b' <> b_id b /\ claimable input serverNow b = true /\
      b_appId b' = b_appId b /\ b_phoneE164 b' = b_phoneE164 b /\
      (b_status b' = "verified" \/ claimable input serverNow b' = true)) /\
   consumeBindNonce serverNow input w = (Throw (UniqueViolation "phone_bindings_active_uq"), w)).
Proof.
  cbv zeta. intros Ht. destruct (consumeBindNonce serverNow input w) as [o w'] eqn:E. revert E.
  unfold consumeBindNonce. unfold bind at 1.
  destruct (update_checked_cases t_phoneBindings phoneBindings_idx (claimable input serverNow)
              (set_bound serverNow) w) as [[_ ->]|(ix & Hin & Hc & ->)]; cbn [rows t_phoneBindings] in *.
  - unfold updated. destruct (select (claimable input serverNow) (phoneBindings (db w))) as [|b l] eqn:Es.
    + cbn [map]. rewrite update_where_none by done. rewrite (set_rows_same t_phoneBindings).
      autorewrite with js. intros [= <- <-]. right. left. split; [by apply select_nil_iff|].
      destruct (limit1 _) as [p|]; [|by eexists].
      destruct (negb _); [by eexists|]. destruct (b_expiresAt p <=? serverNow)%Z; [by eexists|].
      destruct (negb _ || negb _); by eexists.
    + cbn [map]. intros [= <- <-]. left. exists b.
      assert (Hb : In b (select (claimable input serverNow) (phoneBindings (db w)))) by (rewrite Es; by left).
      by apply select_In in Hb as [? ?].
  - intros [= <- <-]. right. right. destruct Hin as [<-|[<-|[]]].
    + exfalso. assert (Hp : no_conflict (snd (pkey "phone_bindings_pkey" b_id))
        (update_where (claimable input serverNow) (set_bound serverNow) (phoneBindings (db w))) = true); [|congruence].
      apply no_conflict_update; [done|done|]. by apply Forall_inv in Ht.
    + split; [|done]. by apply second_binding.
Qed.

(** C10: an SMS promotes binding rows only if they are pending, carry the nonce, belong to
    the SMS's receiver and claimed phone and have not expired on the server's
    clock; the claim changes exactly those rows; every refusal and every exception
    leaves the database as it was, and a refusal means no row qualified. *)
Theorem consumeBindNonce_spec `{Limit1} serverNow input w :
  let t := phoneBindings (db w) in
  (forall row, claimable input serverNow row = true <->
     b_nonce row = cb_nonce input /\ b_status row = "pending" /\ b_receiverId row = cb_receiverId input /\
     b_phoneE164 row = cb_fromE164 input /\ (serverNow < b_expiresAt row)%Z) /\
  match consumeBindNonce serverNow input w with
  | (Return (BindMatched id app), w') =>
      (exists row, In row t /\ claimable input serverNow row = true /\ b_id row = id /\ b_appId row = app) /\
      w' = set_db (set_rows t_phoneBindings
                     (update_where (claimable input serverNow) (set_bound serverNow) t)) w /\
      respects phoneBindings_idx (phoneBindings (db w'))
  | (Return (BindRefused _), w') => w' = w /\ forall row, In row t -> claimable input serverNow row = false
  | (Throw e, w') => w' = w /\ exists ix, In ix phoneBindings_idx /\ e = UniqueViolation (fst ix)
  end.
Proof.
  cbv zeta. split; [intros row; apply claimable_iff|]. unfold consumeBindNonce. unfold bind at 1.
  destruct (update_checked_cases t_phoneBindings phoneBindings_idx (claimable input serverNow)
              (set_bound serverNow) w) as [[Hr ->]|(ix & Hin & _ & ->)]; [|eauto].
  cbn [rows t_phoneBindings] in *. unfold updated.
  destruct (select (claimable input serverNow) (phoneBindings (db w))) as [|row l] eqn:Es.
  - autorewrite with js. cbn [map]. rewrite update_where_none by done.
    assert (Hw : set_db (set_rows t_phoneBindings (phoneBindings (db w))) w = w).
    { destruct w as [[] c b]. reflexivity. }
    rewrite Hw. autorewrite with js. unfold ret.
    assert (Hno := proj1 (select_nil_iff _ _) Es).
    destruct (limit1 _) as [p|]; [|done].
    repeat (destruct (negb _); [done|]). destruct (b_expiresAt p <=? serverNow)%Z; [done|].
    by destruct (negb _ || negb _).
  - cbn [map]. unfold ret. split; [|split; [done|exact Hr]].
    exists row. assert (Hi : In row (select (claimable input serverNow) (phoneBindings (db w)))).
    { rewrite Es. by left. }
    apply select_In in Hi. tauto.
Qed.

(** A database with one app, one receiver and no binding. *)
Definition sample_receiver : Receiver :=
  mkReceiver "rcv_1" "app_1" "main" (Some "mtn") "+963900000001" "wrapped" true (Some 1000%Z) 0.

Definition sample_db : DB := set_rows t_receivers [sample_receiver] empty_db.

Definition sample_start : StartBindingInput :=
  {| sb_appId := "app_1"; sb_receiverId := "rcv_1"; sb_phone := " +963991234567 " |}.

Lemma bind_ceremony_completes_witness :
  let P := plain_phones in
  let bytes i := (i * 7)%nat in
  let run := startBinding default_config "1" bytes 1000 1000 sample_start (mkWorld sample_db [] []) in
  match run with
  | (Return res, w1) =>
      exists nonce w2,
        extractBindNonce ("  " ++ toLowerCase (bind_message res) ++ " ") = Some nonce /\
        consumeBindNonce 5000 {| cb_receiverId := "rcv_1"; cb_fromE164 := "+963991234567"; cb_nonce := nonce |} w1
        = (Return (BindMatched (pb_id (binding res)) "app_1"), w2)
  | (Throw _, _) => False
  end.
Proof.
  intros P bytes run. destruct run as [[res|e] w1] eqn:E.
  - destruct (bind_ceremony_completes (H := P) default_config "1" bytes 1000 1000 sample_start
      (mkWorld sample_db [] []) res w1 "  " " " (toLowerCase (bind_message res)) 5000
      {| e164 := "+963991234567"; national := "991234567"; country := "SY" |})
      as (nonce & w2 & H1 & H2 & _).
    + repeat constructor.
    + intros b [].
    + exact E.
    + vm_compute. reflexivity.
    + reflexivity.
    + reflexivity.
    + vm_compute in E. injection E as <- _. vm_compute. reflexivity.
    + vm_compute. reflexivity.
    + exists nonce, w2. split; [exact H1 | exact H2].
  - vm_compute in E. discriminate.
Defined.

(** A revoked binding, and a ceremony started twice for one phone. *)
Definition binding_row (id status nonce : string) : PhoneBindingRow :=
  mkPhoneBinding id "app_1" "rcv_1" "+963991234567" status nonce 9000 None (Some 10%Z) 0.

(** [revokeBinding] stamps [revoked_at] anew on a binding that is already
    revoked: the call is not the no-op its comment describes. *)
Theorem revoke_restamps `{Limit1} now appId b w :
  select (binding_is appId (b_id b)) (phoneBindings (db w)) = [b] ->
  b_status b = "revoked" ->
  exists res, revokeBinding now appId (b_id b) w
    = (Return res, set_db (set_rows t_phoneBindings
         (update_where (binding_is appId (b_id b)) (set_revoked now) (phoneBindings (db w)))) w) /\
    pb_revoked_at res = Some (toISOString now).
Proof.
  intros Hs _. unfold revokeBinding. autorewrite with js. cbn [rows t_phoneBindings].
  unfold updated. rewrite Hs. cbn [map]. eexists. split; reflexivity.
Qed.

Lemma revoke_restamps_witness :
  exists res w', revokeBinding 700 "app_1" "pbn_1"
    (mkWorld (set_rows t_phoneBindings [binding_row "pbn_1" "revoked" "N"] empty_db) [] []) = (Return res, w') /\
  pb_revoked_at res = Some (toISOString 700).
Proof.
  destruct (revoke_restamps 700 "app_1" (binding_row "pbn_1" "revoked" "N")
    (mkWorld (set_rows t_phoneBindings [binding_row "pbn_1" "revoked" "N"] empty_db) [] []))
    as (res & E & R); [reflexivity|reflexivity|].
  exists res. eexists. split; [exact E|exact R].
Defined.

(** Two ceremonies may be pending for one (app, phone), but only the first can
    complete: once the phone is verified-bound, an SMS that satisfies every
    condition of another pending binding of that app and phone makes
    [consumeBindNonce] throw the driver's unique violation instead of returning an
    outcome. *)
Theorem second_ceremony_throws `{Limit1} serverNow input w b bound :
  respects phoneBindings_idx (phoneBindings (db w)) ->
  In b (phoneBindings (db w)) -> claimable input serverNow b = true ->
  In bound (phoneBindings (db w)) ->
  verified_binding (b_appId b) (b_phoneE164 b) bound = true ->
  consumeBindNonce serverNow input w = (Throw (UniqueViolation "phone_bindings_active_uq"), w).
Proof.
  intros Hidx Hb Hc Hv Hvb. unfold consumeBindNonce. unfold bind at 1.
  set (t := phoneBindings (db w)) in *.
  assert (b_appId bound = b_appId b /\ b_phoneE164 bound = b_phoneE164 b /\ b_status bound = "verified")
    as (Ea & Ep & Es) by (unfold verified_binding in Hvb; destruct_and_ex; by reflect_eqb).
  assert (Hcf : claimable input serverNow bound = false).
  { unfold claimable. rewrite Es. cbn. by rewrite andb_false_r. }
  assert (Hbad : no_conflict (snd phone_bindings_active_uq)
                   (update_where (claimable input serverNow) (set_bound serverNow) t) = false).
  { apply not_true_is_false. intros Hok.
    assert (E : set_bound serverNow b = bound).
    { apply (no_conflict_spec _ _ (set_bound serverNow b) bound Hok).
      1, 2: cbn; rewrite Ea, Ep, Es, !String.eqb_refl; done.
      - apply update_where_In. left. by exists b.
      - apply update_where_In. by right. }
    assert (b_id b = b_id bound) as Ei by by rewrite <- E.
    assert (b = bound) as ->; [|congruence].
    unfold phoneBindings_idx in Hidx. by eapply (pkey_inj _ b_id). }
  destruct (update_checked_cases t_phoneBindings phoneBindings_idx (claimable input serverNow)
              (set_bound serverNow) w) as [[Hr _]|(ix & Hin & Hf & ->)].
  - exfalso. apply Forall_inv_tail, Forall_inv in Hr. cbn [rows t_phoneBindings] in Hr. fold t in Hr.
    congruence.
  - cbn [rows t_phoneBindings] in Hf. fold t in Hf.
    destruct Hin as [<-|[<-|[]]]; [|done]. exfalso.
    assert (Hp : no_conflict (snd (pkey "phone_bindings_pkey" b_id))
       (update_where (claimable input serverNow) (set_bound serverNow) t) = true); [|congruence].
    apply no_conflict_update; [done|done|]. by apply Forall_inv in Hidx.
Qed.

Lemma second_ceremony_throws_witness :
  let w := mkWorld (set_rows t_phoneBindings
             [binding_row "pbn_1" "verified" "N1"; binding_row "pbn_2" "pending" "N2"] empty_db) [] [] in
  consumeBindNonce 100 {| cb_receiverId := "rcv_1"; cb_fromE164 := "+963991234567"; cb_nonce := "N2" |} w
  = (Throw (UniqueViolation "phone_bindings_active_uq"), w).
Proof.
  intros w. apply (second_ceremony_throws 100 _ w (binding_row "pbn_2" "pending" "N2")
                     (binding_row "pbn_1" "verified" "N1")); try reflexivity.
  - repeat constructor.
  - right. left. reflexivity.
  - left. reflexivity.
Defined.
