(* ===== verification/Verifications.v ===== *)
(** * Verification lifecycle: [services/verifications.ts]

    Start, read, cancel and lazy expiry of verifications, receiver selection and
    the retry on code collisions.  Fresh identifiers, random draws and the clocks
    of the process ([now]) and of the database ([dbNow]) are arguments. *)

From S2P Require Import Prelude JsString Json Errors Phone Crypto Config Schema Webhooks PhoneBindings.
From Stdlib Require Import String Ascii.

Open Scope string_scope.
Open Scope js_scope.

(** ** Lazy expiry *)

Definition set_status (s : verificationStatus) (v : Verification) : Verification :=
  mkVerification (v_id v) (v_appId v) (v_phoneE164 v) (v_purpose v) (v_clientRef v) (v_locale v)
    (v_receiverId v) (v_receiverMsisdnSnapshot v) (v_receiverOperatorSnapshot v) (v_code v)
    (v_messagePrefix v) s (v_attempts v) (v_expiresAt v) (v_verifiedAt v) (v_cancelledAt v)
    (v_matchedInboundId v) (v_createdIp v) (v_createdAt v).

Definition is_pending (v : Verification) : bool := status_eqb (v_status v) pending.

(** The transaction of [lazyExpireAndEmit]. *)
Definition expire_tx (fr : Fresh) (verificationId : string) : SM unit :=
  transaction (
    let! result := update t_verifications
                     (fun v => String.eqb (v_id v) verificationId && is_pending v)
                     (set_status expired) in
    match result with
    | [] => ret tt
    | row :: _ =>
        emitVerificationEventInTx fr ev_expired (v_appId row) (buildVerificationEventData row ev_expired)
    end).

(** The task [void lazyExpireAndEmit(id)] when it runs: its errors are swallowed. *)
Definition run_lazyExpire (fr : Fresh) (verificationId : string) : SM unit :=
  try_catch (expire_tx fr verificationId) (fun _ => ret tt).

Definition lazyExpireAndEmit (verificationId : string) : SM unit := spawn verificationId.

(** ** Public shapes *)

Record StartVerificationInput : Type := {
  sv_appId : string; sv_phoneE164 : string; sv_purpose : string; sv_clientRef : option string;
  sv_locale : option string; sv_ip : option string; sv_preferredOperator : option string;
}.

Record PublicVerification : Type := {
  pv_id : string; pv_status : verificationStatus; pv_phone_masked : string;
  pv_send_to : option string; pv_message : option string; pv_client_ref : option string;
  pv_purpose : string; pv_verified_at : option string; pv_expires_at : string;
  pv_created_at : string; pv_attempts : Z;
}.

(** ** Receiver selection *)

Inductive OperatorMatch : Type := preferred | fallback | none.

Definition match_text (m : OperatorMatch) : string :=
  match m with preferred => "preferred" | fallback => "fallback" | none => "none" end.

Record PickedReceiver : Type := {
  pr_id : string; pr_msisdn : string; pr_operator : option string; pr_match : OperatorMatch;
}.

(** [COALESCE(v.pending_count, 0)] of the LEFT JOIN *)
Definition pending_count (D : DB) (receiverId : string) : nat :=
  List.length (select (fun v => is_pending v && String.eqb (v_receiverId v) receiverId) (verifications D)).

Definition healthy (cfg : Config) (dbNow : Z) (appId : string) (operator : option string) (r : Receiver) : bool :=
  String.eqb (r_appId r) appId && r_enabled r
  && match r_lastHeartbeatAt r with
     | None => false
     | Some hb => (dbNow - RECEIVER_HEARTBEAT_TIMEOUT_SECONDS cfg * 1000 <? hb)%Z
     end
  && match operator with
     | None => true
     | Some op => match r_operator r with Some o => String.eqb o op | None => false end
     end.

(** [ORDER BY pending_count ASC, created_at ASC]: [r] comes no later than [r']. *)
Definition receiver_le (D : DB) (r r' : Receiver) : bool :=
  (pending_count D (r_id r) <? pending_count D (r_id r'))%nat
  || ((pending_count D (r_id r) =? pending_count D (r_id r'))%nat && (r_createdAt r <=? r_createdAt r')%Z).

(** [LIMIT 1] after [ORDER BY]: one of the rows no other precedes. *)
Definition runHealthyReceiverQuery `{Limit1} (cfg : Config) (dbNow : Z) (D : DB) (appId : string)
    (operator : option string) : option Receiver :=
  let candidates := select (healthy cfg dbNow appId operator) (receivers D) in
  limit1 (select (fun r => forallb (receiver_le D r) candidates) candidates).

Definition picked (m : OperatorMatch) (r : Receiver) : PickedReceiver :=
  {| pr_id := r_id r; pr_msisdn := r_msisdn r; pr_operator := r_operator r; pr_match := m |}.

(** [if (preferredOperator)]: a non-empty string *)
Definition wants (preferredOperator : option string) : option string :=
  match preferredOperator with
  | Some op => if nonempty op then Some op else None
  | None => None
  end.

Definition pickReceiver `{Limit1} (cfg : Config) (dbNow : Z) (D : DB) (appId : string)
    (preferredOperator : option string) : option PickedReceiver :=
  match wants preferredOperator with
  | Some op =>
      match runHealthyReceiverQuery cfg dbNow D appId (Some op) with
      | Some r => Some (picked preferred r)
      | None => picked fallback <$> runHealthyReceiverQuery cfg dbNow D appId None
      end
  | None => picked none <$> runHealthyReceiverQuery cfg dbNow D appId None
  end.

(** ** Start *)

Definition MAX_CODE_COLLISION_RETRIES : nat := 3.

Definition isPendingCodeCollision (err : exn) : bool :=
  match err with
  | UniqueViolation name => String.eqb name "verifications_pending_uniq"
  | _ => false
  end.

(** The [for] loop from index [i], with [n] iterations left; [draws i] are the
    random draws of the [i]-th code. *)
Fixpoint retry_loop {T} (cfg : Config) (draws : nat -> nat -> nat) (attempt : string -> SM T)
    (i n : nat) : SM T :=
  match n with
  | O =>
      do! count (verificationCodeCollision "exhausted") in
      throw (serviceUnavailable "code_generation_collision"
        "could not allocate a unique verification code after multiple attempts; retry the request")
  | S n' =>
      let! code := (fun w => (generateCode (draws i) (Z.to_nat (VERIFICATION_CODE_LENGTH cfg)), w)) in
      try_catch (attempt code)
        (fun err =>
           if negb (isPendingCodeCollision err) then throw err
           else
             do! count (verificationCodeCollision "retried") in
             retry_loop cfg draws attempt (S i) n')
  end.

Definition runWithCodeCollisionRetry {T} (cfg : Config) (draws : nat -> nat -> nat)
    (attempt : string -> SM T) : SM T :=
  retry_loop cfg draws attempt 0 MAX_CODE_COLLISION_RETRIES.

Definition messagePrefix : string := "VERIFY".

(** [status = 'pending'] rows of one app and phone *)
Definition pending_for (appId phone : string) (v : Verification) : bool :=
  String.eqb (v_appId v) appId && String.eqb (v_phoneE164 v) phone && is_pending v.

Definition new_row (id : string) (expiresAt dbNow : Z) (input : StartVerificationInput)
    (receiver : PickedReceiver) (code : string) : Verification :=
  mkVerification id (sv_appId input) (sv_phoneE164 input) (sv_purpose input) (sv_clientRef input)
    (sv_locale input) (pr_id receiver) (Some (pr_msisdn receiver)) (pr_operator receiver) code
    messagePrefix pending 0 expiresAt None None None (sv_ip input) dbNow.

(** The transaction of one attempt; the advisory lock it takes first serialises the
    attempts for one app and phone and has no effect on the data. *)
Definition start_tx `{Limit1} (cfg : Config) (id : string) (expiresAt dbNow : Z)
    (input : StartVerificationInput) (code : string) : SM (PickedReceiver * string) :=
  transaction (
    let! pendingForPhone := select_from t_verifications
                              (pending_for (sv_appId input) (sv_phoneE164 input)) in
    do! throw_if (MAX_PENDING_PER_PHONE cfg <=? Z.of_nat (List.length pendingForPhone))%Z
          (conflict "too_many_pending" "too many pending verifications for this phone") in
    let! receiver := gets (fun w => pickReceiver cfg dbNow (db w) (sv_appId input) (sv_preferredOperator input)) in
    match receiver with
    | None => throw (serviceUnavailable "no_receiver" "no healthy receiver available")
    | Some receiver =>
        do! insert t_verifications verifications_idx (new_row id expiresAt dbNow input receiver code) in
        ret (receiver, code)
    end).

Definition startVerification `{Limit1} (cfg : Config) (ulid : string) (draws : nat -> nat -> nat)
    (now dbNow : Z) (input : StartVerificationInput) : SM PublicVerification :=
  let! bound := select_one t_phoneBindings (verified_binding (sv_appId input) (sv_phoneE164 input)) in
  do! throw_if (negb (bool_decide (is_Some bound))) phoneNotBound in
  let id := newId VERIFICATION_PREFIX ulid in
  let expiresAt := (now + VERIFICATION_TTL_SECONDS cfg * 1000)%Z in
  let! txResult := runWithCodeCollisionRetry cfg draws (start_tx cfg id expiresAt dbNow input) in
  let '(receiver, code) := txResult in
  do! count (receiverSelected (match_text (pr_match receiver))) in
  ret {| pv_id := id; pv_status := pending; pv_phone_masked := maskPhone (sv_phoneE164 input);
         pv_send_to := Some (pr_msisdn receiver);
         pv_message := Some (messagePrefix ++ " " ++ code);
         pv_client_ref := sv_clientRef input; pv_purpose := sv_purpose input;
         pv_verified_at := None; pv_expires_at := toISOString expiresAt;
         pv_created_at := toISOString now; pv_attempts := 0 |}.

(** ** Read *)

Definition verification_is (appId id : string) (v : Verification) : bool :=
  String.eqb (v_id v) id && String.eqb (v_appId v) appId.

(** A read of a pending row past its deadline reports it expired and starts the
    task that persists the transition. *)
Definition effective_status (now : Z) (v : Verification) : verificationStatus :=
  if is_pending v && (v_expiresAt v <=? now)%Z then expired else v_status v.

Definition expire_if_due (now : Z) (id : string) (v : Verification) : SM unit :=
  if is_pending v && (v_expiresAt v <=? now)%Z then lazyExpireAndEmit id else ret tt.

(** The kind of the caller's key selects nothing: the branch on it is empty. *)
Definition getVerification `{Limit1} (now : Z) (appId id : string) (kind : apiKeyKind) : SM PublicVerification :=
  let! row := select_one t_verifications (verification_is appId id) in
  match row with
  | None => throw (notFound "verification")
  | Some row =>
      do! expire_if_due now id row in
      ret {| pv_id := v_id row; pv_status := effective_status now row;
             pv_phone_masked := maskPhone (v_phoneE164 row);
             pv_send_to := None; pv_message := None;
             pv_client_ref := v_clientRef row; pv_purpose := v_purpose row;
             pv_verified_at := toISOString <$> v_verifiedAt row;
             pv_expires_at := toISOString (v_expiresAt row);
             pv_created_at := toISOString (v_createdAt row); pv_attempts := v_attempts row |}
  end.

(** ** Cancel *)

Definition set_cancelled (at_ : Z) (v : Verification) : Verification :=
  mkVerification (v_id v) (v_appId v) (v_phoneE164 v) (v_purpose v) (v_clientRef v) (v_locale v)
    (v_receiverId v) (v_receiverMsisdnSnapshot v) (v_receiverOperatorSnapshot v) (v_code v)
    (v_messagePrefix v) cancelled (v_attempts v) (v_expiresAt v) (v_verifiedAt v) (Some at_)
    (v_matchedInboundId v) (v_createdIp v) (v_createdAt v).

Definition cancel_tx `{Limit1} (fr : Fresh) (now : Z) (appId id : string) : SM unit :=
  transaction (
    let! result := update t_verifications
                     (fun v => verification_is appId id v && is_pending v) (set_cancelled now) in
    match result with
    | [] =>
        let! existing := select_one t_verifications (verification_is appId id) in
        match existing with
        | None => throw (notFound "verification")
        | Some _ => throw (conflict "not_pending" "verification is not pending")
        end
    | row :: _ =>
        emitVerificationEventInTx fr ev_cancelled (v_appId row) (buildVerificationEventData row ev_cancelled)
    end).

(** [readNow] is the clock of the read that follows the transaction. *)
Definition cancelVerification `{Limit1} (fr : Fresh) (now readNow : Z) (appId id : string)
    : SM PublicVerification :=
  do! cancel_tx fr now appId id in
  getVerification readNow appId id secret.

Definition is_purpose_char (c : ascii) : bool :=
  is_alnum c || existsb (Ascii.eqb c) ["_"; "-"; ":"; "."]%char.

Definition validatePurpose (p : string) : outcome exn unit :=
  if matches_class is_purpose_char 2 64 p then Return tt
  else Throw (badRequest "invalid_purpose" "purpose must be 2-64 chars matching [a-zA-Z0-9_-:.]").

(** ** Hosted page *)

Record HostedVerification : Type := {
  hv_id : string; hv_status : verificationStatus; hv_phone_masked : string; hv_expires_at : string;
  hv_created_at : string; hv_verified_at : option string; hv_send_to : option string;
  hv_message : option string;
}.

Definition getHostedVerification `{Limit1} (now : Z) (id : string) : SM (option HostedVerification) :=
  let! row := select_one t_verifications (fun v => String.eqb (v_id v) id) in
  match row with
  | None => ret None
  | Some row =>
      let! joined := select_one t_receivers (fun r => String.eqb (r_id r) (v_receiverId row)) in
      do! expire_if_due now id row in
      let status := effective_status now row in
      let effectiveMsisdn := match v_receiverMsisdnSnapshot row with
                             | Some m => Some m
                             | None => r_msisdn <$> joined
                             end in
      let isPending := status_eqb status pending in
      ret (Some {|
        hv_id := v_id row; hv_status := status; hv_phone_masked := maskPhone (v_phoneE164 row);
        hv_expires_at := toISOString (v_expiresAt row);
        hv_created_at := toISOString (v_createdAt row);
        hv_verified_at := toISOString <$> v_verifiedAt row;
        hv_send_to := if isPending then effectiveMsisdn else None;
        hv_message := if isPending then Some (v_messagePrefix row ++ " " ++ v_code row) else None |})
  end.

Definition getHostedVerificationStatus `{Limit1} (now : Z) (id : string)
    : SM (option (verificationStatus * string * option string)) :=
  let! row := select_one t_verifications (fun v => String.eqb (v_id v) id) in
  match row with
  | None => ret None
  | Some row =>
      do! expire_if_due now id row in
      ret (Some (effective_status now row, toISOString (v_expiresAt row), toISOString <$> v_verifiedAt row))
  end.

(** ** Receiver selection, specified *)

Lemma receiver_le_total D r r' : receiver_le D r r' = true \/ receiver_le D r' r = true.
Proof.
  unfold receiver_le. rewrite !orb_true_iff, !andb_true_iff, !Nat.ltb_lt, !Nat.eqb_eq, !Z.leb_le. lia.
Qed.

Lemma receiver_le_trans D a b c :
  receiver_le D a b = true -> receiver_le D b c = true -> receiver_le D a c = true.
Proof.
  unfold receiver_le. rewrite !orb_true_iff, !andb_true_iff, !Nat.ltb_lt, !Nat.eqb_eq, !Z.leb_le. lia.
Qed.

(** A non-empty list has a row no other precedes. *)
Lemma receiver_minimum D (l : list Receiver) :
  l <> [] -> exists r, In r l /\ forallb (receiver_le D r) l = true.
Proof.
  induction l as [|x l IH]; [done|]. intros _.
  destruct (decide (l = [])) as [->|Hl].
  { exists x. cbn. destruct (receiver_le_total D x x) as [->| ->]; auto. }
  destruct (IH Hl) as (m & Hm & Hall). rewrite forallb_forall in Hall.
  destruct (receiver_le_total D x m) as [Hx|Hx].
  - exists x. split; [by left|]. apply forallb_forall. intros y [<-|Hy].
    + by destruct (receiver_le_total D x x).
    + eapply receiver_le_trans; eauto.
  - exists m. split; [by right|]. apply forallb_forall. intros y [<-|Hy]; auto.
Qed.

Lemma healthy_query_Some `{Limit1} cfg dbNow D appId op r :
  runHealthyReceiverQuery cfg dbNow D appId op = Some r ->
  In r (receivers D) /\ healthy cfg dbNow appId op r = true /\
  forall r', In r' (receivers D) -> healthy cfg dbNow appId op r' = true -> receiver_le D r r' = true.
Proof.
  unfold runHealthyReceiverQuery. intros E. apply limit1_In, select_In in E.
  destruct E as [Hin Hmin]. apply select_In in Hin. destruct Hin as [Hin Hh].
  split; [done|]. split; [done|]. intros r' Hr' Hh'. rewrite forallb_forall in Hmin.
  apply Hmin, select_In. done.
Qed.

Lemma healthy_query_None `{Limit1} cfg dbNow D appId op :
  runHealthyReceiverQuery cfg dbNow D appId op = None ->
  forall r, In r (receivers D) -> healthy cfg dbNow appId op r = false.
Proof.
  unfold runHealthyReceiverQuery. intros E. apply limit1_None in E.
  destruct (select (healthy cfg dbNow appId op) (receivers D)) as [|x l] eqn:Es.
  - by apply select_nil_iff.
  - destruct (receiver_minimum D (x :: l) ltac:(done)) as (m & Hm & Hall).
    rewrite select_nil_iff in E. specialize (E m Hm). cbn beta in E. congruence.
Qed.

Lemma healthy_any cfg dbNow appId op r :
  healthy cfg dbNow appId (Some op) r = true -> healthy cfg dbNow appId None r = true.
Proof. unfold healthy. intros E. destruct_and_ex. by rewrite H, H1, H2. Qed.

(** ** Code collisions *)

Section CollisionRetry.
Context {T : Type} (cfg : Config) (draws : nat -> nat -> nat) (attempt : string -> SM T).

(** The code of attempt [i]. *)
Definition code_of (i : nat) : string :=
  draw_chars CODE_ALPHABET (draws i) 0 (Z.to_nat (VERIFICATION_CODE_LENGTH cfg)).

(** After [i] attempts that all collided on the pending index, the world is [w']. *)
Inductive collided (w : World) : nat -> World -> Prop :=
  | collided_O : collided w 0 w
  | collided_S i w1 e w2 :
      collided w i w1 -> attempt (code_of i) w1 = (Throw e, w2) -> isPendingCodeCollision e = true ->
      collided w (S i) (mkWorld (db w2) (counted w2 ++ [verificationCodeCollision "retried"]) (background w2)).

Definition exhausted : exn :=
  serviceUnavailable "code_generation_collision"
    "could not allocate a unique verification code after multiple attempts; retry the request".

Lemma generateCode_code_of i :
  config_valid cfg = true ->
  generateCode (draws i) (Z.to_nat (VERIFICATION_CODE_LENGTH cfg)) = Return (code_of i).
Proof.
  intros Hc. apply config_valid_bounds in Hc. unfold generateCode, code_of.
  replace (_ <? 4)%nat with false by (symmetry; apply Nat.ltb_ge; lia).
  by replace (32 <? _)%nat with false by (symmetry; apply Nat.ltb_ge; lia).
Qed.

Lemma retry_loop_cases w i n wi o w' :
  config_valid cfg = true -> collided w i wi ->
  retry_loop cfg draws attempt i n wi = (o, w') ->
  exists j wj, collided w j wj /\ (i <= j <= i + n)%nat /\
    ((j < i + n)%nat /\ attempt (code_of j) wj = (o, w') /\
       match o with Throw e => isPendingCodeCollision e = false | Return _ => True end \/
     j = (i + n)%nat /\ o = Throw exhausted /\
       w' = mkWorld (db wj) (counted wj ++ [verificationCodeCollision "exhausted"]) (background wj)).
Proof.
  intros Hc. revert i wi. induction n as [|n IH]; intros i wi Hi; cbn [retry_loop].
  - autorewrite with js. intros [= <- <-]. exists i, wi. split; [done|]. split; [lia|]. right.
    split; [lia|]. split; reflexivity.
  - unfold bind at 1. rewrite generateCode_code_of by done. unfold try_catch.
    destruct (attempt (code_of i) wi) as [[a|e] w2] eqn:Ea.
    + intros [= <- <-]. exists i, wi. split; [done|]. split; [lia|]. left. split; [lia|]. done.
    + destruct (isPendingCodeCollision e) eqn:Ee; cbn [negb].
      * autorewrite with js. intros Hr. apply IH in Hr; [|by eapply collided_S].
        destruct Hr as (j & wj & Hj & Hb & Hr). exists j, wj. split; [done|]. split; [lia|].
        destruct Hr as [(? & ? & ?)|(? & ? & ?)]; [left|right]; (split; [lia|done]).
      * intros [= <- <-]. exists i, wi. split; [done|]. split; [lia|]. left. split; [lia|]. done.
Qed.

(** The retry makes at most three attempts, each with its own code; it stops
    at the first that returns or throws anything but a collision on
    [verifications_pending_uniq] and passes that outcome through unchanged, and
    only after three such collisions does it throw the 503. *)
Theorem collision_retry_spec w o w' :
  config_valid cfg = true ->
  runWithCodeCollisionRetry cfg draws attempt w = (o, w') ->
  exists j wj, collided w j wj /\ (j <= MAX_CODE_COLLISION_RETRIES)%nat /\
    ((j < MAX_CODE_COLLISION_RETRIES)%nat /\ attempt (code_of j) wj = (o, w') /\
       match o with Throw e => isPendingCodeCollision e = false | Return _ => True end \/
     j = MAX_CODE_COLLISION_RETRIES /\ o = Throw exhausted /\
       w' = mkWorld (db wj) (counted wj ++ [verificationCodeCollision "exhausted"]) (background wj)).
Proof.
  intros Hc Hr. destruct (retry_loop_cases w 0 MAX_CODE_COLLISION_RETRIES w o w' Hc
    (collided_O w) Hr) as (j & wj & Hj & Hb & Hcase).
  exists j, wj. split; [done|]. split; [lia|exact Hcase].
Qed.
End CollisionRetry.

(** ** Starting a verification *)

Section Start.
Context `{Limit1} (cfg : Config) (id : string) (expiresAt dbNow : Z) (input : StartVerificationInput).

(** The pending rows the cap counts. *)
Definition pending_rows (D : DB) : list Verification :=
  select (pending_for (sv_appId input) (sv_phoneE164 input)) (verifications D).

(** An attempt either changes nothing, or inserts its row; it throws for a reason. *)
Lemma start_tx_cases code w :
  let run := start_tx cfg id expiresAt dbNow input code w in
  let pick := pickReceiver cfg dbNow (db w) (sv_appId input) (sv_preferredOperator input) in
  let full := (MAX_PENDING_PER_PHONE cfg <=? Z.of_nat (List.length (pending_rows (db w))))%Z in
  (full = true /\ run = (Throw (conflict "too_many_pending" "too many pending verifications for this phone"), w))
  \/ (full = false /\ pick = None /\
      run = (Throw (serviceUnavailable "no_receiver" "no healthy receiver available"), w))
  \/ (exists r, full = false /\ pick = Some r /\
      match broken_by verifications_idx (new_row id expiresAt dbNow input r code) (verifications (db w)) with
      | Some name => run = (Throw (UniqueViolation name), w)
      | None => run = (Return (r, code),
          set_db (set_rows t_verifications
                    (verifications (db w) ++ [new_row id expiresAt dbNow input r code])%list) w)
      end).
Proof.
  cbv zeta. destruct (start_tx cfg id expiresAt dbNow input code w) as [o w'] eqn:E. revert E.
  unfold start_tx, transaction. autorewrite with js. cbn [rows t_verifications].
  fold (pending_rows (db w)).
  assert (Hw : mkWorld (db w) (counted w) (background w) = w) by by destruct w.
  destruct (MAX_PENDING_PER_PHONE cfg <=? _)%Z eqn:Ef.
  { rewrite Hw. intros [= <- <-]. by left. }
  autorewrite with js. intros E. right.
  destruct (pickReceiver _ _ _ _ _) as [r|] eqn:Ep.
  - right. exists r. split; [done|]. split; [done|]. revert E. unfold bind at 1. rewrite insert_eq.
    cbn [rows t_verifications].
    destruct (broken_by _ _ _) as [name|]; cbn [throw ret]; [rewrite Hw|]; by intros [= <- <-].
  - left. revert E. unfold throw. rewrite Hw. by intros [= <- <-].
Qed.

(** The world after some collided attempts: only the collisions were counted. *)
Definition retried (w : World) (i : nat) : World :=
  mkWorld (db w) (counted w ++ repeat (verificationCodeCollision "retried") i) (background w).

Lemma retried_0 w : retried w 0 = w.
Proof. unfold retried. cbn. rewrite app_nil_r. by destruct w. Qed.

Lemma collided_start draws w i w' :
  collided cfg draws (start_tx cfg id expiresAt dbNow input) w i w' -> w' = retried w i.
Proof.
  intros C. induction C as [|i w1 e w2 _ IH Ea Ee].
  - unfold retried. cbn. rewrite app_nil_r. by destruct w.
  - subst w1. assert (w2 = retried w i) as ->.
    { destruct (start_tx_cases (code_of cfg draws i) (retried w i)) as [[_ E]|[(_ & _ & E)|(r & _ & _ & E)]];
        [congruence|congruence|].
      destruct (broken_by _ _ _); congruence. }
    unfold retried. cbn. f_equal. rewrite <- app_assoc. f_equal.
    symmetry. apply repeat_cons.
Qed.

Lemma broken_verification v t name :
  broken_by verifications_idx v t = Some name ->
  name = "verifications_pkey" /\ In (v_id v) (map v_id t) \/
  name = "verifications_pending_uniq" /\ clashes (snd verifications_pending_uniq) v t = true.
Proof.
  unfold broken_by, verifications_idx. cbn [List.find].
  destruct (clashes (snd (pkey "verifications_pkey" v_id)) v t) eqn:E.
  - intros [= <-]. left. split; [done|].
    destruct (in_dec String.string_dec (v_id v) (map v_id t)) as [|Hn]; [done|].
    apply (clashes_pkey "verifications_pkey") in Hn. congruence.
  - destruct (clashes (snd verifications_pending_uniq) v t) eqn:E2; [|done]. intros [= <-]. by right.
Qed.
End Start.

(** What a start can end in. *)
Inductive StartResult `{Limit1} (cfg : Config) (ulid : string) (draws : nat -> nat -> nat)
    (now dbNow : Z) (input : StartVerificationInput) (w : World) : outcome exn PublicVerification -> World -> Prop :=
  | StartNotBound :
      select (verified_binding (sv_appId input) (sv_phoneE164 input)) (phoneBindings (db w)) = [] ->
      StartResult cfg ulid draws now dbNow input w (Throw phoneNotBound) w
  | StartRefused i b e :
      In b (phoneBindings (db w)) -> verified_binding (sv_appId input) (sv_phoneE164 input) b = true ->
      (i <= MAX_CODE_COLLISION_RETRIES)%nat ->
      (e = conflict "too_many_pending" "too many pending verifications for this phone" /\
         (MAX_PENDING_PER_PHONE cfg <= Z.of_nat (List.length (pending_rows input (db w))))%Z
       \/ e = serviceUnavailable "no_receiver" "no healthy receiver available" /\
          pickReceiver cfg dbNow (db w) (sv_appId input) (sv_preferredOperator input) = None
       \/ e = UniqueViolation "verifications_pkey" /\
          In (newId VERIFICATION_PREFIX ulid) (map v_id (verifications (db w)))) ->
      StartResult cfg ulid draws now dbNow input w (Throw e) (retried w i)
  | StartExhausted b :
      In b (phoneBindings (db w)) -> verified_binding (sv_appId input) (sv_phoneE164 input) b = true ->
      StartResult cfg ulid draws now dbNow input w (Throw exhausted)
        (let w' := retried w MAX_CODE_COLLISION_RETRIES in
         mkWorld (db w') (counted w' ++ [verificationCodeCollision "exhausted"]) (background w'))
  | StartOk i b r res :
      let row := new_row (newId VERIFICATION_PREFIX ulid) (now + VERIFICATION_TTL_SECONDS cfg * 1000) dbNow
                   input r (code_of cfg draws i) in
      In b (phoneBindings (db w)) -> verified_binding (sv_appId input) (sv_phoneE164 input) b = true ->
      (i < MAX_CODE_COLLISION_RETRIES)%nat ->
      (Z.of_nat (List.length (pending_rows input (db w))) < MAX_PENDING_PER_PHONE cfg)%Z ->
      pickReceiver cfg dbNow (db w) (sv_appId input) (sv_preferredOperator input) = Some r ->
      broken_by verifications_idx row (verifications (db w)) = None ->
      pv_id res = v_id row -> pv_status res = pending ->
      pv_send_to res = Some (pr_msisdn r) ->
      pv_message res = Some ("VERIFY " ++ code_of cfg draws i) ->
      pv_phone_masked res = maskPhone (sv_phoneE164 input) ->
      pv_expires_at res = toISOString (v_expiresAt row) ->
      StartResult cfg ulid draws now dbNow input w (Return res)
        (mkWorld (set_rows t_verifications (verifications (db w) ++ [row])%list (db w))
           (counted (retried w i) ++ [receiverSelected (match_text (pr_match r))]) (background w)).

Lemma startVerification_cases `{Limit1} cfg ulid draws now dbNow input w o w' :
  config_valid cfg = true ->
  startVerification cfg ulid draws now dbNow input w = (o, w') ->
  StartResult cfg ulid draws now dbNow input w o w'.
Proof.
  intros Hc. unfold startVerification. autorewrite with js. cbn [rows t_phoneBindings].
  destruct (limit1 _) as [b|] eqn:Eb.
  2: { rewrite bool_decide_false by (by intros [? ?]). apply limit1_None in Eb.
       intros [= <- <-]. by constructor. }
  apply limit1_In, select_In in Eb. destruct Eb as [Hb Hv].
  rewrite bool_decide_true by eauto. cbn [negb].
  set (row_id := newId VERIFICATION_PREFIX ulid).
  set (exp := (now + VERIFICATION_TTL_SECONDS cfg * 1000)%Z).
  set (attempt := start_tx cfg row_id exp dbNow input).
  unfold bind at 1. unfold runWithCodeCollisionRetry.
  destruct (retry_loop cfg draws attempt 0 MAX_CODE_COLLISION_RETRIES w) as [o1 w1] eqn:Er.
  apply (retry_loop_cases cfg draws attempt w) in Er; [|done|constructor].
  destruct Er as (j & wj & Hj & Hle & Hcase). apply collided_start in Hj. subst wj.
  destruct Hcase as [(Hlt & Ea & Hnc)|(-> & -> & ->)].
  2: { intros [= <- <-]. by econstructor. }
  destruct (start_tx_cases cfg row_id exp dbNow input (code_of cfg draws j) (retried w j))
    as [[Hf E]|[(Hf & Hp & E)|(r & Hf & Hp & E)]]; unfold attempt in Ea; cbn [db retried] in *.
  - rewrite E in Ea. injection Ea as <- <-. intros [= <- <-]. econstructor; [done|done|lia|].
    left. split; [done|]. by apply Z.leb_le in Hf.
  - rewrite E in Ea. injection Ea as <- <-. intros [= <- <-]. econstructor; [done|done|lia|]. auto.
  - destruct (broken_by _ _ _) as [name|] eqn:Ei; rewrite E in Ea; injection Ea as <- <-.
    + intros [= <- <-]. apply broken_verification in Ei. destruct Ei as [[-> Hid]|[-> _]].
      * econstructor; [done|done|lia|]. auto.
      * done.
    + autorewrite with js. intros [= <- <-]. apply Z.leb_gt in Hf.
      by apply (StartOk cfg ulid draws now dbNow input w j b r).
Qed.

(** ** Transitions with their event *)

(** The shape shared by expiry, cancellation and matching: an update of pending
    rows, and the event of the first row it returned. *)
Section Transition.
Context (t : VerificationEventType) (fr : Fresh) (p : Verification -> bool)
  (f : Verification -> Verification).

Definition moved (v : Verification) (D : DB) : DB :=
  emitted fr t (v_appId v) (buildVerificationEventData (f v) t)
    (set_rows t_verifications (update_where p f (verifications D)) D).

Lemma transition_cases (k : SM unit) w :
  (forall v, v_appId (f v) = v_appId v) ->
  let m := let! result := update t_verifications p f in
           match result with
           | [] => k
           | row :: _ => emitVerificationEventInTx fr t (v_appId row) (buildVerificationEventData row t)
           end in
  (select p (verifications (db w)) = [] /\ transaction m w = transaction k w) \/
  (exists v l, select p (verifications (db w)) = v :: l /\
     (transaction m w = (Return tt, mkWorld (moved v (db w))
        (counted w ++ [webhookEventEmitted (event_text t)]) (background w)) \/
      exists name c, transaction m w = (Throw (UniqueViolation name), mkWorld (db w) c (background w)) /\
        In name ["webhook_events_pkey"; "webhook_deliveries_pkey"] /\ ~ fresh_for fr (db w))).
Proof.
  intros Hf. cbv zeta. destruct (select p (verifications (db w))) as [|v l] eqn:Es.
  - left. split; [done|]. unfold transaction. unfold bind at 1.
    by rewrite (update_none t_verifications p f w Es).
  - right. exists v, l. split; [done|]. unfold transaction. rewrite bind_update.
    cbn [rows t_verifications]. unfold updated. rewrite Es. cbn [map].
    destruct (emit_cases fr t (v_appId (f v)) (buildVerificationEventData (f v) t)
      (set_db (set_rows t_verifications (update_where p f (verifications (db w)))) w))
      as [E|(name & w' & E & Hin & Hb & Hnf)]; rewrite E.
    + left. unfold moved. by rewrite (Hf v).
    + right. exists name, (counted w'). by rewrite Hb.
Qed.
End Transition.

(** The [WHERE] clauses and the [ORDER BY], spelled out. *)
Lemma healthy_iff cfg dbNow appId op r :
  healthy cfg dbNow appId op r = true <->
  r_appId r = appId /\ r_enabled r = true /\
  (exists hb, r_lastHeartbeatAt r = Some hb /\
              (dbNow - RECEIVER_HEARTBEAT_TIMEOUT_SECONDS cfg * 1000 < hb)%Z) /\
  (forall o, op = Some o -> r_operator r = Some o).
Proof.
  unfold healthy. rewrite !andb_true_iff, String.eqb_eq.
  assert ((match r_lastHeartbeatAt r with None => false
           | Some hb => (dbNow - RECEIVER_HEARTBEAT_TIMEOUT_SECONDS cfg * 1000 <? hb)%Z end) = true <->
          exists hb, r_lastHeartbeatAt r = Some hb /\
              (dbNow - RECEIVER_HEARTBEAT_TIMEOUT_SECONDS cfg * 1000 < hb)%Z) as ->.
  { destruct (r_lastHeartbeatAt r) as [hb|]; [rewrite Z.ltb_lt|]; naive_solver. }
  assert ((match op with None => true
           | Some o => match r_operator r with Some o' => String.eqb o' o | None => false end end) = true <->
          forall o, op = Some o -> r_operator r = Some o) as ->; [|tauto].
  destruct op as [o|], (r_operator r) as [o'|]; rewrite ?String.eqb_eq; naive_solver.
Qed.

Lemma receiver_le_iff D r r' :
  receiver_le D r r' = true <->
  (pending_count D (r_id r) < pending_count D (r_id r'))%nat \/
  pending_count D (r_id r) = pending_count D (r_id r') /\ (r_createdAt r <= r_createdAt r')%Z.
Proof.
  unfold receiver_le. by rewrite orb_true_iff, andb_true_iff, Nat.ltb_lt, Nat.eqb_eq, Z.leb_le.
Qed.

Lemma verification_is_iff appId id v :
  verification_is appId id v = true <-> v_id v = id /\ v_appId v = appId.
Proof. unfold verification_is. by rewrite andb_true_iff, !String.eqb_eq. Qed.

(** ** Theorems *)

(** [pickReceiver] returns nothing only when the app has no healthy receiver;
    otherwise it returns a healthy receiver of the app that no other eligible
    receiver precedes in (pending count, creation time).  A wanted operator is
    honoured whenever some healthy receiver has it, and [fallback] is reported
    exactly when none has. *)
Theorem pickReceiver_spec `{Limit1} cfg dbNow D appId op :
  (forall want r, healthy cfg dbNow appId want r = true <->
     r_appId r = appId /\ r_enabled r = true /\
     (exists hb, r_lastHeartbeatAt r = Some hb /\
                 (dbNow - RECEIVER_HEARTBEAT_TIMEOUT_SECONDS cfg * 1000 < hb)%Z) /\
     (forall o, want = Some o -> r_operator r = Some o)) /\
  (forall r r', receiver_le D r r' = true <->
     (pending_count D (r_id r) < pending_count D (r_id r'))%nat \/
     pending_count D (r_id r) = pending_count D (r_id r') /\ (r_createdAt r <= r_createdAt r')%Z) /\
  match pickReceiver cfg dbNow D appId op with
  | None => forall r, In r (receivers D) -> healthy cfg dbNow appId None r = false
  | Some p =>
      exists r, In r (receivers D) /\ p = picked (pr_match p) r /\
        healthy cfg dbNow appId None r = true /\
        match pr_match p with
        | preferred => exists o, wants op = Some o /\ r_operator r = Some o /\
            forall r', In r' (receivers D) -> healthy cfg dbNow appId (Some o) r' = true -> receiver_le D r r' = true
        | fallback => exists o, wants op = Some o /\
            (forall r', In r' (receivers D) -> healthy cfg dbNow appId (Some o) r' = false) /\
            forall r', In r' (receivers D) -> healthy cfg dbNow appId None r' = true -> receiver_le D r r' = true
        | none => wants op = None /\
            forall r', In r' (receivers D) -> healthy cfg dbNow appId None r' = true -> receiver_le D r r' = true
        end
  end.
Proof.
  split; [intros want r; apply healthy_iff|]. split; [intros r r'; apply receiver_le_iff|].
  unfold pickReceiver. destruct (wants op) as [o|].
  - destruct (runHealthyReceiverQuery cfg dbNow D appId (Some o)) as [r|] eqn:Eq.
    + apply healthy_query_Some in Eq. destruct Eq as (Hin & Hh & Hm).
      exists r. split; [done|]. split; [done|]. split; [by eapply healthy_any|].
      exists o. split; [done|]. split; [|done]. unfold healthy in Hh. destruct_and_ex.
      destruct (r_operator r); [|discriminate]. reflect_eqb. by subst.
    + pose proof (healthy_query_None _ _ _ _ _ Eq) as Hno.
      destruct (runHealthyReceiverQuery cfg dbNow D appId None) as [r|] eqn:Eq'; cbn.
      * apply healthy_query_Some in Eq'. destruct Eq' as (Hin & Hh & Hm).
        exists r. do 3 (split; [done|]). by exists o.
      * exact (healthy_query_None _ _ _ _ _ Eq').
  - destruct (runHealthyReceiverQuery cfg dbNow D appId None) as [r|] eqn:Eq'; cbn.
    + apply healthy_query_Some in Eq'. destruct Eq' as (Hin & Hh & Hm). by exists r.
    + exact (healthy_query_None _ _ _ _ _ Eq').
Qed.

(** ** The outcome of a start *)

(** Another pending row of the receiver and phone already has the code. *)
Definition code_taken (receiverId phone code : string) (t : list Verification) : Prop :=
  exists v, In v t /\ v_status v = pending /\ v_receiverId v = receiverId /\ v_phoneE164 v = phone /\
            v_code v = code.

Section Outcome.
Context `{Limit1} (cfg : Config) (id : string) (expiresAt dbNow : Z) (input : StartVerificationInput)
  (draws : nat -> nat -> nat) (w : World).

Let attempt := start_tx cfg id expiresAt dbNow input.
Let row r i := new_row id expiresAt dbNow input r (code_of cfg draws i).
Let taken r i := code_taken (pr_id r) (sv_phoneE164 input) (code_of cfg draws i) (verifications (db w)).
Let room := (Z.of_nat (List.length (pending_rows input (db w))) < MAX_PENDING_PER_PHONE cfg)%Z.
Let pick := pickReceiver cfg dbNow (db w) (sv_appId input) (sv_preferredOperator input).

Hypothesis Hc : config_valid cfg = true.

Lemma clash_taken r i :
  clashes (snd verifications_pending_uniq) (row r i) (verifications (db w)) = true <-> taken r i.
Proof.
  unfold clashes, taken, code_taken. rewrite existsb_exists. cbn [snd verifications_pending_uniq].
  split; intros (v & Hin & Hv); exists v; (split; [done|]).
  - destruct_and_ex. reflect_eqb. repeat split; first [done|by apply status_eqb_eq].
  - cbn. destruct Hv as (-> & -> & -> & ->). by rewrite !String.eqb_refl.
Qed.

Lemma attempt_taken r i k :
  room -> pick = Some r -> ~ In id (map v_id (verifications (db w))) -> taken r i ->
  attempt (code_of cfg draws i) (retried w k) = (Throw (UniqueViolation "verifications_pending_uniq"), retried w k).
Proof.
  intros Hroom Hp Hid Ht. unfold attempt.
  destruct (start_tx_cases cfg id expiresAt dbNow input (code_of cfg draws i) (retried w k))
    as [[Hf _]|[(_ & Hn & _)|(r' & _ & Hp' & E)]]; cbn [db retried] in *.
  - apply Z.leb_le in Hf. unfold room in Hroom. lia.
  - unfold pick in Hp. congruence.
  - assert (r' = r) as -> by (unfold pick in Hp; congruence).
    assert (Hk : broken_by verifications_idx (row r i) (verifications (db w)) = Some "verifications_pending_uniq").
    { unfold broken_by, verifications_idx. cbn [List.find].
      rewrite (proj2 (clashes_pkey "verifications_pkey" v_id (row r i) _) Hid).
      by rewrite (proj2 (clash_taken r i) Ht). }
    unfold row in Hk. by rewrite Hk in E.
Qed.

(** The loop passes over taken codes, counting each. *)
Lemma loop_taken r k : forall i n,
  room -> pick = Some r -> ~ In id (map v_id (verifications (db w))) ->
  (forall j, (i <= j < i + k)%nat -> taken r j) ->
  retry_loop cfg draws attempt i (k + n) (retried w i) = retry_loop cfg draws attempt (i + k) n (retried w (i + k)).
Proof.
  induction k as [|k IH]; intros i n Hroom Hp Hid Ht.
  - by rewrite !Nat.add_0_r.
  - cbn [Nat.add retry_loop]. unfold bind at 1. rewrite generateCode_code_of by done. unfold try_catch.
    rewrite (attempt_taken r) by (try done; apply Ht; lia). cbn [negb isPendingCodeCollision String.eqb Ascii.eqb Bool.eqb].
    autorewrite with js.
    replace (i + S k)%nat with (S i + k)%nat by lia. rewrite <- IH; [|done|done|done|intros j Hj; apply Ht; lia].
    f_equal. unfold retried. cbn. f_equal. rewrite <- app_assoc. f_equal. symmetry. apply repeat_cons.
Qed.

(** The first attempt that does not meet a taken code ends the loop. *)
Lemma loop_first i n o :
  attempt (code_of cfg draws i) (retried w i) = o ->
  match fst o with Throw e => isPendingCodeCollision e = false | Return _ => True end ->
  retry_loop cfg draws attempt i (S n) (retried w i) = o.
Proof.
  intros <- Ho. cbn [retry_loop]. unfold bind at 1. rewrite generateCode_code_of by done. unfold try_catch.
  destruct (attempt _ _) as [[a|e] w2]; [done|]. cbn in Ho. by rewrite Ho.
Qed.

Lemma attempt_free r i k :
  room -> pick = Some r -> ~ In id (map v_id (verifications (db w))) -> ~ taken r i ->
  attempt (code_of cfg draws i) (retried w k)
  = (Return (r, code_of cfg draws i),
     set_db (set_rows t_verifications (verifications (db w) ++ [row r i])%list) (retried w k)).
Proof.
  intros Hroom Hp Hid Ht. unfold attempt.
  destruct (start_tx_cases cfg id expiresAt dbNow input (code_of cfg draws i) (retried w k))
    as [[Hf _]|[(_ & Hn & _)|(r' & _ & Hp' & E)]]; cbn [db retried] in *.
  - apply Z.leb_le in Hf. unfold room in Hroom. lia.
  - unfold pick in Hp. congruence.
  - assert (r' = r) as -> by (unfold pick in Hp; congruence).
    assert (Hk : broken_by verifications_idx (row r i) (verifications (db w)) = None).
    { unfold broken_by, verifications_idx. cbn [List.find].
      rewrite (proj2 (clashes_pkey "verifications_pkey" v_id (row r i) _) Hid).
      destruct (clashes (snd verifications_pending_uniq) _ _) eqn:E2; [|done].
      by apply (clash_taken r i) in E2. }
    unfold row in Hk. by rewrite Hk in E.
Qed.

(** Refusals decided before the insert, and a clash of the row's own identifier. *)
Lemma attempt_refused i e :
  (e = conflict "too_many_pending" "too many pending verifications for this phone" /\ ~ room) \/
  (e = serviceUnavailable "no_receiver" "no healthy receiver available" /\ room /\ pick = None) \/
  (e = UniqueViolation "verifications_pkey" /\ room /\ (exists r, pick = Some r) /\
   In id (map v_id (verifications (db w)))) ->
  attempt (code_of cfg draws i) w = (Throw e, w).
Proof.
  intros He. unfold attempt, room, pick in *.
  destruct (start_tx_cases cfg id expiresAt dbNow input (code_of cfg draws i) w)
    as [[Hf E]|[(Hf & Hn & E)|(r & Hf & Hp & E)]];
    [apply Z.leb_le in Hf|apply Z.leb_gt in Hf ..].
  - destruct He as [[-> _]|[(_ & ? & _)|(_ & ? & _)]]; [done|lia|lia].
  - destruct He as [[_ ?]|[[-> _]|(_ & _ & [r Hr] & _)]]; [lia|done|congruence].
  - destruct He as [[_ ?]|[(_ & _ & ?)|(-> & _ & _ & Hid)]]; [lia|congruence|].
    destruct (broken_by verifications_idx _ _) as [name|] eqn:Eb; [|exfalso].
    + destruct (broken_verification _ _ _ Eb) as [[-> _]|[-> _]]; [done|]. exfalso.
      unfold broken_by, verifications_idx in Eb. cbn [List.find] in Eb.
      destruct (clashes (snd (pkey "verifications_pkey" v_id)) _ _) eqn:Ek; [discriminate|].
      by apply clashes_pkey in Ek.
    + apply broken_by_None, Forall_inv in Eb. by apply clashes_pkey in Eb.
Qed.
End Outcome.

Section Branches.
Context `{Limit1} (cfg : Config) (ulid : string) (draws : nat -> nat -> nat) (now dbNow : Z)
  (input : StartVerificationInput) (w : World).

Let id := newId VERIFICATION_PREFIX ulid.
Let expiresAt := (now + VERIFICATION_TTL_SECONDS cfg * 1000)%Z.
Let bound := select (verified_binding (sv_appId input) (sv_phoneE164 input)) (phoneBindings (db w)) <> [].
Let taken r i := code_taken (pr_id r) (sv_phoneE164 input) (code_of cfg draws i) (verifications (db w)).
Let finish (txResult : PickedReceiver * string) : SM PublicVerification :=
  let '(receiver, code) := txResult in
  do! count (receiverSelected (match_text (pr_match receiver))) in
  ret {| pv_id := id; pv_status := pending; pv_phone_masked := maskPhone (sv_phoneE164 input);
         pv_send_to := Some (pr_msisdn receiver); pv_message := Some (messagePrefix ++ " " ++ code);
         pv_client_ref := sv_clientRef input; pv_purpose := sv_purpose input;
         pv_verified_at := None; pv_expires_at := toISOString expiresAt;
         pv_created_at := toISOString now; pv_attempts := 0 |}.

Lemma bound_select :
  (exists b, In b (phoneBindings (db w)) /\ b_appId b = sv_appId input /\ b_phoneE164 b = sv_phoneE164 input /\
             b_status b = "verified") <-> bound.
Proof.
  unfold bound. rewrite select_nil_iff. split.
  - intros (b & Hb & Hv) Hn. apply verified_binding_iff in Hv. by rewrite (Hn b Hb) in Hv.
  - intros Hn. destruct (select (verified_binding (sv_appId input) (sv_phoneE164 input)) (phoneBindings (db w)))
      as [|b l] eqn:E; [by rewrite select_nil_iff in E|].
    assert (Hb : In b (select (verified_binding (sv_appId input) (sv_phoneE164 input)) (phoneBindings (db w))))
      by (rewrite E; by left).
    apply select_In in Hb. destruct Hb as [Hb Hv]. exists b. by rewrite verified_binding_iff in Hv.
Qed.

Lemma start_unbound : ~ bound -> startVerification cfg ulid draws now dbNow input w = (Throw phoneNotBound, w).
Proof.
  unfold bound. intros Hb. unfold startVerification. autorewrite with js. cbn [rows t_phoneBindings].
  destruct (select _ _) as [|b l] eqn:E; [|by destruct Hb]. by rewrite limit1_nil.
Qed.

Lemma start_bound : bound ->
  startVerification cfg ulid draws now dbNow input w
  = bind (runWithCodeCollisionRetry cfg draws (start_tx cfg id expiresAt dbNow input)) finish w.
Proof.
  unfold bound. intros Hb. unfold startVerification. autorewrite with js. cbn [rows t_phoneBindings].
  destruct (limit1 _) as [b|] eqn:E; [|by apply limit1_None in E].
  by rewrite bool_decide_true by eauto.
Qed.

Hypothesis Hc : config_valid cfg = true.

(** An exception of the first attempt that is no collision is the outcome. *)
Lemma start_throws e : bound ->
  start_tx cfg id expiresAt dbNow input (code_of cfg draws 0) w = (Throw e, w) ->
  isPendingCodeCollision e = false ->
  startVerification cfg ulid draws now dbNow input w = (Throw e, w).
Proof.
  intros Hb He Hn. rewrite start_bound by done. apply bind_Throw.
  unfold runWithCodeCollisionRetry, MAX_CODE_COLLISION_RETRIES. rewrite <- (retried_0 w) at 1.
  apply (loop_first cfg id expiresAt dbNow input draws w Hc 0 2); [|done]. by rewrite retried_0.
Qed.

Hypothesis Hroom : (Z.of_nat (List.length (pending_rows input (db w))) < MAX_PENDING_PER_PHONE cfg)%Z.
Hypothesis Hid : ~ In id (map v_id (verifications (db w))).

Lemma start_exhausted r :
  pickReceiver cfg dbNow (db w) (sv_appId input) (sv_preferredOperator input) = Some r ->
  taken r 0 -> taken r 1 -> taken r 2 ->
  bind (runWithCodeCollisionRetry cfg draws (start_tx cfg id expiresAt dbNow input)) finish w
  = (Throw exhausted,
     mkWorld (db w) (counted w ++ repeat (verificationCodeCollision "retried") 3 ++
                     [verificationCodeCollision "exhausted"])%list (background w)).
Proof.
  intros Hp H0 H1 H2. unfold bind, runWithCodeCollisionRetry.
  rewrite <- (retried_0 w) at 1.
  rewrite (loop_taken cfg id expiresAt dbNow input draws w Hc r 3 0 0); [|done|done|done|].
  - cbn [retry_loop Nat.add]. autorewrite with js. unfold throw, retried. cbn.
    by rewrite <- app_assoc.
  - intros [|[|[|j]]] Hj; try done. lia.
Qed.

Lemma start_first_free r i :
  pickReceiver cfg dbNow (db w) (sv_appId input) (sv_preferredOperator input) = Some r ->
  (i < 3)%nat -> (forall j, (j < i)%nat -> taken r j) -> ~ taken r i ->
  bind (runWithCodeCollisionRetry cfg draws (start_tx cfg id expiresAt dbNow input)) finish w
  = finish (r, code_of cfg draws i)
      (set_db (set_rows t_verifications
         (verifications (db w) ++ [new_row id expiresAt dbNow input r (code_of cfg draws i)])%list) (retried w i)).
Proof.
  intros Hp Hi Ht Hf. unfold bind at 1, runWithCodeCollisionRetry, MAX_CODE_COLLISION_RETRIES.
  rewrite <- (retried_0 w) at 1. replace 3%nat with (i + S (2 - i))%nat at 1 by lia.
  rewrite (loop_taken cfg id expiresAt dbNow input draws w Hc r i 0); [|done|done|done|intros j Hj; apply Ht; lia].
  cbn [Nat.add].
  erewrite loop_first; [|done|by apply attempt_free|done]. done.
Qed.
End Branches.

(** What the picked receiver is, for a caller of [pickReceiver]. *)
Lemma picked_healthy `{Limit1} cfg dbNow D appId op r :
  pickReceiver cfg dbNow D appId op = Some r ->
  exists rc, In rc (receivers D) /\ r = picked (pr_match r) rc /\ healthy cfg dbNow appId None rc = true /\
    (forall o, wants op = Some o ->
       (exists r', In r' (receivers D) /\ healthy cfg dbNow appId (Some o) r' = true) -> r_operator rc = Some o).
Proof.
  intros Hp. destruct (pickReceiver_spec cfg dbNow D appId op) as (_ & _ & S). rewrite Hp in S.
  destruct S as (rc & Hin & Er & Hh & Hm). exists rc. do 3 (split; [done|]). intros o Ho (r' & Hr' & Hh').
  destruct (pr_match r).
  - destruct Hm as (o' & Ho' & Hop & _). congruence.
  - destruct Hm as (o' & Ho' & Hno & _). assert (o' = o) as -> by congruence. by rewrite (Hno r' Hr') in Hh'.
  - destruct Hm as (Hn & _). congruence.
Qed.

(** C6: the outcome of starting a verification, decided in this order.
    - Without a verified binding of the phone in the app: [phone_not_bound].
    - With as many pending rows of app and phone as configured: [too_many_pending].
    - Without a healthy receiver of the app: [no_receiver].
    - With the new identifier already in the table: the driver's unique violation.
      Each of these changes nothing.
    - Otherwise a healthy receiver is picked, of the wanted operator when a healthy
      one has it, and the first of three drawn codes that no pending row of that
      receiver and phone has is used: exactly one row is added, for the caller's app
      and phone, with the configured deadline, and the caller is told the receiver's
      number and the message with the row's code.
    - When all three codes are taken: the 503 [code_generation_collision], and only
      the collisions have been counted. *)
Theorem startVerification_spec `{Limit1} cfg ulid draws now dbNow input w :
  config_valid cfg = true ->
  let app := sv_appId input in
  let phone := sv_phoneE164 input in
  let id := newId VERIFICATION_PREFIX ulid in
  let run := startVerification cfg ulid draws now dbNow input w in
  let bound := exists b, In b (phoneBindings (db w)) /\ b_appId b = app /\ b_phoneE164 b = phone /\
                         b_status b = "verified" in
  let waiting := Z.of_nat (List.length (select (fun v => String.eqb (v_appId v) app &&
                   String.eqb (v_phoneE164 v) phone && is_pending v) (verifications (db w)))) in
  let taken r i := code_taken (pr_id r) phone (code_of cfg draws i) (verifications (db w)) in
  (~ bound -> run = (Throw phoneNotBound, w)) /\
  (bound -> (MAX_PENDING_PER_PHONE cfg <= waiting)%Z ->
     run = (Throw (conflict "too_many_pending" "too many pending verifications for this phone"), w)) /\
  (bound -> (waiting < MAX_PENDING_PER_PHONE cfg)%Z ->
     match pickReceiver cfg dbNow (db w) app (sv_preferredOperator input) with
     | None =>
         (forall r, In r (receivers (db w)) -> healthy cfg dbNow app None r = false) /\
         run = (Throw (serviceUnavailable "no_receiver" "no healthy receiver available"), w)
     | Some r =>
         (exists rc, In rc (receivers (db w)) /\ healthy cfg dbNow app None rc = true /\
            r = picked (pr_match r) rc /\
            (forall o, wants (sv_preferredOperator input) = Some o ->
               (exists r', In r' (receivers (db w)) /\ healthy cfg dbNow app (Some o) r' = true) ->
               r_operator rc = Some o)) /\
         (In id (map v_id (verifications (db w))) -> run = (Throw (UniqueViolation "verifications_pkey"), w)) /\
         (~ In id (map v_id (verifications (db w))) ->
            (taken r 0%nat -> taken r 1%nat -> taken r 2%nat ->
               run = (Throw exhausted,
                      mkWorld (db w) (counted w ++ repeat (verificationCodeCollision "retried") 3 ++
                                      [verificationCodeCollision "exhausted"])%list (background w))) /\
            (forall i, (i < 3)%nat -> (forall j, (j < i)%nat -> taken r j) -> ~ taken r i ->
               exists row res,
                 run = (Return res,
                        mkWorld (set_rows t_verifications (verifications (db w) ++ [row])%list (db w))
                          (counted w ++ repeat (verificationCodeCollision "retried") i ++
                           [receiverSelected (match_text (pr_match r))])%list (background w)) /\
                 v_id row = id /\ v_appId row = app /\ v_phoneE164 row = phone /\ v_status row = pending /\
                 v_attempts row = 0%Z /\ v_receiverId row = pr_id r /\ v_code row = code_of cfg draws i /\
                 v_expiresAt row = (now + VERIFICATION_TTL_SECONDS cfg * 1000)%Z /\
                 pv_id res = id /\ pv_status res = pending /\ pv_send_to res = Some (pr_msisdn r) /\
                 pv_message res = Some ("VERIFY " ++ code_of cfg draws i) /\
                 pv_phone_masked res = maskPhone phone /\
                 pv_expires_at res = toISOString (v_expiresAt row)))
     end).
Proof.
  intros Hc. cbv zeta. rewrite bound_select. fold (pending_for (sv_appId input) (sv_phoneE164 input)).
  fold (pending_rows input (db w)). split; [|split].
  - intros Hb. by apply start_unbound.
  - intros Hb Hf. apply start_throws; [done|done| |done]. apply attempt_refused. left. split; [done|]. lia.
  - intros Hb Hr. destruct (pickReceiver _ _ _ _ _) as [r|] eqn:Ep.
    + split; [apply picked_healthy in Ep; naive_solver|]. split.
      * intros Hid. apply start_throws; [done|done| |done]. apply attempt_refused. eauto 10.
      * intros Hid. rewrite (start_bound _ _ _ _ _ _ _ Hb).
        split; [by apply start_exhausted|]. intros i Hi Ht Hf.
        rewrite (start_first_free cfg ulid draws now dbNow input w Hc Hr Hid r i) by done.
        autorewrite with js. do 2 eexists. split.
        { unfold ret, retried. cbn. rewrite <- app_assoc. reflexivity. }
        repeat split.
    + split; [destruct (pickReceiver_spec cfg dbNow (db w) (sv_appId input) (sv_preferredOperator input))
                as (_ & _ & S); by rewrite Ep in S|].
      apply start_throws; [done|done| |done]. apply attempt_refused. auto.
Qed.

(** A database where a start succeeds. *)
Definition bound_db : DB :=
  set_rows t_phoneBindings
    [mkPhoneBinding "pbn_1" "app_1" "rcv_1" "+963991234567" "verified" "N" 9000 (Some 10%Z) None 0] sample_db.

Definition sample_input : StartVerificationInput :=
  {| sv_appId := "app_1"; sv_phoneE164 := "+963991234567"; sv_purpose := "login"; sv_clientRef := None;
     sv_locale := None; sv_ip := None; sv_preferredOperator := Some "mtn" |}.

Lemma startVerification_spec_witness :
  let run := startVerification default_config "1" (fun i j => (i + j)%nat) 2000 2000 sample_input
               (mkWorld bound_db [] []) in
  exists res w' row, run = (Return res, w') /\ verifications (db w') = [row] /\ v_id row = pv_id res.
Proof.
  intros run.
  destruct (startVerification_spec default_config "1" (fun i j => (i + j)%nat) 2000 2000 sample_input
    (mkWorld bound_db [] []) ltac:(vm_compute; reflexivity)) as (_ & _ & S).
  destruct S as (_ & _ & S).
  - eexists. split; [left; reflexivity|]. repeat split.
  - vm_compute. reflexivity.
  - destruct S as [_ S]; [intros []|].
    destruct (S 0%nat) as (row & res & E & Hid & H); [lia|lia|intros (v & [] & _)|].
    exists res. eexists. exists row. split; [exact E|]. split; [reflexivity|].
    destruct H as (_ & _ & _ & _ & _ & _ & _ & H & _). etransitivity; [exact Hid|symmetry; exact H].
Defined.

Lemma collision_retry_spec_witness :
  exists j wj, collided default_config (fun _ _ => 0%nat)
    (fun _ w => (Throw (UniqueViolation "verifications_pending_uniq") : outcome exn nat, w))
    (mkWorld empty_db [] []) j wj /\ (j <= 3)%nat.
Proof.
  destruct (runWithCodeCollisionRetry default_config (fun _ _ => 0%nat)
    (fun _ w => (Throw (UniqueViolation "verifications_pending_uniq") : outcome exn nat, w))
    (mkWorld empty_db [] [])) as [o w'] eqn:E.
  destruct (collision_retry_spec default_config (fun _ _ => 0%nat) _ (mkWorld empty_db [] []) o w'
    ltac:(vm_compute; reflexivity) E) as (j & wj & Hj & Hle & _).
  exists j, wj. split; [exact Hj | exact Hle].
Defined.

(** A read never changes the database and never returns the code or the
    receiver's number; it reports a pending row past its deadline as expired and,
    exactly then, starts the task that persists the expiry; an unknown
    (app, id) pair is a 404. *)
Theorem getVerification_spec `{Limit1} now appId id kind w :
  (forall v, verification_is appId id v = true <-> v_id v = id /\ v_appId v = appId) /\
  match getVerification now appId id kind w with
  | (Return res, w') =>
      db w' = db w /\ counted w' = counted w /\
      exists v, In v (verifications (db w)) /\ verification_is appId id v = true /\
        pv_id res = v_id v /\ pv_send_to res = None /\ pv_message res = None /\
        pv_phone_masked res = maskPhone (v_phoneE164 v) /\
        ((v_status v = pending /\ (v_expiresAt v <= now)%Z /\ pv_status res = expired /\
          background w' = (background w ++ [id])%list) \/
         ((v_status v <> pending \/ (now < v_expiresAt v)%Z) /\ pv_status res = v_status v /\
          background w' = background w))
  | (Throw e, w') => w' = w /\ e = notFound "verification" /\
                     select (verification_is appId id) (verifications (db w)) = []
  end.
Proof.
  split; [intros v; apply verification_is_iff|].
  unfold getVerification. autorewrite with js. cbn [rows t_verifications].
  destruct (limit1 _) as [v|] eqn:Ev; [|by apply limit1_None in Ev].
  apply limit1_In, select_In in Ev. destruct Ev as [Hin Hq].
  unfold expire_if_due, effective_status, lazyExpireAndEmit, is_pending.
  destruct (status_eqb (v_status v) pending) eqn:Es; cbn [andb].
  - apply status_eqb_eq in Es. destruct (v_expiresAt v <=? now)%Z eqn:Et; autorewrite with js;
      cbn [db counted background ret]; (split; [done|]); (split; [done|]); exists v;
      do 6 (split; [done|]); reflect_eqb; [left|right]; auto.
  - apply status_eqb_neq in Es. autorewrite with js. cbn [ret]. do 2 (split; [done|]). exists v.
    do 6 (split; [done|]). right. auto.
Qed.

(** The hosted page shows the message and the receiver's number exactly while the
    verification is pending and its deadline has not passed, and it does not
    change the database. *)
Theorem hosted_discloses_only_while_pending `{Limit1} now id w :
  match getHostedVerification now id w with
  | (Return (Some hv), w') =>
      db w' = db w /\
      exists v, In v (verifications (db w)) /\ v_id v = id /\
        hv_message hv = (if is_pending v && (now <? v_expiresAt v)%Z
                         then Some (v_messagePrefix v ++ " " ++ v_code v) else None) /\
        (is_pending v && (now <? v_expiresAt v)%Z = false -> hv_send_to hv = None)
  | (Return None, w') => w' = w /\ select (fun v => String.eqb (v_id v) id) (verifications (db w)) = []
  | (Throw _, _) => False
  end.
Proof.
  unfold getHostedVerification. autorewrite with js. cbn [rows t_verifications].
  destruct (limit1 (select (fun v => String.eqb (v_id v) id) (verifications (db w)))) as [v|] eqn:Ev;
    [|by apply limit1_None in Ev].
  apply limit1_In, select_In in Ev. destruct Ev as [Hin Hq]. apply String.eqb_eq in Hq.
  autorewrite with js. unfold expire_if_due, effective_status, lazyExpireAndEmit, is_pending.
  assert (Ht := Z.ltb_antisym (v_expiresAt v) now).
  destruct (status_eqb (v_status v) pending) eqn:Es; cbn [andb].
  - destruct (v_expiresAt v <=? now)%Z eqn:Et; autorewrite with js; cbn; rewrite ?Es;
      (split; [done|]); exists v; rewrite Es, Ht; repeat (split; [done|]); done.
  - autorewrite with js. cbn. rewrite Es. split; [done|]. exists v. by rewrite Es.
Qed.

(** Cancelling succeeds exactly for a pending verification of the caller's app,
    whose status, cancellation time, event and deliveries change together; an
    unknown id is a 404, a verification that is no longer pending a 409, and every
    failure leaves the database as it was. *)
Theorem cancelVerification_spec `{Limit1} fr now readNow appId id w :
  respects verifications_idx (verifications (db w)) ->
  (forall v, verification_is appId id v = true <-> v_id v = id /\ v_appId v = appId) /\
  match cancelVerification fr now readNow appId id w with
  | (Return res, w') =>
      exists v, select (verification_is appId id) (verifications (db w)) = [v] /\ v_status v = pending /\
        db w' = moved ev_cancelled fr (fun v => verification_is appId id v && is_pending v)
                  (set_cancelled now) v (db w) /\
        background w' = background w /\ pv_status res = cancelled
  | (Throw e, w') => db w' = db w /\ background w' = background w /\
      (e = notFound "verification" /\ select (verification_is appId id) (verifications (db w)) = [] \/
       e = conflict "not_pending" "verification is not pending" /\
         (exists v, select (verification_is appId id) (verifications (db w)) = [v] /\ v_status v <> pending) \/
       exists name, e = UniqueViolation name /\ In name ["webhook_events_pkey"; "webhook_deliveries_pkey"])
  end.
Proof.
  intros Hidx. split; [intros v; apply verification_is_iff|]. set (q := verification_is appId id).
  assert (Hq : select q (verifications (db w)) = [] \/ exists v, select q (verifications (db w)) = [v]).
  { apply Forall_inv in Hidx. eapply select_unique; [exact Hidx|].
    unfold q, verification_is. cbn. intros x y Hx Hy. destruct_and_ex. reflect_eqb. subst.
    by rewrite String.eqb_eq. }
  unfold cancelVerification, cancel_tx. unfold bind at 1.
  set (p := fun v => q v && is_pending v). set (f := set_cancelled now).
  destruct (transition_cases ev_cancelled fr p f
    (let! existing := select_one t_verifications q in
     match existing with
     | None => throw (notFound "verification")
     | Some _ => throw (conflict "not_pending" "verification is not pending")
     end) w ltac:(done)) as [[Es E]|(v & l & Es & [E|(name & c & E & Hin & _)])]; fold q p f; rewrite E.
  - unfold transaction. autorewrite with js. cbn [rows t_verifications].
    unfold p in Es. rewrite select_and in Es.
    destruct Hq as [Hq|[v Hq]]; rewrite Hq in *.
    + rewrite limit1_nil. unfold throw. destruct w. cbn. auto.
    + rewrite limit1_one. unfold throw. cbn. split; [by destruct w|]. split; [by destruct w|].
      right. left. split; [done|]. exists v. split; [done|]. cbn in Es.
      unfold is_pending in Es. destruct (status_eqb (v_status v) pending) eqn:Ev; [done|].
      by apply status_eqb_neq in Ev.
  - unfold p in Es. rewrite select_and in Es. destruct Hq as [Hq|[x Hq]]; rewrite Hq in Es; [done|].
    cbn in Es. destruct (is_pending x) eqn:Ex; [|done]. injection Es as <- <-.
    unfold getVerification. autorewrite with js. cbn [rows t_verifications moved emitted db
      set_rows t_webhookDeliveries t_webhookEvents verifications].
    assert (Hsel : select q (update_where p f (verifications (db w))) = [f x]).
    { rewrite select_update_stable by done. rewrite Hq. cbn. unfold p.
      assert (q x = true) as ->; [|by rewrite Ex].
      apply (select_In q (verifications (db w)) x). rewrite Hq. by left. }
    fold q. rewrite Hsel, limit1_one. unfold expire_if_due, effective_status, f, is_pending.
    cbn [set_cancelled v_status status_eqb bool_decide andb]. autorewrite with js. cbn.
    exists x. split; [done|]. split; [by apply status_eqb_eq|]. done.
  - cbn. split; [done|]. split; [done|]. right. right. by exists name.
Qed.

Definition pending_row (id code : string) (expiresAt : Z) : Verification :=
  mkVerification id "app_1" "+963991234567" "login" None None "rcv_1" (Some "+963900000001") (Some "mtn")
    code "VERIFY" pending 0 expiresAt None None None None 0.

Definition pending_db : DB :=
  set_rows t_verifications [pending_row "vrf_1" "A7K9P2" 5000; pending_row "vrf_2" "B8M3Q4" 9000] bound_db.

Lemma cancelVerification_spec_witness :
  match cancelVerification sample_fresh 3000 3000 "app_1" "vrf_1" (mkWorld pending_db [] []) with
  | (Return res, w') =>
      exists v, select (verification_is "app_1" "vrf_1") (verifications pending_db) = [v] /\
                v_status v = pending /\ pv_status res = cancelled
  | (Throw _, _) => False
  end.
Proof.
  pose proof (cancelVerification_spec sample_fresh 3000 3000 "app_1" "vrf_1" (mkWorld pending_db [] [])
                ltac:(repeat constructor)) as [_ S].
  destruct (cancelVerification sample_fresh 3000 3000 "app_1" "vrf_1" (mkWorld pending_db [] []))
    as [[res|e] w'] eqn:E.
  - destruct S as (v & H1 & H2 & _ & _ & H3). exists v. split; [exact H1|]. split; [exact H2|exact H3].
  - vm_compute in E. discriminate.
Defined.
