(* ===== verification/Matching.v ===== *)
(** * Inbound matching: [services/matching.ts]

    [processInbound] stores an inbound SMS once, tries the BIND grammar first, and
    otherwise claims at most one pending verification with its event and back-link
    in one transaction.  [skip_locked] tells which rows other transactions hold
    when [FOR UPDATE SKIP LOCKED] runs. *)

From S2P Require Import Prelude JsString Json Errors Phone Crypto Config Schema SmsBody Webhooks PhoneBindings Verifications.
From Stdlib Require Import String Ascii.

Open Scope string_scope.
Open Scope js_scope.

Record MatchInput : Type := {
  mi_receiverId : string; mi_receiverMsisdn : string; mi_from : string; mi_to : string;
  mi_body : string; mi_receivedAt : Z; mi_idempotencyKey : string;
}.

Inductive MatchOutcome : Type :=
  | Matched (verificationId inboundId : string)
  | MatchedBinding (bindingId inboundId : string)
  | Unmatched (reason inboundId : string)
  | Duplicate (inboundId : string).

Definition extractCode (body prefix : string) : option string :=
  let upper := toUpperCase (trim body) in
  if negb (startsWith upper (toUpperCase prefix)) then None
  else
    let tail := remove_ws (slice_from upper (slen prefix)) in
    if (slen tail <? 4)%nat || (32 <? slen tail)%nat then None
    else if negb (all_chars is_AZ09 tail) then None
    else Some tail.


(** The sender as stored: normalized, or the first 32 characters as sent. *)
Definition sender `{PhoneLib} (cfg : Config) (from : string) : string :=
  match normalizePhone from (DEFAULT_PHONE_REGION cfg) with
  | Return n => e164 n
  | Throw _ => slice_to from 32
  end.

Definition inbound_row (id fromE164 : string) (dbNow : Z) (input : MatchInput) : InboundSms :=
  mkInboundSms id (mi_receiverId input) fromE164 (mi_to input) (slice_to (mi_body input) 1600)
    (mi_receivedAt input) (mi_idempotencyKey input) None dbNow.

Definition same_idempotency_key (input : MatchInput) (r : InboundSms) : bool :=
  String.eqb (i_receiverId r) (mi_receiverId input)
  && String.eqb (i_idempotencyKey r) (mi_idempotencyKey input).

(** [SET matched_verification_id = .. WHERE id = ..] *)
Definition set_matched (ref : option string) (r : InboundSms) : InboundSms :=
  mkInboundSms (i_id r) (i_receiverId r) (i_fromE164 r) (i_toMsisdn r) (i_body r) (i_receivedAt r)
    (i_idempotencyKey r) ref (i_createdAt r).

Definition link_inbound (inboundId : string) (ref : option string) : SM (list InboundSms) :=
  update t_inboundSms (fun r => String.eqb (i_id r) inboundId) (set_matched ref).

(** The row of the sub-SELECT: everything but the locks. *)
Definition eligible (receiverId fromE164 code : string) (serverNow : Z) (v : Verification) : bool :=
  String.eqb (v_receiverId v) receiverId && String.eqb (v_phoneE164 v) fromE164
  && String.eqb (v_code v) code && is_pending v && (serverNow <? v_expiresAt v)%Z.

Definition set_verified (serverNow : Z) (inboundId : string) (v : Verification) : Verification :=
  mkVerification (v_id v) (v_appId v) (v_phoneE164 v) (v_purpose v) (v_clientRef v) (v_locale v)
    (v_receiverId v) (v_receiverMsisdnSnapshot v) (v_receiverOperatorSnapshot v) (v_code v)
    (v_messagePrefix v) verified (v_attempts v + 1) (v_expiresAt v) (Some serverNow)
    (v_cancelledAt v) (Some inboundId) (v_createdIp v) (v_createdAt v).

(** The claim transaction; [None] when no row qualifies. *)
Definition claim_tx `{Limit1} (fr : Fresh) (skip_locked : Verification -> bool) (serverNow : Z)
    (receiverId fromE164 code inboundId : string) : SM (option Verification) :=
  transaction (
    let! target := gets (fun w =>
      v_id <$> limit1 (select (fun v => eligible receiverId fromE164 code serverNow v
                                        && negb (skip_locked v)) (verifications (db w)))) in
    let! claimed := update t_verifications
      (fun v => match target with Some id => String.eqb (v_id v) id | None => false end)
      (set_verified serverNow inboundId) in
    match claimed with
    | [] => ret None
    | row :: _ =>
        do! (if (1 <? List.length claimed)%nat then count matchingInvariantViolated else ret tt) in
        do! emitVerificationEventInTx fr ev_verified (v_appId row)
              (buildVerificationEventData row ev_verified) in
        do! link_inbound inboundId (Some (v_id row)) in
        ret (Some row)
    end).

(** After the SMS is stored: the BIND branch, then the claim. *)
Definition match_stored `{Limit1} (fr : Fresh) (skip_locked : Verification -> bool) (serverNow : Z)
    (receiverId fromE164 inboundId : string) (bindNonce code : option string) : SM MatchOutcome :=
  match bindNonce with
  | Some nonce =>
      let! outcome := consumeBindNonce serverNow
        {| cb_receiverId := receiverId; cb_fromE164 := fromE164; cb_nonce := nonce |} in
      match outcome with
      | BindMatched bindingId _ =>
          do! link_inbound inboundId (Some bindingId) in
          ret (MatchedBinding bindingId inboundId)
      | BindRefused _ => ret (Unmatched "binding_no_match" inboundId)
      end
  | None =>
      match code with
      | None => ret (Unmatched "no_match" inboundId)
      | Some code =>
          let! verifiedRow := claim_tx fr skip_locked serverNow receiverId fromE164 code inboundId in
          match verifiedRow with
          | None =>
              do! link_inbound inboundId None in
              ret (Unmatched "no_match" inboundId)
          | Some row => ret (Matched (v_id row) inboundId)
          end
      end
  end.

Definition processInbound `{PhoneLib} `{Limit1} (cfg : Config) (fr : Fresh) (inboundUlid : string)
    (skip_locked : Verification -> bool) (serverNow dbNow : Z) (input : MatchInput) : SM MatchOutcome :=
  let fromE164 := sender cfg (mi_from input) in
  let bindNonce := extractBindNonce (mi_body input) in
  let code := match bindNonce with None => extractCode (mi_body input) "VERIFY" | Some _ => None end in
  let inboundId := newId INBOUND_PREFIX inboundUlid in
  let! stored := try_catch
    (do! insert t_inboundSms inboundSms_idx (inbound_row inboundId fromE164 dbNow input) in ret None)
    (fun err =>
       let! prior := select_one t_inboundSms (same_idempotency_key input) in
       match prior with
       | Some prior => ret (Some (Duplicate (i_id prior)))
       | None => throw err
       end) in
  match stored with
  | Some duplicate => ret duplicate
  | None => match_stored fr skip_locked serverNow (mi_receiverId input) fromE164 inboundId bindNonce code
  end.

(** ** The two grammars *)

Lemma extractCode_eq body : extractCode body "VERIFY" = parse_command "VERIFY" 4 32 body.
Proof. reflexivity. Qed.

(** A body with a code claims nothing in the BIND branch and one with a nonce
    nothing in the VERIFY branch: whatever starts with BIND, well-formed or not,
    is never read as a verification code, and conversely. *)
Theorem grammars_disjoint body :
  (startsWith (toUpperCase (trim body)) "BIND" = true -> extractCode body "VERIFY" = None) /\
  (extractCode body "VERIFY" <> None -> extractBindNonce body = None) /\
  (extractBindNonce body <> None -> extractCode body "VERIFY" = None) /\
  (forall code, extractCode body "VERIFY" = Some code -> token 4 32 code).
Proof.
  split; [|split; [|split]].
  - intros Hb. apply startsWith_spec in Hb. unfold extractCode. by rewrite Hb.
  - intros Hc. rewrite extractBindNonce_eq. rewrite extractCode_eq in Hc.
    exact (parse_command_disjoint "V"%char "ERIFY" 4 32 "B"%char "IND" 8 64 body ltac:(discriminate) Hc).
  - intros Hb. rewrite extractCode_eq. rewrite extractBindNonce_eq in Hb.
    exact (parse_command_disjoint "B"%char "IND" 8 64 "V"%char "ERIFY" 4 32 body ltac:(discriminate) Hb).
  - intros code Hc. rewrite extractCode_eq in Hc. apply parse_command_Some in Hc. apply Hc.
Qed.

(** ** The claim *)

(** The database after [v] is claimed. *)
Definition claimed_db (fr : Fresh) (serverNow : Z) (inboundId : string) (v : Verification) (D : DB) : DB :=
  let D1 := moved ev_verified fr (fun x => String.eqb (v_id x) (v_id v)) (set_verified serverNow inboundId) v D in
  set_rows t_inboundSms
    (update_where (fun r => String.eqb (i_id r) inboundId) (set_matched (Some (v_id v))) (inboundSms D)) D1.

Section Claim.
Context `{Limit1} (fr : Fresh) (skip_locked : Verification -> bool) (serverNow : Z)
  (receiverId fromE164 code inboundId : string).

Lemma select_id v t :
  respects verifications_idx t -> In v t -> select (fun x => String.eqb (v_id x) (v_id v)) t = [v].
Proof.
  intros Ht Hv. destruct (select_pkey _ v_id _ t (v_id v) Ht) as [E|[r E]].
  - rewrite select_nil_iff in E. specialize (E v Hv). by rewrite String.eqb_refl in E.
  - assert (Hr : In r (select (fun x => String.eqb (v_id x) (v_id v)) t)) by (rewrite E; by left).
    apply select_In in Hr. destruct Hr as [Hr Hid]. apply String.eqb_eq in Hid.
    rewrite E. f_equal. symmetry. by eapply (pkey_inj _ v_id).
Qed.

Lemma claim_cases w :
  respects verifications_idx (verifications (db w)) ->
  let run := claim_tx fr skip_locked serverNow receiverId fromE164 code inboundId w in
  ((forall v, In v (verifications (db w)) ->
      eligible receiverId fromE164 code serverNow v && negb (skip_locked v) = false) /\
   run = (Return None, w)) \/
  (exists v, In v (verifications (db w)) /\ eligible receiverId fromE164 code serverNow v = true /\
     skip_locked v = false /\
     (run = (Return (Some (set_verified serverNow inboundId v)),
             mkWorld (claimed_db fr serverNow inboundId v (db w))
               (counted w ++ [webhookEventEmitted "verification.verified"]) (background w)) \/
      exists name c, run = (Throw (UniqueViolation name), mkWorld (db w) c (background w)) /\
        In name ["webhook_events_pkey"; "webhook_deliveries_pkey"] /\ ~ fresh_for fr (db w))).
Proof.
  intros Hidx. cbv zeta.
  destruct (claim_tx fr skip_locked serverNow receiverId fromE164 code inboundId w) as [o w'] eqn:E.
  revert E. unfold claim_tx, transaction. autorewrite with js.
  destruct (limit1 _) as [v|] eqn:Ev; cbn [fmap option_fmap option_map].
  - apply limit1_In, select_In in Ev. destruct Ev as [Hin Hv].
    apply andb_true_iff in Hv. destruct Hv as [He Hl]. apply negb_true_iff in Hl.
    intros E. right. exists v. do 3 (split; [done|]). revert E.
    cbn [rows t_verifications]. unfold updated. rewrite select_id by done.
    cbn [map List.length Nat.ltb Nat.leb]. autorewrite with js. unfold bind at 1.
    destruct (emit_cases fr ev_verified (v_appId (set_verified serverNow inboundId v))
      (buildVerificationEventData (set_verified serverNow inboundId v) ev_verified)
      (set_db (set_rows t_verifications (update_where (fun x => String.eqb (v_id x) (v_id v))
         (set_verified serverNow inboundId) (verifications (db w)))) w))
      as [E|(name & w1 & E & Hn & Hb & Hnf)]; rewrite E.
    + intros [= <- <-]. left. reflexivity.
    + intros [= <- <-]. right. exists name, (counted w1). by rewrite Hb.
  - apply limit1_None in Ev. rewrite select_nil_iff in Ev. cbn [rows t_verifications]. unfold updated.
    assert (Es : forall t : list Verification, select (fun _ => false) t = []).
    { intros t. by apply select_nil_iff. }
    rewrite Es, update_where_none by apply Es. cbn [map].
    rewrite (set_rows_same t_verifications). unfold ret. intros [= <- <-]. left. by split.
Qed.
End Claim.

(** ** One inbound SMS *)

Definition stored_world (row : InboundSms) (w : World) : World :=
  set_db (set_rows t_inboundSms (inboundSms (db w) ++ [row])%list) w.

Lemma broken_inbound r t name :
  broken_by inboundSms_idx r t = Some name ->
  In name ["inbound_sms_pkey"; "inbound_sms_idem_uq"] /\
  (name = "inbound_sms_idem_uq" -> exists x, In x t /\ snd inbound_sms_idem_uq x r = true).
Proof.
  unfold broken_by, inboundSms_idx. cbn [List.find].
  destruct (clashes (snd (pkey "inbound_sms_pkey" i_id)) r t) eqn:E.
  - intros [= <-]. split; [by left|discriminate].
  - destruct (clashes (snd inbound_sms_idem_uq) r t) eqn:E2; [|done]. intros [= <-].
    split; [right; by left|]. intros _. unfold clashes in E2. by apply existsb_exists in E2.
Qed.

Section Inbound.
Context `{PhoneLib} `{Limit1} (cfg : Config) (fr : Fresh) (inboundUlid : string)
  (skip_locked : Verification -> bool) (serverNow dbNow : Z) (input : MatchInput).

Let fromE164 := sender cfg (mi_from input).
Let inboundId := newId INBOUND_PREFIX inboundUlid.
Let row := inbound_row inboundId fromE164 dbNow input.
Let bindNonce := extractBindNonce (mi_body input).
Let code := match bindNonce with None => extractCode (mi_body input) "VERIFY" | Some _ => None end.

(** The SMS is a duplicate, or cannot be stored, or is stored and then matched. *)
Lemma processInbound_cases w :
  let run := processInbound cfg fr inboundUlid skip_locked serverNow dbNow input w in
  (exists prior, In prior (inboundSms (db w)) /\ same_idempotency_key input prior = true /\
     run = (Return (Duplicate (i_id prior)), w)) \/
  (select (same_idempotency_key input) (inboundSms (db w)) = [] /\
   In inboundId (map i_id (inboundSms (db w))) /\
   run = (Throw (UniqueViolation "inbound_sms_pkey"), w)) \/
  (select (same_idempotency_key input) (inboundSms (db w)) = [] /\
   broken_by inboundSms_idx row (inboundSms (db w)) = None /\
   run = match_stored fr skip_locked serverNow (mi_receiverId input) fromE164 inboundId bindNonce code
           (stored_world row w)).
Proof.
  cbv zeta. destruct (processInbound _ _ _ _ _ _ _ w) as [o w'] eqn:E. revert E.
  unfold processInbound. fold fromE164 bindNonce code inboundId row.
  unfold bind at 1, try_catch, bind at 1. rewrite insert_eq. cbn [rows t_inboundSms].
  destruct (broken_by inboundSms_idx row (inboundSms (db w))) as [name|] eqn:Eb.
  - autorewrite with js. cbn [rows t_inboundSms].
    destruct (limit1 _) as [prior|] eqn:Ep; autorewrite with js; intros [= <- <-].
    + left. apply limit1_In, select_In in Ep. exists prior. tauto.
    + right. left. apply limit1_None in Ep. split; [done|].
      assert (Hn : name = "inbound_sms_pkey").
      { destruct (broken_inbound _ _ _ Eb) as [[<-|[<-|[]]] Hx]; [done|].
        destruct (Hx eq_refl) as (x & Hin & Hc). rewrite select_nil_iff in Ep. specialize (Ep x Hin).
        unfold same_idempotency_key in Ep. cbn in Hc, Ep. congruence. }
      subst name. split; [|done]. unfold broken_by, inboundSms_idx in Eb. cbn [List.find] in Eb.
      destruct (in_dec String.string_dec inboundId (map i_id (inboundSms (db w)))) as [|Hni]; [done|].
      apply (clashes_pkey "inbound_sms_pkey" i_id row) in Hni. rewrite Hni in Eb.
      by destruct (clashes (snd inbound_sms_idem_uq) row (inboundSms (db w))).
  - autorewrite with js. intros E. right. right.
    split; [|split; [done|by rewrite <- E]].
    apply select_nil_iff. intros x Hx. apply broken_by_None in Eb.
    apply Forall_inv_tail, Forall_inv in Eb. rewrite clashes_false in Eb.
    exact (Eb x Hx).
Qed.
End Inbound.

(** The inbound table after a branch: the stored row, with its back-link. *)
Definition linked (row : InboundSms) (ref : option string) (D : DB) : list InboundSms :=
  (inboundSms D ++ [set_matched ref row])%list.

Lemma link_stored row ref w :
  ~ In (i_id row) (map i_id (inboundSms (db w))) ->
  update_where (fun r => String.eqb (i_id r) (i_id row)) (set_matched ref) (inboundSms (db (stored_world row w)))
  = linked row ref (db w).
Proof.
  intros Hid. cbn [db stored_world set_db inboundSms set_rows t_inboundSms].
  rewrite update_where_app, update_where_none.
  - unfold linked, update_where. cbn. by rewrite String.eqb_refl.
  - apply select_nil_iff. intros x Hx. apply String.eqb_neq. intros E. apply Hid. rewrite <- E.
    by apply in_map.
Qed.

(** A stored SMS has no back-link yet, so removing it changes nothing. *)
Lemma link_none row k w :
  i_matchedVerificationId row = None ->
  ~ In (i_id row) (map i_id (inboundSms (db w))) ->
  (do! link_inbound (i_id row) None in k) (stored_world row w) = (k : SM MatchOutcome) (stored_world row w).
Proof.
  intros Hn Hid. unfold link_inbound. autorewrite with js. cbn [rows t_inboundSms].
  rewrite link_stored by done. f_equal. unfold stored_world, linked, set_matched. rewrite <- Hn.
  by destruct row.
Qed.

Lemma stored_fresh cfg_sender id dbNow input w :
  broken_by inboundSms_idx (inbound_row id cfg_sender dbNow input) (inboundSms (db w)) = None ->
  ~ In id (map i_id (inboundSms (db w))).
Proof. intros Hb. apply broken_by_None, Forall_inv in Hb. by apply clashes_pkey in Hb. Qed.

(** C1: what one inbound SMS does, on every branch.
    - A key already stored for the receiver: nothing changes, and the outcome names
      the row stored then.
    - A body that is a BIND message: the SMS is stored; when a pending, unexpired
      binding of its receiver, sender and nonce exists, exactly such rows become
      verified and the SMS points to the first; when none exists, the outcome is
      [binding_no_match] and the world is that with the SMS stored.
    - Any other body: when a row is pending, unexpired, not locked, and of the SMS's
      receiver, normalized sender and code, that one row, its event and deliveries
      and the SMS's back-link change together; when none is, the outcome is
      [no_match] and the world is that with the SMS stored.
    - An exception is a unique violation: of the SMS's own identifier (nothing is
      stored), of a second binding of one app and phone, or of an event or delivery
      identifier (the SMS stays stored, nothing else has changed). *)
Theorem processInbound_spec `{PhoneLib} `{Limit1} cfg fr ulid skip_locked serverNow dbNow input w :
  respects verifications_idx (verifications (db w)) ->
  respects phoneBindings_idx (phoneBindings (db w)) ->
  let fromE164 := sender cfg (mi_from input) in
  let inboundId := newId INBOUND_PREFIX ulid in
  let row := inbound_row inboundId fromE164 dbNow input in
  let nonce := extractBindNonce (mi_body input) in
  let code := extractCode (mi_body input) "VERIFY" in
  let claim n := {| cb_receiverId := mi_receiverId input; cb_fromE164 := fromE164; cb_nonce := n |} in
  let stored := stored_world row w in
  match processInbound cfg fr ulid skip_locked serverNow dbNow input w with
  | (Return (Matched id i), w') => i = inboundId /\
      exists v, In v (verifications (db w)) /\ v_id v = id /\ v_status v = pending /\
        v_receiverId v = mi_receiverId input /\ v_phoneE164 v = fromE164 /\
        code = Some (v_code v) /\ nonce = None /\ (serverNow < v_expiresAt v)%Z /\
        skip_locked v = false /\
        inboundSms (db w') = linked row (Some id) (db w) /\
        w' = mkWorld (claimed_db fr serverNow inboundId v (db stored))
               (counted w ++ [webhookEventEmitted "verification.verified"]) (background w)
  | (Return (MatchedBinding id i), w') => i = inboundId /\
      exists n b, nonce = Some n /\ In b (phoneBindings (db w)) /\ b_id b = id /\
        b_nonce b = n /\ b_status b = "pending" /\ b_receiverId b = mi_receiverId input /\
        b_phoneE164 b = fromE164 /\ (serverNow < b_expiresAt b)%Z /\
        w' = mkWorld (set_rows t_inboundSms (linked row (Some id) (db w))
               (set_rows t_phoneBindings
                  (update_where (claimable (claim n) serverNow) (set_bound serverNow) (phoneBindings (db w)))
                  (db w))) (counted w) (background w)
  | (Return (Unmatched reason i), w') => i = inboundId /\ w' = stored /\
      match nonce with
      | Some n => reason = "binding_no_match" /\
          forall b, In b (phoneBindings (db w)) -> claimable (claim n) serverNow b = false
      | None => reason = "no_match" /\
          forall c v, code = Some c -> In v (verifications (db w)) ->
            eligible (mi_receiverId input) fromE164 c serverNow v && negb (skip_locked v) = false
      end
  | (Return (Duplicate i), w') => w' = w /\
      exists prior, In prior (inboundSms (db w)) /\ i_receiverId prior = mi_receiverId input /\
        i_idempotencyKey prior = mi_idempotencyKey input /\ i_id prior = i
  | (Throw e, w') =>
      (e = UniqueViolation "inbound_sms_pkey" /\ In inboundId (map i_id (inboundSms (db w))) /\ w' = w) \/
      (e = UniqueViolation "phone_bindings_active_uq" /\ w' = stored /\
       exists n b b', nonce = Some n /\ In b (phoneBindings (db w)) /\ In b' (phoneBindings (db w)) /\
         b_id b' <> b_id b /\ claimable (claim n) serverNow b = true /\
         b_appId b' = b_appId b /\ b_phoneE164 b' = b_phoneE164 b /\
         (b_status b' = "verified" \/ claimable (claim n) serverNow b' = true)) \/
      (exists name, e = UniqueViolation name /\ In name ["webhook_events_pkey"; "webhook_deliveries_pkey"] /\
         ~ fresh_for fr (db w) /\ db w' = db stored /\ background w' = background w)
  end.
Proof.
  intros Hidx Hbidx. cbv zeta.
  destruct (processInbound_cases cfg fr ulid skip_locked serverNow dbNow input w) as
    [(prior & Hin & Hk & ->)|[(_ & Hid & ->)|(Hno & Hb & ->)]].
  - split; [done|]. unfold same_idempotency_key in Hk. destruct_and_ex. reflect_eqb. eauto.
  - by left.
  - apply stored_fresh in Hb. unfold match_stored.
    set (row := inbound_row _ _ _ _) in *. set (w1 := stored_world row w).
    destruct (extractBindNonce (mi_body input)) as [n|] eqn:Eb.
    + unfold bind at 1.
      destruct (consume_outcome serverNow {| cb_receiverId := mi_receiverId input;
          cb_fromE164 := sender cfg (mi_from input); cb_nonce := n |} w1 Hbidx) as
        [(b & Hin & Hc & ->)|[(Hno' & reason & ->)|((b & b' & Hc) & ->)]].
      * unfold link_inbound. autorewrite with js. cbn [ret].
        split; [done|]. apply claimable_iff in Hc. cbn in Hc. destruct_and_ex.
        exists n, b. do 8 (split; [done|]). rewrite <- (link_stored row (Some (b_id b)) w) by done.
        reflexivity.
      * done.
      * right. left. split; [done|]. split; [done|]. exists n, b, b'. done.
    + destruct (extractCode (mi_body input) "VERIFY") as [code|] eqn:Ec; [|done].
      unfold bind at 1.
      destruct (claim_cases fr skip_locked serverNow (mi_receiverId input) (sender cfg (mi_from input)) code
        (newId INBOUND_PREFIX ulid) w1 Hidx)
        as [[Hno' ->]|(v & Hin & He & Hl & [-> | (name & c & -> & Hn & Hf)])].
      * unfold w1. change (newId INBOUND_PREFIX ulid) with (i_id row). rewrite (link_none row) by done. split; [done|]. split; [done|]. split; [done|].
        intros c v [= <-]. apply Hno'.
      * cbn [ret]. split; [done|]. exists v. unfold eligible, is_pending in He. destruct_and_ex. reflect_eqb.
        do 9 (split; [first [done|by apply status_eqb_eq|congruence]|]). split; [|done].
        exact (link_stored row (Some (v_id v)) w Hb).
      * right. right. by exists name.
Qed.

(** What [processInbound] returned names the SMS it stored, or the earlier one. *)
Definition outcome_inboundId (o : MatchOutcome) : string :=
  match o with
  | Matched _ i => i | MatchedBinding _ i => i | Unmatched _ i => i | Duplicate i => i
  end.

(** No branch removes a stored SMS or changes its idempotency key. *)
Definition inbound_keys (D : DB) : list (string * string * string) :=
  map (fun r => (i_id r, i_receiverId r, i_idempotencyKey r)) (inboundSms D).

Lemma link_keys id ref w : inbound_keys (db (snd (link_inbound id ref w))) = inbound_keys (db w).
Proof.
  unfold link_inbound, update, inbound_keys. cbn.
  unfold update_where. rewrite map_map. apply map_ext. intros r. by destruct (String.eqb _ _).
Qed.

Lemma match_stored_keys `{Limit1} fr skip_locked serverNow receiverId fromE164 inboundId bn code w o w' :
  respects verifications_idx (verifications (db w)) ->
  match_stored fr skip_locked serverNow receiverId fromE164 inboundId bn code w = (Return o, w') ->
  inbound_keys (db w') = inbound_keys (db w) /\ outcome_inboundId o = inboundId.
Proof.
  intros Hidx. unfold match_stored. destruct bn as [nonce|].
  - intros Hrun. apply bind_Return_inv in Hrun. destruct Hrun as (out & w1 & E1 & E2).
    assert (Hk : inbound_keys (db w1) = inbound_keys (db w)).
    { unfold consumeBindNonce in E1. apply bind_Return_inv in E1. destruct E1 as (cl & w2 & E1 & E3).
      assert (inbound_keys (db w2) = inbound_keys (db w)) as <-.
      { unfold update_checked in E1. destruct (List.find _ _); [discriminate|]. by injection E1 as _ <-. }
      destruct cl as [|b l]; [|by injection E3 as _ <-].
      autorewrite with js in E3. by injection E3 as _ <-. }
    destruct out as [bid app|r].
    + apply bind_Return_inv in E2. destruct E2 as (u & w2 & E2 & E3). injection E3 as <- <-.
      pose proof (link_keys inboundId (Some bid) w1) as L. rewrite E2 in L. cbn in L. by rewrite L.
    + by injection E2 as <- <-.
  - destruct code as [code|]; [|by intros [= <- <-]].
    unfold bind at 1.
    destruct (claim_cases fr skip_locked serverNow receiverId fromE164 code inboundId w Hidx)
      as [[_ ->]|(v & _ & _ & _ & [-> | (name & c & -> & _)])].
    + unfold bind at 1. destruct (link_inbound inboundId None w) as [[u|e] w1] eqn:El; [|discriminate].
      pose proof (link_keys inboundId None w) as L. rewrite El in L. by intros [= <- <-].
    + intros [= <- <-]. split; [|done].
      pose proof (link_keys inboundId (Some (v_id v)) w) as L. exact L.
    + discriminate.
Qed.

(** After a call that returned, exactly the SMS its outcome names has its key. *)
Definition key_stored_as (input : MatchInput) (i : string) (keys : list (string * string * string)) : Prop :=
  In (i, mi_receiverId input, mi_idempotencyKey input) keys /\
  forall x, In (x, mi_receiverId input, mi_idempotencyKey input) keys -> x = i.

Lemma processInbound_stores_key `{PhoneLib} `{Limit1} cfg fr ulid skip_locked serverNow dbNow input w out w1 :
  respects verifications_idx (verifications (db w)) ->
  respects inboundSms_idx (inboundSms (db w)) ->
  processInbound cfg fr ulid skip_locked serverNow dbNow input w = (Return out, w1) ->
  key_stored_as input (outcome_inboundId out) (inbound_keys (db w1)).
Proof.
  intros Hv Hi Hrun.
  destruct (processInbound_cases cfg fr ulid skip_locked serverNow dbNow input w) as
    [(prior & Hin & Hk & E)|[(_ & _ & E)|(Hno & Hb & E)]]; rewrite E in Hrun; [|discriminate|].
  - injection Hrun as <- <-. cbn [outcome_inboundId].
    unfold same_idempotency_key in Hk. destruct_and_ex. reflect_eqb. split.
    + apply in_map_iff. exists prior. split; [congruence|done].
    + intros x Hx. apply in_map_iff in Hx. destruct Hx as (y & Ey & Hy). injection Ey as <- E1 E2.
      apply Forall_inv_tail, Forall_inv in Hi.
      f_equal. eapply (no_conflict_spec _ _ y prior Hi); try done; cbn;
        rewrite !andb_true_iff, !String.eqb_eq; split; congruence.
  - apply match_stored_keys in Hrun; [|exact Hv]. destruct Hrun as [Hk ->]. rewrite Hk.
    unfold inbound_keys, stored_world. cbn [inboundSms db set_db set_rows t_inboundSms].
    rewrite map_app. cbn [map inbound_row i_id i_receiverId i_idempotencyKey]. split.
    + apply in_or_app. right. by left.
    + intros x Hx. apply in_app_or in Hx. destruct Hx as [Hx|[[= <-]|[]]]; [|done].
      apply in_map_iff in Hx. destruct Hx as (y & Ey & Hy). injection Ey as <- E1 E2.
      rewrite select_nil_iff in Hno. specialize (Hno y Hy). unfold same_idempotency_key in Hno.
      by rewrite E1, E2, !String.eqb_refl in Hno.
Qed.

(** C14: delivering the same SMS again (same receiver and idempotency key), at any later
    time, with any fresh identifiers and any body, changes nothing and reports the
    identifier under which the SMS was stored first. *)
Theorem processInbound_idempotent `{PhoneLib} `{Limit1} cfg fr ulid skip_locked serverNow dbNow input w out w1
    fr' ulid' skip_locked' serverNow' dbNow' input' :
  respects verifications_idx (verifications (db w)) ->
  respects inboundSms_idx (inboundSms (db w)) ->
  processInbound cfg fr ulid skip_locked serverNow dbNow input w = (Return out, w1) ->
  mi_receiverId input' = mi_receiverId input -> mi_idempotencyKey input' = mi_idempotencyKey input ->
  processInbound cfg fr' ulid' skip_locked' serverNow' dbNow' input' w1
  = (Return (Duplicate (outcome_inboundId out)), w1).
Proof.
  intros Hv Hi Hrun Er Ek.
  destruct (processInbound_stores_key _ _ _ _ _ _ _ _ _ _ Hv Hi Hrun) as [Hin Hall].
  assert (Hex : exists r, In r (inboundSms (db w1)) /\ same_idempotency_key input' r = true).
  { apply in_map_iff in Hin. destruct Hin as (r & Ex & Hr). injection Ex as _ E1 E2.
    exists r. split; [done|]. unfold same_idempotency_key. by rewrite Er, Ek, E1, E2, !String.eqb_refl. }
  destruct Hex as (r & Hr & Hs).
  destruct (processInbound_cases cfg fr' ulid' skip_locked' serverNow' dbNow' input' w1) as
    [(prior & Hp & Hk & ->)|[(Hno & _ & _)|(Hno & _ & _)]].
  - do 3 f_equal. apply Hall, in_map_iff. exists prior.
    unfold same_idempotency_key in Hk. destruct_and_ex. reflect_eqb. split; [congruence|done].
  - rewrite select_nil_iff in Hno. by rewrite (Hno r Hr) in Hs.
  - rewrite select_nil_iff in Hno. by rewrite (Hno r Hr) in Hs.
Qed.

(** The pending index leaves at most one row for an SMS to claim. *)
Lemma eligible_unique receiverId fromE164 code serverNow t x y :
  respects verifications_idx t -> In x t -> In y t ->
  eligible receiverId fromE164 code serverNow x = true ->
  eligible receiverId fromE164 code serverNow y = true -> x = y.
Proof.
  intros Ht Hx Hy Ex Ey. apply Forall_inv_tail, Forall_inv in Ht.
  unfold eligible, is_pending in *. destruct_and_ex. reflect_eqb. subst.
  eapply (no_conflict_spec _ t x y Ht); [| |done|done]; cbn; rewrite !andb_true_iff, !String.eqb_eq;
    repeat split; congruence.
Qed.

(** With fresh identifiers, the claim of an eligible, unlocked row succeeds. *)
Lemma claim_eligible `{Limit1} fr skip_locked serverNow receiverId fromE164 code inboundId w v :
  respects verifications_idx (verifications (db w)) -> In v (verifications (db w)) ->
  eligible receiverId fromE164 code serverNow v = true -> skip_locked v = false ->
  fresh_for fr (db w) ->
  claim_tx fr skip_locked serverNow receiverId fromE164 code inboundId w
  = (Return (Some (set_verified serverNow inboundId v)),
     mkWorld (claimed_db fr serverNow inboundId v (db w))
       (counted w ++ [webhookEventEmitted "verification.verified"]) (background w)).
Proof.
  intros Hidx Hin He Hl Hf.
  destruct (claim_cases fr skip_locked serverNow receiverId fromE164 code inboundId w Hidx)
    as [[Hno _]|(x & Hx & Ex & _ & [E|(name & c & _ & _ & Hnf)])].
  - specialize (Hno v Hin). by rewrite He, Hl in Hno.
  - by rewrite (eligible_unique _ _ _ _ _ v x Hidx Hin Hx He Ex).
  - done.
Qed.

Lemma code_of_token cfg draws i : config_valid cfg = true -> token 4 32 (code_of cfg draws i).
Proof.
  intros Hc. apply config_valid_bounds in Hc. unfold code_of, token. rewrite draw_chars_length.
  split; [lia|]. apply draw_chars_class. by apply char_at_class.
Qed.

(** An SMS that can be stored is stored and matched. *)
Lemma processInbound_new `{PhoneLib} `{Limit1} cfg fr ulid skip_locked serverNow dbNow input w :
  let fromE164 := sender cfg (mi_from input) in
  let inboundId := newId INBOUND_PREFIX ulid in
  let row := inbound_row inboundId fromE164 dbNow input in
  broken_by inboundSms_idx row (inboundSms (db w)) = None ->
  processInbound cfg fr ulid skip_locked serverNow dbNow input w
  = match_stored fr skip_locked serverNow (mi_receiverId input) fromE164 inboundId
      (extractBindNonce (mi_body input))
      (match extractBindNonce (mi_body input) with
       | None => extractCode (mi_body input) "VERIFY" | Some _ => None end) (stored_world row w).
Proof.
  cbv zeta. intros Hb.
  destruct (processInbound_cases cfg fr ulid skip_locked serverNow dbNow input w) as
    [(prior & Hin & Hk & _)|[(_ & Hin & _)|(_ & _ & E)]]; [| |exact E]; exfalso;
    apply broken_by_None in Hb.
  - apply Forall_inv_tail, Forall_inv in Hb. rewrite clashes_false in Hb.
    specialize (Hb prior Hin). unfold same_idempotency_key in Hk. cbn in Hb. congruence.
  - apply Forall_inv in Hb. by apply clashes_pkey in Hb.
Qed.

(** C4: end to end, a verification started for a phone is verified by the message the
    server asked for: the SMS may use any letter case and surrounding white space,
    and must come from that phone through the chosen receiver before the deadline,
    be new to the server and not find its row locked; the row then carries the
    SMS's identifier. *)
Theorem start_then_sms_verifies `{PhoneLib} `{Limit1} cfg ulid draws now dbNow input w res w1
    fr inboundUlid skip_locked serverNow dbNow' sms w_left w_right text v :
  config_valid cfg = true ->
  respects verifications_idx (verifications (db w)) ->
  startVerification cfg ulid draws now dbNow input w = (Return res, w1) ->
  verifications (db w1) = (verifications (db w) ++ [v])%list ->
  mi_body sms = w_left ++ text ++ w_right ->
  all_chars is_ws w_left = true -> all_chars is_ws w_right = true ->
  Some (toUpperCase text) = pv_message res ->
  mi_receiverId sms = v_receiverId v -> sender cfg (mi_from sms) = sv_phoneE164 input ->
  (serverNow < now + VERIFICATION_TTL_SECONDS cfg * 1000)%Z -> skip_locked v = false ->
  broken_by inboundSms_idx (inbound_row (newId INBOUND_PREFIX inboundUlid) (sv_phoneE164 input) dbNow' sms)
    (inboundSms (db w1)) = None ->
  fresh_for fr (db w1) ->
  exists w2, processInbound cfg fr inboundUlid skip_locked serverNow dbNow' sms w1
             = (Return (Matched (pv_id res) (newId INBOUND_PREFIX inboundUlid)), w2) /\
    select (fun x => String.eqb (v_id x) (pv_id res)) (verifications (db w2))
    = [set_verified serverNow (newId INBOUND_PREFIX inboundUlid) v].
Proof.
  intros Hc Hidx Hstart Hv Hbody Hw1 Hw2 Htext Hrcv Hfrom Htime Hlock Hbr Hfresh.
  apply startVerification_cases in Hstart; [|done].
  inversion Hstart as [| | |i b r res' row Hb Hvb Hi Hcap Hp Hbrv Hid Hst Hto Hm _ _].
  subst res' w1.
  match goal with |- context [processInbound _ _ _ _ _ _ _ ?W] => set (w1 := W) in * end.
  assert (v = row) as ->.
  { unfold w1 in Hv. cbn [db verifications set_rows t_verifications] in Hv.
    apply app_inj_tail in Hv. by destruct Hv. }
  assert (Hidx1 : respects verifications_idx (verifications (db w1))).
  { rewrite Hv. by apply respects_insert. }
  assert (Hin : In row (verifications (db w1))) by (rewrite Hv; apply in_or_app; right; by left).
  assert (Hcode : extractCode (mi_body sms) "VERIFY" = Some (code_of cfg draws i)).
  { rewrite Hbody, extractCode_eq.
    apply (parse_command_tolerant "VERIFY" 4 32 eq_refl ltac:(done) w_left w_right text (" " ++ code_of cfg draws i));
      [done|done| | |by apply code_of_token].
    - rewrite Hm in Htext. by injection Htext as ->.
    - rewrite remove_ws_space. by apply remove_ws_fixed, code_of_token. }
  assert (Hbind : extractBindNonce (mi_body sms) = None).
  { rewrite extractBindNonce_eq. rewrite extractCode_eq in Hcode.
    apply (parse_command_disjoint "V"%char "ERIFY" 4 32 "B"%char "IND" 8 64); [discriminate|].
    rewrite Hcode. discriminate. }
  rewrite <- Hfrom in Hbr.
  rewrite (processInbound_new cfg fr inboundUlid skip_locked serverNow dbNow' sms w1 Hbr), Hbind, Hcode, Hfrom.
  unfold match_stored. unfold bind at 1.
  rewrite (claim_eligible _ _ _ _ _ _ _ (stored_world _ w1) row Hidx1 Hin); [|
    unfold eligible, is_pending, row, new_row; cbn; rewrite Hrcv; cbn; rewrite !String.eqb_refl; cbn;
      by apply Z.ltb_lt | done | done].
  eexists. split; [unfold ret; rewrite Hid; reflexivity|].
  cbn [db claimed_db moved emitted verifications set_rows t_inboundSms t_webhookDeliveries
       t_webhookEvents t_verifications stored_world set_db].
  rewrite Hid, select_update_stable by done.
  rewrite (select_id row _ Hidx1 Hin). cbn [update_where map]. by rewrite String.eqb_refl.
Qed.

(** ** Witnesses *)

Definition sample_sms (body key : string) : MatchInput :=
  {| mi_receiverId := "rcv_1"; mi_receiverMsisdn := "+963900000001"; mi_from := "+963991234567";
     mi_to := "+963900000001"; mi_body := body; mi_receivedAt := 2500; mi_idempotencyKey := key |}.

Lemma processInbound_spec_witness :
  let P := plain_phones in
  let sms := sample_sms "verify a7k9p2" "k1" in
  let w := mkWorld pending_db [] [] in
  let run := processInbound default_config sample_fresh "1" (fun _ => false) 3000 3000 sms w in
  match run with
  | (Return (Matched id i), w') =>
      i = "in_1" /\ inboundSms (db w') = linked (inbound_row "in_1" "+963991234567" 3000 sms) (Some id) pending_db
  | _ => False
  end.
Proof.
  intros P sms w run.
  pose proof (processInbound_spec (H := P) default_config sample_fresh "1" (fun _ => false) 3000 3000
    sms w ltac:(repeat constructor) ltac:(repeat constructor)) as S.
  cbv zeta in S. fold run in S.
  destruct run as [[[id i|id i|r i|i]|e] w'] eqn:E; [|vm_compute in E; discriminate ..].
  destruct S as (-> & v & _ & _ & _ & _ & _ & _ & _ & _ & _ & Hi & _).
  split; [reflexivity|]. exact Hi.
Defined.

Lemma processInbound_idempotent_witness :
  let P := plain_phones in
  let run := processInbound default_config sample_fresh "1" (fun _ => false) 3000 3000
               (sample_sms "verify a7k9p2" "k1") (mkWorld pending_db [] []) in
  processInbound default_config sample_fresh "2" (fun _ => false) 9000 9000
    (sample_sms "VERIFY B8M3Q4" "k1") (snd run) = (Return (Duplicate "in_1"), snd run).
Proof.
  intros P run. destruct run as [[out|e] w1] eqn:E.
  - cbn [snd].
    rewrite (processInbound_idempotent (H := P) default_config sample_fresh "1" (fun _ => false) 3000 3000
      (sample_sms "verify a7k9p2" "k1") (mkWorld pending_db [] []) out w1); try reflexivity.
    + vm_compute in E. injection E as <- _. reflexivity.
    + repeat constructor.
    + repeat constructor.
    + exact E.
  - vm_compute in E. discriminate.
Defined.

Definition sample_draws (i j : nat) : nat := (i + 3 * j)%nat.

Definition started : outcome exn PublicVerification * World :=
  startVerification default_config "7" sample_draws 2000 2000 sample_input (mkWorld bound_db [] []).

Definition started_row : Verification :=
  hd (pending_row "" "" 0) (verifications (db (snd started))).

Lemma start_then_sms_verifies_witness :
  let P := plain_phones in
  match started with
  | (Return res, w1) =>
      exists w2, processInbound default_config sample_fresh "1" (fun _ => false) 9000 9000
        (sample_sms ("  " ++ toLowerCase (default "" (pv_message res)) ++ "  ") "k1") w1
        = (Return (Matched (pv_id res) "in_1"), w2)
  | (Throw _, _) => False
  end.
Proof.
  intros P. destruct started as [[res|e] w1] eqn:E; [|vm_compute in E; discriminate].
  destruct (start_then_sms_verifies (H := P) default_config "7" sample_draws 2000 2000 sample_input
    (mkWorld bound_db [] []) res w1 sample_fresh "1" (fun _ => false) 9000 9000
    (sample_sms ("  " ++ toLowerCase (default "" (pv_message res)) ++ "  ") "k1")
    "  " "  " (toLowerCase (default "" (pv_message res))) started_row) as (w2 & H & _).
  15: { exists w2. exact H. }
  all: vm_compute in E; injection E as <- <-.
  all: try (vm_compute; reflexivity).
  - repeat constructor.
  - split; [intros []|]. split; [apply num_to_string_nat_inj|]. intros i [].
Defined.
