(* ===== verification/System.v ===== *)
(** * The server as a transition system

    Requests, background tasks and gateways interleave at the granularity of
    statements and transactions.  A state is the database, the started tasks and
    the requests that are between two of their statements; a step runs the next
    atomic piece of one of them, with any clock readings, fresh identifiers and
    locks.  The invariant that every reachable state satisfies ties each
    verification to its one event, to a stored SMS and to a phone binding. *)

From stdpp Require Import relations.
From S2P Require Import Prelude JsString Json Errors Phone Crypto Config Schema SmsBody Webhooks PhoneBindings Verifications Matching Ssrf Aead.
From Stdlib Require Import String Ascii.

Open Scope string_scope.

(** ** States and steps *)

(** A request between two atomic pieces. *)
Inductive Thread : Type :=
  | TAttempt (id : string) (expiresAt : Z) (input : StartVerificationInput)
      (** [startVerification], past the binding check *)
  | TClaim (receiverId fromE164 code inboundId : string)
      (** [processInbound], the SMS stored, with a verification code *)
  | TBind (receiverId fromE164 nonce : string).
      (** [processInbound], the SMS stored, with a binding nonce *)

Record State : Type := mkState { world : World; threads : list Thread }.

(** The tables the steps below describe; the others change freely. *)
Definition same_core (D D' : DB) : Prop :=
  verifications D' = verifications D /\ webhookEvents D' = webhookEvents D /\
  inboundSms D' = inboundSms D /\ phoneBindings D' = phoneBindings D.

Section System.
Context `{Limit1} (cfg : Config).

Inductive step : State -> State -> Prop :=
  | step_check w ths id expiresAt input b :
      In b (phoneBindings (db w)) ->
      verified_binding (sv_appId input) (sv_phoneE164 input) b = true ->
      step (mkState w ths) (mkState w (TAttempt id expiresAt input :: ths))
  | step_attempt w l1 l2 id expiresAt input dbNow code o w' :
      start_tx cfg id expiresAt dbNow input code w = (o, w') ->
      step (mkState w (l1 ++ TAttempt id expiresAt input :: l2)) (mkState w' (l1 ++ l2))
  | step_retry w ths id expiresAt input dbNow code e w' :
      In (TAttempt id expiresAt input) ths ->
      start_tx cfg id expiresAt dbNow input code w = (Throw e, w') -> isPendingCodeCollision e = true ->
      step (mkState w ths) (mkState w' ths)
  | step_store w ths row th :
      broken_by inboundSms_idx row (inboundSms (db w)) = None ->
      (th = [] \/ (exists code, th = [TClaim (i_receiverId row) (i_fromE164 row) code (i_id row)]) \/
       exists nonce, th = [TBind (i_receiverId row) (i_fromE164 row) nonce]) ->
      step (mkState w ths) (mkState (stored_world row w) (th ++ ths))
  | step_claim w l1 l2 receiverId fromE164 code inboundId fr skip_locked serverNow o w' :
      claim_tx fr skip_locked serverNow receiverId fromE164 code inboundId w = (o, w') ->
      step (mkState w (l1 ++ TClaim receiverId fromE164 code inboundId :: l2)) (mkState w' (l1 ++ l2))
  | step_bind w l1 l2 receiverId fromE164 nonce serverNow o w' :
      consumeBindNonce serverNow
        {| cb_receiverId := receiverId; cb_fromE164 := fromE164; cb_nonce := nonce |} w = (o, w') ->
      step (mkState w (l1 ++ TBind receiverId fromE164 nonce :: l2)) (mkState w' (l1 ++ l2))
  | step_link w ths inboundId ref o w' :
      link_inbound inboundId ref w = (o, w') -> step (mkState w ths) (mkState w' ths)
  | step_cancel w ths fr now appId id o w' :
      cancel_tx fr now appId id w = (o, w') -> step (mkState w ths) (mkState w' ths)
  | step_read w ths now appId id kind o w' :
      getVerification now appId id kind w = (o, w') -> step (mkState w ths) (mkState w' ths)
  | step_hosted w ths now id o w' :
      getHostedVerification now id w = (o, w') -> step (mkState w ths) (mkState w' ths)
  | step_task D c b1 b2 id fr o w' ths :
      run_lazyExpire fr id (mkWorld D c (b1 ++ b2)) = (o, w') ->
      step (mkState (mkWorld D c (b1 ++ id :: b2)) ths) (mkState w' ths)
  | step_start_binding w ths row o w' :
      b_status row = "pending" ->
      insert t_phoneBindings phoneBindings_idx row w = (o, w') -> step (mkState w ths) (mkState w' ths)
  | step_revoke_binding w ths now appId id o w' :
      revokeBinding now appId id w = (o, w') -> step (mkState w ths) (mkState w' ths)
  | step_delete_endpoint w ths appId id o w' :
      deleteWebhookEndpoint appId id w = (o, w') -> step (mkState w ths) (mkState w' ths)
  | step_other D D' c c' b ths :
      same_core D D' -> step (mkState (mkWorld D c b) ths) (mkState (mkWorld D' c' b) ths).

(** A start: no verification, event, SMS, binding or request. *)
Definition initial (s : State) : Prop :=
  verifications (db (world s)) = [] /\ webhookEvents (db (world s)) = [] /\
  inboundSms (db (world s)) = [] /\ phoneBindings (db (world s)) = [] /\ threads s = [].

Definition reachable (s : State) : Prop := exists s0, initial s0 /\ rtc step s0 s.

(** ** The invariant *)

Definition events_of (id : string) (es : list WebhookEvent) : list WebhookEvent :=
  select (fun e => match ev_verificationId e with Some i => String.eqb i id | None => false end) es.

Definition event_of (t : VerificationEventType) (v : Verification) (es : list WebhookEvent) : Prop :=
  exists e, es = [e] /\ ev_eventType e = event_text t /\ ev_appId e = v_appId v.

(** What the columns and the events of a verification say about each other. *)
Definition history (v : Verification) (es : list WebhookEvent) : Prop :=
  match v_status v with
  | pending => es = [] /\ v_verifiedAt v = None /\ v_cancelledAt v = None /\ v_matchedInboundId v = None
  | verified => event_of ev_verified v es /\ v_cancelledAt v = None /\
      exists at_ i, v_verifiedAt v = Some at_ /\ (at_ < v_expiresAt v)%Z /\ v_matchedInboundId v = Some i
  | expired => event_of ev_expired v es /\ v_verifiedAt v = None /\ v_cancelledAt v = None /\
      v_matchedInboundId v = None
  | cancelled => event_of ev_cancelled v es /\ v_verifiedAt v = None /\ v_matchedInboundId v = None /\
      exists at_, v_cancelledAt v = Some at_
  | failed => False
  end.

Definition was_bound (bs : list PhoneBindingRow) (appId phone : string) : Prop :=
  exists b, In b bs /\ b_appId b = appId /\ b_phoneE164 b = phone /\ b_boundAt b <> None.

Definition sms_stored (sms : list InboundSms) (id receiverId fromE164 : string) : Prop :=
  exists r, In r sms /\ i_id r = id /\ i_receiverId r = receiverId /\ i_fromE164 r = fromE164.

Record VInv (vs : list Verification) (es : list WebhookEvent) : Prop := {
  vi_idx : respects verifications_idx vs;
  vi_history : forall v, In v vs -> history v (events_of (v_id v) es);
  vi_owner : forall e, In e es -> exists v, In v vs /\ ev_verificationId e = Some (v_id v);
  vi_cap : forall appId phone,
    (Z.of_nat (List.length (select (pending_for appId phone) vs)) <= MAX_PENDING_PER_PHONE cfg)%Z;
}.

Definition thread_ok (D : DB) (th : Thread) : Prop :=
  match th with
  | TAttempt _ _ input => was_bound (phoneBindings D) (sv_appId input) (sv_phoneE164 input)
  | TClaim receiverId fromE164 _ inboundId => sms_stored (inboundSms D) inboundId receiverId fromE164
  | TBind _ _ _ => True
  end.

Record Inv (s : State) : Prop := {
  inv_v : VInv (verifications (db (world s))) (webhookEvents (db (world s)));
  inv_inbound : respects inboundSms_idx (inboundSms (db (world s)));
  inv_bindings : respects phoneBindings_idx (phoneBindings (db (world s)));
  inv_bound : forall b, In b (phoneBindings (db (world s))) -> b_status b = "verified" -> b_boundAt b <> None;
  inv_claimed : forall v i, In v (verifications (db (world s))) -> v_matchedInboundId v = Some i ->
    sms_stored (inboundSms (db (world s))) i (v_receiverId v) (v_phoneE164 v);
  inv_started : forall v, In v (verifications (db (world s))) ->
    was_bound (phoneBindings (db (world s))) (v_appId v) (v_phoneE164 v);
  inv_threads : Forall (thread_ok (db (world s))) (threads s);
}.

(** ** Preservation, table by table *)

Lemma events_of_app id es e :
  events_of id (es ++ [e]) = (events_of id es ++ events_of id [e])%list.
Proof. apply select_app. Qed.

Lemma events_of_other id id' e : ev_verificationId e = Some id -> id <> id' -> events_of id' [e] = [].
Proof. intros E Hn. unfold events_of. cbn. rewrite E. by destruct (String.eqb_spec id id'). Qed.

Lemma events_of_self id e : ev_verificationId e = Some id -> events_of id [e] = [e].
Proof. intros E. unfold events_of. cbn. by rewrite E, String.eqb_refl. Qed.

(** A new pending row, below the cap and accepted by the indexes. *)
Lemma VInv_insert vs es v :
  VInv vs es -> broken_by verifications_idx v vs = None -> history v [] -> v_status v = pending ->
  (Z.of_nat (List.length (select (pending_for (v_appId v) (v_phoneE164 v)) vs)) < MAX_PENDING_PER_PHONE cfg)%Z ->
  VInv (vs ++ [v]) es.
Proof.
  intros [Hidx Hh Ho Hc] Hb Hv Hs Hcap.
  assert (Hnew : ~ In (v_id v) (map v_id vs)).
  { apply broken_by_None, Forall_inv in Hb. by apply clashes_pkey in Hb. }
  split.
  - by apply respects_insert.
  - intros x Hx. apply in_app_or in Hx. destruct Hx as [Hx|[<-|[]]]; [auto|].
    assert (E : events_of (v_id v) es = []); [|by rewrite E].
    apply select_nil_iff. intros e He. destruct (Ho e He) as (y & Hy & ->).
    apply String.eqb_neq. intros E. apply Hnew. rewrite <- E. by apply in_map.
  - intros e He. destruct (Ho e He) as (y & Hy & E). exists y. split; [|done]. apply in_or_app. by left.
  - intros appId phone. rewrite select_app, length_app. cbn [select List.filter].
    specialize (Hc appId phone). destruct (pending_for appId phone v) eqn:E; cbn [List.length]; [|lia].
    unfold pending_for in E. destruct_and_ex. reflect_eqb. subst. lia.
Qed.

Lemma length_select_update p q f (t : list Verification) :
  (forall x, q (f x) = false) ->
  (List.length (select q (update_where p f t)) <= List.length (select q t))%nat.
Proof.
  intros Hq. rewrite select_update_where by (intros; apply Hq).
  unfold select. induction t as [|x t IH]; cbn; [lia|].
  destruct (p x), (q x); cbn; lia.
Qed.

(** One pending row leaves [pending] and gets its event. *)
Lemma VInv_transition vs es v p f e :
  VInv vs es -> In v vs -> v_status v = pending -> p v = true ->
  (forall x, In x vs -> p x = true -> x = v) ->
  (forall x, v_id (f x) = v_id x /\ v_status (f x) <> pending) ->
  ev_verificationId e = Some (v_id v) -> history (f v) [e] ->
  VInv (update_where p f vs) (es ++ [e]).
Proof.
  intros [Hidx Hh Ho Hc] Hin Hs Hp Huniq Hf He Hhist. split.
  - apply respects_update; [| |done].
    + intros ix x y [<-|[<-|[]]]; cbn; destruct (Hf x) as [Ef Sf]; [by rewrite Ef|].
      destruct (status_eqb (v_status (f x)) pending) eqn:E; [by apply status_eqb_eq in E|done].
    + intros ix x y [<-|[<-|[]]]; cbn; destruct (Hf y) as [Ef Sf]; [by rewrite Ef|].
      destruct (status_eqb (v_status (f y)) pending) eqn:E; [by apply status_eqb_eq in E|].
      by rewrite andb_false_r.
  - intros x Hx. apply update_where_In in Hx. rewrite events_of_app.
    destruct Hx as [(y & Hy & Ey & ->)|[Hx Ex]].
    + apply Huniq in Ey; [|done]. subst y. rewrite (proj1 (Hf v)).
      specialize (Hh v Hin). unfold history in Hh. rewrite Hs in Hh. destruct Hh as [-> _].
      by rewrite (events_of_self _ _ He).
    + rewrite (events_of_other (v_id v)), app_nil_r; [auto|done|].
      intros E. assert (v = x) as <-; [by eapply (pkey_inj _ v_id)|congruence].
  - intros e' He'. apply in_app_or in He'. destruct He' as [He'|[<-|[]]].
    + destruct (Ho e' He') as (y & Hy & E). destruct (p y) eqn:Ep.
      * exists (f y). split; [apply update_where_In; left; by exists y|]. by rewrite (proj1 (Hf y)).
      * exists y. split; [apply update_where_In; by right|done].
    + exists (f v). split; [apply update_where_In; left; by exists v|]. by rewrite (proj1 (Hf v)).
  - intros appId phone. specialize (Hc appId phone).
    assert (L := length_select_update p (pending_for appId phone) f vs).
    assert (forall x, pending_for appId phone (f x) = false).
    { intros x. unfold pending_for, is_pending. destruct (status_eqb _ _) eqn:E.
      - apply status_eqb_eq in E. by destruct (Hf x). 
      - by rewrite andb_false_r. }
    specialize (L ltac:(done)). lia.
Qed.

(** Stored SMS keep their identity. *)
Definition sms_kept (sms sms' : list InboundSms) : Prop :=
  (forall id r f, sms_stored sms id r f -> sms_stored sms' id r f) /\
  (respects inboundSms_idx sms -> respects inboundSms_idx sms').

Lemma sms_kept_refl sms : sms_kept sms sms.
Proof. split; auto. Qed.

Lemma sms_kept_link p ref sms : sms_kept sms (update_where p (set_matched ref) sms).
Proof.
  split.
  - intros id r f (x & Hx & E). destruct (p x) eqn:Ep.
    + exists (set_matched ref x). split; [apply update_where_In; left; by exists x|done].
    + exists x. split; [apply update_where_In; by right|done].
  - apply respects_update; intros ix x y [<-|[<-|[]]]; done.
Qed.

Lemma sms_kept_insert sms row :
  broken_by inboundSms_idx row sms = None -> sms_kept sms (sms ++ [row])%list.
Proof.
  intros Hb. split; [|intros Hr; by apply respects_insert].
  intros id r f (x & Hx & E). exists x. split; [apply in_or_app; by left|done].
Qed.

(** Bindings keep their identity and the time they were bound at. *)
Definition bindings_kept (bs bs' : list PhoneBindingRow) : Prop :=
  (forall app ph, was_bound bs app ph -> was_bound bs' app ph) /\
  (respects phoneBindings_idx bs -> respects phoneBindings_idx bs') /\
  ((forall b, In b bs -> b_status b = "verified" -> b_boundAt b <> None) ->
   forall b, In b bs' -> b_status b = "verified" -> b_boundAt b <> None).

Lemma bindings_kept_refl bs : bindings_kept bs bs.
Proof. split; auto. Qed.

Lemma bindings_kept_insert bs row :
  broken_by phoneBindings_idx row bs = None -> b_status row = "pending" ->
  bindings_kept bs (bs ++ [row])%list.
Proof.
  intros Hb Hs. split; [|split; [intros Hr; by apply respects_insert|]].
  - intros app ph (b & Hin & E). exists b. split; [apply in_or_app; by left|done].
  - intros Hv b Hin Eb. apply in_app_or in Hin. destruct Hin as [Hin|[<-|[]]]; [auto|congruence].
Qed.

Lemma bindings_kept_update bs p f :
  (respects phoneBindings_idx bs -> respects phoneBindings_idx (update_where p f bs)) ->
  (forall b, b_appId (f b) = b_appId b /\ b_phoneE164 (f b) = b_phoneE164 b /\
             (b_boundAt b <> None -> b_boundAt (f b) <> None) /\
             (b_status (f b) = "verified" -> b_boundAt (f b) <> None)) ->
  bindings_kept bs (update_where p f bs).
Proof.
  intros Hr Hf. split; [|split; [done|]].
  - intros app ph (b & Hin & Ea & Ep & Eb). destruct (Hf b) as (Ha & Hp & Hb & _).
    destruct (p b) eqn:E.
    + exists (f b). split; [apply update_where_In; left; by exists b|].
      split; [congruence|]. split; [congruence|auto].
    + exists b. split; [apply update_where_In; by right|done].
  - intros Hv b Hin Es. apply update_where_In in Hin. destruct Hin as [(x & Hx & _ & ->)|[Hin _]].
    + by apply (Hf x).
    + auto.
Qed.

(** What a step leaves alone or only extends. *)
Lemma Inv_frame w w' ths ths' :
  Inv (mkState w ths) ->
  verifications (db w') = verifications (db w) -> webhookEvents (db w') = webhookEvents (db w) ->
  sms_kept (inboundSms (db w)) (inboundSms (db w')) ->
  bindings_kept (phoneBindings (db w)) (phoneBindings (db w')) ->
  Forall (thread_ok (db w')) ths' -> Inv (mkState w' ths').
Proof.
  intros [Hv Hi Hb Hbd Hc Hst Ht] Ev Ee [Ks Ki] (Kb & Kbi & Kbd) Hths. cbn [world threads] in *.
  split; cbn [world threads]; rewrite ?Ev, ?Ee; auto.
Qed.

Lemma thread_ok_kept D D' th :
  sms_kept (inboundSms D) (inboundSms D') -> bindings_kept (phoneBindings D) (phoneBindings D') ->
  thread_ok D th -> thread_ok D' th.
Proof. intros [Ks _] (Kb & _). destruct th; cbn; auto. Qed.

Lemma threads_kept D D' ths :
  sms_kept (inboundSms D) (inboundSms D') -> bindings_kept (phoneBindings D) (phoneBindings D') ->
  Forall (thread_ok D) ths -> Forall (thread_ok D') ths.
Proof. intros Ks Kb F. eapply Forall_impl; [exact F|]. intros th. by apply thread_ok_kept. Qed.

Lemma threads_drop {P : Thread -> Prop} l1 th l2 : Forall P (l1 ++ th :: l2) -> P th /\ Forall P (l1 ++ l2).
Proof. rewrite !Forall_app, Forall_cons. tauto. Qed.

(** A transition of one pending row, with its event. *)
Lemma Inv_moved w w' ths ths' t fr p f v :
  Inv (mkState w ths) ->
  In v (verifications (db w)) -> v_status v = pending -> p v = true ->
  (forall x, In x (verifications (db w)) -> p x = true -> x = v) ->
  (forall x, v_id (f x) = v_id x /\ v_appId (f x) = v_appId x /\ v_phoneE164 (f x) = v_phoneE164 x /\
             v_receiverId (f x) = v_receiverId x /\ v_status (f x) <> pending) ->
  let e := event_row fr t (v_appId v) (buildVerificationEventData (f v) t) in
  history (f v) [e] ->
  (forall i, v_matchedInboundId (f v) = Some i ->
     sms_stored (inboundSms (db w)) i (v_receiverId v) (v_phoneE164 v)) ->
  verifications (db w') = update_where p f (verifications (db w)) ->
  webhookEvents (db w') = (webhookEvents (db w) ++ [e])%list ->
  phoneBindings (db w') = phoneBindings (db w) ->
  sms_kept (inboundSms (db w)) (inboundSms (db w')) ->
  Forall (thread_ok (db w)) ths' -> Inv (mkState w' ths').
Proof.
  cbv zeta. intros [Hv Hi Hb Hbd Hc Hst Ht] Hin Hs Hp Hu Hf Hh Hm Ev Ee Eb Hk Hths.
  cbn [world threads] in *. pose proof Hk as [Ks Ki].
  split; cbn [world threads]; rewrite ?Ev, ?Ee, ?Eb; auto.
  - apply (VInv_transition _ _ v); auto.
    + intros x. destruct (Hf x) as (? & _ & _ & _ & ?). done.
    + cbn. by rewrite (proj1 (Hf v)).
  - intros x i Hx E. apply Ks. apply update_where_In in Hx. destruct Hx as [(y & Hy & Ey & ->)|[Hx _]]; [|eauto].
    apply Hu in Ey; [|done]. subst y. destruct (Hf v) as (_ & _ & -> & -> & _). by apply Hm.
  - intros x Hx. apply update_where_In in Hx. destruct Hx as [(y & Hy & Ey & ->)|[Hx _]]; [|auto].
    destruct (Hf y) as (_ & -> & -> & _ & _). auto.
  - eapply threads_kept; [exact Hk| |exact Hths]. rewrite Eb. apply bindings_kept_refl.
Qed.

(** Two pending-row predicates select the same row by primary key. *)
Lemma same_id_same_row w ths v :
  Inv (mkState w ths) -> In v (verifications (db w)) ->
  forall x, In x (verifications (db w)) -> v_id x = v_id v -> x = v.
Proof.
  intros I Hin x Hx E. apply inv_v in I. destruct I as [Hidx _ _ _].
  by eapply (pkey_inj _ v_id).
Qed.

(** Expiry and cancellation: the update, the event, the shape of the row. *)
Lemma Inv_close w w' ths t fr p f (k : SM unit) o :
  Inv (mkState w ths) ->
  (forall x, v_appId (f x) = v_appId x) ->
  (forall x y, p x = true -> p y = true -> v_id x = v_id y) ->
  (forall x, p x = true -> v_status x = pending) ->
  (forall x, v_id (f x) = v_id x /\ v_appId (f x) = v_appId x /\ v_phoneE164 (f x) = v_phoneE164 x /\
             v_receiverId (f x) = v_receiverId x /\ v_status (f x) <> pending) ->
  (forall x, v_matchedInboundId (f x) = v_matchedInboundId x) ->
  (forall x e, history x [] -> v_status x = pending -> ev_eventType e = event_text t ->
     ev_appId e = v_appId x -> history (f x) [e]) ->
  (forall o1 w1, transaction k w = (o1, w1) -> db w1 = db w) ->
  transaction (let! result := update t_verifications p f in
               match result with
               | [] => k
               | row :: _ => emitVerificationEventInTx fr t (v_appId row) (buildVerificationEventData row t)
               end)%js w = (o, w') ->
  Inv (mkState w' ths).
Proof.
  intros I Happ Hpid Hps Hf Hm Hh Hk Hrun. pose proof I as [Hv Hi Hb Hbd Hc Hst Ht].
  cbn [world threads] in *.
  assert (Same : db w' = db w -> Inv (mkState w' ths)).
  { intros E. apply (Inv_frame w w' ths ths I); rewrite E; auto using sms_kept_refl, bindings_kept_refl. }
  destruct (transition_cases t fr p f k w Happ) as [[_ E]|(v & l & Es & [E|(name & c & E & _)])];
    rewrite E in Hrun.
  - by eapply Same, Hk.
  - injection Hrun as <- <-.
    assert (Hin : In v (select p (verifications (db w)))) by (rewrite Es; by left).
    apply select_In in Hin. destruct Hin as [Hin Hp].
    assert (H0v := vi_history _ _ Hv v Hin).
    apply (Inv_moved w _ ths ths t fr p f v I Hin (Hps v Hp) Hp); auto using sms_kept_refl.
    + intros x Hx Ex. apply (same_id_same_row w ths v I Hin x Hx). auto.
    + apply Hh; [|by apply Hps|done|done].
      unfold history in *. by rewrite (Hps v Hp) in *; destruct H0v as [_ ?].
    + intros i. rewrite Hm. intros E'. unfold history in H0v. rewrite (Hps v Hp) in H0v.
      destruct H0v as (_ & _ & _ & E2). congruence.
  - injection Hrun as <- <-. by apply Same.
Qed.

Lemma Inv_cancel w ths fr now appId id o w' :
  Inv (mkState w ths) -> cancel_tx fr now appId id w = (o, w') -> Inv (mkState w' ths).
Proof.
  intros I Hrun. eapply (Inv_close w w' ths ev_cancelled fr _ (set_cancelled now)); [exact I| | | | | | | |exact Hrun].
  - done.
  - unfold verification_is. intros x y Hx Hy. cbv beta in *. destruct_and_ex. reflect_eqb. congruence.
  - unfold is_pending. intros x Hx. cbv beta in *. destruct_and_ex. by apply status_eqb_eq.
  - done.
  - done.
  - intros x e Hx Hp Ht Ha. unfold history in *. rewrite Hp in Hx. cbn.
    destruct Hx as (_ & -> & _ & ->). split; [by exists e|]. eauto.
  - intros o1 w1. unfold transaction. autorewrite with js.
    destruct (limit1 _); unfold throw; by intros [= <- <-].
Qed.

Lemma Inv_expire w ths fr id o w' :
  Inv (mkState w ths) -> expire_tx fr id w = (o, w') -> Inv (mkState w' ths).
Proof.
  intros I Hrun. eapply (Inv_close w w' ths ev_expired fr _ (set_status expired)); [exact I| | | | | | | |exact Hrun].
  - done.
  - intros x y Hx Hy. cbv beta in *. destruct_and_ex. reflect_eqb. congruence.
  - unfold is_pending. intros x Hx. cbv beta in *. destruct_and_ex. by apply status_eqb_eq.
  - done.
  - done.
  - intros x e Hx Hp Ht Ha. unfold history in *. rewrite Hp in Hx. cbn.
    destruct Hx as (_ & -> & -> & ->). split; [by exists e|done].
  - intros o1 w1. unfold transaction, ret. by intros [= <- <-].
Qed.

Lemma Inv_claim w l1 l2 receiverId fromE164 code inboundId fr skip_locked serverNow o w' :
  Inv (mkState w (l1 ++ TClaim receiverId fromE164 code inboundId :: l2)) ->
  claim_tx fr skip_locked serverNow receiverId fromE164 code inboundId w = (o, w') ->
  Inv (mkState w' (l1 ++ l2)).
Proof.
  intros I Hrun. pose proof I as [Hv _ _ _ _ _ Ht]. cbn [world threads] in *.
  apply threads_drop in Ht. destruct Ht as [Hth Ht].
  assert (Same : db w' = db w -> Inv (mkState w' (l1 ++ l2))).
  { intros E. eapply Inv_frame; [exact I|..]; rewrite E; auto using sms_kept_refl, bindings_kept_refl. }
  destruct (claim_cases fr skip_locked serverNow receiverId fromE164 code inboundId w (vi_idx _ _ Hv))
    as [[_ E]|(v & Hin & He & _ & [E|(name & c & E & _)])]; rewrite E in Hrun; injection Hrun as <- <-;
    [by apply Same| |by apply Same].
  unfold eligible, is_pending in He. destruct_and_ex. reflect_eqb.
  assert (Hp : v_status v = pending) by by apply status_eqb_eq.
  assert (H0v := vi_history _ _ Hv v Hin). unfold history in H0v. rewrite Hp in H0v.
  destruct H0v as (_ & _ & Ec & _).
  apply (Inv_moved w _ (l1 ++ TClaim receiverId fromE164 code inboundId :: l2) (l1 ++ l2) ev_verified fr
           (fun x => String.eqb (v_id x) (v_id v)) (set_verified serverNow inboundId) v I Hin Hp);
    try reflexivity; try done.
  - apply String.eqb_refl.
  - intros x Hx Ex. apply String.eqb_eq in Ex. exact (same_id_same_row _ _ _ I Hin x Hx Ex).
  - unfold history. cbn. split; [eexists; split; [reflexivity|done]|].
    split; [done|]. exists serverNow, inboundId. done.
  - intros i [= <-]. by subst.
  - apply sms_kept_link.
Qed.

(** A step that leaves the verification state, SMS and bindings alone. *)
Lemma Inv_quiet w w' ths ths' :
  Inv (mkState w ths) -> same_core (db w) (db w') -> Forall (thread_ok (db w)) ths' -> Inv (mkState w' ths').
Proof.
  intros I (Ev & Ee & Ei & Eb) Ht.
  assert (Ks : sms_kept (inboundSms (db w)) (inboundSms (db w'))) by (rewrite Ei; apply sms_kept_refl).
  assert (Kb : bindings_kept (phoneBindings (db w)) (phoneBindings (db w')))
    by (rewrite Eb; apply bindings_kept_refl).
  apply (Inv_frame w w' ths ths' I Ev Ee Ks Kb). exact (threads_kept _ _ _ Ks Kb Ht).
Qed.

(** What the statements that do not touch verifications do to the database. *)
Lemma read_db now app id kind w o w' : getVerification now app id kind w = (o, w') -> db w' = db w.
Proof.
  unfold getVerification. autorewrite with js. destruct (limit1 _) as [v|]; [|by intros [= <- <-]].
  unfold expire_if_due, lazyExpireAndEmit. destruct (_ && _); autorewrite with js; by intros [= <- <-].
Qed.

Lemma hosted_db now id w o w' : getHostedVerification now id w = (o, w') -> db w' = db w.
Proof.
  unfold getHostedVerification. autorewrite with js. destruct (limit1 _) as [v|]; [|by intros [= <- <-]].
  autorewrite with js.
  unfold expire_if_due, lazyExpireAndEmit. destruct (_ && _); autorewrite with js; by intros [= <- <-].
Qed.

Lemma consume_db ci now w o w' :
  consumeBindNonce now ci w = (o, w') ->
  w' = w \/ w' = set_db (set_rows t_phoneBindings (update_where (claimable ci now) (set_bound now)
                           (phoneBindings (db w)))) w /\ respects phoneBindings_idx (phoneBindings (db w')).
Proof.
  unfold consumeBindNonce. unfold bind at 1.
  destruct (update_checked_cases t_phoneBindings phoneBindings_idx (claimable ci now)
              (set_bound now) w) as [[Hr ->]|(ix & _ & _ & ->)]; [|intros [= <- <-]; by left].
  cbn [rows t_phoneBindings] in *. intros Hrun. right.
  assert (w' = set_db (set_rows t_phoneBindings (update_where (claimable ci now) (set_bound now)
                         (phoneBindings (db w)))) w) as ->; [|by split].
  revert Hrun. destruct (updated _ _ _); autorewrite with js; by intros [= _ <-].
Qed.

Lemma revoke_db now app id w o w' :
  revokeBinding now app id w = (o, w') ->
  w' = set_db (set_rows t_phoneBindings (update_where (binding_is app id) (set_revoked now)
                 (phoneBindings (db w)))) w.
Proof.
  unfold revokeBinding. autorewrite with js. cbn [rows t_phoneBindings].
  by destruct (updated _ _ _); intros [= <- <-].
Qed.

Lemma delete_endpoint_core app id w o w' :
  deleteWebhookEndpoint app id w = (o, w') -> same_core (db w) (db w').
Proof.
  unfold deleteWebhookEndpoint. autorewrite with js. destruct (_ =? 0)%nat; by intros [= <- <-].
Qed.

Lemma insert_binding_db row w o w' :
  Schema.insert t_phoneBindings phoneBindings_idx row w = (o, w') ->
  w' = w \/ broken_by phoneBindings_idx row (phoneBindings (db w)) = None /\
            w' = set_db (set_rows t_phoneBindings (phoneBindings (db w) ++ [row])%list) w.
Proof. unfold Schema.insert. cbn [rows t_phoneBindings]. destruct (broken_by _ _ _); intros [= <- <-]; auto. Qed.

(** Only bindings changed. *)
Lemma Inv_bindings w bs ths ths' :
  Inv (mkState w ths) -> bindings_kept (phoneBindings (db w)) bs -> Forall (thread_ok (db w)) ths' ->
  Inv (mkState (set_db (set_rows t_phoneBindings bs) w) ths').
Proof.
  intros I K Ht. apply (Inv_frame w _ _ _ I); [done|done|apply sms_kept_refl|exact K|].
  apply (threads_kept (db w)); [apply sms_kept_refl|exact K|done].
Qed.

Lemma Inv_same w ths ths' :
  Inv (mkState w ths) -> Forall (thread_ok (db w)) ths' -> Inv (mkState w ths').
Proof. intros I Ht. by apply (Inv_quiet w w ths). Qed.

Lemma Inv_start_ok w ths ths' id expiresAt dbNow input code o w' :
  Inv (mkState w ths) -> was_bound (phoneBindings (db w)) (sv_appId input) (sv_phoneE164 input) ->
  Forall (thread_ok (db w)) ths' ->
  start_tx cfg id expiresAt dbNow input code w = (o, w') -> Inv (mkState w' ths').
Proof.
  intros I Hbound Ht Hrun.
  assert (Same : w' = w -> Inv (mkState w' ths')).
  { intros ->. by apply (Inv_quiet w w ths). }
  destruct (start_tx_cases cfg id expiresAt dbNow input code w) as [[_ E]|[(_ & _ & E)|(r & Hf & _ & E)]].
  1, 2: rewrite E in Hrun; injection Hrun as <- <-; by apply Same.
  destruct (broken_by _ _ _) eqn:Eb; rewrite E in Hrun; injection Hrun as <- <-; [by apply Same|].
  apply Z.leb_gt in Hf. destruct I as [Hv Hi Hb Hbd Hc Hst _]. cbn [world threads] in *.
  split; cbn [world threads db set_db set_rows t_verifications verifications webhookEvents inboundSms phoneBindings]; auto.
  - by apply VInv_insert.
  - intros v i Hin E2. apply in_app_or in Hin. destruct Hin as [Hin|[<-|[]]]; [eauto|discriminate].
  - intros v Hin. apply in_app_or in Hin. destruct Hin as [Hin|[<-|[]]]; [auto|exact Hbound].
Qed.

Lemma verified_was_bound w ths appId phone b :
  Inv (mkState w ths) -> In b (phoneBindings (db w)) -> verified_binding appId phone b = true ->
  was_bound (phoneBindings (db w)) appId phone.
Proof.
  intros I Hin Hv. unfold verified_binding in Hv. destruct_and_ex. reflect_eqb.
  exists b. split; [done|]. split; [done|]. split; [done|]. by apply (inv_bound _ I b Hin).
Qed.

Lemma Inv_consume w ths ths' ci serverNow o w' :
  Inv (mkState w ths) -> Forall (thread_ok (db w)) ths' ->
  consumeBindNonce serverNow ci w = (o, w') -> Inv (mkState w' ths').
Proof.
  intros I Ht Hrun. apply consume_db in Hrun. destruct Hrun as [->|[-> Hr]]; [by eapply Inv_same|].
  apply (Inv_bindings _ _ _ _ I); [|done].
  apply bindings_kept_update; [done|]. intros b. repeat split; done.
Qed.

Lemma Inv_revoke w ths now app id o w' :
  Inv (mkState w ths) -> revokeBinding now app id w = (o, w') -> Inv (mkState w' ths).
Proof.
  intros I Hrun. apply revoke_db in Hrun. subst w'. apply (Inv_bindings _ _ _ _ I); [|apply (inv_threads _ I)].
  apply bindings_kept_update; [|intros b; repeat split; done].
  apply respects_update; intros ix x y [<-|[<-|[]]]; cbn; try done. by rewrite andb_false_r.
Qed.

(** Every step preserves the invariant. *)
Lemma Inv_step s s' : Inv s -> step s s' -> Inv s'.
Proof.
  intros I Hstep. pose proof (inv_threads _ I) as Ht.
  destruct Hstep as [w ths id ex input b Hin Hv | w l1 l2 id ex input dbNow code o w' Hrun
    | w ths id ex input dbNow code e w' Hin Hrun _ | w ths row th Hb Hth
    | w l1 l2 r f c i fr sk now o w' Hrun | w l1 l2 r f n now o w' Hrun | w ths i ref o w' Hrun
    | w ths fr now app id o w' Hrun | w ths now app id kind o w' Hrun | w ths now id o w' Hrun
    | D c b1 b2 id fr o w' ths Hrun | w ths row o w' Hs Hrun | w ths now app id o w' Hrun
    | w ths app id o w' Hrun | D D' c c' b ths Hsame]; cbn [world threads] in Ht.
  - apply (Inv_quiet w w _ _ I); [done|]. constructor; [|done]. by eapply verified_was_bound.
  - apply threads_drop in Ht. destruct Ht as [Hth Ht]. by eapply Inv_start_ok.
  - rewrite Forall_forall in Ht. eapply Inv_start_ok; [exact I| | |exact Hrun].
    + apply (Ht (TAttempt id ex input)). by apply list_elem_of_In.
    + by apply Forall_forall.
  - apply (Inv_frame w _ _ _ I); [done|done|by apply sms_kept_insert|apply bindings_kept_refl|].
    apply Forall_app. split.
    + destruct Hth as [->|[(code & ->)|(nonce & ->)]]; repeat constructor.
      exists row. split; [apply in_or_app; right; by left|done].
    + apply (threads_kept (db w)); [by apply sms_kept_insert|apply bindings_kept_refl|done].
  - by eapply Inv_claim.
  - apply threads_drop in Ht. eapply Inv_consume; [exact I|apply Ht|exact Hrun].
  - unfold link_inbound, update in Hrun. injection Hrun as <- <-.
    apply (Inv_frame w _ _ _ I); [done|done|apply sms_kept_link|apply bindings_kept_refl|].
    apply (threads_kept (db w)); [apply sms_kept_link|apply bindings_kept_refl|done].
  - by eapply Inv_cancel.
  - apply (Inv_quiet w w' _ _ I); [|exact Ht]. by rewrite (read_db _ _ _ _ _ _ _ Hrun).
  - apply (Inv_quiet w w' _ _ I); [|exact Ht]. by rewrite (hosted_db _ _ _ _ _ Hrun).
  - assert (I' : Inv (mkState (mkWorld D c (b1 ++ b2)) ths)).
    { apply (Inv_quiet (mkWorld D c (b1 ++ id :: b2)) _ _ _ I); done. }
    revert Hrun. unfold run_lazyExpire, try_catch.
    destruct (expire_tx fr id _) as [[u|e] w1] eqn:E; intros [= <- <-]; by eapply Inv_expire.
  - apply insert_binding_db in Hrun. destruct Hrun as [->|[Hb ->]]; [done|].
    apply (Inv_bindings _ _ _ _ I); [by apply bindings_kept_insert|done].
  - by eapply Inv_revoke.
  - apply (Inv_quiet w w' _ _ I); [by eapply delete_endpoint_core|exact Ht].
  - by apply (Inv_quiet (mkWorld D c b) _ _ _ I).
Qed.

Lemma initial_Inv s : (0 <= MAX_PENDING_PER_PHONE cfg)%Z -> initial s -> Inv s.
Proof.
  intros Hcfg (Ev & Ee & Ei & Eb & Et).
  split; rewrite ?Ev, ?Ee, ?Ei, ?Eb, ?Et.
  - split; [by repeat constructor|intros v []|intros e []|]. intros. cbn. lia.
  - by repeat constructor.
  - by repeat constructor.
  - intros b [].
  - intros v i [].
  - intros v [].
  - constructor.
Qed.

Lemma reachable_Inv s : (0 <= MAX_PENDING_PER_PHONE cfg)%Z -> reachable s -> Inv s.
Proof.
  intros Hcfg (s0 & Hi & Hrtc). apply (initial_Inv s0) in Hi; [|done].
  induction Hrtc as [|s0 s1 s2 Hs _ IH]; [done|]. apply IH. by eapply Inv_step.
Qed.

(** ** How rows evolve *)

(** A row stays as it is, or leaves [pending] keeping what it was created with. *)
Definition evolves (v v' : Verification) : Prop :=
  v' = v \/
  v_status v = pending /\ v_status v' <> pending /\ v_id v' = v_id v /\ v_appId v' = v_appId v /\
  v_phoneE164 v' = v_phoneE164 v /\ v_receiverId v' = v_receiverId v /\ v_code v' = v_code v /\
  v_purpose v' = v_purpose v /\ v_expiresAt v' = v_expiresAt v /\ v_createdAt v' = v_createdAt v.

(** The table keeps its rows, in order, and only gains pending ones. *)
Definition table_evolves (vs vs' : list Verification) : Prop :=
  exists kept new, vs' = (kept ++ new)%list /\ Forall2 evolves vs kept.

Lemma evolves_trans a b c : evolves a b -> evolves b c -> evolves a c.
Proof.
  unfold evolves. intros [->|Hab] [->|Hbc]; auto. right. destruct_and_ex. congruence.
Qed.

Lemma table_evolves_refl vs : table_evolves vs vs.
Proof.
  exists vs, []. split; [by rewrite app_nil_r|]. induction vs; constructor; [by left|done].
Qed.

Lemma table_evolves_trans a b c : table_evolves a b -> table_evolves b c -> table_evolves a c.
Proof.
  intros (k & n & -> & Hk) (k' & n' & -> & Hk').
  apply Forall2_app_inv_l in Hk'. destruct Hk' as (k1 & k2 & H1 & H2 & ->).
  exists k1, (k2 ++ n')%list. split; [by rewrite app_assoc|].
  clear H2. revert k1 H1. induction Hk as [|x y l l' Hxy _ IH]; intros k1 H1; inversion H1; subst; constructor.
  - by eapply evolves_trans.
  - by apply IH.
Qed.

Lemma table_evolves_insert vs v : table_evolves vs (vs ++ [v]).
Proof.
  destruct (table_evolves_refl vs) as (k & n & E & Hk).
  exists k, (n ++ [v])%list. split; [by rewrite E, app_assoc|done].
Qed.

Lemma table_evolves_update vs p f :
  (forall x, In x vs -> p x = true -> evolves x (f x)) -> table_evolves vs (update_where p f vs).
Proof.
  intros Hp. exists (update_where p f vs), []. split; [by rewrite app_nil_r|].
  unfold update_where. induction vs as [|x vs IH]; cbn; constructor.
  - destruct (p x) eqn:E; [|by left]. apply Hp; [by left|done].
  - apply IH. intros y Hy. apply Hp. by right.
Qed.

Lemma close_evolves t fr p f (k : SM unit) w o w' :
  (forall x, v_appId (f x) = v_appId x) ->
  (forall x, p x = true -> evolves x (f x)) ->
  (forall o1 w1, transaction k w = (o1, w1) -> db w1 = db w) ->
  transaction (let! result := update t_verifications p f in
               match result with
               | [] => k
               | row :: _ => emitVerificationEventInTx fr t (v_appId row) (buildVerificationEventData row t)
               end)%js w = (o, w') ->
  table_evolves (verifications (db w)) (verifications (db w')).
Proof.
  intros Happ Hp Hk Hrun.
  destruct (transition_cases t fr p f k w Happ) as [[_ E]|(v & l & _ & [E|(name & c & E & _)])];
    rewrite E in Hrun.
  - rewrite (Hk _ _ Hrun). apply table_evolves_refl.
  - injection Hrun as <- <-. apply table_evolves_update. auto.
  - injection Hrun as <- <-. apply table_evolves_refl.
Qed.

Lemma pending_test q v : q && is_pending v = true -> v_status v = pending.
Proof. unfold is_pending. rewrite andb_true_iff. intros [_ E]. by apply status_eqb_eq. Qed.

Lemma start_evolves id ex dbNow input code w o w' :
  start_tx cfg id ex dbNow input code w = (o, w') ->
  table_evolves (verifications (db w)) (verifications (db w')).
Proof.
  intros Hrun.
  destruct (start_tx_cases cfg id ex dbNow input code w) as [[_ E]|[(_ & _ & E)|(r & _ & _ & E)]].
  1, 2: rewrite E in Hrun; injection Hrun as <- <-; apply table_evolves_refl.
  destruct (broken_by _ _ _); rewrite E in Hrun; injection Hrun as <- <-;
    [apply table_evolves_refl|apply table_evolves_insert].
Qed.

Lemma expire_evolves fr id w o w' :
  expire_tx fr id w = (o, w') -> table_evolves (verifications (db w)) (verifications (db w')).
Proof.
  intros Hrun. eapply close_evolves; [| | |exact Hrun]; [done| |].
  - intros x Hx. apply pending_test in Hx. right. repeat split; done.
  - intros o1 w1. unfold transaction, ret. by intros [= <- <-].
Qed.

Lemma cancel_evolves fr now app id w o w' :
  cancel_tx fr now app id w = (o, w') -> table_evolves (verifications (db w)) (verifications (db w')).
Proof.
  intros Hrun. eapply close_evolves; [| | |exact Hrun]; [done| |].
  - intros x Hx. apply pending_test in Hx. right. repeat split; done.
  - intros o1 w1. unfold transaction. autorewrite with js.
    destruct (limit1 _); unfold throw; by intros [= <- <-].
Qed.

Lemma claim_evolves r f c i fr sk now w o w' :
  respects verifications_idx (verifications (db w)) ->
  claim_tx fr sk now r f c i w = (o, w') -> table_evolves (verifications (db w)) (verifications (db w')).
Proof.
  intros Hidx Hrun.
  destruct (claim_cases fr sk now r f c i w Hidx) as [[_ E]|(v & Hin & He & _ & [E|(name & c' & E & _)])];
    rewrite E in Hrun; injection Hrun as <- <-; try apply table_evolves_refl.
  apply table_evolves_update. intros x Hx Ex. apply String.eqb_eq in Ex.
  assert (x = v) as -> by by eapply (pkey_inj _ v_id).
  unfold eligible in He. apply andb_true_iff in He. destruct He as [He _]. apply pending_test in He.
  right. repeat split; done.
Qed.

Lemma step_evolves s s' :
  Inv s -> step s s' -> table_evolves (verifications (db (world s))) (verifications (db (world s'))).
Proof.
  intros I Hstep. pose proof (vi_idx _ _ (inv_v _ I)) as Hidx.
  destruct Hstep as [w ths id ex input b Hin Hv | w l1 l2 id ex input dbNow code o w' Hrun
    | w ths id ex input dbNow code e w' Hin Hrun _ | w ths row th Hb Hth
    | w l1 l2 r f c i fr sk now o w' Hrun | w l1 l2 r f n now o w' Hrun | w ths i ref o w' Hrun
    | w ths fr now app id o w' Hrun | w ths now app id kind o w' Hrun | w ths now id o w' Hrun
    | D c b1 b2 id fr o w' ths Hrun | w ths row o w' Hs Hrun | w ths now app id o w' Hrun
    | w ths app id o w' Hrun | D D' c c' b ths Hsame]; cbn [world threads] in *;
    try apply table_evolves_refl.
  - by eapply start_evolves.
  - by eapply start_evolves.
  - by eapply claim_evolves.
  - apply consume_db in Hrun. destruct Hrun as [->|[-> _]]; apply table_evolves_refl.
  - injection Hrun as _ <-. apply table_evolves_refl.
  - by eapply cancel_evolves.
  - rewrite (read_db _ _ _ _ _ _ _ Hrun). apply table_evolves_refl.
  - rewrite (hosted_db _ _ _ _ _ Hrun). apply table_evolves_refl.
  - revert Hrun. unfold run_lazyExpire, try_catch.
    destruct (expire_tx fr id _) as [[u|e] w1] eqn:E; intros [= <- <-]; exact (expire_evolves _ _ _ _ _ E).
  - apply insert_binding_db in Hrun. destruct Hrun as [->|[_ ->]]; apply table_evolves_refl.
  - apply revoke_db in Hrun. subst w'. apply table_evolves_refl.
  - destruct (delete_endpoint_core _ _ _ _ _ Hrun) as (-> & _). apply table_evolves_refl.
  - destruct Hsame as (E & _). cbn [db]. rewrite E. apply table_evolves_refl.
Qed.

Lemma reachable_step_Inv s s' : Inv s -> rtc step s s' ->
  table_evolves (verifications (db (world s))) (verifications (db (world s'))).
Proof.
  intros I Hrtc. induction Hrtc as [s|s s1 s2 Hs _ IH]; [apply table_evolves_refl|].
  eapply table_evolves_trans; [by eapply step_evolves|]. apply IH. by eapply Inv_step.
Qed.

(** ** Handlers are sequences of steps *)

End System.

Lemma match_stored_reaches `{Limit1} cfg fr sk now r f i bn code w o w' ths :
  match_stored fr sk now r f i bn code w = (o, w') ->
  rtc (step cfg) (mkState w (match bn with
                             | Some n => [TBind r f n]
                             | None => match code with Some c => [TClaim r f c i] | None => [] end
                             end ++ ths)) (mkState w' ths).
Proof.
  unfold match_stored. destruct bn as [n|].
  - unfold bind at 1. destruct (consumeBindNonce now _ w) as [o1 w1] eqn:E1.
    intros Hrun. eapply rtc_l.
    { apply (step_bind cfg w [] ths r f n now o1 w1). exact E1. }
    destruct o1 as [[bid app|reason]|e]; [|by injection Hrun as _ ->|by injection Hrun as _ ->].
    apply rtc_once. revert Hrun. unfold bind.
    destruct (link_inbound i (Some bid) w1) as [o2 w2] eqn:E2.
    destruct o2; intros [= _ <-]; by eapply step_link.
  - destruct code as [c|]; [|by intros [= _ <-]].
    unfold bind at 1. destruct (claim_tx fr sk now r f c i w) as [o1 w1] eqn:E1.
    intros Hrun. eapply rtc_l.
    { apply (step_claim cfg w [] ths r f c i fr sk now o1 w1). exact E1. }
    destruct o1 as [[row|]|e]; [by injection Hrun as _ ->| |by injection Hrun as _ ->].
    apply rtc_once. revert Hrun. unfold bind.
    destruct (link_inbound i None w1) as [o2 w2] eqn:E2.
    destruct o2; intros [= _ <-]; by eapply step_link.
Qed.

Lemma processInbound_reaches `{PhoneLib} `{Limit1} cfg fr ulid sk now dbNow input w o w' ths :
  processInbound cfg fr ulid sk now dbNow input w = (o, w') ->
  rtc (step cfg) (mkState w ths) (mkState w' ths).
Proof.
  intros Hrun.
  destruct (processInbound_cases cfg fr ulid sk now dbNow input w) as
    [(prior & _ & _ & E)|[(_ & _ & E)|(_ & Hb & E)]]; rewrite E in Hrun;
    [by injection Hrun as _ <-|by injection Hrun as _ <-|].
  eapply rtc_l; [|eapply match_stored_reaches; exact Hrun].
  eapply step_store; [exact Hb|].
  destruct (extractBindNonce (mi_body input)) as [n|]; [right; right; by exists n|].
  destruct (extractCode (mi_body input) "VERIFY") as [c|]; [right; left; by exists c|by left].
Qed.

Lemma retry_reaches `{Limit1} cfg draws id ex dbNow input i n w o w' ths b :
  In b (phoneBindings (db w)) -> verified_binding (sv_appId input) (sv_phoneE164 input) b = true ->
  retry_loop cfg draws (start_tx cfg id ex dbNow input) i n w = (o, w') ->
  rtc (step cfg) (mkState w ths) (mkState w' ths).
Proof.
  revert i w. induction n as [|n IH]; intros i w Hin Hv; cbn [retry_loop].
  - autorewrite with js. intros [= _ <-]. destruct w as [D c bg]. apply rtc_once. by apply step_other.
  - unfold bind at 1. destruct (generateCode _ _) as [code|e]; [|by intros [= _ <-]].
    unfold try_catch. destruct (start_tx cfg id ex dbNow input code w) as [o1 w1] eqn:E1.
    assert (S1 : rtc (step cfg) (mkState w ths) (mkState w1 ths)).
    { eapply rtc_l; [by eapply (step_check cfg w ths id ex input b)|]. apply rtc_once.
      by eapply (step_attempt cfg w [] ths). }
    destruct o1 as [a|e]; [by intros [= _ <-]|].
    destruct (negb (isPendingCodeCollision e)); [by intros [= _ <-]|].
    autorewrite with js. intros Hrun. etrans; [exact S1|].
    destruct w1 as [D1 c1 b1]. eapply rtc_l; [by apply (step_other cfg D1 D1)|].
    eapply IH; [| |exact Hrun]; [|exact Hv]. cbn [db].
    destruct (start_tx_cases cfg id ex dbNow input code w) as [[_ E]|[(_ & _ & E)|(r & _ & _ & E)]].
    1, 2: rewrite E in E1; by injection E1 as _ ->.
    destruct (broken_by _ _ _); rewrite E in E1; [|discriminate]. by injection E1 as _ ->.
Qed.

Lemma startVerification_reaches `{Limit1} cfg ulid draws now dbNow input w o w' ths :
  startVerification cfg ulid draws now dbNow input w = (o, w') ->
  rtc (step cfg) (mkState w ths) (mkState w' ths).
Proof.
  unfold startVerification. autorewrite with js. cbn [rows t_phoneBindings].
  destruct (limit1 _) as [b|] eqn:Eb.
  2: { rewrite bool_decide_false by (by intros [? ?]). by intros [= _ <-]. }
  apply limit1_In, select_In in Eb. destruct Eb as [Hb Hv].
  rewrite bool_decide_true by eauto. cbn [negb]. unfold bind at 1. unfold runWithCodeCollisionRetry.
  destruct (retry_loop _ _ _ _ _ w) as [o1 w1] eqn:Er.
  assert (S1 := retry_reaches _ _ _ _ _ _ _ _ _ _ _ ths b Hb Hv Er).
  destruct o1 as [[r code]|e]; [|by intros [= _ <-]].
  autorewrite with js. intros [= _ <-]. etrans; [exact S1|].
  destruct w1 as [D1 c1 b1]. apply rtc_once. by apply step_other.
Qed.

Lemma startBinding_reaches `{PhoneLib} `{Limit1} cfg ulid bytes now dbNow input w o w' ths :
  startBinding cfg ulid bytes now dbNow input w = (o, w') ->
  rtc (step cfg) (mkState w ths) (mkState w' ths).
Proof.
  intros Hrun.
  destruct (startBinding_cases cfg ulid bytes now dbNow input w) as
    [[e E]|(n & r & res & _ & _ & _ & _ & _ & Hb & _ & _ & _ & E)]; rewrite E in Hrun;
    [by injection Hrun as _ <-|].
  injection Hrun as _ <-. apply rtc_once.
  eapply (step_start_binding cfg w ths _ (Return tt)); [|by rewrite insert_eq; cbn [rows t_phoneBindings]; rewrite Hb].
  done.
Qed.

Lemma cancelVerification_reaches `{Limit1} cfg fr now readNow appId id w o w' ths :
  cancelVerification fr now readNow appId id w = (o, w') ->
  rtc (step cfg) (mkState w ths) (mkState w' ths).
Proof.
  unfold cancelVerification. unfold bind at 1. destruct (cancel_tx fr now appId id w) as [o1 w1] eqn:E1.
  assert (S1 := step_cancel cfg w ths fr now appId id o1 w1 E1).
  destruct o1; intros Hrun; [|by injection Hrun as _ <-; apply rtc_once].
  eapply rtc_l; [exact S1|]. apply rtc_once. by eapply step_read.
Qed.

(** Operations on other tables: the core tables and the started tasks stay. *)
Definition frames {A} (m : SM A) : Prop :=
  forall w, same_core (db w) (db (snd (m w))) /\ background (snd (m w)) = background w.

Lemma other_reaches `{Limit1} {A} cfg (m : SM A) w o w' ths :
  m w = (o, w') -> frames m -> rtc (step cfg) (mkState w ths) (mkState w' ths).
Proof.
  intros Hm Hf. specialize (Hf w). rewrite Hm in Hf. cbn in Hf. destruct Hf as [Hc Hb].
  destruct w as [D c b], w' as [D' c' b']. cbn in *. subst b'. apply rtc_once. by apply step_other.
Qed.

Lemma getBinding_frame `{Limit1} appId id : frames (getBinding appId id).
Proof. intros w. unfold getBinding. autorewrite with js. by destruct (limit1 _). Qed.

Lemma listWebhookEndpoints_frame appId : frames (listWebhookEndpoints appId).
Proof. intros w. unfold listWebhookEndpoints. by autorewrite with js. Qed.

Lemma getWebhookEndpoint_frame `{Limit1} appId id : frames (getWebhookEndpoint appId id).
Proof. intros w. unfold getWebhookEndpoint. autorewrite with js. by destruct (limit1 _). Qed.

Lemma createWebhookEndpoint_frame `{UrlParser} `{Resolver} `{Gcm} env masterKey ulid randomBytes iv now input :
  frames (createWebhookEndpoint env masterKey ulid randomBytes iv now input).
Proof.
  intros w. destruct (createWebhookEndpoint _ _ _ _ _ _ _ w) as [o w'] eqn:E. revert E.
  unfold createWebhookEndpoint, lift. unfold bind at 1. destruct (validateUrl _ _); [|by intros [= <- <-]].
  unfold bind at 1. destruct (uniqueValidatedEventTypes _); [|by intros [= <- <-]].
  autorewrite with js. destruct (MAX_ENDPOINTS_PER_APP <=? _)%nat; [by intros [= <- <-]|].
  unfold bind at 1. destruct (wrap _ _ _ _); [|by intros [= <- <-]].
  unfold bind at 1. rewrite insert_eq. destruct (broken_by _ _ _); by intros [= <- <-].
Qed.

(** ** Theorems *)

(** C2: in every reachable state, however requests, retries, readers and background
    expiries interleave, a verification is either pending with no event, or
    verified, expired or cancelled with exactly one event, of that type and app,
    and with exactly the matching columns set (a verified row was verified before
    its deadline); every stored event belongs to a verification, and no row ever
    reaches the status [failed]. *)
Theorem one_event_per_verification `{Limit1} cfg s :
  config_valid cfg = true -> reachable cfg s ->
  (forall v, In v (verifications (db (world s))) ->
     history v (events_of (v_id v) (webhookEvents (db (world s))))) /\
  (forall e, In e (webhookEvents (db (world s))) ->
     exists v, In v (verifications (db (world s))) /\ ev_verificationId e = Some (v_id v)).
Proof.
  intros Hc Hr. apply config_valid_bounds in Hc. apply reachable_Inv in Hr; [|lia].
  destruct (inv_v _ _ Hr) as [_ Hh Ho _]. by split.
Qed.

(** C7: in every reachable state no app has more than [MAX_PENDING_PER_PHONE] pending
    verifications for one phone, two pending verifications never share receiver,
    phone and code (so one SMS has at most one row to claim), and an (app, phone)
    pair has at most one verified binding. *)
Theorem pending_bounded_and_distinct `{Limit1} cfg s :
  config_valid cfg = true -> reachable cfg s ->
  (forall appId phone,
     (Z.of_nat (List.length (select (pending_for appId phone) (verifications (db (world s)))))
      <= MAX_PENDING_PER_PHONE cfg)%Z) /\
  (forall r f c now x y, In x (verifications (db (world s))) -> In y (verifications (db (world s))) ->
     eligible r f c now x = true -> eligible r f c now y = true -> x = y) /\
  (forall appId phone x y, In x (phoneBindings (db (world s))) -> In y (phoneBindings (db (world s))) ->
     verified_binding appId phone x = true -> verified_binding appId phone y = true -> x = y).
Proof.
  intros Hc Hr. apply config_valid_bounds in Hc. apply reachable_Inv in Hr; [|lia].
  destruct (inv_v _ _ Hr) as [Hidx _ _ Hcap]. split; [exact Hcap|]. split.
  - intros r f c now x y Hx Hy. by apply (eligible_unique r f c now _ x y Hidx).
  - intros appId phone x y Hx Hy Vx Vy. assert (Hb := inv_bindings _ _ Hr).
    apply Forall_inv_tail, Forall_inv in Hb. unfold verified_binding in *. destruct_and_ex. reflect_eqb.
    apply (no_conflict_spec _ _ x y Hb); [| |done|done]; cbn; rewrite !andb_true_iff, !String.eqb_eq;
      repeat split; congruence.
Qed.

(** C3: in every reachable state a verified verification names a stored SMS that came
    from the phone it was requested for through the receiver it was assigned to,
    and every verification was created for a phone that had been bound to its app
    by a completed ceremony. *)
Theorem verified_by_sms_of_bound_phone `{Limit1} cfg s v :
  config_valid cfg = true -> reachable cfg s -> In v (verifications (db (world s))) ->
  (v_status v = verified -> exists i, v_matchedInboundId v = Some i /\
     exists r, In r (inboundSms (db (world s))) /\ i_id r = i /\ i_receiverId r = v_receiverId v /\
               i_fromE164 r = v_phoneE164 v) /\
  exists b, In b (phoneBindings (db (world s))) /\ b_appId b = v_appId v /\
            b_phoneE164 b = v_phoneE164 v /\ b_boundAt b <> None.
Proof.
  intros Hc Hr Hin. apply config_valid_bounds in Hc. apply reachable_Inv in Hr; [|lia].
  split; [|exact (inv_started _ _ Hr v Hin)]. intros Hs.
  pose proof (vi_history _ _ _ (inv_v _ _ Hr) v Hin) as Hh. unfold history in Hh. rewrite Hs in Hh.
  destruct Hh as (_ & _ & at_ & i & _ & _ & E). exists i. split; [done|].
  exact (inv_claimed _ _ Hr v i Hin E).
Qed.

(** C13: from a reachable state on, every later state keeps the table's rows in order
    and only appends; a row that has left [pending] never changes again, and the
    others keep their id, app, phone, receiver, code, purpose and deadline. *)
Theorem verifications_only_move_forward `{Limit1} cfg s s' :
  config_valid cfg = true -> reachable cfg s -> rtc (step cfg) s s' ->
  table_evolves (verifications (db (world s))) (verifications (db (world s'))).
Proof.
  intros Hc Hr Hs. apply config_valid_bounds in Hc. apply reachable_Inv in Hr; [|lia].
  by eapply reachable_step_Inv.
Qed.

(** C15: the service operations refine the transition system: whether it returns or
    throws, a run of an operation on verifications ([startVerification],
    [getVerification], [getHostedVerification], [cancelVerification], and the
    background expiry once started), on bindings ([startBinding], [getBinding],
    [revokeBinding]), on inbound SMS ([processInbound]) and on webhook endpoints
    (create, list, read, delete) is a sequence of steps, so the reachable states
    include every state these operations leave. *)
Theorem handlers_refine_steps `{PhoneLib} `{Limit1} `{UrlParser} `{Resolver} `{Gcm} cfg w ths :
  let refines {A} (m : SM A) := forall o w', m w = (o, w') -> rtc (step cfg) (mkState w ths) (mkState w' ths) in
  (forall ulid draws now dbNow input, refines (startVerification cfg ulid draws now dbNow input)) /\
  (forall now appId id kind, refines (getVerification now appId id kind)) /\
  (forall now id, refines (getHostedVerification now id)) /\
  (forall fr now readNow appId id, refines (cancelVerification fr now readNow appId id)) /\
  (forall b1 id b2 fr o w', background w = (b1 ++ id :: b2)%list ->
     run_lazyExpire fr id (mkWorld (db w) (counted w) (b1 ++ b2)%list) = (o, w') ->
     rtc (step cfg) (mkState w ths) (mkState w' ths)) /\
  (forall fr ulid sk now dbNow input, refines (processInbound cfg fr ulid sk now dbNow input)) /\
  (forall ulid bytes now dbNow input, refines (startBinding cfg ulid bytes now dbNow input)) /\
  (forall appId id, refines (getBinding appId id)) /\
  (forall now appId id, refines (revokeBinding now appId id)) /\
  (forall env masterKey ulid randomBytes iv now input,
     refines (createWebhookEndpoint env masterKey ulid randomBytes iv now input)) /\
  (forall appId, refines (listWebhookEndpoints appId)) /\
  (forall appId id, refines (getWebhookEndpoint appId id)) /\
  (forall appId id, refines (deleteWebhookEndpoint appId id)).
Proof.
  cbv zeta. split_and!; intros.
  - by eapply startVerification_reaches.
  - apply rtc_once. by eapply step_read.
  - apply rtc_once. by eapply step_hosted.
  - by eapply cancelVerification_reaches.
  - destruct w as [D c b]. cbn in *. subst b. apply rtc_once. by eapply step_task.
  - by eapply processInbound_reaches.
  - by eapply startBinding_reaches.
  - by eapply other_reaches, getBinding_frame.
  - apply rtc_once. by eapply step_revoke_binding.
  - by eapply other_reaches, createWebhookEndpoint_frame.
  - by eapply other_reaches, listWebhookEndpoints_frame.
  - by eapply other_reaches, getWebhookEndpoint_frame.
  - apply rtc_once. by eapply step_delete_endpoint.
Qed.

(** ** A run: binding, verification, match *)

Section Run.
Let P := plain_phones.

Definition run_bytes (i : nat) : nat := (i * 7)%nat.
Definition world1 : World := mkWorld sample_db [] [].
Definition world2 : World := snd (startBinding (H := plain_phones) default_config "1" run_bytes 1000 1000 sample_start world1).
Definition world3 : World :=
  snd (processInbound (H := plain_phones) default_config sample_fresh "1" (fun _ => false) 2000 2000
         (sample_sms ("bind " ++ generateNonce run_bytes) "k1") world2).
Definition world4 : World :=
  snd (startVerification default_config "1" sample_draws 3000 3000 sample_input world3).
Definition world5 : World :=
  snd (processInbound (H := plain_phones) default_config sample_fresh "2" (fun _ => false) 4000 4000
         (sample_sms (default "" (v_messagePrefix <$> hd_error (verifications (db world4))) ++
                      default "" (v_code <$> hd_error (verifications (db world4)))) "k2") world4).

Definition state4 : State := mkState world4 [].
Definition state5 : State := mkState world5 [].

Lemma state4_reachable : reachable default_config state4.
Proof.
  exists (mkState (mkWorld empty_db [] []) []). split; [by repeat split|].
  eapply rtc_l; [by apply (step_other default_config _ sample_db [] [])|]. fold world1.
  etrans; [|etrans].
  - eapply (startBinding_reaches (H := plain_phones) _ _ _ _ _ _ world1 _ world2), surjective_pairing.
  - eapply (processInbound_reaches (H := plain_phones) _ _ _ _ _ _ _ world2 _ world3), surjective_pairing.
  - eapply (startVerification_reaches _ _ _ _ _ _ world3 _ world4), surjective_pairing.
Qed.

Lemma state4_to_state5 : rtc (step default_config) state4 state5.
Proof.
  eapply (processInbound_reaches (H := plain_phones) _ _ _ _ _ _ _ world4 _ world5), surjective_pairing.
Qed.

Lemma world5_reachable : reachable default_config state5.
Proof.
  destruct state4_reachable as (s0 & Hi & Hs). exists s0. split; [exact Hi|].
  etrans; [exact Hs|exact state4_to_state5].
Qed.
End Run.

(** The verification of the run. *)
Definition verified_row : Verification := hd (pending_row "" "" 0) (verifications (db (world state5))).

Lemma verified_row_in : In verified_row (verifications (db (world state5))).
Proof. vm_compute. left. reflexivity. Qed.

Lemma one_event_per_verification_witness :
  v_status verified_row = verified /\
  history verified_row (events_of (v_id verified_row) (webhookEvents (db (world state5)))).
Proof.
  split; [vm_compute; reflexivity|].
  exact (proj1 (one_event_per_verification default_config state5
    default_config_boots world5_reachable) verified_row verified_row_in).
Defined.

Lemma pending_bounded_and_distinct_witness :
  List.length (select (pending_for "app_1" "+963991234567") (verifications (db (world state4)))) = 1%nat /\
  (Z.of_nat (List.length (select (pending_for "app_1" "+963991234567") (verifications (db (world state4))))) <= 3)%Z.
Proof.
  split; [vm_compute; reflexivity|].
  exact (proj1 (pending_bounded_and_distinct default_config state4 default_config_boots
    state4_reachable) "app_1" "+963991234567").
Defined.

Lemma verified_by_sms_of_bound_phone_witness :
  exists i, v_matchedInboundId verified_row = Some i /\
    exists r, In r (inboundSms (db (world state5))) /\ i_id r = i /\ i_receiverId r = v_receiverId verified_row /\
              i_fromE164 r = v_phoneE164 verified_row.
Proof.
  apply (proj1 (verified_by_sms_of_bound_phone default_config state5 verified_row
    default_config_boots world5_reachable verified_row_in)).
  vm_compute. reflexivity.
Defined.

Lemma verifications_only_move_forward_witness :
  map v_status (verifications (db (world state4))) = [pending] /\
  map v_status (verifications (db (world state5))) = [verified] /\
  table_evolves (verifications (db (world state4))) (verifications (db (world state5))).
Proof.
  split; [vm_compute; reflexivity|]. split; [vm_compute; reflexivity|].
  exact (verifications_only_move_forward default_config state4 state5
    default_config_boots state4_reachable state4_to_state5).
Defined.
