(* ===== verification/RateLimit.v ===== *)
(** * Redis and the rate limiter: [services/rateLimit.ts]

    The Redis server enters as the class [Redis]: the two commands the code sends
    and their documented effect on the keys that have not expired, and the replies that
    carry no count.  [rateCheck] is the fixed-window counter on top of it. *)

From stdpp Require Import gmap.
From S2P Require Import Prelude JsString Json Errors Schema.
From Stdlib Require Import String.

Open Scope string_scope.

(** What [exec] gives for the transaction: null, a first reply that carries an error
    instead of a number, or the count. *)
Inductive ExecReply : Type := NullReply | IncrError | IncrCount (n : Z).

(** [visible r t k] is the value of a key that has not expired at time [t], with
    its deadline; values are counters, times milliseconds. *)
Class Redis (R : Type) : Type := {
  visible : R -> Z -> string -> option (Z * Z);
  incr_expire_nx : string -> Z -> Z -> R -> ExecReply * R;
    (** [MULTI; INCR k; EXPIRE k s NX; EXEC] at a time *)
  set_nx_ex : string -> Z -> Z -> R -> bool * R;
    (** [SET k 1 EX s NX] at a time; [true] is the reply OK *)
  incr_law : forall k s t r n r', incr_expire_nx k s t r = (IncrCount n, r') ->
    n = (1 + match visible r t k with Some (v, _) => v | None => 0 end)%Z /\
    forall t' k', (t <= t')%Z ->
      visible r' t' k'
      = if String.eqb k' k
        then let d := match visible r t k with Some (_, d) => d | None => (t + 1000 * s)%Z end in
             if (t' <? d)%Z then Some (n, d) else None
        else visible r t' k';
  set_law : forall k s t r b r', set_nx_ex k s t r = (b, r') ->
    b = match visible r t k with Some _ => false | None => true end /\
    forall t' k', (t <= t')%Z ->
      visible r' t' k'
      = if b && String.eqb k' k
        then if (t' <? t + 1000 * s)%Z then Some (1, t + 1000 * s)%Z else None
        else visible r t' k';
  visible_expires : forall r t t' k v d, visible r t k = Some (v, d) -> (t <= t')%Z ->
    visible r t' k = if (t' <? d)%Z then Some (v, d) else None;
  visible_until : forall r t k v d, visible r t k = Some (v, d) -> (t < d)%Z;
  visible_none : forall r t t' k, visible r t k = None -> (t <= t')%Z -> visible r t' k = None;
}.

Record RateCheck : Type := { allowed : bool; count_ : Z; remaining : Z; resetSeconds : Z }.

(** [now1] and [now2] are the two readings of [Date.now()]. *)
Definition bucket_of (key : string) (windowSeconds now1 : Z) : string :=
  "syrotp:rl:" ++ key ++ ":" ++ num_to_string (now1 / 1000 / windowSeconds)%Z.

Definition rateCheck `{Redis R} (key : string) (limit windowSeconds now1 now2 : Z) (r : R)
    : RateCheck * R :=
  let bucket := bucket_of key windowSeconds now1 in
  let '(reply, r') := incr_expire_nx bucket windowSeconds now1 r in
  match reply with
  | NullReply => ({| allowed := true; count_ := 0; remaining := limit; resetSeconds := windowSeconds |}, r')
  | _ =>
      let count := match reply with IncrCount n => n | _ => 0%Z end in
      ({| allowed := (count <=? limit)%Z; count_ := count; remaining := Z.max 0 (limit - count);
          resetSeconds := (windowSeconds - (now2 / 1000) mod windowSeconds)%Z |}, r')
  end.

(** ** A bucket over one window *)

Section Window.
Context `{Redis R} (key : string) (limit windowSeconds window : Z).

(** Calls for [key] during window number [window], each answered by Redis; between
    two calls other clients may do anything that leaves the bucket alone.  The
    list holds the answers, the first call first. *)
Inductive calls : Z -> R -> list RateCheck -> Z -> R -> Prop :=
  | calls_nil t r : calls t r [] t r
  | calls_cons t r now1 now2 r1 rc r2 rcs t' r' :
      (t <= now1)%Z -> (now1 / 1000 / windowSeconds = window)%Z ->
      (forall u, (now1 <= u)%Z -> visible r1 u (bucket_of key windowSeconds now1)
                                  = visible r u (bucket_of key windowSeconds now1)) ->
      (exists c, fst (incr_expire_nx (bucket_of key windowSeconds now1) windowSeconds now1 r1) = IncrCount c) ->
      rateCheck key limit windowSeconds now1 now2 r1 = (rc, r2) ->
      calls now1 r2 rcs t' r' ->
      calls t r (rc :: rcs) t' r'.

Let bucket : string := "syrotp:rl:" ++ key ++ ":" ++ num_to_string window.

(** The counter of the bucket, and its deadline not before the window's end. *)
Definition counts (t : Z) (r : R) (n : Z) : Prop :=
  match visible r t bucket with
  | None => n = 0%Z
  | Some (v, d) => v = n /\ ((window + 1) * windowSeconds * 1000 <= d)%Z
  end.

Lemma window_end now1 :
  (0 < windowSeconds)%Z -> (now1 / 1000 / windowSeconds = window)%Z ->
  (now1 < (window + 1) * windowSeconds * 1000 <= now1 + 1000 * windowSeconds)%Z.
Proof.
  intros Hw E. pose proof (Z.div_mod now1 1000 ltac:(lia)). pose proof (Z.mod_pos_bound now1 1000 ltac:(lia)).
  pose proof (Z.div_mod (now1 / 1000) windowSeconds ltac:(lia)).
  pose proof (Z.mod_pos_bound (now1 / 1000) windowSeconds Hw). rewrite E in *. nia.
Qed.

Lemma calls_count n t r rcs t' r' :
  (0 < windowSeconds)%Z -> calls t r rcs t' r' ->
  (t / 1000 / windowSeconds <= window)%Z -> counts t r n ->
  forall i rc, rcs !! i = Some rc ->
    count_ rc = (n + 1 + Z.of_nat i)%Z /\ allowed rc = (n + 1 + Z.of_nat i <=? limit)%Z.
Proof.
  intros Hw C. revert n. induction C as [|t r now1 now2 r1 rc r2 rcs t' r' Ht Ewin Hoth Hok Hrc C IH];
    intros n Hle Hn i rc0; [done|].
  assert (Eb : bucket_of key windowSeconds now1 = bucket) by (unfold bucket_of, bucket; by rewrite Ewin).
  rewrite Eb in *. unfold rateCheck in Hrc. rewrite Eb in Hrc.
  destruct (incr_expire_nx bucket windowSeconds now1 r1) as [reply r3] eqn:Ei.
  destruct Hok as [c Hok]. cbn [fst] in Hok. subst reply.
  injection Hrc as <- <-. destruct (incr_law _ _ _ _ _ _ Ei) as [Ec Hv].
  pose proof (window_end now1 Hw Ewin) as We.
  assert (En : visible r1 now1 bucket = visible r now1 bucket) by (apply Hoth; lia).
  rewrite En in Ec, Hv.
  assert (Ecn : c = (n + 1)%Z /\ counts now1 r3 (n + 1)).
  { unfold counts in *. rewrite Hv, String.eqb_refl by lia. cbv zeta.
    destruct (visible r t bucket) as [[v d]|] eqn:Er.
    - destruct Hn as [-> Hd]. rewrite (visible_expires _ _ _ _ _ _ Er Ht) in *.
      replace (now1 <? d)%Z with true in * by (symmetry; apply Z.ltb_lt; lia). 
      split; [lia|]. replace (now1 <? d)%Z with true by (symmetry; apply Z.ltb_lt; lia). lia.
    - rewrite (visible_none _ _ _ _ Er Ht) in *. subst n. split; [lia|].
      replace (now1 <? now1 + 1000 * windowSeconds)%Z with true by (symmetry; apply Z.ltb_lt; lia). lia. }
  destruct Ecn as [-> Hc]. destruct i as [|i]; cbn.
  - intros [= <-]. cbn. split; [lia|]. f_equal. lia.
  - intros Hi. destruct (IH (n + 1)%Z ltac:(lia) Hc i rc0 Hi) as [E1 E2]. rewrite E1, E2.
    split; [lia|]. f_equal. lia.
Qed.
End Window.

(** C22: within one window a key is let through exactly for its first [limit] calls:
    the i-th call (from 0) that Redis answers is allowed iff [i < limit], whatever
    other keys do in between, because the counter cannot expire before the window
    ends.  A call Redis gives no count for, by a null reply or an error of INCR, is let
    through. *)
Theorem rateCheck_window `{Redis R} key limit windowSeconds window t r rcs t' r' :
  (0 < windowSeconds)%Z ->
  calls key limit windowSeconds window t r rcs t' r' ->
  (t / 1000 / windowSeconds <= window)%Z ->
  visible r t ("syrotp:rl:" ++ key ++ ":" ++ num_to_string window) = None ->
  (forall i rc, rcs !! i = Some rc -> allowed rc = (Z.of_nat i <? limit)%Z) /\
  (Z.of_nat (List.length (List.filter allowed rcs)) <= Z.max 0 limit)%Z /\
  (forall now1 now2 (r1 : R), (0 <= limit)%Z ->
     (forall n, fst (incr_expire_nx (bucket_of key windowSeconds now1) windowSeconds now1 r1) <> IncrCount n) ->
     allowed (fst (rateCheck key limit windowSeconds now1 now2 r1)) = true).
Proof.
  intros Hw C Hle Hnone.
  assert (F : forall now1 now2 (r1 : R), (0 <= limit)%Z ->
     (forall n, fst (incr_expire_nx (bucket_of key windowSeconds now1) windowSeconds now1 r1) <> IncrCount n) ->
     allowed (fst (rateCheck key limit windowSeconds now1 now2 r1)) = true).
  { intros now1 now2 r1 Hl Hn. unfold rateCheck. destruct (incr_expire_nx _ _ _ _) as [[| |n] r2]; cbn; [done|by apply Z.leb_le|].
      by destruct (Hn n). }
  assert (Ha : forall i rc, rcs !! i = Some rc -> allowed rc = (Z.of_nat i <? limit)%Z).
  { intros i rc Hi. assert (Hc : counts key windowSeconds window t r 0) by (unfold counts; by rewrite Hnone).
    destruct (calls_count key limit windowSeconds window 0 t r rcs t' r' Hw C Hle Hc i rc Hi) as [_ ->].
    apply eq_true_iff_eq. rewrite Z.leb_le, Z.ltb_lt. lia. }
  split; [exact Ha|]. split; [|exact F]. clear C Hnone F.
  assert (G : forall (l : list RateCheck) k, (forall i rc, l !! i = Some rc -> allowed rc = (Z.of_nat (k + i) <? limit)%Z) ->
     (Z.of_nat (List.length (List.filter allowed l)) <= Z.max 0 (limit - Z.of_nat k))%Z).
  { induction l as [|x l IH]; intros k Hl; cbn; [lia|].
    assert (IHk := IH (S k)). specialize (IHk ltac:(intros i rc Hi; rewrite (Hl (S i) rc Hi); do 2 f_equal; lia)).
    specialize (Hl 0%nat x eq_refl). rewrite Nat.add_0_r in Hl. rewrite Hl.
    destruct (Z.of_nat k <? limit)%Z eqn:E; cbn; reflect_eqb; lia. }
  specialize (G rcs 0%nat Ha). lia.
Qed.

(** ** A store with these laws *)

#[warnings="-notation-for-abbreviation"]
Notation Store := (gmap string (Z * Z)).

Definition store_visible (r : Store) (t : Z) (k : string) : option (Z * Z) :=
  match r !! k with
  | Some (v, d) => if (t <? d)%Z then Some (v, d) else None
  | None => None
  end.

Definition store_incr (k : string) (s t : Z) (r : Store) : ExecReply * Store :=
  let '(v, d) := match store_visible r t k with
                 | Some (v, d) => (v, d) | None => (0, t + 1000 * s)%Z end in
  (IncrCount (1 + v)%Z, <[k := ((1 + v)%Z, d)]> r).

Definition store_set (k : string) (s t : Z) (r : Store) : bool * Store :=
  match store_visible r t k with
  | Some _ => (false, r)
  | None => (true, <[k := (1, t + 1000 * s)%Z]> r)
  end.

Lemma store_visible_insert r k x t' k' :
  store_visible (<[k := x]> r) t' k'
  = if String.eqb k' k then (if (t' <? snd x)%Z then Some x else None) else store_visible r t' k'.
Proof.
  unfold store_visible. destruct (String.eqb_spec k' k) as [->|Hn].
  - rewrite lookup_insert_eq. destruct x as [v d]. done.
  - by rewrite lookup_insert_ne by done.
Qed.

#[export] Program Instance store_redis : Redis Store | 100 :=
  {| visible := store_visible; incr_expire_nx := store_incr; set_nx_ex := store_set |}.
Next Obligation.
  intros k s t r n r'. unfold store_incr. destruct (store_visible r t k) as [[v d]|] eqn:E; intros [= <- <-];
    (split; [done|]); intros t' k' _; rewrite store_visible_insert; done.
Qed.
Next Obligation.
  intros k s t r b r'. unfold store_set. destruct (store_visible r t k) as [x|] eqn:E; intros [= <- <-];
    (split; [done|]); intros t' k' _; cbn [andb]; [done|].
  rewrite store_visible_insert. done.
Qed.
Next Obligation.
  intros r t t' k v d. unfold store_visible. destruct (r !! k) as [[v' d']|]; [|done].
  destruct (t <? d')%Z; [|done]. by intros [= -> ->].
Qed.
Next Obligation.
  intros r t k v d. unfold store_visible. destruct (r !! k) as [[v' d']|]; [|done].
  destruct (t <? d')%Z eqn:E; [|done]. intros [= -> ->]. by apply Z.ltb_lt.
Qed.
Next Obligation.
  intros r t t' k. unfold store_visible. destruct (r !! k) as [[v' d']|]; [|done].
  destruct (t <? d')%Z eqn:E; [done|]. intros _ Ht. apply Z.ltb_ge in E.
  by replace (t' <? d')%Z with false by (symmetry; apply Z.ltb_ge; lia).
Qed.

Lemma rateCheck_window_witness :
  let c1 := rateCheck "start:ip:1.2.3.4" 1 60 61000 61000 (∅ : Store) in
  let c2 := rateCheck "start:ip:1.2.3.4" 1 60 62000 62000 (snd c1) in
  allowed (fst c1) = true /\ allowed (fst c2) = false.
Proof.
  intros c1 c2.
  destruct (rateCheck_window "start:ip:1.2.3.4" 1 60 1 61000 (∅ : Store) [fst c1; fst c2] 62000 (snd c2))
    as [H _].
  - lia.
  - apply (calls_cons _ _ _ _ 61000 ∅ 61000 61000 ∅ (fst c1) (snd c1)); [lia|reflexivity|done|by eexists|apply surjective_pairing|].
    apply (calls_cons _ _ _ _ 61000 (snd c1) 62000 62000 (snd c1) (fst c2) (snd c2));
      [lia|reflexivity|done|by eexists|apply surjective_pairing|].
    constructor.
  - reflexivity.
  - reflexivity.
  - split; [exact (H 0%nat (fst c1) eq_refl) | exact (H 1%nat (fst c2) eq_refl)].
Defined.
