(* ===== verification/Hmac.v ===== *)
(** * Gateway signatures: [services/hmac.ts]

    [verifyGatewayHmac] checks, in order, the header formats, the timestamp, the
    receiver, its signing key, the signature and the one-time nonce.  SHA-256,
    HMAC, AES-GCM and Redis enter as classes. *)

From S2P Require Import Prelude JsString Json Errors JsNumber Crypto Aead Config Schema RateLimit.
From Stdlib Require Import String Ascii.

Open Scope string_scope.

Record VerifyHmacInput : Type := {
  h_receiverId : string; h_timestampHeader : string; h_nonceHeader : string;
  h_signatureHeader : string; h_rawBody : string;
}.

Record GatewayReceiver : Type := { gr_id : string; gr_appId : string; gr_msisdn : string }.

Inductive VerifyHmacResult : Type :=
  | HmacOk (receiver : GatewayReceiver)
  | HmacRefused (reason : string).

Definition receiver_aad (receiverId : string) : string := "receiver:" ++ receiverId.

Definition signed_payload `{Digest} (ts : Z) (input : VerifyHmacInput) : string :=
  num_to_string ts ++ "." ++ h_nonceHeader input ++ "." ++ sha256Hex (h_rawBody input).

Definition nonce_key (input : VerifyHmacInput) : string :=
  "syrotp:nonce:" ++ h_receiverId input ++ ":" ++ h_nonceHeader input.

(** [now] is the reading of [Date.now()], [setAt] the time the SET reaches Redis. *)
Definition verifyGatewayHmac `{Digest} `{Gcm} `{Redis R} `{Limit1} (cfg : Config) (now setAt : Z)
    (D : DB) (input : VerifyHmacInput) (r : R) : VerifyHmacResult * R :=
  if negb (matches_prefixed "rcv_" is_alnum (h_receiverId input)) then (HmacRefused "bad_receiver_id", r)
  else if negb (matches_class is_hex 32 128 (h_nonceHeader input)) then (HmacRefused "bad_nonce", r)
  else if negb (matches_class is_hex 64 64 (h_signatureHeader input)) then (HmacRefused "bad_signature_format", r)
  else
    match parseInt10 (h_timestampHeader input) with
    | None => (HmacRefused "bad_timestamp", r)
    | Some ts =>
        let nowSec := (now / 1000)%Z in
        if (INBOUND_TIMESTAMP_SKEW_SECONDS cfg <? Z.abs (nowSec - ts))%Z then (HmacRefused "timestamp_skew", r)
        else
          match limit1 (select (fun rc => String.eqb (r_id rc) (h_receiverId input)) (receivers D)) with
          | None => (HmacRefused "unknown_receiver", r)
          | Some receiver =>
              if negb (r_enabled receiver) then (HmacRefused "unknown_receiver", r)
              else
                match unwrap (MASTER_ENCRYPTION_KEY cfg) (r_secretHash receiver)
                        (Some (receiver_aad (r_id receiver))) with
                | Throw _ => (HmacRefused "key_unavailable", r)
                | Return signingKey =>
                    let expected := hmacSha256Hex signingKey (signed_payload ts input) in
                    match safeEqual expected (h_signatureHeader input) with
                    | Return true =>
                        let '(set, r') := set_nx_ex (nonce_key input) (INBOUND_TIMESTAMP_SKEW_SECONDS cfg) setAt r in
                        if negb set then (HmacRefused "replay", r')
                        else (HmacOk {| gr_id := r_id receiver; gr_appId := r_appId receiver;
                                        gr_msisdn := r_msisdn receiver |}, r')
                    | _ => (HmacRefused "bad_signature", r)
                    end
                end
          end
    end.

Definition wrapGatewaySigningKey `{Gcm} (cfg : Config) (iv rawKey receiverId : string) : outcome exn string :=
  wrap iv (MASTER_ENCRYPTION_KEY cfg) rawKey (Some (receiver_aad receiverId)).

(** ** The conditions of acceptance *)

Section Accept.
Context `{Digest} `{Gcm} `{Redis R} `{Limit1} (cfg : Config).

(** Everything but the nonce: well-formed headers, a fresh timestamp, an enabled
    receiver whose key opens, and the right signature. *)
Definition authentic (now : Z) (D : DB) (input : VerifyHmacInput) (rc : Receiver) : Prop :=
  exists ts signingKey,
    matches_prefixed "rcv_" is_alnum (h_receiverId input) = true /\
    matches_class is_hex 32 128 (h_nonceHeader input) = true /\
    matches_class is_hex 64 64 (h_signatureHeader input) = true /\
    parseInt10 (h_timestampHeader input) = Some ts /\
    (Z.abs (now / 1000 - ts) <= INBOUND_TIMESTAMP_SKEW_SECONDS cfg)%Z /\
    limit1 (select (fun rc => String.eqb (r_id rc) (h_receiverId input)) (receivers D)) = Some rc /\
    r_enabled rc = true /\
    unwrap (MASTER_ENCRYPTION_KEY cfg) (r_secretHash rc) (Some (receiver_aad (r_id rc))) = Return signingKey /\
    hmacSha256Hex signingKey (signed_payload ts input) = h_signatureHeader input.

Definition public_view (rc : Receiver) : GatewayReceiver :=
  {| gr_id := r_id rc; gr_appId := r_appId rc; gr_msisdn := r_msisdn rc |}.

Lemma verify_authentic now setAt D input r rc :
  authentic now D input rc ->
  verifyGatewayHmac cfg now setAt D input r
  = let '(set, r') := set_nx_ex (nonce_key input) (INBOUND_TIMESTAMP_SKEW_SECONDS cfg) setAt r in
    if negb set then (HmacRefused "replay", r') else (HmacOk (public_view rc), r').
Proof.
  intros (ts & sk & E1 & E2 & E3 & E4 & E5 & E6 & E7 & E8 & E9). unfold verifyGatewayHmac.
  rewrite E1, E2, E3, E4, E6, E7, E8. cbn [negb].
  replace (_ <? _)%Z with false by (symmetry; apply Z.ltb_ge; lia).
  by rewrite safeEqual_eq, E9, String.eqb_refl.
Qed.

Lemma verify_not_authentic now setAt D input r :
  (exists rc, authentic now D input rc) \/
  exists reason, verifyGatewayHmac cfg now setAt D input r = (HmacRefused reason, r).
Proof.
  unfold verifyGatewayHmac.
  destruct (matches_prefixed "rcv_" is_alnum (h_receiverId input)) eqn:E1; cbn [negb]; [|eauto].
  destruct (matches_class is_hex 32 128 _) eqn:E2; cbn [negb]; [|eauto].
  destruct (matches_class is_hex 64 64 _) eqn:E3; cbn [negb]; [|eauto].
  destruct (parseInt10 _) as [ts|] eqn:E4; [|eauto].
  destruct (_ <? _)%Z eqn:E5; [eauto|]. apply Z.ltb_ge in E5.
  destruct (limit1 _) as [rc|] eqn:E6; [|eauto].
  destruct (r_enabled rc) eqn:E7; cbn [negb]; [|eauto].
  destruct (unwrap _ _ _) as [sk|e] eqn:E8; [|eauto].
  rewrite safeEqual_eq. destruct (String.eqb_spec (hmacSha256Hex sk (signed_payload ts input)) (h_signatureHeader input))
    as [E9|]; [|eauto].
  left. exists rc, ts, sk. done.
Qed.
End Accept.

(** C8: a gateway request is accepted exactly when it is authentic (formats, timestamp
    within the skew, enabled receiver, signature by the key that opens under the
    receiver's id) and its nonce is not alive in Redis; acceptance makes the nonce
    alive for the skew, and a refusal leaves every live key as it was. *)
Theorem verifyGatewayHmac_spec `{Digest} `{Gcm} `{Redis R} `{Limit1} cfg now setAt D input r :
  match verifyGatewayHmac cfg now setAt D input r with
  | (HmacOk g, r') =>
      exists rc, authentic cfg now D input rc /\ g = public_view rc /\ In rc (receivers D) /\
        r_id rc = h_receiverId input /\ visible r setAt (nonce_key input) = None /\
        forall t, (setAt <= t < setAt + 1000 * INBOUND_TIMESTAMP_SKEW_SECONDS cfg)%Z ->
                  visible r' t (nonce_key input) <> None
  | (HmacRefused _, r') =>
      (forall t k, (setAt <= t)%Z -> visible r' t k = visible r t k) /\
      forall rc, authentic cfg now D input rc -> visible r setAt (nonce_key input) <> None
  end.
Proof.
  destruct (verify_not_authentic cfg now setAt D input r) as [[rc Ha]|[reason E]].
  - rewrite (verify_authentic cfg now setAt D input r rc Ha).
    destruct (set_nx_ex _ _ _ r) as [b r'] eqn:Es. destruct (set_law _ _ _ _ _ _ Es) as [Eb Hv].
    destruct b; cbn [negb].
    + exists rc. split; [done|]. split; [done|].
      destruct Ha as (ts & sk & _ & _ & _ & _ & _ & El & _). apply limit1_In, select_In in El.
      destruct El as [Hin Hid]. apply String.eqb_eq in Hid. split; [done|]. split; [done|]. split.
      * by destruct (visible r setAt (nonce_key input)).
      * intros t Ht. rewrite Hv by lia. rewrite String.eqb_refl. cbn [andb].
        by replace (t <? _)%Z with true by (symmetry; apply Z.ltb_lt; lia).
    + split; [intros t k Ht; by rewrite Hv|]. intros _ _.
      by destruct (visible r setAt (nonce_key input)).
  - rewrite E. split; [done|]. intros rc Ha. rewrite (verify_authentic cfg now setAt D input r rc Ha) in E.
    destruct (set_nx_ex _ _ _ r) as [b r'] eqn:Es. destruct (set_law _ _ _ _ _ _ Es) as [Eb _].
    destruct b; cbn [negb] in E; [discriminate|]. by destruct (visible r setAt (nonce_key input)).
Qed.

(** C9: an accepted request cannot be accepted again while its nonce lives: for the
    skew after acceptance every request of that receiver with that nonce is
    refused, whatever its body, timestamp or signature and whatever Redis stored
    for other keys. *)
Theorem accepted_nonce_not_reused `{Digest} `{Gcm} `{Redis R} `{Limit1} cfg now setAt D input r g r1
    now2 setAt2 D2 input2 r2 :
  verifyGatewayHmac cfg now setAt D input r = (HmacOk g, r1) ->
  nonce_key input2 = nonce_key input ->
  (setAt <= setAt2 < setAt + 1000 * INBOUND_TIMESTAMP_SKEW_SECONDS cfg)%Z ->
  visible r2 setAt2 (nonce_key input) = visible r1 setAt2 (nonce_key input) ->
  exists reason r3, verifyGatewayHmac cfg now2 setAt2 D2 input2 r2 = (HmacRefused reason, r3).
Proof.
  intros Hok Hk Ht Hvis.
  assert (Hlive : visible r1 setAt2 (nonce_key input) <> None).
  { destruct (verify_not_authentic cfg now setAt D input r) as [[rc Ha]|[reason E]]; [|congruence].
    rewrite (verify_authentic cfg now setAt D input r rc Ha) in Hok.
    destruct (set_nx_ex _ _ _ r) as [b r'] eqn:Es. destruct (set_law _ _ _ _ _ _ Es) as [_ Hv].
    destruct b; cbn [negb] in Hok; [|discriminate]. injection Hok as _ <-.
    rewrite Hv, String.eqb_refl by lia. cbn [andb].
    by replace (setAt2 <? _)%Z with true by (symmetry; apply Z.ltb_lt; lia). }
  destruct (verify_not_authentic cfg now2 setAt2 D2 input2 r2) as [[rc Ha]|[reason E]]; [|by eauto].
  rewrite (verify_authentic cfg now2 setAt2 D2 input2 r2 rc Ha), Hk.
  destruct (set_nx_ex _ _ _ r2) as [b r3] eqn:Es. destruct (set_law _ _ _ _ _ _ Es) as [-> _].
  rewrite Hvis. destruct (visible r1 setAt2 (nonce_key input)); [|done]. cbn [negb]. by eauto.
Qed.

(** The nonce is remembered for one skew but a timestamp is good for up to two: an
    accepted request whose timestamp lies far enough in the future is accepted a
    second time, unchanged, once its nonce has expired. *)
Theorem replay_after_nonce_expiry `{Digest} `{Gcm} `{Redis R} `{Limit1} cfg now setAt D input r g r1
    ts now2 setAt2 :
  verifyGatewayHmac cfg now setAt D input r = (HmacOk g, r1) ->
  parseInt10 (h_timestampHeader input) = Some ts ->
  (setAt + 1000 * INBOUND_TIMESTAMP_SKEW_SECONDS cfg <= setAt2)%Z -> (setAt <= setAt2)%Z ->
  (Z.abs (now2 / 1000 - ts) <= INBOUND_TIMESTAMP_SKEW_SECONDS cfg)%Z ->
  exists r2, verifyGatewayHmac cfg now2 setAt2 D input r1 = (HmacOk g, r2).
Proof.
  intros Hok Hts Hexp Hle Hskew.
  destruct (verify_not_authentic cfg now setAt D input r) as [[rc Ha]|[reason E]]; [|congruence].
  rewrite (verify_authentic cfg now setAt D input r rc Ha) in Hok.
  destruct (set_nx_ex _ _ _ r) as [b r'] eqn:Es. destruct (set_law _ _ _ _ _ _ Es) as [_ Hv].
  destruct b; cbn [negb] in Hok; [|discriminate]. injection Hok as <- <-.
  assert (Ha2 : authentic cfg now2 D input rc).
  { destruct Ha as (ts' & sk & E1 & E2 & E3 & E4 & _ & E6). exists ts', sk.
    rewrite Hts in E4. injection E4 as <-. tauto. }
  rewrite (verify_authentic cfg now2 setAt2 D input r' rc Ha2).
  destruct (set_nx_ex _ _ _ r') as [b r2] eqn:Es2. destruct (set_law _ _ _ _ _ _ Es2) as [-> _].
  rewrite Hv, String.eqb_refl by lia. cbn [andb].
  replace (setAt2 <? _)%Z with false by (symmetry; apply Z.ltb_ge; lia). cbn [negb]. by eauto.
Qed.

(** ** Witnesses *)

Definition constant_digest : Digest :=
  {| sha256Hex _ := repeat_char "0"%char 64; hmacSha256Hex _ _ := repeat_char "a"%char 64 |}.

Definition gateway_receiver : Receiver :=
  mkReceiver "rcv_1" "app_1" "main" None "+963900000001"
    (match wrapGatewaySigningKey (H := plain_gcm) default_config "abcdefghijkl" "gw" "rcv_1" with
     | Return w => w | Throw _ => "" end) true None 0.

Definition gateway_db : DB := set_rows t_receivers [gateway_receiver] empty_db.

(** A request signed 200 seconds ahead of the server's clock. *)
Definition ahead_request : VerifyHmacInput :=
  {| h_receiverId := "rcv_1"; h_timestampHeader := "1200"; h_nonceHeader := repeat_char "b"%char 32;
     h_signatureHeader := repeat_char "a"%char 64; h_rawBody := "{}" |}.

Definition verify_at (t : Z) (r : Store) : VerifyHmacResult * Store :=
  verifyGatewayHmac (H := constant_digest) (H0 := plain_gcm) default_config t t gateway_db ahead_request r.

Lemma first_accepted : match verify_at 1000000 ∅ with (HmacOk _, _) => True | _ => False end.
Proof. vm_compute. exact I. Qed.

Lemma ahead_timestamp : parseInt10 (h_timestampHeader ahead_request) = Some 1200%Z.
Proof. vm_compute. reflexivity. Qed.

Lemma skew_default : INBOUND_TIMESTAMP_SKEW_SECONDS default_config = 300%Z.
Proof. reflexivity. Qed.

Lemma accepted_nonce_not_reused_witness :
  exists g, fst (verify_at 1000000 ∅) = HmacOk g /\
  exists reason r3, verify_at 1001000 (snd (verify_at 1000000 ∅)) = (HmacRefused reason, r3).
Proof.
  pose proof first_accepted as F.
  destruct (verify_at 1000000 ∅) as [[g|reason] r1] eqn:E; [|destruct F].
  exists g. split; [reflexivity|]. unfold verify_at in *. cbn [snd].
  eapply accepted_nonce_not_reused; [exact E|reflexivity|rewrite skew_default; lia|reflexivity].
Defined.

Lemma replay_after_nonce_expiry_witness :
  exists g r2, fst (verify_at 1000000 ∅) = HmacOk g /\
    verify_at 1300000 (snd (verify_at 1000000 ∅)) = (HmacOk g, r2).
Proof.
  pose proof first_accepted as F.
  destruct (verify_at 1000000 ∅) as [[g|reason] r1] eqn:E; [|destruct F].
  exists g. unfold verify_at in *. cbn [snd fst].
  destruct (replay_after_nonce_expiry (H := constant_digest) (H0 := plain_gcm) default_config 1000000 1000000
    gateway_db ahead_request ∅ g r1 1200 1300000 1300000 E ahead_timestamp) as [r2 E2].
  - rewrite skew_default. lia.
  - lia.
  - rewrite skew_default. vm_compute. discriminate.
  - exists r2. split; [reflexivity|exact E2].
Defined.
