(* ===== verification/Server.v ===== *)
(** * One server process: requests, replies, Redis, audit trail

    The state the route handlers share, the guards they have in common
    ([services/rateLimit.ts] as the routes use it, [services/audit.ts]), and the
    body schemas of the routes as checks on parsed JSON.  Strings of a request are
    sequences of code units; [Date.now()] is read through [clock], whose argument
    numbers the readings of one request. *)

From S2P Require Import Prelude JsString Json Errors Crypto Config Schema RateLimit.
From Stdlib Require Import String Ascii.

Open Scope string_scope.
Open Scope js_scope.

Record Request : Type := {
  rq_headers : list (string * string);     (** names in lower case *)
  rq_ip : string;                          (** [req.ip], resolved by the framework *)
  rq_id : string;
  rq_rawBody : option string;
  rq_body : json;                          (** the parsed body, [JNull] when absent *)
  rq_param_id : string;                    (** [req.params.id] *)
}.

(** [req.headers[n]]; an empty header is as falsy as a missing one. *)
Fixpoint header_in (n : string) (hs : list (string * string)) : option string :=
  match hs with
  | [] => None
  | (k, v) :: hs' => if String.eqb n k then Some v else header_in n hs'
  end.
Definition header (req : Request) (n : string) : option string := header_in n (rq_headers req).
Definition truthy_header (req : Request) (n : string) : option string :=
  match header req n with Some v => if nonempty v then Some v else None | None => None end.

(** The draws of one request: a ULID per prefix, and the clock. *)
Record Draws : Type := { ulid : string -> string; clock : nat -> Z; db_now : Z }.

(** [touches] are the un-awaited [last_used_at] updates not yet run. *)
Record Server (R : Type) : Type := mkServer { sw : World; sr : R; touches : list string }.
Arguments mkServer {R}.
Arguments sw {R}.
Arguments sr {R}.
Arguments touches {R}.

#[warnings="-notation-for-abbreviation"]
Notation RM R := (M exn (Server R)).

Section Lifts.
Context {R : Type}.

Definition on_world {A} (m : SM A) : RM R A :=
  fun s => let '(o, w) := m (sw s) in (o, mkServer w (sr s) (touches s)).
Definition on_redis {A} (f : R -> A * R) : RM R A :=
  fun s => let '(a, r) := f (sr s) in (Return a, mkServer (sw s) r (touches s)).
Definition touch (keyId : string) : RM R unit :=
  modify (fun s => mkServer (sw s) (sr s) (touches s ++ [keyId])).
Definition lift_outcome {A} (o : outcome exn A) : RM R A := fun s => (o, s).
End Lifts.

(** ** Rate limits as the routes use them *)

Definition rate_guard `{Redis R} (key : string) (limit t1 t2 : Z) (bucket : string) : RM R unit :=
  let! rl := on_redis (rateCheck key limit 60 t1 t2) in
  if negb (allowed rl) then
    do! on_world (count (rateLimitedBucket bucket)) in
    throw (rateLimited (resetSeconds rl))
  else ret tt.

(** ** [services/audit.ts] *)

Record AuditEntry : Type := {
  ae_appId : option string; ae_actor : option string; ae_action : string;
  ae_resourceType : option string; ae_resourceId : option string; ae_ip : option string;
  ae_userAgent : option string; ae_requestId : option string;
  ae_meta : option (list (string * json));
}.

Definition audit_row (id : string) (dbNow : Z) (entry : AuditEntry) : AuditLog :=
  mkAuditLog id dbNow (ae_appId entry) (ae_actor entry) (ae_action entry) (ae_resourceType entry)
    (ae_resourceId entry) (ae_ip entry) ((fun u => slice_to u 256) <$> ae_userAgent entry)
    (ae_requestId entry) ((fun m => stringify (JObj m)) <$> ae_meta entry).

Definition audit (d : Draws) (entry : AuditEntry) : SM unit :=
  try_catch (insert t_auditLog auditLog_idx (audit_row (newId "aud" (ulid d "aud")) (db_now d) entry))
    (fun _ => ret tt).

(** ** Body schemas *)

(** The report of a failed [safeParse], by schema and value. *)
Class Zod : Type := { zod_issues : string -> json -> json; zod_datetime : string -> option Z }.

Definition z_str (j : option json) : option string :=
  match j with Some (JStr s) => Some s | _ => None end.

Definition z_string (lo hi : nat) (j : option json) : option string :=
  match j with
  | Some (JStr s) => if (lo <=? slen s)%nat && (slen s <=? hi)%nat then Some s else None
  | _ => None
  end.

(** [.optional()]: a missing field is fine, a present one must pass. *)
Definition z_optional {A} (check : option json -> option A) (j : option json) : option (option A) :=
  match j with None => Some None | Some _ => Some <$> check j end.

Definition z_int (lo : option Z) (hi : option Z) (j : option json) : option Z :=
  match j with
  | Some (JNum n) =>
      if match lo with Some l => (l <=? n)%Z | None => true end
         && match hi with Some h => (n <=? h)%Z | None => true end
      then Some n else None
  | _ => None
  end.

Definition z_matching (p : string -> bool) (check : option string) : option string :=
  match check with Some s => if p s then Some s else None | None => None end.

(** [z.string().datetime()] *)
Definition z_datetime `{Zod} (j : option json) : option Z :=
  match j with Some (JStr s) => zod_datetime s | _ => None end.

Definition z_is_object (j : json) : bool := match j with JObj _ => true | _ => false end.

(** [<prefix>_[A-Za-z0-9]+] *)
Definition prefixed_id (prefix s : string) : bool := matches_prefixed (prefix ++ "_") is_alnum s.

(** ** Running a handler *)

(** What the client receives: the handler's reply, or the error handler's. *)
Definition respond {R} (requestId : string) (m : RM R Reply) (s : Server R) : Reply * Server R :=
  match m s with
  | (Return r, s') => (r, s')
  | (Throw e, s') => (handleError requestId e, s')
  end.

Definition json_reply (status : Z) (body : json) : Reply := mkReply status [] body.

(** ** Invariants of runs *)

(** [m] relates every state it starts in to the one it leaves, however it ends. *)
Definition moves {W A} (I : W -> W -> Prop) (m : M exn W A) : Prop :=
  forall w o w', m w = (o, w') -> I w w'.

Section Moves.
Context {W : Type} (I : W -> W -> Prop) `{!PreOrder I}.

Lemma moves_ret {A} (a : A) : moves I (ret a).
Proof. intros w o w' [= <- <-]. reflexivity. Qed.

Lemma moves_throw {A} (e : exn) : moves (A := A) I (throw e).
Proof. intros w o w' [= <- <-]. reflexivity. Qed.

Lemma moves_throw_if b (e : exn) : moves I (throw_if b e).
Proof. destruct b; [apply moves_throw|apply moves_ret]. Qed.

Lemma moves_gets {A} (f : W -> A) : moves I (gets f).
Proof. intros w o w' [= <- <-]. reflexivity. Qed.

Lemma moves_bind {A B} (m : M exn W A) (k : A -> M exn W B) :
  moves I m -> (forall a, moves I (k a)) -> moves I (bind m k).
Proof.
  intros Hm Hk w o w' E. unfold bind in E. destruct (m w) as [[a|e] w1] eqn:E1.
  - etrans; [by eapply Hm|by eapply Hk].
  - injection E as <- <-. by eapply Hm.
Qed.

Lemma moves_try {A} (m : M exn W A) h :
  moves I m -> (forall e, moves I (h e)) -> moves I (try_catch m h).
Proof.
  intros Hm Hh w o w' E. unfold try_catch in E. destruct (m w) as [[a|e] w1] eqn:E1.
  - injection E as <- <-. by eapply Hm.
  - etrans; [by eapply Hm|by eapply Hh].
Qed.

Lemma moves_weaken {A} (J : W -> W -> Prop) (m : M exn W A) :
  (forall w w', J w w' -> I w w') -> moves J m -> moves I m.
Proof. intros H Hm w o w' E. by eapply H, Hm. Qed.
End Moves.

(** A relation on databases, along the database a server holds. *)
Definition over_db {R} (I : DB -> DB -> Prop) (s s' : Server R) : Prop := I (db (sw s)) (db (sw s')).
Definition world_db (I : DB -> DB -> Prop) (w w' : World) : Prop := I (db w) (db w').

#[export] Instance over_db_preorder {R} I `{!PreOrder I} : PreOrder (@over_db R I).
Proof. split; [intros s|intros a b c]; unfold over_db; [reflexivity|apply transitivity]. Qed.
#[export] Instance world_db_preorder I `{!PreOrder I} : PreOrder (world_db I).
Proof. split; [intros s|intros a b c]; unfold world_db; [reflexivity|apply transitivity]. Qed.

Section OverDb.
Context {R : Type} (I : DB -> DB -> Prop) `{!PreOrder I}.

Lemma moves_on_world {A} (m : SM A) : moves (world_db I) m -> moves (@over_db R I) (on_world m).
Proof.
  intros Hm s o s' E. unfold on_world in E. destruct (m (sw s)) as [o' w] eqn:E1.
  injection E as <- <-. exact (Hm _ _ _ E1).
Qed.

Lemma moves_on_redis {A} (f : R -> A * R) : moves (@over_db R I) (on_redis f).
Proof.
  intros s o s' E. unfold on_redis in E. destruct (f (sr s)). injection E as <- <-.
  change (I (db (sw s)) (db (sw s))). reflexivity.
Qed.

Lemma moves_touch k : moves (@over_db R I) (touch k).
Proof. intros s o s' [= <- <-]. change (I (db (sw s)) (db (sw s))). reflexivity. Qed.

Lemma moves_lift_outcome {A} (o : outcome exn A) : moves (@over_db R I) (lift_outcome o).
Proof. intros s o' s' [= <- <-]. reflexivity. Qed.

Lemma moves_count m : moves (world_db I) (count m).
Proof. intros w o w' [= <- <-]. change (I (db w) (db w)). reflexivity. Qed.

Lemma moves_spawn id : moves (world_db I) (spawn id).
Proof. intros w o w' [= <- <-]. change (I (db w) (db w)). reflexivity. Qed.

Lemma moves_rate_guard `{Redis R} key limit t1 t2 bucket :
  moves (@over_db R I) (rate_guard key limit t1 t2 bucket).
Proof.
  unfold rate_guard. apply moves_bind; [exact _|apply moves_on_redis|]. intros rl.
  destruct (negb _); [|apply moves_ret; exact _]. apply moves_bind; [exact _| |].
  - apply moves_on_world, moves_count.
  - intros _. apply moves_throw, _.
Qed.
End OverDb.

(** A statement moves a table in the ways [I] allows. *)
Section Statements.
Context (I : DB -> DB -> Prop) `{!PreOrder I}.

Lemma moves_insert {A} (T : Table A) idx r :
  (forall D, broken_by idx r (rows T D) = None -> I D (set_rows T (rows T D ++ [r])%list D)) ->
  moves (world_db I) (insert T idx r).
Proof.
  intros HI w o w' E. rewrite insert_eq in E. destruct (broken_by _ _ _) eqn:Eb; injection E as <- <-.
  - change (I (db w) (db w)). reflexivity.
  - by apply HI.
Qed.

Lemma moves_insert_all {A} (T : Table A) idx rs :
  (forall D t, insert_all_rows idx rs (rows T D) = inr t -> I D (set_rows T t D)) ->
  moves (world_db I) (insert_all T idx rs).
Proof.
  intros HI w o w' E. unfold insert_all in E. destruct (insert_all_rows _ _ _) eqn:E1; injection E as <- <-.
  - change (I (db w) (db w)). reflexivity.
  - by apply HI.
Qed.

Lemma moves_update {A} (T : Table A) p f :
  (forall D, I D (set_rows T (update_where p f (rows T D)) D)) -> moves (world_db I) (update T p f).
Proof. intros HI w o w' [= <- <-]. apply HI. Qed.

Lemma moves_update_checked {A} (T : Table A) idx p f :
  (forall D, I D (set_rows T (update_where p f (rows T D)) D)) ->
  moves (world_db I) (update_checked T idx p f).
Proof.
  intros HI w o w' E. unfold update_checked in E. destruct (List.find _ _); injection E as <- <-.
  - change (I (db w) (db w)). reflexivity.
  - apply HI.
Qed.

Lemma moves_delete {A} (T : Table A) p :
  (forall D, I D (set_rows T (delete_where p (rows T D)) D)) -> moves (world_db I) (delete T p).
Proof. intros HI w o w' [= <- <-]. apply HI. Qed.

Lemma moves_select_from {A} (T : Table A) p : moves (world_db I) (select_from T p).
Proof. apply moves_gets, _. Qed.

Lemma moves_select_one `{Limit1} {A} (T : Table A) p : moves (world_db I) (select_one T p).
Proof. apply moves_gets, _. Qed.

Lemma moves_transaction {A} (m : SM A) : moves (world_db I) m -> moves (world_db I) (transaction m).
Proof.
  intros Hm w o w' E. unfold transaction in E. destruct (m w) as [[a|e] w1] eqn:E1; injection E as <- <-.
  - by eapply Hm.
  - change (I (db w) (db w)). reflexivity.
Qed.
End Statements.

Create HintDb moves discriminated.
#[export] Hint Resolve moves_ret moves_throw moves_throw_if moves_gets moves_bind moves_try
  moves_on_world moves_on_redis moves_touch moves_lift_outcome moves_count moves_spawn
  moves_rate_guard moves_select_from moves_select_one moves_transaction : moves.
#[export] Hint Resolve over_db_preorder world_db_preorder : moves.
#[export] Hint Extern 0 (PreOrder _) => exact _ : moves.

(** Go through a handler, statement by statement. *)
Ltac moves_step :=
  match goal with
  | |- moves _ (bind _ _) => apply moves_bind; [exact _| |intros ?]
  | |- moves _ (match ?x with _ => _ end) => destruct x
  | |- moves _ (if ?x then _ else _) => destruct x
  | |- moves _ (try_catch _ _) => apply moves_try; [exact _| |intros ?]
  | |- moves _ (transaction _) => apply moves_transaction; [exact _|]
  | |- moves _ (on_world _) => apply moves_on_world
  | |- moves _ _ => solve [auto with moves nocore typeclass_instances]
  end.
Ltac moves_run := repeat moves_step.
