(* ===== verification/Auth.v ===== *)
(** * API keys: [services/apiKeys.ts], [plugins/auth.ts], [admin/bootstrap.ts]

    Looking up a bearer key, the [requireKey] guard of the routes, and the
    bootstrap that creates an app with its two keys. *)

From S2P Require Import Prelude JsString Json Errors Crypto Config Schema RateLimit Server.
From Stdlib Require Import String Ascii.

Open Scope string_scope.
Open Scope js_scope.

Record AuthedKey : Type := { ak_id : string; ak_appId : string; ak_kind : apiKeyKind }.

(** The table's own keys.  A name [Object.prototype] has, such as [constructor],
    also gives a truthy value in the source; no row's kind equals it, so the
    lookup ends in [null] there too. *)
Definition PREFIX_TO_KIND (prefix : string) : option apiKeyKind :=
  if String.eqb prefix "pk_live" then Some public
  else if String.eqb prefix "sk_live" then Some secret
  else if String.eqb prefix "gw_live" then Some gateway
  else None.

(** [api_keys INNER JOIN apps ON api_keys.app_id = apps.id] *)
Definition keys_with_app (D : DB) : list (ApiKey * App) :=
  flat_map (fun k => map (pair k) (select (fun a => String.eqb (app_id a) (k_appId k)) (apps D))) (apiKeys D).

Definition key_hash `{Digest} (cfg : Config) (raw : string) : string :=
  hashSecret "api_key" (MASTER_ENCRYPTION_KEY cfg) raw.

Definition lookupApiKey {R} `{Digest} `{Limit1} (cfg : Config) (raw : string) : RM R (option AuthedKey) :=
  if (slen raw <? 16)%nat || (128 <? slen raw)%nat then ret None
  else
    match lastIndexOf "_"%char raw with
    | None => ret None
    | Some lastUnderscore =>
        match PREFIX_TO_KIND (slice_to raw lastUnderscore) with
        | None => ret None
        | Some kind =>
            let! row := gets (fun s => limit1 (select (fun '(k, a) => String.eqb (k_keyHash k) (key_hash cfg raw))
                                                 (keys_with_app (db (sw s))))) in
            match row with
            | None => ret None
            | Some (k, a) =>
                if bool_decide (is_Some (k_revokedAt k)) then ret None
                else if app_disabled a then ret None
                else if negb (kind_eqb (k_kind k) kind) then ret None
                else
                  do! touch (k_id k) in
                  ret (Some {| ak_id := k_id k; ak_appId := k_appId k; ak_kind := k_kind k |})
            end
        end
    end.

(** The un-awaited update, when it runs; its errors are swallowed. *)
Definition run_touch (now : Z) (keyId : string) : SM (list ApiKey) :=
  update t_apiKeys (fun k => String.eqb (k_id k) keyId)
    (fun k => mkApiKey (k_id k) (k_appId k) (k_kind k) (k_keyHash k) (k_keyPrefix k) (k_label k)
                (k_createdAt k) (Some now) (k_revokedAt k)).

Definition extractBearer (req : Request) : option string :=
  match truthy_header req "authorization" with
  | None => None
  | Some h =>
      if negb (startsWith h "Bearer ") then None
      else let tok := trim (slice_from h 7) in
           if (0 <? slen tok)%nat then Some tok else None
  end.

Definition requireKey {R} `{Digest} `{Limit1} (cfg : Config) (req : Request) (allowed : list apiKeyKind)
    : RM R AuthedKey :=
  match extractBearer req with
  | None =>
      do! on_world (count (apiKeyRejected "missing")) in
      throw unauthorized_default
  | Some tok =>
      let! key := lookupApiKey cfg tok in
      match key with
      | None =>
          do! on_world (count (apiKeyRejected "unknown")) in
          throw unauthorized_default
      | Some key =>
          if negb (existsb (kind_eqb (ak_kind key)) allowed) then
            do! on_world (count (apiKeyRejected "wrong_kind")) in
            throw (forbidden "key kind not permitted for this endpoint")
          else ret key
      end
  end.

(** ** [admin/bootstrap.ts] *)

Record BootstrapAppResult : Type := {
  ba_appId : string; ba_appName : string; ba_publicKey : string; ba_secretKey : string;
}.

(** [bytes1], [bytes2] are the random bytes of the two keys. *)
Definition bootstrapApp `{Digest} (cfg : Config) (appUlid keyUlid1 keyUlid2 : string)
    (bytes1 bytes2 : nat -> nat) (dbNow : Z) (name : string) : SM BootstrapAppResult :=
  do! throw_if (slen (trim name) =? 0)%nat (JsError "bootstrapApp: name is required") in
  let trimmed := trim name in
  let appId := newId "app" appUlid in
  do! insert t_apps apps_idx (mkApp appId trimmed dbNow false) in
  let publicKey := generateApiKey bytes1 "pk_live" in
  let secretKey := generateApiKey bytes2 "sk_live" in
  do! insert_all t_apiKeys apiKeys_idx
    [mkApiKey (newId "key" keyUlid1) appId public (key_hash cfg publicKey) (slice_to publicKey 12)
       (Some "default-public") dbNow None None;
     mkApiKey (newId "key" keyUlid2) appId secret (key_hash cfg secretKey) (slice_to secretKey 12)
       (Some "default-secret") dbNow None None] in
  ret {| ba_appId := appId; ba_appName := trimmed; ba_publicKey := publicKey; ba_secretKey := secretKey |}.

(** ** Which keys open the door *)

(** The stored key a raw value stands for: right length, a known prefix that is the
    row's kind, the row's hash, not revoked, and an app that is not disabled. *)
Definition live_key `{Digest} (cfg : Config) (raw : string) (D : DB) (k : ApiKey) : Prop :=
  (16 <= slen raw <= 128)%nat /\
  (exists i, lastIndexOf "_"%char raw = Some i /\ PREFIX_TO_KIND (slice_to raw i) = Some (k_kind k)) /\
  In k (apiKeys D) /\ k_keyHash k = key_hash cfg raw /\ k_revokedAt k = None /\
  exists a, In a (apps D) /\ app_id a = k_appId k /\ app_disabled a = false.

Definition authed (k : ApiKey) : AuthedKey := {| ak_id := k_id k; ak_appId := k_appId k; ak_kind := k_kind k |}.

Lemma kind_eqb_eq a b : kind_eqb a b = true <-> a = b.
Proof. unfold kind_eqb. apply bool_decide_eq_true. Qed.

Lemma keys_with_app_In D k a :
  In (k, a) (keys_with_app D) <-> In k (apiKeys D) /\ In a (apps D) /\ app_id a = k_appId k.
Proof.
  unfold keys_with_app. rewrite in_flat_map. split.
  - intros (k' & Hk & H). apply in_map_iff in H. destruct H as (a' & [= -> ->] & Ha).
    apply select_In in Ha. destruct Ha as [Ha Hid]. by apply String.eqb_eq in Hid.
  - intros (Hk & Ha & Hid). exists k. split; [done|]. apply in_map_iff. exists a. split; [done|].
    apply select_In. split; [done|]. by apply String.eqb_eq.
Qed.

Lemma lookup_spec {R} `{Digest} `{Limit1} cfg raw (s : Server R) :
  (exists k, live_key cfg raw (db (sw s)) k /\
     lookupApiKey cfg raw s = (Return (Some (authed k)), mkServer (sw s) (sr s) (touches s ++ [k_id k]))) \/
  (lookupApiKey cfg raw s = (Return None, s) /\
   (respects apiKeys_idx (apiKeys (db (sw s))) -> respects apps_idx (apps (db (sw s))) ->
    forall k, ~ live_key cfg raw (db (sw s)) k)).
Proof.
  unfold lookupApiKey. destruct (_ || _) eqn:El.
  { right. split; [done|]. intros _ _ k [Hl _]. apply orb_true_iff in El. rewrite !Nat.ltb_lt in El. lia. }
  apply orb_false_iff in El. rewrite !Nat.ltb_ge in El.
  destruct (lastIndexOf _ raw) as [i|] eqn:Ei.
  2: { right. split; [done|]. intros _ _ k (_ & (j & Hj & _) & _). congruence. }
  destruct (PREFIX_TO_KIND _) as [kind|] eqn:Ek.
  2: { right. split; [done|]. intros _ _ k (_ & (j & Hj & Hp) & _).
       rewrite Ei in Hj. injection Hj as <-. congruence. }
  rewrite bind_gets. destruct (limit1 _) as [[k a]|] eqn:Er.
  2: { right. split; [done|]. intros _ _ k (_ & _ & Hin & Hh & _ & a & Ha & Hid & _).
       apply limit1_None in Er. rewrite select_nil_iff in Er.
       assert (Hx := Er (k, a) ltac:(by apply keys_with_app_In)). cbn in Hx.
       by rewrite Hh, String.eqb_refl in Hx. }
  apply limit1_In, select_In in Er. destruct Er as [Hin Hh]. apply keys_with_app_In in Hin.
  destruct Hin as (Hk & Ha & Hid). apply String.eqb_eq in Hh.
  assert (Hsame : respects apiKeys_idx (apiKeys (db (sw s))) -> respects apps_idx (apps (db (sw s))) ->
            forall k', live_key cfg raw (db (sw s)) k' ->
            k' = k /\ k_revokedAt k = None /\ app_disabled a = false /\ k_kind k = kind).
  { intros Hrk Hra k' (_ & (j & Ej & Hp) & Hk' & Hh' & Hrev & a' & Ha' & Hid' & Hdis).
    assert (k' = k) as ->.
    { apply Forall_inv_tail, Forall_inv in Hrk.
      eapply no_conflict_spec; eauto; cbn; rewrite Hh, Hh'; apply String.eqb_refl. }
    split; [done|]. split; [done|]. split; [|congruence].
    replace a with a'; [done|]. eapply (pkey_inj _ app_id); eauto. congruence. }
  assert (Hno : k_revokedAt k <> None \/ app_disabled a = true \/ k_kind k <> kind ->
            respects apiKeys_idx (apiKeys (db (sw s))) -> respects apps_idx (apps (db (sw s))) ->
            forall k', ~ live_key cfg raw (db (sw s)) k').
  { intros Hbad H1 H2 k' Hl. destruct (Hsame H1 H2 k' Hl) as (_ & ? & Hd & ?).
    rewrite Hd in Hbad. destruct Hbad as [|[|]]; congruence. }
  case_bool_decide as Hrev; [right; split; [done|]; apply Hno; left; by destruct Hrev as [? ->]|].
  destruct (app_disabled a) eqn:Hd; [right; split; [done|]; apply Hno; auto|].
  destruct (kind_eqb (k_kind k) kind) eqn:Hkk; cbn [negb].
  2: { right. split; [done|]. apply Hno. right. right. intros E. apply kind_eqb_eq in E. congruence. }
  left. exists k. split; [|reflexivity]. apply kind_eqb_eq in Hkk. subst kind.
  split; [lia|]. split; [eauto|]. split; [done|]. split; [done|]. split.
  - destruct (k_revokedAt k); [|done]. destruct Hrev. eauto.
  - by exists a.
Qed.

Lemma require_live {R} `{Digest} `{Limit1} cfg req allowed tok k (s : Server R) :
  respects apiKeys_idx (apiKeys (db (sw s))) -> respects apps_idx (apps (db (sw s))) ->
  extractBearer req = Some tok -> live_key cfg tok (db (sw s)) k -> In (k_kind k) allowed ->
  requireKey cfg req allowed s = (Return (authed k), mkServer (sw s) (sr s) (touches s ++ [k_id k])).
Proof.
  intros H1 H2 Et Hl Hin. unfold requireKey. rewrite Et. unfold bind at 1.
  destruct (lookup_spec cfg tok s) as [(k' & Hl' & ->)|[_ Hno]]; [|by destruct (Hno H1 H2 k)].
  assert (k' = k) as ->.
  { destruct Hl as (_ & _ & Hk & Hh & _), Hl' as (_ & _ & Hk' & Hh' & _).
    apply Forall_inv_tail, Forall_inv in H1.
    eapply no_conflict_spec; eauto; cbn; rewrite Hh, Hh'; apply String.eqb_refl. }
  replace (existsb _ allowed) with true; [done|]. symmetry. apply existsb_exists.
  exists (k_kind k). split; [done|]. by apply kind_eqb_eq.
Qed.

Lemma require_cases {R} `{Digest} `{Limit1} cfg req allowed (s : Server R) :
  (exists tok k s1, extractBearer req = Some tok /\ live_key cfg tok (db (sw s)) k /\ In (k_kind k) allowed /\
     requireKey cfg req allowed s = (Return (authed k), s1) /\ db (sw s1) = db (sw s)) \/
  (exists e s1, requireKey cfg req allowed s = (Throw e, s1) /\ db (sw s1) = db (sw s)).
Proof.
  destruct (requireKey cfg req allowed s) as [o s1] eqn:E. revert E. unfold requireKey.
  destruct (extractBearer req) as [tok|]; [|intros [= <- <-]; right; by eexists _, _].
  unfold bind at 1. destruct (lookup_spec cfg tok s) as [(k & Hl & ->)|[-> _]].
  - destruct (existsb _ allowed) eqn:Ea; cbn [negb]; intros [= <- <-].
    + left. apply existsb_exists in Ea. destruct Ea as (x & Hx & Ex). apply kind_eqb_eq in Ex. subst x.
      by exists tok, k, (mkServer (sw s) (sr s) (touches s ++ [k_id k])).
    + right. by eexists _, _.
  - intros [= <- <-]. right. by eexists _, _.
Qed.

(** When the update a lookup has started runs, the table keeps its rows, in order,
    and only the [last_used_at] of the looked-up key changes. *)
Definition touched (now : Z) (keyId : string) (D D' : DB) : Prop :=
  (exists ks, D' = set_rows t_apiKeys ks D) /\
  Forall2 (fun k k' => k_id k' = k_id k /\ k_appId k' = k_appId k /\ k_kind k' = k_kind k /\
             k_keyHash k' = k_keyHash k /\ k_keyPrefix k' = k_keyPrefix k /\ k_label k' = k_label k /\
             k_createdAt k' = k_createdAt k /\ k_revokedAt k' = k_revokedAt k /\
             k_lastUsedAt k' = if String.eqb (k_id k) keyId then Some now else k_lastUsedAt k)
    (apiKeys D) (apiKeys D').

Lemma run_touch_touched now keyId w : touched now keyId (db w) (db (snd (run_touch now keyId w))).
Proof.
  unfold run_touch, update. cbn [snd db set_db rows t_apiKeys]. split; [by eexists|].
  cbn [apiKeys set_rows t_apiKeys]. unfold update_where. apply Forall2_fmap_r, Forall_Forall2_diag.
  apply Forall_true. intros k. cbn. destruct (String.eqb (k_id k) keyId); by repeat split.
Qed.

(** C19: [requireKey] lets a request through exactly for a live key of an allowed kind,
    returning that key's id, app and kind.  Without a live key it refuses with 401,
    counts the reason and writes nothing; for a live key of another kind it refuses
    with 403.  The lookup of a live key, also of one then refused with 403, starts
    one un-awaited update: whenever it runs it sets [last_used_at] of that key and
    changes nothing else.  (The tables are assumed to keep their unique indexes only
    where a 401 is said to mean that no live key goes with the request.) *)
Theorem requireKey_spec {R} `{Digest} `{Limit1} cfg req allowed (s : Server R) :
  let D := db (sw s) in
  let refused reason ts := mkServer (mkWorld D (counted (sw s) ++ [apiKeyRejected reason]) (background (sw s)))
                             (sr s) ts in
  match requireKey cfg req allowed s with
  | (Return key, s') =>
      exists tok k, extractBearer req = Some tok /\ live_key cfg tok D k /\
        key = authed k /\ In (k_kind k) allowed /\ s' = mkServer (sw s) (sr s) (touches s ++ [k_id k])
  | (Throw e, s') =>
      (e = unauthorized_default /\ extractBearer req = None /\ s' = refused "missing" (touches s)) \/
      (e = unauthorized_default /\ s' = refused "unknown" (touches s) /\
       exists tok, extractBearer req = Some tok /\
         (respects apiKeys_idx (apiKeys D) -> respects apps_idx (apps D) -> forall k, ~ live_key cfg tok D k)) \/
      (e = forbidden "key kind not permitted for this endpoint" /\
       exists tok k, extractBearer req = Some tok /\ live_key cfg tok D k /\ ~ In (k_kind k) allowed /\
         s' = refused "wrong_kind" (touches s ++ [k_id k])%list)
  end /\
  forall now keyId w, touched now keyId (db w) (db (snd (run_touch now keyId w))).
Proof.
  cbv zeta. split; [|intros; apply run_touch_touched].
  unfold requireKey. destruct (extractBearer req) as [tok|] eqn:Et; [|by left].
  unfold bind at 1. destruct (lookup_spec cfg tok s) as [(k & Hl & ->)|[-> Hno]].
  - destruct (existsb _ allowed) eqn:Ea; cbn [negb].
    + apply existsb_exists in Ea. destruct Ea as (x & Hx & Ex). apply kind_eqb_eq in Ex. subst x.
      cbn. by exists tok, k.
    + cbn. right. right. split; [done|]. exists tok, k. split; [done|]. split; [done|]. split; [|done].
      intros Hin. apply not_true_iff_false in Ea. apply Ea, existsb_exists. exists (k_kind k).
      split; [done|]. by apply kind_eqb_eq.
  - right. left. split; [done|]. split; [done|]. by exists tok.
Qed.

(** ** The keys a bootstrap prints *)

Lemma generateApiKey_shape bytes prefix :
  generateApiKey bytes prefix = (prefix ++ String "_" (draw_chars API_KEY_ALPHABET (fun i => bytes i mod 36)%nat 0 32))%string /\
  all_chars is_alnum (draw_chars API_KEY_ALPHABET (fun i => bytes i mod 36)%nat 0 32) = true.
Proof.
  split; [reflexivity|]. apply draw_chars_class. by apply char_at_class.
Qed.

Lemma alnum_not_underscore s : all_chars is_alnum s = true -> all_chars (fun c => negb (Ascii.eqb c "_"%char)) s = true.
Proof. apply all_chars_impl. intros c. by_ascii is_alnum (fun c => negb (Ascii.eqb c "_"%char)). Qed.

Lemma alnum_not_ws s : all_chars is_alnum s = true -> all_chars (fun c => negb (is_ws c)) s = true.
Proof. apply all_chars_impl. intros c. by_ascii is_alnum (fun c => negb (is_ws c)). Qed.

(** A request that carries a raw key. *)
Definition bearer_request (raw : string) : Request :=
  {| rq_headers := [("authorization", "Bearer " ++ raw)]; rq_ip := ""; rq_id := ""; rq_rawBody := None;
     rq_body := JNull; rq_param_id := "" |}.

Lemma extractBearer_request raw :
  nonempty raw = true -> all_chars (fun c => negb (is_ws c)) raw = true ->
  extractBearer (bearer_request raw) = Some raw.
Proof.
  intros Hne Hws. unfold extractBearer, truthy_header, header. cbn [rq_headers bearer_request header_in].
  rewrite String.eqb_refl. change (nonempty ("Bearer " ++ raw)) with true. cbn beta iota.
  rewrite (startsWith_app "Bearer " raw), (slice_from_app "Bearer " raw : slice_from _ 7 = _), trim_fixed by done.
  by destruct raw.
Qed.

Lemma bootstrap_eq `{Digest} cfg u1 u2 u3 bytes1 bytes2 dbNow name w res w' :
  bootstrapApp cfg u1 u2 u3 bytes1 bytes2 dbNow name w = (Return res, w') ->
  respects apiKeys_idx (apiKeys (db w)) -> respects apps_idx (apps (db w)) ->
  let appId := newId "app" u1 in
  let key u kind raw label := mkApiKey (newId "key" u) appId kind (key_hash cfg raw) (slice_to raw 12)
                                (Some label) dbNow None None in
  let k1 := key u2 public (ba_publicKey res) "default-public" in
  let k2 := key u3 secret (ba_secretKey res) "default-secret" in
  ba_appId res = appId /\
  ba_publicKey res = generateApiKey bytes1 "pk_live" /\ ba_secretKey res = generateApiKey bytes2 "sk_live" /\
  apps (db w') = (apps (db w) ++ [mkApp appId (trim name) dbNow false])%list /\
  apiKeys (db w') = (apiKeys (db w) ++ [k1; k2])%list /\
  respects apiKeys_idx (apiKeys (db w')) /\ respects apps_idx (apps (db w')).
Proof.
  unfold bootstrapApp. intros E Hk Ha. cbv zeta. revert E. rewrite bind_throw_if.
  destruct (_ =? _)%nat; [discriminate|]. cbv zeta. unfold bind. rewrite insert_eq.
  destruct (broken_by _ _ _) eqn:Eb; [discriminate|]. unfold insert_all.
  destruct (insert_all_rows _ _ _) as [|t] eqn:Ei; [discriminate|]. cbn [rows t_apiKeys] in Ei.
  intros [= <- <-]. cbn [ba_appId ba_publicKey ba_secretKey].
  do 3 (split; [reflexivity|]). split; [reflexivity|]. 
  destruct (respects_insert_all _ _ _ _ Hk Ei) as [Hr Et].
  split; [exact Et|]. split; [exact Hr|]. by apply respects_insert.
Qed.

(** A generated key is a token of its prefix's kind. *)
Lemma generated_key_form bytes prefix kind :
  PREFIX_TO_KIND prefix = Some kind ->
  let raw := generateApiKey bytes prefix in
  slen raw = 40%nat /\ all_chars (fun c => negb (is_ws c)) raw = true /\
  exists i, lastIndexOf "_"%char raw = Some i /\ PREFIX_TO_KIND (slice_to raw i) = Some kind.
Proof.
  intros Hp. cbv zeta. destruct (generateApiKey_shape bytes prefix) as [-> Hc].
  assert (Hl : slen prefix = 7%nat /\ all_chars (fun c => negb (is_ws c)) prefix = true).
  { revert Hp. unfold PREFIX_TO_KIND.
    destruct (String.eqb_spec prefix "pk_live") as [->|]; [done|].
    destruct (String.eqb_spec prefix "sk_live") as [->|]; [done|].
    destruct (String.eqb_spec prefix "gw_live") as [->|]; [done|discriminate]. }
  destruct Hl as [Hl Hw]. split; [|split].
  - rewrite slen_app. cbn [slen]. rewrite draw_chars_length, Hl. done.
  - rewrite all_chars_app, Hw. cbn [all_chars andb]. by rewrite alnum_not_ws.
  - exists (slen prefix). rewrite slice_to_app. split; [|done].
    by apply lastIndexOf_last, alnum_not_underscore.
Qed.

(** A stored key of the shape [generateApiKey] gives, of a live app, is accepted. *)
Lemma generated_key_accepted {R} `{Digest} `{Limit1} cfg bytes prefix kind k a (s : Server R) :
  respects apiKeys_idx (apiKeys (db (sw s))) -> respects apps_idx (apps (db (sw s))) ->
  PREFIX_TO_KIND prefix = Some kind -> In k (apiKeys (db (sw s))) -> k_kind k = kind ->
  k_keyHash k = key_hash cfg (generateApiKey bytes prefix) -> k_revokedAt k = None ->
  In a (apps (db (sw s))) -> app_id a = k_appId k -> app_disabled a = false ->
  requireKey cfg (bearer_request (generateApiKey bytes prefix)) [kind] s
  = (Return (authed k), mkServer (sw s) (sr s) (touches s ++ [k_id k])).
Proof.
  intros Hk Ha Hp Hink Hkind Hh Hrev Hina Hid Hen.
  destruct (generated_key_form bytes prefix kind Hp) as (Hlen & Hws & i & Hi & Hpi).
  eapply require_live; [exact Hk|exact Ha| | |left; by rewrite Hkind].
  - apply extractBearer_request; [|exact Hws]. by destruct (generateApiKey bytes prefix).
  - split; [rewrite Hlen; lia|]. split; [exists i; by rewrite Hkind|].
    split; [exact Hink|]. split; [exact Hh|]. split; [exact Hrev|]. by exists a.
Qed.

(** The rows of the two keys a bootstrap returns. *)
Lemma bootstrap_keys_live `{Digest} cfg u1 u2 u3 bytes1 bytes2 dbNow name w res w' :
  bootstrapApp cfg u1 u2 u3 bytes1 bytes2 dbNow name w = (Return res, w') ->
  respects apiKeys_idx (apiKeys (db w)) -> respects apps_idx (apps (db w)) ->
  forall raw kind, In (raw, kind) [(ba_publicKey res, public); (ba_secretKey res, secret)] ->
  exists bytes prefix k, raw = generateApiKey bytes prefix /\ PREFIX_TO_KIND prefix = Some kind /\
    k_kind k = kind /\ k_appId k = ba_appId res /\ In k (apiKeys (db w')) /\ k_keyHash k = key_hash cfg raw /\ k_revokedAt k = None.
Proof.
  intros E Hk Ha raw kind Hin. destruct (bootstrap_eq _ _ _ _ _ _ _ _ _ _ _ E Hk Ha) as (Hid & Hpk & Hsk & _ & -> & _).
  destruct Hin as [[= <- <-]|[[= <- <-]|[]]];
    [exists bytes1, "pk_live"|exists bytes2, "sk_live"]; eexists;
    (split; [eassumption|]); (split; [reflexivity|]); rewrite in_app_iff;
    [split; [|split; [|split; [right; left; reflexivity|]]]
    |split; [|split; [|split; [right; right; left; reflexivity|]]]]; cbn; eauto.
Qed.

(** A server whose keys and apps are those a bootstrap left accepts both keys. *)
Lemma bootstrap_keys_accepted {R} `{Digest} `{Limit1} cfg u1 u2 u3 bytes1 bytes2 dbNow name w res w' w2 (r : R) ts :
  bootstrapApp cfg u1 u2 u3 bytes1 bytes2 dbNow name w = (Return res, w') ->
  respects apiKeys_idx (apiKeys (db w)) -> respects apps_idx (apps (db w)) ->
  apps (db w2) = apps (db w') -> apiKeys (db w2) = apiKeys (db w') ->
  forall raw kind, In (raw, kind) [(ba_publicKey res, public); (ba_secretKey res, secret)] ->
  exists key s', requireKey cfg (bearer_request raw) [kind] (mkServer w2 r ts) = (Return key, s') /\
    ak_appId key = ba_appId res /\ ak_kind key = kind /\ db (sw s') = db w2.
Proof.
  intros E Hk Ha E1 E2 raw kind Hin.
  destruct (bootstrap_keys_live _ _ _ _ _ _ _ _ _ _ _ E Hk Ha raw kind Hin) as (bytes & prefix & k & -> & Hp & Hkind & Happ & Hink & Hh & Hrev).
  destruct (bootstrap_eq _ _ _ _ _ _ _ _ _ _ _ E Hk Ha) as (Hid & _ & _ & Eapps & _ & Hrk & Hra).
  exists (authed k), (mkServer w2 r (ts ++ [k_id k])%list). split; [|split; [exact Happ|split; [exact Hkind|reflexivity]]].
  apply (generated_key_accepted cfg bytes prefix kind k (mkApp (newId "app" u1) (trim name) dbNow false)); cbn [db sw]; rewrite ?E1, ?E2; try done.
  - rewrite Eapps. apply in_app_iff. right. by left.
  - cbn. by rewrite Happ, Hid.
Qed.

(** The two keys a bootstrap prints work at once: presented as bearer tokens they
    pass [requireKey] for their own kind, with the new app's id, whatever else the
    tables hold. *)
Theorem bootstrap_keys_authenticate {R} `{Digest} `{Limit1} cfg u1 u2 u3 bytes1 bytes2 dbNow name w res w' (r : R) ts :
  bootstrapApp cfg u1 u2 u3 bytes1 bytes2 dbNow name w = (Return res, w') ->
  respects apiKeys_idx (apiKeys (db w)) -> respects apps_idx (apps (db w)) ->
  forall raw kind, In (raw, kind) [(ba_publicKey res, public); (ba_secretKey res, secret)] ->
  exists key s', requireKey cfg (bearer_request raw) [kind] (mkServer w' r ts) = (Return key, s') /\
    ak_appId key = ba_appId res /\ ak_kind key = kind /\ db (sw s') = db w'.
Proof. intros E Hk Ha. by apply (bootstrap_keys_accepted _ _ _ _ _ _ _ _ _ _ _ _ _ _ E Hk Ha). Qed.

(** ** Witness *)

(** An injective stand-in for the digest. *)
Definition plain_digest : Digest := {| sha256Hex m := m; hmacSha256Hex k m := k ++ "|" ++ m |}.

Definition boot_run : outcome exn BootstrapAppResult * World :=
  bootstrapApp (H := plain_digest) default_config "A" "K1" "K2" (fun i => i) (fun i => i) 0 " My App "
    (mkWorld empty_db [] []).

Lemma boot_returns : match boot_run with (Return res, _) => ba_appName res = "My App" | _ => False end.
Proof. vm_compute. reflexivity. Qed.

Lemma bootstrap_keys_authenticate_witness :
  exists res, fst boot_run = Return res /\ ba_appName res = "My App" /\
  exists key s', requireKey (H := plain_digest) default_config (bearer_request (ba_secretKey res)) [secret]
                   (mkServer (snd boot_run) tt []) = (Return key, s') /\ ak_appId key = ba_appId res.
Proof.
  pose proof boot_returns as B. destruct boot_run as [[res|e] w'] eqn:E; [|destruct B].
  exists res. split; [reflexivity|]. split; [exact B|]. unfold boot_run in E.
  destruct (bootstrap_keys_authenticate default_config "A" "K1" "K2" (fun i => i) (fun i => i) 0 " My App "
    (mkWorld empty_db [] []) res w' tt [] E) with (raw := ba_secretKey res) (kind := secret)
    as (key & s' & Hr & Happ & _).
  - repeat constructor.
  - repeat constructor.
  - right. left. reflexivity.
  - exists key, s'. split; [exact Hr|exact Happ].
Defined.
