(* ===== verification/Inbound.v ===== *)
(** * Gateway routes: [routes/inbound.ts]

    [POST /v1/inbound/sms] and [POST /v1/receivers/:id/heartbeat]: header and shape
    checks, the per-IP bucket, the HMAC check, the buckets keyed on the verified
    receiver, and then the matcher or the coalesced heartbeat write. *)

From S2P Require Import Prelude JsString Json Errors Phone Crypto Aead Config Schema SmsBody Webhooks PhoneBindings Verifications Matching RateLimit Hmac Server.
From Stdlib Require Import String Ascii.

Open Scope string_scope.
Open Scope js_scope.

Record InboundBody : Type := {
  ib_from : string; ib_to : string; ib_body : string; ib_received_at : Z;
  ib_idempotency_key : string; ib_sim_slot : option Z;
}.

Definition inboundBody `{Zod} (j : json) : option InboundBody :=
  if negb (z_is_object j) then None
  else
    match z_string 3 32 (jfield "from" j), z_string 3 32 (jfield "to" j), z_string 1 1600 (jfield "body" j),
          z_datetime (jfield "received_at" j), z_string 8 128 (jfield "idempotency_key" j),
          z_optional (z_int (Some 0%Z) (Some 7%Z)) (jfield "sim_slot" j) with
    | Some from, Some to, Some body, Some received_at, Some key, Some sim_slot =>
        Some {| ib_from := from; ib_to := to; ib_body := body; ib_received_at := received_at;
                ib_idempotency_key := key; ib_sim_slot := sim_slot |}
    | _, _, _, _, _, _ => None
    end.

(** Whether the heartbeat schema accepts a body; the route uses none of its fields. *)
Definition heartbeatBody `{Zod} (j : json) : bool :=
  z_is_object j
  && bool_decide (is_Some (z_datetime (jfield "received_at" j)))
  && bool_decide (is_Some (z_optional (z_int (Some 0%Z) None) (jfield "queue_depth" j)))
  && bool_decide (is_Some (z_optional (z_int None None) (jfield "sim_signal_dbm" j)))
  && bool_decide (is_Some (z_optional (z_int (Some 0%Z) (Some 100%Z)) (jfield "battery_percent" j)))
  && bool_decide (is_Some (z_optional (z_string 0 32) (jfield "app_version" j))).

(** [RECEIVER_ID_RE] *)
Definition RECEIVER_ID_RE (s : string) : bool := prefixed_id "rcv" s.

Record GatewayHeaders : Type := {
  gh_receiverId : option string; gh_timestamp : option string; gh_nonce : option string;
  gh_signature : option string;
}.

(** The headers, [None] when missing or empty. *)
Definition readGatewayHeaders (req : Request) : GatewayHeaders :=
  {| gh_receiverId := truthy_header req "x-syrotp-receiver";
     gh_timestamp := truthy_header req "x-syrotp-timestamp";
     gh_nonce := truthy_header req "x-syrotp-nonce";
     gh_signature := truthy_header req "x-syrotp-signature" |}.

(** The JSON reply of an outcome, with its status. *)
Definition inbound_reply (outcome : MatchOutcome) : Reply :=
  match outcome with
  | MatchedBinding bindingId _ =>
      json_reply 202 (JObj [("accepted", JBool true); ("matched", JBool true); ("kind", JStr "binding");
                            ("phone_binding_id", JStr bindingId)])
  | Matched verificationId _ =>
      json_reply 202 (JObj [("accepted", JBool true); ("matched", JBool true);
                            ("verification_id", JStr verificationId)])
  | Duplicate _ =>
      json_reply 409 (JObj [("accepted", JBool true); ("matched", JBool false); ("reason", JStr "duplicate")])
  | Unmatched reason _ =>
      json_reply 202 (JObj [("accepted", JBool true); ("matched", JBool false); ("reason", JStr reason)])
  end.

Definition outcome_matched (outcome : MatchOutcome) : bool :=
  match outcome with Matched _ _ | MatchedBinding _ _ => true | _ => false end.

Definition reasonLabel (outcome : MatchOutcome) : string :=
  match outcome with
  | Matched _ _ | MatchedBinding _ _ => "matched"
  | Duplicate _ => "duplicate"
  | Unmatched reason _ => if String.eqb reason "duplicate" then "duplicate"
                          else if String.eqb reason "expired" then "expired" else "no_match"
  end.

Definition inbound_audit (req : Request) (receiver : GatewayReceiver) (outcome : MatchOutcome) : AuditEntry :=
  let entry action meta :=
    {| ae_appId := Some (gr_appId receiver); ae_actor := Some ("receiver:" ++ gr_id receiver);
       ae_action := action; ae_resourceType := Some "inbound_sms";
       ae_resourceId := Some (outcome_inboundId outcome); ae_ip := Some (rq_ip req);
       ae_userAgent := None; ae_requestId := Some (rq_id req); ae_meta := Some meta |} in
  match outcome with
  | MatchedBinding id _ => entry "inbound.matched" [("phone_binding_id", JStr id)]
  | Matched id _ => entry "inbound.matched" [("verification_id", JStr id)]
  | Duplicate _ => entry "inbound.received" [("reason", JStr "duplicate")]
  | Unmatched reason _ => entry "inbound.received" [("reason", JStr reason)]
  end.

(** A refusal before the matcher runs: a 400, 401 or 429 and an unchanged database. *)
Definition refused {R A} (o : outcome exn A) (s s' : Server R) : Prop :=
  db (sw s') = db (sw s) /\
  exists status code m det, o = Throw (ApiError status code m det) /\ In status [400; 401; 429]%Z.

Lemma refused_api {R A} status code m det (s s' : Server R) :
  db (sw s') = db (sw s) -> In status [400; 401; 429]%Z ->
  refused (A := A) (Throw (ApiError status code m det)) s s'.
Proof. intros Ed Es. split; [done|]. by exists status, code, m, det. Qed.

(** Close a branch that refuses the request. *)
Ltac refuse := intros [= <- <-]; left; apply refused_api; [done|cbn; auto].

Section Routes.
Context `{Digest} `{Gcm} `{Redis R} `{Limit1} `{Zod} (cfg : Config).

Definition verify_gateway (now setAt : Z) (input : VerifyHmacInput) : RM R VerifyHmacResult :=
  fun s => let '(v, r) := verifyGatewayHmac cfg now setAt (db (sw s)) input (sr s) in
           (Return v, mkServer (sw s) r (touches s)).

(** The HMAC check and what both routes do when it fails. *)
Definition require_gateway (now setAt : Z) (input : VerifyHmacInput) : RM R GatewayReceiver :=
  let! checked := verify_gateway now setAt input in
  match checked with
  | HmacOk receiver => ret receiver
  | HmacRefused reason =>
      do! on_world (count (hmacRejected reason)) in
      throw unauthorized_default
  end.

(** Metrics, audit and reply. *)
Definition report_inbound (d : Draws) (req : Request) (receiver : GatewayReceiver) (outcome : MatchOutcome)
    : RM R Reply :=
  do! on_world (count (inboundReceived (gr_id receiver) (outcome_matched outcome) (reasonLabel outcome))) in
  do! (if outcome_matched outcome
       then on_world (count (verificationTerminal (gr_appId receiver) "verified")) else ret tt) in
  do! on_world (audit d (inbound_audit req receiver outcome)) in
  ret (inbound_reply outcome).

(** From the verified receiver on. *)
Definition inbound_verified `{PhoneLib} (d : Draws) (fr : Fresh) (skip_locked : Verification -> bool)
    (req : Request) (receiver : GatewayReceiver) : RM R Reply :=
  do! rate_guard ("inbound:rcv:" ++ gr_id receiver) (RATE_LIMIT_INBOUND_PER_RECEIVER_PER_MIN cfg)
        (clock d 4) (clock d 5) "inbound" in
  do! rate_guard ("inbound:app:" ++ gr_appId receiver) (RATE_LIMIT_INBOUND_PER_APP_PER_MIN cfg)
        (clock d 6) (clock d 7) "inbound_sms_per_app" in
  match inboundBody (rq_body req) with
  | None => throw (badRequest "validation_error" "invalid inbound body")
  | Some body =>
      let! outcome := on_world (processInbound cfg fr (ulid d INBOUND_PREFIX) skip_locked (clock d 8) (db_now d)
        {| mi_receiverId := gr_id receiver; mi_receiverMsisdn := gr_msisdn receiver; mi_from := ib_from body;
           mi_to := ib_to body; mi_body := ib_body body; mi_receivedAt := ib_received_at body;
           mi_idempotencyKey := ib_idempotency_key body |}) in
      report_inbound d req receiver outcome
  end.

Definition inbound_sms `{PhoneLib} (d : Draws) (fr : Fresh) (skip_locked : Verification -> bool)
    (req : Request) : RM R Reply :=
  let headers := readGatewayHeaders req in
  match gh_receiverId headers, gh_timestamp headers, gh_nonce headers, gh_signature headers with
  | Some receiverId, Some timestamp, Some nonce, Some signature =>
      do! throw_if (negb (RECEIVER_ID_RE receiverId)) (badRequest "bad_receiver_id" "malformed receiver id") in
      match rq_rawBody req with
      | None => throw (badRequest "bad_body" "raw body unavailable")
      | Some rawBody =>
          do! rate_guard ("inbound:ip:" ++ rq_ip req) (RATE_LIMIT_INBOUND_PER_IP_PER_MIN cfg)
                (clock d 0) (clock d 1) "inbound_per_ip" in
          let! receiver := require_gateway (clock d 2) (clock d 3)
            {| h_receiverId := receiverId; h_timestampHeader := timestamp; h_nonceHeader := nonce;
               h_signatureHeader := signature; h_rawBody := rawBody |} in
          inbound_verified d fr skip_locked req receiver
      end
  | _, _, _, _ => throw (unauthorized "missing gateway headers")
  end.

Definition set_heartbeat (at_ : Z) (r : Receiver) : Receiver :=
  mkReceiver (r_id r) (r_appId r) (r_name r) (r_operator r) (r_msisdn r) (r_secretHash r) (r_enabled r)
    (Some at_) (r_createdAt r).

(** The coalesced write; [now] is the server's clock. *)
Definition record_heartbeat (now : Z) (receiverId : string) : SM unit :=
  let coalesceThresholdSec := (RECEIVER_HEARTBEAT_TIMEOUT_SECONDS cfg / 4)%Z in
  let! row := select_one t_receivers (fun r => String.eqb (r_id r) receiverId) in
  let lastHb := row ≫= r_lastHeartbeatAt in
  if match lastHb with Some hb => (coalesceThresholdSec * 1000 <? now - hb)%Z | None => true end then
    do! update t_receivers (fun r => String.eqb (r_id r) receiverId) (set_heartbeat now) in
    count (heartbeatDbUpdate "applied")
  else count (heartbeatDbUpdate "skipped").

Definition heartbeat (d : Draws) (req : Request) : RM R Reply :=
  do! throw_if (negb (RECEIVER_ID_RE (rq_param_id req))) (badRequest "bad_receiver_id" "malformed receiver id") in
  let headers := readGatewayHeaders req in
  match gh_timestamp headers, gh_nonce headers, gh_signature headers with
  | Some timestamp, Some nonce, Some signature =>
      match rq_rawBody req with
      | None => throw (badRequest "bad_body" "raw body unavailable")
      | Some rawBody =>
          do! rate_guard ("inbound:ip:" ++ rq_ip req) (RATE_LIMIT_INBOUND_PER_IP_PER_MIN cfg)
                (clock d 0) (clock d 1) "heartbeat_per_ip" in
          let! receiver := require_gateway (clock d 2) (clock d 3)
            {| h_receiverId := rq_param_id req; h_timestampHeader := timestamp; h_nonceHeader := nonce;
               h_signatureHeader := signature; h_rawBody := rawBody |} in
          do! rate_guard ("heartbeat:rcv:" ++ gr_id receiver) (RATE_LIMIT_HEARTBEAT_PER_RECEIVER_PER_MIN cfg)
                (clock d 4) (clock d 5) "heartbeat_per_receiver" in
          do! throw_if (negb (heartbeatBody (rq_body req))) (badRequest "validation_error" "invalid heartbeat body") in
          do! on_world (record_heartbeat (clock d 6) (gr_id receiver)) in
          ret (json_reply 200 (JObj [("ok", JBool true); ("server_time", JStr (toISOString (clock d 6)));
                 ("next_heartbeat_seconds", JNum (RECEIVER_HEARTBEAT_TIMEOUT_SECONDS cfg / 2))]))
      end
  | _, _, _ => throw unauthorized_default
  end.

(** ** What the guards leave *)

Lemma rate_guard_cases key limit t1 t2 bucket (s : Server R) :
  exists r, rate_guard key limit t1 t2 bucket s = (Return tt, mkServer (sw s) r (touches s)) \/
    exists k c, rate_guard key limit t1 t2 bucket s
                = (Throw (rateLimited k), mkServer (mkWorld (db (sw s)) c (background (sw s))) r (touches s)).
Proof.
  unfold rate_guard, bind, on_redis. destruct (rateCheck _ _ _ _ _ _) as [rl r]. exists r.
  destruct (allowed rl); cbn; [by left|]. right. by eexists _, _.
Qed.

Lemma require_gateway_cases now setAt input (s : Server R) :
  (exists rc r, authentic cfg now (db (sw s)) input rc /\ visible (sr s) setAt (nonce_key input) = None /\
     r_id rc = h_receiverId input /\ In rc (receivers (db (sw s))) /\
     require_gateway now setAt input s = (Return (public_view rc), mkServer (sw s) r (touches s))) \/
  (exists r c, require_gateway now setAt input s
     = (Throw unauthorized_default, mkServer (mkWorld (db (sw s)) c (background (sw s))) r (touches s))).
Proof.
  unfold require_gateway, bind, verify_gateway.
  destruct (verify_not_authentic cfg now setAt (db (sw s)) input (sr s)) as [[rc Ha]|[reason E]].
  - rewrite (verify_authentic cfg now setAt (db (sw s)) input (sr s) rc Ha).
    destruct (set_nx_ex _ _ _ _) as [b r'] eqn:Es. destruct (set_law _ _ _ _ _ _ Es) as [Eb _].
    destruct b; cbn [negb].
    + left. exists rc, r'. split; [exact Ha|]. split; [by destruct (visible (sr s) setAt _)|].
      destruct Ha as (ts & sk & _ & _ & _ & _ & _ & El & _). apply limit1_In, select_In in El.
      destruct El as [Hin Hid]. apply String.eqb_eq in Hid. split; [exact Hid|]. by split.
    + right. by eexists r', _.
  - rewrite E. right. by eexists _, _.
Qed.

Lemma audit_db d entry w :
  exists l, audit d entry w = (Return tt, set_db (set_rows t_auditLog l) w).
Proof.
  unfold audit, try_catch. rewrite insert_eq. destruct (broken_by _ _ _).
  - exists (rows t_auditLog (db w)). unfold ret. by rewrite set_rows_same.
  - by eexists.
Qed.

(** The message a request carries. *)
Definition sms_of (receiver : GatewayReceiver) (body : InboundBody) : MatchInput :=
  {| mi_receiverId := gr_id receiver; mi_receiverMsisdn := gr_msisdn receiver; mi_from := ib_from body;
     mi_to := ib_to body; mi_body := ib_body body; mi_receivedAt := ib_received_at body;
     mi_idempotencyKey := ib_idempotency_key body |}.

(** The outcome of the matcher, carried to the reply. *)
Definition answered (o1 : outcome exn MatchOutcome) (w1 : World) (o : outcome exn Reply) (s' : Server R) : Prop :=
  match o1 with
  | Throw e => o = Throw e /\ sw s' = w1
  | Return outcome => o = Return (inbound_reply outcome) /\
      exists l, db (sw s') = set_rows t_auditLog l (db w1)
  end.

Lemma report_inbound_eq d req receiver outcome (s : Server R) :
  exists w' l, report_inbound d req receiver outcome s = (Return (inbound_reply outcome), mkServer w' (sr s) (touches s)) /\
    db w' = set_rows t_auditLog l (db (sw s)).
Proof.
  unfold report_inbound. unfold bind at 1. unfold on_world at 1. cbn [count modify sw sr touches].
  unfold bind at 1. destruct (outcome_matched outcome).
  - unfold on_world at 1. cbn [count modify sw sr touches].
    unfold bind at 1, on_world at 1. cbn [sw sr touches].
    edestruct audit_db as [l ->]. eexists _, l. split; [reflexivity|reflexivity].
  - cbn [ret]. unfold bind at 1, on_world at 1. cbn [sw sr touches].
    edestruct audit_db as [l ->]. eexists _, l. split; [reflexivity|reflexivity].
Qed.

Lemma inbound_verified_cases `{PhoneLib} d fr skip_locked req receiver (s : Server R) o s' :
  inbound_verified d fr skip_locked req receiver s = (o, s') ->
  refused o s s' \/
  exists body o1 w1, inboundBody (rq_body req) = Some body /\
    processInbound cfg fr (ulid d INBOUND_PREFIX) skip_locked (clock d 8) (db_now d) (sms_of receiver body) (sw s)
      = (o1, w1) /\ answered o1 w1 o s'.
Proof.
  unfold inbound_verified. unfold bind at 1.
  destruct (rate_guard_cases ("inbound:rcv:" ++ gr_id receiver) (RATE_LIMIT_INBOUND_PER_RECEIVER_PER_MIN cfg)
    (clock d 4) (clock d 5) "inbound" s) as (r1 & [->|(k & c & ->)]).
  2: refuse.
  unfold bind at 1.
  destruct (rate_guard_cases ("inbound:app:" ++ gr_appId receiver) (RATE_LIMIT_INBOUND_PER_APP_PER_MIN cfg)
    (clock d 6) (clock d 7) "inbound_sms_per_app" (mkServer (sw s) r1 (touches s))) as (r2 & [->|(k & c & ->)]).
  2: refuse.
  cbn [sw sr touches]. destruct (inboundBody (rq_body req)) as [body|].
  2: refuse.
  unfold bind at 1, on_world at 1. cbn [sw sr touches]. fold (sms_of receiver body).
  destruct (processInbound _ _ _ _ _ _ _ (sw s)) as [[outcome|e] w1] eqn:Ep.
  2: { intros [= <- <-]. right. by exists body, (Throw e), w1. }
  intros E. right. exists body, (Return outcome), w1. do 2 (split; [done|]). revert E.
  destruct (report_inbound_eq d req receiver outcome (mkServer w1 r2 (touches s))) as (s1 & l & -> & El).
  intros [= <- <-]. split; [done|]. by exists l.
Qed.
End Routes.

(** [POST /v1/inbound/sms] hands a message to the matcher only for an authentic
    request with a fresh nonce, under the id of the receiver whose key signed it;
    every other request is refused with 400, 401 or 429 and an unchanged database.
    Past the guards, the reply and the database are the matcher's, up to audit rows. *)
Theorem inbound_sms_spec `{Digest} `{Gcm} `{Redis R} `{Limit1} `{Zod} `{PhoneLib} cfg d fr skip_locked req
    (s : Server R) o s' :
  inbound_sms cfg d fr skip_locked req s = (o, s') ->
  refused o s s' \/
  exists input rc r body o1 w1,
    rq_rawBody req = Some (h_rawBody input) /\ header req "x-syrotp-receiver" = Some (h_receiverId input) /\
    authentic cfg (clock d 2) (db (sw s)) input rc /\ In rc (receivers (db (sw s))) /\
    r_id rc = h_receiverId input /\ visible r (clock d 3) (nonce_key input) = None /\
    inboundBody (rq_body req) = Some body /\
    processInbound cfg fr (ulid d INBOUND_PREFIX) skip_locked (clock d 8) (db_now d)
      (sms_of (public_view rc) body) (sw s) = (o1, w1) /\ answered o1 w1 o s'.
Proof.
  unfold inbound_sms, readGatewayHeaders. cbn [gh_receiverId gh_timestamp gh_nonce gh_signature].
  destruct (truthy_header req "x-syrotp-receiver") as [id|] eqn:Eid;
    [|refuse].
  destruct (truthy_header req "x-syrotp-timestamp") as [ts|];
    [|refuse].
  destruct (truthy_header req "x-syrotp-nonce") as [nonce|];
    [|refuse].
  destruct (truthy_header req "x-syrotp-signature") as [sig|];
    [|refuse].
  rewrite bind_throw_if. destruct (negb (RECEIVER_ID_RE id));
    [refuse|].
  destruct (rq_rawBody req) as [rawBody|] eqn:Eraw;
    [|refuse].
  unfold bind at 1.
  destruct (rate_guard_cases ("inbound:ip:" ++ rq_ip req) (RATE_LIMIT_INBOUND_PER_IP_PER_MIN cfg)
    (clock d 0) (clock d 1) "inbound_per_ip" s) as (r1 & [->|(k & c & ->)]);
    [|refuse].
  unfold bind at 1. set (input := Build_VerifyHmacInput id ts nonce sig rawBody).
  destruct (require_gateway_cases cfg (clock d 2) (clock d 3) input (mkServer (sw s) r1 (touches s)))
    as [(rc & r2 & Ha & Hn & Hid & Hin & ->)|(r2 & c & ->)];
    [|refuse].
  cbn [sw sr touches] in *. intros E. apply inbound_verified_cases in E.
  destruct E as [Href|(body & o1 & w1 & Eb & Ep & Hans)]; [left; exact Href|right].
  exists input, rc, r1, body, o1, w1. split; [done|]. split.
  { unfold truthy_header in Eid. destruct (header req _) as [v|]; [|discriminate].
    destruct (nonempty v); [|discriminate]. injection Eid as ->. reflexivity. }
  by do 6 (split; [done|]).
Qed.

(** ** Heartbeats *)

Section Heartbeat.
Context `{Limit1} (cfg : Config).

Lemma record_heartbeat_fresh now id w :
  respects receivers_idx (receivers (db w)) -> (0 <= RECEIVER_HEARTBEAT_TIMEOUT_SECONDS cfg)%Z ->
  exists w', record_heartbeat cfg now id w = (Return tt, w') /\
    forall rc, In rc (receivers (db w')) -> r_id rc = id ->
      exists hb, r_lastHeartbeatAt rc = Some hb /\
        (now - hb <= RECEIVER_HEARTBEAT_TIMEOUT_SECONDS cfg / 4 * 1000)%Z.
Proof.
  intros Hr Ht. unfold record_heartbeat. rewrite bind_select_one. cbn [rows t_receivers].
  set (fresh := match limit1 _ ≫= r_lastHeartbeatAt with Some _ => _ | None => _ end).
  destruct fresh eqn:Ef.
  - rewrite bind_update. eexists. split; [reflexivity|]. cbn [db set_db count modify rows t_receivers receivers set_rows].
    intros rc Hin Hid. apply update_where_In in Hin.
    destruct Hin as [(x & _ & _ & ->)|[_ Hne]]; [|by rewrite Hid, String.eqb_refl in Hne].
    exists now. split; [done|].
    Z.to_euclidean_division_equations. lia.
  - eexists. split; [reflexivity|]. cbn. intros rc Hin Hid. subst fresh.
    destruct (limit1 _) as [r|] eqn:El; [|discriminate Ef]. cbn in Ef.
    apply limit1_In, select_In in El. destruct El as [Hr1 Hr2]. apply String.eqb_eq in Hr2.
    assert (r = rc) as -> by (eapply (pkey_inj _ r_id); eauto; congruence).
    destruct (r_lastHeartbeatAt rc) as [hb|]; [|discriminate Ef]. exists hb. split; [done|].
    by apply Z.ltb_ge in Ef.
Qed.
End Heartbeat.

(** A gateway that heartbeats as told stays selectable: after a heartbeat answered
    200, coalesced or not, its row's heartbeat passes the health test of receiver
    selection for three quarters of the timeout, past the delay the reply asks for. *)
Theorem heartbeat_keeps_healthy `{Digest} `{Gcm} `{Redis R} `{Limit1} `{Zod} cfg d req (s : Server R) reply s' :
  heartbeat cfg d req s = (Return reply, s') ->
  config_valid cfg = true -> respects receivers_idx (receivers (db (sw s))) ->
  reply_status reply = 200%Z /\
  exists next, jfield "next_heartbeat_seconds" (reply_body reply) = Some (JNum next) /\
    forall rc dbNow, In rc (receivers (db (sw s'))) -> r_id rc = rq_param_id req -> r_enabled rc = true ->
      (dbNow <= clock d 6 + 1000 * next)%Z -> healthy cfg dbNow (r_appId rc) None rc = true.
Proof.
  intros E Hc Hr. apply config_valid_bounds in Hc. revert E. unfold heartbeat.
  rewrite bind_throw_if. destruct (negb (RECEIVER_ID_RE _)); [discriminate|].
  destruct (gh_timestamp _) as [ts|]; [|discriminate]. destruct (gh_nonce _) as [nonce|]; [|discriminate].
  destruct (gh_signature _) as [sig|]; [|discriminate]. destruct (rq_rawBody req) as [raw|]; [|discriminate].
  unfold bind at 1. edestruct rate_guard_cases as (r1 & [->|(k & c & ->)]); [|discriminate].
  unfold bind at 1. edestruct require_gateway_cases as [(rc & r2 & Ha & Hn & Hid & Hin & ->)|(r2 & c & ->)]; [|discriminate].
  unfold bind at 1. edestruct rate_guard_cases as (r3 & [->|(k & c & ->)]); [|discriminate].
  rewrite bind_throw_if. destruct (negb (heartbeatBody _)); [discriminate|].
  unfold bind, on_world. cbn [sw sr touches h_receiverId public_view gr_id] in *. rewrite Hid.
  destruct (record_heartbeat_fresh cfg (clock d 6) (rq_param_id req) (sw s) Hr) as (w1 & -> & Hfresh); [lia|].
  intros [= <- <-]. split; [done|]. eexists. split; [reflexivity|].
  intros rc' dbNow Hin' Hid' Hen Hd. destruct (Hfresh rc' Hin' Hid') as (hb & Ehb & Hb).
  unfold healthy. rewrite String.eqb_refl, Hen, Ehb. cbn [andb]. rewrite andb_true_r. apply Z.ltb_lt.
  Z.to_euclidean_division_equations. lia.
Qed.

(** ** Witnesses *)

Definition sample_zod : Zod := {| zod_issues _ _ := JArr []; zod_datetime _ := Some 1000%Z |}.

Definition gateway_headers : list (string * string) :=
  [("x-syrotp-receiver", "rcv_1"); ("x-syrotp-timestamp", "1000");
   ("x-syrotp-nonce", repeat_char "b"%char 32); ("x-syrotp-signature", repeat_char "a"%char 64)].

Definition gateway_request (body : json) : Request :=
  {| rq_headers := gateway_headers; rq_ip := "10.0.0.1"; rq_id := "req"; rq_rawBody := Some (stringify body);
     rq_body := body; rq_param_id := "rcv_1" |}.

Definition sms_json : json :=
  JObj [("from", JStr "+963991234567"); ("to", JStr "+963900000001"); ("body", JStr "hello");
        ("received_at", JStr "1970-01-01T00:00:01Z"); ("idempotency_key", JStr "key-0001")].

Definition at_1000 : Draws := {| ulid p := p; clock _ := 1000000%Z; db_now := 1000000%Z |}.

Definition gateway_server : Server Store := mkServer (mkWorld gateway_db [] []) ∅ [].

Definition sms_run : outcome exn Reply * Server Store :=
  inbound_sms (H := constant_digest) (H0 := plain_gcm) (H3 := sample_zod) (H4 := plain_phones) default_config
    at_1000 sample_fresh (fun _ => false) (gateway_request sms_json) gateway_server.

Lemma inbound_sms_spec_witness :
  match fst sms_run with Return reply => reply_status reply = 202%Z | Throw _ => False end /\
  (refused (fst sms_run) gateway_server (snd sms_run) \/ exists rc, In rc (receivers (db (sw gateway_server)))).
Proof.
  split; [vm_compute; reflexivity|]. destruct sms_run as [o s'] eqn:E. unfold sms_run in E.
  destruct (inbound_sms_spec (H := constant_digest) (H0 := plain_gcm) (H3 := sample_zod) (H4 := plain_phones)
    default_config at_1000 sample_fresh (fun _ => false) (gateway_request sms_json) gateway_server o s' E)
    as [Hr|(input & rc & r & body & o1 & w1 & _ & _ & _ & Hin & _)]; [by left|right].
  exists rc. exact Hin.
Defined.

Definition beat_run : outcome exn Reply * Server Store :=
  heartbeat (H := constant_digest) (H0 := plain_gcm) (H3 := sample_zod) default_config at_1000
    (gateway_request (JObj [("received_at", JStr "1970-01-01T00:16:40Z")])) gateway_server.

Lemma beat_accepted : match fst beat_run with Return _ => True | Throw _ => False end.
Proof. vm_compute. exact I. Qed.

Lemma heartbeat_keeps_healthy_witness :
  exists reply, fst beat_run = Return reply /\ reply_status reply = 200%Z.
Proof.
  pose proof beat_accepted as B. destruct beat_run as [[reply|e] s'] eqn:E; [|destruct B].
  exists reply. split; [reflexivity|]. unfold beat_run in E.
  apply (heartbeat_keeps_healthy (H := constant_digest) (H0 := plain_gcm) (H3 := sample_zod) default_config
    at_1000 _ gateway_server reply s' E); [vm_compute; reflexivity|repeat constructor].
Defined.
