(* ===== verification/WebAuthn.v ===== *)
(** * WebAuthn fallback: [services/webauthn.ts]

    The challenge store (single use, expiring) and the credential rows around the
    library @simplewebauthn/server, which enters as the class [WebAuthnLib]. *)

From S2P Require Import Prelude JsString Json Errors Crypto Config Schema Webhooks.
From Stdlib Require Import String Ascii.

Open Scope string_scope.
Open Scope js_scope.

Record RegistrationInfo : Type := {
  ri_id : string; ri_publicKey : string; ri_counter : Z; ri_transports : option (list string);
  ri_backedUp : bool; ri_deviceType : string;
}.

(** What the library answers; it throws on a malformed response or a mismatch of
    challenge, origin or relying party. *)
Class WebAuthnLib : Type := {
  generateOptions : json -> string -> string * json;
    (** options and random bytes to [opts.challenge] and the options *)
  verifyRegistrationResponse :
    json -> string -> list string -> string -> outcome exn (bool * option RegistrationInfo);
  verifyAuthenticationResponse :
    json -> string -> list string -> string -> string -> string -> Z -> list string ->
    outcome exn (option Z);
    (** response, challenge, origins, RP id, credential id, key, counter, transports
        to the new counter of a verified assertion *)
}.

(** [process.env.WEBAUTHN_ENABLED], the one setting read at run time *)
Definition isWebAuthnConfigured (cfg : Config) (WEBAUTHN_ENABLED : option string) : bool :=
  let enabled := toLowerCase (default "" WEBAUTHN_ENABLED) in
  if negb (String.eqb enabled "true") && negb (String.eqb enabled "1") then false
  else if negb (nonempty (default "" (WEBAUTHN_RP_ID cfg))) then false
  else nonempty (WEBAUTHN_ORIGINS cfg).

Definition rpId (cfg : Config) : outcome exn string :=
  match WEBAUTHN_RP_ID cfg with
  | Some id => if nonempty id then Return id
               else Throw (serviceUnavailable "webauthn_misconfigured" "WEBAUTHN_RP_ID is not set")
  | None => Throw (serviceUnavailable "webauthn_misconfigured" "WEBAUTHN_RP_ID is not set")
  end.

Definition rpName (cfg : Config) : string :=
  match WEBAUTHN_RP_NAME cfg with
  | Some n => n
  | None => default "SYROTP" (WEBAUTHN_RP_ID cfg)
  end.

Definition origins (cfg : Config) : outcome exn (list string) :=
  let raw := List.filter nonempty (map trim (split_on ","%char (WEBAUTHN_ORIGINS cfg))) in
  if (List.length raw =? 0)%nat then
    Throw (serviceUnavailable "webauthn_misconfigured" "WEBAUTHN_ORIGINS is not set")
  else Return raw.

Definition hashCredentialId `{Digest} (cfg : Config) (rawCredentialId : string) : string :=
  hashSecret "webauthn_cred_id" (MASTER_ENCRYPTION_KEY cfg) rawCredentialId.

(** ** Challenges *)

Inductive ChallengePurpose : Type := register | login.
Definition purpose_text (p : ChallengePurpose) : string :=
  match p with register => "register" | login => "login" end.

Definition createChallenge (cfg : Config) (ulid : string) (now dbNow : Z) (appId clientRef : string)
    (purpose : ChallengePurpose) (challenge : string) : SM unit :=
  insert t_webauthnChallenges webauthnChallenges_idx
    (mkWebauthnChallenge (newId WEBAUTHN_CHALLENGE_PREFIX ulid) appId clientRef challenge
       (purpose_text purpose) (now + WEBAUTHN_CHALLENGE_TTL_SECONDS cfg * 1000)%Z None dbNow).

(** The WHERE clause of the candidate: unused and not expired. *)
Definition active (appId clientRef : string) (purpose : ChallengePurpose) (now : Z)
    (c : WebauthnChallenge) : bool :=
  String.eqb (ch_appId c) appId && String.eqb (ch_clientRef c) clientRef
  && String.eqb (ch_purpose c) (purpose_text purpose)
  && negb (bool_decide (is_Some (ch_usedAt c))) && (now <? ch_expiresAt c)%Z.

Definition set_used (at_ : Z) (c : WebauthnChallenge) : WebauthnChallenge :=
  mkWebauthnChallenge (ch_id c) (ch_appId c) (ch_clientRef c) (ch_challenge c) (ch_purpose c)
    (ch_expiresAt c) (Some at_) (ch_createdAt c).

(** The rows of [ORDER BY created_at DESC] that can come first. *)
Definition latest (l : list WebauthnChallenge) : list WebauthnChallenge :=
  select (fun c => forallb (fun c' => ch_createdAt c' <=? ch_createdAt c)%Z l) l.

Definition consumeChallenge `{Limit1} (skip_locked : WebauthnChallenge -> bool) (now : Z)
    (appId clientRef : string) (purpose : ChallengePurpose) : SM (option string) :=
  transaction (
    let! row := gets (fun w => limit1 (latest (select (fun c => active appId clientRef purpose now c
                                                                && negb (skip_locked c))
                                                 (webauthnChallenges (db w))))) in
    match row with
    | None => ret None
    | Some row =>
        do! update t_webauthnChallenges (fun c => String.eqb (ch_id c) (ch_id row)) (set_used now) in
        ret (Some (ch_challenge row))
    end).

(** ** Ceremonies *)

Section Ceremonies.
Context `{Digest} `{WebAuthnLib} `{Limit1} (cfg : Config) (WEBAUTHN_ENABLED : option string).

Definition require_enabled : SM unit :=
  throw_if (negb (isWebAuthnConfigured cfg WEBAUTHN_ENABLED))
    (serviceUnavailable "webauthn_disabled" "WebAuthn fallback is disabled").

(** [listCredentialIdsForUser]: always empty. *)
Definition listCredentialIdsForUser (appId clientRef : string) : list json := [].

Definition buildRegisterOptions (ulid random : string) (now dbNow : Z) (appId clientRef : string)
    (userDisplayName : option string) : SM json :=
  do! require_enabled in
  let! rp := lift (rpId cfg) in
  let '(challenge, opts) := generateOptions
    (JObj [("rpID", JStr rp); ("rpName", JStr (rpName cfg)); ("userName", JStr clientRef);
           ("userDisplayName", JStr (default clientRef userDisplayName)); ("userID", JStr clientRef);
           ("attestationType", JStr "none");
           ("authenticatorSelection", JObj [("residentKey", JStr "preferred"); ("userVerification", JStr "preferred")]);
           ("timeout", JNum (WEBAUTHN_CHALLENGE_TTL_SECONDS cfg * 1000));
           ("excludeCredentials", JArr (listCredentialIdsForUser appId clientRef))]) random in
  do! createChallenge cfg ulid now dbNow appId clientRef register challenge in
  ret opts.

Definition buildLoginOptions (ulid random : string) (now dbNow : Z) (appId clientRef : string) : SM json :=
  do! require_enabled in
  let! rp := lift (rpId cfg) in
  let '(challenge, opts) := generateOptions
    (JObj [("rpID", JStr rp); ("allowCredentials", JArr (listCredentialIdsForUser appId clientRef));
           ("userVerification", JStr "preferred");
           ("timeout", JNum (WEBAUTHN_CHALLENGE_TTL_SECONDS cfg * 1000))]) random in
  do! createChallenge cfg ulid now dbNow appId clientRef login challenge in
  ret opts.

(** [if (!challenge) throw]: a challenge is missing or empty. *)
Definition take_challenge (skip_locked : WebauthnChallenge -> bool) (now : Z) (appId clientRef : string)
    (purpose : ChallengePurpose) : SM string :=
  let! challenge := consumeChallenge skip_locked now appId clientRef purpose in
  match challenge with
  | Some c => if nonempty c then ret c else throw (badRequest "challenge_invalid" "challenge missing or expired")
  | None => throw (badRequest "challenge_invalid" "challenge missing or expired")
  end.

Definition credential_of (appId hash : string) (c : WebauthnCredential) : bool :=
  String.eqb (wc_appId c) appId && String.eqb (wc_credentialIdHash c) hash.

Definition new_credential (ulid : string) (dbNow : Z) (appId clientRef hash : string) (info : RegistrationInfo)
    : WebauthnCredential :=
  mkWebauthnCredential (newId WEBAUTHN_CREDENTIAL_PREFIX ulid) appId clientRef hash (ri_publicKey info)
    (ri_counter info) (default [] (ri_transports info)) (Some (ri_backedUp info))
    (Some (String.eqb (ri_deviceType info) "multiDevice")) dbNow None.

(** The result is [credential_id]. *)
Definition verifyRegister (skip_locked : WebauthnChallenge -> bool) (ulid : string) (now dbNow : Z)
    (appId clientRef : string) (response : json) : SM string :=
  do! require_enabled in
  let! challenge := take_challenge skip_locked now appId clientRef register in
  let! expectedOrigin := lift (origins cfg) in
  let! rp := lift (rpId cfg) in
  let! verification := lift (verifyRegistrationResponse response challenge expectedOrigin rp) in
  match verification with
  | (true, Some info) =>
      let credentialIdHash := hashCredentialId cfg (ri_id info) in
      let! existing := select_one t_webauthnCredentials (credential_of appId credentialIdHash) in
      match existing with
      | Some _ => ret (ri_id info)
      | None =>
          do! insert t_webauthnCredentials webauthnCredentials_idx
                (new_credential ulid dbNow appId clientRef credentialIdHash info) in
          ret (ri_id info)
      end
  | _ => throw (badRequest "attestation_failed" "registration could not be verified")
  end.

(** [`${response.id}`] in the hash: a missing id reads [undefined]. *)
Definition response_id (response : json) : string :=
  match jfield "id" response with Some j => js_String j | None => "undefined" end.

Definition set_counter (newCounter now : Z) (c : WebauthnCredential) : WebauthnCredential :=
  mkWebauthnCredential (wc_id c) (wc_appId c) (wc_clientRef c) (wc_credentialIdHash c) (wc_publicKey c)
    newCounter (wc_transports c) (wc_backupState c) (wc_backupEligible c) (wc_createdAt c) (Some now).

Definition user_credential (appId clientRef hash : string) (c : WebauthnCredential) : bool :=
  String.eqb (wc_appId c) appId && String.eqb (wc_clientRef c) clientRef
  && String.eqb (wc_credentialIdHash c) hash.

Definition verifyLogin (skip_locked : WebauthnChallenge -> bool) (now usedNow : Z) (appId clientRef : string)
    (response : json) : SM unit :=
  do! require_enabled in
  let! challenge := take_challenge skip_locked now appId clientRef login in
  let credId := response_id response in
  let! credRow := select_one t_webauthnCredentials
                    (user_credential appId clientRef (hashCredentialId cfg credId)) in
  match credRow with
  | None => throw (notFound "webauthn_credential")
  | Some credRow =>
      let! expectedOrigin := lift (origins cfg) in
      let! rp := lift (rpId cfg) in
      let! verification := lift (verifyAuthenticationResponse response challenge expectedOrigin rp credId
                                   (wc_publicKey credRow) (wc_signCount credRow) (wc_transports credRow)) in
      match verification with
      | None => throw (badRequest "assertion_failed" "authentication could not be verified")
      | Some newCounter =>
          do! update t_webauthnCredentials (fun c => String.eqb (wc_id c) (wc_id credRow))
                (set_counter newCounter usedNow) in
          ret tt
      end
  end.
End Ceremonies.

(** ** Lemmas *)

Lemma latest_some (l : list WebauthnChallenge) :
  l <> [] -> exists c, In c l /\ forall c', In c' l -> (ch_createdAt c' <= ch_createdAt c)%Z.
Proof.
  induction l as [|x l IH]; [done|]. intros _. destruct l as [|y l].
  - exists x. split; [by left|]. intros c' [<-|[]]. lia.
  - destruct IH as (c & Hc & Hmax); [done|]. destruct (Z.le_ge_cases (ch_createdAt x) (ch_createdAt c)).
    + exists c. split; [by right|]. intros c' [<-|Hc']; [done|by apply Hmax].
    + exists x. split; [by left|]. intros c' [<-|Hc']; [lia|]. specialize (Hmax c' Hc'). lia.
Qed.

Section Consume.
Context `{Limit1} (skip_locked : WebauthnChallenge -> bool) (now : Z) (appId clientRef : string)
  (purpose : ChallengePurpose).

(** The table once [c] is used. *)
Definition burned (c : WebauthnChallenge) (D : DB) : DB :=
  set_rows t_webauthnChallenges
    (update_where (fun x => String.eqb (ch_id x) (ch_id c)) (set_used now) (webauthnChallenges D)) D.

(** The candidate: active, not locked, the newest of those. *)
Definition candidate (D : DB) (c : WebauthnChallenge) : Prop :=
  In c (webauthnChallenges D) /\ active appId clientRef purpose now c = true /\ skip_locked c = false /\
  forall c', In c' (webauthnChallenges D) -> active appId clientRef purpose now c' = true ->
    skip_locked c' = false -> (ch_createdAt c' <= ch_createdAt c)%Z.

Lemma consume_cases w :
  (exists c, candidate (db w) c /\
     consumeChallenge skip_locked now appId clientRef purpose w
     = (Return (Some (ch_challenge c)), set_db (burned c) w)) \/
  (consumeChallenge skip_locked now appId clientRef purpose w = (Return None, w) /\
   forall c, In c (webauthnChallenges (db w)) -> active appId clientRef purpose now c = true ->
     skip_locked c = true).
Proof.
  unfold consumeChallenge, transaction. rewrite bind_gets.
  destruct (limit1 (latest _)) as [c|] eqn:El.
  - left. exists c. apply limit1_In in El. unfold latest in El. apply select_In in El.
    destruct El as [Hc Hmax]. apply select_In in Hc. destruct Hc as [Hin Ha].
    apply andb_true_iff in Ha. destruct Ha as [Ha Hs%negb_true_iff]. split.
    + do 3 (split; [done|]). intros c' Hin' Ha' Hs'. rewrite forallb_forall in Hmax.
      apply Z.leb_le, Hmax, select_In. by rewrite Ha', Hs'.
    + rewrite bind_update. reflexivity.
  - right. split; [reflexivity|]. intros c Hin Ha. apply limit1_None in El. apply not_false_iff_true. intros Hs.
    destruct (latest_some (select (fun c => active appId clientRef purpose now c && negb (skip_locked c))
                (webauthnChallenges (db w)))) as (m & Hm & Hmax).
    { intros En. rewrite select_nil_iff in En. specialize (En c Hin). by rewrite Ha, Hs in En. }
    unfold latest in El. rewrite select_nil_iff in El. specialize (El m Hm).
    apply not_true_iff_false in El. apply El, forallb_forall. intros c' Hc'. by apply Z.leb_le, Hmax.
Qed.

Lemma burned_inactive c D x now' :
  In x (webauthnChallenges (burned c D)) -> ch_id x = ch_id c -> active appId clientRef purpose now' x = false.
Proof.
  cbn. intros Hx Hid. apply update_where_In in Hx.
  destruct Hx as [(y & _ & _ & ->)|[_ Hne]]; [|by rewrite Hid, String.eqb_refl in Hne].
  unfold active. cbn. by rewrite !andb_false_r.
Qed.

Lemma take_challenge_cases w :
  (exists c, candidate (db w) c /\ ch_challenge c <> "" /\
     take_challenge skip_locked now appId clientRef purpose w
     = (Return (ch_challenge c), set_db (burned c) w)) \/
  (exists e w', take_challenge skip_locked now appId clientRef purpose w = (Throw e, w') /\
     (w' = w \/ exists c, candidate (db w) c /\ w' = set_db (burned c) w)).
Proof.
  unfold take_challenge, bind. destruct (consume_cases w) as [(c & Hc & ->)|[-> _]].
  - destruct (nonempty (ch_challenge c)) eqn:En.
    + left. exists c. split; [done|]. split; [|done]. intros E. by rewrite E in En.
    + right. eexists _, _. split; [reflexivity|]. right. by exists c.
  - right. eexists _, _. split; [reflexivity|]. by left.
Qed.
End Consume.

(** C20: a login succeeds only with an active challenge of the user, which it uses up,
    for a stored credential of that app and user, when the library verifies the
    assertion against that challenge, key and counter; the counter the library
    returns is stored.  A failed login changes no credential and uses up at most
    one challenge. *)
Theorem verifyLogin_spec `{Digest} `{WebAuthnLib} `{Limit1} cfg env skip_locked now usedNow appId clientRef response w :
  match verifyLogin cfg env skip_locked now usedNow appId clientRef response w with
  | (Return _, w') =>
      exists c cr rps rp n, candidate skip_locked now appId clientRef login (db w) c /\
        In cr (webauthnCredentials (db w)) /\
        user_credential appId clientRef (hashCredentialId cfg (response_id response)) cr = true /\
        origins cfg = Return rps /\ rpId cfg = Return rp /\
        verifyAuthenticationResponse response (ch_challenge c) rps rp (response_id response) (wc_publicKey cr)
          (wc_signCount cr) (wc_transports cr) = Return (Some n) /\
        (forall x now', In x (webauthnChallenges (db w')) -> ch_id x = ch_id c ->
           active appId clientRef login now' x = false) /\
        webauthnCredentials (db w')
        = update_where (fun x => String.eqb (wc_id x) (wc_id cr)) (set_counter n usedNow) (webauthnCredentials (db w))
  | (Throw _, w') =>
      webauthnCredentials (db w') = webauthnCredentials (db w) /\
      (webauthnChallenges (db w') = webauthnChallenges (db w) \/
       exists c, candidate skip_locked now appId clientRef login (db w) c /\ db w' = burned now c (db w))
  end.
Proof.
  unfold verifyLogin, require_enabled. rewrite bind_throw_if.
  destruct (negb (isWebAuthnConfigured cfg env)); [split; [done|by left]|].
  unfold bind at 1.
  destruct (take_challenge_cases skip_locked now appId clientRef login w)
    as [(c & Hc & _ & ->)|(e & w' & -> & Hw')].
  2: { destruct Hw' as [->|(c & Hc & ->)]; split; try done; [by left|right; by exists c]. }
  assert (Hthrow : webauthnCredentials (db (set_db (burned now c) w)) = webauthnCredentials (db w) /\
    (webauthnChallenges (db (set_db (burned now c) w)) = webauthnChallenges (db w) \/
     exists c', candidate skip_locked now appId clientRef login (db w) c' /\
       db (set_db (burned now c) w) = burned now c' (db w))).
  { split; [done|]. right. by exists c. }
  rewrite bind_select_one. destruct (limit1 _) as [cr|] eqn:El; [|exact Hthrow].
  apply limit1_In, select_In in El. destruct El as [Hin Hu].
  unfold bind, lift. destruct (origins cfg) as [rps|e] eqn:Eo; [|exact Hthrow].
  destruct (rpId cfg) as [rp|e] eqn:Er; [|exact Hthrow].
  destruct (verifyAuthenticationResponse _ _ _ _ _ _ _ _) as [[n|]|e] eqn:Ev; [|exact Hthrow|exact Hthrow].
  cbn [update ret]. exists c, cr, rps, rp, n. do 6 (split; [done|]). split; [|reflexivity].
  intros x now' Hx Hid. eapply burned_inactive; [exact Hx|exact Hid].
Qed.
