(* ===== verification/Routes.v ===== *)
(** * Application routes

    [routes/verifications.ts], [routes/webhooks.ts], [routes/phoneBindings.ts] and
    [routes/webauthn.ts]: each handler checks the key, then its rate limits, then
    the request, and calls its service. *)

From S2P Require Import Prelude JsString Json Errors Phone Crypto Ssrf Aead Config Schema Webhooks PhoneBindings Verifications RateLimit Server Auth WebAuthn.
From Stdlib Require Import String Ascii.

Open Scope string_scope.
Open Scope js_scope.

(** The random draws of one request. *)
Record Random : Type := {
  code_draws : nat -> nat -> nat;      (** codes, by attempt *)
  nonce_bytes : nat -> nat;            (** the BIND nonce *)
  secret_bytes : string;               (** the webhook secret *)
  iv_bytes : string;
  challenge_bytes : string;
  fresh : Fresh;                       (** the webhook event *)
}.

(** ** JSON shapes *)

Definition verification_json (v : PublicVerification) : json :=
  JObj ([("id", JStr (pv_id v)); ("status", JStr (status_text (pv_status v)));
         ("phone_masked", JStr (pv_phone_masked v))]
        ++ jfield_opt "send_to" JStr (pv_send_to v) ++ jfield_opt "message" JStr (pv_message v)
        ++ [("client_ref", jopt JStr (pv_client_ref v)); ("purpose", JStr (pv_purpose v));
            ("expires_at", JStr (pv_expires_at v)); ("created_at", JStr (pv_created_at v));
            ("attempts", JNum (pv_attempts v))]
        ++ jfield_opt "verified_at" JStr (pv_verified_at v))%list.

Definition endpoint_fields (e : WebhookEndpointPublic) : list (string * json) :=
  [("id", JStr (wep_id e)); ("app_id", JStr (wep_app_id e)); ("url", JStr (wep_url e));
   ("enabled", JBool (wep_enabled e)); ("event_types", JArr (map JStr (wep_event_types e)));
   ("created_at", JStr (wep_created_at e)); ("updated_at", JStr (wep_updated_at e))].

Definition binding_json (b : PhoneBinding) : json :=
  JObj [("id", JStr (pb_id b)); ("app_id", JStr (pb_app_id b)); ("receiver_id", JStr (pb_receiver_id b));
        ("phone_e164", JStr (pb_phone_e164 b)); ("status", JStr (pb_status b));
        ("expires_at", JStr (pb_expires_at b)); ("bound_at", jopt JStr (pb_bound_at b));
        ("revoked_at", jopt JStr (pb_revoked_at b)); ("created_at", JStr (pb_created_at b))].

(** ** Bodies *)

Record StartBody : Type := {
  st_phone : string; st_purpose : string; st_client_ref : option string; st_locale : option string;
  st_operator : option string;
}.

Definition is_operator_char (c : ascii) : bool := is_alnum c || Ascii.eqb c "_" || Ascii.eqb c "-".

Definition startBody (j : json) : option StartBody :=
  if negb (z_is_object j) then None
  else
    match z_string 5 20 (jfield "phone" j), z_string 2 64 (jfield "purpose" j),
          z_optional (z_string 0 128) (jfield "client_ref" j), z_optional (z_string 0 16) (jfield "locale" j),
          z_optional (fun f => z_matching (all_chars is_operator_char) (z_string 1 32 f)) (jfield "operator" j) with
    | Some phone, Some purpose, Some client_ref, Some locale, Some operator =>
        Some {| st_phone := phone; st_purpose := purpose; st_client_ref := client_ref; st_locale := locale;
                st_operator := operator |}
    | _, _, _, _, _ => None
    end.

Definition event_type_entries (l : list json) : option (list string) :=
  mapM (fun j => match j with JStr s => if isValidEventType s then Some s else None | _ => None end) l.

Definition createBody (j : json) : option (string * list string) :=
  if negb (z_is_object j) then None
  else
    match z_string 1 2048 (jfield "url" j), jfield "event_types" j with
    | Some url, Some (JArr l) =>
        if (1 <=? List.length l)%nat && (List.length l <=? List.length VERIFICATION_EVENT_TYPES)%nat then
          match event_type_entries l with Some events => Some (url, events) | None => None end
        else None
    | _, _ => None
    end.

(** phone and receiver id *)
Definition bindingBody (j : json) : option (string * string) :=
  if negb (z_is_object j) then None
  else
    match z_string 4 32 (jfield "phone" j),
          z_matching (prefixed_id "rcv") (z_str (jfield "receiver_id" j)) with
    | Some phone, Some receiver_id => Some (phone, receiver_id)
    | _, _ => None
    end.

Definition is_client_ref_char (c : ascii) : bool :=
  is_alnum c || existsb (Ascii.eqb c) ["_"; "-"; ":"; "."]%char.
Definition clientRefField (j : option json) : option string :=
  z_matching (all_chars is_client_ref_char) (z_string 1 128 j).

Definition optionsBody (j : json) : option (string * option string) :=
  if negb (z_is_object j) then None
  else
    match clientRefField (jfield "client_ref" j), z_optional (z_string 1 128) (jfield "user_display_name" j) with
    | Some client_ref, Some name => Some (client_ref, name)
    | _, _ => None
    end.

(** the client reference, and the response as it came *)
Definition verifyBody (j : json) : option (string * option json) :=
  if negb (z_is_object j) then None
  else match clientRefField (jfield "client_ref" j) with
       | Some client_ref => Some (client_ref, jfield "response" j)
       | None => None
       end.

(** [!response || typeof response !== "object"], negated *)
Definition object_response (response : option json) : option json :=
  match response with
  | Some (JObj fs) => Some (JObj fs)
  | Some (JArr l) => Some (JArr l)
  | _ => None
  end.

Definition validation_error : exn := badRequest "validation_error" "invalid request body".

Section Routes.
Context `{Digest} `{Gcm} `{Redis R} `{Limit1} `{Zod} `{PhoneLib} `{UrlParser} `{Resolver} `{WebAuthnLib}
  (cfg : Config) (env : ProcessEnv) (WEBAUTHN_ENABLED : option string)
  (skip_locked : WebauthnChallenge -> bool) (d : Draws) (rd : Random) (req : Request).

Definition validation_error_with (schema : string) : exn :=
  badRequestWith "validation_error" "invalid request body" [("issues", zod_issues schema (rq_body req))].

Definition audit_entry (auth : AuthedKey) (action type id : string) (ip ua : option string)
    (meta : option (list (string * json))) : AuditEntry :=
  {| ae_appId := Some (ak_appId auth); ae_actor := Some ("key:" ++ ak_id auth); ae_action := action;
     ae_resourceType := Some type; ae_resourceId := Some id; ae_ip := ip; ae_userAgent := ua;
     ae_requestId := Some (rq_id req); ae_meta := meta |}.

(** ** [routes/verifications.ts] *)

(** [normalizePhone] with its [PhoneError]s mapped to 400. *)
Definition phone_of (raw : string) : outcome exn NormalizedPhone :=
  match normalizePhone raw (DEFAULT_PHONE_REGION cfg) with
  | Return n => Return n
  | Throw (PhoneError code) => Throw (badRequest code "phone is not valid")
  | Throw e => Throw e
  end.

Definition post_verifications : RM R Reply :=
  let! auth := requireKey cfg req [public; secret] in
  do! rate_guard ("start:ip:" ++ rq_ip req) (RATE_LIMIT_START_PER_IP_PER_MIN cfg) (clock d 0) (clock d 1) "start" in
  do! rate_guard ("start:app:" ++ ak_appId auth) (RATE_LIMIT_VERIFICATIONS_PER_APP_PER_MIN cfg)
        (clock d 2) (clock d 3) "verification_start_per_app" in
  match startBody (rq_body req) with
  | None => throw (validation_error_with "startBody")
  | Some body =>
      do! lift_outcome (validatePurpose (st_purpose body)) in
      let! phone := lift_outcome (phone_of (st_phone body)) in
      let! v := on_world (startVerification cfg (ulid d VERIFICATION_PREFIX) (code_draws rd) (clock d 4) (db_now d)
        {| sv_appId := ak_appId auth; sv_phoneE164 := e164 phone; sv_purpose := st_purpose body;
           sv_clientRef := st_client_ref body; sv_locale := st_locale body; sv_ip := Some (rq_ip req);
           sv_preferredOperator := st_operator body |}) in
      do! on_world (count (verificationStarted (ak_appId auth))) in
      do! on_world (audit d (audit_entry auth "verification.start" "verification" (pv_id v) (Some (rq_ip req))
             (header req "user-agent")
             (Some [("phone_masked", JStr (pv_phone_masked v)); ("purpose", JStr (st_purpose body))]))) in
      ret (json_reply 201 (verification_json v))
  end.

Definition get_verification : RM R Reply :=
  let! auth := requireKey cfg req [public; secret] in
  do! rate_guard ("status:ip:" ++ rq_ip req) (RATE_LIMIT_STATUS_PER_IP_PER_MIN cfg) (clock d 0) (clock d 1) "status" in
  do! throw_if (negb (prefixed_id "vrf" (rq_param_id req))) (notFound "verification") in
  let! v := on_world (getVerification (clock d 2) (ak_appId auth) (rq_param_id req)
                        (if kind_eqb (ak_kind auth) secret then secret else public)) in
  ret (json_reply 200 (verification_json v)).

Definition post_cancel : RM R Reply :=
  let! auth := requireKey cfg req [secret] in
  do! rate_guard ("cancel:app:" ++ ak_appId auth) (RATE_LIMIT_CANCEL_PER_APP_PER_MIN cfg)
        (clock d 0) (clock d 1) "verification_cancel_per_app" in
  do! throw_if (negb (prefixed_id "vrf" (rq_param_id req))) (notFound "verification") in
  let! result := on_world (cancelVerification (fresh rd) (clock d 2) (clock d 3) (ak_appId auth) (rq_param_id req)) in
  do! on_world (count (verificationTerminal (ak_appId auth) "cancelled")) in
  do! on_world (audit d (audit_entry auth "verification.cancel" "verification" (rq_param_id req)
         (Some (rq_ip req)) None None)) in
  ret (json_reply 200 (verification_json result)).

(** ** [routes/webhooks.ts] *)

Definition webhookCrudRateLimit (appId : string) : RM R unit :=
  rate_guard ("webhook_crud:app:" ++ appId) (RATE_LIMIT_WEBHOOK_CRUD_PER_APP_PER_MIN cfg)
    (clock d 0) (clock d 1) "webhook_crud_per_app".

Definition post_webhooks : RM R Reply :=
  let! auth := requireKey cfg req [secret] in
  do! webhookCrudRateLimit (ak_appId auth) in
  match createBody (rq_body req) with
  | None => throw (validation_error_with "createBody")
  | Some (url, event_types) =>
      let! created := try_catch
        (on_world (createWebhookEndpoint env (MASTER_ENCRYPTION_KEY cfg) (ulid d WEBHOOK_ENDPOINT_PREFIX)
           (secret_bytes rd) (iv_bytes rd) (clock d 2)
           {| cw_appId := ak_appId auth; cw_url := url; cw_eventTypes := event_types |}))
        (fun err => match err with
                    | WebhookValidationError code message => throw (badRequest code message)
                    | _ => throw err
                    end) in
      do! on_world (audit d (audit_entry auth "webhook.create" "webhook_endpoint" (wep_id (wes_public created))
             (Some (rq_ip req)) (header req "user-agent")
             (Some [("url", JStr (wep_url (wes_public created)));
                    ("event_types", JArr (map JStr (wep_event_types (wes_public created))))]))) in
      ret (json_reply 201 (JObj (endpoint_fields (wes_public created) ++ [("secret", JStr (wes_secret created))])%list))
  end.

Definition get_webhooks : RM R Reply :=
  let! auth := requireKey cfg req [secret] in
  do! webhookCrudRateLimit (ak_appId auth) in
  let! rows := on_world (listWebhookEndpoints (ak_appId auth)) in
  ret (json_reply 200 (JObj [("data", JArr (map (fun e => JObj (endpoint_fields e)) rows))])).

Definition get_webhook : RM R Reply :=
  let! auth := requireKey cfg req [secret] in
  do! webhookCrudRateLimit (ak_appId auth) in
  do! throw_if (negb (prefixed_id "whk" (rq_param_id req))) (notFound "webhook_endpoint") in
  let! e := on_world (getWebhookEndpoint (ak_appId auth) (rq_param_id req)) in
  ret (json_reply 200 (JObj (endpoint_fields e))).

Definition delete_webhook : RM R Reply :=
  let! auth := requireKey cfg req [secret] in
  do! webhookCrudRateLimit (ak_appId auth) in
  do! throw_if (negb (prefixed_id "whk" (rq_param_id req))) (notFound "webhook_endpoint") in
  do! on_world (deleteWebhookEndpoint (ak_appId auth) (rq_param_id req)) in
  do! on_world (audit d (audit_entry auth "webhook.delete" "webhook_endpoint" (rq_param_id req)
         (Some (rq_ip req)) (header req "user-agent") None)) in
  ret (json_reply 204 JNull).

(** ** [routes/phoneBindings.ts] *)

Definition post_binding_start : RM R Reply :=
  let! auth := requireKey cfg req [secret] in
  do! rate_guard ("phone_binding_start:app:" ++ ak_appId auth) (RATE_LIMIT_BINDINGS_PER_APP_PER_MIN cfg)
        (clock d 0) (clock d 1) "phone_binding_start_per_app" in
  match bindingBody (rq_body req) with
  | None => throw (validation_error_with "bindingBody")
  | Some (phone, receiver_id) =>
      let! result := on_world (startBinding cfg (ulid d PHONE_BINDING_PREFIX) (nonce_bytes rd) (clock d 2) (db_now d)
        {| sb_appId := ak_appId auth; sb_receiverId := receiver_id; sb_phone := phone |}) in
      let b := binding result in
      do! on_world (audit d (audit_entry auth "phone_binding.start" "phone_binding" (pb_id b) None None
             (Some [("phone_e164", JStr (pb_phone_e164 b)); ("receiver_id", JStr (pb_receiver_id b))]))) in
      ret (json_reply 201 (JObj [("binding_id", JStr (pb_id b)); ("phone_e164", JStr (pb_phone_e164 b));
             ("receiver_id", JStr (pb_receiver_id b)); ("status", JStr (pb_status b));
             ("expires_at", JStr (pb_expires_at b)); ("send_to", JStr (sb_send_to result));
             ("bind_message", JStr (bind_message result))]))
  end.

Definition get_binding : RM R Reply :=
  let! auth := requireKey cfg req [secret] in
  do! rate_guard ("phone_binding_read:app:" ++ ak_appId auth) (RATE_LIMIT_BINDING_READ_PER_APP_PER_MIN cfg)
        (clock d 0) (clock d 1) "phone_binding_read_per_app" in
  do! throw_if (negb (prefixed_id "pbn" (rq_param_id req))) (badRequest "validation_error" "invalid id") in
  let! b := on_world (getBinding (ak_appId auth) (rq_param_id req)) in
  ret (json_reply 200 (binding_json b)).

Definition post_binding_revoke : RM R Reply :=
  let! auth := requireKey cfg req [secret] in
  do! rate_guard ("phone_binding_revoke:app:" ++ ak_appId auth) (RATE_LIMIT_BINDING_REVOKE_PER_APP_PER_MIN cfg)
        (clock d 0) (clock d 1) "phone_binding_revoke_per_app" in
  do! throw_if (negb (prefixed_id "pbn" (rq_param_id req))) (badRequest "validation_error" "invalid id") in
  let! updated := on_world (revokeBinding (clock d 2) (ak_appId auth) (rq_param_id req)) in
  do! on_world (audit d (audit_entry auth "phone_binding.revoke" "phone_binding" (pb_id updated) None None
         (Some [("phone_e164", JStr (pb_phone_e164 updated))]))) in
  ret (json_reply 200 (binding_json updated)).

(** ** [routes/webauthn.ts] *)

Definition webauthnRateLimit (appId : string) : RM R unit :=
  rate_guard ("webauthn:app:" ++ appId) (RATE_LIMIT_WEBAUTHN_PER_APP_PER_MIN cfg)
    (clock d 0) (clock d 1) "webauthn_per_app".

Definition post_register_options : RM R Reply :=
  let! auth := requireKey cfg req [secret] in
  do! webauthnRateLimit (ak_appId auth) in
  match optionsBody (rq_body req) with
  | None => throw (validation_error_with "optionsBody")
  | Some (client_ref, name) =>
      let! opts := on_world (buildRegisterOptions cfg WEBAUTHN_ENABLED (ulid d WEBAUTHN_CHALLENGE_PREFIX)
        (challenge_bytes rd) (clock d 2) (db_now d) (ak_appId auth) client_ref name) in
      ret (json_reply 200 opts)
  end.

Definition post_register_verify : RM R Reply :=
  let! auth := requireKey cfg req [secret] in
  do! webauthnRateLimit (ak_appId auth) in
  match verifyBody (rq_body req) with
  | None => throw validation_error
  | Some (client_ref, response) =>
      match object_response response with
      | None => throw (badRequest "validation_error" "response is required")
      | Some response =>
          let! credential_id := on_world (verifyRegister cfg WEBAUTHN_ENABLED skip_locked
            (ulid d WEBAUTHN_CREDENTIAL_PREFIX) (clock d 2) (db_now d) (ak_appId auth) client_ref response) in
          do! on_world (audit d (audit_entry auth "webauthn.register" "webauthn_credential" credential_id
                 (Some (rq_ip req)) None (Some [("client_ref", JStr client_ref)]))) in
          ret (json_reply 200 (JObj [("credential_id", JStr credential_id)]))
      end
  end.

Definition post_login_options : RM R Reply :=
  let! auth := requireKey cfg req [secret] in
  do! webauthnRateLimit (ak_appId auth) in
  match optionsBody (rq_body req) with
  | None => throw validation_error
  | Some (client_ref, _) =>
      let! opts := on_world (buildLoginOptions cfg WEBAUTHN_ENABLED (ulid d WEBAUTHN_CHALLENGE_PREFIX)
        (challenge_bytes rd) (clock d 2) (db_now d) (ak_appId auth) client_ref) in
      ret (json_reply 200 opts)
  end.

Definition post_login_verify : RM R Reply :=
  let! auth := requireKey cfg req [secret] in
  do! webauthnRateLimit (ak_appId auth) in
  match verifyBody (rq_body req) with
  | None => throw validation_error
  | Some (client_ref, response) =>
      match object_response response with
      | None => throw (badRequest "validation_error" "response is required")
      | Some response =>
          do! on_world (verifyLogin cfg WEBAUTHN_ENABLED skip_locked (clock d 2) (clock d 3) (ak_appId auth)
                 client_ref response) in
          do! on_world (audit d
                 {| ae_appId := Some (ak_appId auth); ae_actor := Some ("key:" ++ ak_id auth);
                    ae_action := "webauthn.login"; ae_resourceType := Some "webauthn_credential";
                    ae_resourceId := None; ae_ip := Some (rq_ip req); ae_userAgent := None;
                    ae_requestId := Some (rq_id req); ae_meta := Some [("client_ref", JStr client_ref)] |}) in
          ret (json_reply 200 (JObj [("verified", JBool true)]))
      end
  end.

(** ** The routing table *)

Inductive Route : Type :=
  | PostVerifications | GetVerification | PostCancel
  | PostWebhooks | GetWebhooks | GetWebhook | DeleteWebhook
  | PostBindingStart | GetBinding | PostBindingRevoke
  | PostRegisterOptions | PostRegisterVerify | PostLoginOptions | PostLoginVerify.

Definition handle (route : Route) : RM R Reply :=
  match route with
  | PostVerifications => post_verifications
  | GetVerification => get_verification
  | PostCancel => post_cancel
  | PostWebhooks => post_webhooks
  | GetWebhooks => get_webhooks
  | GetWebhook => get_webhook
  | DeleteWebhook => delete_webhook
  | PostBindingStart => post_binding_start
  | GetBinding => get_binding
  | PostBindingRevoke => post_binding_revoke
  | PostRegisterOptions => post_register_options
  | PostRegisterVerify => post_register_verify
  | PostLoginOptions => post_login_options
  | PostLoginVerify => post_login_verify
  end.

(** The keys a route admits. *)
Definition route_kinds (route : Route) : list apiKeyKind :=
  match route with
  | PostVerifications | GetVerification => [public; secret]
  | _ => [secret]
  end.
End Routes.
