(* ===== verification/Isolation.v ===== *)
(** * Tenant isolation of the application routes

    A request changes nothing that belongs to another app: the rows of every table
    outside the app of the key it carries stay as they are, in the same order. *)

From S2P Require Import Prelude JsString Json Errors Phone Crypto Ssrf Aead Config Schema Webhooks PhoneBindings Verifications RateLimit Server Auth WebAuthn Routes.
From Stdlib Require Import String Ascii.

Open Scope string_scope.
Open Scope js_scope.

(** The rows of other apps. *)
Definition others {A} (app : A -> string) (appId : string) (t : list A) : list A :=
  select (fun r => negb (String.eqb (app r) appId)) t.

Section Others.
Context {A : Type} (app : A -> string) (appId : string).
Implicit Types (t : list A) (p : A -> bool) (f : A -> A).

Lemma others_app t u : others app appId (t ++ u) = (others app appId t ++ others app appId u)%list.
Proof. apply List.filter_app. Qed.

Lemma others_own t : (forall r, In r t -> app r = appId) -> others app appId t = [].
Proof.
  intros H. apply select_nil_iff. intros r Hr. by rewrite (H r Hr), String.eqb_refl.
Qed.

Lemma others_insert t r : app r = appId -> others app appId (t ++ [r]) = others app appId t.
Proof.
  intros H. rewrite others_app, (others_own [r]), app_nil_r; [done|]. by intros x [<-|[]].
Qed.

Lemma others_update t p f :
  (forall r, In r t -> p r = true -> app r = appId /\ app (f r) = appId) ->
  others app appId (update_where p f t) = others app appId t.
Proof.
  induction t as [|r t IH]; intros H; [done|]. specialize (IH (fun x Hx => H x (or_intror Hx))).
  change (update_where p f (r :: t)) with ((if p r then f r else r) :: update_where p f t).
  unfold others, select in *. cbn [List.filter]. destruct (p r) eqn:E; [|by rewrite IH].
  destruct (H r (or_introl eq_refl) E) as [-> ->]. by rewrite String.eqb_refl.
Qed.

Lemma others_delete t p :
  (forall r, In r t -> p r = true -> app r = appId) -> others app appId (delete_where p t) = others app appId t.
Proof.
  induction t as [|r t IH]; intros H; [done|]. specialize (IH (fun x Hx => H x (or_intror Hx))).
  unfold others, select, delete_where in *. cbn [List.filter]. destruct (p r) eqn:E; cbn [negb List.filter].
  - by rewrite (H r (or_introl eq_refl) E), String.eqb_refl, IH.
  - by rewrite IH.
Qed.
End Others.

Lemma In_imap {A B} (f : nat -> A -> B) l x : In x (imap f l) -> exists i y, x = f i y /\ In y l.
Proof.
  intros H. apply list_elem_of_In, elem_of_lookup_imap in H. destruct H as (i & y & -> & Hy).
  exists i, y. split; [done|]. by apply list_elem_of_In, list_elem_of_lookup_2 with i.
Qed.

(** Deleting rows that fail a test keeps the rows that pass it. *)
Lemma select_delete_where {A} (p q : A -> bool) t :
  (forall r, In r t -> p r = true -> q r = false) -> select q (delete_where p t) = select q t.
Proof.
  induction t as [|r t IH]; intros H; [done|]. specialize (IH (fun x Hx => H x (or_intror Hx))).
  unfold select, delete_where in *. cbn [List.filter]. destruct (p r) eqn:E; cbn [negb List.filter].
  - by rewrite (H r (or_introl eq_refl) E).
  - by rewrite IH.
Qed.

(** The keys the statements of the routes rely on. *)
Definition keyed (D : DB) : Prop :=
  respects webhookEndpoints_idx (webhookEndpoints D) /\
  respects webauthnChallenges_idx (webauthnChallenges D) /\
  respects webauthnCredentials_idx (webauthnCredentials D).

(** The app of a log entry. *)
Definition audit_app (a : AuditLog) : string := default "" (a_appId a).

Record same_for_others (appId : string) (D D' : DB) : Prop := {
  so_apps : apps D' = apps D;
  so_keys : apiKeys D' = apiKeys D;
  so_receivers : receivers D' = receivers D;
  so_sms : inboundSms D' = inboundSms D;
  so_verifications : others v_appId appId (verifications D') = others v_appId appId (verifications D);
  so_endpoints : others we_appId appId (webhookEndpoints D') = others we_appId appId (webhookEndpoints D);
  so_events : others ev_appId appId (webhookEvents D') = others ev_appId appId (webhookEvents D);
  so_deliveries : forall e, In e (webhookEndpoints D) -> we_appId e <> appId ->
    select (fun x => String.eqb (d_endpointId x) (we_id e)) (webhookDeliveries D')
    = select (fun x => String.eqb (d_endpointId x) (we_id e)) (webhookDeliveries D);
  so_credentials : others wc_appId appId (webauthnCredentials D') = others wc_appId appId (webauthnCredentials D);
  so_challenges : others ch_appId appId (webauthnChallenges D') = others ch_appId appId (webauthnChallenges D);
  so_bindings : others b_appId appId (phoneBindings D') = others b_appId appId (phoneBindings D);
  so_audit : others audit_app appId (auditLog D') = others audit_app appId (auditLog D);
}.

(** What every statement of a request of [appId] does: the keys stay, and so do the
    rows of others. *)
Definition isolated (appId : string) (D D' : DB) : Prop :=
  keyed D -> keyed D' /\ same_for_others appId D D'.

Lemma same_for_others_refl appId D : same_for_others appId D D.
Proof. by split. Qed.

#[export] Instance isolated_preorder appId : PreOrder (isolated appId).
Proof.
  split.
  - intros D Hk. split; [done|apply same_for_others_refl].
  - intros D1 D2 D3 H12 H23 Hk. destruct (H12 Hk) as [Hk2 S]. destruct (H23 Hk2) as [Hk3 T].
    split; [done|]. destruct S, T. split; try congruence.
    intros e He Hne. rewrite so_deliveries1; [by apply so_deliveries0| |done].
    assert (Ho : In e (others we_appId appId (webhookEndpoints D2))).
    { rewrite so_endpoints0. apply select_In. split; [done|]. apply negb_true_iff. by apply String.eqb_neq. }
    apply select_In in Ho. apply Ho.
Qed.

(** A change of one table that is not keyed and not a delivery. *)
Ltac one_table := intros; intros ?; split; [assumption|]; split; try reflexivity; cbn.

Section Statements.
Context (appId : string).

Lemma iso_verification_insert r : v_appId r = appId -> moves (world_db (isolated appId)) (insert t_verifications verifications_idx r).
Proof. intros H. apply moves_insert; [exact _|]. one_table. by apply others_insert. Qed.

Lemma iso_verification_update p f :
  (forall v, p v = true -> v_appId v = appId) -> (forall v, v_appId (f v) = v_appId v) ->
  moves (world_db (isolated appId)) (update t_verifications p f).
Proof.
  intros Hp Hf. apply moves_update. one_table. apply others_update.
  intros v _ E. rewrite Hf. by rewrite (Hp v E).
Qed.

Lemma iso_binding_insert r : b_appId r = appId -> moves (world_db (isolated appId)) (insert t_phoneBindings phoneBindings_idx r).
Proof. intros H. apply moves_insert; [exact _|]. one_table. by apply others_insert. Qed.

Lemma iso_binding_update p f :
  (forall b, p b = true -> b_appId b = appId) -> (forall b, b_appId (f b) = b_appId b) ->
  moves (world_db (isolated appId)) (update t_phoneBindings p f).
Proof.
  intros Hp Hf. apply moves_update. one_table. apply others_update.
  intros b _ E. rewrite Hf. by rewrite (Hp b E).
Qed.

Lemma iso_audit d entry : ae_appId entry = Some appId -> moves (world_db (isolated appId)) (audit d entry).
Proof.
  intros H. apply moves_try; [exact _| |intros; apply moves_ret; exact _].
  apply moves_insert; [exact _|]. one_table. apply others_insert. unfold audit_app. cbn. by rewrite H.
Qed.

Lemma iso_event_insert r : ev_appId r = appId -> moves (world_db (isolated appId)) (insert t_webhookEvents webhookEvents_idx r).
Proof. intros H. apply moves_insert; [exact _|]. one_table. by apply others_insert. Qed.

(** Tables under [keyed]. *)
Lemma iso_endpoint_insert r : we_appId r = appId -> moves (world_db (isolated appId)) (insert t_webhookEndpoints webhookEndpoints_idx r).
Proof.
  intros H. apply moves_insert; [exact _|]. intros D Hb (H1 & H2 & H3).
  split; [split; [by apply respects_insert|by split]|]. split; try reflexivity. cbn. by apply others_insert.
Qed.

Lemma iso_challenge_insert r : ch_appId r = appId -> moves (world_db (isolated appId)) (insert t_webauthnChallenges webauthnChallenges_idx r).
Proof.
  intros H. apply moves_insert; [exact _|]. intros D Hb (H1 & H2 & H3).
  split; [split; [done|split; [by apply respects_insert|done]]|]. split; try reflexivity. cbn. by apply others_insert.
Qed.

Lemma iso_credential_insert r : wc_appId r = appId -> moves (world_db (isolated appId)) (insert t_webauthnCredentials webauthnCredentials_idx r).
Proof.
  intros H. apply moves_insert; [exact _|]. intros D Hb (H1 & H2 & H3).
  split; [split; [done|split; [done|by apply respects_insert]]|]. split; try reflexivity. cbn. by apply others_insert.
Qed.

(** A challenge of the app used up. *)
Lemma iso_burned `{Limit1} skip_locked now clientRef purpose D c :
  candidate skip_locked now appId clientRef purpose D c -> isolated appId D (burned now c D).
Proof.
  intros (Hin & Ha & _) (H1 & H2 & H3). unfold active in Ha. destruct_and_ex. reflect_eqb.
  split; [split; [done|split; [|done]]|].
  - cbn. by apply respects_update; [intros ix x y [<-|[]]|intros ix x y [<-|[]]|].
  - split; try reflexivity. cbn. apply others_update. intros r Hr Hid. apply String.eqb_eq in Hid.
    assert (r = c) as -> by (by eapply (pkey_inj _ ch_id)). done.
Qed.
End Statements.

(** ** The services *)

Section Services.
Context `{Limit1} (appId : string).

Lemma iso_cancel fr now id : moves (world_db (isolated appId)) (cancel_tx fr now appId id).
Proof.
  intros w o w' E. unfold cancel_tx in E.
  match type of E with transaction (bind _ (fun result => match result with [] => ?k | _ => _ end)) _ = _ =>
    destruct (transition_cases ev_cancelled fr (fun v => verification_is appId id v && is_pending v)
      (set_cancelled now) k w ltac:(done)) as [[_ Et]|(v & l & Es & [Et|(name & c & Et & _)])]
  end; rewrite Et in E.
  - unfold transaction in E. rewrite bind_select_one in E.
    destruct (limit1 _); injection E as <- <-; change (isolated appId (db w) (db w)); reflexivity.
  - injection E as <- <-. intros Hk. split; [exact Hk|].
    assert (Hv : In v (select (fun v => verification_is appId id v && is_pending v) (verifications (db w))))
      by (rewrite Es; by left).
    apply select_In in Hv. destruct Hv as [_ Hv]. unfold verification_is in Hv. destruct_and_ex. reflect_eqb.
    split; try reflexivity; cbn.
    + apply others_update. unfold verification_is. intros x _ Hx. cbv beta in *. destruct_and_ex. by reflect_eqb.
    + by apply others_insert.
    + intros e He Hne. unfold select at 1. rewrite List.filter_app. fold (select (fun x => String.eqb (d_endpointId x) (we_id e))).
      match goal with |- (_ ++ ?l)%list = _ => assert (l = []) as ->; [|apply app_nil_r] end.
      apply select_nil_iff. intros x Hx. apply String.eqb_neq. intros Hid. apply Hne.
      apply In_imap in Hx. destruct Hx as (i & e' & -> & He'). apply select_In in He'. destruct He' as [He' Hs].
      unfold subscribed in Hs. destruct_and_ex. reflect_eqb.
      assert (e' = e) as <- by (by eapply (pkey_inj _ we_id); [apply Hk| | |]). congruence.
  - injection E as <- <-. change (isolated appId (db w) (db w)). reflexivity.
Qed.

Lemma iso_delete_endpoint id : moves (world_db (isolated appId)) (deleteWebhookEndpoint appId id).
Proof.
  intros w o w' E Hk. unfold deleteWebhookEndpoint in E. rewrite !bind_delete in E.
  assert (Hdb : db w' = set_rows t_webhookDeliveries
    (delete_where (fun x => existsb (fun e => String.eqb (d_endpointId x) (we_id e))
                              (select (endpoint_is appId id) (webhookEndpoints (db w)))) (webhookDeliveries (db w)))
    (set_rows t_webhookEndpoints (delete_where (endpoint_is appId id) (webhookEndpoints (db w))) (db w))).
  { revert E. unfold throw_if. destruct (_ =? _)%nat; by intros [= <- <-]. }
  rewrite Hdb. split; [split; [by apply respects_delete, Hk|apply Hk]|].
  split; try reflexivity; cbn.
  - apply others_delete. unfold endpoint_is. intros e _ He. destruct_and_ex. by reflect_eqb.
  - intros e He Hne. apply select_delete_where. intros x _ Hx. apply String.eqb_neq. intros Hid. apply Hne.
    apply existsb_exists in Hx. destruct Hx as (e' & He' & Hx). apply select_In in He'.
    destruct He' as [He' Hp]. unfold endpoint_is in Hp. destruct_and_ex. reflect_eqb.
    assert (e' = e) as <- by (eapply (pkey_inj _ we_id); [apply Hk|done|done|congruence]). done.
Qed.

Lemma iso_take_challenge skip_locked now clientRef purpose :
  moves (world_db (isolated appId)) (take_challenge skip_locked now appId clientRef purpose).
Proof.
  intros w o w' E.
  destruct (take_challenge_cases skip_locked now appId clientRef purpose w)
    as [(c & Hc & _ & Et)|(e & w1 & Et & Hw)]; rewrite Et in E; injection E as <- <-.
  - by eapply iso_burned.
  - destruct Hw as [->|(c & Hc & ->)]; [unfold world_db; reflexivity|by eapply iso_burned].
Qed.

(** A credential row of the app: the update by id touches no other row. *)
Lemma iso_credential_update cr f D :
  In cr (webauthnCredentials D) -> wc_appId cr = appId ->
  (forall c, wc_id (f c) = wc_id c /\ wc_appId (f c) = wc_appId c /\ wc_credentialIdHash (f c) = wc_credentialIdHash c) ->
  isolated appId D (set_rows t_webauthnCredentials
    (update_where (fun c => String.eqb (wc_id c) (wc_id cr)) f (webauthnCredentials D)) D).
Proof.
  intros Hin Happ Hf (K1 & K2 & K3). split; [split; [done|split; [done|]]|].
  - cbn. apply respects_update; [| |done]; intros ix x y [<-|[<-|[]]]; cbn.
    + by rewrite (proj1 (Hf x)).
    + by rewrite (proj1 (proj2 (Hf x))), (proj2 (proj2 (Hf x))).
    + by rewrite (proj1 (Hf y)).
    + by rewrite (proj1 (proj2 (Hf y))), (proj2 (proj2 (Hf y))).
  - split; try reflexivity. cbn. apply others_update. intros c Hc Hid. apply String.eqb_eq in Hid.
    assert (c = cr) as -> by (by eapply (pkey_inj _ wc_id)). by rewrite (proj1 (proj2 (Hf cr))).
Qed.
End Services.

#[export] Hint Extern 1 (moves (world_db (isolated _)) (lift _)) =>
  intros w o w' [= <- <-]; unfold world_db; reflexivity : moves.

Section MoreServices.
Context `{Digest} `{WebAuthnLib} `{Limit1} `{PhoneLib} `{UrlParser} `{Resolver} `{Gcm} (cfg : Config) (appId : string).

Lemma iso_verifyLogin env sk now usedNow ref response :
  moves (world_db (isolated appId)) (verifyLogin cfg env sk now usedNow appId ref response).
Proof.
  unfold verifyLogin, require_enabled. apply moves_bind; [exact _|apply moves_throw_if; exact _|intros _].
  apply moves_bind; [exact _|apply iso_take_challenge|intros challenge].
  intros w o w' E. rewrite bind_select_one in E. destruct (limit1 _) as [cr|] eqn:El.
  2: { injection E as <- <-. unfold world_db. reflexivity. }
  apply limit1_In, select_In in El. destruct El as [Hin Hu]. unfold user_credential in Hu.
  destruct_and_ex. reflect_eqb. unfold bind, lift in E.
  destruct (origins cfg); [|injection E as <- <-; unfold world_db; reflexivity].
  destruct (rpId cfg); [|injection E as <- <-; unfold world_db; reflexivity].
  destruct (verifyAuthenticationResponse _ _ _ _ _ _ _ _) as [[n|]|];
    [|injection E as <- <-; unfold world_db; reflexivity..].
  injection E as <- <-. by apply iso_credential_update.
Qed.

Lemma iso_verifyRegister env sk u now dbNow ref response :
  moves (world_db (isolated appId)) (verifyRegister cfg env sk u now dbNow appId ref response).
Proof.
  unfold verifyRegister, require_enabled. moves_run.
  - apply iso_take_challenge.
  - by apply iso_credential_insert.
Qed.

Lemma iso_options env u random now dbNow ref name :
  moves (world_db (isolated appId)) (buildRegisterOptions cfg env u random now dbNow appId ref name) /\
  moves (world_db (isolated appId)) (buildLoginOptions cfg env u random now dbNow appId ref).
Proof.
  split; unfold buildRegisterOptions, buildLoginOptions, require_enabled, createChallenge; moves_run;
    by apply iso_challenge_insert.
Qed.

Lemma iso_retry draws (attempt : string -> SM (PickedReceiver * string)) i n :
  (forall code, moves (world_db (isolated appId)) (attempt code)) ->
  moves (world_db (isolated appId)) (retry_loop cfg draws attempt i n).
Proof.
  intros Ha. revert i. induction n as [|n IH]; intros i; cbn [retry_loop]; moves_run; auto.
  intros w o w' [= <- <-]. unfold world_db. reflexivity.
Qed.

Lemma iso_start u draws now dbNow input :
  sv_appId input = appId -> moves (world_db (isolated appId)) (startVerification cfg u draws now dbNow input).
Proof.
  intros Happ. unfold startVerification, runWithCodeCollisionRetry. moves_run.
  - apply iso_retry. intros code. unfold start_tx. moves_run. by apply iso_verification_insert.
Qed.

Lemma iso_get now id kind : moves (world_db (isolated appId)) (getVerification now appId id kind).
Proof. unfold getVerification, expire_if_due, lazyExpireAndEmit. moves_run. Qed.

Lemma iso_start_binding u bytes now dbNow input :
  sb_appId input = appId -> moves (world_db (isolated appId)) (startBinding cfg u bytes now dbNow input).
Proof.
  intros Happ. unfold startBinding. moves_run.
  - intros w o w' [= <- <-]. unfold world_db. reflexivity.
  - by apply iso_binding_insert.
Qed.

Lemma iso_revoke now id : moves (world_db (isolated appId)) (revokeBinding now appId id).
Proof.
  unfold revokeBinding. moves_run. apply iso_binding_update; [|done].
  unfold binding_is. intros b Hb. destruct_and_ex. by reflect_eqb.
Qed.

Lemma iso_create_webhook env key u random iv now input :
  cw_appId input = appId -> moves (world_db (isolated appId)) (createWebhookEndpoint env key u random iv now input).
Proof.
  intros Happ. unfold createWebhookEndpoint. moves_run.
  - by apply iso_endpoint_insert.
Qed.
End MoreServices.

(** ** The routes *)

Section Handlers.
Context `{Digest} `{Gcm} `{Redis R} `{Limit1} `{Zod} `{PhoneLib} `{UrlParser} `{Resolver} `{WebAuthnLib}
  (cfg : Config) (env : ProcessEnv) (enabled : option string) (skip_locked : WebauthnChallenge -> bool)
  (d : Draws) (rd : Random) (req : Request).

(** A handler that checks the key and then stays within its app. *)
Definition guarded (kinds : list apiKeyKind) (m : RM R Reply) : Prop :=
  exists k, m = bind (requireKey cfg req kinds) k /\
    forall auth, moves (over_db (isolated (ak_appId auth))) (k auth).

Lemma iso_audit_entry auth action type id ip ua meta :
  moves (world_db (isolated (ak_appId auth))) (audit d (audit_entry req auth action type id ip ua meta)).
Proof. by apply iso_audit. Qed.

Ltac after_key := eexists; split; [reflexivity|]; intros auth; cbv beta zeta.

Lemma handle_guarded route :
  guarded (route_kinds route) (handle cfg env enabled skip_locked d rd req route).
Proof.
  destruct route; cbn [handle route_kinds].
  - after_key. moves_run; [by apply iso_start|apply iso_audit_entry].
  - after_key. moves_run. apply iso_get.
  - after_key. unfold cancelVerification. moves_run; [apply iso_cancel|apply iso_get|apply iso_audit_entry].
  - after_key. unfold webhookCrudRateLimit. moves_run; [by apply iso_create_webhook|apply iso_audit_entry].
  - after_key. unfold webhookCrudRateLimit, listWebhookEndpoints. moves_run.
  - after_key. unfold webhookCrudRateLimit, getWebhookEndpoint. moves_run.
  - after_key. unfold webhookCrudRateLimit. moves_run; [apply iso_delete_endpoint|apply iso_audit_entry].
  - after_key. moves_run; [by apply iso_start_binding|apply iso_audit_entry].
  - after_key. unfold PhoneBindings.getBinding. moves_run.
  - after_key. moves_run; [apply iso_revoke|apply iso_audit_entry].
  - after_key. unfold webauthnRateLimit. moves_run. refine (proj1 (iso_options _ _ _ _ _ _ _ _ _)).
  - after_key. unfold webauthnRateLimit. moves_run; [apply iso_verifyRegister|apply iso_audit_entry].
  - after_key. unfold webauthnRateLimit. moves_run. refine (proj2 (iso_options _ _ _ _ _ _ _ _ None)).
  - after_key. unfold webauthnRateLimit. moves_run; [apply iso_verifyLogin|by apply iso_audit].
Qed.
End Handlers.

(** C16: a request to an application route changes the database only under a live key
    of a kind the route admits, and then only rows of that key's app: every other
    app's verifications, endpoints, events, deliveries, credentials, challenges,
    bindings and audit rows, and all apps, keys, receivers and SMS, stay as they were. *)
Theorem tenant_isolation `{Digest} `{Gcm} `{Redis R} `{Limit1} `{Zod} `{PhoneLib} `{UrlParser} `{Resolver}
    `{WebAuthnLib} cfg env enabled skip_locked d rd req route (s : Server R) o s' :
  handle cfg env enabled skip_locked d rd req route s = (o, s') ->
  keyed (db (sw s)) ->
  db (sw s') = db (sw s) \/
  exists tok k, extractBearer req = Some tok /\ live_key cfg tok (db (sw s)) k /\
    In (k_kind k) (route_kinds route) /\ same_for_others (k_appId k) (db (sw s)) (db (sw s')).
Proof.
  intros E Hk. destruct (handle_guarded cfg env enabled skip_locked d rd req route) as (m & Em & Hm).
  rewrite Em in E. unfold bind in E.
  destruct (require_cases cfg req (route_kinds route) s) as [(tok & k & s1 & Et & Hl & Hkind & Er & Hdb)|(e & s1 & Er & Hdb)].
  - rewrite Er in E. right. exists tok, k. do 3 (split; [done|]).
    assert (Hiso := Hm _ _ _ _ E). unfold over_db in Hiso. rewrite Hdb in Hiso. by apply Hiso.
  - rewrite Er in E. injection E as <- <-. by left.
Qed.

(** ** Witness: starting a binding with the secret key of a fresh app *)

Definition no_webauthn : WebAuthnLib :=
  {| generateOptions _ random := (random, JNull); verifyRegistrationResponse _ _ _ _ := Return (false, None);
     verifyAuthenticationResponse _ _ _ _ _ _ _ _ := Return None |}.

Definition boot_keys : string :=
  match fst boot_run with Return res => ba_secretKey res | Throw _ => "" end.

Definition tenant_server : Server Store :=
  mkServer (set_db (set_rows t_receivers [mkReceiver "rcv_1" "app_A" "main" None "+963900000001" "" true None 0])
              (snd boot_run)) ∅ [].

Definition start_request : Request :=
  {| rq_headers := [("authorization", "Bearer " ++ boot_keys)]; rq_ip := "10.0.0.1"; rq_id := "req";
     rq_rawBody := None; rq_param_id := "";
     rq_body := JObj [("phone", JStr "+963991234567"); ("receiver_id", JStr "rcv_1")] |}.

Definition start_draws : Draws := {| ulid p := p; clock _ := 1000000%Z; db_now := 1000000%Z |}.
Definition start_random : Random :=
  {| code_draws _ _ := 0%nat; nonce_bytes i := i; secret_bytes := ""; iv_bytes := ""; challenge_bytes := "";
     fresh := sample_fresh |}.

Definition start_run : outcome exn Reply * Server Store :=
  handle (H := plain_digest) (H0 := plain_gcm) (H3 := {| zod_issues _ _ := JNull; zod_datetime _ := None |})
    (H4 := plain_phones) (H5 := example_parser) (H6 := rebinding_resolver) (H7 := no_webauthn)
    default_config production None (fun _ => false) start_draws start_random start_request PostBindingStart tenant_server.

Lemma tenant_isolation_witness :
  match fst start_run with Return reply => reply_status reply = 201%Z | Throw _ => False end /\
  (db (sw (snd start_run)) = db (sw tenant_server) \/
   exists k, In (k_kind k) [secret] /\ same_for_others (k_appId k) (db (sw tenant_server)) (db (sw (snd start_run)))).
Proof.
  split; [vm_compute; reflexivity|]. destruct start_run as [o s'] eqn:E. unfold start_run in E.
  destruct (tenant_isolation _ _ _ _ _ _ _ _ _ _ _ E) as [Hs|(tok & k & _ & _ & Hk & Hso)].
  - repeat split; repeat constructor.
  - left. exact Hs.
  - right. exists k. split; [exact Hk|exact Hso].
Defined.
