(* ===== verification/WebhookWorker.v ===== *)
(** * Webhook delivery worker: [services/webhookWorker.ts]

    One tick claims a batch of due deliveries under a lease, makes one HTTP request
    for each and writes the outcome.  The outbound request enters as the result of
    [fetchImpl]; the timer around the tick is in [Lifecycle].  The termination of retries
    is stated along runs of ticks of one worker. *)

From Stdlib Require Import Permutation Sorted.
From S2P Require Import Prelude JsString Json Errors Crypto Ssrf Aead Config Schema Webhooks.
From Stdlib Require Import String Ascii.

Open Scope string_scope.
Open Scope js_scope.

(** [ORDER BY key LIMIT n]: some order of the rows that is sorted, cut at [n]. *)
Class OrderLimit : Type := {
  first_by : forall {A : Type}, (A -> Z) -> nat -> list A -> list A;
  first_by_law : forall A (key : A -> Z) n (l : list A),
    exists l', Permutation l l' /\ first_by key n l = firstn n l' /\
      forall i j x y, (i <= j)%nat -> l' !! i = Some x -> l' !! j = Some y -> (key x <= key y)%Z;
}.

(** ** The URL gate *)

Definition isUrlAllowedForDelivery `{UrlParser} (env : ProcessEnv) (rawUrl : string) : bool :=
  match parseUrl rawUrl with
  | None => false
  | Some parsed =>
      if negb (String.eqb (protocol parsed) "http:") && negb (String.eqb (protocol parsed) "https:") then false
      else if escapeHatchActive env then true
      else
        let rawHost := hostname parsed in
        if negb (nonempty rawHost) then false
        else negb (isBlockedIp (bare_host rawHost))
  end.

Definition IN_FLIGHT_LEASE_SECONDS : Z := 60.
Definition BATCH_SIZE : nat := 25.

Record DueRow : Type := {
  delivery_id : string; endpoint_id : string; event_id : string; event_type : string;
  attempt_count : Z; url : string; enabled : bool; secret_ciphertext : string; payload_json : string;
}.

Inductive FailReason : Type :=
  | network_error | timeout | client_4xx | server_5xx | rate_limited | bad_response.

Definition reason_text (r : FailReason) : string :=
  match r with
  | network_error => "network_error" | timeout => "timeout" | client_4xx => "client_4xx"
  | server_5xx => "server_5xx" | rate_limited => "rate_limited" | bad_response => "bad_response"
  end.

Inductive DeliveryOutcome : Type :=
  | Delivered (statusCode : Z)
  | Retry (reason : FailReason) (statusCode : option Z) (message : string)
  | Permanent (reason : FailReason) (statusCode : Z) (message : string)
  | EndpointDisabled.

(** What [fetchImpl] does: a response, or a rejection.  [dom_exception] holds the
    name of a [DOMException]; [is_error] tells an [Error]; [text] is its message, or
    the value as a string. *)
Inductive FetchResult : Type :=
  | Response (status : Z)
  | Rejected (dom_exception : option string) (is_error : bool) (text : string).

(** The arguments of [fetchImpl] that vary; the method is always POST, redirects are
    never followed and the time limit is a constant. *)
Record FetchRequest : Type := {
  fq_url : string; fq_headers : list (string * string); fq_body : string;
}.

(** ** The batch *)

(** The JOIN of a delivery with its endpoint and event. *)
Definition due_rows (D : DB) (d : WebhookDelivery) : list DueRow :=
  flat_map (fun e =>
    map (fun ev => {| delivery_id := d_id d; endpoint_id := d_endpointId d; event_id := d_eventId d;
                      event_type := d_eventType d; attempt_count := d_attemptCount d; url := we_url e;
                      enabled := we_enabled e; secret_ciphertext := we_secretCiphertext e;
                      payload_json := ev_payloadJson ev |})
      (select (fun ev => String.eqb (ev_id ev) (d_eventId d)) (webhookEvents D)))
    (select (fun e => String.eqb (we_id e) (d_endpointId d)) (webhookEndpoints D)).

Definition is_due (dbNow : Z) (d : WebhookDelivery) : bool :=
  wd_eqb (d_status d) wd_pending && (d_nextAttemptAt d <=? dbNow)%Z.

Definition set_lease (lease now : Z) (d : WebhookDelivery) : WebhookDelivery :=
  mkWebhookDelivery (d_id d) (d_endpointId d) (d_eventId d) (d_eventType d) (d_status d) (d_attemptCount d)
    lease (d_lastStatusCode d) (d_lastError d) (d_createdAt d) now.

(** [now] is the process's clock, [dbNow] the database's.  The lease and [updated_at]
    read the process's clock one after the other; the model takes one reading. *)
Definition claimBatch `{OrderLimit} (skip_locked : WebhookDelivery -> bool) (now dbNow : Z) : SM (list DueRow) :=
  transaction (
    let! rows := gets (fun w => map snd (first_by (fun '(d, _) => d_nextAttemptAt d) BATCH_SIZE
      (flat_map (fun d => map (pair d) (due_rows (db w) d))
         (select (fun d => is_due dbNow d && negb (skip_locked d)) (webhookDeliveries (db w)))))) in
    if (List.length rows =? 0)%nat then ret []
    else
      let lease := (now + IN_FLIGHT_LEASE_SECONDS * 1000)%Z in
      do! update t_webhookDeliveries (fun d => existsb (String.eqb (d_id d)) (map delivery_id rows))
            (set_lease lease now) in
      ret rows).

(** ** One attempt *)

(** [/timed?\s?out|abort/i.test(message)] *)
Definition timed_out_here (s : string) : bool :=
  startsWith s "abort"
  || (startsWith s "time"
      && let s1 := slice_from s 4 in
         let after_d := if startsWith s1 "d" then [slice_from s1 1; s1] else [s1] in
         existsb (fun s2 => startsWith s2 "out" ||
                    match s2 with String c s3 => is_ws c && startsWith s3 "out" | EmptyString => false end) after_d).

Fixpoint any_suffix (p : string -> bool) (s : string) : bool :=
  p s || match s with String _ s' => any_suffix p s' | EmptyString => false end.

Definition isTimeout (dom_exception : option string) (is_error : bool) (text : string) : bool :=
  match dom_exception with
  | Some name => String.eqb name "TimeoutError"
  | None => if is_error then any_suffix timed_out_here (toLowerCase text) else false
  end.

Definition fetch_request `{Digest} (row : DueRow) (attempt timestampSec : Z) (secret : string) : FetchRequest :=
  {| fq_url := url row;
     fq_headers := [("content-type", "application/json"); ("user-agent", "syrotp-webhook/1.0");
       ("X-SYROTP-Webhook-Id", delivery_id row); ("X-SYROTP-Webhook-Timestamp", num_to_string timestampSec);
       ("X-SYROTP-Webhook-Signature", signDeliveryBody secret timestampSec (payload_json row));
       ("X-SYROTP-Webhook-Event", event_type row); ("X-SYROTP-Webhook-Attempt", num_to_string attempt)];
     fq_body := payload_json row |}.

(** The outcome of a response, with the two metrics it counts. *)
Definition classify (status : Z) : list Metric * DeliveryOutcome :=
  if ((200 <=? status) && (status <? 300))%Z then ([webhookDeliveryObserved "2xx"], Delivered status)
  else if (status =? 429)%Z then
    ([webhookDeliveryFailure "rate_limited"; webhookDeliveryObserved "4xx"],
     Retry rate_limited (Some status) "429 from receiver")
  else if ((400 <=? status) && (status <? 500))%Z then
    ([webhookDeliveryFailure "client_4xx"; webhookDeliveryObserved "4xx"],
     Permanent client_4xx status (num_to_string status ++ " from receiver"))
  else if ((500 <=? status) && (status <? 600))%Z then
    ([webhookDeliveryFailure "server_5xx"; webhookDeliveryObserved "5xx"],
     Retry server_5xx (Some status) (num_to_string status ++ " from receiver"))
  else
    ([webhookDeliveryFailure "bad_response"; webhookDeliveryObserved "4xx"],
     Permanent bad_response status ("unexpected status " ++ num_to_string status)).

Definition count_all (ms : list Metric) : SM unit :=
  modify (fun w => mkWorld (db w) (counted w ++ ms) (background w)).

Section Worker.
Context `{Digest} `{Gcm} `{UrlParser} (cfg : Config) (env : ProcessEnv).

(** [now] is the clock when the request is signed. *)
Definition deliver (fetchImpl : FetchRequest -> FetchResult) (now : Z) (row : DueRow) (attempt : Z)
    : list Metric * DeliveryOutcome :=
  if negb (enabled row) then ([webhookDeliveryFailure "endpoint_disabled"], EndpointDisabled)
  else if negb (isUrlAllowedForDelivery env (url row)) then
    ([webhookDeliveryFailure "bad_response"], Permanent bad_response 0 "url_blocked_by_ssrf_guard")
  else
    match unwrap (MASTER_ENCRYPTION_KEY cfg) (secret_ciphertext row) (Some (aadFor (endpoint_id row))) with
    | Throw _ => ([webhookDeliveryFailure "bad_response"], Permanent bad_response 0 "secret_unwrap_failed")
    | Return signing =>
        match fetchImpl (fetch_request row attempt (now / 1000) signing) with
        | Rejected dom is_error text =>
            let t := isTimeout dom is_error text in
            let reason := if t then timeout else network_error in
            ([webhookDeliveryFailure (reason_text reason); webhookDeliveryObserved (if t then "timeout" else "network")],
             Retry reason None (slice_to text 500))
        | Response status => classify status
        end
    end.

Definition settle_row (status : webhookDeliveryStatus) (attempt : Z) (code : option Z) (error : option string)
    (next : Z) (now : Z) (d : WebhookDelivery) : WebhookDelivery :=
  mkWebhookDelivery (d_id d) (d_endpointId d) (d_eventId d) (d_eventType d) status attempt next code error
    (d_createdAt d) now.

(** Whether the retry path gives up. *)
Definition out_of_attempts (attempt : Z) : bool :=
  bool_decide (nextRetryDelaySeconds attempt = None) || (MAX_DELIVERY_ATTEMPTS <=? attempt)%Z.

(** What the update of [applyOutcome] does to the row; [later] is the second reading
    of the clock, in the retry branch. *)
Definition settled (attempt : Z) (outcome : DeliveryOutcome) (now later : Z) (d : WebhookDelivery) : WebhookDelivery :=
  match outcome with
  | Delivered code => settle_row wd_delivered attempt (Some code) None (d_nextAttemptAt d) now d
  | EndpointDisabled =>
      settle_row wd_abandoned attempt (d_lastStatusCode d) (Some "endpoint_disabled") (d_nextAttemptAt d) now d
  | Permanent _ code message =>
      settle_row wd_failed attempt (Some code) (Some (slice_to message 500)) (d_nextAttemptAt d) now d
  | Retry _ code message =>
      if out_of_attempts attempt then
        settle_row wd_abandoned attempt code (Some (slice_to message 500)) (d_nextAttemptAt d) now d
      else
        let delay := default 0%Z (nextRetryDelaySeconds attempt) in
        settle_row wd_pending attempt code (Some (slice_to message 500)) (later + delay * 1000)%Z now d
  end.

(** The label of [webhookDeliveryTerminal]. *)
Definition outcome_label (attempt : Z) (outcome : DeliveryOutcome) : string :=
  match outcome with
  | Delivered _ => "delivered"
  | EndpointDisabled => "abandoned"
  | Permanent _ _ _ => "failed"
  | Retry _ _ _ => if out_of_attempts attempt then "abandoned" else "retried"
  end.

Definition applyOutcome (row : DueRow) (attempt : Z) (outcome : DeliveryOutcome) (now later : Z) : SM unit :=
  do! update t_webhookDeliveries (fun d => String.eqb (d_id d) (delivery_id row))
        (settled attempt outcome now later) in
  count (webhookDeliveryTerminal (outcome_label attempt outcome)).

(** [sentAt] is the clock when the request is signed, [doneAt] and [later] after it. *)
Definition processOne (fetchImpl : FetchRequest -> FetchResult) (sentAt doneAt later : Z) (row : DueRow) : SM unit :=
  let attempt := (attempt_count row + 1)%Z in
  let '(ms, outcome) := deliver fetchImpl sentAt row attempt in
  do! count_all ms in
  applyOutcome row attempt outcome doneAt later.

(** The rows of the batch, one after the other; [fetchImpl] and the clocks by position. *)
Fixpoint process_all (fetchImpl : nat -> FetchRequest -> FetchResult) (clock : nat -> Z) (i : nat)
    (rows : list DueRow) : SM unit :=
  match rows with
  | [] => ret tt
  | row :: rows' =>
      do! processOne (fetchImpl i) (clock (3 * i)%nat) (clock (3 * i + 1)%nat) (clock (3 * i + 2)%nat) row in
      process_all fetchImpl clock (S i) rows'
  end.

Definition tick `{OrderLimit} (skip_locked : WebhookDelivery -> bool) (now dbNow : Z)
    (fetchImpl : nat -> FetchRequest -> FetchResult) (clock : nat -> Z) : SM unit :=
  let! claimed := claimBatch skip_locked now dbNow in
  process_all fetchImpl clock 0 claimed.
End Worker.

(** ** Claims *)

Lemma due_rows_In D d row : In row (due_rows D d) ->
  delivery_id row = d_id d /\ attempt_count row = d_attemptCount d /\ endpoint_id row = d_endpointId d /\
  exists e, In e (webhookEndpoints D) /\ we_id e = d_endpointId d /\ url row = we_url e /\ enabled row = we_enabled e.
Proof.
  unfold due_rows. intros H. apply in_flat_map in H. destruct H as (e & He & H).
  apply in_map_iff in H. destruct H as (ev & <- & _). apply select_In in He. destruct He as [He Hid].
  apply String.eqb_eq in Hid. cbn. eauto 10.
Qed.

Lemma first_by_In `{OrderLimit} {A} (key : A -> Z) n l x : In x (first_by key n l) -> In x l.
Proof.
  destruct (first_by_law A key n l) as (l' & Hp & -> & _). intros Hx.
  eapply Permutation_in; [symmetry; exact Hp|]. rewrite <- (firstn_skipn n l'). apply in_app_iff. by left.
Qed.

Lemma first_by_length `{OrderLimit} {A} (key : A -> Z) n (l : list A) : (List.length (first_by key n l) <= n)%nat.
Proof. destruct (first_by_law A key n l) as (l' & _ & -> & _). apply firstn_le_length. Qed.

(** The table after a claim of [ids]. *)
Definition leased (ids : list string) (now : Z) (D : DB) : DB :=
  set_rows t_webhookDeliveries
    (update_where (fun d => existsb (String.eqb (d_id d)) ids)
       (set_lease (now + IN_FLIGHT_LEASE_SECONDS * 1000) now) (webhookDeliveries D)) D.

(** The rows a claim chooses from, and those it takes. *)
Definition waiting (skip_locked : WebhookDelivery -> bool) (dbNow : Z) (D : DB) : list (WebhookDelivery * DueRow) :=
  flat_map (fun d => map (pair d) (due_rows D d))
    (select (fun d => is_due dbNow d && negb (skip_locked d)) (webhookDeliveries D)).

Definition picked `{OrderLimit} (skip_locked : WebhookDelivery -> bool) (dbNow : Z) (D : DB) : list DueRow :=
  map snd (first_by (fun '(d, _) => d_nextAttemptAt d) BATCH_SIZE (waiting skip_locked dbNow D)).

Lemma claimBatch_eq `{OrderLimit} skip_locked now dbNow w :
  exists w', claimBatch skip_locked now dbNow w = (Return (picked skip_locked dbNow (db w)), w') /\
    db w' = leased (map delivery_id (picked skip_locked dbNow (db w))) now (db w).
Proof.
  unfold claimBatch, transaction. rewrite bind_gets.
  change (map snd (first_by _ _ _)) with (picked skip_locked dbNow (db w)).
  destruct (picked skip_locked dbNow (db w)) as [|row rows] eqn:E; cbn [List.length Nat.eqb].
  - exists w. split; [reflexivity|]. unfold leased. cbn [map existsb]. rewrite update_where_none by (by apply select_nil_iff).
    symmetry. apply (set_rows_rows t_webhookDeliveries).
  - rewrite bind_update. eexists. split; reflexivity.
Qed.

Lemma claimBatch_cases `{OrderLimit} skip_locked now dbNow w :
  exists rows w', claimBatch skip_locked now dbNow w = (Return rows, w') /\ (List.length rows <= BATCH_SIZE)%nat /\
    (forall row, In row rows -> exists d, In d (webhookDeliveries (db w)) /\ is_due dbNow d = true /\
       skip_locked d = false /\ In row (due_rows (db w) d)) /\
    db w' = leased (map delivery_id rows) now (db w).
Proof.
  destruct (claimBatch_eq skip_locked now dbNow w) as (w' & E & Hdb). exists (picked skip_locked dbNow (db w)), w'.
  split; [exact E|]. unfold picked at 1 2. split; [rewrite length_map; apply first_by_length|]. split; [|exact Hdb].
  intros row Hrow. apply in_map_iff in Hrow. destruct Hrow as ([d r] & <- & Hp). apply first_by_In in Hp.
  apply in_flat_map in Hp. destruct Hp as (d' & Hd & Hr). apply in_map_iff in Hr.
  destruct Hr as (r' & [= -> ->] & Hr). apply select_In in Hd. destruct Hd as [Hd Hc].
  apply andb_true_iff in Hc. destruct Hc as [Hc Hs%negb_true_iff]. eauto 10.
Qed.

(** A claim takes at most a batch of deliveries, all of them pending, due and not
    locked, and until its lease runs out no later claim takes any of them again,
    whatever is locked then. *)
Theorem claims_exclusive `{OrderLimit} skip1 now1 dbNow1 skip2 now2 dbNow2 w w1 w2 rows1 rows2 :
  claimBatch skip1 now1 dbNow1 w = (Return rows1, w1) ->
  claimBatch skip2 now2 dbNow2 w1 = (Return rows2, w2) ->
  (dbNow2 < now1 + IN_FLIGHT_LEASE_SECONDS * 1000)%Z ->
  (List.length rows1 <= BATCH_SIZE)%nat /\
  (forall row, In row rows1 -> exists d, In d (webhookDeliveries (db w)) /\ d_id d = delivery_id row /\
     d_status d = wd_pending /\ (d_nextAttemptAt d <= dbNow1)%Z /\ skip1 d = false) /\
  (forall row1 row2, In row1 rows1 -> In row2 rows2 -> delivery_id row1 <> delivery_id row2).
Proof.
  intros E1 E2 Hlease.
  destruct (claimBatch_cases skip1 now1 dbNow1 w) as (r1 & w1' & F1 & Hlen & Hin1 & Hdb1).
  rewrite E1 in F1. injection F1 as <- <-.
  destruct (claimBatch_cases skip2 now2 dbNow2 w1) as (r2 & w2' & F2 & _ & Hin2 & _).
  rewrite E2 in F2. injection F2 as <- <-. split; [done|]. split.
  - intros row Hrow. destruct (Hin1 row Hrow) as (d & Hd & Hdue & Hs & Hr).
    apply due_rows_In in Hr. destruct Hr as (Hid & _). exists d. unfold is_due in Hdue.
    apply andb_true_iff in Hdue. destruct Hdue as [Hst Hn]. apply bool_decide_eq_true in Hst.
    apply Z.leb_le in Hn. by repeat split.
  - intros row1 row2 H1 H2 Heq. destruct (Hin2 row2 H2) as (d & Hd & Hdue & _ & Hr).
    apply due_rows_In in Hr. destruct Hr as (Hid & _). rewrite Hdb1 in Hd. cbn in Hd.
    unfold is_due in Hdue. apply andb_true_iff in Hdue. destruct Hdue as [_ Hn]. apply Z.leb_le in Hn.
    apply update_where_In in Hd. destruct Hd as [(d0 & _ & _ & ->)|[_ Hne]].
    + cbn in Hn. lia.
    + apply not_true_iff_false in Hne. apply Hne, existsb_exists. exists (delivery_id row1).
      split; [by apply in_map|]. apply String.eqb_eq. congruence.
Qed.

(** ** Attempts *)

(** An attempt makes a request only for an enabled endpoint whose URL passes the
    gate and whose secret opens under the endpoint's id, and then exactly the
    request signed with that secret over the timestamp and the stored payload; in
    every other case the outcome does not depend on the network. *)
Theorem deliver_gated `{Digest} `{Gcm} `{UrlParser} cfg env now row attempt :
  (exists out, forall fetchImpl, deliver cfg env fetchImpl now row attempt = out) \/
  (exists key, enabled row = true /\ isUrlAllowedForDelivery env (url row) = true /\
     unwrap (MASTER_ENCRYPTION_KEY cfg) (secret_ciphertext row) (Some (aadFor (endpoint_id row))) = Return key /\
     let request := fetch_request row attempt (now / 1000) key in
     jget "X-SYROTP-Webhook-Signature" (map (fun '(k, v) => (k, JStr v)) (fq_headers request))
       = Some (JStr (hmacSha256Hex key (num_to_string (now / 1000) ++ "." ++ fq_body request))) /\
     fq_body request = payload_json row /\ fq_url request = url row /\
     forall fetchImpl code, snd (deliver cfg env fetchImpl now row attempt) = Delivered code <->
       fetchImpl request = Response code /\ (200 <= code < 300)%Z).
Proof.
  unfold deliver. destruct (enabled row); cbn [negb]; [|left; eauto].
  destruct (isUrlAllowedForDelivery _ _); cbn [negb]; [|left; eauto].
  destruct (unwrap _ _ _) as [key|e]; [|left; eauto].
  right. exists key. do 3 (split; [done|]). cbv zeta. split; [reflexivity|].
  split; [reflexivity|]. split; [reflexivity|]. intros fetchImpl code.
  destruct (fetchImpl _) as [status|dom is_error text]; [|split; [intros [=]|intros [[=] _]]].
  unfold classify. split.
  - destruct ((200 <=? status) && (status <? 300))%Z eqn:E2.
    + intros [= <-]. apply andb_true_iff in E2. rewrite Z.leb_le, Z.ltb_lt in E2. done.
    + repeat match goal with |- context [if ?b then _ else _] => destruct b end; intros [=].
  - intros [[= ->] Hr]. replace ((200 <=? code) && (code <? 300))%Z with true; [done|].
    symmetry. apply andb_true_iff. rewrite Z.leb_le, Z.ltb_lt. done.
Qed.

(** ** Retries end *)

Lemma settled_facts attempt outcome now later d :
  let d' := settled attempt outcome now later d in
  d_id d' = d_id d /\ d_endpointId d' = d_endpointId d /\ d_eventId d' = d_eventId d /\
  d_attemptCount d' = attempt /\ (d_status d' = wd_pending -> (attempt < MAX_DELIVERY_ATTEMPTS)%Z).
Proof.
  cbv zeta. destruct outcome as [code|reason code message|reason code message|]; cbn [settled].
  2: destruct (out_of_attempts attempt) eqn:E.
  all: cbn [settle_row d_id d_endpointId d_eventId d_attemptCount d_status]; do 4 (split; [done|]); try discriminate.
  intros _. unfold out_of_attempts in E. apply orb_false_iff in E. destruct E as [_ E]. by apply Z.leb_gt.
Qed.

Lemma settled_joins attempt outcome now later d :
  let d' := settled attempt outcome now later d in
  d_id d' = d_id d /\ d_endpointId d' = d_endpointId d /\ d_eventId d' = d_eventId d.
Proof. destruct (settled_facts attempt outcome now later d) as (H1 & H2 & H3 & _). by split. Qed.

Section Ticks.
Context `{Digest} `{Gcm} `{UrlParser} `{OrderLimit} (cfg : Config) (env : ProcessEnv).

(** What a tick meets: the rows other transactions hold, the clocks, the network. *)
Record Tick : Type := {
  tk_locked : WebhookDelivery -> bool; tk_now : Z; tk_dbNow : Z;
  tk_fetch : nat -> FetchRequest -> FetchResult; tk_clock : nat -> Z;
}.

Definition run_tick (t : Tick) : SM unit := tick cfg env (tk_locked t) (tk_now t) (tk_dbNow t) (tk_fetch t) (tk_clock t).

(** The ticks of one worker, one after the other. *)
Fixpoint run_ticks (ts : list Tick) : SM unit :=
  match ts with
  | [] => ret tt
  | t :: ts' => do! run_tick t in run_ticks ts'
  end.

Definition claimed_by (t : Tick) (w : World) : list DueRow :=
  match claimBatch (tk_locked t) (tk_now t) (tk_dbNow t) w with (Return rows, _) => rows | (Throw _, _) => [] end.

Definition takes (id : string) (t : Tick) (w : World) : bool :=
  existsb (fun row => String.eqb (delivery_id row) id) (claimed_by t w).

(** How many of the ticks claim the delivery. *)
Fixpoint attempts (id : string) (ts : list Tick) (w : World) : nat :=
  match ts with
  | [] => 0
  | t :: ts' => (if takes id t w then 1 else 0) + attempts id ts' (snd (run_tick t w))
  end.

(** Every tick finds the delivery due and unlocked while it is pending, and no more rows
    waiting than a batch takes. *)
Fixpoint served (id : string) (ts : list Tick) (w : World) : bool :=
  match ts with
  | [] => true
  | t :: ts' =>
      forallb (fun d => negb (String.eqb (d_id d) id && wd_eqb (d_status d) wd_pending)
                        || is_due (tk_dbNow t) d && negb (tk_locked t d)) (webhookDeliveries (db w))
      && (List.length (waiting (tk_locked t) (tk_dbNow t) (db w)) <=? BATCH_SIZE)%nat && served id ts' (snd (run_tick t w))
  end.

Lemma processOne_eq fetch sentAt doneAt later row w :
  exists w' outcome, processOne cfg env fetch sentAt doneAt later row w = (Return tt, w') /\
    db w' = set_rows t_webhookDeliveries
      (update_where (fun d => String.eqb (d_id d) (delivery_id row))
         (settled (attempt_count row + 1) outcome doneAt later) (webhookDeliveries (db w))) (db w).
Proof.
  unfold processOne. destruct (deliver _ _ _ _ _ _) as [ms outcome]. unfold count_all. rewrite bind_modify.
  unfold applyOutcome. rewrite bind_update. eexists _, outcome. split; reflexivity.
Qed.

(** A delivery, its endpoint and its event, each the only one of its id. *)
Definition joins (D : DB) (d : WebhookDelivery) (e : WebhookEndpoint) (ev : WebhookEvent) : Prop :=
  select (fun x => String.eqb (d_id x) (d_id d)) (webhookDeliveries D) = [d] /\
  select (fun x => String.eqb (we_id x) (d_endpointId d)) (webhookEndpoints D) = [e] /\
  select (fun x => String.eqb (ev_id x) (d_eventId d)) (webhookEvents D) = [ev].

Lemma joins_update D d e ev p f :
  joins D d e ev ->
  (forall x, d_id (f x) = d_id x /\ d_endpointId (f x) = d_endpointId x /\ d_eventId (f x) = d_eventId x) ->
  joins (set_rows t_webhookDeliveries (update_where p f (webhookDeliveries D)) D) (if p d then f d else d) e ev.
Proof.
  intros (Hd & He & Hev) Hf. destruct (Hf d) as (F1 & F2 & F3). unfold joins.
  replace (d_id (if p d then f d else d)) with (d_id d) by (by destruct (p d)).
  replace (d_endpointId (if p d then f d else d)) with (d_endpointId d) by (by destruct (p d)).
  replace (d_eventId (if p d then f d else d)) with (d_eventId d) by (by destruct (p d)).
  split; [|by split]. cbn [webhookDeliveries set_rows t_webhookDeliveries].
  rewrite select_update_stable, Hd; [reflexivity|]. intros x _. by rewrite (proj1 (Hf x)).
Qed.

Lemma joins_row D d e ev : joins D d e ev ->
  exists row, due_rows D d = [row] /\ delivery_id row = d_id d /\ attempt_count row = d_attemptCount d.
Proof. intros (_ & He & Hev). unfold due_rows. rewrite He. cbn. rewrite Hev. eexists. by split. Qed.

(** The rows of a claim that are of the delivery. *)
Lemma waiting_of skip dbNow D d e ev row :
  joins D d e ev -> due_rows D d = [row] ->
  select (fun r => String.eqb (delivery_id r) (d_id d)) (map snd (waiting skip dbNow D))
  = if is_due dbNow d && negb (skip d) then [row] else [].
Proof.
  intros (Hd & _) Hrow. unfold waiting. rewrite flat_map_concat_map, concat_map, map_map.
  rewrite (map_ext _ (due_rows D)) by (intros x; rewrite map_map; apply map_id). rewrite <- flat_map_concat_map.
  rewrite (select_flat_map (fun x => String.eqb (d_id x) (d_id d))).
  - rewrite select_comm, Hd. unfold select. cbn [List.filter]. destruct (is_due dbNow d && negb (skip d)); [|done].
    cbn. by rewrite Hrow.
  - intros x r Hr. destruct (due_rows_In D x r Hr) as (-> & _). done.
Qed.

Lemma picked_of skip dbNow D d e ev row :
  joins D d e ev -> due_rows D d = [row] ->
  let mine := select (fun r => String.eqb (delivery_id r) (d_id d)) (picked skip dbNow D) in
  (mine = [] \/ mine = [row] /\ is_due dbNow d = true) /\
  (is_due dbNow d = true -> skip d = false -> (List.length (waiting skip dbNow D) <= BATCH_SIZE)%nat -> mine = [row]).
Proof.
  intros Hj Hrow mine. assert (Hw := waiting_of skip dbNow D d e ev row Hj Hrow).
  destruct (first_by_law _ (fun '(d, _) => d_nextAttemptAt d) BATCH_SIZE (waiting skip dbNow D)) as (l & Hp & Hf & _).
  assert (Hsub := select_firstn_perm (fun r => String.eqb (delivery_id r) (d_id d)) BATCH_SIZE
    (map snd (waiting skip dbNow D)) (map snd l) (Permutation_map snd Hp)).
  unfold mine, picked. rewrite Hf, <- firstn_map, Hw in *. destruct Hsub as (Hl & Hin & Hall).
  destruct (is_due dbNow d) eqn:E1, (skip d) eqn:E2; cbn [andb negb] in *; (split; [|try done]).
  all: try (left; apply length_zero_iff_nil; cbn [List.length] in Hl; lia).
  - destruct (select _ (firstn _ _)) as [|r rs]; [by left|right]. split; [|done].
    destruct (Hin r (or_introl eq_refl)) as [<-|[]]. destruct rs; [done|cbn [List.length] in Hl; lia].
  - intros _ _ Hlen. apply Permutation_length_1_inv. apply Hall. by rewrite length_map.
Qed.

Lemma process_all_delivery fetchImpl clock i rows w d e ev :
  joins (db w) d e ev ->
  (List.length (select (fun r => String.eqb (delivery_id r) (d_id d)) rows) <= 1)%nat ->
  exists w' d', process_all cfg env fetchImpl clock i rows w = (Return tt, w') /\ joins (db w') d' e ev /\
    match select (fun r => String.eqb (delivery_id r) (d_id d)) rows with
    | [] => d' = d
    | row :: _ => exists outcome t1 t2, d' = settled (attempt_count row + 1) outcome t1 t2 d
    end.
Proof.
  revert i w d. induction rows as [|row rows IH]; intros i w d Hj Hlen; cbn [process_all].
  { exists w, d. by split; [|split]. }
  destruct (processOne_eq (fetchImpl i) (clock (3 * i)%nat) (clock (3 * i + 1)%nat) (clock (3 * i + 2)%nat) row w)
    as (w1 & outcome & E1 & Hdb).
  unfold bind at 1. rewrite E1.
  assert (Hj1 := joins_update _ _ _ _ (fun d => String.eqb (d_id d) (delivery_id row))
    (settled (attempt_count row + 1) outcome (clock (3 * i + 1)%nat) (clock (3 * i + 2)%nat)) Hj).
  rewrite <- Hdb in Hj1. specialize (Hj1 ltac:(intros x; apply settled_joins)). cbv beta in Hj1.
  rewrite select_cons, (String.eqb_sym (delivery_id row)) in *.
  destruct (String.eqb (d_id d) (delivery_id row)) eqn:Eid.
  - set (d1 := settled _ _ _ _ d) in *. assert (Hid : d_id d1 = d_id d) by apply settled_joins.
    cbn [List.length] in Hlen.
    assert (Hnil : select (fun r => String.eqb (delivery_id r) (d_id d1)) rows = []).
    { apply length_zero_iff_nil. rewrite Hid. lia. }
    destruct (IH (S i) w1 d1 Hj1) as (w' & d' & Ew & Hj' & Hd'); [rewrite Hnil; cbn; lia|].
    rewrite Hnil in Hd'. subst d'. exists w', d1. split; [exact Ew|]. split; [exact Hj'|]. by eexists _, _, _.
  - apply (IH (S i) w1 d Hj1 Hlen).
Qed.

(** What one tick does to a delivery: nothing when it does not claim it; when it does, the
    delivery was pending and due and has one attempt more. *)
Lemma tick_delivery t w d e ev :
  joins (db w) d e ev ->
  exists w' d', run_tick t w = (Return tt, w') /\ joins (db w') d' e ev /\ d_id d' = d_id d /\
    (if takes (d_id d) t w
     then d_status d = wd_pending /\ d_attemptCount d' = (d_attemptCount d + 1)%Z /\
          (d_status d' = wd_pending -> d_attemptCount d' < MAX_DELIVERY_ATTEMPTS)%Z
     else d' = d) /\
    (is_due (tk_dbNow t) d = true -> tk_locked t d = false ->
     (List.length (waiting (tk_locked t) (tk_dbNow t) (db w)) <= BATCH_SIZE)%nat -> takes (d_id d) t w = true).
Proof.
  intros Hj. destruct (joins_row _ _ _ _ Hj) as (row & Hrow & Hid & Hat).
  destruct (picked_of (tk_locked t) (tk_dbNow t) (db w) d e ev row Hj Hrow) as [Hmine Hall].
  destruct (claimBatch_eq (tk_locked t) (tk_now t) (tk_dbNow t) w) as (w1 & Ec & Hdb).
  unfold takes, claimed_by. rewrite Ec. unfold run_tick, tick, bind at 1. rewrite Ec.
  set (rows := picked (tk_locked t) (tk_dbNow t) (db w)) in *. rewrite select_existsb.
  assert (Hj1 := joins_update _ _ _ _ (fun d => existsb (String.eqb (d_id d)) (map delivery_id rows))
    (set_lease (tk_now t + IN_FLIGHT_LEASE_SECONDS * 1000) (tk_now t)) Hj ltac:(done)).
  change (set_rows _ _ _) with (leased (map delivery_id rows) (tk_now t) (db w)) in Hj1. rewrite <- Hdb in Hj1.
  cbv beta in Hj1. rewrite existsb_map, (existsb_ext _ (fun r => String.eqb (delivery_id r) (d_id d))), select_existsb in Hj1
    by (intros r; apply String.eqb_sym).
  destruct Hmine as [Hm|[Hm Hdue]]; rewrite Hm in *.
  - destruct (process_all_delivery (tk_fetch t) (tk_clock t) 0 rows w1 d e ev Hj1) as (w' & d' & Ep & Hj' & Hd');
      [rewrite Hm; cbn; lia|]. rewrite Hm in Hd'. subst d'. exists w', d. repeat (split; [done|]).
    intros Hd Hl Hb. discriminate (Hall Hd Hl Hb).
  - set (d1 := set_lease _ _ d) in *.
    destruct (process_all_delivery (tk_fetch t) (tk_clock t) 0 rows w1 d1 e ev Hj1) as (w' & d' & Ep & Hj' & Hd');
      change (d_id d1) with (d_id d) in *; rewrite Hm in *; [cbn; lia|].
    destruct Hd' as (outcome & t1 & t2 & ->). rewrite Hat in *.
    destruct (settled_facts (d_attemptCount d + 1) outcome t1 t2 d1) as (F1 & _ & _ & F4 & F5).
    eexists w', _. split; [exact Ep|]. split; [exact Hj'|]. split; [exact F1|]. split; [|done].
    unfold is_due in Hdue. apply andb_true_iff in Hdue. destruct Hdue as [Hp _]. apply bool_decide_eq_true in Hp.
    split; [exact Hp|]. split; [exact F4|]. intros Hpend. rewrite F4. by apply F5.
Qed.

Lemma run_ticks_delivery ts w d e ev :
  joins (db w) d e ev -> (d_attemptCount d <= MAX_DELIVERY_ATTEMPTS)%Z ->
  (d_status d = wd_pending -> d_attemptCount d < MAX_DELIVERY_ATTEMPTS)%Z ->
  exists w' d', run_ticks ts w = (Return tt, w') /\ joins (db w') d' e ev /\ d_id d' = d_id d /\
    d_attemptCount d' = (d_attemptCount d + Z.of_nat (attempts (d_id d) ts w))%Z /\
    (d_attemptCount d' <= MAX_DELIVERY_ATTEMPTS)%Z /\
    (d_status d' = wd_pending -> d_attemptCount d' < MAX_DELIVERY_ATTEMPTS)%Z /\
    (d_status d' = wd_pending -> d_status d = wd_pending) /\
    (served (d_id d) ts w = true -> d_status d' = wd_pending -> attempts (d_id d) ts w = List.length ts).
Proof.
  revert w d. induction ts as [|t ts IH]; intros w d Hj Hmax Hp; cbn [run_ticks attempts served List.length].
  { exists w, d. rewrite Z.add_0_r. do 7 (split; [done|]). done. }
  destruct (tick_delivery t w d e ev Hj) as (w1 & d1 & Et & Hj1 & Hid & Hcase & Hserve).
  unfold bind at 1. rewrite Et. cbn [snd]. destruct (IH w1 d1 Hj1) as (w' & d' & Er & Hj' & Hid' & Hat & Hm' & Hp' & Hback & Hs').
  { destruct (takes (d_id d) t w); [destruct Hcase as (Hpend & Ha & _); specialize (Hp Hpend); lia|by subst d1]. }
  { destruct (takes (d_id d) t w); [by destruct Hcase as (_ & _ & Hlt)|by subst d1]. }
  rewrite Hid in *. exists w', d'. split; [exact Er|]. split; [exact Hj'|]. split; [exact Hid'|].
  assert (Hst : d_status d' = wd_pending -> d_status d = wd_pending).
  { intros Hpend. specialize (Hback Hpend). destruct (takes (d_id d) t w); [apply Hcase|congruence]. }
  split; [|split; [exact Hm'|split; [exact Hp'|split; [exact Hst|]]]].
  - rewrite Hat. destruct (takes (d_id d) t w); [destruct Hcase as (_ & -> & _); lia|subst d1; lia].
  - intros [[Hs Hb%Nat.leb_le]%andb_true_iff Hrest]%andb_true_iff Hpend. rewrite (Hs' Hrest Hpend).
    destruct (takes (d_id d) t w) eqn:Ek; [done|]. exfalso. subst d1.
    specialize (Hst Hpend).
    rewrite forallb_forall in Hs. assert (Hin := proj1 (select_single _ _ _ (proj1 Hj))). specialize (Hs d Hin).
    rewrite Hst, String.eqb_refl in Hs. cbn in Hs. apply andb_true_iff in Hs. destruct Hs as [Hdue Hl%negb_true_iff].
    discriminate (Hserve Hdue Hl Hb).
Qed.
End Ticks.

(** C21: retries end.  Along any run of a worker's ticks, whatever they find locked, due
    and answered, a new delivery is claimed at most six times, each claim is one attempt,
    and after the sixth it is delivered, failed or abandoned.  If moreover each of at least
    six ticks finds it due and unlocked while it is pending, in a queue no longer than a
    batch, the run settles it. *)
Theorem delivery_settles `{Digest} `{Gcm} `{UrlParser} `{OrderLimit} cfg env ts w d e ev :
  respects webhookDeliveries_idx (webhookDeliveries (db w)) ->
  respects webhookEndpoints_idx (webhookEndpoints (db w)) ->
  respects webhookEvents_idx (webhookEvents (db w)) ->
  In d (webhookDeliveries (db w)) -> d_attemptCount d = 0%Z ->
  In e (webhookEndpoints (db w)) -> we_id e = d_endpointId d ->
  In ev (webhookEvents (db w)) -> ev_id ev = d_eventId d ->
  let claims := attempts cfg env (d_id d) ts w in
  exists w' d', run_ticks cfg env ts w = (Return tt, w') /\
    In d' (webhookDeliveries (db w')) /\ d_id d' = d_id d /\
    d_attemptCount d' = Z.of_nat claims /\ (claims <= 6)%nat /\
    (claims = 6%nat \/ served cfg env (d_id d) ts w = true /\ (6 <= List.length ts)%nat ->
     In (d_status d') [wd_delivered; wd_failed; wd_abandoned]).
Proof.
  intros Hd He Hev Hdin Ha Hein Heid Hevin Hevid claims.
  assert (Hj : joins (db w) d e ev).
  { split; [exact (select_pkey_eq _ d_id _ _ d Hd Hdin)|]. rewrite <- Heid, <- Hevid.
    split; [exact (select_pkey_eq _ we_id _ _ e He Hein)|exact (select_pkey_eq _ ev_id _ _ ev Hev Hevin)]. }
  destruct (run_ticks_delivery cfg env ts w d e ev Hj) as (w' & d' & Er & Hj' & Hid & Hat & Hmax & Hlt & _ & Hserved);
    [rewrite Ha; done..|].
  fold claims in Hat, Hserved. rewrite Ha in Hat. unfold MAX_DELIVERY_ATTEMPTS in *. exists w', d'. split; [exact Er|].
  destruct (select_single _ _ _ (proj1 Hj')) as [Hin _]. repeat (split; [first [done|lia]|]).
  intros Hs. assert (Hp : d_status d' <> wd_pending).
  { intros Hp. specialize (Hlt Hp). destruct Hs as [Hs|[Hs Hl]]; [lia|]. specialize (Hserved Hs Hp). lia. }
  destruct (d_status d'); cbn; tauto.
Qed.

(** ** A concrete order *)

Fixpoint sort_insert {A} (key : A -> Z) (x : A) (l : list A) : list A :=
  match l with
  | [] => [x]
  | y :: l' => if (key x <=? key y)%Z then x :: y :: l' else y :: sort_insert key x l'
  end.
Definition sort_by {A} (key : A -> Z) (l : list A) : list A := fold_right (sort_insert key) [] l.

Lemma sort_insert_perm {A} (key : A -> Z) x l : Permutation (x :: l) (sort_insert key x l).
Proof.
  induction l as [|y l IH]; cbn; [done|]. destruct (_ <=? _)%Z; [done|].
  etrans; [apply perm_swap|]. by constructor.
Qed.

Lemma sort_insert_sorted {A} (key : A -> Z) x l :
  StronglySorted (fun a b => (key a <= key b)%Z) l -> StronglySorted (fun a b => (key a <= key b)%Z) (sort_insert key x l).
Proof.
  induction l as [|y l IH]; intros Hs; cbn; [by repeat constructor|].
  inversion Hs as [|? ? Hl Hy]; subst. destruct (key x <=? key y)%Z eqn:E.
  - apply Z.leb_le in E. constructor; [done|]. constructor; [done|].
    eapply List.Forall_impl; [|exact Hy]. cbn. lia.
  - apply Z.leb_gt in E. constructor; [by apply IH|]. apply List.Forall_forall. intros z Hz.
    apply (Permutation_in z (Permutation_sym (sort_insert_perm key x l))) in Hz.
    rewrite List.Forall_forall in Hy. destruct Hz as [<-|Hz]; [lia|by apply Hy].
Qed.

Lemma sort_by_law {A} (key : A -> Z) l :
  Permutation l (sort_by key l) /\ StronglySorted (fun a b => (key a <= key b)%Z) (sort_by key l).
Proof.
  induction l as [|x l [Hp Hs]]; cbn; [by repeat constructor|]. split.
  - etrans; [apply perm_skip, Hp|apply sort_insert_perm].
  - by apply sort_insert_sorted.
Qed.

Lemma sorted_lookup {A} (key : A -> Z) l i j x y :
  StronglySorted (fun a b => (key a <= key b)%Z) l -> (i <= j)%nat -> l !! i = Some x -> l !! j = Some y ->
  (key x <= key y)%Z.
Proof.
  revert i j. induction l as [|z l IH]; intros i j Hs Hij Hx Hy; [done|].
  inversion Hs as [|? ? Hl Hz]; subst. destruct i as [|i], j as [|j]; cbn in *; try lia.
  - injection Hx as <-. injection Hy as <-. lia.
  - injection Hx as <-. rewrite List.Forall_forall in Hz. apply Hz.
    by apply list_elem_of_In, list_elem_of_lookup_2 with j.
  - apply (IH i j); [done|lia|done|done].
Qed.

Program Definition insertion_order : OrderLimit := {| first_by := fun A key n l => firstn n (sort_by key l) |}.
Next Obligation.
  intros A key n l. destruct (sort_by_law key l) as [Hp Hs]. exists (sort_by key l).
  split; [exact Hp|]. split; [done|]. intros i j x y Hij Hx Hy. exact (sorted_lookup key _ i j x y Hs Hij Hx Hy).
Qed.

(** ** Witnesses and a double delivery *)

Definition plain_digest' : Digest := {| sha256Hex m := m; hmacSha256Hex k m := k ++ "|" ++ m |}.

Definition hook_secret : string :=
  match wrap (H := plain_gcm) "abcdefghijkl" (repeat_char "0"%char 64) "whsec_1" (Some (aadFor "whk_1")) with
  | Return w => w | Throw _ => "" end.
Definition hook_endpoint : WebhookEndpoint :=
  mkWebhookEndpoint "whk_1" "app_1" "https://hooks.example" hook_secret true ["verification.verified"] 0 0.
Definition hook_event : WebhookEvent := mkWebhookEvent "evt_1" "app_1" "verification.verified" None "{}" 0.
Definition hook_delivery : WebhookDelivery :=
  mkWebhookDelivery "wd_1" "whk_1" "evt_1" "verification.verified" wd_pending 0 0 None None 0 0.
Definition hook_db : DB :=
  set_rows t_webhookDeliveries [hook_delivery]
    (set_rows t_webhookEvents [hook_event] (set_rows t_webhookEndpoints [hook_endpoint] empty_db)).
Definition hook_world : World := mkWorld hook_db [] [].

Definition claim_at (t : Z) (w : World) : list DueRow * World :=
  match claimBatch (H := insertion_order) (fun _ => false) t t w with
  | (Return rows, w') => (rows, w')
  | (Throw _, w') => ([], w')
  end.

(** The lease is shorter than a batch can take: 25 requests of up to 5 s each run one
    after the other under a lease of 60 s.  A second worker then claims a row the
    first still works on, and the update of the outcome has no condition on the
    status: its failure puts a delivered row back to pending. *)
Theorem expired_lease_redelivers :
  let '(rows1, w1) := claim_at 1000 hook_world in
  let '(rows2, w2) := claim_at 61000 w1 in
  rows1 = rows2 /\ rows1 <> [] /\
  match rows1, rows2 with
  | row1 :: _, row2 :: _ =>
      let '(_, w3) := applyOutcome row1 1 (Delivered 200) 62000 62000 w2 in
      let '(_, w4) := applyOutcome row2 1 (Retry server_5xx (Some 500%Z) "500 from receiver") 63000 63000 w3 in
      map d_status (webhookDeliveries (db w3)) = [wd_delivered] /\
      map d_status (webhookDeliveries (db w4)) = [wd_pending]
  | _, _ => False
  end.
Proof. vm_compute. repeat split. discriminate. Qed.

Lemma claim_at_eq t w : claimBatch (H := insertion_order) (fun _ => false) t t w
  = (Return (fst (claim_at t w)), snd (claim_at t w)).
Proof.
  unfold claim_at. destruct (claimBatch_cases (H := insertion_order) (fun _ => false) t t w)
    as (rows & w' & -> & _). reflexivity.
Qed.

Lemma claims_exclusive_witness :
  List.length (fst (claim_at 1000 hook_world)) = 1%nat /\
  forall row1 row2, In row1 (fst (claim_at 1000 hook_world)) ->
    In row2 (fst (claim_at 2000 (snd (claim_at 1000 hook_world)))) -> delivery_id row1 <> delivery_id row2.
Proof.
  split; [vm_compute; reflexivity|].
  refine (proj2 (proj2 (claims_exclusive (H := insertion_order) _ 1000 1000 _ 2000 2000 _ _ _ _ _
    (claim_at_eq 1000 hook_world) (claim_at_eq 2000 _) _))).
  unfold IN_FLIGHT_LEASE_SECONDS. lia.
Defined.

(** Six ticks, a day apart, against an endpoint that always fails. *)
Definition daily_tick (i : nat) : Tick :=
  let t := (Z.of_nat i * 86400000 + 1000)%Z in
  {| tk_locked := fun _ => false; tk_now := t; tk_dbNow := t; tk_fetch := fun _ _ => Response 500; tk_clock := fun _ => t |}.
Definition daily_ticks : list Tick := map daily_tick (seq 0 6).

Lemma delivery_settles_witness :
  let run := run_ticks (H := plain_digest') (H0 := plain_gcm) (H1 := example_parser) (H2 := insertion_order) default_config production in
  attempts (H := plain_digest') (H0 := plain_gcm) (H1 := example_parser) (H2 := insertion_order) default_config production
    "wd_1" daily_ticks hook_world = 6%nat /\
  exists w' d', run daily_ticks hook_world = (Return tt, w') /\ In d' (webhookDeliveries (db w')) /\
    In (d_status d') [wd_delivered; wd_failed; wd_abandoned].
Proof.
  intros run. split; [vm_compute; reflexivity|].
  destruct (delivery_settles (H := plain_digest') (H0 := plain_gcm) (H1 := example_parser) (H2 := insertion_order)
    default_config production daily_ticks hook_world hook_delivery hook_endpoint hook_event)
    as (w' & d' & Er & Hin & _ & _ & _ & Hst).
  1-3: repeat constructor.
  1,3,5: left; reflexivity.
  1-3: reflexivity.
  exists w', d'. split; [exact Er|]. split; [exact Hin|]. apply Hst. right. split; [vm_compute; reflexivity|].
  cbn. lia.
Defined.
