(* ===== verification/Client.v ===== *)
(** * What the two user-interface packages share

    packages/web-component ([types.ts], [render.ts], the view of [element.ts]) and
    packages/react ([types.ts], the view of [SyrotpVerification.tsx]): the
    verification as the browser holds it, the countdown, the merge of a poll's
    answer, HTML escaping, the SMS link and what is shown.  A missing
    [verified_at] and a null one are not told apart. *)

From S2P Require Import Prelude JsString Json Date Schema.
From Stdlib Require Import String Ascii.

Open Scope string_scope.

(** ** [types.ts] *)

Record ClientVerification : Type := mkClientVerification {
  cv_id : string; cv_status : verificationStatus; cv_send_to : option string; cv_message : option string;
  cv_phone_masked : string; cv_expires_at : string; cv_verified_at : option string;
}.

Inductive Callback : Type :=
  | onChange (v : ClientVerification) (secondsLeft : option Z)
  | onVerified (v : ClientVerification)
  | onExpired (v : ClientVerification)
  | onCancelled (v : ClientVerification)
  | onError (message : string).

(** ** Helpers of both packages *)

Definition DEFAULT_POLL_INTERVAL_MS : Z := 2500.

(** The JSON of [GET /v/:id/status]. *)
Record StatusResponse : Type := {
  sr_status : verificationStatus; sr_expires_at : string; sr_verified_at : option string;
}.

Definition isTerminal (s : verificationStatus) : bool := negb (status_eqb s pending).

Definition computeSecondsLeft `{DateParse} (now : Z) (expiresAt : string) : option Z :=
  (fun ms => Z.max 0 ((ms - now) / 1000)) <$> date_ms expiresAt.

(** [secondsLeft <= 0]; NaN compares false. *)
Definition run_out (secondsLeft : option Z) : bool :=
  match secondsLeft with Some s => (s <=? 0)%Z | None => false end.

(** [s.replace(/\/+$/, "")] *)
Fixpoint strip_trailing_slashes (s : string) : string :=
  match s with
  | EmptyString => EmptyString
  | String c s' =>
      if all_chars (Ascii.eqb "/"%char) (String c s') then EmptyString
      else String c (strip_trailing_slashes s')
  end.

Definition upper_hex (n : nat) : ascii :=
  if (n <? 10)%nat then ascii_of_nat (48 + n) else ascii_of_nat (55 + n).
Definition percent (byte : nat) : string :=
  String "%"%char (String (upper_hex (byte / 16)) (String (upper_hex (byte mod 16)) "")).

Definition uri_unreserved (c : ascii) : bool :=
  is_alnum c || existsb (Ascii.eqb c) (list_ascii_of_string "-_.!~*'()").

(** [encodeURIComponent] of one code unit: the bytes of its UTF-8 form. *)
Definition encode_char (c : ascii) : string :=
  if uri_unreserved c then String c ""
  else if (code c <? 128)%nat then percent (code c)
  else percent (192 + code c / 64) ++ percent (128 + code c mod 64).

Fixpoint encodeURIComponent (s : string) : string :=
  match s with EmptyString => "" | String c s' => encode_char c ++ encodeURIComponent s' end.

Definition status_url (baseUrl id : string) : string :=
  strip_trailing_slashes baseUrl ++ "/v/" ++ encodeURIComponent id ++ "/status".

(** The state after an answer with another status. *)
Definition merge_answer (prev : ClientVerification) (body : StatusResponse) : ClientVerification :=
  let still := status_eqb (sr_status body) pending in
  mkClientVerification (cv_id prev) (sr_status body)
    (if still then cv_send_to prev else None) (if still then cv_message prev else None)
    (cv_phone_masked prev) (sr_expires_at body) (sr_verified_at body).

Definition with_expires_at (prev : ClientVerification) (e : string) : ClientVerification :=
  mkClientVerification (cv_id prev) (cv_status prev) (cv_send_to prev) (cv_message prev)
    (cv_phone_masked prev) e (cv_verified_at prev).

(** The local expiry. *)
Definition locally_expired (prev : ClientVerification) : ClientVerification :=
  mkClientVerification (cv_id prev) expired None None (cv_phone_masked prev) (cv_expires_at prev)
    (cv_verified_at prev).

(** The transition callback of a change from one status to the next. *)
Definition transition_callback (prev : verificationStatus) (next : ClientVerification) : list Callback :=
  if status_eqb prev (cv_status next) then []
  else if negb (status_eqb prev pending) then []
  else match cv_status next with
       | verified => [onVerified next]
       | expired => [onExpired next]
       | cancelled => [onCancelled next]
       | _ => []
       end.

Definition is_transition (cb : Callback) : bool :=
  match cb with onVerified _ | onExpired _ | onCancelled _ => true | _ => false end.

(** A verification past [pending] carries neither the message nor the number. *)
Definition hides_code (v : ClientVerification) : Prop :=
  cv_status v <> pending -> cv_send_to v = None /\ cv_message v = None.

(** ** [render.ts] *)

Definition escape_char (c : ascii) : string :=
  if Ascii.eqb c "&"%char then "&amp;"
  else if Ascii.eqb c "<"%char then "&lt;"
  else if Ascii.eqb c ">"%char then "&gt;"
  else if Ascii.eqb c dquote then "&quot;"
  else if Ascii.eqb c "'"%char then "&#39;"
  else String c "".

Fixpoint escapeHtml (s : string) : string :=
  match s with EmptyString => "" | String c s' => escape_char c ++ escapeHtml s' end.

(** [String(n).padStart(2, "0")] *)
Definition pad2 (s : string) : string := repeat_char "0"%char (2 - slen s) ++ s.

(** For a number of seconds; [None] is NaN. *)
Definition formatCountdown (secs : option Z) : string :=
  match secs with
  | Some secs => num_to_string (secs / 60) ++ ":" ++ pad2 (num_to_string (secs mod 60))
  | None => "NaN:NaN"
  end.

Definition buildSmsLink (sendTo body : string) : string :=
  "sms:" ++ sendTo ++ "?body=" ++ encodeURIComponent body.

(** ** What is shown *)

Definition DEFAULT_INSTRUCTION : string := "Send this SMS to verify your phone.".

(** The text each view puts into the page, before HTML escaping. *)
Inductive View : Type :=
  | PendingView (instruction phone_masked send_to message sms_link countdown : string)
  | StatusView (text : string)
  | Blank.

Definition truthy_string (s : option string) : option string :=
  match s with Some s => if nonempty s then Some s else None | None => None end.

Definition status_view (s : verificationStatus) : View :=
  match s with
  | verified => StatusView "Phone verified."
  | expired => StatusView "Verification expired. Start a new one to continue."
  | cancelled => StatusView "Verification cancelled."
  | failed => StatusView "Verification failed."
  | pending => Blank
  end.

(** [SyrotpVerificationElement.render] *)
Definition render (initial_instruction : option string) (v : ClientVerification) (secsLeft : option Z) : View :=
  let instruction := default DEFAULT_INSTRUCTION initial_instruction in
  match cv_status v, truthy_string (cv_send_to v), truthy_string (cv_message v) with
  | pending, Some send_to, Some message =>
      PendingView instruction (cv_phone_masked v) send_to message (buildSmsLink send_to message)
        (formatCountdown secsLeft)
  | s, _, _ => status_view s
  end.

(** The markup of [SyrotpVerification]: five conditional blocks in order. *)
Definition SyrotpVerification (initialInstruction : option string) (v : ClientVerification)
    (secondsLeft : option Z) : list View :=
  let isPending := status_eqb (cv_status v) pending && bool_decide (cv_send_to v <> None)
                   && bool_decide (cv_message v <> None) in
  (match isPending, truthy_string (cv_send_to v), truthy_string (cv_message v) with
   | true, Some send_to, Some message =>
       [PendingView (default DEFAULT_INSTRUCTION initialInstruction) (cv_phone_masked v) send_to message
          (buildSmsLink send_to message) (formatCountdown secondsLeft)]
   | _, _, _ => []
   end
   ++ (if status_eqb (cv_status v) verified then [StatusView "Phone verified."] else [])
   ++ (if status_eqb (cv_status v) expired
       then [StatusView "Verification expired. Start a new one to continue."] else [])
   ++ (if status_eqb (cv_status v) cancelled then [StatusView "Verification cancelled."] else [])
   ++ (if status_eqb (cv_status v) failed then [StatusView "Verification failed."] else []))%list.

(** ** Lemmas *)

Lemma encodeURIComponent_id s : all_chars uri_unreserved s = true -> encodeURIComponent s = s.
Proof.
  induction s as [|c s IH]; [done|]. cbn [all_chars encodeURIComponent]. rewrite andb_true_iff. intros [Hc Hs].
  unfold encode_char. rewrite Hc, IH by done. done.
Qed.

Lemma encodeURIComponent_prefixed p id :
  all_chars uri_unreserved p = true -> matches_prefixed p is_alnum id = true -> encodeURIComponent id = id.
Proof.
  intros Hu Hi. apply encodeURIComponent_id. unfold matches_prefixed in Hi. rewrite !andb_true_iff in Hi.
  destruct Hi as [[Hp _] Ha]. apply startsWith_spec in Hp. rewrite Hp, all_chars_app. cbn [String.length] in *.
  apply andb_true_iff. split; [done|]. eapply all_chars_impl; [|exact Ha]. intros c. by_ascii is_alnum uri_unreserved.
Qed.

Lemma isTerminal_false s : isTerminal s = false <-> s = pending.
Proof. unfold isTerminal. rewrite negb_false_iff. apply status_eqb_eq. Qed.

Lemma isTerminal_true s : isTerminal s = true <-> s <> pending.
Proof. unfold isTerminal. rewrite negb_true_iff. apply status_eqb_neq. Qed.

Lemma computeSecondsLeft_bounds `{DateParse} now e s : computeSecondsLeft now e = Some s -> (0 <= s)%Z.
Proof. unfold computeSecondsLeft. destruct (date_ms e); cbn; [|done]. intros [= <-]. lia. Qed.

Lemma computeSecondsLeft_None `{DateParse} now e : computeSecondsLeft now e = None <-> date_ms e = None.
Proof. unfold computeSecondsLeft. by destruct (date_ms e). Qed.

(** The countdown has run out exactly when less than a second is left. *)
Lemma run_out_iff `{DateParse} now e :
  run_out (computeSecondsLeft now e) = true <-> exists t, date_ms e = Some t /\ (t < now + 1000)%Z.
Proof.
  unfold run_out, computeSecondsLeft. destruct (date_ms e) as [t|]; cbn; [|naive_solver].
  rewrite Z.leb_le. transitivity (t < now + 1000)%Z; [|naive_solver].
  assert (Hd := Z.div_mod (t - now) 1000 ltac:(done)).
  assert (Hm := Z.mod_pos_bound (t - now) 1000 ltac:(done)). lia.
Qed.

Lemma merge_answer_hides prev body : hides_code (merge_answer prev body).
Proof. intros Hn. cbn in *. apply status_eqb_neq in Hn. by rewrite Hn. Qed.

Lemma locally_expired_hides prev : hides_code (locally_expired prev).
Proof. done. Qed.

Lemma with_expires_at_hides prev e : hides_code prev -> hides_code (with_expires_at prev e).
Proof. done. Qed.

Lemma status_eqb_refl s : status_eqb s s = true.
Proof. by apply status_eqb_eq. Qed.
Lemma status_eqb_pe : status_eqb pending expired = false.
Proof. reflexivity. Qed.
Lemma status_eqb_ep : status_eqb expired pending = false.
Proof. reflexivity. Qed.
Lemma isTerminal_pending : isTerminal pending = false.
Proof. reflexivity. Qed.
Lemma isTerminal_expired : isTerminal expired = true.
Proof. reflexivity. Qed.

Create Rewrite HintDb client.
#[export] Hint Rewrite status_eqb_refl status_eqb_pe status_eqb_ep isTerminal_pending isTerminal_expired : client.

Create HintDb client discriminated.
#[export] Hint Resolve merge_answer_hides locally_expired_hides with_expires_at_hides : client.

Lemma transition_callback_is prev next cb :
  In cb (transition_callback prev next) -> is_transition cb = true.
Proof. unfold transition_callback. repeat case_match_goal; cbn; intuition (subst; done). Qed.

Lemma transition_callback_terminal prev next :
  prev <> pending -> transition_callback prev next = [].
Proof. unfold transition_callback. intros ->%status_eqb_neq. by destruct (status_eqb _ _). Qed.

Lemma transition_callback_pending prev next : cv_status next = pending -> transition_callback prev next = [].
Proof. unfold transition_callback. intros ->. by destruct (status_eqb prev pending). Qed.

Lemma transition_callback_same next : transition_callback (cv_status next) next = [].
Proof. unfold transition_callback. by rewrite (proj2 (status_eqb_eq _ _) eq_refl). Qed.

(** *** Escaping *)

(** The characters that would leave a text or attribute position. *)
Definition html_safe (c : ascii) : bool :=
  negb (Ascii.eqb c "<"%char || Ascii.eqb c ">"%char || Ascii.eqb c dquote || Ascii.eqb c "'"%char).

Lemma escape_char_safe c : all_chars html_safe (escape_char c) = true.
Proof.
  unfold escape_char. repeat case_match_goal; try reflexivity.
  cbn. unfold html_safe. by rewrite Heqb0, Heqb1, Heqb2, Heqb3.
Qed.

(** Reading the five entities back. *)
Fixpoint unescape (s : string) : string :=
  match s with
  | String "&" (String "a" (String "m" (String "p" (String ";" s')))) => String "&" (unescape s')
  | String "&" (String "l" (String "t" (String ";" s'))) => String "<" (unescape s')
  | String "&" (String "g" (String "t" (String ";" s'))) => String ">" (unescape s')
  | String "&" (String "q" (String "u" (String "o" (String "t" (String ";" s'))))) => String dquote (unescape s')
  | String "&" (String "#" (String "3" (String "9" (String ";" s')))) => String "'" (unescape s')
  | String c s' => String c (unescape s')
  | EmptyString => EmptyString
  end.

Lemma unescape_escape_char c s : unescape (escape_char c ++ s) = String c (unescape s).
Proof.
  unfold escape_char.
  destruct (Ascii.eqb_spec c "&"); [by subst|]. destruct (Ascii.eqb_spec c "<"); [by subst|].
  destruct (Ascii.eqb_spec c ">"); [by subst|]. destruct (Ascii.eqb_spec c dquote); [by subst|].
  destruct (Ascii.eqb_spec c "'"); [by subst|].
  cbn [append]. destruct c as [[] [] [] [] [] [] [] []]; try reflexivity. done.
Qed.

Lemma unescape_escapeHtml s : unescape (escapeHtml s) = s.
Proof. induction s as [|c s IH]; cbn [escapeHtml]; [done|]. by rewrite unescape_escape_char, IH. Qed.

Lemma escapeHtml_safe s : all_chars html_safe (escapeHtml s) = true.
Proof. induction s as [|c s IH]; cbn [escapeHtml]; [done|]. by rewrite all_chars_app, escape_char_safe, IH. Qed.

(** Both packages show the same view. *)
Lemma views_agree ins v secs :
  SyrotpVerification ins v secs = match render ins v secs with Blank => [] | w => [w] end.
Proof.
  unfold SyrotpVerification, render.
  destruct (cv_status v), (cv_send_to v) as [s|], (cv_message v) as [m|]; cbn; try done;
    try (by destruct (nonempty s)); try (by destruct (nonempty m)).
  destruct (nonempty s), (nonempty m); done.
Qed.

(** Nothing but a pending verification shows a message. *)
Lemma render_pending ins v secs i p t m l c :
  render ins v secs = PendingView i p t m l c -> cv_status v = pending /\ cv_message v = Some m /\ cv_send_to v = Some t.
Proof.
  unfold render. destruct (cv_status v), (cv_send_to v) as [s|], (cv_message v) as [m'|]; cbn; try done;
    try destruct (nonempty s); try destruct (nonempty m'); cbn; try done. by intros [= <- <- <- <-].
Qed.
