(* ===== verification/Controller.v ===== *)
(** * The polling controller: packages/web-component/src/controller.ts

    [VerificationController] as a state machine over the events of a browser: the
    two interval timers, the settling of a [fetch], [start] and [stop].  A callback
    of the embedder returns, and may call [stop] while it runs; which ones do is
    the parameter [calls_stop].  Several requests can be in flight, because the
    interval does not wait for an answer; only the last one is aborted by [stop]. *)

From S2P Require Import Prelude JsString Json Date Schema Client.
From Stdlib Require Import String Ascii.

Open Scope string_scope.

(** The object's fields, the requests on their way and the callbacks made so far.
    A request is named by the number of requests made before it. *)
Record Controller : Type := mkController {
  c_baseUrl : string; c_state : ClientVerification; c_secondsLeft : option Z;
  c_prevStatus : verificationStatus; c_pollId : bool; c_tickId : bool; c_inflight : option nat;
  c_stopped : bool; c_started : bool;
  c_requests : list string; c_outstanding : list nat; c_calls : list Callback;
}.

(** How a poll ends: an answer, a status that is not 2xx, or a rejection, which
    may be the [AbortError] of an aborted request. *)
Inductive PollResult : Type :=
  | Answer (body : StatusResponse)
  | NotOk (httpStatus : Z)
  | Rejection (isAbortError : bool) (message : string).

Inductive Event : Type :=
  | EStart
  | EStop
  | ETick (now : Z)
  | EPollTimer
  | ESettle (request : nat) (result : PollResult) (now : Z).

Section Widget.
Context `{DateParse} (calls_stop : Callback -> bool).

(** [constructor] *)
Definition construct (baseUrl : string) (verification : ClientVerification) (now : Z) : Controller :=
  mkController baseUrl verification (computeSecondsLeft now (cv_expires_at verification))
    (cv_status verification) false false None false false [] [] [].

Definition clearTimers (c : Controller) : Controller :=
  mkController (c_baseUrl c) (c_state c) (c_secondsLeft c) (c_prevStatus c) false false (c_inflight c)
    (c_stopped c) (c_started c) (c_requests c) (c_outstanding c) (c_calls c).

Definition stop (c : Controller) : Controller :=
  clearTimers (mkController (c_baseUrl c) (c_state c) (c_secondsLeft c) (c_prevStatus c) (c_pollId c)
    (c_tickId c) None true (c_started c) (c_requests c) (c_outstanding c) (c_calls c)).

(** [this.opts.onX?.(...)] *)
Definition call (cb : Callback) (c : Controller) : Controller :=
  let c := mkController (c_baseUrl c) (c_state c) (c_secondsLeft c) (c_prevStatus c) (c_pollId c) (c_tickId c)
             (c_inflight c) (c_stopped c) (c_started c) (c_requests c) (c_outstanding c)
             (c_calls c ++ [cb]) in
  if calls_stop cb then stop c else c.

Definition call_all (cbs : list Callback) (c : Controller) : Controller := fold_left (fun c cb => call cb c) cbs c.

Definition set_timers (poll tick : bool) (c : Controller) : Controller :=
  mkController (c_baseUrl c) (c_state c) (c_secondsLeft c) (c_prevStatus c) poll tick (c_inflight c)
    (c_stopped c) (c_started c) (c_requests c) (c_outstanding c) (c_calls c).

Definition set_started (c : Controller) : Controller :=
  mkController (c_baseUrl c) (c_state c) (c_secondsLeft c) (c_prevStatus c) (c_pollId c) (c_tickId c)
    (c_inflight c) (c_stopped c) true (c_requests c) (c_outstanding c) (c_calls c).

Definition set_state (v : ClientVerification) (prev : verificationStatus) (secs : option Z) (c : Controller) : Controller :=
  mkController (c_baseUrl c) v secs prev (c_pollId c) (c_tickId c) (c_inflight c)
    (c_stopped c) (c_started c) (c_requests c) (c_outstanding c) (c_calls c).

Definition transition (now : Z) (next : ClientVerification) (c : Controller) : Controller :=
  let prev := c_prevStatus c in
  let secs := computeSecondsLeft now (cv_expires_at next) in
  let c := call (onChange next secs) (set_state next (cv_status next) secs c) in
  let c := call_all (transition_callback prev next) c in
  if isTerminal (cv_status next) then clearTimers c else c.

(** [poll] up to its [await]: the request leaves. *)
Definition poll (c : Controller) : Controller :=
  if c_stopped c then c
  else if isTerminal (cv_status (c_state c)) then c
  else
    let k := List.length (c_requests c) in
    mkController (c_baseUrl c) (c_state c) (c_secondsLeft c) (c_prevStatus c) (c_pollId c) (c_tickId c)
      (Some k) (c_stopped c) (c_started c)
      (c_requests c ++ [status_url (c_baseUrl c) (cv_id (c_state c))]) (k :: c_outstanding c) (c_calls c).

(** [poll] from its [await] on. *)
Definition settle (result : PollResult) (now : Z) (c : Controller) : Controller :=
  match result with
  | Answer body =>
      if c_stopped c then c
      else if status_eqb (sr_status body) (cv_status (c_state c)) then
        if negb (String.eqb (sr_expires_at body) (cv_expires_at (c_state c))) then
          let v := with_expires_at (c_state c) (sr_expires_at body) in
          let secs := computeSecondsLeft now (cv_expires_at v) in
          call (onChange v secs) (set_state v (c_prevStatus c) secs c)
        else c
      else transition now (merge_answer (c_state c) body) c
  | NotOk httpStatus =>
      if c_stopped c then c
      else call (onError ("status poll failed: HTTP " ++ num_to_string httpStatus)) c
  | Rejection isAbortError message =>
      if c_stopped c then c else if isAbortError then c else call (onError message) c
  end.

Definition start (c : Controller) : Controller :=
  if c_started c || c_stopped c then c
  else
    let c := call (onChange (c_state c) (c_secondsLeft c)) (set_started c) in
    if isTerminal (cv_status (c_state c)) then c
    else let c := poll (set_timers (c_pollId c) true c) in set_timers true (c_tickId c) c.

Definition onCountdownTick (now : Z) (c : Controller) : Controller :=
  if negb (status_eqb (cv_status (c_state c)) pending) then c
  else
    let secs := computeSecondsLeft now (cv_expires_at (c_state c)) in
    let c := set_state (c_state c) (c_prevStatus c) secs c in
    if run_out secs then transition now (locally_expired (c_state c)) c
    else call (onChange (c_state c) secs) c.

Definition forget (k : nat) (c : Controller) : Controller :=
  mkController (c_baseUrl c) (c_state c) (c_secondsLeft c) (c_prevStatus c) (c_pollId c) (c_tickId c)
    (c_inflight c) (c_stopped c) (c_started c) (c_requests c)
    (List.filter (fun j => negb (Nat.eqb j k)) (c_outstanding c)) (c_calls c).

(** One event; [None] when the browser cannot produce it: the timer is not set or
    the request has already settled. *)
Definition react (e : Event) (c : Controller) : option Controller :=
  match e with
  | EStart => Some (start c)
  | EStop => Some (stop c)
  | ETick now => if c_tickId c then Some (onCountdownTick now c) else None
  | EPollTimer => if c_pollId c then Some (poll c) else None
  | ESettle k result now =>
      if existsb (Nat.eqb k) (c_outstanding c) then Some (settle result now (forget k c)) else None
  end.

Fixpoint run (es : list Event) (c : Controller) : option Controller :=
  match es with [] => Some c | e :: es' => react e c ≫= run es' end.
End Widget.

(** ** Specification *)

(** The pending-to-terminal changes along a sequence of states, as callbacks. *)
Fixpoint changes (v : ClientVerification) (vs : list ClientVerification) : list Callback :=
  match vs with
  | [] => []
  | v' :: vs' => (transition_callback (cv_status v) v' ++ changes v' vs')%list
  end.

Definition callback_hides (cb : Callback) : Prop :=
  match cb with
  | onChange v _ | onVerified v | onExpired v | onCancelled v => hides_code v
  | onError _ => True
  end.

(** A late answer: it reports [pending] when the state is past it. *)
Definition is_late (c : Controller) (e : Event) : bool :=
  match e with
  | ESettle _ (Answer body) _ => status_eqb (sr_status body) pending && isTerminal (cv_status (c_state c))
  | _ => false
  end.

Definition restarts (e : Event) : bool := match e with EStart | EStop => true | _ => false end.

Section Proofs.
Context `{DateParse} (calls_stop : Callback -> bool).
Abbreviation react := (react calls_stop).
Abbreviation run := (run calls_stop).

(** The states after each event. *)
Fixpoint history (es : list Event) (c : Controller) : list ClientVerification :=
  match es with
  | [] => []
  | e :: es' => match react e c with Some c' => c_state c' :: history es' c' | None => [] end
  end.

(** No answer of the run is late. *)
Fixpoint no_late (es : list Event) (c : Controller) : bool :=
  match es with
  | [] => true
  | e :: es' => negb (is_late c e) && match react e c with Some c' => no_late es' c' | None => true end
  end.

(** *** Making callbacks changes little else *)

Record calls_only (l : list Callback) (c c' : Controller) : Prop := {
  co_state : c_state c' = c_state c;
  co_prev : c_prevStatus c' = c_prevStatus c;
  co_started : c_started c' = c_started c;
  co_calls : c_calls c' = (c_calls c ++ l)%list;
  co_poll : c_pollId c' = c_pollId c && forallb (fun cb => negb (calls_stop cb)) l;
  co_tick : c_tickId c' = c_tickId c && forallb (fun cb => negb (calls_stop cb)) l;
  co_stopped : c_stopped c' = c_stopped c || existsb calls_stop l;
}.

Lemma call_only cb c : calls_only [cb] c (call calls_stop cb c).
Proof.
  unfold call. destruct (calls_stop cb) eqn:E; split; cbn; rewrite ?E; cbn;
    rewrite ?andb_true_r, ?andb_false_r, ?orb_false_r, ?orb_true_r; done.
Qed.

Lemma calls_only_trans l1 l2 a b c : calls_only l1 a b -> calls_only l2 b c -> calls_only (l1 ++ l2) a c.
Proof.
  intros [] []. split; try congruence.
  - rewrite co_calls1, co_calls0. by rewrite app_assoc.
  - rewrite co_poll1, co_poll0, forallb_app. by rewrite andb_assoc.
  - rewrite co_tick1, co_tick0, forallb_app. by rewrite andb_assoc.
  - rewrite co_stopped1, co_stopped0, existsb_app. by rewrite orb_assoc.
Qed.

Lemma call_all_only l c : calls_only l c (call_all calls_stop l c).
Proof.
  revert c. induction l as [|cb l IH]; intros c.
  - split; cbn; rewrite ?app_nil_r, ?andb_true_r, ?orb_false_r; done.
  - cbn [call_all fold_left]. apply (calls_only_trans [cb] l _ _ _ (call_only cb c)). apply IH.
Qed.

(** *** The invariant *)

Record Good (c : Controller) : Prop := {
  g_prev : c_prevStatus c = cv_status (c_state c);
  g_hides : hides_code (c_state c);
  g_timers : cv_status (c_state c) <> pending -> c_pollId c = false /\ c_tickId c = false;
}.

(** What one event adds to the calls. *)
Definition adds (c c' : Controller) (l : list Callback) : Prop :=
  c_calls c' = (c_calls c ++ l)%list /\ Forall callback_hides l /\
  List.filter is_transition l = transition_callback (cv_status (c_state c)) (c_state c').

Lemma adds_nil c c' : c_calls c' = c_calls c -> c_state c' = c_state c -> adds c c' [].
Proof.
  intros E1 E2. split; [by rewrite E1, app_nil_r|]. split; [done|].
  by rewrite E2, transition_callback_same.
Qed.

Lemma filter_transition_callback p next :
  List.filter is_transition (transition_callback p next) = transition_callback p next.
Proof. unfold transition_callback. by repeat case_match_goal. Qed.

Lemma transition_callback_hides p next : hides_code next -> Forall callback_hides (transition_callback p next).
Proof. intros Hn. unfold transition_callback. repeat case_match_goal; repeat first [done | constructor]. Qed.

Lemma transition_good now next c :
  Good c -> hides_code next ->
  Good (transition calls_stop now next c) /\
  exists l, adds c (transition calls_stop now next c) l /\ c_state (transition calls_stop now next c) = next.
Proof.
  intros [Hp _ Ht] Hn. unfold transition.
  set (secs := computeSecondsLeft _ _). set (c1 := set_state _ _ _ c).
  assert (Ho := calls_only_trans _ _ _ _ _ (call_only (onChange next secs) c1)
                  (call_all_only (transition_callback (c_prevStatus c) next) _)).
  set (c2 := call_all _ _ _) in *. destruct Ho as [Es Ep _ Ec Epo Eti _].
  assert (Hadd : forall c3, c_calls c3 = c_calls c2 -> c_state c3 = c_state c2 ->
    exists l, adds c c3 l /\ c_state c3 = next).
  { intros c3 E1 E2. exists (onChange next secs :: transition_callback (c_prevStatus c) next).
    rewrite E2, Es. split; [|done]. split; [by rewrite E1, Ec|]. split.
    - constructor; [done|]. by apply transition_callback_hides.
    - cbn [List.filter is_transition]. by rewrite filter_transition_callback, Hp, E2, Es. }
  destruct (isTerminal (cv_status next)) eqn:E.
  - split; [|by apply Hadd]. by split; cbn; rewrite ?Ep, ?Es.
  - apply isTerminal_false in E. split; [|by apply Hadd]. split; cbn; rewrite ?Ep, ?Es; cbn; [done|done|congruence].
Qed.

(** Steps that leave calls, status and timers alone. *)
Record quiet (c0 c : Controller) : Prop := {
  q_status : cv_status (c_state c) = cv_status (c_state c0);
  q_prev : c_prevStatus c = c_prevStatus c0;
  q_calls : c_calls c = c_calls c0;
  q_timers : cv_status (c_state c) <> pending -> c_pollId c = c_pollId c0 /\ c_tickId c = c_tickId c0;
  q_hides : hides_code (c_state c);
}.

Lemma quiet_good c0 c : Good c0 -> quiet c0 c -> Good c /\ exists l, adds c0 c l.
Proof.
  intros [Hp Hh Ht] [Es Ep Ec Et Hq]. split.
  - split; [congruence|done|]. intros Hn. destruct (Et Hn) as [-> ->]. apply Ht. congruence.
  - exists []. split; [by rewrite Ec, app_nil_r|]. split; [done|]. by rewrite <- Es, transition_callback_same.
Qed.

Lemma call_good cb c c0 :
  Good c0 -> quiet c0 c -> callback_hides cb -> is_transition cb = false ->
  Good (call calls_stop cb c) /\ exists l, adds c0 (call calls_stop cb c) l.
Proof.
  intros [Hp Hh Ht] [Es Ep Ec Et Hq] Hcb Hi. destruct (call_only cb c) as [Os Op _ Oc Opo Oti _]. split.
  - split; [congruence|by rewrite Os|]. rewrite Os, Opo, Oti. intros Hn.
    destruct (Et Hn) as [-> ->]. rewrite Es in Hn. by destruct (Ht Hn) as [-> ->].
  - exists [cb]. split; [by rewrite Oc, Ec|]. split; [by constructor|].
    rewrite Os, <- Es, transition_callback_same. cbn. by rewrite Hi.
Qed.

Lemma poll_quiet c : hides_code (c_state c) -> quiet c (poll c).
Proof. intros Hh. unfold poll. by destruct (c_stopped c), (isTerminal (cv_status (c_state c))). Qed.

Lemma poll_same c :
  c_state (poll c) = c_state c /\ c_calls (poll c) = c_calls c /\ c_prevStatus (poll c) = c_prevStatus c /\
  c_stopped (poll c) = c_stopped c /\ c_started (poll c) = c_started c /\
  c_pollId (poll c) = c_pollId c /\ c_tickId (poll c) = c_tickId c.
Proof. unfold poll. destruct (c_stopped c) eqn:?, (isTerminal (cv_status (c_state c))); repeat split; done. Qed.

Lemma good_transfer c0 c1 c : c_state c1 = c_state c0 -> c_calls c1 = c_calls c0 ->
  (exists l, adds c1 c l) -> exists l, adds c0 c l.
Proof. unfold adds. intros E1 E2 (l & H1). exists l. by rewrite <- E1, <- E2. Qed.

Lemma settle_good r now c :
  Good c -> Good (settle calls_stop r now c) /\ exists l, adds c (settle calls_stop r now c) l.
Proof.
  intros Hg. assert (Hq : quiet c c) by (by split; [..|apply Hg]).
  destruct r as [body|code|ab msg]; cbn; destruct (c_stopped c); try (by apply quiet_good).
  - destruct (status_eqb (sr_status body) _) eqn:Es.
    + destruct (negb _); [|by apply quiet_good]. apply call_good; [done| |apply Hg|done]. by split; [..|apply Hg].
    + destruct (transition_good now (merge_answer (c_state c) body) c Hg (merge_answer_hides _ _)) as (? & l & ? & _).
      split; [done|by exists l].
  - by apply call_good.
  - destruct ab; [by apply quiet_good|]. by apply call_good.
Qed.

Lemma tick_good now c :
  Good c -> Good (onCountdownTick calls_stop now c) /\ exists l, adds c (onCountdownTick calls_stop now c) l.
Proof.
  intros Hg. assert (Hq : quiet c c) by (by split; [..|apply Hg]). unfold onCountdownTick.
  destruct (negb _); [by apply quiet_good|]. cbv zeta. set (c1 := set_state _ _ _ c).
  assert (Hg1 : Good c1) by (destruct Hg; by split).
  destruct (run_out _).
  - destruct (transition_good now (locally_expired (c_state c1)) c1 Hg1 (locally_expired_hides _)) as (? & l & ? & _).
    split; [done|]. by apply (good_transfer c c1); [..|exists l].
  - apply call_good; [done| |apply Hg|done]. by split; [..|apply Hg].
Qed.

Lemma start_good c : Good c -> Good (start calls_stop c) /\ exists l, adds c (start calls_stop c) l.
Proof.
  intros Hg. assert (Hq : quiet c c) by (by split; [..|apply Hg]). unfold start.
  destruct (_ || _); [by apply quiet_good|].
  destruct (call_good (onChange (c_state c) (c_secondsLeft c)) (set_started c) c) as [Hg1 H1];
    [done|by split; [..|apply Hg]|apply Hg|done|].
  cbv zeta. set (c1 := call _ _ _) in *. destruct (isTerminal _) eqn:E; [done|]. apply isTerminal_false in E.
  set (c2 := set_timers true _ (poll _)).
  destruct (poll_same (set_timers (c_pollId c1) true c1)) as (Hs & Hc & Hv & _).
  change (c_state c2 = c_state c1) in Hs. change (c_calls c2 = c_calls c1) in Hc.
  change (c_prevStatus c2 = c_prevStatus c1) in Hv.
  destruct Hg1 as [Gp Gh _]. split; [split; [congruence|by rewrite Hs|by rewrite Hs]|].
  destruct H1 as (l & Hl). exists l. unfold adds in *. by rewrite Hs, Hc.
Qed.

(** One event, in full. *)
Lemma react_good e c c' : Good c -> react e c = Some c' -> Good c' /\ exists l, adds c c' l.
Proof.
  intros Hg. assert (Hq : quiet c c) by (by split; [..|apply Hg]).
  destruct e as [| |now| |k r now]; cbn.
  - intros [= <-]. by apply start_good.
  - intros [= <-]. apply quiet_good; [done|]. split; try done; [|apply Hg]. intros Hn.
    destruct (g_timers c Hg Hn) as [-> ->]. done.
  - destruct (c_tickId c); [|done]. intros [= <-]. by apply tick_good.
  - destruct (c_pollId c) eqn:Ep; [|done]. intros [= <-]. apply quiet_good; [done|]. apply poll_quiet, Hg.
  - destruct (existsb _ _); [|done]. intros [= <-].
    assert (Hf : Good (forget k c)) by (destruct Hg; by split).
    destruct (settle_good r now (forget k c) Hf) as [? Hl]. split; [done|]. by apply (good_transfer c (forget k c)).
Qed.

Lemma run_good es c c' :
  Good c -> run es c = Some c' ->
  Good c' /\ exists l, c_calls c' = (c_calls c ++ l)%list /\ Forall callback_hides l /\
    List.filter is_transition l = changes (c_state c) (history es c).
Proof.
  revert c. induction es as [|e es IH]; intros c Hg; cbn [Controller.run history].
  - intros [= <-]. split; [done|]. exists []. by rewrite app_nil_r.
  - destruct (Controller.react calls_stop e c) as [c1|] eqn:E; [|done]. cbn [mbind option_bind]. intros Hr.
    destruct (react_good e c c1 Hg E) as [Hg1 (l1 & E1 & F1 & T1)].
    destruct (IH c1 Hg1 Hr) as [Hg' (l2 & E2 & F2 & T2)]. split; [done|]. exists (l1 ++ l2)%list.
    split; [by rewrite E2, E1, app_assoc|]. split; [by apply Forall_app_2|].
    cbn [changes]. by rewrite List.filter_app, T1, T2.
Qed.

(** *** Polling goes on while it should *)

Definition polls_on (c : Controller) : Prop :=
  c_started c = true -> c_stopped c = false -> cv_status (c_state c) = pending ->
  c_pollId c = true /\ c_tickId c = true.

Lemma calls_only_polls l c0 c : polls_on c0 -> calls_only l c0 c -> polls_on c.
Proof.
  intros Hp [Es _ Est _ Ep Et Eo]. unfold polls_on. rewrite Es, Est, Ep, Et, Eo. intros H1 H2 H3.
  apply orb_false_iff in H2 as [H2 Hl]. destruct (Hp H1 H2 H3) as [-> ->]. cbn.
  assert (forallb (fun cb => negb (calls_stop cb)) l = true) as ->; [|done].
  apply forallb_forall. intros cb Hin. destruct (calls_stop cb) eqn:E; [|done].
  assert (existsb calls_stop l = true) as C by (apply existsb_exists; by exists cb). congruence.
Qed.

Lemma transition_polls now next c : cv_status next <> pending -> polls_on (transition calls_stop now next c).
Proof.
  intros Hn. unfold transition. rewrite (proj2 (isTerminal_true _) Hn). unfold polls_on. cbn. intros _ _ Hp. exfalso.
  set (c1 := set_state _ _ _ c) in *.
  assert (Ho := calls_only_trans _ _ _ _ _ (call_only (onChange next (computeSecondsLeft now (cv_expires_at next))) c1)
                  (call_all_only (transition_callback (c_prevStatus c) next) _)).
  destruct Ho as [Es _ _ _ _ _ _]. rewrite Es in Hp. done.
Qed.

Lemma settle_polls r now c :
  polls_on c -> is_late c (ESettle 0 r now) = false -> polls_on (settle calls_stop r now c).
Proof.
  intros Hp Hl. destruct r as [body|code|ab msg]; unfold settle; destruct (c_stopped c); try exact Hp.
  - cbn in Hl. destruct (status_eqb (sr_status body) (cv_status (c_state c))) eqn:Es.
    + destruct (negb _); [|exact Hp]. eapply calls_only_polls; [|apply call_only]. exact Hp.
    + apply transition_polls. cbn. intros Eb. rewrite Eb in *. cbn in Hl.
      apply isTerminal_false in Hl. apply status_eqb_neq in Es. congruence.
  - by eapply calls_only_polls; [|apply call_only].
  - destruct ab; [exact Hp|]. by eapply calls_only_polls; [|apply call_only].
Qed.

Lemma start_polls c : polls_on c -> polls_on (start calls_stop c).
Proof.
  intros Hp. unfold start. destruct (c_started c || c_stopped c) eqn:E; [done|]. cbv zeta.
  destruct (call_only (onChange (c_state c) (c_secondsLeft c)) (set_started c)) as [Es _ _ _ Ep Et Eo].
  set (c1 := call _ _ _) in *. destruct (isTerminal (cv_status (c_state c1))) eqn:Et1.
  - apply isTerminal_true in Et1. by intros _ _ Hpend.
  - intros _ _ _. cbn. split; [done|]. by destruct (poll_same (set_timers (c_pollId c1) true c1)) as (_ & _ & _ & _ & _ & _ & Ep1).
Qed.

Lemma react_polls e c c' : polls_on c -> is_late c e = false -> react e c = Some c' -> polls_on c'.
Proof.
  intros Hp Hl. destruct e as [| |now| |k r now]; cbn.
  - intros [= <-]. by apply start_polls.
  - intros [= <-]. done.
  - destruct (c_tickId c) eqn:Et; [|done]. intros [= <-]. unfold onCountdownTick.
    destruct (negb _) eqn:En; [done|]. cbv zeta. destruct (run_out _).
    + by apply transition_polls.
    + eapply calls_only_polls; [|apply call_only]. exact Hp.
  - destruct (c_pollId c); [|done]. intros [= <-].
    destruct (poll_same c) as (Es & _ & _ & Eo & Est & Ep & Et). unfold polls_on. by rewrite Es, Eo, Est, Ep, Et.
  - destruct (existsb _ _); [|done]. intros [= <-]. apply settle_polls; [exact Hp|]. by destruct r.
Qed.

Lemma run_polls es c c' : polls_on c -> no_late es c = true -> run es c = Some c' -> polls_on c'.
Proof.
  revert c. induction es as [|e es IH]; intros c Hp; cbn [Controller.run no_late]; [by intros _ [= <-]|].
  rewrite andb_true_iff, negb_true_iff. intros [Hl Hn].
  destruct (Controller.react calls_stop e c) as [c1|] eqn:E; [|done]. cbn. apply IH; [|done]. by eapply react_polls.
Qed.

(** *** Silence after [stop] *)

Definition silent (c : Controller) : Prop := c_stopped c = true -> c_pollId c = false /\ c_tickId c = false.

Lemma silent_react e c c' :
  silent c -> c_stopped c = true -> react e c = Some c' ->
  silent c' /\ c_stopped c' = true /\ c_calls c' = c_calls c /\ c_requests c' = c_requests c.
Proof.
  intros Hs Hst. destruct (Hs Hst) as [Hp Ht]. destruct e as [| |now| |k r now]; cbn; rewrite ?Hp, ?Ht; try done.
  - intros [= <-]. unfold start. by rewrite Hst, orb_true_r.
  - intros [= <-]. done.
  - destruct (existsb _ _); [|done]. intros [= <-]. destruct r as [| |[]]; cbn; rewrite Hst; done.
Qed.

Lemma silent_run es c c' :
  silent c -> c_stopped c = true -> run es c = Some c' -> c_calls c' = c_calls c /\ c_requests c' = c_requests c.
Proof.
  revert c. induction es as [|e es IH]; intros c Hs Hst; cbn [Controller.run]; [by intros [= <-]|].
  destruct (Controller.react calls_stop e c) as [c1|] eqn:E; [|done]. cbn. intros Hr.
  destruct (silent_react e c c1 Hs Hst E) as (Hs1 & Hst1 & E1 & E2).
  destruct (IH c1 Hs1 Hst1 Hr) as [E3 E4]. by rewrite E3, E4.
Qed.

Lemma calls_only_silent l c0 c : silent c0 -> calls_only l c0 c -> silent c.
Proof.
  intros Hs [_ _ _ _ Ep Et Eo]. unfold silent. rewrite Ep, Et, Eo. destruct (c_stopped c0) eqn:E; cbn.
  - intros _. by destruct (Hs E) as [-> ->].
  - intros (cb & Hin & Hc)%existsb_exists.
    assert (forallb (fun cb => negb (calls_stop cb)) l = false) as ->; [|by rewrite !andb_false_r].
    apply not_true_iff_false. rewrite forallb_forall. intros Hf. specialize (Hf cb Hin). by rewrite Hc in Hf.
Qed.

Lemma transition_silent now next c : silent c -> silent (transition calls_stop now next c).
Proof.
  intros Hs. unfold transition. set (c1 := set_state _ _ _ c).
  destruct (isTerminal _); [done|].
  eapply calls_only_silent; [|eapply calls_only_trans; [apply call_only|apply call_all_only]]. exact Hs.
Qed.

(** When no [onChange] calls [stop], a stopped controller has no timer. *)
Lemma react_silent e c c' :
  (forall v s, calls_stop (onChange v s) = false) -> silent c -> react e c = Some c' -> silent c'.
Proof.
  intros Hcb Hs. destruct (c_stopped c) eqn:Hst.
  { intros Hr. by destruct (silent_react e c c' Hs Hst Hr). }
  destruct e as [| |now| |k r now]; cbn.
  - intros [= <-]. unfold start. destruct (_ || _); [done|]. cbv zeta.
    destruct (call_only (onChange (c_state c) (c_secondsLeft c)) (set_started c)) as [_ _ _ _ _ _ Eo].
    set (c1 := call _ _ _) in *. assert (c_stopped c1 = false) as E1 by (rewrite Eo; cbn; by rewrite Hst, Hcb).
    destruct (isTerminal _); [by intros ?; congruence|]. intros Hc. cbn in Hc.
    destruct (poll_same (set_timers (c_pollId c1) true c1)) as (_ & _ & _ & Ep & _). cbn in Ep. congruence.
  - intros [= <-]. done.
  - destruct (c_tickId c); [|done]. intros [= <-]. unfold onCountdownTick.
    destruct (negb _); [done|]. cbv zeta. destruct (run_out _); [by apply transition_silent|].
    eapply calls_only_silent; [|apply call_only]. exact Hs.
  - destruct (c_pollId c); [|done]. intros [= <-].
    destruct (poll_same c) as (_ & _ & _ & Eo & _ & Ep & Et). unfold silent. by rewrite Eo, Ep, Et.
  - destruct (existsb _ _); [|done]. intros [= <-].
    assert (Hf : silent (forget k c)) by exact Hs.
    destruct r as [body|code|ab msg]; unfold settle; destruct (c_stopped (forget k c)); try exact Hf.
    + destruct (status_eqb (sr_status body) (cv_status (c_state (forget k c)))); [|by apply transition_silent].
      destruct (negb _); [|exact Hf]. by eapply calls_only_silent; [|apply call_only].
    + by eapply calls_only_silent; [|apply call_only].
    + destruct ab; [exact Hf|]. by eapply calls_only_silent; [|apply call_only].
Qed.
End Proofs.

(** ** Theorems *)

Section Theorems.
Context `{DateParse} (calls_stop : Callback -> bool).

Lemma construct_good baseUrl v now : hides_code v -> Good (construct baseUrl v now).
Proof. by split. Qed.

Lemma construct_polls baseUrl v now : polls_on (construct baseUrl v now).
Proof. unfold polls_on. cbn. discriminate. Qed.

(** Whatever the browser does, the transition callbacks made are exactly the
    pending-to-terminal changes of the state, each once and in order, and neither
    the state nor any callback carries the message or the number past [pending]. *)
Theorem controller_calls_spec baseUrl v now es c :
  hides_code v -> run calls_stop es (construct baseUrl v now) = Some c ->
  List.filter is_transition (c_calls c) = changes v (history calls_stop es (construct baseUrl v now)) /\
  (cv_status (c_state c) <> pending -> cv_send_to (c_state c) = None /\ cv_message (c_state c) = None) /\
  Forall callback_hides (c_calls c).
Proof.
  intros Hv Hr. destruct (run_good calls_stop es _ c (construct_good baseUrl v now Hv) Hr) as (Hg & l & E & F & T).
  cbn in E. subst l. split; [exact T|]. split; [apply Hg|exact F].
Qed.

(** Unless an answer is late, a started controller polls and counts down as long
    as the state is pending and nobody stopped it, and the first tick of the
    countdown with less than a second left expires the verification and says so. *)
Theorem controller_keeps_polling baseUrl v now es c now' t :
  hides_code v -> run calls_stop es (construct baseUrl v now) = Some c ->
  no_late calls_stop es (construct baseUrl v now) = true ->
  c_started c = true -> c_stopped c = false -> cv_status (c_state c) = pending ->
  date_ms (cv_expires_at (c_state c)) = Some t -> (t < now' + 1000)%Z ->
  c_pollId c = true /\
  exists c', react calls_stop (ETick now') c = Some c' /\ cv_status (c_state c') = expired /\
             In (onExpired (c_state c')) (c_calls c').
Proof.
  intros Hv Hr Hn Hst Hsp Hp Ht Hlt.
  destruct (run_good calls_stop es _ c (construct_good baseUrl v now Hv) Hr) as (Hg & _).
  destruct (run_polls calls_stop es _ c (construct_polls baseUrl v now) Hn Hr Hst Hsp Hp) as [-> Etick].
  split; [done|]. cbn [react]. rewrite Etick. eexists. split; [done|].
  unfold onCountdownTick. rewrite Hp. change (negb (status_eqb pending pending)) with false. cbv iota zeta.
  rewrite (proj2 (run_out_iff now' (cv_expires_at (c_state c)))) by eauto.
  set (c1 := set_state _ _ _ c).
  destruct (transition_good calls_stop now' (locally_expired (c_state c1)) c1) as (_ & l & (El & _ & Fl) & Es);
    [by destruct Hg; split|done|].
  rewrite Es. split; [done|]. rewrite El. apply in_or_app. right.
  assert (In (onExpired (locally_expired (c_state c1))) (List.filter is_transition l)) as Hin.
  { rewrite Fl, Es. change (cv_status (c_state c1)) with (cv_status (c_state c)). rewrite Hp. by left. }
  by apply List.filter_In in Hin as [Hin _].
Qed.

(** Once stopped, a controller is silent for good, provided no [onChange] callback
    calls [stop]: no event makes a callback or a request any more. *)
Theorem controller_stop_is_final baseUrl v now es c es' c' :
  (forall v' s, calls_stop (onChange v' s) = false) ->
  run calls_stop es (construct baseUrl v now) = Some c -> c_stopped c = true ->
  run calls_stop es' c = Some c' -> c_calls c' = c_calls c /\ c_requests c' = c_requests c.
Proof.
  intros Hcb Hr Hst. apply silent_run; [|done]. revert Hr.
  assert (Hs0 : silent (construct baseUrl v now)) by done. revert Hs0. generalize (construct baseUrl v now).
  clear -Hcb. induction es as [|e es IH]; intros c0 Hs; cbn [run]; [by intros [= <-]|].
  destruct (react calls_stop e c0) as [c1|] eqn:E; [|done]. cbn. apply IH. by eapply react_silent.
Qed.
End Theorems.

(** ** A late answer *)

(** The embedder's callbacks do not call [stop]. *)
Definition no_stop : Callback -> bool := fun _ => false.

(** A transition when no callback calls [stop]. *)
Lemma transition_no_stop `{DateParse} now next c :
  let c' := transition no_stop now next c in
  c_state c' = next /\ c_prevStatus c' = cv_status next /\ c_outstanding c' = c_outstanding c /\
  c_stopped c' = c_stopped c /\ c_started c' = c_started c /\
  c_pollId c' = c_pollId c && negb (isTerminal (cv_status next)) /\
  c_tickId c' = c_tickId c && negb (isTerminal (cv_status next)) /\
  c_calls c' = (c_calls c ++ onChange next (computeSecondsLeft now (cv_expires_at next))
                  :: transition_callback (c_prevStatus c) next)%list.
Proof.
  cbv zeta. unfold transition, call_all, call, no_stop. generalize (computeSecondsLeft now (cv_expires_at next)). intros secs.
  assert (Hf : forall l c0, fold_left (fun c cb => mkController (c_baseUrl c) (c_state c) (c_secondsLeft c)
      (c_prevStatus c) (c_pollId c) (c_tickId c) (c_inflight c) (c_stopped c) (c_started c) (c_requests c)
      (c_outstanding c) (c_calls c ++ [cb])) l c0
    = mkController (c_baseUrl c0) (c_state c0) (c_secondsLeft c0) (c_prevStatus c0) (c_pollId c0) (c_tickId c0)
        (c_inflight c0) (c_stopped c0) (c_started c0) (c_requests c0) (c_outstanding c0) (c_calls c0 ++ l)).
  { induction l as [|cb l IH]; intros []; cbn; [by rewrite app_nil_r|]. rewrite IH. cbn. by rewrite <- app_assoc. }
  rewrite Hf. destruct (isTerminal (cv_status next)); cbn; rewrite ?andb_true_r, ?andb_false_r, <- app_assoc; done.
Qed.

(** The countdown runs out while a request is on its way, and the server's answer
    still says pending: the state is pending again, without its message, both timers
    are gone, and after the last answer nothing can happen but [start] and [stop]. *)
Theorem late_answer_strands `{DateParse} c k now now' body t :
  Good c -> c_started c = true -> c_stopped c = false -> cv_status (c_state c) = pending ->
  c_tickId c = true -> c_outstanding c = [k] ->
  date_ms (cv_expires_at (c_state c)) = Some t -> (t < now + 1000)%Z -> sr_status body = pending ->
  exists c', run no_stop [ETick now; ESettle k (Answer body) now'] c = Some c' /\
    cv_status (c_state c') = pending /\ cv_message (c_state c') = None /\
    In (onExpired (locally_expired (c_state c))) (c_calls c') /\
    c_stopped c' = false /\
    (forall e c'', react no_stop e c' = Some c'' -> restarts e = true) /\
    react no_stop EStart c' = Some c'.
Proof.
  intros Hg Hst Hsp Hp Htick Hout Hd Hlt Hb.
  set (c1 := set_state (c_state c) (c_prevStatus c) (computeSecondsLeft now (cv_expires_at (c_state c))) c).
  destruct (transition_no_stop now (locally_expired (c_state c)) c1) as (S2 & P2 & O2 & X2 & T2 & Po2 & Ti2 & C2).
  assert (E1 : onCountdownTick no_stop now c = transition no_stop now (locally_expired (c_state c)) c1).
  { unfold onCountdownTick. rewrite Hp. change (negb (status_eqb pending pending)) with false. cbv iota zeta.
    by rewrite (proj2 (run_out_iff now (cv_expires_at (c_state c)))) by eauto. }
  set (c2 := transition no_stop now (locally_expired (c_state c)) c1) in *.
  destruct (transition_no_stop now' (merge_answer (c_state c2) body) (forget k c2))
    as (S3 & P3 & O3 & X3 & T3 & Po3 & Ti3 & C3).
  assert (E2 : settle no_stop (Answer body) now' (forget k c2)
               = transition no_stop now' (merge_answer (c_state c2) body) (forget k c2)).
  { unfold settle. change (c_stopped (forget k c2)) with (c_stopped c2). rewrite X2. cbn [c_stopped c1 set_state].
    rewrite Hsp, Hb. change (c_state (forget k c2)) with (c_state c2). by rewrite S2. }
  set (c3 := transition no_stop now' (merge_answer (c_state c2) body) (forget k c2)) in *.
  exists c3. split.
  { cbn [run react mbind option_bind]. rewrite Htick, E1. cbn [mbind option_bind]. rewrite O2. cbn [c_outstanding c1 set_state].
    rewrite Hout. cbn [existsb]. rewrite Nat.eqb_refl, E2. done. }
  rewrite S3, S2. split; [exact Hb|]. split; [cbn; rewrite Hb; done|]. split.
  { rewrite C3. apply in_or_app. left. change (c_calls (forget k c2)) with (c_calls c2). rewrite C2.
    apply in_or_app. right. right. change (c_prevStatus c1) with (c_prevStatus c). rewrite (g_prev c Hg), Hp. by left. }
  split; [rewrite X3; change (c_stopped (forget k c2)) with (c_stopped c2); rewrite X2; exact Hsp|].
  assert (Po : c_pollId c3 = false) by (rewrite Po3; cbn [c_pollId forget]; rewrite Po2; cbn; by rewrite andb_false_r).
  assert (Ti : c_tickId c3 = false) by (rewrite Ti3; cbn [c_tickId forget]; rewrite Ti2; cbn; by rewrite andb_false_r).
  assert (Oo : c_outstanding c3 = []).
  { rewrite O3. cbn [c_outstanding forget]. rewrite O2. cbn [c_outstanding c1 set_state]. rewrite Hout. cbn.
    by rewrite Nat.eqb_refl. }
  split.
  - intros [| | | |j r n] c''; cbn [react restarts]; rewrite ?Po, ?Ti, ?Oo; done.
  - cbn [react]. unfold start. rewrite T3. change (c_started (forget k c2)) with (c_started c2). rewrite T2. by cbn; rewrite Hst.
Qed.

(** *** Runs *)

Definition sample_verification : ClientVerification :=
  mkClientVerification "vrf_1" pending (Some "+963900000001") (Some "VERIFY A7K9P2") "+963*****567"
    (toISOString 600000) None.

Definition sample_widget `{DateParse} : Controller := construct "https://otp.example/" sample_verification 0.

Definition still_pending : StatusResponse :=
  {| sr_status := pending; sr_expires_at := toISOString 600000; sr_verified_at := None |}.
Definition now_verified : StatusResponse :=
  {| sr_status := verified; sr_expires_at := toISOString 600000; sr_verified_at := Some (toISOString 9000) |}.

Ltac run_to c E :=
  match goal with |- context [run ?f ?es ?w] => destruct (run f es w) as [c|] eqn:E; [|vm_compute in E; discriminate] end.

(** A fact about the final state of a run, by evaluating the run. *)
Ltac by_running E f v :=
  let A := fresh in
  match type of E with ?r = Some ?c =>
    assert (A : f <$> r = Some v) by (vm_compute; reflexivity); rewrite E in A; cbn in A; injection A as A; exact A
  end.

Lemma sample_hides : hides_code sample_verification.
Proof. intros Hn. by destruct Hn. Qed.

Lemma controller_calls_spec_witness :
  let D := iso_only in
  exists c, run no_stop [EStart; ETick 1000; ESettle 0 (Answer now_verified) 9000] sample_widget = Some c /\
    List.filter is_transition (c_calls c) = [onVerified (merge_answer sample_verification now_verified)].
Proof.
  intros D. run_to c E. exists c. split; [reflexivity|].
  rewrite (proj1 (controller_calls_spec no_stop _ sample_verification _ _ c sample_hides E)).
  vm_compute. reflexivity.
Defined.

Lemma controller_keeps_polling_witness :
  let D := iso_only in
  exists c c', run no_stop [EStart; ESettle 0 (Answer still_pending) 1000; EPollTimer] sample_widget = Some c /\
    c_pollId c = true /\ react no_stop (ETick 599001) c = Some c' /\ cv_status (c_state c') = expired.
Proof.
  intros D. run_to c E.
  destruct (controller_keeps_polling no_stop _ sample_verification _ _ c 599001 600000
    sample_hides E ltac:(vm_compute; reflexivity) ltac:(by_running E c_started true)
    ltac:(by_running E c_stopped false) ltac:(by_running E (fun c => cv_status (c_state c)) pending)
    ltac:(by_running E (fun c => date_ms (cv_expires_at (c_state c))) (Some 600000%Z)) ltac:(lia)) as (Hp & c' & Hr & Hs & _).
  exists c, c'. split; [reflexivity|]. split; [exact Hp|]. split; [exact Hr|exact Hs].
Defined.

Lemma controller_stop_is_final_witness :
  let D := iso_only in
  exists c c', run no_stop [EStart; EStop] sample_widget = Some c /\
    run no_stop [ESettle 0 (Answer now_verified) 9000; EStart] c = Some c' /\ c_calls c' = c_calls c.
Proof.
  intros D. run_to c E. exists c.
  assert (E' : (run no_stop [EStart; EStop] sample_widget ≫= run no_stop [ESettle 0 (Answer now_verified) 9000; EStart])
               <> None) by (vm_compute; discriminate).
  rewrite E in E'. cbn [mbind option_bind] in E'.
  destruct (run no_stop [ESettle 0 (Answer now_verified) 9000; EStart] c) as [c'|] eqn:Er; [|by destruct E'].
  destruct (controller_stop_is_final no_stop _ _ _ _ c _ c' ltac:(reflexivity) E
    ltac:(by_running E c_stopped true) Er) as [Hc _].
  exists c'. split; [reflexivity|]. split; [reflexivity|exact Hc].
Defined.

Lemma late_answer_strands_witness :
  let D := iso_only in
  exists c c', run no_stop [EStart] sample_widget = Some c /\
    run no_stop [ETick 599001; ESettle 0 (Answer still_pending) 599500] c = Some c' /\
    cv_status (c_state c') = pending /\ cv_message (c_state c') = None.
Proof.
  intros D. run_to c E.
  destruct (late_answer_strands c 0 599001 599500 still_pending 600000
    (proj1 (run_good no_stop _ _ c (construct_good _ sample_verification 0 sample_hides) E))
    ltac:(by_running E c_started true) ltac:(by_running E c_stopped false)
    ltac:(by_running E (fun c => cv_status (c_state c)) pending) ltac:(by_running E c_tickId true)
    ltac:(by_running E c_outstanding [0%nat])
    ltac:(by_running E (fun c => date_ms (cv_expires_at (c_state c))) (Some 600000%Z))
    ltac:(lia) ltac:(reflexivity)) as (c' & Hr & H1 & H2 & _).
  exists c, c'. split; [reflexivity|]. split; [exact Hr|]. split; [exact H1|exact H2].
Defined.

(** [stop] called from the first [onChange], inside [start], does not stop the timers:
    the countdown goes on making callbacks. *)
Example stop_inside_start_leaks :
  let D := iso_only in
  let embedder cb := match cb with onChange _ (Some 600%Z) => true | _ => false end in
  (fun c => (c_stopped c, c_tickId c, c_pollId c, List.length (c_calls c)))
    <$> run embedder [EStart; ETick 1000; ETick 2000] sample_widget = Some (true, true, true, 3%nat).
Proof. vm_compute. reflexivity. Qed.
