(* ===== verification/ReactHook.v ===== *)
(** * The React hook: packages/react/src/useSyrotpVerification.ts

    [useSyrotpVerification] as a state machine.  React's part is what its
    documentation says of function components: a setter queues an update of the
    state, a render commits the state with all queued updates, and the effects whose
    dependencies differ from those of their last run are cleaned up and run again,
    with the committed values, after the commit and before the next one.  The
    options of the hook do not change while it is mounted. *)

From S2P Require Import Prelude JsString Json Date Schema Client Controller.
From Stdlib Require Import String Ascii.

Open Scope string_scope.

(** The state with all queued updates ([h_verification], [h_secondsLeft]), the
    committed values the effects wait to see, those of their last run, the ref, the
    interval of the countdown with the [expires_at] it closed over, the running
    polling effect, and the requests by the polling effect that made them. *)
Record Hook : Type := mkHook {
  h_mounted : bool; h_baseUrl : string; h_verification : ClientVerification; h_secondsLeft : option Z;
  h_committed : option (ClientVerification * option Z);
  h_last : option (ClientVerification * option Z);
  h_prevStatus : verificationStatus; h_countdown : option string; h_poll : option nat;
  h_effects : nat; h_requests : list string; h_outstanding : list (nat * nat); h_calls : list Callback;
}.

Inductive HookEvent : Type :=
  | HRender
  | HEffects
  | HCountdown (now : Z)
  | HPollTimer
  | HSettle (request : nat) (result : PollResult)
  | HUnmount.

#[export] Instance HookEvent_render_dec (e : HookEvent) : Decision (e = HRender).
Proof. destruct e; (by left) || (by right). Defined.

Section React.
Context `{DateParse}.

(** The first render: [useState(initial)], nothing has run yet. *)
Definition mount (baseUrl : string) (initial : ClientVerification) (now : Z) : Hook :=
  let secs := computeSecondsLeft now (cv_expires_at initial) in
  mkHook true baseUrl initial secs (Some (initial, secs)) None (cv_status initial) None None 0 [] [] [].

Definition setVerification (f : ClientVerification -> ClientVerification) (h : Hook) : Hook :=
  mkHook (h_mounted h) (h_baseUrl h) (f (h_verification h)) (h_secondsLeft h) (h_committed h) (h_last h) (h_prevStatus h)
    (h_countdown h) (h_poll h) (h_effects h) (h_requests h) (h_outstanding h) (h_calls h).

Definition setSecondsLeft (s : option Z) (h : Hook) : Hook :=
  mkHook (h_mounted h) (h_baseUrl h) (h_verification h) s (h_committed h) (h_last h) (h_prevStatus h)
    (h_countdown h) (h_poll h) (h_effects h) (h_requests h) (h_outstanding h) (h_calls h).

Definition h_call (cbs : list Callback) (h : Hook) : Hook :=
  mkHook (h_mounted h) (h_baseUrl h) (h_verification h) (h_secondsLeft h) (h_committed h) (h_last h) (h_prevStatus h)
    (h_countdown h) (h_poll h) (h_effects h) (h_requests h) (h_outstanding h) (h_calls h ++ cbs).

(** [tick] of the polling effect: the request leaves. *)
Definition h_request (effect : nat) (v : ClientVerification) (h : Hook) : Hook :=
  mkHook (h_mounted h) (h_baseUrl h) (h_verification h) (h_secondsLeft h) (h_committed h) (h_last h) (h_prevStatus h)
    (h_countdown h) (h_poll h) (h_effects h)
    (h_requests h ++ [status_url (h_baseUrl h) (cv_id v)])
    ((List.length (h_requests h), effect) :: h_outstanding h) (h_calls h).

(** The effect on [verification]: transition callbacks. *)
Definition callback_effect (v : ClientVerification) (h : Hook) : Hook :=
  let h' := h_call (transition_callback (h_prevStatus h) v) h in
  mkHook (h_mounted h') (h_baseUrl h') (h_verification h') (h_secondsLeft h') (h_committed h') (h_last h') (cv_status v)
    (h_countdown h') (h_poll h') (h_effects h') (h_requests h') (h_outstanding h') (h_calls h').

(** The effect on [status] and [expires_at]: the countdown interval. *)
Definition countdown_effect (v : ClientVerification) (h : Hook) : Hook :=
  mkHook (h_mounted h) (h_baseUrl h) (h_verification h) (h_secondsLeft h) (h_committed h) (h_last h) (h_prevStatus h)
    (if isTerminal (cv_status v) then None else Some (cv_expires_at v))
    (h_poll h) (h_effects h) (h_requests h) (h_outstanding h) (h_calls h).

(** The effect on [status]: polling.  Its cleanup has stopped the previous one. *)
Definition poll_effect (v : ClientVerification) (h : Hook) : Hook :=
  let set p n := mkHook (h_mounted h) (h_baseUrl h) (h_verification h) (h_secondsLeft h) (h_committed h) (h_last h)
                   (h_prevStatus h) (h_countdown h) p n (h_requests h) (h_outstanding h) (h_calls h) in
  if isTerminal (cv_status v) then set None (h_effects h)
  else h_request (h_effects h) v (set (Some (h_effects h)) (S (h_effects h))).

(** [secondsLeft > 0]; NaN compares false. *)
Definition time_left (secs : option Z) : bool := match secs with Some s => (0 <? s)%Z | None => false end.

(** The effect on [secondsLeft] and [status]: the local expiry. *)
Definition expiry_effect (v : ClientVerification) (secs : option Z) (h : Hook) : Hook :=
  if negb (status_eqb (cv_status v) pending) then h
  else if time_left secs then h
  else setVerification (fun prev => if status_eqb (cv_status prev) pending then locally_expired prev else prev) h.

(** Whether a dependency array differs from the one of the last run. *)
Definition dep_changed {D} `{EqDecision D} (deps : ClientVerification * option Z -> D)
    (last : option (ClientVerification * option Z)) (cur : ClientVerification * option Z) : bool :=
  match last with None => true | Some l => negb (bool_decide (deps l = deps cur)) end.

(** The effects after a commit, in the order of the source.  The first one compares
    statuses itself, so running it without a changed [verification] does nothing. *)
Definition run_effects (cur : ClientVerification * option Z) (h : Hook) : Hook :=
  let '(v, secs) := cur in
  let last := h_last h in
  let h := mkHook (h_mounted h) (h_baseUrl h) (h_verification h) (h_secondsLeft h) None (Some cur) (h_prevStatus h)
             (h_countdown h) (h_poll h) (h_effects h) (h_requests h) (h_outstanding h) (h_calls h) in
  let h := callback_effect v h in
  let h := if dep_changed (fun p => (cv_status (fst p), cv_expires_at (fst p))) last cur
           then countdown_effect v h else h in
  let h := if dep_changed (fun p => cv_status (fst p)) last cur then poll_effect v h else h in
  if dep_changed (fun p => (snd p, cv_status (fst p))) last cur then expiry_effect v secs h else h.

(** The updater a polled answer queues. *)
Definition apply_answer (body : StatusResponse) (prev : ClientVerification) : ClientVerification :=
  if status_eqb (sr_status body) (cv_status prev) then
    if negb (String.eqb (sr_expires_at body) (cv_expires_at prev))
    then with_expires_at prev (sr_expires_at body) else prev
  else merge_answer prev body.

(** The rest of [tick], once the request of polling effect [effect] has settled. *)
Definition h_settle (effect : nat) (result : PollResult) (h : Hook) : Hook :=
  if negb (bool_decide (h_poll h = Some effect)) then h
  else
    match result with
    | Answer body => setVerification (apply_answer body) h
    | NotOk httpStatus => h_call [onError ("status poll failed: HTTP " ++ num_to_string httpStatus)] h
    | Rejection isAbortError message => if isAbortError then h else h_call [onError message] h
    end.

Definition h_forget (k : nat) (h : Hook) : Hook :=
  mkHook (h_mounted h) (h_baseUrl h) (h_verification h) (h_secondsLeft h) (h_committed h) (h_last h) (h_prevStatus h)
    (h_countdown h) (h_poll h) (h_effects h) (h_requests h)
    (List.filter (fun p => negb (Nat.eqb (fst p) k)) (h_outstanding h)) (h_calls h).

Definition h_react (e : HookEvent) (h : Hook) : option Hook :=
  match e with
  | HRender =>
      match h_committed h with
      | Some _ => None
      | None =>
          if h_mounted h
          then Some (mkHook true (h_baseUrl h) (h_verification h) (h_secondsLeft h)
                       (Some (h_verification h, h_secondsLeft h)) (h_last h) (h_prevStatus h)
                       (h_countdown h) (h_poll h) (h_effects h) (h_requests h) (h_outstanding h) (h_calls h))
          else None
      end
  | HEffects => (fun cur => run_effects cur h) <$> h_committed h
  | HCountdown now => (fun e => setSecondsLeft (computeSecondsLeft now e) h) <$> h_countdown h
  | HPollTimer => (fun effect => h_request effect (h_verification h) h) <$> h_poll h
  | HSettle k result =>
      (fun p => h_settle (snd p) result (h_forget k h)) <$> List.find (fun p => Nat.eqb (fst p) k) (h_outstanding h)
  | HUnmount =>
      Some (mkHook false (h_baseUrl h) (h_verification h) (h_secondsLeft h) None (h_last h) (h_prevStatus h)
              None None (h_effects h) (h_requests h) (h_outstanding h) (h_calls h))
  end.

Fixpoint h_run (es : list HookEvent) (h : Hook) : option Hook :=
  match es with [] => Some h | e :: es' => h_react e h ≫= h_run es' end.
End React.

Arguments run_effects : simpl never.

(** ** Specification *)

(** The effects run right after each commit. *)
Fixpoint prompt (es : list HookEvent) : bool :=
  match es with
  | [] => true
  | HRender :: es' => match es' with HEffects :: _ => prompt es' | _ => false end
  | _ :: es' => prompt es'
  end.

(** The same from the first commit on, which mounts the component. *)
Definition prompt_mount (es : list HookEvent) : bool :=
  match es with HEffects :: es' => prompt es' | _ => false end.

Section Proofs.
Context `{DateParse}.

(** *** Nothing past [pending] shows the code *)

Record Hidden (h : Hook) : Prop := {
  hd_state : hides_code (h_verification h);
  hd_committed : forall v s, h_committed h = Some (v, s) -> hides_code v;
  hd_calls : Forall callback_hides (h_calls h);
}.

Lemma setVerification_hidden f h :
  (forall v, hides_code v -> hides_code (f v)) -> Hidden h -> Hidden (setVerification f h).
Proof. intros Hf []. split; cbn; auto. Qed.

Lemma h_call_hidden cbs h : Forall callback_hides cbs -> Hidden h -> Hidden (h_call cbs h).
Proof. intros Hc []. split; cbn; [done|done|]. by apply Forall_app_2. Qed.

Lemma expiry_hidden v s h : Hidden h -> Hidden (expiry_effect v s h).
Proof.
  intros Hh. unfold expiry_effect. destruct (negb _); [done|]. destruct (time_left s); [done|].
  apply setVerification_hidden; [|done]. intros w Hw. by destruct (status_eqb _ _).
Qed.

Lemma poll_effect_hidden v h : Hidden h -> Hidden (poll_effect v h).
Proof. intros []. unfold poll_effect. by destruct (isTerminal _); split. Qed.

Lemma run_effects_hidden cur h : hides_code (fst cur) -> Hidden h -> Hidden (run_effects cur h).
Proof.
  destruct cur as [v secs]. cbn. intros Hv Hh. unfold run_effects. set (h1 := mkHook _ _ _ _ _ _ _ _ _ _ _ _ _).
  assert (H1 : Hidden h1) by (destruct Hh; split; done).
  assert (H2 : Hidden (callback_effect v h1)).
  { apply (h_call_hidden (transition_callback (h_prevStatus h1) v)) in H1; [|by apply transition_callback_hides].
    destruct H1. by split. }
  assert (H3 : forall x, Hidden x -> Hidden (countdown_effect v x)) by (intros x []; by split).
  cbv zeta. repeat match goal with |- context [if ?b then _ else _] => destruct b end;
    repeat first [apply expiry_hidden | apply poll_effect_hidden | apply H3]; done.
Qed.

Lemma h_react_hidden e h h' : h_react e h = Some h' -> Hidden h -> Hidden h'.
Proof.
  intros Hr Hh. destruct e as [| |now| |k r|]; cbn in Hr.
  - destruct (h_committed h); [done|]. destruct (h_mounted h); [|done]. injection Hr as <-.
    destruct Hh. split; cbn; try done. by intros v s [= <- <-].
  - destruct (h_committed h) as [[v s]|] eqn:E; [|done]. injection Hr as <-.
    apply run_effects_hidden; [|done]. by eapply hd_committed.
  - destruct (h_countdown h); [|done]. injection Hr as <-. by destruct Hh.
  - destruct (h_poll h); [|done]. injection Hr as <-. by destruct Hh.
  - destruct (List.find _ _); [|done]. injection Hr as <-.
    assert (Hf : Hidden (h_forget k h)) by (destruct Hh; by split).
    unfold h_settle. destruct (negb _); [done|]. destruct r as [body|code|ab msg].
    + apply setVerification_hidden; [|done]. intros v Hv.
      unfold apply_answer. destruct (status_eqb _ _); [by destruct (negb _)|]. apply merge_answer_hides.
    + apply h_call_hidden; [by repeat constructor|done].
    + destruct ab; [done|]. apply h_call_hidden; [by repeat constructor|done].
  - injection Hr as <-. by destruct Hh.
Qed.

Lemma h_run_hidden es h h' : h_run es h = Some h' -> Hidden h -> Hidden h'.
Proof.
  revert h. induction es as [|e es IH]; intros h; cbn; [by intros [= <-]|].
  destruct (h_react e h) as [h1|] eqn:E; [|done]. cbn. intros Hr Hh. eapply IH; [done|]. by eapply h_react_hidden.
Qed.

(** *** One transition callback *)

Definition dep_countdown := dep_changed (fun p => (cv_status (fst p), cv_expires_at (fst p))).
Definition dep_poll := dep_changed (fun p => cv_status (fst p)).
Definition dep_expiry := dep_changed (fun p => (snd p, cv_status (fst p))).

(** The local expiry fires. *)
Definition expires_now (last : option (ClientVerification * option Z)) (v : ClientVerification) (secs : option Z) : bool :=
  dep_expiry last (v, secs) && status_eqb (cv_status v) pending && negb (time_left secs).

(** What the effects of one commit do. *)
Record Effects (v : ClientVerification) (secs : option Z) (h h' : Hook) : Prop := {
  ef_calls : h_calls h' = (h_calls h ++ transition_callback (h_prevStatus h) v)%list;
  ef_prev : h_prevStatus h' = cv_status v;
  ef_last : h_last h' = Some (v, secs);
  ef_committed : h_committed h' = None;
  ef_countdown : h_countdown h' =
    if dep_countdown (h_last h) (v, secs)
    then if isTerminal (cv_status v) then None else Some (cv_expires_at v) else h_countdown h;
  ef_poll : h_poll h' =
    if dep_poll (h_last h) (v, secs)
    then if isTerminal (cv_status v) then None else Some (h_effects h) else h_poll h;
  ef_outstanding : h_outstanding h' =
    if dep_poll (h_last h) (v, secs) && negb (isTerminal (cv_status v))
    then (List.length (h_requests h), h_effects h) :: h_outstanding h else h_outstanding h;
  ef_same : h_mounted h' = h_mounted h /\ h_secondsLeft h' = h_secondsLeft h;
  ef_state : h_verification h' =
    if expires_now (h_last h) v secs && status_eqb (cv_status (h_verification h)) pending
    then locally_expired (h_verification h) else h_verification h;
}.

Lemma run_effects_spec v secs h : Effects v secs h (run_effects (v, secs) h).
Proof.
  unfold run_effects. fold dep_countdown dep_poll dep_expiry.
  set (h1 := callback_effect v _).
  set (h2 := if dep_countdown (h_last h) (v, secs) then countdown_effect v h1 else h1).
  assert (H2 : h_calls h2 = h_calls h1 /\ h_prevStatus h2 = cv_status v /\ h_last h2 = Some (v, secs) /\
    h_committed h2 = None /\
    h_countdown h2 = (if dep_countdown (h_last h) (v, secs)
                      then if isTerminal (cv_status v) then None else Some (cv_expires_at v) else h_countdown h) /\
    h_poll h2 = h_poll h /\ h_effects h2 = h_effects h /\ h_outstanding h2 = h_outstanding h /\
    h_requests h2 = h_requests h /\ h_mounted h2 = h_mounted h /\ h_secondsLeft h2 = h_secondsLeft h /\
    h_verification h2 = h_verification h) by (unfold h2; by destruct (dep_countdown (h_last h) (v, secs))).
  clearbody h2. destruct H2 as (C2 & P2 & L2 & M2 & D2 & Po2 & E2 & O2 & R2 & T2 & S2 & V2).
  set (h3 := if dep_poll (h_last h) (v, secs) then poll_effect v h2 else h2).
  assert (H3 : h_calls h3 = h_calls h2 /\ h_prevStatus h3 = h_prevStatus h2 /\ h_last h3 = h_last h2 /\
    h_committed h3 = h_committed h2 /\ h_countdown h3 = h_countdown h2 /\
    h_poll h3 = (if dep_poll (h_last h) (v, secs)
                 then if isTerminal (cv_status v) then None else Some (h_effects h2) else h_poll h2) /\
    h_outstanding h3 = (if dep_poll (h_last h) (v, secs) && negb (isTerminal (cv_status v))
                        then (List.length (h_requests h2), h_effects h2) :: h_outstanding h2 else h_outstanding h2) /\
    h_mounted h3 = h_mounted h2 /\ h_secondsLeft h3 = h_secondsLeft h2 /\ h_verification h3 = h_verification h2).
  { unfold h3. destruct (dep_poll (h_last h) (v, secs)); [|done]. unfold poll_effect.
    by destruct (isTerminal (cv_status v)). }
  clearbody h3. destruct H3 as (C3 & P3 & L3 & M3 & D3 & Po3 & O3 & T3 & S3 & V3).
  rewrite C2, P2, L2, M2, D2, Po2, E2, O2, R2, T2, S2, V2 in *.
  unfold expiry_effect, setVerification.
  destruct (dep_expiry (h_last h) (v, secs)) eqn:Ed;
    [destruct (status_eqb (cv_status v) pending) eqn:Es; [destruct (time_left secs) eqn:El|]|];
    cbn [negb]; split; unfold expires_now; rewrite ?Ed, ?Es, ?El; cbn; rewrite ?V3; done.
Qed.

(** Between commits: the effects have run, and once the status they saw is past
    [pending] nothing polls, counts down or changes any more. *)
Record Once (h : Hook) : Prop := {
  on_committed : h_committed h = None;
  on_last : exists v s, h_last h = Some (v, s) /\ h_prevStatus h = cv_status v /\
    (cv_status v = pending -> List.filter is_transition (h_calls h) = []) /\
    (cv_status v <> pending ->
     h_poll h = None /\ h_countdown h = None /\ h_verification h = v /\
     (List.filter is_transition (h_calls h) = [] \/
      List.filter is_transition (h_calls h) = transition_callback pending v));
}.

Lemma effects_once v secs h :
  h_verification h = v ->
  (h_last h = None /\ h_prevStatus h = cv_status v /\ List.filter is_transition (h_calls h) = []) \/
  (exists l s, h_last h = Some (l, s) /\ h_prevStatus h = cv_status l /\
    (cv_status l = pending -> List.filter is_transition (h_calls h) = []) /\
    (cv_status l <> pending ->
     h_poll h = None /\ h_countdown h = None /\ l = v /\
     (List.filter is_transition (h_calls h) = [] \/
      List.filter is_transition (h_calls h) = transition_callback pending v))) ->
  Once (run_effects (v, secs) h).
Proof.
  intros Hv Hpre. destruct (run_effects_spec v secs h) as [C P L M D Po _ _ V].
  assert (V' : isTerminal (cv_status v) = true -> h_verification (run_effects (v, secs) h) = h_verification h).
  { intros Ht%negb_true_iff. rewrite V. unfold expires_now. by rewrite Ht, andb_false_r. }
  clear V. rename V' into V.
  split; [done|]. exists v, secs. split; [done|]. split; [done|].
  rewrite C, D, Po, List.filter_app, filter_transition_callback.
  destruct Hpre as [(Hl & Hp & Hf)|(l & s & Hl & Hp & Hf & Hd)]; rewrite Hp, Hl.
  - rewrite Hf, transition_callback_same. cbn. split; [done|]. intros Hn%isTerminal_true. rewrite Hn, (V Hn). auto.
  - destruct (decide (cv_status l = pending)) as [El|El].
    + rewrite (Hf El), El. cbn [app]. split; [intros <-; by rewrite transition_callback_same|].
      intros Hn. assert (Ht := proj2 (isTerminal_true _) Hn). rewrite Ht, (V Ht).
      assert (dep_countdown (Some (l, s)) (v, secs) = true) as ->.
      { unfold dep_countdown, dep_changed. apply negb_true_iff, bool_decide_eq_false. cbn. congruence. }
      assert (dep_poll (Some (l, s)) (v, secs) = true) as ->.
      { unfold dep_poll, dep_changed. apply negb_true_iff, bool_decide_eq_false. cbn. congruence. }
      auto.
    + destruct (Hd El) as (Hpo & Hco & -> & Hfi). rewrite transition_callback_same, app_nil_r, Hpo, Hco. split; [done|].
      intros Hn. assert (Ht := proj2 (isTerminal_true _) Hn). rewrite Ht, (V Ht).
      split; [by destruct (dep_poll (Some (v, s)) (v, secs))|].
      split; [by destruct (dep_countdown (Some (v, s)) (v, secs))|]. by split.
Qed.

Lemma quiet_once h h' :
  Once h -> h_committed h' = h_committed h -> h_last h' = h_last h -> h_prevStatus h' = h_prevStatus h ->
  List.filter is_transition (h_calls h') = List.filter is_transition (h_calls h) ->
  (h_poll h = None -> h_poll h' = None) -> (h_countdown h = None -> h_countdown h' = None) ->
  (h_poll h = None -> h_verification h' = h_verification h) -> Once h'.
Proof.
  intros [Hc (v & s & Hl & Hp & Hf & Hd)] Ec El Ep Ecl Epo Eco Ev. split; [congruence|].
  exists v, s. rewrite El, Ep, Ecl. split; [done|]. split; [done|]. split; [done|].
  intros Hn. destruct (Hd Hn) as (Hpo & Hco & Hv & Hfi). rewrite Ev by done. auto.
Qed.

Lemma h_settle_once k r h : Once h -> Once (h_settle k r h).
Proof.
  intros Ho. unfold h_settle. destruct (bool_decide _) eqn:E; cbn [negb]; [|done].
  apply bool_decide_eq_true in E. destruct r as [body|code|[] msg]; [..|done|];
    (apply (quiet_once h); [done..| | | |]); try done; try congruence;
    cbn; by rewrite List.filter_app, app_nil_r.
Qed.

(** An event other than a render keeps it. *)
Lemma react_once e h h' : e <> HRender -> h_react e h = Some h' -> Once h -> Once h'.
Proof.
  intros Hne Hr Ho. destruct e as [| |now| |k r|]; cbn in Hr; [done|..].
  - destruct Ho as [Hc _]. by rewrite Hc in Hr.
  - destruct (h_countdown h); [|done]. injection Hr as <-. by apply (quiet_once h).
  - destruct (h_poll h); [|done]. injection Hr as <-. by apply (quiet_once h).
  - destruct (List.find _ _); [|done]. injection Hr as <-. apply h_settle_once. by apply (quiet_once h).
  - injection Hr as <-. apply (quiet_once h); try done. cbn. symmetry. apply Ho.
Qed.

(** A commit with its effects keeps it. *)
Lemma commit_once h h1 h2 : h_react HRender h = Some h1 -> h_react HEffects h1 = Some h2 -> Once h -> Once h2.
Proof.
  intros Hr He [Hc (l & s & Hl & Hp & Hf & Hd)]. cbn in Hr, He. rewrite Hc in Hr.
  destruct (h_mounted h); [|done]. injection Hr as <-. cbn in He. injection He as <-.
  apply effects_once; [done|]. right. exists l, s. cbn. do 3 (split; [done|]). intros Hn.
  destruct (Hd Hn) as (? & ? & ? & Hfi). subst l. auto.
Qed.

Lemma prompt_once es h h' : prompt es = true -> h_run es h = Some h' -> Once h -> Once h'.
Proof.
  revert h. induction es as [es IH] using (induction_ltof1 _ (@List.length HookEvent)). unfold ltof in IH.
  intros h. destruct es as [|e es]; cbn [prompt h_run]; [by intros _ [= <-]|].
  destruct (h_react e h) as [h1|] eqn:E; [|done]. cbn [mbind option_bind].
  destruct (decide (e = HRender)) as [->|Hne].
  - destruct es as [|[| | | | |] es]; try done. intros Hp. cbn [h_run].
    destruct (h_react HEffects h1) as [h2|] eqn:E2; [|done]. cbn [mbind option_bind]. intros Hr Ho.
    apply (IH es ltac:(cbn; lia) h2); [done|done|]. by eapply commit_once.
  - intros Hp Hr Ho. apply (IH es ltac:(cbn; lia) h1); [by destruct e|done|]. by eapply react_once.
Qed.
End Proofs.

(** ** Theorems *)

Section Theorems.
Context `{DateParse}.

Lemma mount_hidden baseUrl v now : hides_code v -> Hidden (mount baseUrl v now).
Proof.
  intros Hv. unfold mount. generalize (computeSecondsLeft now (cv_expires_at v)). intros secs.
  split; cbn; [exact Hv| |constructor]. by intros ? ? [= <- _].
Qed.

Lemma mount_once baseUrl v now h : h_react HEffects (mount baseUrl v now) = Some h -> Once h.
Proof.
  unfold mount. generalize (computeSecondsLeft now (cv_expires_at v)). intros secs. cbn. intros [= <-].
  apply effects_once; [done|]. by left.
Qed.

(** No interleaving makes the hook show or report the message or the number past
    [pending]; and when effects run right after each commit, it makes at most one
    transition callback, for the state it is in from then on. *)
Theorem hook_calls_spec baseUrl v now es h :
  hides_code v -> h_run es (mount baseUrl v now) = Some h ->
  (cv_status (h_verification h) <> pending ->
   cv_send_to (h_verification h) = None /\ cv_message (h_verification h) = None) /\
  Forall callback_hides (h_calls h) /\
  (prompt_mount es = true ->
   List.filter is_transition (h_calls h) = [] \/
   List.filter is_transition (h_calls h) = transition_callback pending (h_verification h)).
Proof.
  intros Hv Hr.
  assert (Hm := mount_hidden baseUrl v now Hv).
  destruct (h_run_hidden es _ h Hr Hm) as [Hs _ Hc]. split; [exact Hs|]. split; [exact Hc|].
  destruct es as [|[] es]; try done. intros Hp.
  assert (Hr' : h_react HEffects (mount baseUrl v now) ≫= h_run es = Some h) by exact Hr.
  destruct (h_react HEffects (mount baseUrl v now)) as [h1|] eqn:E; [|done]. cbn [mbind option_bind] in Hr'.
  destruct (prompt_once es h1 h Hp Hr' (mount_once _ _ _ _ E)) as [_ (w & s & _ & _ & Hf & Hd)].
  destruct (decide (cv_status w = pending)) as [Ew|Ew]; [by left; apply Hf|].
  destruct (Hd Ew) as (_ & _ & -> & Hfi). exact Hfi.
Qed.

(** *** The same contract as the controller *)

(** What the outside world does to either while the verification is pending: a second
    passes, or the request on its way is answered and the interval sends the next one. *)
Inductive Input : Type := ITick (now : Z) | IAnswer (body : StatusResponse) (now : Z).

Definition c_input (i : Input) (c : Controller) : option Controller :=
  if isTerminal (cv_status (c_state c)) then None else
  match i with
  | ITick now => react no_stop (ETick now) c
  | IAnswer body now =>
      match c_outstanding c with
      | k :: _ => react no_stop (ESettle k (Answer body) now) c ≫= fun c1 =>
          if isTerminal (cv_status (c_state c1)) then Some c1 else react no_stop EPollTimer c1
      | [] => None
      end
  end.

Definition h_input (i : Input) (h : Hook) : option Hook :=
  if isTerminal (cv_status (h_verification h)) then None else
  match i with
  | ITick now => h_run [HCountdown now; HRender; HEffects; HRender; HEffects] h
  | IAnswer body now =>
      match h_outstanding h with
      | (k, _) :: _ => h_run [HSettle k (Answer body); HRender; HEffects] h ≫= fun h1 =>
          if isTerminal (cv_status (h_verification h1)) then Some h1 else h_react HPollTimer h1
      | [] => None
      end
  end.

Fixpoint c_inputs (ins : list Input) (c : Controller) : option Controller :=
  match ins with [] => Some c | i :: ins' => c_input i c ≫= c_inputs ins' end.
Fixpoint h_inputs (ins : list Input) (h : Hook) : option Hook :=
  match ins with [] => Some h | i :: ins' => h_input i h ≫= h_inputs ins' end.

(** Every deadline the server reports is a date. *)
Definition dated (i : Input) : Prop :=
  match i with ITick _ => True | IAnswer body _ => date_ms (sr_expires_at body) <> None end.

(** The two states that correspond, between inputs. *)
Record Alike (c : Controller) (h : Hook) : Prop := {
  al_state : c_state c = h_verification h;
  al_calls : List.filter is_transition (c_calls c) = List.filter is_transition (h_calls h);
  al_prev : c_prevStatus c = cv_status (c_state c);
  al_alive : c_stopped c = false /\ h_mounted h = true /\ h_committed h = None;
  al_last : exists v, h_last h = Some (v, h_secondsLeft h) /\ v = h_verification h /\ h_prevStatus h = cv_status v;
  al_pending : cv_status (c_state c) = pending ->
    c_tickId c = true /\ c_pollId c = true /\ h_countdown h = Some (cv_expires_at (c_state c)) /\
    time_left (h_secondsLeft h) = true /\ date_ms (cv_expires_at (c_state c)) <> None /\
    exists k j p, c_outstanding c = [k] /\ h_outstanding h = [(j, p)] /\ h_poll h = Some p;
}.

Definition both (R : Controller -> Hook -> Prop) (oc : option Controller) (oh : option Hook) : Prop :=
  match oc, oh with Some c, Some h => R c h | None, None => True | _, _ => False end.

Lemma filter_onChange l v s p next :
  List.filter is_transition (l ++ onChange v s :: transition_callback p next)%list
  = (List.filter is_transition l ++ transition_callback p next)%list.
Proof. rewrite List.filter_app. cbn [List.filter is_transition]. by rewrite filter_transition_callback. Qed.

(** A commit that shows a change of the verification the outside world made. *)
Lemma h_commit v0 v s0 s h :
  h_mounted h = true -> h_committed h = None -> h_last h = Some (v0, s0) -> h_verification h = v ->
  h_secondsLeft h = s ->
  exists h', h_run [HRender; HEffects] h = Some h' /\ h_mounted h' = true /\ h_secondsLeft h' = s /\
    h_committed h' = None /\ h_last h' = Some (v, s) /\ h_prevStatus h' = cv_status v /\
    h_calls h' = (h_calls h ++ transition_callback (h_prevStatus h) v)%list /\
    h_countdown h' = (if dep_countdown (Some (v0, s0)) (v, s)
                      then if isTerminal (cv_status v) then None else Some (cv_expires_at v) else h_countdown h) /\
    h_poll h' = (if dep_poll (Some (v0, s0)) (v, s)
                 then if isTerminal (cv_status v) then None else Some (h_effects h) else h_poll h) /\
    h_outstanding h' = (if dep_poll (Some (v0, s0)) (v, s) && negb (isTerminal (cv_status v))
                        then (List.length (h_requests h), h_effects h) :: h_outstanding h else h_outstanding h) /\
    h_verification h' = (if expires_now (Some (v0, s0)) v s && status_eqb (cv_status v) pending
                         then locally_expired v else v).
Proof.
  intros Hm Hc Hl Hv Hs. cbn [h_run h_react]. rewrite Hc, Hm. cbn [mbind option_bind h_committed fmap option_fmap option_map].
  set (h1 := mkHook _ _ _ _ _ _ _ _ _ _ _ _ _). rewrite Hv, Hs.
  destruct (run_effects_spec v s h1) as [C P L M D Po O [T S] V]. cbn in C, D, Po, O, T, S, V.
  rewrite Hl in D, Po, O, V. rewrite Hv in V. eexists. split; [reflexivity|].
  rewrite T, S, Hs, M, L, P, C, D, Po, O, V. done.
Qed.

Lemma dep_countdown_spec v0 s0 v s :
  dep_countdown (Some (v0, s0)) (v, s) = false <-> cv_status v = cv_status v0 /\ cv_expires_at v = cv_expires_at v0.
Proof.
  unfold dep_countdown, dep_changed. rewrite negb_false_iff, bool_decide_eq_true. cbn. split; [by intros [= -> ->]|by intros [-> ->]].
Qed.
Lemma dep_poll_spec v0 s0 v s : dep_poll (Some (v0, s0)) (v, s) = false <-> cv_status v = cv_status v0.
Proof. unfold dep_poll, dep_changed. by rewrite negb_false_iff, bool_decide_eq_true. Qed.
Lemma dep_poll_true v0 s0 v s : dep_poll (Some (v0, s0)) (v, s) = true <-> cv_status v <> cv_status v0.
Proof. rewrite <- not_false_iff_true. by rewrite dep_poll_spec. Qed.
Lemma dep_countdown_status v0 s0 v s : cv_status v <> cv_status v0 -> dep_countdown (Some (v0, s0)) (v, s) = true.
Proof. intros Hn. apply not_false_iff_true. rewrite dep_countdown_spec. tauto. Qed.

(** A second commit when the state has not moved since the first. *)
Lemma expires_now_same v s : expires_now (Some (v, s)) v s = false.
Proof.
  unfold expires_now, dep_expiry, dep_changed. cbn. rewrite bool_decide_eq_true_2; done.
Qed.

Lemma h_run_app a b h : h_run (a ++ b) h = h_run a h ≫= h_run b.
Proof. revert h. induction a as [|e a IH]; intros h; cbn; [done|]. destruct (h_react e h); cbn; [apply IH|done]. Qed.

(** A tick of the countdown does the same to both. *)
Lemma tick_alike now c h : Alike c h -> both Alike (c_input (ITick now) c) (h_input (ITick now) h).
Proof.
  intros [Es Ec Ep (Hst & Hm & Hco) (v & El & Ev & Epr) Hp]. unfold c_input, h_input. rewrite <- Es.
  destruct (isTerminal (cv_status (c_state c))) eqn:Epe; [done|]. apply isTerminal_false in Epe.
  destruct (Hp Epe) as (Tc & Pc & Th & Tl & Hd & k & j & p & Oc & Oh & Po).
  destruct (computeSecondsLeft now (cv_expires_at (c_state c))) as [x|] eqn:Hx;
    [|by apply computeSecondsLeft_None in Hx].
  set (secs := Some x). set (h1 := setSecondsLeft secs h).
  assert (E1 : h_run [HCountdown now; HRender; HEffects; HRender; HEffects] h
               = h_run [HRender; HEffects] h1 ≫= h_run [HRender; HEffects]).
  { assert (R1 : h_react (HCountdown now) h = Some h1).
    { unfold h_react. rewrite Th. cbn [fmap option_fmap option_map]. by rewrite Hx. }
    change [HCountdown now; HRender; HEffects; HRender; HEffects]
      with ([HCountdown now] ++ [HRender; HEffects] ++ [HRender; HEffects])%list.
    rewrite h_run_app. cbn [h_run]. rewrite R1. cbn [mbind option_bind]. apply h_run_app. }
  rewrite E1. clear E1. subst v.
  assert (Epv : cv_status (h_verification h) = pending) by (by rewrite <- Es).
  destruct (h_commit (h_verification h) (h_verification h) (h_secondsLeft h) secs h1) as
    (h2 & R2 & M2 & S2 & C2 & L2 & P2 & K2 & D2 & Q2 & O2 & V2); try done.
  rewrite R2. cbn [mbind option_bind].
  assert (dep_countdown (Some (h_verification h, h_secondsLeft h)) (h_verification h, secs) = false) as Ed
    by (by apply dep_countdown_spec).
  assert (dep_poll (Some (h_verification h, h_secondsLeft h)) (h_verification h, secs) = false) as Edp
    by (by apply dep_poll_spec).
  rewrite Ed in D2. rewrite Edp in Q2, O2. cbn [andb] in O2.
  change (h_prevStatus h1) with (h_prevStatus h) in K2. rewrite Epr, transition_callback_same, app_nil_r in K2.
  rewrite Epv, status_eqb_refl, andb_true_r in V2.
  assert (Ex : expires_now (Some (h_verification h, h_secondsLeft h)) (h_verification h) secs = run_out secs).
  { unfold expires_now. rewrite Epv, status_eqb_refl, andb_true_r. cbn. rewrite <- Z.leb_antisym.
    unfold dep_expiry, dep_changed. cbn. destruct (x <=? 0)%Z eqn:Ex; [|by rewrite andb_false_r].
    rewrite andb_true_r. apply negb_true_iff, bool_decide_eq_false. intros [= E]. rewrite E in Tl. cbn in Tl. lia. }
  rewrite Ex in V2. unfold react. rewrite Tc. unfold onCountdownTick. rewrite Epe.
  change (negb (status_eqb pending pending)) with false. cbv iota zeta. rewrite Hx. fold secs.
  set (c1 := set_state (c_state c) (c_prevStatus c) secs c).
  destruct (run_out secs) eqn:Er.
  - destruct (h_commit (h_verification h) (locally_expired (h_verification h)) secs secs h2) as
      (h3 & R3 & M3 & S3 & C3 & L3 & P3 & K3 & D3 & Q3 & O3 & V3); try done.
    rewrite R3. cbn [both]. destruct (transition_no_stop now (locally_expired (c_state c1)) c1)
      as (X1 & X2 & X3 & X4 & _ & X6 & X7 & X8).
    rewrite dep_countdown_status in D3 by (cbn; by rewrite Epv).
    rewrite (proj2 (dep_poll_true _ _ _ _)) in O3 by (cbn; by rewrite Epv). cbn in D3, O3, V3.
    rewrite andb_false_r in V3.
    split.
    + by rewrite X1, V3, <- Es.
    + rewrite X8, filter_onChange, K3, List.filter_app, filter_transition_callback, K2, P2.
      change (c_calls c1) with (c_calls c). change (c_prevStatus c1) with (c_prevStatus c).
      by rewrite Ec, Ep, Epe, Epv, <- Es.
    + by rewrite X1, X2.
    + rewrite X4. auto.
    + exists (locally_expired (h_verification h)). rewrite S3, V3, P3, L3. auto.
    + rewrite X1. done.
  - destruct (h_commit (h_verification h) (h_verification h) secs secs h2) as
      (h3 & R3 & M3 & S3 & C3 & L3 & P3 & K3 & D3 & Q3 & O3 & V3); try done.
    rewrite R3. cbn [both].
    rewrite (proj2 (dep_countdown_spec _ _ _ _)) in D3 by done.
    rewrite (proj2 (dep_poll_spec _ _ _ _)) in Q3, O3 by done. rewrite expires_now_same in V3. cbn [andb] in O3, V3.
    rewrite P2, transition_callback_same, app_nil_r in K3.
    destruct (call_only no_stop (onChange (c_state c1) secs) c1) as [Y1 Y2 _ Y4 Y5 Y6 Y7].
    split.
    + by rewrite Y1, V3.
    + rewrite Y4, K3, K2, List.filter_app. cbn. by rewrite app_nil_r.
    + rewrite Y1, Y2. exact Ep.
    + rewrite Y7, M3, C3. cbn. by rewrite Hst.
    + exists (h_verification h). by rewrite S3, V3, P3, L3.
    + intros _. rewrite Y1, Y5, Y6, D3, D2, S3, Q3, Q2, O3, O2. cbn. rewrite Tc, Pc. do 3 (split; [done|]).
      split; [|split; [done|by exists k, j, p]].
      cbn in *. apply Z.leb_gt in Er. by apply Z.ltb_lt.
Qed.

(** The interval sends the next request. *)
Lemma poll_alike c h p :
  c_outstanding c = [] -> h_outstanding h = [] -> cv_status (c_state c) = pending ->
  c_pollId c = true -> h_poll h = Some p -> c_stopped c = false -> c_tickId c = true ->
  c_state c = h_verification h ->
  List.filter is_transition (c_calls c) = List.filter is_transition (h_calls h) ->
  c_prevStatus c = cv_status (c_state c) -> h_mounted h = true -> h_committed h = None ->
  h_last h = Some (h_verification h, h_secondsLeft h) -> h_prevStatus h = cv_status (h_verification h) ->
  h_countdown h = Some (cv_expires_at (c_state c)) -> time_left (h_secondsLeft h) = true ->
  date_ms (cv_expires_at (c_state c)) <> None ->
  both Alike (react no_stop EPollTimer c) (h_react HPollTimer h).
Proof.
  intros Oc Oh Epe Pc Hp Hst Tc Es Ec Ep Hm Hco El Epr Th Tl Hd.
  cbn [react h_react]. rewrite Pc, Hp. cbn [fmap option_fmap option_map both].
  assert (Hc : exists c', poll c = c' /\ c_state c' = c_state c /\ c_calls c' = c_calls c /\ c_prevStatus c' = c_prevStatus c /\
    c_stopped c' = c_stopped c /\ c_tickId c' = c_tickId c /\ c_pollId c' = c_pollId c /\
    c_outstanding c' = [List.length (c_requests c)]).
  { eexists. split; [reflexivity|]. unfold poll. rewrite Hst, Epe. change (isTerminal pending) with false.
    cbn. by rewrite Oc. }
  destruct Hc as (c' & -> & Cs & Cc & Cp & Cst & Ct & Cpo & Co). split; cbn [h_request h_verification h_calls h_mounted
    h_committed h_last h_secondsLeft h_prevStatus h_countdown h_outstanding h_poll]; rewrite ?Cs, ?Cc, ?Cp, ?Cst; auto.
  - by exists (h_verification h).
  - intros _. rewrite Ct, Cpo, Co, Oh. eauto 20.
Qed.

Lemma apply_answer_status body v : cv_status (apply_answer body v) = sr_status body.
Proof.
  unfold apply_answer. destruct (status_eqb _ _) eqn:E; [|done]. apply status_eqb_eq in E. by destruct (negb _).
Qed.

Lemma apply_answer_dated body v :
  date_ms (sr_expires_at body) <> None -> date_ms (cv_expires_at v) <> None ->
  date_ms (cv_expires_at (apply_answer body v)) <> None.
Proof. intros H1 H2. unfold apply_answer. destruct (status_eqb _ _); [by destruct (negb _)|done]. Qed.

(** The controller takes an answer to its only request. *)
Lemma c_answer body now c k :
  c_outstanding c = [k] -> c_stopped c = false -> c_tickId c = true -> c_pollId c = true ->
  c_prevStatus c = cv_status (c_state c) -> cv_status (c_state c) = pending ->
  exists c1, react no_stop (ESettle k (Answer body) now) c = Some c1 /\
    c_state c1 = apply_answer body (c_state c) /\ c_prevStatus c1 = sr_status body /\
    c_stopped c1 = false /\ c_outstanding c1 = [] /\
    (sr_status body = pending -> c_pollId c1 = true /\ c_tickId c1 = true) /\
    List.filter is_transition (c_calls c1)
    = (List.filter is_transition (c_calls c) ++ transition_callback pending (c_state c1))%list.
Proof.
  intros Oc Hst Tc Pc Ep Epe. eexists. split.
  { cbn [react]. rewrite Oc. cbn [existsb]. by rewrite Nat.eqb_refl. }
  assert (Ocf : c_outstanding (forget k c) = []) by (cbn; rewrite Oc; cbn; by rewrite Nat.eqb_refl).
  unfold settle, apply_answer. change (c_stopped (forget k c)) with (c_stopped c).
  change (c_state (forget k c)) with (c_state c). rewrite Hst.
  destruct (status_eqb (sr_status body) (cv_status (c_state c))) eqn:Es.
  - apply status_eqb_eq in Es. destruct (negb _); cbn in *.
    + rewrite Pc, Tc, Hst, Ocf, Ep, List.filter_app, transition_callback_pending by (cbn; congruence). done.
    + rewrite Pc, Tc, Hst, Ocf, Ep, transition_callback_pending, app_nil_r by congruence. done.
  - apply status_eqb_neq in Es.
    destruct (transition_no_stop now (merge_answer (c_state c) body) (forget k c)) as (X1 & X2 & X3 & X4 & _ & _ & _ & X8).
    rewrite X1, X2, X3, X4, Ocf, X8, filter_onChange. cbn [c_stopped c_prevStatus c_calls forget]. rewrite Ep, Epe.
    split; [done|]. split; [done|]. split; [done|]. split; [done|]. split; [congruence|done].
Qed.

(** The hook takes an answer to its only request, and commits. *)
Lemma h_answer body h j p :
  h_outstanding h = [(j, p)] -> h_poll h = Some p -> h_mounted h = true -> h_committed h = None ->
  h_last h = Some (h_verification h, h_secondsLeft h) -> h_prevStatus h = cv_status (h_verification h) ->
  cv_status (h_verification h) = pending -> time_left (h_secondsLeft h) = true ->
  h_countdown h = Some (cv_expires_at (h_verification h)) ->
  exists h2, h_run [HSettle j (Answer body); HRender; HEffects] h = Some h2 /\
    h_verification h2 = apply_answer body (h_verification h) /\ h_mounted h2 = true /\ h_committed h2 = None /\
    h_secondsLeft h2 = h_secondsLeft h /\ h_last h2 = Some (h_verification h2, h_secondsLeft h2) /\
    h_prevStatus h2 = sr_status body /\
    h_calls h2 = (h_calls h ++ transition_callback pending (h_verification h2))%list /\
    (sr_status body = pending ->
     h_poll h2 = Some p /\ h_outstanding h2 = [] /\ h_countdown h2 = Some (cv_expires_at (h_verification h2))).
Proof.
  intros Oh Po Hm Hco El Epr Epv Tl Th. set (h1 := h_settle p (Answer body) (h_forget j h)).
  change (h_run [HSettle j (Answer body); HRender; HEffects] h)
    with (h_react (HSettle j (Answer body)) h ≫= h_run [HRender; HEffects]).
  assert (R2 : h_react (HSettle j (Answer body)) h = Some h1).
  { cbn [h_react]. rewrite Oh. cbn [List.find fst]. by rewrite Nat.eqb_refl. }
  assert (Ohf : h_outstanding (h_forget j h) = []) by (cbn; rewrite Oh; cbn; by rewrite Nat.eqb_refl).
  assert (Hh1 : h1 = setVerification (apply_answer body) (h_forget j h)).
  { unfold h1, h_settle. change (h_poll (h_forget j h)) with (h_poll h). by rewrite Po, bool_decide_eq_true_2. }
  rewrite R2. cbn [mbind option_bind]. clearbody h1. subst h1. set (h1 := setVerification _ _).
  set (v' := apply_answer body (h_verification h)).
  assert (Hs' : cv_status v' = sr_status body) by apply apply_answer_status.
  destruct (h_commit (h_verification h) v' (h_secondsLeft h) (h_secondsLeft h) h1) as
    (h2 & R3 & M2 & S2 & C2 & L2 & P2 & K2 & D2 & Q2 & O2 & V2); try done.
  assert (Hne : expires_now (Some (h_verification h, h_secondsLeft h)) v' (h_secondsLeft h) = false).
  { unfold expires_now. by rewrite Tl, andb_false_r. }
  rewrite Hne in V2. cbn [andb] in V2. exists h2. split; [exact R3|].
  change (h_prevStatus h1) with (h_prevStatus h) in K2. change (h_calls h1) with (h_calls h) in K2.
  rewrite Epr, Epv in K2. rewrite V2, S2. do 5 (split; [done|]). split; [congruence|]. split; [done|].
  intros Ep. rewrite (proj2 (dep_poll_spec _ _ _ _)) in Q2, O2 by congruence. cbn [andb] in O2.
  split; [by rewrite Q2|]. split; [by rewrite O2|]. rewrite D2, Hs', Ep. change (isTerminal pending) with false.
  destruct (dep_countdown _ _) eqn:Edc; [done|]. apply dep_countdown_spec in Edc as [_ Edc]. cbn. by rewrite Edc.
Qed.

(** An answer to the request on its way does the same to both. *)
Lemma answer_alike body now c h :
  date_ms (sr_expires_at body) <> None -> Alike c h ->
  both Alike (c_input (IAnswer body now) c) (h_input (IAnswer body now) h).
Proof.
  intros Hdate [Es Ec Ep (Hst & Hm & Hco) (v & El & Ev & Epr) Hp]. unfold c_input, h_input. rewrite <- Es.
  destruct (isTerminal (cv_status (c_state c))) eqn:Epe; [done|]. apply isTerminal_false in Epe.
  destruct (Hp Epe) as (Tc & Pc & Th & Tl & Hd & k & j & p & Oc & Oh & Po). rewrite Oc, Oh. subst v.
  destruct (c_answer body now c k Oc Hst Tc Pc Ep Epe) as (c1 & -> & X1 & X2 & X3 & X4 & X5 & X6).
  destruct (h_answer body h j p) as (h2 & -> & Y1 & Y2 & Y3 & Y4 & Y5 & Y6 & Y7 & Y8); try congruence.
  cbn [mbind option_bind]. rewrite X1, Y1, <- Es, apply_answer_status.
  assert (Hcalls : List.filter is_transition (c_calls c1) = List.filter is_transition (h_calls h2)).
  { rewrite X6, Y7, List.filter_app, filter_transition_callback. congruence. }
  destruct (isTerminal (sr_status body)) eqn:Et.
  - apply isTerminal_true in Et. split; auto.
    + congruence.
    + by rewrite X1, apply_answer_status.
    + exists (h_verification h2). by rewrite Y5, Y6, Y1, apply_answer_status.
    + rewrite X1, apply_answer_status. done.
  - apply isTerminal_false in Et. destruct (X5 Et) as [X7 X8]. destruct (Y8 Et) as (Y9 & Y10 & Y11).
    apply (poll_alike c1 h2 p); rewrite ?X1, ?Y1, ?apply_answer_status; try congruence.
    by apply apply_answer_dated.
Qed.

(** *** Mounting and starting *)

Lemma start_alike baseUrl v now :
  hides_code v -> time_left (computeSecondsLeft now (cv_expires_at v)) = true ->
  both Alike (react no_stop EStart (construct baseUrl v now)) (h_react HEffects (mount baseUrl v now)).
Proof.
  intros Hv Ht. unfold construct, mount. destruct (computeSecondsLeft now (cv_expires_at v)) as [s|] eqn:Es; [|done].
  assert (Hd : date_ms (cv_expires_at v) <> None).
  { intros Hn. apply (computeSecondsLeft_None now) in Hn. congruence. }
  clear Es. cbn [react h_react h_committed fmap option_fmap option_map both].
  set (h0 := mkHook _ _ _ _ _ _ _ _ _ _ _ _ _).
  destruct (run_effects_spec v (Some s) h0) as [C P L M D Po O [T S] V]. cbn in C, P, L, M, D, Po, O, T, S, V.
  unfold start, construct, call, no_stop. cbn. destruct (isTerminal (cv_status v)) eqn:Et.
  - split; cbn; rewrite ?C, ?P, ?L, ?M, ?T, ?S, ?V, ?transition_callback_same; auto.
    + unfold expires_now. cbn in Ht |- *. by rewrite Ht, !andb_false_r.
    + exists v. split; [done|]. split; [|done]. unfold expires_now. by rewrite Ht, !andb_false_r.
    + apply isTerminal_true in Et. done.
  - assert (Hp : cv_status v = pending) by by apply isTerminal_false.
    assert (V' : h_verification (run_effects (v, Some s) h0) = v).
    { rewrite V. unfold expires_now. by rewrite Ht, !andb_false_r. }
    unfold poll. cbn. rewrite ?Et. split; cbn; rewrite ?C, ?P, ?L, ?M, ?T, ?S, ?V', ?transition_callback_same; auto.
    + by exists v.
    + intros _. rewrite D, Po, O. cbn. eauto 20.
Qed.

Lemma inputs_alike ins c h :
  Forall dated ins -> Alike c h -> both Alike (c_inputs ins c) (h_inputs ins h).
Proof.
  revert c h. induction ins as [|i ins IH]; intros c h Hd Ha; cbn; [exact Ha|].
  apply Forall_cons in Hd as [Hi Hd].
  assert (Hs : both Alike (c_input i c) (h_input i h)).
  { destruct i as [now|body now]; [by apply tick_alike|by apply answer_alike]. }
  destruct (c_input i c), (h_input i h); cbn in *; try done. by apply IH.
Qed.

Definition c_view (c : Controller) := (c_state c, List.filter is_transition (c_calls c)).
Definition h_view (h : Hook) := (h_verification h, List.filter is_transition (h_calls h)).

(** C23: the two packages implement one contract: given time left at the start and
    deadlines that are dates, the controller and the hook accept the same sequences
    of ticks and answers up to a terminal state, and are then in the same state with
    the same transition callbacks made. *)
Theorem same_contract baseUrl v now ins :
  hides_code v -> time_left (computeSecondsLeft now (cv_expires_at v)) = true -> Forall dated ins ->
  c_view <$> (react no_stop EStart (construct baseUrl v now) ≫= c_inputs ins)
  = h_view <$> (h_react HEffects (mount baseUrl v now) ≫= h_inputs ins).
Proof.
  intros Hv Ht Hd. assert (Hs := start_alike baseUrl v now Hv Ht).
  destruct (react no_stop EStart _) as [c|], (h_react HEffects _) as [h|]; try done. cbn [mbind option_bind].
  assert (Ha := inputs_alike ins c h Hd Hs). destruct (c_inputs ins c), (h_inputs ins h); try done.
  destruct Ha as [E1 E2 _ _ _ _]. cbn. unfold c_view, h_view. by rewrite E1, E2.
Qed.
End Theorems.

(** *** Runs *)

Definition sample_hook `{DateParse} : Hook := mount "https://otp.example/" sample_verification 0.

Ltac h_run_to h E :=
  match goal with |- context [h_run ?es ?w] => destruct (h_run es w) as [h|] eqn:E; [|vm_compute in E; discriminate] end.

Lemma hook_calls_spec_witness :
  let D := iso_only in
  exists h, h_run [HEffects; HCountdown 599001; HRender; HEffects; HRender; HEffects;
                   HSettle 0 (Answer still_pending); HRender; HEffects] sample_hook = Some h /\
    (List.filter is_transition (h_calls h) = [] \/
     List.filter is_transition (h_calls h) = transition_callback pending (h_verification h)) /\
    cv_status (h_verification h) = expired.
Proof.
  intros D. h_run_to h E. exists h. split; [reflexivity|].
  destruct (hook_calls_spec _ sample_verification _ _ h sample_hides E) as (_ & _ & Ho). split.
  - apply Ho. reflexivity.
  - by_running E (fun h => cv_status (h_verification h)) expired.
Defined.

Lemma same_contract_witness :
  let D := iso_only in
  let ins := [ITick 1000; IAnswer still_pending 2500; IAnswer now_verified 9000] in
  c_view <$> (react no_stop EStart sample_widget ≫= c_inputs ins)
  = h_view <$> (h_react HEffects sample_hook ≫= h_inputs ins) /\
  (fun v => List.length (snd v)) <$> (h_view <$> (h_react HEffects sample_hook ≫= h_inputs ins)) = Some 1%nat.
Proof.
  intros D ins. split; [|vm_compute; reflexivity].
  apply (same_contract _ sample_verification 0 ins); [exact sample_hides|vm_compute; reflexivity|].
  repeat constructor; vm_compute; discriminate.
Defined.

(** A deadline that is not a date: the hook expires the verification when it mounts,
    the controller never does. *)
Example not_a_date_differs :
  let D := iso_only in
  let v := mkClientVerification "vrf_1" pending (Some "+963900000001") (Some "VERIFY A7K9P2") "+963*****567"
             "soon" None in
  (fun h => cv_status (h_verification h)) <$> h_run [HEffects; HRender; HEffects] (mount "" v 0) = Some expired /\
  (fun c => cv_status (c_state c)) <$> run no_stop [EStart; ETick 1000; ETick 2000] (construct "" v 0) = Some pending.
Proof. split; vm_compute; reflexivity. Qed.

(** An answer between a commit and its effects: [onExpired] is called twice. *)
Example answer_before_effects :
  let D := iso_only in
  (fun h => List.length (List.filter is_transition (h_calls h)))
    <$> h_run [HEffects; HCountdown 599001; HRender; HEffects; HRender; HSettle 0 (Answer still_pending); HEffects;
               HRender; HEffects; HRender; HEffects; HRender; HEffects] sample_hook = Some 2%nat.
Proof. vm_compute. reflexivity. Qed.
