(* ===== verification/Receivers.v ===== *)
(** * Receiver administration: [admin/receivers.ts]

    Adding, listing, disabling and enabling the gateways of an app, as the CLI
    calls them.  The ULID, the 32 bytes of the signing key and the nonce of its
    encryption are arguments; [now] is [Date.now()] of the calling process and
    [dbNow] the database's clock. *)

From S2P Require Import Prelude JsString Json Errors Phone Crypto Aead Config Schema Webhooks PhoneBindings Verifications RateLimit Hmac.
From Stdlib Require Import String Ascii Permutation Sorted.

Open Scope string_scope.
Open Scope js_scope.

(** ** Adding *)

Record AddReceiverOptions : Type := {
  ar_appId : string; ar_name : string; ar_operator : option string; ar_msisdn : string;
  ar_simulateHeartbeat : bool;
}.

Record AddReceiverResult : Type := {
  rr_receiverId : string; rr_msisdn : string; rr_signingKey : string; rr_appId : string;
  rr_appName : string; rr_operator : option string; rr_name : string;
}.

(** [opts.operator?.trim() || null] *)
Definition operator_or_null (operator : option string) : option string :=
  match trim <$> operator with Some s => if nonempty s then Some s else None | None => None end.

(** [normalizePhone] with its [PhoneError] mapped; other errors pass. *)
Definition admin_phone `{PhoneLib} (cfg : Config) (msisdn : string) : outcome exn NormalizedPhone :=
  match normalizePhone msisdn (DEFAULT_PHONE_REGION cfg) with
  | Return n => Return n
  | Throw (PhoneError _) =>
      Throw (AdminError "invalid_msisdn" ("msisdn '" ++ msisdn ++ "' is not a valid phone"))
  | Throw e => Throw e
  end.

Definition new_receiver (id appId name msisdn wrapped : string) (operator : option string)
    (heartbeat : option Z) (dbNow : Z) : Receiver :=
  mkReceiver id appId name operator msisdn wrapped true heartbeat dbNow.

Definition addReceiver `{PhoneLib} `{Gcm} `{Limit1} (cfg : Config) (ulid keyBytes iv : string) (now dbNow : Z)
    (opts : AddReceiverOptions) : SM AddReceiverResult :=
  do! throw_if (negb (matches_prefixed "app_" is_alnum (ar_appId opts)))
        (AdminError "invalid_app_id" ("appId must look like 'app_<ulid>'; got: " ++ ar_appId opts)) in
  do! throw_if (slen (trim (ar_name opts)) =? 0)%nat (AdminError "invalid_name" "receiver name is required") in
  let! phone := lift (admin_phone cfg (ar_msisdn opts)) in
  let! app := select_one t_apps (fun a => String.eqb (app_id a) (ar_appId opts)) in
  match app with
  | None => throw (AdminError "app_not_found" ("app " ++ ar_appId opts ++ " not found"))
  | Some app =>
      do! throw_if (app_disabled app)
            (AdminError "app_disabled" ("app " ++ ar_appId opts ++ " is disabled — re-enable before adding receivers")) in
      let receiverId := newId RECEIVER_PREFIX ulid in
      let signingKey := Crypto.generateNonce keyBytes in
      let! wrapped := lift (wrapGatewaySigningKey cfg iv signingKey receiverId) in
      do! insert t_receivers receivers_idx
            (new_receiver receiverId (ar_appId opts) (trim (ar_name opts)) (e164 phone) wrapped
               (operator_or_null (ar_operator opts))
               (if ar_simulateHeartbeat opts then Some now else None) dbNow) in
      ret {| rr_receiverId := receiverId; rr_msisdn := e164 phone; rr_signingKey := signingKey;
             rr_appId := ar_appId opts; rr_appName := app_name app;
             rr_operator := operator_or_null (ar_operator opts); rr_name := trim (ar_name opts) |}
  end.

(** ** Listing *)

Record ReceiverRecord : Type := {
  rec_id : string; rec_appId : string; rec_appName : string; rec_name : string;
  rec_operator : option string; rec_msisdn : string; rec_enabled : bool;
  rec_lastHeartbeatAt : option Z; rec_lastHeartbeatAgoSeconds : option Z; rec_healthy : bool; rec_createdAt : Z;
}.

Record ListReceiversOptions : Type := { lr_appId : option string; lr_includeDisabled : option bool }.

(** The rows of [receivers INNER JOIN apps] that satisfy the conditions given. *)
Definition listed (opts : ListReceiversOptions) (r : Receiver) : bool :=
  match lr_appId opts with
  | Some appId => if nonempty appId then String.eqb (r_appId r) appId else true
  | None => true
  end
  && match lr_includeDisabled opts with Some false => r_enabled r | _ => true end.

Definition with_app (D : DB) (r : Receiver) : list (Receiver * App) :=
  map (pair r) (select (fun a => String.eqb (app_id a) (r_appId r)) (apps D)).

(** [r.enabled && r.lastHeartbeatAt !== null && now - r.lastHeartbeatAt.getTime() <= fresh] *)
Definition shown_healthy (cfg : Config) (now : Z) (r : Receiver) : bool :=
  let fresh := (RECEIVER_HEARTBEAT_TIMEOUT_SECONDS cfg * 1000)%Z in
  r_enabled r && match r_lastHeartbeatAt r with Some hb => (now - hb <=? fresh)%Z | None => false end.

Definition receiver_record (cfg : Config) (now : Z) (ra : Receiver * App) : ReceiverRecord :=
  let '(r, a) := ra in
  {| rec_id := r_id r; rec_appId := r_appId r; rec_appName := app_name a; rec_name := r_name r;
     rec_operator := r_operator r; rec_msisdn := r_msisdn r; rec_enabled := r_enabled r;
     rec_lastHeartbeatAt := r_lastHeartbeatAt r;
     rec_lastHeartbeatAgoSeconds := (fun hb => ((now - hb) / 1000)%Z) <$> r_lastHeartbeatAt r;
     rec_healthy := shown_healthy cfg now r; rec_createdAt := r_createdAt r |}.

Definition listReceivers (cfg : Config) (now : Z) (opts : ListReceiversOptions) : SM (list ReceiverRecord) :=
  gets (fun w =>
    map (receiver_record cfg now)
      (order_by (fun x y => (r_createdAt (fst y) <? r_createdAt (fst x))%Z)
         (flat_map (with_app (db w)) (select (listed opts) (receivers (db w)))))).

(** ** Disabling and enabling *)

Record DisableReceiverResult : Type := { dr_id : string; dr_wasEnabled : bool; dr_msisdn : string }.
Record EnableReceiverResult : Type := { en_id : string; en_wasDisabled : bool; en_msisdn : string }.

Definition set_enabled (b : bool) (r : Receiver) : Receiver :=
  mkReceiver (r_id r) (r_appId r) (r_name r) (r_operator r) (r_msisdn r) (r_secretHash r) b
    (r_lastHeartbeatAt r) (r_createdAt r).

Definition bad_receiver_id : exn := AdminError "invalid_receiver_id" "receiver id must look like 'rcv_<ulid>'".

Definition disableReceiver `{Limit1} (receiverId : string) : SM DisableReceiverResult :=
  do! throw_if (negb (matches_prefixed "rcv_" is_alnum receiverId)) bad_receiver_id in
  let! row := select_one t_receivers (fun r => String.eqb (r_id r) receiverId) in
  match row with
  | None => throw (AdminError "receiver_not_found" ("receiver " ++ receiverId ++ " not found"))
  | Some row =>
      if negb (r_enabled row) then ret {| dr_id := r_id row; dr_wasEnabled := false; dr_msisdn := r_msisdn row |}
      else
        do! update t_receivers (fun r => String.eqb (r_id r) receiverId) (set_enabled false) in
        ret {| dr_id := r_id row; dr_wasEnabled := true; dr_msisdn := r_msisdn row |}
  end.

Definition enableReceiver `{Limit1} (receiverId : string) : SM EnableReceiverResult :=
  do! throw_if (negb (matches_prefixed "rcv_" is_alnum receiverId)) bad_receiver_id in
  let! row := select_one t_receivers (fun r => String.eqb (r_id r) receiverId) in
  match row with
  | None => throw (AdminError "receiver_not_found" ("receiver " ++ receiverId ++ " not found"))
  | Some row =>
      if r_enabled row then ret {| en_id := r_id row; en_wasDisabled := false; en_msisdn := r_msisdn row |}
      else
        do! update t_receivers (fun r => String.eqb (r_id r) receiverId) (set_enabled true) in
        ret {| en_id := r_id row; en_wasDisabled := true; en_msisdn := r_msisdn row |}
  end.

(** ** What the operations do *)

(** The rows of one receiver after an update by id. *)
Lemma receiver_by_id `{Limit1} D id r :
  respects receivers_idx (receivers D) -> In r (receivers D) -> r_id r = id ->
  limit1 (select (fun r => String.eqb (r_id r) id) (receivers D)) = Some r.
Proof.
  intros Hr Hin Hid. destruct (select_pkey _ r_id _ _ id Hr) as [E|[r' E]]; rewrite E.
  - rewrite select_nil_iff in E. specialize (E r Hin). by rewrite Hid, String.eqb_refl in E.
  - rewrite limit1_one. f_equal. assert (Hr' : In r' (select (fun r => String.eqb (r_id r) id) (receivers D))) by (rewrite E; by left).
    apply select_In in Hr'. destruct Hr' as [Hin' E']. apply String.eqb_eq in E'. eapply (pkey_inj _ r_id); eauto. congruence.
Qed.

Lemma limit1_by_id `{Limit1} D id r :
  limit1 (select (fun r => String.eqb (r_id r) id) (receivers D)) = Some r -> In r (receivers D) /\ r_id r = id.
Proof. intros E. apply limit1_In, select_In in E. destruct E as [Hin E]. by apply String.eqb_eq in E. Qed.

Lemma admin_phone_cases `{PhoneLib} cfg msisdn :
  (exists n, admin_phone cfg msisdn = Return n /\ normalizePhone msisdn (DEFAULT_PHONE_REGION cfg) = Return n) \/
  admin_phone cfg msisdn = Throw (AdminError "invalid_msisdn" ("msisdn '" ++ msisdn ++ "' is not a valid phone")).
Proof.
  unfold admin_phone. destruct (normalizePhone _ _) as [n|e] eqn:E; [left; by exists n|right].
  by destruct (normalizePhone_throws _ _ _ E) as [-> | ->].
Qed.

(** What an added receiver is. *)
Definition added `{PhoneLib} `{Gcm} (cfg : Config) (ulid keyBytes : string) (now : Z) (opts : AddReceiverOptions)
    (w : World) (res : AddReceiverResult) (w' : World) : Prop :=
  exists app rc n,
    In app (apps (db w)) /\ app_id app = ar_appId opts /\ app_disabled app = false /\
    normalizePhone (ar_msisdn opts) (DEFAULT_PHONE_REGION cfg) = Return n /\
    w' = set_db (set_rows t_receivers (receivers (db w) ++ [rc])) w /\
    broken_by receivers_idx rc (receivers (db w)) = None /\
    r_id rc = newId RECEIVER_PREFIX ulid /\ r_appId rc = ar_appId opts /\ r_msisdn rc = e164 n /\ r_enabled rc = true /\
    r_lastHeartbeatAt rc = (if ar_simulateHeartbeat opts then Some now else None) /\
    unwrap (MASTER_ENCRYPTION_KEY cfg) (r_secretHash rc) (Some (receiver_aad (r_id rc))) = Return (rr_signingKey res) /\
    rr_receiverId res = r_id rc /\ rr_msisdn res = r_msisdn rc /\ rr_signingKey res = Crypto.generateNonce keyBytes.

Definition admin_codes : list string :=
  ["invalid_app_id"; "invalid_name"; "invalid_msisdn"; "app_not_found"; "app_disabled"].

Definition add_refusal (e : exn) : Prop :=
  (exists code m, e = AdminError code m /\ In code admin_codes) \/
  e = JsError "master key must be 32 bytes" \/ e = UniqueViolation "receivers_pkey".

Lemma addReceiver_cases `{PhoneLib} `{Gcm} `{Limit1} cfg ulid keyBytes iv now dbNow opts w o w' :
  addReceiver cfg ulid keyBytes iv now dbNow opts w = (o, w') ->
  (exists res, o = Return res /\ added cfg ulid keyBytes now opts w res w') \/
  (exists e, o = Throw e /\ w' = w /\ add_refusal e).
Proof.
  assert (Hadm : forall code m, In code admin_codes -> exists e : exn,
    Throw (A := AddReceiverResult) (AdminError code m) = Throw e /\ w = w /\ add_refusal e).
  { intros code m Hc. eexists. split; [done|]. split; [done|]. left. by exists code, m. }
  unfold addReceiver. rewrite bind_throw_if. destruct (negb _); [intros [= <- <-]; right; apply Hadm; cbn; auto|].
  rewrite bind_throw_if. destruct (_ =? 0)%nat; [intros [= <- <-]; right; apply Hadm; cbn; auto|].
  unfold bind at 1, lift at 1. destruct (admin_phone_cases cfg (ar_msisdn opts)) as [(n & -> & En)| ->];
    [|intros [= <- <-]; right; apply Hadm; cbn; auto].
  rewrite bind_select_one. destruct (limit1 _) as [app|] eqn:Ea; [|intros [= <- <-]; right; apply Hadm; cbn; tauto].
  apply limit1_In, select_In in Ea. destruct Ea as [Hin Hid]. apply String.eqb_eq in Hid.
  rewrite bind_throw_if. destruct (app_disabled app) eqn:Ed; [intros [= <- <-]; right; apply Hadm; cbn; tauto|].
  unfold bind at 1, lift at 1. destruct (wrapGatewaySigningKey _ _ _ _) as [wrapped|e] eqn:Ew.
  2: { intros [= <- <-]. right. eexists. split; [done|]. split; [done|]. right. left. revert Ew.
       unfold wrapGatewaySigningKey, wrap. destruct (negb _); [by intros [= <-]|]. by destruct (gcm_encrypt _ _ _ _). }
  unfold bind at 1. rewrite insert_eq. destruct (broken_by _ _ _) as [name|] eqn:Eb; intros [= <- <-].
  { right. eexists. do 2 (split; [done|]). right. right. apply broken_by_name in Eb. destruct Eb as [<-|[]]. done. }
  left. eexists. split; [reflexivity|]. eexists app, _, n. do 4 (split; [done|]). split; [reflexivity|].
  split; [done|]. do 5 (split; [done|]). split; [by apply wrap_Return with (1 := Ew)|]. done.
Qed.

(** Adding a receiver either refuses and changes nothing, with an [AdminError] of the
    step that failed, or appends exactly one enabled row to the receivers, of an
    existing app that is not disabled, under the normalized number, whose stored
    secret opens under its id to the signing key handed out. *)
Theorem addReceiver_spec `{PhoneLib} `{Gcm} `{Limit1} cfg ulid keyBytes iv now dbNow opts w :
  match addReceiver cfg ulid keyBytes iv now dbNow opts w with
  | (Return res, w') => added cfg ulid keyBytes now opts w res w' /\
      (respects receivers_idx (receivers (db w)) -> respects receivers_idx (receivers (db w')))
  | (Throw e, w') => w' = w /\ add_refusal e
  end.
Proof.
  destruct (addReceiver cfg ulid keyBytes iv now dbNow opts w) as [o w'] eqn:E.
  destruct (addReceiver_cases _ _ _ _ _ _ _ _ _ _ E) as [(res & -> & Ha)|(e & -> & -> & He)]; [|done].
  split; [done|]. destruct Ha as (app & rc & n & _ & _ & _ & _ & -> & Hb & _). intros Hr. by apply respects_insert.
Qed.

(** Neither operation changes anything but the flag of one receiver. *)
Definition flag_set (b : bool) (id : string) (D D' : DB) : Prop :=
  D' = set_rows t_receivers (update_where (fun r => String.eqb (r_id r) id) (set_enabled b) (receivers D)) D.

Lemma set_enabled_same b r : r_enabled r = b -> set_enabled b r = r.
Proof. intros <-. by destruct r. Qed.

Lemma update_where_same {A} (p : A -> bool) f t :
  (forall r, In r t -> p r = true -> f r = r) -> update_where p f t = t.
Proof.
  intros H. unfold update_where. rewrite <- (map_id t) at 2. apply map_ext_in. intros r Hin.
  destruct (p r) eqn:E; [by apply H|done].
Qed.

Lemma flag_set_already `{Limit1} b id w row :
  respects receivers_idx (receivers (db w)) ->
  limit1 (select (fun r => String.eqb (r_id r) id) (receivers (db w))) = Some row -> r_enabled row = b ->
  flag_set b id (db w) (db w).
Proof.
  intros Hr E Hb. unfold flag_set. rewrite update_where_same; [by rewrite (set_rows_rows t_receivers)|].
  intros r Hin Hid. apply String.eqb_eq in Hid. rewrite (receiver_by_id (db w) id r Hr Hin Hid) in E.
  injection E as <-. by apply set_enabled_same.
Qed.

Lemma disableReceiver_cases `{Limit1} id w :
  respects receivers_idx (receivers (db w)) ->
  match disableReceiver id w with
  | (Return res, w') => flag_set false id (db w) (db w') /\
      exists row, In row (receivers (db w)) /\ r_id row = id /\
        res = {| dr_id := id; dr_wasEnabled := r_enabled row; dr_msisdn := r_msisdn row |}
  | (Throw e, w') => w' = w /\ (forall row, In row (receivers (db w)) -> r_id row = id ->
                                 matches_prefixed "rcv_" is_alnum id = false)
  end.
Proof.
  intros Hr. unfold disableReceiver. rewrite bind_throw_if. destruct (matches_prefixed _ _ id) eqn:Em; cbn [negb]; [|by split].
  rewrite bind_select_one. cbn [rows t_receivers]. destruct (limit1 _) as [row|] eqn:El.
  - destruct (limit1_by_id _ _ _ El) as [Hin Hid]. destruct (r_enabled row) eqn:Ee; cbn [negb].
    + rewrite bind_update. split; [done|]. exists row. by rewrite Ee, <- Hid.
    + split; [by eapply flag_set_already|]. exists row. by rewrite Ee, <- Hid.
  - split; [done|]. intros row Hin Hid. by rewrite (receiver_by_id _ _ row Hr Hin Hid) in El.
Qed.

Lemma enableReceiver_cases `{Limit1} id w :
  respects receivers_idx (receivers (db w)) ->
  match enableReceiver id w with
  | (Return res, w') => flag_set true id (db w) (db w') /\
      exists row, In row (receivers (db w)) /\ r_id row = id /\
        res = {| en_id := id; en_wasDisabled := negb (r_enabled row); en_msisdn := r_msisdn row |}
  | (Throw e, w') => w' = w /\ (forall row, In row (receivers (db w)) -> r_id row = id ->
                                 matches_prefixed "rcv_" is_alnum id = false)
  end.
Proof.
  intros Hr. unfold enableReceiver. rewrite bind_throw_if. destruct (matches_prefixed _ _ id) eqn:Em; cbn [negb]; [|by split].
  rewrite bind_select_one. cbn [rows t_receivers]. destruct (limit1 _) as [row|] eqn:El.
  - destruct (limit1_by_id _ _ _ El) as [Hin Hid]. destruct (r_enabled row) eqn:Ee; cbn [negb].
    + split; [by eapply flag_set_already|]. exists row. by rewrite Ee, <- Hid.
    + rewrite bind_update. split; [done|]. exists row. by rewrite Ee, <- Hid.
  - split; [done|]. intros row Hin Hid. by rewrite (receiver_by_id _ _ row Hr Hin Hid) in El.
Qed.

Lemma flag_set_rows b id D D' rc :
  flag_set b id D D' -> In rc (receivers D') -> r_id rc = id -> r_enabled rc = b.
Proof.
  intros -> Hin Hid. cbn in Hin. apply update_where_In in Hin. destruct Hin as [(r & _ & _ & ->)|[_ Hn]]; [done|].
  by rewrite Hid, String.eqb_refl in Hn.
Qed.

Lemma flag_set_In b id D D' row :
  flag_set b id D D' -> In row (receivers D) -> r_id row = id -> In (set_enabled b row) (receivers D').
Proof.
  intros -> Hin Hid. cbn. apply update_where_In. left. exists row. split; [done|]. split; [|done].
  rewrite Hid. apply String.eqb_refl.
Qed.

Lemma flag_set_respects b id D D' :
  flag_set b id D D' -> respects receivers_idx (receivers D) -> respects receivers_idx (receivers D').
Proof.
  intros -> Hr. cbn. apply respects_update; [| |done]; intros ix x y [<-|[]]; done.
Qed.

(** Flipping the flag of an enabled receiver off and on restores the table. *)
Lemma flag_set_back id D D1 D2 row :
  respects receivers_idx (receivers D) -> In row (receivers D) -> r_id row = id -> r_enabled row = true ->
  flag_set false id D D1 -> flag_set true id D1 D2 -> D2 = D.
Proof.
  intros Hr Hin Hid He -> ->. rewrite (set_rows_set_rows t_receivers).
  transitivity (set_rows t_receivers (rows t_receivers D) D); [|apply set_rows_rows]. f_equal.
  cbn [rows t_receivers receivers set_rows]. unfold update_where. rewrite map_map. rewrite <- (map_id (receivers D)) at 2.
  apply map_ext_in. intros r Hin'. destruct (String.eqb (r_id r) id) eqn:E; [|by rewrite E].
  change (r_id (set_enabled false r)) with (r_id r). rewrite E. apply String.eqb_eq in E.
  assert (r = row) as -> by (eapply (pkey_inj _ r_id); eauto; congruence). destruct row. cbn in *. by subst.
Qed.

Lemma disable_again `{Limit1} id w res w1 :
  respects receivers_idx (receivers (db w)) -> disableReceiver id w = (Return res, w1) ->
  disableReceiver id w1 = (Return {| dr_id := id; dr_wasEnabled := false; dr_msisdn := dr_msisdn res |}, w1).
Proof.
  intros Hr E. assert (Hc := disableReceiver_cases id w Hr). rewrite E in Hc. destruct Hc as (Hf & row & Hin & Hid & ->).
  assert (Hr1 := flag_set_respects _ _ _ _ Hf Hr). assert (Hin1 := flag_set_In _ _ _ _ _ Hf Hin Hid).
  unfold disableReceiver in *. rewrite bind_throw_if in *.
  destruct (negb _); [done|]. rewrite bind_select_one in *. cbn [rows t_receivers] in *.
  rewrite (receiver_by_id (db w1) id _ Hr1 Hin1 Hid). cbn [r_enabled set_enabled negb ret]. by rewrite <- Hid.
Qed.

Lemma enable_again `{Limit1} id w res w1 :
  respects receivers_idx (receivers (db w)) -> enableReceiver id w = (Return res, w1) ->
  enableReceiver id w1 = (Return {| en_id := id; en_wasDisabled := false; en_msisdn := en_msisdn res |}, w1).
Proof.
  intros Hr E. assert (Hc := enableReceiver_cases id w Hr). rewrite E in Hc. destruct Hc as (Hf & row & Hin & Hid & ->).
  assert (Hr1 := flag_set_respects _ _ _ _ Hf Hr). assert (Hin1 := flag_set_In _ _ _ _ _ Hf Hin Hid).
  unfold enableReceiver in *. rewrite bind_throw_if in *.
  destruct (negb _); [done|]. rewrite bind_select_one in *. cbn [rows t_receivers] in *.
  rewrite (receiver_by_id (db w1) id _ Hr1 Hin1 Hid). cbn [r_enabled set_enabled negb ret]. by rewrite <- Hid.
Qed.

(** A receiver that was disabled is out: no receiver query returns it, every gateway
    request signed for it is refused before its nonce is stored, and disabling it
    again changes nothing; enabling it afterwards puts the database back exactly as
    it was when it was enabled before. *)
Theorem disabled_receiver_is_out `{Digest} `{Gcm} `{Redis R} `{Limit1} cfg id w res w1 :
  respects receivers_idx (receivers (db w)) ->
  disableReceiver id w = (Return res, w1) ->
  (forall dbNow appId op r, runHealthyReceiverQuery cfg dbNow (db w1) appId op = Some r -> r_id r <> id) /\
  (forall now setAt input (r : R), h_receiverId input = id ->
     exists reason, verifyGatewayHmac cfg now setAt (db w1) input r = (HmacRefused reason, r)) /\
  disableReceiver id w1 = (Return {| dr_id := id; dr_wasEnabled := false; dr_msisdn := dr_msisdn res |}, w1) /\
  (dr_wasEnabled res = true -> exists res2 w2, enableReceiver id w1 = (Return res2, w2) /\ db w2 = db w).
Proof.
  intros Hr E. assert (Hc := disableReceiver_cases id w Hr). rewrite E in Hc.
  destruct Hc as (Hf & row & Hin & Hid & ->).
  assert (Hoff : forall rc, In rc (receivers (db w1)) -> r_id rc = id -> r_enabled rc = false)
    by (intros rc; by apply flag_set_rows with (1 := Hf)).
  assert (Hr1 := flag_set_respects _ _ _ _ Hf Hr).
  assert (Hin1 := flag_set_In _ _ _ _ _ Hf Hin Hid).
  split; [|split; [|split]].
  - intros dbNow appId op r Eq Hid'. apply healthy_query_Some in Eq. destruct Eq as (Hr' & Hh & _).
    apply healthy_iff in Hh. destruct Hh as (_ & Hen & _). by rewrite (Hoff r Hr' Hid') in Hen.
  - intros now setAt input r Hi. destruct (verify_not_authentic cfg now setAt (db w1) input r) as [[rc Ha]|]; [|done].
    destruct Ha as (ts & sk & _ & _ & _ & _ & _ & El & Hen & _). rewrite Hi in El.
    destruct (limit1_by_id _ _ _ El) as [Hin' Hid']. by rewrite (Hoff rc Hin' Hid') in Hen.
  - exact (disable_again _ _ _ _ Hr E).
  - cbn [dr_wasEnabled]. intros He. assert (Hc := enableReceiver_cases id w1 Hr1).
    destruct (enableReceiver id w1) as [[res2|e] w2].
    + exists res2, w2. split; [done|]. destruct Hc as [Hf2 _]. by eapply flag_set_back.
    + destruct Hc as [_ Hm]. specialize (Hm _ Hin1 Hid). unfold disableReceiver in E.
      rewrite bind_throw_if, Hm in E. discriminate.
Qed.

(** *** What the lists call healthy *)

(** The lists count a heartbeat exactly as old as the timeout as fresh; receiver
    selection does not. *)
Lemma shown_healthy_iff cfg now r :
  shown_healthy cfg now r = true <->
  healthy cfg now (r_appId r) None r = true \/
  r_enabled r = true /\ r_lastHeartbeatAt r = Some (now - RECEIVER_HEARTBEAT_TIMEOUT_SECONDS cfg * 1000)%Z.
Proof.
  rewrite healthy_iff. unfold shown_healthy. rewrite andb_true_iff. destruct (r_lastHeartbeatAt r) as [hb|].
  - rewrite Z.leb_le. split.
    + intros [He Hl]. destruct (decide (now - RECEIVER_HEARTBEAT_TIMEOUT_SECONDS cfg * 1000 = hb)%Z) as [->|]; [by right|].
      left. repeat split; auto; [|done]. exists hb. split; [done|]. lia.
    + intros [(_ & He & (? & [= <-] & Hl) & _)|[He [= ->]]]; split; auto; lia.
  - split; [by intros [_ ?]|]. intros [(_ & _ & (? & ? & _) & _)|[_ ?]]; done.
Qed.

(** *** The list *)

Lemma insert_desc {A} (key : A -> Z) x l :
  Sorted (fun x y => (key y <= key x)%Z) l ->
  Sorted (fun x y => (key y <= key x)%Z) (insert_by (fun x y => (key y <? key x)%Z) x l).
Proof.
  induction l as [|y l IHl]; intros Hs; cbn; [by repeat constructor|].
  destruct (key x <? key y)%Z eqn:E.
  - apply Z.ltb_lt in E. apply Sorted_inv in Hs. destruct Hs as [Hs Hh]. constructor; [by apply IHl|].
    destruct l as [|z l]; cbn; [constructor; lia|]. destruct (key x <? key z)%Z; constructor; [|lia]. by inversion Hh.
  - apply Z.ltb_ge in E. constructor; [done|]. constructor. lia.
Qed.

(** [ORDER BY key DESC] *)
Lemma order_by_desc {A} (key : A -> Z) l :
  Sorted (fun x y => (key y <= key x)%Z) (order_by (fun x y => (key y <? key x)%Z) l).
Proof. induction l as [|x l IH]; [constructor|]. by apply insert_desc. Qed.

Lemma with_app_In D r r' a : In (r', a) (with_app D r) <-> r' = r /\ In a (apps D) /\ app_id a = r_appId r.
Proof.
  unfold with_app. rewrite in_map_iff. split.
  - intros (x & [= <- <-] & Hx). apply select_In in Hx. destruct Hx as [Hx E]. by apply String.eqb_eq in E.
  - intros (-> & Ha & E). exists a. split; [done|]. apply select_In. split; [done|]. by apply String.eqb_eq.
Qed.

(** A join on the primary key of the right side keeps the keys of the left side apart. *)
Lemma joined_ids D l :
  respects apps_idx (apps D) -> NoDup (map r_id l) -> NoDup (map (fun ra => r_id (fst ra)) (flat_map (with_app D) l)).
Proof.
  intros Ha. induction l as [|r l IH]; cbn; [constructor|]. intros Hn. apply NoDup_cons in Hn. destruct Hn as [Hn Hl].
  rewrite map_app. apply NoDup_app. split; [|split; [|by apply IH]].
  - unfold with_app. destruct (select_pkey _ app_id _ _ (r_appId r) Ha) as [E|[a E]]; rewrite E; cbn; [constructor|].
    apply NoDup_singleton.
  - intros i Hi Hj. apply list_elem_of_In in Hi, Hj. apply in_map_iff in Hi, Hj.
    destruct Hi as ([r1 a1] & <- & H1), Hj as ([r2 a2] & E & H2). apply with_app_In in H1. destruct H1 as (-> & _).
    apply in_flat_map in H2. destruct H2 as (r3 & H3 & H2). apply with_app_In in H2. destruct H2 as (-> & _).
    apply Hn. cbn in E. rewrite <- E. apply list_elem_of_In. by apply in_map.
Qed.

(** The list holds exactly the receivers that satisfy the conditions, each once with
    its app, newest first, and its health is the one of receiver selection but for a
    heartbeat exactly as old as the timeout. *)
Theorem listReceivers_spec cfg now opts w :
  exists pairs,
    listReceivers cfg now opts w = (Return (map (receiver_record cfg now) pairs), w) /\
    Sorted (fun x y => (r_createdAt (fst y) <= r_createdAt (fst x))%Z) pairs /\
    (forall r a, In (r, a) pairs <->
       In r (receivers (db w)) /\ listed opts r = true /\ In a (apps (db w)) /\ app_id a = r_appId r) /\
    (respects receivers_idx (receivers (db w)) -> respects apps_idx (apps (db w)) ->
     NoDup (map (fun ra => r_id (fst ra)) pairs)) /\
    (forall r a, rec_healthy (receiver_record cfg now (r, a)) = true <->
       healthy cfg now (r_appId r) None r = true \/
       r_enabled r = true /\ r_lastHeartbeatAt r = Some (now - RECEIVER_HEARTBEAT_TIMEOUT_SECONDS cfg * 1000)%Z).
Proof.
  eexists. split; [reflexivity|].
  split; [exact (order_by_desc (fun ra : Receiver * App => r_createdAt (fst ra)) _)|].
  split; [|split; [|intros r a; apply shown_healthy_iff]].
  - intros r a. assert (Hp := order_by_perm (fun x y : Receiver * App => (r_createdAt (fst y) <? r_createdAt (fst x))%Z)
      (flat_map (with_app (db w)) (select (listed opts) (receivers (db w))))).
    transitivity (In (r, a) (flat_map (with_app (db w)) (select (listed opts) (receivers (db w))))).
    { split; apply Permutation_in; [exact Hp|by symmetry]. }
    rewrite in_flat_map. setoid_rewrite with_app_In. setoid_rewrite select_In.
    split; [intros (x & [Hx Hp'] & -> & ?)|intros (Hx & Hp' & ?)]; eauto.
  - intros Hr Ha. rewrite (Permutation_map _ (order_by_perm _ _)).
    apply joined_ids; [done|]. by eapply nodup_select, NoDup_ListNoDup, pkey_nodup, Hr.
Qed.

(** ** Witnesses *)

(** A deployment with one app and one receiver, whose key is "gw". *)
Definition admin_world : World :=
  mkWorld (set_rows t_apps [mkApp "app_1" "Shop" 0 false] gateway_db) [] [].

Definition add_options : AddReceiverOptions :=
  {| ar_appId := "app_1"; ar_name := " main "; ar_operator := Some "mtn"; ar_msisdn := "+963991234567";
     ar_simulateHeartbeat := false |}.

Example add_runs :
  let P := plain_phones in let G := plain_gcm in
  match addReceiver default_config "01A" (repeat_char "x"%char 32) "abcdefghijkl" 5000 5000 add_options admin_world with
  | (Return res, w') => rr_receiverId res = "rcv_01A" /\ rr_name res = "main" /\ List.length (receivers (db w')) = 2%nat
  | _ => False
  end.
Proof. vm_compute. auto. Qed.

Lemma disabled_receiver_is_out_witness :
  exists res w1, disableReceiver "rcv_1" admin_world = (Return res, w1) /\
    disableReceiver "rcv_1" w1 = (Return {| dr_id := "rcv_1"; dr_wasEnabled := false; dr_msisdn := dr_msisdn res |}, w1) /\
    exists res2 w2, enableReceiver "rcv_1" w1 = (Return res2, w2) /\ db w2 = db admin_world.
Proof.
  destruct (disableReceiver "rcv_1" admin_world) as [[res|e] w1] eqn:E; [|vm_compute in E; discriminate].
  exists res, w1. split; [reflexivity|].
  destruct (disabled_receiver_is_out (H := constant_digest) (H0 := plain_gcm) (R := Store) default_config "rcv_1"
    admin_world res w1 ltac:(repeat constructor) E) as (_ & _ & Hd & He).
  split; [exact Hd|]. apply He. vm_compute in E. injection E as <- _. reflexivity.
Defined.
