(* ===== verification/Wire.v ===== *)
(** * Requests on the wire: [plugins/rawBody.ts]

    What a client of the repository sends, as the framework hands it to a handler:
    header names in lower case, and a JSON body read by the content-type parser,
    which keeps the exact bytes for the signature check.  Bodies outside the model
    of [JSON.parse] (see [JsonParse]) have no result. *)

From S2P Require Import Prelude JsString Json JsonParse Errors Config Schema RateLimit Server.
From Stdlib Require Import String Ascii.

Open Scope string_scope.

Record HttpRequest : Type := {
  hr_method : string; hr_url : string; hr_headers : list (string * string); hr_body : option string;
}.

(** What the parser hands to [done], and the raw body it kept. *)
Inductive Content : Type :=
  | Parsed (rawBody : option string) (body : json)
  | Refused (err : exn)
  | NotModelled.

(** [message] is the engine's text for a syntax error. *)
Definition rawBodyPlugin (message body : string) : Content :=
  if (slen body =? 0)%nat then Parsed (Some body) JNull
  else match json_parse body with
       | Done j _ => Parsed (Some body) j
       | SyntaxError => Refused (FastifyError (Some 400%Z) None message None)
       | _ => NotModelled
       end.

Definition content (message : string) (hr : HttpRequest) : Content :=
  match hr_body hr with None => Parsed None JNull | Some body => rawBodyPlugin message body end.

Definition lower_headers (hs : list (string * string)) : list (string * string) :=
  map (fun '(k, v) => (toLowerCase k, v)) hs.

(** The request a handler sees. *)
Definition to_request (ip id param : string) (hr : HttpRequest) (raw : option string) (body : json) : Request :=
  {| rq_headers := lower_headers (hr_headers hr); rq_ip := ip; rq_id := id; rq_rawBody := raw;
     rq_body := body; rq_param_id := param |}.

(** A handler behind the parser: its reply, or the error handler's. *)
Definition serve {R} (ip id param message : string) (hr : HttpRequest) (handler : Request -> RM R Reply)
    (s : Server R) : option (Reply * Server R) :=
  match content message hr with
  | Parsed raw body => Some (respond id (handler (to_request ip id param hr raw body)) s)
  | Refused err => Some (handleError id err, s)
  | NotModelled => None
  end.

(** The body of a reply as text. *)
Definition reply_text (r : Reply) : string := stringify (reply_body r).

(** [(x as T).k]: throws on null. *)
Definition js_get (k : string) (j : json) : outcome exn (option json) :=
  match j with
  | JNull => Throw (JsError ("Cannot read properties of null (reading '" ++ k ++ "')"))
  | _ => Return (jfield k j)
  end.

(** A JSON body of the model's values arrives as it was sent, with its bytes. *)
Lemma rawBodyPlugin_stringify message j :
  exact j = true -> rawBodyPlugin message (stringify j) = Parsed (Some (stringify j)) j.
Proof.
  intros He. unfold rawBodyPlugin. destruct (stringify_start j) as (c & s & E & _).
  rewrite parse_stringify by done. by rewrite E.
Qed.

(** A malformed body is a 400 that does not reach the handler. *)
Lemma rawBodyPlugin_refuses {R} ip id param message hr body (handler : Request -> RM R Reply) s :
  hr_body hr = Some body -> (0 < slen body)%nat -> json_parse body = SyntaxError ->
  exists reply, serve ip id param message hr handler s = Some (reply, s) /\ reply_status reply = 400%Z.
Proof.
  intros Eb Hl Es. unfold serve, content, rawBodyPlugin. rewrite Eb, Es.
  replace (slen body =? 0)%nat with false by (symmetry; apply Nat.eqb_neq; lia). by eexists.
Qed.
