(* ===== verification/Probe.v ===== *)
(** * The pairing probe: [admin/probe.ts]

    [testReceiver] signs a sample message as a gateway would, posts it, and reads
    the answer.  [added_receiver_passes_probe] runs it against the server of this development: a
    receiver that was just added passes its own probe. *)

From S2P Require Import Prelude JsString Json JsonParse JsNumber Date Errors Phone Crypto Aead Config Schema SmsBody Webhooks PhoneBindings Verifications Matching RateLimit Hmac Server Inbound Receivers Client Wire.
From Stdlib Require Import String Ascii.

Open Scope string_scope.
Open Scope js_scope.

Record ProbeReceiverOptions : Type := { po_receiverId : string; po_signingKey : string; po_baseUrl : string }.

Record ProbeReceiverResult : Type := {
  pb_status : Z; pb_ok : bool; pb_matched : bool; pb_reason : option json; pb_body : json;
}.

Definition SAMPLE_ALPHA : string := "ABCDEFGHJKMNPQRSTUVWXYZ23456789".

(** [bytes i] is the [i]-th of six random bytes. *)
Definition sampleCode (bytes : nat -> nat) : string := draw_chars SAMPLE_ALPHA (fun i => bytes i mod 31)%nat 0 6.

Definition probe_json (bytes : nat -> nat) (now : Z) (keyBytes : string) : json :=
  JObj [("from", JStr "+963999000000"); ("to", JStr "self"); ("body", JStr ("VERIFY " ++ sampleCode bytes));
        ("received_at", JStr (toISOString now)); ("idempotency_key", JStr ("probe_" ++ bufferToHex keyBytes))].

(** The request [fetch] is given; [now1] and [now2] are the two readings of the clock. *)
Definition probe_request `{Digest} (bytes : nat -> nat) (now1 now2 : Z) (keyBytes nonceBytes : string)
    (opts : ProbeReceiverOptions) : HttpRequest :=
  let body := stringify (probe_json bytes now1 keyBytes) in
  let ts := num_to_string (now2 / 1000) in
  let nonce := bufferToHex nonceBytes in
  let bodyHash := sha256Hex body in
  let sig := hmacSha256Hex (po_signingKey opts) (ts ++ "." ++ nonce ++ "." ++ bodyHash) in
  {| hr_method := "POST"; hr_url := strip_trailing_slashes (po_baseUrl opts) ++ "/v1/inbound/sms";
     hr_headers := [("Content-Type", "application/json"); ("X-SYROTP-Receiver", po_receiverId opts);
                    ("X-SYROTP-Timestamp", ts); ("X-SYROTP-Nonce", nonce); ("X-SYROTP-Signature", sig);
                    ("User-Agent", "syrotp-cli/0.2 (testReceiver)")];
     hr_body := Some body |}.

(** The text of the response as a value; [None] outside the model of [JSON.parse]. *)
Definition probe_parse (text : string) : option json :=
  if (0 <? slen text)%nat then
    match json_parse text with
    | Done j _ => Some j
    | SyntaxError => Some (JObj [("_raw", JStr text)])
    | _ => None
    end
  else Some (JObj []).

(** From the response on. *)
Definition read_probe (status : Z) (text : string) : option (outcome exn ProbeReceiverResult) :=
  parsed ← probe_parse text;
  Some (match js_get "matched" parsed, js_get "reason" parsed with
        | Return matched, Return reason =>
            Return {| pb_status := status; pb_ok := (200 <=? status)%Z && (status <? 300)%Z;
                      pb_matched := match matched with Some (JBool true) => true | _ => false end;
                      pb_reason := reason; pb_body := parsed |}
        | Throw e, _ | _, Throw e => Throw e
        end).

(** [testReceiver] against a server; [None] outside the model. *)
Definition testReceiver `{Digest} {R} (bytes : nat -> nat) (now1 now2 : Z) (keyBytes nonceBytes : string)
    (opts : ProbeReceiverOptions) (server : HttpRequest -> Server R -> option (Reply * Server R)) (s : Server R)
    : option (outcome exn ProbeReceiverResult * Server R) :=
  '(reply, s') ← server (probe_request bytes now1 now2 keyBytes nonceBytes opts) s;
  result ← read_probe (reply_status reply) (reply_text reply);
  Some (result, s').

(** ** Guards that let a first request through *)

Section Forward.
Context `{Redis R}.

(** Redis always answers a transaction. *)
Definition answers : Prop := forall k s t (r : R), exists n, fst (incr_expire_nx k s t r) = IncrCount n.

Lemma rate_guard_pass key limit t1 t2 bucket (s : Server R) :
  answers -> (1 <= limit)%Z -> visible (sr s) t1 (bucket_of key 60 t1) = None ->
  exists r, rate_guard key limit t1 t2 bucket s = (Return tt, mkServer (sw s) r (touches s)) /\
    forall t k, (t1 <= t)%Z -> k <> bucket_of key 60 t1 -> visible r t k = visible (sr s) t k.
Proof.
  intros Ha Hl Hv. unfold rate_guard, bind, on_redis, rateCheck. specialize (Ha (bucket_of key 60 t1) 60%Z t1 (sr s)).
  destruct Ha as [n Ha], (incr_expire_nx _ _ _ _) as [reply r] eqn:E. cbn in Ha. subst reply. destruct (incr_law _ _ _ _ _ _ E) as [-> Hk].
  rewrite Hv. cbn [allowed]. replace (1 + 0 <=? limit)%Z with true by (symmetry; apply Z.leb_le; lia).
  exists r. split; [done|]. intros t k Ht Hne. rewrite Hk by done. by apply String.eqb_neq in Hne as ->.
Qed.

Lemma require_gateway_pass `{Digest} `{Gcm} `{Limit1} cfg now setAt input rc (s : Server R) :
  authentic cfg now (db (sw s)) input rc -> visible (sr s) setAt (nonce_key input) = None ->
  exists r, require_gateway cfg now setAt input s = (Return (public_view rc), mkServer (sw s) r (touches s)) /\
    forall t k, (setAt <= t)%Z -> k <> nonce_key input -> visible r t k = visible (sr s) t k.
Proof.
  intros Ha Hn. unfold require_gateway, bind, verify_gateway.
  rewrite (verify_authentic cfg now setAt (db (sw s)) input (sr s) rc Ha).
  destruct (set_nx_ex _ _ _ _) as [b r] eqn:E. destruct (set_law _ _ _ _ _ _ E) as [-> Hk]. rewrite Hn. cbn [negb].
  exists r. split; [done|]. intros t k Ht Hne. rewrite Hk, Hn by done. by apply String.eqb_neq in Hne as ->.
Qed.
End Forward.

(** ** The pieces of the request *)

Lemma sampleCode_token bytes : token 4 32 (sampleCode bytes).
Proof.
  split; [unfold sampleCode; rewrite draw_chars_length; lia|]. apply draw_chars_class. by apply char_at_class.
Qed.

Lemma sample_message bytes :
  extractCode ("VERIFY " ++ sampleCode bytes) "VERIFY" = Some (sampleCode bytes) /\
  extractBindNonce ("VERIFY " ++ sampleCode bytes) = None.
Proof.
  assert (E : extractCode ("VERIFY " ++ sampleCode bytes) "VERIFY" = Some (sampleCode bytes)).
  { rewrite extractCode_eq. apply (parse_command_canonical "VERIFY" 4 32); [reflexivity|done|apply sampleCode_token]. }
  split; [exact E|]. rewrite extractBindNonce_eq.
  apply (parse_command_disjoint "V"%char "ERIFY" 4 32 "B"%char "IND"); [done|].
  change (parse_command _ 4 32 _) with (extractCode ("VERIFY " ++ sampleCode bytes) "VERIFY"). by rewrite E.
Qed.

(** A message of a receiver that nothing refers to yet matches nothing. *)
Lemma unmatched_new_receiver `{PhoneLib} `{Limit1} cfg fr ulid skip_locked serverNow dbNow input w code :
  respects verifications_idx (verifications (db w)) ->
  (forall v, In v (verifications (db w)) -> v_receiverId v <> mi_receiverId input) ->
  (forall i, In i (inboundSms (db w)) -> i_receiverId i <> mi_receiverId input) ->
  ~ In (newId INBOUND_PREFIX ulid) (map i_id (inboundSms (db w))) ->
  extractBindNonce (mi_body input) = None -> extractCode (mi_body input) "VERIFY" = Some code ->
  exists w', processInbound cfg fr ulid skip_locked serverNow dbNow input w
             = (Return (Unmatched "no_match" (newId INBOUND_PREFIX ulid)), w').
Proof.
  intros Hidx Hv Hi Hid Hb Hc.
  destruct (processInbound_cases cfg fr ulid skip_locked serverNow dbNow input w)
    as [(prior & Hin & Hk & _)|[(_ & Hin & _)|(_ & _ & ->)]].
  - unfold same_idempotency_key in Hk. apply andb_true_iff in Hk. destruct Hk as [Hk _]. apply String.eqb_eq in Hk.
    by destruct (Hi prior Hin).
  - done.
  - rewrite Hb, Hc. unfold match_stored. unfold bind at 1.
    set (w1 := stored_world _ w).
    destruct (claim_cases fr skip_locked serverNow (mi_receiverId input) (sender cfg (mi_from input)) code
      (newId INBOUND_PREFIX ulid) w1 Hidx) as [[_ ->]|(v & Hin & He & _)].
    + unfold link_inbound. autorewrite with js. by eexists.
    + unfold eligible in He. destruct_and_ex. reflect_eqb. by destruct (Hv v Hin).
Qed.

(** ** The probe of a new receiver *)

Section Pairing.
Context `{Digest} `{Gcm} `{Redis R} `{Limit1} `{Zod} `{PhoneLib} (cfg : Config).
Context (d : Draws) (fr : Fresh) (skip_locked : Verification -> bool) (w : World) (r : R) (rc : Receiver) (key : string).
Context (bytes : nat -> nat) (now1 now2 : Z) (keyBytes nonceBytes : string).

Hypothesis cfg_ok : config_valid cfg = true.
(** Node's HMAC in hexadecimal has 64 digits. *)
Hypothesis hmac_hex : forall k m, matches_class is_hex 64 64 (hmacSha256Hex k m) = true.
(** A fresh Redis that answers. *)
Hypothesis redis_answers : answers (R := R).
Hypothesis redis_empty : forall t k, visible r t k = None.
(** The receiver is stored, enabled, and its secret opens to [key]. *)
Hypothesis tables_ok : respects receivers_idx (receivers (db w)) /\ respects verifications_idx (verifications (db w)).
Hypothesis stored : In rc (receivers (db w)) /\ r_enabled rc = true /\ matches_prefixed "rcv_" is_alnum (r_id rc) = true.
Hypothesis opens : unwrap (MASTER_ENCRYPTION_KEY cfg) (r_secretHash rc) (Some (receiver_aad (r_id rc))) = Return key.
(** Nothing refers to it yet, and the ULID of the message is new. *)
Hypothesis unreferenced :
  (forall v, In v (verifications (db w)) -> v_receiverId v <> r_id rc) /\
  (forall i, In i (inboundSms (db w)) -> i_receiverId i <> r_id rc) /\
  ~ In (newId INBOUND_PREFIX (ulid d INBOUND_PREFIX)) (map i_id (inboundSms (db w))).
(** The two clocks agree up to the skew, and the server's runs forward. *)
Hypothesis clocks : (0 <= now2 < 2 ^ 62)%Z /\ (forall i, clock d i <= clock d (S i))%Z /\
  (Z.abs (clock d 2 / 1000 - now2 / 1000) <= INBOUND_TIMESTAMP_SKEW_SECONDS cfg)%Z.
Hypothesis drawn : slen nonceBytes = 16%nat /\ slen keyBytes = 8%nat.
(** The schema library reads a date as [toISOString] writes it. *)
Hypothesis zod_reads : exists t, zod_datetime (toISOString now1) = Some t.

Definition probe_input : VerifyHmacInput :=
  let body := stringify (probe_json bytes now1 keyBytes) in
  {| h_receiverId := r_id rc; h_timestampHeader := num_to_string (now2 / 1000);
     h_nonceHeader := bufferToHex nonceBytes;
     h_signatureHeader := hmacSha256Hex key (num_to_string (now2 / 1000) ++ "." ++ bufferToHex nonceBytes ++ "." ++ sha256Hex body);
     h_rawBody := body |}.

Lemma probe_authentic : authentic cfg (clock d 2) (db w) probe_input rc.
Proof.
  destruct stored as (Hin & Hen & Hid), clocks as (Hn & _ & Hskew), drawn as [Hl _], tables_ok as [Hr _].
  exists (now2 / 1000)%Z, key. split; [done|]. split.
  { cbn. destruct (bufferToHex_hex nonceBytes) as [Hx Hs]. unfold matches_class. by rewrite Hx, Hs, Hl. }
  split; [apply hmac_hex|]. split.
  { apply parseInt10_num. unfold DOUBLE_OVERFLOW. split; [apply Z.div_pos; lia|].
    apply Z.le_lt_trans with now2; [apply Z.div_le_upper_bound; lia|]. destruct Hn as [_ Hn]. eapply Z.lt_trans; [exact Hn|]. reflexivity. }
  split; [done|]. split; [by apply receiver_by_id|]. split; [done|]. split; [exact opens|]. reflexivity.
Qed.

Lemma clock_le i j : (i <= j)%nat -> (clock d i <= clock d j)%Z.
Proof. destruct clocks as (_ & Hc & _). induction 1 as [|j _ IH]; [lia|]. specialize (Hc j). lia. Qed.

Definition probe_inbound (received_at : Z) : InboundBody :=
  {| ib_from := "+963999000000"; ib_to := "self"; ib_body := "VERIFY " ++ sampleCode bytes;
     ib_received_at := received_at; ib_idempotency_key := "probe_" ++ bufferToHex keyBytes; ib_sim_slot := None |}.

Lemma probe_body_accepted t :
  zod_datetime (toISOString now1) = Some t -> inboundBody (probe_json bytes now1 keyBytes) = Some (probe_inbound t).
Proof.
  intros Hz. destruct drawn as [_ Hk]. unfold inboundBody, probe_json.
  assert (Hc : z_string 1 1600 (Some (JStr ("VERIFY " ++ sampleCode bytes))) = Some ("VERIFY " ++ sampleCode bytes)).
  { unfold z_string. rewrite slen_app. unfold sampleCode. by rewrite draw_chars_length. }
  assert (Hi : z_string 8 128 (Some (JStr ("probe_" ++ bufferToHex keyBytes))) = Some ("probe_" ++ bufferToHex keyBytes)).
  { unfold z_string. rewrite slen_app, (proj2 (bufferToHex_hex keyBytes)), Hk. reflexivity. }
  cbn [z_is_object negb]. unfold jfield. cbn [jget String.eqb Ascii.eqb Bool.eqb]. rewrite Hc, Hi.
  cbn [z_datetime]. rewrite Hz. reflexivity.
Qed.

Lemma matches_prefixed_nonempty s : matches_prefixed "rcv_" is_alnum s = true -> nonempty s = true.
Proof. by destruct s. Qed.

Lemma matches_class_nonempty p lo hi s : matches_class p (S lo) hi s = true -> nonempty s = true.
Proof. by destruct s. Qed.

Lemma probe_headers opts ip id param raw body :
  po_receiverId opts = r_id rc -> po_signingKey opts = key ->
  readGatewayHeaders (to_request ip id param (probe_request bytes now1 now2 keyBytes nonceBytes opts) raw body)
  = {| gh_receiverId := Some (h_receiverId probe_input); gh_timestamp := Some (h_timestampHeader probe_input);
       gh_nonce := Some (h_nonceHeader probe_input); gh_signature := Some (h_signatureHeader probe_input) |}.
Proof.
  intros Eid Ekey. destruct stored as (_ & _ & Hid), drawn as [Hl _], clocks as (Hn & _).
  unfold readGatewayHeaders, truthy_header, header, to_request, probe_request, probe_input.
  cbn [rq_headers hr_headers lower_headers map header_in].
  change (toLowerCase "Content-Type") with "content-type". change (toLowerCase "X-SYROTP-Receiver") with "x-syrotp-receiver".
  change (toLowerCase "X-SYROTP-Timestamp") with "x-syrotp-timestamp". change (toLowerCase "X-SYROTP-Nonce") with "x-syrotp-nonce".
  change (toLowerCase "X-SYROTP-Signature") with "x-syrotp-signature".
  cbn [String.eqb Ascii.eqb Bool.eqb]. rewrite Eid, Ekey. cbn [h_receiverId h_timestampHeader h_nonceHeader h_signatureHeader].
  rewrite (matches_prefixed_nonempty _ Hid), (matches_class_nonempty _ _ _ _ (hmac_hex _ _)).
  destruct (num_to_string_digits (now2 / 1000) ltac:(apply Z.div_pos; lia)) as (_ & Hne & _).
  assert (Hts : nonempty (num_to_string (now2 / 1000)) = true) by (destruct (num_to_string _); done).
  assert (Hx : nonempty (bufferToHex nonceBytes) = true) by (destruct nonceBytes; done).
  by rewrite Hts, Hx.
Qed.

(** The per-IP bucket and the signature of the probe. *)
Lemma probe_reaches_matcher opts ip id body :
  po_receiverId opts = r_id rc -> po_signingKey opts = key ->
  exists r1, (forall k t, (clock d 3 <= t)%Z -> k <> bucket_of ("inbound:ip:" ++ ip) 60 (clock d 0) ->
                k <> nonce_key probe_input -> visible r1 t k = None) /\
  let req := to_request ip id "" (probe_request bytes now1 now2 keyBytes nonceBytes opts) (Some (h_rawBody probe_input)) body in
  inbound_sms cfg d fr skip_locked req (mkServer w r [])
  = inbound_verified cfg d fr skip_locked req (public_view rc) (mkServer w r1 []).
Proof.
  intros Eid Ekey. destruct stored as (_ & _ & Hid).
  assert (Hlim : (1 <= RATE_LIMIT_INBOUND_PER_IP_PER_MIN cfg)%Z).
  { apply config_valid_limits, cfg_ok. }
  destruct (rate_guard_pass ("inbound:ip:" ++ ip) (RATE_LIMIT_INBOUND_PER_IP_PER_MIN cfg) (clock d 0) (clock d 1)
    "inbound_per_ip" (mkServer w r []) redis_answers Hlim ltac:(apply redis_empty)) as (r0 & E0 & H0').
  assert (Hn0 : visible r0 (clock d 3) (nonce_key probe_input) = None).
  { rewrite H0'; [apply redis_empty|apply clock_le; lia|discriminate]. }
  destruct (require_gateway_pass cfg (clock d 2) (clock d 3) probe_input rc (mkServer w r0 []) probe_authentic Hn0)
    as (r1 & E1 & H1').
  exists r1. split.
  { intros k t Ht Hk1 Hk2. rewrite H1', H0'; [apply redis_empty|..]; try done. etransitivity; [|exact Ht]. apply clock_le. lia. }
  cbv zeta. unfold inbound_sms. rewrite probe_headers by done.
  cbn [gh_receiverId gh_timestamp gh_nonce gh_signature h_receiverId probe_input]. rewrite bind_throw_if.
  change (RECEIVER_ID_RE (r_id rc)) with (matches_prefixed "rcv_" is_alnum (r_id rc)). rewrite Hid.
  cbn [negb rq_rawBody to_request rq_ip]. unfold bind at 1. rewrite E0. unfold bind at 1.
  change {| h_receiverId := r_id rc; h_timestampHeader := _; h_nonceHeader := _; h_signatureHeader := _; h_rawBody := _ |} with probe_input.
  cbn [sw sr touches] in E1 |- *. setoid_rewrite E1. reflexivity.
Qed.

(** The two buckets of the verified receiver, the schema, the matcher and the reply. *)
Lemma probe_verified r1 raw ip id hr t :
  zod_datetime (toISOString now1) = Some t ->
  (forall k u, (clock d 3 <= u)%Z -> k <> bucket_of ("inbound:ip:" ++ ip) 60 (clock d 0) ->
     k <> nonce_key probe_input -> visible r1 u k = None) ->
  exists s', inbound_verified cfg d fr skip_locked (to_request ip id "" hr raw (probe_json bytes now1 keyBytes))
               (public_view rc) (mkServer w r1 [])
    = (Return (inbound_reply (Unmatched "no_match" (newId INBOUND_PREFIX (ulid d INBOUND_PREFIX)))), s').
Proof.
  intros Hz Hvis. destruct unreferenced as (Hv & Hi & Hnew), tables_ok as [_ Hvi].
  destruct (config_valid_limits cfg cfg_ok) as (_ & Hl1 & Hl2 & _).
  unfold inbound_verified. cbn [gr_id gr_appId public_view].
  destruct (rate_guard_pass ("inbound:rcv:" ++ r_id rc) (RATE_LIMIT_INBOUND_PER_RECEIVER_PER_MIN cfg) (clock d 4) (clock d 5)
    "inbound" (mkServer w r1 []) redis_answers Hl1) as (r2 & E2 & H2').
  { apply Hvis; [apply clock_le; lia|discriminate|discriminate]. }
  destruct (rate_guard_pass ("inbound:app:" ++ r_appId rc) (RATE_LIMIT_INBOUND_PER_APP_PER_MIN cfg) (clock d 6) (clock d 7)
    "inbound_sms_per_app" (mkServer w r2 []) redis_answers Hl2) as (r3 & E3 & _).
  { cbn [sr]. rewrite H2'; [|apply clock_le; lia|discriminate].
    apply Hvis; [apply clock_le; lia|discriminate|discriminate]. }
  unfold bind at 1. rewrite E2. cbn [sw sr touches]. unfold bind at 1. rewrite E3. cbn [sw sr touches].
  cbn [to_request rq_body]. rewrite (probe_body_accepted t Hz). unfold bind at 1, on_world at 1.
  destruct (sample_message bytes) as [Hc Hb].
  destruct (unmatched_new_receiver cfg fr (ulid d INBOUND_PREFIX) skip_locked (clock d 8) (db_now d)
    (sms_of (public_view rc) (probe_inbound t)) w (sampleCode bytes) Hvi Hv Hi Hnew Hb Hc) as [w1 Ew].
  cbn [sw sr touches]. unfold sms_of in Ew. cbn [gr_id gr_msisdn public_view] in *. rewrite Ew.
  destruct (report_inbound_eq d (to_request ip id "" hr raw (probe_json bytes now1 keyBytes)) (public_view rc)
    (Unmatched "no_match" (newId INBOUND_PREFIX (ulid d INBOUND_PREFIX))) (mkServer w1 r3 [])) as (w' & l & E & _).
  eexists. exact E.
Qed.

Lemma probe_passes opts ip id message :
  po_receiverId opts = r_id rc -> po_signingKey opts = key ->
  exists result s',
    testReceiver bytes now1 now2 keyBytes nonceBytes opts
      (fun hr => serve ip id "" message hr (inbound_sms cfg d fr skip_locked)) (mkServer w r []) = Some (Return result, s') /\
    pb_status result = 202%Z /\ pb_ok result = true /\ pb_matched result = false /\
    pb_reason result = Some (JStr "no_match").
Proof.
  intros Eid Ekey. destruct zod_reads as [t Hz].
  destruct (probe_reaches_matcher opts ip id (probe_json bytes now1 keyBytes) Eid Ekey) as (r1 & Hvis & E). cbv zeta in E.
  destruct (probe_verified r1 (Some (h_rawBody probe_input)) ip id (probe_request bytes now1 now2 keyBytes nonceBytes opts) t Hz Hvis)
    as [s' E2]. rewrite E2 in E.
  unfold testReceiver, serve, content, probe_request in *. cbn [hr_body h_rawBody probe_input] in *. cbv zeta in *.
  rewrite rawBodyPlugin_stringify by reflexivity. unfold respond. setoid_rewrite E. clear E E2 Hvis.
  eexists _, s'. split; [vm_compute; reflexivity|]. by repeat split.
Qed.
End Pairing.

(** A receiver that was just added passes its own pairing probe: with a fresh Redis
    that answers, clocks that agree up to the skew, ULIDs of letters and digits and
    references that respect the foreign keys, [testReceiver] with the id and the key
    that [addReceiver] returned reports status 202, ok, not matched, "no_match": the
    signature, the timestamp, the nonce, the buckets, the body schema and the insert
    all accept the request as it went over the wire. *)
Theorem added_receiver_passes_probe `{Digest} `{Gcm} `{Redis R} `{Limit1} `{Zod} `{PhoneLib}
    cfg rcvUlid keyBytes iv t0 dbNow0 add_opts w res w1 d fr skip_locked (r : R) bytes now1 now2 keyBytes' nonceBytes
    baseUrl ip id message :
  config_valid cfg = true ->
  (forall k m, matches_class is_hex 64 64 (hmacSha256Hex k m) = true) ->
  answers (R := R) -> (forall t k, visible r t k = None) ->
  respects receivers_idx (receivers (db w)) -> respects verifications_idx (verifications (db w)) ->
  (forall v, In v (verifications (db w)) -> In (v_receiverId v) (map r_id (receivers (db w)))) ->
  (forall i, In i (inboundSms (db w)) -> In (i_receiverId i) (map r_id (receivers (db w)))) ->
  ~ In (newId INBOUND_PREFIX (ulid d INBOUND_PREFIX)) (map i_id (inboundSms (db w))) ->
  all_chars is_alnum rcvUlid = true -> rcvUlid <> "" ->
  (0 <= now2 < 2 ^ 62)%Z -> (forall i, clock d i <= clock d (S i))%Z ->
  (Z.abs (clock d 2 / 1000 - now2 / 1000) <= INBOUND_TIMESTAMP_SKEW_SECONDS cfg)%Z ->
  slen nonceBytes = 16%nat -> slen keyBytes' = 8%nat -> (exists t, zod_datetime (toISOString now1) = Some t) ->
  addReceiver cfg rcvUlid keyBytes iv t0 dbNow0 add_opts w = (Return res, w1) ->
  exists result s',
    testReceiver bytes now1 now2 keyBytes' nonceBytes
      {| po_receiverId := rr_receiverId res; po_signingKey := rr_signingKey res; po_baseUrl := baseUrl |}
      (fun hr => serve ip id "" message hr (inbound_sms cfg d fr skip_locked)) (mkServer w1 r []) = Some (Return result, s') /\
    pb_status result = 202%Z /\ pb_ok result = true /\ pb_matched result = false /\
    pb_reason result = Some (JStr "no_match").
Proof.
  intros Hcfg Hh Ha He Hr Hv Hfv Hfi Hnew Hu Hne Hn Hck Hsk Hl Hl' Hz E.
  destruct (addReceiver_cases _ _ _ _ _ _ _ _ _ _ E) as [(res' & [= <-] & Hadd)|(e & [=] & _)].
  destruct Hadd as (app & rc & n & _ & _ & _ & _ & -> & Hb & Hid & _ & _ & Hen & _ & Hun & Erid & _).
  assert (Hno : ~ In (r_id rc) (map r_id (receivers (db w)))).
  { apply clashes_pkey with (name := "receivers_pkey"). apply broken_by_None in Hb. by apply Forall_inv in Hb. }
  apply (probe_passes cfg d fr skip_locked _ r rc (rr_signingKey res)); try done.
  - split; [by apply respects_insert|done].
  - split; [apply in_or_app; right; by left|]. split; [done|]. rewrite Hid. unfold newId.
    unfold matches_prefixed. change (RECEIVER_PREFIX ++ "_" ++ rcvUlid) with ("rcv_" ++ rcvUlid).
    rewrite startsWith_app, slice_from_app, Hu. by destruct rcvUlid.
  - cbn. split; [|split; [|done]]; intros x Hx Ex; apply Hno; rewrite <- Ex; auto.
Qed.

(** ** Witness *)

Definition probe_run (res : AddReceiverResult) (w1 : World) : option (outcome exn ProbeReceiverResult * Server Store) :=
  testReceiver (H := constant_digest) (fun _ => 0%nat) 1000000 1000000 "abcdefgh" "abcdefghijklmnop"
    {| po_receiverId := rr_receiverId res; po_signingKey := rr_signingKey res; po_baseUrl := "https://otp.example/" |}
    (fun hr => serve "10.0.0.1" "req" "" "" hr
       (inbound_sms (H := constant_digest) (H0 := plain_gcm) (H3 := sample_zod) (H4 := plain_phones) default_config at_1000
          sample_fresh (fun _ => false))) (mkServer w1 ∅ []).

Lemma added_receiver_passes_probe_witness :
  exists res w1,
    addReceiver (H := plain_phones) (H0 := plain_gcm) default_config "01A" (repeat_char "x"%char 32) "abcdefghijkl"
      5000 5000 add_options admin_world = (Return res, w1) /\
    exists result s', probe_run res w1 = Some (Return result, s') /\ pb_status result = 202%Z /\ pb_ok result = true.
Proof.
  destruct (addReceiver (H := plain_phones) (H0 := plain_gcm) default_config "01A" (repeat_char "x"%char 32) "abcdefghijkl"
    5000 5000 add_options admin_world) as [[res|e] w1] eqn:E; [|vm_compute in E; discriminate].
  exists res, w1. split; [reflexivity|].
  destruct (added_receiver_passes_probe (H := constant_digest) (H0 := plain_gcm) (R := Store) (H3 := sample_zod)
    (H4 := plain_phones) default_config "01A" (repeat_char "x"%char 32) "abcdefghijkl" 5000 5000 add_options admin_world
    res w1 at_1000 sample_fresh (fun _ => false) ∅ (fun _ => 0%nat) 1000000 1000000 "abcdefgh" "abcdefghijklmnop"
    "https://otp.example/" "10.0.0.1" "req" "")
    as (result & s' & Er & Es & Eo & _); try reflexivity; try (repeat constructor; fail); try exact E.
  all: try (intros x []; fail).
  - intros k s t r. unfold incr_expire_nx. cbn. unfold store_incr. destruct (store_visible _ _ _) as [[]|]; by eexists.
  - intros [].
  - discriminate.
  - split; [discriminate|reflexivity].
  - vm_compute. discriminate.
  - by exists 1000%Z.
  - exists result, s'. split; [exact Er|]. split; [exact Es|exact Eo].
Defined.
