(* ===== verification/Metrics.v ===== *)
(** * The metrics registry: [services/metrics.ts]

    The counters and gauges of the process, as prom-client keeps them: a value per
    metric name and label set; [inc] refuses labels that were not declared.  The
    services of this development log the calls they make as values of
    [Schema.Metric]; [record] is what each call does to the registry.  Histograms
    and the text exposition are prom-client's and are left out. *)

From stdpp Require Import gmap.
From S2P Require Import Prelude JsString Json Errors Double Schema.
From Stdlib Require Import String.

Open Scope string_scope.

(** ** Declarations *)

Record CounterDef : Type := { cd_name : string; cd_labelNames : list string }.

Definition verificationsStarted : CounterDef :=
  {| cd_name := "syrotp_verifications_started_total"; cd_labelNames := ["app_id"] |}.
Definition verificationsTerminal : CounterDef :=
  {| cd_name := "syrotp_verifications_terminal_total"; cd_labelNames := ["app_id"; "status"] |}.
Definition inboundReceivedCounter : CounterDef :=
  {| cd_name := "syrotp_inbound_received_total"; cd_labelNames := ["receiver_id"; "matched"; "reason"] |}.
Definition hmacRejectedCounter : CounterDef :=
  {| cd_name := "syrotp_hmac_rejected_total"; cd_labelNames := ["reason"] |}.
Definition apiKeyRejectedCounter : CounterDef :=
  {| cd_name := "syrotp_api_key_rejected_total"; cd_labelNames := ["reason"] |}.
Definition rateLimitedCounter : CounterDef :=
  {| cd_name := "syrotp_rate_limited_total"; cd_labelNames := ["bucket"] |}.
Definition heartbeatDbUpdates : CounterDef :=
  {| cd_name := "syrotp_receiver_heartbeat_db_updates_total"; cd_labelNames := ["outcome"] |}.
Definition matchingInvariantViolations : CounterDef :=
  {| cd_name := "syrotp_matching_invariant_violations_total"; cd_labelNames := [] |}.
Definition verificationCodeCollisions : CounterDef :=
  {| cd_name := "syrotp_verification_code_collisions_total"; cd_labelNames := ["outcome"] |}.
Definition receiverSelectedCounter : CounterDef :=
  {| cd_name := "syrotp_receiver_selected_total"; cd_labelNames := ["match"] |}.
Definition webhookEventsEmitted : CounterDef :=
  {| cd_name := "syrotp_webhook_events_total"; cd_labelNames := ["event_type"] |}.
Definition webhookDeliveriesTerminal : CounterDef :=
  {| cd_name := "syrotp_webhook_deliveries_total"; cd_labelNames := ["status"] |}.
Definition webhookDeliveryFailures : CounterDef :=
  {| cd_name := "syrotp_webhook_delivery_failures_total"; cd_labelNames := ["reason"] |}.

Definition counters : list CounterDef :=
  [verificationsStarted; verificationsTerminal; inboundReceivedCounter; hmacRejectedCounter; apiKeyRejectedCounter;
   rateLimitedCounter; heartbeatDbUpdates; matchingInvariantViolations; verificationCodeCollisions;
   receiverSelectedCounter; webhookEventsEmitted; webhookDeliveriesTerminal; webhookDeliveryFailures].

(** ** The registry *)

Abbreviation Labels := (list (string * string)).

Record Registry : Type := mkRegistry {
  counterValues : gmap (string * Labels) Z;
  gaugeValues : gmap (string * Labels) double;
}.

Definition empty_registry : Registry := mkRegistry ∅ ∅.

(** [counter.inc(labels)]: throws on a label that was not declared. *)
Definition inc (c : CounterDef) (labels : Labels) (r : Registry) : outcome exn Registry :=
  if forallb (fun kv => existsb (String.eqb (fst kv)) (cd_labelNames c)) labels
  then Return (mkRegistry (<[(cd_name c, labels) := (1 + default 0 (counterValues r !! (cd_name c, labels)))%Z]> (counterValues r))
                 (gaugeValues r))
  else Throw (JsError "Added label is not included in initial labelset").

(** The counter and labels of a call; [None] for a histogram's observation. *)
Definition sample (m : Metric) : option (CounterDef * Labels) :=
  match m with
  | verificationStarted appId => Some (verificationsStarted, [("app_id", appId)])
  | verificationTerminal appId status => Some (verificationsTerminal, [("app_id", appId); ("status", status)])
  | inboundReceived receiverId matched reason =>
      Some (inboundReceivedCounter,
            [("receiver_id", receiverId); ("matched", if matched then "true" else "false"); ("reason", reason)])
  | hmacRejected reason => Some (hmacRejectedCounter, [("reason", reason)])
  | apiKeyRejected reason => Some (apiKeyRejectedCounter, [("reason", reason)])
  | rateLimitedBucket bucket => Some (rateLimitedCounter, [("bucket", bucket)])
  | heartbeatDbUpdate outcome => Some (heartbeatDbUpdates, [("outcome", outcome)])
  | receiverSelected match_ => Some (receiverSelectedCounter, [("match", match_)])
  | matchingInvariantViolated => Some (matchingInvariantViolations, [])
  | verificationCodeCollision outcome => Some (verificationCodeCollisions, [("outcome", outcome)])
  | webhookEventEmitted eventType => Some (webhookEventsEmitted, [("event_type", eventType)])
  | webhookDeliveryTerminal status => Some (webhookDeliveriesTerminal, [("status", status)])
  | webhookDeliveryFailure reason => Some (webhookDeliveryFailures, [("reason", reason)])
  | webhookDeliveryObserved _ => None
  end.

(** One call of [metrics]. *)
Definition record (m : Metric) (r : Registry) : outcome exn Registry :=
  match sample m with Some (c, labels) => inc c labels r | None => Return r end.

(** The calls of a run, in order. *)
Fixpoint record_all (ms : list Metric) (r : Registry) : outcome exn Registry :=
  match ms with
  | [] => Return r
  | m :: ms' => match record m r with Return r' => record_all ms' r' | Throw e => Throw e end
  end.

(** ** Gauges *)

Definition set_gauge (name : string) (labels : Labels) (v : double) (r : Registry) : Registry :=
  mkRegistry (counterValues r) (<[(name, labels) := v]> (gaugeValues r)).

(** [gauge.reset()] of a labelled gauge *)
Definition reset_gauge (name : string) (r : Registry) : Registry :=
  mkRegistry (counterValues r) (filter (fun kv => fst (fst kv) <> name) (gaugeValues r)).

Record ReceiverGauges : Type := {
  enabledTotal : Z; disabledTotal : Z; healthyTotal : Z; perReceiverHeartbeatAge : list (string * Z);
}.

Definition HEARTBEAT_AGE : string := "syrotp_receiver_heartbeat_age_seconds".

Definition setReceiverGauges (values : ReceiverGauges) (r : Registry) : Registry :=
  let r := set_gauge "syrotp_receivers_total" [("enabled", "true")] (of_Z (enabledTotal values)) r in
  let r := set_gauge "syrotp_receivers_total" [("enabled", "false")] (of_Z (disabledTotal values)) r in
  let r := set_gauge "syrotp_receivers_healthy_total" [] (of_Z (healthyTotal values)) r in
  let r := reset_gauge HEARTBEAT_AGE r in
  fold_left (fun r '(id, age) => set_gauge HEARTBEAT_AGE [("receiver_id", id)] (of_Z age) r)
    (perReceiverHeartbeatAge values) r.

Record AbuseGauges : Type := {
  failed_verification_rate : double; unmatched_inbound_rate : double; abuse_binding_failure_rate : double; min_app_health_score : double;
}.

Definition setAbuseSignals (signals : AbuseGauges) (r : Registry) : Registry :=
  let r := set_gauge "syrotp_abuse_failed_verification_rate" [] (failed_verification_rate signals) r in
  let r := set_gauge "syrotp_abuse_unmatched_inbound_rate" [] (unmatched_inbound_rate signals) r in
  let r := set_gauge "syrotp_abuse_binding_failure_rate" [] (abuse_binding_failure_rate signals) r in
  set_gauge "syrotp_abuse_min_app_health_score" [] (min_app_health_score signals) r.

(** [classifyStatus] *)
Definition classifyStatus (s : Z) : string :=
  if ((200 <=? s) && (s <? 300))%Z then "2xx"
  else if ((400 <=? s) && (s <? 500))%Z then "4xx"
  else if ((500 <=? s) && (s <? 600))%Z then "5xx"
  else "other".

(** Whether a call counts in a series. *)
Definition counts_in (key : string * Labels) (m : Metric) : bool :=
  match sample m with Some (c, labels) => bool_decide ((cd_name c, labels) = key) | None => false end.

(** ** Properties *)

Lemma sample_declared m :
  match sample m with
  | Some (c, labels) => In c counters /\ map fst labels = cd_labelNames c
  | None => True
  end.
Proof. destruct m; cbn [sample]; try (split; [cbn; tauto|reflexivity]). done. Qed.

Lemma inc_declared c labels r :
  map fst labels = cd_labelNames c ->
  inc c labels r
  = Return (mkRegistry (<[(cd_name c, labels) := (1 + default 0 (counterValues r !! (cd_name c, labels)))%Z]> (counterValues r))
              (gaugeValues r)).
Proof.
  intros E. unfold inc. replace (forallb _ labels) with true; [done|]. symmetry. apply forallb_forall.
  intros kv Hin. apply existsb_exists. exists (fst kv). split; [|apply String.eqb_refl].
  rewrite <- E. by apply in_map.
Qed.

(** What one call does to one series. *)
Lemma record_value m r key :
  exists r', record m r = Return r' /\
    default 0%Z (counterValues r' !! key)
    = (default 0%Z (counterValues r !! key) + if counts_in key m then 1 else 0)%Z /\
    gaugeValues r' = gaugeValues r.
Proof.
  pose proof (sample_declared m) as Hs. revert Hs. unfold record, counts_in.
  destruct (sample m) as [[c labels]|]; [|intros _; exists r; split; [done|]; split; [lia|done]].
  intros [_ E]. rewrite (inc_declared c labels r E). eexists. split; [reflexivity|].
  cbn [counterValues gaugeValues]. split; [|done]. case_bool_decide as Ek.
  - subst key. rewrite lookup_insert_eq. cbn. lia.
  - rewrite lookup_insert_ne by done. lia.
Qed.

(** After any sequence of calls every series holds what it held before plus the number of
    calls that count in it, whatever their order; the gauges are as they were. *)
Theorem record_all_counts ms r key :
  exists r', record_all ms r = Return r' /\
    default 0%Z (counterValues r' !! key)
    = (default 0%Z (counterValues r !! key) + Z.of_nat (List.length (List.filter (counts_in key) ms)))%Z /\
    gaugeValues r' = gaugeValues r.
Proof.
  revert r. induction ms as [|m ms IH]; intros r; cbn [record_all List.filter].
  { exists r. split; [done|]. split; [cbn; lia|done]. }
  destruct (record_value m r key) as (r1 & E1 & V1 & G1). destruct (IH r1) as (r2 & E2 & V2 & G2).
  exists r2. rewrite E1. split; [done|]. split; [|congruence].
  rewrite V2, V1. destruct (counts_in key m); cbn [List.length]; lia.
Qed.
