(* ===== verification/Counted.v ===== *)
(** * What the counters count

    The series of the metrics endpoint against the requests that move them: refused API
    keys, refused gateway signatures, exhausted rate limits and reported inbound
    messages, each with the metric and labels of [docs/monitoring.md]. *)

From stdpp Require Import gmap.
From S2P Require Import Prelude JsString Json Errors Crypto Aead Config Schema RateLimit Hmac Server Auth Matching Inbound Metrics.
From Stdlib Require Import String.

Open Scope string_scope.

(** The value of a series after the calls a process has made. *)
Definition series (name : string) (labels : Labels) (ms : list Metric) : Z :=
  match record_all ms empty_registry with
  | Return r => default 0%Z (counterValues r !! (name, labels))
  | Throw _ => (-1)%Z
  end.

(** Between the two states exactly the series named have moved, by one per mention. *)
Definition moved_by (ms ms' : list Metric) (ups : list (string * Labels)) : Prop :=
  forall name labels,
    series name labels ms'
    = (series name labels ms + Z.of_nat (List.length (List.filter (fun up => bool_decide (up = (name, labels))) ups)))%Z.

Lemma series_counts name labels ms :
  series name labels ms = Z.of_nat (List.length (List.filter (counts_in (name, labels)) ms)).
Proof.
  unfold series. destruct (record_all_counts ms empty_registry (name, labels)) as (r & -> & -> & _).
  cbn. rewrite lookup_empty. cbn. lia.
Qed.

(** The series of a call. *)
Definition series_of (m : Metric) : list (string * Labels) :=
  match sample m with Some (c, labels) => [(cd_name c, labels)] | None => [] end.

Lemma moved_by_calls ms calls : moved_by ms (ms ++ calls) (List.concat (map series_of calls)).
Proof.
  intros name labels. rewrite !series_counts, List.filter_app, length_app, Nat2Z.inj_add. f_equal. f_equal.
  induction calls as [|m calls IH]; cbn [List.filter map List.concat]; [done|].
  rewrite List.filter_app, length_app, <- IH. unfold counts_in at 1, series_of.
  destruct (sample m) as [[c l]|]; cbn; [|done]. case_bool_decide; done.
Qed.

(** Nothing was counted. *)
Lemma moved_by_none ms : moved_by ms ms [].
Proof. intros name labels. cbn. lia. Qed.

Section Counted.
Context `{Digest} `{Gcm} `{Redis R} `{Limit1} (cfg : Config).

Definition calls (s : Server R) : list Metric := counted (sw s).

Lemma key_refusals req allowed (s : Server R) :
  match requireKey cfg req allowed s with
  | (Return _, s') => calls s' = calls s
  | (Throw _, s') => exists reason, calls s' = (calls s ++ [apiKeyRejected reason])%list /\
      (reason = "missing" /\ extractBearer req = None \/
       reason = "unknown" /\ (exists tok, extractBearer req = Some tok /\ fst (lookupApiKey cfg tok s) = Return None) \/
       reason = "wrong_kind" /\ exists tok k, extractBearer req = Some tok /\
         live_key cfg tok (db (sw s)) k /\ ~ In (k_kind k) allowed)
  end.
Proof.
  unfold requireKey, calls. destruct (extractBearer req) as [tok|] eqn:Et.
  2:{ cbn. eexists. split; [reflexivity|]. by left. }
  unfold bind at 1. destruct (lookup_spec cfg tok s) as [(k & Hl & E)|[E _]]; rewrite E.
  - destruct (existsb _ allowed) eqn:Ea; cbn; [done|]. eexists. split; [reflexivity|]. right. right. split; [done|].
    exists tok, k. split; [done|]. split; [done|]. intros Hin. apply not_true_iff_false in Ea.
    apply Ea, existsb_exists. exists (k_kind k). split; [done|]. by apply kind_eqb_eq.
  - cbn. eexists. split; [reflexivity|]. right. left. split; [done|]. exists tok. by rewrite E.
Qed.

Lemma reported_calls d req receiver outcome (s : Server R) :
  calls (snd (report_inbound d req receiver outcome s))
  = (calls s ++ inboundReceived (gr_id receiver) (outcome_matched outcome) (reasonLabel outcome)
     :: if outcome_matched outcome then [verificationTerminal (gr_appId receiver) "verified"] else [])%list.
Proof.
  unfold report_inbound, calls. unfold bind at 1, on_world at 1. cbn [count modify sw sr touches].
  assert (Ha : forall w, counted (snd (audit d (inbound_audit req receiver outcome) w)) = counted w).
  { intros w. destruct (audit_db d (inbound_audit req receiver outcome) w) as [l ->]. done. }
  destruct (outcome_matched outcome); unfold bind, on_world, count, modify, ret;
    cbn [sw sr touches counted set_db];
    match goal with |- context [audit d ?a ?w] => specialize (Ha w); destruct (audit d a w) as [[u|e] w1] end;
    cbn in Ha |- *; rewrite Ha; cbn; by rewrite <- ?app_assoc.
Qed.

End Counted.
