(* ===== verification/Abuse.v ===== *)
(** * Observability roll-ups: [services/abuseSignals.ts], [services/receiverGauges.ts]

    The per-app and per-receiver health rows, the health score in binary64
    arithmetic, the project-wide gauges and the receiver gauges.  A refresh is a
    function of the database and its clock as each of its three statements finds them; the
    timers that call it every 60 and
    30 seconds are in [Lifecycle].  SQL leaves the order of groups open: no theorem
    depends on the one chosen here.  [localeCompare] is a
    parameter.  A count is assumed to fit the [int] it is cast to. *)

From stdpp Require Import gmap.
From S2P Require Import Prelude JsString Json Errors Date Double Config Schema Webhooks Verifications System Metrics.
From Stdlib Require Import String.

Open Scope string_scope.

(** ** [abuseSignals.ts] *)

Definition WINDOW_MS : Z := 60 * 60 * 1000.

Record AppHealthRow : Type := {
  hr_app_id : string;
  hr_total_verifications : Z; hr_failed_verifications : Z; hr_failed_rate : double;
  hr_total_inbounds : Z; hr_unmatched_inbounds : Z; hr_unmatched_rate : double;
  hr_total_bindings : Z; hr_expired_bindings : Z; hr_binding_failure_rate : double;
  hr_health_score : double;
}.

Record ReceiverHealthRow : Type := {
  rh_receiver_id : string; rh_app_id : string;
  rh_total_inbounds : Z; rh_unmatched_inbounds : Z; rh_unmatched_rate : double;
}.

Record AbuseSignals : Type := {
  generated_at : string; window : string; sg_apps : list AppHealthRow; sg_receivers : list ReceiverHealthRow;
}.

Definition calcHealthScore (failed_rate unmatched_rate binding_failure_rate : double) : double :=
  let raw := dsub (dsub (dsub (of_Z 100) (dmul failed_rate (of_Z 30))) (dmul unmatched_rate (of_Z 40)))
               (dmul binding_failure_rate (of_Z 10)) in
  Math_max (of_Z 0) (Math_min (of_Z 100) (Math_round raw)).

(** [total > 0 ? part / total : 0] *)
Definition rate (part total : Z) : double := if (0 <? total)%Z then ddiv (of_Z part) (of_Z total) else of_Z 0.

(** *** The aggregates *)

Definition recent {A} (at_ : A -> Z) (dbNow : Z) (t : list A) : list A := select (fun x => (dbNow - WINDOW_MS <? at_ x)%Z) t.

(** GROUP BY *)
Definition groups {A B} `{EqDecision B} (key : A -> B) (t : list A) : list B := nodup (fun x y => decide (x = y)) (map key t).

(** [inbound_sms i JOIN receivers r ON r.id = i.receiver_id] *)
Definition joined_receiver (D : DB) (i : InboundSms) : list (InboundSms * Receiver) :=
  map (fun r => (i, r)) (select (fun r => String.eqb (r_id r) (i_receiverId i)) (receivers D)).

Definition recent_verifications (dbNow : Z) (D : DB) : list Verification := recent v_createdAt dbNow (verifications D).
Definition recent_inbounds (dbNow : Z) (D : DB) : list (InboundSms * Receiver) :=
  flat_map (joined_receiver D) (recent i_receivedAt dbNow (inboundSms D)).
Definition recent_bindings (dbNow : Z) (D : DB) : list PhoneBindingRow := recent b_createdAt dbNow (phoneBindings D).

Definition is_failed (v : Verification) : bool := status_eqb (v_status v) failed.
Definition is_unmatched (ir : InboundSms * Receiver) : bool :=
  match i_matchedVerificationId (fst ir) with None => true | Some _ => false end.
Definition timed_out (dbNow : Z) (b : PhoneBindingRow) : bool :=
  String.eqb (b_status b) "pending" && (b_expiresAt b <? dbNow)%Z.

(** Rows of an aggregate: key, total, counted. *)
Definition aggregate {A B} `{EqDecision B} (key : A -> B) (p : A -> bool) (t : list A) : list (B * Z * Z) :=
  map (fun k => (k, count_where (fun x => bool_decide (key x = k) && true) t, count_where (fun x => bool_decide (key x = k) && p x) t))
    (groups key t).

(** The database and its clock as each of the three statements finds them: they run one
    after the other, outside a transaction. *)
Record Readings : Type := { rd_verify : Z * DB; rd_inbound : Z * DB; rd_binding : Z * DB }.

(** Three statements between which nothing moves. *)
Definition at_once (dbNow : Z) (D : DB) : Readings :=
  {| rd_verify := (dbNow, D); rd_inbound := (dbNow, D); rd_binding := (dbNow, D) |}.

Definition seen_verifications (q : Readings) : list Verification := let '(dbNow, D) := rd_verify q in recent_verifications dbNow D.
Definition seen_inbounds (q : Readings) : list (InboundSms * Receiver) :=
  let '(dbNow, D) := rd_inbound q in recent_inbounds dbNow D.
Definition seen_bindings (q : Readings) : list PhoneBindingRow := let '(dbNow, D) := rd_binding q in recent_bindings dbNow D.

Definition verifyAgg (q : Readings) : list (string * Z * Z) :=
  aggregate v_appId is_failed (seen_verifications q).
Definition inboundAgg (q : Readings) : list (string * string * Z * Z) :=
  aggregate (fun ir => (r_appId (snd ir), i_receiverId (fst ir))) is_unmatched (seen_inbounds q).
Definition bindingAgg (q : Readings) : list (string * Z * Z) :=
  aggregate b_appId (timed_out (fst (rd_binding q))) (seen_bindings q).

(** *** The merge *)

Definition fresh_row (appId : string) : AppHealthRow :=
  {| hr_app_id := appId; hr_total_verifications := 0; hr_failed_verifications := 0; hr_failed_rate := of_Z 0;
     hr_total_inbounds := 0; hr_unmatched_inbounds := 0; hr_unmatched_rate := of_Z 0;
     hr_total_bindings := 0; hr_expired_bindings := 0; hr_binding_failure_rate := of_Z 0;
     hr_health_score := of_Z 100 |}.

(** The [Map] is the list of its values in insertion order. *)
Definition ensure (appId : string) (apps : list AppHealthRow) : list AppHealthRow :=
  if existsb (fun r => String.eqb (hr_app_id r) appId) apps then apps else apps ++ [fresh_row appId].

(** [const r = ensure(appId)] and the assignments to [r] *)
Definition at_app (appId : string) (f : AppHealthRow -> AppHealthRow) (apps : list AppHealthRow) : list AppHealthRow :=
  update_where (fun r => String.eqb (hr_app_id r) appId) f (ensure appId apps).

Definition add_verifications (total failing : Z) (r : AppHealthRow) : AppHealthRow :=
  {| hr_app_id := hr_app_id r; hr_total_verifications := total; hr_failed_verifications := failing;
     hr_failed_rate := rate failing total;
     hr_total_inbounds := hr_total_inbounds r; hr_unmatched_inbounds := hr_unmatched_inbounds r;
     hr_unmatched_rate := hr_unmatched_rate r; hr_total_bindings := hr_total_bindings r;
     hr_expired_bindings := hr_expired_bindings r; hr_binding_failure_rate := hr_binding_failure_rate r;
     hr_health_score := hr_health_score r |}.

Definition add_inbounds (total unmatched : Z) (r : AppHealthRow) : AppHealthRow :=
  {| hr_app_id := hr_app_id r; hr_total_verifications := hr_total_verifications r;
     hr_failed_verifications := hr_failed_verifications r; hr_failed_rate := hr_failed_rate r;
     hr_total_inbounds := (hr_total_inbounds r + total)%Z;
     hr_unmatched_inbounds := (hr_unmatched_inbounds r + unmatched)%Z;
     hr_unmatched_rate := hr_unmatched_rate r; hr_total_bindings := hr_total_bindings r;
     hr_expired_bindings := hr_expired_bindings r; hr_binding_failure_rate := hr_binding_failure_rate r;
     hr_health_score := hr_health_score r |}.

Definition set_unmatched_rate (r : AppHealthRow) : AppHealthRow :=
  {| hr_app_id := hr_app_id r; hr_total_verifications := hr_total_verifications r;
     hr_failed_verifications := hr_failed_verifications r; hr_failed_rate := hr_failed_rate r;
     hr_total_inbounds := hr_total_inbounds r; hr_unmatched_inbounds := hr_unmatched_inbounds r;
     hr_unmatched_rate := rate (hr_unmatched_inbounds r) (hr_total_inbounds r);
     hr_total_bindings := hr_total_bindings r; hr_expired_bindings := hr_expired_bindings r;
     hr_binding_failure_rate := hr_binding_failure_rate r; hr_health_score := hr_health_score r |}.

Definition add_bindings (total late : Z) (r : AppHealthRow) : AppHealthRow :=
  {| hr_app_id := hr_app_id r; hr_total_verifications := hr_total_verifications r;
     hr_failed_verifications := hr_failed_verifications r; hr_failed_rate := hr_failed_rate r;
     hr_total_inbounds := hr_total_inbounds r; hr_unmatched_inbounds := hr_unmatched_inbounds r;
     hr_unmatched_rate := hr_unmatched_rate r; hr_total_bindings := total; hr_expired_bindings := late;
     hr_binding_failure_rate := rate late total; hr_health_score := hr_health_score r |}.

Definition set_health_score (r : AppHealthRow) : AppHealthRow :=
  {| hr_app_id := hr_app_id r; hr_total_verifications := hr_total_verifications r;
     hr_failed_verifications := hr_failed_verifications r; hr_failed_rate := hr_failed_rate r;
     hr_total_inbounds := hr_total_inbounds r; hr_unmatched_inbounds := hr_unmatched_inbounds r;
     hr_unmatched_rate := hr_unmatched_rate r; hr_total_bindings := hr_total_bindings r;
     hr_expired_bindings := hr_expired_bindings r; hr_binding_failure_rate := hr_binding_failure_rate r;
     hr_health_score := calcHealthScore (hr_failed_rate r) (hr_unmatched_rate r) (hr_binding_failure_rate r) |}.

Definition receiver_health (g : string * string * Z * Z) : ReceiverHealthRow :=
  let '(appId, receiverId, total, unmatched) := g in
  {| rh_receiver_id := receiverId; rh_app_id := appId; rh_total_inbounds := total; rh_unmatched_inbounds := unmatched;
     rh_unmatched_rate := rate unmatched total |}.

(** The rows of the [Map] when the three loops and the two passes are done. *)
Definition merged (q : Readings) : list AppHealthRow :=
  let apps := fold_left (fun apps '(appId, total, failing) => at_app appId (add_verifications total failing) apps)
                (verifyAgg q) [] in
  let apps := fold_left (fun apps '(appId, _, total, unmatched) => at_app appId (add_inbounds total unmatched) apps)
                (inboundAgg q) apps in
  let apps := map set_unmatched_rate apps in
  let apps := fold_left (fun apps '(appId, total, late) => at_app appId (add_bindings total late) apps)
                (bindingAgg q) apps in
  map set_health_score apps.

(** [String.prototype.localeCompare] *)
Class Collation : Type := { localeCompare : string -> string -> Z }.

Definition by_key `{Collation} {A} (key : A -> string) : list A -> list A :=
  order_by (fun x y => (localeCompare (key x) (key y) <? 0)%Z).

Definition computeSignals `{Collation} (now : Z) (q : Readings) : AbuseSignals :=
  {| generated_at := toISOString now; window := "1 hour";
     sg_apps := by_key hr_app_id (merged q);
     sg_receivers := by_key rh_receiver_id (map receiver_health (inboundAgg q)) |}.

(** *** The gauges *)

Definition sum_of {A} (f : A -> Z) (l : list A) : Z := fold_left (fun n x => (n + f x)%Z) l 0%Z.

Definition minScore (apps : list AppHealthRow) : double :=
  fold_left (fun m r => if dlt (hr_health_score r) m then hr_health_score r else m) apps (of_Z 100).

Definition pushToGauges (signals : AbuseSignals) : Registry -> Registry :=
  let apps := sg_apps signals in
  setAbuseSignals
    {| failed_verification_rate := rate (sum_of hr_failed_verifications apps) (sum_of hr_total_verifications apps);
       unmatched_inbound_rate := rate (sum_of hr_unmatched_inbounds apps) (sum_of hr_total_inbounds apps);
       abuse_binding_failure_rate := rate (sum_of hr_expired_bindings apps) (sum_of hr_total_bindings apps);
       min_app_health_score := if (0 <? List.length apps)%nat then minScore apps else of_Z 100 |}.

(** A refresh: the cached signals and the gauges, or nothing when the database fails. *)
Definition refreshSignals `{Collation} (dbOk : bool) (now : Z) (q : Readings) (st : option AbuseSignals * Registry) :
    option AbuseSignals * Registry :=
  if dbOk then let signals := computeSignals now q in (Some signals, pushToGauges signals (snd st)) else st.

(** ** [receiverGauges.ts] *)

Definition NO_HEARTBEAT_AGE : Z := 365 * 24 * 3600.

Definition gauge_healthy (cfg : Config) (now : Z) (r : Receiver) : bool :=
  r_enabled r &&
  match r_lastHeartbeatAt r with
  | None => false
  | Some ts => (now - ts <=? RECEIVER_HEARTBEAT_TIMEOUT_SECONDS cfg * 1000)%Z
  end.

Definition ageSeconds (now : Z) (r : Receiver) : Z :=
  match r_lastHeartbeatAt r with
  | None => NO_HEARTBEAT_AGE
  | Some ts => Z.max 0 ((now - ts) / 1000)
  end.

Definition receiverGauges (cfg : Config) (now : Z) (rows : list Receiver) : ReceiverGauges :=
  {| enabledTotal := count_where r_enabled rows;
     disabledTotal := count_where (fun r => negb (r_enabled r)) rows;
     healthyTotal := count_where (gauge_healthy cfg now) rows;
     perReceiverHeartbeatAge := map (fun r => (r_id r, ageSeconds now r)) rows |}.

Definition refreshReceiverGauges (cfg : Config) (dbOk : bool) (now : Z) (D : DB) (reg : Registry) : Registry :=
  if dbOk then setReceiverGauges (receiverGauges cfg now (receivers D)) reg else reg.

(** ** The merge computes counts *)

Definition of_app {A} (app : A -> string) (a : string) (p : A -> bool) (t : list A) : Z :=
  count_where (fun x => String.eqb (app x) a && p x) t.

Definition every {A} (_ : A) : bool := true.

(** The row of an app, read off the tables. *)
Definition health_row (q : Readings) (a : string) : AppHealthRow :=
  let V := seen_verifications q in
  let I := seen_inbounds q in
  let B := seen_bindings q in
  let app_of := fun ir : InboundSms * Receiver => r_appId (snd ir) in
  let failed_rate := rate (of_app v_appId a is_failed V) (of_app v_appId a every V) in
  let unmatched_rate := rate (of_app app_of a is_unmatched I) (of_app app_of a every I) in
  let binding_rate := rate (of_app b_appId a (timed_out (fst (rd_binding q))) B) (of_app b_appId a every B) in
  {| hr_app_id := a;
     hr_total_verifications := of_app v_appId a every V; hr_failed_verifications := of_app v_appId a is_failed V;
     hr_failed_rate := failed_rate;
     hr_total_inbounds := of_app app_of a every I; hr_unmatched_inbounds := of_app app_of a is_unmatched I;
     hr_unmatched_rate := unmatched_rate;
     hr_total_bindings := of_app b_appId a every B; hr_expired_bindings := of_app b_appId a (timed_out (fst (rd_binding q))) B;
     hr_binding_failure_rate := binding_rate;
     hr_health_score := calcHealthScore failed_rate unmatched_rate binding_rate |}.

(** The row the [Map] holds for an app, or would hold. *)
Definition row_of (a : string) (apps : list AppHealthRow) : AppHealthRow :=
  default (fresh_row a) (List.find (fun r => String.eqb (hr_app_id r) a) apps).

Definition keeps_app (f : AppHealthRow -> AppHealthRow) : Prop := forall r, hr_app_id (f r) = hr_app_id r.

Lemma row_of_map a f apps : keeps_app f -> f (fresh_row a) = fresh_row a -> row_of a (map f apps) = f (row_of a apps).
Proof.
  intros Hf H0. unfold row_of. induction apps as [|r apps IH]; cbn; [done|]. rewrite Hf. by destruct (String.eqb _ a).
Qed.

Lemma row_of_ensure a b apps : row_of a (ensure b apps) = row_of a apps.
Proof.
  unfold ensure. destruct (existsb _ apps) eqn:E; [done|]. unfold row_of.
  induction apps as [|r apps IH]; cbn in E |- *.
  - destruct (String.eqb_spec b a) as [->|]; done.
  - apply orb_false_iff in E. destruct E as [_ E]. destruct (String.eqb (hr_app_id r) a); [done|by apply IH].
Qed.

Lemma ensure_has b apps : existsb (fun r => String.eqb (hr_app_id r) b) (ensure b apps) = true.
Proof.
  unfold ensure. destruct (existsb _ apps) eqn:E; [done|]. rewrite existsb_app, E. cbn. by rewrite String.eqb_refl.
Qed.

Lemma row_of_at_app a b f apps :
  keeps_app f -> row_of a (at_app b f apps) = if String.eqb a b then f (row_of a apps) else row_of a apps.
Proof.
  intros Hf. unfold at_app. rewrite <- (row_of_ensure a b apps). assert (Hb := ensure_has b apps). revert Hb.
  generalize (ensure b apps). intros l. unfold row_of, update_where. induction l as [|r l IH]; cbn; [done|].
  intros Hb. destruct (String.eqb_spec (hr_app_id r) b) as [Eb|Eb].
  - rewrite Hf, Eb. rewrite (String.eqb_sym b a). destruct (String.eqb_spec a b) as [->|Ne]; [done|]. cbn in IH.
    destruct (existsb _ l) eqn:El; [by apply IH|].
    clear IH Hb. induction l as [|x l IH]; [done|]. cbn in El |- *. apply orb_false_iff in El. destruct El as [Ex El].
    rewrite Ex. destruct (String.eqb (hr_app_id x) a); [done|by apply IH].
  - destruct (String.eqb_spec (hr_app_id r) a) as [Ea|Ea]; [|by apply IH].
    destruct (String.eqb_spec a b); [congruence|done].
Qed.

Definition app_ids (apps : list AppHealthRow) : list string := map hr_app_id apps.

Lemma at_app_ids b f apps : keeps_app f -> app_ids (at_app b f apps) = app_ids (ensure b apps).
Proof.
  intros Hf. unfold at_app, update_where, app_ids. rewrite map_map. apply map_ext. intros r.
  by destruct (String.eqb _ b); rewrite ?Hf.
Qed.

Lemma ensure_ids b apps :
  List.NoDup (app_ids apps) ->
  List.NoDup (app_ids (ensure b apps)) /\ (forall a, In a (app_ids (ensure b apps)) <-> In a (app_ids apps) \/ a = b).
Proof.
  intros Hn. unfold ensure. destruct (existsb _ apps) eqn:E.
  - split; [done|]. intros a. split; [by left|]. intros [Hin| ->]; [exact Hin|]. apply existsb_exists in E.
    destruct E as (r & Hr & Er). apply String.eqb_eq in Er. rewrite <- Er. by apply in_map.
  - assert (Hb : ~ In b (app_ids apps)).
    { intros Hb. apply in_map_iff in Hb. destruct Hb as (r & Er & Hr).
      assert (existsb (fun r => String.eqb (hr_app_id r) b) apps = true); [|congruence].
      apply existsb_exists. exists r. split; [done|]. by apply String.eqb_eq. }
    unfold app_ids in *. rewrite map_app. cbn [map hr_app_id fresh_row]. split.
    + apply NoDup_Add with (a := b) (l := map hr_app_id apps); [|by split].
      rewrite <- (app_nil_r (map hr_app_id apps)) at 1. apply Add_app.
    + intros a. rewrite in_app_iff. cbn. naive_solver.
Qed.

(** A loop over aggregate rows [x], each updating the row of its app. *)
Section Loop.
Context {X : Type} (app : X -> string) (F : X -> AppHealthRow -> AppHealthRow) (HF : forall x, keeps_app (F x)).

Definition loop (l : list X) (apps : list AppHealthRow) : list AppHealthRow :=
  fold_left (fun apps x => at_app (app x) (F x) apps) l apps.

Lemma loop_ids l apps :
  List.NoDup (app_ids apps) ->
  List.NoDup (app_ids (loop l apps)) /\ (forall a, In a (app_ids (loop l apps)) <-> In a (app_ids apps) \/ In a (map app l)).
Proof.
  revert apps. induction l as [|x l IH]; intros apps Hn; cbn [loop fold_left map]; [split; [done|cbn; naive_solver]|].
  destruct (ensure_ids (app x) apps Hn) as [Hn1 Hi1]. rewrite <- (at_app_ids (app x) (F x) apps (HF x)) in Hn1, Hi1.
  destruct (IH _ Hn1) as [Hn2 Hi2]. split; [done|]. intros a. rewrite (Hi2 a), Hi1. cbn. naive_solver.
Qed.

Lemma loop_row a l apps :
  row_of a (loop l apps) = fold_left (fun r x => if String.eqb a (app x) then F x r else r) l (row_of a apps).
Proof.
  revert apps. induction l as [|x l IH]; intros apps; cbn [loop fold_left]; [done|].
  fold (loop l (at_app (app x) (F x) apps)). rewrite IH, (row_of_at_app _ _ _ _ (HF x)). done.
Qed.
End Loop.

(** The list is its rows, when no app is listed twice. *)
Lemma rows_by_id apps : List.NoDup (app_ids apps) -> apps = map (fun a => row_of a apps) (app_ids apps).
Proof.
  unfold app_ids. induction apps as [|r apps IH]; cbn [map]; intros Hn; [done|].
  apply List.NoDup_cons_iff in Hn. destruct Hn as [Hr Hn]. f_equal.
  - unfold row_of. cbn. by rewrite String.eqb_refl.
  - rewrite (IH Hn) at 1. rewrite map_map. rewrite map_map. apply map_ext_in. intros x Hx. unfold row_of at 2. cbn.
    destruct (String.eqb_spec (hr_app_id r) (hr_app_id x)) as [E|E]; [|done].
    destruct Hr. rewrite E. by apply in_map.
Qed.

(** A loop whose rows have distinct apps assigns at most once. *)
Lemma loop_once {X} (app : X -> string) (F : X -> AppHealthRow -> AppHealthRow) a l r :
  List.NoDup (map app l) ->
  fold_left (fun r x => if String.eqb a (app x) then F x r else r) l r
  = match List.find (fun x => String.eqb a (app x)) l with Some x => F x r | None => r end.
Proof.
  revert r. induction l as [|x l IH]; intros r Hn; cbn [fold_left List.find map] in *; [done|].
  apply List.NoDup_cons_iff in Hn. destruct Hn as [Hx Hn]. rewrite (IH _ Hn).
  destruct (String.eqb_spec a (app x)) as [->|]; [|done].
  destruct (List.find _ l) as [y|] eqn:E; [|done]. apply find_some in E. destruct E as [Hy E].
  apply String.eqb_eq in E. destruct Hx. rewrite E. by apply in_map.
Qed.

(** *** What an aggregate says *)

Section Aggregate.
Context {A B : Type} `{EqDecision B} (key : A -> B) (p : A -> bool).

Lemma groups_NoDup t : List.NoDup (groups key t).
Proof. apply NoDup_nodup. Qed.

Lemma groups_In t x : In x t -> In (key x) (groups key t).
Proof. intros H. apply nodup_In. by apply in_map. Qed.

Lemma groups_inv t k : In k (groups key t) -> exists x, In x t /\ key x = k.
Proof. intros H. apply nodup_In in H. apply in_map_iff in H. destruct H as (x & E & H). by exists x. Qed.

(** Outside the groups there is nothing to count. *)
Lemma count_outside (q : A -> bool) t k : ~ In k (groups key t) -> count_where (fun x => bool_decide (key x = k) && q x) t = 0%Z.
Proof.
  intros H. unfold count_where. rewrite (proj2 (select_nil_iff _ _)); [done|]. intros x Hx.
  case_bool_decide as E; [|done]. destruct H. rewrite <- E. by apply groups_In.
Qed.

Lemma aggregate_keys t : map (fun g => fst (fst g)) (aggregate key p t) = groups key t.
Proof. unfold aggregate. rewrite map_map. cbn [fst]. apply map_id. Qed.
End Aggregate.

(** A loop over an aggregate keyed by app, whose assignment is idle for counts of zero. *)
Lemma loop_aggregate {A} (app : A -> string) (p : A -> bool) (F : Z -> Z -> AppHealthRow -> AppHealthRow) t a r :
  F 0%Z 0%Z r = r ->
  fold_left (fun r x => if String.eqb a (fst (fst x)) then F (snd (fst x)) (snd x) r else r) (aggregate app p t) r
  = F (of_app app a every t) (of_app app a p t) r.
Proof.
  intros H0. rewrite (loop_once (fun x => fst (fst x)) (fun x => F (snd (fst x)) (snd x))).
  2:{ rewrite aggregate_keys. apply groups_NoDup. }
  assert (Hc : forall q, of_app app a q t = count_where (fun x => bool_decide (app x = a) && q x) t).
  { intros q. apply count_where_ext. intros x _. f_equal. case_bool_decide as E; [by apply String.eqb_eq|].
    by apply String.eqb_neq. }
  rewrite !Hc. destruct (List.find _ _) as [g|] eqn:E.
  - apply find_some in E. destruct E as [Hg E]. apply String.eqb_eq in E. apply in_map_iff in Hg.
    destruct Hg as (k & <- & _). cbn [fst snd] in *. subst k. done.
  - rewrite !count_outside; [done| |]; intros Hk; rewrite <- (aggregate_keys app p) in Hk; apply in_map_iff in Hk;
      destruct Hk as (g & Ek & Hg); pose proof (find_none _ _ E g Hg) as Hn; cbn in Hn; rewrite Ek, String.eqb_refl in Hn; done.
Qed.

(** The per-receiver groups of an app add up to its messages. *)
Lemma loop_inbounds (t : list (InboundSms * Receiver)) a r :
  fold_left (fun r x => if String.eqb a (fst (fst (fst x))) then add_inbounds (snd (fst x)) (snd x) r else r)
    (aggregate (fun ir => (r_appId (snd ir), i_receiverId (fst ir))) is_unmatched t) r
  = add_inbounds (of_app (fun ir => r_appId (snd ir)) a every t) (of_app (fun ir => r_appId (snd ir)) a is_unmatched t) r.
Proof.
  set (key := fun ir : InboundSms * Receiver => (r_appId (snd ir), i_receiverId (fst ir))).
  set (of_key := fun (q : InboundSms * Receiver -> bool) (k : string * string) =>
    if String.eqb a (fst k) then count_where (fun x => bool_decide (key x = k) && q x) t else 0%Z).
  assert (Hsum : forall q, fold_right Z.add 0%Z (map (of_key q) (groups key t)) = of_app (fun ir => r_appId (snd ir)) a q t).
  { intros q. unfold of_app.
    rewrite <- (sum_of_counts key (fun x y => bool_decide (x = y)) (fun x => String.eqb (r_appId (snd x)) a && q x) (groups key t) t).
    - f_equal. apply map_ext. intros k. unfold of_key. destruct (String.eqb_spec a (fst k)) as [E|E].
      + apply count_where_ext. intros x _. case_bool_decide as Ek; [|done]. cbn [andb]. subst k. cbn in E.
        by rewrite <- E, String.eqb_refl.
      + unfold count_where. rewrite (proj2 (select_nil_iff _ _)); [done|]. intros x _. case_bool_decide as Ek; [|done].
        subst k. cbn in E. destruct (String.eqb_spec (r_appId (snd x)) a); [congruence|done].
    - intros x y. apply bool_decide_eq_true.
    - apply groups_NoDup.
    - intros x Hx _. by apply groups_In. }
  rewrite <- !Hsum. unfold aggregate. generalize (groups key t). clear Hsum. intros ks. revert r.
  induction ks as [|k ks IH]; intros r; cbn [map fold_left fold_right fst snd].
  { destruct r. unfold add_inbounds. cbn. by rewrite !Z.add_0_r. }
  rewrite IH. assert (Hk : forall q, of_key q k = if String.eqb a (fst k)
    then count_where (fun x => bool_decide (key x = k) && q x) t else 0%Z) by done.
  rewrite !Hk. destruct (String.eqb a (fst k)); [|done].
  unfold add_inbounds. cbn. f_equal; rewrite Z.add_assoc; done.
Qed.

Lemma fold_left_eq {X Y} (f g : Y -> X -> Y) l a : (forall y x, f y x = g y x) -> fold_left f l a = fold_left g l a.
Proof. intros H. revert a. induction l as [|x l IH]; intros a; cbn; [done|]. by rewrite H, IH. Qed.

Definition verify_loop (l : list (string * Z * Z)) : list AppHealthRow -> list AppHealthRow :=
  loop (fun x => fst (fst x)) (fun x => add_verifications (snd (fst x)) (snd x)) l.
Definition inbound_loop (l : list (string * string * Z * Z)) : list AppHealthRow -> list AppHealthRow :=
  loop (fun x => fst (fst (fst x))) (fun x => add_inbounds (snd (fst x)) (snd x)) l.
Definition binding_loop (l : list (string * Z * Z)) : list AppHealthRow -> list AppHealthRow :=
  loop (fun x => fst (fst x)) (fun x => add_bindings (snd (fst x)) (snd x)) l.

Lemma merged_loops q :
  merged q
  = map set_health_score (binding_loop (bindingAgg q)
      (map set_unmatched_rate (inbound_loop (inboundAgg q) (verify_loop (verifyAgg q) [])))).
Proof.
  unfold merged, binding_loop, inbound_loop, verify_loop, loop. f_equal.
  rewrite (fold_left_eq _ (fun apps x => at_app (fst (fst x)) (add_bindings (snd (fst x)) (snd x)) apps)) by (by intros ? [[? ?] ?]).
  do 2 f_equal.
  rewrite (fold_left_eq _ (fun apps x => at_app (fst (fst (fst x))) (add_inbounds (snd (fst x)) (snd x)) apps)) by (by intros ? [[[? ?] ?] ?]).
  f_equal. by rewrite (fold_left_eq _ (fun apps x => at_app (fst (fst x)) (add_verifications (snd (fst x)) (snd x)) apps)) by (by intros ? [[? ?] ?]).
Qed.

Lemma app_ids_map f apps : keeps_app f -> app_ids (map f apps) = app_ids apps.
Proof. intros H. unfold app_ids. rewrite map_map. apply map_ext. exact H. Qed.

Lemma merged_row q a : row_of a (merged q) = health_row q a.
Proof.
  rewrite merged_loops. rewrite row_of_map; [|done|reflexivity].
  unfold binding_loop. rewrite loop_row by done. rewrite row_of_map; [|done|reflexivity].
  unfold inbound_loop. rewrite loop_row by done. unfold verify_loop. rewrite loop_row by done. unfold row_of at 1. cbn [List.find default].
  unfold verifyAgg, inboundAgg, bindingAgg.
  rewrite (loop_aggregate v_appId is_failed add_verifications) by reflexivity. rewrite loop_inbounds.
  rewrite (loop_aggregate b_appId (timed_out (fst (rd_binding q))) add_bindings) by reflexivity. reflexivity.
Qed.

(** The apps of the result: those with a row in the window, each once. *)
Lemma merged_ids q :
  List.NoDup (app_ids (merged q)) /\
  (forall a, In a (app_ids (merged q)) <->
     (exists v, In v (seen_verifications q) /\ v_appId v = a) \/
     (exists ir, In ir (seen_inbounds q) /\ r_appId (snd ir) = a) \/
     (exists b, In b (seen_bindings q) /\ b_appId b = a)).
Proof.
  rewrite merged_loops, app_ids_map by done.
  destruct (loop_ids (fun x => fst (fst x)) (fun x => add_verifications (snd (fst x)) (snd x)) (fun _ _ => eq_refl)
    (verifyAgg q) [] ltac:(constructor)) as [N1 I1].
  destruct (loop_ids (fun x => fst (fst (fst x))) (fun x => add_inbounds (snd (fst x)) (snd x)) (fun _ _ => eq_refl)
    (inboundAgg q) _ N1) as [N2 I2].
  rewrite <- (app_ids_map set_unmatched_rate) in N2, I2 by done.
  destruct (loop_ids (fun x => fst (fst x)) (fun x => add_bindings (snd (fst x)) (snd x)) (fun _ _ => eq_refl)
    (bindingAgg q) _ N2) as [N3 I3].
  split; [exact N3|]. intros a. unfold binding_loop, inbound_loop, verify_loop. rewrite I3, I2, I1.
  unfold verifyAgg, bindingAgg, inboundAgg. rewrite !aggregate_keys.
  rewrite <- (map_map (fun g => fst (fst g)) fst), aggregate_keys. rewrite in_map_iff. cbn [app_ids map].
  split.
  - intros [[[[]|H]|(k & <- & H)]|H]; apply groups_inv in H; destruct H as (x & Hx & Ex); [left|right; left|right; right];
      exists x; subst; done.
  - intros [(v & Hv & <-)|[(ir & Hir & <-)|(b & Hb & <-)]].
    + left. left. right. by apply groups_In.
    + left. right. exists (r_appId (snd ir), i_receiverId (fst ir)). split; [done|].
      by apply (groups_In (fun ir => (r_appId (snd ir), i_receiverId (fst ir)))).
    + right. by apply groups_In.
Qed.

(** ** Theorems *)

Lemma by_key_perm `{Collation} {A} (key : A -> string) l : Permutation (by_key key l) l.
Proof. apply order_by_perm. Qed.

Lemma merged_rows q : merged q = map (health_row q) (app_ids (merged q)).
Proof.
  destruct (merged_ids q) as [Hn _]. rewrite (rows_by_id _ Hn) at 1. apply map_ext. intros a. apply merged_row.
Qed.

(** C26: The merge of the three aggregates is exact: the apps listed are those with a row
    in the window, each once, and every field of a row is the count, rate or score read
    directly off the tables for that app. *)
Theorem computeSignals_spec `{Collation} now q :
  let s := computeSignals now q in
  List.NoDup (map hr_app_id (sg_apps s)) /\
  (forall r, In r (sg_apps s) -> r = health_row q (hr_app_id r)) /\
  (forall a, In a (map hr_app_id (sg_apps s)) <->
     (exists v, In v (seen_verifications q) /\ v_appId v = a) \/
     (exists ir, In ir (seen_inbounds q) /\ r_appId (snd ir) = a) \/
     (exists b, In b (seen_bindings q) /\ b_appId b = a)).
Proof.
  cbn [sg_apps computeSignals]. destruct (merged_ids q) as [Hn Hi].
  assert (Hp := by_key_perm hr_app_id (merged q)). split; [|split].
  - apply (Permutation_NoDup (l := app_ids (merged q))); [|exact Hn].
    symmetry. by apply Permutation_map.
  - intros r Hr. apply (Permutation_in _ Hp) in Hr. rewrite merged_rows in Hr. apply in_map_iff in Hr.
    by destruct Hr as (a & <- & _).
  - intros a. rewrite <- Hi. split; apply Permutation_in; [|symmetry]; by apply Permutation_map.
Qed.

(** *** Scores *)

Lemma rate_small part total : (0 <= part <= total)%Z -> (total < 2 ^ 31)%Z -> small 33 (rate part total).
Proof.
  intros Hp Ht. unfold rate. destruct (Z.ltb_spec 0 total); [|done].
  apply (small_le (Z.log2 part + 3)); [apply ddiv_small; lia|].
  destruct (Z.eq_dec part 0) as [->|]; [vm_compute; congruence|].
  assert (Z.log2 part < 31)%Z by (apply Z.log2_lt_pow2; lia). lia.
Qed.

(** The score of rates of counts is an integer from 0 to 100. *)
Lemma calcHealthScore_range f u b :
  small 33 f -> small 33 u -> small 33 b -> exists k, (0 <= k <= 100)%Z /\ calcHealthScore f u b = of_Z k.
Proof.
  intros Hf Hu Hb. unfold calcHealthScore. apply (clamp_round 46); [|lia|lia].
  assert (H1 := dmul_small 33 5 f (of_Z 30) Hf (of_Z_small 30 eq_refl) ltac:(lia)).
  assert (H2 := dmul_small 33 6 u (of_Z 40) Hu (of_Z_small 40 eq_refl) ltac:(lia)).
  assert (H3 := dmul_small 33 4 b (of_Z 10) Hb (of_Z_small 10 eq_refl) ltac:(lia)).
  assert (H0 : small 40 (of_Z 100)) by (apply (small_le 7); [exact (of_Z_small 100 eq_refl)|lia]).
  apply (small_le (40 + 2 + 2 + 2)); [|lia]. apply dsub_small; [apply dsub_small; [apply dsub_small|..]|..]; try lia;
    try done; eapply small_le; try eassumption; lia.
Qed.

Lemma of_app_le {A} (app : A -> string) a p t :
  (0 <= of_app app a p t <= of_app app a every t)%Z /\ (of_app app a every t <= Z.of_nat (List.length t))%Z.
Proof.
  split; [|apply count_where_le]. unfold of_app. split; [apply count_where_le|].
  rewrite (count_where_split (fun x => String.eqb (app x) a && every x) (fun x => String.eqb (app x) a && p x)
    (fun x => String.eqb (app x) a && negb (p x))).
  - match goal with |- (_ <= _ + ?c)%Z => assert (0 <= c)%Z by apply count_where_le end. lia.
  - intros x _. unfold every. by destruct (String.eqb _ a), (p x).
  - intros x _. by destruct (String.eqb _ a), (p x).
Qed.

(** Tables of a window that fit the [int] of the aggregates. *)
Definition counts_fit (q : Readings) : Prop :=
  (Z.of_nat (List.length (seen_verifications q)) < 2 ^ 31)%Z /\
  (Z.of_nat (List.length (seen_inbounds q)) < 2 ^ 31)%Z /\
  (Z.of_nat (List.length (seen_bindings q)) < 2 ^ 31)%Z.

Lemma health_row_score q a :
  counts_fit q -> exists k, (0 <= k <= 100)%Z /\ hr_health_score (health_row q a) = of_Z k.
Proof.
  intros (HV & HI & HB). cbn [hr_health_score health_row].
  assert (V := of_app_le v_appId a is_failed (seen_verifications q)).
  assert (I := of_app_le (fun ir => r_appId (snd ir)) a is_unmatched (seen_inbounds q)).
  assert (B := of_app_le b_appId a (timed_out (fst (rd_binding q))) (seen_bindings q)).
  apply calcHealthScore_range; apply rate_small; lia.
Qed.

(** The least of integer scores, starting from [m]. *)
Lemma minScore_from apps m :
  (0 <= m <= 100)%Z -> (forall r, In r apps -> exists k, (0 <= k <= 100)%Z /\ hr_health_score r = of_Z k) ->
  exists n, (0 <= n <= m)%Z /\
    fold_left (fun m r => if dlt (hr_health_score r) m then hr_health_score r else m) apps (of_Z m) = of_Z n /\
    (forall r, In r apps -> exists k, (n <= k <= 100)%Z /\ hr_health_score r = of_Z k) /\
    (n = m \/ exists r, In r apps /\ hr_health_score r = of_Z n).
Proof.
  revert m. induction apps as [|r apps IH]; intros m Hm Hr; cbn [fold_left].
  { exists m. split; [lia|]. split; [done|]. split; [done|]. by left. }
  destruct (Hr r (or_introl eq_refl)) as (k & Hk & Ek). rewrite Ek, dlt_of_Z by lia.
  assert (Hr' : forall r, In r apps -> exists k, (0 <= k <= 100)%Z /\ hr_health_score r = of_Z k) by (intros; apply Hr; by right).
  destruct (Z.ltb_spec k m) as [Hlt|Hge].
  - destruct (IH k Hk Hr') as (n & Hn & En & Hall & Hex). exists n. split; [lia|]. split; [exact En|]. split.
    + intros x [->|Hx]; [exists k; split; [lia|done]|by apply Hall].
    + right. destruct Hex as [->|(x & Hx & Ex)]; [exists r; split; [by left|done]|exists x; split; [by right|done]].
  - destruct (IH m Hm Hr') as (n & Hn & En & Hall & Hex). exists n. split; [lia|]. split; [exact En|]. split.
    + intros x [->|Hx]; [exists k; split; [lia|done]|by apply Hall].
    + destruct Hex as [->|(x & Hx & Ex)]; [by left|right; exists x; split; [by right|done]].
Qed.

Lemma signal_row `{Collation} now q r :
  In r (sg_apps (computeSignals now q)) -> exists a, r = health_row q a.
Proof.
  cbn [sg_apps computeSignals]. intros Hr. apply (Permutation_in _ (by_key_perm hr_app_id _)) in Hr.
  rewrite merged_rows in Hr. apply in_map_iff in Hr. destruct Hr as (a & <- & _). by exists a.
Qed.

(** C33: While the window's counts fit the [int] they are cast to, the binary64 score of
    every app is an integer from 0 to 100, and the gauge of the least score is at most
    every app's score and equal to one of them, or 100. *)
Theorem health_scores_bounded `{Collation} now q :
  counts_fit q ->
  let apps := sg_apps (computeSignals now q) in
  exists n, (0 <= n <= 100)%Z /\ minScore apps = of_Z n /\
    (forall r, In r apps -> exists k, (n <= k <= 100)%Z /\ hr_health_score r = of_Z k) /\
    (n = 100%Z \/ exists r, In r apps /\ hr_health_score r = of_Z n).
Proof.
  intros Hf apps. destruct (minScore_from apps 100) as (n & Hn & En & Hall & Hex); [lia| |].
  { intros r Hr. destruct (signal_row now q r Hr) as [a ->]. by apply health_row_score. }
  exists n. split; [exact Hn|]. split; [exact En|]. split; [exact Hall|exact Hex].
Qed.

(** *** Project-wide gauges *)

Lemma sum_of_fold {A} (f : A -> Z) l : sum_of f l = fold_right Z.add 0%Z (map f l).
Proof.
  assert (H : forall n, fold_left (fun n x => (n + f x)%Z) l n = (n + fold_right Z.add 0 (map f l))%Z); [|apply (H 0%Z)].
  induction l as [|x l IH]; intros n; cbn; [lia|]. rewrite IH. lia.
Qed.

Lemma sum_of_perm {A} (f : A -> Z) l l' : Permutation l l' -> sum_of f l = sum_of f l'.
Proof. rewrite !sum_of_fold. induction 1; cbn; lia. Qed.

Lemma sum_of_apps `{Collation} now q (f : AppHealthRow -> Z) {A} (app : A -> string) p t :
  (forall a, f (health_row q a) = of_app app a p t) ->
  (forall x, In x t -> In (app x) (app_ids (merged q))) ->
  sum_of f (sg_apps (computeSignals now q)) = count_where p t.
Proof.
  intros Hf Hin. cbn [sg_apps computeSignals]. rewrite (sum_of_perm f _ _ (by_key_perm hr_app_id _)), sum_of_fold.
  rewrite merged_rows, map_map. rewrite <- (sum_of_counts app String.eqb p (app_ids (merged q)) t).
  - f_equal. apply map_ext. exact Hf.
  - intros a b. apply String.eqb_eq.
  - apply merged_ids.
  - intros x Hx _. by apply Hin.
Qed.

(** The project-wide gauges are rates over all rows of the window, whatever apps they
    belong to, not averages of the apps' rates. *)
Theorem pushToGauges_spec `{Collation} now q :
  let V := seen_verifications q in
  let I := seen_inbounds q in
  let B := seen_bindings q in
  let s := computeSignals now q in
  pushToGauges s
  = setAbuseSignals
      {| failed_verification_rate := rate (count_where is_failed V) (count_where every V);
         unmatched_inbound_rate := rate (count_where is_unmatched I) (count_where every I);
         abuse_binding_failure_rate := rate (count_where (timed_out (fst (rd_binding q))) B) (count_where every B);
         min_app_health_score := minScore (sg_apps s) |}.
Proof.
  intros V I B s. assert (Hi := proj2 (merged_ids q)). unfold pushToGauges, s.
  assert (HV : forall x, In x V -> In (v_appId x) (app_ids (merged q))) by (intros x Hx; apply Hi; left; by exists x).
  assert (HI : forall x, In x I -> In (r_appId (snd x)) (app_ids (merged q))) by (intros x Hx; apply Hi; right; left; by exists x).
  assert (HB : forall x, In x B -> In (b_appId x) (app_ids (merged q))) by (intros x Hx; apply Hi; right; right; by exists x).
  rewrite (sum_of_apps now q hr_failed_verifications v_appId is_failed V) by done.
  rewrite (sum_of_apps now q hr_total_verifications v_appId every V) by done.
  rewrite (sum_of_apps now q hr_unmatched_inbounds (fun ir => r_appId (snd ir)) is_unmatched I) by done.
  rewrite (sum_of_apps now q hr_total_inbounds (fun ir => r_appId (snd ir)) every I) by done.
  rewrite (sum_of_apps now q hr_expired_bindings b_appId (timed_out (fst (rd_binding q))) B) by done.
  rewrite (sum_of_apps now q hr_total_bindings b_appId every B) by done.
  destruct (sg_apps (computeSignals now q)) as [|r l] eqn:E; [|done]. done.
Qed.

(** No verification of a reachable state is [failed], so the first signal is constant,
    whatever the other two statements find. *)
Theorem failed_rate_never_moves `{Limit1} `{Collation} cfg st now q :
  config_valid cfg = true -> reachable cfg st -> snd (rd_verify q) = db (world st) ->
  (forall r, In r (sg_apps (computeSignals now q)) -> hr_failed_verifications r = 0%Z) /\
  count_where is_failed (seen_verifications q) = 0%Z.
Proof.
  intros Hc Hr Hq0. apply config_valid_bounds in Hc. apply reachable_Inv in Hr; [|lia].
  destruct (inv_v _ _ Hr) as [_ Hh _ _].
  assert (Hf : forall v, In v (seen_verifications q) -> is_failed v = false).
  { unfold seen_verifications. destruct (rd_verify q) as [dbNow D]. cbn in Hq0. subst D.
    intros v Hv. apply select_In in Hv. destruct Hv as [Hv _]. specialize (Hh v Hv). unfold history, is_failed in *.
    destruct (v_status v); done. }
  assert (Hq : forall p, count_where (fun v => p v && is_failed v) (seen_verifications q) = 0%Z).
  { intros p. unfold count_where. rewrite (proj2 (select_nil_iff _ _)); [done|]. intros v Hv. rewrite (Hf v Hv). apply andb_false_r. }
  split; [|exact (Hq every)]. intros r Hin. destruct (signal_row now q r Hin) as [a ->]. apply (Hq (fun v => String.eqb (v_appId v) a)).
Qed.

(** *** Receiver gauges *)

Definition age_key (id : string) : string * Labels := (HEARTBEAT_AGE, [("receiver_id", id)]).

Lemma set_gauge_value name labels v r key :
  gaugeValues (set_gauge name labels v r) !! key = if decide (key = (name, labels)) then Some v else gaugeValues r !! key.
Proof.
  unfold set_gauge. cbn [gaugeValues]. destruct (decide (key = (name, labels))) as [->|Hne]; [apply lookup_insert_eq|].
  by rewrite lookup_insert_ne.
Qed.

Lemma ages_value l r id :
  NoDup (map fst l) ->
  gaugeValues (fold_left (fun r '(id, age) => set_gauge HEARTBEAT_AGE [("receiver_id", id)] (of_Z age) r) l r) !! age_key id
  = match List.find (fun p => String.eqb (fst p) id) l with Some p => Some (of_Z (snd p)) | None => gaugeValues r !! age_key id end.
Proof.
  revert r. induction l as [|[i age] l IH]; intros r Hn; cbn [fold_left List.find fst snd map] in *; [done|].
  apply NoDup_cons in Hn. destruct Hn as [Hi Hn]. rewrite (IH _ Hn), set_gauge_value. unfold age_key at 1.
  destruct (String.eqb_spec i id) as [->|Hne].
  - destruct (List.find _ l) as [[j a]|] eqn:E; [|by rewrite decide_True].
    apply find_some in E. destruct E as [Hj E]. apply String.eqb_eq in E. cbn in E. subst j. destruct Hi.
    apply list_elem_of_In. apply in_map_iff. by exists (id, a).
  - rewrite decide_False; [done|]. unfold age_key. congruence.
Qed.

Lemma reset_drops name r labels : gaugeValues (reset_gauge name r) !! (name, labels) = None.
Proof. unfold reset_gauge. cbn [gaugeValues]. apply map_lookup_filter_None. right. intros v _ H. by apply H. Qed.

(** After a refresh every receiver's heartbeat age is the gauge under its id, and no
    gauge is left for a receiver that no longer exists, whatever the registry held; the
    enabled and disabled totals add up, and the healthy total counts at least the
    receivers that selection would take. *)
Theorem refreshReceiverGauges_spec cfg now D reg id :
  NoDup (map r_id (receivers D)) ->
  let g := receiverGauges cfg now (receivers D) in
  let reg' := refreshReceiverGauges cfg true now D reg in
  gaugeValues reg' !! age_key id
  = option_map (fun r => of_Z (ageSeconds now r)) (List.find (fun r => String.eqb (r_id r) id) (receivers D)) /\
  (enabledTotal g + disabledTotal g)%Z = Z.of_nat (List.length (receivers D)) /\
  (count_where (fun r => healthy cfg now (r_appId r) None r) (receivers D) <= healthyTotal g <= enabledTotal g)%Z /\
  counterValues reg' = counterValues reg.
Proof.
  intros Hn g reg'. split; [|split; [|split]].
  - unfold reg', refreshReceiverGauges, setReceiverGauges. rewrite ages_value.
    + cbn [perReceiverHeartbeatAge receiverGauges]. unfold age_key. rewrite reset_drops. clear. induction (receivers D) as [|r l IH]; cbn; [done|].
      by destruct (String.eqb (r_id r) id).
    + cbn [perReceiverHeartbeatAge receiverGauges]. rewrite map_map. exact Hn.
  - cbn [enabledTotal disabledTotal g receiverGauges].
    rewrite <- (count_where_split (fun _ => true)); [|intros r _; cbn; by destruct (r_enabled r)..].
    unfold count_where, select. by rewrite List.filter_true.
  - cbn [healthyTotal enabledTotal g receiverGauges]. split; apply count_where_mono; intros r _; unfold healthy, gauge_healthy.
    + rewrite !andb_true_iff. intros [[[Ha He] Hh] _]. rewrite He. destruct (r_lastHeartbeatAt r) as [ts|]; [|done].
      apply Z.ltb_lt in Hh. split; [done|]. apply Z.leb_le. lia.
    + by intros [? _]%andb_true_iff.
  - unfold reg', refreshReceiverGauges, setReceiverGauges.
    generalize (perReceiverHeartbeatAge (receiverGauges cfg now (receivers D))).
    match goal with |- forall l, counterValues (fold_left _ l ?r0) = _ => assert (Hc : counterValues r0 = counterValues reg) by done; revert Hc; generalize r0 end.
    intros r0 Hc l. revert r0 Hc. induction l as [|[i a] l IH]; intros r0 Hc; cbn [fold_left]; [done|]. by apply IH.
Qed.

(** *** A window with one app, two messages, one of them unmatched *)

#[local] Instance code_order : Collation :=
  {| localeCompare := fun a b => if String.ltb a b then (-1)%Z else if String.eqb a b then 0%Z else 1%Z |}.

Definition sample_receiver : Receiver := mkReceiver "rcv_1" "app_1" "Line" None "+201000000000" "x" true (Some 9000%Z) 0%Z.
Definition sample_sms (id : string) (m : option string) : InboundSms :=
  mkInboundSms id "rcv_1" "+201111111111" "+201000000000" "body" 9500%Z id m 9500%Z.
Definition sample_window : DB :=
  mkDB [] [] [sample_receiver] [] [sample_sms "sms_1" None; sample_sms "sms_2" (Some "ver_1")] [] [] [] [] [] [] [].

Lemma health_scores_bounded_witness :
  map hr_health_score (sg_apps (computeSignals 10000 (at_once 10000 sample_window))) = [of_Z 80] /\
  exists n, (0 <= n <= 100)%Z /\ minScore (sg_apps (computeSignals 10000 (at_once 10000 sample_window))) = of_Z n.
Proof.
  split; [vm_compute; reflexivity|].
  destruct (health_scores_bounded 10000 (at_once 10000 sample_window)) as (n & Hn & En & _); [vm_compute; repeat split; congruence|].
  exists n. split; [exact Hn|exact En].
Defined.

Lemma refreshReceiverGauges_spec_witness :
  gaugeValues (refreshReceiverGauges default_config true 10000 sample_window empty_registry) !! age_key "rcv_1" = Some (of_Z 1).
Proof.
  destruct (refreshReceiverGauges_spec default_config 10000 sample_window empty_registry "rcv_1") as (H1 & _).
  - cbn. constructor; [intros H; inversion H|constructor].
  - rewrite H1. vm_compute. reflexivity.
Defined.
