(* ===== verification/AdminWeb.v ===== *)
(** * The admin dashboard: [admin/web]

    Display masks ([masks.ts]), the password format ([passwords.ts]), the read-only
    queries behind the pages ([queries.ts]) and the guards of every /admin route
    ([plugin.ts]).  scrypt enters as the class [Scrypt], the Basic-Auth plugin of
    the framework as [BasicAuth]; the templates are not modelled, a page is the data
    its template is given. *)

From S2P Require Import Prelude JsString Json JsNumber Errors Phone Crypto Aead Config Schema SmsBody Webhooks PhoneBindings Verifications Matching RateLimit Hmac Server Inbound Receivers Abuse.
From Stdlib Require Import String Ascii.

Open Scope string_scope.
Open Scope js_scope.

(** ** [masks.ts] *)

Definition shortId (id : string) : string :=
  if (slen id =? 0)%nat then "—"
  else
    match indexOf "_"%char id with
    | None => slice_to id 8 ++ "…"
    | Some underscore =>
        let prefix := slice_to id (S underscore) in
        let tail := slice_from id (S underscore) in
        if (slen tail <=? 4)%nat then prefix ++ tail else prefix ++ slice_to tail 4 ++ "…"
    end.

Definition is_letter (c : ascii) : bool := is_lower c || is_upper c.

(** [trimmed.match(/^[A-Za-z][A-Za-z0-9]{0,15}/)] *)
Definition leading_verb (trimmed : string) : string :=
  match trimmed with
  | String c s => if is_letter c then String c (slice_to (fst (span is_alnum s)) 15) else ""
  | EmptyString => ""
  end.

Definition maskInboundBody (body : string) : string :=
  if (slen body =? 0)%nat then "(empty)"
  else
    let verb := leading_verb (trim body) in
    trim (verb ++ " *** (" ++ num_to_string (Z.of_nat (slen body)) ++ " bytes)").

Definition relativeTime (d : option Z) (now : Z) : string :=
  match d with
  | None => "—"
  | Some ts =>
      let diff := (ts - now)%Z in
      let abs := Z.abs diff in
      let unit :=
        if (abs <? 60000)%Z then num_to_string (abs / 1000) ++ "s"
        else if (abs <? 3600000)%Z then num_to_string (abs / 60000) ++ "m"
        else if (abs <? 86400000)%Z then num_to_string (abs / 3600000) ++ "h"
        else num_to_string (abs / 86400000) ++ "d" in
      if (0 <? diff)%Z then "in " ++ unit else unit ++ " ago"
  end.

Definition receiverShort (id : string) : string := shortId id.

(** ** [passwords.ts] *)

(** [scrypt(password, salt, keylen)] with the parameters of the file; [None] is a
    rejected call, a derived key has the length asked for. *)
Class Scrypt : Type := {
  scrypt : string -> string -> nat -> option string;
  scrypt_length : forall p s n k, scrypt p s n = Some k -> slen k = n;
}.

Definition SCRYPT_KEYLEN : nat := 64.

Definition dollar : ascii := "$"%char.

(** [salt] is the given salt or 16 random bytes; [scryptSync] throws where it fails. *)
Definition hashAdminPassword `{Scrypt} (password : string) (saltHex : option string) (randomBytes16 : string)
    : outcome exn string :=
  if (slen password =? 0)%nat then Throw (JsError "password must be a non-empty string")
  else
    let salt := match saltHex with
                | Some h => if nonempty h then hexToBuffer h else randomBytes16
                | None => randomBytes16
                end in
    match scrypt password salt SCRYPT_KEYLEN with
    | None => Throw (JsError "scrypt failed")
    | Some key => Return ("scrypt" ++ String dollar (bufferToHex salt) ++ String dollar (bufferToHex key))
    end.

Definition safeHexToBuffer (hex : string) : option string :=
  if negb (nonempty hex && all_chars is_hex hex) || negb (slen hex mod 2 =? 0)%nat then None
  else Some (hexToBuffer hex).

Definition verifyAdminPassword `{Scrypt} (stored candidate : string) : outcome exn bool :=
  match split_on dollar stored with
  | [alg; saltHex; keyHex] =>
      if negb (String.eqb alg "scrypt") then Return false
      else
        match safeHexToBuffer saltHex, safeHexToBuffer keyHex with
        | Some salt, Some expected =>
            if (slen expected =? 0)%nat then Return false
            else
              match scrypt candidate salt (slen expected) with
              | None => Return false
              | Some derived => timingSafeEqual derived expected
              end
        | _, _ => Return false
        end
  | _ => Return false
  end.

(** [HASH_RE] of [plugin.ts] *)
Definition HASH_RE (s : string) : bool :=
  match split_on dollar s with
  | [alg; salt; key] => String.eqb alg "scrypt" && matches_class is_hex 16 128 salt && matches_class is_hex 32 256 key
  | _ => false
  end.

(** ** [queries.ts] *)

Definition PAGE_LIMIT : nat := 100.

Record ReceiverCounts : Type := { rc_total : Z; rc_enabled : Z; rc_healthy : Z }.

Record DashboardOverview : Type := {
  receiverCounts : ReceiverCounts; pendingVerifications : Z; verifiedLast24h : Z; inboundLast24h : Z;
  unmatchedLast24h : Z;
}.

(** [COUNT( * ) FILTER (WHERE p)::int] *)

(** [enabled AND last_heartbeat_at IS NOT NULL AND last_heartbeat_at > now() - interval] *)
Definition sql_healthy (cfg : Config) (dbNow : Z) (r : Receiver) : bool :=
  r_enabled r && match r_lastHeartbeatAt r with
                 | Some hb => (dbNow - RECEIVER_HEARTBEAT_TIMEOUT_SECONDS cfg * 1000 <? hb)%Z
                 | None => false
                 end.

Definition sql_stale (cfg : Config) (dbNow : Z) (r : Receiver) : bool :=
  r_enabled r && match r_lastHeartbeatAt r with
                 | Some hb => (hb <=? dbNow - RECEIVER_HEARTBEAT_TIMEOUT_SECONDS cfg * 1000)%Z
                 | None => true
                 end.

Definition fetchOverview (cfg : Config) (now dbNow : Z) (D : DB) : DashboardOverview :=
  let since := (now - 24 * 60 * 60 * 1000)%Z in
  let recent := select (fun i => (since <=? i_receivedAt i)%Z) (inboundSms D) in
  let total := Z.of_nat (List.length recent) in
  let matched := count_where (fun i => bool_decide (is_Some (i_matchedVerificationId i))) recent in
  {| receiverCounts := {| rc_total := Z.of_nat (List.length (receivers D));
                          rc_enabled := count_where r_enabled (receivers D);
                          rc_healthy := count_where (sql_healthy cfg dbNow) (receivers D) |};
     pendingVerifications := count_where is_pending (verifications D);
     verifiedLast24h := count_where (fun v => status_eqb (v_status v) verified
                          && match v_verifiedAt v with Some t => (since <=? t)%Z | None => false end) (verifications D);
     inboundLast24h := total;
     unmatchedLast24h := total - matched |}.

(** Rows with the joined app's name and the computed health. *)
Record AdminReceiverRow : Type := {
  arr_receiver : Receiver; arr_appName : string; arr_healthy : bool;
}.

Definition fetchReceivers (cfg : Config) (now : Z) (D : DB) : list AdminReceiverRow :=
  map (fun '(r, a) => {| arr_receiver := r; arr_appName := app_name a; arr_healthy := shown_healthy cfg now r |})
    (firstn PAGE_LIMIT (order_by (fun x y : Receiver * App => (r_createdAt (fst y) <? r_createdAt (fst x))%Z)
       (flat_map (with_app D) (receivers D)))).

Record AdminVerificationRow : Type := {
  av_id : string; av_appId : string; av_phoneE164 : string; av_purpose : string;
  av_status : verificationStatus; av_createdAt : Z; av_expiresAt : Z; av_verifiedAt : option Z;
}.

Definition fetchVerifications (D : DB) : list AdminVerificationRow :=
  map (fun v => {| av_id := v_id v; av_appId := v_appId v; av_phoneE164 := v_phoneE164 v; av_purpose := v_purpose v;
                   av_status := v_status v; av_createdAt := v_createdAt v; av_expiresAt := v_expiresAt v;
                   av_verifiedAt := v_verifiedAt v |})
    (firstn PAGE_LIMIT (order_by (fun x y => (v_createdAt y <? v_createdAt x)%Z) (verifications D))).

Record AdminInboundRow : Type := {
  ai_id : string; ai_receiverId : string; ai_fromE164 : string; ai_body : string; ai_receivedAt : Z;
  ai_matchedVerificationId : option string;
}.

Definition fetchInbound (D : DB) : list AdminInboundRow :=
  map (fun i => {| ai_id := i_id i; ai_receiverId := i_receiverId i; ai_fromE164 := i_fromE164 i; ai_body := i_body i;
                   ai_receivedAt := i_receivedAt i; ai_matchedVerificationId := i_matchedVerificationId i |})
    (firstn PAGE_LIMIT (order_by (fun x y => (i_receivedAt y <? i_receivedAt x)%Z) (inboundSms D))).

Record HealthCounts : Type := { hc_healthy : Z; hc_stale : Z; hc_disabled : Z }.
Record AdminHealth : Type := { ah_serverVersion : string; ah_dbOk : bool; ah_redisOk : bool; ah_receivers : HealthCounts }.

(** The pings' outcomes are arguments; their latencies are left out. *)
Definition fetchHealth (cfg : Config) (npm_package_version : option string) (dbOk redisOk : bool) (dbNow : Z) (D : DB)
    : AdminHealth :=
  {| ah_serverVersion := default "0.1.0" npm_package_version; ah_dbOk := dbOk; ah_redisOk := redisOk;
     ah_receivers := {| hc_healthy := count_where (sql_healthy cfg dbNow) (receivers D);
                        hc_stale := count_where (sql_stale cfg dbNow) (receivers D);
                        hc_disabled := count_where (fun r => negb (r_enabled r)) (receivers D) |} |}.

(** ** [plugin.ts] *)

(** Whether the routes are mounted at all. *)
Definition admin_enabled (user hash : string) : bool := nonempty user && nonempty hash && HASH_RE hash.

Definition compareUser (user candidate : string) : outcome exn bool :=
  if negb (slen candidate =? slen user)%nat then
    match timingSafeEqual user (repeat_char "000"%char (slen user)) with
    | Throw e => Throw e
    | Return _ => Return false
    end
  else timingSafeEqual candidate user.

(** The credentials the framework's plugin reads from the request, [None] when it
    refuses them itself, and the error it replies 401 with. *)
Class BasicAuth : Type := {
  basic_credentials : Request -> option (string * string);
  basic_unauthorized : exn;
}.

(** Both comparisons run before the decision. *)
Definition validate `{Scrypt} (user hash username password : string) : outcome exn unit :=
  match compareUser user username, verifyAdminPassword hash password with
  | Return userOk, Return passOk =>
      if userOk && passOk then Return tt else Throw (JsError "invalid credentials")
  | Throw e, _ | _, Throw e => Throw e
  end.

Definition ADMIN_RL_WINDOW_SECONDS : Z := 300.

Definition hardening_headers : list (string * string) :=
  [("X-Frame-Options", "DENY"); ("X-Content-Type-Options", "nosniff"); ("Referrer-Policy", "no-referrer");
   ("Cache-Control", "no-store");
   ("Content-Security-Policy",
    "default-src 'none'; style-src 'self' 'unsafe-inline'; img-src 'self'; base-uri 'none'; frame-ancestors 'none'")].

Definition set_header (kv : string * string) (hs : list (string * string)) : list (string * string) :=
  (List.filter (fun x => negb (String.eqb (fst x) (fst kv))) hs ++ [kv])%list.

Definition applyHardeningHeaders (hs : list (string * string)) : list (string * string) :=
  fold_left (fun hs kv => set_header kv hs) hardening_headers hs.

Definition has_header (n : string) (hs : list (string * string)) : bool :=
  existsb (fun kv => String.eqb (fst kv) n) hs.

(** The framework types an object payload as JSON before [onSend] runs. *)
Definition stamped (r : Reply) : Reply :=
  if has_header "Content-Type" (reply_headers r) then r
  else mkReply (reply_status r) (set_header ("Content-Type", "application/json; charset=utf-8") (reply_headers r))
         (reply_body r).

(** The [onSend] hook. *)
Definition onSend (r : Reply) : Reply :=
  let hs := applyHardeningHeaders (reply_headers r) in
  mkReply (reply_status r)
    (if has_header "Content-Type" hs then hs
     else set_header ("Content-Type", "text/html; charset=utf-8") hs) (reply_body r).

(** What a page's template is given. *)
Inductive AdminPage : Type :=
  | DashboardPage (overview : DashboardOverview)
  | ReceiversPage (rows : list AdminReceiverRow)
  | VerificationsPage (rows : list AdminVerificationRow)
  | InboundPage (rows : list AdminInboundRow)
  | HealthPage (h : AdminHealth)
  | SignalsObject (signals : AbuseSignals).

Inductive AdminRoute : Type := GetAdmin | GetReceivers | GetVerifications | GetInboundSms | GetHealth | GetAbuseSignals.

(** The type a route sets: the templates' [renderPage], or JSON. *)
Definition route_type (route : AdminRoute) : string :=
  match route with
  | GetAbuseSignals => "application/json; charset=utf-8"
  | _ => "text/html; charset=utf-8"
  end.

Section Plugin.
Context `{Redis R} `{Scrypt} `{BasicAuth} `{Collation} (cfg : Config) (user hash : string).
Context (render : AdminPage -> json) (npm_package_version : option string) (dbOk redisOk : bool).
Context (cached : option AbuseSignals).

(** The two [onRequest] hooks, in the order they are registered. *)
Definition admin_hooks (d : Draws) (req : Request) : RM R unit :=
  let! rl := on_redis (rateCheck ("admin:ip:" ++ rq_ip req) (RATE_LIMIT_ADMIN_PER_IP_PER_5MIN cfg)
                         ADMIN_RL_WINDOW_SECONDS (clock d 0) (clock d 1)) in
  do! throw_if (negb (allowed rl)) (rateLimited (resetSeconds rl)) in
  match basic_credentials req with
  | None => throw basic_unauthorized
  | Some (username, password) =>
      match validate user hash username password with
      | Return _ => ret tt
      | Throw _ => throw basic_unauthorized
      end
  end.

Definition admin_page (d : Draws) (route : AdminRoute) : RM R AdminPage :=
  gets (fun s =>
    let D := db (sw s) in
    match route with
    | GetAdmin => DashboardPage (fetchOverview cfg (clock d 2) (db_now d) D)
    | GetReceivers => ReceiversPage (fetchReceivers cfg (clock d 2) D)
    | GetVerifications => VerificationsPage (fetchVerifications D)
    | GetInboundSms => InboundPage (fetchInbound D)
    | GetHealth => HealthPage (fetchHealth cfg npm_package_version dbOk redisOk (db_now d) D)
    | GetAbuseSignals => SignalsObject (default (computeSignals (clock d 2) (at_once (db_now d) D)) cached)
    end).

Definition admin_handler (d : Draws) (route : AdminRoute) (req : Request) : RM R Reply :=
  do! admin_hooks d req in
  let! page := admin_page d route in
  ret (mkReply 200 [("Content-Type", route_type route)] (render page)).

(** What the client of /admin/... receives. *)
Definition admin_serve (d : Draws) (route : AdminRoute) (req : Request) (s : Server R) : Reply * Server R :=
  if admin_enabled user hash then
    let '(r, s') := respond (rq_id req) (admin_handler d route req) s in (onSend (stamped r), s')
  else (handleNotFound (rq_id req), s).
End Plugin.

(** ** Masks *)

Lemma span_eq p s : s = fst (span p s) ++ snd (span p s).
Proof. induction s as [|c s IH]; cbn; [done|]. destruct (p c); cbn; [|done]. destruct (span p s). cbn in *. by rewrite IH. Qed.

Lemma slice_to_short s n : (slen s <= n)%nat -> slice_to s n = s.
Proof. revert n. induction s as [|c s IH]; intros [|n]; cbn; intros Hn; try done; [lia|]. rewrite IH by lia. done. Qed.

Lemma trim_word_end a b :
  all_chars (fun c => negb (is_ws c)) a = true -> a <> "" ->
  trim (a ++ b ++ " bytes)") = a ++ b ++ " bytes)".
Proof.
  intros Ha Hne. unfold trim. destruct a as [|c a]; [done|]. cbn in Ha. apply andb_true_iff in Ha. destruct Ha as [Hc _].
  apply negb_true_iff in Hc. cbn [append trimStart]. rewrite Hc.
  replace (String c (a ++ b ++ " bytes)")) with ((String c (a ++ b ++ " bytes")) ++ String ")"%char "").
  - by rewrite trimEnd_app_nonws.
  - cbn [append]. f_equal. rewrite <- !string_app_assoc. reflexivity.
Qed.

(** A word: a letter, then letters and digits, at most sixteen in all. *)
Definition is_verb (v : string) : bool :=
  match v with String c s => is_letter c && all_chars is_alnum s && (slen s <=? 15)%nat | EmptyString => false end.

Lemma leading_verb_word v rest :
  is_verb v = true -> match rest with String c _ => is_alnum c = false | EmptyString => True end ->
  leading_verb (v ++ rest) = v.
Proof.
  destruct v as [|c v]; [done|]. cbn [is_verb]. rewrite !andb_true_iff, Nat.leb_le. intros [[Hc Hv] Hl] Hr.
  cbn [append leading_verb]. rewrite Hc. f_equal.
  assert (E : fst (span is_alnum (v ++ rest)) = v).
  { clear Hl Hc. induction v as [|x v IH]; cbn in *; [destruct rest; cbn; [done|by rewrite Hr]|].
    apply andb_true_iff in Hv. destruct Hv as [-> Hv]. specialize (IH Hv). destruct (span is_alnum _). cbn in *. by rewrite IH. }
  rewrite E. by apply slice_to_short.
Qed.

Lemma verb_no_ws v : is_verb v = true -> all_chars (fun c => negb (is_ws c)) v = true /\ v <> "".
Proof.
  destruct v as [|c v]; [done|]. cbn [is_verb all_chars]. rewrite !andb_true_iff. intros [[Hc Hv] _]. split; [|done].
  split.
  - revert Hc. by_ascii is_letter (fun c => negb (is_ws c)).
  - eapply all_chars_impl; [|exact Hv]. intros x. by_ascii is_alnum (fun c => negb (is_ws c)).
Qed.

Definition masked (v : string) (n : nat) : string := v ++ " *** (" ++ num_to_string (Z.of_nat n) ++ " bytes)".

(** What is shown is the first word and the length. *)
Lemma maskInboundBody_word body v rest :
  trim body = v ++ rest -> is_verb v = true ->
  match rest with String c _ => is_alnum c = false | EmptyString => True end ->
  maskInboundBody body = masked v (slen body).
Proof.
  intros Et Hv Hr. unfold maskInboundBody. destruct (verb_no_ws v Hv) as [Hw Hne].
  destruct (slen body =? 0)%nat eqn:El.
  { apply Nat.eqb_eq in El. destruct body; [|done]. cbn in Et. by destruct v. }
  rewrite Et, leading_verb_word by done. unfold masked.
  rewrite (string_app_assoc " *** ("). by rewrite trim_word_end.
Qed.

Lemma trim_around w1 t w2 :
  all_chars is_ws w1 = true -> all_chars is_ws w2 = true -> trim (w1 ++ t ++ w2) = trim t.
Proof.
  intros H1 H2. unfold trim. rewrite trimStart_app_ws by done. revert w2 H2. induction t as [|c t IH]; intros w2 H2.
  - cbn [append trimStart trimEnd]. rewrite <- (string_app_nil w2), trimStart_app_ws by done. done.
  - cbn [append trimStart]. destruct (is_ws c) eqn:E; [by apply IH|]. exact (trimEnd_app_ws (String c t) w2 H2).
Qed.

(** The dashboard never shows the code of a message as it was handed out: whatever
    white space surrounds it, the message [prefix code] is masked to the prefix and
    the length, the same text for every code of that length. *)
Theorem maskInboundBody_hides_code prefix w1 sep code w2 :
  is_verb prefix = true -> all_chars is_ws w1 = true -> all_chars is_ws w2 = true -> is_ws sep = true ->
  token 4 32 code ->
  maskInboundBody (w1 ++ (prefix ++ String sep code) ++ w2)
  = masked prefix (slen w1 + slen prefix + 1 + slen code + slen w2).
Proof.
  intros Hv H1 H2 Hs [Hl Hc]. destruct (verb_no_ws prefix Hv) as [Hw Hne].
  assert (Ht : trim (prefix ++ String sep code) = prefix ++ String sep code).
  { destruct prefix as [|p prefix]; [done|]. cbn in Hw. apply andb_true_iff in Hw. destruct Hw as [Hp Hw].
    unfold trim. cbn [append trimStart]. rewrite (proj1 (negb_true_iff _) Hp).
    destruct code as [|c0 c]; [cbn in Hl; lia|].
    assert (He : trimEnd (String c0 c) = String c0 c).
    { assert (Hx : trim (String c0 c) = String c0 c).
      { apply trim_fixed. eapply all_chars_impl; [|exact Hc]. intros x Hx. by rewrite AZ09_not_ws. }
      cbn in Hc. apply andb_true_iff in Hc. destruct Hc as [Hc0 _]. unfold trim in Hx. cbn [trimStart] in Hx.
      by rewrite (AZ09_not_ws c0 Hc0) in Hx. }
    cbn in Hc. apply andb_true_iff in Hc. destruct Hc as [Hc0 _].
    replace (String p (prefix ++ String sep (String c0 c))) with ((String p prefix ++ String sep "") ++ String c0 c)
      by (rewrite <- string_app_assoc; done).
    rewrite trimEnd_app_nonws by (by apply AZ09_not_ws).
    assert (E2 : trimEnd (String c0 c) = String c0 (trimEnd c)) by (exact (trimEnd_app_nonws "" c c0 (AZ09_not_ws c0 Hc0))).
    rewrite He in E2. injection E2 as <-. done. }
  rewrite (maskInboundBody_word _ prefix (String sep code)); [|rewrite trim_around, Ht by done; done|done|].
  - f_equal. rewrite !slen_app. cbn [String.length]. lia.
  - apply negb_true_iff. revert Hs. by_ascii is_ws (fun c => negb (is_alnum c)).
Qed.

(** A message without the space is matched all the same, and shown with its code. *)
Lemma maskInboundBody_leaks code :
  token 4 32 code -> (slen code <= 10)%nat ->
  extractCode ("VERIFY" ++ code) "VERIFY" = Some code /\
  maskInboundBody ("VERIFY" ++ code) = masked ("VERIFY" ++ code) (6 + slen code).
Proof.
  intros Ht Hl. assert (Hw := AZ09_no_ws code (proj2 Ht)). split.
  - rewrite extractCode_eq.
    assert (P := parse_command_tolerant "VERIFY" 4 32 eq_refl ltac:(done) "" "" ("VERIFY" ++ code) code code eq_refl eq_refl).
    rewrite string_app_nil in P. apply P; [|by apply remove_ws_fixed, Ht|exact Ht].
    unfold toUpperCase. rewrite smap_app. f_equal. by apply toUpperCase_fixed, Ht.
  - rewrite (maskInboundBody_word _ ("VERIFY" ++ code) ""); [by rewrite slen_app| | |done].
    + rewrite string_app_nil. apply trim_fixed. cbn. exact Hw.
    + cbn [append is_verb]. apply andb_true_iff. split; [|cbn [String.length]; apply Nat.leb_le; lia]. cbn.
      eapply all_chars_impl; [|exact (proj2 Ht)]. intros c. by_ascii is_AZ09 is_alnum.
Qed.

Lemma maskInboundBody_hides_code_witness :
  maskInboundBody "  VERIFY A7K9P2" = masked "VERIFY" 15 /\ masked "VERIFY" 15 = "VERIFY *** (15 bytes)".
Proof.
  split; [|vm_compute; reflexivity].
  apply (maskInboundBody_hides_code "VERIFY" "  " " "%char "A7K9P2" ""); try reflexivity. split; [cbn; lia|reflexivity].
Defined.

(** ** Passwords *)

Lemma safeHexToBuffer_hex s : s <> "" -> safeHexToBuffer (bufferToHex s) = Some s.
Proof.
  intros Hne. destruct (bufferToHex_hex s) as [Hx Hl]. unfold safeHexToBuffer. rewrite Hx, Hl, hexToBuffer_bufferToHex.
  rewrite Nat.mul_comm, Nat.Div0.mod_mul. by destruct s.
Qed.

Lemma hex_no_dollar s : all_chars is_hex s = true -> all_chars (fun c => negb (Ascii.eqb c dollar)) s = true.
Proof. apply all_chars_impl. intros c. by_ascii is_hex (fun c => negb (Ascii.eqb c dollar)). Qed.

(** The three parts of a stored password. *)
Lemma split_stored a b :
  all_chars is_hex a = true -> all_chars is_hex b = true ->
  split_on dollar ("scrypt" ++ String dollar a ++ String dollar b) = ["scrypt"; a; b].
Proof.
  intros Ha Hb. change (String dollar a ++ String dollar b) with (String dollar (a ++ String dollar b)).
  rewrite (split_on_app dollar "scrypt") by done.
  by rewrite split_on_app, split_on_none by (by apply hex_no_dollar).
Qed.

(** A password hashed with a salt of at least eight bytes. *)
Lemma stored_password `{Scrypt} user password randomBytes16 stored candidate :
  user <> "" -> (8 <= slen randomBytes16 <= 64)%nat ->
  hashAdminPassword password None randomBytes16 = Return stored ->
  admin_enabled user stored = true /\
  verifyAdminPassword stored password = Return true /\
  verifyAdminPassword stored candidate
  = Return (bool_decide (scrypt candidate randomBytes16 SCRYPT_KEYLEN = scrypt password randomBytes16 SCRYPT_KEYLEN)).
Proof.
  intros Hu Hs. unfold hashAdminPassword. destruct (slen password =? 0)%nat; [done|]. cbv zeta.
  destruct (scrypt password randomBytes16 SCRYPT_KEYLEN) as [key|] eqn:Ek; [|done]. intros Es.
  assert (stored = "scrypt" ++ String dollar (bufferToHex randomBytes16) ++ String dollar (bufferToHex key)) as -> by congruence.
  clear Es. assert (Hkl := scrypt_length _ _ _ _ Ek). change SCRYPT_KEYLEN with 64%nat in Hkl, Ek |- *.
  destruct (bufferToHex_hex randomBytes16) as [Hsx Hsl], (bufferToHex_hex key) as [Hkx Hkl'].
  assert (Hne : randomBytes16 <> "" /\ key <> "") by (split; intros ->; cbn in *; lia). destruct Hne as [Hn1 Hn2].
  assert (Hv : forall c, verifyAdminPassword ("scrypt" ++ String dollar (bufferToHex randomBytes16) ++ String dollar (bufferToHex key)) c
               = Return (bool_decide (scrypt c randomBytes16 64 = Some key))).
  { intros c. unfold verifyAdminPassword. rewrite split_stored by done. cbn [String.eqb Ascii.eqb Bool.eqb negb].
    rewrite !safeHexToBuffer_hex, Hkl by done. cbn [Nat.eqb]. destruct (scrypt c randomBytes16 64) as [k|] eqn:Ec; [|done].
    unfold timingSafeEqual. rewrite (scrypt_length _ _ _ _ Ec), Hkl. cbn [Nat.eqb].
    destruct (String.eqb_spec k key) as [->|Hd]; f_equal; symmetry; [by apply bool_decide_eq_true|].
    apply bool_decide_eq_false. congruence. }
  split; [|split; [rewrite Hv, Ek; f_equal; by apply bool_decide_eq_true|apply Hv]].
  unfold admin_enabled, HASH_RE. rewrite split_stored by done. unfold matches_class. rewrite Hsx, Hkx, Hsl, Hkl', Hkl.
  replace (16 <=? 2 * slen randomBytes16)%nat with true by (symmetry; apply Nat.leb_le; lia).
  replace (2 * slen randomBytes16 <=? 128)%nat with true by (symmetry; apply Nat.leb_le; lia).
  by destruct user.
Qed.

(** What [hashAdminPassword] makes of a non-empty password with a salt of at least
    eight bytes turns the dashboard on, and then lets in exactly the passwords that
    scrypt maps to the same 64 bytes under that salt, the password itself among them. *)
Theorem admin_password_spec `{Scrypt} user password randomBytes16 stored candidate :
  user <> "" -> (8 <= slen randomBytes16 <= 64)%nat ->
  hashAdminPassword password None randomBytes16 = Return stored ->
  admin_enabled user stored = true /\
  verifyAdminPassword stored password = Return true /\
  verifyAdminPassword stored candidate
  = Return (bool_decide (scrypt candidate randomBytes16 SCRYPT_KEYLEN = scrypt password randomBytes16 SCRYPT_KEYLEN)).
Proof. intros Hu Hs Hh. by apply stored_password. Qed.

(** The format check accepts an odd number of digits; no password ever matches. *)
Lemma odd_hash_locks_out `{Scrypt} salt key :
  matches_class is_hex 16 128 salt = true -> matches_class is_hex 32 256 key = true -> (slen salt mod 2 = 1)%nat ->
  let stored := "scrypt" ++ String dollar salt ++ String dollar key in
  admin_enabled "admin" stored = true /\ forall candidate, verifyAdminPassword stored candidate = Return false.
Proof.
  intros Hs Hk Ho. cbv zeta. assert (Hsx := Hs). assert (Hkx := Hk). unfold matches_class in Hsx, Hkx. destruct_and_ex.
  unfold admin_enabled, HASH_RE, verifyAdminPassword. rewrite split_stored, Hs, Hk by done. split; [done|].
  intros c. cbn [String.eqb Ascii.eqb Bool.eqb negb]. unfold safeHexToBuffer at 1. rewrite Ho. by rewrite orb_true_r.
Qed.

(** A key derivation that repeats password and salt up to the length asked for. *)
Definition plain_scrypt : Scrypt.
Proof.
  refine {| scrypt p s n := Some (slice_to (p ++ s ++ repeat_char "."%char n) n) |}.
  intros p s n k [= <-]. rewrite slen_slice_to, !slen_app, slen_repeat. lia.
Defined.

Lemma admin_password_spec_witness :
  exists stored, hashAdminPassword (H := plain_scrypt) "hunter2" None "0123456789abcdef" = Return stored /\
    admin_enabled "admin" stored = true /\ verifyAdminPassword (H := plain_scrypt) stored "hunter2" = Return true /\
    verifyAdminPassword (H := plain_scrypt) stored "hunter3" = Return false.
Proof.
  destruct (hashAdminPassword (H := plain_scrypt) "hunter2" None "0123456789abcdef") as [stored|e] eqn:E;
    [|vm_compute in E; discriminate].
  exists stored. split; [reflexivity|].
  destruct (admin_password_spec (H := plain_scrypt) "admin" "hunter2" "0123456789abcdef" stored "hunter3") as (H1 & H2 & H3);
    [discriminate|cbn; lia|exact E|]. split; [exact H1|]. split; [exact H2|]. rewrite H3. vm_compute. reflexivity.
Defined.

(** ** Counts *)

Lemma sql_healthy_iff cfg dbNow r : sql_healthy cfg dbNow r = healthy cfg dbNow (r_appId r) None r.
Proof. unfold sql_healthy, healthy. by rewrite String.eqb_refl, andb_true_r. Qed.

(** The dashboard's counts add up: on one reading of the database clock the overview
    and the health page count as healthy exactly the receivers that selection would
    take, healthy and stale make up the enabled ones, those and the disabled all of
    them, and the unmatched messages are at most the received ones, never negative. *)
Theorem dashboard_counts cfg npm dbOk redisOk now dbNow D :
  let o := fetchOverview cfg now dbNow D in
  let h := ah_receivers (fetchHealth cfg npm dbOk redisOk dbNow D) in
  rc_healthy (receiverCounts o) = hc_healthy h /\
  rc_healthy (receiverCounts o) = count_where (fun r => healthy cfg dbNow (r_appId r) None r) (receivers D) /\
  rc_enabled (receiverCounts o) = (hc_healthy h + hc_stale h)%Z /\
  rc_total (receiverCounts o) = (hc_healthy h + hc_stale h + hc_disabled h)%Z /\
  (0 <= unmatchedLast24h o <= inboundLast24h o)%Z.
Proof.
  cbv zeta. cbn [receiverCounts rc_healthy rc_enabled rc_total fetchOverview fetchHealth ah_receivers hc_healthy hc_stale
    hc_disabled unmatchedLast24h inboundLast24h].
  assert (He : count_where r_enabled (receivers D)
    = (count_where (sql_healthy cfg dbNow) (receivers D) + count_where (sql_stale cfg dbNow) (receivers D))%Z).
  { apply count_where_split; intros r _; unfold sql_healthy, sql_stale; destruct (r_enabled r); cbn [andb]; try done;
      (destruct (r_lastHeartbeatAt r) as [hb|]; [|done]);
      destruct (Z.ltb_spec (dbNow - RECEIVER_HEARTBEAT_TIMEOUT_SECONDS cfg * 1000) hb),
               (Z.leb_spec hb (dbNow - RECEIVER_HEARTBEAT_TIMEOUT_SECONDS cfg * 1000)); done || lia. }
  split; [done|]. split.
  { unfold count_where. do 2 f_equal. unfold select. apply filter_ext. intros r. apply sql_healthy_iff. }
  split; [done|]. split.
  - rewrite <- He. rewrite <- (count_where_split (fun _ => true)).
    + unfold count_where, select. by rewrite List.filter_true.
    + intros r _. by destruct (r_enabled r).
    + intros r _. by destruct (r_enabled r).
  - assert (Hm := count_where_le (fun i => bool_decide (is_Some (i_matchedVerificationId i)))
      (select (fun i => (now - 24 * 60 * 60 * 1000 <=? i_receivedAt i)%Z) (inboundSms D))). lia.
Qed.

(** ** The guards *)

Lemma compareUser_eq user candidate : compareUser user candidate = Return (String.eqb candidate user).
Proof.
  unfold compareUser, timingSafeEqual. destruct (slen candidate =? slen user)%nat eqn:E; cbn [negb]; [done|].
  rewrite slen_repeat, Nat.eqb_refl. f_equal. symmetry. apply String.eqb_neq. intros ->. by rewrite Nat.eqb_refl in E.
Qed.

Lemma set_header_In kv n hs : In (n, snd kv) (set_header kv hs) \/ n <> fst kv.
Proof. destruct kv as [k v]. destruct (decide (n = k)) as [->|]; [left|by right]. apply in_or_app. right. by left. Qed.

(** Setting headers one after another: each is there unless set again later. *)
Lemma set_header_kept kv kv' hs : fst kv' <> fst kv -> In kv' hs -> In kv' (set_header kv hs).
Proof.
  intros Hn Hin. apply in_or_app. left. apply List.filter_In. split; [done|]. apply negb_true_iff.
  by apply String.eqb_neq.
Qed.

Lemma apply_hardening hs kv : In kv hardening_headers -> In kv (applyHardeningHeaders hs).
Proof.
  unfold applyHardeningHeaders, hardening_headers. cbn [fold_left].
  intros [<-|[<-|[<-|[<-|[<-|[]]]]]]; repeat (first [apply in_or_app; right; left; reflexivity|apply set_header_kept; [done|]]).
Qed.

Lemma onSend_hardened r kv : In kv hardening_headers -> In kv (reply_headers (onSend r)).
Proof.
  intros Hin. unfold onSend. cbn [reply_headers]. destruct (has_header _ _); [by apply apply_hardening|].
  apply set_header_kept; [|by apply apply_hardening].
  destruct Hin as [<-|[<-|[<-|[<-|[<-|[]]]]]]; discriminate.
Qed.

Lemma pair_inj {A B} (a a' : A) (b b' : B) : (a, b) = (a', b') -> a = a' /\ b = b'.
Proof. by intros [= -> ->]. Qed.

Section Guard.
Context `{Redis R} `{Scrypt} `{BasicAuth} `{Collation} (cfg : Config) (user hash : string).
Context (render : AdminPage -> json) (npm : option string) (dbOk redisOk : bool) (cached : option AbuseSignals).
Hypothesis unauthorized_401 : forall id, reply_status (handleError id basic_unauthorized) = 401%Z.

(** Who gets past the hooks. *)
Definition let_in (d : Draws) (req : Request) (r : R) : Prop :=
  allowed (fst (rateCheck ("admin:ip:" ++ rq_ip req) (RATE_LIMIT_ADMIN_PER_IP_PER_5MIN cfg) ADMIN_RL_WINDOW_SECONDS
                  (clock d 0) (clock d 1) r)) = true /\
  exists password, basic_credentials req = Some (user, password) /\ verifyAdminPassword hash password = Return true.

Lemma hooks_cases d req (s : Server R) :
  exists r', (admin_hooks cfg user hash d req s = (Return tt, mkServer (sw s) r' (touches s)) /\ let_in d req (sr s)) \/
    ((exists n, admin_hooks cfg user hash d req s = (Throw (rateLimited n), mkServer (sw s) r' (touches s))) \/
     admin_hooks cfg user hash d req s = (Throw basic_unauthorized, mkServer (sw s) r' (touches s))) /\
    ~ let_in d req (sr s).
Proof.
  unfold admin_hooks, let_in, bind, on_redis. destruct (rateCheck _ _ _ _ _ _) as [rl r'] eqn:Er. exists r'.
  cbn [fst]. destruct (allowed rl); cbn [negb throw_if throw ret].
  2: { right. split; [left; by eexists|]. by intros [? _]. }
  destruct (basic_credentials req) as [[username password]|].
  2: { right. split; [by right|]. by intros [_ (p & ? & _)]. }
  unfold validate. rewrite compareUser_eq. destruct (verifyAdminPassword hash password) as [b|e] eqn:Ev.
  2: { right. split; [by right|]. intros [_ (p & Ep & Hp)]. congruence. }
  destruct (String.eqb_spec username user) as [->|Hn]; cbn [andb].
  2: { right. split; [by right|]. intros [_ (p & Ep & Hp)]. congruence. }
  destruct b; [left|right].
  - split; [done|]. split; [done|]. by exists password.
  - split; [by right|]. intros [_ (p & Ep & Hp)]. congruence.
Qed.

(** C25: A page of the dashboard reaches only a client whose address still has attempts
    left in its five minutes and who sends the configured user with a password that
    verifies against the stored hash; everybody else gets 429 or 401, and 404 when the
    dashboard is off.  No request changes the database, and every answer of a mounted
    dashboard carries the hardening headers. *)
Theorem admin_guarded d route req s reply s' :
  admin_serve cfg user hash render npm dbOk redisOk cached d route req s = (reply, s') ->
  db (sw s') = db (sw s) /\
  (reply_status reply = 200%Z <-> admin_enabled user hash = true /\ let_in d req (sr s)) /\
  (reply_status reply <> 200%Z -> In (reply_status reply) [401; 404; 429]%Z) /\
  (admin_enabled user hash = true -> forall kv, In kv hardening_headers -> In kv (reply_headers reply)).
Proof.
  unfold admin_serve. destruct (admin_enabled user hash).
  2: { intros [= <- <-]. cbn. split; [done|]. split; [split; [discriminate|by intros [? _]]|]. split; [auto|done]. }
  unfold respond, admin_handler, bind. destruct (hooks_cases d req s) as (r' & [[-> Hl]|[[[n ->]| ->] Hl]]).
  - unfold admin_page, gets, ret. intros [= <- <-]. split; [done|]. split; [done|].
    split; [by intros []|]. intros _ kv. apply onSend_hardened.
  - intros E0. apply pair_inj in E0 as [<- <-]. split; [done|].
    assert (E : reply_status (onSend (stamped (handleError (rq_id req) (rateLimited n)))) = 429%Z).
    { unfold onSend, stamped. by destruct (has_header _ _). }
    rewrite E. split; [split; [discriminate|by intros [_ ?]]|]. split; [cbn; auto|]. intros _ kv. apply onSend_hardened.
  - intros E0. apply pair_inj in E0 as [<- <-]. split; [done|].
    assert (E : reply_status (onSend (stamped (handleError (rq_id req) basic_unauthorized))) = 401%Z).
    { unfold onSend, stamped. by destruct (has_header _ _); cbn; apply unauthorized_401. }
    rewrite E. split; [split; [discriminate|by intros [_ ?]]|]. split; [cbn; auto|]. intros _ kv. apply onSend_hardened.
Qed.
End Guard.

(** *** A signed-in request *)

Definition header_auth : BasicAuth :=
  {| basic_credentials req := (fun p => ("admin", p)) <$> header req "x-password";
     basic_unauthorized := FastifyError (Some 401%Z) (Some "FST_BASIC_AUTH") "Unauthorized" None |}.

Definition sample_hash : string :=
  match hashAdminPassword (H := plain_scrypt) "hunter2" None "0123456789abcdef" with Return h => h | Throw _ => "" end.

Definition admin_request (password : string) : Request :=
  {| rq_headers := [("x-password", password)]; rq_ip := "10.0.0.1"; rq_id := "req"; rq_rawBody := None;
     rq_body := JNull; rq_param_id := "" |}.

Definition dashboard_run (password : string) : Reply * Server Store :=
  admin_serve (H0 := plain_scrypt) (H1 := header_auth) (H2 := code_order) default_config "admin" sample_hash (fun _ => JStr "page") None true true None
    at_1000 GetAdmin (admin_request password) (mkServer (mkWorld gateway_db [] []) ∅ []).

Lemma admin_guarded_witness :
  reply_status (fst (dashboard_run "hunter2")) = 200%Z /\
  let_in (H0 := plain_scrypt) (H1 := header_auth) default_config "admin" sample_hash at_1000 (admin_request "hunter2") (∅ : Store) /\
  reply_status (fst (dashboard_run "hunter3")) <> 200%Z.
Proof.
  split; [vm_compute; reflexivity|]. split; [|vm_compute; discriminate].
  destruct (dashboard_run "hunter2") as [reply s'] eqn:E.
  destruct (admin_guarded (H0 := plain_scrypt) (H1 := header_auth) (H2 := code_order) default_config "admin" sample_hash (fun _ => JStr "page") None
    true true None ltac:(reflexivity) at_1000 GetAdmin (admin_request "hunter2") (mkServer (mkWorld gateway_db [] []) (∅ : Store) [])
    reply s' E) as (_ & Hi & _).
  apply Hi. change reply with (fst (reply, s')). rewrite <- E. vm_compute. reflexivity.
Defined.
