(* ===== verification/Hosted.v ===== *)
(** * The hosted page: [hosted/web/plugin.ts]

    [GET /v/:id] and [GET /v/:id/status], the public routes behind the pages of the
    browser packages, and what a browser makes of the second: [widget_follows_server]
    composes the route with the polling controller of [Controller]. *)

From S2P Require Import Prelude JsString Json JsonParse Date Errors Phone Crypto Config Schema Webhooks PhoneBindings Verifications RateLimit Hmac Server Inbound Wire Client Controller.
From Stdlib Require Import String Ascii.

Open Scope string_scope.
Open Scope js_scope.

Definition idParam (id : string) : bool := matches_prefixed "vrf_" is_alnum id.

Definition cspFor (scriptNonce : string) : string :=
  join "; " ["default-src 'none'"; "script-src 'nonce-" ++ scriptNonce ++ "'"; "style-src 'self' 'unsafe-inline'";
             "connect-src 'self'"; "img-src 'self' data:"; "font-src 'self'"; "base-uri 'none'"; "form-action 'none'";
             "frame-ancestors 'none'"].

(** The object [getHostedVerificationStatus] returns, as JSON. *)
Definition status_json (st : verificationStatus * string * option string) : json :=
  let '(status, expires_at, verified_at) := st in
  JObj [("status", JStr (status_text status)); ("expires_at", JStr expires_at); ("verified_at", jopt JStr verified_at)].

Section Routes.
Context `{Redis R} `{Limit1} (cfg : Config) (render : HostedVerification -> string -> string).

(** [scriptNonce] is drawn per request; the template is the parameter [render]. *)
Definition get_page (d : Draws) (scriptNonce : string) (req : Request) : RM R Reply :=
  do! throw_if (negb (idParam (rq_param_id req))) (notFound "verification") in
  let! v := on_world (getHostedVerification (clock d 0) (rq_param_id req)) in
  match v with
  | None => throw (notFound "verification")
  | Some v =>
      ret (mkReply 200
             [("Content-Type", "text/html; charset=utf-8"); ("Content-Security-Policy", cspFor scriptNonce);
              ("X-Frame-Options", "DENY"); ("X-Content-Type-Options", "nosniff"); ("Referrer-Policy", "no-referrer");
              ("Cache-Control", "private, no-store")]
             (JStr (render v scriptNonce)))
  end.

Definition get_status (d : Draws) (req : Request) : RM R Reply :=
  do! rate_guard ("status:ip:" ++ rq_ip req) (RATE_LIMIT_STATUS_PER_IP_PER_MIN cfg) (clock d 0) (clock d 1) "status" in
  do! throw_if (negb (idParam (rq_param_id req))) (notFound "verification") in
  let! status := on_world (getHostedVerificationStatus (clock d 2) (rq_param_id req)) in
  match status with
  | None => throw (notFound "verification")
  | Some status =>
      ret (mkReply 200 [("Cache-Control", "private, no-store"); ("Content-Type", "application/json; charset=utf-8")]
             (status_json status))
  end.

(** Both routes are mounted or neither. *)
Definition hosted_serve (handler : Request -> RM R Reply) (req : Request) (s : Server R) : Reply * Server R :=
  if HOSTED_PAGE_ENABLED cfg then respond (rq_id req) (handler req) s else (handleNotFound (rq_id req), s).
End Routes.

(** ** What a browser reads *)

Definition status_of_text (s : string) : option verificationStatus :=
  List.find (fun st => String.eqb (status_text st) s) [pending; verified; expired; cancelled; failed].

(** [(await res.json()) as StatusResponse], for a body of that shape. *)
Definition as_status (j : json) : option StatusResponse :=
  match jfield "status" j, jfield "expires_at" j, jfield "verified_at" j with
  | Some (JStr s), Some (JStr e), Some v =>
      st ← status_of_text s;
      match v with
      | JNull => Some {| sr_status := st; sr_expires_at := e; sr_verified_at := None |}
      | JStr v => Some {| sr_status := st; sr_expires_at := e; sr_verified_at := Some v |}
      | _ => None
      end
  | _, _, _ => None
  end.

(** How a poll ends, from the response's status and text. *)
Definition poll_result (httpStatus : Z) (text : string) : option PollResult :=
  if (200 <=? httpStatus)%Z && (httpStatus <? 300)%Z then
    match json_parse text with
    | Done j _ => Answer <$> as_status j
    | SyntaxError => Some (Rejection false "Unexpected token in JSON")
    | _ => None
    end
  else Some (NotOk httpStatus).

(** ** Lemmas *)

Lemma status_of_text_status s : status_of_text (status_text s) = Some s.
Proof. by destruct s. Qed.

(** The status object survives the wire. *)
Lemma poll_result_status st e va :
  poll_result 200 (stringify (status_json (st, e, va)))
  = Some (Answer {| sr_status := st; sr_expires_at := e; sr_verified_at := va |}).
Proof.
  unfold poll_result. cbn [Z.leb Z.ltb andb Z.compare Pos.compare Pos.compare_cont].
  rewrite parse_stringify by (by destruct va). unfold as_status, status_json, jfield.
  cbn [jget String.eqb Ascii.eqb Bool.eqb]. rewrite status_of_text_status. by destruct va.
Qed.

Lemma idParam_unreserved id : idParam id = true -> encodeURIComponent id = id.
Proof. by apply encodeURIComponent_prefixed. Qed.

(** The answer of the status route for a stored row. *)
Lemma get_status_row `{Redis R} `{Limit1} cfg d req v (s : Server R) :
  respects verifications_idx (verifications (db (sw s))) -> In v (verifications (db (sw s))) ->
  rq_param_id req = v_id v -> idParam (v_id v) = true ->
  allowed (fst (rateCheck ("status:ip:" ++ rq_ip req) (RATE_LIMIT_STATUS_PER_IP_PER_MIN cfg) 60 (clock d 0) (clock d 1) (sr s))) = true ->
  exists s', get_status cfg d req s
      = (Return (mkReply 200 [("Cache-Control", "private, no-store"); ("Content-Type", "application/json; charset=utf-8")]
           (status_json (effective_status (clock d 2) v, toISOString (v_expiresAt v), toISOString <$> v_verifiedAt v))), s') /\
    db (sw s') = db (sw s).
Proof.
  intros Hr Hin Hid Hp Ha. unfold get_status, rate_guard, bind, on_redis, on_world in *.
  destruct (rateCheck _ _ _ _ _ (sr s)) as [rl r']. cbn [fst] in Ha. rewrite Ha, Hid, Hp. cbn [negb throw_if ret sw sr touches].
  unfold getHostedVerificationStatus. rewrite bind_select_one. cbn [rows t_verifications].
  replace (limit1 _) with (Some v).
  - unfold bind, expire_if_due, effective_status, lazyExpireAndEmit. destruct (is_pending v && _); cbn; eexists; split; done.
  - destruct (select_pkey _ v_id _ _ (v_id v) Hr) as [E|[v' E]]; rewrite E.
    + rewrite select_nil_iff in E. specialize (E v Hin). by rewrite String.eqb_refl in E.
    + rewrite limit1_one. f_equal. assert (Hv : In v' (select (fun x => String.eqb (v_id x) (v_id v)) (verifications (db (sw s)))))
        by (rewrite E; by left). apply select_In in Hv. destruct Hv as [Hin' E']. apply String.eqb_eq in E'.
      eapply (pkey_inj _ v_id); eauto.
Qed.

(** After an answer the state has the answer's status. *)
Lemma settle_answer `{DateParse} calls_stop body now c :
  c_stopped c = false ->
  cv_status (c_state (settle calls_stop (Answer body) now c)) = sr_status body.
Proof.
  intros Hs. cbn. rewrite Hs. destruct (status_eqb (sr_status body) (cv_status (c_state c))) eqn:E.
  - apply status_eqb_eq in E. destruct (negb _); [|done].
    destruct (call_only calls_stop (onChange (with_expires_at (c_state c) (sr_expires_at body))
      (computeSecondsLeft now (sr_expires_at body))) (set_state (with_expires_at (c_state c) (sr_expires_at body))
      (c_prevStatus c) (computeSecondsLeft now (sr_expires_at body)) c)) as [Es _ _ _ _ _ _].
    cbn [cv_expires_at with_expires_at]. rewrite Es. cbn. done.
  - unfold transition.
    set (c1 := set_state _ _ _ c).
    assert (Ho := calls_only_trans calls_stop _ _ _ _ _ (call_only calls_stop (onChange (merge_answer (c_state c) body)
      (computeSecondsLeft now (cv_expires_at (merge_answer (c_state c) body)))) c1)
      (call_all_only calls_stop (transition_callback (c_prevStatus c) (merge_answer (c_state c) body)) _)).
    destruct Ho as [Es _ _ _ _ _ _]. destruct (isTerminal _); cbn [clearTimers c_state]; rewrite Es; done.
Qed.

(** The page follows the server: when a running, pending controller polls for a stored
    verification, its request names the status route of that id, the route answers 200
    with the row's effective status without changing the database, and after the answer
    the page has that status, has made exactly the transition callback of the change,
    and past pending neither shows nor keeps the message. *)
Theorem widget_follows_server `{Redis R} `{Limit1} `{DateParse} calls_stop cfg d ip reqId v (s : Server R) baseUrl v0 t0 es c now :
  respects verifications_idx (verifications (db (sw s))) -> In v (verifications (db (sw s))) -> idParam (v_id v) = true ->
  allowed (fst (rateCheck ("status:ip:" ++ ip) (RATE_LIMIT_STATUS_PER_IP_PER_MIN cfg) 60 (clock d 0) (clock d 1) (sr s))) = true ->
  HOSTED_PAGE_ENABLED cfg = true ->
  hides_code v0 -> run calls_stop es (construct baseUrl v0 t0) = Some c ->
  c_stopped c = false -> cv_status (c_state c) = pending -> cv_id (c_state c) = v_id v ->
  let url := strip_trailing_slashes (c_baseUrl c) ++ "/v/" ++ v_id v ++ "/status" in
  let hr := {| hr_method := "GET"; hr_url := url; hr_headers := [("Accept", "application/json")]; hr_body := None |} in
  c_requests (poll c) = (c_requests c ++ [url])%list /\
  exists reply s' body,
    hosted_serve cfg (get_status cfg d) (to_request ip reqId (v_id v) hr None JNull) s = (reply, s') /\
    db (sw s') = db (sw s) /\
    poll_result (reply_status reply) (reply_text reply) = Some (Answer body) /\
    let c' := settle calls_stop (Answer body) now (poll c) in
    cv_status (c_state c') = effective_status (clock d 2) v /\
    List.filter is_transition (c_calls c')
      = (List.filter is_transition (c_calls c) ++ transition_callback pending (c_state c'))%list /\
    (effective_status (clock d 2) v <> pending -> cv_send_to (c_state c') = None /\ cv_message (c_state c') = None).
Proof.
  intros Hr Hin Hp Ha Hen Hv0 Hrun Hs Hpend Hid url hr.
  assert (Hpoll : c_state (poll c) = c_state c /\ c_stopped (poll c) = false /\ c_calls (poll c) = c_calls c /\
                  c_requests (poll c) = (c_requests c ++ [url])%list).
  { unfold poll. rewrite Hs, Hpend. cbn. unfold status_url, url. by rewrite Hid, idParam_unreserved. }
  destruct Hpoll as (Es & Est & Ec & Erq). split; [exact Erq|].
  set (req := to_request ip reqId (v_id v) hr None JNull).
  destruct (get_status_row cfg d req v s Hr Hin eq_refl Hp Ha) as (s' & Eg & Ed).
  eexists _, s', _. split; [unfold hosted_serve, respond; rewrite Hen, Eg; reflexivity|]. split; [exact Ed|].
  split; [apply poll_result_status|]. cbv zeta.
  set (body := {| sr_status := _; sr_expires_at := _; sr_verified_at := _ |}).
  assert (Hgood : Good (poll c)).
  { destruct (run_good calls_stop es _ c (construct_good baseUrl v0 t0 Hv0) Hrun) as (Hg & _).
    by apply (quiet_good c (poll c) Hg), poll_quiet, Hg. }
  destruct (settle_good calls_stop (Answer body) now (poll c) Hgood) as (Hg' & l & El & _ & Ef).
  assert (Est' := settle_answer calls_stop body now (poll c) Est). split; [exact Est'|]. split.
  - by rewrite El, List.filter_app, Ef, Ec, Es, Hpend.
  - intros Hne. apply Hg'. rewrite Est'. exact Hne.
Qed.

(** ** Witness *)

(** The verification of [sample_verification] after its SMS came in. *)
Definition verified_row : Verification :=
  mkVerification "vrf_1" "app_1" "+963991234567" "login" None None "rcv_1" (Some "+963900000001") None "A7K9P2" "VERIFY"
    verified 1 600000 (Some 9000%Z) None (Some "in_1") None 0.

Definition hosted_server : Server Store := mkServer (mkWorld (set_rows t_verifications [verified_row] empty_db) [] []) ∅ [].

Lemma widget_follows_server_witness :
  let D := iso_only in
  exists c reply s' body,
    run no_stop [EStart; ETick 1000] sample_widget = Some c /\
    hosted_serve default_config (get_status default_config at_1000)
      (to_request "10.0.0.9" "req" "vrf_1"
         {| hr_method := "GET"; hr_url := "https://otp.example/v/vrf_1/status"; hr_headers := [("Accept", "application/json")];
            hr_body := None |} None JNull) hosted_server = (reply, s') /\
    poll_result (reply_status reply) (reply_text reply) = Some (Answer body) /\
    cv_status (c_state (settle no_stop (Answer body) 9100 (poll c))) = verified.
Proof.
  intros D. run_to c E.
  destruct (widget_follows_server no_stop default_config at_1000 "10.0.0.9" "req" verified_row hosted_server
    "https://otp.example/" sample_verification 0 _ c 9100 ltac:(repeat constructor) ltac:(by left) eq_refl
    ltac:(vm_compute; reflexivity) eq_refl sample_hides E ltac:(by_running E c_stopped false)
    ltac:(by_running E (fun c => cv_status (c_state c)) pending) ltac:(by_running E (fun c => cv_id (c_state c)) "vrf_1"))
    as (_ & reply & s' & body & Es & _ & Ep & Ev & _).
  exists c, reply, s', body. split; [reflexivity|]. split.
  - assert (Eu : strip_trailing_slashes (c_baseUrl c) = "https://otp.example")
      by (by_running E (fun c => strip_trailing_slashes (c_baseUrl c)) "https://otp.example").
    rewrite Eu in Es. exact Es.
  - split; [exact Ep|]. rewrite Ev. reflexivity.
Defined.
