(* ===== verification/Sdk.v ===== *)
(** * The JavaScript SDK: [packages/sdk-js/src/index.ts]

    The client of the public API: its options, its requests, how it reads a
    response, and [waitForVerification].  [fetch] is an argument: it answers a
    request with a status and a text or fails with a named error.  The request
    time-out is that failure with the name [AbortError]. *)

From S2P Require Import Prelude JsString Json JsonParse Errors Phone Config Schema Webhooks PhoneBindings Verifications RateLimit Server Auth WebAuthn Routes Client Wire.
From Stdlib Require Import String Ascii.

Open Scope string_scope.
Open Scope js_scope.

(** What the SDK throws: a [SyrotpError], a [TypeError] of its own checks, or the
    [DOMException] of an aborted wait. *)
Inductive SdkError : Type :=
  | SyrotpError (code : json) (message : string) (status : Z) (requestId : option json)
  | SdkTypeError (message : string)
  | AbortError.

Record SyrotpClientOptions : Type := {
  co_baseUrl : string; co_apiKey : string; co_timeoutMs : option Z; co_userAgent : option string;
}.

Record SyrotpClient : Type := {
  sc_baseUrl : string; sc_apiKey : string; sc_timeoutMs : Z; sc_userAgent : string;
}.

Definition DEFAULT_TIMEOUT_MS : Z := 15000.
Definition SDK_VERSION : string := "0.1.0".

Definition new_SyrotpClient (opts : SyrotpClientOptions) : outcome SdkError SyrotpClient :=
  if negb (startsWith (co_baseUrl opts) "http://" || startsWith (co_baseUrl opts) "https://")
  then Throw (SdkTypeError "baseUrl must be an http(s) URL")
  else if negb (nonempty (co_apiKey opts)) then Throw (SdkTypeError "apiKey is required")
  else Return {|
    sc_baseUrl := strip_trailing_slashes (co_baseUrl opts); sc_apiKey := co_apiKey opts;
    sc_timeoutMs := default DEFAULT_TIMEOUT_MS (co_timeoutMs opts);
    sc_userAgent := "syrotp-sdk-js/" ++ SDK_VERSION ++
      match co_userAgent opts with Some ua => if nonempty ua then " " ++ ua else "" | None => "" end |}.

(** ** Requests *)

(** A property of an object literal may be [undefined]. *)
Definition stripUndefined (o : list (string * option json)) : json :=
  JObj (flat_map (fun '(k, v) => match v with Some j => [(k, j)] | None => [] end) o).

Inductive FetchResult : Type :=
  | Responded (status : Z) (text : string)
  | FetchFailed (name message : string)   (** an [Error], while connecting or while reading *)
  | FetchThrew.                           (** anything else *)

Definition http_request (c : SyrotpClient) (method path : string) (body : option (list (string * option json)))
    : HttpRequest :=
  {| hr_method := method; hr_url := sc_baseUrl c ++ path;
     hr_headers := ("Authorization", "Bearer " ++ sc_apiKey c) :: ("User-Agent", sc_userAgent c) ::
                   ("Accept", "application/json") ::
                   match body with Some _ => [("Content-Type", "application/json")] | None => [] end;
     hr_body := (fun o => stringify (stripUndefined o)) <$> body |}.

(** [a?.k] of a value that may be missing *)
Definition optional_field (k : string) (e : option json) : option json :=
  match e with Some JNull | None => None | Some j => jfield k j end.

(** [a ?? b] *)
Definition nullish (a : option json) (b : json) : json :=
  match a with Some JNull | None => b | Some j => j end.

Definition ok (status : Z) : bool := (200 <=? status)%Z && (status <? 300)%Z.

(** The body of the [try] after the response's text; the [catch] around it. *)
Definition read_response (status : Z) (json : json) : outcome SdkError Json.json :=
  if ok status then Return json
  else match js_get "error" json with
       | Throw _ => Throw (SyrotpError (JStr "network_error") "Cannot read properties of null (reading 'error')" 0 None)
       | Return e =>
           Throw (SyrotpError (nullish (optional_field "code" e) (JStr ("http_" ++ num_to_string status)))
             (js_String (nullish (optional_field "message" e) (JStr ("request failed with status " ++ num_to_string status))))
             status (optional_field "request_id" e))
       end.

(** [None]: the text is outside the model of [JSON.parse]. *)
Definition read_result (r : FetchResult) : option (outcome SdkError json) :=
  match r with
  | Responded status text =>
      if (slen text =? 0)%nat then Some (read_response status (JObj []))
      else match json_parse text with
           | Done j _ => Some (read_response status j)
           | SyntaxError =>
               Some (Throw (SyrotpError (JStr "bad_response")
                 ("non-JSON response (status " ++ num_to_string status ++ ")") status None))
           | _ => None
           end
  | FetchFailed name message =>
      Some (Throw (if String.eqb name "AbortError" then SyrotpError (JStr "timeout") "request timed out" 408 None
                   else SyrotpError (JStr "network_error") message 0 None))
  | FetchThrew => Some (Throw (SyrotpError (JStr "network_error") "network error" 0 None))
  end.

Section Client.
Context (fetch : HttpRequest -> FetchResult) (c : SyrotpClient).

Definition request (method path : string) (body : option (list (string * option json)))
    : option (outcome SdkError json) :=
  read_result (fetch (http_request c method path body)).

Record StartVerificationInput : Type := {
  in_phone : string; in_purpose : string; in_clientRef : option string; in_locale : option string;
}.

Definition start_fields (input : StartVerificationInput) : list (string * option json) :=
  [("phone", Some (JStr (in_phone input))); ("purpose", Some (JStr (in_purpose input)));
   ("client_ref", JStr <$> in_clientRef input); ("locale", JStr <$> in_locale input)].

Definition startVerification (input : StartVerificationInput) : option (outcome SdkError json) :=
  request "POST" "/v1/verifications" (Some (start_fields input)).

Definition valid_id (id : string) : bool := matches_prefixed "vrf_" is_alnum id.

Definition getVerification (id : string) : option (outcome SdkError json) :=
  if negb (valid_id id) then Some (Throw (SdkTypeError "invalid verification id"))
  else request "GET" ("/v1/verifications/" ++ encodeURIComponent id) None.

Definition cancelVerification (id : string) : option (outcome SdkError json) :=
  if negb (valid_id id) then Some (Throw (SdkTypeError "invalid verification id"))
  else request "POST" ("/v1/verifications/" ++ encodeURIComponent id ++ "/cancel") None.
End Client.

(** ** [waitForVerification] *)

Record WaitOptions : Type := { wo_intervalMs : option Z; wo_timeoutMs : option Z }.

Definition wait_interval (opts : WaitOptions) : Z := Z.max 2000 (default 2500%Z (wo_intervalMs opts)).
Definition wait_timeout (opts : WaitOptions) : Z := default (5 * 60000)%Z (wo_timeoutMs opts).

(** The delay a timer of the runtime takes for [setTimeout(f, ms)]: above 2^31-1 it is 1. *)
Definition timer_delay (ms : Z) : Z := if (1 <=? ms)%Z && (ms <=? 2147483647)%Z then ms else 1.

Inductive WaitResult : Type :=
  | Settled (v : json)
  | WaitThrew (e : SdkError)
  | OutsideModel
  | WaitFuel.

(** [v.status !== "pending"] *)
Definition still_pending (v : json) : outcome SdkError bool :=
  match js_get "status" v with
  | Throw _ => Throw (SdkTypeError "Cannot read properties of null (reading 'status')")
  | Return (Some (JStr s)) => Return (String.eqb s "pending")
  | Return _ => Return false
  end.

(** [now i] is the reading of the clock at the [i]-th test of the loop, [poll i] the
    outcome of its request, [aborted i] whether the signal was aborted at the test, and
    [woken i] whether it was before the sleep that follows was over. *)
Section Wait.
Context (now : nat -> Z) (poll : nat -> option (outcome SdkError json)) (aborted woken : nat -> bool).

Fixpoint wait_loop (deadline : Z) (fuel i : nat) : WaitResult :=
  match fuel with
  | O => WaitFuel
  | S fuel =>
      if (now i <? deadline)%Z then
        if aborted i then WaitThrew AbortError
        else match poll i with
        | None => OutsideModel
        | Some (Throw e) => WaitThrew e
        | Some (Return v) =>
            match still_pending v with
            | Throw e => WaitThrew e
            | Return false => Settled v
            | Return true => if woken i then WaitThrew AbortError else wait_loop deadline fuel (S i)
            end
        end
      else WaitThrew (SyrotpError (JStr "timeout") "waitForVerification timed out" 408 None)
  end.

Definition waitForVerification (start : Z) (opts : WaitOptions) (fuel : nat) : WaitResult :=
  wait_loop (start + wait_timeout opts)%Z fuel 0.
End Wait.

(** ** What the server reads *)

Lemma strip_Some k j o : stripUndefined ((k, Some j) :: o) = match stripUndefined o with JObj fs => JObj ((k, j) :: fs) | x => x end.
Proof. done. Qed.

Lemma start_fields_exact input : exact (stripUndefined (start_fields input)) = true.
Proof. unfold start_fields, stripUndefined. destruct (in_clientRef input), (in_locale input); reflexivity. Qed.

(** Options of a client whose key survives the trip in a header. *)
Definition header_safe (s : string) : Prop := trim s = s /\ s <> "".

(** The bounds of the route's schema. *)
Definition input_ok (input : StartVerificationInput) : Prop :=
  (5 <= slen (in_phone input) <= 20)%nat /\ (2 <= slen (in_purpose input) <= 64)%nat /\
  (forall r, in_clientRef input = Some r -> (slen r <= 128)%nat) /\
  (forall l, in_locale input = Some l -> (slen l <= 16)%nat).

Lemma z_string_ok lo hi s : (lo <= slen s <= hi)%nat -> z_string lo hi (Some (JStr s)) = Some s.
Proof. intros [H1 H2]. cbn. by rewrite (proj2 (Nat.leb_le _ _) H1), (proj2 (Nat.leb_le _ _) H2). Qed.

Lemma z_optional_string hi (o : option string) :
  (forall s, o = Some s -> (slen s <= hi)%nat) -> z_optional (z_string 0 hi) (JStr <$> o) = Some o.
Proof. intros H. destruct o as [s|]; [|done]. cbn [z_optional fmap option_fmap option_map]. rewrite z_string_ok; [done|]. split; [lia|by apply H]. Qed.

Lemma start_fields_get input :
  let j := stripUndefined (start_fields input) in
  jfield "phone" j = Some (JStr (in_phone input)) /\ jfield "purpose" j = Some (JStr (in_purpose input)) /\
  jfield "client_ref" j = JStr <$> in_clientRef input /\ jfield "locale" j = JStr <$> in_locale input /\
  jfield "operator" j = None.
Proof. unfold start_fields, stripUndefined. by destruct (in_clientRef input), (in_locale input). Qed.

Lemma start_fields_read input :
  input_ok input ->
  startBody (stripUndefined (start_fields input))
  = Some {| st_phone := in_phone input; st_purpose := in_purpose input; st_client_ref := in_clientRef input;
            st_locale := in_locale input; st_operator := None |}.
Proof.
  intros (Hp & Hu & Hr & Hl). destruct (start_fields_get input) as (E1 & E2 & E3 & E4 & E5). unfold startBody.
  rewrite E1, E2, E3, E4, E5. rewrite (z_string_ok 5 20 _ Hp), (z_string_ok 2 64 _ Hu).
  rewrite (z_optional_string 128 _ Hr), (z_optional_string 16 _ Hl). done.
Qed.

Lemma bearer_of req k :
  header req "authorization" = Some (String.append "Bearer " k) -> trim k = k -> k <> "" -> extractBearer req = Some k.
Proof.
  intros Hh Ht Hne. unfold extractBearer, truthy_header. rewrite Hh.
  assert (Hn : nonempty (String.append "Bearer " k) = true) by done. rewrite Hn, startsWith_app.
  assert (Hs : slice_from (String.append "Bearer " k) 7 = k) by exact (slice_from_app "Bearer " k).
  cbn [negb]. rewrite Hs, Ht. by destruct k.
Qed.

(** What [startVerification] sends is what the route reads: behind the body parser the
    request carries the client's key as its bearer token and, for an input within the
    schema's bounds, a body that the route's schema reads back field by field, with the
    fields that were left out left out. *)
Theorem sdk_start_decoded opts c input ip id message :
  new_SyrotpClient opts = Return c -> header_safe (co_apiKey opts) -> input_ok input ->
  let hr := http_request c "POST" "/v1/verifications" (Some (start_fields input)) in
  exists raw body,
    content message hr = Parsed raw body /\
    let req := to_request ip id "" hr raw body in
    extractBearer req = Some (co_apiKey opts) /\
    startBody (rq_body req)
    = Some {| st_phone := in_phone input; st_purpose := in_purpose input; st_client_ref := in_clientRef input;
              st_locale := in_locale input; st_operator := None |}.
Proof.
  intros Hc [Ht Hne] Hi hr. unfold new_SyrotpClient in Hc. destruct (negb _); [done|]. destruct (negb _); [done|].
  injection Hc as <-. exists (Some (stringify (stripUndefined (start_fields input)))), (stripUndefined (start_fields input)).
  split; [|split].
  - unfold content, hr. cbn [http_request hr_body fmap option_fmap option_map].
    by rewrite rawBodyPlugin_stringify by apply start_fields_exact.
  - apply bearer_of; done.
  - cbn [to_request rq_body]. by apply start_fields_read.
Qed.

(** ** What the client reads *)

(** The fields of an error reply of this server. *)
Definition error_body (code message requestId : string) (j : json) : Prop :=
  exists rest, j = JObj [("error", JObj (("code", JStr code) :: ("message", JStr message) :: ("request_id", JStr requestId) :: rest))].

Lemma handleError_body id err : exists code message, error_body code message id (reply_body (handleError id err)).
Proof.
  destruct err as [st code m d| | | | |st code m [v|]|]; cbn [handleError]; try (eexists _, _, []; reflexivity).
  - exists code, m, (jfield_opt "details" JObj d). done.
  - eexists _, _, [("details", v)]. reflexivity.
  - destruct (_ && _); eexists _, _, []; reflexivity.
Qed.

Lemma read_error status code message id j :
  ok status = false -> error_body code message id j ->
  read_response status j = Throw (SyrotpError (JStr code) message status (Some (JStr id))).
Proof. intros Ho [rest ->]. unfold read_response. by rewrite Ho. Qed.

Lemma read_reply r :
  exact (reply_body r) = true -> read_result (Responded (reply_status r) (reply_text r)) = Some (read_response (reply_status r) (reply_body r)).
Proof.
  intros He. unfold read_result, reply_text. destruct (stringify_start (reply_body r)) as (c & s & E & _).
  rewrite parse_stringify by done. by rewrite E.
Qed.

(** C35: Whatever a handler throws, the SDK's caller gets it as one [SyrotpError] with the
    code, message and status of the reply and the request id of the server's log; and a
    handler's 2xx reply is returned as the body it was given. *)
Theorem sdk_reads_server {R} (handler : Request -> RM R Reply) req s reply s' :
  respond (rq_id req) (handler req) s = (reply, s') -> exact (reply_body reply) = true ->
  let result := read_result (Responded (reply_status reply) (reply_text reply)) in
  (forall err, fst (handler req s) = Throw err -> ok (reply_status reply) = false ->
     exists code message, error_body code message (rq_id req) (reply_body reply) /\
       result = Some (Throw (SyrotpError (JStr code) message (reply_status reply) (Some (JStr (rq_id req)))))) /\
  (ok (reply_status reply) = true -> result = Some (Return (reply_body reply))).
Proof.
  intros Er He result. unfold result. rewrite (read_reply _ He). split.
  - intros err Et Ho. unfold respond in Er. destruct (handler req s) as [o s1]. cbn in Et. subst o. injection Er as <- <-.
    destruct (handleError_body (rq_id req) err) as (code & m & Hb). exists code, m. split; [exact Hb|].
    f_equal. by apply read_error.
  - intros Ho. unfold read_response. by rewrite Ho.
Qed.

(** ** [waitForVerification] ends *)

Section Waiting.
Context (now : nat -> Z) (poll : nat -> option (outcome SdkError json)) (aborted woken : nat -> bool).
Context (start : Z) (opts : WaitOptions).

(** A timer is never early and the clock does not go back. *)
Hypothesis clock_starts : (start <= now 0%nat)%Z.
Hypothesis timers_late : forall i, (now i + timer_delay (wait_interval opts) <= now (S i))%Z.

(** Tests of the loop that are enough. *)
Definition wait_bound : nat := (Z.to_nat (wait_timeout opts / timer_delay (wait_interval opts)) + 2)%nat.

Lemma timer_delay_pos ms : (1 <= timer_delay ms)%Z.
Proof. unfold timer_delay. destruct (Z.leb_spec 1 ms), (Z.leb_spec ms 2147483647); cbn; lia. Qed.

Lemma test_time i : (start + Z.of_nat i * timer_delay (wait_interval opts) <= now i)%Z.
Proof. induction i as [|i IH]; [lia|]. specialize (timers_late i). lia. Qed.

(** The request answered that the verification is still pending. *)
Definition pending_at (i : nat) : Prop := exists v, poll i = Some (Return v) /\ still_pending v = Return true.

(** How the loop ends from the [i]-th test on. *)
Lemma wait_loop_ends fuel i :
  (Z.to_nat (wait_timeout opts / timer_delay (wait_interval opts)) + 2 <= fuel + i)%nat -> (1 <= fuel)%nat ->
  wait_loop now poll aborted woken (start + wait_timeout opts) fuel i <> WaitFuel /\
  (forall v, wait_loop now poll aborted woken (start + wait_timeout opts) fuel i = Settled v ->
     exists n, (i <= n)%nat /\ (now n < start + wait_timeout opts)%Z /\ poll n = Some (Return v) /\
       still_pending v = Return false /\ forall m, (i <= m < n)%nat -> pending_at m).
Proof.
  revert i. induction fuel as [|fuel IH]; intros i Hf H1; [lia|]. cbn [wait_loop].
  destruct (Z.ltb_spec (now i) (start + wait_timeout opts)) as [Hlt|Hge]; [|by split].
  destruct (aborted i); [by split|]. destruct (poll i) as [[v|e]|] eqn:Ep; [|by split|by split].
  destruct (still_pending v) as [[]|e] eqn:Ev; [|split; [done|]|by split].
  - destruct (woken i); [by split|]. pose proof (test_time i) as Ht. pose proof (timer_delay_pos (wait_interval opts)) as Hd.
    set (dl := timer_delay (wait_interval opts)) in *. set (tmo := wait_timeout opts) in *.
    assert (Hi : (Z.of_nat i <= tmo / dl)%Z) by (apply Z.div_le_lower_bound; lia).
    destruct (IH (S i) ltac:(lia) ltac:(lia)) as [IH1 IH2]. split; [exact IH1|]. intros w Hw.
    destruct (IH2 w Hw) as (n & Hn & Hl & Hp & Hs & Hm). exists n. split; [lia|]. do 3 (split; [done|]).
    intros m Hmn. destruct (decide (m = i)) as [->|]; [by exists v|apply Hm; lia].
  - intros w [= <-]. exists i. split; [lia|]. do 3 (split; [done|]). intros m. lia.
Qed.

(** A settled answer within reach is returned. *)
Lemma wait_loop_reaches n v fuel i :
  (now n < start + wait_timeout opts)%Z -> poll n = Some (Return v) -> still_pending v = Return false ->
  (forall m, (m <= n)%nat -> aborted m = false /\ woken m = false) -> (forall m, (m < n)%nat -> pending_at m) ->
  (i <= n)%nat -> (n < fuel + i)%nat ->
  wait_loop now poll aborted woken (start + wait_timeout opts) fuel i = Settled v.
Proof.
  intros Hn Hp Hs Ha Hm. revert i. induction fuel as [|fuel IH]; intros i Hi Hf; [lia|]. cbn [wait_loop].
  assert (Hmono : forall k, (now i <= now (i + k)%nat)%Z).
  { induction k as [|k IHk]; [by rewrite Nat.add_0_r|]. rewrite Nat.add_succ_r. specialize (timers_late (i + k)%nat).
    pose proof (timer_delay_pos (wait_interval opts)). lia. }
  specialize (Hmono (n - i)%nat). replace (i + (n - i))%nat with n in Hmono by lia.
  rewrite (proj2 (Z.ltb_lt _ _)) by lia. destruct (Ha i Hi) as [-> Hw].
  destruct (decide (i = n)) as [->|Hne]; [by rewrite Hp, Hs|].
  destruct (Hm i ltac:(lia)) as (w & -> & ->). rewrite Hw. apply IH; lia.
Qed.

(** C36: [waitForVerification] ends: with timers that are not early, some number of tests
    given by the time-out and the interval is enough whatever the server answers; an
    answer it returns is the first that is not pending and came before the deadline;
    and when such an answer comes and nothing aborts the wait, that is what it returns. *)
Theorem waitForVerification_ends fuel :
  (wait_bound <= fuel)%nat ->
  let result := waitForVerification now poll aborted woken start opts fuel in
  result <> WaitFuel /\
  (forall v, result = Settled v ->
     exists n, (now n < start + wait_timeout opts)%Z /\ poll n = Some (Return v) /\ still_pending v = Return false /\
       forall m, (m < n)%nat -> pending_at m) /\
  (forall n v, (now n < start + wait_timeout opts)%Z -> poll n = Some (Return v) -> still_pending v = Return false ->
     (forall m, (m <= n)%nat -> aborted m = false /\ woken m = false) -> (forall m, (m < n)%nat -> pending_at m) ->
     result = Settled v).
Proof.
  intros Hf result. unfold wait_bound in Hf. destruct (wait_loop_ends fuel 0 ltac:(lia) ltac:(lia)) as [H1 H2]. split; [exact H1|]. split.
  - intros v Hv. destruct (H2 v Hv) as (n & _ & Hn & Hp & Hs & Hm). exists n. do 3 (split; [done|]). intros m Hmn. apply Hm. lia.
  - intros n v Hn Hp Hs Ha Hm. apply (wait_loop_reaches n v fuel 0); try done; [lia|].
    pose proof (test_time n) as Ht. pose proof (timer_delay_pos (wait_interval opts)) as Hd.
    set (dl := timer_delay (wait_interval opts)) in *. set (tmo := wait_timeout opts) in *.
    assert ((Z.of_nat n <= tmo / dl)%Z) by (apply Z.div_le_lower_bound; lia). lia.
Qed.
End Waiting.

(** *** A verification that settles at the third poll *)

Definition sample_poll (i : nat) : option (outcome SdkError json) :=
  read_result (Responded 200 (stringify (JObj [("status", JStr (if (i <? 2)%nat then "pending" else "verified"))]))).

Definition sample_wait : WaitOptions := {| wo_intervalMs := Some 500%Z; wo_timeoutMs := Some 9000%Z |}.

Lemma waitForVerification_ends_witness :
  waitForVerification (fun i => 100 + 2001 * Z.of_nat i)%Z sample_poll (fun _ => false) (fun _ => false) 100 sample_wait 6
  = Settled (JObj [("status", JStr "verified")]).
Proof.
  destruct (waitForVerification_ends (fun i => 100 + 2001 * Z.of_nat i)%Z sample_poll (fun _ => false) (fun _ => false) 100
    sample_wait ltac:(cbn; lia) ltac:(intros i; cbv beta; replace (timer_delay _) with 2000%Z by reflexivity; lia) 6
    ltac:(vm_compute; lia)) as (_ & _ & H).
  apply (H 2%nat); [vm_compute; reflexivity..|done|]. intros m Hm.
  exists (JObj [("status", JStr "pending")]). destruct m as [|[|m]]; [vm_compute; done..|lia].
Defined.

Definition sample_opts : SyrotpClientOptions :=
  {| co_baseUrl := "https://otp.example/"; co_apiKey := "pk_live_0123456789"; co_timeoutMs := None; co_userAgent := None |}.
Definition sample_input : StartVerificationInput :=
  {| in_phone := "+963944000111"; in_purpose := "login"; in_clientRef := Some "user-1"; in_locale := None |}.

Lemma sdk_start_decoded_witness :
  exists c raw body, new_SyrotpClient sample_opts = Return c /\
    content "" (http_request c "POST" "/v1/verifications" (Some (start_fields sample_input))) = Parsed raw body /\
    startBody body = Some {| st_phone := "+963944000111"; st_purpose := "login"; st_client_ref := Some "user-1";
                             st_locale := None; st_operator := None |}.
Proof.
  destruct (new_SyrotpClient sample_opts) as [c|] eqn:E; [|discriminate E].
  destruct (sdk_start_decoded sample_opts c sample_input "10.0.0.1" "req" "" E) as (raw & body & Hc & _ & Hb).
  - split; [vm_compute; reflexivity|discriminate].
  - split; [cbn; lia|]. split; [cbn; lia|]. split; [intros r [= <-]; cbn; lia|discriminate].
  - exists c, raw, body. split; [done|]. split; [exact Hc|exact Hb].
Defined.

Definition sample_handler : Request -> RM unit Reply := fun _ => throw (notFound "verification").
Definition sample_request : Request :=
  {| rq_headers := []; rq_ip := "10.0.0.1"; rq_id := "req"; rq_rawBody := None; rq_body := JNull; rq_param_id := "" |}.

Lemma sdk_reads_server_witness :
  read_result (Responded 404 (stringify (reply_body (handleError "req" (notFound "verification")))))
  = Some (Throw (SyrotpError (JStr "not_found") "verification not found" 404 (Some (JStr "req")))).
Proof.
  destruct (sdk_reads_server sample_handler sample_request (mkServer (mkWorld empty_db [] []) tt [])
    (handleError "req" (notFound "verification")) (mkServer (mkWorld empty_db [] []) tt []) eq_refl ltac:(vm_compute; reflexivity)) as [H _].
  destruct (H (notFound "verification") eq_refl eq_refl) as (code & m & (rest & Hb) & Hr).
  injection Hb as <- <- _. exact Hr.
Defined.

(** An error status with the body [null] is reported as a network failure of status 0. *)
Lemma null_body_loses_status status :
  ok status = false ->
  read_result (Responded status "null")
  = Some (Throw (SyrotpError (JStr "network_error") "Cannot read properties of null (reading 'error')" 0 None)).
Proof. intros Ho. unfold read_result. cbn [String.length Nat.eqb]. change (json_parse "null") with (Done JNull ""). unfold read_response. by rewrite Ho. Qed.
