(* ===== verification/Commands.v ===== *)
(** * The commands: [packages/cli/src/commands], [index.ts]

    [bootstrap], [receiver], [smoke] and [loadtest] over the administration
    functions of the server ([Auth], [Receivers], [Probe]), and the dispatcher.  A
    command runs on the database and what it has written to standard output; it
    returns an exit code or fails with a [CliError].  Help pages, the receiver table and
    the doctor's report are values here, whose text is in [CliText]; the environment
    is an argument, and importing the administration module succeeds.  The request of
    [receiver test] is an argument that changes the world as the server it reaches does. *)

From stdpp Require Import gmap strings.
From S2P Require Import Prelude JsString Json JsonParse JsNumber Date Errors Phone Crypto Aead Config Schema Webhooks PhoneBindings Verifications RateLimit Hmac Server Auth Inbound Receivers Client Wire Probe Sdk Cli.
From Stdlib Require Import String Ascii.

Open Scope string_scope.
Open Scope js_scope.

Inductive Output : Type :=
  | Text (s : string)
  | Page (name : string)
  | JsonText (j : json)
  | Table (headers : list string) (rows : list (list string))
  | Report (checks : list CheckResult).

Record CliState : Type := mkCli { cs_world : World; cs_out : list Output }.

Inductive Failure : Type := Failed (e : CliError) | Unexpected.

Abbreviation CM := (M Failure CliState).

Definition fail_with {A} (e : CliError) : CM A := throw (Failed e).

Definition write (o : Output) : CM unit := modify (fun s => mkCli (cs_world s) (cs_out s ++ [o])%list).

(** A call of the administration module, whose errors are mapped. *)
Definition on_admin {A} (m : SM A) (map_error : exn -> CliError) : CM A :=
  fun s => match m (cs_world s) with
           | (Return a, w) => (Return a, mkCli w (cs_out s))
           | (Throw e, w) => (Throw (Failed (map_error e)), mkCli w (cs_out s))
           end.

(** ** [render.ts] *)

Definition ESC : string := String (ascii_of_nat 27) "".
Definition ansi (color : string) : string :=
  ESC ++ (if String.eqb color "dim" then "[2m" else if String.eqb color "bold" then "[1m" else if String.eqb color "red" then "[31m"
          else if String.eqb color "green" then "[32m" else if String.eqb color "yellow" then "[33m"
          else if String.eqb color "cyan" then "[36m" else "[90m").

(** ** Helpers of the commands *)

Definition strOrNull (v : option FlagValue) : option string :=
  match v with
  | Some (FStr s) => if nonempty (trim s) then Some (trim s) else None
  | _ => None
  end.

Definition is_set (v : option FlagValue) : bool :=
  match v with Some FTrue => true | Some (FStr s) => nonempty s | None => false end.

Definition is_true (v : option FlagValue) : bool := match v with Some FTrue => true | _ => false end.

Definition env_set (env : gmap string string) (name : string) : bool :=
  match env !! name with Some v => nonempty v | None => false end.

(** The message and the constructor's name of an error. *)
Class ErrorText : Type := { error_message : exn -> string; error_constructor : exn -> string }.

Definition connection_error (message : string) : bool :=
  existsb (contains (toUpperCase message)) ["ECONN"; "GETADDRINFO"; "ETIMEDOUT"; "ENOTFOUND"].

Definition mapAdminError `{ErrorText} (hint prefix : string) (err : exn) : CliError :=
  match err with
  | AdminError code message =>
      if existsb (String.eqb code) ["invalid_msisdn"; "invalid_app_id"; "invalid_name"; "invalid_receiver_id"]
      then usage (prefix ++ ": " ++ message) None
      else runtime (prefix ++ ": " ++ message) None
  | _ =>
      if connection_error (error_message err) then unreachable (prefix ++ ": cannot reach Postgres") (Some hint)
      else runtime (prefix ++ ": " ++ error_constructor err) None
  end.

Definition requireDbEnv (env : gmap string string) (hint1 hint2 : string) : CM unit :=
  do! (if env_set env "DATABASE_URL" then ret tt else fail_with (missingConfig "DATABASE_URL is not set" (Some hint1))) in
  (if env_set env "MASTER_ENCRYPTION_KEY" then ret tt
   else fail_with (missingConfig "MASTER_ENCRYPTION_KEY is not set" (Some hint2))).

Definition switch : FlagDef := {| fd_value := false; fd_alias := None |}.
Definition valued : FlagDef := {| fd_value := true; fd_alias := None |}.
Definition help_flag : string * FlagDef := ("help", {| fd_value := false; fd_alias := Some "h" |}).

(** [unknown flag] and [--help], then the command. *)
Definition with_flags (args : list string) (spec : FlagParseSpec) (hint : option string) (page : string)
    (k : FlagParseResult -> CM ExitCode) : CM ExitCode :=
  let flags := parseFlags args spec in
  match fp_unknown flags with
  | Some tok => if nonempty tok then fail_with (usage ("unknown flag: " ++ tok) hint) else k flags
  | None =>
      if is_set (fp_values flags !! "help") then do! write (Page page) in ret OK else k flags
  end.

(** [`missing required arg${missing.length === 1 ? "" : "s"}: ...`] *)
Definition missing_args (missing : list string) : string :=
  "missing required arg" ++ (if (List.length missing =? 1)%nat then "" else "s") ++ ": " ++ join ", " missing.

Definition missing_when {A} (o : option A) (name : string) : list string := match o with None => [name] | Some _ => [] end.

Section Commands.
Context `{ErrorText} `{PhoneLib} `{Gcm} `{Digest} `{Limit1} (cfg : Config) (env : gmap string string) (useColor : bool).

Definition c (color s : string) : string := if useColor then ansi color ++ s ++ ESC ++ "[0m" else s.

(** ** [commands/receiver.ts] *)

Definition receiver_db_env : CM unit :=
  requireDbEnv env "this command writes to Postgres directly — set DATABASE_URL in .env or your shell"
    "needed to wrap/unwrap gateway signing keys at rest".

Definition receiver_error (prefix : string) : exn -> CliError :=
  mapAdminError "check DATABASE_URL and that postgres is running" prefix.

(** Lines joined and ended by line feeds. *)
Definition lines (ls : list string) : Output := Text (join (String newline "") ls ++ String newline "").

Definition added_lines (r : AddReceiverResult) : list string :=
  "" :: (c "green" "✓ " ++ c "bold" "Receiver added") :: "" :: ("  id      " ++ rr_receiverId r)
  :: ("  app     " ++ rr_appId r ++ "  " ++ c "dim" (rr_appName r)) :: ("  name    " ++ rr_name r) :: ("  msisdn  " ++ rr_msisdn r)
  :: List.app (match rr_operator r with Some o => if nonempty o then ["  operator " ++ o] else [] | None => [] end)
       ["" ; c "cyan" "Signing key" ++ " " ++ c "dim" "(shown once — paste into the gateway)"; "  " ++ rr_signingKey r; ""].

Definition add_flags : FlagParseSpec :=
  [("app-id", valued); ("name", valued); ("msisdn", valued); ("operator", valued); ("simulate-heartbeat", switch); help_flag].

Definition runAdd (ulid keyBytes iv : string) (now dbNow : Z) (args : list string) : CM ExitCode :=
  with_flags args add_flags None "receiver add" (fun flags =>
    let appId := strOrNull (fp_values flags !! "app-id") in
    let name := strOrNull (fp_values flags !! "name") in
    let msisdn := strOrNull (fp_values flags !! "msisdn") in
    match appId, name, msisdn with
    | Some appId, Some name, Some msisdn =>
        do! receiver_db_env in
        let! receiver := on_admin
          (addReceiver cfg ulid keyBytes iv now dbNow
             {| ar_appId := appId; ar_name := name; ar_operator := strOrNull (fp_values flags !! "operator"); ar_msisdn := msisdn;
                ar_simulateHeartbeat := is_true (fp_values flags !! "simulate-heartbeat") |})
          (receiver_error "addReceiver") in
        do! write (lines (added_lines receiver)) in
        ret OK
    | _, _, _ =>
        fail_with (usage (missing_args (List.app (missing_when appId "--app-id") (List.app (missing_when name "--name") (missing_when msisdn "--msisdn"))))
          (Some "example: syrotp receiver add --app-id app_... --name syriatel-01 --msisdn +963998887777"))
    end).

Definition serializeRecord (r : ReceiverRecord) : json :=
  JObj [("id", JStr (rec_id r)); ("app_id", JStr (rec_appId r)); ("app_name", JStr (rec_appName r)); ("name", JStr (rec_name r));
        ("operator", jopt JStr (rec_operator r)); ("msisdn", JStr (rec_msisdn r)); ("enabled", JBool (rec_enabled r));
        ("healthy", JBool (rec_healthy r)); ("last_heartbeat_at", jopt (fun t => JStr (toISOString t)) (rec_lastHeartbeatAt r));
        ("last_heartbeat_ago_seconds", jopt JNum (rec_lastHeartbeatAgoSeconds r)); ("created_at", JStr (toISOString (rec_createdAt r)))].

Definition table_row (r : ReceiverRecord) : list string :=
  [rec_id r; rec_msisdn r; rec_name r; default "" (rec_operator r);
   if rec_enabled r then (if rec_healthy r then c "green" "healthy" else c "yellow" "stale") else c "red" "disabled";
   match rec_lastHeartbeatAgoSeconds r with
   | None => c "dim" "never"
   | Some ago => if (ago <? 60)%Z then num_to_string ago ++ "s ago" else num_to_string (ago / 60) ++ "m ago"
   end].

Definition renderTable (rows : list ReceiverRecord) : Output :=
  if (List.length rows =? 0)%nat then Text (c "dim" ("no receivers" ++ String newline ""))
  else Table ["ID"; "MSISDN"; "NAME"; "OPERATOR"; "STATE"; "HEARTBEAT"] (map table_row rows).

Definition list_flags : FlagParseSpec := [("app-id", valued); ("include-disabled", switch); ("json", switch); help_flag].

Definition runList (now : Z) (args : list string) : CM ExitCode :=
  with_flags args list_flags None "receiver list" (fun flags =>
    do! receiver_db_env in
    let! rows := on_admin
      (listReceivers cfg now {| lr_appId := strOrNull (fp_values flags !! "app-id");
                                lr_includeDisabled := Some (is_true (fp_values flags !! "include-disabled") || true) |})
      (receiver_error "listReceivers") in
    do! write (if is_true (fp_values flags !! "json") then JsonText (JArr (map serializeRecord rows)) else renderTable rows) in
    ret OK).

Definition id_flags : FlagParseSpec := [("id", valued); help_flag].

(** [--id] or the first positional argument *)
Definition given_id (flags : FlagParseResult) : option string :=
  match strOrNull (fp_values flags !! "id") with Some id => Some id | None => head (fp_positionals flags) end.

Definition some_id (o : option string) : option string :=
  match o with Some id => if nonempty id then Some id else None | None => None end.

Definition runDisable (args : list string) : CM ExitCode :=
  with_flags args id_flags None "receiver disable" (fun flags =>
    match some_id (given_id flags) with
    | None => fail_with (usage "missing receiver id" (Some "example: syrotp receiver disable rcv_01H...  (or --id rcv_01H...)"))
    | Some id =>
        do! receiver_db_env in
        let! result := on_admin (disableReceiver id) (receiver_error "disableReceiver") in
        do! write (Text ((if dr_wasEnabled result
                          then c "green" "✓" ++ " disabled " ++ dr_id result ++ " "
                          else c "yellow" "·" ++ " " ++ dr_id result ++ " was already disabled ")
                         ++ c "dim" ("(" ++ dr_msisdn result ++ ")") ++ String newline "")) in
        ret OK
    end).

Definition runEnable (args : list string) : CM ExitCode :=
  with_flags args id_flags None "receiver enable" (fun flags =>
    match some_id (given_id flags) with
    | None => fail_with (usage "missing receiver id" (Some "example: syrotp receiver enable rcv_01H...  (or --id rcv_01H...)"))
    | Some id =>
        do! receiver_db_env in
        let! result := on_admin (enableReceiver id) (receiver_error "enableReceiver") in
        do! write (Text ((if en_wasDisabled result
                          then c "green" "✓" ++ " enabled " ++ en_id result ++ " "
                          else c "yellow" "·" ++ " " ++ en_id result ++ " was already enabled ")
                         ++ c "dim" ("(" ++ en_msisdn result ++ ")") ++ String newline "")) in
        ret OK
    end).

Definition test_flags : FlagParseSpec :=
  [("id", valued); ("signing-key", valued); ("base-url", valued); ("timeout", valued); help_flag].

(** [flag ?? process.env[name] ?? null], and its test for emptiness *)
Definition flag_or_env (flag : option FlagValue) (name : string) : option string :=
  some_id (match strOrNull flag with Some s => Some s | None => env !! name end).

(** [Number.parseInt(t, 10)] of a given value, refused when it is not positive. *)
Definition positive_timeout (t : option string) : option (option Z) :=
  match t with
  | None => Some None
  | Some t => match parseInt10 t with Some n => if (0 <? n)%Z then Some (Some n) else None | None => None end
  end.

(** [testReceiver] as a command sees it: the answer, or [None] when it threw, and the
    database as the server behind the URL left it.  The server stores the message of
    the probe before it answers, so also a probe that threw, for its time-out or a
    lost connection, may have changed the database. *)
Definition Probe : Type := ProbeReceiverOptions -> option Z -> World -> option ProbeReceiverResult * World.

Definition send_probe (probe : Probe) (opts : ProbeReceiverOptions) (timeoutMs : option Z) : CM (option ProbeReceiverResult) :=
  fun s => let '(res, w) := probe opts timeoutMs (cs_world s) in (Return res, mkCli w (cs_out s)).

(** From the answer of the probe on.  [latency] is the measured time as
    [toFixed] writes it. *)
Definition test_verdict (latency baseUrl : string) (res : option ProbeReceiverResult) : CM ExitCode :=
  match res with
  | None => fail_with (unreachable ("cannot reach " ++ baseUrl) (Some "is the SYROTP server running? check `syrotp doctor`"))
  | Some res =>
      do! write (Text "") in
      if pb_ok res && negb (pb_matched res) then
        do! write (Text (c "green" "✓" ++ " " ++ c "bold" "receiver healthy" ++ "  " ++ c "gray" ("(" ++ latency ++ "ms)") ++ String newline "")) in
        do! write (Text ("  status        " ++ num_to_string (pb_status res) ++ String newline "")) in
        do! write (Text ("  matched       false  " ++ c "dim" "(expected — probe code is random)" ++ String newline "")) in
        do! (match pb_reason res with
             | Some r => if truthy r then write (Text ("  reason        " ++ js_String r ++ String newline "")) else ret tt
             | None => ret tt
             end) in
        ret OK
      else if (pb_status res =? 401)%Z then
        fail_with (runtime "receiver rejected the probe (401)"
          (Some "signing key likely wrong — re-issue with `syrotp receiver add` or unwrap the original"))
      else if (500 <=? pb_status res)%Z then
        fail_with (unreachable ("server error " ++ num_to_string (pb_status res) ++ " on inbound probe")
          (Some "check server logs and `syrotp doctor`"))
      else fail_with (runtime ("unexpected response: " ++ num_to_string (pb_status res)) None)
  end.

Definition runTest (latency : string) (probe : Probe) (args : list string) : CM ExitCode :=
  with_flags args test_flags None "receiver test" (fun flags =>
    let id := some_id (given_id flags) in
    let signingKey := flag_or_env (fp_values flags !! "signing-key") "SYROTP_GATEWAY_KEY" in
    let baseUrl := flag_or_env (fp_values flags !! "base-url") "SYROTP_BASE_URL" in
    match id, signingKey, baseUrl with
    | Some id, Some signingKey, Some baseUrl =>
        let t := strOrNull (fp_values flags !! "timeout") in
        match positive_timeout t with
        | None => fail_with (usage ("--timeout must be a positive integer (got: " ++ default "" t ++ ")") None)
        | Some timeoutMs =>
            let! res := send_probe probe
              {| po_receiverId := id; po_signingKey := signingKey; po_baseUrl := baseUrl |} timeoutMs in
            test_verdict latency baseUrl res
        end
    | _, _, _ =>
        fail_with (usage ("missing required input: " ++ join ", "
          (List.app (missing_when id "receiver id (positional or --id)")
             (List.app (missing_when signingKey "--signing-key (or SYROTP_GATEWAY_KEY env)")
                (missing_when baseUrl "--base-url (or SYROTP_BASE_URL env)"))))
          (Some "example: syrotp receiver test rcv_01H... --signing-key <hex> --base-url http://localhost:3000"))
    end).

(** The draws of one command: a ULID per row, random bytes, the clocks, and a latency. *)
Record CliDraws : Type := {
  cd_ulid : nat -> string; cd_keyBytes : string; cd_iv : string; cd_bytes : nat -> nat -> nat; cd_now : Z; cd_dbNow : Z; cd_latency : string;
}.

Definition SUBCOMMANDS : list string := ["add"; "list"; "disable"; "enable"; "test"].

Definition runReceiver (d : CliDraws) (probe : Probe) (args : list string)
    : CM ExitCode :=
  match args with
  | first :: rest =>
      if String.eqb first "" || String.eqb first "--help" || String.eqb first "-h" then do! write (Page "receiver") in ret OK
      else if String.eqb first "add" then runAdd (cd_ulid d 0) (cd_keyBytes d) (cd_iv d) (cd_now d) (cd_dbNow d) rest
      else if String.eqb first "list" then runList (cd_now d) rest
      else if String.eqb first "disable" then runDisable rest
      else if String.eqb first "enable" then runEnable rest
      else if String.eqb first "test" then runTest (cd_latency d) probe rest
      else fail_with (usage ("unknown receiver subcommand: " ++ first) (Some ("available: " ++ join " | " SUBCOMMANDS)))
  | [] => do! write (Page "receiver") in ret OK
  end.

(** ** [commands/bootstrap.ts] *)

Definition bootstrap_flags : FlagParseSpec :=
  [("app-name", valued); ("receiver-name", valued); ("msisdn", valued); ("operator", valued); ("simulate-heartbeat", switch); help_flag].

Definition bootstrap_error (prefix : string) : exn -> CliError :=
  mapAdminError "check DATABASE_URL and that the postgres container is running" prefix.

(** [renderSuccess] *)
Definition success_lines (app : BootstrapAppResult) (r : AddReceiverResult) (simulateHeartbeat : bool) : list string :=
  "" :: (c "green" "✓ " ++ c "bold" "SYROTP bootstrap complete") :: "" :: c "cyan" "App" :: ("  id      " ++ ba_appId app)
  :: ("  name    " ++ ba_appName app) :: "" :: (c "cyan" "API keys" ++ " " ++ c "dim" "(shown once — save them now)")
  :: ("  public  " ++ ba_publicKey app) :: ("  secret  " ++ ba_secretKey app) :: "" :: c "cyan" "Receiver"
  :: ("  id      " ++ rr_receiverId r) :: ("  msisdn  " ++ rr_msisdn r) :: ("  name    " ++ rr_name r)
  :: List.app (match rr_operator r with Some o => if nonempty o then ["  operator " ++ o] else [] | None => [] end)
       ["  signing " ++ rr_signingKey r ++ "  " ++ c "dim" "(paste into the Android gateway)"; "";
        if simulateHeartbeat
        then c "yellow" "note: " ++
             c "dim" "--simulate-heartbeat is set — receiver shows healthy without a real gateway. Use only for tests."
        else c "dim" "Pair a gateway and let it heartbeat before starting verifications."].

Definition runBootstrap (d : CliDraws) (args : list string) : CM ExitCode :=
  with_flags args bootstrap_flags (Some "run `syrotp help bootstrap` for usage") "bootstrap" (fun flags =>
    let appName := strOrNull (fp_values flags !! "app-name") in
    let msisdn := strOrNull (fp_values flags !! "msisdn") in
    match appName, msisdn with
    | Some appName, Some msisdn =>
        let receiverName := default "Receiver-1" (strOrNull (fp_values flags !! "receiver-name")) in
        let simulateHeartbeat := is_true (fp_values flags !! "simulate-heartbeat") in
        do! requireDbEnv env "bootstrap writes directly to Postgres — set DATABASE_URL in .env or your shell"
              "needed to wrap the gateway signing key at rest — see SECURITY.md" in
        let! app := on_admin (bootstrapApp cfg (cd_ulid d 1) (cd_ulid d 2) (cd_ulid d 3) (cd_bytes d 0) (cd_bytes d 1) (cd_dbNow d) appName)
                      (bootstrap_error "bootstrapApp failed") in
        let! receiver := on_admin
          (addReceiver cfg (cd_ulid d 0) (cd_keyBytes d) (cd_iv d) (cd_now d) (cd_dbNow d)
             {| ar_appId := ba_appId app; ar_name := receiverName; ar_operator := strOrNull (fp_values flags !! "operator");
                ar_msisdn := msisdn; ar_simulateHeartbeat := simulateHeartbeat |})
          (bootstrap_error ("bootstrapApp succeeded (app=" ++ ba_appId app ++ ") but addReceiver failed")) in
        do! write (lines (success_lines app receiver simulateHeartbeat)) in
        ret OK
    | _, _ =>
        fail_with (usage (missing_args (List.app (missing_when appName "--app-name") (missing_when msisdn "--msisdn")))
          (Some ("example: syrotp bootstrap --app-name " ++ String quote ("My App" ++ String quote " --msisdn +963991234567"))))
    end).

(** ** [commands/smoke.ts] and [commands/loadtest.ts] *)

Inductive HealthResult : Type := Healthy (status version : json) | Unhealthy (reason : string).

(** [defaultHealthProbe] on what [fetch] gave; [syntax] is the engine's message for a body
    that is no JSON, [None] a body outside the model of [JSON.parse]. *)
Definition read_health (syntax : string) (r : FetchResult) : option HealthResult :=
  match r with
  | Responded status text =>
      if negb (ok status) then Some (Unhealthy ("HTTP " ++ num_to_string status))
      else match json_parse text with
           | Done j _ =>
               Some (match js_get "status" j, js_get "version" j with
                     | Return s, Return v => Healthy (nullish s (JStr "?")) (nullish v (JStr "?"))
                     | _, _ => Unhealthy "Cannot read properties of null (reading 'status')"
                     end)
           | SyntaxError => Some (Unhealthy syntax)
           | _ => None
           end
  | FetchFailed _ message => Some (Unhealthy message)
  | FetchThrew => Some (Unhealthy "undefined")
  end.

Definition REQUIRED_ENV : list string :=
  ["SYROTP_BASE_URL"; "SYROTP_PUBLIC_KEY"; "SYROTP_SECRET_KEY"; "SYROTP_RECEIVER_ID"; "SYROTP_GATEWAY_KEY"; "SYROTP_PHONE"].

(** [Spawner.run]: the exit code of a child, by its command line. *)
Context (probe_health : string -> HealthResult) (spawn : string -> list string -> Z) (execPath : string).

Definition runSmoke (args : list string) : CM ExitCode :=
  with_flags args [help_flag] (Some "run `syrotp help smoke` for usage") "smoke" (fun flags =>
    match fp_positionals flags with
    | p :: _ => fail_with (usage ("unexpected argument: " ++ p)
                  (Some "smoke takes no positional args; configure via env (see `syrotp help smoke`)"))
    | [] =>
        let missing := List.filter (fun k => negb (env_set env k)) REQUIRED_ENV in
        if (0 <? List.length missing)%nat then
          fail_with (missingConfig ("smoke needs env: " ++ join ", " missing)
            (Some "run `syrotp bootstrap` to mint keys, then export them and SYROTP_PHONE"))
        else
          let baseUrl := default "" (env !! "SYROTP_BASE_URL") in
          match probe_health baseUrl with
          | Unhealthy reason =>
              fail_with (unreachable ("cannot reach " ++ baseUrl ++ "/v1/health: " ++ reason)
                (Some "is the SYROTP server running? check `syrotp doctor`"))
          | Healthy _ version =>
              do! write (Text (c "cyan" "smoke" ++ " → target " ++ c "dim" baseUrl ++ " "
                ++ c "dim" ("(server ok, version=" ++ js_String version ++ ")") ++ String newline "")) in
              let code := spawn execPath ["scripts/smoke.mjs"] in
              if (code =? 0)%Z then
                do! write (Text (c "green" "✓" ++ " " ++ c "bold" "smoke PASS" ++ String newline "")) in ret OK
              else
                do! write (Text (c "red" "✗" ++ " " ++ c "bold" ("smoke FAIL (script exit " ++ num_to_string code ++ ")") ++ String newline "")) in
                fail_with (if (code =? 3)%Z then unreachable "smoke probe said server didn't respond" None
                           else if (code =? 2)%Z then missingConfig "smoke reported missing env (CLI pre-check missed it)" None
                           else runtime ("smoke script exited " ++ num_to_string code) None)
          end
    end).

Definition preflightOrThrow : CM unit :=
  if negb (env_set env "SYROTP_BASE_URL") then
    fail_with (missingConfig "SYROTP_BASE_URL is not set"
      (Some "loadtest needs to know where to drive traffic — set SYROTP_BASE_URL or run `syrotp doctor`"))
  else
    let baseUrl := default "" (env !! "SYROTP_BASE_URL") in
    match probe_health baseUrl with
    | Unhealthy reason =>
        fail_with (unreachable ("cannot reach " ++ baseUrl ++ "/v1/health: " ++ reason)
          (Some "is the SYROTP server running? check `syrotp doctor`"))
    | Healthy _ version =>
        write (Text (c "dim" ("pre-flight: server reachable (" ++ baseUrl ++ ", version=" ++ js_String version ++ ")") ++ String newline ""))
    end.

Definition mapLoadtestExit (code : Z) (variant : string) : CM ExitCode :=
  if (code =? 0)%Z then
    do! write (Text (c "green" "✓" ++ " " ++ c "bold" ("loadtest:" ++ variant ++ " PASS") ++ String newline "")) in ret OK
  else
    do! write (Text (c "red" "✗" ++ " " ++ c "bold" ("loadtest:" ++ variant ++ " FAIL (tool exit " ++ num_to_string code ++ ")")
                     ++ String newline "")) in
    fail_with (if (code =? 3)%Z then unreachable "loadtest tool reported server unreachable" None
               else if (code =? 2)%Z then runtime "loadtest tool reported bad arguments (CLI bug)" None
               else runtime ("loadtest:" ++ variant ++ " acceptance failed") None).

Definition loadtest_flags : FlagParseSpec := [help_flag; ("continue-on-fail", switch); ("csv", switch)].

Definition no_positionals (flags : FlagParseResult) (k : CM ExitCode) : CM ExitCode :=
  match fp_positionals flags with p :: _ => fail_with (usage ("unexpected argument: " ++ p) None) | [] => k end.

Definition runQuick (args : list string) : CM ExitCode :=
  with_flags args loadtest_flags None "loadtest quick" (fun flags =>
    if is_set (fp_values flags !! "continue-on-fail") then
      fail_with (usage "--continue-on-fail is only valid for `loadtest release-baseline`"
        (Some "the quick path runs two scenarios via pnpm && — there's no suite to continue"))
    else if is_set (fp_values flags !! "csv") then
      fail_with (usage "--csv is only valid for `loadtest release-baseline`"
        (Some "the quick path doesn't pass flags through to its scenarios"))
    else no_positionals flags (
      do! preflightOrThrow in
      do! write (Text (c "cyan" "loadtest:quick" ++ " → " ++ c "dim" "scenario-a (50 workers) + replay-storm" ++ String newline "")) in
      mapLoadtestExit (spawn "pnpm" ["loadtest:quick"]) "quick")).

Definition runReleaseBaseline (args : list string) : CM ExitCode :=
  with_flags args loadtest_flags None "loadtest release-baseline" (fun flags => no_positionals flags (
    do! preflightOrThrow in
    let continue := is_set (fp_values flags !! "continue-on-fail") in
    let csv := is_set (fp_values flags !! "csv") in
    let passthrough := "suite" :: "release-baseline" :: List.app (if continue then ["--continue-on-fail"] else []) (if csv then ["--csv"] else []) in
    let flagSummary := List.app (if continue then ["continue-on-fail"] else []) (if csv then ["csv"] else []) in
    do! write (Text (c "cyan" "loadtest:release-baseline" ++ " → 5-step suite " ++
      (if (0 <? List.length flagSummary)%nat then c "dim" ("[" ++ join ", " flagSummary ++ "]") else "") ++ String newline "")) in
    let code := spawn "pnpm" ("--filter" :: "@syrotp/loadtest" :: "start" :: passthrough) in
    do! write (Text (c "dim" ("Reports: tools/loadtest/reports/<latest>-release-baseline/aggregate.json + summary.md" ++ String newline ""))) in
    mapLoadtestExit code "release-baseline")).

Definition runLoadtest (args : list string) : CM ExitCode :=
  match args with
  | first :: rest =>
      if String.eqb first "" || existsb (String.eqb first) ["--help"; "-h"; "help"] then do! write (Page "loadtest") in ret OK
      else if String.eqb first "quick" then runQuick rest
      else if String.eqb first "release-baseline" then runReleaseBaseline rest
      else fail_with (usage ("unknown loadtest subcommand: " ++ first) (Some "available: quick | release-baseline"))
  | [] => do! write (Page "loadtest") in ret OK
  end.

(** ** [index.ts] *)

Definition doctor_flags : FlagParseSpec := [("env-file", valued); ("timeout", valued); help_flag].

(** [runDoctor] is given the file and the time-out; its checks are [doctor] here. *)
Definition doctor_command (doctor : option string -> option Z -> list CheckResult) (args : list string) : CM ExitCode :=
  with_flags args doctor_flags (Some "run `syrotp help doctor` for usage") "doctor" (fun flags =>
    let str := fun v => match v with Some (FStr s) => Some s | _ => None end in
    let timeoutRaw := str (fp_values flags !! "timeout") in
    match positive_timeout timeoutRaw with
    | None => fail_with (usage ("--timeout must be a positive integer (got: " ++ default "" timeoutRaw ++ ")") None)
    | Some timeoutMs =>
        let all := doctor (str (fp_values flags !! "env-file")) timeoutMs in
        do! write (Report all) in
        ret (doctor_verdict all)
    end).

(** The page [helpText] of help.ts gives for a topic. *)
Definition help_page (topic : option string) : string :=
  let t := default "help" topic in
  if existsb (String.eqb t) ["doctor"; "bootstrap"; "receiver"; "smoke"; "loadtest"] then t else "help".

Definition main (d : CliDraws) (probe : Probe)
    (doctor : option string -> option Z -> list CheckResult) (version : string) (argv : list string) : CM ExitCode :=
  let parsed := parseTopLevel argv in
  match pa_command parsed with
  | CmdHelp topic => do! write (Page (help_page topic)) in ret OK
  | CmdVersion => do! write (Text ("syrotp " ++ version ++ String newline "")) in ret OK
  | CmdDoctor => doctor_command doctor (pa_rest parsed)
  | CmdBootstrap => runBootstrap d (pa_rest parsed)
  | CmdReceiver => runReceiver d probe (pa_rest parsed)
  | CmdSmoke => runSmoke (pa_rest parsed)
  | CmdLoadtest => runLoadtest (pa_rest parsed)
  | CmdUnknown token => fail_with (usage ("unknown command: " ++ token) (Some "run `syrotp --help` to see available commands"))
  end.
End Commands.

(** The exit code of the process. *)
Definition process_exit (o : outcome Failure ExitCode) : ExitCode :=
  match o with Return code => code | Throw (Failed e) => ce_code e | Throw Unexpected => RUNTIME end.

(** ** What a command may do *)

Definition failure_codes : list ExitCode := [RUNTIME; USAGE; MISSING_CONFIG; UNREACHABLE].

(** Only the receivers differ. *)
Definition receivers_only (w w' : World) : Prop := exists t, w' = set_db (set_rows t_receivers t) w.

(** Failing shows nothing, and has a documented code. *)
Definition quiet_failure (s s' : CliState) (f : Failure) : Prop :=
  (cs_out s' = cs_out s \/ cs_out s' = cs_out s ++ [Text ""])%list /\
  exists e, f = Failed e /\ In (ce_code e) failure_codes.

(** Failing also changes nothing. *)
Definition clean_failure (s s' : CliState) (f : Failure) : Prop :=
  cs_world s' = cs_world s /\ quiet_failure s s' f.

Definition atomic_admin {A} (m : SM A) : Prop :=
  forall w, match m w with (Return _, w') => receivers_only w w' | (Throw _, w') => w' = w end.

Definition clean_command (m : CM ExitCode) : Prop :=
  forall s, match m s with
            | (Return code, s') => code = OK /\ receivers_only (cs_world s) (cs_world s')
            | (Throw f, s') => clean_failure s s' f
            end.

Lemma receivers_only_same w : receivers_only w w.
Proof. exists (receivers (db w)). by destruct w as [[] ?]. Qed.
#[local] Hint Resolve receivers_only_same : core.

Lemma clean_fail e : In (ce_code e) failure_codes -> clean_command (fail_with e).
Proof. intros He s. split; [done|]. split; [by left|]. by exists e. Qed.

Lemma clean_page o : clean_command (do! write o in ret OK).
Proof. intros s. split; [done|]. apply receivers_only_same. Qed.

Lemma clean_with_flags args spec hint page k :
  (forall flags, clean_command (k flags)) -> clean_command (with_flags args spec hint page k).
Proof.
  intros Hk. unfold with_flags. destruct (fp_unknown _) as [tok|].
  - destruct (nonempty tok); [|apply Hk]. apply clean_fail. cbn. auto.
  - destruct (is_set _); [apply clean_page|apply Hk].
Qed.

(** A call of the module followed by its report. *)
Lemma clean_on_admin {A} (m : SM A) map_error report :
  atomic_admin m -> (forall e, In (ce_code (map_error e)) failure_codes) ->
  clean_command (let! a := on_admin m map_error in do! write (report a) in ret OK).
Proof.
  intros Hm He s. unfold bind at 1, on_admin. specialize (Hm (cs_world s)). destruct (m (cs_world s)) as [[a|e] w]; cbn.
  - by split.
  - subst w. split; [done|]. split; [by left|]. by eexists.
Qed.

Section Receiver.
Context `{ErrorText} `{PhoneLib} `{Gcm} `{Digest} `{Limit1} (cfg : Config) (env : gmap string string) (useColor : bool).

Lemma mapAdminError_codes hint prefix e : In (ce_code (mapAdminError hint prefix e)) failure_codes.
Proof.
  unfold mapAdminError. destruct e; repeat case_match; cbn; auto.
Qed.

Lemma clean_env m : clean_command m -> clean_command (do! receiver_db_env env in m).
Proof.
  intros Hm s. unfold receiver_db_env, requireDbEnv.
  destruct (env_set env "DATABASE_URL"); [|apply (clean_fail (missingConfig _ _)); cbn; auto].
  destruct (env_set env "MASTER_ENCRYPTION_KEY"); [|apply (clean_fail (missingConfig _ _)); cbn; auto].
  apply Hm.
Qed.

Lemma atomic_addReceiver ulid keyBytes iv now dbNow opts : atomic_admin (addReceiver cfg ulid keyBytes iv now dbNow opts).
Proof.
  intros w. destruct (addReceiver _ _ _ _ _ _ _ w) as [o w'] eqn:E.
  destruct (addReceiver_cases _ _ _ _ _ _ _ _ _ _ E) as [(res & -> & app & rc & n & _ & _ & _ & _ & -> & _)|(e & -> & -> & _)]; [|done].
  by eexists.
Qed.

Lemma atomic_disable id : atomic_admin (disableReceiver id).
Proof.
  intros w. unfold disableReceiver. rewrite bind_throw_if. destruct (negb _); [done|]. rewrite bind_select_one.
  destruct (limit1 _) as [row|]; [|done]. destruct (negb _); [cbn; auto|]. rewrite bind_update. by eexists.
Qed.

Lemma atomic_enable id : atomic_admin (enableReceiver id).
Proof.
  intros w. unfold enableReceiver. rewrite bind_throw_if. destruct (negb _); [done|]. rewrite bind_select_one.
  destruct (limit1 _) as [row|]; [|done]. destruct (r_enabled _); [cbn; auto|]. rewrite bind_update. by eexists.
Qed.

(** The verdict on an answer changes nothing. *)
Lemma clean_test latency baseUrl res s :
  match test_verdict useColor latency baseUrl res s with
  | (Return code, s') => code = OK /\ cs_world s' = cs_world s
  | (Throw f, s') => clean_failure s s' f
  end.
Proof.
  unfold test_verdict. destruct res as [res|]; [|apply clean_fail; cbn; auto 6].
  unfold bind at 1, write at 1, modify at 1. destruct (pb_ok res && negb (pb_matched res)).
  - destruct (pb_reason res) as [r|]; [destruct (truthy r)|]; cbn; auto.
  - assert (Hf : forall e, In (ce_code e) failure_codes ->
      clean_failure s (mkCli (cs_world s) (cs_out s ++ [Text ""])) (Failed e)).
    { intros e He. split; [done|]. split; [by right|]. by exists e. }
    destruct (pb_status res =? 401)%Z; [apply Hf; cbn; auto|]. destruct (500 <=? pb_status res)%Z; apply Hf; cbn; auto 6.
Qed.

(** What [receiver test] may do besides: send one request to the server. *)
Definition probed (probe : Probe) (args : list string) (s s' : CliState) : Prop :=
  hd_error args = Some "test" /\ exists opts timeoutMs, cs_world s' = snd (probe opts timeoutMs (cs_world s)).

Definition receiver_run (probe : Probe) (args : list string) (m : CM ExitCode) : Prop :=
  forall s, match m s with
            | (Return code, s') => code = OK /\ (receivers_only (cs_world s) (cs_world s') \/ probed probe args s s')
            | (Throw f, s') => quiet_failure s s' f /\ (cs_world s' = cs_world s \/ probed probe args s s')
            end.

Lemma clean_run probe args m : clean_command m -> receiver_run probe args m.
Proof.
  intros Hm s. specialize (Hm s). destruct (m s) as [[code|f] s'].
  - destruct Hm. auto.
  - destruct Hm. auto.
Qed.

Lemma probe_run probe rest latency baseUrl opts timeoutMs :
  receiver_run probe ("test" :: rest)
    (let! res := send_probe probe opts timeoutMs in test_verdict useColor latency baseUrl res).
Proof.
  intros s. unfold bind at 1, send_probe. destruct (probe opts timeoutMs (cs_world s)) as [res w] eqn:E.
  assert (Hp : forall s', cs_world s' = w -> probed probe ("test" :: rest) s s').
  { intros s' Hw. split; [done|]. exists opts, timeoutMs. by rewrite E, Hw. }
  pose proof (clean_test latency baseUrl res (mkCli w (cs_out s))) as V.
  destruct (test_verdict _ _ _ _ _) as [[code|f] s'].
  - destruct V as [-> Hw]. auto.
  - destruct V as [Hw Hq]. split; [exact Hq|]. auto.
Qed.

Lemma run_with_flags probe args args' spec hint page k :
  (forall flags, receiver_run probe args (k flags)) -> receiver_run probe args (with_flags args' spec hint page k).
Proof.
  intros Hk. unfold with_flags. destruct (fp_unknown _) as [tok|].
  - destruct (nonempty tok); [|apply Hk]. apply clean_run, clean_fail. cbn. auto.
  - destruct (is_set _); [apply clean_run, clean_page|apply Hk].
Qed.


(** *** Disabling and enabling twice *)

Definition repeatable (m : CM ExitCode) : Prop :=
  forall s s1 code, respects receivers_idx (receivers (db (cs_world s))) -> m s = (Return code, s1) ->
    exists s2, m s1 = (Return OK, s2) /\ cs_world s2 = cs_world s1.

Lemma repeatable_fail e : repeatable (fail_with e).
Proof. by intros s s1 code _ E. Qed.

Lemma repeatable_with_flags args spec hint page k :
  (forall flags, repeatable (k flags)) -> repeatable (with_flags args spec hint page k).
Proof.
  intros Hk. unfold with_flags. destruct (fp_unknown _) as [tok|].
  - destruct (nonempty tok); [apply repeatable_fail|apply Hk].
  - destruct (is_set _); [|apply Hk]. intros s s1 code _ E. by eexists.
Qed.

Lemma repeatable_env m : repeatable m -> repeatable (do! receiver_db_env env in m).
Proof.
  intros Hm s s1 code Hr. unfold receiver_db_env, requireDbEnv.
  destruct (env_set env "DATABASE_URL"); [|by intros E]. destruct (env_set env "MASTER_ENCRYPTION_KEY"); [|by intros E].
  intros E. exact (Hm s s1 code Hr E).
Qed.

Lemma repeatable_on_admin {A} (m : SM A) map_error report :
  (forall w a w1, respects receivers_idx (receivers (db w)) -> m w = (Return a, w1) -> exists a', m w1 = (Return a', w1)) ->
  repeatable (let! a := on_admin m map_error in do! write (report a) in ret OK).
Proof.
  intros Hm s s1 code Hr. unfold bind at 1, on_admin at 1. destruct (m (cs_world s)) as [[a|e] w1] eqn:E; [|by intros E'].
  intros [= _ <-]. destruct (Hm _ _ _ Hr E) as [a' E']. eexists. unfold bind at 1, on_admin. cbn [cs_world]. rewrite E'. by split.
Qed.

(** [receiver disable] and [receiver enable] are idempotent as their help pages say: after
    a run that exited 0, the same command exits 0 again and leaves the database as it
    is. *)
Theorem toggle_commands_idempotent (b : bool) args s s1 code :
  let run := if b then runEnable env useColor args else runDisable env useColor args in
  respects receivers_idx (receivers (db (cs_world s))) -> run s = (Return code, s1) ->
  exists s2, run s1 = (Return OK, s2) /\ cs_world s2 = cs_world s1.
Proof.
  intros run. enough (Hr : repeatable run) by apply Hr. unfold run. destruct b; apply repeatable_with_flags; intros flags;
    (destruct (some_id _); [|apply repeatable_fail]); apply repeatable_env, repeatable_on_admin; intros w a w1 Hr E; eexists.
  - exact (enable_again _ _ _ _ Hr E).
  - exact (disable_again _ _ _ _ Hr E).
Qed.
End Receiver.

(** ** Bootstrap *)

Section Bootstrap.
Context `{ErrorText} `{PhoneLib} `{Gcm} `{Digest} `{Limit1} (cfg : Config) (env : gmap string string) (useColor : bool).

(** What a bootstrap that exits 0 has done: the app with its keys, the receiver under it,
    and one page that shows the three secrets. *)
Definition bootstrapped (d : CliDraws) (s s' : CliState) : Prop :=
  exists appName opts app receiver w1 b,
    bootstrapApp cfg (cd_ulid d 1) (cd_ulid d 2) (cd_ulid d 3) (cd_bytes d 0) (cd_bytes d 1) (cd_dbNow d) appName (cs_world s)
      = (Return app, w1) /\
    ar_appId opts = ba_appId app /\
    added cfg (cd_ulid d 0) (cd_keyBytes d) (cd_now d) opts w1 receiver (cs_world s') /\
    cs_out s' = (cs_out s ++ [lines (success_lines useColor app receiver b)])%list.

Definition boot_app (d : CliDraws) (name : string) : SM BootstrapAppResult :=
  bootstrapApp cfg (cd_ulid d 1) (cd_ulid d 2) (cd_ulid d 3) (cd_bytes d 0) (cd_bytes d 1) (cd_dbNow d) name.

Lemma boot_app_receivers d name w : receivers (db (snd (boot_app d name w))) = receivers (db w).
Proof.
  unfold boot_app, bootstrapApp. rewrite bind_throw_if. destruct (_ =? _)%nat; [done|]. cbv zeta. unfold bind. rewrite insert_eq.
  destruct (broken_by _ _ _); [done|]. unfold insert_all. by destruct (insert_all_rows _ _ _).
Qed.

Lemma mapAdminError_not_config hint prefix e :
  In (ce_code (mapAdminError hint prefix e)) failure_codes /\ ce_code (mapAdminError hint prefix e) <> MISSING_CONFIG.
Proof. split; [apply mapAdminError_codes|]. unfold mapAdminError. by destruct e; repeat case_match. Qed.

(** How a bootstrap fails: nothing is shown, and the database is as it was or as
    [bootstrapApp] left it. *)
Definition bootstrap_failed (d : CliDraws) (s s' : CliState) (f : Failure) : Prop :=
  cs_out s' = cs_out s /\ receivers (db (cs_world s')) = receivers (db (cs_world s)) /\
  (s' = s \/ exists name, cs_world s' = snd (boot_app d name (cs_world s))) /\
  exists e, f = Failed e /\ In (ce_code e) failure_codes /\ (ce_code e = MISSING_CONFIG -> s' = s).

Lemma bootstrap_refused d s e : In (ce_code e) failure_codes -> bootstrap_failed d s s (Failed e).
Proof. intros He. split; [done|]. split; [done|]. split; [by left|]. by exists e. Qed.

Lemma bootstrap_admin_failed d s name e' hint prefix :
  bootstrap_failed d s (mkCli (snd (boot_app d name (cs_world s))) (cs_out s)) (Failed (mapAdminError hint prefix e')).
Proof.
  split; [done|]. split; [apply boot_app_receivers|]. split; [right; by exists name|].
  eexists. split; [done|]. destruct (mapAdminError_not_config hint prefix e') as [Hc Hn]. by split.
Qed.

(** [bootstrap] exits 0 only with its help page or with the app, its two keys and its
    receiver stored and shown in one page; on every failure it prints nothing, so no
    secret, adds no receiver, and leaves the database as it was or as [bootstrapApp]
    left it; a missing variable is reported before the database is touched. *)
Theorem bootstrap_command_spec d args s :
  match runBootstrap cfg env useColor d args s with
  | (Return code, s') => code = OK /\
      (s' = mkCli (cs_world s) (cs_out s ++ [Page "bootstrap"])%list \/ bootstrapped d s s')
  | (Throw f, s') => bootstrap_failed d s s' f
  end.
Proof.
  assert (Hu : forall m h, bootstrap_failed d s s (Failed (usage m h))) by (intros; apply bootstrap_refused; cbn; auto).
  unfold runBootstrap, with_flags. set (flags := parseFlags _ _).
  match goal with |- context [if nonempty _ then _ else ?k] => assert (Hk : match k s with
    | (Return code, s') => code = OK /\
        (s' = mkCli (cs_world s) (cs_out s ++ [Page "bootstrap"])%list \/ bootstrapped d s s')
    | (Throw f, s') => bootstrap_failed d s s' f
    end) end.
  { cbv zeta. destruct (strOrNull _) as [appName|]; [|destruct (strOrNull _); apply Hu].
    destruct (strOrNull _) as [msisdn|]; [|apply Hu].
    unfold requireDbEnv. destruct (env_set env "DATABASE_URL"); [|apply bootstrap_refused; cbn; auto].
    destruct (env_set env "MASTER_ENCRYPTION_KEY"); [|apply bootstrap_refused; cbn; auto].
    unfold bind, ret, on_admin. fold (boot_app d appName).
    assert (Hf := fun e p => bootstrap_admin_failed d s appName e "check DATABASE_URL and that the postgres container is running" p).
    destruct (boot_app d appName (cs_world s)) as [[app|e] w1] eqn:Eb; [|apply Hf].
    cbn [cs_world cs_out]. set (opts := Build_AddReceiverOptions _ _ _ _ _).
    destruct (addReceiver _ _ _ _ _ _ opts w1) as [o w2] eqn:Ea.
    destruct (addReceiver_cases _ _ _ _ _ _ _ _ _ _ Ea) as [(res & -> & Hadd)|(e & -> & -> & _)]; [|apply Hf].
    split; [done|]. right. exists appName, opts, app, res, w1, (ar_simulateHeartbeat opts). done. }
  destruct (fp_unknown flags) as [tok|]; [destruct (nonempty tok); [apply Hu|exact Hk]|].
  destruct (is_set _); [|exact Hk]. split; [done|]. by left.
Qed.
End Bootstrap.

(** ** Findings and witnesses *)

Definition shell : gmap string string := {[ "DATABASE_URL" := "postgres://db/otp"; "MASTER_ENCRYPTION_KEY" := "k" ]}.

Definition draws : CliDraws :=
  {| cd_ulid := fun i => match i with 0 => "01A" | 1 => "01B" | 2 => "01C" | _ => "01D" end%nat;
     cd_keyBytes := repeat_char "x"%char 32; cd_iv := "abcdefghijkl"; cd_bytes := fun i j => (i + j)%nat; cd_now := 5000; cd_dbNow := 5000;
     cd_latency := "1.0" |}.

Definition plain_errors : ErrorText := {| error_message := fun _ => "boom"; error_constructor := fun _ => "Error" |}.

Definition empty_world : World := mkWorld empty_db [] [].

Definition boot (msisdn : string) : outcome Failure ExitCode * CliState :=
  runBootstrap (H := plain_errors) (H0 := plain_phones) (H1 := plain_gcm) (H2 := plain_digest) default_config shell false draws
    ["--app-name"; "Shop"; "--msisdn"; msisdn] (mkCli empty_world []).

(** A bad number is refused as a bad argument, after the app and its two keys were
    stored; their secrets are never shown. *)
Lemma bootstrap_strands_app :
  match boot "12" with
  | (Throw (Failed e), s') => ce_code e = USAGE /\ cs_out s' = [] /\ List.length (apps (db (cs_world s'))) = 1%nat /\
      List.length (apiKeys (db (cs_world s'))) = 2%nat /\ receivers (db (cs_world s')) = []
  | _ => False
  end.
Proof. vm_compute. auto. Qed.

Example bootstrap_runs : fst (boot "+963991234567") = Return OK.
Proof. vm_compute. reflexivity. Qed.

(** [--include-disabled] makes no difference. *)
Lemma include_disabled_is_dead `{ErrorText} cfg useColor now s :
  runList cfg shell useColor now ["--include-disabled"] s = runList cfg shell useColor now [] s.
Proof. reflexivity. Qed.

Definition disable_run : outcome Failure ExitCode * CliState :=
  runDisable (H := plain_errors) shell false ["rcv_1"] (mkCli admin_world []).

Lemma toggle_commands_idempotent_witness :
  fst disable_run = Return OK /\
  exists s2, runDisable (H := plain_errors) shell false ["rcv_1"] (snd disable_run) = (Return OK, s2) /\
    cs_world s2 = cs_world (snd disable_run).
Proof.
  assert (E : fst disable_run = Return OK) by (vm_compute; reflexivity). split; [exact E|].
  destruct disable_run as [o s1] eqn:Er. cbn [fst] in E. subst o.
  refine (toggle_commands_idempotent (H := plain_errors) shell false false ["rcv_1"] (mkCli admin_world []) s1 OK ltac:(repeat constructor) Er).
Defined.
