(* ===== verification/Loadtest.v ===== *)
(** * The load-test tool, its measurements: [tools/loadtest/src]

    The latency histogram ([histogram.ts]), the counters ([metrics.ts]), the
    acceptance policies and their evaluation ([acceptance.ts]), the worker pool
    ([workers.ts]) and the synthetic phone numbers ([phone.ts]).  Latencies and
    rates are binary64 numbers; the clock is an argument.  The scenarios that fill
    the counters are in [LoadRun]. *)

From stdpp Require Import gmap strings.
From S2P Require Import Prelude JsString Json Double Date Webhooks.
From Stdlib Require Import String Ascii Sorting.Sorted Floats.SpecFloat.

Open Scope string_scope.
Open Scope js_scope.

(** ** [histogram.ts] *)

Record Latencies : Type := { samples : list double; mn : double; mx : double; sum : double }.

Definition new_Latencies : Latencies :=
  {| samples := []; mn := S754_infinity false; mx := of_Z 0; sum := of_Z 0 |}.

Definition Latencies_add (ms : double) (l : Latencies) : Latencies :=
  if negb (is_finite ms) || dlt ms (of_Z 0) then l
  else {| samples := (samples l ++ [ms])%list;
          mn := if dlt ms (mn l) then ms else mn l;
          mx := if dlt (mx l) ms then ms else mx l;
          sum := dadd (sum l) ms |}.

Definition sample_count (l : Latencies) : Z := Z.of_nat (List.length (samples l)).

Definition Latencies_min (l : Latencies) : double := if (sample_count l =? 0)%Z then of_Z 0 else mn l.
Definition Latencies_max (l : Latencies) : double := mx l.
Definition Latencies_mean (l : Latencies) : double :=
  if (sample_count l =? 0)%Z then of_Z 0 else ddiv (sum l) (of_Z (sample_count l)).

(** [[...this.samples].sort((a, b) => a - b)] *)
Definition sorted (l : Latencies) : list double := order_by dlt (samples l).

(** [Math.min(n - 1, Math.max(0, Math.ceil((p / 100) * n) - 1))] *)
Definition rank_index (p n : Z) : Z :=
  Z.min (n - 1) (Z.max 0 (ceil_Z (dmul (ddiv (of_Z p) (of_Z 100)) (of_Z n)) - 1)).

Definition percentile (p : Z) (l : Latencies) : double :=
  let n := sample_count l in
  if (n =? 0)%Z then of_Z 0
  else if (p <=? 0)%Z then mn l
  else if (100 <=? p)%Z then mx l
  else nth (Z.to_nat (rank_index p n)) (sorted l) S754_nan.

(** [Math.round(n * 100) / 100] *)
Definition round (n : double) : double := ddiv (Math_round (dmul n (of_Z 100))) (of_Z 100).

Record LatencySnapshot : Type := {
  ls_count : Z; min_ms : double; max_ms : double; mean_ms : double; p50_ms : double; p95_ms : double; p99_ms : double;
}.

Definition Latencies_snapshot (l : Latencies) : LatencySnapshot :=
  {| ls_count := sample_count l; min_ms := round (Latencies_min l); max_ms := round (Latencies_max l);
     mean_ms := round (Latencies_mean l); p50_ms := round (percentile 50 l); p95_ms := round (percentile 95 l);
     p99_ms := round (percentile 99 l) |}.

(** ** [metrics.ts] *)

Record OpMetrics : Type := mkOpMetrics {
  latency : Latencies; m_ok : Z; m_expected_4xx : Z; m_unexpected_4xx : Z; m_err_5xx : Z; m_network_err : Z; m_timeout : Z;
  m_total : Z; extras : gmap string Z;
}.

Definition new_OpMetrics : OpMetrics := mkOpMetrics new_Latencies 0 0 0 0 0 0 0 ∅.

Definition bumpExtra (key : string) (m : OpMetrics) : OpMetrics :=
  mkOpMetrics (latency m) (m_ok m) (m_expected_4xx m) (m_unexpected_4xx m) (m_err_5xx m) (m_network_err m) (m_timeout m) (m_total m)
    (<[key := (default 0 (extras m !! key) + 1)%Z]> (extras m)).

(** Requests that succeeded or should have. *)
Definition denominator (m : OpMetrics) : Z := m_ok m + m_unexpected_4xx m + m_err_5xx m + m_network_err m + m_timeout m.

(** [denom === 0 ? 1 : ok / denom] *)
Definition ratio (ok denom : Z) : double := if (denom =? 0)%Z then of_Z 1 else ddiv (of_Z ok) (of_Z denom).

Definition successRate (m : OpMetrics) : double := ratio (m_ok m) (denominator m).

Definition round4 (n : double) : double := ddiv (Math_round (dmul n (of_Z 10000))) (of_Z 10000).

Record OpSnapshot : Type := {
  os_total : Z; os_ok : Z; os_expected_4xx : Z; os_unexpected_4xx : Z; os_err_5xx : Z; os_network_err : Z; os_timeout : Z;
  os_success_rate : double; os_latency : LatencySnapshot; os_extras : gmap string Z;
}.

Definition OpMetrics_snapshot (m : OpMetrics) : OpSnapshot :=
  {| os_total := m_total m; os_ok := m_ok m; os_expected_4xx := m_expected_4xx m; os_unexpected_4xx := m_unexpected_4xx m;
     os_err_5xx := m_err_5xx m; os_network_err := m_network_err m; os_timeout := m_timeout m;
     os_success_rate := round4 (successRate m); os_latency := Latencies_snapshot (latency m); os_extras := extras m |}.

(** The operations, and one bucket for each. *)
Inductive Op : Type := op_start | op_status | op_inbound | op_heartbeat.

#[global] Instance Op_eq_dec : EqDecision Op.
Proof. solve_decision. Defined.

Record RunMetrics : Type := mkRunMetrics {
  bucket : Op -> OpMetrics; double_verifications : Z; unhandled_exceptions : Z; startedAt : Z; finishedAt : Z;
}.

Definition new_RunMetrics (now : Z) : RunMetrics := mkRunMetrics (fun _ => new_OpMetrics) 0 0 now 0.

Definition durationSeconds (now : Z) (m : RunMetrics) : double :=
  let finish := if (0 <? finishedAt m)%Z then finishedAt m else now in
  Math_max (of_Z 0) (ddiv (of_Z (finish - startedAt m)) (of_Z 1000)).

Record RunSnapshot : Type := {
  rs_duration_seconds : double; rs_double_verifications : Z; rs_unhandled_exceptions : Z; rs_bucket : Op -> OpSnapshot;
}.

Definition RunMetrics_snapshot (now : Z) (m : RunMetrics) : RunSnapshot :=
  {| rs_duration_seconds := round4 (durationSeconds now m); rs_double_verifications := double_verifications m;
     rs_unhandled_exceptions := unhandled_exceptions m; rs_bucket := fun op => OpMetrics_snapshot (bucket m op) |}.

(** ** [phone.ts] *)

Definition phoneFromIndex (i : Z) : string :=
  "+96399" ++ pad_num 7 (1000000 + i mod 9000000).

(** ** [acceptance.ts] *)

Record AcceptanceCheck : Type := { ac_name : string; ac_pass : bool; ac_threshold : string; ac_actual : string }.
Record AcceptanceResult : Type := { ar_pass : bool; ar_checks : list AcceptanceCheck }.

Record AcceptancePolicy : Type := {
  successFor : list Op; p95StartMs : option Z; p95InboundMs : option Z; p95StatusMs : option Z; minSuccessRate : option double;
  noDoubleVerifications : bool; noServerErrors : bool;
}.

(** The literals 0.999 and 0.99 *)
Definition point999 : double := ddiv (of_Z 999) (of_Z 1000).
Definition point99 : double := ddiv (of_Z 99) (of_Z 100).

Definition full_policy (p95 : Z) : AcceptancePolicy :=
  {| successFor := [op_start; op_inbound; op_status]; p95StartMs := Some p95; p95InboundMs := Some p95; p95StatusMs := Some p95;
     minSuccessRate := Some point999; noDoubleVerifications := true; noServerErrors := true |}.

Definition defaultPolicy (scenario : string) : AcceptancePolicy :=
  let one := fun names => existsb (String.eqb scenario) names in
  if one ["scenario-a"; "scenario-b"; "full-flow"] then full_policy 400
  else if one ["soak"] then full_policy 500
  else if one ["scenario-c"] then
    {| successFor := [op_start; op_inbound]; p95StartMs := Some 400%Z; p95InboundMs := Some 400%Z; p95StatusMs := None;
       minSuccessRate := Some point999; noDoubleVerifications := true; noServerErrors := true |}
  else if one ["start-only"] then
    {| successFor := [op_start]; p95StartMs := Some 400%Z; p95InboundMs := None; p95StatusMs := None;
       minSuccessRate := Some point999; noDoubleVerifications := false; noServerErrors := true |}
  else if one ["inbound-only"] then
    {| successFor := [op_start; op_inbound]; p95StartMs := None; p95InboundMs := Some 400%Z; p95StatusMs := None;
       minSuccessRate := Some point999; noDoubleVerifications := true; noServerErrors := true |}
  else if one ["status-polling"; "replay-storm"; "wrong-code-storm"] then
    {| successFor := []; p95StartMs := None; p95InboundMs := None; p95StatusMs := None; minSuccessRate := None;
       noDoubleVerifications := false; noServerErrors := true |}
  else if one ["receiver-disabled"] then
    {| successFor := []; p95StartMs := None; p95InboundMs := None; p95StatusMs := None; minSuccessRate := None;
       noDoubleVerifications := false; noServerErrors := false |}
  else if one ["mixed"] then
    {| successFor := [op_start; op_inbound]; p95StartMs := Some 400%Z; p95InboundMs := Some 400%Z; p95StatusMs := None;
       minSuccessRate := Some point99; noDoubleVerifications := true; noServerErrors := true |}
  else
    {| successFor := [op_start]; p95StartMs := None; p95InboundMs := None; p95StatusMs := None; minSuccessRate := None;
       noDoubleVerifications := false; noServerErrors := false |}.

(** [x.toFixed(2)] of a finite number below 10^21. *)
Definition toFixed2 (x : double) : string :=
  match x with
  | S754_finite s m e =>
      let n := round_half_up false (m * 100) e in
      (if s then "-" else "") ++ num_to_string (n / 100) ++ "." ++ (if (n mod 100 <? 10)%Z then "0" else "") ++ num_to_string (n mod 100)
  | S754_zero _ => "0.00"
  | S754_infinity s => if s then "-Infinity" else "Infinity"
  | S754_nan => "NaN"
  end.

Definition ms (n : double) : string := toFixed2 n ++ "ms".
Definition pct (n : double) : string := toFixed2 (dmul n (of_Z 100)) ++ "%".

Definition zero_check (name : string) (n : Z) : AcceptanceCheck :=
  {| ac_name := name; ac_pass := (n =? 0)%Z; ac_threshold := "0"; ac_actual := num_to_string n |}.

Section Evaluate.
Context (metrics : RunMetrics) (policy : AcceptancePolicy).

Definition p95_check (op : Op) (name : string) (threshold : option Z) : list AcceptanceCheck :=
  match threshold with
  | Some t =>
      if (0 <? m_total (bucket metrics op))%Z then
        let v := p95_ms (Latencies_snapshot (latency (bucket metrics op))) in
        [{| ac_name := name; ac_pass := dle v (of_Z t); ac_threshold := ms (of_Z t); ac_actual := ms v |}]
      else []
  | None => []
  end.

Definition rate_over (ops : list Op) : double :=
  ratio (fold_left (fun n op => n + m_ok (bucket metrics op))%Z ops 0%Z)
    (fold_left (fun n op => n + denominator (bucket metrics op))%Z ops 0%Z).

Definition rate_check : list AcceptanceCheck :=
  match minSuccessRate policy with
  | Some r =>
      if (0 <? List.length (successFor policy))%nat then
        let rate := rate_over (successFor policy) in
        [{| ac_name := "success rate ≥ " ++ pct r; ac_pass := dle r rate; ac_threshold := pct r; ac_actual := pct rate |}]
      else []
  | None => []
  end.

Definition total5xx : Z :=
  m_err_5xx (bucket metrics op_start) + m_err_5xx (bucket metrics op_inbound) + m_err_5xx (bucket metrics op_status)
  + m_err_5xx (bucket metrics op_heartbeat).

Definition checks : list AcceptanceCheck :=
  (p95_check op_start "p95 start ≤ threshold" (p95StartMs policy)
   ++ p95_check op_inbound "p95 inbound ≤ threshold" (p95InboundMs policy)
   ++ p95_check op_status "p95 status ≤ threshold" (p95StatusMs policy)
   ++ rate_check
   ++ (if noDoubleVerifications policy then [zero_check "no double-verifications" (double_verifications metrics)] else [])
   ++ (if noServerErrors policy then [zero_check "no 5xx responses" total5xx] else [])
   ++ [zero_check "no unhandled worker exceptions" (unhandled_exceptions metrics)])%list.

Definition evaluate : AcceptanceResult := {| ar_pass := forallb ac_pass checks; ar_checks := checks |}.
End Evaluate.

(** ** [workers.ts]

    A worker takes the next index, works on it and comes back; [next], [done] and the
    workers are what the tasks share.  [log] is the sequence of indices handed to
    [work].  No caller passes [onProgress]. *)

Inductive Worker : Type := Idle | Running (i : Z) | Returned | Threw.

Record Pool : Type := { pl_next : Z; pl_done : Z; pl_workers : list Worker; pl_log : list Z }.

(** [Math.max(1, Math.min(workers, total))] *)
Definition concurrency (total workers : Z) : Z := Z.max 1 (Z.min workers total).

Definition runPool_start (total workers : Z) : Pool :=
  {| pl_next := 0; pl_done := 0; pl_workers := replicate (Z.to_nat (concurrency total workers)) Idle; pl_log := [] |}.

(** A worker goes round its loop, or its [work] ends, well or not. *)
Inductive PoolEvent : Type := Take (w : nat) | Ends (w : nat) (threw : bool).

Definition pool_step (total : Z) (p : Pool) (e : PoolEvent) : option Pool :=
  match e with
  | Take w =>
      match pl_workers p !! w with
      | Some Idle =>
          let i := pl_next p in
          Some (if (total <=? i)%Z
                then {| pl_next := i + 1; pl_done := pl_done p; pl_workers := <[w := Returned]> (pl_workers p); pl_log := pl_log p |}
                else {| pl_next := i + 1; pl_done := pl_done p; pl_workers := <[w := Running i]> (pl_workers p);
                        pl_log := (pl_log p ++ [i])%list |})
      | _ => None
      end
  | Ends w threw =>
      match pl_workers p !! w with
      | Some (Running i) =>
          Some {| pl_next := pl_next p; pl_done := pl_done p + 1;
                  pl_workers := <[w := if threw then Threw else Idle]> (pl_workers p); pl_log := pl_log p |}
      | _ => None
      end
  end.

Fixpoint pool_run (total : Z) (p : Pool) (es : list PoolEvent) : option Pool :=
  match es with
  | [] => Some p
  | e :: es => match pool_step total p e with Some p' => pool_run total p' es | None => None end
  end.

(** [Promise.all] settles when a worker threw or every worker returned. *)
Definition pool_fulfilled (p : Pool) : Prop := Forall (fun w => w = Returned) (pl_workers p).

(** ** Latencies *)

Definition well_measured (l : Latencies) : Prop :=
  Forall non_negative (samples l) /\
  (samples l <> [] -> In (mn l) (samples l)) /\ (samples l = [] -> mn l = S754_infinity false) /\
  (In (mx l) (samples l) \/ mx l = of_Z 0) /\
  (forall s, In s (samples l) -> dlt s (mn l) = false /\ dlt (mx l) s = false).

Lemma new_well_measured : well_measured new_Latencies.
Proof. unfold well_measured. cbn. split; [constructor|]. repeat split; auto; done. Qed.

Lemma dlt_infinity s : non_negative s -> dlt s (S754_infinity false) = true.
Proof. intros [Hf _]. by destruct s as [|[]| |[]]. Qed.

Lemma zero_non_negative : non_negative (of_Z 0).
Proof. by split. Qed.

Lemma dlt_irrefl x : dlt x x = false.
Proof. destruct (dlt x x) eqn:E; [|done]. by rewrite (dlt_asym _ _ E) in E. Qed.

(** Adding a sample that is a finite non-negative number records it, and anything else
    is ignored. *)
Lemma add_well_measured ms l :
  well_measured l ->
  well_measured (Latencies_add ms l) /\
  samples (Latencies_add ms l) = (samples l ++ (if is_finite ms && negb (dlt ms (of_Z 0)) then [ms] else []))%list.
Proof.
  intros (Hs & Hm & Hi & Hx & Hb). unfold Latencies_add.
  destruct (is_finite ms) eqn:Hf; cbn [negb orb andb]; [|by rewrite app_nil_r].
  destruct (dlt ms (of_Z 0)) eqn:Hz; cbn [negb]; [by rewrite app_nil_r|]. split; [|done].
  assert (Hms : non_negative ms) by done.
  assert (Hmn : samples l <> [] -> non_negative (mn l)) by (intros Hne; rewrite List.Forall_forall in Hs; by apply Hs, Hm).
  assert (Hmx : non_negative (mx l)).
  { destruct Hx as [Hx| ->]; [|apply zero_non_negative]. rewrite List.Forall_forall in Hs. by apply Hs. }
  unfold well_measured. cbn [samples mn mx]. split; [by apply List.Forall_app; auto|]. split; [|split; [by destruct (samples l)|split]].
  - intros _. apply in_app_iff. destruct (dlt ms (mn l)) eqn:E; [right; by left|]. left. apply Hm. intros En.
    by rewrite (Hi En), (dlt_infinity ms Hms) in E.
  - rewrite in_app_iff. destruct (dlt (mx l) ms); [left; right; by left|]. tauto.
  - intros x Hin. apply in_app_iff in Hin.
    assert (Hnx : In x (samples l) -> non_negative x /\ non_negative (mn l)).
    { intros H. split; [rewrite List.Forall_forall in Hs; auto|]. apply Hmn. by intros E0; rewrite E0 in H. }
    destruct Hin as [Hin|[<-|[]]].
    + destruct (Hb x Hin) as [H1 H2], (Hnx Hin) as [Nx Nm]. split.
      * destruct (dlt ms (mn l)) eqn:E; [|done]. apply (not_dlt_trans _ (mn l)); try done. by apply dlt_asym.
      * destruct (dlt (mx l) ms) eqn:E; [|done]. apply (not_dlt_trans _ (mx l)); try done. by apply dlt_asym.
    + split; [destruct (dlt ms (mn l)) eqn:E; [apply dlt_irrefl|done]|destruct (dlt (mx l) ms) eqn:E; [apply dlt_irrefl|done]].
Qed.

(** *** Sorting *)

Definition not_above (x y : double) : Prop := dlt y x = false.

Lemma insert_sorted x l :
  non_negative x -> Forall non_negative l -> StronglySorted not_above l -> StronglySorted not_above (insert_by dlt x l).
Proof.
  intros Hx Hl Hs. induction Hs as [|y l Hs IH Hy]; cbn [insert_by]; [by repeat constructor|].
  inversion Hl as [|? ? Ny Nl]; subst. destruct (dlt y x) eqn:E.
  - constructor; [by apply IH|]. rewrite (insert_by_perm dlt x l). constructor; [|done]. by apply dlt_asym.
  - constructor; [by constructor|]. constructor; [done|]. rewrite List.Forall_forall in *. intros z Hz.
    apply (not_dlt_trans x y z); auto. by apply Hy.
Qed.

Lemma sorted_sorted l : well_measured l -> StronglySorted not_above (sorted l).
Proof.
  intros [Hs _]. unfold sorted. induction Hs as [|x xs Hx Hs IH]; [constructor|]. cbn [order_by fold_right].
  apply insert_sorted; [done| |done]. change (Forall non_negative (order_by dlt xs)). by rewrite order_by_perm.
Qed.

(** The numbers before a place of a sorted list are not above it, those after not below. *)
Lemma sorted_split l i v :
  StronglySorted not_above l -> nth_error l i = Some v ->
  (Z.of_nat i + 1 <= count_where (fun x => negb (dlt v x)) l)%Z /\ (count_where (fun x => dlt x v) l <= Z.of_nat i)%Z.
Proof.
  intros Hs. revert i. induction Hs as [|x l Hs IH Hx]; intros i E; [by destruct i|].
  unfold count_where, select in *. cbn [List.filter]. destruct i as [|i]; cbn [nth_error] in E.
  - injection E as ->. rewrite dlt_irrefl. cbn [negb List.length]. split; [lia|].
    rewrite (List.filter_ext_in _ (fun _ => false)); [by rewrite filter_false|].
    intros y Hy. rewrite List.Forall_forall in Hx. by apply Hx.
  - destruct (IH i E) as [H1 H2]. apply nth_error_In in E. rewrite List.Forall_forall in Hx. rewrite (Hx v E). cbn [negb List.length].
    destruct (dlt x v); cbn [List.length]; lia.
Qed.

(** *** Percentiles *)

(** More samples than any run makes. *)
Definition MAX_SAMPLES : Z := 2 ^ 40.

(** The index computed in binary64 is the nearest rank: for these three percentages the
    quotient by 100 is not above the real one, and its product with a number of
    samples is rounded by less than a hundredth. *)
Lemma ceil_product p mq n :
  ddiv (of_Z p) (of_Z 100) = S754_finite false mq (-53) -> Z.log2 (Zpos mq) = 52 ->
  (p * 2 ^ 53 - 100 <= 100 * Zpos mq <= p * 2 ^ 53)%Z -> (1 <= n <= MAX_SAMPLES)%Z ->
  ceil_Z (dmul (ddiv (of_Z p) (of_Z 100)) (of_Z n)) = ((p * n + 99) / 100)%Z.
Proof.
  unfold MAX_SAMPLES. intros -> Hl Hmq Hn. destruct n as [|n|n]; [lia| |lia]. unfold of_Z, binary_normalize.
  destruct (binary_round_int false n) as (q & -> & Eq & Lq); [lia|]. unfold dmul. cbn [SFmul xorb].
  set (k := ((p * Zpos n + 99) / 100)%Z). set (L := Z.log2 (Zpos n)) in *.
  assert (HL : (0 <= L <= 40)%Z).
  { split; [apply Z.log2_nonneg|]. apply (Z.log2_le_mono (Zpos n) (2 ^ 40)). lia. }
  assert (Hk : (100 * k <= p * Zpos n + 99 /\ p * Zpos n <= 100 * k)%Z) by (unfold k; Z.to_euclidean_division_equations; lia).
  assert (Hlm : (104 <= Z.log2 (Zpos (mq * q)) <= 105)%Z).
  { rewrite Pos2Z.inj_mul. pose proof (Z.log2_mul_below (Zpos mq) (Zpos q) ltac:(lia) ltac:(lia)).
    pose proof (Z.log2_mul_above (Zpos mq) (Zpos q) ltac:(lia) ltac:(lia)). lia. }
  apply ceil_round; try lia. set (u := (2 ^ (Z.log2 (Zpos (mq * q)) - 52))%Z). rewrite Pos2Z.inj_mul, Eq.
  replace (- (-53 + (L - 52)))%Z with (53 + (52 - L))%Z by lia. rewrite Z.pow_add_r by lia.
  assert (Hs : (u <= 2 * Zpos n * 2 ^ (52 - L))%Z).
  { assert (HnL : (2 ^ L <= Zpos n)%Z) by (apply Z.log2_spec; lia).
    transitivity (2 ^ 53)%Z; [apply Z.pow_le_mono_r; lia|]. replace 53%Z with (1 + L + (52 - L))%Z by lia.
    rewrite !Z.pow_add_r by lia. apply Z.mul_le_mono_nonneg_r; [by apply Z.pow_nonneg|lia]. }
  assert (Hb : (0 < 2 ^ (52 - L))%Z) by (apply Z.pow_pos_nonneg; lia).
  revert Hs Hb. generalize u (2 ^ (52 - L))%Z. intros u' b Hs Hb.
  assert (H1 : ((k - 1) * 2 ^ 53 + 2 * Zpos n <= Zpos mq * Zpos n)%Z) by nia.
  assert (H2 : (Zpos mq * Zpos n <= k * 2 ^ 53)%Z) by nia.
  apply (Z.mul_le_mono_nonneg_r _ _ b) in H1, H2; [|lia..]. lia.
Qed.

Lemma rank_index_eq p n :
  In p [50; 95; 99]%Z -> (1 <= n <= MAX_SAMPLES)%Z -> rank_index p n = ((p * n + 99) / 100 - 1)%Z.
Proof.
  intros Hp Hn. unfold rank_index.
  assert (E : ceil_Z (dmul (ddiv (of_Z p) (of_Z 100)) (of_Z n)) = ((p * n + 99) / 100)%Z).
  { destruct Hp as [<-|[<-|[<-|[]]]];
      [apply (ceil_product 50 4503599627370496)|apply (ceil_product 95 8556839292003942)|apply (ceil_product 99 8917127262193582)];
      try exact Hn; try (vm_compute; reflexivity); vm_compute; split; discriminate. }
  rewrite E. assert (Hpb : (0 < p < 100)%Z) by (destruct Hp as [<-|[<-|[<-|[]]]]; lia).
  assert (1 <= (p * n + 99) / 100 <= n)%Z; [|lia]. Z.to_euclidean_division_equations. nia.
Qed.

Lemma count_where_perm {A} (p : A -> bool) (l l' : list A) : Permutation l l' -> count_where p l = count_where p l'.
Proof.
  unfold count_where, select. intros Hp. f_equal. induction Hp as [|x l l' _ IH|x y l|l1 l2 l3 _ IH1 _ IH2]; cbn.
  - done.
  - destruct (p x); cbn; by rewrite IH.
  - by destruct (p x), (p y).
  - by rewrite IH1.
Qed.

Lemma count_sorted p l : count_where p (sorted l) = count_where p (samples l).
Proof. apply count_where_perm, order_by_perm. Qed.

(** For the 50th, 95th and 99th percentile of up to 2^40 samples the binary64 index of [percentile] is the nearest rank:
    the answer is one of the samples, at least that share of the samples is not above
    it, and a smaller share is below it. *)
Lemma percentile_nearest_rank p l :
  In p [50; 95; 99]%Z -> well_measured l -> (1 <= sample_count l <= MAX_SAMPLES)%Z ->
  let v := percentile p l in
  In v (samples l) /\
  (p * sample_count l <= 100 * count_where (fun x => negb (dlt v x)) (samples l))%Z /\
  (100 * count_where (fun x => dlt x v) (samples l) < p * sample_count l)%Z.
Proof.
  intros Hp Hw Hn v.
  assert (Hpb : (0 < p < 100)%Z) by (destruct Hp as [<-|[<-|[<-|[]]]]; lia).
  assert (Ev : v = nth (Z.to_nat ((p * sample_count l + 99) / 100 - 1)) (sorted l) S754_nan).
  { unfold v, percentile. rewrite rank_index_eq by done. destruct (Z.eqb_spec (sample_count l) 0); [lia|].
    destruct (Z.leb_spec p 0); [lia|]. destruct (Z.leb_spec 100 p); [lia|]. done. }
  set (k := ((p * sample_count l + 99) / 100)%Z) in *.
  assert (Hk : (p * sample_count l <= 100 * k /\ 100 * k < p * sample_count l + 100 /\ 1 <= k <= sample_count l)%Z).
  { unfold k. Z.to_euclidean_division_equations. nia. }
  assert (Hl : List.length (sorted l) = List.length (samples l)) by apply Permutation_length, order_by_perm.
  assert (En : nth_error (sorted l) (Z.to_nat (k - 1)) = Some v).
  { rewrite Ev. apply nth_error_nth'. rewrite Hl. unfold sample_count in *. lia. }
  destruct (sorted_split _ _ _ (sorted_sorted l Hw) En) as [H1 H2]. rewrite !count_sorted in *.
  split; [|lia]. apply nth_error_In in En. revert En. apply Permutation_in, order_by_perm.
Qed.

(** ** Acceptance *)

Definition threshold (policy : AcceptancePolicy) (op : Op) : option Z :=
  match op with op_start => p95StartMs policy | op_inbound => p95InboundMs policy | op_status => p95StatusMs policy | op_heartbeat => None end.

Definition p95 (m : OpMetrics) : double := p95_ms (Latencies_snapshot (latency m)).

Lemma p95_check_pass metrics op name o :
  forallb ac_pass (p95_check metrics op name o) = true <->
  forall t, o = Some t -> (0 < m_total (bucket metrics op))%Z -> dle (p95 (bucket metrics op)) (of_Z t) = true.
Proof.
  unfold p95_check. destruct o as [t|]; [|split; [by intros _ t [=]|done]].
  destruct (Z.ltb_spec 0 (m_total (bucket metrics op))) as [Ht|Ht]; cbn [forallb ac_pass].
  - rewrite andb_true_r. split; [by intros H t' [= <-]|]. intros H. by apply H.
  - split; [intros _ t' _ Hn; lia|done].
Qed.

Lemma rate_check_pass metrics policy :
  forallb ac_pass (rate_check metrics policy) = true <->
  forall r, minSuccessRate policy = Some r -> successFor policy <> [] -> dle r (rate_over metrics (successFor policy)) = true.
Proof.
  unfold rate_check. destruct (minSuccessRate policy) as [r|]; [|split; [by intros _ r [=]|done]].
  destruct (successFor policy) as [|op ops]; cbn [List.length Nat.ltb Nat.leb]; [by split|].
  cbn [forallb ac_pass]. rewrite andb_true_r. split; [by intros H r' [= <-]|]. intros H. by apply H.
Qed.

(** A run is accepted exactly when every rule of its policy holds. *)
Lemma evaluate_pass metrics policy :
  ar_pass (evaluate metrics policy) = true <->
  (forall op t, threshold policy op = Some t -> (0 < m_total (bucket metrics op))%Z ->
     dle (p95 (bucket metrics op)) (of_Z t) = true) /\
  (forall r, minSuccessRate policy = Some r -> successFor policy <> [] -> dle r (rate_over metrics (successFor policy)) = true) /\
  (noDoubleVerifications policy = true -> double_verifications metrics = 0%Z) /\
  (noServerErrors policy = true -> total5xx metrics = 0%Z) /\
  unhandled_exceptions metrics = 0%Z.
Proof.
  unfold evaluate, checks. cbn [ar_pass]. rewrite !forallb_app, !andb_true_iff, !p95_check_pass, rate_check_pass. cbn [forallb ac_pass zero_check].
  assert (Hif : forall (b : bool) name n, forallb ac_pass (if b then [zero_check name n] else []) = true <-> (b = true -> n = 0%Z)).
  { intros b name n. destruct b; cbn; [|done]. rewrite andb_true_r, Z.eqb_eq. intuition. }
  rewrite !Hif, andb_true_r, Z.eqb_eq. split.
  - intros (H1 & H2 & H3 & H4 & H5 & H6 & H7). split; [|auto 6]. intros []; cbn [threshold]; auto. done.
  - intros (H & H4 & H5 & H6 & H7). split; [exact (H op_start)|]. split; [exact (H op_inbound)|]. split; [exact (H op_status)|]. auto.
Qed.

(** ** The pool *)

Definition running (w : Worker) : bool := match w with Running _ => true | _ => false end.

Section Pool.
Context (total workers : Z).

Record pool_inv (p : Pool) : Prop := {
  inv_next : (0 <= pl_next p)%Z;
  inv_log : pl_log p = seqZ 0 (Z.min (pl_next p) (Z.max 0 total));
  inv_done : Z.of_nat (List.length (pl_log p)) = (pl_done p + count_where running (pl_workers p))%Z;
  inv_size : List.length (pl_workers p) = Z.to_nat (concurrency total workers);
  inv_running : forall i, In (Running i) (pl_workers p) -> (0 <= i < Z.min (pl_next p) (Z.max 0 total))%Z;
  inv_returned : In Returned (pl_workers p) -> (total < pl_next p)%Z;
}.

Lemma start_inv : pool_inv (runPool_start total workers).
Proof.
  unfold runPool_start. split; cbn; try lia.
  - by rewrite Z.min_l by lia.
  - unfold count_where, select. by induction (Z.to_nat _).
  - apply length_replicate.
  - intros i Hin. apply list_elem_of_In, elem_of_replicate_inv in Hin. done.
  - intros Hin. apply list_elem_of_In, elem_of_replicate_inv in Hin. done.
Qed.

Lemma count_where_insert (f : Worker -> bool) l w x y :
  l !! w = Some x -> count_where f (<[w := y]> l) = (count_where f l - (if f x then 1 else 0) + (if f y then 1 else 0))%Z.
Proof.
  unfold count_where, select. revert w. induction l as [|z l IH]; intros [|w] E; try done.
  - injection E as ->. cbn. destruct (f x), (f y); cbn [List.length]; lia.
  - change (<[S w := y]> (z :: l)) with (z :: <[w := y]> l). specialize (IH w E). cbn [List.filter].
    destruct (f z); cbn [List.length]; lia.
Qed.

Lemma In_insert_worker (l : list Worker) w y x : In x (<[w := y]> l) -> x = y \/ In x l.
Proof.
  rewrite <- !list_elem_of_In, list_elem_of_lookup. intros [j Hj].
  destruct (decide (j = w)) as [->|Hne].
  - left. apply list_lookup_insert_Some in Hj. by destruct Hj as [(_ & <- & _)|[Hn _]].
  - right. rewrite list_lookup_insert_ne in Hj by done. by eapply list_elem_of_lookup_2.
Qed.

Lemma step_inv p e p' : pool_inv p -> pool_step total p e = Some p' -> pool_inv p'.
Proof.
  intros [Hn Hl Hd Hs Hr Ht]. destruct e as [w|w threw]; cbn [pool_step]; destruct (pl_workers p !! w) as [x|] eqn:Ew; try done;
    destruct x as [|i| |]; try done; intros [= <-].
  - destruct (Z.leb_spec total (pl_next p)) as [Hle|Hlt]; split; cbn [pl_next pl_done pl_workers pl_log]; try lia.
    + rewrite Hl. f_equal. lia.
    + rewrite (count_where_insert _ _ _ _ _ Ew). cbn [running]. lia.
    + by rewrite length_insert.
    + intros j Hin. apply In_insert_worker in Hin as [?|Hin]; [done|]. specialize (Hr j Hin). lia.
    + rewrite Hl. replace (Z.min (pl_next p + 1) (Z.max 0 total)) with (Z.min (pl_next p) (Z.max 0 total) + 1)%Z by lia.
      rewrite seqZ_app by lia. f_equal. by replace (0 + Z.min (pl_next p) (Z.max 0 total))%Z with (pl_next p) by lia.
    + rewrite length_app, (count_where_insert _ _ _ _ _ Ew). cbn [running List.length]. lia.
    + by rewrite length_insert.
    + intros j Hin. apply In_insert_worker in Hin as [[= ->]|Hin]; [lia|]. specialize (Hr j Hin). lia.
    + intros Hin. apply In_insert_worker in Hin as [?|Hin]; [done|]. specialize (Ht Hin). lia.
  - split; cbn [pl_next pl_done pl_workers pl_log]; try done.
    + rewrite (count_where_insert _ _ _ _ _ Ew). cbn [running]. destruct threw; cbn [running]; lia.
    + by rewrite length_insert.
    + intros j Hin. apply In_insert_worker in Hin as [?|Hin]; [by destruct threw|]. by apply Hr.
    + intros Hin. apply In_insert_worker in Hin as [?|Hin]; [by destruct threw|]. by apply Ht.
Qed.

Lemma run_inv es p p' : pool_inv p -> pool_run total p es = Some p' -> pool_inv p'.
Proof.
  revert p. induction es as [|e es IH]; intros p Hp; cbn [pool_run]; [by intros [= <-]|].
  destruct (pool_step total p e) as [p1|] eqn:E; [|done]. apply IH. by apply (step_inv p e).
Qed.

(** Every step takes an index or ends one; a worker takes at most one index that is out
    of range. *)
Definition work_left (p : Pool) : Z :=
  (2 * (Z.max 0 total - Z.min (pl_next p) (Z.max 0 total)) + count_where running (pl_workers p)
   + count_where (fun w => match w with Idle | Running _ => true | _ => false end) (pl_workers p))%Z.

Lemma step_work p e p' : pool_inv p -> pool_step total p e = Some p' -> (work_left p' < work_left p)%Z.
Proof.
  intros [Hn Hl Hd Hs Hr Ht]. destruct e as [w|w threw]; cbn [pool_step]; destruct (pl_workers p !! w) as [x|] eqn:Ew; try done;
    destruct x as [|i| |]; try done; intros [= <-]; unfold work_left.
  - destruct (Z.leb_spec total (pl_next p)) as [Hle|Hlt]; cbn [pl_next pl_workers]; rewrite !(count_where_insert _ _ _ _ _ Ew); cbn [running]; lia.
  - cbn [pl_next pl_workers]. rewrite !(count_where_insert _ _ _ _ _ Ew). destruct threw; cbn [running]; lia.
Qed.

Lemma run_work es p p' : pool_inv p -> pool_run total p es = Some p' -> (Z.of_nat (List.length es) + work_left p' <= work_left p)%Z.
Proof.
  revert p. induction es as [|e es IH]; intros p Hp; cbn [pool_run List.length]; [intros [= <-]; lia|].
  destruct (pool_step total p e) as [p1|] eqn:E; [|done]. intros E'.
  assert (H1 := step_work _ _ _ Hp E). assert (H2 := IH p1 (step_inv _ _ _ Hp E) E'). lia.
Qed.
End Pool.

Lemma work_left_nonneg total p : (0 <= work_left total p)%Z.
Proof.
  unfold work_left. pose proof (count_where_le running (pl_workers p)).
  pose proof (count_where_le (fun w => match w with Idle | Running _ => true | _ => false end) (pl_workers p)). lia.
Qed.

(** C30: Whatever the interleaving of its workers, the pool hands out the indices from 0 in
    order, each once, to at most [concurrency] workers at a time, and stops after
    finitely many steps; when every worker has returned, each index below the total
    was worked on exactly once and [done] is the total; and as long as a worker has
    neither returned nor thrown, some step can be made. *)
Theorem pool_exactly_once total workers es p :
  pool_run total (runPool_start total workers) es = Some p ->
  pl_log p = seqZ 0 (Z.min (pl_next p) (Z.max 0 total)) /\
  (count_where running (pl_workers p) <= concurrency total workers)%Z /\
  (Z.of_nat (List.length es) <= 2 * Z.max 0 total + concurrency total workers)%Z /\
  (pool_fulfilled p -> pl_log p = seqZ 0 (Z.max 0 total) /\ pl_done p = Z.max 0 total) /\
  (forall w x, pl_workers p !! w = Some x -> x <> Returned -> x <> Threw -> exists e, is_Some (pool_step total p e)).
Proof.
  intros E. assert (Hi := run_inv total workers _ _ _ (start_inv total workers) E).
  assert (Hw := run_work total workers _ _ _ (start_inv total workers) E). destruct Hi as [Hn Hl Hd Hs Hr Ht].
  split; [exact Hl|]. split; [|split; [|split]].
  - pose proof (count_where_le running (pl_workers p)) as Hc. rewrite Hs in Hc. unfold concurrency in *. lia.
  - pose proof (work_left_nonneg total p) as Hp. unfold work_left in Hw at 2. cbn [runPool_start pl_next pl_workers] in Hw.
    assert (H1 : count_where running (replicate (Z.to_nat (concurrency total workers)) Idle) = 0%Z)
      by (generalize (Z.to_nat (concurrency total workers)); intros n0; unfold count_where, select; by induction n0).
    pose proof (count_where_le (fun w => match w with Idle | Running _ => true | _ => false end)
      (replicate (Z.to_nat (concurrency total workers)) Idle)) as H2. rewrite length_replicate in H2.
    unfold concurrency in *. lia.
  - intros Hf. assert (Hne : exists w ws, pl_workers p = w :: ws).
    { destruct (pl_workers p); [cbn in Hs; unfold concurrency in Hs; lia|by eexists _, _]. }
    destruct Hne as (w & ws & Ew). assert (Hret : In Returned (pl_workers p)).
    { rewrite Ew. left. unfold pool_fulfilled in Hf. rewrite Ew in Hf. by inversion Hf. }
    specialize (Ht Hret). assert (Hlog : pl_log p = seqZ 0 (Z.max 0 total)) by (rewrite Hl; f_equal; lia).
    split; [exact Hlog|]. rewrite Hlog, length_seqZ in Hd.
    assert (Hz : count_where running (pl_workers p) = 0%Z); [|lia].
    unfold count_where. rewrite (proj2 (select_nil_iff _ _)); [done|]. intros x Hx. unfold pool_fulfilled in Hf.
    rewrite List.Forall_forall in Hf. by rewrite (Hf x Hx).
  - intros w x Ex H1 H2. destruct x as [|i| |]; try done; [exists (Take w)|exists (Ends w false)]; cbn [pool_step]; rewrite Ex; by eexists.
Qed.

Lemma pool_exactly_once_witness :
  exists p, pool_run 2 (runPool_start 2 5) [Take 1; Take 0; Ends 0 false; Take 0; Ends 1 false; Take 1] = Some p /\
    pl_log p = [0; 1]%Z /\ pl_done p = 2%Z.
Proof.
  destruct (pool_run 2 (runPool_start 2 5) [Take 1; Take 0; Ends 0 false; Take 0; Ends 1 false; Take 1]) as [p|] eqn:E;
    [|vm_compute in E; discriminate].
  exists p. split; [reflexivity|]. destruct (pool_exactly_once 2 5 _ p E) as (_ & _ & _ & Hf & _). apply Hf.
  vm_compute in E. injection E as <-. repeat constructor.
Defined.

(** ** The synthetic numbers *)

(** Different indices below nine million have different numbers, of nine digits after
    the country code. *)
Lemma phones_distinct i j :
  (0 <= i < 9000000)%Z -> (0 <= j < 9000000)%Z -> phoneFromIndex i = phoneFromIndex j -> i = j.
Proof.
  unfold phoneFromIndex. intros Hi Hj E. rewrite !Z.mod_small in E by lia. injection E as E.
  destruct (pad_num_spec 7 (1000000 + i)) as [_ H1]; [lia|lia|]. destruct (pad_num_spec 7 (1000000 + j)) as [_ H2]; [lia|lia|].
  rewrite E, H2 in H1. lia.
Qed.
