(* ===== verification/LoadRun.v ===== *)
(** * The load-test tool, its runs: [tools/loadtest/src]

    The client and the signing of gateway requests ([client.ts]), the fixtures
    ([env.ts]), the scenarios ([scenarios]) and the verdict of a run ([runner.ts]);
    the suites are in [LoadSuite].  A scenario runs against any server: a function from
    the request to the outcome the client classified.  The items of a pool are run
    one after the other in the order of a schedule, since between two awaits an item
    only counts (see [Loadtest] for the pool itself); an item that throws ends the
    run, and what the other workers then have in flight is not followed. *)

From stdpp Require Import gmap strings.
From S2P Require Import Prelude JsString Json JsonParse Double JsNumber Errors Phone Crypto Aead Config Schema Webhooks RateLimit Hmac Server Auth Wire Client Receivers Loadtest.
From Stdlib Require Import String Ascii.

Open Scope string_scope.
Open Scope js_scope.

(** ** [client.ts] *)

Inductive Outcome : Type :=
  | out_ok (status : Z) (body : json) (latencyMs : double)
  | out_expected_4xx (status : Z) (body : json) (latencyMs : double)
  | out_unexpected_4xx (status : Z) (body : json) (latencyMs : double)
  | out_err_5xx (status : Z) (body : json) (latencyMs : double)
  | out_network_err (latencyMs : double) (message : string)
  | out_timeout (latencyMs : double).

(** What [fetch] and the reading of its text give. *)
Inductive FetchAnswer : Type :=
  | AnswerText (status : Z) (text : string) (latencyMs : double)
  | AnswerAborted (latencyMs : double)
  | AnswerFailed (message : string) (latencyMs : double).

(** [text.length > 0 ? JSON.parse(text) : {}], [{ _raw: text }] when that throws; [None]
    outside the model of [JSON.parse]. *)
Definition read_body (text : string) : option json :=
  if (0 <? slen text)%nat then
    match json_parse text with
    | Done j _ => Some j
    | SyntaxError => Some (JObj [("_raw", JStr text)])
    | _ => None
    end
  else Some (JObj []).

Definition classify (expected4xx : list Z) (status : Z) (body : json) (latencyMs : double) : Outcome :=
  if (200 <=? status)%Z && (status <? 300)%Z then out_ok status body latencyMs
  else if (500 <=? status)%Z then out_err_5xx status body latencyMs
  else if existsb (Z.eqb status) expected4xx then out_expected_4xx status body latencyMs
  else out_unexpected_4xx status body latencyMs.

Definition read_answer (expected4xx : list Z) (a : FetchAnswer) : option Outcome :=
  match a with
  | AnswerText status text latencyMs => body ← read_body text; Some (classify expected4xx status body latencyMs)
  | AnswerAborted latencyMs => Some (out_timeout latencyMs)
  | AnswerFailed message latencyMs => Some (out_network_err latencyMs message)
  end.

(** The request [fetch] is given. *)
Definition client_request (baseUrl method path : string) (headers : list (string * string)) (body : option string) : HttpRequest :=
  {| hr_method := method; hr_url := strip_trailing_slashes baseUrl ++ path;
     hr_headers := (headers ++ (match body with Some _ => [("Content-Type", "application/json")] | None => [] end)
                    ++ [("User-Agent", "syrotp-loadtest/0.1.1")])%list;
     hr_body := body |}.

(** [now] is the clock in milliseconds, [nonceBytes] sixteen random bytes. *)
Definition signGateway `{Digest} (now : Z) (nonceBytes : string) (receiverId signingKey rawBody : string) (nonce : option string)
    : list (string * string) :=
  let ts := num_to_string (now / 1000) in
  let nonce := default (bufferToHex nonceBytes) nonce in
  let bodyHash := sha256Hex rawBody in
  let sig := hmacSha256Hex signingKey (ts ++ "." ++ nonce ++ "." ++ bodyHash) in
  [("X-SYROTP-Receiver", receiverId); ("X-SYROTP-Timestamp", ts); ("X-SYROTP-Nonce", nonce); ("X-SYROTP-Signature", sig)].

(** [body] is a JavaScript value, dropped by [JSON.stringify] when undefined. *)
Definition inboundBody (now : Z) (idBytes from to : string) (body : option json) (idempotencyKey : option string) : string :=
  let key := match idempotencyKey with Some k => k | None => "lt_" ++ bufferToHex idBytes end in
  stringify (JObj (("from", JStr from) :: ("to", JStr to)
    :: List.app (match body with Some b => [("body", b)] | None => [] end)
         [("received_at", JStr (toISOString now)); ("idempotency_key", JStr key)])).

(** ** [env.ts] *)

Record LtReceiver : Type := { lr_id : string; lr_msisdn : string; lr_signingKey : string }.

Record Fixtures : Type := {
  fx_baseUrl : string; fx_publicKey : string; fx_secretKey : string; fx_receivers : list LtReceiver; fx_ephemeral : bool;
}.

Definition required (env : gmap string string) (name : string) : outcome exn string :=
  match env !! name with
  | Some v => if nonempty v then Return v else Throw (JsError ("missing env: " ++ name))
  | None => Throw (JsError ("missing env: " ++ name))
  end.

Definition set_in (env : gmap string string) (name : string) : bool :=
  match env !! name with Some v => nonempty v | None => false end.

(** The mode with fixtures from the environment. *)
Definition byo (env : gmap string string) : bool :=
  set_in env "SYROTP_PUBLIC_KEY" && set_in env "SYROTP_SECRET_KEY" && set_in env "SYROTP_RECEIVER_1_ID".

Definition byo_var (i : Z) (field : string) : string := "SYROTP_RECEIVER_" ++ num_to_string i ++ "_" ++ field.

Definition byo_receiver (env : gmap string string) (i : Z) : outcome exn LtReceiver :=
  match env !! byo_var i "ID", env !! byo_var i "KEY", env !! byo_var i "MSISDN" with
  | Some id, Some key, Some msisdn =>
      if nonempty id && nonempty key && nonempty msisdn
      then Return {| lr_id := id; lr_msisdn := msisdn; lr_signingKey := key |}
      else Throw (JsError ("BYO env mode missing " ++ byo_var i "{ID,KEY,MSISDN}"))
  | _, _, _ => Throw (JsError ("BYO env mode missing " ++ byo_var i "{ID,KEY,MSISDN}"))
  end.

Fixpoint all_returned {A} (l : list (outcome exn A)) : outcome exn (list A) :=
  match l with
  | [] => Return []
  | Return a :: l => match all_returned l with Return l' => Return (a :: l') | Throw e => Throw e end
  | Throw e :: _ => Throw e
  end.

Definition loadByoFixtures (env : gmap string string) (baseUrl : string) (needed : Z) : outcome exn Fixtures :=
  match all_returned (map (byo_receiver env) (seqZ 1 needed)), required env "SYROTP_PUBLIC_KEY", required env "SYROTP_SECRET_KEY" with
  | Return receivers, Return pk, Return sk =>
      Return {| fx_baseUrl := baseUrl; fx_publicKey := pk; fx_secretKey := sk; fx_receivers := receivers; fx_ephemeral := false |}
  | Throw e, _, _ | _, Throw e, _ | _, _, Throw e => Throw e
  end.

(** *** Fixtures written to the database *)

(** [randomChars] of random bytes *)
Definition randomChars (bytes : nat -> nat) (n : nat) : string := draw_chars API_KEY_ALPHABET (fun i => bytes i mod 36)%nat 0 n.

Definition hashApiKey `{Digest} (masterKeyHex raw : string) : string := hmacSha256Hex (hexToBuffer masterKeyHex) ("api_key:" ++ raw).

Definition aesGcmWrap `{Gcm} (iv masterKeyHex plaintext aad : string) : outcome exn string :=
  let key := hexToBuffer masterKeyHex in
  if negb (slen key =? 32)%nat then Throw (JsError "Invalid key length")
  else let '(ct, tag) := gcm_encrypt key iv (utf8_encode aad) (utf8_encode plaintext) in
       Return (join "." ["v1"; b64u iv; b64u tag; b64u ct]).

(** The draws of a preparation. *)
Record PrepDraws : Type := {
  pd_app : string; pd_key1 : string; pd_key2 : string; pd_pk : nat -> nat; pd_sk : nat -> nat; pd_now : Z; pd_dbNow : Z;
  pd_receiver : Z -> string; pd_signing : Z -> string; pd_iv : Z -> string;
}.

Definition operators : list string := ["syriatel"; "mtn"; "operator-c"; "operator-d"].

Section Prep.
Context `{Digest} `{Gcm} (d : PrepDraws) (masterKeyHex : string).

Definition prep_receiver (appId : string) (i : Z) : SM LtReceiver :=
  let id := "rcv_" ++ pd_receiver d i in
  let signingKey := bufferToHex (pd_signing d i) in
  let! wrapped := lift (aesGcmWrap (pd_iv d i) masterKeyHex signingKey ("receiver:" ++ id)) in
  let msisdn := "+96399" ++ slice_last (pad_num 7 (8000000 + i)) 7 in
  do! insert t_receivers receivers_idx
        (mkReceiver id appId ("lt-rcv-" ++ num_to_string (i + 1)) (nth_error operators (Z.to_nat (i mod 4))) msisdn wrapped true
           (Some (pd_dbNow d)) (pd_dbNow d)) in
  ret {| lr_id := id; lr_msisdn := msisdn; lr_signingKey := signingKey |}.

Fixpoint prep_receivers (appId : string) (is_ : list Z) : SM (list LtReceiver) :=
  match is_ with
  | [] => ret []
  | i :: rest =>
      let! r := prep_receiver appId i in
      let! rs := prep_receivers appId rest in
      ret (r :: rs)
  end.

(** The master key has been checked for its 64 digits; the connection is not modelled. *)
Definition prepFixtures (baseUrl : string) (needed : Z) : SM Fixtures :=
  do! throw_if (negb (matches_class is_hex 64 64 masterKeyHex)) (JsError "MASTER_ENCRYPTION_KEY must be 64 hex chars (32 bytes)") in
  let appId := "app_" ++ pd_app d in
  do! insert t_apps apps_idx (mkApp appId ("loadtest-" ++ toISOString (pd_now d)) (pd_dbNow d) false) in
  let pk := "pk_live_" ++ randomChars (pd_pk d) 32 in
  let sk := "sk_live_" ++ randomChars (pd_sk d) 32 in
  do! insert_all t_apiKeys apiKeys_idx
    [mkApiKey ("key_" ++ pd_key1 d) appId public (hashApiKey masterKeyHex pk) (slice_to pk 12) (Some "lt-public") (pd_dbNow d) None None;
     mkApiKey ("key_" ++ pd_key2 d) appId secret (hashApiKey masterKeyHex sk) (slice_to sk 12) (Some "lt-secret") (pd_dbNow d) None None] in
  let! receivers := prep_receivers appId (seqZ 0 needed) in
  ret {| fx_baseUrl := baseUrl; fx_publicKey := pk; fx_secretKey := sk; fx_receivers := receivers; fx_ephemeral := true |}.

(** *** [seedBindings]: verified bindings of the first receiver, 5000 a statement *)

(** The draws for one phone: the ULID, eight random bytes and two readings of the clock. *)
Record SeedDraw : Type := { sd_ulid : string; sd_nonce : string; sd_now1 : Z; sd_now2 : Z }.

Definition seed_row (appId recvId phone : string) (x : SeedDraw) : PhoneBindingRow :=
  mkPhoneBinding ("pbn_" ++ sd_ulid x) appId recvId phone "verified" ("lt-seed-" ++ bufferToHex (sd_nonce x))
    (sd_now1 x + 60 * 60 * 1000) (Some (sd_now2 x)) None (pd_dbNow d).

Definition CHUNK : nat := 5000.

Fixpoint seed_chunks (fuel : nat) (rows : list PhoneBindingRow) : SM unit :=
  match fuel, rows with
  | S fuel, _ :: _ => do! insert_all t_phoneBindings phoneBindings_idx (take CHUNK rows) in seed_chunks fuel (drop CHUNK rows)
  | _, _ => ret tt
  end.

(** [draws] by the index of the phone; a preparation without receivers throws on
    [receivers[0]!.id]. *)
Definition seedBindings (draws : nat -> SeedDraw) (appId : string) (receivers : list LtReceiver) (phones : list string) : SM unit :=
  match phones, receivers with
  | [], _ => ret tt
  | _, [] => throw (JsError "Cannot read properties of undefined (reading 'id')")
  | _, r :: _ => seed_chunks (List.length phones) (imap (fun k phone => seed_row appId (lr_id r) phone (draws k)) phones)
  end.
End Prep.

(** ** [runner.ts]: the outcome of a run *)

Record RunOneOutput : Type := { ro_metrics : RunMetrics; ro_acceptance : AcceptanceResult; ro_threw : bool }.

(** [Set.prototype.add] on the phones already there *)
Definition set_add (phones : list string) (p : string) : list string :=
  if existsb (String.eqb p) phones then phones else (phones ++ [p])%list.

(** The numbers [runOne] binds before a run. *)
Definition seeded_phones (total : Z) : list string :=
  fold_left set_add (map phoneFromIndex (seqZ 0 total) ++ map (fun i => phoneFromIndex (i + 1000000)) (seqZ 0 total))%list [].

(** What [runOne] gave for a step: its output, or the message of what it threw (the
    server is not healthy, the fixtures could not be made). *)
Definition StepRun : Type := outcome string RunOneOutput.

(** ** [runner.ts]: the table of scenarios *)

Inductive ScenarioFn : Type :=
  | fn_fullFlow | fn_startOnly | fn_inboundOnly | fn_statusPolling | fn_mixed | fn_replayStorm | fn_wrongCodeStorm.

(** Name, default total and workers, receivers, function. *)
Record ScenarioDef : Type := mkScenario {
  sd_name : string; sd_defaultTotal : Z; sd_defaultWorkers : Z; sd_receivers : Z; sd_run : ScenarioFn;
}.

Definition SCENARIOS : list ScenarioDef :=
  [mkScenario "scenario-a" 1000 50 1 fn_fullFlow; mkScenario "scenario-b" 10000 100 1 fn_fullFlow;
   mkScenario "scenario-c" 2000 50 2 fn_fullFlow; mkScenario "start-only" 1000 50 1 fn_startOnly;
   mkScenario "inbound-only" 1000 50 1 fn_inboundOnly; mkScenario "full-flow" 1000 50 1 fn_fullFlow;
   mkScenario "status-polling" 5000 50 1 fn_statusPolling; mkScenario "mixed" 1000 50 1 fn_mixed;
   mkScenario "replay-storm" 1000 50 1 fn_replayStorm; mkScenario "wrong-code-storm" 1000 50 1 fn_wrongCodeStorm;
   mkScenario "receiver-disabled" 1000 50 2 fn_fullFlow; mkScenario "soak" 50000 100 1 fn_fullFlow].

Definition scenario (name : string) : option ScenarioDef := List.find (fun d => String.eqb (sd_name d) name) SCENARIOS.

(** ** [scenarios] *)

Section Scenarios.
Context `{Digest} {S : Type}.

(** The server as the client sees it: [request] with the codes it expects. *)
Context (send : list Z -> HttpRequest -> S -> Outcome * S).

(** The clock and the random bytes, by the number of requests built before. *)
Context (now : nat -> Z) (random : nat -> string) (dice : nat -> nat -> nat).

(** The order in which the items of a pool of the given size run. *)
Context (schedule : Z -> list Z).

(** What [onMidpoint] does to the server, when the runner set it. *)
Context (onMidpoint : option (S -> S)).

Context (fx : Fixtures) (total : Z).

Record LoadState : Type := mkLoad { l_metrics : RunMetrics; l_server : S; l_drawn : nat; l_midpointFired : bool }.

Abbreviation LM := (M exn LoadState).

Definition on_metrics (f : RunMetrics -> RunMetrics) : LM unit :=
  modify (fun s => mkLoad (f (l_metrics s)) (l_server s) (l_drawn s) (l_midpointFired s)).

Definition set_bucket (op : Op) (f : OpMetrics -> OpMetrics) (m : RunMetrics) : RunMetrics :=
  mkRunMetrics (fun op' => if decide (op' = op) then f (bucket m op) else bucket m op') (double_verifications m)
    (unhandled_exceptions m) (startedAt m) (finishedAt m).

Definition record_op (out : Outcome) (m : OpMetrics) : OpMetrics :=
  let l := latency m in
  match out with
  | out_ok _ _ t => mkOpMetrics (Latencies_add t l) (m_ok m + 1) (m_expected_4xx m) (m_unexpected_4xx m) (m_err_5xx m) (m_network_err m) (m_timeout m) (m_total m + 1) (extras m)
  | out_expected_4xx _ _ t => mkOpMetrics (Latencies_add t l) (m_ok m) (m_expected_4xx m + 1) (m_unexpected_4xx m) (m_err_5xx m) (m_network_err m) (m_timeout m) (m_total m + 1) (extras m)
  | out_unexpected_4xx _ _ t => mkOpMetrics (Latencies_add t l) (m_ok m) (m_expected_4xx m) (m_unexpected_4xx m + 1) (m_err_5xx m) (m_network_err m) (m_timeout m) (m_total m + 1) (extras m)
  | out_err_5xx _ _ t => mkOpMetrics (Latencies_add t l) (m_ok m) (m_expected_4xx m) (m_unexpected_4xx m) (m_err_5xx m + 1) (m_network_err m) (m_timeout m) (m_total m + 1) (extras m)
  | out_network_err _ _ => mkOpMetrics l (m_ok m) (m_expected_4xx m) (m_unexpected_4xx m) (m_err_5xx m) (m_network_err m + 1) (m_timeout m) (m_total m + 1) (extras m)
  | out_timeout _ => mkOpMetrics l (m_ok m) (m_expected_4xx m) (m_unexpected_4xx m) (m_err_5xx m) (m_network_err m) (m_timeout m + 1) (m_total m + 1) (extras m)
  end.

Definition record (op : Op) (out : Outcome) : LM unit := on_metrics (set_bucket op (record_op out)).
Definition bump (op : Op) (key : string) : LM unit := on_metrics (set_bucket op (bumpExtra key)).

Definition unhandled (m : RunMetrics) : RunMetrics :=
  mkRunMetrics (bucket m) (double_verifications m) (unhandled_exceptions m + 1) (startedAt m) (finishedAt m).

Definition issue (expected4xx : list Z) (build : nat -> HttpRequest) : LM Outcome :=
  fun s => let '(out, server) := send expected4xx (build (l_drawn s)) (l_server s) in
           (Return out, mkLoad (l_metrics s) server (l_drawn s + 1) (l_midpointFired s)).

(** *** [scenarios/common.ts] *)

Definition startVerification (phone : string) : LM Outcome :=
  issue [] (fun _ => client_request (fx_baseUrl fx) "POST" "/v1/verifications" [("Authorization", "Bearer " ++ fx_publicKey fx)]
    (Some (stringify (JObj [("phone", JStr phone); ("purpose", JStr "loadtest")])))).

Definition getVerification (id : string) : LM Outcome :=
  issue [] (fun _ => client_request (fx_baseUrl fx) "GET" ("/v1/verifications/" ++ encodeURIComponent id)
    [("Authorization", "Bearer " ++ fx_secretKey fx)] None).

(** A JavaScript value in a template. *)
Definition template (v : option json) : string := match v with None => "undefined" | Some j => js_String j end.

Definition pickReceiver (sendTo : option json) : outcome exn LtReceiver :=
  match List.find (fun r => match sendTo with Some (JStr t) => String.eqb (lr_msisdn r) t | _ => false end) (fx_receivers fx) with
  | Some r => Return r
  | None => Throw (JsError ("server returned send_to=" ++ template sendTo ++ " but no fixture receiver matches; known receivers: "
                            ++ join ", " (map lr_msisdn (fx_receivers fx))))
  end.

Definition postInbound (r : LtReceiver) (from : string) (body : option json) (idempotencyKey : string) (nonce : option string)
    (expected4xx : list Z) : LM Outcome :=
  issue expected4xx (fun k =>
    let raw := inboundBody (now k) (random k) from (lr_msisdn r) body (Some idempotencyKey) in
    client_request (fx_baseUrl fx) "POST" "/v1/inbound/sms" (signGateway (now k) (random k) (lr_id r) (lr_signingKey r) raw nonce) (Some raw)).

(** *** [scenarios/index.ts] *)

Definition field (k : string) (body : json) : LM (option json) := lift (js_get k body).

(** [runPool]: the items in the order of the schedule. *)
Fixpoint run_items (order : list Z) (work : Z -> LM unit) : LM unit :=
  match order with [] => ret tt | i :: rest => do! work i in run_items rest work end.

Definition runPool (n : Z) (work : Z -> LM unit) : LM unit := run_items (schedule n) work.

(** A pool whose items push to a list, in the order they get there. *)
Fixpoint run_collect {A} (order : list Z) (work : Z -> LM (option A)) : LM (list A) :=
  match order with
  | [] => ret []
  | i :: rest => let! o := work i in let! l := run_collect rest work in ret (match o with Some a => a :: l | None => l end)
  end.

Definition start_and_record (phone : string) : LM Outcome :=
  let! out := startVerification phone in do! record op_start out in ret out.

Definition startOnly : LM unit := runPool total (fun i => let! _ := start_and_record (phoneFromIndex i) in ret tt).

(** [if (!midpointFired && onMidpoint && i >= Math.floor(total / 2))] *)
Definition midpoint (i : Z) : LM unit :=
  modify (fun s => match onMidpoint with
                   | Some f => if negb (l_midpointFired s) && (total / 2 <=? i)%Z
                               then mkLoad (l_metrics s) (f (l_server s)) (l_drawn s) true else s
                   | None => s
                   end).

Definition truthy_field (v : option json) : bool := match v with Some j => truthy j | None => false end.

Definition fullFlow_item (i : Z) : LM unit :=
  do! midpoint i in
  let phone := phoneFromIndex i in
  let! startOut := start_and_record phone in
  match startOut with
  | out_ok _ startBody _ =>
      match js_get "send_to" startBody with
      | Return sendTo =>
          match pickReceiver sendTo with
          | Return receiver =>
              let! message := field "message" startBody in
              let! inb := postInbound receiver phone message ("lt_full_" ++ num_to_string i) None [] in
              do! record op_inbound inb in
              do! (match inb with
                   | out_ok _ body _ =>
                       let! matched := field "matched" body in
                       if truthy_field matched then bump op_inbound "matched"
                       else let! reason := field "reason" body in
                            bump op_inbound ("no_match_" ++ match reason with Some JNull | None => "unknown" | Some r => js_String r end)
                   | _ => ret tt
                   end) in
              let! id := field "id" startBody in
              let! stat := getVerification (template id) in
              do! record op_status stat in
              match stat with
              | out_ok _ body _ => let! st := field "status" body in bump op_status ("status_" ++ template st)
              | _ => ret tt
              end
          | Throw _ => on_metrics unhandled
          end
      | Throw _ => on_metrics unhandled
      end
  | _ => ret tt
  end.

Definition fullFlow : LM unit := runPool total fullFlow_item.

(** A pending verification of [inboundOnly]: the spread of the body, and the phone. *)
Definition inboundOnly_item (waiting : list (json * string)) (i : Z) : LM unit :=
  match nth_error waiting (Z.to_nat i) with
  | None => throw (JsError "Cannot read properties of undefined (reading 'send_to')")
  | Some (v, phone) =>
      let! receiver := lift (pickReceiver (jfield "send_to" v)) in
      let! inb := postInbound receiver phone (jfield "message" v) ("lt_inbound_" ++ num_to_string i) None [] in
      do! record op_inbound inb in
      match inb with
      | out_ok _ body _ =>
          let! matched := field "matched" body in
          bump op_inbound (if truthy_field matched then "matched" else "no_match")
      | _ => ret tt
      end
  end.

Definition inboundOnly : LM unit :=
  let! waiting := run_collect (schedule total) (fun i =>
    let phone := phoneFromIndex i in
    let! out := start_and_record phone in
    ret (match out with out_ok _ body _ => Some (body, phone) | _ => None end)) in
  runPool (Z.of_nat (List.length waiting)) (inboundOnly_item waiting).

(** The identifiers of the verifications started one after the other. *)
Definition seed_ids (phones : list string) : LM (list (option json)) :=
  run_collect (seqZ 0 (Z.of_nat (List.length phones))) (fun i =>
    let! out := start_and_record (nth (Z.to_nat i) phones "") in
    match out with out_ok _ body _ => let! id := field "id" body in ret (Some id) | _ => ret None end).

Definition poll_seed (ids : list (option json)) (i : Z) : LM Outcome :=
  getVerification (template (nth (Z.to_nat (i mod Z.of_nat (List.length ids))) ids None)).

Definition statusPolling : LM unit :=
  let! seedIds := seed_ids (map phoneFromIndex (seqZ 0 20)) in
  if (List.length seedIds =? 0)%nat then ret tt
  else runPool total (fun i =>
    let! out := poll_seed seedIds i in
    match out with
    | out_unexpected_4xx st body t =>
        if (st =? 429)%Z then do! record op_status (out_expected_4xx st body t) in bump op_status "rate_limited"
        else record op_status out
    | _ => record op_status out
    end).

Definition mixed_item (seedIds : list (option json)) (i : Z) : LM unit :=
  let die := (i mod 10)%Z in
  if (die <? 6)%Z then
    let phone := phoneFromIndex i in
    let! out := start_and_record phone in
    match out with
    | out_ok _ body _ =>
        let! sendTo := field "send_to" body in
        let! receiver := lift (pickReceiver sendTo) in
        let! message := field "message" body in
        let! inb := postInbound receiver phone message ("lt_mixed_" ++ num_to_string i) None [] in
        record op_inbound inb
    | _ => ret tt
    end
  else if (die <? 9)%Z then
    if (List.length seedIds =? 0)%nat then ret tt
    else let! out := poll_seed seedIds i in record op_status out
  else let! _ := start_and_record (phoneFromIndex i) in ret tt.

Definition mixed : LM unit :=
  let! seedIds := seed_ids (map (fun i => phoneFromIndex (i + 1000000)) (seqZ 0 10)) in
  runPool total (mixed_item seedIds).

Definition fixedNonce : string := repeat_char "f"%char 32.

Definition replay_item (receiver : LtReceiver) (phone : string) (i : Z) : LM unit :=
  let! out := postInbound receiver phone (Some (JStr "VERIFY ZZZZZZ")) ("lt_replay_" ++ num_to_string i) (Some fixedNonce) [401%Z] in
  do! record op_inbound out in
  match out with out_expected_4xx _ _ _ => bump op_inbound "replay_rejected" | _ => ret tt end.

Definition replayStorm : LM unit :=
  let phone := phoneFromIndex 0 in
  let! seed := start_and_record phone in
  match seed with
  | out_ok _ seedBody _ =>
      let! sendTo := field "send_to" seedBody in
      let! receiver := lift (pickReceiver sendTo) in
      let! message := field "message" seedBody in
      let! fresh := postInbound receiver phone message "lt_replay_seed" None [] in
      do! record op_inbound fresh in
      do! (match fresh with
           | out_ok _ body _ => let! matched := field "matched" body in if truthy_field matched then bump op_inbound "matched" else ret tt
           | _ => ret tt
           end) in
      runPool total (replay_item receiver phone)
  | _ => ret tt
  end.

Definition CODE_ALPHA : string := "ABCDEFGHJKMNPQRSTUVWXYZ23456789".

(** [dice k] are the six draws below 31 of the code. *)
Definition randomCode (k : nat) : string := draw_chars CODE_ALPHA (dice k) 0 6.

Definition wrongCode_item (receiver : LtReceiver) (i : Z) : LM unit :=
  let! k := gets l_drawn in
  let! out := postInbound receiver (phoneFromIndex i) (Some (JStr ("VERIFY " ++ randomCode k))) ("lt_wrong_" ++ num_to_string i) None [] in
  do! record op_inbound out in
  match out with
  | out_ok _ body _ =>
      let! matched := field "matched" body in
      bump op_inbound (if truthy_field matched then "matched_unexpectedly" else "no_match")
  | _ => ret tt
  end.

Definition wrongCodeStorm : LM unit :=
  match fx_receivers fx with
  | receiver :: _ => runPool total (wrongCode_item receiver)
  | [] => runPool total (fun _ => throw (JsError "Cannot read properties of undefined (reading 'msisdn')"))
  end.

(** ** [runner.ts] *)

(** The function a scenario names. *)
Definition run_fn (f : ScenarioFn) : LM unit :=
  match f with
  | fn_fullFlow => fullFlow | fn_startOnly => startOnly | fn_inboundOnly => inboundOnly | fn_statusPolling => statusPolling
  | fn_mixed => mixed | fn_replayStorm => replayStorm | fn_wrongCodeStorm => wrongCodeStorm
  end.

(** The part of [runOne] from the scenario to its verdict. *)
Definition run_scenario (f : ScenarioFn) (startedAt finishedAt : Z) (policy : AcceptancePolicy) (server : S) : RunOneOutput * S :=
  let s0 := mkLoad (new_RunMetrics startedAt) server 0 false in
  let '(o, s) := run_fn f s0 in
  let threw := match o with Throw _ => true | Return _ => false end in
  let m := if threw then unhandled (l_metrics s) else l_metrics s in
  let m := mkRunMetrics (bucket m) (double_verifications m) (unhandled_exceptions m) (Loadtest.startedAt m) finishedAt in
  ({| ro_metrics := m; ro_acceptance := evaluate m policy; ro_threw := threw |}, l_server s).

(** ** What a run counts *)

(** The counters of an operation: every request is in one of them, and every answered
    one has a latency, unless the clock gave no finite non-negative one. *)
Definition op_counted (m : OpMetrics) : Prop :=
  well_measured (latency m) /\
  (0 <= m_ok m /\ 0 <= m_expected_4xx m /\ 0 <= m_unexpected_4xx m /\ 0 <= m_err_5xx m /\ 0 <= m_network_err m /\ 0 <= m_timeout m)%Z /\
  (m_total m = m_ok m + m_expected_4xx m + m_unexpected_4xx m + m_err_5xx m + m_network_err m + m_timeout m)%Z /\
  (sample_count (latency m) <= m_ok m + m_expected_4xx m + m_unexpected_4xx m + m_err_5xx m)%Z.

Definition well_counted (m : RunMetrics) : Prop :=
  (forall op, op_counted (bucket m op)) /\ double_verifications m = 0%Z /\ (0 <= unhandled_exceptions m)%Z.

Lemma add_count t l : well_measured l -> (sample_count (Latencies_add t l) <= sample_count l + 1)%Z.
Proof.
  intros Hw. unfold sample_count. destruct (add_well_measured t l Hw) as [_ ->]. rewrite length_app.
  destruct (_ && _); cbn [List.length]; lia.
Qed.

Lemma record_op_counted out m : op_counted m -> op_counted (record_op out m).
Proof.
  intros (Hw & Hn & Ht & Hc). unfold op_counted.
  destruct out; cbn [record_op latency m_ok m_expected_4xx m_unexpected_4xx m_err_5xx m_network_err m_timeout m_total];
    try (match goal with |- context [Latencies_add ?t _] => destruct (add_well_measured t _ Hw) as [Hw' _];
           pose proof (add_count t _ Hw) end); (split; [assumption|]); lia.
Qed.

Lemma set_bucket_counted op f m : (forall b, op_counted b -> op_counted (f b)) -> well_counted m -> well_counted (set_bucket op f m).
Proof. intros Hf (Hb & Hd & Hu). split; [|done]. intros op'. cbn. case_decide; auto. Qed.

(** *** Computations that keep the accounts straight *)

Create HintDb load.

Definition keeps {A} (c : LM A) : Prop := forall s, well_counted (l_metrics s) -> well_counted (l_metrics (snd (c s))).

Lemma keeps_ret {A} (a : A) : keeps (ret a).
Proof. by intros s. Qed.

Lemma keeps_lift {A} (o : outcome exn A) : keeps (lift o).
Proof. by intros s. Qed.

Lemma keeps_throw {A} e : keeps (throw (A := A) e).
Proof. by intros s. Qed.

Lemma keeps_gets {A} (f : LoadState -> A) : keeps (gets f).
Proof. by intros s. Qed.

Lemma keeps_bind {A B} (c : LM A) (k : A -> LM B) : keeps c -> (forall a, keeps (k a)) -> keeps (bind c k).
Proof. intros Hc Hk s Hs. specialize (Hc s Hs). unfold bind. destruct (c s) as [[a|e] s']; [by apply Hk|done]. Qed.

Lemma keeps_record op out : keeps (record op out).
Proof. intros s Hs. cbn. apply set_bucket_counted; [apply record_op_counted|done]. Qed.

Lemma keeps_bump op key : keeps (bump op key).
Proof. intros s Hs. cbn. by apply set_bucket_counted. Qed.

Lemma keeps_unhandled : keeps (on_metrics unhandled).
Proof. intros s (Hb & Hd & Hu). split; [done|]. split; [done|]. cbn. lia. Qed.

Lemma keeps_issue e build : keeps (issue e build).
Proof. intros s Hs. unfold issue. by destruct (send _ _ _). Qed.

Lemma keeps_midpoint i : keeps (midpoint i).
Proof. intros s Hs. cbn. destruct onMidpoint; [|done]. by destruct (_ && _). Qed.

#[local] Hint Resolve keeps_ret keeps_lift keeps_throw keeps_gets keeps_bind keeps_record keeps_bump keeps_unhandled keeps_issue keeps_midpoint : load.

(** Decides a computation made of the pieces above. *)
Ltac keep :=
  repeat match goal with
  | |- forall _, _ => intro
  | |- keeps (match ?x with _ => _ end) => destruct x
  | |- keeps (bind _ _) => apply keeps_bind
  | |- _ => solve [eauto with load]
  end.

Lemma keeps_items order work : (forall i, keeps (work i)) -> keeps (run_items order work).
Proof. intros Hw. induction order as [|i order IH]; cbn [run_items]; keep. Qed.

Lemma keeps_collect {A} order (work : Z -> LM (option A)) : (forall i, keeps (work i)) -> keeps (run_collect order work).
Proof. intros Hw. induction order as [|i order IH]; cbn [run_collect]; keep. Qed.

Lemma keeps_start phone : keeps (start_and_record phone).
Proof. unfold start_and_record, startVerification. keep. Qed.
#[local] Hint Resolve keeps_start : load.

Lemma keeps_seed phones : keeps (seed_ids phones).
Proof. apply keeps_collect. unfold field. keep. Qed.

(** Every scenario keeps them. *)
Lemma keeps_scenario f : keeps (run_fn f).
Proof.
  assert (Hfull : keeps fullFlow).
  { apply keeps_items. intros i. unfold fullFlow_item, field, getVerification, postInbound. keep. }
  assert (Hstart : keeps startOnly) by (apply keeps_items; keep).
  assert (Hin : keeps inboundOnly).
  { apply keeps_bind; [apply keeps_collect; keep|]. intros ws. apply keeps_items. intros i.
    unfold inboundOnly_item, field, postInbound. keep. }
  assert (Hpoll : keeps statusPolling).
  { apply keeps_bind; [apply keeps_seed|]. intros ids. destruct (_ =? _)%nat; [keep|]. apply keeps_items. intros i.
    unfold poll_seed, getVerification. keep. }
  assert (Hmixed : keeps mixed).
  { apply keeps_bind; [apply keeps_seed|]. intros ids. apply keeps_items. intros i.
    unfold mixed_item, field, postInbound, poll_seed, getVerification. keep. }
  assert (Hreplay : keeps replayStorm).
  { unfold replayStorm, field, postInbound. keep. apply keeps_items. intros j. unfold replay_item, postInbound. keep. }
  assert (Hwrong : keeps wrongCodeStorm).
  { unfold wrongCodeStorm. destruct (fx_receivers fx); apply keeps_items; [keep|]. intros i. unfold wrongCode_item, field, postInbound. keep. }
  by destruct f.
Qed.

Lemma new_counted t : well_counted (new_RunMetrics t).
Proof. split; [|done]. intros op. split; [apply new_well_measured|]. unfold sample_count. cbn. lia. Qed.

Lemma run_counted f t0 t1 policy server : well_counted (ro_metrics (fst (run_scenario f t0 t1 policy server))).
Proof.
  unfold run_scenario. assert (Hk := keeps_scenario f (mkLoad (new_RunMetrics t0) server 0 false)).
  destruct (run_fn f _) as [o s']. cbn [snd] in Hk. destruct Hk as (Hb & Hdv & Hu).
  { apply new_counted. }
  destruct o; cbn [ro_metrics fst]; (split; [exact Hb|split; [exact Hdv|cbn [unhandled_exceptions unhandled]; lia]]).
Qed.

(** What an accepted run means, for every scenario function, whatever the server
    answers, the clock measures and the schedule is: no item threw, at least 95 of a hundred
    latencies of each operation with a threshold are not above a measured one that
    rounds to at most the threshold, and when the policy asks for it no operation got a
    5xx; and accepted or not, every request is in exactly one counter of its
    operation. *)
Theorem accepted_run_spec f t0 t1 policy server :
  let out := fst (run_scenario f t0 t1 policy server) in
  let m := ro_metrics out in
  (forall op, op_counted (bucket m op)) /\
  (ar_pass (ro_acceptance out) = true ->
     ro_threw out = false /\
     (forall op t, threshold policy op = Some t -> (1 <= sample_count (latency (bucket m op)) <= MAX_SAMPLES)%Z ->
        exists v, In v (samples (latency (bucket m op))) /\ dle (round v) (of_Z t) = true /\
          (95 * sample_count (latency (bucket m op))
           <= 100 * count_where (fun x => negb (dlt v x)) (samples (latency (bucket m op))))%Z) /\
     (noServerErrors policy = true -> forall op, m_err_5xx (bucket m op) = 0%Z)).
Proof.
  intros out m. destruct (run_counted f t0 t1 policy server) as (Hb & Hdv & Hu). split; [exact Hb|].
  assert (Ea : ro_acceptance out = evaluate m policy) by (unfold m, out, run_scenario; by destruct (run_fn f _)).
  change (ro_metrics (fst _)) with m in Hb, Hu.
  rewrite Ea, evaluate_pass. intros (Hp & _ & _ & H5 & Hz). split; [|split; clearbody m].
  - unfold m, out, run_scenario in Hz, Hu |- *. assert (Hk := keeps_scenario f (mkLoad (new_RunMetrics t0) server 0 false)).
    destruct (run_fn f _) as [o s']. cbn [snd] in Hk. destruct o; [done|]. cbn [fst ro_metrics unhandled unhandled_exceptions] in Hz.
    destruct Hk as (_ & _ & Hu'); [apply new_counted|lia].
  - intros op t Ht Hn. destruct (Hb op) as (Hw & Hnn & Htot & Hc).
    destruct (percentile_nearest_rank 95 (latency (bucket m op))) as (H1 & H2 & _); [cbn; auto|done|done|].
    exists (percentile 95 (latency (bucket m op))). split; [exact H1|]. split; [|exact H2]. apply (Hp op t Ht). lia.
  - intros Hp5. specialize (H5 Hp5). unfold total5xx in H5. intros op. destruct (Hb op_start) as (_ & H1 & _), (Hb op_inbound) as (_ & H2 & _),
      (Hb op_status) as (_ & H3 & _), (Hb op_heartbeat) as (_ & H4 & _). destruct op; lia.
Qed.

(** The counter of double verifications, whose rule the policies ask for, is never
    written: every run reports none. *)
Lemma double_verifications_never_counted f t0 t1 policy server :
  double_verifications (ro_metrics (fst (run_scenario f t0 t1 policy server))) = 0%Z.
Proof. by destruct (run_counted f t0 t1 policy server) as (_ & H' & _). Qed.
End Scenarios.

(** *** [runOne] *)

(** [throw new HealthFailedError(health.kind)] *)
Definition health_failed (o : Outcome) : option string :=
  let failed kind := Some ("/v1/health probe failed (" ++ kind ++ ")") in
  match o with
  | out_ok _ _ _ => None
  | out_expected_4xx _ _ _ => failed "expected_4xx" | out_unexpected_4xx _ _ _ => failed "unexpected_4xx"
  | out_err_5xx _ _ _ => failed "err_5xx" | out_network_err _ _ => failed "network_err" | out_timeout _ => failed "timeout"
  end.

(** [UPDATE receivers SET enabled = false WHERE id = $1], when there is a database URL. *)
Definition disableReceiverMidpoint (env : gmap string string) (receiverId : string) : SM unit :=
  if set_in env "DATABASE_URL" then
    let! _ := update t_receivers (fun r => String.eqb (r_id r) receiverId) (set_enabled false) in ret tt
  else ret tt.

Section RunOne.
Context `{Digest} {S : Type} (send : list Z -> HttpRequest -> S -> Outcome * S).
Context (now : nat -> Z) (random : nat -> string) (dice : nat -> nat -> nat) (schedule : Z -> list Z).

(** The fixtures for a number of receivers, with the seeding they bring, if any; the
    midpoint of the scenario that has one.  A [Throw] carries the message of the error. *)
Context (load : Z -> outcome string (Fixtures * option (list string -> S -> outcome string unit * S)))
        (disable : string -> S -> S).

(** The report that is written and the clean-up of the fixtures are not modelled. *)
Definition runOne (scenarioName : string) (total startedAt finishedAt : Z) (policy : AcceptancePolicy) (server : S) : StepRun * S :=
  match scenario scenarioName with
  | None => (Throw ("unknown scenario: " ++ scenarioName), server)
  | Some def =>
      match load (sd_receivers def) with
      | Throw message => (Throw message, server)
      | Return (fx, seed) =>
          let '(health, server) := send [] (client_request (fx_baseUrl fx) "GET" "/v1/health" [] None) server in
          match health_failed health with
          | Some message => (Throw message, server)
          | None =>
              let mid := if String.eqb (sd_name def) "receiver-disabled"
                         then match fx_receivers fx with
                              | [] => Throw "Cannot read properties of undefined (reading 'id')"
                              | target :: _ => Return (Some (disable (lr_id target)))
                              end
                         else Return None in
              match mid with
              | Throw message => (Throw message, server)
              | Return onMidpoint =>
                  let '(seeded, server) := match seed with Some f => f (seeded_phones total) server | None => (Return tt, server) end in
                  match seeded with
                  | Throw message => (Throw message, server)
                  | Return _ =>
                      let '(out, server) := run_scenario send now random dice schedule onMidpoint fx total (sd_run def)
                                              startedAt finishedAt policy server in
                      (Return out, server)
                  end
              end
          end
      end
  end.

(** A run that returns counted every request. *)
Lemma runOne_counted name total t0 t1 policy server out :
  fst (runOne name total t0 t1 policy server) = Return out -> well_counted (ro_metrics out).
Proof.
  unfold runOne. destruct (scenario name) as [def|]; [|done]. destruct (load _) as [[fx seed]|]; [|done].
  destruct (send _ _ _) as [health s1]. destruct (health_failed health); [done|].
  destruct (if String.eqb _ _ then _ else _) as [mid|]; [|done].
  destruct (match seed with Some _ => _ | None => _ end) as [[?|] s2]; [|done].
  assert (Hc := run_counted send now random dice schedule mid fx total (sd_run def) t0 t1 policy s2).
  destruct (run_scenario _ _ _ _ _ _ _ _ _ _ _ _ _) as [o s3]. cbn [fst] in *. by intros [= <-].
Qed.
End RunOne.
