(* ===== verification/LoadSuite.v ===== *)
(** * The load-test tool, its suites and exit codes: [tools/loadtest/src]

    The suites and their verdict ([suites.ts]) and the command line ([index.ts]) over the
    runs of [LoadRun].  A suite is given what each of its steps' runs gave, by the
    index of the step; the theorems instantiate that with [runOne] on whatever state
    of the server the steps before left.  The written reports are in [LoadReport]. *)

From stdpp Require Import gmap strings.
From S2P Require Import Prelude JsString Json Double JsNumber Errors Crypto Schema Wire Loadtest LoadRun.
From Stdlib Require Import String Ascii.

Open Scope string_scope.
Open Scope js_scope.

(** ** [suites.ts] *)

Record SuiteStep : Type := { ss_scenarioName : string; ss_workers : option Z; ss_total : option Z }.
Record SuiteDef : Type := { su_name : string; su_steps : list SuiteStep }.

Definition plain_step (name : string) : SuiteStep := {| ss_scenarioName := name; ss_workers := None; ss_total := None |}.

Definition SUITES : list SuiteDef :=
  [{| su_name := "release-baseline";
      su_steps := [plain_step "scenario-a"; {| ss_scenarioName := "scenario-b"; ss_workers := Some 100%Z; ss_total := None |};
                   plain_step "replay-storm"; plain_step "wrong-code-storm"; plain_step "receiver-disabled"] |};
   {| su_name := "soak";
      su_steps := [plain_step "soak"; plain_step "replay-storm"; plain_step "wrong-code-storm"; plain_step "receiver-disabled"] |}].

Record PolicyOverrides : Type := { po_start : option Z; po_inbound : option Z; po_status : option Z }.

Definition or_else {A} (o p : option A) : option A := match o with Some _ => o | None => p end.

Definition applyOverrides (p : AcceptancePolicy) (o : PolicyOverrides) : AcceptancePolicy :=
  {| successFor := successFor p; p95StartMs := or_else (po_start o) (p95StartMs p); p95InboundMs := or_else (po_inbound o) (p95InboundMs p);
     p95StatusMs := or_else (po_status o) (p95StatusMs p); minSuccessRate := minSuccessRate p;
     noDoubleVerifications := noDoubleVerifications p; noServerErrors := noServerErrors p |}.

Record HardSafetyTotals : Type := mkSafety {
  hs_double_verifications : Z; hs_unhandled_exceptions : Z; hs_err_5xx : Z; hs_network_err : Z; hs_timeout : Z;
}.

Definition ZERO_SAFETY : HardSafetyTotals := mkSafety 0 0 0 0 0.

Definition addToSafety (h : HardSafetyTotals) (m : RunMetrics) : HardSafetyTotals :=
  fold_left (fun h op => mkSafety (hs_double_verifications h) (hs_unhandled_exceptions h) (hs_err_5xx h + m_err_5xx (bucket m op))
                           (hs_network_err h + m_network_err (bucket m op)) (hs_timeout h + m_timeout (bucket m op)))
    [op_start; op_inbound; op_status; op_heartbeat]
    (mkSafety (hs_double_verifications h + double_verifications m) (hs_unhandled_exceptions h + unhandled_exceptions m)
       (hs_err_5xx h) (hs_network_err h) (hs_timeout h)).

Inductive RanTo : Type := completed | skipped | errored.

Record SuiteStepResult : Type := { sr_scenarioName : string; sr_pass : bool; sr_ranTo : RanTo }.

Section Suite.
Context (known : string -> bool) (run_step : nat -> SuiteStep -> StepRun) (continueOnFail : bool).

Definition safety_clean (h : HardSafetyTotals) : bool :=
  (hs_double_verifications h =? 0)%Z && (hs_unhandled_exceptions h =? 0)%Z && (hs_err_5xx h =? 0)%Z
  && (hs_network_err h =? 0)%Z && (hs_timeout h =? 0)%Z.

(** The loop over the steps from the [i]-th: the results, the totals and whether it
    stopped early.  [run_step i] is what the [i]-th run gave, after the ones before. *)
Fixpoint suite_loop (i : nat) (steps : list SuiteStep) (h : HardSafetyTotals) : list SuiteStepResult * HardSafetyTotals * bool :=
  match steps with
  | [] => ([], h, false)
  | step :: rest =>
      let name := ss_scenarioName step in
      if negb (known name) then
        let '(rs, h', stopped) := suite_loop (S i) rest h in
        ({| sr_scenarioName := name; sr_pass := false; sr_ranTo := errored |} :: rs, h', stopped)
      else
        let '(r, h1) := match run_step i step with
                        | Return out =>
                            ({| sr_scenarioName := name; sr_pass := ar_pass (ro_acceptance out) && negb (ro_threw out); sr_ranTo := completed |},
                             addToSafety h (ro_metrics out))
                        | Throw _ => ({| sr_scenarioName := name; sr_pass := false; sr_ranTo := errored |}, h)
                        end in
        if negb (sr_pass r) && negb continueOnFail then
          (r :: map (fun s => {| sr_scenarioName := ss_scenarioName s; sr_pass := false; sr_ranTo := skipped |}) rest, h1, true)
        else
          let '(rs, h', stopped) := suite_loop (S i) rest h1 in
          (r :: rs, h', stopped)
  end.

Record SuiteResult : Type := { sx_pass : bool; sx_steps : list SuiteStepResult; sx_hardSafety : HardSafetyTotals; sx_ranAll : bool }.

Definition runSuite (def : SuiteDef) : SuiteResult :=
  let '(steps, safety, stopped) := suite_loop 0 (su_steps def) ZERO_SAFETY in
  {| sx_pass := forallb sr_pass steps && safety_clean safety; sx_steps := steps; sx_hardSafety := safety; sx_ranAll := negb stopped |}.
End Suite.

(** ** [index.ts] *)

Definition suite_exit (no_acceptance : bool) (r : SuiteResult) : Z := if negb no_acceptance && negb (sx_pass r) then 1 else 0.

(** [Throw]: [runOne] threw. *)
Definition scenario_exit (no_acceptance : bool) (r : StepRun) : Z :=
  match r with
  | Throw _ => 3
  | Return out => if negb no_acceptance && (negb (ar_pass (ro_acceptance out)) || ro_threw out) then 1 else 0
  end.

Definition parsePosInt (s : string) : option Z :=
  match parseInt10 s with Some n => if (n <=? 0)%Z then None else Some n | None => None end.

(** The options, as [parseArgs] of [node:util] gives them. *)
Record LtValues : Type := {
  lv_total : option string; lv_workers : option string; lv_no_acceptance : bool; lv_continue_on_fail : bool;
  lv_p95_start : option string; lv_p95_inbound : option string; lv_p95_status : option string;
}.

(** A number given and not empty; [Throw] is the code of [process.exit]. *)
Definition given_int (v : option string) : outcome Z (option Z) :=
  match v with
  | Some s => if nonempty s then match parsePosInt s with Some n => Return (Some n) | None => Throw 2%Z end else Return None
  | None => Return None
  end.

Definition policyOverrides (v : LtValues) : outcome Z PolicyOverrides :=
  match given_int (lv_p95_start v) with
  | Throw c => Throw c
  | Return s =>
      match given_int (lv_p95_inbound v) with
      | Throw c => Throw c
      | Return i => match given_int (lv_p95_status v) with
                    | Throw c => Throw c
                    | Return t => Return {| po_start := s; po_inbound := i; po_status := t |}
                    end
      end
  end.

Definition is_some {A} (o : option A) : bool := match o with Some _ => true | None => false end.

(** The exit code.  The parser and the two runs are arguments; the names a JavaScript
    object inherits ([constructor]) are not followed. *)
Definition main (parse : list string -> outcome exn LtValues) (run_suite : SuiteDef -> bool -> PolicyOverrides -> outcome exn SuiteResult)
    (run_one : ScenarioDef -> Z -> Z -> AcceptancePolicy -> StepRun) (argv : list string) : Z :=
  match argv with
  | [] => 2
  | first :: rest =>
      if negb (nonempty first) || String.eqb first "--help" || String.eqb first "-h" then 2
      else
        let isSuite := String.eqb first "suite" in
        let targetName := if isSuite then default "" (hd_error rest) else first in
        if negb (nonempty targetName) then 2
        else
          match parse (if isSuite then tl rest else rest) with
          | Throw _ => 1
          | Return values =>
              if isSuite then
                match List.find (fun d => String.eqb (su_name d) targetName) SUITES with
                | None => 2
                | Some def =>
                    if is_some (lv_total values) || is_some (lv_workers values) then 2
                    else
                      match policyOverrides values with
                      | Throw code => code
                      | Return o =>
                          match run_suite def (lv_continue_on_fail values) o with
                          | Throw _ => 1
                          | Return r => suite_exit (lv_no_acceptance values) r
                          end
                      end
                end
              else
                match scenario targetName with
                | None => 2
                | Some def =>
                    match given_int (lv_total values), given_int (lv_workers values), policyOverrides values with
                    | Return total, Return workers, Return o =>
                        scenario_exit (lv_no_acceptance values)
                          (run_one def (default (sd_defaultTotal def) total) (default (sd_defaultWorkers def) workers)
                             (applyOverrides (defaultPolicy (sd_name def)) o))
                    | Throw code, _, _ | _, Throw code, _ | _, _, Throw code => code
                    end
                end
          end
  end.

(** ** Suites *)

(** No hard-safety counter of the run is set. *)
Definition run_safe (m : RunMetrics) : Prop :=
  double_verifications m = 0%Z /\ unhandled_exceptions m = 0%Z /\
  forall op, m_err_5xx (bucket m op) = 0%Z /\ m_network_err (bucket m op) = 0%Z /\ m_timeout (bucket m op) = 0%Z.

Definition safety_sum (h : HardSafetyTotals) : Z :=
  hs_double_verifications h + hs_unhandled_exceptions h + hs_err_5xx h + hs_network_err h + hs_timeout h.

Definition safety_ok (h : HardSafetyTotals) : Prop :=
  (0 <= hs_double_verifications h /\ 0 <= hs_unhandled_exceptions h /\ 0 <= hs_err_5xx h /\ 0 <= hs_network_err h /\ 0 <= hs_timeout h)%Z.

Lemma safety_clean_sum h : safety_ok h -> safety_clean h = true <-> safety_sum h = 0%Z.
Proof. unfold safety_ok, safety_clean, safety_sum. rewrite !andb_true_iff, !Z.eqb_eq. lia. Qed.

Lemma addToSafety_spec h m :
  safety_ok h -> well_counted m ->
  safety_ok (addToSafety h m) /\ (safety_sum h <= safety_sum (addToSafety h m))%Z /\
  (safety_sum (addToSafety h m) = 0%Z <-> safety_sum h = 0%Z /\ run_safe m).
Proof.
  intros Hh (Hb & Hd & Hu).
  destruct (Hb op_start) as (_ & H1 & _), (Hb op_inbound) as (_ & H2 & _), (Hb op_status) as (_ & H3 & _), (Hb op_heartbeat) as (_ & H4 & _).
  unfold safety_ok, safety_sum, addToSafety, run_safe in *. cbn [fold_left hs_double_verifications hs_unhandled_exceptions hs_err_5xx hs_network_err hs_timeout].
  split; [lia|]. split; [lia|]. split.
  - intros Hz. split; [lia|]. split; [done|]. split; [lia|]. intros []; lia.
  - intros (Hz & _ & Hun & Hop). assert (E1 := Hop op_start). assert (E2 := Hop op_inbound). assert (E3 := Hop op_status).
    assert (E4 := Hop op_heartbeat). lia.
Qed.

Section SuiteSpec.
Context (known : string -> bool) (run_step : nat -> SuiteStep -> StepRun) (continueOnFail : bool).

(** Runs count as the scenarios do. *)
Hypothesis counted : forall i step out, run_step i step = Return out -> well_counted (ro_metrics out).

(** The step runs to its end, is accepted, and sets no hard-safety counter. *)
Definition step_clean (i : nat) (step : SuiteStep) : Prop :=
  known (ss_scenarioName step) = true /\
  exists out, run_step i step = Return out /\ ar_pass (ro_acceptance out) = true /\ ro_threw out = false /\ run_safe (ro_metrics out).

(** Every step from the [i]-th is clean. *)
Fixpoint steps_clean (i : nat) (steps : list SuiteStep) : Prop :=
  match steps with [] => True | step :: rest => step_clean i step /\ steps_clean (S i) rest end.

Lemma steps_clean_lookup i steps : steps_clean i steps <-> forall k step, steps !! k = Some step -> step_clean (i + k) step.
Proof.
  revert i. induction steps as [|step rest IH]; intros i; cbn [steps_clean]; [by split|]. rewrite IH. split.
  - intros [Hc Hr] [|k] step' Ek; [injection Ek as <-; by rewrite Nat.add_0_r|]. replace (i + S k)%nat with (S i + k)%nat by lia. by apply Hr.
  - intros Hall. split; [specialize (Hall 0%nat step eq_refl); by rewrite Nat.add_0_r in Hall|].
    intros k step' Ek. replace (S i + k)%nat with (i + S k)%nat by lia. by apply Hall.
Qed.

Lemma skipped_fail rest : rest <> [] -> forallb sr_pass (map (fun s => {| sr_scenarioName := ss_scenarioName s; sr_pass := false; sr_ranTo := skipped |}) rest) = false.
Proof. by destruct rest. Qed.

Lemma suite_loop_spec i steps h :
  safety_ok h ->
  let '(rs, h', stopped) := suite_loop known run_step continueOnFail i steps h in
  safety_ok h' /\ (safety_sum h <= safety_sum h')%Z /\ map sr_scenarioName rs = map ss_scenarioName steps /\
  (forallb sr_pass rs = true /\ safety_sum h' = 0%Z <-> steps_clean i steps /\ safety_sum h = 0%Z) /\
  (stopped = true -> forallb sr_pass rs = false /\ continueOnFail = false) /\
  (stopped = false -> Forall (fun r => sr_ranTo r <> skipped) rs).
Proof.
  revert i h. induction steps as [|step rest IH]; intros i h Hh; cbn [suite_loop].
  { split; [done|]. split; [lia|]. split; [done|]. split; [|by split].
    split; [intros [_ Hz]; by split|intros [_ Hz]; by split]. }
  destruct (known (ss_scenarioName step)) eqn:Ek; cbn [negb].
  2: { specialize (IH (S i) h Hh). destruct (suite_loop _ _ _ (S i) rest h) as [[rs h'] stopped]. destruct IH as (H1 & H2 & H3 & H4 & H5 & H6).
    split; [done|]. split; [done|]. split; [cbn; by rewrite H3|]. split; [|split; [by intros [_ Hc]%H5|intros Hs; constructor; [done|by apply H6]]].
    split; [by intros [[=] _]|]. intros [[Hc _] _]. destruct Hc as [Hc _]. congruence. }
  destruct (run_step i step) as [out|message] eqn:Er; [destruct (addToSafety_spec h (ro_metrics out) Hh (counted _ _ _ Er)) as (Ho & Hle & Hz)|];
    cbn [sr_pass]; destruct (_ && negb continueOnFail) eqn:Estop; cbn [map sr_scenarioName].
  - apply andb_true_iff in Estop. destruct Estop as [Ef Ec]. apply negb_true_iff in Ef, Ec.
    split; [done|]. split; [done|]. rewrite map_map. split; [done|]. split; [|split; [cbn; by rewrite Ef|done]]. cbn [forallb sr_pass]. rewrite Ef.
    split; [by intros [[=] _]|]. intros [[Hc _] _]. destruct Hc as (_ & out' & Eo & Ha & Ht & _).
    rewrite Er in Eo. injection Eo as <-. by rewrite Ha, Ht in Ef.
  - specialize (IH (S i) _ Ho). destruct (suite_loop _ _ _ (S i) rest _) as [[rs h'] stopped]. destruct IH as (H1 & H2 & H3 & H4 & H5 & H6).
    split; [done|]. split; [lia|]. cbn [map sr_scenarioName]. split; [by rewrite H3|]. cbn [forallb sr_pass]. split; [|split].
    + cbn [steps_clean]; rewrite !andb_true_iff, negb_true_iff. unfold step_clean at 1. rewrite Ek. split.
      * intros [[[Ha Ht] Hr] Hs]. destruct (proj1 H4 (conj Hr Hs)) as [Hc Hz0]. destruct (proj1 Hz Hz0) as [Hh0 Hsafe].
        split; [|done]. split; [|done]. split; [done|]. exists out. auto.
      * intros [[(_ & out' & Eo & Ha & Ht & Hsafe) Hc] Hh0]. rewrite Er in Eo. injection Eo as <-.
        destruct (proj2 H4 (conj Hc (proj2 Hz (conj Hh0 Hsafe)))) as [Hr Hs]. auto.
    + intros Hst. destruct (H5 Hst) as [-> Hc]. by rewrite andb_false_r.
    + intros Hst. constructor; [done|]. by apply H6.
  - split; [done|]. split; [lia|]. rewrite map_map. split; [done|]. split; [|split; [|done]].
    + split; [by intros [[=] _]|]. intros [[Hc _] _]. destruct Hc as (_ & out' & Eo & _). congruence.
    + intros _. split; [done|]. by destruct continueOnFail.
  - specialize (IH (S i) _ Hh). destruct (suite_loop _ _ _ (S i) rest _) as [[rs h'] stopped]. destruct IH as (H1 & H2 & H3 & H4 & H5 & H6).
    split; [done|]. split; [done|]. cbn [map sr_scenarioName]. split; [by rewrite H3|]. cbn [forallb sr_pass]. split; [|split].
    + split; [by intros [[=] _]|]. intros [[Hc _] _]. destruct Hc as (_ & out' & Eo & _). congruence.
    + intros Hst. by destruct (H5 Hst) as [_ Hc].
    + intros Hst. constructor; [done|]. by apply H6.
Qed.

Lemma suite_pass_spec def :
  let r := runSuite known run_step continueOnFail def in
  (sx_pass r = true <-> forall i step, su_steps def !! i = Some step -> step_clean i step) /\
  map sr_scenarioName (sx_steps r) = map ss_scenarioName (su_steps def) /\
  (sx_pass r = true -> sx_ranAll r = true) /\
  (continueOnFail = true -> Forall (fun s => sr_ranTo s <> skipped) (sx_steps r)).
Proof.
  intros r. unfold r, runSuite. assert (Hs := suite_loop_spec 0 (su_steps def) ZERO_SAFETY).
  destruct (suite_loop _ _ _ _ _ _) as [[rs h'] stopped]. destruct Hs as (H1 & _ & H3 & H4 & H5 & H6); [unfold safety_ok; cbn; lia|].
  cbn [sx_pass sx_steps sx_ranAll]. rewrite andb_true_iff, (safety_clean_sum h' H1), H4, steps_clean_lookup. split; [|split; [done|split]].
  - split; [by intros [? _]|by intros ?].
  - rewrite <- steps_clean_lookup, <- H4. intros [Hc _]. destruct stopped; [|done]. destruct (H5 eq_refl) as [Hf _]. congruence.
  - intros Hc. apply H6. destruct stopped; [|done]. destruct (H5 eq_refl) as [_ Hf]. congruence.
Qed.
End SuiteSpec.

(** The runs of a suite, each from the state [servers i] the ones before left: the
    scenario's own total unless the step gives one, its policy under the overrides. *)
Section Gate.
Context `{Digest} {S : Type} (send : list Z -> HttpRequest -> S -> Outcome * S).
Context (now : nat -> Z) (random : nat -> string) (dice : nat -> nat -> nat) (schedule : Z -> list Z).
Context (load : Z -> outcome string (Fixtures * option (list string -> S -> outcome string unit * S))) (disable : string -> S -> S).
Context (startedAt finishedAt : nat -> Z) (overrides : PolicyOverrides) (servers : nat -> S).

Definition known_scenario (name : string) : bool := is_some (scenario name).

Definition suite_step_run (i : nat) (step : SuiteStep) : StepRun :=
  let name := ss_scenarioName step in
  let total := default (match scenario name with Some def => sd_defaultTotal def | None => 0%Z end) (ss_total step) in
  fst (runOne send now random dice schedule load disable name total (startedAt i) (finishedAt i)
         (applyOverrides (defaultPolicy name) overrides) (servers i)).

Lemma suite_step_counted i step out : suite_step_run i step = Return out -> well_counted (ro_metrics out).
Proof. apply runOne_counted. Qed.

(** The release gate: whatever the server does, a suite exits 0 exactly when every one
    of its steps is a known scenario whose run returned, was accepted, did not throw and
    set none of the five hard-safety counters; its report lists every step in order; a
    suite that passes ran them all, and one that continues on failure skips none. *)
Theorem suite_gate continueOnFail def :
  let r := runSuite known_scenario suite_step_run continueOnFail def in
  (suite_exit false r = 0%Z <->
     forall i step, su_steps def !! i = Some step ->
       known_scenario (ss_scenarioName step) = true /\
       exists out, suite_step_run i step = Return out /\ ar_pass (ro_acceptance out) = true /\ ro_threw out = false /\
                   run_safe (ro_metrics out)) /\
  map sr_scenarioName (sx_steps r) = map ss_scenarioName (su_steps def) /\
  (sx_pass r = true -> sx_ranAll r = true) /\
  (continueOnFail = true -> Forall (fun s => sr_ranTo s <> skipped) (sx_steps r)).
Proof.
  intros r. destruct (suite_pass_spec known_scenario suite_step_run continueOnFail suite_step_counted def) as (Hp & Hn & Hr & Hs).
  split; [|by split]. fold r in Hp. unfold suite_exit. etransitivity; [|exact Hp]. by destruct (sx_pass r).
Qed.

(** The description of the soak suite says that its last step proves that a disabled
    receiver still surfaces a clean 503, and the policy of that step tolerates it; a run
    with one 5xx fails the suite. *)
Lemma suite_fails_on_5xx continueOnFail def i step out op :
  su_steps def !! i = Some step -> suite_step_run i step = Return out -> m_err_5xx (bucket (ro_metrics out) op) <> 0%Z ->
  suite_exit false (runSuite known_scenario suite_step_run continueOnFail def) = 1%Z.
Proof.
  intros Hi Eo H5. destruct (suite_pass_spec known_scenario suite_step_run continueOnFail suite_step_counted def) as (Hp & _).
  unfold suite_exit. destruct (sx_pass _); [|done]. destruct (proj1 Hp eq_refl i step Hi) as (_ & out' & Eo' & _ & _ & _ & _ & Hsafe).
  rewrite Eo in Eo'. injection Eo' as <-. by destruct (Hsafe op) as [H5' _].
Qed.
End Gate.

(** The policy of the step itself accepts a 503. *)
Lemma receiver_disabled_tolerates_5xx m :
  unhandled_exceptions m = 0%Z -> ar_pass (evaluate m (defaultPolicy "receiver-disabled")) = true.
Proof. intros E. unfold evaluate, checks. cbn. by rewrite E. Qed.

(** *** The exit codes *)

(** The tool exits with one of four codes, and with 0 only for a run or a suite that
    passed, unless acceptance was waived. *)
Lemma main_exit_codes parse run_suite run_one argv :
  In (main parse run_suite run_one argv) [0; 1; 2; 3]%Z.
Proof.
  assert (Hg : forall v c, given_int v = Throw c -> c = 2%Z).
  { intros [s|] c; cbn; [|done]. destruct (nonempty s); [|done]. destruct (parsePosInt s); [done|]. by intros [= <-]. }
  assert (Hp : forall v c, policyOverrides v = Throw c -> c = 2%Z).
  { intros v c. unfold policyOverrides. destruct (given_int (lv_p95_start v)) eqn:E1; [|intros [= <-]; eauto].
    destruct (given_int (lv_p95_inbound v)) eqn:E2; [|intros [= <-]; eauto].
    destruct (given_int (lv_p95_status v)) eqn:E3; [done|intros [= <-]; eauto]. }
  assert (Hs : forall b r, In (suite_exit b r) [0; 1; 2; 3]%Z) by (intros b r; unfold suite_exit; destruct (_ && _); cbn; auto).
  assert (Ho : forall b r, In (scenario_exit b r) [0; 1; 2; 3]%Z) by (intros b [r|]; cbn; [destruct (_ && _)|]; auto 6).
  assert (H2 : In 2%Z [0; 1; 2; 3]%Z) by (cbn; auto). assert (H1 : In 1%Z [0; 1; 2; 3]%Z) by (cbn; auto).
  unfold main. destruct argv as [|first rest]; [done|]. destruct (_ || _); [done|]. destruct (negb _); [done|].
  destruct (parse _) as [v|]; [|done]. destruct (String.eqb first "suite").
  - destruct (List.find _ _); [|done]. destruct (_ || _); [done|]. destruct (policyOverrides v) as [o|c] eqn:E; [|by rewrite (Hp _ _ E)].
    by destruct (run_suite _ _ _).
  - destruct (scenario _); [|done].
    destruct (given_int (lv_total v)) as [t|c] eqn:Et; [|by rewrite (Hg _ _ Et)].
    destruct (given_int (lv_workers v)) as [n|c] eqn:En; [|by rewrite (Hg _ _ En)].
    destruct (policyOverrides v) as [o|c] eqn:E; [|by rewrite (Hp _ _ E)]. done.
Qed.
