(* ===== verification/DoubleText.v ===== *)
(** * Numbers as text

    [Number::toString] and [Number.prototype.toFixed] on binary64 numbers: the shortest
    decimal that reads back as the number, and a fixed number of decimals.  The search
    for the shortest decimal compares exact rationals; [shortest_reads_back] says that
    what it finds is the number again. *)

From S2P Require Import Prelude JsString Json Double JsNumber.
From Stdlib Require Import Floats.SpecFloat String Ascii.

Open Scope string_scope.
Open Scope Z_scope.

(** ** The double nearest to a decimal *)

(** [s * 10^p], rounded once. *)
Definition of_decimal (s p : Z) : double :=
  match s with
  | Zpos s' =>
      if 0 <=? p then binary_normalize 53 1024 (s * 10 ^ p) 0 false
      else SFdiv 53 1024 (S754_finite false s' 0) (S754_finite false (Z.to_pos (10 ^ (- p))) 0)
  | _ => S754_zero false
  end.

(** ** The shortest decimal *)

(** The number of decimal digits of a positive integer. *)
Definition digit_count (v : Z) : Z :=
  let c := Z.log2 v * 30103 / 100000 in
  if v <? 10 ^ c then c else if v <? 10 ^ (c + 1) then c + 1 else c + 2.

(** [n] with [10^(n-1) <= m 2^e < 10^n]; a positive double is above [10^-400]. *)
Definition exponent10 (m : positive) (e : Z) : Z :=
  let v := Zpos m * 10 ^ 400 in
  digit_count (if 0 <=? e then v * 2 ^ e else v / 2 ^ (- e)) - 400.

(** The two integers next to [m 2^e / 10^p], the nearer one first. *)
Definition neighbours (m : positive) (e p : Z) : list Z :=
  let num := Zpos m * 2 ^ Z.max 0 e * 10 ^ Z.max 0 (- p) in
  let den := 2 ^ Z.max 0 (- e) * 10 ^ Z.max 0 p in
  let lo := num / den in
  let rest := 2 * (num mod den) in
  if (rest <? den) || ((rest =? den) && Z.even lo) then [lo; lo + 1] else [lo + 1; lo].

Definition same (x y : double) : bool :=
  match x, y with
  | S754_finite s m e, S754_finite s' m' e' => Bool.eqb s s' && Pos.eqb m m' && (e =? e')
  | _, _ => false
  end.

(** With [k] digits, or more: the digits and the exponent. *)
Fixpoint shortest_from (m : positive) (e n k : Z) (fuel : nat) : option (Z * Z) :=
  match fuel with
  | O => None
  | S fuel =>
      let ok := fun s => (10 ^ (k - 1) <=? s) && (s <=? 10 ^ k) && same (of_decimal s (n - k)) (S754_finite false m e) in
      match List.find ok (neighbours m e (n - k)) with
      | Some s => Some (s, n - k)
      | None => shortest_from m e n (k + 1) fuel
      end
  end.

(** Seventeen digits are enough for a double. *)
Definition shortest (m : positive) (e : Z) : option (Z * Z) := shortest_from m e (exponent10 m e) 1 17.

(** The digits without the zeros at the end, and [n]: the number is [0.digits * 10^n]. *)
Fixpoint strip_zeros (s : Z) (fuel : nat) : Z :=
  match fuel with
  | O => s
  | S fuel => if s mod 10 =? 0 then strip_zeros (s / 10) fuel else s
  end.

(** ** [Number::toString] *)

Definition zeros (n : Z) : string := repeat_char "0"%char (Z.to_nat n).

(** [digits] in the place the exponent [n] says. *)
Definition place (digits : string) (n : Z) : string :=
  let k := Z.of_nat (slen digits) in
  if (k <=? n) && (n <=? 21) then digits ++ zeros (n - k)
  else if (0 <? n) && (n <=? 21) then slice_to digits (Z.to_nat n) ++ "." ++ slice_from digits (Z.to_nat n)
  else if (-6 <? n) && (n <=? 0) then "0." ++ zeros (- n) ++ digits
  else
    let x := n - 1 in
    slice_to digits 1 ++ (if k =? 1 then "" else "." ++ slice_from digits 1)
      ++ "e" ++ (if x <? 0 then "-" else "+") ++ num_to_string (Z.abs x).

Definition number_text (x : double) : string :=
  match x with
  | S754_zero _ => "0"
  | S754_infinity s => if s then "-Infinity" else "Infinity"
  | S754_nan => "NaN"
  | S754_finite s m e =>
      (if s then "-" else "") ++
      match shortest m e with
      | Some (d, p) =>
          let d' := strip_zeros d 20 in
          place (num_to_string d') (Z.of_nat (slen (num_to_string d)) + p)
      | None => "NaN"
      end
  end.

(** ** [toFixed] *)

(** [x.toFixed(f)] of a number below 10^21. *)
Definition to_fixed (f : nat) (x : double) : string :=
  match x with
  | S754_infinity s => if s then "-Infinity" else "Infinity"
  | S754_nan => "NaN"
  | S754_zero _ => if (f =? 0)%nat then "0" else "0." ++ zeros (Z.of_nat f)
  | S754_finite s m e =>
      let n := round_half_up false (m * Z.to_pos (10 ^ Z.of_nat f)) e in
      (if s then "-" else "") ++ num_to_string (n / 10 ^ Z.of_nat f)
        ++ (if (f =? 0)%nat then "" else "." ++ pad_num f (n mod 10 ^ Z.of_nat f))
  end.

(** ** The decimal is the number *)

Lemma same_eq x y : same x y = true -> x = y.
Proof.
  destruct x as [| | |s m e], y as [| | |s' m' e']; cbn; try done. rewrite !andb_true_iff, Bool.eqb_true_iff, Pos.eqb_eq, Z.eqb_eq.
  by intros [[-> ->] ->].
Qed.

Lemma shortest_from_sound m e n k fuel s p :
  shortest_from m e n k fuel = Some (s, p) -> of_decimal s p = S754_finite false m e.
Proof.
  revert k. induction fuel as [|fuel IH]; intros k; [done|]. cbn [shortest_from]. destruct (List.find _ _) as [s'|] eqn:E; [|apply IH].
  intros [= <- <-]. apply List.find_some in E. destruct E as [_ E].
  apply andb_true_iff in E. destruct E as [_ E]. by apply same_eq.
Qed.

(** The decimal that is printed rounds to the number. *)
Lemma shortest_reads_back m e s p : shortest m e = Some (s, p) -> of_decimal s p = S754_finite false m e.
Proof. apply shortest_from_sound. Qed.

Example number_texts :
  map number_text [of_Z 0; of_Z 1200; ddiv (of_Z 1) (of_Z 10); ddiv (of_Z 1) (of_Z 3); dadd (ddiv (of_Z 1) (of_Z 10)) (ddiv (of_Z 2) (of_Z 10));
                   of_Z (10 ^ 21); of_Z (10 ^ 23); ddiv (of_Z 1) (of_Z 10000000); ddiv (of_Z (-25)) (of_Z 4)]
  = ["0"; "1200"; "0.1"; "0.3333333333333333"; "0.30000000000000004"; "1e+21"; "1e+23"; "1e-7"; "-6.25"].
Proof. vm_compute. reflexivity. Qed.

Example fixed_texts : map (to_fixed 2) [of_Z 12; ddiv (of_Z 1) (of_Z 3); ddiv (of_Z 2005) (of_Z 1000); ddiv (of_Z 199999) (of_Z 1000)]
  = ["12.00"; "0.33"; "2.00"; "200.00"].
Proof. vm_compute. reflexivity. Qed.
