(* ===== verification/LoadPrep.v ===== *)
(** * The fixtures of a load test work

    What [prepFixtures] of [tools/loadtest/src/env.ts] stores, against the server's own
    definitions: the two keys pass [requireKey], and a request signed by
    [signGateway] for a fixture receiver passes [verifyGatewayHmac].  The
    cryptography of the tool is a copy of the server's; the equalities that say so
    are [hashApiKey_server] and [aesGcmWrap_server]. *)

From stdpp Require Import gmap strings.
From S2P Require Import Prelude JsString Json JsonParse JsNumber Date Errors Phone Crypto Aead Config Schema Webhooks RateLimit Hmac Server Auth Wire Client Inbound Receivers Probe LoadRun.
From Stdlib Require Import String Ascii.

Open Scope string_scope.
Open Scope js_scope.

(** ** The copies of the server's cryptography *)

Lemma hashApiKey_server `{Digest} cfg masterKeyHex raw :
  MASTER_ENCRYPTION_KEY cfg = masterKeyHex -> hashApiKey masterKeyHex raw = key_hash cfg raw.
Proof. by intros <-. Qed.

Lemma aesGcmWrap_server `{Gcm} iv masterKeyHex plaintext aad w :
  aesGcmWrap iv masterKeyHex plaintext aad = Return w -> wrap iv masterKeyHex plaintext (Some aad) = Return w.
Proof. unfold aesGcmWrap, wrap. cbn [default]. by destruct (negb _). Qed.

Lemma randomChars_key bytes prefix : prefix ++ "_" ++ randomChars bytes 32 = generateApiKey bytes prefix.
Proof. reflexivity. Qed.

(** ** The rows of a preparation *)

Section Rows.
Context `{Digest} `{Gcm} (d : PrepDraws) (masterKeyHex : string).

(** The row stored for a fixture receiver: enabled, of the app, with the signing key
    under the server's own wrapping. *)
Definition stored_for (appId : string) (rc : Receiver) (lr : LtReceiver) : Prop :=
  r_id rc = lr_id lr /\ r_appId rc = appId /\ r_enabled rc = true /\ r_msisdn rc = lr_msisdn lr /\
  (exists i, lr_id lr = "rcv_" ++ pd_receiver d i) /\
  unwrap masterKeyHex (r_secretHash rc) (Some (receiver_aad (r_id rc))) = Return (lr_signingKey lr).

Lemma prep_receivers_rows appId is_ w rs w' :
  prep_receivers d masterKeyHex appId is_ w = (Return rs, w') ->
  respects receivers_idx (receivers (db w)) ->
  exists rcs, db w' = set_rows t_receivers (receivers (db w) ++ rcs)%list (db w) /\ Forall2 (stored_for appId) rcs rs /\
    List.length rs = List.length is_ /\ respects receivers_idx (receivers (db w')).
Proof.
  revert w rs w'. induction is_ as [|i is_ IH]; intros w rs w' E Hr.
  { injection E as <- <-. exists []. rewrite app_nil_r. split; [by destruct (db w)|]. by split. }
  apply bind_Return_inv in E. destruct E as (lr & w1 & E1 & E).
  apply bind_Return_inv in E. destruct E as (rs' & w2 & E2 & E). injection E as <- <-.
  unfold prep_receiver in E1. cbv zeta in E1. apply bind_Return_inv in E1. destruct E1 as (wrapped & w0 & Ew & E1).
  apply pair_inj in Ew. destruct Ew as [Ew <-]. apply bind_Return_inv in E1. destruct E1 as ([] & w1' & Ei & E1).
  injection E1 as <- <-. rewrite insert_eq in Ei. destruct (broken_by _ _ _) eqn:Eb; [discriminate|].
  injection Ei as <-. destruct (IH _ _ _ E2) as (rcs & Hdb & Hf & Hl & Hresp); [by apply respects_insert|].
  eexists (_ :: rcs). split; [rewrite Hdb; cbn; rewrite <- app_assoc; reflexivity|]. split; [|split; [cbn; by rewrite Hl|done]].
  constructor; [|exact Hf]. do 4 (split; [reflexivity|]). split; [by exists i|].
  eapply wrap_Return. by apply aesGcmWrap_server.
Qed.

Lemma prepFixtures_rows baseUrl needed w fx w' :
  prepFixtures d masterKeyHex baseUrl needed w = (Return fx, w') ->
  respects apiKeys_idx (apiKeys (db w)) -> respects apps_idx (apps (db w)) -> respects receivers_idx (receivers (db w)) ->
  let appId := "app_" ++ pd_app d in
  exists k1 k2 rcs,
    fx_publicKey fx = generateApiKey (pd_pk d) "pk_live" /\ fx_secretKey fx = generateApiKey (pd_sk d) "sk_live" /\
    apps (db w') = (apps (db w) ++ [mkApp appId ("loadtest-" ++ toISOString (pd_now d)) (pd_dbNow d) false])%list /\
    apiKeys (db w') = (apiKeys (db w) ++ [k1; k2])%list /\
    (k_kind k1 = public /\ k_appId k1 = appId /\ k_keyHash k1 = hashApiKey masterKeyHex (fx_publicKey fx) /\ k_revokedAt k1 = None) /\
    (k_kind k2 = secret /\ k_appId k2 = appId /\ k_keyHash k2 = hashApiKey masterKeyHex (fx_secretKey fx) /\ k_revokedAt k2 = None) /\
    receivers (db w') = (receivers (db w) ++ rcs)%list /\ Forall2 (stored_for appId) rcs (fx_receivers fx) /\
    List.length (fx_receivers fx) = Z.to_nat needed /\
    respects apiKeys_idx (apiKeys (db w')) /\ respects apps_idx (apps (db w')) /\ respects receivers_idx (receivers (db w')).
Proof.
  unfold prepFixtures. intros E Hk Ha Hr. cbv zeta in E |- *. rewrite bind_throw_if in E.
  destruct (negb _); [discriminate|]. apply bind_Return_inv in E. destruct E as ([] & w1 & E1 & E).
  rewrite insert_eq in E1. destruct (broken_by _ _ _) eqn:Eb; [discriminate|]. injection E1 as <-.
  apply bind_Return_inv in E. destruct E as ([] & w2 & E2 & E). unfold insert_all in E2.
  destruct (insert_all_rows _ _ _) as [|t] eqn:Ei; [discriminate|]. injection E2 as <-.
  destruct (respects_insert_all _ _ _ _ Hk Ei) as [Hk' ->]. clear Ei.
  apply bind_Return_inv in E. destruct E as (rs & w3 & E3 & E). injection E as <- <-.
  destruct (prep_receivers_rows _ _ _ _ _ E3 Hr) as (rcs & Hdb & Hf & Hl & Hr').
  eexists _, _, rcs. split; [reflexivity|]. split; [reflexivity|]. rewrite Hdb. cbn -[generateApiKey].
  split; [reflexivity|]. split; [reflexivity|]. split; [done|]. split; [done|]. split; [reflexivity|]. split; [exact Hf|].
  split; [rewrite Hl; unfold seqZ; by rewrite length_map, length_seq|]. split; [exact Hk'|]. split; [by apply respects_insert|].
  by rewrite Hdb in Hr'.
Qed.
End Rows.

(** ** A signed request *)

(** The fields of a request signed at [now], with the nonce of the options or a drawn one. *)
Definition signed_input `{Digest} (lr : LtReceiver) (now : Z) (nonceBytes raw : string) (nonce : option string) : VerifyHmacInput :=
  let n := default (bufferToHex nonceBytes) nonce in
  {| h_receiverId := lr_id lr; h_timestampHeader := num_to_string (now / 1000); h_nonceHeader := n;
     h_signatureHeader := hmacSha256Hex (lr_signingKey lr) (num_to_string (now / 1000) ++ "." ++ n ++ "." ++ sha256Hex raw);
     h_rawBody := raw |}.

(** The request [postInbound] builds. *)
Definition inbound_request `{Digest} (fx : Fixtures) (lr : LtReceiver) (now : Z) (nonceBytes raw : string) (nonce : option string) : HttpRequest :=
  client_request (fx_baseUrl fx) "POST" "/v1/inbound/sms" (signGateway now nonceBytes (lr_id lr) (lr_signingKey lr) raw nonce) (Some raw).

Section Signed.
Context `{Digest}.
Hypothesis hmac_hex : forall k m, matches_class is_hex 64 64 (hmacSha256Hex k m) = true.

(** The gateway routes read the four headers as they were signed. *)
Lemma signed_headers fx lr now nonceBytes raw nonce ip id param raw' body :
  matches_prefixed "rcv_" is_alnum (lr_id lr) = true -> (0 <= now)%Z ->
  nonempty (default (bufferToHex nonceBytes) nonce) = true ->
  let input := signed_input lr now nonceBytes raw nonce in
  readGatewayHeaders (to_request ip id param (inbound_request fx lr now nonceBytes raw nonce) raw' body)
  = {| gh_receiverId := Some (h_receiverId input); gh_timestamp := Some (h_timestampHeader input);
       gh_nonce := Some (h_nonceHeader input); gh_signature := Some (h_signatureHeader input) |}.
Proof.
  intros Hid Hn Hx input. unfold readGatewayHeaders, truthy_header, header, to_request, inbound_request, client_request.
  cbn [rq_headers hr_headers lower_headers signGateway List.app map header_in].
  change (toLowerCase "X-SYROTP-Receiver") with "x-syrotp-receiver".
  change (toLowerCase "X-SYROTP-Timestamp") with "x-syrotp-timestamp". change (toLowerCase "X-SYROTP-Nonce") with "x-syrotp-nonce".
  change (toLowerCase "X-SYROTP-Signature") with "x-syrotp-signature".
  cbn [String.eqb Ascii.eqb Bool.eqb input signed_input h_receiverId h_timestampHeader h_nonceHeader h_signatureHeader].
  rewrite (matches_prefixed_nonempty _ Hid), (matches_class_nonempty _ _ _ _ (hmac_hex _ _)), Hx.
  destruct (num_to_string_digits (now / 1000) ltac:(apply Z.div_pos; lia)) as (_ & Hne & _).
  by assert (nonempty (num_to_string (now / 1000)) = true) as -> by (destruct (num_to_string _); done).
Qed.

Lemma signed_authentic `{Gcm} `{Limit1} cfg D rc lr now now2 nonceBytes raw nonce :
  respects receivers_idx (receivers D) -> In rc (receivers D) -> r_enabled rc = true -> r_id rc = lr_id lr ->
  matches_prefixed "rcv_" is_alnum (lr_id lr) = true ->
  unwrap (MASTER_ENCRYPTION_KEY cfg) (r_secretHash rc) (Some (receiver_aad (r_id rc))) = Return (lr_signingKey lr) ->
  matches_class is_hex 32 128 (default (bufferToHex nonceBytes) nonce) = true ->
  (0 <= now < 2 ^ 62)%Z -> (Z.abs (now2 / 1000 - now / 1000) <= INBOUND_TIMESTAMP_SKEW_SECONDS cfg)%Z ->
  authentic cfg now2 D (signed_input lr now nonceBytes raw nonce) rc.
Proof.
  intros Hr Hin Hen Hid Hform Hun Hnonce Hn Hskew. exists (now / 1000)%Z, (lr_signingKey lr).
  split; [done|]. split; [exact Hnonce|]. split; [apply hmac_hex|]. split.
  { apply parseInt10_num. unfold DOUBLE_OVERFLOW. split; [apply Z.div_pos; lia|].
    apply Z.le_lt_trans with now; [apply Z.div_le_upper_bound; lia|]. destruct Hn as [_ Hn]. eapply Z.lt_trans; [exact Hn|]. reflexivity. }
  split; [done|]. split; [by apply receiver_by_id|]. split; [done|]. split; [exact Hun|]. reflexivity.
Qed.
End Signed.

(** ** The fixtures work *)

Lemma Forall2_In_r {A B} (P : A -> B -> Prop) l k y : Forall2 P l k -> In y k -> exists x, In x l /\ P x y.
Proof.
  induction 1 as [|x y' l k Hxy _ IH]; [done|]. intros [->|Hin]; [by exists x; split; [left|]|].
  destruct (IH Hin) as (x' & Hx & Hp). exists x'. split; [by right|done].
Qed.

Lemma wrapped_nonce (nonceBytes : string) (nonce : option string) :
  slen nonceBytes = 16%nat -> nonce = None \/ nonce = Some fixedNonce ->
  matches_class is_hex 32 128 (default (bufferToHex nonceBytes) nonce) = true.
Proof.
  intros Hl [-> | ->]; [|reflexivity]. cbn [default]. destruct (bufferToHex_hex nonceBytes) as [Hx Hs].
  unfold matches_class. by rewrite Hx, Hs, Hl.
Qed.

(** A request signed for a stored receiver, with a usable nonce that is not alive, is
    accepted. *)
Lemma stored_accepted {R} `{Digest} `{Gcm} `{Redis R} `{Limit1} cfg d appId D rcs lrs (r : R) lr now now2 setAt nonceBytes raw nonce :
  (forall k m, matches_class is_hex 64 64 (hmacSha256Hex k m) = true) ->
  (forall i, all_chars is_alnum (pd_receiver d i) = true /\ pd_receiver d i <> "") ->
  respects receivers_idx (receivers D) -> (forall rc, In rc rcs -> In rc (receivers D)) ->
  Forall2 (stored_for d (MASTER_ENCRYPTION_KEY cfg) appId) rcs lrs -> In lr lrs ->
  matches_class is_hex 32 128 (default (bufferToHex nonceBytes) nonce) = true ->
  (0 <= now < 2 ^ 62)%Z -> (Z.abs (now2 / 1000 - now / 1000) <= INBOUND_TIMESTAMP_SKEW_SECONDS cfg)%Z ->
  let input := signed_input lr now nonceBytes raw nonce in
  visible r setAt (nonce_key input) = None ->
  exists r', verifyGatewayHmac cfg now2 setAt D input r
             = (HmacOk {| gr_id := lr_id lr; gr_appId := appId; gr_msisdn := lr_msisdn lr |}, r').
Proof.
  intros Hhex Hulid Hr' Hsub Hf Hin Hnonce Hn Hskew input Hvis.
  destruct (Forall2_In_r _ _ _ _ Hf Hin) as (rc & Hrc & Hid & Happ & Hen & Hmsisdn & [i Hi] & Hun).
  assert (Hau : authentic cfg now2 D input rc).
  { apply signed_authentic; try done; [by apply Hsub|].
    rewrite Hi. destruct (Hulid i) as [Hc Hne]. unfold matches_prefixed. rewrite startsWith_app, slice_from_app, Hc.
    by destruct (pd_receiver d i). }
  rewrite (verify_authentic cfg now2 setAt D input r rc Hau).
  destruct (set_nx_ex _ _ _ r) as [b r'] eqn:Es. destruct (set_law _ _ _ _ _ _ Es) as [-> _]. rewrite Hvis. cbn [negb].
  exists r'. unfold public_view. by rewrite Hid, Happ, Hmsisdn.
Qed.

(** The fixtures written to the database work against the server under the same
    master key, whatever the tables held: both keys pass [requireKey] for their kind with
    the new app's id, there are as many receivers as asked for, and a request signed for
    one of them passes [verifyGatewayHmac] at any clock within the skew as long as its
    nonce is not alive, with a drawn nonce and with the storm's fixed one. *)
Theorem prepared_fixtures_accepted {R} `{Digest} `{Gcm} `{Redis R} `{Limit1} cfg d baseUrl needed w fx w' (r : R) ts :
  prepFixtures d (MASTER_ENCRYPTION_KEY cfg) baseUrl needed w = (Return fx, w') ->
  (forall k m, matches_class is_hex 64 64 (hmacSha256Hex k m) = true) ->
  (forall i, all_chars is_alnum (pd_receiver d i) = true /\ pd_receiver d i <> "") ->
  respects apiKeys_idx (apiKeys (db w)) -> respects apps_idx (apps (db w)) -> respects receivers_idx (receivers (db w)) ->
  (forall raw kind, In (raw, kind) [(fx_publicKey fx, public); (fx_secretKey fx, secret)] ->
     exists key s', requireKey cfg (bearer_request raw) [kind] (mkServer w' r ts) = (Return key, s') /\
       ak_appId key = "app_" ++ pd_app d /\ ak_kind key = kind /\ db (sw s') = db w') /\
  List.length (fx_receivers fx) = Z.to_nat needed /\
  forall lr now now2 setAt nonceBytes raw nonce,
    In lr (fx_receivers fx) -> slen nonceBytes = 16%nat -> nonce = None \/ nonce = Some fixedNonce ->
    (0 <= now < 2 ^ 62)%Z -> (Z.abs (now2 / 1000 - now / 1000) <= INBOUND_TIMESTAMP_SKEW_SECONDS cfg)%Z ->
    let input := signed_input lr now nonceBytes raw nonce in
    visible r setAt (nonce_key input) = None ->
    exists r', verifyGatewayHmac cfg now2 setAt (db w') input r
               = (HmacOk {| gr_id := lr_id lr; gr_appId := "app_" ++ pd_app d; gr_msisdn := lr_msisdn lr |}, r').
Proof.
  intros E Hhex Hulid Hk Ha Hr. destruct (prepFixtures_rows _ _ _ _ _ _ _ E Hk Ha Hr)
    as (k1 & k2 & rcs & Epk & Esk & Eapps & Ekeys & Hk1 & Hk2 & Ercs & Hf & Hl & Hk' & Ha' & Hr').
  split; [|split; [exact Hl|]].
  - intros raw kind Hin. assert (Hlive : exists bytes prefix k, raw = generateApiKey bytes prefix /\ PREFIX_TO_KIND prefix = Some kind /\
      In k (apiKeys (db w')) /\ k_kind k = kind /\ k_appId k = "app_" ++ pd_app d /\ k_keyHash k = key_hash cfg raw /\ k_revokedAt k = None).
    { rewrite Ekeys. destruct Hin as [Hin|[Hin|[]]]; apply pair_inj in Hin; destruct Hin as [<- <-];
        [exists (pd_pk d), "pk_live", k1|exists (pd_sk d), "sk_live", k2]; (split; [assumption|]); (split; [reflexivity|]);
        rewrite in_app_iff; (split; [cbn; auto 6|]); [exact Hk1|exact Hk2]. }
    destruct Hlive as (bytes & prefix & k & -> & Hp & Hink & Hkind & Happ & Hh & Hrev).
    exists (authed k), (mkServer w' r (ts ++ [k_id k])%list). split; [|split; [exact Happ|split; [exact Hkind|reflexivity]]].
    apply (generated_key_accepted cfg bytes prefix kind k (mkApp ("app_" ++ pd_app d) ("loadtest-" ++ toISOString (pd_now d)) (pd_dbNow d) false));
      try assumption; [|by rewrite Happ|reflexivity].
    cbn [db sw]. rewrite Eapps. apply in_app_iff. right. by left.
  - intros lr now now2 setAt nonceBytes raw nonce Hin Hnl Hnonce Hn Hskew input Hvis.
    eapply stored_accepted; try eassumption; [|by apply wrapped_nonce].
    intros rc Hrc. rewrite Ercs. apply in_app_iff. by right.
Qed.

(** The comment of [replayStorm] says that the server answers 401 every time; the first
    message with the fixed nonce is accepted, unless an earlier storm of the same
    receiver has used it. *)
Lemma first_replay_accepted {R} `{Digest} `{Gcm} `{Redis R} `{Limit1} cfg d baseUrl needed w fx w' (r : R) lr now now2 setAt nonceBytes raw :
  prepFixtures d (MASTER_ENCRYPTION_KEY cfg) baseUrl needed w = (Return fx, w') ->
  (forall k m, matches_class is_hex 64 64 (hmacSha256Hex k m) = true) ->
  respects apiKeys_idx (apiKeys (db w)) -> respects apps_idx (apps (db w)) -> respects receivers_idx (receivers (db w)) ->
  (forall i, all_chars is_alnum (pd_receiver d i) = true /\ pd_receiver d i <> "") -> In lr (fx_receivers fx) ->
  (0 <= now < 2 ^ 62)%Z -> (Z.abs (now2 / 1000 - now / 1000) <= INBOUND_TIMESTAMP_SKEW_SECONDS cfg)%Z ->
  let input := signed_input lr now nonceBytes raw (Some fixedNonce) in
  visible r setAt (nonce_key input) = None ->
  exists g r', verifyGatewayHmac cfg now2 setAt (db w') input r = (HmacOk g, r').
Proof.
  intros E Hhex Hk Ha Hr Hulid Hin Hn Hskew input Hvis. destruct (prepFixtures_rows _ _ _ _ _ _ _ E Hk Ha Hr)
    as (k1 & k2 & rcs & _ & _ & _ & _ & _ & _ & Ercs & Hf & _ & _ & _ & Hr').
  assert (Hsub : forall rc, In rc rcs -> In rc (receivers (db w'))) by (intros rc Hrc; rewrite Ercs; apply in_app_iff; by right).
  destruct (stored_accepted cfg d ("app_" ++ pd_app d) (db w') rcs (fx_receivers fx) r lr now now2 setAt nonceBytes raw (Some fixedNonce))
    as [r' Er]; try assumption; [reflexivity|by eexists _, r'].
Qed.

(** ** The bindings of a run *)

Lemma seed_chunks_rows fuel l w w' :
  seed_chunks fuel l w = (Return tt, w') -> (List.length l <= fuel)%nat ->
  respects phoneBindings_idx (phoneBindings (db w)) ->
  phoneBindings (db w') = (phoneBindings (db w) ++ l)%list /\ respects phoneBindings_idx (phoneBindings (db w')).
Proof.
  revert l w. induction fuel as [|fuel IH]; intros [|row l'] w E Hl Hr; cbn [List.length] in Hl;
    try (injection E as <-; by rewrite app_nil_r); [lia|].
  set (l := row :: l') in *. assert (Hf : List.length l = S (List.length l')) by done. clearbody l.
  assert (E' : (do! insert_all t_phoneBindings phoneBindings_idx (take CHUNK l) in seed_chunks fuel (drop CHUNK l)) w = (Return tt, w')).
  { revert E. cbn [seed_chunks]. by destruct l. }
  apply bind_Return_inv in E'. destruct E' as ([] & w1 & E1 & E2). unfold insert_all in E1.
  destruct (insert_all_rows _ _ _) as [|t] eqn:Ei; [discriminate|]. injection E1 as <-.
  destruct (respects_insert_all _ _ _ _ Hr Ei) as [Hr' ->]. destruct (IH _ _ E2) as [Et Hr''].
  - rewrite length_drop. unfold CHUNK. lia.
  - exact Hr'.
  - split; [|exact Hr'']. rewrite Et. cbn [db set_db rows set_rows t_phoneBindings phoneBindings]. by rewrite <- app_assoc, take_drop.
Qed.

(** After the seeding every phone of the list has a verified binding to the app. *)
Lemma seeded_phones_bound d draws appId receivers phones w w' :
  seedBindings d draws appId receivers phones w = (Return tt, w') -> respects phoneBindings_idx (phoneBindings (db w)) ->
  forall phone, In phone phones -> exists row, In row (phoneBindings (db w')) /\ b_appId row = appId /\ b_phoneE164 row = phone /\
    b_status row = "verified".
Proof.
  intros E Hr phone Hin. unfold seedBindings in E. destruct phones as [|p phones]; [done|]. destruct receivers as [|lr lrs]; [discriminate|].
  set (l := p :: phones) in *. destruct (seed_chunks_rows _ _ _ _ E) as [Et _]; [by rewrite length_imap|done|].
  apply list_elem_of_In, list_elem_of_lookup in Hin. destruct Hin as [k Hk].
  exists (seed_row d appId (lr_id lr) phone (draws k)). split; [|done]. rewrite Et. apply in_app_iff. right.
  apply list_elem_of_In, list_elem_of_lookup. exists k. by rewrite list_lookup_imap, Hk.
Qed.

(** ** Witness *)

(** A digest of the right shape that tells the keys of a preparation apart. *)
Definition hex_digest : Digest :=
  {| sha256Hex _ := repeat_char "0"%char 64; hmacSha256Hex _ m := slice_to (bufferToHex m ++ repeat_char "0"%char 64) 64 |}.

Lemma hex_digest_hex k m : matches_class is_hex 64 64 (hmacSha256Hex (Digest := hex_digest) k m) = true.
Proof.
  cbn [hmacSha256Hex hex_digest]. set (s := (_ ++ _)%string). assert (Hs : all_chars is_hex s = true).
  { unfold s. rewrite all_chars_app, (proj1 (bufferToHex_hex m)). reflexivity. }
  assert (Hl : (64 <= slen s)%nat) by (unfold s; rewrite slen_app; cbn [repeat_char slen]; lia).
  unfold matches_class. rewrite slen_slice_to, Nat.min_l by exact Hl.
  rewrite <- (slice_to_from s 64), all_chars_app in Hs. apply andb_true_iff in Hs. by rewrite (proj1 Hs).
Qed.

Definition prep_draws : PrepDraws :=
  {| pd_app := "01A"; pd_key1 := "01B"; pd_key2 := "01C"; pd_pk := fun i => i; pd_sk := fun i => i; pd_now := 0; pd_dbNow := 0;
     pd_receiver := fun i => if (i =? 0)%Z then "01D" else "01E"; pd_signing := fun _ => repeat_char "k"%char 32;
     pd_iv := fun _ => "abcdefghijkl" |}.

Definition prep_run : outcome exn Fixtures * World :=
  prepFixtures (H := hex_digest) (H0 := plain_gcm) prep_draws (MASTER_ENCRYPTION_KEY default_config) "http://localhost:8080" 2
    (mkWorld empty_db [] []).

Lemma prepared_fixtures_accepted_witness :
  exists fx w', prep_run = (Return fx, w') /\ List.length (fx_receivers fx) = 2%nat /\
    (exists key s', requireKey (H := hex_digest) default_config (bearer_request (fx_secretKey fx)) [secret]
                      (mkServer w' (∅ : Store) []) = (Return key, s')) /\
    forall lr, In lr (fx_receivers fx) -> exists g r',
      verifyGatewayHmac (H := hex_digest) (H0 := plain_gcm) default_config 1000 1000 (db w')
        (signed_input (H := hex_digest) lr 0 "abcdefghijklmnop" "{}" (Some fixedNonce)) (∅ : Store) = (HmacOk g, r').
Proof.
  destruct prep_run as [[fx|e] w'] eqn:E; [|vm_compute in E; discriminate]. exists fx, w'. split; [reflexivity|]. unfold prep_run in E.
  destruct (prepared_fixtures_accepted (H := hex_digest) (H0 := plain_gcm) (R := Store) default_config prep_draws _ 2 _ fx w' ∅ [] E hex_digest_hex)
    as (Hkeys & Hl & Hr).
  - intros i. cbn. by destruct (i =? 0)%Z.
  - repeat constructor.
  - repeat constructor.
  - repeat constructor.
  - split; [exact Hl|]. split.
    + destruct (Hkeys (fx_secretKey fx) secret) as (key & s' & Ek & _); [right; by left|]. by exists key, s'.
    + intros lr Hin. destruct (Hr lr 0%Z 1000%Z 1000%Z "abcdefghijklmnop" "{}" (Some fixedNonce) Hin) as [r' Er];
        [reflexivity|by right|lia|vm_compute; discriminate|reflexivity|]. by eexists _, r'.
Defined.
