(* ===== verification/Lifecycle.v ===== *)
(** * Timers and shutdown: the worker's loop, the refreshers and the two processes

    [Loop] is the timer, the flags and the re-entrancy guard of [WebhookWorker] in
    [services/webhookWorker.ts] (what a tick does to the database is in
    [WebhookWorker]); [Refresher] the interval of [services/receiverGauges.ts] and
    [services/abuseSignals.ts]; [WorkerProcess] the standalone process of
    [workers/webhook.ts] and [ServerProcess] the shutdown of [index.ts] with the
    [onClose] hook of [app.ts].  All are transition systems: a synchronous stretch of
    code is one step, and between two of them the event loop may run any other. *)

From stdpp Require Import base list sets.
From S2P Require Import Prelude.

(** ** The loop of the webhook worker *)

(** Who called [runOnce]: the timer's callback, which has a [finally], or another caller. *)
Inductive Origin : Type := scheduled | called.

#[global] Instance Origin_eq_dec : EqDecision Origin.
Proof. solve_decision. Defined.

(** [lp_timer], [lp_running] and [lp_stopped] are the fields of the class.  The others are
    the event loop's: the timeouts that will fire, the ticks in flight, the [finally]
    callbacks that are due, the calls of [stop] that still wait, the next timeout's
    handle and the failures logged. *)
Record Loop : Type := mkLoop {
  lp_timer : option nat; lp_running : bool; lp_stopped : bool;
  lp_armed : list nat; lp_ticks : list Origin; lp_due : nat; lp_waiting : nat; lp_handle : nat; lp_failed : nat;
}.

Definition new_WebhookWorker : Loop := mkLoop None false false [] [] 0 0 0 0.

Definition scheduleNext (s : Loop) : Loop :=
  if lp_stopped s then s
  else mkLoop (Some (lp_handle s)) (lp_running s) (lp_stopped s) (lp_armed s ++ [lp_handle s]) (lp_ticks s) (lp_due s) (lp_waiting s)
         (S (lp_handle s)) (lp_failed s).

Definition start (enabled : bool) (s : Loop) : Loop :=
  if negb enabled then s
  else scheduleNext (mkLoop (lp_timer s) (lp_running s) false (lp_armed s) (lp_ticks s) (lp_due s) (lp_waiting s) (lp_handle s) (lp_failed s)).

(** [clearTimeout] of a handle that has fired does nothing. *)
Definition clear (timer : option nat) (armed : list nat) : list nat :=
  match timer with Some h => filter (fun h' => h' <> h) armed | None => armed end.

(** The part of [stop] before it waits. *)
Definition stop (s : Loop) : Loop :=
  mkLoop None (lp_running s) true (clear (lp_timer s) (lp_armed s)) (lp_ticks s) (lp_due s) (S (lp_waiting s)) (lp_handle s) (lp_failed s).

(** Up to the first [await] of the tick. *)
Definition runOnce (o : Origin) (s : Loop) : Loop :=
  if lp_running s then
    match o with
    | scheduled => mkLoop (lp_timer s) (lp_running s) (lp_stopped s) (lp_armed s) (lp_ticks s) (S (lp_due s)) (lp_waiting s) (lp_handle s) (lp_failed s)
    | called => s
    end
  else mkLoop (lp_timer s) true (lp_stopped s) (lp_armed s) (o :: lp_ticks s) (lp_due s) (lp_waiting s) (lp_handle s) (lp_failed s).

Inductive LoopEvent : Type :=
  | Start | Stop | Fires (h : nat) | Called | TickEnds (o : Origin) (threw : bool) | Finally | StopPolls.

Fixpoint remove_one (o : Origin) (l : list Origin) : list Origin :=
  match l with [] => [] | o' :: l => if decide (o' = o) then l else o' :: remove_one o l end.

(** The [finally] of [runOnce], and its promise's. *)
Definition tick_ends (o : Origin) (threw : bool) (s : Loop) : Loop :=
  mkLoop (lp_timer s) false (lp_stopped s) (lp_armed s) (remove_one o (lp_ticks s))
    (match o with scheduled => S (lp_due s) | called => lp_due s end) (lp_waiting s) (lp_handle s)
    (if threw then S (lp_failed s) else lp_failed s).

(** [None]: the event cannot happen now. *)
Definition loop_step (enabled : bool) (e : LoopEvent) (s : Loop) : option Loop :=
  match e with
  | Start => Some (start enabled s)
  | Stop => Some (stop s)
  | Fires h =>
      if decide (h ∈ lp_armed s)
      then Some (runOnce scheduled (mkLoop (lp_timer s) (lp_running s) (lp_stopped s) (filter (fun h' => h' <> h) (lp_armed s)) (lp_ticks s)
                                      (lp_due s) (lp_waiting s) (lp_handle s) (lp_failed s)))
      else None
  | Called => Some (runOnce called s)
  | TickEnds o threw => if decide (o ∈ lp_ticks s) then Some (tick_ends o threw s) else None
  | Finally =>
      match lp_due s with
      | O => None
      | S n => Some (scheduleNext (mkLoop (lp_timer s) (lp_running s) (lp_stopped s) (lp_armed s) (lp_ticks s) n (lp_waiting s) (lp_handle s) (lp_failed s)))
      end
  | StopPolls =>
      match lp_waiting s with
      | O => None
      | S n => Some (if lp_running s then s
                     else mkLoop (lp_timer s) (lp_running s) (lp_stopped s) (lp_armed s) (lp_ticks s) (lp_due s) n (lp_handle s) (lp_failed s))
      end
  end.

Fixpoint loop_run (enabled : bool) (evs : list LoopEvent) (s : Loop) : option Loop :=
  match evs with
  | [] => Some s
  | e :: evs => match loop_step enabled e s with Some s' => loop_run enabled evs s' | None => None end
  end.

(** *** One chain of timers *)

(** What will arm a timer again: a timeout, a scheduled tick, a [finally]. *)
Definition chains (s : Loop) : nat := length (lp_armed s) + count_occ Origin_eq_dec (lp_ticks s) scheduled + lp_due s.

Definition is_start (e : LoopEvent) : bool := match e with Start => true | _ => false end.
Definition starts (evs : list LoopEvent) : nat := length (List.filter is_start evs).

(** [n] calls of [start] have been made, at most one: the guard is up exactly while one
    tick is in flight, the only timeout is the one the worker holds, and what will arm
    another is at most one thing, exactly one as long as the worker is not stopped. *)
Record one_chain (enabled : bool) (n : nat) (s : Loop) : Prop := {
  oc_ticks : (lp_ticks s = [] /\ lp_running s = false) \/ exists o, lp_ticks s = [o] /\ lp_running s = true;
  oc_armed : lp_armed s = [] \/ exists h, lp_armed s = [h] /\ lp_timer s = Some h;
  oc_chains : chains s <= n;
  oc_live : lp_stopped s = false -> chains s = if enabled then n else 0;
  oc_stopped : lp_stopped s = true -> lp_armed s = [];
}.

Lemma new_one_chain enabled : one_chain enabled 0 new_WebhookWorker.
Proof. split; cbn; [by left|by left|done|by destruct enabled|done]. Qed.

Lemma not_self (h : nat) : filter (fun h' => h' <> h) [h] = [].
Proof. rewrite filter_cons, decide_False; [done|]. intros Hx. by apply Hx. Qed.

Lemma scheduleNext_one_chain enabled s :
  (lp_ticks s = [] /\ lp_running s = false) \/ (exists o, lp_ticks s = [o] /\ lp_running s = true) ->
  lp_armed s = [] -> chains s = 0 -> (lp_stopped s = false -> enabled = true) -> one_chain enabled 1 (scheduleNext s).
Proof.
  intros Ht Ea Hc He. destruct s as [timer running stopped armed ticks due waiting handle failed]. unfold chains in Hc. cbn in *. subst armed.
  unfold scheduleNext. cbn. destruct stopped; split; unfold chains; cbn in *; try done; try lia; try (by left).
  - right. by exists handle.
  - intros _. rewrite He by done. lia.
Qed.

Section Preserved.
Context (enabled : bool) (n : nat) (s : Loop) (chain : one_chain enabled n s) (at_most_one : n <= 1).

Lemma start_one_chain : n = 0 -> one_chain enabled 1 (start enabled s).
Proof.
  intros Hn. destruct chain as [Ht Ha Hc Hl Hs]. assert (H0 : chains s = 0) by lia. unfold start. destruct enabled; cbn [negb].
  - apply scheduleNext_one_chain; cbn; [exact Ht| |exact H0|done]. unfold chains in H0. destruct (lp_armed s); [done|]. cbn in H0. lia.
  - split; try assumption; lia.
Qed.

Lemma stop_one_chain : one_chain enabled n (stop s).
Proof.
  destruct chain as [Ht Ha Hc Hl Hs], s as [timer running stopped armed ticks due waiting handle failed]. unfold stop, chains in *. cbn in *.
  assert (Hcl : clear timer armed = []).
  { destruct Ha as [-> |(h & -> & ->)]; [by destruct timer|]. apply not_self. }
  rewrite Hcl. split; unfold chains; cbn; try done; [by left|lia].
Qed.

Lemma fires_one_chain h s' : loop_step enabled (Fires h) s = Some s' -> one_chain enabled n s'.
Proof.
  cbn. case_decide as Hin; [|done]. intros [= <-].
  destruct chain as [Ht Ha Hc Hl Hs], s as [timer running stopped armed ticks due waiting handle failed]. unfold chains in *. cbn in *.
  destruct Ha as [-> |(h' & -> & ->)]; [by apply not_elem_of_nil in Hin|]. apply list_elem_of_singleton in Hin. subst h'. rewrite not_self.
  destruct stopped; [by specialize (Hs eq_refl)|]. specialize (Hl eq_refl).
  unfold runOnce. cbn. destruct Ht as [[-> ->]|(o & -> & ->)]; cbn in *; split; unfold chains; cbn; try done; try (by left); try lia.
  - right. by exists scheduled.
  - right. by exists o.
Qed.

Lemma called_one_chain : one_chain enabled n (runOnce called s).
Proof.
  destruct chain as [Ht Ha Hc Hl Hs], s as [timer running stopped armed ticks due waiting handle failed]. unfold chains in *. cbn in *.
  unfold runOnce. cbn. destruct Ht as [[-> ->]|(o & -> & ->)]; cbn in *; split; unfold chains; cbn; try done.
  - right. by exists called.
  - right. by exists o.
Qed.

Lemma tick_ends_one_chain o threw : o ∈ lp_ticks s -> one_chain enabled n (tick_ends o threw s).
Proof.
  intros Hin. destruct chain as [Ht Ha Hc Hl Hs], s as [timer running stopped armed ticks due waiting handle failed]. unfold chains in *. cbn in *.
  destruct Ht as [[-> ->]|(o' & -> & ->)]; [by apply not_elem_of_nil in Hin|]. apply list_elem_of_singleton in Hin. subst o'.
  unfold tick_ends. cbn. rewrite decide_True by done. split; unfold chains; cbn in *; try done; [by left| |]; destruct o; cbn in *; try lia.
  all: intros Hst; specialize (Hl Hst); lia.
Qed.

Lemma finally_one_chain s' : loop_step enabled Finally s = Some s' -> one_chain enabled n s'.
Proof.
  cbn. destruct chain as [Ht Ha Hc Hl Hs], s as [timer running stopped armed ticks due waiting handle failed]. unfold chains in *. cbn in *.
  destruct due as [|due]; [done|]. intros [= <-].
  assert (n = 1 /\ armed = []) as [-> ->] by (destruct armed; cbn in Hc; [split; [lia|done]|lia]). cbn in *.
  apply scheduleNext_one_chain; unfold chains; cbn; [exact Ht|done|lia|].
  intros Hst. specialize (Hl Hst). destruct enabled; [done|lia].
Qed.

Lemma polls_one_chain s' : loop_step enabled StopPolls s = Some s' -> one_chain enabled n s'.
Proof.
  cbn. destruct (lp_waiting s); [done|]. intros [= <-]. destruct (lp_running s) eqn:Er; [exact chain|].
  destruct chain as [Ht Ha Hc Hl Hs]. rewrite Er in Ht. split; assumption.
Qed.
End Preserved.

Lemma loop_step_one_chain enabled n e s s' :
  one_chain enabled n s -> (is_start e = true -> n = 0) -> n <= 1 -> loop_step enabled e s = Some s' ->
  one_chain enabled (if is_start e then 1 else n) s'.
Proof.
  intros Hone Hn Hle Hstep. destruct e as [| |h| |o threw| |]; cbn [is_start].
  - injection Hstep as <-. by eapply start_one_chain; eauto.
  - injection Hstep as <-. by apply stop_one_chain.
  - by eapply fires_one_chain.
  - injection Hstep as <-. by apply called_one_chain.
  - cbn in Hstep. case_decide; [|done]. injection Hstep as <-. by apply tick_ends_one_chain.
  - by eapply finally_one_chain.
  - by eapply polls_one_chain.
Qed.

Lemma loop_run_one_chain enabled evs n s s' :
  one_chain enabled n s -> n + starts evs <= 1 -> loop_run enabled evs s = Some s' -> one_chain enabled (n + starts evs) s'.
Proof.
  revert n s. induction evs as [|e evs IH]; intros n s Hone Hn Hrun; cbn [loop_run] in Hrun.
  { injection Hrun as <-. cbn. by rewrite Nat.add_0_r. }
  destruct (loop_step enabled e s) as [s1|] eqn:Es; [|done]. unfold starts in *. cbn [List.filter] in *.
  assert (Hone' : one_chain enabled (if is_start e then 1 else n) s1).
  { eapply loop_step_one_chain; try eassumption; [|destruct (is_start e); cbn in Hn; lia]. intros He. rewrite He in Hn. cbn in Hn. lia. }
  specialize (IH _ _ Hone'). destruct (is_start e); cbn in *.
  - replace n with 0 in * by lia. by apply IH.
  - by apply IH.
Qed.

(** *** After [stop] *)

(** Stopped, and no timeout left. *)
Definition quiet (s : Loop) : Prop := lp_stopped s = true /\ lp_armed s = [].

Definition from_outside (e : LoopEvent) : bool := match e with Start | Called => true | _ => false end.

Lemma remove_one_length o l : length (remove_one o l) <= length l.
Proof. induction l as [|o' l IH]; cbn; [done|]. case_decide; cbn; lia. Qed.

Lemma quiet_step enabled e s s' :
  quiet s -> from_outside e = false -> loop_step enabled e s = Some s' -> quiet s' /\ length (lp_ticks s') <= length (lp_ticks s).
Proof.
  intros [Hs Ha] Ho. destruct e as [| |h| |o threw| |]; try discriminate; cbn [loop_step].
  - intros [= <-]. split; [|done]. split; [done|]. cbn. rewrite Ha. by destruct (lp_timer s).
  - rewrite Ha. by rewrite decide_False by apply not_elem_of_nil.
  - case_decide; [|done]. intros [= <-]. split; [by split|]. apply remove_one_length.
  - destruct (lp_due s); [done|]. intros [= <-]. unfold scheduleNext. cbn. rewrite Hs. by split; [split|].
  - destruct (lp_waiting s); [done|]. intros [= <-]. by destruct (lp_running s); split.
Qed.

Lemma quiet_run enabled evs s s' :
  quiet s -> Forall (fun e => from_outside e = false) evs -> loop_run enabled evs s = Some s' ->
  quiet s' /\ length (lp_ticks s') <= length (lp_ticks s).
Proof.
  revert s. induction evs as [|e evs IH]; intros s Hq Hf Hrun; cbn in Hrun; [injection Hrun as <-; by split|].
  apply Forall_cons in Hf. destruct Hf as [He Hf]. destruct (loop_step enabled e s) as [s1|] eqn:Es; [|done].
  destruct (quiet_step _ _ _ _ Hq He Es) as [Hq1 H1]. destruct (IH s1 Hq1 Hf Hrun) as [Hq' H2]. split; [done|lia].
Qed.

(** In every run of the worker that was started at most once, whatever the timers,
    the ticks (which may throw), direct calls of [runOnce] and calls of [stop] do: at most one
    tick is in flight, and the guard is up exactly then; as long as an enabled worker
    was started and not stopped, exactly one timeout, scheduled tick or callback is there
    to go on; and once it is stopped no timeout is left, and no tick begins until
    somebody starts it or calls [runOnce]. *)
Theorem worker_loop_spec enabled evs s :
  loop_run enabled evs new_WebhookWorker = Some s -> starts evs <= 1 ->
  (length (lp_ticks s) <= 1 /\ (lp_running s = true <-> lp_ticks s <> [])) /\
  (enabled = true -> starts evs = 1 -> lp_stopped s = false -> chains s = 1) /\
  (lp_stopped s = true -> lp_armed s = [] /\
     forall evs' s', Forall (fun e => from_outside e = false) evs' -> loop_run enabled evs' s = Some s' ->
       lp_armed s' = [] /\ length (lp_ticks s') <= length (lp_ticks s)).
Proof.
  intros Hrun Hs. destruct (loop_run_one_chain _ _ 0 _ _ (new_one_chain enabled) Hs Hrun) as [Ht Ha Hc Hl Hq]. cbn in *.
  split; [|split].
  - destruct Ht as [[-> ->]|(o & -> & ->)]; cbn; split; try lia; by split.
  - intros -> Hn Hst. by rewrite Hl, Hn.
  - intros Hst. split; [by apply Hq|]. intros evs' s' Hf Hrun'.
    destruct (quiet_run _ _ _ _ (conj Hst (Hq Hst)) Hf Hrun') as [[_ Ha'] Hle]. by split.
Qed.

Definition worked : list LoopEvent := [Start; Fires 0; TickEnds scheduled true; Finally; Stop; StopPolls].

Lemma worker_loop_spec_witness :
  loop_run true worked new_WebhookWorker = Some (mkLoop None false true [] [] 0 0 2 1) /\
  length (lp_ticks (mkLoop None false true [] [] 0 0 2 1)) <= 1 /\ lp_armed (mkLoop None false true [] [] 0 0 2 1) = [].
Proof.
  assert (E : loop_run true worked new_WebhookWorker = Some (mkLoop None false true [] [] 0 0 2 1)) by (vm_compute; reflexivity).
  split; [exact E|]. destruct (worker_loop_spec true worked (mkLoop None false true [] [] 0 0 2 1) E (le_n 1)) as ((H1 & _) & _ & H3).
  split; [exact H1|]. exact (proj1 (H3 eq_refl)).
Defined.

(** A second [start] without a [stop] makes a second chain, and [stop] clears only its
    timeout: a tick begins after [stop] has resolved. *)
Lemma second_start_survives_stop :
  exists s, loop_run true [Start; Start; Stop; StopPolls; Fires 0] new_WebhookWorker = Some s /\
    lp_stopped s = true /\ lp_waiting s = 0 /\ lp_ticks s = [scheduled].
Proof. eexists. split; [reflexivity|]. by repeat split. Qed.

(** A tick that throws, at the first query of a stale schema say, leaves the loop going. *)
Lemma failing_tick_goes_on :
  exists s, loop_run true [Start; Fires 0; TickEnds scheduled true; Finally] new_WebhookWorker = Some s /\
    lp_failed s = 1 /\ lp_armed s = [1].
Proof. eexists. split; [reflexivity|]. by split. Qed.

(** ** The standalone process: [workers/webhook.ts] *)

Module WorkerProcess.

Inductive WorkerStage : Type := Serving | Stopping | ClosingDb | Exited (code : Z).

Record WorkerProc : Type := mkWorkerProc { pr_loop : Loop; pr_stage : WorkerStage }.

Definition worker_main (enabled : bool) : WorkerProc :=
  if negb enabled then mkWorkerProc new_WebhookWorker (Exited 2) else mkWorkerProc (start enabled new_WebhookWorker) Serving.

(** SIGINT, SIGTERM and an uncaught exception call [shutdown]; [shuttingDown] is that the
    process no longer serves. *)
Inductive Cause : Type := SIGINT | SIGTERM | uncaughtException.

Definition worker_shutdown (p : WorkerProc) : WorkerProc :=
  match pr_stage p with Serving => mkWorkerProc (stop (pr_loop p)) Stopping | _ => p end.

(** Timers and ticks; a signal; a rejection nobody handles; [stop] looks at the guard;
    [closeDb] resolves, or not. *)
Inductive WorkerEvent : Type := Works (e : LoopEvent) | Caught (c : Cause) | unhandledRejection | Polls | DbClosed (ok : bool).

Definition works (e : LoopEvent) : bool := match e with Fires _ | TickEnds _ _ | Finally => true | _ => false end.

Definition worker_step (e : WorkerEvent) (p : WorkerProc) : option WorkerProc :=
  match pr_stage p with
  | Exited _ => None
  | stage =>
      match e with
      | Works e => if works e then s ← loop_step true e (pr_loop p); Some (mkWorkerProc s stage) else None
      | Caught _ => Some (worker_shutdown p)
      | unhandledRejection => Some p
      | Polls =>
          match stage with
          | Stopping => s ← loop_step true StopPolls (pr_loop p); Some (mkWorkerProc s (if lp_running (pr_loop p) then Stopping else ClosingDb))
          | _ => None
          end
      | DbClosed ok => match stage with ClosingDb => Some (mkWorkerProc (pr_loop p) (Exited (if ok then 0 else 1))) | _ => None end
      end
  end.

Fixpoint worker_run (evs : list WorkerEvent) (p : WorkerProc) : option WorkerProc :=
  match evs with [] => Some p | e :: evs => p' ← worker_step e p; worker_run evs p' end.

(** What holds in every stage. *)
Definition sound (p : WorkerProc) : Prop :=
  match pr_stage p with
  | Serving => one_chain true 1 (pr_loop p) /\ lp_stopped (pr_loop p) = false /\ lp_waiting (pr_loop p) = 0
  | Stopping => one_chain true 1 (pr_loop p) /\ lp_stopped (pr_loop p) = true /\ lp_waiting (pr_loop p) = 1
  | ClosingDb => one_chain true 1 (pr_loop p) /\ lp_stopped (pr_loop p) = true /\ lp_ticks (pr_loop p) = []
  | Exited code => In code [0; 1; 2]%Z /\ lp_armed (pr_loop p) = [] /\ lp_ticks (pr_loop p) = []
  end.

Lemma works_step e s s' : works e = true -> loop_step true e s = Some s' -> lp_stopped s' = lp_stopped s /\ lp_waiting s' = lp_waiting s.
Proof.
  destruct e as [| |h| |o threw| |]; try discriminate; intros _; cbn.
  - case_decide; [|done]. intros [= <-]. unfold runOnce. cbn. by destruct (lp_running s).
  - case_decide; [|done]. by intros [= <-].
  - destruct (lp_due s); [done|]. intros [= <-]. unfold scheduleNext. cbn. by destruct (lp_stopped s) eqn:E; cbn; rewrite ?E.
Qed.

Lemma worker_main_sound enabled : sound (worker_main enabled).
Proof.
  destruct enabled; cbn [worker_main negb sound pr_stage pr_loop].
  - split; [|done]. by apply start_one_chain with (n := 0); [apply new_one_chain|lia|].
  - split; [right; right; by left|]. by split.
Qed.

Lemma works_one_chain e s s' : works e = true -> one_chain true 1 s -> loop_step true e s = Some s' -> one_chain true 1 s'.
Proof. intros Hw Hs Hstep. assert (H := loop_step_one_chain true 1 e s s' Hs). destruct e; try discriminate; cbn in H; apply H; done || lia. Qed.

Lemma worker_step_sound e p p' : sound p -> worker_step e p = Some p' -> sound p'.
Proof.
  intros Hs. destruct p as [s stage]. unfold worker_step, sound in *. cbn [pr_stage pr_loop] in *.
  destruct stage as [| | |code]; [| | |done]; destruct e as [e|c| | |ok]; try done; try (intros [= <-]; cbn; exact Hs).
  - destruct (works e) eqn:Ew; [|done]. destruct (loop_step true e s) as [s'|] eqn:Es; [|done]. intros [= <-]. cbn.
    destruct Hs as (Ho & Hst & Hw), (works_step _ _ _ Ew Es) as [-> ->]. split; [by eapply works_one_chain|done].
  - intros [= <-]. cbn. destruct Hs as (Ho & Hst & Hw). split; [apply (stop_one_chain true 1 s); done || lia|]. by rewrite Hw.
  - destruct (works e) eqn:Ew; [|done]. destruct (loop_step true e s) as [s'|] eqn:Es; [|done]. intros [= <-]. cbn.
    destruct Hs as (Ho & Hst & Hw), (works_step _ _ _ Ew Es) as [-> ->]. split; [by eapply works_one_chain|done].
  - destruct Hs as (Ho & Hst & Hw). cbn. rewrite Hw. intros [= <-]. destruct (lp_running s) eqn:Er; cbn; [done|].
    split; [|split; [done|]].
    + apply (polls_one_chain true 1 s Ho). cbn. by rewrite Hw, Er.
    + by destruct (oc_ticks _ _ _ Ho) as [[? _]|(o & _ & Hr)]; [|congruence].
  - destruct (works e) eqn:Ew; [|done]. destruct (loop_step true e s) as [s'|] eqn:Es; [|done]. intros [= <-]. cbn.
    destruct Hs as (Ho & Hst & Htk), (works_step _ _ _ Ew Es) as [E1 _]. split; [by eapply works_one_chain|]. rewrite E1. split; [done|].
    destruct (quiet_step true e s s') as [_ Hle]; [by split; [|apply (oc_stopped _ _ _ Ho)]|by destruct e|done|].
    rewrite Htk in Hle. destruct (lp_ticks s'); [done|cbn in Hle; lia].
  - intros [= <-]. cbn. destruct Hs as (Ho & Hst & Htk). split; [destruct ok; [by left|right; by left]|].
    split; [by apply (oc_stopped _ _ _ Ho)|done].
Qed.

Lemma worker_run_sound evs p p' : sound p -> worker_run evs p = Some p' -> sound p'.
Proof.
  revert p. induction evs as [|e evs IH]; intros p Hs Hrun; cbn in Hrun; [by injection Hrun as <-|].
  destruct (worker_step e p) as [p1|] eqn:Es; [|done]. eapply IH; [by eapply worker_step_sound|done].
Qed.

(** Once the shutdown has begun: the steps that are possible and what they do. *)
Lemma stopping_step e s p' :
  sound (mkWorkerProc s Stopping) -> worker_step e (mkWorkerProc s Stopping) = Some p' ->
  (pr_stage p' = Stopping /\ length (lp_ticks (pr_loop p')) <= length (lp_ticks s)) \/
  (e = Polls /\ lp_ticks s = [] /\ pr_stage p' = ClosingDb).
Proof.
  unfold sound, worker_step. cbn [pr_stage pr_loop]. intros (Ho & Hst & Hw). destruct e as [e|c| | |ok].
  - destruct (works e) eqn:Ew; [|done]. destruct (loop_step true e s) as [s'|] eqn:Es; [|done]. intros [= <-]. left.
    split; [done|]. cbn.
    by destruct (quiet_step true e s s') as [_ Hle]; [by split; [|apply (oc_stopped _ _ _ Ho)]|by destruct e|done|].
  - intros [= <-]. by left.
  - intros [= <-]. by left.
  - cbn. rewrite Hw. destruct (lp_running s) eqn:Er; cbn; intros [= <-]; [by left|]. right. split; [done|]. split; [|done].
    by destruct (oc_ticks _ _ _ Ho) as [[? _]|(o & _ & Hr)]; [|congruence].
  - done.
Qed.

(** [stop] polls on while the tick runs, and is done at the first poll after its end. *)
Lemma stopping_polls s :
  sound (mkWorkerProc s Stopping) ->
  exists p', worker_step Polls (mkWorkerProc s Stopping) = Some p' /\
    pr_stage p' = match lp_ticks s with [] => ClosingDb | _ => Stopping end.
Proof.
  unfold sound. cbn [pr_stage pr_loop]. intros (Ho & Hst & Hw). cbn. rewrite Hw.
  destruct (oc_ticks _ _ _ Ho) as [[-> Hr]|(o & -> & Hr)]; rewrite Hr; by eexists.
Qed.

(** How a run can have ended. *)
Definition ending (enabled : bool) (evs : list WorkerEvent) (code : Z) : Prop :=
  (enabled = false /\ evs = [] /\ code = 2%Z) \/
  exists evs' ok, evs = evs' ++ [DbClosed ok] /\ code = if ok then 0%Z else 1%Z.

Lemma worker_run_app evs1 evs2 p : worker_run (evs1 ++ evs2) p = p' ← worker_run evs1 p; worker_run evs2 p'.
Proof.
  revert p. induction evs1 as [|e evs1 IH]; intros p; cbn; [done|]. destruct (worker_step e p); [apply IH|done].
Qed.

Lemma exit_step e p p' code :
  worker_step e p = Some p' -> pr_stage p' = Exited code ->
  exists ok, e = DbClosed ok /\ pr_stage p = ClosingDb /\ code = if ok then 0%Z else 1%Z.
Proof.
  destruct p as [s stage]. unfold worker_step. cbn [pr_stage pr_loop].
  destruct stage as [| | |c]; [| | |done]; destruct e as [e|c| | |ok]; try done;
    try (destruct (works e); [|done]; destruct (loop_step true e s); [|done]); try (by intros [= <-]).
  - cbn. destruct (lp_waiting s); cbn; [done|]. destruct (lp_running s); intros [= <-]; cbn; discriminate.
  - intros [= <-] [= <-]. by exists ok.
Qed.

Lemma worker_exit enabled evs p code :
  worker_run evs (worker_main enabled) = Some p -> pr_stage p = Exited code -> ending enabled evs code.
Proof.
  destruct evs as [|e evs _] using rev_ind.
  - intros [= <-]. destruct enabled; [done|]. intros [= <-]. by left.
  - rewrite worker_run_app. destruct (worker_run evs _) as [p1|]; [|done]. cbn.
    destruct (worker_step e p1) as [p2|] eqn:Es; [|done]. intros [= <-] Hx. right.
    destruct (exit_step _ _ _ _ Es Hx) as (ok & -> & _ & ->). by exists evs, ok.
Qed.


(** The header says that an uncaught exception exits non-zero, so that a supervisor
    restarts the process, and so does an unhandled rejection: the first exits with 0,
    the second does not exit. *)
Lemma uncaught_exception_exits_zero :
  pr_stage <$> worker_run [Caught uncaughtException; Polls; DbClosed true] (worker_main true) = Some (Exited 0).
Proof. vm_compute. reflexivity. Qed.

Lemma unhandled_rejection_goes_on p : pr_stage p = Serving -> worker_step unhandledRejection p = Some p.
Proof. intros E. unfold worker_step. by rewrite E. Qed.

End WorkerProcess.

(** ** The refreshers: [services/receiverGauges.ts] and [services/abuseSignals.ts] *)

(** [rf_timer] and [rf_stopped] are the variables of the module, [rf_cached] what the last
    refresh to end has set, by its number; [rf_immediate] the callbacks of [setImmediate]
    that are due, [rf_inflight] the refreshes that wait for the database. *)
Record Refresher : Type := mkRefresher {
  rf_timer : bool; rf_stopped : bool; rf_cached : option nat; rf_immediate : nat; rf_inflight : list nat; rf_begun : nat;
}.

Definition new_refresher : Refresher := mkRefresher false false None 0 [] 0.

Definition startRefresh (r : Refresher) : Refresher :=
  if rf_timer r || rf_stopped r then r
  else mkRefresher true (rf_stopped r) (rf_cached r) (S (rf_immediate r)) (rf_inflight r) (rf_begun r).

Definition stopRefresh (r : Refresher) : Refresher :=
  mkRefresher false true (rf_cached r) (rf_immediate r) (rf_inflight r) (rf_begun r).

Definition begin_refresh (r : Refresher) : Refresher :=
  mkRefresher (rf_timer r) (rf_stopped r) (rf_cached r) (rf_immediate r) (rf_inflight r ++ [rf_begun r]) (S (rf_begun r)).

Inductive RefreshEvent : Type := StartRefresh | StopRefresh | Immediate | Interval | RefreshEnds (k : nat) (ok : bool).

Definition refresh_step (e : RefreshEvent) (r : Refresher) : option Refresher :=
  match e with
  | StartRefresh => Some (startRefresh r)
  | StopRefresh => Some (stopRefresh r)
  | Immediate =>
      match rf_immediate r with
      | O => None
      | S n => Some (begin_refresh (mkRefresher (rf_timer r) (rf_stopped r) (rf_cached r) n (rf_inflight r) (rf_begun r)))
      end
  | Interval => if rf_timer r then Some (begin_refresh r) else None
  | RefreshEnds k ok =>
      if decide (k ∈ rf_inflight r)
      then Some (mkRefresher (rf_timer r) (rf_stopped r) (if ok then Some k else rf_cached r) (rf_immediate r)
                   (filter (fun k' => k' <> k) (rf_inflight r)) (rf_begun r))
      else None
  end.

Fixpoint refresh_run (evs : list RefreshEvent) (r : Refresher) : option Refresher :=
  match evs with [] => Some r | e :: evs => r' ← refresh_step e r; refresh_run evs r' end.

(** One timer at most and one immediate refresh in all, whatever [start] and [stop] are
    called; a stopped refresher has no timer; the values come from refreshes begun. *)
Record refresher_sound (r : Refresher) : Prop := {
  rs_immediate : rf_immediate r <= 1 /\ (rf_timer r = false -> rf_stopped r = false -> rf_immediate r = 0 /\ rf_begun r = 0);
  rs_stopped : rf_stopped r = true -> rf_timer r = false;
  rs_begun : forall k, k ∈ rf_inflight r \/ rf_cached r = Some k -> k < rf_begun r;
}.

Lemma refresh_step_sound e r r' : refresher_sound r -> refresh_step e r = Some r' -> refresher_sound r'.
Proof.
  intros [[Hi Ht] Hs Hb]. destruct r as [timer stopped cached immediate inflight begun]. cbn in *. destruct e as [| | | |k ok]; cbn.
  - intros [= <-]. unfold startRefresh. cbn. destruct timer, stopped; cbn; split; cbn; try done.
    destruct (Ht eq_refl eq_refl) as [-> ->]. by split; [lia|].
  - intros [= <-]. by split; cbn.
  - destruct immediate as [|n]; [done|]. intros [= <-]. split; cbn; [|done|].
    + split; [lia|]. intros H1 H2. destruct (Ht H1 H2) as [H3 _]. lia.
    + intros k [[Hk|Hk%list_elem_of_singleton]%elem_of_app|Hk]; [specialize (Hb k (or_introl Hk)); lia|lia|specialize (Hb k (or_intror Hk)); lia].
  - destruct timer; [|done]. intros [= <-]. split; cbn; [by split|done|].
    intros k [[Hk|Hk%list_elem_of_singleton]%elem_of_app|Hk]; [specialize (Hb k (or_introl Hk)); lia|lia|specialize (Hb k (or_intror Hk)); lia].
  - case_decide as Hk; [|done]. intros [= <-]. split; cbn; [by split|done|].
    intros k' [[_ Hk']%list_elem_of_filter|Hk']; [by apply Hb; left|]. destruct ok; [injection Hk' as <-; by apply Hb; left|by apply Hb; right].
Qed.

(** A refresher that was stopped never starts again, and nothing but the refreshes
    already due or in flight is left of it. *)
Lemma stopped_refresher_stays evs r r' :
  rf_stopped r = true -> rf_timer r = false -> refresh_run evs r = Some r' ->
  rf_stopped r' = true /\ rf_timer r' = false /\ rf_begun r' + rf_immediate r' = rf_begun r + rf_immediate r.
Proof.
  revert r. induction evs as [|e evs IH]; intros r Hs Ht Hrun; cbn in Hrun; [injection Hrun as <-; done|].
  destruct (refresh_step e r) as [r1|] eqn:Es; [|done].
  assert (H1 : rf_stopped r1 = true /\ rf_timer r1 = false /\ rf_begun r1 + rf_immediate r1 = rf_begun r + rf_immediate r).
  { destruct e as [| | | |k ok]; cbn in Es.
    - injection Es as <-. unfold startRefresh. by rewrite Hs, orb_true_r.
    - by injection Es as <-.
    - destruct (rf_immediate r); [done|]. injection Es as <-. cbn. split; [done|]. split; [done|lia].
    - by rewrite Ht in Es.
    - case_decide; [|done]. by injection Es as <-. }
  destruct H1 as (Hs1 & Ht1 & E1). destruct (IH r1 Hs1 Ht1 Hrun) as (? & ? & E2). split; [done|]. split; [done|lia].
Qed.

Lemma refresh_run_sound evs r r' : refresher_sound r -> refresh_run evs r = Some r' -> refresher_sound r'.
Proof.
  revert r. induction evs as [|e evs IH]; intros r Hs Hrun; cbn in Hrun; [by injection Hrun as <-|].
  destruct (refresh_step e r) as [r1|] eqn:Es; [|done]. eapply IH; [by eapply refresh_step_sound|done].
Qed.

Lemma new_refresher_sound : refresher_sound new_refresher.
Proof. split; [by split; [cbn; lia|]|done|]. by intros k [Hk%not_elem_of_nil|Hk]. Qed.

(** Once a refresher has been stopped it stays stopped: whatever is called and whatever
    fires afterwards, no timer is set again and at most one more refresh begins, the
    one already due. *)
Theorem stopped_loop_stays evs evs' r r' :
  refresh_run evs new_refresher = Some r -> refresh_run evs' (stopRefresh r) = Some r' ->
  rf_timer r' = false /\ rf_begun r' <= rf_begun r + 1.
Proof.
  intros Hr Hr'. destruct (refresh_run_sound _ _ _ new_refresher_sound Hr) as [[Hi _] _ _].
  destruct (stopped_refresher_stays _ _ _ (eq_refl : rf_stopped (stopRefresh r) = true) eq_refl Hr') as (_ & Ht & E).
  split; [done|]. cbn in E. lia.
Qed.

Lemma stopped_loop_stays_witness :
  refresh_run [StartRefresh] new_refresher = Some (mkRefresher true false None 1 [] 0) /\
  refresh_run [Immediate; RefreshEnds 0 true] (stopRefresh (mkRefresher true false None 1 [] 0)) = Some (mkRefresher false true (Some 0) 0 [] 1) /\
  rf_timer (mkRefresher false true (Some 0) 0 [] 1) = false.
Proof.
  assert (E1 : refresh_run [StartRefresh] new_refresher = Some (mkRefresher true false None 1 [] 0)) by reflexivity.
  assert (E2 : refresh_run [Immediate; RefreshEnds 0 true] (stopRefresh (mkRefresher true false None 1 [] 0)) = Some (mkRefresher false true (Some 0) 0 [] 1)) by (vm_compute; reflexivity).
  split; [exact E1|]. split; [exact E2|]. exact (proj1 (stopped_loop_stays _ _ _ _ E1 E2)).
Defined.

(** There is no guard against a refresh that outlasts the interval: the values of an
    older one that ends later replace those of a newer one. *)
Lemma older_refresh_wins :
  rf_cached <$> refresh_run [StartRefresh; Immediate; Interval; RefreshEnds 1 true] new_refresher = Some (Some 1) /\
  rf_cached <$> refresh_run [StartRefresh; Immediate; Interval; RefreshEnds 1 true; RefreshEnds 0 true] new_refresher = Some (Some 0).
Proof. by split; vm_compute. Qed.

(** ** The server process: [app.ts] and [index.ts] *)

Module ServerProcess.

Inductive ServerStage : Type := Serving | ClosingApp | ClosingRedis | ClosingDb | Exited (code : Z).

Record ServerProc : Type := mkServerProc { pr_loop : Loop; pr_gauges : Refresher; pr_abuse : Refresher; pr_stage : ServerStage }.

(** [buildApp] starts the refreshers and the worker; [listening] is that [listen] resolved. *)
Definition server_main (enabled listening : bool) : ServerProc :=
  mkServerProc (start enabled new_WebhookWorker) (startRefresh new_refresher) (startRefresh new_refresher)
    (if listening then Serving else Exited 1).

(** [app.close()] runs the [onClose] hook, which stops the worker. *)
Definition server_shutdown (p : ServerProc) : ServerProc :=
  match pr_stage p with Serving => mkServerProc (stop (pr_loop p)) (pr_gauges p) (pr_abuse p) ClosingApp | _ => p end.

Inductive ServerEvent : Type :=
  | Works (e : LoopEvent) | Gauges (e : RefreshEvent) | Abuse (e : RefreshEvent) | Caught (c : WorkerProcess.Cause) | unhandledRejection
  | Polls | AppClosed (ok : bool) | RedisClosed (ok : bool) | DbClosed (ok : bool).

Definition refreshes (e : RefreshEvent) : bool := match e with Immediate | Interval | RefreshEnds _ _ => true | _ => false end.

Definition set_stage (p : ServerProc) (stage : ServerStage) : option ServerProc := Some (mkServerProc (pr_loop p) (pr_gauges p) (pr_abuse p) stage).

(** [close] resolves once the calls of [stop] have. *)
Definition server_step (enabled : bool) (e : ServerEvent) (p : ServerProc) : option ServerProc :=
  match pr_stage p with
  | Exited _ => None
  | stage =>
      match e with
      | Works e => if WorkerProcess.works e then s ← loop_step enabled e (pr_loop p); Some (mkServerProc s (pr_gauges p) (pr_abuse p) stage) else None
      | Gauges e => if refreshes e then r ← refresh_step e (pr_gauges p); Some (mkServerProc (pr_loop p) r (pr_abuse p) stage) else None
      | Abuse e => if refreshes e then r ← refresh_step e (pr_abuse p); Some (mkServerProc (pr_loop p) (pr_gauges p) r stage) else None
      | Caught _ => Some (server_shutdown p)
      | unhandledRejection => Some p
      | Polls => s ← loop_step enabled StopPolls (pr_loop p); Some (mkServerProc s (pr_gauges p) (pr_abuse p) stage)
      | AppClosed ok =>
          match stage, lp_waiting (pr_loop p) with
          | ClosingApp, O => set_stage p (if ok then ClosingRedis else Exited 1)
          | _, _ => None
          end
      | RedisClosed ok => match stage with ClosingRedis => set_stage p (if ok then ClosingDb else Exited 1) | _ => None end
      | DbClosed ok => match stage with ClosingDb => set_stage p (Exited (if ok then 0 else 1)) | _ => None end
      end
  end.

Fixpoint server_run (enabled : bool) (evs : list ServerEvent) (p : ServerProc) : option ServerProc :=
  match evs with [] => Some p | e :: evs => p' ← server_step enabled e p; server_run enabled evs p' end.

Definition sound (enabled : bool) (p : ServerProc) : Prop :=
  one_chain enabled 1 (pr_loop p) /\
  match pr_stage p with
  | Serving => lp_waiting (pr_loop p) = 0
  | ClosingApp => lp_stopped (pr_loop p) = true /\ (lp_waiting (pr_loop p) = 0 -> lp_ticks (pr_loop p) = [])
  | ClosingRedis | ClosingDb => lp_stopped (pr_loop p) = true /\ lp_ticks (pr_loop p) = []
  | Exited _ => True
  end.

Lemma works_sound enabled e s s' :
  WorkerProcess.works e = true -> one_chain enabled 1 s -> loop_step enabled e s = Some s' ->
  one_chain enabled 1 s' /\ lp_stopped s' = lp_stopped s /\ lp_waiting s' = lp_waiting s /\
  (lp_stopped s = true -> length (lp_ticks s') <= length (lp_ticks s)).
Proof.
  intros Hw Ho Hstep. assert (Hone := loop_step_one_chain enabled 1 e s s' Ho).
  split; [destruct e; try discriminate; cbn in Hone; apply Hone; done || lia|].
  assert (Hf : lp_stopped s' = lp_stopped s /\ lp_waiting s' = lp_waiting s).
  { destruct e as [| |h| |o threw| |]; try discriminate; cbn in Hstep.
    - case_decide; [|done]. injection Hstep as <-. unfold runOnce. cbn. by destruct (lp_running s).
    - case_decide; [|done]. by injection Hstep as <-.
    - destruct (lp_due s); [done|]. injection Hstep as <-. unfold scheduleNext. cbn. by destruct (lp_stopped s) eqn:E; cbn; rewrite ?E. }
  destruct Hf as [H1 H2]. split; [done|]. split; [done|]. intros Hst.
  destruct (quiet_step enabled e s s') as [_ Hle]; [by split; [|apply (oc_stopped _ _ _ Ho)]|by destruct e|done|done].
Qed.

Lemma server_main_sound enabled : sound enabled (server_main enabled true).
Proof.
  split; [|by destruct enabled]. apply (start_one_chain enabled 0 _ (new_one_chain enabled)); done || lia.
Qed.

Lemma server_step_sound enabled e p p' : sound enabled p -> server_step enabled e p = Some p' -> sound enabled p'.
Proof.
  intros [Ho Hs] Hstep. destruct p as [s g a stage]. unfold server_step, sound in *. cbn [pr_stage pr_loop pr_gauges pr_abuse] in *.
  destruct e as [e|e|e|c| | |ok|ok|ok].
  - assert (Hw : WorkerProcess.works e = true /\ exists s', loop_step enabled e s = Some s' /\ p' = mkServerProc s' g a stage /\ forall code, stage <> Exited code).
    { destruct stage, (WorkerProcess.works e); try done; destruct (loop_step enabled e s) as [s'|]; cbn in Hstep; try done;
        injection Hstep as <-; (split; [done|]); by exists s'. }
    destruct Hw as (Hw & s' & Es & -> & _). destruct (works_sound _ _ _ _ Hw Ho Es) as (Ho' & H1 & H2 & H3). split; [done|]. cbn.
    rewrite H1, H2. destruct stage; try done.
    + destruct Hs as [Hst Htk]. split; [done|]. intros Hz. specialize (H3 Hst). rewrite (Htk Hz) in H3. destruct (lp_ticks s'); [done|cbn in H3; lia].
    + destruct Hs as [Hst Htk]. split; [done|]. specialize (H3 Hst). rewrite Htk in H3. destruct (lp_ticks s'); [done|cbn in H3; lia].
    + destruct Hs as [Hst Htk]. split; [done|]. specialize (H3 Hst). rewrite Htk in H3. destruct (lp_ticks s'); [done|cbn in H3; lia].
  - destruct stage, (refreshes e); try done; destruct (refresh_step e g); cbn in Hstep; try done; injection Hstep as <-; by split.
  - destruct stage, (refreshes e); try done; destruct (refresh_step e a); cbn in Hstep; try done; injection Hstep as <-; by split.
  - destruct stage; try done; injection Hstep as <-; try (by split). split; cbn -[stop].
    + apply (stop_one_chain enabled 1 s); done || lia.
    + split; [done|]. cbn. by rewrite Hs.
  - destruct stage; try done; injection Hstep as <-; by split.
  - assert (Hp : exists s', loop_step enabled StopPolls s = Some s' /\ p' = mkServerProc s' g a stage /\ forall code, stage <> Exited code).
    { destruct stage; try done; destruct (loop_step enabled StopPolls s) as [s'|]; cbn [mbind option_bind] in Hstep; try done; injection Hstep as <-; by exists s'. }
    destruct Hp as (s' & Es & -> & _). split; [by apply (polls_one_chain enabled 1 s)|]. cbn in Es |- *.
    destruct (lp_waiting s) as [|n] eqn:Ew; [done|]. injection Es as <-. destruct stage; try done.
    + destruct Hs as [Hst _]. destruct (lp_running s) eqn:Er; cbn; (split; [done|]); intros Hz; [congruence|].
      by destruct (oc_ticks _ _ _ Ho) as [[? _]|(o & _ & Hr)]; [|congruence].
    + by destruct (lp_running s).
    + by destruct (lp_running s).
  - destruct stage; try done. destruct (lp_waiting s) eqn:Ew; [|done]. injection Hstep as <-. split; [done|].
    destruct Hs as [Hst Htk]. destruct ok; cbn; [by split; [|apply Htk]|done].
  - destruct stage; try done. injection Hstep as <-. split; [done|]. by destruct ok.
  - destruct stage; try done. injection Hstep as <-. by split.
Qed.

(** The database and Redis are closed only once no tick of the worker is in flight and no
    timeout is left to begin one. *)
Lemma no_tick_while_closing enabled evs p :
  server_run enabled evs (server_main enabled true) = Some p ->
  match pr_stage p with
  | ClosingRedis | ClosingDb => lp_ticks (pr_loop p) = [] /\ lp_armed (pr_loop p) = []
  | _ => True
  end.
Proof.
  intros Hrun. assert (Hs : sound enabled p).
  { revert Hrun. assert (H := server_main_sound enabled). revert H. generalize (server_main enabled true). induction evs as [|e evs IH]; intros p0 H0 Hrun; cbn in Hrun;
      [by injection Hrun as <-|]. destruct (server_step enabled e p0) as [p1|] eqn:Es; [|done]. eapply IH; [by eapply server_step_sound|done]. }
  destruct Hs as [Ho Hs]. destruct (pr_stage p); try done; (split; [apply Hs|]); apply (oc_stopped _ _ _ Ho), Hs.
Qed.

(** Nothing calls the stop functions of the refreshers: one begins, and queries the
    database, while the database is being closed. *)
Lemma refresh_while_closing :
  exists p, server_run true [Caught WorkerProcess.SIGTERM; Polls; AppClosed true; RedisClosed true; Gauges Interval] (server_main true true) = Some p /\
    pr_stage p = ClosingDb /\ rf_inflight (pr_gauges p) = [0].
Proof. eexists. split; [vm_compute; reflexivity|]. by split. Qed.
End ServerProcess.
