(* ===== verification/App.v ===== *)
(** * The assembled server: [app.ts] and the registration of the routes

    What [buildApp] decides itself (the CORS origins, the captured request id), the
    routes every plugin registers and when, and the health route.  The matching of a
    path against the table is the router's: a parameter takes any one segment, and
    which of several matching routes it would prefer is left open, since the theorems
    show that there is never more than one. *)

From S2P Require Import Prelude JsString Json JsNumber Errors Crypto Config Schema Server WebAuthn AdminWeb.
From Stdlib Require Import String Ascii.

Open Scope string_scope.

(** ** [app.ts] *)

Inductive CorsOrigin : Type := cors_off | cors_any | cors_list (origins : list string).

(** The origin option, from [config.CORS_ORIGINS]. *)
Definition cors_origin (CORS_ORIGINS : string) : CorsOrigin :=
  let origins := List.filter nonempty (map trim (split_on ","%char CORS_ORIGINS)) in
  if (List.length origins =? 0)%nat then cors_off
  else if existsb (String.eqb "*") origins then cors_any
  else cors_list origins.

Definition request_id_char (c : ascii) : bool :=
  is_alnum c || Ascii.eqb c "." || Ascii.eqb c "_" || Ascii.eqb c "-".

(** The hook that captures [X-Request-Id]; [req.id] is the server's own. *)
Definition clientRequestId (header : option string) : option string :=
  match header with
  | Some h => if (0 <? slen h)%nat && (slen h <=? 128)%nat && all_chars request_id_char h then Some h else None
  | None => None
  end.

(** ** [routes/health.ts] *)

Definition health_reply (npm_package_version : option string) (startedAt now : Z) : json :=
  JObj [("status", JStr "ok"); ("version", JStr (default "0.1.0" npm_package_version)); ("uptime_seconds", JNum ((now - startedAt) / 1000))].

(** ** The routes *)

Inductive Method : Type := GET | POST | DELETE.

Definition method_eqb (m n : Method) : bool :=
  match m, n with GET, GET | POST, POST | DELETE, DELETE => true | _, _ => false end.

Record RouteRow : Type := mkRoute { rt_method : Method; rt_url : string }.

Definition healthRoutes : list RouteRow := [mkRoute GET "/v1/health"].
Definition metricsRoutes : list RouteRow := [mkRoute GET "/metrics"].
Definition verificationRoutes : list RouteRow :=
  [mkRoute POST "/v1/verifications"; mkRoute GET "/v1/verifications/:id"; mkRoute POST "/v1/verifications/:id/cancel"].
Definition inboundRoutes : list RouteRow := [mkRoute POST "/v1/inbound/sms"; mkRoute POST "/v1/receivers/:id/heartbeat"].
Definition webhookRoutes : list RouteRow :=
  [mkRoute POST "/v1/webhooks"; mkRoute GET "/v1/webhooks"; mkRoute GET "/v1/webhooks/:id"; mkRoute DELETE "/v1/webhooks/:id"].
Definition phoneBindingRoutes : list RouteRow :=
  [mkRoute POST "/v1/phone-bindings/start"; mkRoute GET "/v1/phone-bindings/:id"; mkRoute POST "/v1/phone-bindings/:id/revoke"].
Definition webauthnRoutes (configured : bool) : list RouteRow :=
  if negb configured then []
  else [mkRoute POST "/v1/webauthn/register/options"; mkRoute POST "/v1/webauthn/register/verify";
        mkRoute POST "/v1/webauthn/login/options"; mkRoute POST "/v1/webauthn/login/verify"].
Definition adminPlugin (enabled : bool) : list RouteRow :=
  if negb enabled then []
  else [mkRoute GET "/admin"; mkRoute GET "/admin/receivers"; mkRoute GET "/admin/verifications"; mkRoute GET "/admin/inbound-sms";
        mkRoute GET "/admin/health"; mkRoute GET "/admin/abuse-signals"].
Definition hostedPlugin (enabled : bool) : list RouteRow :=
  if negb enabled then [] else [mkRoute GET "/v/:id"; mkRoute GET "/v/:id/status"].

Section Routes.
Context (cfg : Config) (WEBAUTHN_ENABLED ADMIN_USER ADMIN_PASSWORD_HASH : option string).

Definition webauthn_on : bool := isWebAuthnConfigured cfg WEBAUTHN_ENABLED.
Definition admin_on : bool := admin_enabled (default "" ADMIN_USER) (default "" ADMIN_PASSWORD_HASH).

(** In the order of [app.register]. *)
Definition routes : list RouteRow :=
  (healthRoutes ++ metricsRoutes ++ verificationRoutes ++ inboundRoutes ++ webhookRoutes ++ phoneBindingRoutes
   ++ webauthnRoutes webauthn_on ++ adminPlugin admin_on ++ hostedPlugin (HOSTED_PAGE_ENABLED cfg))%list.
End Routes.

(** *** Matching *)

Definition is_param (segment : string) : bool := startsWith segment ":".

Fixpoint segments_match (pattern path : list string) : bool :=
  match pattern, path with
  | [], [] => true
  | p :: pattern, s :: path => (is_param p || String.eqb p s) && segments_match pattern path
  | _, _ => false
  end.

Definition matches (r : RouteRow) (m : Method) (path : string) : bool :=
  method_eqb (rt_method r) m && segments_match (split_on "/"%char (rt_url r)) (split_on "/"%char path).

(** ** No request has two routes *)

Fixpoint overlap (p q : list string) : bool :=
  match p, q with
  | [], [] => true
  | a :: p, b :: q => (is_param a || is_param b || String.eqb a b) && overlap p q
  | _, _ => false
  end.

Lemma segments_overlap p q path : segments_match p path = true -> segments_match q path = true -> overlap p q = true.
Proof.
  revert q path. induction p as [|a p IH]; intros [|b q] [|s path]; cbn; try done. intros [Ha Hp]%andb_true_iff [Hb Hq]%andb_true_iff.
  apply andb_true_iff. split; [|by eapply IH].
  destruct (is_param a); [done|]. destruct (is_param b); [done|]. cbn in *.
  apply String.eqb_eq in Ha, Hb. subst. apply String.eqb_refl.
Qed.

Definition rows_overlap (r r' : RouteRow) : bool :=
  method_eqb (rt_method r) (rt_method r') && overlap (split_on "/"%char (rt_url r)) (split_on "/"%char (rt_url r')).

Lemma matches_overlap r r' m path : matches r m path = true -> matches r' m path = true -> rows_overlap r r' = true.
Proof.
  unfold matches, rows_overlap. intros [Hm Hp]%andb_true_iff [Hm' Hp']%andb_true_iff. rewrite (segments_overlap _ _ _ Hp Hp'), andb_true_r.
  by destruct (rt_method r), m, (rt_method r').
Qed.

Definition row_eqb (r r' : RouteRow) : bool := method_eqb (rt_method r) (rt_method r') && String.eqb (rt_url r) (rt_url r').

Lemma row_eqb_eq r r' : row_eqb r r' = true -> r = r'.
Proof.
  destruct r as [m u], r' as [m' u']. unfold row_eqb. cbn. intros [Hm Hu]%andb_true_iff. apply String.eqb_eq in Hu. subst. by destruct m, m'.
Qed.

(** Every route of a server with all of them on. *)
Definition all_routes : list RouteRow :=
  (healthRoutes ++ metricsRoutes ++ verificationRoutes ++ inboundRoutes ++ webhookRoutes ++ phoneBindingRoutes
   ++ webauthnRoutes true ++ adminPlugin true ++ hostedPlugin true)%list.

Lemma all_routes_separate :
  forallb (fun r => forallb (fun r' => negb (rows_overlap r r') || row_eqb r r') all_routes) all_routes = true.
Proof. vm_compute. reflexivity. Qed.

Lemma routes_among cfg e1 e2 e3 r : In r (routes cfg e1 e2 e3) -> In r all_routes.
Proof.
  unfold routes, all_routes. intros Hin. repeat (apply in_app_or in Hin; destruct Hin as [Hin|Hin]; [apply in_or_app; left; try exact Hin|apply in_or_app; right]).
  - by destruct (webauthn_on cfg e1).
  - by destruct (admin_on e2 e3).
  - by destruct (HOSTED_PAGE_ENABLED cfg).
Qed.

(** *** Routes that are not there *)

(** Whether a pattern can match a path that begins with the segments. *)
Fixpoint reaches (segments pattern : list string) : bool :=
  match segments, pattern with
  | [], _ => true
  | s :: segments, p :: pattern => (is_param p || String.eqb p s) && reaches segments pattern
  | _ :: _, [] => false
  end.

Lemma unreached segments pattern rest : reaches segments pattern = false -> segments_match pattern (segments ++ rest)%list = false.
Proof.
  revert pattern. induction segments as [|s segments IH]; intros [|p pattern]; cbn; try done.
  rewrite !andb_false_iff. intros [H|H]; [by left|right; by apply IH].
Qed.

(** The table as a function of the three switches. *)
Definition table_of (webauthn admin hosted : bool) : list RouteRow :=
  (healthRoutes ++ metricsRoutes ++ verificationRoutes ++ inboundRoutes ++ webhookRoutes ++ phoneBindingRoutes
   ++ webauthnRoutes webauthn ++ adminPlugin admin ++ hostedPlugin hosted)%list.

Definition none_reaches (segments : list string) (table : list RouteRow) : bool :=
  forallb (fun r => negb (reaches segments (split_on "/"%char (rt_url r)))) table.

Lemma none_reaches_matches segments table m path rest r :
  none_reaches segments table = true -> split_on "/"%char path = (segments ++ rest)%list -> In r table -> matches r m path = false.
Proof.
  unfold none_reaches. rewrite forallb_forall. intros Hn Hp Hr. specialize (Hn r Hr). apply negb_true_iff in Hn.
  unfold matches. by rewrite Hp, unreached, andb_false_r.
Qed.

Lemma webauthn_unreached admin hosted : none_reaches [""; "v1"; "webauthn"] (table_of false admin hosted) = true.
Proof. by destruct admin, hosted; vm_compute. Qed.
Lemma admin_unreached webauthn hosted : none_reaches [""; "admin"] (table_of webauthn false hosted) = true.
Proof. by destruct webauthn, hosted; vm_compute. Qed.
Lemma hosted_unreached webauthn admin : none_reaches [""; "v"] (table_of webauthn admin false) = true.
Proof. by destruct webauthn, admin; vm_compute. Qed.

(** Whatever the settings, no request matches two of the registered routes, so that
    the router has nothing to choose; and the routes of the passkey fallback, of the
    dashboard and of the hosted page are there exactly when they are configured:
    otherwise no path of theirs matches anything. *)
Theorem routes_unambiguous cfg WEBAUTHN_ENABLED ADMIN_USER ADMIN_PASSWORD_HASH :
  let table := routes cfg WEBAUTHN_ENABLED ADMIN_USER ADMIN_PASSWORD_HASH in
  (forall m path r r', In r table -> In r' table -> matches r m path = true -> matches r' m path = true -> r = r') /\
  (forall m path rest, split_on "/"%char path = "" :: "v1" :: "webauthn" :: rest -> webauthn_on cfg WEBAUTHN_ENABLED = false ->
     forall r, In r table -> matches r m path = false) /\
  (forall m path rest, split_on "/"%char path = "" :: "admin" :: rest -> admin_on ADMIN_USER ADMIN_PASSWORD_HASH = false ->
     forall r, In r table -> matches r m path = false) /\
  (forall m path rest, split_on "/"%char path = "" :: "v" :: rest -> HOSTED_PAGE_ENABLED cfg = false ->
     forall r, In r table -> matches r m path = false).
Proof.
  intros table. split; [|split; [|split]]; [|intros m path rest Hp Hoff r Hr; change table with (table_of (webauthn_on cfg WEBAUTHN_ENABLED)
    (admin_on ADMIN_USER ADMIN_PASSWORD_HASH) (HOSTED_PAGE_ENABLED cfg)) in Hr; rewrite Hoff in Hr; revert Hr..].
  - intros m path r r' Hr Hr' H1 H2. apply routes_among in Hr, Hr'. assert (Hs := all_routes_separate). rewrite forallb_forall in Hs.
    specialize (Hs r Hr). rewrite forallb_forall in Hs. specialize (Hs r' Hr'). rewrite (matches_overlap _ _ _ _ H1 H2) in Hs.
    by apply row_eqb_eq.
  - apply (none_reaches_matches [""; "v1"; "webauthn"] _ m path rest); [apply webauthn_unreached|done].
  - apply (none_reaches_matches [""; "admin"] _ m path rest); [apply admin_unreached|done].
  - apply (none_reaches_matches [""; "v"] _ m path rest); [apply hosted_unreached|done].
Qed.
