(* ===== verification/Element.v ===== *)
(** * The custom element: packages/web-component/src/element.ts

    [<syrotp-verification>] around the controller: its lifecycle callbacks, its
    attributes and property, what it shows and the DOM events it dispatches.  The
    controllers it has replaced are kept, since their requests can still settle.  A
    listener may detach the element while an event of the controller is dispatched;
    other changes a listener makes to the element come after.  The interval of the polls and the
    copy button are not modelled. *)

From stdpp Require Import gmap strings.
From S2P Require Import Prelude JsString Json Date Schema Client Controller.
From Stdlib Require Import String Ascii.

Open Scope string_scope.

Inductive DomEvent : Type :=
  | syrotp_verified (detail : ClientVerification)
  | syrotp_expired (detail : ClientVerification)
  | syrotp_cancelled (detail : ClientVerification)
  | syrotp_error (message : string).

(** What the callbacks given to the controller dispatch; [onChange] renders. *)
Definition dispatched (cb : Callback) : list DomEvent :=
  match cb with
  | onChange _ _ => []
  | onVerified v => [syrotp_verified v]
  | onExpired v => [syrotp_expired v]
  | onCancelled v => [syrotp_cancelled v]
  | onError m => [syrotp_error m]
  end.

(** [JSON.parse] of the attribute, seen as a [Verification]: a value, a falsy one, or
    a [SyntaxError] with its message. *)
Inductive Parsed : Type := ParsedVerification (v : ClientVerification) | ParsedFalsy | ParseThrows (message : string).

Record Element : Type := mkElement {
  e_verification : option ClientVerification; e_controller : option Controller; e_connected : bool;
  e_attributes : gmap string string; e_view : View; e_events : list DomEvent; e_replaced : list Controller;
}.

Section Element.
Context `{DateParse} (parse : string -> Parsed) (detaches : DomEvent -> bool).

(** A listener that detaches the element makes [disconnectedCallback] stop the
    controller. *)
Definition stops (cb : Callback) : bool := existsb detaches (dispatched cb).

Definition new_element : Element := mkElement None None false ∅ Blank [] [].

Definition observedAttributes : list string := ["base-url"; "verification"; "poll-interval-ms"; "initial-instruction"].

Definition set_verification_field (v : option ClientVerification) (e : Element) : Element :=
  mkElement v (e_controller e) (e_connected e) (e_attributes e) (e_view e) (e_events e) (e_replaced e).

Definition dispatchError (message : string) (e : Element) : Element :=
  mkElement (e_verification e) (e_controller e) (e_connected e) (e_attributes e) (e_view e) (e_events e ++ [syrotp_error message]) (e_replaced e).

(** The effect of a callback on the element. *)
Definition on_callback (e : Element) (cb : Callback) : Element :=
  mkElement (e_verification e) (e_controller e) (e_connected e) (e_attributes e)
    (match cb with onChange v secs => render (e_attributes e !! "initial-instruction") v secs | _ => e_view e end)
    (e_events e ++ dispatched cb) (e_replaced e).

(** [this.controller?.stop(); this.controller = null] *)
Definition drop_controller (e : Element) : Element :=
  mkElement (e_verification e) None (e_connected e) (e_attributes e) (e_view e) (e_events e)
    (match e_controller e with Some c => e_replaced e ++ [stop c] | None => e_replaced e end)%list.

Definition set_controller (c : Controller) (e : Element) : Element :=
  mkElement (e_verification e) (Some c) (e_connected e) (e_attributes e) (e_view e) (e_events e) (e_replaced e).

Definition restart (now : Z) (e : Element) : Element :=
  let e := drop_controller e in
  match e_verification e with
  | None => mkElement None (e_controller e) (e_connected e) (e_attributes e) Blank (e_events e) (e_replaced e)
  | Some v =>
      let c := start stops (construct (default "" (e_attributes e !! "base-url")) v now) in
      fold_left on_callback (c_calls c) (set_controller c e)
  end.

(** [set verification(v)] *)
Definition set_verification (v : option ClientVerification) (now : Z) (e : Element) : Element :=
  let e := set_verification_field v e in
  if e_connected e then restart now e else e.

Definition set_connected (b : bool) (e : Element) : Element :=
  mkElement (e_verification e) (e_controller e) b (e_attributes e) (e_view e) (e_events e) (e_replaced e).

Definition truthy_attribute (e : Element) (name : string) : option string := truthy_string (e_attributes e !! name).

Definition connectedCallback (now : Z) (e : Element) : Element :=
  let e :=
    match e_verification e with
    | Some _ => e
    | None =>
        match truthy_attribute e "verification" with
        | Some attr =>
            match parse attr with
            | ParsedVerification v => set_verification_field (Some v) e
            | ParsedFalsy => set_verification_field None e
            | ParseThrows m => dispatchError m e
            end
        | None => e
        end
    end in
  restart now e.

Definition disconnectedCallback (e : Element) : Element := drop_controller e.

Definition attributeChangedCallback (name : string) (newValue : option string) (now : Z) (e : Element) : Element :=
  let go e := if e_connected e then restart now e else e in
  if String.eqb name "verification" then
    match truthy_string newValue with
    | Some text =>
        match parse text with
        | ParsedVerification v => go (set_verification_field (Some v) e)
        | ParsedFalsy => go (set_verification_field None e)
        | ParseThrows m => dispatchError m e
        end
    | None => go (set_verification_field None e)
    end
  else go e.

Definition set_attribute (name : string) (value : option string) (e : Element) : Element :=
  mkElement (e_verification e) (e_controller e) (e_connected e)
    (match value with Some v => <[name := v]> (e_attributes e) | None => base.delete name (e_attributes e) end)
    (e_view e) (e_events e) (e_replaced e).

(** What the page and the browser do. *)
Inductive PageEvent : Type :=
  | Connect (now : Z)
  | Disconnect
  | SetAttribute (name : string) (value : option string) (now : Z)
  | SetVerification (v : option ClientVerification) (now : Z)
  | Reacts (ev : Event)
  | ReplacedReacts (k : nat) (ev : Event).

(** The events a browser brings to a controller. *)
Definition from_browser (ev : Event) : bool := match ev with EStart | EStop => false | _ => true end.

Definition page_step (pe : PageEvent) (e : Element) : option Element :=
  match pe with
  | Connect now => if e_connected e then None else Some (connectedCallback now (set_connected true e))
  | Disconnect => if e_connected e then Some (disconnectedCallback (set_connected false e)) else None
  | SetAttribute name value now =>
      let e := set_attribute name value e in
      Some (if existsb (String.eqb name) observedAttributes then attributeChangedCallback name value now e else e)
  | SetVerification v now => Some (set_verification v now e)
  | Reacts ev =>
      match e_controller e with
      | None => None
      | Some c =>
          if from_browser ev then
            c' ← react stops ev c;
            let fresh := drop (List.length (c_calls c)) (c_calls c') in
            let e := fold_left on_callback fresh (set_controller c' e) in
            Some (if existsb stops fresh then disconnectedCallback (set_connected false e) else e)
          else None
      end
  | ReplacedReacts k ev =>
      match e_replaced e !! k with
      | None => None
      | Some c =>
          if from_browser ev then
            c' ← react stops ev c;
            let e := fold_left on_callback (drop (List.length (c_calls c)) (c_calls c')) e in
            Some (mkElement (e_verification e) (e_controller e) (e_connected e) (e_attributes e) (e_view e) (e_events e) (<[k := c']> (e_replaced e)))
          else None
      end
  end.

Fixpoint page_run (pes : list PageEvent) (e : Element) : option Element :=
  match pes with [] => Some e | pe :: pes => e' ← page_step pe e; page_run pes e' end.
End Element.

(** ** What the controller tells is what it holds *)

Section Shows.
Context `{DateParse} (calls_stop : Callback -> bool).

(** The last visible state that was told. *)
Fixpoint last_change (l : list Callback) : option (ClientVerification * option Z) :=
  match l with
  | [] => None
  | cb :: l => match last_change l with
               | Some x => Some x
               | None => match cb with onChange v secs => Some (v, secs) | _ => None end
               end
  end.

Lemma last_change_app l l' : last_change (l ++ l')%list = match last_change l' with Some x => Some x | None => last_change l end.
Proof.
  induction l as [|cb l IH]; cbn; [by destruct (last_change l')|]. rewrite IH. by destruct (last_change l').
Qed.

(** What an event adds to the calls ends with the state, unless it changes nothing that
    is visible. *)
Definition tells (c c' : Controller) : Prop :=
  exists l, c_calls c' = (c_calls c ++ l)%list /\
    (last_change l = Some (c_state c', c_secondsLeft c') \/
     last_change l = None /\ c_state c' = c_state c /\ c_secondsLeft c' = c_secondsLeft c).

Lemma tells_quiet c c' : c_calls c' = c_calls c -> c_state c' = c_state c -> c_secondsLeft c' = c_secondsLeft c -> tells c c'.
Proof. intros E1 E2 E3. exists []. rewrite app_nil_r. split; [done|]. by right. Qed.

Lemma call_fields cb c : c_calls (call calls_stop cb c) = (c_calls c ++ [cb])%list /\ c_state (call calls_stop cb c) = c_state c /\
  c_secondsLeft (call calls_stop cb c) = c_secondsLeft c.
Proof. unfold call. by destruct (calls_stop cb). Qed.

Lemma call_all_fields l c : c_calls (call_all calls_stop l c) = (c_calls c ++ l)%list /\ c_state (call_all calls_stop l c) = c_state c /\
  c_secondsLeft (call_all calls_stop l c) = c_secondsLeft c.
Proof.
  revert c. induction l as [|cb l IH]; intros c; [by rewrite app_nil_r|]. cbn [call_all fold_left].
  destruct (call_fields cb c) as (E1 & E2 & E3), (IH (call calls_stop cb c)) as (F1 & F2 & F3). unfold call_all in *.
  rewrite F1, F2, F3, E1, E2, E3. by rewrite <- app_assoc.
Qed.

Lemma last_change_transitions p v : last_change (transition_callback p v) = None.
Proof. unfold transition_callback. destruct (status_eqb _ _); [done|]. destruct (negb _); [done|]. by destruct (cv_status v). Qed.

(** [onChange] with the state just set. *)
Lemma tells_change v prev secs c c0 :
  c_calls c = c_calls c0 -> tells c0 (call calls_stop (onChange v secs) (set_state v prev secs c)).
Proof.
  intros E. destruct (call_fields (onChange v secs) (set_state v prev secs c)) as (E1 & E2 & E3).
  exists [onChange v secs]. rewrite E1, E2, E3. cbn. rewrite E. split; [done|]. by left.
Qed.

Lemma tells_transition now next c c0 : c_calls c = c_calls c0 -> tells c0 (transition calls_stop now next c).
Proof.
  intros E. unfold transition. generalize (computeSecondsLeft now (cv_expires_at next)). intros secs. cbv zeta.
  generalize (c_prevStatus c). intros prev.
  destruct (call_fields (onChange next secs) (set_state next (cv_status next) secs c)) as (E1 & E2 & E3). revert E1 E2 E3.
  generalize (call calls_stop (onChange next secs) (set_state next (cv_status next) secs c)). intros c2 E1 E2 E3.
  destruct (call_all_fields (transition_callback prev next) c2) as (F1 & F2 & F3). revert F1 F2 F3.
  generalize (call_all calls_stop (transition_callback prev next) c2). intros c3 F1 F2 F3.
  assert (Ht : tells c0 c3); [|by destruct (isTerminal (cv_status next))].
  exists (onChange next secs :: transition_callback prev next). split.
  - rewrite F1, E1. cbn [set_state c_calls]. rewrite E. by rewrite <- app_assoc.
  - left. cbn [last_change]. rewrite last_change_transitions, F2, F3, E2, E3. reflexivity.
Qed.

Lemma tells_tick now c : tells c (onCountdownTick calls_stop now c).
Proof.
  unfold onCountdownTick. destruct (negb _); [by apply tells_quiet|]. cbv zeta. destruct (run_out _).
  - by apply tells_transition.
  - by apply tells_change.
Qed.

Lemma tells_poll c : tells c (poll c).
Proof. unfold poll. destruct (c_stopped c); [by apply tells_quiet|]. destruct (isTerminal _); by apply tells_quiet. Qed.

Lemma tells_error m c c0 : c_calls c = c_calls c0 -> c_state c = c_state c0 -> c_secondsLeft c = c_secondsLeft c0 ->
  tells c0 (call calls_stop (onError m) c).
Proof.
  intros E1 E2 E3. destruct (call_fields (onError m) c) as (F1 & F2 & F3). exists [onError m]. rewrite F1, F2, F3, E1. split; [done|]. by right.
Qed.

Lemma tells_settle r now k c : tells c (settle calls_stop r now (forget k c)).
Proof.
  unfold settle. destruct r as [body|code|ab m]; destruct (c_stopped (forget k c)); try by apply tells_quiet.
  - destruct (status_eqb _ _); [|by apply tells_transition]. destruct (negb _); [|by apply tells_quiet]. cbv zeta. by apply tells_change.
  - by apply tells_error.
  - destruct ab; [by apply tells_quiet|by apply tells_error].
Qed.

Lemma tells_react ev c c' : from_browser ev = true -> react calls_stop ev c = Some c' -> tells c c'.
Proof.
  intros Hf. destruct ev as [| |now| |k r now]; try discriminate; cbn.
  - destruct (c_tickId c); [|done]. intros [= <-]. apply tells_tick.
  - destruct (c_pollId c); [|done]. intros [= <-]. apply tells_poll.
  - destruct (existsb _ _); [|done]. intros [= <-]. apply tells_settle.
Qed.

(** A controller that has told its state. *)
Definition told (c : Controller) : Prop := last_change (c_calls c) = Some (c_state c, c_secondsLeft c).

Lemma tells_told c c' : told c -> tells c c' -> told c'.
Proof.
  intros Ht (l & E & [Hl|(Hl & E1 & E2)]); unfold told in *; rewrite E, last_change_app, Hl; [done|]. by rewrite Ht, E1, E2.
Qed.

Lemma started_told c : c_started c = false -> c_stopped c = false -> told (start calls_stop c).
Proof.
  intros E1 E2. unfold start. rewrite E1, E2. cbn [orb]. cbv zeta.
  destruct (call_fields (onChange (c_state c) (c_secondsLeft c)) (set_started c)) as (F1 & F2 & F3).
  set (c1 := call _ _ _) in *. assert (Ht : told c1) by (unfold told; rewrite F1, F2, F3, last_change_app; done).
  destruct (isTerminal _); [done|]. eapply tells_told; [|by apply tells_quiet].
  eapply tells_told; [|apply tells_poll]. eapply tells_told; [exact Ht|by apply tells_quiet].
Qed.
End Shows.

(** ** What the element shows *)

Section ElementProofs.
Context `{DateParse} (parse : string -> Parsed) (detaches : DomEvent -> bool).

Lemma fold_on_callback l e :
  fold_left on_callback l e
  = mkElement (e_verification e) (e_controller e) (e_connected e) (e_attributes e)
      (match last_change l with Some (v, secs) => render (e_attributes e !! "initial-instruction") v secs | None => e_view e end)
      (e_events e ++ flat_map dispatched l) (e_replaced e).
Proof.
  revert e. induction l as [|cb l IH]; intros e; cbn [fold_left last_change flat_map]; [rewrite app_nil_r; by destruct e|].
  rewrite IH. cbn [on_callback e_verification e_controller e_connected e_attributes e_view e_events e_replaced].
  rewrite <- app_assoc. destruct (last_change l) as [[v secs]|]; [done|]. by destruct cb.
Qed.

(** A controller the element holds has told its state, and the page shows that; one it
    has replaced is stopped. *)
Record element_ok (e : Element) : Prop := {
  eo_held : forall c, e_controller e = Some c ->
    e_connected e = true /\ e_verification e <> None /\ told c /\
    e_view e = render (e_attributes e !! "initial-instruction") (c_state c) (c_secondsLeft c);
  eo_empty : e_connected e = true -> e_controller e = None -> e_verification e = None /\ e_view e = Blank;
  eo_replaced : Forall (fun c => c_stopped c = true /\ silent c) (e_replaced e);
}.

Lemma new_ok : element_ok new_element.
Proof. by split. Qed.

Lemma drop_replaced e : Forall (fun c => c_stopped c = true /\ silent c) (e_replaced e) ->
  Forall (fun c => c_stopped c = true /\ silent c) (e_replaced (drop_controller e)).
Proof. intros Hr. cbn. destruct (e_controller e); [|done]. apply Forall_app_2; [done|]. by constructor. Qed.

Lemma restart_ok now e :
  e_connected e = true -> Forall (fun c => c_stopped c = true /\ silent c) (e_replaced e) -> element_ok (restart detaches now e).
Proof.
  intros Hc Hr. apply drop_replaced in Hr. unfold restart. cbv zeta. change (e_verification (drop_controller e)) with (e_verification e).
  destruct (e_verification e) as [v|] eqn:Ev; [|by split].
  assert (Ht : told (start (stops detaches) (construct (default "" (e_attributes (drop_controller e) !! "base-url")) v now))) by (by apply started_told).
  revert Ht. generalize (start (stops detaches) (construct (default "" (e_attributes (drop_controller e) !! "base-url")) v now)). intros c Ht.
  rewrite fold_on_callback. unfold told in Ht. rewrite Ht.
  split; cbn; [|done|exact Hr]. intros c' [= <-]. rewrite Ev. by repeat split.
Qed.

Lemma disconnect_ok e : element_ok e -> element_ok (disconnectedCallback (set_connected false e)).
Proof. intros [_ _ Hr]. split; [done|done|]. by apply drop_replaced. Qed.

Lemma go_ok now e : (e_connected e = false -> e_controller e = None) -> Forall (fun c => c_stopped c = true /\ silent c) (e_replaced e) ->
  element_ok (if e_connected e then restart detaches now e else e).
Proof.
  intros Hn Hr. destruct (e_connected e) eqn:Ec; [by apply restart_ok|]. split; [|by rewrite Ec|done]. intros c Hc. by rewrite Hn in Hc.
Qed.

Lemma disconnected_controller e : element_ok e -> e_connected e = false -> e_controller e = None.
Proof. intros [Hh _ _] Hc. destruct (e_controller e) as [c|]; [|done]. destruct (Hh c eq_refl). congruence. Qed.

Lemma error_ok m e : element_ok e -> element_ok (dispatchError m e).
Proof. intros [Hh He Hr]. by split. Qed.

(** A replaced controller changes nothing that can be seen. *)
Lemma replaced_reacts_same k ev e e' :
  element_ok e -> page_step parse detaches (ReplacedReacts k ev) e = Some e' ->
  element_ok e' /\ e_view e' = e_view e /\ e_events e' = e_events e /\ e_controller e' = e_controller e.
Proof.
  intros [Hh He Hr]. cbn. destruct (e_replaced e !! k) as [c|] eqn:Ek; [|done]. destruct (from_browser ev); [|done].
  destruct (react (stops detaches) ev c) as [c'|] eqn:Er; [|done]. cbn. intros [= <-].
  destruct (Forall_lookup_1 _ _ _ _ Hr Ek) as [Hst Hs].
  destruct (silent_react (stops detaches) ev c c' Hs Hst Er) as (Hs' & Hst' & Ec & _). rewrite Ec, drop_all. cbn.
  split; [|done]. split; cbn; [done|done|]. apply Forall_insert; [done|by split].
Qed.

Lemma reacts_ok ev e e' : element_ok e -> page_step parse detaches (Reacts ev) e = Some e' -> element_ok e'.
Proof.
  intros [Hh He Hr]. cbn. destruct (e_controller e) as [c|] eqn:Ec; [|done]. destruct (from_browser ev) eqn:Ef; [|done].
  destruct (react (stops detaches) ev c) as [c'|] eqn:Er; [|done]. cbn. destruct (Hh c eq_refl) as (Hcon & Hv & Ht & Hview).
  assert (Htells := tells_react _ ev c c' Ef Er). assert (Ht' := tells_told c c' Ht Htells). destruct Htells as (l & El & Hl).
  assert (drop (List.length (c_calls c)) (c_calls c') = l) as -> by (rewrite El; apply drop_app_length).
  rewrite fold_on_callback. cbn [set_controller e_verification e_controller e_connected e_attributes e_view e_events e_replaced].
  intros [= <-]. match goal with |- element_ok (if _ then _ else ?e1) => assert (Hok : element_ok e1) end.
  { split; cbn; [|done|exact Hr]. intros c1 [= <-]. split; [done|]. split; [done|]. split; [done|].
    destruct Hl as [-> |(-> & -> & ->)]; [done|exact Hview]. }
  destruct (existsb _ _); [|exact Hok]. by apply disconnect_ok.
Qed.

Lemma page_step_ok pe e e' : element_ok e -> page_step parse detaches pe e = Some e' -> element_ok e'.
Proof.
  intros Hok. assert (Hdc := disconnected_controller e Hok). destruct pe as [now| |name value now|v now|ev|k ev].
  - cbn. destruct (e_connected e); [done|]. intros [= <-]. unfold connectedCallback.
    apply restart_ok; destruct Hok as [_ _ Hr]; cbn; (destruct (e_verification e); [done|]);
      (destruct (truthy_attribute _ _); [|done]); by destruct (parse _).
  - cbn. destruct (e_connected e); [|done]. intros [= <-]. by apply disconnect_ok.
  - unfold page_step. cbv zeta. intros E. apply (inj Some) in E. subst e'. destruct (existsb (String.eqb name) observedAttributes) eqn:Eo.
    + unfold attributeChangedCallback. destruct Hok as [Hh He Hr].
      destruct (String.eqb_spec name "verification") as [-> |Hn]; [|by apply go_ok].
      destruct (truthy_string value) as [text|]; [|by apply go_ok].
      destruct (parse text); [by apply go_ok|by apply go_ok|].
      apply error_ok. split; cbn; [|done|done]. intros c Hc. destruct (Hh c Hc) as (H1 & H2 & H3 & H4). repeat split; try done.
      rewrite H4. by destruct value; cbn; [rewrite lookup_insert_ne|rewrite lookup_delete_ne].
    + destruct Hok as [Hh He Hr]. split; cbn; [|done|done]. intros c Hc. destruct (Hh c Hc) as (H1 & H2 & H3 & H4). repeat split; try done.
      assert (name <> "initial-instruction") by (intros ->; done).
      rewrite H4. by destruct value; cbn; [rewrite lookup_insert_ne|rewrite lookup_delete_ne].
  - cbn. intros [= <-]. unfold set_verification. destruct Hok as [Hh He Hr]. by apply go_ok.
  - intros Hs. by eapply reacts_ok.
  - intros Hs. by eapply replaced_reacts_same.
Qed.

Lemma page_run_ok pes e e' : element_ok e -> page_run parse detaches pes e = Some e' -> element_ok e'.
Proof.
  revert e. induction pes as [|pe pes IH]; intros e Hok Hr; cbn in Hr; [by injection Hr as <-|].
  destruct (page_step parse detaches pe e) as [e1|] eqn:Es; [|done]. eapply IH; [by eapply page_step_ok|done].
Qed.

(** C31: Whatever the page and the browser do with the element: it holds a controller
    exactly while it is connected and has a verification, and then the page shows that
    controller's state and seconds under the present instruction, otherwise, when
    connected, nothing; and no timer, answer or failure of a controller it has replaced
    or dropped changes the view or dispatches an event. *)
Theorem element_shows pes e :
  page_run parse detaches pes new_element = Some e ->
  (e_connected e = true -> (e_controller e = None <-> e_verification e = None)) /\
  (e_connected e = false -> e_controller e = None) /\
  (forall c, e_controller e = Some c -> e_view e = render (e_attributes e !! "initial-instruction") (c_state c) (c_secondsLeft c)) /\
  (e_connected e = true -> e_controller e = None -> e_view e = Blank) /\
  (forall k ev e', page_step parse detaches (ReplacedReacts k ev) e = Some e' ->
     e_view e' = e_view e /\ e_events e' = e_events e /\ e_controller e' = e_controller e).
Proof.
  intros Hr. assert (Hok := page_run_ok pes _ e new_ok Hr). split; [|split; [|split; [|split]]].
  - intros Hc. destruct Hok as [Hh He _]. split; [by apply He|]. intros Hv. destruct (e_controller e) as [c|]; [|done].
    by destruct (Hh c eq_refl) as (_ & Hn & _).
  - by apply disconnected_controller.
  - intros c Hc. by destruct (eo_held _ Hok c Hc) as (_ & _ & _ & ->).
  - intros Hc Hn. by apply (eo_empty _ Hok).
  - intros k ev e' Hs. by destruct (replaced_reacts_same k ev e e' Hok Hs).
Qed.
End ElementProofs.

(** ** Runs *)

Definition no_parse (text : string) : Parsed := ParseThrows "Unexpected token".
Definition never (ev : DomEvent) : bool := false.

(** Connected with a pending verification, which is verified. *)
Definition verified_page : list PageEvent :=
  [SetVerification (Some sample_verification) 0; Connect 0; Reacts (ESettle 0 (Answer now_verified) 9000)].

Definition view_text (v : View) : string :=
  match v with PendingView _ _ _ message _ _ => message | StatusView text => text | Blank => "" end.

(** A change of an attribute builds a new controller on the verification the element was
    given, not on the state the old one had reached: a verified element shows the code
    again, and dispatches [syrotp-verified] a second time. *)
Lemma attribute_change_refires :
  let D := iso_only in
  let changed := (verified_page ++ [SetAttribute "initial-instruction" (Some "Text us") 10000])%list in
  let again := (changed ++ [Reacts (ESettle 0 (Answer now_verified) 11000)])%list in
  (fun e => (view_text (e_view e), List.length (e_events e))) <$> page_run no_parse never verified_page new_element = Some ("Phone verified.", 1%nat) /\
  (fun e => (view_text (e_view e), List.length (e_events e))) <$> page_run no_parse never changed new_element = Some ("VERIFY A7K9P2", 1%nat) /\
  (fun e => (view_text (e_view e), List.length (e_events e))) <$> page_run no_parse never again new_element = Some ("Phone verified.", 2%nat).
Proof. vm_compute. repeat split. Qed.

Lemma element_shows_witness :
  let D := iso_only in
  exists e, page_run no_parse never (verified_page ++ [Disconnect])%list new_element = Some e /\
    e_controller e = None /\ List.length (e_replaced e) = 1%nat.
Proof.
  intros D. destruct (page_run no_parse never (verified_page ++ [Disconnect])%list new_element) as [e|] eqn:E; [|vm_compute in E; discriminate].
  exists e. split; [reflexivity|].
  assert (Hc : e_connected <$> page_run no_parse never (verified_page ++ [Disconnect])%list new_element = Some false) by (vm_compute; reflexivity).
  assert (Hl : (fun e => List.length (e_replaced e)) <$> page_run no_parse never (verified_page ++ [Disconnect])%list new_element = Some 1%nat)
    by (vm_compute; reflexivity).
  rewrite E in Hc, Hl. cbn [fmap option_fmap option_map] in Hc, Hl.
  destruct (element_shows no_parse never (verified_page ++ [Disconnect])%list e E) as (_ & Hd & _).
  split; [apply Hd; congruence|congruence].
Defined.
