(* ===== verification/Doctor.v ===== *)
(** * The doctor: [commands/doctor.ts] and the probes of [checks/index.ts]

    The checks of the path, of the sockets and of the health route, the whole run of
    [runDoctor] and what it prints.  What the machine answers is in [Machine]: the
    programs on the path, the URL parser, the events of a socket in the order they
    come, and the answer of [fetch]. *)

From stdpp Require Import gmap strings.
From S2P Require Import Prelude JsString Json JsonParse JsNumber Date Errors Crypto Wire Client Sdk Cli Commands.
From Stdlib Require Import String Ascii.

Open Scope string_scope.

(** ** The machine *)

Inductive SocketEvent : Type := TimedOut | SocketError (message : string) | Connected.

(** The parts of a URL the checks read; the port as text, empty when absent. *)
Record ParsedUrl : Type := { pu_hostname : string; pu_port : string }.

Record Machine : Type := {
  mc_node : string; mc_node_major : option Z; mc_node_minor : option Z;
  mc_exec : string -> list string -> option string;
  mc_url : string -> option ParsedUrl;
  mc_socket : string -> option Z -> list SocketEvent;
  mc_fetch : string -> FetchResult;
  mc_syntax : string;
  mc_env_file : bool;
}.

(** ** The checks *)

Definition checkOnPath (m : Machine) (cmd : string) (args : list string) (title hint : string) : CheckResult :=
  match mc_exec m cmd args with
  | Some stdout =>
      {| cr_title := title; cr_status := pass; cr_category := dep;
         cr_detail := Some (match split_lines stdout with l :: _ => trim l | [] => cmd end); cr_hint := None |}
  | None => {| cr_title := title; cr_status := fail; cr_category := dep; cr_detail := None; cr_hint := Some hint |}
  end.

Definition checkPnpm (m : Machine) : CheckResult :=
  checkOnPath m "pnpm" ["--version"] "pnpm" "install via `npm install -g pnpm` or `corepack enable`".
Definition checkDocker (m : Machine) : CheckResult := checkOnPath m "docker" ["--version"] "docker" "install Docker Desktop or Docker Engine".
Definition checkDockerCompose (m : Machine) : CheckResult :=
  checkOnPath m "docker" ["compose"; "version"] "docker compose" "update Docker — compose v2+ is bundled".

(** [settled]: only the first event counts.  [None]: no event ever came. *)
Fixpoint finish (timeoutMs : Z) (settled : option (option string)) (events : list SocketEvent) : option (option string) :=
  match events with
  | [] => settled
  | e :: events =>
      let result := match e with
                    | TimedOut => Some ("connect timeout after " ++ num_to_string timeoutMs ++ "ms")
                    | SocketError m => Some m
                    | Connected => None
                    end in
      finish timeoutMs (match settled with Some _ => settled | None => Some result end) events
  end.

(** [Some None]: ok; [Some (Some reason)]: not. *)
Definition tcpProbe (m : Machine) (host : string) (port : option Z) (timeoutMs : Z) : option (option string) :=
  finish timeoutMs None (mc_socket m host port).

Section Checks.
Context (m : Machine) (c : LoadedConfig) (timeoutMs : option Z).

Definition env_value (name : string) : option string :=
  match lc_env c !! name with Some v => if nonempty v then Some v else None | None => None end.

Definition reach_result (title : string) (s : CheckStatus) (detail hint : option string) : CheckResult :=
  {| cr_title := title; cr_status := s; cr_category := reachability; cr_detail := detail; cr_hint := hint |}.

(** [checkPostgres] and [checkRedis]; a probe without any event leaves the check pending. *)
Definition checkTcp (name title : string) (defaultPort : Z) (down : string) : option CheckResult :=
  match env_value name with
  | None => Some (reach_result title skip (Some (name ++ " not set")) None)
  | Some url =>
      match mc_url m url with
      | None => Some (reach_result title fail None (Some (name ++ " is not a valid URL")))
      | Some parsed =>
          let port := if nonempty (pu_port parsed) then parseInt10 (pu_port parsed) else Some defaultPort in
          let at_ := pu_hostname parsed ++ ":" ++ match port with Some p => num_to_string p | None => "NaN" end in
          result ← tcpProbe m (pu_hostname parsed) port (default 3000%Z timeoutMs);
          Some (match result with
                | None => reach_result title pass (Some at_) None
                | Some reason => reach_result title fail (Some (at_ ++ ": " ++ reason)) (Some down)
                end)
      end
  end.

Definition checkPostgres : option CheckResult :=
  checkTcp "DATABASE_URL" "postgres reachable" 5432 "is the postgres container running? check with `docker compose ps`".
Definition checkRedis : option CheckResult :=
  checkTcp "REDIS_URL" "redis reachable" 6379 "is the redis container running? check with `docker compose ps`".

Definition checkServerHealth : option CheckResult :=
  let title := "server /v1/health" in
  match env_value "SYROTP_BASE_URL" with
  | None => Some (reach_result title skip (Some "SYROTP_BASE_URL not set") None)
  | Some base =>
      let url := strip_trailing_slashes base ++ "/v1/health" in
      match mc_fetch m url with
      | Responded status text =>
          if negb (ok status) then
            Some (reach_result title fail (Some (url ++ ": HTTP " ++ num_to_string status))
                    (Some "is the SYROTP server running? `docker compose up -d server` or `node apps/server/dist/index.js`"))
          else
            h ← read_health (mc_syntax m) (Responded status text);
            Some (match h with
                  | Healthy s v => reach_result title pass (Some (url ++ " → status=" ++ js_String s ++ ", version=" ++ js_String v)) None
                  | Unhealthy reason => reach_result title fail (Some (url ++ ": " ++ reason))
                                          (Some "is the SYROTP server running? check with `curl ${SYROTP_BASE_URL}/v1/health`")
                  end)
      | r =>
          h ← read_health (mc_syntax m) r;
          Some (match h with
                | Healthy _ _ => reach_result title pass None None
                | Unhealthy reason => reach_result title fail (Some (url ++ ": " ++ reason))
                                        (Some "is the SYROTP server running? check with `curl ${SYROTP_BASE_URL}/v1/health`")
                end)
      end
  end.
End Checks.

(** ** [runDoctor] *)

(** All the checks, in order; nothing a check finds keeps another from running.  [None]: a
    probe is still pending, or the health answer is outside the model of
    [JSON.parse]. *)
Definition runDoctor (m : Machine) (c : LoadedConfig) (timeoutMs : option Z) : option (list CheckResult) :=
  let env := [checkNode (mc_node m) (mc_node_major m) (mc_node_minor m); checkPnpm m; checkDocker m; checkDockerCompose m] in
  let cfg := doctor_config c (mc_env_file m) in
  postgres ← checkPostgres m c timeoutMs;
  redis ← checkRedis m c timeoutMs;
  health ← checkServerHealth m c;
  Some (env ++ cfg ++ [postgres; redis; health])%list.

Definition count_status (s : CheckStatus) (all : list CheckResult) : Z :=
  Z.of_nat (List.length (List.filter (fun r => status_eqb (cr_status r) s) all)).

(** The last line, without its colours. *)
Definition summary (all : list CheckResult) : string :=
  let tail := " (" ++ num_to_string (count_status pass all) ++ " ok, " ++ num_to_string (count_status skip all) ++ " skipped)" in
  let failed := count_status fail all in
  if (failed =? 0)%Z then "all checks passed" ++ tail
  else num_to_string failed ++ " check" ++ (if (failed =? 1)%Z then "" else "s") ++ " failed" ++ tail.

(** ** What the verdict means *)

Lemma finish_settled t r events : finish t (Some r) events = Some r.
Proof. by induction events. Qed.

(** The first event decides. *)
Lemma tcpProbe_ok m host port t : tcpProbe m host port t = Some None <-> exists rest, mc_socket m host port = Connected :: rest.
Proof.
  unfold tcpProbe. destruct (mc_socket m host port) as [|e rest]; cbn; [split; [done|by intros [? ?]]|]. rewrite finish_settled.
  destruct e; split; try done; try (by intros [? ?]). by exists rest.
Qed.

Lemma checkTcp_cases m c timeoutMs name title p down r :
  checkTcp m c timeoutMs name title p down = Some r ->
  cr_category r = reachability /\
  (cr_status r = pass <->
     exists url parsed rest, env_value c name = Some url /\ mc_url m url = Some parsed /\
       mc_socket m (pu_hostname parsed) (if nonempty (pu_port parsed) then parseInt10 (pu_port parsed) else Some p) = Connected :: rest) /\
  (cr_status r = skip <-> env_value c name = None).
Proof.
  unfold checkTcp. destruct (env_value c name) as [url|]; [|intros [= <-]; split; [done|split; [split; [done|by intros (? & ? & ? & ? & _)]|by split]]].
  destruct (mc_url m url) as [parsed|] eqn:Eu.
  2: { intros [= <-]. split; [done|]. split; [|by split]. split; [done|]. intros (? & ? & ? & [= <-] & E & _). congruence. }
  destruct (tcpProbe m _ _ _) as [result|] eqn:Ep; [|done]. cbn [mbind option_bind]. intros [= <-].
  assert (Hok := tcpProbe_ok m (pu_hostname parsed) (if nonempty (pu_port parsed) then parseInt10 (pu_port parsed) else Some p) (default 3000%Z timeoutMs)).
  rewrite Ep in Hok. destruct result as [reason|]; cbn; (split; [done|]); (split; [|by split]); split; try done.
  - intros (? & ? & rest & [= <-] & E & Hs). rewrite Eu in E. injection E as <-. assert (Hx := proj2 Hok (ex_intro _ rest Hs)). discriminate.
  - intros _. destruct (proj1 Hok eq_refl) as [rest Hs]. by exists url, parsed, rest.
Qed.

Lemma checkServerHealth_cases m c r :
  checkServerHealth m c = Some r ->
  cr_category r = reachability /\
  (cr_status r = pass -> exists base status text, env_value c "SYROTP_BASE_URL" = Some base /\
     mc_fetch m (strip_trailing_slashes base ++ "/v1/health") = Responded status text /\ ok status = true) /\
  (cr_status r = skip <-> env_value c "SYROTP_BASE_URL" = None).
Proof.
  unfold checkServerHealth. destruct (env_value c _) as [base|]; [|intros [= <-]; by split].
  destruct (mc_fetch m _) as [status text|name message|] eqn:Ef.
  - destruct (ok status) eqn:Eo; cbn [negb]; [|intros [= <-]; by split].
    destruct (read_health _ _) as [[s v|reason]|]; [| |done]; cbn; intros [= <-]; (split; [done|]); (split; [|by split]); try done.
    intros _. by exists base, status, text.
  - cbn. intros [= <-]. by split.
  - cbn. intros [= <-]. by split.
Qed.

Lemma checkEnvVar_pass name c : cr_status (checkEnvVar name c) = pass <-> env_value c name <> None.
Proof. unfold checkEnvVar, env_value. destruct (lc_env c !! name) as [v|]; [|by split]. destruct (nonempty v); by split. Qed.

Lemma checkEnvVar_not_skip name c : cr_status (checkEnvVar name c) <> skip.
Proof. unfold checkEnvVar. destruct (lc_env c !! name) as [v|]; [|done]. by destruct (nonempty v). Qed.

Lemma verdict_ok all : doctor_verdict all = OK <-> Forall (fun r => cr_status r <> fail) all.
Proof.
  unfold doctor_verdict. rewrite List.Forall_forall. destruct (List.filter _ all) as [|f fs] eqn:Ef; cbn.
  - split; [|done]. intros _ r Hr Hs. assert (Hin : In r (List.filter (fun r => status_eqb (cr_status r) fail) all)) by (apply filter_In; by rewrite Hs).
    by rewrite Ef in Hin.
  - assert (Hin : In f (List.filter (fun r => status_eqb (cr_status r) fail) all)) by (rewrite Ef; by left).
    apply filter_In in Hin. destruct Hin as [Hin Hs]. split.
    + intros E. exfalso. assert (Hd := doctor_verdict_spec all). destruct Hd as (Hok & _). unfold doctor_verdict in Hok.
      rewrite Ef in Hok. cbn in Hok. apply (proj1 Hok E (cr_category f)). exists f. split; [done|]. split; [by destruct (cr_status f)|done].
    + intros Hall. specialize (Hall f Hin). by destruct (cr_status f).
Qed.

Lemma neither r : cr_status r <> fail -> cr_status r <> skip -> cr_status r = pass.
Proof. by destruct (cr_status r). Qed.

Lemma env_set name c : cr_status (checkEnvVar name c) <> fail -> env_value c name <> None.
Proof. intros Hf. apply checkEnvVar_pass, neither; [done|apply checkEnvVar_not_skip]. Qed.

(** The checks of the machine and of the file are never skipped. *)
Lemma node_not_skip v maj min : cr_status (checkNode v maj min) <> skip.
Proof. unfold checkNode. cbn. by destruct (match maj with Some _ => _ | None => _ end). Qed.

Lemma on_path m cmd args title hint : cr_status (checkOnPath m cmd args title hint) <> skip /\
  (cr_status (checkOnPath m cmd args title hint) <> fail -> mc_exec m cmd args <> None).
Proof. unfold checkOnPath. by destruct (mc_exec m cmd args). Qed.

Lemma file_not_skip c b : cr_status (checkEnvFile c b) <> skip.
Proof. unfold checkEnvFile. destruct (lc_envFilePath c); [|done]. by destruct (negb b). Qed.

(** A doctor that says that all is well has looked at everything: it makes eleven
    checks whatever they find, and when its exit code is 0 none was skipped, the
    database, the cache and the base URL are configured, the first thing that happened on
    the socket of each of the two was that it connected, the health route answered with
    a 2xx, and the three programs are on the path. *)
Theorem doctor_ok_means_ready m c timeoutMs all :
  runDoctor m c timeoutMs = Some all ->
  List.length all = 11%nat /\
  (doctor_verdict all = OK ->
     Forall (fun r => cr_status r = pass) all /\
     (forall name p, In (name, p) [("DATABASE_URL", 5432%Z); ("REDIS_URL", 6379%Z)] ->
        exists url parsed rest, env_value c name = Some url /\ mc_url m url = Some parsed /\
          mc_socket m (pu_hostname parsed) (if nonempty (pu_port parsed) then parseInt10 (pu_port parsed) else Some p) = Connected :: rest) /\
     (exists base status text, env_value c "SYROTP_BASE_URL" = Some base /\
        mc_fetch m (strip_trailing_slashes base ++ "/v1/health") = Responded status text /\ ok status = true) /\
     (forall cmd args, In (cmd, args) [("pnpm", ["--version"]); ("docker", ["--version"]); ("docker", ["compose"; "version"])] ->
        mc_exec m cmd args <> None)).
Proof.
  unfold runDoctor. destruct (checkPostgres m c timeoutMs) as [rp|] eqn:Ep; [|done]. destruct (checkRedis m c timeoutMs) as [rr|] eqn:Er; [|done].
  destruct (checkServerHealth m c) as [rh|] eqn:Eh; [|done]. cbn [mbind option_bind]. intros E. apply (inj Some) in E. subst all. split; [done|].
  destruct (checkTcp_cases _ _ _ _ _ _ _ _ Ep) as (_ & Pp & Ps), (checkTcp_cases _ _ _ _ _ _ _ _ Er) as (_ & Rp & Rs), (checkServerHealth_cases _ _ _ Eh) as (_ & Hp & Hs).
  rewrite verdict_ok. intros Hall. unfold doctor_config in Hall. cbn [List.app] in Hall.
  repeat match type of Hall with Forall _ (_ :: _) => let Hf := fresh "Hc" in apply Forall_cons in Hall; destruct Hall as [Hf Hall] end.
  assert (Ed := env_set _ _ Hc4). assert (Ere := env_set _ _ Hc5). assert (Eb := env_set _ _ Hc6).
  assert (Hpass : cr_status rp = pass) by (apply neither; [done|by rewrite Ps]).
  assert (Hrass : cr_status rr = pass) by (apply neither; [done|by rewrite Rs]).
  assert (Hhass : cr_status rh = pass) by (apply neither; [done|by rewrite Hs]).
  split; [|split; [|split]].
  - unfold doctor_config. repeat constructor; try assumption; apply neither; try assumption;
      first [apply node_not_skip|apply on_path|apply file_not_skip|apply checkEnvVar_not_skip].
  - intros name p [Hin|[Hin|[]]]; injection Hin as <- <-; [by apply Pp|by apply Rp].
  - by apply Hp.
  - intros cmd args [Hin|[Hin|[Hin|[]]]]; injection Hin as <- <-; (eapply on_path; eassumption).
Qed.

(** ** Witness *)

Definition well_machine : Machine :=
  {| mc_node := "20.11.1"; mc_node_major := Some 20%Z; mc_node_minor := Some 11%Z; mc_exec := fun _ _ => Some "1.0.0";
     mc_url := fun _ => Some {| pu_hostname := "localhost"; pu_port := "" |}; mc_socket := fun _ _ => [Connected; TimedOut];
     mc_fetch := fun _ => Responded 200 "{}"; mc_syntax := ""; mc_env_file := true |}.

Definition well_config : LoadedConfig :=
  {| lc_envFilePath := Some ".env"; lc_envFileLoaded := true; lc_vars := [];
     lc_env := list_to_map [("DATABASE_URL", "postgres://localhost/syrotp"); ("REDIS_URL", "redis://localhost"); ("SYROTP_BASE_URL", "http://localhost:3000/")] |}.

Lemma doctor_ok_means_ready_witness :
  exists all, runDoctor well_machine well_config None = Some all /\ summary all = "all checks passed (11 ok, 0 skipped)" /\
    Forall (fun r => cr_status r = pass) all.
Proof.
  destruct (runDoctor well_machine well_config None) as [all|] eqn:E; [|vm_compute in E; discriminate].
  assert (Hv : doctor_verdict <$> runDoctor well_machine well_config None = Some OK) by (vm_compute; reflexivity).
  assert (Hs : summary <$> runDoctor well_machine well_config None = Some "all checks passed (11 ok, 0 skipped)") by (vm_compute; reflexivity).
  rewrite E in Hv, Hs. cbn [fmap option_fmap option_map] in Hv, Hs. exists all. split; [reflexivity|]. split; [congruence|].
  exact (proj1 (proj2 (doctor_ok_means_ready well_machine well_config None all E) ltac:(congruence))).
Defined.
