(* ===== verification/Assembled.v ===== *)
(** * A request through the assembled server

    The JSON routes of [app.ts] behind the router and the body parser: an HTTP request
    as a client of the repository sends it, to the handler its route names, to the
    status and the text of the reply.  The pages of the dashboard, the hosted page and
    the metrics are not served here, nor what the framework answers by itself. *)

From stdpp Require Import gmap strings.
From S2P Require Import Prelude JsString Json JsonParse Errors Phone Crypto Ssrf Aead Config Schema Webhooks Verifications Matching RateLimit Server Inbound Wire WebAuthn Routes Sdk App.
From Stdlib Require Import String Ascii.

Open Scope string_scope.
Open Scope js_scope.

(** What one request draws: clocks and identifiers, random values, the rows other
    transactions hold, the client's address, the server's request id and the engine's
    text for a syntax error. *)
Record Exchange : Type := {
  ex_draws : Draws; ex_random : Random; ex_locked : Verification -> bool; ex_challenge_locked : WebauthnChallenge -> bool;
  ex_ip : string; ex_id : string; ex_syntax : string;
}.

(** The process around the handlers. *)
Record Process : Type := {
  ps_version : option string;           (** [npm_package_version] *)
  ps_startedAt : Z; ps_env : ProcessEnv;
  ps_WEBAUTHN_ENABLED : option string; ps_ADMIN_USER : option string; ps_ADMIN_PASSWORD_HASH : option string;
}.

Section Assembled.
Context `{Digest} `{Gcm} `{Redis R} `{Limit1} `{Zod} `{PhoneLib} `{UrlParser} `{Resolver} `{WebAuthnLib} (cfg : Config) (ps : Process).

Definition app_route (x : Exchange) (route : Route) (req : Request) : RM R Reply :=
  handle cfg (ps_env ps) (ps_WEBAUTHN_ENABLED ps) (ex_challenge_locked x) (ex_draws x) (ex_random x) req route.

(** The handlers, under the rows of the route tables. *)
Definition handlers (x : Exchange) : list (RouteRow * (Request -> RM R Reply)) :=
  [(mkRoute GET "/v1/health", fun _ => ret (json_reply 200 (health_reply (ps_version ps) (ps_startedAt ps) (clock (ex_draws x) 0))));
   (mkRoute POST "/v1/verifications", app_route x PostVerifications);
   (mkRoute GET "/v1/verifications/:id", app_route x GetVerification);
   (mkRoute POST "/v1/verifications/:id/cancel", app_route x PostCancel);
   (mkRoute POST "/v1/inbound/sms", inbound_sms cfg (ex_draws x) (fresh (ex_random x)) (ex_locked x));
   (mkRoute POST "/v1/receivers/:id/heartbeat", heartbeat cfg (ex_draws x));
   (mkRoute POST "/v1/webhooks", app_route x PostWebhooks);
   (mkRoute GET "/v1/webhooks", app_route x GetWebhooks);
   (mkRoute GET "/v1/webhooks/:id", app_route x GetWebhook);
   (mkRoute DELETE "/v1/webhooks/:id", app_route x DeleteWebhook);
   (mkRoute POST "/v1/phone-bindings/start", app_route x PostBindingStart);
   (mkRoute GET "/v1/phone-bindings/:id", app_route x GetBinding);
   (mkRoute POST "/v1/phone-bindings/:id/revoke", app_route x PostBindingRevoke);
   (mkRoute POST "/v1/webauthn/register/options", app_route x PostRegisterOptions);
   (mkRoute POST "/v1/webauthn/register/verify", app_route x PostRegisterVerify);
   (mkRoute POST "/v1/webauthn/login/options", app_route x PostLoginOptions);
   (mkRoute POST "/v1/webauthn/login/verify", app_route x PostLoginVerify)].

Definition method_of (m : string) : option Method :=
  if String.eqb m "GET" then Some GET else if String.eqb m "POST" then Some POST else if String.eqb m "DELETE" then Some DELETE else None.

(** The segment the pattern's parameter takes; one that is percent-encoded is not
    modelled. *)
Fixpoint param_of (pattern path : list string) : string :=
  match pattern, path with
  | p :: pattern, s :: path => if is_param p then s else param_of pattern path
  | _, _ => ""
  end.

Definition plain_segment (s : string) : bool := all_chars (fun c => negb (Ascii.eqb c "%"%char)) s.

(** The route of a request and its parameter. *)
Definition route_of (method path : string) : option (RouteRow * string) :=
  m ← method_of method;
  r ← List.find (fun r => matches r m path) (routes cfg (ps_WEBAUTHN_ENABLED ps) (ps_ADMIN_USER ps) (ps_ADMIN_PASSWORD_HASH ps));
  let p := param_of (split_on "/"%char (rt_url r)) (split_on "/"%char path) in
  if plain_segment p then Some (r, p) else None.

Definition handler_of (x : Exchange) (r : RouteRow) : option (Request -> RM R Reply) :=
  snd <$> List.find (fun h => row_eqb (fst h) r) (handlers x).

(** A 204 has no body. *)
Definition answer_text (r : Reply) : string := if (reply_status r =? 204)%Z then "" else reply_text r.

(** The request at [path] below the server's base URL; [None]: not modelled. *)
Definition exchange (x : Exchange) (path : string) (hr : HttpRequest) (s : Server R) : option (FetchResult * Server R) :=
  '(r, p) ← route_of (hr_method hr) path;
  h ← handler_of x r;
  '(reply, s') ← serve (ex_ip x) (ex_id x) p (ex_syntax x) hr h s;
  Some (Responded (reply_status reply) (answer_text reply), s').

(** The server behind [base]. *)
Definition assembled (base : string) (x : Exchange) (hr : HttpRequest) (s : Server R) : option (FetchResult * Server R) :=
  if startsWith (hr_url hr) base then exchange x (slice_from (hr_url hr) (slen base)) hr s else None.
End Assembled.
