(* ===== verification/Guards.v ===== *)
(** * Requests that pass the guards

    How many calls each rate-limit bucket and each nonce has seen, as a list of the
    Redis keys written so far: [spent] bounds what Redis shows by that list, and the
    guards of [Server], [Inbound] and [Auth] let a request through and extend it.  The
    lemmas serve the runs of several requests in a row. *)

From S2P Require Import Prelude JsString Json Errors Phone Crypto Ssrf Aead Config Schema Webhooks PhoneBindings Verifications Matching RateLimit Hmac Server Wire Auth Inbound WebAuthn Receivers Probe Routes.
From Stdlib Require Import String Ascii.

Open Scope string_scope.
Open Scope js_scope.

(** ** The keys used so far *)

Definition hits (k : string) (m : list string) : nat := count_occ String.string_dec m k.

(** At most as many as the keys of a family. *)
Lemma hits_family p k m :
  startsWith k p = true -> (hits k m <= List.length (List.filter (fun x => startsWith x p) m))%nat.
Proof.
  intros Hk. unfold hits. induction m as [|x m IH]; cbn; [lia|]. destruct (String.string_dec x k) as [->|].
  - rewrite Hk. cbn. lia.
  - destruct (startsWith x p); cbn; lia.
Qed.

Section Spent.
Context `{Redis R}.

(** From [t] on, Redis shows no key but those of [m], each with at most its count. *)
Definition spent (r : R) (t : Z) (m : list string) : Prop :=
  forall t' k, (t <= t')%Z ->
    match visible r t' k with
    | None => True
    | Some (v, _) => (1 <= hits k m)%nat /\ (v <= Z.of_nat (hits k m))%Z
    end.

Lemma spent_fresh r t : (forall t' k, visible r t' k = None) -> spent r t [].
Proof. intros He t' k _. by rewrite He. Qed.

Lemma spent_later r t t1 m : spent r t m -> (t <= t1)%Z -> spent r t1 m.
Proof. intros Hs Ht t' k Ht'. apply Hs. lia. Qed.

Lemma hits_cons k x m : hits k (x :: m) = ((if String.eqb k x then 1 else 0) + hits k m)%nat.
Proof.
  unfold hits. cbn. destruct (String.eqb_spec k x) as [->|Hne]; destruct (String.string_dec _ _); done || congruence.
Qed.

Lemma incr_spent b s t t1 m r :
  answers (R := R) -> spent r t m -> (t <= t1)%Z ->
  exists n r', incr_expire_nx b s t1 r = (IncrCount n, r') /\ (n <= Z.of_nat (hits b m) + 1)%Z /\ spent r' t1 (b :: m).
Proof.
  intros Ha Hs Ht. specialize (Ha b s t1 r). destruct Ha as [n Ha], (incr_expire_nx b s t1 r) as [reply r'] eqn:E. cbn in Ha. subst reply. exists n, r'.
  destruct (incr_law _ _ _ _ _ _ E) as [En Hk]. split; [done|].
  assert (Hb := Hs t1 b Ht). assert (Hn : (n <= Z.of_nat (hits b m) + 1)%Z) by (destruct (visible r t1 b) as [[v d]|]; lia).
  split; [exact Hn|]. intros t' k Ht'. rewrite Hk, hits_cons by done. destruct (String.eqb_spec k b) as [->|].
  - cbv zeta. destruct (_ <? _)%Z; [|done]. lia.
  - apply Hs. lia.
Qed.

Lemma set_spent k s t t1 m r :
  spent r t m -> (t <= t1)%Z -> hits k m = 0%nat ->
  exists r', set_nx_ex k s t1 r = (true, r') /\ spent r' t1 (k :: m).
Proof.
  intros Hs Ht Hk. destruct (set_nx_ex k s t1 r) as [b r'] eqn:E. exists r'. destruct (set_law _ _ _ _ _ _ E) as [-> Hv].
  assert (Hn := Hs t1 k Ht). destruct (visible r t1 k) as [[v d]|]; [lia|]. split; [done|].
  intros t' k' Ht'. rewrite Hv, hits_cons by done. cbn [andb]. destruct (String.eqb_spec k' k) as [->|].
  - destruct (_ <? _)%Z; [|done]. lia.
  - apply Hs. lia.
Qed.

(** ** The guards *)

Lemma rate_guard_spent key limit t t1 t2 bucket m (s : Server R) :
  answers (R := R) -> spent (sr s) t m -> (t <= t1)%Z -> (Z.of_nat (hits (bucket_of key 60 t1) m) < limit)%Z ->
  exists r, rate_guard key limit t1 t2 bucket s = (Return tt, mkServer (sw s) r (touches s)) /\ spent r t1 (bucket_of key 60 t1 :: m).
Proof.
  intros Ha Hs Ht Hl. destruct (incr_spent (bucket_of key 60 t1) 60 t t1 m (sr s) Ha Hs Ht) as (n & r & E & Hn & Hs').
  exists r. split; [|exact Hs']. unfold rate_guard, bind, on_redis, rateCheck. rewrite E. cbn [allowed].
  by replace (n <=? limit)%Z with true by (symmetry; apply Z.leb_le; lia).
Qed.

Lemma require_gateway_spent `{Digest} `{Gcm} `{Limit1} cfg now t setAt input rc m (s : Server R) :
  authentic cfg now (db (sw s)) input rc -> spent (sr s) t m -> (t <= setAt)%Z -> hits (nonce_key input) m = 0%nat ->
  exists r, require_gateway cfg now setAt input s = (Return (public_view rc), mkServer (sw s) r (touches s)) /\
    spent r setAt (nonce_key input :: m).
Proof.
  intros Ha Hs Ht Hk. unfold require_gateway, bind, verify_gateway.
  rewrite (verify_authentic cfg now setAt (db (sw s)) input (sr s) rc Ha).
  edestruct (set_spent (nonce_key input)) as (r & E & Hs'); [exact Hs|exact Ht|exact Hk|]. rewrite E. cbn [negb].
  by exists r.
Qed.
End Spent.

(** ** The gateway routes *)

(** The headers of a signed request, as the routes read them. *)
Lemma signed_headers_read ip id param hr raw body receiverId ts nonce sig rest :
  hr_headers hr = ([("X-SYROTP-Receiver", receiverId); ("X-SYROTP-Timestamp", ts); ("X-SYROTP-Nonce", nonce);
                    ("X-SYROTP-Signature", sig)] ++ rest)%list ->
  nonempty receiverId = true -> nonempty ts = true -> nonempty nonce = true -> nonempty sig = true ->
  readGatewayHeaders (to_request ip id param hr raw body)
  = {| gh_receiverId := Some receiverId; gh_timestamp := Some ts; gh_nonce := Some nonce; gh_signature := Some sig |}.
Proof.
  intros E H1 H2 H3 H4. unfold readGatewayHeaders, truthy_header, header, to_request. cbn [rq_headers]. rewrite E.
  cbn [lower_headers List.app map header_in].
  change (toLowerCase "X-SYROTP-Receiver") with "x-syrotp-receiver".
  change (toLowerCase "X-SYROTP-Timestamp") with "x-syrotp-timestamp". change (toLowerCase "X-SYROTP-Nonce") with "x-syrotp-nonce".
  change (toLowerCase "X-SYROTP-Signature") with "x-syrotp-signature".
  cbn [String.eqb Ascii.eqb Bool.eqb]. by rewrite H1, H2, H3, H4.
Qed.

Definition headers_of (input : VerifyHmacInput) : GatewayHeaders :=
  {| gh_receiverId := Some (h_receiverId input); gh_timestamp := Some (h_timestampHeader input);
     gh_nonce := Some (h_nonceHeader input); gh_signature := Some (h_signatureHeader input) |}.

(** Keys of different families are different. *)
Ltac other_families :=
  rewrite !hits_cons;
  repeat match goal with
  | |- context [String.eqb ?a ?b] => destruct (String.eqb_spec a b) as [E|]; [by apply (f_equal (fun s => slice_to s 19)) in E|]
  end.

Section Gateway.
Context `{Digest} `{Gcm} `{Redis R} `{Limit1} `{Zod} `{PhoneLib} (cfg : Config) (redis_answers : answers (R := R)).
Context (d : Draws) (forward : forall i, (clock d i <= clock d (S i))%Z) (req : Request) (input : VerifyHmacInput) (rc : Receiver).

(** A request signed for a stored receiver, when the nonce is new. *)
Context (form : matches_prefixed "rcv_" is_alnum (r_id rc) = true) (named : h_receiverId input = r_id rc)
  (headers : readGatewayHeaders req = headers_of input) (bytes : rq_rawBody req = Some (h_rawBody input)).

Definition ip_bucket : string := bucket_of ("inbound:ip:" ++ rq_ip req) 60 (clock d 0).
Definition rcv_bucket : string := bucket_of ("inbound:rcv:" ++ r_id rc) 60 (clock d 4).
Definition app_bucket : string := bucket_of ("inbound:app:" ++ r_appId rc) 60 (clock d 6).
Definition beat_bucket : string := bucket_of ("heartbeat:rcv:" ++ r_id rc) 60 (clock d 4).

(** The keys a message writes, the last first. *)
Definition sms_keys : list string := [app_bucket; rcv_bucket; nonce_key input; ip_bucket].
Definition beat_keys : list string := [beat_bucket; nonce_key input; ip_bucket].

Lemma clock_mono i j : (i <= j)%nat -> (clock d i <= clock d j)%Z.
Proof. induction 1 as [|j _ IH]; [lia|]. specialize (forward j). lia. Qed.

(** Through the per-IP bucket and the signature, into what the route does next. *)
Lemma gateway_passes bucket t m (s : Server R) :
  authentic cfg (clock d 2) (db (sw s)) input rc -> spent (sr s) t m -> (t <= clock d 0)%Z ->
  (Z.of_nat (hits ip_bucket m) < RATE_LIMIT_INBOUND_PER_IP_PER_MIN cfg)%Z -> hits (nonce_key input) m = 0%nat ->
  exists r, spent r (clock d 3) (nonce_key input :: ip_bucket :: m) /\
    forall k : GatewayReceiver -> RM R Reply,
    bind (rate_guard ("inbound:ip:" ++ rq_ip req) (RATE_LIMIT_INBOUND_PER_IP_PER_MIN cfg) (clock d 0) (clock d 1) bucket)
      (fun _ => bind (require_gateway cfg (clock d 2) (clock d 3) input) k) s
    = k (public_view rc) (mkServer (sw s) r (touches s)).
Proof.
  intros Ha Hs Ht Hip Hn.
  destruct (rate_guard_spent ("inbound:ip:" ++ rq_ip req) _ t (clock d 0) (clock d 1) bucket m s redis_answers Hs Ht Hip) as (r1 & E1 & Hs1).
  destruct (require_gateway_spent cfg (clock d 2) (clock d 0) (clock d 3) input rc (ip_bucket :: m) (mkServer (sw s) r1 (touches s)) Ha Hs1)
    as (r2 & E2 & Hs2); [apply clock_mono; lia| |].
  2: { exists r2. split; [exact Hs2|]. intros k. unfold bind. by rewrite E1, E2. }
  other_families. by rewrite Hn.
Qed.

(** A heartbeat: its row has a heartbeat that is recent enough. *)
Lemma record_heartbeat_rows now w :
  respects receivers_idx (receivers (db w)) -> In rc (receivers (db w)) -> (0 <= RECEIVER_HEARTBEAT_TIMEOUT_SECONDS cfg)%Z ->
  exists w' hb, record_heartbeat cfg now (r_id rc) w = (Return tt, w') /\
    db w' = set_rows t_receivers (update_where (fun x => String.eqb (r_id x) (r_id rc)) (set_heartbeat hb) (receivers (db w))) (db w) /\
    (now - hb <= RECEIVER_HEARTBEAT_TIMEOUT_SECONDS cfg / 4 * 1000)%Z.
Proof.
  intros Hr Hin Ht. unfold record_heartbeat. rewrite bind_select_one. cbn [rows t_receivers].
  rewrite (receiver_by_id (db w) (r_id rc) rc Hr Hin eq_refl). cbn [mbind option_bind].
  destruct (match r_lastHeartbeatAt rc with Some _ => _ | None => _ end) eqn:Ef.
  - rewrite bind_update. eexists _, now. split; [reflexivity|]. split; [reflexivity|]. Z.to_euclidean_division_equations. lia.
  - destruct (r_lastHeartbeatAt rc) as [hb|] eqn:Eh; [|discriminate]. eexists _, hb. split; [reflexivity|]. apply Z.ltb_ge in Ef. split; [|lia].
    cbn [db count modify]. rewrite <- (set_rows_rows t_receivers (db w)) at 1. cbn [rows t_receivers]. f_equal. unfold update_where.
    rewrite <- (map_id (receivers (db w))) at 1. apply map_ext_in. intros x Hx.
    destruct (String.eqb_spec (r_id x) (r_id rc)) as [E|]; [|done].
    assert (x = rc) as -> by (by eapply (pkey_inj _ r_id)). destruct rc. cbn in Eh |- *. by subst.
Qed.

Lemma heartbeat_passes t m (s : Server R) :
  rq_param_id req = r_id rc -> heartbeatBody (rq_body req) = true ->
  respects receivers_idx (receivers (db (sw s))) -> In rc (receivers (db (sw s))) -> (0 <= RECEIVER_HEARTBEAT_TIMEOUT_SECONDS cfg)%Z ->
  authentic cfg (clock d 2) (db (sw s)) input rc -> spent (sr s) t m -> (t <= clock d 0)%Z ->
  (Z.of_nat (hits ip_bucket m) < RATE_LIMIT_INBOUND_PER_IP_PER_MIN cfg)%Z -> hits (nonce_key input) m = 0%nat ->
  (Z.of_nat (hits beat_bucket m) < RATE_LIMIT_HEARTBEAT_PER_RECEIVER_PER_MIN cfg)%Z ->
  exists w' r hb,
    heartbeat cfg d req s
    = (Return (json_reply 200 (JObj [("ok", JBool true); ("server_time", JStr (toISOString (clock d 6)));
                 ("next_heartbeat_seconds", JNum (RECEIVER_HEARTBEAT_TIMEOUT_SECONDS cfg / 2))])), mkServer w' r (touches s)) /\
    db w' = set_rows t_receivers (update_where (fun x => String.eqb (r_id x) (r_id rc)) (set_heartbeat hb) (receivers (db (sw s)))) (db (sw s)) /\
    (clock d 6 - hb <= RECEIVER_HEARTBEAT_TIMEOUT_SECONDS cfg / 4 * 1000)%Z /\ spent r (clock d 4) (beat_keys ++ m)%list.
Proof.
  intros Hp Hb Hr Hin Hto Ha Hs Ht Hip Hn Hbeat. unfold heartbeat. rewrite bind_throw_if, Hp.
  change (RECEIVER_ID_RE (r_id rc)) with (matches_prefixed "rcv_" is_alnum (r_id rc)). rewrite form. cbn [negb].
  rewrite headers, bytes. cbn [gh_timestamp gh_nonce gh_signature headers_of].
  replace {| h_receiverId := r_id rc; h_timestampHeader := _; h_nonceHeader := _; h_signatureHeader := _; h_rawBody := _ |} with input
    by (rewrite <- named; by destruct input).
  destruct (gateway_passes "heartbeat_per_ip" t m s Ha Hs Ht Hip Hn) as (r1 & Hs1 & ->). cbn [gr_id public_view].
  unfold bind at 1.
  edestruct (rate_guard_spent ("heartbeat:rcv:" ++ r_id rc) (RATE_LIMIT_HEARTBEAT_PER_RECEIVER_PER_MIN cfg) (clock d 3) (clock d 4) (clock d 5)
    "heartbeat_per_receiver" _ (mkServer (sw s) r1 (touches s)) redis_answers Hs1) as (r2 & -> & Hs2); [apply clock_mono; lia| |].
  { fold beat_bucket. other_families. lia. }
  rewrite bind_throw_if, Hb. cbn [negb]. unfold bind, on_world. cbn [sw sr touches].
  destruct (record_heartbeat_rows (clock d 6) (sw s) Hr Hin Hto) as (w' & hb & -> & Edb & Hhb).
  exists w', r2, hb. split; [reflexivity|]. split; [exact Edb|]. split; [exact Hhb|exact Hs2].
Qed.

(** A message: its outcome is the matcher's, and reaches the reply. *)
Lemma inbound_passes fr skip_locked t m (s : Server R) body outcome w1 :
  inboundBody (rq_body req) = Some body ->
  processInbound cfg fr (ulid d INBOUND_PREFIX) skip_locked (clock d 8) (db_now d) (sms_of (public_view rc) body) (sw s) = (Return outcome, w1) ->
  authentic cfg (clock d 2) (db (sw s)) input rc -> spent (sr s) t m -> (t <= clock d 0)%Z ->
  (Z.of_nat (hits ip_bucket m) < RATE_LIMIT_INBOUND_PER_IP_PER_MIN cfg)%Z -> hits (nonce_key input) m = 0%nat ->
  (Z.of_nat (hits rcv_bucket m) < RATE_LIMIT_INBOUND_PER_RECEIVER_PER_MIN cfg)%Z ->
  (Z.of_nat (hits app_bucket m) < RATE_LIMIT_INBOUND_PER_APP_PER_MIN cfg)%Z ->
  exists w' r l, inbound_sms cfg d fr skip_locked req s = (Return (inbound_reply outcome), mkServer w' r (touches s)) /\
    db w' = set_rows t_auditLog l (db w1) /\ spent r (clock d 6) (sms_keys ++ m)%list.
Proof.
  intros Hb Hrun Ha Hs Ht Hip Hn Hrcv Happ. unfold inbound_sms. rewrite headers. cbn [gh_receiverId gh_timestamp gh_nonce gh_signature headers_of].
  rewrite bind_throw_if, named. change (RECEIVER_ID_RE (r_id rc)) with (matches_prefixed "rcv_" is_alnum (r_id rc)). rewrite form. cbn [negb].
  rewrite bytes. replace {| h_receiverId := r_id rc; h_timestampHeader := _; h_nonceHeader := _; h_signatureHeader := _; h_rawBody := _ |} with input
    by (rewrite <- named; by destruct input).
  destruct (gateway_passes "inbound_per_ip" t m s Ha Hs Ht Hip Hn) as (r1 & Hs1 & ->). unfold inbound_verified. cbn [gr_id gr_appId public_view].
  destruct (rate_guard_spent ("inbound:rcv:" ++ r_id rc) (RATE_LIMIT_INBOUND_PER_RECEIVER_PER_MIN cfg) (clock d 3) (clock d 4) (clock d 5)
    "inbound" _ (mkServer (sw s) r1 (touches s)) redis_answers Hs1) as (r2 & E2 & Hs2); [apply clock_mono; lia| |].
  { fold rcv_bucket. other_families. lia. }
  destruct (rate_guard_spent ("inbound:app:" ++ r_appId rc) (RATE_LIMIT_INBOUND_PER_APP_PER_MIN cfg) (clock d 4) (clock d 6) (clock d 7)
    "inbound_sms_per_app" _ (mkServer (sw s) r2 (touches s)) redis_answers Hs2) as (r3 & E3 & Hs3); [apply clock_mono; lia| |].
  { fold app_bucket rcv_bucket. other_families. lia. }
  unfold bind at 1. rewrite E2. cbn [sw sr touches]. unfold bind at 1. rewrite E3. cbn [sw sr touches]. rewrite Hb.
  unfold bind at 1, on_world at 1. cbn [sw sr touches]. unfold sms_of in Hrun. cbn [gr_id gr_msisdn public_view] in *. rewrite Hrun.
  destruct (report_inbound_eq d req (public_view rc) outcome (mkServer w1 r3 (touches s))) as (w' & l & -> & El).
  exists w', r3, l. split; [reflexivity|]. split; [exact El|exact Hs3].
Qed.
End Gateway.

(** ** The application routes *)

Lemma bearer_read ip id param hr raw body key rest :
  hr_headers hr = ("Authorization", "Bearer " ++ key) :: rest -> nonempty key = true -> all_chars (fun c => negb (is_ws c)) key = true ->
  extractBearer (to_request ip id param hr raw body) = Some key.
Proof.
  intros E Hne Hws. unfold extractBearer, truthy_header, header, to_request. cbn [rq_headers]. rewrite E. cbn [lower_headers map header_in].
  change (toLowerCase "Authorization") with "authorization". rewrite String.eqb_refl.
  change (nonempty ("Bearer " ++ key)) with true. cbn beta iota.
  rewrite (startsWith_app "Bearer " key), (slice_from_app "Bearer " key : slice_from _ 7 = _), trim_fixed by done.
  by destruct key.
Qed.

Section Application.
Context `{Digest} `{Gcm} `{Redis R} `{Limit1} `{Zod} `{PhoneLib} `{UrlParser} `{Resolver} `{WebAuthnLib} (cfg : Config)
  (redis_answers : answers (R := R)) (env : ProcessEnv) (WEBAUTHN_ENABLED : option string) (challenge_locked : WebauthnChallenge -> bool).
Context (d : Draws) (forward : forall i, (clock d i <= clock d (S i))%Z) (rd : Random) (req : Request) (token : string) (k : ApiKey).
Context (bears : extractBearer req = Some token).

Let run (route : Route) : RM R Reply := handle cfg env WEBAUTHN_ENABLED challenge_locked d rd req route.

(** The state of the tables of keys in which [token] is [k]'s. *)
Definition knows (D : DB) : Prop :=
  respects apiKeys_idx (apiKeys D) /\ respects apps_idx (apps D) /\ live_key cfg token D k.

Lemma key_passes allowed (s : Server R) :
  knows (db (sw s)) -> In (k_kind k) allowed ->
  requireKey cfg req allowed s = (Return (authed k), mkServer (sw s) (sr s) (touches s ++ [k_id k])).
Proof. intros (Hk & Ha & Hl) Hin. by apply (require_live cfg req allowed token). Qed.

Definition bind_bucket : string := bucket_of ("phone_binding_start:app:" ++ k_appId k) 60 (clock d 0).
Definition start_ip_bucket : string := bucket_of ("start:ip:" ++ rq_ip req) 60 (clock d 0).
Definition start_app_bucket : string := bucket_of ("start:app:" ++ k_appId k) 60 (clock d 2).
Definition status_bucket : string := bucket_of ("status:ip:" ++ rq_ip req) 60 (clock d 0).

(** The reply of a start of the ceremony. *)
Definition binding_reply (result : StartBindingResult) : Reply :=
  let b := binding result in
  json_reply 201 (JObj [("binding_id", JStr (pb_id b)); ("phone_e164", JStr (pb_phone_e164 b)); ("receiver_id", JStr (pb_receiver_id b));
    ("status", JStr (PhoneBindings.pb_status b)); ("expires_at", JStr (pb_expires_at b)); ("send_to", JStr (sb_send_to result));
    ("bind_message", JStr (bind_message result))]).

Lemma binding_start_passes t m (s : Server R) phone receiver_id o w1 :
  knows (db (sw s)) -> k_kind k = secret -> bindingBody (rq_body req) = Some (phone, receiver_id) ->
  startBinding cfg (ulid d PHONE_BINDING_PREFIX) (nonce_bytes rd) (clock d 2) (db_now d)
    {| sb_appId := k_appId k; sb_receiverId := receiver_id; sb_phone := phone |} (sw s) = (o, w1) ->
  spent (sr s) t m -> (t <= clock d 0)%Z -> (Z.of_nat (hits bind_bucket m) < RATE_LIMIT_BINDINGS_PER_APP_PER_MIN cfg)%Z ->
  exists r w' l,
    run PostBindingStart s = (match o with Return result => Return (binding_reply result) | Throw e => Throw e end, mkServer w' r (touches s ++ [k_id k])) /\
    db w' = match o with Return _ => set_rows t_auditLog l (db w1) | Throw _ => db w1 end /\ spent r (clock d 0) (bind_bucket :: m).
Proof.
  intros Hk Hkind Hb Hrun Hs Ht Hl. unfold run, handle, post_binding_start. unfold bind at 1.
  rewrite (key_passes [secret] s Hk) by (left; done). cbn [authed ak_appId].
  edestruct (rate_guard_spent ("phone_binding_start:app:" ++ k_appId k) _ t (clock d 0) (clock d 1) "phone_binding_start_per_app" m
    (mkServer (sw s) (sr s) (touches s ++ [k_id k])) redis_answers Hs Ht Hl) as (r & E & Hs').
  unfold bind at 1. rewrite E. cbn [sw sr touches]. rewrite Hb. unfold bind at 1, on_world at 1. cbn [sw sr touches]. rewrite Hrun.
  destruct o as [result|e].
  - unfold bind, on_world. cbn [sw sr touches]. edestruct audit_db as [l ->]. eexists r, _, l. split; [reflexivity|]. by split.
  - eexists r, _, []. split; [reflexivity|]. by split.
Qed.

Lemma start_passes t m (s : Server R) body phone v w1 :
  knows (db (sw s)) -> In (k_kind k) [public; secret] -> startBody (rq_body req) = Some body ->
  validatePurpose (st_purpose body) = Return tt -> normalizePhone (st_phone body) (DEFAULT_PHONE_REGION cfg) = Return phone ->
  startVerification cfg (ulid d VERIFICATION_PREFIX) (code_draws rd) (clock d 4) (db_now d)
    {| sv_appId := k_appId k; sv_phoneE164 := e164 phone; sv_purpose := st_purpose body; sv_clientRef := st_client_ref body;
       sv_locale := st_locale body; sv_ip := Some (rq_ip req); sv_preferredOperator := st_operator body |} (sw s) = (Return v, w1) ->
  spent (sr s) t m -> (t <= clock d 0)%Z -> (Z.of_nat (hits start_ip_bucket m) < RATE_LIMIT_START_PER_IP_PER_MIN cfg)%Z ->
  (Z.of_nat (hits start_app_bucket m) < RATE_LIMIT_VERIFICATIONS_PER_APP_PER_MIN cfg)%Z ->
  exists r w' l,
    run PostVerifications s = (Return (json_reply 201 (verification_json v)), mkServer w' r (touches s ++ [k_id k])) /\
    db w' = set_rows t_auditLog l (db w1) /\ spent r (clock d 2) (start_app_bucket :: start_ip_bucket :: m).
Proof.
  intros Hk Hkind Hb Hp Hn Hrun Hs Ht Hl1 Hl2. unfold run, handle, post_verifications. unfold bind at 1.
  rewrite (key_passes [public; secret] s Hk Hkind). cbn [authed ak_appId].
  destruct (rate_guard_spent ("start:ip:" ++ rq_ip req) _ t (clock d 0) (clock d 1) "start" m
    (mkServer (sw s) (sr s) (touches s ++ [k_id k])) redis_answers Hs Ht Hl1) as (r1 & E1 & Hs1).
  destruct (rate_guard_spent ("start:app:" ++ k_appId k) (RATE_LIMIT_VERIFICATIONS_PER_APP_PER_MIN cfg) _ (clock d 2) (clock d 3)
    "verification_start_per_app" _ (mkServer (sw s) r1 (touches s ++ [k_id k])) redis_answers Hs1) as (r2 & E2 & Hs2).
  { etransitivity; [apply forward|]. apply forward. }
  { fold start_app_bucket start_ip_bucket. other_families. lia. }
  unfold bind at 1. rewrite E1. cbn [sw sr touches]. unfold bind at 1. rewrite E2. cbn [sw sr touches]. rewrite Hb.
  unfold bind at 1, lift_outcome at 1. rewrite Hp. unfold bind at 1, lift_outcome at 1, phone_of. rewrite Hn.
  unfold bind at 1, on_world at 1. cbn [sw sr touches]. rewrite Hrun.
  unfold bind at 1, on_world at 1. cbn [count modify sw sr touches]. unfold bind at 1, on_world at 1. cbn [sw sr touches].
  edestruct audit_db as [l ->]. eexists r2, _, l. split; [reflexivity|]. by split.
Qed.

Lemma status_passes t m (s : Server R) v w1 :
  knows (db (sw s)) -> k_kind k = secret -> prefixed_id "vrf" (rq_param_id req) = true ->
  getVerification (clock d 2) (k_appId k) (rq_param_id req) secret (sw s) = (Return v, w1) ->
  spent (sr s) t m -> (t <= clock d 0)%Z -> (Z.of_nat (hits status_bucket m) < RATE_LIMIT_STATUS_PER_IP_PER_MIN cfg)%Z ->
  exists r, run GetVerification s = (Return (json_reply 200 (verification_json v)), mkServer w1 r (touches s ++ [k_id k])) /\
    spent r (clock d 0) (status_bucket :: m).
Proof.
  intros Hk Hkind Hp Hrun Hs Ht Hl. unfold run, handle, get_verification. unfold bind at 1.
  rewrite (key_passes [public; secret] s Hk) by (rewrite Hkind; right; by left). cbn [authed ak_appId ak_kind].
  destruct (rate_guard_spent ("status:ip:" ++ rq_ip req) _ t (clock d 0) (clock d 1) "status" m
    (mkServer (sw s) (sr s) (touches s ++ [k_id k])) redis_answers Hs Ht Hl) as (r & E & Hs').
  unfold bind at 1. rewrite E. rewrite bind_throw_if, Hp, Hkind. cbn [negb sw sr touches].
  unfold bind at 1, on_world at 1. cbn [sw sr touches]. change (kind_eqb secret secret) with true. cbn iota. rewrite Hrun.
  exists r. by split.
Qed.
End Application.
