(* ===== verification/Journey.v ===== *)
(** * One user's journey through the services

    The steps of a phone's first verification as functions of the database: the BIND
    message claims the binding, the start succeeds at its first attempt on the only
    receiver of the app, the VERIFY message claims the row, the read shows it.  Each
    lemma runs one service forward from a database of which it says what it needs. *)

From S2P Require Import Prelude JsString Json Errors Phone Crypto Config Schema SmsBody Webhooks PhoneBindings Verifications Matching.
From Stdlib Require Import String Ascii.

Open Scope string_scope.
Open Scope js_scope.

Section Journey.
Context `{PhoneLib} `{Limit1} (cfg : Config).

(** ** The binding *)

Lemma receiver_of_app_found appId id t r :
  respects receivers_idx t -> In r t -> receiver_of_app appId id r = true -> limit1 (select (receiver_of_app appId id) t) = Some r.
Proof.
  intros Hr Hin Hof. destruct (limit1 _) as [r'|] eqn:Er.
  - apply limit1_In, select_In in Er. destruct Er as [Hin' Hof']. f_equal. eapply (pkey_inj _ r_id); eauto. unfold receiver_of_app in *.
    destruct_and_ex. reflect_eqb. congruence.
  - apply limit1_None in Er. rewrite select_nil_iff in Er. by rewrite (Er r Hin) in Hof.
Qed.

Lemma startBinding_bound ulid bytes now dbNow input w n r b :
  normalizePhone (sb_phone input) (DEFAULT_PHONE_REGION cfg) = Return n ->
  respects receivers_idx (receivers (db w)) -> In r (receivers (db w)) -> receiver_of_app (sb_appId input) (sb_receiverId input) r = true ->
  r_enabled r = true -> In b (phoneBindings (db w)) -> verified_binding (sb_appId input) (e164 n) b = true ->
  startBinding cfg ulid bytes now dbNow input w
  = (Throw (conflict "already_bound" "phone is already verified-bound; revoke the existing binding first"), w).
Proof.
  intros Hn Hr Hin Hof Hen Hb Hv. unfold startBinding. unfold bind at 1. rewrite Hn. autorewrite with js. cbn [rows t_receivers].
  rewrite (receiver_of_app_found _ _ _ r Hr Hin Hof).
  rewrite Hen. cbn [negb]. autorewrite with js. cbn [rows t_phoneBindings].
  destruct (limit1 (select (verified_binding _ _) _)) as [b'|] eqn:Eb.
  - by rewrite bool_decide_true by eauto.
  - apply limit1_None in Eb. rewrite select_nil_iff in Eb. by rewrite (Eb b Hb) in Hv.
Qed.

Lemma startBinding_new ulid bytes now dbNow input w n r :
  normalizePhone (sb_phone input) (DEFAULT_PHONE_REGION cfg) = Return n ->
  respects receivers_idx (receivers (db w)) -> In r (receivers (db w)) -> receiver_of_app (sb_appId input) (sb_receiverId input) r = true ->
  r_enabled r = true -> (forall b, In b (phoneBindings (db w)) -> verified_binding (sb_appId input) (e164 n) b = false) ->
  ~ In (newId PHONE_BINDING_PREFIX ulid) (map b_id (phoneBindings (db w))) ->
  let row := PhoneBindings.started_row cfg ulid bytes now dbNow input (e164 n) in
  exists res, startBinding cfg ulid bytes now dbNow input w
              = (Return res, set_db (set_rows t_phoneBindings (phoneBindings (db w) ++ [row])%list) w) /\
    bind_message res = "BIND " ++ generateNonce bytes.
Proof.
  intros Hn Hr Hin Hof Hen Hno Hid row.
  assert (Hb : broken_by phoneBindings_idx row (phoneBindings (db w)) = None).
  { apply broken_by_None. constructor; [by apply clashes_pkey|]. constructor; [|constructor].
    apply clashes_false. intros x _. cbn. by rewrite andb_false_r. }
  unfold startBinding. unfold bind at 1. rewrite Hn. autorewrite with js. cbn [rows t_receivers].
  rewrite (receiver_of_app_found _ _ _ r Hr Hin Hof).
  rewrite Hen. cbn [negb]. autorewrite with js. cbn [rows t_phoneBindings].
  rewrite (proj2 (select_nil_iff (verified_binding _ _) _) Hno), limit1_nil, bool_decide_false by (by intros [? ?]).
  autorewrite with js. unfold bind at 1. rewrite insert_eq. cbn [rows t_phoneBindings]. fold row in Hb.
  unfold PhoneBindings.started_row in row. subst row. rewrite Hb. eexists. split; [reflexivity|]. reflexivity.
Qed.

(** The BIND message, sent from the phone to the receiver in time. *)
Lemma bind_sms_claims fr ulid skip_locked serverNow dbNow sms w t row :
  let inboundId := newId INBOUND_PREFIX ulid in
  phoneBindings (db w) = (t ++ [row])%list -> respects phoneBindings_idx t ->
  (forall x, In x t -> b_nonce x <> b_nonce row) -> (forall x, In x t -> verified_binding (b_appId row) (b_phoneE164 row) x = false) ->
  ~ In (b_id row) (map b_id t) -> b_status row = "pending" -> (serverNow < b_expiresAt row)%Z ->
  token 8 64 (b_nonce row) -> mi_body sms = "BIND " ++ b_nonce row ->
  mi_receiverId sms = b_receiverId row -> sender cfg (mi_from sms) = b_phoneE164 row ->
  broken_by inboundSms_idx (inbound_row inboundId (sender cfg (mi_from sms)) dbNow sms) (inboundSms (db w)) = None ->
  exists w', processInbound cfg fr ulid skip_locked serverNow dbNow sms w = (Return (MatchedBinding (b_id row) inboundId), w') /\
    db w' = set_rows t_inboundSms
              (update_where (fun r => String.eqb (i_id r) inboundId) (set_matched (Some (b_id row)))
                 (inboundSms (db w) ++ [inbound_row inboundId (sender cfg (mi_from sms)) dbNow sms])%list)
              (set_rows t_phoneBindings (t ++ [set_bound serverNow row])%list (db w)).
Proof.
  intros inboundId Et Ht Hnonce Hver Hid Hst Hexp Htok Hbody Hrcv Hfrom Hbr.
  assert (En : extractBindNonce (mi_body sms) = Some (b_nonce row)).
  { rewrite extractBindNonce_eq, Hbody. by apply (parse_command_canonical "BIND" 8 64). }
  rewrite (processInbound_new cfg fr ulid skip_locked serverNow dbNow sms w Hbr). rewrite En. unfold match_stored. fold inboundId.
  set (w1 := stored_world _ w).
  unfold bind at 1. rewrite (consume_last serverNow _ w1 t row).
  - unfold link_inbound. rewrite bind_update. eexists. split; [reflexivity|]. reflexivity.
  - exact Et.
  - exact Ht.
  - intros x Hx. unfold claimable. cbn [cb_nonce]. specialize (Hnonce x Hx). by destruct (String.eqb_spec (b_nonce x) (b_nonce row)).
  - unfold claimable. cbn [cb_nonce cb_receiverId cb_fromE164]. rewrite Hst, Hrcv, Hfrom, !String.eqb_refl. cbn. by apply Z.ltb_lt.
  - exact Hid.
  - exact Hver.
Qed.

(** ** The verification *)

Lemma pick_only dbNow D appId r :
  In r (receivers D) -> healthy cfg dbNow appId None r = true -> (forall x, In x (receivers D) -> r_appId x = appId -> x = r) ->
  pickReceiver cfg dbNow D appId None = Some (picked none r).
Proof.
  intros Hin Hh Honly. unfold pickReceiver. cbn [wants]. destruct (runHealthyReceiverQuery cfg dbNow D appId None) as [x|] eqn:E.
  - apply healthy_query_Some in E. destruct E as (Hx & Hhx & _). apply healthy_iff in Hhx. by rewrite (Honly x Hx) by apply Hhx.
  - by rewrite (healthy_query_None _ _ _ _ _ E r Hin) in Hh.
Qed.

(** Nothing pending for the phone: the first code is free. *)
Lemma startVerification_first ulid draws now dbNow input w b r :
  config_valid cfg = true -> sv_preferredOperator input = None ->
  In b (phoneBindings (db w)) -> verified_binding (sv_appId input) (sv_phoneE164 input) b = true ->
  In r (receivers (db w)) -> healthy cfg dbNow (sv_appId input) None r = true ->
  (forall x, In x (receivers (db w)) -> r_appId x = sv_appId input -> x = r) ->
  (forall v, In v (verifications (db w)) -> is_pending v = true -> v_phoneE164 v <> sv_phoneE164 input) ->
  ~ In (newId VERIFICATION_PREFIX ulid) (map v_id (verifications (db w))) ->
  let row := new_row (newId VERIFICATION_PREFIX ulid) (now + VERIFICATION_TTL_SECONDS cfg * 1000) dbNow input (picked none r) (code_of cfg draws 0) in
  broken_by verifications_idx row (verifications (db w)) = None /\
  exists res w', startVerification cfg ulid draws now dbNow input w = (Return res, w') /\
    db w' = set_rows t_verifications (verifications (db w) ++ [row])%list (db w) /\
    pv_id res = v_id row /\ pv_send_to res = Some (r_msisdn r) /\ pv_message res = Some ("VERIFY " ++ v_code row) /\ pv_attempts res = 0%Z.
Proof.
  intros Hc Hop Hb Hv Hin Hh Honly Hpend Hid row.
  assert (Hbr : broken_by verifications_idx row (verifications (db w)) = None).
  { apply broken_by_None. constructor; [by apply clashes_pkey|]. constructor; [|constructor]. apply clashes_false. intros x Hx. cbn.
    destruct (status_eqb (v_status x) pending) eqn:E; [|done]. specialize (Hpend x Hx E).
    destruct (String.eqb_spec (v_phoneE164 x) (sv_phoneE164 input)); [done|]. by rewrite !andb_false_r. }
  split; [exact Hbr|]. unfold startVerification. autorewrite with js. cbn [rows t_phoneBindings].
  destruct (limit1 _) as [b'|] eqn:Eb; [|apply limit1_None in Eb; rewrite select_nil_iff in Eb; by rewrite (Eb b Hb) in Hv].
  rewrite bool_decide_true by eauto. cbn [negb]. autorewrite with js. unfold bind at 1, runWithCodeCollisionRetry, MAX_CODE_COLLISION_RETRIES. cbn [retry_loop].
  unfold bind at 1. rewrite generateCode_code_of by done. unfold try_catch.
  destruct (start_tx_cases cfg (newId VERIFICATION_PREFIX ulid) (now + VERIFICATION_TTL_SECONDS cfg * 1000) dbNow input (code_of cfg draws 0) w)
    as [[Hf _]|[(_ & Hp & _)|(p & _ & Hp & E)]].
  - exfalso. apply config_valid_bounds in Hc. apply Z.leb_le in Hf.
    assert (pending_rows input (db w) = []) as Ep; [|rewrite Ep in Hf; cbn in Hf; lia].
    apply select_nil_iff. intros x Hx. unfold pending_for. destruct (is_pending x) eqn:E; [|by rewrite andb_false_r].
    specialize (Hpend x Hx E). destruct (String.eqb_spec (v_phoneE164 x) (sv_phoneE164 input)); [done|]. by rewrite andb_false_r.
  - rewrite Hop, (pick_only dbNow (db w) _ r Hin Hh Honly) in Hp. discriminate.
  - rewrite Hop, (pick_only dbNow (db w) _ r Hin Hh Honly) in Hp. injection Hp as <-. fold row in E. rewrite Hbr in E. rewrite E.
    autorewrite with js. eexists _, _. split; [reflexivity|]. by repeat split.
Qed.

(** The VERIFY message, sent from the phone to the receiver in time. *)
Lemma verify_sms_claims fr ulid skip_locked serverNow dbNow sms w v :
  let inboundId := newId INBOUND_PREFIX ulid in
  respects verifications_idx (verifications (db w)) -> In v (verifications (db w)) -> is_pending v = true -> (serverNow < v_expiresAt v)%Z ->
  token 4 32 (v_code v) -> mi_body sms = "VERIFY " ++ v_code v ->
  mi_receiverId sms = v_receiverId v -> sender cfg (mi_from sms) = v_phoneE164 v -> skip_locked v = false -> fresh_for fr (db w) ->
  broken_by inboundSms_idx (inbound_row inboundId (sender cfg (mi_from sms)) dbNow sms) (inboundSms (db w)) = None ->
  exists w', processInbound cfg fr ulid skip_locked serverNow dbNow sms w = (Return (Matched (v_id v) inboundId), w') /\
    verifications (db w')
    = update_where (fun x => String.eqb (v_id x) (v_id v)) (set_verified serverNow inboundId) (verifications (db w)) /\
    apiKeys (db w') = apiKeys (db w) /\ apps (db w') = apps (db w).
Proof.
  intros inboundId Hidx Hin Hp Hexp Htok Hbody Hrcv Hfrom Hlock Hfresh Hbr.
  assert (Hcode : extractCode (mi_body sms) "VERIFY" = Some (v_code v)).
  { rewrite extractCode_eq, Hbody. by apply (parse_command_canonical "VERIFY" 4 32). }
  assert (Hbind : extractBindNonce (mi_body sms) = None).
  { apply (grammars_disjoint (mi_body sms)). by rewrite Hcode. }
  rewrite (processInbound_new cfg fr ulid skip_locked serverNow dbNow sms w Hbr), Hbind, Hcode. unfold match_stored. unfold bind at 1. fold inboundId.
  rewrite (claim_eligible _ _ _ _ _ _ _ (stored_world _ w) v Hidx Hin); [|
    unfold eligible; rewrite Hrcv, Hfrom, Hp, !String.eqb_refl; cbn; by apply Z.ltb_lt | done | done].
  eexists. split; [reflexivity|]. by repeat split.
Qed.

(** The read of a verified row. *)
Lemma read_verified now appId kind w v :
  respects verifications_idx (verifications (db w)) -> In v (verifications (db w)) -> v_appId v = appId -> v_status v = verified ->
  exists pv, getVerification now appId (v_id v) kind w = (Return pv, w) /\ pv_id pv = v_id v /\ pv_status pv = verified /\ pv_attempts pv = v_attempts v.
Proof.
  intros Hidx Hin Happ Hst. unfold getVerification. autorewrite with js. cbn [rows t_verifications].
  destruct (limit1 _) as [x|] eqn:E.
  2: { apply limit1_None in E. rewrite select_nil_iff in E. specialize (E v Hin). unfold verification_is in E. by rewrite Happ, !String.eqb_refl in E. }
  apply limit1_In, select_In in E. destruct E as [Hx Ex]. apply verification_is_iff in Ex.
  assert (x = v) as -> by (eapply (pkey_inj _ v_id); eauto; apply Ex).
  unfold expire_if_due, effective_status, is_pending. rewrite Hst. cbn [status_eqb andb]. autorewrite with js.
  eexists. split; [reflexivity|]. by repeat split.
Qed.
End Journey.
