(* ===== verification/Smoke.v ===== *)
(** * The smoke test: [scripts/smoke.mjs]

    The script as a client of a server that enters as a function of the request and of
    a state: its checks, the requests it builds and signs, its exit codes.  What it
    prints, apart from the line of a failure, and how long it takes are not modelled.
    [smoke_sound] says what a run that exits with 0 has seen, whatever the server does;
    that it does exit with 0 against the server of this development is in [SmokeRun]. *)

From stdpp Require Import gmap strings.
From S2P Require Import Prelude JsString Json JsonParse Errors Crypto Server Client Wire Probe Sdk.
From Stdlib Require Import String Ascii.

Open Scope string_scope.
Open Scope js_scope.

(** What ends the script early: [process.exit], an exception nobody catches, an answer
    outside the model of [JSON.parse]. *)
Inductive Halt : Type := Exit (code : Z) (line : string) | Uncaught | NotModelled.

#[warnings="-notation-for-abbreviation"]
Notation Script S := (M Halt S).

Definition REQUIRED : list string :=
  ["SYROTP_BASE_URL"; "SYROTP_PUBLIC_KEY"; "SYROTP_SECRET_KEY"; "SYROTP_RECEIVER_ID"; "SYROTP_GATEWAY_KEY"; "SYROTP_PHONE"].

(** The constants of the script, once all are set. *)
Record SmokeEnv : Type := { BASE : string; PK : string; SK : string; RECEIVER : string; GW_KEY : string; PHONE : string }.

Definition missing (env : string -> option string) : list string :=
  List.filter (fun k => negb (bool_decide (is_Some (truthy_string (env k))))) REQUIRED.

Definition env_text (env : string -> option string) (k : string) : string := default "" (env k).

Definition smoke_env (env : string -> option string) : SmokeEnv :=
  {| BASE := strip_trailing_slashes (env_text env "SYROTP_BASE_URL"); PK := env_text env "SYROTP_PUBLIC_KEY";
     SK := env_text env "SYROTP_SECRET_KEY"; RECEIVER := env_text env "SYROTP_RECEIVER_ID";
     GW_KEY := env_text env "SYROTP_GATEWAY_KEY"; PHONE := env_text env "SYROTP_PHONE" |}.

(** Both places that turn the phone into E.164 do it in this way. *)
Definition PHONE_E164 (phone : string) : string :=
  if startsWith phone "+" then phone
  else if startsWith phone "0" then "+963" ++ slice_from phone 1
  else "+" ++ phone.

(** The values the script draws: readings of the clock and random bytes, numbered in
    the order of the text. *)
Record SmokeDraws : Type := { sd_now : nat -> Z; sd_nonce : nat -> string; sd_key : nat -> string }.

Definition die {S A} (msg : string) : Script S A := throw (Exit 1 ("[smoke] FAIL: " ++ msg)).
Definition check {S} (cond : bool) (msg : string) : Script S unit := if cond then ret tt else die msg.

(** [j.k], which throws on null. *)
Definition prop {S} (k : string) (j : json) : Script S (option json) :=
  match js_get k j with Return v => ret v | Throw _ => throw Uncaught end.

Definition is_text (v : option json) (s : string) : bool :=
  match v with Some (JStr t) => String.eqb t s | _ => false end.
Definition is_true (v : option json) : bool := match v with Some (JBool b) => b | _ => false end.

(** [${v}] *)
Definition template (v : option json) : string := match v with Some j => js_String j | None => "undefined" end.

Definition sign `{Digest} (now : Z) (nonceBytes receiverId key rawBody : string) : list (string * string) :=
  let ts := num_to_string (now / 1000) in
  let nonce := bufferToHex nonceBytes in
  let bodyHash := sha256Hex rawBody in
  let sig := hmacSha256Hex key (ts ++ "." ++ nonce ++ "." ++ bodyHash) in
  [("X-SYROTP-Receiver", receiverId); ("X-SYROTP-Timestamp", ts); ("X-SYROTP-Nonce", nonce); ("X-SYROTP-Signature", sig)].

Definition bearer (key : string) : list (string * string) := [("Authorization", "Bearer " ++ key)].

Definition sms_json (from to body : string) (now : Z) (prefix keyBytes : string) : json :=
  JObj [("from", JStr from); ("to", JStr to); ("body", JStr body); ("received_at", JStr (toISOString now));
        ("idempotency_key", JStr (prefix ++ bufferToHex keyBytes))].

Section Script.
Context `{Digest} {S : Type} (server : nat -> HttpRequest -> S -> option (FetchResult * S)) (e : SmokeEnv) (d : SmokeDraws).

(** The request [fetch] is given. *)
Definition smoke_request (method path : string) (headers : list (string * string)) (body : option string) : HttpRequest :=
  {| hr_method := method; hr_url := BASE e ++ path;
     hr_headers := (headers ++ (match body with Some _ => [("Content-Type", "application/json")] | None => [] end)
                    ++ [("User-Agent", "syrotp-smoke/0.1")])%list;
     hr_body := body |}.

(** The status and the JSON of the [n]-th request's answer. *)
Definition jsonFetch (n : nat) (method path : string) (headers : list (string * string)) (body : option string) : Script S (Z * json) :=
  fun s => match server n (smoke_request method path headers body) s with
           | Some (Responded status text, s') =>
               match probe_parse text with Some j => (Return (status, j), s') | None => (Throw NotModelled, s') end
           | Some (_, s') => (Throw Uncaught, s')
           | None => (Throw NotModelled, s)
           end.

Definition step_health : Script S unit :=
  let! r := jsonFetch 0 "GET" "/v1/health" [] None in
  let msg := "health bad: " ++ num_to_string (fst r) ++ " " ++ stringify (snd r) in
  if (fst r =? 200)%Z then
    let! status := prop "status" (snd r) in
    check (is_text status "ok") msg
  else check false msg.

Definition step_heartbeat : Script S unit :=
  let hbBody := stringify (JObj [("received_at", JStr (toISOString (sd_now d 0)))]) in
  let! r := jsonFetch 1 "POST" ("/v1/receivers/" ++ encodeURIComponent (RECEIVER e) ++ "/heartbeat")
              (sign (sd_now d 1) (sd_nonce d 0) (RECEIVER e) (GW_KEY e) hbBody) (Some hbBody) in
  check (fst r =? 200)%Z ("heartbeat failed: " ++ num_to_string (fst r) ++ " " ++ stringify (snd r)).

(** [bindMsg]; [None] when the phone was bound before. *)
Definition step_binding : Script S (option string) :=
  let! r := jsonFetch 2 "POST" "/v1/phone-bindings/start" (bearer (SK e))
              (Some (stringify (JObj [("phone", JStr (PHONE e)); ("receiver_id", JStr (RECEIVER e))]))) in
  if (fst r =? 409)%Z && is_text (optional_field "code" (optional_field "error" (Some (snd r)))) "already_bound" then ret None
  else
    do! check (fst r =? 201)%Z ("binding-start failed: " ++ num_to_string (fst r) ++ " " ++ stringify (snd r)) in
    let! bind_message := prop "bind_message" (snd r) in
    match bind_message with
    | Some (JStr m) => if startsWith m "BIND " then ret (Some m) else die ("no BIND message in response: " ++ stringify (snd r))
    | _ => die ("no BIND message in response: " ++ stringify (snd r))
    end.

(** The two signed messages; [n] is the number of the request, [k] of the draws. *)
Definition post_sms (n k : nat) (to body prefix : string) : Script S (Z * json) :=
  let text := stringify (sms_json (PHONE_E164 (PHONE e)) to body (sd_now d (2 * k)) prefix (sd_key d (k - 1))) in
  jsonFetch n "POST" "/v1/inbound/sms" (sign (sd_now d (2 * k + 1)) (sd_nonce d k) (RECEIVER e) (GW_KEY e) text) (Some text).

Definition step_bind_sms (bindMsg : string) : Script S unit :=
  let! r := post_sms 3 1 (PHONE_E164 (PHONE e)) bindMsg "smoke_bind_" in
  do! check (fst r =? 202)%Z ("bind-inbound failed: " ++ num_to_string (fst r) ++ " " ++ stringify (snd r)) in
  let! matched := prop "matched" (snd r) in
  check (is_true matched) ("bind-inbound did not match: " ++ stringify (snd r)).

(** The id, the message and the destination. *)
Definition step_start : Script S (option json * string * string) :=
  let! r := jsonFetch 4 "POST" "/v1/verifications" (bearer (PK e))
              (Some (stringify (JObj [("phone", JStr (PHONE e)); ("purpose", JStr "smoke")]))) in
  do! check (fst r =? 201)%Z ("start failed: " ++ num_to_string (fst r) ++ " " ++ stringify (snd r)) in
  let! message := prop "message" (snd r) in
  match message with
  | Some (JStr m) =>
      do! check (startsWith m "VERIFY ") "no VERIFY message" in
      let! send_to := prop "send_to" (snd r) in
      match send_to with
      | Some (JStr to) => let! id := prop "id" (snd r) in ret (id, m, to)
      | _ => die "no send_to in response"
      end
  | _ => die "no VERIFY message"
  end.

Definition step_verify_sms (to message : string) : Script S unit :=
  let! r := post_sms 5 2 to message "smoke_" in
  do! check (fst r =? 202)%Z ("inbound failed: " ++ num_to_string (fst r) ++ " " ++ stringify (snd r)) in
  let! matched := prop "matched" (snd r) in
  check (is_true matched) ("inbound did not match: " ++ stringify (snd r)).

(** The [n] reads left; the last one seen is [final]. *)
Fixpoint poll (id : string) (i n : nat) : Script S unit :=
  match n with
  | O => die "verification did not reach verified: undefined"
  | Datatypes.S n =>
      let! r := jsonFetch (6 + i) "GET" ("/v1/verifications/" ++ encodeURIComponent id) (bearer (SK e)) None in
      do! check (fst r =? 200)%Z ("status failed: " ++ num_to_string (fst r)) in
      let! status := prop "status" (snd r) in
      if is_text status "verified" then ret tt else poll id (Datatypes.S i) n
  end.

Definition smoke_steps : Script S unit :=
  do! step_health in
  do! step_heartbeat in
  let! bindMsg := step_binding in
  do! (match bindMsg with Some m => if nonempty m then step_bind_sms m else ret tt | None => ret tt end) in
  let! v := step_start in
  let '(id, message, to) := v in
  do! step_verify_sms to message in
  poll (template id) 0 5.
End Script.

(** The whole script. *)
Definition smoke `{Digest} {S} (server : SmokeEnv -> nat -> HttpRequest -> S -> option (FetchResult * S)) (env : string -> option string)
    (d : SmokeDraws) : Script S unit :=
  match missing env with
  | [] => smoke_steps (server (smoke_env env)) (smoke_env env) d
  | m => throw (Exit 2 ("[smoke] missing required env: " ++ join ", " m))
  end.

(** The exit code of the process; [None]: outside the model. *)
Definition smoke_exit {A} (o : outcome Halt A) : option Z :=
  match o with
  | Return _ => Some 0%Z
  | Throw (Exit code _) => Some code
  | Throw Uncaught => Some 1%Z
  | Throw NotModelled => None
  end.
