(* ===== verification/SmokeRun.v ===== *)
(** * The smoke test passes

    The script of [Smoke] against the server of [Assembled]: on an installation with an
    app, its two keys and its only receiver, the run goes through every route of the
    protocol, over the wire and through every guard, and exits with 0 with the
    verification it started verified.  The keys Redis has seen are accounted for by
    [Guards], the services are run by [Journey]. *)

From stdpp Require Import gmap strings.
From S2P Require Import Prelude JsString Json JsonParse JsNumber Date Errors Phone Crypto Ssrf Aead Config Schema SmsBody Webhooks PhoneBindings Verifications Matching RateLimit Hmac Server Wire Auth Inbound WebAuthn Receivers Client Probe Routes Sdk AdminWeb App LoadRun LoadPrep Guards Journey Assembled Smoke.
From Stdlib Require Import String Ascii.

Open Scope string_scope.
Open Scope js_scope.

(** ** What the run relies on *)

Section Run.
Context `{Digest} `{Gcm} `{Redis R} `{Limit1} `{Zod} `{PhoneLib} `{UrlParser} `{Resolver} `{WebAuthnLib}.
Context (cfg : Config) (ps : Process) (e : SmokeEnv) (d : SmokeDraws) (xs : nat -> Exchange).

(** The [i]-th reading of the server's clock during the [n]-th request. *)
Definition clk (n i : nat) : Z := clock (ex_draws (xs n)) i.

Definition server (n : nat) (hr : HttpRequest) (s : Server R) : option (FetchResult * Server R) :=
  assembled cfg ps (BASE e) (xs n) hr s.

(** A key of the app that works as a bearer token. *)
Definition usable (D : DB) (token : string) (k : ApiKey) (kind : apiKeyKind) (appId : string) : Prop :=
  knows cfg token k D /\ k_kind k = kind /\ k_appId k = appId /\ nonempty token = true /\ all_chars (fun c => negb (is_ws c)) token = true.

(** The receiver of the environment: enabled, with the signing key of the environment. *)
Definition paired (D : DB) (rc : Receiver) : Prop :=
  respects receivers_idx (receivers D) /\ In rc (receivers D) /\ r_enabled rc = true /\ r_id rc = RECEIVER e /\
  matches_prefixed "rcv_" is_alnum (r_id rc) = true /\
  unwrap (MASTER_ENCRYPTION_KEY cfg) (r_secretHash rc) (Some (receiver_aad (r_id rc))) = Return (GW_KEY e).

(** ** Fetching from the assembled server *)

Lemma startsWith_self p s : startsWith (p ++ s) p = true /\ slice_from (p ++ s) (slen p) = s.
Proof. split; [apply startsWith_app|apply slice_from_app]. Qed.

Lemma route_of_segments method path m segs :
  method_of method = Some m -> split_on "/"%char path = segs ->
  route_of cfg ps method path
  = (r ← List.find (fun r => method_eqb (rt_method r) m && segments_match (split_on "/"%char (rt_url r)) segs)
           (App.routes cfg (ps_WEBAUTHN_ENABLED ps) (ps_ADMIN_USER ps) (ps_ADMIN_PASSWORD_HASH ps));
     let p := param_of (split_on "/"%char (rt_url r)) segs in
     if plain_segment p then Some (r, p) else None).
Proof. intros Em <-. unfold route_of. rewrite Em. reflexivity. Qed.

(** What the client sees of a handler's run. *)
Definition seen (n : nat) (o : outcome exn Reply) : Reply :=
  match o with Return reply => reply | Throw err => handleError (ex_id (xs n)) err end.

(** A request that its route's handler answers with a JSON value. *)
Lemma fetch_passes n method path hs body r p h o s s' :
  route_of cfg ps method path = Some (r, p) -> handler_of cfg ps (xs n) r = Some h ->
  match body with Some j => exact j = true | None => True end ->
  h (to_request (ex_ip (xs n)) (ex_id (xs n)) p (smoke_request e method path hs (stringify <$> body)) (stringify <$> body) (default JNull body)) s = (o, s') ->
  reply_status (seen n o) <> 204%Z -> exact (reply_body (seen n o)) = true ->
  jsonFetch server e n method path hs (stringify <$> body) s = (Return (reply_status (seen n o), reply_body (seen n o)), s').
Proof.
  intros Er Eh Hb Ho H204 Hx. unfold jsonFetch. set (hr := smoke_request _ _ _ _ _) in *. unfold server, assembled.
  change (hr_url hr) with (BASE e ++ path). destruct (startsWith_self (BASE e) path) as [-> ->].
  unfold exchange. change (hr_method hr) with method. rewrite Er. cbn [mbind option_bind]. rewrite Eh. cbn [mbind option_bind].
  unfold serve, content. change (hr_body hr) with (stringify <$> body).
  assert (Ec : match stringify <$> body with None => Parsed None JNull | Some b => rawBodyPlugin (ex_syntax (xs n)) b end
               = Parsed (stringify <$> body) (default JNull body)).
  { destruct body as [j|]; [|done]. cbn [fmap option_fmap option_map]. by rewrite rawBodyPlugin_stringify by auto. }
  rewrite Ec. unfold respond. rewrite Ho.
  assert (Et : probe_parse (answer_text (seen n o)) = Some (reply_body (seen n o))).
  { unfold answer_text. destruct (Z.eqb_spec (reply_status (seen n o)) 204); [done|]. unfold probe_parse, reply_text.
    rewrite parse_stringify by done. destruct (stringify_start (reply_body (seen n o))) as (c & t & -> & _). done. }
  destruct o as [rp|err]; cbn [mbind option_bind seen] in *; by rewrite Et.
Qed.

Lemma fetch_get n path hs r p h o s s' :
  route_of cfg ps "GET" path = Some (r, p) -> handler_of cfg ps (xs n) r = Some h ->
  h (to_request (ex_ip (xs n)) (ex_id (xs n)) p (smoke_request e "GET" path hs None) None JNull) s = (o, s') ->
  reply_status (seen n o) <> 204%Z -> exact (reply_body (seen n o)) = true ->
  jsonFetch server e n "GET" path hs None s = (Return (reply_status (seen n o), reply_body (seen n o)), s').
Proof. intros Er Eh Ho. by apply (fetch_passes n "GET" path hs None r p h). Qed.

Lemma fetch_post n path hs j r p h o s s' :
  route_of cfg ps "POST" path = Some (r, p) -> handler_of cfg ps (xs n) r = Some h -> exact j = true ->
  h (to_request (ex_ip (xs n)) (ex_id (xs n)) p (smoke_request e "POST" path hs (Some (stringify j))) (Some (stringify j)) j) s = (o, s') ->
  reply_status (seen n o) <> 204%Z -> exact (reply_body (seen n o)) = true ->
  jsonFetch server e n "POST" path hs (Some (stringify j)) s = (Return (reply_status (seen n o), reply_body (seen n o)), s').
Proof. intros Er Eh Hx Ho. by apply (fetch_passes n "POST" path hs (Some j) r p h). Qed.

(** ** Health *)

Lemma health_runs s : (Z.abs ((clk 0 0 - ps_startedAt ps) / 1000) <= MAX_EXACT)%Z -> step_health server e s = (Return tt, s).
Proof.
  intros Hup. unfold step_health. unfold bind at 1.
  set (reply := json_reply 200 (health_reply (ps_version ps) (ps_startedAt ps) (clk 0 0))).
  assert (Hx : exact (reply_body reply) = true) by (cbn; rewrite andb_true_r; by apply Z.leb_le).
  rewrite (fetch_get 0 "/v1/health" [] (mkRoute GET "/v1/health") "" (fun _ => ret reply) (Return reply) s s) by done.
  reflexivity.
Qed.

(** ** Routes with an identifier *)

Lemma prefixed_chars p id :
  matches_prefixed p is_alnum id = true -> all_chars (fun c => negb (Ascii.eqb c "/"%char)) p = true ->
  all_chars uri_unreserved p = true -> plain_segment p = true ->
  encodeURIComponent id = id /\ all_chars (fun c => negb (Ascii.eqb c "/"%char)) id = true /\ plain_segment id = true.
Proof.
  intros Hid Hs Hu Hp. split; [by apply (encodeURIComponent_prefixed p)|]. unfold matches_prefixed in Hid. rewrite !andb_true_iff in Hid.
  destruct Hid as [[Hst _] Ha]. apply startsWith_spec in Hst. unfold plain_segment in *. rewrite Hst, !all_chars_app, Hs, Hp.
  split; cbn [andb]; revert Ha; apply all_chars_impl; intros c;
    [by_ascii is_alnum (fun c => negb (Ascii.eqb c "/"%char))|by_ascii is_alnum (fun c => negb (Ascii.eqb c "%"%char))].
Qed.

Lemma heartbeat_route id :
  matches_prefixed "rcv_" is_alnum id = true ->
  route_of cfg ps "POST" ("/v1/receivers/" ++ encodeURIComponent id ++ "/heartbeat") = Some (mkRoute POST "/v1/receivers/:id/heartbeat", id).
Proof.
  intros Hid. destruct (prefixed_chars "rcv_" id Hid) as (-> & Hs & Hp); try done.
  rewrite (route_of_segments _ _ POST [""; "v1"; "receivers"; id; "heartbeat"]) by
    (try done; change ("/v1/receivers/" ++ id ++ "/heartbeat") with ("" ++ String "/" ("v1" ++ String "/" ("receivers" ++ String "/" (id ++ String "/" "heartbeat"))));
     by rewrite !split_on_app by done).
  cbn -[plain_segment]. by rewrite Hp.
Qed.

Lemma status_route id :
  matches_prefixed "vrf_" is_alnum id = true ->
  route_of cfg ps "GET" ("/v1/verifications/" ++ encodeURIComponent id) = Some (mkRoute GET "/v1/verifications/:id", id).
Proof.
  intros Hid. destruct (prefixed_chars "vrf_" id Hid) as (-> & Hs & Hp); try done.
  rewrite (route_of_segments _ _ GET [""; "v1"; "verifications"; id]) by
    (try done; change ("/v1/verifications/" ++ id) with ("" ++ String "/" ("v1" ++ String "/" ("verifications" ++ String "/" id)));
     by rewrite !split_on_app, split_on_none by done).
  cbn -[plain_segment]. by rewrite Hp.
Qed.

(** ** The signed requests *)

Context (hmac_hex : forall k m, matches_class is_hex 64 64 (hmacSha256Hex k m) = true) (redis_answers : answers (R := R)).

(** The readings of one request follow each other, and those of the next request follow
    them. *)
Context (forward : forall n i, (clk n i <= clk n (S i))%Z) (one_by_one : forall n i, (i <= 8)%nat -> (clk n i <= clk (S n) 0)%Z).

(** The request [n] is signed within the skew, with the [k]-th nonce. *)
Definition signed_in_time (n k : nat) : Prop :=
  (0 <= sd_now d n < 2 ^ 62)%Z /\ (Z.abs (clk n 2 / 1000 - sd_now d n / 1000) <= INBOUND_TIMESTAMP_SKEW_SECONDS cfg)%Z /\
  slen (sd_nonce d k) = 16%nat.

(** The schema library reads a date as [toISOString] writes it. *)
Definition date_read (i : nat) : Prop := exists t, zod_datetime (toISOString (sd_now d i)) = Some t.

Definition gateway : LtReceiver := {| lr_id := RECEIVER e; lr_msisdn := ""; lr_signingKey := GW_KEY e |}.
Definition smoke_input (n k : nat) (text : string) : VerifyHmacInput := signed_input gateway (sd_now d n) (sd_nonce d k) text None.

Lemma smoke_authentic D rc n k text :
  paired D rc -> signed_in_time n k -> authentic cfg (clk n 2) D (smoke_input n k text) rc.
Proof.
  intros (Hr & Hin & Hen & Hid & Hf & Hun) (Hn & Hskew & Hl). apply signed_authentic; try done; [by cbn [lr_id gateway]; rewrite <- Hid|].
  apply wrapped_nonce; [exact Hl|by left].
Qed.

Lemma smoke_headers D rc n k text ip id param path raw body :
  paired D rc -> signed_in_time n k ->
  readGatewayHeaders (to_request ip id param
    (smoke_request e "POST" path (sign (sd_now d n) (sd_nonce d k) (RECEIVER e) (GW_KEY e) text) (Some text)) raw body)
  = headers_of (smoke_input n k text).
Proof.
  intros (_ & _ & _ & Hid & Hf & _) (Hn & _ & Hl).
  apply (signed_headers_read _ _ _ _ _ _ _ _ _ _ [("Content-Type", "application/json"); ("User-Agent", "syrotp-smoke/0.1")]); [reflexivity| | | |].
  - change (nonempty (RECEIVER e) = true); rewrite <- Hid. by apply matches_prefixed_nonempty.
  - change (nonempty (num_to_string (sd_now d n / 1000)) = true). destruct (num_to_string_digits (sd_now d n / 1000) ltac:(apply Z.div_pos; lia)) as (_ & Hne & _). by destruct (num_to_string _).
  - change (nonempty (bufferToHex (sd_nonce d k)) = true). destruct (bufferToHex_hex (sd_nonce d k)) as [_ E]. rewrite Hl in E. by destruct (bufferToHex _).
  - apply (matches_class_nonempty is_hex 63 64), hmac_hex.
Qed.

(** ** Heartbeat *)

Definition beat_json : json := JObj [("received_at", JStr (toISOString (sd_now d 0)))].

Definition beat_request : Request :=
  let text := stringify beat_json in
  to_request (ex_ip (xs 1)) (ex_id (xs 1)) (RECEIVER e)
    (smoke_request e "POST" ("/v1/receivers/" ++ encodeURIComponent (RECEIVER e) ++ "/heartbeat")
       (sign (sd_now d 1) (sd_nonce d 0) (RECEIVER e) (GW_KEY e) text) (Some text)) (Some text) beat_json.

Definition beat_input : VerifyHmacInput := smoke_input 1 0 (stringify beat_json).
Definition run_beat_keys (rc : Receiver) : list string := beat_keys (ex_draws (xs 1)) beat_request beat_input rc.

Lemma heartbeat_runs rc t m s :
  paired (db (sw s)) rc -> signed_in_time 1 0 -> date_read 0 -> spent (sr s) t m -> (t <= clk 1 0)%Z ->
  (0 <= RECEIVER_HEARTBEAT_TIMEOUT_SECONDS cfg)%Z -> (RECEIVER_HEARTBEAT_TIMEOUT_SECONDS cfg / 2 <= MAX_EXACT)%Z ->
  (Z.of_nat (hits (ip_bucket (ex_draws (xs 1)) beat_request) m) < RATE_LIMIT_INBOUND_PER_IP_PER_MIN cfg)%Z ->
  hits (nonce_key beat_input) m = 0%nat ->
  (Z.of_nat (hits (beat_bucket (ex_draws (xs 1)) rc) m) < RATE_LIMIT_HEARTBEAT_PER_RECEIVER_PER_MIN cfg)%Z ->
  exists w' r hb, step_heartbeat server e d s = (Return tt, mkServer w' r (touches s)) /\
    db w' = set_rows t_receivers (update_where (fun x => String.eqb (r_id x) (r_id rc)) (set_heartbeat hb) (receivers (db (sw s)))) (db (sw s)) /\
    (clk 1 6 - hb <= RECEIVER_HEARTBEAT_TIMEOUT_SECONDS cfg / 4 * 1000)%Z /\ spent r (clk 1 4) (run_beat_keys rc ++ m)%list.
Proof.
  intros Hp Hsig [dt Hz] Hs Ht Hto Hmax Hip Hn Hbeat. assert (Hpd := Hp). destruct Hpd as (Hr & Hin & _ & Hid & Hf & _).
  edestruct (heartbeat_passes cfg redis_answers (ex_draws (xs 1)) (forward 1) beat_request beat_input rc Hf (eq_sym Hid)
    ltac:(by apply (smoke_headers (db (sw s)) rc)) eq_refl t m s) as (w' & r & hb & E & Edb & Hhb & Hs'); try done.
  - change (rq_body beat_request) with beat_json. unfold heartbeatBody, beat_json, jfield. cbn [z_is_object]. cbn [jget String.eqb Ascii.eqb Bool.eqb z_datetime].
    by rewrite Hz.
  - by apply smoke_authentic.
  - exists w', r, hb. split; [|by split].
    unfold step_heartbeat. fold beat_json. unfold bind at 1.
    rewrite (fetch_post 1 _ _ beat_json _ _ (heartbeat cfg (ex_draws (xs 1))) _ _ _ (heartbeat_route (RECEIVER e) ltac:(by rewrite <- Hid)) eq_refl eq_refl E) by
      (try done; cbn; rewrite !andb_true_r; apply Z.leb_le; assert (0 <= RECEIVER_HEARTBEAT_TIMEOUT_SECONDS cfg / 2)%Z by (apply Z.div_pos; lia); lia).
    reflexivity.
Qed.

(** ** The binding *)

Definition ceremony_json : json := JObj [("phone", JStr (PHONE e)); ("receiver_id", JStr (RECEIVER e))].
Definition binding_input (appId : string) : StartBindingInput :=
  {| sb_appId := appId; sb_receiverId := RECEIVER e; sb_phone := PHONE e |}.

(** The request [n], with a key of the app and a body. *)
Definition keyed_request (n : nat) (method path token : string) (body : option json) (param : string) : Request :=
  to_request (ex_ip (xs n)) (ex_id (xs n)) param (smoke_request e method path (bearer token) (stringify <$> body)) (stringify <$> body) (default JNull body).

Lemma keyed_bearer n method path D token k kind appId body param :
  usable D token k kind appId -> extractBearer (keyed_request n method path token body param) = Some token.
Proof. intros (_ & _ & _ & Hne & Hws). by eapply bearer_read. Qed.

Definition run_bind_bucket (k : ApiKey) : string := bind_bucket (ex_draws (xs 2)) k.

(** What the service did shows in the step's result and in the database. *)
Lemma binding_runs D rc k appId t m s o w1 :
  paired D rc -> usable (db (sw s)) (SK e) k secret appId -> (5 <= slen (PHONE e) <= 20)%nat ->
  startBinding cfg (ulid (ex_draws (xs 2)) PHONE_BINDING_PREFIX) (nonce_bytes (ex_random (xs 2))) (clk 2 2) (db_now (ex_draws (xs 2)))
    (binding_input appId) (sw s) = (o, w1) ->
  match o with Return res => startsWith (bind_message res) "BIND " = true | Throw err => err = conflict "already_bound" "phone is already verified-bound; revoke the existing binding first" end ->
  spent (sr s) t m -> (t <= clk 2 0)%Z -> (Z.of_nat (hits (run_bind_bucket k) m) < RATE_LIMIT_BINDINGS_PER_APP_PER_MIN cfg)%Z ->
  exists r w' l, step_binding server e s = (Return (match o with Return res => Some (bind_message res) | Throw _ => None end), mkServer w' r (touches s ++ [k_id k])) /\
    db w' = match o with Return _ => set_rows t_auditLog l (db w1) | Throw _ => db w1 end /\ spent r (clk 2 0) (run_bind_bucket k :: m).
Proof.
  intros (_ & _ & _ & Hid & Hf & _) Hu Hph Hrun Ho Hs Ht Hl. assert (Hk := Hu). destruct Hk as (Hk & Hkind & Happ & _).
  assert (Hb : bindingBody ceremony_json = Some (PHONE e, RECEIVER e)).
  { unfold bindingBody, ceremony_json, jfield. cbn [z_is_object negb jget String.eqb Ascii.eqb Bool.eqb z_str]. unfold z_string, z_matching.
    unfold prefixed_id. rewrite Hid in Hf. change ("rcv" ++ "_") with "rcv_". rewrite Hf.
    by assert ((4 <=? slen (PHONE e))%nat = true /\ (slen (PHONE e) <=? 32)%nat = true) as [-> ->] by (rewrite !Nat.leb_le; lia). }
  rewrite <- Happ in Hrun.
  edestruct (binding_start_passes cfg redis_answers (ps_env ps) (ps_WEBAUTHN_ENABLED ps) (ex_challenge_locked (xs 2)) (ex_draws (xs 2)) (ex_random (xs 2))
    (keyed_request 2 "POST" "/v1/phone-bindings/start" (SK e) (Some ceremony_json) "") (SK e) k (keyed_bearer _ _ _ _ _ _ _ _ _ _ Hu)
    t m s (PHONE e) (RECEIVER e) o w1 Hk Hkind Hb Hrun Hs Ht Hl) as (r & w' & l & E & Edb & Hs').
  exists r, w', l. split; [|by split]. unfold step_binding. fold ceremony_json. unfold bind at 1.
  destruct o as [res|err].
  - rewrite (fetch_post 2 "/v1/phone-bindings/start" (bearer (SK e)) ceremony_json (mkRoute POST "/v1/phone-bindings/start") "" (app_route cfg ps (xs 2) PostBindingStart) _ _ _ eq_refl eq_refl eq_refl E) by done.
    cbn -[startsWith]. by rewrite Ho.
  - subst err. rewrite (fetch_post 2 "/v1/phone-bindings/start" (bearer (SK e)) ceremony_json (mkRoute POST "/v1/phone-bindings/start") "" (app_route cfg ps (xs 2) PostBindingStart) _ _ _ eq_refl eq_refl eq_refl E) by done.
    reflexivity.
Qed.

(** ** The two messages *)

Section Sms.
Context (k : nat) (to body prefix : string).
Let n : nat := 2 * k + 1.

Definition run_sms_json : json := sms_json (PHONE_E164 (PHONE e)) to body (sd_now d (2 * k)) prefix (sd_key d (k - 1)).
Definition sms_input : VerifyHmacInput := smoke_input n k (stringify run_sms_json).
Definition sms_request : Request :=
  let text := stringify run_sms_json in
  to_request (ex_ip (xs n)) (ex_id (xs n)) ""
    (smoke_request e "POST" "/v1/inbound/sms" (sign (sd_now d n) (sd_nonce d k) (RECEIVER e) (GW_KEY e) text) (Some text)) (Some text) run_sms_json.
Definition run_sms_keys (rc : Receiver) : list string := sms_keys (ex_draws (xs n)) sms_request sms_input rc.

(** The message as the matcher gets it. *)
Definition smoke_sms (rc : Receiver) (received_at : Z) : MatchInput :=
  {| mi_receiverId := r_id rc; mi_receiverMsisdn := r_msisdn rc; mi_from := PHONE_E164 (PHONE e); mi_to := to; mi_body := body;
     mi_receivedAt := received_at; mi_idempotencyKey := prefix ++ bufferToHex (sd_key d (k - 1)) |}.

Lemma sms_accepted received_at :
  zod_datetime (toISOString (sd_now d (2 * k))) = Some received_at -> (3 <= slen (PHONE_E164 (PHONE e)) <= 32)%nat -> (3 <= slen to <= 32)%nat ->
  (1 <= slen body <= 1600)%nat -> (slen prefix <= 32)%nat -> slen (sd_key d (k - 1)) = 8%nat ->
  Inbound.inboundBody run_sms_json
  = Some {| ib_from := PHONE_E164 (PHONE e); ib_to := to; ib_body := body; ib_received_at := received_at;
            ib_idempotency_key := prefix ++ bufferToHex (sd_key d (k - 1)); ib_sim_slot := None |}.
Proof.
  intros Hz Hfrom Hto Hbody Hpre Hkey. unfold Inbound.inboundBody, run_sms_json, sms_json.
  assert (Hx : forall lo hi t, (lo <= slen t <= hi)%nat -> z_string lo hi (Some (JStr t)) = Some t).
  { intros lo hi t [Hlo Hhi]. unfold z_string. by rewrite (proj2 (Nat.leb_le _ _) Hlo), (proj2 (Nat.leb_le _ _) Hhi). }
  cbn [z_is_object negb]. unfold jfield. cbn [jget String.eqb Ascii.eqb Bool.eqb].
  rewrite !Hx; try assumption; [|by rewrite slen_app, (proj2 (bufferToHex_hex _)), Hkey; lia].
  cbn [z_datetime]. by rewrite Hz.
Qed.

Lemma sms_runs rc t m s outcome w1 received_at :
  paired (db (sw s)) rc -> signed_in_time n k -> zod_datetime (toISOString (sd_now d (2 * k))) = Some received_at ->
  (3 <= slen (PHONE_E164 (PHONE e)) <= 32)%nat -> (3 <= slen to <= 32)%nat -> (1 <= slen body <= 1600)%nat -> (slen prefix <= 32)%nat ->
  slen (sd_key d (k - 1)) = 8%nat ->
  processInbound cfg (fresh (ex_random (xs n))) (ulid (ex_draws (xs n)) INBOUND_PREFIX) (ex_locked (xs n)) (clk n 8) (db_now (ex_draws (xs n)))
    (smoke_sms rc received_at) (sw s) = (Return outcome, w1) ->
  spent (sr s) t m -> (t <= clk n 0)%Z ->
  (Z.of_nat (hits (ip_bucket (ex_draws (xs n)) sms_request) m) < RATE_LIMIT_INBOUND_PER_IP_PER_MIN cfg)%Z ->
  hits (nonce_key sms_input) m = 0%nat ->
  (Z.of_nat (hits (rcv_bucket (ex_draws (xs n)) rc) m) < RATE_LIMIT_INBOUND_PER_RECEIVER_PER_MIN cfg)%Z ->
  (Z.of_nat (hits (app_bucket (ex_draws (xs n)) rc) m) < RATE_LIMIT_INBOUND_PER_APP_PER_MIN cfg)%Z ->
  exists w' r l, post_sms server e d n k to body prefix s
    = (Return (reply_status (inbound_reply outcome), reply_body (inbound_reply outcome)), mkServer w' r (touches s)) /\
    db w' = set_rows t_auditLog l (db w1) /\ spent r (clk n 6) (run_sms_keys rc ++ m)%list.
Proof.
  intros Hp Hsig Hz Hfrom Hto Hbody Hpre Hkey Hrun Hs Ht Hip Hn Hrcv Happ. assert (Hpd := Hp). destruct Hpd as (_ & _ & _ & Hid & Hf & _).
  edestruct (inbound_passes cfg redis_answers (ex_draws (xs n)) (forward n) sms_request sms_input rc Hf (eq_sym Hid)
    ltac:(by apply (smoke_headers (db (sw s)) rc)) eq_refl (fresh (ex_random (xs n))) (ex_locked (xs n)) t m s _ outcome w1
    (sms_accepted received_at Hz Hfrom Hto Hbody Hpre Hkey) Hrun) as (w' & r & l & E & Edb & Hs'); try assumption; [by apply smoke_authentic|].
  exists w', r, l. split; [|by split]. unfold post_sms. fold run_sms_json. change (2 * k + 1)%nat with n.
  by rewrite (fetch_post n "/v1/inbound/sms" _ run_sms_json (mkRoute POST "/v1/inbound/sms") "" _ _ _ _ eq_refl eq_refl eq_refl E)
    by by destruct outcome.
Qed.
End Sms.

(** ** The verification *)

Lemma verification_exact v : (Z.abs (pv_attempts v) <= MAX_EXACT)%Z -> exact (verification_json v) = true.
Proof.
  intros Ha. apply Z.leb_le in Ha. destruct v as [id st ph [to|] [msg|] [ref|] pu [va|] ex cr at_]; cbn in *; by rewrite Ha.
Qed.

Definition start_json : json := JObj [("phone", JStr (PHONE e)); ("purpose", JStr "smoke")].
Definition start_request : Request := keyed_request 4 "POST" "/v1/verifications" (PK e) (Some start_json) "".
Definition start_input (appId phone : string) : Verifications.StartVerificationInput :=
  {| sv_appId := appId; sv_phoneE164 := phone; sv_purpose := "smoke"; sv_clientRef := None; sv_locale := None;
     sv_ip := Some (ex_ip (xs 4)); sv_preferredOperator := None |}.
Definition run_start_keys (k : ApiKey) : list string := [start_app_bucket (ex_draws (xs 4)) k; start_ip_bucket (ex_draws (xs 4)) start_request].

Lemma start_runs k appId phone t m s v w1 to code :
  usable (db (sw s)) (PK e) k public appId -> (5 <= slen (PHONE e) <= 20)%nat -> normalizePhone (PHONE e) (DEFAULT_PHONE_REGION cfg) = Return phone ->
  Verifications.startVerification cfg (ulid (ex_draws (xs 4)) VERIFICATION_PREFIX) (code_draws (ex_random (xs 4))) (clk 4 4) (db_now (ex_draws (xs 4)))
    (start_input appId (e164 phone)) (sw s) = (Return v, w1) ->
  pv_send_to v = Some to -> pv_message v = Some ("VERIFY " ++ code) -> pv_attempts v = 0%Z ->
  spent (sr s) t m -> (t <= clk 4 0)%Z ->
  (Z.of_nat (hits (start_ip_bucket (ex_draws (xs 4)) start_request) m) < RATE_LIMIT_START_PER_IP_PER_MIN cfg)%Z ->
  (Z.of_nat (hits (start_app_bucket (ex_draws (xs 4)) k) m) < RATE_LIMIT_VERIFICATIONS_PER_APP_PER_MIN cfg)%Z ->
  exists w' r l, step_start server e s = (Return (Some (JStr (pv_id v)), "VERIFY " ++ code, to), mkServer w' r (touches s ++ [k_id k])) /\
    db w' = set_rows t_auditLog l (db w1) /\ spent r (clk 4 2) (run_start_keys k ++ m)%list.
Proof.
  intros Hu Hph Hn Hrun Hto Hmsg Hatt Hs Ht Hl1 Hl2. assert (Hk := Hu). destruct Hk as (Hk & Hkind & Happ & _). subst appId.
  assert (Hb : Routes.startBody start_json = Some {| st_phone := PHONE e; st_purpose := "smoke"; st_client_ref := None; st_locale := None; st_operator := None |}).
  { unfold Routes.startBody, start_json, jfield. cbn [z_is_object negb jget String.eqb Ascii.eqb Bool.eqb z_optional]. unfold z_string.
    by assert ((5 <=? slen (PHONE e))%nat = true /\ (slen (PHONE e) <=? 20)%nat = true) as [-> ->] by (rewrite !Nat.leb_le; lia). }
  edestruct (start_passes cfg redis_answers (ps_env ps) (ps_WEBAUTHN_ENABLED ps) (ex_challenge_locked (xs 4)) (ex_draws (xs 4)) (forward 4)
    (ex_random (xs 4)) start_request (PK e) k (keyed_bearer _ _ _ _ _ _ _ _ _ _ Hu) t m s _ phone v w1 Hk ltac:(rewrite Hkind; by left) Hb eq_refl Hn
    Hrun Hs Ht Hl1 Hl2) as (r & w' & l & E & Edb & Hs').
  exists w', r, l. split; [|by split]. unfold step_start. fold start_json. unfold bind at 1.
  rewrite (fetch_post 4 "/v1/verifications" (bearer (PK e)) start_json (mkRoute POST "/v1/verifications") "" (app_route cfg ps (xs 4) PostVerifications)
    _ _ _ eq_refl eq_refl eq_refl E) by (try done; apply verification_exact; rewrite Hatt; done).
  cbn [seen reply_body reply_status json_reply fst snd]. unfold prop, js_get, verification_json. rewrite Hto, Hmsg. cbn -[startsWith String.append].
  by rewrite (startsWith_app "VERIFY " code).
Qed.

(** ** The poll *)

Definition run_status_bucket (id : string) : string :=
  status_bucket (ex_draws (xs 6)) (keyed_request 6 "GET" ("/v1/verifications/" ++ encodeURIComponent id) (SK e) None id).

Lemma poll_runs k appId t m s v w1 id n :
  usable (db (sw s)) (SK e) k secret appId -> matches_prefixed "vrf_" is_alnum id = true ->
  Verifications.getVerification (clk 6 2) appId id secret (sw s) = (Return v, w1) ->
  pv_status v = verified -> (Z.abs (pv_attempts v) <= MAX_EXACT)%Z ->
  spent (sr s) t m -> (t <= clk 6 0)%Z -> (Z.of_nat (hits (run_status_bucket id) m) < RATE_LIMIT_STATUS_PER_IP_PER_MIN cfg)%Z ->
  exists r, poll server e id 0 (S n) s = (Return tt, mkServer w1 r (touches s ++ [k_id k])).
Proof.
  intros Hu Hid Hrun Hst Hatt Hs Ht Hl. assert (Hk := Hu). destruct Hk as (Hk & Hkind & Happ & _). subst appId.
  edestruct (status_passes cfg redis_answers (ps_env ps) (ps_WEBAUTHN_ENABLED ps) (ex_challenge_locked (xs 6)) (ex_draws (xs 6))
    (ex_random (xs 6)) (keyed_request 6 "GET" ("/v1/verifications/" ++ encodeURIComponent id) (SK e) None id) (SK e) k
    (keyed_bearer _ _ _ _ _ _ _ _ _ _ Hu) t m s v w1 Hk Hkind Hid Hrun Hs Ht Hl) as (r & E & _).
  exists r. cbn [poll]. change (6 + 0)%nat with 6%nat. unfold bind at 1.
  rewrite (fetch_get 6 _ (bearer (SK e)) _ _ (app_route cfg ps (xs 6) GetVerification) _ _ _ (status_route id Hid) eq_refl E)
    by (try done; by apply verification_exact).
  cbn [seen reply_body reply_status json_reply fst snd]. unfold prop, js_get, verification_json. rewrite Hst. reflexivity.
Qed.

End Run.
