(* ===== verification/SmokePass.v ===== *)
(** * The smoke test passes

    [smoke_passes]: on an installation with an app, its two keys and its only receiver,
    the script of [Smoke] against the server of [Assembled] goes through every route of
    the protocol, over the wire and through every guard, and exits with 0; the
    verification it started is verified in the database.  [SmokeRun] runs each of its
    requests; here they are chained. *)

From stdpp Require Import gmap strings.
From S2P Require Import Prelude JsString Json JsonParse JsNumber Date Errors Phone Crypto Ssrf Aead Config Schema SmsBody Webhooks PhoneBindings Verifications Matching RateLimit Hmac Server Wire Auth Inbound WebAuthn Routes Isolation App LoadRun LoadPrep Probe Guards Journey Assembled Smoke SmokeRun.
From Stdlib Require Import String Ascii.

Open Scope string_scope.
Open Scope js_scope.

Section Pass.
Context `{Digest} `{Gcm} `{Redis R} `{Limit1} `{Zod} `{PhoneLib} `{UrlParser} `{Resolver} `{WebAuthnLib}.
Context (cfg : Config) (ps : Process) (e : SmokeEnv) (d : SmokeDraws) (xs : nat -> Exchange).

#[local, warnings="-notation-for-abbreviation"]
Notation clk := (clk xs).
#[local, warnings="-notation-for-abbreviation"]
Notation server := (server cfg ps e xs).

(** ** What the run relies on *)

(** The rows the script's environment speaks of, and a phone nothing is pending for. *)
Record Installed (D : DB) (appId : string) (rc : Receiver) (kp ks : ApiKey) (phone : NormalizedPhone) : Prop := {
  is_paired : paired cfg e D rc; is_owner : r_appId rc = appId;
  is_only : forall x, In x (receivers D) -> r_appId x = appId -> x = rc;
  is_msisdn : (3 <= slen (r_msisdn rc) <= 32)%nat;
  is_public : usable cfg D (PK e) kp public appId; is_secret : usable cfg D (SK e) ks secret appId;
  is_bindings : respects phoneBindings_idx (phoneBindings D); is_verifications : respects verifications_idx (verifications D);
  is_length : (5 <= slen (PHONE e) <= 20)%nat;
  is_phone : normalizePhone (PHONE e) (DEFAULT_PHONE_REGION cfg) = Return phone;
  is_sender : sender cfg (PHONE_E164 (PHONE e)) = e164 phone;
  is_idle : forall v, In v (verifications D) -> is_pending v = true -> v_phoneE164 v <> e164 phone;
}.

Definition new_inbound (n : nat) : string := newId INBOUND_PREFIX (ulid (ex_draws (xs n)) INBOUND_PREFIX).
Definition new_verification : string := newId VERIFICATION_PREFIX (ulid (ex_draws (xs 4)) VERIFICATION_PREFIX).
Definition key_of (k : nat) (prefix : string) : string := prefix ++ bufferToHex (sd_key d k).

(** What is drawn is new and nobody holds the row. *)
Record Drawn (D : DB) (receiverId : string) : Prop := {
  dr_binding : ~ In (newId PHONE_BINDING_PREFIX (ulid (ex_draws (xs 2)) PHONE_BINDING_PREFIX)) (map b_id (phoneBindings D));
  dr_code : forall b, In b (phoneBindings D) -> b_nonce b <> PhoneBindings.generateNonce (nonce_bytes (ex_random (xs 2)));
  dr_verification : ~ In new_verification (map v_id (verifications D));
  dr_ulid : matches_prefixed "vrf_" is_alnum new_verification = true;
  dr_inbound : ~ In (new_inbound 3) (map i_id (inboundSms D)) /\ ~ In (new_inbound 5) (map i_id (inboundSms D)) /\ new_inbound 3 <> new_inbound 5;
  dr_keys : forall x, In x (inboundSms D) -> i_receiverId x = receiverId ->
    i_idempotencyKey x <> key_of 0 "smoke_bind_" /\ i_idempotencyKey x <> key_of 1 "smoke_";
  dr_bytes : slen (sd_key d 0) = 8%nat /\ slen (sd_key d 1) = 8%nat;
  dr_nonces : NoDup [sd_nonce d 0; sd_nonce d 1; sd_nonce d 2];
  dr_events : fresh_for (fresh (ex_random (xs 5))) D;
  dr_unlocked : forall v, ex_locked (xs 5) v = false;
}.

(** The clocks go forward, the script's and the server's agree within the skew, and the
    run is over before anything expires. *)
Record Timely : Prop := {
  ti_forward : forall n i, (clk n i <= clk n (S i))%Z;
  ti_one_by_one : forall n i, (i <= 8)%nat -> (clk n i <= clk (S n) 0)%Z;
  ti_signed : forall n k, In (n, k) [(1, 0); (3, 1); (5, 2)]%nat -> signed_in_time cfg d xs n k;
  ti_dates : forall i, date_read d i;
  ti_uptime : (Z.abs ((clk 0 0 - ps_startedAt ps) / 1000) <= MAX_EXACT)%Z;
  ti_binding : (clk 3 8 < clk 2 2 + PHONE_BINDING_TTL_SECONDS cfg * 1000)%Z;
  ti_verification : (clk 5 8 < clk 4 4 + VERIFICATION_TTL_SECONDS cfg * 1000)%Z;
  ti_heartbeat : (db_now (ex_draws (xs 4)) - clk 1 6 < RECEIVER_HEARTBEAT_TIMEOUT_SECONDS cfg * 1000 / 2)%Z;
}.

(** The limits the run needs. *)
Definition room : Prop :=
  (3 <= RATE_LIMIT_INBOUND_PER_IP_PER_MIN cfg /\ 2 <= RATE_LIMIT_INBOUND_PER_RECEIVER_PER_MIN cfg /\
   2 <= RATE_LIMIT_INBOUND_PER_APP_PER_MIN cfg /\ 1 <= RATE_LIMIT_HEARTBEAT_PER_RECEIVER_PER_MIN cfg /\
   1 <= RATE_LIMIT_BINDINGS_PER_APP_PER_MIN cfg /\ RECEIVER_HEARTBEAT_TIMEOUT_SECONDS cfg / 2 <= MAX_EXACT)%Z.

Context (hmac_hex : forall k m, matches_class is_hex 64 64 (hmacSha256Hex k m) = true) (redis_answers : answers (R := R)).
Context (valid : config_valid cfg = true) (limits : room) (timely : Timely).

Lemma clk_mono n i j : (i <= j)%nat -> (clk n i <= clk n j)%Z.
Proof. destruct timely as [Hf _ _ _ _ _ _ _]. induction 1 as [|j _ IH]; [lia|]. etransitivity; [exact IH|]. apply Hf. Qed.

Lemma clk_le n i n' j : (i <= 8)%nat -> (n < n')%nat -> (clk n i <= clk n' j)%Z.
Proof.
  intros Hi Hn. etransitivity; [|apply (clk_mono n' 0 j); lia]. destruct timely as [_ Ho _ _ _ _ _ _]. induction Hn as [|n' _ IH]; [by apply Ho|].
  etransitivity; [exact IH|]. apply Ho. lia.
Qed.

(** ** After the heartbeat *)

Lemma beat_installed D appId rc kp ks phone hb :
  Installed D appId rc kp ks phone ->
  Installed (set_rows t_receivers (update_where (fun x => String.eqb (r_id x) (r_id rc)) (set_heartbeat hb) (receivers D)) D)
    appId (set_heartbeat hb rc) kp ks phone.
Proof.
  intros [(Hr & Hin & Hen & Hid & Hf & Hun) Ho Honly Hm Hkp Hks Hb Hv Hl Hp Hs Hi].
  constructor; try assumption.
  - split; [by apply respects_update; [| |exact Hr]; intros ix x y [<-|[]]|]. split; [|by repeat split].
    apply update_where_In. left. exists rc. by rewrite String.eqb_refl.
  - intros x Hx Happ. apply update_where_In in Hx. destruct Hx as [(x0 & Hx0 & E & ->)|[Hx E]].
    + f_equal. by apply Honly.
    + apply Honly in Hx; [|done]. subst x. by rewrite String.eqb_refl in E.
Qed.
(** ** The binding *)

(** The keys later guards look at. *)
Definition later_ip : string := ip_bucket (ex_draws (xs 5)) (sms_request e d xs 2 "" "" "").
Definition later_nonce : string := nonce_key (sms_input e d 2 "" "" "").
Definition later_start : string := start_ip_bucket (ex_draws (xs 4)) (start_request e xs).
Definition later_status (id : string) : string := run_status_bucket e xs id.

(** What the keys used so far leave to the later requests. *)
Definition leaves (m : list string) (rc : Receiver) (kp : ApiKey) : Prop :=
  (hits later_ip m <= 2)%nat /\ hits later_nonce m = 0%nat /\
  (hits (rcv_bucket (ex_draws (xs 5)) rc) m <= 1)%nat /\ (hits (app_bucket (ex_draws (xs 5)) rc) m <= 1)%nat /\
  hits later_start m = 0%nat /\ hits (start_app_bucket (ex_draws (xs 4)) kp) m = 0%nat /\ forall id, hits (later_status id) m = 0%nat.

(** The state once the phone is bound, by this run or before. *)
Record Bound (D : DB) (appId : string) (rc : Receiver) (kp : ApiKey) (phone : NormalizedPhone) (s : Server R) (m : list string) : Prop := {
  bd_same : receivers (db (sw s)) = receivers D /\ apps (db (sw s)) = apps D /\ apiKeys (db (sw s)) = apiKeys D /\
    verifications (db (sw s)) = verifications D /\ webhookEvents (db (sw s)) = webhookEvents D /\ webhookDeliveries (db (sw s)) = webhookDeliveries D;
  bd_binding : exists b, In b (phoneBindings (db (sw s))) /\ verified_binding appId (e164 phone) b = true;
  bd_inbound : forall x, In x (inboundSms (db (sw s))) -> In x (inboundSms D) \/ (i_id x = new_inbound 3 /\ i_idempotencyKey x = key_of 0 "smoke_bind_");
  bd_spent : spent (sr s) (clk 3 8) m;
  bd_room : leaves m rc kp;
}.

(** Keys of two families are different, two nonces give different keys. *)
Ltac apart :=
  lazymatch goal with
  | |- context [String.eqb ?a ?b] =>
      let E := fresh "Ek" in destruct (String.eqb_spec a b) as [E|]; [try (exfalso; by apply (f_equal (fun s => slice_to s 19)) in E)|]
  end.

Ltac count_keys := cbn [List.app]; rewrite !hits_cons; repeat apart; cbn; try lia.

Lemma nonce_keys_apart k k' text text' :
  sd_nonce d k <> sd_nonce d k' -> nonce_key (smoke_input e d (2 * k + 1) k text) <> nonce_key (smoke_input e d (2 * k' + 1) k' text').
Proof.
  intros Hne E. apply Hne. unfold nonce_key, smoke_input, signed_input in E. cbn [h_receiverId h_nonceHeader default gateway LoadRun.lr_id] in E.
  rewrite <- (hexToBuffer_bufferToHex (sd_nonce d k)), <- (hexToBuffer_bufferToHex (sd_nonce d k')). f_equal.
  assert (Hi : forall p a b : string, p ++ a = p ++ b -> a = b) by (intros p a b; induction p; cbn; [done|intros [=]; auto]).
  by do 3 apply Hi in E.
Qed.

Lemma nonces_differ D id :
  Drawn D id -> later_nonce <> nonce_key (beat_input e d) /\
    (forall to body prefix, later_nonce <> nonce_key (sms_input e d 1 to body prefix) /\ nonce_key (sms_input e d 1 to body prefix) <> nonce_key (beat_input e d)).
Proof.
  intros [_ _ _ _ _ _ _ Hn _ _]. rewrite !NoDup_cons, !not_elem_of_cons in Hn. destruct Hn as ((H1n & H2n & _) & (H3n & _) & _).
  split; [|intros to body prefix; split].
  - by apply (nonce_keys_apart 2 0).
  - by apply (nonce_keys_apart 2 1).
  - by apply (nonce_keys_apart 1 0).
Qed.

Lemma e164_length : (5 <= slen (PHONE e) <= 20)%nat -> (3 <= slen (PHONE_E164 (PHONE e)) <= 32)%nat.
Proof.
  intros Hl. unfold PHONE_E164. destruct (startsWith _ "+"); [lia|]. destruct (startsWith _ "0"); rewrite slen_app.
  - rewrite slen_slice_from. change (slen "+963") with 4%nat. lia.
  - change (slen "+") with 1%nat. lia.
Qed.

(** The limits in the form the guards ask for. *)
Lemma limits_nat :
  (2 < Z.to_nat (RATE_LIMIT_INBOUND_PER_IP_PER_MIN cfg))%nat /\ (1 < Z.to_nat (RATE_LIMIT_INBOUND_PER_RECEIVER_PER_MIN cfg))%nat /\
  (1 < Z.to_nat (RATE_LIMIT_INBOUND_PER_APP_PER_MIN cfg))%nat /\ (0 < Z.to_nat (RATE_LIMIT_START_PER_IP_PER_MIN cfg))%nat.
Proof. destruct limits as (? & ? & ? & _), (config_valid_limits _ valid) as (_ & _ & _ & ? & _). lia. Qed.

Lemma already_bound appId rc kp ks phone s :
  Installed (db (sw s)) appId rc kp ks phone -> Drawn (db (sw s)) (r_id rc) -> spent (sr s) (clk 1 4) (run_beat_keys e d xs rc) ->
  (exists b, In b (phoneBindings (db (sw s))) /\ verified_binding appId (e164 phone) b = true) ->
  exists s' m, step_binding server e s = (Return None, s') /\ Bound (db (sw s)) appId rc kp phone s' m.
Proof.
  intros Hi Hdr Hs (b & Hb & Hv). assert (Hd := Hi). destruct Hd as [Hp Ho _ _ _ Hks _ _ Hl Hph _ _]. assert (Hpd := Hp). destruct Hpd as (Hr & Hin & Hen & Hid & _).
  edestruct (binding_runs cfg ps e xs redis_answers (db (sw s)) rc ks appId (clk 1 4) _ s _ _ Hp Hks Hl
    (startBinding_bound cfg _ _ _ _ (binding_input e appId) (sw s) phone rc b Hph Hr Hin
       ltac:(change (receiver_of_app appId (RECEIVER e) rc = true); unfold receiver_of_app; by rewrite Ho, <- Hid, !String.eqb_refl) Hen Hb Hv) eq_refl Hs) as (r & w' & _ & E & Edb & Hs').
  - apply clk_le; lia.
  - unfold run_beat_keys, beat_keys, run_bind_bucket. rewrite !hits_cons. repeat apart. destruct limits as (_ & _ & _ & _ & ? & _). cbn. lia.
  - eexists _, _. split; [exact E|]. constructor; cbn [sw sr] in *; rewrite ?Edb.
    + done.
    + by exists b.
    + by left.
    + eapply spent_later; [exact Hs'|]. apply (clk_le 2 0); lia.
    + unfold leaves, run_beat_keys, beat_keys. repeat split; try (intros id); count_keys. by destruct (nonces_differ _ _ Hdr) as (? & _).
Qed.


(** An inbound row that is new under both of its indexes. *)
Lemma inbound_new id from dbNow sms t :
  ~ In id (map i_id t) -> (forall x, In x t -> i_receiverId x = mi_receiverId sms -> i_idempotencyKey x <> mi_idempotencyKey sms) ->
  broken_by inboundSms_idx (inbound_row id from dbNow sms) t = None.
Proof.
  intros Hid Hkey. apply broken_by_None. constructor; [by apply clashes_pkey|]. constructor; [|constructor].
  apply clashes_false. intros x Hx. cbn. destruct (String.eqb_spec (i_receiverId x) (mi_receiverId sms)) as [Er|]; [|done].
  destruct (String.eqb_spec (i_idempotencyKey x) (mi_idempotencyKey sms)) as [Ek|]; [|done].
  exfalso. by apply (Hkey x Hx).
Qed.

Definition bind_row (D : DB) (appId : string) (phone : NormalizedPhone) : PhoneBindingRow :=
  PhoneBindings.started_row cfg (ulid (ex_draws (xs 2)) PHONE_BINDING_PREFIX) (nonce_bytes (ex_random (xs 2))) (clk 2 2)
    (db_now (ex_draws (xs 2))) (binding_input e appId) (e164 phone).

Definition bind_text : string := "BIND " ++ PhoneBindings.generateNonce (nonce_bytes (ex_random (xs 2))).

(** The message claims the row the start has stored. *)
Lemma claimed_binding D appId rc kp ks phone l w received_at :
  Installed D appId rc kp ks phone -> Drawn D (r_id rc) ->
  (forall b, In b (phoneBindings D) -> verified_binding appId (e164 phone) b = false) ->
  db w = set_rows t_auditLog l (set_rows t_phoneBindings (phoneBindings D ++ [bind_row D appId phone])%list D) ->
  exists w', processInbound cfg (fresh (ex_random (xs 3))) (ulid (ex_draws (xs 3)) INBOUND_PREFIX) (ex_locked (xs 3)) (clk 3 8) (db_now (ex_draws (xs 3)))
      (smoke_sms e d 1 (PHONE_E164 (PHONE e)) bind_text "smoke_bind_" rc received_at) w
    = (Return (MatchedBinding (b_id (bind_row D appId phone)) (new_inbound 3)), w') /\
    receivers (db w') = receivers D /\ apps (db w') = apps D /\ apiKeys (db w') = apiKeys D /\ verifications (db w') = verifications D /\
    webhookEvents (db w') = webhookEvents D /\ webhookDeliveries (db w') = webhookDeliveries D /\
    (exists b, In b (phoneBindings (db w')) /\ verified_binding appId (e164 phone) b = true) /\
    (forall x, In x (inboundSms (db w')) -> In x (inboundSms D) \/ (i_id x = new_inbound 3 /\ i_idempotencyKey x = key_of 0 "smoke_bind_")).
Proof.
  intros [(_ & _ & _ & Hid & _) Ho _ _ _ _ Hb _ _ _ Hs _] [Hnb Hcode _ _ (Hin3 & _) Hkeys _ _ _ _] Hver Ew.
  destruct (bind_sms_claims cfg (fresh (ex_random (xs 3))) (ulid (ex_draws (xs 3)) INBOUND_PREFIX) (ex_locked (xs 3)) (clk 3 8)
    (db_now (ex_draws (xs 3))) (smoke_sms e d 1 (PHONE_E164 (PHONE e)) bind_text "smoke_bind_" rc received_at) w (phoneBindings D)
    (bind_row D appId phone)) as (w' & E & Edb).
  - by rewrite Ew.
  - exact Hb.
  - exact Hcode.
  - exact Hver.
  - exact Hnb.
  - done.
  - apply ti_binding, timely.
  - apply generateNonce_token.
  - done.
  - exact Hid.
  - exact Hs.
  - rewrite Ew. apply inbound_new; [exact Hin3|]. intros x Hx Hr. by apply Hkeys.
  - exists w'. split; [exact E|]. rewrite Edb, Ew. do 6 (split; [reflexivity|]). split.
    + exists (set_bound (clk 3 8) (bind_row D appId phone)). split; [apply in_app_iff; right; by left|].
      unfold verified_binding, bind_row, PhoneBindings.started_row, set_bound. cbn. by rewrite !String.eqb_refl.
    + intros x Hx. apply update_where_In in Hx. destruct Hx as [(x0 & Hx0 & Hi0 & ->)|[Hx0 Hi0]]; apply in_app_iff in Hx0; destruct Hx0 as [Hx0|[<-|[]]].
      * exfalso. apply Hin3. apply in_map_iff. exists x0. apply String.eqb_eq in Hi0. by split.
      * by right.
      * by left.
      * by right.
Qed.

Lemma slen_nonce bytes : slen (PhoneBindings.generateNonce bytes) = 24%nat.
Proof. unfold PhoneBindings.generateNonce. apply draw_chars_length. Qed.

Lemma newly_bound appId rc kp ks phone s :
  Installed (db (sw s)) appId rc kp ks phone -> Drawn (db (sw s)) (r_id rc) -> spent (sr s) (clk 1 4) (run_beat_keys e d xs rc) ->
  (forall b, In b (phoneBindings (db (sw s))) -> verified_binding appId (e164 phone) b = false) ->
  exists s' s2 m, step_binding server e s = (Return (Some bind_text), s') /\ step_bind_sms server e d bind_text s' = (Return tt, s2) /\
    Bound (db (sw s)) appId rc kp phone s2 m.
Proof.
  intros Hi Hdr Hs Hno. assert (Hd := Hi). destruct Hd as [Hp Ho _ _ _ Hks _ _ Hl Hph _ _]. assert (Hpd := Hp). destruct Hpd as (Hr & Hin & Hen & Hid & _).
  destruct (startBinding_new cfg (ulid (ex_draws (xs 2)) PHONE_BINDING_PREFIX) (nonce_bytes (ex_random (xs 2))) (clk 2 2) (db_now (ex_draws (xs 2)))
    (binding_input e appId) (sw s) phone rc Hph Hr Hin
    ltac:(change (receiver_of_app appId (RECEIVER e) rc = true); unfold receiver_of_app; by rewrite Ho, <- Hid, !String.eqb_refl) Hen Hno
    ltac:(apply Hdr)) as (res & Erun & Hres).
  edestruct (binding_runs cfg ps e xs redis_answers (db (sw s)) rc ks appId (clk 1 4) (run_beat_keys e d xs rc) s _ _ Hp Hks Hl Erun) as (r & w' & l & E & Edb & Hs').
  - rewrite Hres. by rewrite (startsWith_app "BIND ").
  - exact Hs.
  - apply clk_le; lia.
  - unfold run_beat_keys, beat_keys, run_bind_bucket. rewrite !hits_cons. repeat apart. destruct limits as (_ & _ & _ & _ & ? & _). cbn. lia.
  - rewrite Hres in E. fold bind_text in E. cbn [db set_db] in Edb.
    destruct (ti_dates timely 2) as [at_ Hz]. assert (Hlim := limits_nat).
    destruct (claimed_binding (db (sw s)) appId rc kp ks phone l w' at_ Hi Hdr Hno Edb) as (w2 & Ew2 & Hsame & Happs & Hkeys & Hv & Hev & Hdl & Hb & Hin2).
    assert (Hpaired : paired cfg e (db w') rc) by by rewrite Edb.
    destruct (nonces_differ _ _ Hdr) as (Hn20 & Hnn). destruct (Hnn (PHONE_E164 (PHONE e)) bind_text "smoke_bind_") as [Hn21 Hn10].
    edestruct (sms_runs cfg ps e d xs hmac_hex redis_answers (ti_forward timely) 1 (PHONE_E164 (PHONE e)) bind_text "smoke_bind_" rc (clk 2 0)
      (run_bind_bucket xs ks :: run_beat_keys e d xs rc) (mkServer w' r (touches s ++ [k_id ks])%list)
      (MatchedBinding (b_id (bind_row (db (sw s)) appId phone)) (new_inbound 3)) w2 at_ Hpaired) as (w3 & r3 & l3 & E3 & Edb3 & Hs3).
    + apply (ti_signed timely). right. by left.
    + exact Hz.
    + by apply e164_length.
    + by apply e164_length.
    + unfold bind_text. rewrite slen_app, slen_nonce. cbn. lia.
    + cbn. lia.
    + apply Hdr.
    + exact Ew2.
    + exact Hs'.
    + apply (clk_le 2 0); lia.
    + unfold run_beat_keys, beat_keys, run_bind_bucket. rewrite !hits_cons. repeat apart; cbn; lia.
    + unfold run_beat_keys, beat_keys, run_bind_bucket. count_keys. by destruct Hn10.
    + unfold run_beat_keys, beat_keys, run_bind_bucket. rewrite !hits_cons. repeat apart; cbn; lia.
    + unfold run_beat_keys, beat_keys, run_bind_bucket. rewrite !hits_cons. repeat apart; cbn; lia.
    + eexists _, (mkServer w3 r3 _), _. split; [exact E|]. split.
      { unfold step_bind_sms. unfold bind at 1. change (2 * 1 + 1)%nat with 3%nat in E3. rewrite E3. reflexivity. }
      constructor; cbn [sw sr]; rewrite ?Edb3.
      * by repeat split.
      * exact Hb.
      * exact Hin2.
      * eapply spent_later; [exact Hs3|]. apply (clk_mono 3 6 8). lia.
      * unfold leaves, run_sms_keys, sms_keys, run_beat_keys, beat_keys, run_bind_bucket. repeat split; try (intros id); count_keys; by destruct Hn20.
Qed.

(** ** The verification *)

Definition started (appId : string) (rc : Receiver) (phone : NormalizedPhone) : Verification :=
  new_row new_verification (clk 4 4 + VERIFICATION_TTL_SECONDS cfg * 1000) (db_now (ex_draws (xs 4)))
    (start_input xs appId (e164 phone)) (picked none rc) (code_of cfg (code_draws (ex_random (xs 4))) 0).

Definition verify_text : string := "VERIFY " ++ code_of cfg (code_draws (ex_random (xs 4))) 0.

(** The heartbeat of this run keeps the receiver healthy until the start. *)
Lemma still_healthy appId rc hb :
  r_appId rc = appId -> r_enabled rc = true -> (clk 1 6 - hb <= RECEIVER_HEARTBEAT_TIMEOUT_SECONDS cfg / 4 * 1000)%Z ->
  healthy cfg (db_now (ex_draws (xs 4))) appId None (set_heartbeat hb rc) = true.
Proof.
  intros Ho Hen Hhb. unfold healthy, set_heartbeat. cbn [r_appId r_enabled r_lastHeartbeatAt r_operator]. rewrite Ho, Hen, String.eqb_refl. cbn [andb].
  rewrite andb_true_r. apply Z.ltb_lt. assert (Hb := ti_heartbeat timely). destruct (config_valid_bounds _ valid) as (_ & _ & _ & _ & _ & _ & Hto).
  Z.to_euclidean_division_equations. lia.
Qed.

Lemma start_phase appId rc kp ks phone D s m :
  Installed D appId rc kp ks phone -> Drawn D (r_id rc) -> Bound D appId rc kp phone s m ->
  healthy cfg (db_now (ex_draws (xs 4))) appId None rc = true ->
  exists s', step_start server e s = (Return (Some (JStr new_verification), verify_text, r_msisdn rc), s') /\
    (exists w l, db (sw s') = set_rows t_auditLog l (db w) /\
       db w = set_rows t_verifications (verifications D ++ [started appId rc phone])%list (db (sw s))) /\
    respects verifications_idx (verifications D ++ [started appId rc phone])%list /\
    spent (sr s') (clk 4 2) (run_start_keys e xs kp ++ m)%list.
Proof.
  intros [(Hr & Hin & Hen & Hid & Hf & Hun) Ho Honly Hm Hkp Hks Hb Hv Hl Hp Hsend Hidle] Hdr
    [(Er & Ea & Ek & Ev & Eev & Edl) (b & Hbin & Hbv) _ Hs (_ & _ & _ & _ & Hl1 & Hl2 & _)] Hh.
  edestruct (startVerification_first cfg (ulid (ex_draws (xs 4)) VERIFICATION_PREFIX) (code_draws (ex_random (xs 4))) (clk 4 4)
    (db_now (ex_draws (xs 4))) (start_input xs appId (e164 phone)) (sw s) b rc valid eq_refl Hbin Hbv) as (Hbr & v & w1 & E & Edb & Eid & Eto & Emsg & Eatt).
  - by rewrite Er.
  - exact Hh.
  - rewrite Er. exact Honly.
  - rewrite Ev. exact Hidle.
  - rewrite Ev. apply Hdr.
  - rewrite Ev in Edb, Hbr. fold new_verification in Edb, Hbr, Eid. fold (started appId rc phone) in Edb, Hbr, Eid, Emsg.
    assert (Hlim := limits_nat). destruct (config_valid_limits _ valid) as (_ & _ & _ & _ & _ & ? & _).
    assert (Hkp' : usable cfg (db (sw s)) (PK e) kp public appId) by (unfold usable, knows, live_key; rewrite Ek, Ea; exact Hkp).
    edestruct (start_runs cfg ps e xs redis_answers (ti_forward timely) kp appId phone (clk 3 8) m s v w1 (r_msisdn rc) _ Hkp' Hl Hp E Eto Emsg Eatt Hs)
      as (w' & r & l & Es & Edb' & Hs'); [apply (clk_le 3 8); lia|unfold later_start in Hl1; lia|lia|].
    rewrite Eid in Es. eexists. split; [exact Es|]. split; [by exists w1, l|]. split; [by apply respects_insert|exact Hs'].
Qed.

Definition done_row (appId : string) (rc : Receiver) (phone : NormalizedPhone) : Verification :=
  set_verified (clk 5 8) (new_inbound 5) (started appId rc phone).

(** The message claims the row of the start; [w] is the world at that time. *)
Lemma claimed_verification D appId rc kp ks phone w received_at :
  Installed D appId rc kp ks phone -> Drawn D (r_id rc) ->
  verifications (db w) = (verifications D ++ [started appId rc phone])%list -> respects verifications_idx (verifications (db w)) ->
  webhookEvents (db w) = webhookEvents D -> webhookDeliveries (db w) = webhookDeliveries D ->
  (forall x, In x (inboundSms (db w)) -> In x (inboundSms D) \/ (i_id x = new_inbound 3 /\ i_idempotencyKey x = key_of 0 "smoke_bind_")) ->
  exists w', processInbound cfg (fresh (ex_random (xs 5))) (ulid (ex_draws (xs 5)) INBOUND_PREFIX) (ex_locked (xs 5)) (clk 5 8) (db_now (ex_draws (xs 5)))
      (smoke_sms e d 2 (r_msisdn rc) verify_text "smoke_" rc received_at) w
    = (Return (Matched new_verification (new_inbound 5)), w') /\
    respects verifications_idx (verifications (db w')) /\ In (done_row appId rc phone) (verifications (db w')) /\
    apiKeys (db w') = apiKeys (db w) /\ apps (db w') = apps (db w).
Proof.
  intros [(_ & _ & _ & Hid & _) Ho _ _ _ _ _ _ _ _ Hs _] [_ _ _ _ (_ & Hin5 & H35) Hkeys Hbytes _ (He1 & He2 & He3) Hlock] Ev Hidx Eev Edl Hsms.
  assert (Hv : In (started appId rc phone) (verifications (db w))) by (rewrite Ev; apply in_app_iff; right; by left).
  destruct (verify_sms_claims cfg (fresh (ex_random (xs 5))) (ulid (ex_draws (xs 5)) INBOUND_PREFIX) (ex_locked (xs 5)) (clk 5 8)
    (db_now (ex_draws (xs 5))) (smoke_sms e d 2 (r_msisdn rc) verify_text "smoke_" rc received_at) w (started appId rc phone) Hidx Hv)
    as (w' & E & Ev' & Ek & Ea); try done.
  - apply ti_verification, timely.
  - by apply code_of_token.
  - unfold fresh_for. by rewrite Eev, Edl.
  - apply inbound_new.
    + rewrite in_map_iff. intros (x & Ex & Hx). apply Hsms in Hx. destruct Hx as [Hx|[Hx _]].
      * apply Hin5. apply in_map_iff. by exists x.
      * apply H35. by rewrite <- Hx.
    + intros x Hx Hr. apply Hsms in Hx. destruct Hx as [Hx|[_ ->]]; [by apply Hkeys|].
      intros Ek. apply (f_equal slen) in Ek. unfold key_of in Ek. cbn [mi_idempotencyKey smoke_sms] in Ek. rewrite !slen_app in Ek.
      rewrite !(proj2 (bufferToHex_hex _)) in Ek. destruct Hbytes as [Hb0 Hb1]. change (2 - 1)%nat with 1%nat in Ek. by rewrite Hb0, Hb1 in Ek.
  - exists w'. split; [exact E|]. split; [|split; [|by split]].
    + rewrite Ev'. apply respects_update; [| |exact Hidx]; intros ix x y [<-|[<-|[]]]; cbn; rewrite ?andb_false_r; done.
    + rewrite Ev'. apply update_where_In. left. exists (started appId rc phone). split; [exact Hv|]. split; [apply String.eqb_refl|done].
Qed.

(** ** The chain *)

(** The heartbeat, on a fresh Redis. *)
Lemma heartbeat_phase appId rc kp ks phone w r ts :
  Installed (db w) appId rc kp ks phone -> Drawn (db w) (r_id rc) -> (forall t k, visible r t k = None) ->
  exists s' hb, step_heartbeat server e d (mkServer w r ts) = (Return tt, s') /\
    let rc' := set_heartbeat hb rc in
    Installed (db (sw s')) appId rc' kp ks phone /\ Drawn (db (sw s')) (r_id rc') /\
    healthy cfg (db_now (ex_draws (xs 4))) appId None rc' = true /\ spent (sr s') (clk 1 4) (run_beat_keys e d xs rc').
Proof.
  intros Hi Hdr Hfresh. assert (Hlim := limits_nat). destruct limits as (_ & _ & _ & Hbeat & _ & Hmax).
  destruct (config_valid_bounds _ valid) as (_ & _ & _ & _ & _ & _ & Hto).
  destruct (heartbeat_runs cfg ps e d xs hmac_hex redis_answers (ti_forward timely) rc (clk 0 0) [] (mkServer w r ts)) as (w' & r' & hb & E & Edb & Hhb & Hs);
    cbn [sw sr]; try (apply Hi); try (cbn; lia); try exact Hmax.
  - apply (ti_signed timely). by left.
  - apply timely.
  - by apply spent_fresh.
  - apply (clk_le 0 0); lia.
  - eexists _, hb. split; [exact E|]. cbv zeta. cbn [sw sr]. rewrite Edb. split; [by apply beat_installed|]. split; [by destruct Hdr|]. split.
    + apply still_healthy; [apply Hi| |exact Hhb]. apply Hi.
    + by rewrite app_nil_r in Hs.
Qed.

(** Both ways through the binding end in a bound phone. *)
Lemma binding_phase appId rc kp ks phone s :
  Installed (db (sw s)) appId rc kp ks phone -> Drawn (db (sw s)) (r_id rc) -> spent (sr s) (clk 1 4) (run_beat_keys e d xs rc) ->
  exists s2 m, Bound (db (sw s)) appId rc kp phone s2 m /\ forall A (rest : Script (Server R) A),
    (let! bindMsg := step_binding server e in
     do! (match bindMsg with Some m => if nonempty m then step_bind_sms server e d m else ret tt | None => ret tt end) in rest) s = rest s2.
Proof.
  intros Hi Hdr Hs. destruct (existsb (verified_binding appId (e164 phone)) (phoneBindings (db (sw s)))) eqn:Eb.
  - apply existsb_exists in Eb. destruct (already_bound appId rc kp ks phone s Hi Hdr Hs Eb) as (s' & m & E & Hb). exists s', m.
    split; [exact Hb|]. intros A rest. unfold bind at 1. rewrite E. reflexivity.
  - destruct (newly_bound appId rc kp ks phone s Hi Hdr Hs) as (s' & s2 & m & E & E2 & Hb).
    { intros b Hb. rewrite <- not_true_iff_false in Eb |- *. intros Hv. apply Eb. apply existsb_exists. by exists b. }
    exists s2, m. split; [exact Hb|]. intros A rest. unfold bind at 1. rewrite E. change (nonempty bind_text) with true. cbn iota. unfold bind at 1. by rewrite E2.
Qed.

Lemma poll_phase appId rc kp ks phone D s m :
  Installed D appId rc kp ks phone -> Drawn D (r_id rc) -> usable cfg (db (sw s)) (SK e) ks secret appId ->
  respects verifications_idx (verifications (db (sw s))) -> In (done_row appId rc phone) (verifications (db (sw s))) ->
  spent (sr s) (clk 5 6) m -> (Z.of_nat (hits (later_status new_verification) m) < RATE_LIMIT_STATUS_PER_IP_PER_MIN cfg)%Z ->
  exists s', poll server e new_verification 0 5 s = (Return tt, s') /\ verifications (db (sw s')) = verifications (db (sw s)).
Proof.
  intros Hi Hdr Hks Hidx Hin Hs Hl.
  destruct (read_verified (clk 6 2) appId secret (sw s) (done_row appId rc phone) Hidx Hin eq_refl eq_refl) as (pv & E & _ & Hst & Hatt).
  edestruct (poll_runs cfg ps e xs redis_answers ks appId (clk 5 6) m s pv (sw s) new_verification 4 Hks (dr_ulid _ _ Hdr) E Hst) as (r & Er).
  - by rewrite Hatt.
  - exact Hs.
  - apply (clk_le 5 6); lia.
  - exact Hl.
  - eexists. split; [exact Er|reflexivity].
Qed.

(** From the bound phone to the end. *)
Lemma verify_phase appId rc kp ks phone D s m s4 :
  Installed D appId rc kp ks phone -> Drawn D (r_id rc) -> Bound D appId rc kp phone s m ->
  (exists w l, db (sw s4) = set_rows t_auditLog l (db w) /\
     db w = set_rows t_verifications (verifications D ++ [started appId rc phone])%list (db (sw s))) ->
  respects verifications_idx (verifications D ++ [started appId rc phone])%list ->
  spent (sr s4) (clk 4 2) (run_start_keys e xs kp ++ m)%list ->
  exists s', (do! step_verify_sms server e d (r_msisdn rc) verify_text in poll server e new_verification 0 5) s4 = (Return tt, s') /\
    In (done_row appId rc phone) (verifications (db (sw s'))).
Proof.
  intros Hi Hdr [(Er & Ea & Ek & Ev & Eev & Edl) _ Hsms _ (H1l & H2l & H3l & H4l & _ & _ & H7l)] (w & l & Edb & Edb') Hidx Hs.
  assert (Hd := Hi). destruct Hd as [Hp _ _ Hm _ Hks _ _ Hl _ _ _]. assert (Hlim := limits_nat).
  destruct (ti_dates timely 4) as [at_ Hz].
  assert (Ep : verifications (db (sw s4)) = (verifications D ++ [started appId rc phone])%list) by by rewrite Edb, Edb'.
  destruct (claimed_verification D appId rc kp ks phone (sw s4) at_ Hi Hdr Ep) as (w5 & E5 & Hidx5 & Hin5 & Ek5 & Ea5).
  { by rewrite Ep. } { by rewrite Edb, Edb'. } { by rewrite Edb, Edb'. } { by rewrite Edb, Edb'. }
  rewrite Edb, Edb' in Ek5, Ea5. cbn [apiKeys apps set_rows t_auditLog t_verifications] in Ek5, Ea5. rewrite Ek in Ek5. rewrite Ea in Ea5.
  edestruct (sms_runs cfg ps e d xs hmac_hex redis_answers (ti_forward timely) 2 (r_msisdn rc) verify_text "smoke_" rc (clk 4 2)
    (run_start_keys e xs kp ++ m)%list s4 (Matched new_verification (new_inbound 5)) w5 at_) as (w6 & r6 & l6 & E6 & Edb6 & Hs6); try assumption.
  - unfold paired. rewrite Edb, Edb'. cbn [receivers set_rows t_auditLog t_verifications]. by rewrite Er.
  - apply (ti_signed timely). right. right. by left.
  - by apply e164_length.
  - destruct (code_of_token cfg (code_draws (ex_random (xs 4))) 0 valid) as [Hc _]. unfold verify_text. rewrite slen_app. cbn. lia.
  - cbn. lia.
  - apply Hdr.
  - apply (clk_le 4 2); lia.
  - change (ip_bucket _ _) with later_ip. unfold run_start_keys. cbn [List.app]. rewrite !hits_cons. repeat apart; lia.
  - change (2 * 2 + 1)%nat with 5%nat. unfold run_start_keys. cbn [List.app]. rewrite !hits_cons. repeat apart; lia.
  - change (2 * 2 + 1)%nat with 5%nat. unfold run_start_keys. cbn [List.app]. rewrite !hits_cons. repeat apart; lia.
  - destruct (poll_phase appId rc kp ks phone D (mkServer w6 r6 (touches s4))
      (run_sms_keys e d xs 2 (r_msisdn rc) verify_text "smoke_" rc ++ run_start_keys e xs kp ++ m)%list Hi Hdr) as (s' & E7 & Ev7); cbn [sw sr] in *.
    + unfold usable, knows, live_key. rewrite Edb6. cbn [apiKeys apps set_rows t_auditLog]. by rewrite Ek5, Ea5.
    + by rewrite Edb6.
    + by rewrite Edb6.
    + exact Hs6.
    + unfold run_start_keys, run_sms_keys, sms_keys. cbn [List.app]. rewrite !hits_cons, H7l. clear H1l H2l H3l H4l. destruct (config_valid_limits _ valid) as (_ & _ & _ & _ & ? & _).
      repeat apart; lia.
    + exists s'. split; [|by rewrite Ev7, Edb6].
      unfold bind at 1, step_verify_sms. unfold bind at 1. change (2 * 2 + 1)%nat with 5%nat in E6. rewrite E6. exact E7.
Qed.

Lemma steps_pass appId rc kp ks phone w r ts :
  Installed (db w) appId rc kp ks phone -> Drawn (db w) (r_id rc) -> (forall t k, visible r t k = None) ->
  exists s', smoke_steps server e d (mkServer w r ts) = (Return tt, s') /\ In (done_row appId rc phone) (verifications (db (sw s'))).
Proof.
  intros Hi Hdr Hfresh. unfold smoke_steps. unfold bind at 1. rewrite health_runs by apply timely.
  destruct (heartbeat_phase appId rc kp ks phone w r ts Hi Hdr Hfresh) as (s1 & hb & E1 & Hi1 & Hdr1 & Hh & Hs1).
  unfold bind at 1. rewrite E1. set (rc' := set_heartbeat hb rc) in *.
  destruct (binding_phase appId rc' kp ks phone s1 Hi1 Hdr1 Hs1) as (s2 & m & Hb & ->).
  destruct (start_phase appId rc' kp ks phone _ s2 m Hi1 Hdr1 Hb Hh) as (s4 & E4 & Edb & Hidx & Hs4).
  unfold bind at 1. rewrite E4. cbn iota beta.
  change (template (Some (JStr new_verification))) with new_verification.
  exact (verify_phase appId rc' kp ks phone _ s2 m s4 Hi1 Hdr1 Hb Edb Hidx Hs4).
Qed.
End Pass.

(** C5: The smoke test passes end to end: on an installation with the app, its two keys and
    its only receiver, where the phone is one the script and the server read alike and
    nothing is pending for it, with an empty Redis, limits that let the run's calls
    through, fresh draws and clocks that agree within the skew, the script against the
    assembled server -- health, heartbeat, the ceremony or its 409, start, the two signed
    messages and the poll, each request over the wire and through its guards -- exits
    with 0, and the verification it started is verified in the database. *)
Theorem smoke_passes `{Digest} `{Gcm} `{Redis R} `{Limit1} `{Zod} `{PhoneLib} `{UrlParser} `{Resolver} `{WebAuthnLib}
    cfg ps env d xs appId rc kp ks phone w (r : R) ts :
  let e := smoke_env env in
  missing env = [] -> config_valid cfg = true -> (forall k m, matches_class is_hex 64 64 (hmacSha256Hex k m) = true) ->
  answers (R := R) -> room cfg -> Timely cfg ps d xs -> (forall t k, visible r t k = None) ->
  Installed cfg e (db w) appId rc kp ks phone -> Drawn d xs (db w) (r_id rc) ->
  exists o s', smoke (fun e => SmokeRun.server cfg ps e xs) env d (mkServer w r ts) = (o, s') /\ smoke_exit o = Some 0%Z /\
    exists v, In v (verifications (db (sw s'))) /\ v_id v = new_verification xs /\ v_status v = verified /\
      v_appId v = appId /\ v_phoneE164 v = e164 phone /\ v_verifiedAt v = Some (clk xs 5 8).
Proof.
  intros e Hm Hc Hhex Ha Hroom Ht Hr Hi Hdr. unfold smoke. rewrite Hm.
  destruct (steps_pass cfg ps e d xs Hhex Ha Hc Hroom Ht appId rc kp ks phone w r ts Hi Hdr Hr) as (s' & E & Hv).
  exists (Return tt), s'. split; [exact E|]. split; [reflexivity|]. eexists. split; [exact Hv|]. by repeat split.
Qed.

(** ** Witness *)

Module Example_run.

Definition gw : string := "0123456789abcdef".
Definition pk : string := generateApiKey (fun i => i) "pk_live".
Definition sk : string := generateApiKey (fun i => i) "sk_live".
Definition zod : Zod := {| zod_issues _ _ := JArr []; zod_datetime _ := Some 1000%Z |}.
Definition no_dns : Resolver := {| dnsLookup _ := None |}.

Definition secretHash : string :=
  match wrap (H := plain_gcm) "abcdefghijkl" (MASTER_ENCRYPTION_KEY default_config) gw (Some (receiver_aad "rcv_1")) with
  | Return h => h
  | Throw _ => ""
  end.

Definition rc : Receiver := mkReceiver "rcv_1" "app_1" "Line" None "+963900000001" secretHash true None 0%Z.
Definition kp : ApiKey := mkApiKey "key_1" "app_1" public (key_hash (H := hex_digest) default_config pk) "" None 0 None None.
Definition ks : ApiKey := mkApiKey "key_2" "app_1" secret (key_hash (H := hex_digest) default_config sk) "" None 0 None None.
Definition world : World :=
  mkWorld (mkDB [mkApp "app_1" "a" 0 false] [kp; ks] [rc] [] [] [] [] [] [] [] [] []) [] [].

Definition env (k : string) : option string :=
  match k with
  | "SYROTP_BASE_URL" => Some "http://localhost:3000/"
  | "SYROTP_PUBLIC_KEY" => Some pk
  | "SYROTP_SECRET_KEY" => Some sk
  | "SYROTP_RECEIVER_ID" => Some "rcv_1"
  | "SYROTP_GATEWAY_KEY" => Some gw
  | "SYROTP_PHONE" => Some "+963991234567"
  | _ => None
  end.

Definition ps : Process := {|
  ps_version := None; ps_startedAt := 0; ps_env := {| Ssrf.NODE_ENV := "production"; Ssrf.ALLOW_PRIVATE := "" |};
  ps_WEBAUTHN_ENABLED := None; ps_ADMIN_USER := None; ps_ADMIN_PASSWORD_HASH := None |}.

Definition xs (n : nat) : Exchange := {|
  ex_draws := {| ulid _ := "01" ++ num_to_string (Z.of_nat n); clock i := (1000000 + Z.of_nat n * 20 + Z.of_nat i)%Z;
                 db_now := (1000000 + Z.of_nat n * 20)%Z |};
  ex_random := {| code_draws i j := (i + j)%nat; nonce_bytes i := i; secret_bytes := ""; iv_bytes := ""; challenge_bytes := "";
                  fresh := sample_fresh |};
  ex_locked _ := false; ex_challenge_locked _ := false; ex_ip := "10.0.0.1"; ex_id := "req"; ex_syntax := "" |}.

Definition draws : SmokeDraws := {|
  sd_now n := (1000000 + Z.of_nat n * 20)%Z; sd_nonce n := repeat_char (ascii_of_nat (97 + n)) 16;
  sd_key n := repeat_char (ascii_of_nat (97 + n)) 8 |}.

Definition backend (e : SmokeEnv) : nat -> HttpRequest -> Server Store -> option (Sdk.FetchResult * Server Store) :=
  SmokeRun.server (H := hex_digest) (H0 := plain_gcm) (H3 := zod) (H4 := plain_phones) (H5 := example_parser) (H6 := no_dns)
    (H7 := no_webauthn) default_config ps e xs.

Definition run : outcome Halt unit * Server Store := smoke (H := hex_digest) backend env draws (mkServer world ∅ []).

Definition phone : NormalizedPhone :=
  match normalizePhone (H := plain_phones) "+963991234567" (DEFAULT_PHONE_REGION default_config) with
  | Return n => n
  | Throw _ => {| e164 := ""; national := ""; country := "" |}
  end.

(** The hypotheses at this input. *)
Lemma installed :
  Installed (H := hex_digest) (H0 := plain_gcm) (H4 := plain_phones) default_config (smoke_env env) (db world) "app_1" rc kp ks phone.
Proof.
  assert (Hl : forall k raw kind, In (k, raw, kind) [(kp, pk, public); (ks, sk, secret)] ->
    usable (H := hex_digest) default_config (db world) raw k kind "app_1").
  { intros k raw kind Hin. split; [|destruct Hin as [[= <- <- <-]|[[= <- <- <-]|[]]]; repeat split].
    split; [by repeat constructor|]. split; [by repeat constructor|].
    destruct Hin as [[= <- <- <-]|[[= <- <- <-]|[]]]; (split; [vm_compute; lia|]); (split; [exists 7%nat; split; reflexivity|]);
      (split; [cbn; auto|]); (split; [reflexivity|]); (split; [reflexivity|]);
      exists (mkApp "app_1" "a" 0 false); by repeat split; left. }
  constructor; try reflexivity; try (repeat constructor; fail).
  - intros x [<-|[]] _. reflexivity.
  - apply Hl. by left.
  - apply Hl. right. by left.
  - intros v [].
Qed.

Lemma drawn : Drawn draws xs (db world) (r_id rc).
Proof.
  constructor; try reflexivity; try by intros []; try by intros ? []; try by repeat split.
  - by split; [intros []|split; [intros []|discriminate]].
  - by split.
  - by apply (bool_decide_unpack _).
  - split; [intros []|]. split; [|intros i []]. apply num_to_string_nat_inj.
Qed.

Lemma timely : Timely (H3 := zod) default_config ps draws xs.
Proof.
  constructor; try reflexivity.
  - intros n i. unfold clk. cbn [ex_draws xs clock]. lia.
  - intros n i Hi. unfold clk. cbn [ex_draws xs clock]. lia.
  - intros n k [[= <- <-]|[[= <- <-]|[[= <- <-]|[]]]]; by repeat split.
  - intros i. by exists 1000%Z.
  - vm_compute. discriminate.
Qed.
End Example_run.

Lemma smoke_passes_witness :
  exists o s', Example_run.run = (o, s') /\ smoke_exit o = Some 0%Z /\
    exists v, In v (verifications (db (sw s'))) /\ v_status v = verified /\ v_phoneE164 v = "+963991234567".
Proof.
  destruct (smoke_passes (H := hex_digest) (H0 := plain_gcm) (R := Store) (H3 := Example_run.zod) (H4 := plain_phones) (H5 := example_parser)
    (H6 := Example_run.no_dns) (H7 := no_webauthn) default_config Example_run.ps Example_run.env Example_run.draws Example_run.xs "app_1"
    Example_run.rc Example_run.kp Example_run.ks Example_run.phone Example_run.world ∅ []) as (o & s' & E & Ex & v & Hv & _ & Hst & _ & Hph & _).
  - reflexivity.
  - vm_compute. reflexivity.
  - exact hex_digest_hex.
  - intros k s t r. unfold incr_expire_nx. cbn. unfold store_incr. destruct (store_visible _ _ _) as [[]|]; by eexists.
  - by repeat split.
  - exact Example_run.timely.
  - done.
  - exact Example_run.installed.
  - exact Example_run.drawn.
  - exists o, s'. split; [exact E|]. split; [exact Ex|]. exists v. split; [exact Hv|]. split; [exact Hst|exact Hph].
Defined.
