(* ===== verification/SmokeSound.v ===== *)
(** * What the smoke test means

    [smoke_sound]: whatever stands behind the URL, a run that exits with 0 has seen the
    right answers; its exit codes; and what [syrotp smoke] makes of them.  Last, two runs
    that fail against a server in good order. *)

From stdpp Require Import gmap strings.
From S2P Require Import Prelude JsString Json JsonParse Errors Phone Crypto Ssrf Aead Config Schema Webhooks RateLimit Server Wire Client Probe Sdk Cli Commands Assembled LoadPrep Isolation Smoke SmokeRun SmokePass.
From Stdlib Require Import String Ascii.

Open Scope string_scope.
Open Scope js_scope.

(** ** Running a script backwards *)

Section Backwards.
Context {S : Type}.

Lemma bind_Return {A B} (m : Script S A) (k : A -> Script S B) s b s' :
  bind m k s = (Return b, s') -> exists a s1, m s = (Return a, s1) /\ k a s1 = (Return b, s').
Proof. unfold bind. destruct (m s) as [[a|h] s1] eqn:E; [by exists a, s1|done]. Qed.

Lemma check_Return cond msg (s s' : S) u : check cond msg s = (Return u, s') -> cond = true /\ s' = s.
Proof. destruct cond; [|done]. by intros [= _ <-]. Qed.

Lemma prop_Return k j (s s' : S) v : prop k j s = (Return v, s') -> js_get k j = Return v /\ s' = s.
Proof. unfold prop. destruct (js_get k j) as [v'|err] eqn:E; [by intros [= -> <-]|done]. Qed.
End Backwards.

Lemma is_text_iff v t : is_text v t = true <-> v = Some (JStr t).
Proof.
  destruct v as [[| | |s| |]|]; cbn; try done. rewrite String.eqb_eq. split; [by intros ->|by intros [= ->]].
Qed.

Lemma is_true_iff v : Smoke.is_true v = true <-> v = Some (JBool true).
Proof. destruct v as [[|[]| | | |]|]; cbn; done. Qed.

(** ** What a run has seen *)

Section Sound.
Context `{Digest} {S : Type} (server : nat -> HttpRequest -> S -> option (FetchResult * S)) (e : SmokeEnv) (d : SmokeDraws).

Lemma poll_seen id n i s s' :
  poll server e id i n s = (Return tt, s') ->
  exists k s1 j, (i <= k < i + n)%nat /\
    jsonFetch server e (6 + k) "GET" ("/v1/verifications/" ++ encodeURIComponent id) (bearer (SK e)) None s1 = (Return (200%Z, j), s') /\
    js_get "status" j = Return (Some (JStr "verified")).
Proof.
  revert i s. induction n as [|n IH]; intros i s E; [discriminate|]. cbn [poll] in E.
  apply bind_Return in E. destruct E as ([st j] & s1 & E1 & E). apply bind_Return in E. destruct E as (u & s2 & E2 & E).
  apply check_Return in E2. destruct E2 as [E2 ->]. apply Z.eqb_eq in E2. cbn in E2. subst st.
  apply bind_Return in E. destruct E as (v & s2 & E2 & E). apply prop_Return in E2. destruct E2 as [E2 ->]. cbn in E2.
  destruct (is_text v "verified") eqn:Ev.
  - injection E as <-. apply is_text_iff in Ev. subst v. exists i, s, j. split; [lia|done].
  - apply IH in E. destruct E as (k & s2 & j2 & Hk & E). exists k, s2, j2. split; [lia|done].
Qed.

(** The answer of the health route. *)
Definition health_seen (s s' : S) : Prop :=
  exists j, jsonFetch server e 0 "GET" "/v1/health" [] None s = (Return (200%Z, j), s') /\ js_get "status" j = Return (Some (JStr "ok")).

Lemma health_step_seen s s' : step_health server e s = (Return tt, s') -> health_seen s s'.
Proof.
  intros E. apply bind_Return in E. destruct E as ([st j] & s1 & E1 & E). cbn [fst snd] in E.
  destruct (Z.eqb_spec st 200) as [->|]; [|done].
  apply bind_Return in E. destruct E as (v & s2 & E2 & E). apply prop_Return in E2. destruct E2 as [E2 ->].
  apply check_Return in E. destruct E as [Ev ->]. apply is_text_iff in Ev. subst v. by exists j.
Qed.

(** A message that was posted and said to match. *)
Definition matched_seen (n k : nat) (to body prefix : string) (s s' : S) : Prop :=
  exists j, post_sms server e d n k to body prefix s = (Return (202%Z, j), s') /\ js_get "matched" j = Return (Some (JBool true)).

Lemma sms_step_seen n k to body prefix (failed no_match : Z * json -> string) s s' :
  (let! r := post_sms server e d n k to body prefix in
   do! check (fst r =? 202)%Z (failed r) in
   let! matched := prop "matched" (snd r) in
   check (Smoke.is_true matched) (no_match r)) s = (Return tt, s') -> matched_seen n k to body prefix s s'.
Proof.
  intros E. apply bind_Return in E. destruct E as ([st j] & s1 & E1 & E). cbn [fst snd] in E.
  apply bind_Return in E. destruct E as (u & s2 & E2 & E). apply check_Return in E2. destruct E2 as [E2 ->]. apply Z.eqb_eq in E2. subst st.
  apply bind_Return in E. destruct E as (v & s2 & E2 & E). apply prop_Return in E2. destruct E2 as [E2 ->].
  apply check_Return in E. destruct E as [Ev ->]. apply is_true_iff in Ev. subst v. by exists j.
Qed.

(** The phone is bound: the server said so, or gave a message that it then matched. *)
Definition bound_seen (s s' : S) : Prop :=
  let answer st j s1 := jsonFetch server e 2 "POST" "/v1/phone-bindings/start" (bearer (SK e))
    (Some (stringify (JObj [("phone", JStr (PHONE e)); ("receiver_id", JStr (RECEIVER e))]))) s = (Return (st, j), s1) in
  (exists j, answer 409%Z j s' /\ optional_field "code" (optional_field "error" (Some j)) = Some (JStr "already_bound")) \/
  (exists j s1 m, answer 201%Z j s1 /\ js_get "bind_message" j = Return (Some (JStr m)) /\ startsWith m "BIND " = true /\
     matched_seen 3 1 (PHONE_E164 (PHONE e)) m "smoke_bind_" s1 s').

Lemma bind_text_nonempty m : startsWith m "BIND " = true -> nonempty m = true.
Proof. by destruct m. Qed.

Lemma binding_step_seen s s1 s' bindMsg :
  step_binding server e s = (Return bindMsg, s1) ->
  (match bindMsg with Some m => if nonempty m then step_bind_sms server e d m else ret tt | None => ret tt end) s1 = (Return tt, s') ->
  bound_seen s s'.
Proof.
  intros E E'. apply bind_Return in E. destruct E as ([st j] & s2 & E2 & E). cbn [fst snd] in E.
  destruct ((st =? 409)%Z && _) eqn:Eb.
  - injection E as <- <-. injection E' as <-. apply andb_true_iff in Eb. destruct Eb as [E409 Eb]. apply Z.eqb_eq in E409. subst st.
    apply is_text_iff in Eb. left. by exists j.
  - apply bind_Return in E. destruct E as (u & s3 & E3 & E). apply check_Return in E3. destruct E3 as [E3 ->]. apply Z.eqb_eq in E3. subst st.
    apply bind_Return in E. destruct E as (v & s3 & E3 & E). apply prop_Return in E3. destruct E3 as [E3 ->].
    destruct v as [[| | |m| |]|]; try done. destruct (startsWith m "BIND ") eqn:Em; [|done]. injection E as <- <-.
    rewrite bind_text_nonempty in E' by done. right. exists j, s2, m. do 3 (split; [done|]).
    by apply sms_step_seen in E'.
Qed.

(** The verification that was started. *)
Definition start_seen (id : option json) (m to : string) (s s' : S) : Prop :=
  exists j, jsonFetch server e 4 "POST" "/v1/verifications" (bearer (PK e))
              (Some (stringify (JObj [("phone", JStr (PHONE e)); ("purpose", JStr "smoke")]))) s = (Return (201%Z, j), s') /\
    js_get "message" j = Return (Some (JStr m)) /\ startsWith m "VERIFY " = true /\ js_get "send_to" j = Return (Some (JStr to)) /\
    js_get "id" j = Return id.

Lemma start_step_seen s s' id m to : step_start server e s = (Return (id, m, to), s') -> start_seen id m to s s'.
Proof.
  intros E. apply bind_Return in E. destruct E as ([st j] & s1 & E1 & E). cbn [fst snd] in E.
  apply bind_Return in E. destruct E as (u & s2 & E2 & E). apply check_Return in E2. destruct E2 as [E2 ->]. apply Z.eqb_eq in E2. subst st.
  apply bind_Return in E. destruct E as (v & s2 & E2 & E). apply prop_Return in E2. destruct E2 as [E2 ->].
  destruct v as [[| | |m'| |]|]; try done.
  apply bind_Return in E. destruct E as (u' & s2 & E3 & E). apply check_Return in E3. destruct E3 as [Em ->].
  apply bind_Return in E. destruct E as (v & s2 & E3 & E). apply prop_Return in E3. destruct E3 as [E3 ->].
  destruct v as [[| | |to'| |]|]; try done.
  apply bind_Return in E. destruct E as (v & s2 & E4 & E). apply prop_Return in E4. destruct E4 as [E4 ->].
  injection E as <- <- <- <-. by exists j.
Qed.

(** The last answer: 200, verified. *)
Definition verified_seen (id : option json) (s' : S) : Prop :=
  exists k s1 j, (k < 5)%nat /\
    jsonFetch server e (6 + k) "GET" ("/v1/verifications/" ++ encodeURIComponent (template id)) (bearer (SK e)) None s1 = (Return (200%Z, j), s') /\
    js_get "status" j = Return (Some (JStr "verified")).

Definition beat_seen (s s' : S) : Prop :=
  let body := stringify (JObj [("received_at", JStr (toISOString (sd_now d 0)))]) in
  exists j, jsonFetch server e 1 "POST" ("/v1/receivers/" ++ encodeURIComponent (RECEIVER e) ++ "/heartbeat")
              (sign (sd_now d 1) (sd_nonce d 0) (RECEIVER e) (GW_KEY e) body) (Some body) s = (Return (200%Z, j), s').

Lemma steps_seen s s' :
  smoke_steps server e d s = (Return tt, s') ->
  exists s1 s2 s3 s4 s5 id m to, health_seen s s1 /\ beat_seen s1 s2 /\ bound_seen s2 s3 /\ start_seen id m to s3 s4 /\
    matched_seen 5 2 to m "smoke_" s4 s5 /\ verified_seen id s'.
Proof.
  intros E. apply bind_Return in E. destruct E as ([] & s1 & E1 & E). apply health_step_seen in E1.
  apply bind_Return in E. destruct E as ([] & s2 & E2 & E).
  apply bind_Return in E. destruct E as (bindMsg & s3' & E3 & E). apply bind_Return in E. destruct E as ([] & s3 & E3' & E).
  apply (binding_step_seen _ _ _ _ E3) in E3'.
  apply bind_Return in E. destruct E as ([[id m] to] & s4 & E4 & E). apply start_step_seen in E4.
  apply bind_Return in E. destruct E as ([] & s5 & E5 & E).
  apply poll_seen in E. destruct E as (k & s6 & j & Hk & E).
  exists s1, s2, s3, s4, s5, id, m, to. split; [done|]. split; [|split; [done|split; [done|split]]].
  - unfold step_heartbeat in E2. apply bind_Return in E2. destruct E2 as ([st j'] & s7 & E7 & E2). cbn [fst snd] in E2.
    apply check_Return in E2. destruct E2 as [E2 ->]. apply Z.eqb_eq in E2. subst st. by exists j'.
  - by apply sms_step_seen in E5.
  - exists k, s6, j. split; [lia|done].
Qed.

End Sound.

(** C17: What a passed smoke test means, whatever server stands behind the URL: a run that
    returns had all six variables set, the health route said ok, the heartbeat was taken,
    the phone was bound before or by a message the server said it matched, the start gave
    a VERIFY message and a destination, the server said it matched that message, and one
    of at most five reads of the started verification answered 200 with status
    verified. *)
Theorem smoke_sound `{Digest} {S} (server : SmokeEnv -> nat -> HttpRequest -> S -> option (FetchResult * S)) env d s s' :
  smoke server env d s = (Return tt, s') ->
  let e := smoke_env env in
  (forall k, In k REQUIRED -> exists t, env k = Some t /\ t <> "") /\
  exists s1 s2 s3 s4 s5 id m to, health_seen (server e) e s s1 /\ beat_seen (server e) e d s1 s2 /\ bound_seen (server e) e d s2 s3 /\
    start_seen (server e) e id m to s3 s4 /\ matched_seen (server e) e d 5 2 to m "smoke_" s4 s5 /\ verified_seen (server e) e id s'.
Proof.
  unfold smoke. destruct (missing env) as [|k ks] eqn:Em; [|done]. intros E. cbv zeta. split; [|by apply steps_seen].
  intros k Hk. destruct (bool_decide (is_Some (truthy_string (env k)))) eqn:Eb.
  - apply bool_decide_eq_true in Eb. destruct Eb as [t Et]. unfold truthy_string in Et. destruct (env k) as [u|]; [|done]. exists u.
    split; [done|]. by destruct u.
  - assert (Hin : In k (missing env)) by (apply filter_In; split; [done|by rewrite Eb]). by rewrite Em in Hin.
Qed.

(** ** The exit codes *)

(** What a step can end the script with: code 1 and a line, or no code of its own. *)
Definition exits_1 (h : Halt) : Prop := match h with Exit code _ => code = 1%Z | _ => True end.

Section Codes.
Context `{Digest} {S : Type} (server : nat -> HttpRequest -> S -> option (FetchResult * S)) (e : SmokeEnv) (d : SmokeDraws).

Definition halts {A} (m : Script S A) : Prop := forall s h s', m s = (Throw h, s') -> exits_1 h.

Lemma halts_bind {A B} (m : Script S A) (k : A -> Script S B) : halts m -> (forall a, halts (k a)) -> halts (bind m k).
Proof.
  intros Hm Hk s h s'. unfold bind. destruct (m s) as [[a|h'] s1] eqn:E; [apply Hk|]. intros [= <- _]. by apply (Hm s h' s1).
Qed.

Lemma halts_ret {A} (a : A) : halts (ret a).
Proof. by intros s h s'. Qed.

Lemma halts_die {A} msg : halts (A := A) (die msg).
Proof. by intros s h s' [= <- _]. Qed.

Lemma halts_check cond msg : halts (check cond msg).
Proof. destruct cond; [apply halts_ret|apply halts_die]. Qed.

Lemma halts_prop k j : halts (prop k j).
Proof. intros s h s'. unfold prop. destruct (js_get k j); [done|]. by intros [= <- _]. Qed.

Lemma halts_fetch n method path hs body : halts (jsonFetch server e n method path hs body).
Proof.
  intros s h s'. unfold jsonFetch. destruct (server _ _ _) as [[[status text| |] s1]|]; try by intros [= <- _].
  destruct (probe_parse text); [done|]. by intros [= <- _].
Qed.

Lemma halts_poll id n i : halts (poll server e id i n).
Proof.
  revert i. induction n as [|n IH]; intros i; [apply halts_die|]. cbn [poll].
  apply halts_bind; [apply halts_fetch|]. intros r. apply halts_bind; [apply halts_check|]. intros _.
  apply halts_bind; [apply halts_prop|]. intros v. destruct (is_text v "verified"); [apply halts_ret|apply IH].
Qed.

Ltac halting :=
  repeat first
    [ apply halts_ret | apply halts_die | apply halts_check | apply halts_prop | apply halts_fetch | apply halts_poll
    | apply halts_bind; [|intros ?]
    | match goal with |- halts (match ?x with _ => _ end) => destruct x end ].

Lemma halts_steps : halts (smoke_steps server e d).
Proof. unfold smoke_steps, step_health, step_heartbeat, step_binding, step_bind_sms, step_start, step_verify_sms, post_sms. halting. Qed.
End Codes.

(** The script's codes are 0, 1 and 2, and 2 is for the environment alone. *)
Lemma smoke_codes `{Digest} {S} (server : SmokeEnv -> nat -> HttpRequest -> S -> option (FetchResult * S)) env d s o s' code :
  smoke server env d s = (o, s') -> smoke_exit o = Some code ->
  (code = 2%Z /\ missing env <> []) \/ (missing env = [] /\ (code = 0%Z /\ o = Return tt \/ code = 1%Z)).
Proof.
  unfold smoke. destruct (missing env) as [|k ks]; [|intros [= <- _] [= <-]; by left]. intros E Hx. right. split; [done|].
  destruct o as [[]|h]; [injection Hx as <-; by left|]. right. apply halts_steps in E. destruct h; cbn in *; congruence.
Qed.

(** ** [syrotp smoke] *)

Lemma truthy_env_set (env : gmap string string) k : bool_decide (is_Some (truthy_string (env !! k))) = env_set env k.
Proof. unfold env_set, truthy_string. destruct (env !! k) as [t|]; [|done]. by destruct t. Qed.

(** The command and the script ask for the same variables. *)
Lemma same_missing (env : gmap string string) :
  List.filter (fun k => negb (env_set env k)) REQUIRED_ENV = missing (fun k => env !! k).
Proof. unfold missing. change REQUIRED with REQUIRED_ENV. apply filter_ext. intros k. by rewrite truthy_env_set. Qed.

(** [syrotp smoke] in front of the script: when the script, run in the same
    environment, ends with [code], the command without arguments fails with
    MISSING_CONFIG exactly when a variable is missing, with UNREACHABLE exactly when its
    own probe of the health route fails, with RUNTIME when the script fails an
    assertion, and succeeds exactly when all are set, the probe is healthy and the script
    passes; what it maps the script's codes 2 and 3 to never happens. *)
Theorem smoke_command_codes `{Digest} {S} (server : SmokeEnv -> nat -> HttpRequest -> S -> option (FetchResult * S))
    (env : gmap string string) useColor probe_health execPath d (s s1 : S) o code cs :
  smoke server (fun k => env !! k) d s = (o, s1) -> smoke_exit o = Some code ->
  exists r cs', runSmoke env useColor probe_health (fun _ _ => code) execPath [] cs = (r, cs') /\
    cs_world cs' = cs_world cs /\
    match missing (fun k => env !! k), probe_health (default "" (env !! "SYROTP_BASE_URL")) with
    | _ :: _, _ => process_exit r = MISSING_CONFIG /\ code = 2%Z
    | [], Unhealthy _ => process_exit r = UNREACHABLE
    | [], Healthy _ _ => (process_exit r = OK /\ o = Return tt) \/ (process_exit r = RUNTIME /\ code = 1%Z)
    end.
Proof.
  intros E Hx. assert (Hc := smoke_codes _ _ _ _ _ _ _ E Hx). unfold runSmoke, with_flags.
  change (fp_unknown (parseFlags [] [help_flag])) with (@None string). cbn iota.
  change (is_set (fp_values (parseFlags [] [help_flag]) !! "help")) with false. cbn iota.
  change (fp_positionals (parseFlags [] [help_flag])) with (@nil string). cbn iota. rewrite same_missing.
  destruct (missing _) as [|k ks].
  - cbn [List.length Nat.ltb Nat.leb]. destruct Hc as [[_ Hm]|(_ & Hc)]; [done|].
    destruct (probe_health _) as [st ve|reason]; [|eexists _, _; by repeat split].
    destruct Hc as [(-> & ->)| ->]; eexists _, _; (split; [reflexivity|]); (split; [reflexivity|]); [by left|by right].
  - destruct Hc as [[-> _]|[Hm _]]; [|done]. eexists _, _. by repeat split.
Qed.

(** ** Two runs that fail against a server in good order *)

Module Failing_runs.

Import Example_run.

(** An installation whose region is not Syria: a local number is Egyptian. *)
Definition cairo : PhoneLib := {|
  parsePhoneNumberFromString s region :=
    let number := if startsWith s "+" then s else if String.eqb region "EG" && startsWith s "0" then "+20" ++ slice_from s 1 else "+" ++ s in
    Some {| pp_valid := true; pp_type := Some "MOBILE"; pp_number := number; pp_nationalNumber := slice_from number 3; pp_country := None |} |}.

Definition cairo_config : Config := {|
  NODE_ENV := "production"; MASTER_ENCRYPTION_KEY := MASTER_ENCRYPTION_KEY default_config; COOKIE_SECRET := COOKIE_SECRET default_config;
  VERIFICATION_TTL_SECONDS := 600; VERIFICATION_CODE_LENGTH := 6; MAX_PENDING_PER_PHONE := 3;
  RATE_LIMIT_START_PER_IP_PER_MIN := 10; RATE_LIMIT_STATUS_PER_IP_PER_MIN := 60;
  RATE_LIMIT_INBOUND_PER_RECEIVER_PER_MIN := 120; RATE_LIMIT_INBOUND_PER_IP_PER_MIN := 600;
  RATE_LIMIT_HEARTBEAT_PER_RECEIVER_PER_MIN := 6; RATE_LIMIT_VERIFICATIONS_PER_APP_PER_MIN := 500;
  RATE_LIMIT_INBOUND_PER_APP_PER_MIN := 1000; RATE_LIMIT_BINDINGS_PER_APP_PER_MIN := 60; RATE_LIMIT_CANCEL_PER_APP_PER_MIN := 60;
  RATE_LIMIT_WEBHOOK_CRUD_PER_APP_PER_MIN := 30; RATE_LIMIT_BINDING_READ_PER_APP_PER_MIN := 60;
  RATE_LIMIT_BINDING_REVOKE_PER_APP_PER_MIN := 30; RATE_LIMIT_WEBAUTHN_PER_APP_PER_MIN := 30;
  RECEIVER_HEARTBEAT_TIMEOUT_SECONDS := 120; INBOUND_TIMESTAMP_SKEW_SECONDS := 300;
  TRUST_PROXY := false; TRUSTED_PROXIES := TRUSTED_PROXIES default_config; DEFAULT_PHONE_REGION := "EG";
  WEBHOOK_ALLOW_PRIVATE_FOR_TESTS := false; WEBAUTHN_ENABLED := false; WEBAUTHN_RP_ID := None; WEBAUTHN_RP_NAME := None;
  WEBAUTHN_ORIGINS := ""; WEBAUTHN_CHALLENGE_TTL_SECONDS := 300; RATE_LIMIT_ADMIN_PER_IP_PER_5MIN := 10;
  HOSTED_PAGE_ENABLED := true; PHONE_BINDING_TTL_SECONDS := 300 |}.

Definition with_phone (phone k : string) : option string := if String.eqb k "SYROTP_PHONE" then Some phone else env k.

Definition run_of (P : PhoneLib) (c : Config) (w : World) (env : string -> option string) : option Z :=
  smoke_exit (fst (smoke (H := hex_digest)
    (fun e => SmokeRun.server (H := hex_digest) (H0 := plain_gcm) (R := Store) (H3 := zod) (H4 := P) (H5 := example_parser) (H6 := no_dns)
                (H7 := no_webauthn) c ps e xs) env draws (mkServer w ∅ []))).

(** A second receiver of the same app, healthy and with no verification on it. *)
Definition second : Receiver := mkReceiver "rcv_0" "app_1" "Other" None "+963900000002" secretHash true (Some 1000000%Z) 0%Z.
Definition busy : Verification :=
  mkVerification "vrf_1" "app_1" "+963990000000" "login" None None "rcv_1" (Some "+963900000001") None "AAAAAA" "VERIFY" pending 0 9000000
    None None None None 0.
Definition two_receivers : World :=
  mkWorld (mkDB [mkApp "app_1" "a" 0 false] [kp; ks] [rc; second] [busy] [] [] [] [] [] [] [] []) [] [].
End Failing_runs.

(** The header offers a local number; the script reads it as a Syrian one whatever the
    server's region is. *)
Lemma local_phone_other_region :
  boots Failing_runs.cairo_config = true /\
  Failing_runs.run_of Failing_runs.cairo Failing_runs.cairo_config Example_run.world (Failing_runs.with_phone "+201001234567") = Some 0%Z /\
  Failing_runs.run_of Failing_runs.cairo Failing_runs.cairo_config Example_run.world (Failing_runs.with_phone "01001234567") = Some 1%Z.
Proof. vm_compute. done. Qed.

(** The verification goes to the receiver with the fewest pending ones; the script sends its message
    from the receiver of its environment. *)
Lemma second_receiver_fails_smoke :
  Failing_runs.run_of plain_phones default_config Example_run.world Example_run.env = Some 0%Z /\
  Failing_runs.run_of plain_phones default_config Failing_runs.two_receivers Example_run.env = Some 1%Z.
Proof. vm_compute. done. Qed.

(** ** Witnesses *)

Lemma pair_fst {A B} (p : A * B) a : fst p = a -> p = (a, snd p).
Proof. destruct p. by intros <-. Qed.

Abbreviation example_run := (smoke (H := hex_digest) Example_run.backend Example_run.env Example_run.draws (mkServer Example_run.world ∅ [])).

Lemma run_returns : fst example_run = Return tt.
Proof. vm_compute. reflexivity. Qed.

Lemma smoke_sound_witness :
  exists s' id, example_run = (Return tt, s') /\ verified_seen (Example_run.backend (smoke_env Example_run.env)) (smoke_env Example_run.env) id s'.
Proof.
  assert (E := pair_fst _ _ run_returns).
  destruct (smoke_sound (H := hex_digest) _ _ _ _ _ E) as (_ & _ & _ & _ & _ & _ & id & _ & _ & _ & _ & _ & _ & _ & Hv).
  exists (snd example_run), id. split; [exact E|exact Hv].
Defined.

Definition smoke_shell : gmap string string :=
  {[ "SYROTP_BASE_URL" := "http://localhost:3000/"; "SYROTP_PUBLIC_KEY" := Example_run.pk; "SYROTP_SECRET_KEY" := Example_run.sk;
     "SYROTP_RECEIVER_ID" := "rcv_1"; "SYROTP_GATEWAY_KEY" := Example_run.gw; "SYROTP_PHONE" := "+963991234567" ]}.

Definition shell_run : outcome Halt unit * Server Store :=
  smoke (H := hex_digest) Example_run.backend (fun k => smoke_shell !! k) Example_run.draws (mkServer Example_run.world ∅ []).

Lemma shell_run_passes : smoke_exit (fst shell_run) = Some 0%Z.
Proof. vm_compute. reflexivity. Qed.

Lemma smoke_command_codes_witness :
  exists r cs', runSmoke smoke_shell false (fun _ => Healthy (JStr "ok") (JStr "0.1.0")) (fun _ _ => 0%Z) "node" [] (mkCli Example_run.world [])
                = (r, cs') /\ process_exit r = OK.
Proof.
  destruct (smoke_command_codes (H := hex_digest) Example_run.backend smoke_shell false (fun _ => Healthy (JStr "ok") (JStr "0.1.0")) "node" Example_run.draws
    (mkServer Example_run.world (∅ : Store) []) (snd shell_run) (fst shell_run) 0%Z (mkCli Example_run.world [])
    (surjective_pairing shell_run) shell_run_passes)
    as (r & cs' & E & _ & Hc).
  exists r, cs'. split; [exact E|]. change (missing (fun k => smoke_shell !! k)) with (@nil string) in Hc.
  destruct Hc as [(Hr & _)|(_ & Hc)]; [exact Hr|discriminate].
Defined.
