(* ===== verification/Migrate.v ===== *)
(** * The migration runner: [db/migrate.ts]

    The runner walks the [.sql] files of the migrations directory in the order of their
    names and applies each that the table [_syrotp_migrations] does not list, in a
    transaction with the row that lists it.  What the database server does with the text
    of a file is an argument: it leaves another schema or refuses.  [migrate] is one
    run; [step] is any number of runs at once, each of which can die between two
    statements.  The time a row is written and the connection are left out. *)

From stdpp Require Import strings relations.
From S2P Require Import Prelude JsString Json JsNumber Errors Schema Webhooks.
From Stdlib Require Import String Ascii Sorting.Sorted.

Open Scope string_scope.
Open Scope js_scope.

(** ** The checksum *)

Definition js_xor (a b : Z) : Z := to_int32 (Z.lxor (to_uint32 a) (to_uint32 b)).
Definition Math_imul (a b : Z) : Z := to_int32 (to_uint32 a * to_uint32 b).

(** A digit of [toString(16)]. *)
Definition radix_digit (d : Z) : ascii := ascii_of_nat (Z.to_nat (if (d <? 10)%Z then 48 + d else 87 + d)).

(** [n.toString(16)] of a number below 16 to the power of [fuel]. *)
Fixpoint radix16 (fuel : nat) (n : Z) : string :=
  match fuel with
  | 0%nat => ""
  | S fuel => (if (n <? 16)%Z then "" else radix16 fuel (n / 16)) ++ String (radix_digit (n mod 16)) ""
  end.

Fixpoint hash_loop (h : Z) (s : string) : Z :=
  match s with
  | EmptyString => h
  | String c s' => hash_loop (Math_imul (js_xor h (Z.of_nat (code c))) 16777619) s'
  end.

Definition simpleHash (s : string) : string := radix16 8 (js_ushr (hash_loop 2166136261 s) 0).

(** ** The database and the directory *)

(** A file of the directory: its name and its text. *)
Abbreviation file := (string * string)%type.

(** The rows of [_syrotp_migrations], name and checksum, once the table is there. *)
Record Database (T : Type) : Type := mkDatabase { schema : T; migrations : option (list (string * string)) }.
Arguments mkDatabase {T}.
Arguments schema {T}.
Arguments migrations {T}.

Section Runner.
Context {T : Type} (execute : string -> T -> outcome exn T).

Record Run : Type := mkRun { run_db : Database T; run_out : list string }.

Abbreviation RunM := (M exn Run).

Definition log (line : string) : RunM unit := modify (fun r => mkRun (run_db r) (run_out r ++ [line])%list).

Definition rows (D : Database T) : list (string * string) := default [] (migrations D).

(** [CREATE TABLE IF NOT EXISTS] *)
Definition create_table (D : Database T) : Database T := mkDatabase (schema D) (Some (rows D)).

(** [SELECT name FROM _syrotp_migrations WHERE name = ${file}] *)
Definition listed (name : string) (D : Database T) : bool := existsb (fun row => String.eqb (fst row) name) (rows D).

(** The transaction of a file: its text, then its row, whose name is the primary key. *)
Definition apply_file (f : file) (D : Database T) : outcome exn (Database T) :=
  match execute (snd f) (schema D) with
  | Throw e => Throw e
  | Return s =>
      if listed (fst f) D then Throw (UniqueViolation "_syrotp_migrations_pkey")
      else Return (mkDatabase s (Some (rows D ++ [(fst f, simpleHash (snd f))])%list))
  end.

(** [readdir(..)].filter(..).sort() *)
Definition before_name (a b : file) : bool := String.ltb (fst a) (fst b).
Definition sql_files (dir : list file) : list file :=
  order_by before_name (List.filter (fun f => endsWith (fst f) ".sql") dir).

Definition run_file (f : file) : RunM unit := fun r =>
  match apply_file f (run_db r) with
  | Return D => (Return tt, mkRun D (run_out r))
  | Throw e => (Throw e, r)
  end.

Fixpoint run_files (files : list file) : RunM unit :=
  match files with
  | [] => ret tt
  | f :: rest =>
      let! applied := gets (fun r => listed (fst f) (run_db r)) in
      do! (if applied : bool then log ("[migrate] skip " ++ fst f ++ " (already applied)")
           else do! run_file f in log ("[migrate] applied " ++ fst f)) in
      run_files rest
  end.

Definition migrate (dir : list file) : RunM unit :=
  do! modify (fun r => mkRun (create_table (run_db r)) (run_out r)) in
  do! run_files (sql_files dir) in
  log "[migrate] done".

(** [main().catch(..)] *)
Definition migrate_exit (o : outcome exn unit) : Z := match o with Return _ => 0 | Throw _ => 1 end.

(** ** Several runs at once *)

Inductive Phase : Type := Creating | Checking | Transacting.

(** A run under way: what it does next, for the first of the files left. *)
Record Runner : Type := mkRunner { ru_phase : Phase; ru_files : list file }.

Definition start_run (dir : list file) : Runner := mkRunner Creating (sql_files dir).

(** One statement or transaction of a run; a run that ends or fails is gone. *)
Definition runner_step (r : Runner) (D : Database T) : option Runner * Database T :=
  match ru_phase r, ru_files r with
  | Creating, files => (Some (mkRunner Checking files), create_table D)
  | Checking, [] => (None, D)
  | Checking, f :: rest => (Some (if listed (fst f) D then mkRunner Checking rest else mkRunner Transacting (f :: rest)), D)
  | Transacting, [] => (None, D)
  | Transacting, f :: rest =>
      match apply_file f D with
      | Return D' => (Some (mkRunner Checking rest), D')
      | Throw _ => (None, D)
      end
  end.

Record State : Type := mkState { database : Database T; runners : list Runner }.

Definition the_runner (o : option Runner) : list Runner := match o with Some r => [r] | None => [] end.

(** The directories the runs may find. *)
Inductive step (releases : list file -> Prop) : State -> State -> Prop :=
  | step_start dir D rs : releases dir -> step releases (mkState D rs) (mkState D (rs ++ [start_run dir])%list)
  | step_act D rs r rs' : step releases (mkState D (rs ++ r :: rs')%list)
      (mkState (snd (runner_step r D)) (rs ++ the_runner (fst (runner_step r D)) ++ rs')%list)
  | step_crash D rs r rs' : step releases (mkState D (rs ++ r :: rs')%list) (mkState D (rs ++ rs')%list).

(** The texts of the files, one after the other. *)
Fixpoint execute_all (files : list file) (s : T) : outcome exn T :=
  match files with
  | [] => Return s
  | f :: rest => match execute (snd f) s with Return s' => execute_all rest s' | Throw e => Throw e end
  end.

(** The table lists the files [h], and the schema is what their texts make of [s0]. *)
Definition results_from (s0 : T) (h : list file) (D : Database T) : Prop :=
  rows D = map (fun f => (fst f, simpleHash (snd f))) h /\ execute_all h s0 = Return (schema D).

(** ** What the table says *)

Lemma execute_all_snoc h f s0 s : execute_all h s0 = Return s -> execute_all (h ++ [f]) s0 = execute (snd f) s.
Proof.
  revert s0. induction h as [|g h IH]; intros s0; cbn [execute_all List.app]; [intros [= ->]; by destruct (execute (snd f) s)|].
  destruct (execute (snd g) s0) as [s'|e]; [apply IH|done].
Qed.

Lemma execute_all_prefix h h' s0 s : execute_all (h ++ h') s0 = Return s -> exists s', execute_all h s0 = Return s' /\ execute_all h' s' = Return s.
Proof.
  revert s0. induction h as [|g h IH]; intros s0; cbn [execute_all List.app]; [by exists s0|].
  destruct (execute (snd g) s0) as [s'|e]; [apply IH|done].
Qed.

Lemma results_empty s0 : results_from s0 [] (mkDatabase s0 None).
Proof. done. Qed.

Lemma results_create s0 h D : results_from s0 h D -> results_from s0 h (create_table D).
Proof. done. Qed.

Lemma results_listed s0 h D name : results_from s0 h D -> listed name D = true <-> In name (map fst h).
Proof.
  intros [E _]. unfold listed. rewrite E, existsb_exists. setoid_rewrite in_map_iff. split.
  - intros (row & (f & <- & Hf) & Hn). apply String.eqb_eq in Hn. by exists f.
  - intros (f & <- & Hf). exists (fst f, simpleHash (snd f)). split; [by exists f|apply String.eqb_refl].
Qed.

(** A transaction that commits adds the file, which was not listed. *)
Lemma results_apply s0 h D f D' :
  results_from s0 h D -> apply_file f D = Return D' -> results_from s0 (h ++ [f]) D' /\ ~ In (fst f) (map fst h).
Proof.
  intros Hr. assert (Hl := results_listed s0 h D (fst f) Hr). destruct Hr as [E Hx]. unfold apply_file.
  destruct (execute (snd f) (schema D)) as [s|e] eqn:Ex; [|done]. destruct (listed (fst f) D) eqn:El; [done|]. intros [= <-].
  split; [split|].
  - cbn [rows migrations default]. by rewrite map_app, E.
  - by rewrite (execute_all_snoc h f s0 _ Hx).
  - intros Hin. apply Hl in Hin. congruence.
Qed.

(** ** Each file once *)

(** The runs under way have files of a release left. *)
Definition of_release (releases : list file -> Prop) (r : Runner) : Prop :=
  exists dir, releases dir /\ forall f, In f (ru_files r) -> In f (sql_files dir).

Definition applied_once (releases : list file -> Prop) (s0 : T) (s : State) : Prop :=
  (exists h, results_from s0 h (database s) /\ NoDup (map fst h) /\ forall f, In f h -> exists dir, releases dir /\ In f (sql_files dir)) /\
  List.Forall (of_release releases) (runners s).

Lemma of_release_rest releases p p' f rest : of_release releases (mkRunner p (f :: rest)) -> of_release releases (mkRunner p' rest).
Proof. intros (dir & Hd & Hf). exists dir. split; [done|]. intros g Hg. apply Hf. by right. Qed.

Lemma applied_once_step releases s0 s s' : step releases s s' -> applied_once releases s0 s -> applied_once releases s0 s'.
Proof.
  intros [dir D rs Hdir|D rs r rs'|D rs r rs'] [(h & Hr & Hn & Hh) Hrs]; cbn [database runners] in *.
  - split; [by exists h|]. apply List.Forall_app. split; [done|]. repeat constructor. by exists dir.
  - apply List.Forall_app in Hrs. destruct Hrs as [H1 H2]. apply List.Forall_cons_iff in H2. destruct H2 as [H2 H3].
    assert (Hkeep : forall o, List.Forall (of_release releases) (the_runner o) ->
              List.Forall (of_release releases) (rs ++ the_runner o ++ rs')) by (intros o Ho; by rewrite !List.Forall_app).
    assert (Hone : forall r', of_release releases r' -> List.Forall (of_release releases) (the_runner (Some r'))) by (repeat constructor; done).
    destruct r as [[| |] [|f rest]]; unfold runner_step; cbn [ru_phase ru_files].
    1-4: (split; [by exists h|]; apply Hkeep; cbn [fst]).
    + by apply Hone.
    + by apply Hone.
    + constructor.
    + apply Hone. destruct (listed _ _); [by eapply of_release_rest|done].
    + split; [by exists h|]. apply Hkeep. constructor.
    + destruct (apply_file f D) as [D'|e] eqn:Ea; cbn [fst snd].
      * destruct (results_apply s0 h D f D' Hr Ea) as [Hr' Hni]. split; [|apply Hkeep, Hone; by eapply of_release_rest].
        exists (h ++ [f])%list. split; [done|]. rewrite map_app. split.
        -- apply NoDup_app. split; [done|]. split; [|apply NoDup_singleton]. intros x Hx Hx'. apply list_elem_of_In in Hx, Hx'.
           destruct Hx' as [<-|[]]. done.
        -- intros g Hg. apply in_app_or in Hg. destruct Hg as [Hg|[<-|[]]]; [by apply Hh|]. destruct H2 as (dir & Hd & Hf). exists dir.
           split; [done|]. apply Hf. by left.
      * split; [by exists h|]. apply Hkeep. constructor.
  - apply List.Forall_app in Hrs. destruct Hrs as [H1 H2]. apply List.Forall_cons_iff in H2. split; [by exists h|].
    apply List.Forall_app. by destruct H2.
Qed.

(** C18: However many runs of whatever releases start, interleave and die, the table lists
    every file at most once, each with the checksum of its text, every listed file is a
    [.sql] file of a release, and the schema is exactly what the texts of the listed
    files make of the initial one, in the order of the table, each executed once and
    none by half. *)
Theorem each_migration_once releases s0 s :
  rtc (step releases) (mkState (mkDatabase s0 None) []) s ->
  exists h, results_from s0 h (database s) /\ NoDup (map fst h) /\ forall f, In f h -> exists dir, releases dir /\ In f (sql_files dir).
Proof.
  intros Hrtc. enough (Hi : applied_once releases s0 s) by apply Hi.
  assert (H0 : applied_once releases s0 (mkState (mkDatabase s0 None) [])).
  { split; [|constructor]. exists []. split; [apply results_empty|]. split; [constructor|]. intros f []. }
  induction Hrtc as [|x y z Hs _ IH]; [done|]. apply IH. by apply (applied_once_step releases s0 x y).
Qed.

(** ** One release: in order, and never stuck *)

Definition distinct_names (dir : list file) : Prop := NoDup (map fst dir).

(** The files before those a run has left are listed. *)
Definition behind (files h : list file) (r : Runner) : Prop := exists d, files = (d ++ ru_files r)%list /\ d `prefix_of` h.

Definition in_order (files : list file) (s0 : T) (s : State) : Prop :=
  exists h, results_from s0 h (database s) /\ h `prefix_of` files /\ List.Forall (behind files h) (runners s).

Lemma sql_files_distinct dir : distinct_names dir -> distinct_names (sql_files dir).
Proof.
  intros Hn. unfold distinct_names, sql_files. rewrite (Permutation_map fst (order_by_perm before_name _)).
  by apply (nodup_select fst).
Qed.

Lemma behind_next files h p p' f rest d :
  distinct_names files -> h `prefix_of` files -> files = (d ++ f :: rest)%list -> d `prefix_of` h ->
  (In (fst f) (map fst h) -> behind files h (mkRunner p' rest)) /\ (~ In (fst f) (map fst h) -> h = d /\ ru_files (mkRunner p rest) = rest).
Proof.
  intros Hn [left Ef] Hd [k Ek]. subst h. rewrite Ef, <- app_assoc in Hd. apply app_inv_head in Hd.
  destruct k as [|g k]; [rewrite app_nil_r|injection Hd as -> Hd].
  - split; [|done]. intros Hin. exfalso. cbn in Hd. subst left. unfold distinct_names in Hn. rewrite Ef, app_nil_r, map_app in Hn.
    apply NoDup_app in Hn. destruct Hn as (_ & Hn & _). apply (Hn (fst f)); [by apply list_elem_of_In|]. by left.
  - split; [|intros Hni; exfalso; apply Hni; rewrite map_app; apply in_or_app; right; by left].
    intros _. exists (d ++ [f])%list. cbn [ru_files]. split; [|exists k; by rewrite <- app_assoc].
    rewrite Ef, <- !app_assoc. cbn. by rewrite Hd.
Qed.

Lemma behind_more files h f r : behind files h r -> behind files (h ++ [f]) r.
Proof. intros (d & Hf & Hd). exists d. split; [done|]. by apply prefix_app_r. Qed.

Lemma in_order_step dir s0 s s' :
  distinct_names dir -> step (eq dir) s s' -> in_order (sql_files dir) s0 s -> in_order (sql_files dir) s0 s'.
Proof.
  intros Hdir. assert (Hn := sql_files_distinct dir Hdir). set (files := sql_files dir) in *.
  intros [dir' D rs <-|D rs r rs'|D rs r rs'] (h & Hr & Hp & Hrs); cbn [database runners] in *.
  - exists h. do 2 (split; [done|]). apply List.Forall_app. split; [done|]. constructor; [|constructor].
    exists []. split; [done|]. apply prefix_nil.
  - apply List.Forall_app in Hrs. destruct Hrs as [H1 H2]. apply List.Forall_cons_iff in H2. destruct H2 as [(d & Ed & Hd) H3].
    assert (Hkeep : forall o, List.Forall (behind files h) (the_runner o) -> List.Forall (behind files h) (rs ++ the_runner o ++ rs'))
      by (intros o Ho; by rewrite !List.Forall_app).
    destruct r as [p left]. cbn [ru_files] in Ed. assert (Hsame : forall p', List.Forall (behind files h) [mkRunner p' left])
      by (repeat constructor; by exists d).
    destruct p, left as [|f rest]; unfold runner_step; cbn [ru_phase ru_files fst snd].
    1-2: exists h; (split; [done|]); (split; [done|]); apply Hkeep, Hsame.
    1,3: exists h; (split; [done|]); (split; [done|]); apply Hkeep; constructor.
    + exists h. do 2 (split; [done|]). apply Hkeep. destruct (listed (fst f) D) eqn:El; [|apply Hsame].
      apply (results_listed s0 h D (fst f) Hr) in El. constructor; [|constructor].
      destruct (behind_next files h Checking Checking f rest d Hn Hp Ed Hd) as [Hb _]. by apply Hb.
    + destruct (apply_file f D) as [D'|e] eqn:Ea; cbn [fst snd].
      2: { exists h. do 2 (split; [done|]). apply Hkeep. constructor. }
      destruct (results_apply s0 h D f D' Hr Ea) as [Hr' Hni].
      destruct (behind_next files h Checking Checking f rest d Hn Hp Ed Hd) as [_ Hb]. destruct (Hb Hni) as [-> _].
      exists (d ++ [f])%list. split; [done|]. split; [exists rest; by rewrite Ed, <- app_assoc|].
      apply List.Forall_app. split; [|apply List.Forall_app; split].
      * revert H1. apply List.Forall_impl. intros r. apply behind_more.
      * constructor; [|constructor]. exists (d ++ [f])%list. cbn [ru_files]. split; [by rewrite Ed, <- app_assoc|done].
      * revert H3. apply List.Forall_impl. intros r. apply behind_more.
  - apply List.Forall_app in Hrs. destruct Hrs as [H1 H2]. apply List.Forall_cons_iff in H2. exists h. do 2 (split; [done|]).
    apply List.Forall_app. by destruct H2.
Qed.

Lemma in_order_reached dir s0 s :
  distinct_names dir -> rtc (step (eq dir)) (mkState (mkDatabase s0 None) []) s -> in_order (sql_files dir) s0 s.
Proof.
  intros Hdir Hrtc. assert (H0 : in_order (sql_files dir) s0 (mkState (mkDatabase s0 None) [])).
  { exists []. split; [apply results_empty|]. split; [apply prefix_nil|constructor]. }
  induction Hrtc as [|x y z Hs _ IH]; [done|]. apply IH. by apply (in_order_step dir s0 x y).
Qed.

(** ** One run *)

Definition skip_line (f : file) : string := "[migrate] skip " ++ fst f ++ " (already applied)".
Definition applied_line (f : file) : string := "[migrate] applied " ++ fst f.

Lemma run_skips files D out :
  (forall f, In f files -> listed (fst f) D = true) -> run_files files (mkRun D out) = (Return tt, mkRun D (out ++ map skip_line files)%list).
Proof.
  revert out. induction files as [|f files IH]; intros out Hl; cbn [run_files map]; [by rewrite app_nil_r|].
  rewrite bind_gets. cbn [run_db]. rewrite (Hl f) by (by left). unfold bind at 1, log, modify. cbn [run_db run_out].
  rewrite IH by (intros g Hg; apply Hl; by right). by rewrite <- app_assoc.
Qed.

Lemma run_applies files s0 h D out s1 :
  results_from s0 h D -> distinct_names (h ++ files) -> execute_all files (schema D) = Return s1 ->
  exists D', run_files files (mkRun D out) = (Return tt, mkRun D' (out ++ map applied_line files)%list) /\
    results_from s0 (h ++ files) D' /\ schema D' = s1 /\ (migrations D <> None -> migrations D' <> None).
Proof.
  revert h D out. induction files as [|f files IH]; intros h D out Hr Hn; cbn [execute_all run_files map].
  { intros [= <-]. exists D. rewrite !app_nil_r. done. }
  destruct (execute (snd f) (schema D)) as [s|e] eqn:Ex; [|done]. intros Hall.
  assert (El : listed (fst f) D = false).
  { apply not_true_iff_false. rewrite (results_listed s0 h D (fst f) Hr). unfold distinct_names in Hn. rewrite map_app in Hn.
    apply NoDup_app in Hn. destruct Hn as (_ & Hn & _). intros Hin. apply (Hn (fst f)); [by apply list_elem_of_In|]. by left. }
  assert (Ea : apply_file f D = Return (mkDatabase s (Some (rows D ++ [(fst f, simpleHash (snd f))])%list)))
    by (unfold apply_file; by rewrite Ex, El).
  destruct (results_apply s0 h D f _ Hr Ea) as [Hr' _].
  destruct (IH (h ++ [f])%list _ (out ++ [applied_line f])%list Hr') as (D' & Hrun & Hres & Hs & Hm); [by rewrite <- app_assoc|done|].
  exists D'. rewrite <- app_assoc in Hres, Hrun. split; [|split; [done|split; [done|intros _; by apply Hm]]].
  rewrite bind_gets. cbn [run_db]. rewrite El. unfold run_file. unfold bind at 1. unfold bind at 1. cbn [run_db run_out].
  rewrite Ea. unfold log, modify. cbn [run_db run_out]. exact Hrun.
Qed.

Lemma run_files_app l1 l2 r : run_files (l1 ++ l2) r = bind (run_files l1) (fun _ => run_files l2) r.
Proof.
  revert r. induction l1 as [|f l1 IH]; intros r; [done|]. cbn [run_files List.app]. rewrite bind_bind, !bind_gets, bind_bind.
  unfold bind at 1 3. destruct (_ r) as [[[]|e] r']; [apply IH|done].
Qed.

Lemma exists_listed s0 h D (files : list file) :
  results_from s0 h D -> (forall f, In f files -> In f h) -> forall f, In f files -> listed (fst f) D = true.
Proof. intros Hr Hin f Hf. apply (results_listed s0 h D (fst f) Hr). by apply in_map, Hin. Qed.

(** C29: Under one release, whatever runs started, interleaved and died before: the listed
    files are the first ones of the directory in the order of their names, and, if
    the texts of all files execute in that order, the next run that is left alone ends
    well: it prints one line per file, exits with 0, and leaves the schema and the rows
    of a run that was never interrupted. *)
Theorem interrupted_runs_resume dir s0 s s1 out :
  distinct_names dir -> rtc (step (eq dir)) (mkState (mkDatabase s0 None) []) s -> execute_all (sql_files dir) s0 = Return s1 ->
  exists before after, sql_files dir = (before ++ after)%list /\ rows (database s) = map (fun f => (fst f, simpleHash (snd f))) before /\
    migrate dir (mkRun (database s) out)
    = (Return tt, mkRun (mkDatabase s1 (Some (map (fun f => (fst f, simpleHash (snd f))) (sql_files dir))))
                        (out ++ map skip_line before ++ map applied_line after ++ ["[migrate] done"])%list).
Proof.
  intros Hdir Hrtc Hall. destruct (in_order_reached dir s0 s Hdir Hrtc) as (h & Hr & [after Ef] & _).
  exists h, after. split; [done|]. split; [apply Hr|]. rewrite Ef in Hall. destruct (execute_all_prefix h after s0 s1 Hall) as (s' & Hh & Ha).
  assert (Es : schema (database s) = s') by (destruct Hr as [_ Hr]; congruence). rewrite <- Es in Ha. clear s' Hh Es.
  assert (Hr' := results_create s0 h _ Hr). assert (Hn := sql_files_distinct dir Hdir). rewrite Ef in Hn.
  destruct (run_applies after s0 h (create_table (database s)) (out ++ map skip_line h)%list s1 Hr' Hn Ha) as (D' & Hrun & [Erows _] & <- & Hm).
  unfold migrate. rewrite bind_modify. cbn [run_db run_out]. unfold bind at 1. rewrite Ef, run_files_app. unfold bind at 1.
  rewrite run_skips by (by apply (exists_listed s0 h)). rewrite Hrun. unfold log, modify. cbn [run_db run_out]. rewrite <- !app_assoc.
  do 2 f_equal. destruct D' as [s' [l|]]; [|by destruct Hm]. cbn [rows migrations default] in Erows. cbn [schema]. by rewrite <- Erows.
Qed.

(** ** A run alone *)

Lemma alone_files releases files D out :
  rtc (step releases) (mkState D [mkRunner Checking files]) (mkState (run_db (snd (run_files files (mkRun D out)))) []).
Proof.
  assert (Hact : forall D r, rtc (step releases) (mkState D [r]) (mkState (snd (runner_step r D)) (the_runner (fst (runner_step r D))))).
  { intros D0 r. apply rtc_once. assert (Hs := step_act releases D0 [] r []). cbn [List.app] in Hs. by rewrite app_nil_r in Hs. }
  revert D out. induction files as [|f files IH]; intros D out; [apply (Hact D (mkRunner Checking []))|].
  etransitivity; [apply Hact|]. cbn [runner_step ru_phase ru_files fst snd the_runner run_files]. rewrite bind_gets. cbn [run_db].
  destruct (listed (fst f) D) eqn:El.
  - unfold bind at 1, log, modify. cbn [run_db run_out]. apply IH.
  - etransitivity; [apply Hact|]. cbn [runner_step ru_phase ru_files]. unfold run_file. unfold bind at 1. unfold bind at 1. cbn [run_db run_out].
    destruct (apply_file f D) as [D'|e]; cbn [fst snd the_runner run_db]; [|done]. unfold log, modify. cbn [run_db run_out]. apply IH.
Qed.

(** The statements of a run that nobody disturbs add up to [migrate]: the transition
    system has the run that starts on a database and is gone once it has left exactly
    the database [migrate] leaves, whether it succeeds or fails. *)
Theorem migrate_refines_steps (releases : list file -> Prop) dir D out :
  releases dir -> rtc (step releases) (mkState D []) (mkState (run_db (snd (migrate dir (mkRun D out)))) []).
Proof.
  intros Hdir. eapply rtc_l; [apply (step_start releases dir D []); done|]. eapply rtc_l; [apply (step_act releases D [] (start_run dir) [])|].
  cbn [runner_step start_run ru_phase ru_files fst snd the_runner List.app]. unfold migrate. rewrite bind_modify. cbn [run_db run_out].
  assert (H := alone_files releases (sql_files dir) (create_table D) out).
  unfold bind at 1. destruct (run_files (sql_files dir) (mkRun (create_table D) out)) as [[[]|e] r]; exact H.
Qed.
End Runner.

(** ** The checksum is FNV-1a *)

(** FNV-1a with 32 bits: unsigned arithmetic modulo 2 to the 32. *)
Fixpoint fnv1a (h : Z) (s : string) : Z :=
  match s with
  | EmptyString => h
  | String c s' => fnv1a (Z.lxor h (Z.of_nat (code c)) * 16777619 mod 2 ^ 32) s'
  end.

Lemma to_int32_mod z : to_int32 z mod 2 ^ 32 = z mod 2 ^ 32.
Proof.
  unfold to_int32. cbv zeta. assert (Hz := Z.mod_pos_bound z (2 ^ 32) eq_refl). destruct (_ <? _)%Z; [by rewrite Z.mod_mod by lia|].
  replace (z mod 2 ^ 32 - 2 ^ 32)%Z with (z mod 2 ^ 32 + (-1) * 2 ^ 32)%Z by lia. rewrite Z.mod_add by lia. by rewrite Z.mod_mod by lia.
Qed.

Lemma lxor_small a b : (0 <= a < 2 ^ 32)%Z -> (0 <= b < 2 ^ 32)%Z -> Z.lxor a b mod 2 ^ 32 = Z.lxor a b.
Proof.
  intros Ha Hb. rewrite <- (Z.mod_small a (2 ^ 32) Ha), <- (Z.mod_small b (2 ^ 32) Hb). apply Z.bits_inj'. intros n Hn.
  destruct (Z.lt_ge_cases n 32); [by rewrite Z.mod_pow2_bits_low by lia|].
  rewrite Z.lxor_spec. by rewrite !Z.mod_pow2_bits_high by lia.
Qed.

Lemma hash_loop_mod h s : hash_loop h s mod 2 ^ 32 = fnv1a (h mod 2 ^ 32) s.
Proof.
  revert h. induction s as [|c s IH]; intros h; [done|]. cbn [hash_loop fnv1a]. rewrite IH. f_equal.
  assert (Hc : (0 <= Z.of_nat (code c) < 2 ^ 32)%Z) by (assert (Hc := nat_ascii_bounded c); unfold code; lia).
  assert (Ex : to_uint32 (js_xor h (Z.of_nat (code c))) = Z.lxor (h mod 2 ^ 32) (Z.of_nat (code c))).
  { unfold js_xor, to_uint32. rewrite to_int32_mod, (Z.mod_small _ _ Hc). apply lxor_small; [by apply Z.mod_pos_bound|done]. }
  unfold Math_imul. rewrite to_int32_mod, Ex. done.
Qed.

Lemma fnv1a_bounds h s : (0 <= h < 2 ^ 32)%Z -> (0 <= fnv1a h s < 2 ^ 32)%Z.
Proof. revert h. induction s as [|c s IH]; intros h Hh; [done|]. apply IH. by apply Z.mod_pos_bound. Qed.

Lemma hex_digits_snoc acc s d :
  (0 <= d < 16)%Z -> hex_digits_value acc (s ++ String (radix_digit d) "") = (hex_digits_value acc s * 16 + d)%Z /\ is_hex (radix_digit d) = true.
Proof.
  intros Hd. assert (H : forall acc, hex_digits_value acc (String (radix_digit d) "") = (acc * 16 + d)%Z /\ is_hex (radix_digit d) = true).
  { assert (d = 0 \/ d = 1 \/ d = 2 \/ d = 3 \/ d = 4 \/ d = 5 \/ d = 6 \/ d = 7 \/ d = 8 \/ d = 9 \/ d = 10 \/ d = 11 \/ d = 12 \/ d = 13 \/ d = 14 \/ d = 15)%Z
      as Hcases by lia. intros a. destruct_or! Hcases; subst d; (split; [cbn [hex_digits_value]; cbv zeta; f_equal; reflexivity|reflexivity]). }
  split; [|by apply (H 0%Z)]. revert acc. induction s as [|c s IH]; intros acc; [apply H|]. cbn [append hex_digits_value]. apply IH.
Qed.

Lemma radix16_spec fuel n :
  (0 <= n < 16 ^ Z.of_nat (S fuel))%Z ->
  hex_digits_value 0 (radix16 (S fuel) n) = n /\ all_chars is_hex (radix16 (S fuel) n) = true /\ (1 <= slen (radix16 (S fuel) n) <= S fuel)%nat.
Proof.
  revert n. induction fuel as [|fuel IH]; intros n Hn; (assert (Hd := Z.mod_pos_bound n 16 eq_refl)).
  - cbn [radix16]. rewrite (proj2 (Z.ltb_lt n 16)) by lia. destruct (hex_digits_snoc 0 "" _ Hd) as [E Hx]. cbn [append] in *.
    rewrite E. cbn [hex_digits_value all_chars slen]. rewrite Hx, Z.mod_small by lia. split; [lia|]. split; [done|lia].
  - change (radix16 (S (S fuel)) n) with ((if (n <? 16)%Z then "" else radix16 (S fuel) (n / 16)) ++ String (radix_digit (n mod 16)) "").
    destruct (Z.ltb_spec n 16).
    + destruct (hex_digits_snoc 0 "" _ Hd) as [E Hx]. cbn [append] in *. rewrite E. cbn [hex_digits_value all_chars slen].
      rewrite Hx, Z.mod_small by lia. split; [lia|]. split; [done|lia].
    + destruct (IH (n / 16)%Z) as (E & Hh & Hl).
      { split; [apply Z.div_pos; lia|]. apply Z.div_lt_upper_bound; [lia|]. rewrite <- Z.pow_succ_r by lia. rewrite <- Nat2Z.inj_succ. apply Hn. }
      destruct (hex_digits_snoc 0 (radix16 (S fuel) (n / 16)) _ Hd) as [-> Hx]. rewrite E. split; [|split].
      * rewrite (Z.div_mod n 16) at 3 by lia. lia.
      * rewrite all_chars_app, Hh. cbn [all_chars]. by rewrite Hx.
      * rewrite slen_app. cbn [slen]. lia.
Qed.

(** The checksum, written with signed 32-bit operators, is the FNV-1a hash of the text
    with unsigned arithmetic, printed in one to eight hexadecimal digits. *)
Theorem simpleHash_fnv1a s :
  hex_digits_value 0 (simpleHash s) = fnv1a 2166136261 s /\ all_chars is_hex (simpleHash s) = true /\ (1 <= slen (simpleHash s) <= 8)%nat.
Proof.
  assert (E : js_ushr (hash_loop 2166136261 s) 0 = fnv1a 2166136261 s) by (apply hash_loop_mod).
  unfold simpleHash. rewrite E. destruct (radix16_spec 7 (fnv1a 2166136261 s)) as (Hv & Hx & Hl); [by apply fnv1a_bounds|done].
Qed.

(** ** The order of the names *)

Lemma insert_named x l :
  Sorted (fun a b : file => String.leb (fst a) (fst b) = true) l -> Sorted (fun a b : file => String.leb (fst a) (fst b) = true) (insert_by before_name x l).
Proof.
  assert (Hle : forall a b : file, before_name a b = true -> String.leb (fst a) (fst b) = true).
  { intros a b. unfold before_name, String.ltb, String.leb. by destruct (String.compare _ _). }
  assert (Hge : forall a b : file, before_name a b = false -> String.leb (fst b) (fst a) = true).
  { intros a b. unfold before_name, String.ltb, String.leb. rewrite (String.compare_antisym (fst a) (fst b)). by destruct (String.compare _ _). }
  induction l as [|y l IHl]; intros Hs; cbn [insert_by]; [by repeat constructor|].
  destruct (before_name y x) eqn:E; [|by constructor; [|constructor; apply Hge]].
  apply Sorted_inv in Hs. destruct Hs as [Hs Hh]. constructor; [by apply IHl|]. apply Hle in E.
  destruct l as [|z l]; cbn [insert_by]; [by constructor|]. destruct (before_name z x); constructor; [by inversion Hh|done].
Qed.

(** The files of a run are the [.sql] files of the directory by their names. *)
Lemma sql_files_sorted dir :
  Sorted (fun a b : file => String.leb (fst a) (fst b) = true) (sql_files dir) /\
  forall f, In f (sql_files dir) <-> In f dir /\ endsWith (fst f) ".sql" = true.
Proof.
  unfold sql_files. split.
  - induction (List.filter _ dir) as [|f l IH]; [constructor|]. by apply insert_named.
  - intros f. rewrite <- (List.filter_In (fun f : file => endsWith (fst f) ".sql")). split; apply Permutation_in; [apply order_by_perm|symmetry; apply order_by_perm].
Qed.

(** ** What the runner does not notice *)

(** The checksum of a listed file is never read: a file edited after it was applied is
    skipped like one that was not. *)
Lemma edited_migration_skipped {T} (execute : string -> T -> outcome exn T) name text text' s row :
  endsWith name ".sql" = true -> fst row = name ->
  migrate execute [(name, text)] (mkRun (mkDatabase s (Some [row])) []) = migrate execute [(name, text')] (mkRun (mkDatabase s (Some [row])) []) /\
  schema (run_db (snd (migrate execute [(name, text)] (mkRun (mkDatabase s (Some [row])) [])))) = s.
Proof.
  intros He <-. unfold migrate, sql_files. cbn [List.filter fst]. rewrite He. cbn [order_by fold_right insert_by run_files].
  rewrite !bind_modify. unfold bind. cbn. rewrite String.eqb_refl. done.
Qed.

(** ** Witnesses *)

(** A schema as the statements it was made by; one of them fails. *)
Definition execute_text (text : string) (s : list string) : outcome exn (list string) :=
  if String.eqb text "broken" then Throw (JsError "syntax error") else Return (List.app s [text]).

Definition release : list file := [("README.md", "-"); ("0002_b.sql", "b"); ("0001_a.sql", "a"); ("0003_c.sql", "c")].

Definition half_way : State (T := list string) :=
  mkState (mkDatabase ["a"] (Some [("0001_a.sql", simpleHash "a")])) [].

Ltac act n :=
  match goal with
  | |- rtc ?R (mkState ?D ?rs) ?t =>
      let l := eval cbv in (take n rs) in
      match eval cbv in (drop n rs) with
      | ?r :: ?l' =>
          eapply rtc_l; [exact (step_act _ _ D l r l')|];
          match goal with |- rtc ?R ?s ?t => let s' := eval vm_compute in s in change (rtc R s' t) end
      end
  end.

(** Two runs start; both find the first file missing; one applies it, the other breaks on
    the primary key, and then the first one dies. *)
Lemma half_way_reached : rtc (step execute_text (eq release)) (mkState (mkDatabase [] None) []) half_way.
Proof.
  eapply rtc_l; [by apply (step_start _ _ release)|]. eapply rtc_l; [by apply (step_start _ _ release)|].
  match goal with |- rtc ?R ?s ?t => let s' := eval vm_compute in s in change (rtc R s' t) end.
  act 0%nat. act 1%nat. act 0%nat. act 1%nat. act 1%nat. act 0%nat.
  match goal with |- rtc _ (mkState ?D [?r]) _ => apply rtc_once; exact (step_crash _ _ D [] r []) end.
Qed.

Lemma each_migration_once_witness :
  exists h, results_from execute_text [] h (database half_way) /\ NoDup (map fst h) /\
    forall f, In f h -> exists dir, release = dir /\ In f (sql_files dir).
Proof. exact (each_migration_once execute_text (eq release) [] half_way half_way_reached). Defined.

Lemma interrupted_runs_resume_witness :
  exists before after, sql_files release = (before ++ after)%list /\
    rows (database half_way) = map (fun f => (fst f, simpleHash (snd f))) before /\
    migrate execute_text release (mkRun (database half_way) [])
    = (Return tt, mkRun (mkDatabase ["a"; "b"; "c"] (Some (map (fun f => (fst f, simpleHash (snd f))) (sql_files release))))
                        ([] ++ map skip_line before ++ map applied_line after ++ ["[migrate] done"])%list).
Proof.
  apply (interrupted_runs_resume execute_text release [] half_way ["a"; "b"; "c"] []); [|exact half_way_reached|vm_compute; reflexivity].
  unfold distinct_names. apply (bool_decide_unpack (NoDup (map fst release))). by vm_compute.
Defined.

Lemma migrate_refines_steps_witness :
  rtc (step execute_text (eq release)) (mkState (mkDatabase [] None) [])
    (mkState (run_db (snd (migrate execute_text release (mkRun (mkDatabase [] None) [])))) []).
Proof. by apply (migrate_refines_steps execute_text (eq release) release). Defined.

(** The order of the names is the order within one run: a file that sorts before those of
    earlier releases runs after them. *)
Lemma late_file_runs_last :
  migrate execute_text (List.app release [("0000_x.sql", "x")]) (mkRun (database half_way) [])
  = (Return tt, mkRun (mkDatabase ["a"; "x"; "b"; "c"]
       (Some [("0001_a.sql", simpleHash "a"); ("0000_x.sql", "fd0c5087"); ("0002_b.sql", "e70c2de5"); ("0003_c.sql", "e60c2c52")]))
     ["[migrate] applied 0000_x.sql"; "[migrate] skip 0001_a.sql (already applied)"; "[migrate] applied 0002_b.sql";
      "[migrate] applied 0003_c.sql"; "[migrate] done"]).
Proof. vm_compute. reflexivity. Qed.
