(* ===== verification/Scripts.v ===== *)
(** * The scripts of the server: [scripts/bootstrap.ts], [scripts/admin-password-hash.ts]

    Two programs an operator runs once.  The option parser of the runtime is an argument;
    a run ends with an exit code and leaves the database and what it printed on standard
    output and standard error.  The text [console.log] prints ends with a line feed. *)

From stdpp Require Import strings.
From S2P Require Import Prelude JsString Json JsonParse JsNumber Date Errors Phone Crypto Aead Config Schema Webhooks PhoneBindings Verifications RateLimit Hmac Server Auth Receivers Wire Probe Abuse AdminWeb Cli Commands.
From Stdlib Require Import String Ascii.

Open Scope string_scope.
Open Scope js_scope.

(** ** [bootstrap.ts] *)

Record BootValues : Type := {
  bv_app_name : option string; bv_receiver_name : option string; bv_msisdn : option string; bv_operator : option string;
  bv_simulate_heartbeat : bool;
}.

(** [process.exit(code)], or an error that reaches the end of [main]. *)
Inductive Stop : Type := Exit (code : Z) | Fails (e : exn).

Record ScriptState : Type := mkScript { sc_world : World; sc_out : list string; sc_err : list string }.

Abbreviation ScriptM := (M Stop ScriptState).

Definition console_log (text : string) : ScriptM unit :=
  modify (fun s => mkScript (sc_world s) (List.app (sc_out s) [text ++ String newline ""]) (sc_err s)).
Definition console_error (text : string) : ScriptM unit :=
  modify (fun s => mkScript (sc_world s) (sc_out s) (List.app (sc_err s) [text ++ String newline ""])).

Definition calls {A} (m : SM A) : ScriptM A := fun s =>
  match m (sc_world s) with
  | (Return a, w) => (Return a, mkScript w (sc_out s) (sc_err s))
  | (Throw e, w) => (Throw (Fails e), mkScript w (sc_out s) (sc_err s))
  end.

Section Bootstrap.
Context `{ErrorText} `{PhoneLib} `{Gcm} `{Digest} `{Limit1} (cfg : Config) (parse : list string -> outcome exn BootValues).

Definition complete_text (app : BootstrapAppResult) (r : AddReceiverResult) : string :=
  join (String newline "")
    [""; "=== SYROTP bootstrap complete ==="; "App ID:           " ++ ba_appId app; "App name:         " ++ ba_appName app; "";
     "Public key (frontend, restricted):"; "  " ++ ba_publicKey app; ""; "Secret key (backend, full access):"; "  " ++ ba_secretKey app; "";
     "Receiver ID:      " ++ rr_receiverId r; "Receiver MSISDN:  " ++ rr_msisdn r; "";
     "Gateway signing key (paste into the Android gateway / GSM gateway):"; "  " ++ rr_signingKey r; "";
     "Save these values now. They will not be shown again."; ""].

Definition healthy_note : string :=
  "(simulated heartbeat — receiver is healthy for " ++ num_to_string (RECEIVER_HEARTBEAT_TIMEOUT_SECONDS cfg) ++ "s without a real gateway)".

Definition bootstrap_main (d : CliDraws) (args : list string) : ScriptM unit :=
  match parse args with
  | Throw e => throw (Fails e)
  | Return values =>
      let appName := default "Default App" (bv_app_name values) in
      let receiverName := default "Receiver-1" (bv_receiver_name values) in
      let msisdnRaw := default "" (bv_msisdn values) in
      if negb (nonempty msisdnRaw) then
        do! console_error "--msisdn is required (E.164, e.g. +963991234567)" in throw (Exit 2)
      else
        let! app := calls (boot_app cfg d appName) in
        let! receiver := calls (addReceiver cfg (cd_ulid d 0) (cd_keyBytes d) (cd_iv d) (cd_now d) (cd_dbNow d)
             {| ar_appId := ba_appId app; ar_name := receiverName; ar_operator := bv_operator values; ar_msisdn := msisdnRaw;
                ar_simulateHeartbeat := bv_simulate_heartbeat values |}) in
        do! console_log (complete_text app receiver) in
        do! (if bv_simulate_heartbeat values then console_log healthy_note else ret tt) in
        throw (Exit 0)
  end.

(** [main().catch(..)]: the exit code and what is left. *)
Definition bootstrap_script (d : CliDraws) (args : list string) (w : World) : Z * ScriptState :=
  match bootstrap_main d args (mkScript w [] []) with
  | (Return _, s) => (0%Z, s)
  | (Throw (Exit code), s) => (code, s)
  | (Throw (Fails e), s) => (1%Z, snd (console_error ("[bootstrap] failed: " ++ error_message e) s))
  end.
End Bootstrap.

(** ** [admin-password-hash.ts] *)

(** The terminal or the pipe: what is typed at the prompt, what standard input holds. *)
Record Terminal : Type := { tm_stdin_tty : bool; tm_stdout_tty : bool; tm_typed : string; tm_piped : string }.

Definition breaks_line (s : string) : bool := existsb (fun c => contains s (String c "")) [newline; carriage].

(** What the muted [_writeToOutput] lets through of what the line editor writes: the first
    write, the prompt, and line feeds. *)
Definition muted (writes : list string) : list string :=
  match writes with
  | [] => []
  | prompt :: typed => prompt :: flat_map (fun s => if breaks_line s then [String newline ""] else []) typed
  end.

Record HashRun : Type := { hx_code : Z; hx_out : list string; hx_err : list string }.

Section PasswordHash.
Context `{ErrorText} `{Scrypt} (randomBytes16 : string) (t : Terminal).

Definition password_read : string := if tm_stdin_tty t && tm_stdout_tty t then tm_typed t else trim (tm_piped t).

Definition hash_line (hash : string) : string := String newline ("ADMIN_PASSWORD_HASH=" ++ hash ++ String newline (String newline "")).

Definition store_note : string :=
  "Add this and ADMIN_USER to your .env (or secret manager)." ++ String newline
    ("The plaintext password is NOT stored anywhere — keep it in your password manager." ++ String newline "").

Definition password_script : HashRun :=
  let password := password_read in
  if (slen password <? 12)%nat then
    {| hx_code := 2; hx_out := []; hx_err := ["error: password must be at least 12 characters" ++ String newline ""] |}
  else match hashAdminPassword password None randomBytes16 with
       | Throw e => {| hx_code := 1; hx_out := []; hx_err := [error_message e ++ String newline ""] |}
       | Return hash => {| hx_code := 0; hx_out := [hash_line hash; store_note]; hx_err := [] |}
       end.
End PasswordHash.

(** ** What a bootstrap leaves *)

Section BootstrapSpec.
Context `{ErrorText} `{PhoneLib} `{Gcm} `{Digest} `{Limit1} (cfg : Config) (parse : list string -> outcome exn BootValues).

(** A run that got through: what the administration functions returned and what is printed. *)
Definition booted (d : CliDraws) (args : list string) (w : World) (s' : ScriptState) : Prop :=
  exists values app opts res w1,
    parse args = Return values /\ boot_app cfg d (default "Default App" (bv_app_name values)) w = (Return app, w1) /\
    ar_appId opts = ba_appId app /\ ar_simulateHeartbeat opts = bv_simulate_heartbeat values /\
    added cfg (cd_ulid d 0) (cd_keyBytes d) (cd_now d) opts w1 res (sc_world s') /\
    sc_out s' = List.app [complete_text app res ++ String newline ""]
                  (if bv_simulate_heartbeat values then [healthy_note cfg ++ String newline ""] else []) /\
    sc_err s' = [].

Definition boot_refused (d : CliDraws) (w : World) (code : Z) (s' : ScriptState) : Prop :=
  sc_out s' = [] /\ sc_err s' <> [] /\ receivers (db (sc_world s')) = receivers (db w) /\
  ((code = 2%Z /\ sc_world s' = w) \/ (code = 1%Z /\ (sc_world s' = w \/ exists name, sc_world s' = snd (boot_app cfg d name w)))).

(** The script exits with 0 only with the app, its keys and its receiver stored and
    their secrets printed; on every failure it prints no secret and adds no receiver. *)
Lemma bootstrap_script_cases d args w code s' :
  bootstrap_script cfg parse d args w = (code, s') -> (code = 0%Z /\ booted d args w s') \/ boot_refused d w code s'.
Proof.
  unfold bootstrap_script, bootstrap_main. destruct (parse args) as [values|e] eqn:Ep.
  2: { intros [= <- <-]. right. repeat split; [done|]. right. split; [done|]. by left. }
  destruct (negb _); [intros [= <- <-]; right; repeat split; [done|]; by left|].
  unfold bind at 1, calls at 1. cbn [sc_world sc_out sc_err]. assert (Hrcv := boot_app_receivers cfg d (default "Default App" (bv_app_name values)) w).
  destruct (boot_app cfg d _ w) as [[app|e] w1] eqn:Eb; cbn [snd] in Hrcv.
  2: { intros [= <- <-]. right. split; [done|]. split; [done|]. split; [exact Hrcv|]. right. split; [done|]. right.
       exists (default "Default App" (bv_app_name values)). cbn. by rewrite Eb. }
  unfold bind at 1, calls at 1. cbn [sc_world sc_out sc_err]. set (opts := Build_AddReceiverOptions _ _ _ _ _).
  destruct (addReceiver _ _ _ _ _ _ opts w1) as [o w2] eqn:Ea.
  destruct (addReceiver_cases _ _ _ _ _ _ _ _ _ _ Ea) as [(res & -> & Hadd)|(e & -> & -> & _)].
  2: { intros [= <- <-]. right. split; [done|]. split; [done|]. split; [exact Hrcv|]. right. split; [done|]. right.
       exists (default "Default App" (bv_app_name values)). cbn. by rewrite Eb. }
  intros Hrun. left. assert (Hs : code = 0%Z /\ s' = mkScript w2 (List.app [complete_text app res ++ String newline ""]
    (if bv_simulate_heartbeat values then [healthy_note cfg ++ String newline ""] else [])) []).
  { revert Hrun. unfold bind, console_log, modify, ret, throw. cbn [sc_world sc_out sc_err List.app].
    destruct (bv_simulate_heartbeat values); by intros [= <- <-]. }
  destruct Hs as [-> ->]. split; [done|]. exists values, app, opts, res, w1. by repeat split.
Qed.

(** C28: When the bootstrap script exits with 0, the installation it printed works: both
    printed keys pass [requireKey] as keys of the new app, the printed signing key is
    the one the receiver's stored secret opens to, and with --simulate-heartbeat the
    receiver counts as healthy for the time the script prints. *)
Theorem bootstrap_script_ready {R} (d : CliDraws) args w s' (r : R) ts :
  bootstrap_script cfg parse d args w = (0%Z, s') -> respects apiKeys_idx (apiKeys (db w)) -> respects apps_idx (apps (db w)) ->
  exists values app res rc, parse args = Return values /\ hd_error (sc_out s') = Some (complete_text app res ++ String newline "") /\
    (forall raw kind, In (raw, kind) [(ba_publicKey app, public); (ba_secretKey app, secret)] ->
       exists key s'', requireKey cfg (bearer_request raw) [kind] (mkServer (sc_world s') r ts) = (Return key, s'') /\
         ak_appId key = ba_appId app /\ ak_kind key = kind /\ db (sw s'') = db (sc_world s')) /\
    In rc (receivers (db (sc_world s'))) /\ r_id rc = rr_receiverId res /\ r_appId rc = ba_appId app /\
    unwrap (MASTER_ENCRYPTION_KEY cfg) (r_secretHash rc) (Some (receiver_aad (r_id rc))) = Return (rr_signingKey res) /\
    (bv_simulate_heartbeat values = true ->
     forall now, (now - cd_now d < RECEIVER_HEARTBEAT_TIMEOUT_SECONDS cfg * 1000)%Z -> healthy cfg now (ba_appId app) None rc = true).
Proof.
  intros Hrun Hk Ha. destruct (bootstrap_script_cases d args w _ s' Hrun) as [[_ Hb]|(_ & _ & _ & [[? _]|[? _]])]; [|done|done].
  destruct Hb as (values & app & opts & res & w1 & Ep & Eb & Happ & Hsim & Hadd & Eout & _).
  destruct Hadd as (a & rc & n & _ & _ & _ & _ & Ew & _ & Eid & Eapp & _ & Een & Ehb & Eun & Er & _).
  exists values, app, res, rc. split; [done|]. rewrite Eout. split; [done|]. rewrite Ew. split.
  { by apply (bootstrap_keys_accepted _ _ _ _ _ _ _ _ _ _ _ _ _ _ Eb Hk Ha). }
  cbn. split; [apply in_or_app; right; by left|]. split; [done|]. split; [by rewrite Eapp, Happ|]. split; [exact Eun|].
  intros Hs now Hnow. unfold healthy. rewrite Eapp, Happ, String.eqb_refl, Een, Ehb, Hsim, Hs. cbn. rewrite andb_true_r. apply Z.ltb_lt. lia.
Qed.
End BootstrapSpec.

(** ** The password hash *)

(** When the hash script exits with 0 it has printed one hash, with which the dashboard is
    switched on for every user name and lets that user in with the password that was
    read; otherwise it prints nothing on standard output, and it exits with 2 exactly
    when the password is shorter than twelve characters. *)
Theorem password_hash_script_admits `{ErrorText} `{Scrypt} randomBytes16 t user :
  (8 <= slen randomBytes16 <= 64)%nat -> user <> "" ->
  let run := password_script randomBytes16 t in
  (hx_code run = 2%Z <-> (slen (password_read t) < 12)%nat) /\
  (hx_code run <> 0%Z -> hx_out run = []) /\
  (hx_code run = 0%Z -> exists hash, hx_out run = [hash_line hash; store_note] /\ admin_enabled user hash = true /\
     validate user hash user (password_read t) = Return tt /\
     forall candidate, validate user hash user candidate = Return tt <->
       scrypt candidate randomBytes16 SCRYPT_KEYLEN = scrypt (password_read t) randomBytes16 SCRYPT_KEYLEN).
Proof.
  intros Hs Hu. cbv zeta. unfold password_script. destruct (Nat.ltb_spec (slen (password_read t)) 12) as [Hl|Hl]; [by repeat split|].
  destruct (hashAdminPassword _ _ _) as [hash|e] eqn:Eh; cbn [hx_code hx_out].
  2: { split; [split; [done|lia]|]. by split. }
  split; [split; [done|lia]|]. split; [done|]. intros _. exists hash. split; [done|].
  assert (Hc : forall c, validate user hash user c = Return tt <-> scrypt c randomBytes16 SCRYPT_KEYLEN = scrypt (password_read t) randomBytes16 SCRYPT_KEYLEN).
  { intros c. destruct (stored_password user _ randomBytes16 hash c Hu Hs Eh) as (_ & _ & Hv). unfold validate. rewrite compareUser_eq, String.eqb_refl, Hv.
    cbn [andb]. case_bool_decide; split; try done. }
  split; [apply (stored_password user _ randomBytes16 hash "" Hu Hs Eh)|]. split; [by apply Hc|exact Hc].
Qed.

(** What is typed does not show: the editor's writes decide only how many line feeds
    appear after the prompt. *)
Lemma typed_password_hidden prompt writes writes' :
  map breaks_line writes = map breaks_line writes' -> muted (prompt :: writes) = muted (prompt :: writes').
Proof.
  cbn [muted]. intros E. f_equal. revert writes' E. induction writes as [|s l IH]; intros [|s' l']; try done.
  cbn [map flat_map]. intros [= -> E]. f_equal. by apply IH.
Qed.

(** ** Findings and witnesses *)

Definition boot_values (msisdn : string) (simulate : bool) : BootValues :=
  {| bv_app_name := Some "Shop"; bv_receiver_name := None; bv_msisdn := Some msisdn; bv_operator := None; bv_simulate_heartbeat := simulate |}.

Abbreviation run_boot msisdn := (bootstrap_script (H := plain_errors) (H0 := plain_phones) (H1 := plain_gcm) (H2 := plain_digest) default_config
  (fun _ => Return (boot_values msisdn true)) draws [] empty_world).

(** Like the command, the script keeps the app and the keys of a run whose number is
    refused; it exits with 1 and never shows the secrets. *)
Lemma bootstrap_script_strands_app :
  fst (run_boot "12") = 1%Z /\ sc_out (snd (run_boot "12")) = [] /\
  List.length (apps (db (sc_world (snd (run_boot "12"))))) = 1%nat /\ List.length (apiKeys (db (sc_world (snd (run_boot "12"))))) = 2%nat.
Proof. vm_compute. auto. Qed.

Lemma bootstrap_script_ready_witness :
  exists s' values app res rc, run_boot "+963991234567" = (0%Z, s') /\ hd_error (sc_out s') = Some (complete_text app res ++ String newline "") /\
    In rc (receivers (db (sc_world s'))) /\
    (bv_simulate_heartbeat values = true -> healthy default_config 6000 (ba_appId app) None rc = true).
Proof.
  assert (E : fst (run_boot "+963991234567") = 0%Z) by (vm_compute; reflexivity).
  destruct (run_boot "+963991234567") as [code s'] eqn:Er. cbn [fst] in E. subst code.
  destruct (bootstrap_script_ready (R := unit) (H := plain_errors) (H0 := plain_phones) (H1 := plain_gcm) (H2 := plain_digest) default_config
    (fun _ => Return (boot_values "+963991234567" true)) draws [] empty_world s' tt [] Er)
    as (values & app & res & rc & Ep & Hout & _ & Hin & _ & _ & _ & Hh); [repeat constructor..|].
  exists s', values, app, res, rc. split; [reflexivity|]. split; [exact Hout|]. split; [exact Hin|]. intros Hs. apply (Hh Hs). vm_compute. reflexivity.
Defined.

Definition piped (text : string) : Terminal := {| tm_stdin_tty := false; tm_stdout_tty := true; tm_typed := ""; tm_piped := text |}.

Lemma password_hash_script_admits_witness :
  let run := password_script (H := plain_errors) (H0 := plain_scrypt) "0123456789abcdef" (piped " correct horse ") in
  hx_code run = 0%Z /\ exists hash, hx_out run = [hash_line hash; store_note] /\ admin_enabled "admin" hash = true /\
    validate (H := plain_scrypt) "admin" hash "admin" "correct horse" = Return tt /\
    validate (H := plain_scrypt) "admin" hash "admin" " correct horse " <> Return tt.
Proof.
  split; [vm_compute; reflexivity|].
  destruct (password_hash_script_admits (H := plain_errors) (H0 := plain_scrypt) "0123456789abcdef" (piped " correct horse ") "admin") as (_ & _ & Hr);
    [cbn; lia|discriminate|].
  destruct (Hr ltac:(vm_compute; reflexivity)) as (hash & Hout & Hon & Hin & Hall). exists hash. split; [exact Hout|]. split; [exact Hon|].
  split; [exact Hin|]. rewrite Hall. vm_compute. discriminate.
Defined.
