(* ===== verification/CliText.v ===== *)
(** * What the command line prints: [render.ts], [help.ts], [spawn.ts], [version.ts]

    The text of every help page and of every output of [Commands], colours and columns
    included, what an error prints on standard error, the exit of the process, the
    program it starts and the version it reads.  [useColor] is the switch of [render.ts]:
    no NO_COLOR, a terminal on standard output, a terminal that is not dumb. *)

From stdpp Require Import gmap strings.
From S2P Require Import Prelude JsString Json JsonParse JsNumber Date Errors Phone Crypto Aead Config Schema Webhooks PhoneBindings Verifications RateLimit Hmac Server Auth Receivers Wire Probe Cli Commands.
From Stdlib Require Import String Ascii.

Open Scope string_scope.
Open Scope js_scope.

(** ** Colours *)

Section Colour.
Context (useColor : bool).

Definition bold (s : string) : string := c useColor "bold" s.
Definition cyan (s : string) : string := c useColor "cyan" s.
Definition dim (s : string) : string := c useColor "dim" s.
Definition PASS : string := c useColor "green" "✓".
Definition FAIL : string := c useColor "red" "✗".
Definition SKIP : string := c useColor "gray" "·".

(** ** Help pages *)

Definition TOP_LEVEL : string := join newline_text
  [bold "syrotp" ++ " — command-line interface for the Syrian Reverse OTP Protocol";
   "";
   cyan "usage";
   "  syrotp <command> [options]";
   "";
   cyan "commands";
   "  doctor                   check Node, pnpm, docker, .env, and reachability of postgres/redis/server";
   "  bootstrap                create a fresh app + API keys + receiver";
   "  receiver <sub>           manage receivers (add | list | disable | test)";
   "  smoke                    run the end-to-end smoke test against a live server";
   "  loadtest <sub>           run load suites (quick | release-baseline)";
   "  version                  print the CLI version and exit";
   "  help [<command>]         show help for a command";
   "";
   cyan "global options";
   "  -h, --help               show help and exit";
   "  -v, --version            print version and exit";
   "";
   cyan "environment";
   "  SYROTP_BASE_URL           required for server-reachability + receiver test";
   "  DATABASE_URL             required for postgres reachability + bootstrap + receiver";
   "  REDIS_URL                required for redis reachability check";
   "  MASTER_ENCRYPTION_KEY    required for bootstrap + receiver add (wraps signing key)";
   "  SYROTP_GATEWAY_KEY        signing key for `syrotp receiver test` (or use --signing-key)";
   "  NO_COLOR=1               disable ANSI color output";
   "  DEBUG=1                  print stack traces on unexpected errors";
   "";
   cyan "exit codes";
   "  0  ok";
   "  1  runtime / check failed";
   "  2  bad arguments";
   "  3  missing config / env";
   "  4  missing dependency (Node, pnpm, docker)";
   "  5  service unreachable (postgres, redis, server)";
   "";
   dim "docs: see packages/cli/README.md or run `syrotp help <command>`";
   ""].

Definition DOCTOR : string := join newline_text
  [bold "syrotp doctor" ++ " — verify the local environment is wired up";
   "";
   cyan "usage";
   "  syrotp doctor [options]";
   "";
   cyan "options";
   "  --env-file <path>        load env from this file instead of ./.env";
   "  --timeout <ms>           per-reachability-probe timeout (default: 3000)";
   "  -h, --help               show this help";
   "";
   cyan "checks";
   "  Environment              Node ≥ 20.10, pnpm, docker, docker compose";
   "  Configuration            .env file, DATABASE_URL, REDIS_URL, SYROTP_BASE_URL";
   "  Reachability             postgres TCP, redis TCP, SYROTP /v1/health";
   "";
   cyan "exit codes";
   "  0  every check passed (skipped checks don't count as failures)";
   "  3  a required config/env var is missing";
   "  4  a system dependency (Node/pnpm/docker) is missing";
   "  5  a service (postgres/redis/server) didn't answer";
   "";
   dim "doctor never modifies anything — it's safe to run on a stranger's box.";
   ""].

Definition bootstrapHelp : string := join newline_text
  [bold "syrotp bootstrap" ++ " — create a fresh app + API keys + receiver in one go";
   "";
   cyan "usage";
   "  syrotp bootstrap --app-name <name> --msisdn <e164-or-local> [options]";
   "";
   cyan "required";
   "  --app-name <name>       human-readable app name (stored in DB)";
   "  --msisdn <phone>        receiver phone number, E.164 or local form";
   "";
   cyan "optional";
   "  --receiver-name <s>     receiver display name (default: " ++ String quote "" ++ "Receiver-1" ++ String quote "" ++ ")";
   "  --operator <s>          carrier name, e.g. syriatel / mtn / claro";
   "  --simulate-heartbeat    set last_heartbeat_at = now() so the receiver";
   "                          looks healthy without a real gateway. ONLY use";
   "                          this for smoke/integration tests.";
   "  -h, --help              show this help";
   "";
   cyan "output";
   "  Public key (pk_live_*), Secret key (sk_live_*), and gateway signing";
   "  key are printed " ++ bold "exactly once" ++ " — save them in your secret";
   "  manager. The DB only ever holds the HMAC-derived hashes.";
   "";
   cyan "exit codes";
   "  0  ok";
   "  2  bad arguments";
   "  3  missing config (DATABASE_URL / MASTER_ENCRYPTION_KEY)";
   "  5  Postgres unreachable";
   "  1  any other admin error";
   "";
   dim "env: DATABASE_URL, MASTER_ENCRYPTION_KEY (and helpers from .env are auto-loaded)";
   ""].

Definition receiverHelp : string := join newline_text
  [bold "syrotp receiver" ++ " — manage receivers (gateways)";
   "";
   cyan "usage";
   "  syrotp receiver <subcommand> [options]";
   "";
   cyan "subcommands";
   "  add       register a new receiver under an app, mint a signing key";
   "  list      list receivers (table or --json)";
   "  disable   flip enabled=false on a receiver";
   "  enable    flip enabled=true on a receiver (symmetric to disable)";
   "  test      sign a sample inbound and verify the gateway path works";
   "";
   dim "Run `syrotp receiver <subcommand> --help` for details.";
   ""].

Definition addHelp : string := join newline_text
  [bold "syrotp receiver add" ++ " — register a new receiver";
   "";
   cyan "usage";
   "  syrotp receiver add --app-id <app_*> --name <s> --msisdn <e164> [--operator <s>] [--simulate-heartbeat]";
   "";
   "The signing key is shown " ++ bold "exactly once" ++ ". Save it now.";
   ""].

Definition listHelp : string := join newline_text
  [bold "syrotp receiver list" ++ " — list receivers";
   "";
   cyan "usage";
   "  syrotp receiver list [--app-id <app_*>] [--json]";
   "";
   "Default output is a table; --json emits a stable JSON array for scripts.";
   ""].

Definition disableHelp : string := join newline_text
  [bold "syrotp receiver disable" ++ " — disable a receiver";
   "";
   cyan "usage";
   "  syrotp receiver disable <rcv_*>";
   "  syrotp receiver disable --id <rcv_*>";
   "";
   "Idempotent: a second disable on the same receiver exits 0 with a note.";
   ""].

Definition enableHelp : string := join newline_text
  [bold "syrotp receiver enable" ++ " — re-enable a receiver";
   "";
   cyan "usage";
   "  syrotp receiver enable <rcv_*>";
   "  syrotp receiver enable --id <rcv_*>";
   "";
   "Idempotent: enabling an already-enabled receiver exits 0 with a note.";
   "";
   cyan "notes";
   "  Only the " ++ bold "enabled" ++ " flag flips. A receiver whose";
   "  " ++ bold "last_heartbeat_at" ++ " is stale stays excluded from selection";
   "  until the gateway sends a fresh heartbeat — there is no";
   "  " ++ String quote "" ++ "force healthy" ++ String quote "" ++ " mode by design.";
   ""].

Definition testHelp : string := join newline_text
  [bold "syrotp receiver test" ++ " — verify a gateway pairing";
   "";
   cyan "usage";
   "  syrotp receiver test <rcv_*> --signing-key <hex> --base-url <http(s)://...>";
   "";
   "Sends an HMAC-signed probe inbound to /v1/inbound/sms. Expects 202 +";
   "matched=false (the probe code is random, so it won't match anything).";
   "";
   "The signing key can be supplied via --signing-key or SYROTP_GATEWAY_KEY env.";
   "The base URL can be supplied via --base-url or SYROTP_BASE_URL env.";
   ""].

Definition smokeHelp : string := join newline_text
  [bold "syrotp smoke" ++ " — run the end-to-end smoke test against a live server";
   "";
   cyan "usage";
   "  syrotp smoke";
   "";
   cyan "env (all required)";
   "  SYROTP_BASE_URL          e.g. http://localhost:3000";
   "  SYROTP_PUBLIC_KEY        pk_live_*";
   "  SYROTP_SECRET_KEY        sk_live_*";
   "  SYROTP_RECEIVER_ID       rcv_*";
   "  SYROTP_GATEWAY_KEY       64-hex signing key";
   "  SYROTP_PHONE             phone to verify (E.164 or local)";
   "";
   cyan "what it does";
   "  Wraps `pnpm smoke` (i.e. `node scripts/smoke.mjs`). The CLI checks";
   "  required env, probes /v1/health, then spawns the script. The script's";
   "  output goes straight to your terminal; the CLI just maps its exit code:";
   "";
   "    script 0 → ok                 (CLI 0)";
   "    script 1 → assertion failed   (CLI 1, RUNTIME)";
   "    script 2 → missing env        (CLI 3, MISSING_CONFIG — defensive)";
   "    script 3 → server not healthy (CLI 5, UNREACHABLE — defensive)";
   "";
   dim "Run from the repo root — scripts/smoke.mjs is repo-relative.";
   ""].

Definition loadtestHelp : string := join newline_text
  [bold "syrotp loadtest" ++ " — run the load and reliability suite";
   "";
   cyan "usage";
   "  syrotp loadtest <subcommand> [options]";
   "";
   cyan "subcommands";
   "  quick                 fast CI gate: scenario-a (50 workers) + replay-storm";
   "  release-baseline      full 5-step suite: scenario-a, scenario-b, replay-storm,";
   "                        wrong-code-storm, receiver-disabled";
   "";
   cyan "options (release-baseline only)";
   "  --continue-on-fail    keep running remaining steps after a failure";
   "  --csv                 also emit ops.csv per step";
   "";
   dim "Run `syrotp loadtest <subcommand> --help` for details.";
   ""].

Definition quickHelp : string := join newline_text
  [bold "syrotp loadtest quick" ++ " — fast CI gate";
   "";
   cyan "usage";
   "  syrotp loadtest quick";
   "";
   "Wraps `pnpm loadtest:quick` — runs scenario-a (50 workers) and replay-storm";
   "sequentially via pnpm's && link. Total time on a developer machine: a few";
   "seconds.";
   "";
   cyan "env";
   "  SYROTP_BASE_URL              required (server target)";
   "  DATABASE_URL + MASTER_ENCRYPTION_KEY   for auto-prep mode";
   "  SYROTP_PUBLIC_KEY etc.       for BYO mode (see tools/loadtest/README.md)";
   "";
   cyan "exit codes";
   "  0  ok";
   "  1  acceptance failed";
   "  3  missing env";
   "  5  server unreachable";
   ""].

Definition releaseBaselineHelp : string := join newline_text
  [bold "syrotp loadtest release-baseline" ++ " — the v0.x release gate";
   "";
   cyan "usage";
   "  syrotp loadtest release-baseline [--continue-on-fail] [--csv]";
   "";
   "Wraps `pnpm --filter @syrotp/loadtest start suite release-baseline` — runs";
   "the five-step suite that backs the published baseline numbers.";
   "";
   cyan "options";
   "  --continue-on-fail    don't stop on the first failed step (useful for triage)";
   "  --csv                 emit ops.csv per step alongside report.json";
   "";
   cyan "output";
   "  Reports land at tools/loadtest/reports/<timestamp>-release-baseline/";
   "  with aggregate.json + summary.md plus per-step subdirectories.";
   "";
   cyan "exit codes";
   "  0  every step passed AND every hard-safety counter zero";
   "  1  acceptance failed somewhere";
   "  3  missing env";
   "  5  server unreachable";
   ""].

(** The page a command shows. *)
Definition page_text (name : string) : string :=
  match List.find (fun p => String.eqb (fst p) name)
          [("doctor", DOCTOR); ("bootstrap", bootstrapHelp); ("receiver", receiverHelp); ("receiver add", addHelp); ("receiver list", listHelp);
           ("receiver disable", disableHelp); ("receiver enable", enableHelp); ("receiver test", testHelp); ("smoke", smokeHelp);
           ("loadtest", loadtestHelp); ("loadtest quick", quickHelp); ("loadtest release-baseline", releaseBaselineHelp)] with
  | Some p => snd p
  | None => TOP_LEVEL
  end.

(** ** Tables *)

(** [s.replace(/\x1b\[[0-9;]*m/g, "")]; [pending] is what a match may still take back. *)
Fixpoint strip_from (pending : string) (s : string) : string :=
  match s with
  | EmptyString => pending
  | String ch s' =>
      if String.eqb pending "" then if Ascii.eqb ch (ascii_of_nat 27) then strip_from ESC s' else String ch (strip_from "" s')
      else if Ascii.eqb ch (ascii_of_nat 27) then pending ++ strip_from ESC s'
      else if String.eqb pending ESC then
        if Ascii.eqb ch "["%char then strip_from (ESC ++ "[") s' else pending ++ String ch (strip_from "" s')
      else if is_digit ch || Ascii.eqb ch ";"%char then strip_from (pending ++ String ch "") s'
      else if Ascii.eqb ch "m"%char then strip_from "" s'
      else pending ++ String ch (strip_from "" s')
  end.

Definition stripAnsi (s : string) : string := strip_from "" s.

Definition width (s : string) : nat := slen (stripAnsi s).

(** The widths of the columns; a row has a cell for every header. *)
Fixpoint column_widths (headers : list string) (rows : list (list string)) : list nat :=
  match headers with
  | [] => []
  | h :: hs => Nat.max (slen h) (list_max (map (fun row => width (hd "" row)) rows)) :: column_widths hs (map (@tl string) rows)
  end.

Definition pad (s : string) (w : nat) : string := s ++ repeat_char " "%char (w - width s).

Fixpoint repeat_text (n : nat) (s : string) : string := match n with O => "" | S n => s ++ repeat_text n s end.

Definition table_lines (headers : list string) (rows : list (list string)) : list string :=
  let widths := column_widths headers rows in
  join "  " (zip_with (fun h w => bold (pad h w)) headers widths) :: join "  " (map (fun w => repeat_text w "─") widths)
  :: map (fun row => join "  " (zip_with pad row widths)) rows.

(** ** The report of the doctor *)

Definition marker (s : CheckStatus) : string := match s with pass => PASS | fail => FAIL | skip => SKIP end.

Definition check_lines (longestTitle : nat) (r : CheckResult) : list string :=
  List.app ["  " ++ marker (cr_status r) ++ " " ++ pad_end longestTitle (cr_title r)
    ++ match cr_detail r with Some d => if nonempty d then "  " ++ c useColor "gray" d else "" | None => "" end]
  (match cr_status r, cr_hint r with fail, Some h => if nonempty h then ["     " ++ dim "hint:" ++ " " ++ h] else [] | _, _ => [] end).

Definition printGroup (title : string) (results : list CheckResult) : list string :=
  "" :: cyan title :: flat_map (check_lines (list_max (map (fun r => units (cr_title r)) results))) results.

Definition count_of (s : CheckStatus) (all : list CheckResult) : string :=
  num_to_string (Z.of_nat (List.length (List.filter (fun r => status_eqb (cr_status r) s) all))).

Definition report_lines (all : list CheckResult) : list string :=
  let failed := count_of fail all in
  let tail := dim ("(" ++ count_of pass all ++ " ok, " ++ count_of skip all ++ " skipped)") in
  List.concat [printGroup "Environment" (take 4 all); printGroup "Configuration" (take 4 (drop 4 all)); printGroup "Reachability" (drop 8 all); [""];
    [if String.eqb failed "0" then PASS ++ " " ++ bold "all checks passed" ++ " " ++ tail
     else FAIL ++ " " ++ bold (failed ++ " check" ++ (if String.eqb failed "1" then "" else "s") ++ " failed") ++ " " ++ tail]].

(** ** Standard output and standard error *)

(** Lines, each ended by a line feed. *)
Definition ended (ls : list string) : string := fold_right (fun l rest => (l ++ newline_text) ++ rest) "" ls.

Definition output_text (o : Output) : string :=
  match o with
  | Text s => s
  | Page name => page_text name
  | JsonText j => stringify_indented "" j ++ newline_text
  | Table headers rows => ended (table_lines headers rows)
  | Report all => ended (report_lines all)
  end.

Definition reportError (e : CliError) : string :=
  ended (List.concat [[c useColor "red" "error" ++ " " ++ ce_message e];
    match ce_hint e with Some h => if nonempty h then ["  " ++ dim "hint:" ++ " " ++ h] else [] | None => [] end;
    ["  " ++ dim "exit:" ++ " " ++ num_to_string (exit_value (ce_code e)) ++ " (" ++ nameOf (ce_code e) ++ ")"]]).

(** [stack] is the stack of an error, where it has one. *)
Definition reportUnexpected (DEBUG : option string) (message : string) (stack : option string) : string :=
  ended [c useColor "red" "error" ++ " unexpected: " ++ message;
         match stack with
         | Some s => if nonempty (default "" DEBUG) && nonempty s then dim s else "  " ++ dim "hint:" ++ " re-run with DEBUG=1 for stack trace"
         | None => "  " ++ dim "hint:" ++ " re-run with DEBUG=1 for stack trace"
         end].

Record ProcessEnd : Type := { pe_stdout : string; pe_stderr : string; pe_code : Z }.

(** The entry point of index.ts: what a run of [main] leaves, on a process that had printed
    nothing. *)
Definition syrotp (DEBUG : option string) (message : string) (stack : option string) (run : outcome Failure ExitCode * CliState) : ProcessEnd :=
  {| pe_stdout := String.concat "" (map output_text (cs_out (snd run)));
     pe_stderr := match fst run with
                  | Return _ => ""
                  | Throw (Failed e) => reportError e
                  | Throw Unexpected => reportUnexpected DEBUG message stack
                  end;
     pe_code := exit_value (process_exit (fst run)) |}.
End Colour.

(** [useColor] of [render.ts] *)
Definition use_color (env : gmap string string) (isTTY : bool) : bool :=
  negb (env_set env "NO_COLOR") && isTTY && negb (String.eqb (default "" (env !! "TERM")) "dumb").

(** ** [spawn.ts] *)

Record SpawnRequest : Type := { sq_cmd : string; sq_args : list string; sq_cwd : option string; sq_env : gmap string string }.

(** What the operating system is asked to start. *)
Record Child : Type := { ch_cmd : string; ch_args : list string; ch_cwd : string; ch_env : gmap string string; ch_shell : bool }.

(** How it ended: it could not be started, it exited, it was killed. *)
Inductive ChildEnd : Type := SpawnError | ExitedWith (code : Z) | Killed (signal : string) | NoCode.

Definition isPnpm (cmd : string) : bool := String.eqb cmd "pnpm" || endsWith cmd "/pnpm" || endsWith cmd "\pnpm".

Definition child_of (env : gmap string string) (cwd platform : string) (q : SpawnRequest) : Child :=
  {| ch_cmd := sq_cmd q; ch_args := sq_args q;
     ch_cwd := match sq_cwd q with Some d => d | None => default cwd (env !! "INIT_CWD") end;
     ch_env := sq_env q ∪ env; ch_shell := String.eqb platform "win32" && isPnpm (sq_cmd q) |}.

Definition spawn_code (e : ChildEnd) : Z := match e with ExitedWith code => code | SpawnError | Killed _ | NoCode => 1 end.

Definition realSpawner (env : gmap string string) (cwd platform : string) (os : Child -> ChildEnd) (cmd : string) (args : list string) : Z :=
  spawn_code (os (child_of env cwd platform {| sq_cmd := cmd; sq_args := args; sq_cwd := None; sq_env := ∅ |})).

(** ** [version.ts] *)

(** [readFile] of a candidate gives its text or fails; a text [json_parse] has no result
    for counts as one that does not parse. *)
Definition package_version (file : option string) : option string :=
  match file with
  | None => None
  | Some raw =>
      match json_parse raw with
      | Done j _ =>
          match jfield "name" j, jfield "version" j with
          | Some (JStr "@syrotp/cli"), Some (JStr v) => Some v
          | _, _ => None
          end
      | _ => None
      end
  end.

(** The paths are those of the two candidates, joined as they are. *)
Definition readVersion (here : string) (readFile : string -> option string) : string :=
  match package_version (readFile (here ++ "/../package.json")) with
  | Some v => v
  | None => default "0.0.0-unknown" (package_version (readFile (here ++ "/../../package.json")))
  end.

(** ** Colours do not count *)

Definition no_escape (s : string) : Prop := all_chars (fun ch => negb (Ascii.eqb ch (ascii_of_nat 27))) s = true.

Lemma strip_plain s t : no_escape s -> strip_from "" (s ++ t) = s ++ strip_from "" t.
Proof.
  unfold no_escape. induction s as [|ch s IH]; [done|]. cbn [all_chars append strip_from]. rewrite andb_true_iff, negb_true_iff. intros [-> Hs].
  change (String.eqb "" "") with true. cbn iota. by rewrite IH.
Qed.

Lemma strip_space p s t : strip_from p (s ++ String " " t) = strip_from p s ++ String " " (strip_from "" t).
Proof.
  revert p. induction s as [|ch s IH]; intros p; cbn [append strip_from].
  - destruct (String.eqb_spec p "") as [->|]; [done|]. change (Ascii.eqb " " (ascii_of_nat 27)) with false. cbn iota.
    destruct (String.eqb p ESC).
    + change (Ascii.eqb " " "[") with false. done.
    + change (is_digit " " || Ascii.eqb " " ";") with false. done.
  - repeat case_match; rewrite IH; try done.
    all: by rewrite <- ?string_app_assoc.
Qed.

Lemma strip_spaces n : strip_from "" (repeat_char " "%char n) = repeat_char " "%char n.
Proof. induction n as [|n IH]; [done|]. cbn [repeat_char]. by rewrite <- IH at 2. Qed.

Lemma strip_pad s n : stripAnsi (s ++ repeat_char " "%char n) = stripAnsi s ++ repeat_char " "%char n.
Proof. destruct n as [|n]; [by rewrite !string_app_nil|]. cbn [repeat_char]. unfold stripAnsi. by rewrite strip_space, strip_spaces. Qed.

(** Without its escapes a coloured text is the text. *)
Lemma strip_coloured useColor color s : no_escape s -> stripAnsi (c useColor color s) = s.
Proof.
  intros Hs. unfold c. destruct useColor.
  - assert (Ha : forall t, strip_from "" (ansi color ++ t) = strip_from "" t) by (intros t; unfold ansi; repeat case_match; reflexivity).
    unfold stripAnsi. rewrite Ha, strip_plain by done. change (strip_from "" (ESC ++ "[0m")) with "". apply string_app_nil.
  - unfold stripAnsi. rewrite <- (string_app_nil s) at 1. rewrite strip_plain by done. apply string_app_nil.
Qed.

Lemma strip_join l : stripAnsi (join "  " l) = join "  " (map stripAnsi l).
Proof.
  induction l as [|s l IH]; [done|]. destruct l as [|s' l]; [done|].
  change (join "  " (s :: s' :: l)) with (s ++ String " " (String " " (join "  " (s' :: l)))). unfold stripAnsi at 1. rewrite strip_space.
  change (strip_from "" (String " " ?t)) with (String " " (strip_from "" t)). fold (stripAnsi (join "  " (s' :: l))). by rewrite IH.
Qed.

(** Colours do not change a help page. *)
Lemma pages_without_colour :
  Forall (fun name => stripAnsi (page_text true name) = page_text false name)
    ["help"; "doctor"; "bootstrap"; "receiver"; "receiver add"; "receiver list"; "receiver disable"; "receiver enable"; "receiver test";
     "smoke"; "loadtest"; "loadtest quick"; "loadtest release-baseline"].
Proof. repeat constructor; vm_compute; reflexivity. Qed.

(** ** The table is aligned *)

Lemma widths_cover headers rows :
  Forall (fun row => List.length row = List.length headers) rows ->
  Forall2 (fun h w => (slen h <= w)%nat) headers (column_widths headers rows) /\
  Forall (fun row => Forall2 (fun s w => (width s <= w)%nat) row (column_widths headers rows)) rows.
Proof.
  revert rows. induction headers as [|h hs IH]; intros rows Hrows; cbn [column_widths].
  - split; [constructor|]. eapply Forall_impl; [exact Hrows|]. intros [|s row]; [constructor|done].
  - destruct (IH (map (@tl string) rows)) as [H1 H2].
    { apply Forall_fmap. eapply Forall_impl; [exact Hrows|]. intros [|s row]; [done|]. cbn. lia. }
    split; [by constructor; [lia|]|]. rewrite Forall_forall in *. intros row Hin. specialize (Hrows row Hin).
    destruct row as [|s row]; [done|]. constructor.
    + assert (Hm : (width s <= list_max (map (fun row => width (hd "" row)) rows))%nat); [|lia].
      assert (Hl := list_max_le (map (fun row => width (hd "" row)) rows) (list_max (map (fun row => width (hd "" row)) rows))).
      destruct Hl as [Hl _]. specialize (Hl (le_n _)). rewrite List.Forall_forall in Hl. apply (Hl (width s)).
      apply in_map_iff. exists (s :: row). split; [done|]. by apply list_elem_of_In.
    + apply (H2 row). apply list_elem_of_fmap. by exists (s :: row).
Qed.

Definition padded (s : string) (w : nat) : string := stripAnsi s ++ repeat_char " "%char (w - width s).

Lemma padded_widths row widths : Forall2 (fun s w => (width s <= w)%nat) row widths -> map slen (zip_with padded row widths) = widths.
Proof.
  induction 1 as [|s w row widths Hw _ IH]; [done|]. cbn. rewrite IH. f_equal. unfold padded. rewrite slen_app, slen_repeat. unfold width in *. lia.
Qed.

Lemma strip_cells row widths : map stripAnsi (zip_with pad row widths) = zip_with padded row widths.
Proof. revert widths. induction row as [|s row IH]; intros [|w widths]; [done..|]. cbn. rewrite IH. f_equal. apply strip_pad. Qed.

Lemma header_cells useColor headers widths :
  Forall2 (fun h w => (slen h <= w)%nat) headers widths -> Forall no_escape headers ->
  map slen (map stripAnsi (zip_with (fun h w => bold useColor (pad h w)) headers widths)) = widths.
Proof.
  induction 1 as [|h w hs ws Hw _ IH]; [done|]. intros Hn. apply Forall_cons in Hn. destruct Hn as [Hx Hn]. cbn. rewrite IH by exact Hn. f_equal.
  assert (Hp : no_escape (pad h w)).
  { unfold no_escape, pad. rewrite all_chars_app. apply andb_true_iff. split; [exact Hx|]. generalize (w - width h)%nat. intros n. by induction n. }
  unfold bold. rewrite strip_coloured by exact Hp. unfold pad. rewrite slen_app, slen_repeat. unfold width, stripAnsi.
  rewrite <- (string_app_nil h) at 2. rewrite strip_plain, slen_app by exact Hx. cbn. lia.
Qed.

(** The list of receivers is a table: whatever the names, colours and operators hold,
    every printed row, its escape sequences aside, is the cells of the receiver joined
    by two blanks, each padded to the width of its column; the header has the same
    columns and the rule under it is as wide as they are. *)
Theorem receiver_table_aligned useColor rows :
  rows <> [] ->
  exists headers widths,
    renderTable useColor rows = Table headers (map (table_row useColor) rows) /\ List.length widths = 6%nat /\
    (exists cells, stripAnsi (hd "" (table_lines useColor headers (map (table_row useColor) rows))) = join "  " cells /\ map slen cells = widths) /\
    table_lines useColor headers (map (table_row useColor) rows) !! 1%nat = Some (join "  " (map (fun w => repeat_text w "─") widths)) /\
    Forall2 (fun r line => stripAnsi line = join "  " (zip_with padded (table_row useColor r) widths) /\
                           map slen (zip_with padded (table_row useColor r) widths) = widths)
      rows (drop 2 (table_lines useColor headers (map (table_row useColor) rows))).
Proof.
  intros Hne. set (headers := ["ID"; "MSISDN"; "NAME"; "OPERATOR"; "STATE"; "HEARTBEAT"]). set (data := map (table_row useColor) rows).
  exists headers, (column_widths headers data). split; [by destruct rows|]. split; [done|].
  destruct (widths_cover headers data) as [Hh Hrows].
  { unfold data. apply Forall_fmap, Forall_true. done. }
  split; [|split; [done|]].
  - cbn [table_lines hd]. eexists. rewrite strip_join. split; [reflexivity|].
    apply header_cells; [exact Hh|repeat constructor].
  - assert (Hr : forall r, In r rows -> Forall2 (fun s w => (width s <= w)%nat) (table_row useColor r) (column_widths headers data)).
    { intros r Hin. rewrite Forall_forall in Hrows. apply Hrows. apply list_elem_of_In, in_map, Hin. }
    unfold table_lines. generalize dependent (column_widths headers data). intros widths _ _ Hr. subst data.
    change (drop 2 (?a :: ?b :: ?l)) with l. clear Hne. induction rows as [|r rows IH]; constructor.
    + split; [|by apply padded_widths, Hr; left]. rewrite strip_join. f_equal. apply strip_cells.
    + apply IH. intros r' Hr'. apply Hr. by right.
Qed.

(** ** The process *)

Lemma ended_app l l' : ended (List.app l l') = ended l ++ ended l'.
Proof. unfold ended. induction l as [|x l IH]; [done|]. cbn. rewrite IH. apply string_app_assoc. Qed.

Lemma ended_concat a b d : ended (List.concat [a; b; d]) = (ended a ++ ended b) ++ ended d.
Proof. change (List.concat [a; b; d]) with (List.app a (List.app b (List.app d []))). by rewrite app_nil_r, !ended_app, string_app_assoc. Qed.

Lemma ended_not_empty x l : ended (x :: l) <> "".
Proof. cbn. by destruct x. Qed.

(** The exit line of an error names the code the process exits with, and nothing is on
    standard error unless the command failed. *)
Lemma exit_line_true useColor DEBUG message stack run :
  (pe_stderr (syrotp useColor DEBUG message stack run) = "" <-> exists code, fst run = Return code) /\
  forall e, fst run = Throw (Failed e) ->
    exists before, pe_stderr (syrotp useColor DEBUG message stack run)
      = before ++ ended ["  " ++ dim useColor "exit:" ++ " " ++ num_to_string (pe_code (syrotp useColor DEBUG message stack run))
                         ++ " (" ++ nameOf (process_exit (fst run)) ++ ")"].
Proof.
  destruct run as [[code|[e|]] s]; cbn [fst syrotp pe_stderr pe_code process_exit].
  - split; [split; [by exists code|done]|done].
  - split; [split; [|by intros (? & ?)]|].
    + unfold reportError. cbn [List.concat List.app]. intros E. by apply ended_not_empty in E.
    + intros e' [= <-]. unfold reportError. rewrite ended_concat. by eexists.
  - split; [split; [|by intros (? & ?)]|done]. unfold reportUnexpected. intros E. by apply ended_not_empty in E.
Qed.

(** ** Programs that are started *)

(** What runs when a command starts [smoke.mjs]: node in INIT_CWD, where that is set, and
    not in the directory of the process; killed or not started, the run has failed. *)
Lemma smoke_child env cwd platform os execPath useColor probe_health s e :
  os (child_of env cwd platform {| sq_cmd := execPath; sq_args := ["scripts/smoke.mjs"]; sq_cwd := None; sq_env := ∅ |}) = e ->
  (forall k, In k REQUIRED_ENV -> env_set env k = true) ->
  (exists d version, probe_health (default "" (env !! "SYROTP_BASE_URL")) = Healthy d version) ->
  (e = SpawnError \/ exists signal, e = Killed signal) ->
  exists s', runSmoke env useColor probe_health (realSpawner env cwd platform os) execPath [] s
    = (Throw (Failed (runtime "smoke script exited 1" None)), s') /\ cs_world s' = cs_world s.
Proof.
  intros Hos Henv (d & version & Hp) He. assert (Hcode : realSpawner env cwd platform os execPath ["scripts/smoke.mjs"] = 1%Z).
  { unfold realSpawner. rewrite Hos. by destruct He as [->|[signal ->]]. }
  assert (Hm : List.filter (fun k => negb (env_set env k)) REQUIRED_ENV = []).
  { induction REQUIRED_ENV as [|k l IH]; [done|]. cbn [List.filter]. rewrite Henv by (by left). cbn [negb]. apply IH. intros k' Hk. apply Henv. by right. }
  unfold runSmoke, with_flags. cbn [parseFlags]. change (parseFlags [] [help_flag]) with {| fp_values := ∅; fp_positionals := []; fp_unknown := None |}.
  cbn [fp_unknown fp_values fp_positionals]. rewrite lookup_empty. cbn [is_set]. rewrite Hm, Hp. cbn [List.length Nat.ltb Nat.leb].
  unfold bind, write, modify, fail_with, throw. rewrite Hcode. eexists. split; [reflexivity|done].
Qed.

Lemma child_cwd env cwd platform cmd args dir :
  env !! "INIT_CWD" = Some dir -> ch_cwd (child_of env cwd platform {| sq_cmd := cmd; sq_args := args; sq_cwd := None; sq_env := ∅ |}) = dir.
Proof. intros E. cbn. by rewrite E. Qed.

(** The version of a manifest that was written with [JSON.stringify] is read back. *)
Lemma readVersion_reads here readFile v rest :
  readFile (here ++ "/../package.json") = Some (stringify (JObj (("name", JStr "@syrotp/cli") :: ("version", JStr v) :: rest))) ->
  exact (JObj (("name", JStr "@syrotp/cli") :: ("version", JStr v) :: rest)) = true -> readVersion here readFile = v.
Proof. intros Hf He. unfold readVersion, package_version. by rewrite Hf, parse_stringify. Qed.

(** Only the doctor reads the .env file: the bootstrap refuses to run when DATABASE_URL is
    not in the shell, with a hint that offers .env. *)
Lemma env_file_not_loaded `{ErrorText} `{PhoneLib} `{Gcm} `{Digest} `{Limit1} cfg env target file d s :
  env !! "DATABASE_URL" = None -> lc_env (loadConfig env target (Some file)) !! "DATABASE_URL" = Some "postgres://db/otp" ->
  runBootstrap cfg env false d ["--app-name"; "Shop"; "--msisdn"; "+963991234567"] s
  = (Throw (Failed (missingConfig "DATABASE_URL is not set" (Some "bootstrap writes directly to Postgres — set DATABASE_URL in .env or your shell"))), s).
Proof.
  intros He _. unfold runBootstrap, with_flags. set (flags := parseFlags _ _).
  assert (Ef : flags = {| fp_values := <["msisdn" := FStr "+963991234567"]> (<["app-name" := FStr "Shop"]> ∅); fp_positionals := []; fp_unknown := None |})
    by reflexivity.
  rewrite Ef. cbn [fp_values fp_unknown]. simpl_map. cbn [is_set strOrNull]. unfold requireDbEnv, env_set at 1. rewrite He. reflexivity.
Qed.

(** ** Witness *)

Definition shown_receiver : ReceiverRecord :=
  {| rec_id := "rcv_1"; rec_appId := "app_1"; rec_appName := "Shop"; rec_name := "main"; rec_operator := Some "mtn"; rec_msisdn := "+963991234567";
     rec_enabled := true; rec_lastHeartbeatAt := Some 1000%Z; rec_lastHeartbeatAgoSeconds := Some 75%Z; rec_healthy := true; rec_createdAt := 0 |}.

Example table_of_one :
  match renderTable false [shown_receiver] with
  | Table headers rows => table_lines false headers rows !! 2%nat
      = Some "rcv_1  +963991234567  main  mtn       healthy  1m ago   "
  | _ => False
  end.
Proof. vm_compute. reflexivity. Qed.

Lemma receiver_table_aligned_witness :
  exists headers widths, renderTable true [shown_receiver] = Table headers (map (table_row true) [shown_receiver]) /\ List.length widths = 6%nat /\
    exists cells, stripAnsi (hd "" (table_lines true headers (map (table_row true) [shown_receiver]))) = join "  " cells /\ map slen cells = widths.
Proof.
  destruct (receiver_table_aligned true [shown_receiver]) as (headers & widths & E & Hl & Hh & _); [discriminate|].
  exists headers, widths. split; [exact E|]. by split.
Defined.
