(* ===== verification/OwnRows.v ===== *)
(** * What a read of an app depends on

    The companion of [Isolation]: the reading routes answer from the rows of the app of
    their key.  Two servers that agree on the keys, the apps, Redis and the rows of one
    app answer a read of that app alike, whatever the rows of other apps are. *)

From S2P Require Import Prelude JsString Json Errors Phone Crypto Ssrf Aead Config Schema Webhooks PhoneBindings Verifications RateLimit Server Auth WebAuthn Routes Isolation.
From Stdlib Require Import String Ascii.

Open Scope string_scope.
Open Scope js_scope.

(** ** Runs that look alike *)

(** Started in related states, [m] returns or throws the same and ends in related states. *)
Definition alike {W A} (I : W -> W -> Prop) (m : M exn W A) : Prop :=
  forall w w', I w w' -> fst (m w) = fst (m w') /\ I (snd (m w)) (snd (m w')).

Section Alike.
Context {W : Type} (I : W -> W -> Prop).

Lemma alike_ret {A} (a : A) : alike I (ret a).
Proof. done. Qed.

Lemma alike_throw {A} (e : exn) : alike (A := A) I (throw e).
Proof. done. Qed.

Lemma alike_throw_if b (e : exn) : alike I (throw_if b e).
Proof. by destruct b. Qed.

Lemma alike_bind {A B} (m : M exn W A) (k : A -> M exn W B) : alike I m -> (forall a, alike I (k a)) -> alike I (bind m k).
Proof.
  intros Hm Hk w w' Hw. destruct (Hm w w' Hw) as [E Hi]. unfold bind. destruct (m w) as [o w1], (m w') as [o' w1']. cbn in E, Hi. subst o'.
  destruct o as [a|e]; [by apply Hk|done].
Qed.
End Alike.

(** ** Servers that agree on an app *)

Definition own {A} (app : A -> string) (appId : string) (t : list A) : list A := select (fun r => String.eqb (app r) appId) t.

(** The rows of [appId] that a read can reach. *)
Record same_own (appId : string) (D D' : DB) : Prop := {
  sn_verifications : own v_appId appId (verifications D') = own v_appId appId (verifications D);
  sn_endpoints : own we_appId appId (webhookEndpoints D') = own we_appId appId (webhookEndpoints D);
  sn_bindings : own b_appId appId (phoneBindings D') = own b_appId appId (phoneBindings D);
}.

Lemma select_own {A} (app : A -> string) appId (p : A -> bool) t t' :
  (forall r, p r = true -> app r = appId) -> own app appId t' = own app appId t -> select p t' = select p t.
Proof.
  intros Hp E. assert (Hs : forall t, select p t = select p (own app appId t)).
  { intros u. unfold own, select. induction u as [|r u IH]; [done|]. cbn [List.filter]. destruct (p r) eqn:Er.
    - rewrite (Hp r Er), String.eqb_refl. cbn [List.filter]. by rewrite Er, IH.
    - destruct (String.eqb (app r) appId); cbn [List.filter]; [by rewrite Er|done]. }
  by rewrite (Hs t'), (Hs t), E.
Qed.

Definition related_worlds (P : DB -> DB -> Prop) (w w' : World) : Prop :=
  apps (db w') = apps (db w) /\ apiKeys (db w') = apiKeys (db w) /\ P (db w) (db w').

Definition related {R} (P : DB -> DB -> Prop) (s s' : Server R) : Prop := sr s' = sr s /\ related_worlds P (sw s) (sw s').

Section Statements.
Context {R : Type} (P : DB -> DB -> Prop).

Lemma alike_on_world {A} (m : SM A) : alike (related_worlds P) m -> alike (related (R := R) P) (on_world m).
Proof.
  intros Hm [w r ts] [w' r' ts'] [Er Hw]. cbn in Er, Hw. subst r'. destruct (Hm w w' Hw) as [E Hi]. unfold on_world. cbn [sw sr touches].
  destruct (m w) as [o w1], (m w') as [o' w1']. cbn in E, Hi. by subst o'.
Qed.

Lemma alike_on_redis {A} (f : R -> A * R) : alike (related P) (on_redis f).
Proof. intros [w r ts] [w' r' ts'] [Er Hw]. cbn in Er, Hw. subst r'. unfold on_redis. cbn [sw sr touches]. by destruct (f r). Qed.

Lemma alike_count m : alike (related_worlds P) (count m).
Proof. done. Qed.

Lemma alike_spawn id : alike (related_worlds P) (Schema.spawn id).
Proof. done. Qed.

(** A query whose result the relation fixes. *)
Lemma alike_gets {A} (f : World -> A) :
  (forall w w', related_worlds P w w' -> f w = f w') -> alike (related_worlds P) (gets f).
Proof. intros Hf w w' Hw. split; [|done]. cbn. by rewrite (Hf w w' Hw). Qed.

Lemma alike_rate_guard `{Redis R} key limit t1 t2 bucket : alike (related (R := R) P) (rate_guard key limit t1 t2 bucket).
Proof.
  unfold rate_guard. apply alike_bind; [apply alike_on_redis|]. intros rl. destruct (negb _); [|done].
  apply alike_bind; [by apply alike_on_world, alike_count|done].
Qed.

Lemma alike_requireKey `{Digest} `{Limit1} cfg req kinds : alike (related (R := R) P) (requireKey cfg req kinds).
Proof.
  unfold requireKey. destruct (extractBearer req) as [tok|].
  2: { apply alike_bind; [by apply alike_on_world, alike_count|done]. }
  apply alike_bind.
  - unfold lookupApiKey. destruct (_ || _); [done|]. destruct (lastIndexOf _ _) as [i|]; [|done]. destruct (PREFIX_TO_KIND _) as [kind|]; [|done].
    apply alike_bind.
    + intros [w r ts] [w' r' ts'] [Er (Ea & Ek & HP)]. cbn in *. split; [|by split]. unfold keys_with_app. by rewrite Ea, Ek.
    + intros [[k a]|]; [|done]. destruct (bool_decide _); [done|]. destruct (app_disabled a); [done|]. destruct (negb _); [done|].
      apply alike_bind; [|done]. intros s s' [Er Hw]. by split.
  - intros [key|]; [destruct (negb _)|]; try done; (apply alike_bind; [by apply alike_on_world, alike_count|done]).
Qed.
End Statements.

(** ** The reading routes *)

Section Reads.
Context `{Digest} `{Gcm} `{Redis R} `{Limit1} `{Zod} `{PhoneLib} `{UrlParser} `{Resolver} `{WebAuthnLib}.
Context (cfg : Config) (env : ProcessEnv) (enabled : option string) (skip_locked : WebauthnChallenge -> bool) (d : Draws) (rd : Random) (req : Request).

Definition reading : list Route := [GetVerification; GetWebhooks; GetWebhook; GetBinding].

Definition agree (appId : string) : World -> World -> Prop := related_worlds (same_own appId).

Lemma alike_read appId {A} (f : DB -> A) :
  (forall D D', same_own appId D D' -> f D' = f D) -> alike (agree appId) (gets (fun w => f (db w))).
Proof. intros Hf. apply alike_gets. intros w w' (_ & _ & Hs). symmetry. by apply Hf. Qed.

Lemma alike_verification appId id :
  alike (agree appId) (select_one t_verifications (verification_is appId id)).
Proof.
  apply (alike_read appId (fun D => limit1 (select (verification_is appId id) (verifications D)))). intros D D' Hs. f_equal.
  apply (select_own v_appId appId); [|apply Hs]. intros v Hv. unfold verification_is in Hv. apply andb_true_iff in Hv. apply String.eqb_eq, Hv.
Qed.

Lemma alike_endpoint appId id : alike (agree appId) (select_one t_webhookEndpoints (endpoint_is appId id)).
Proof.
  apply (alike_read appId (fun D => limit1 (select (endpoint_is appId id) (webhookEndpoints D)))). intros D D' Hs. f_equal.
  apply (select_own we_appId appId); [|apply Hs]. intros e He. unfold endpoint_is in He. apply andb_true_iff in He. apply String.eqb_eq, He.
Qed.

Lemma alike_endpoints appId : alike (agree appId) (select_from t_webhookEndpoints (fun e => String.eqb (we_appId e) appId)).
Proof.
  apply (alike_read appId (fun D => select (fun e => String.eqb (we_appId e) appId) (webhookEndpoints D))). intros D D' Hs.
  apply (select_own we_appId appId); [|apply Hs]. intros e He. by apply String.eqb_eq.
Qed.

Lemma alike_binding appId id : alike (agree appId) (select_one t_phoneBindings (binding_is appId id)).
Proof.
  apply (alike_read appId (fun D => limit1 (select (binding_is appId id) (phoneBindings D)))). intros D D' Hs. f_equal.
  apply (select_own b_appId appId); [|apply Hs]. intros b Hb. unfold binding_is in Hb. apply andb_true_iff in Hb. apply String.eqb_eq, Hb.
Qed.

Ltac alike_step :=
  match goal with
  | |- alike _ (bind _ _) => apply alike_bind; [|intros ?]
  | |- alike _ (rate_guard _ _ _ _ _) => apply alike_rate_guard
  | |- alike _ (throw_if _ _) => apply alike_throw_if
  | |- alike _ (on_world _) => apply alike_on_world
  | |- alike _ (select_one t_verifications _) => apply alike_verification
  | |- alike _ (select_one t_webhookEndpoints _) => apply alike_endpoint
  | |- alike _ (select_from t_webhookEndpoints _) => apply alike_endpoints
  | |- alike _ (select_one t_phoneBindings _) => apply alike_binding
  | |- alike _ (match ?x with _ => _ end) => destruct x
  | |- alike _ _ => done
  end.

(** A reading handler checks the key and then looks at its app. *)
Lemma reads_own route :
  In route reading ->
  exists kinds k, handle cfg env enabled skip_locked d rd req route = bind (requireKey cfg req kinds) k /\
    forall auth, alike (related (R := R) (same_own (ak_appId auth))) (k auth).
Proof.
  intros [<-|[<-|[<-|[<-|[]]]]]; cbn [handle]; (eexists _, _; split; [reflexivity|]); intros auth; cbv beta zeta.
  - unfold getVerification, expire_if_due, lazyExpireAndEmit. repeat alike_step.
  - unfold webhookCrudRateLimit, listWebhookEndpoints. repeat alike_step.
  - unfold webhookCrudRateLimit, getWebhookEndpoint. repeat alike_step.
  - unfold PhoneBindings.getBinding. repeat alike_step.
Qed.

(** C32: A read answers from the rows of its own app: on two servers with the same apps, keys
    and Redis, whose verifications, endpoints and bindings of the app of the request's key
    are the same, each reading route gives the same reply or the same error, whatever
    the two databases hold of other apps. *)
Theorem reads_see_own_rows route (s s' : Server R) :
  In route reading -> sr s' = sr s -> apps (db (sw s')) = apps (db (sw s)) -> apiKeys (db (sw s')) = apiKeys (db (sw s)) ->
  (forall tok k, extractBearer req = Some tok -> live_key cfg tok (db (sw s)) k -> same_own (k_appId k) (db (sw s)) (db (sw s'))) ->
  fst (handle cfg env enabled skip_locked d rd req route s) = fst (handle cfg env enabled skip_locked d rd req route s').
Proof.
  intros Hroute Er Ea Ek Hown. destruct (reads_own route Hroute) as (kinds & k & -> & Hk).
  assert (Hrel : related (fun _ _ => True) s s') by done.
  destruct (alike_requireKey (fun _ _ => True) cfg req kinds s s' Hrel) as [Eo [Er1 _]].
  unfold bind. destruct (require_cases cfg req kinds s) as [(tok & key & s1 & Et & Hl & _ & E1 & D1)|(e & s1 & E1 & _)].
  - rewrite E1 in Eo, Er1. rewrite E1. destruct (require_cases cfg req kinds s') as [(tok' & key' & s1' & _ & _ & _ & E2 & D2)|(e' & s1' & E2 & _)].
    2: { rewrite E2 in Eo. done. }
    rewrite E2 in Eo, Er1. rewrite E2. cbn in Er1. assert (Eauth : authed key' = authed key) by (cbn in Eo; congruence). rewrite Eauth. apply (Hk (authed key)). split; [exact Er1|].
    split; [by rewrite D1, D2|]. split; [by rewrite D1, D2|]. rewrite D1, D2. exact (Hown tok key Et Hl).
  - rewrite E1 in Eo. rewrite E1. destruct (requireKey cfg req kinds s') as [o s1']. cbn in Eo. by subst o.
Qed.
End Reads.

(** ** Witness: the list of the endpoints of a fresh app, alone and in a crowd *)

Definition crowded : Server Store :=
  mkServer (set_db (set_rows t_webhookEndpoints [mkWebhookEndpoint "whk_9" "app_B" "https://b.example/hook" "secret" true ["verification.verified"] 0 0])
              (sw tenant_server)) ∅ [].

Definition list_request : Request :=
  {| rq_headers := [("authorization", "Bearer " ++ boot_keys)]; rq_ip := "10.0.0.1"; rq_id := "req"; rq_rawBody := None; rq_param_id := ""; rq_body := JNull |}.

Abbreviation list_run := (handle (H := plain_digest) (H0 := plain_gcm) (H3 := {| zod_issues _ _ := JNull; zod_datetime _ := None |})
    (H4 := plain_phones) (H5 := example_parser) (H6 := rebinding_resolver) (H7 := no_webauthn)
    default_config production None (fun _ => false) start_draws start_random list_request GetWebhooks).

Lemma reads_see_own_rows_witness :
  fst (list_run crowded) = Return (json_reply 200 (JObj [("data", JArr [])])) /\ fst (list_run tenant_server) = fst (list_run crowded).
Proof.
  split; [vm_compute; reflexivity|].
  apply (reads_see_own_rows (R := Store)); [cbn; auto|reflexivity..|].
  intros tok k _ (_ & _ & Hin & _). assert (Hk : k_appId k = "app_A").
  { assert (Hall : forallb (fun k => String.eqb (k_appId k) "app_A") (apiKeys (db (sw crowded))) = true) by (vm_compute; reflexivity).
    rewrite forallb_forall in Hall. by apply String.eqb_eq, Hall. }
  rewrite Hk. split; vm_compute; reflexivity.
Defined.
